(* ===== verification/_CoqProject ===== *)
-Q . S2P
Prelude.v
Defs.v
CString.v
IoAddr.v
MsgAddr.v
Crc.v
StunHeader.v
StunAttr.v
StunSpec.v
StunSearch.v
StunMsg.v
StunBuild.v
StunReply.v
HttpFrame.v
Crypto.v
Password.v
Integrity.v
IntegritySpec.v
Evp.v
OAuth.v
OAuthSpec.v
OAuthToken.v
Base64.v
KeyStore.v
AddrText.v
AddrTextSpec.v
Uri.v
Origin.v
UriSpec.v
OriginSpec.v
StunBuffer.v
System.v
Progress.v
Session.v
Samples.v
Transport.v
TransportSpec.v
Credentials.v
Sockets.v
Connect.v
Allocate.v
Bind.v
Client.v
StunClient.v
NatDiscovery.v
Scenario.v
Retransmit.v
Termination.v
Bounded.v
Steady.v
AllocateSpec.v
SessionSpec.v
Uclient.v
UclientSpec.v
StunClientSpec.v
SealSpec.v
BindSpec.v
AnswerSpec.v
NatDiscoverySpec.v
TcpRelay.v
Load.v
LoadStart.v
LoadTest.v
LoadScenario.v
LoadEnds.v
LoadSpec.v
LoadCount.v
LoadRun.v
TurnAttr.v
TurnAttrSpec.v
TurnMsg.v
TurnMsgSpec.v
SocketsSpec.v
ConfigFile.v
ConfigSpec.v
Partial.v
Redis.v
RedisSpec.v
Log.v
LogSpec.v
