(* ===== verification/Prelude.v ===== *)
(** * Verification of the STUN/TURN client library

    The repository builds [libnative-lib.so], a TURN client for Android derived from
    coturn.  This development models its own code under [src/app/src/main/cpp] - the
    message library, the client engine, the STUN client, the older programs beside
    them, the log, the connection to Redis - as functions of Rocq and proves what they
    do.  File names below are relative to that directory.

    ** The program's parts and the files that model them

    The message library: functions on a caller's buffer.
    - [client/ns_turn_msg_defs.h], [ns_turn_msg.h], [include/ns_turn/ns_turn_defs.h]:
      constants, predicates, enumerations - [Defs].
    - [client/ns_turn_ioaddr.c]: socket addresses, hashes, ranges and the static
      public/private map - [IoAddr]; their text form - [AddrText].
    - [client/ns_turn_msg_addr.c]: the address attribute - [MsgAddr].
    - [client/ns_turn_msg.c]: the CRC - [Crc]; headers, types, transaction ids, channel
      messages - [StunHeader]; attributes - [StunAttr]; whole requests and responses -
      [StunMsg]; stream framing and HTTP - [HttpFrame]; stored passwords and SASLprep -
      [Password]; message integrity - [Integrity]; OAuth keys and tokens - [OAuth].
    - [client++/TurnMsgLib.h]: the C++ classes over it - [TurnAttr], [TurnMsg].
    - [common/stun_buffer.c]: the wrappers with a buffer of their own - [StunBuffer].

    Utilities.
    - [common/apputils.c]: base64 - [Base64]; stored OAuth records - [KeyStore]; sockets,
      MTU, limits - [Sockets]; the search for a configuration file - [ConfigFile].
    - [common/ns_turn_utils.c]: mutexes and the log - [Log]; origins and string checks -
      [Origin], over the URI parser of [event/http.c] - [Uri].
    - [common/hiredis_libevent2.c]: the connection to Redis - [Redis].

    The clients.
    - [p2p/session.h]: sessions, connections - [Session]; [p2p/p2p_client.c]: sending and
      receiving - [Transport], credentials - [Credentials], the session - [Client];
      [p2p/connect_manager.c]: connecting - [Connect], allocation - [Allocate], channels
      and permissions - [Bind]; [p2p/uclient_manager.c]: settings and entry points -
      [Uclient].
    - [stunclient/stun_manager.c]: binding tests - [StunClient].
    - [natdiscovery/natdiscovery.c]: NAT behaviour discovery - [NatDiscovery].
    - [uclient/]: the load-test client - [TcpRelay], [Load], [LoadStart], [LoadTest].

    The builders call the header and attribute functions; those call the address codec
    and the static map; the OAuth functions call OpenSSL.  The clients build each request
    through the wrappers, complete it with credentials and a fingerprint, send it and wait
    for the response with its transaction id ([send_buffer], [recv_buffer]); allocation,
    channels and permissions are exchanges of that kind, the session calls them when it
    starts, and its timer and its reader afterwards.  Where the two engines have the same
    text, it is modelled once.

    ** How C is modelled

    A C object (buffer, array field, local array) is a memory block, the list of its
    bytes; a pointer into it is an offset; every access goes through [rd_block] and
    [wr_block], which return [None] outside the object.  So a function whose result is
    [None] is one whose C has undefined behaviour there, and [Some] in a theorem includes
    memory safety.  A structure is a record, an enumeration an inductive type, a pointer
    that may be NULL an [option].  Integers are [Z] with the wrap-around of their width
    written out ([u8] to [u64], [to_i32]; [i32] is [None] on signed overflow).  The ABI is
    arm64-v8a: little-endian, 64-bit [size_t], unsigned [char].  State that the C keeps in
    statics is passed explicitly, as are the random source ([entropy]), the time and the
    contents of uninitialised arrays ([junk], [j], [frame]).

    Three kinds of effect occur beyond memory.
    - Programs that talk to their environment ([System]): a run consumes a script of
      answers, one per system call, and leaves a trace of actions.  Outcomes are a result,
      an exit, a run that waits for an answer the script does not have, a fault, and a loop
      out of fuel.  [wpf] is the logic over it, [Progress] the analysis of termination and
      of the number of answers a run asks for.
    - Partial operations on a state ([Partial]): the log and the connection to Redis keep
      books of what a library holds for them; using what was freed is [None].
    - C++ exceptions ([TurnAttr]): results, thrown exceptions and undefined behaviour.

    ** Code outside the repository

    OpenSSL and the resolver are parameters: [Crypto] (HMAC and digests), [Evp] (AES-GCM
    contexts) and [NetDb] (inet_pton, inet_ntop, getaddrinfo) are classes of operations,
    with their documented laws in [CryptoLaws], [EvpLaws], [NetDbLaws] and [PtonLaws]; each
    has an instance that computes, which the witnesses use.  System calls, [SSL_read] and
    the like are answers of the script.  What libevent, hiredis, pthread and the file
    system answer to the connection to Redis and to the log are arguments of the
    operations.

    ** Specifications

    [StunSpec] gives the abstract message [stun_msg] (type, cookie, transaction id,
    attribute list) and [repr], which says that a buffer holds a message.  [StunSearch],
    [StunBuild], [StunReply], [IntegritySpec], [SealSpec], [TurnAttrSpec] and [TurnMsgSpec]
    prove that searching, appending, the builders, the credentials, a completed request and
    the C++ objects refine the operations on abstract messages.  The class
    [AttributeLaws] is what an attribute class promises to the message classes.  The
    address map is an association list ([IoAddr]), a canonical origin a text
    ([OriginSpec]), the candidates of a configuration file a list ([ConfigSpec]).
    Sessions are transition systems: [SessionSpec] for the engine, [LoadCount] for the
    load test, [RedisSpec] and [LogSpec] for their books.

    ** The theorems

    - safety: searches, recognisers, framing, iterators and the URI parser never leave the
      received bytes, for any bytes ([StunSearch], [StunHeader], [HttpFrame], [UriSpec],
      [TurnAttrSpec]); sending and receiving stay in their buffers and only take the
      response to the request ([TransportSpec]); a binding or a permission is only believed
      when the server granted it ([BindSpec]); the log and the connection to Redis use
      nothing that was freed ([LogSpec], [RedisSpec]);
    - refinement and functional behaviour: appending and searching, requests and responses,
      credentials, allocation ([AllocateSpec]), retransmission ([Retransmit]), the
      exchanges with a server ([AnswerSpec], [StunClientSpec]), the decisions of NAT
      discovery ([NatDiscoverySpec]), the start of the client ([UclientSpec]);
    - invariants: the reachable sessions ([SessionSpec]), the count of the load test
      ([LoadCount]), what an exchange leaves alone ([Steady]);
    - termination and bounds: the entry points of the clients ([Bounded]) and the discovery
      program ([NatDiscoverySpec]) ask for a bounded number of answers, and as many again
      for each answer that lets a loop go on (bytes that arrived, a call that failed, a call
      into OpenSSL), so that none stays in a loop without one; [Termination] and [LoadEnds]
      show that no loop, of the load test neither, turns without an answer; an allocation
      makes at most 32 ALLOCATE and 33 REFRESH requests ([Bounded]); a tick of the load test sends at most 50 messages ([LoadRun]), the MTU
      and the values of socket options ([SocketsSpec]);
    - liveness: a server that answers in time is served ([AnswerSpec]), a session that is
      late catches up ([LoadRun]);
    - round trips: addresses, attributes, channel messages, error responses, fingerprints,
      OAuth tokens ([OAuthToken]), base64, stored keys, text addresses ([AddrTextSpec]),
      attribute and message objects ([TurnMsgSpec]);
    - equivalence: the table-driven CRC-32 and its bitwise definition, the search for a
      configuration file and its list of candidates ([ConfigSpec]);
    - errors: what is refused, and the places where the code does not do what it means to:
      the integrity check that accepts everything, copies without a bound, 16-bit sums that
      wrap, a binding whose channel number is lost, a reconnection that reads once, a log
      that writes to NULL when the disk is full.

    [Scenario], [LoadScenario] and [Samples] hold evaluated runs and the inputs of the
    witnesses.  [OAuthSpec] is the conversion of keys.

    ** Fuel

    A loop of the message library is a [Fixpoint] on a count the code has (a length, a
    table size) or on fuel taken from the block's length; a loop over a string stops at its
    NUL inside the block, and each attribute takes at least four bytes of the message, so
    the fuel never runs out: the theorems that the functions return [Some] include it.  A
    loop of the clients turns at most once per answer of the script ([iter]): [Termination]
    shows that each turn consumes one, so none is [Diverged].  What bounds the number of
    turns is another matter: a loop that waits for the right answer is charged with the
    answers it asks for, and paid for by those it may go on with ([Progress]); the bounds of
    [Bounded] follow from the counts in the code (7 retransmissions, 100 reads of a TLS
    message, 128 of a frame, 32 and 33 requests) and from the length of a message.  The
    loops with a count in the code (32 cycles of an allocation, 50 messages of a tick, 1024
    connects) are [Fixpoint]s on it.  The log calls itself for the line that reports an
    opened file; that call has no further one, which [LogSpec] proves.

    ** Not modelled

    Log output of the other components (the log itself is [Log]); the registration of
    callbacks with libevent (the calls it makes are events of the script); the contents of
    OpenSSL contexts and the cipher list; signal handlers, locale and the seed of the random
    numbers; more than one thread; the JNI glue [native-lib.cpp] and [coturn_manager.cpp],
    which passes calls between Java and the clients; the vendored [event/] and [hiredis/]
    but for the URI parser and the entry points of hiredis that [Redis] uses, and the OpenSSL
    headers.  [uclient/], [natdiscovery/] and [client++/] are not compiled into the library.

    This file is the prelude: machine integers, memory blocks, tactics and the lemmas that
    every component shares. *)

From stdpp Require Export base list option numbers sets strings.
From Stdlib Require Export ZArith Lia.

Declare Scope c_scope.
Delimit Scope c_scope with c.
Open Scope Z_scope.

(** * Machine integers *)

(** Truncation to an unsigned width, what a C cast to [uintN_t] does. *)
Definition u8 (z : Z) : Z := z mod 256.
Definition u16 (z : Z) : Z := z mod 65536.
Definition u32 (z : Z) : Z := z mod 4294967296.
Definition u64 (z : Z) : Z := z mod 18446744073709551616.

(** The value of a signed 32-bit C expression: [None] is the undefined
    behaviour of an overflow. *)
Definition i32 (z : Z) : option Z :=
  if (-2147483648 <=? z) && (z <=? 2147483647) then Some z else None.

(** The conversion of an out-of-range value to [int] by a cast, which the
    compilers of the target define as wrapping. *)
Definition to_i32 (z : Z) : Z := (z + 2147483648) mod 4294967296 - 2147483648.

(** Length of a list as a [Z], the type of every offset below. *)
Definition zlen {A} (l : list A) : Z := Z.of_nat (length l).

(** A memory block whose cells are bytes. *)
Definition bytes (m : list Z) : Prop := Forall (λ b, 0 <= b < 256) m.

(** * Memory blocks

    A C object ([uint8_t *buf], a field array, a local array) is the list of
    its bytes; a pointer into it is an offset.  Every access is checked: [None]
    is an access outside the object, which C leaves undefined. *)

Definition rd_block (m : list Z) (p n : Z) : option (list Z) :=
  if (0 <=? p) && (0 <=? n) && (p + n <=? zlen m)
  then Some (take (Z.to_nat n) (drop (Z.to_nat p) m)) else None.

Definition wr_block (m : list Z) (p : Z) (bs : list Z) : option (list Z) :=
  if (0 <=? p) && (p + zlen bs <=? zlen m)
  then Some (take (Z.to_nat p) m ++ bs ++ drop (Z.to_nat (p + zlen bs)) m) else None.

Definition rd8 (m : list Z) (p : Z) : option Z :=
  bs ← rd_block m p 1; head bs.

Definition wr8 (m : list Z) (p v : Z) : option (list Z) := wr_block m p [u8 v].

(** Little-endian composition and decomposition: both target ABIs
    (armeabi-v7a, arm64-v8a) load and store integers in this order. *)
Fixpoint le_combine (bs : list Z) : Z :=
  match bs with
  | [] => 0
  | b :: bs' => b + 256 * le_combine bs'
  end.

Fixpoint le_split (n : nat) (z : Z) : list Z :=
  match n with
  | O => []
  | S n' => z mod 256 :: le_split n' (z / 256)
  end.

(** Big-endian (network order) composition, used by the specifications. *)
Definition be_combine (bs : list Z) : Z := le_combine (rev bs).
Definition be_split (n : nat) (z : Z) : list Z := rev (le_split n z).

Definition load16 (m : list Z) (p : Z) : option Z := le_combine <$> rd_block m p 2.
Definition load32 (m : list Z) (p : Z) : option Z := le_combine <$> rd_block m p 4.
Definition load64 (m : list Z) (p : Z) : option Z := le_combine <$> rd_block m p 8.
Definition store16 (m : list Z) (p v : Z) : option (list Z) := wr_block m p (le_split 2 v).
Definition store32 (m : list Z) (p v : Z) : option (list Z) := wr_block m p (le_split 4 v).
Definition store64 (m : list Z) (p v : Z) : option (list Z) := wr_block m p (le_split 8 v).

(** [ntohs], [ntohl] and [_ioa_ntoh64] on a little-endian host: the bytes of
    the argument in the other order. *)
Definition nswap16 (v : Z) : Z := le_combine (rev (le_split 2 v)).
Definition nswap32 (v : Z) : Z := le_combine (rev (le_split 4 v)).
Definition nswap64 (v : Z) : Z := le_combine (rev (le_split 8 v)).

(** C truth values. *)
Definition b2z (b : bool) : Z := if b then 1 else 0.
Definition truth (z : Z) : bool := negb (z =? 0).

(** * Tactics *)

(** Reduce boolean comparisons of hypotheses to arithmetic, then [lia]. *)
Ltac zbool :=
  repeat match goal with
  | H : (_ && _) = true |- _ => apply andb_true_iff in H as [? ?]
  | H : (_ || _) = false |- _ => apply orb_false_iff in H as [? ?]
  | H : (_ <=? _) = true |- _ => apply Z.leb_le in H
  | H : (_ <=? _) = false |- _ => apply Z.leb_gt in H
  | H : (_ <? _) = true |- _ => apply Z.ltb_lt in H
  | H : (_ <? _) = false |- _ => apply Z.ltb_ge in H
  | H : (_ =? _) = true |- _ => apply Z.eqb_eq in H
  | H : (_ =? _) = false |- _ => apply Z.eqb_neq in H
  end.

(** Case analysis on the tests of [if]s of the goal. *)
Ltac case_if :=
  match goal with
  | |- context [if ?b then _ else _] => let E := fresh "E" in destruct b eqn:E
  end.

(** Invert a chain of option binds in the hypotheses. *)
Ltac inv_bind :=
  repeat match goal with
  | H : (_ ≫= _) = Some _ |- _ => apply bind_Some in H as (? & ? & ?)
  | H : (_ <$> _) = Some _ |- _ => apply fmap_Some in H as (? & ? & ?); subst
  | H : Some _ = Some _ |- _ => injection H as ?; subst
  | H : None = Some _ |- _ => discriminate H
  | H : mret _ = Some _ |- _ => injection H as ?; subst
  end.

Ltac inv_if :=
  match goal with
  | H : (if ?b then _ else _) = Some _ |- _ => let E := fresh "E" in destruct b eqn:E
  end.

Create HintDb cmem discriminated.

(** * Lemmas on lists and lengths *)

Lemma zlen_app {A} (l k : list A) : zlen (l ++ k) = zlen l + zlen k.
Proof. unfold zlen. rewrite length_app. lia. Qed.

Lemma zlen_cons {A} (x : A) l : zlen (x :: l) = 1 + zlen l.
Proof. unfold zlen. simpl length. lia. Qed.

Lemma zlen_nil {A} : zlen (@nil A) = 0.
Proof. done. Qed.

Lemma zlen_1 {A} (x : A) : zlen [x] = 1.
Proof. done. Qed.

Lemma zlen_nonneg {A} (l : list A) : 0 <= zlen l.
Proof. unfold zlen. lia. Qed.

Lemma zlen_replicate {A} n (x : A) : 0 <= n -> zlen (replicate (Z.to_nat n) x) = n.
Proof. intros. unfold zlen. rewrite length_replicate. lia. Qed.

Lemma bytes_app l k : bytes (l ++ k) <-> bytes l /\ bytes k.
Proof. apply Forall_app. Qed.

Lemma bytes_take n l : bytes l -> bytes (take n l).
Proof. apply Forall_take. Qed.

Lemma bytes_drop n l : bytes l -> bytes (drop n l).
Proof. apply Forall_drop. Qed.

Lemma bytes_rev l : bytes l -> bytes (rev l).
Proof. apply List.Forall_rev. Qed.

Lemma bytes_replicate0 n : bytes (replicate n 0).
Proof. apply Forall_replicate. lia. Qed.

Lemma u8_range z : 0 <= u8 z < 256.
Proof. apply Z.mod_pos_bound. lia. Qed.

Lemma u8_small z : 0 <= z < 256 -> u8 z = z.
Proof. apply Z.mod_small. Qed.

Lemma u16_small z : 0 <= z < 65536 -> u16 z = z.
Proof. apply Z.mod_small. Qed.

Lemma i32_Some z : -2147483648 <= z <= 2147483647 -> i32 z = Some z.
Proof. intros. unfold i32. case_if; [done|]. zbool; lia. Qed.

(** * Byte composition *)

Lemma length_le_split n z : length (le_split n z) = n.
Proof. revert z. induction n; intros; simpl; auto. Qed.

Lemma zlen_le_split n z : zlen (le_split n z) = Z.of_nat n.
Proof. unfold zlen. by rewrite length_le_split. Qed.

Lemma bytes_le_split n z : bytes (le_split n z).
Proof.
  revert z. induction n; intros; simpl; constructor; [apply u8_range|apply IHn].
Qed.

Lemma le_split_combine bs : bytes bs -> le_split (length bs) (le_combine bs) = bs.
Proof.
  induction 1 as [|b bs Hb Hbs IH]; [done|]. cbn [length le_combine le_split].
  assert ((b + 256 * le_combine bs) mod 256 = b) as ->.
  { rewrite (Z.mul_comm 256), Z.mod_add by lia. by apply Z.mod_small. }
  assert ((b + 256 * le_combine bs) / 256 = le_combine bs) as ->.
  { rewrite (Z.mul_comm 256), Z.div_add by lia. rewrite Z.div_small; lia. }
  by rewrite IH.
Qed.

Lemma le_combine_split n z : le_combine (le_split n z) = z mod 256 ^ Z.of_nat n.
Proof.
  revert z. induction n as [|n IH]; intros z; cbn [le_split le_combine].
  { by rewrite Z.mod_1_r. }
  rewrite IH, Nat2Z.inj_succ, Z.pow_succ_r by lia.
  rewrite Z.rem_mul_r by (try apply Z.pow_nonzero; lia). lia.
Qed.

Lemma le_combine_range bs : bytes bs -> 0 <= le_combine bs < 256 ^ zlen bs.
Proof.
  intros H. pose proof (le_combine_split (length bs) (le_combine bs)) as E.
  rewrite le_split_combine in E by done. rewrite E. unfold zlen.
  apply Z.mod_pos_bound, Z.pow_pos_nonneg; lia.
Qed.

Lemma be_combine_range bs : bytes bs -> 0 <= be_combine bs < 256 ^ zlen bs.
Proof.
  intros H. unfold be_combine.
  pose proof (le_combine_range (rev bs) (bytes_rev _ H)) as Hr.
  unfold zlen in *. by rewrite length_rev in Hr.
Qed.

(** [ntoh] of a loaded word is the big-endian reading of its bytes. *)
Lemma nswap_combine n bs :
  bytes bs -> length bs = n -> le_combine (rev (le_split n (le_combine bs))) = be_combine bs.
Proof. intros H <-. by rewrite le_split_combine. Qed.

Lemma le_combine_inj l k :
  bytes l -> bytes k -> length l = length k -> le_combine l = le_combine k -> l = k.
Proof.
  intros Hl Hk Hlen E. rewrite <- (le_split_combine l), <- (le_split_combine k) by done.
  by rewrite E, Hlen.
Qed.

Lemma le_split_nswap n v :
  le_split n (le_combine (rev (le_split n v))) = be_split n v.
Proof.
  rewrite <- (length_le_split n v) at 1. rewrite <- (length_rev (le_split n v)).
  apply le_split_combine, bytes_rev, bytes_le_split.
Qed.

Lemma length_be_split n z : length (be_split n z) = n.
Proof. unfold be_split. by rewrite length_rev, length_le_split. Qed.

Lemma zlen_be_split n z : zlen (be_split n z) = Z.of_nat n.
Proof. unfold zlen. by rewrite length_be_split. Qed.

Lemma bytes_be_split n z : bytes (be_split n z).
Proof. apply bytes_rev, bytes_le_split. Qed.

Lemma be_combine_split n z : be_combine (be_split n z) = z mod 256 ^ Z.of_nat n.
Proof. unfold be_combine, be_split. rewrite rev_involutive. apply le_combine_split. Qed.

Lemma be_split_combine bs : bytes bs -> be_split (length bs) (be_combine bs) = bs.
Proof.
  intros H. unfold be_split, be_combine.
  rewrite <- (length_rev bs), le_split_combine by by apply bytes_rev.
  apply rev_involutive.
Qed.

Lemma nswap16_be v : nswap16 v = be_combine (le_split 2 v).
Proof. done. Qed.

Lemma nswap_nswap n v :
  le_combine (rev (le_split n (le_combine (rev (le_split n v))))) = v mod 256 ^ Z.of_nat n.
Proof. rewrite le_split_nswap. unfold be_split. rewrite rev_involutive. apply le_combine_split. Qed.

Lemma nswap16_nswap16 v : 0 <= v < 65536 -> nswap16 (nswap16 v) = v.
Proof. intros. unfold nswap16. rewrite nswap_nswap. by apply Z.mod_small. Qed.

Lemma nswap32_nswap32 v : 0 <= v < 4294967296 -> nswap32 (nswap32 v) = v.
Proof. intros. unfold nswap32. rewrite nswap_nswap. by apply Z.mod_small. Qed.

Lemma nswap64_nswap64 v : 0 <= v < 18446744073709551616 -> nswap64 (nswap64 v) = v.
Proof. intros. unfold nswap64. rewrite nswap_nswap. by apply Z.mod_small. Qed.

Lemma nswap_range n v : 0 <= le_combine (rev (le_split n v)) < 256 ^ Z.of_nat n.
Proof.
  pose proof (be_combine_range (le_split n v) (bytes_le_split n v)) as H.
  by rewrite zlen_le_split in H.
Qed.

Lemma nswap16_range v : 0 <= nswap16 v < 65536.
Proof. apply (nswap_range 2). Qed.

Lemma nswap32_range v : 0 <= nswap32 v < 4294967296.
Proof. apply (nswap_range 4). Qed.

(** * Reads and writes of memory blocks *)

Lemma rd_block_Some m p n bs :
  rd_block m p n = Some bs <->
  0 <= p /\ 0 <= n /\ p + n <= zlen m /\ bs = take (Z.to_nat n) (drop (Z.to_nat p) m).
Proof.
  unfold rd_block. case_if; zbool; [split; [by intros [= <-]|by intros (_ & _ & _ & ->)]|].
  split; [done|]. intros (? & ? & ? & _).
  rewrite !andb_false_iff, !Z.leb_gt in E. lia.
Qed.

Lemma rd_block_ok m p n :
  0 <= p -> 0 <= n -> p + n <= zlen m ->
  rd_block m p n = Some (take (Z.to_nat n) (drop (Z.to_nat p) m)).
Proof. intros. by apply rd_block_Some. Qed.

Lemma rd_block_zlen m p n bs : rd_block m p n = Some bs -> zlen bs = n.
Proof.
  intros (? & ? & ? & ->)%rd_block_Some. unfold zlen in *.
  rewrite length_take, length_drop. lia.
Qed.

Lemma rd_block_bytes m p n bs : bytes m -> rd_block m p n = Some bs -> bytes bs.
Proof. intros Hm (? & ? & ? & ->)%rd_block_Some. by apply bytes_take, bytes_drop. Qed.

Lemma rd_block_bounds m p n bs :
  rd_block m p n = Some bs -> 0 <= p /\ 0 <= n /\ p + n <= zlen m.
Proof. intros (? & ? & ? & _)%rd_block_Some. done. Qed.

Lemma rd_block_app m p a b x y :
  rd_block m p a = Some x -> rd_block m (p + a) b = Some y -> rd_block m p (a + b) = Some (x ++ y).
Proof.
  intros (? & ? & ? & ->)%rd_block_Some (? & ? & ? & ->)%rd_block_Some.
  apply rd_block_Some. repeat split; try lia.
  rewrite !Z2Nat.inj_add by lia. rewrite <- drop_drop, take_take_drop. done.
Qed.

Lemma rd_block_split m p a b x :
  0 <= a -> 0 <= b -> rd_block m p (a + b) = Some x ->
  rd_block m p a = Some (take (Z.to_nat a) x) /\ rd_block m (p + a) b = Some (drop (Z.to_nat a) x).
Proof.
  intros Ha Hb (? & ? & ? & ->)%rd_block_Some.
  rewrite !rd_block_ok by lia. split; f_equal.
  - rewrite take_take. f_equal. lia.
  - rewrite skipn_firstn_comm, drop_drop. f_equal; [|f_equal]; lia.
Qed.

(** Reading inside a prefix that is kept. *)
Lemma rd_block_take m p n k :
  p + n <= k -> 0 <= k -> rd_block m p n ≠ None -> rd_block (take (Z.to_nat k) m) p n = rd_block m p n.
Proof.
  intros Hk Hk0 Hs. destruct (rd_block m p n) as [bs|] eqn:E; [|done].
  apply rd_block_Some in E as (? & ? & ? & ->). unfold zlen in *.
  apply rd_block_Some. unfold zlen. rewrite length_take. repeat split; try lia.
  rewrite skipn_firstn_comm, take_take. f_equal. lia.
Qed.

Lemma wr_block_Some m p bs m' :
  wr_block m p bs = Some m' <->
  0 <= p /\ p + zlen bs <= zlen m /\
  m' = take (Z.to_nat p) m ++ bs ++ drop (Z.to_nat (p + zlen bs)) m.
Proof.
  unfold wr_block. case_if; zbool; [split; [by intros [= <-]|by intros (_ & _ & ->)]|].
  split; [done|]. intros (? & ? & _). rewrite !andb_false_iff, !Z.leb_gt in E. lia.
Qed.

Lemma wr_block_ok m p bs :
  0 <= p -> p + zlen bs <= zlen m ->
  wr_block m p bs = Some (take (Z.to_nat p) m ++ bs ++ drop (Z.to_nat (p + zlen bs)) m).
Proof. intros. by apply wr_block_Some. Qed.

Lemma wr_block_zlen m p bs m' : wr_block m p bs = Some m' -> zlen m' = zlen m.
Proof.
  intros (? & ? & ->)%wr_block_Some. unfold zlen in *.
  rewrite !length_app, length_take, length_drop. lia.
Qed.

Lemma wr_block_bytes m p bs m' : bytes m -> bytes bs -> wr_block m p bs = Some m' -> bytes m'.
Proof.
  intros Hm Hb (? & ? & ->)%wr_block_Some. rewrite !bytes_app.
  auto using bytes_take, bytes_drop.
Qed.

Lemma wr_block_bounds m p bs m' :
  wr_block m p bs = Some m' -> 0 <= p /\ p + zlen bs <= zlen m.
Proof. intros (? & ? & _)%wr_block_Some. done. Qed.

Lemma rd_wr_same m p bs m' : wr_block m p bs = Some m' -> rd_block m' p (zlen bs) = Some bs.
Proof.
  intros Hw. pose proof (wr_block_zlen _ _ _ _ Hw) as Hl.
  apply wr_block_Some in Hw as (? & ? & ->).
  apply rd_block_Some. pose proof (zlen_nonneg bs). repeat split; try lia.
  unfold zlen in *. rewrite drop_app_length' by (rewrite length_take; lia).
  rewrite Nat2Z.id. by rewrite take_app_length.
Qed.

Lemma rd_wr_before m p bs m' q n :
  wr_block m p bs = Some m' -> q + n <= p -> rd_block m' q n = rd_block m q n.
Proof.
  intros Hw Hq. pose proof (wr_block_zlen _ _ _ _ Hw) as Hl.
  apply wr_block_Some in Hw as (? & ? & ->).
  unfold rd_block. rewrite Hl. case_if; [|done]. zbool. f_equal.
  unfold zlen in *.
  rewrite drop_app_le by (rewrite length_take; lia).
  rewrite take_app_le by (rewrite length_drop, length_take; lia).
  rewrite skipn_firstn_comm, take_take. f_equal. lia.
Qed.

Lemma rd_wr_after m p bs m' q n :
  wr_block m p bs = Some m' -> p + zlen bs <= q -> rd_block m' q n = rd_block m q n.
Proof.
  intros Hw Hq. pose proof (wr_block_zlen _ _ _ _ Hw) as Hl.
  apply wr_block_Some in Hw as (? & ? & ->).
  unfold rd_block. rewrite Hl. case_if; [|done]. zbool. f_equal. f_equal.
  unfold zlen in *. rewrite drop_app_ge by (rewrite length_take; lia).
  rewrite drop_app_ge by (rewrite length_take; lia).
  rewrite drop_drop. f_equal. rewrite length_take. lia.
Qed.

(** A write leaves disjoint reads alone. *)
Lemma rd_wr_disjoint m p bs m' q n :
  wr_block m p bs = Some m' -> q + n <= p \/ p + zlen bs <= q ->
  rd_block m' q n = rd_block m q n.
Proof. intros Hw [Hq|Hq]; eauto using rd_wr_before, rd_wr_after. Qed.

Lemma rd_block_1 m p b : rd_block m p 1 = Some [b] <-> rd8 m p = Some b.
Proof.
  unfold rd8. split.
  - intros ->. done.
  - intros H. inv_bind. pose proof (rd_block_zlen _ _ _ _ H).
    destruct x as [|c [|d x]]; [done|simpl in *; congruence|].
    rewrite !zlen_cons in *. pose proof (zlen_nonneg x). lia.
Qed.

Lemma rd8_ok m p : 0 <= p < zlen m -> exists b, rd8 m p = Some b /\ rd_block m p 1 = Some [b].
Proof.
  intros Hp. destruct (rd_block m p 1) as [bs|] eqn:E.
  2: { rewrite rd_block_ok in E by lia. done. }
  pose proof (rd_block_zlen _ _ _ _ E) as Hl.
  destruct bs as [|b [|c bs]]; rewrite ?zlen_cons, ?zlen_nil in Hl;
    try pose proof (zlen_nonneg bs); try lia.
  exists b. split; [|done]. by apply rd_block_1.
Qed.

Lemma rd8_range m p b : bytes m -> rd8 m p = Some b -> 0 <= b < 256.
Proof.
  intros Hm H%rd_block_1. pose proof (rd_block_bytes _ _ _ _ Hm H) as Hb.
  by inversion Hb.
Qed.

(** The network-order reading of [n] bytes. *)
Definition be_at (n : Z) (m : list Z) (p : Z) : option Z := be_combine <$> rd_block m p n.

Lemma be_at_Some n m p bs : rd_block m p n = Some bs -> be_at n m p = Some (be_combine bs).
Proof. unfold be_at. by intros ->. Qed.

Lemma be_at_range n m p v : bytes m -> be_at n m p = Some v -> 0 <= v < 256 ^ n.
Proof.
  unfold be_at. intros Hm H. inv_bind.
  rewrite <- (rd_block_zlen _ _ _ _ H). by eapply be_combine_range, rd_block_bytes.
Qed.

Lemma be_at_ok n m p :
  0 <= p -> 0 <= n -> p + n <= zlen m -> exists v, be_at n m p = Some v.
Proof. intros. unfold be_at. rewrite rd_block_ok by done. by eexists. Qed.

Lemma be_at_wr_disjoint n m p bs m' q :
  wr_block m p bs = Some m' -> q + n <= p \/ p + zlen bs <= q -> be_at n m' q = be_at n m q.
Proof. intros. unfold be_at. by erewrite rd_wr_disjoint. Qed.

Lemma load_nswap n m p :
  0 <= n -> bytes m ->
  (λ v, le_combine (rev (le_split (Z.to_nat n) v))) <$> (le_combine <$> rd_block m p n) = be_at n m p.
Proof.
  intros Hn Hm. unfold be_at. destruct (rd_block m p n) as [bs|] eqn:E; [|done].
  simpl. f_equal. apply nswap_combine.
  - by eapply rd_block_bytes.
  - apply rd_block_zlen in E. unfold zlen in E. lia.
Qed.

(** [nswap16] of a loaded halfword, [nswap32] of a loaded word. *)
Lemma nswap16_load16 m p : bytes m -> nswap16 <$> load16 m p = be_at 2 m p.
Proof. intros Hm. apply (load_nswap 2); [lia|done]. Qed.

Lemma nswap32_load32 m p : bytes m -> nswap32 <$> load32 m p = be_at 4 m p.
Proof. intros Hm. apply (load_nswap 4); [lia|done]. Qed.

Lemma nswap64_load64 m p : bytes m -> nswap64 <$> load64 m p = be_at 8 m p.
Proof. intros Hm. apply (load_nswap 8); [lia|done]. Qed.

Lemma be_at_load16 m p v : bytes m -> be_at 2 m p = Some v ->
  exists w, load16 m p = Some w /\ nswap16 w = v.
Proof.
  intros Hm H. rewrite <- nswap16_load16 in H by done. inv_bind. eauto.
Qed.

Lemma be_at_load32 m p v : bytes m -> be_at 4 m p = Some v ->
  exists w, load32 m p = Some w /\ nswap32 w = v.
Proof.
  intros Hm H. rewrite <- nswap32_load32 in H by done. inv_bind. eauto.
Qed.

(** Storing [nswap v] stores [v] in network order. *)
Lemma store16_nswap m p v : store16 m p (nswap16 v) = wr_block m p (be_split 2 v).
Proof. unfold store16, nswap16. by rewrite le_split_nswap. Qed.

Lemma store32_nswap m p v : store32 m p (nswap32 v) = wr_block m p (be_split 4 v).
Proof. unfold store32, nswap32. by rewrite le_split_nswap. Qed.

Lemma be_at_wr_same n m p v m' :
  wr_block m p (be_split n v) = Some m' -> be_at (Z.of_nat n) m' p = Some (v mod 256 ^ Z.of_nat n).
Proof.
  intros H%rd_wr_same. rewrite zlen_be_split in H. unfold be_at. rewrite H. simpl.
  by rewrite be_combine_split.
Qed.

(** Two adjacent writes are one. *)
Lemma wr_block_app m p a b :
  wr_block m p (a ++ b) = (m1 ← wr_block m p a; wr_block m1 (p + zlen a) b).
Proof.
  pose proof (zlen_nonneg a). pose proof (zlen_nonneg b).
  destruct (wr_block m p a) as [m1|] eqn:E; cbn [mbind option_bind].
  - pose proof (wr_block_zlen _ _ _ _ E) as Hl. apply wr_block_Some in E as (Hp & Ha & ->).
    unfold wr_block. rewrite Hl, zlen_app.
    destruct (p + (zlen a + zlen b) <=? zlen m) eqn:E; zbool.
    + assert ((p + zlen a + zlen b <=? zlen m) = true) as -> by (apply Z.leb_le; lia).
      assert ((0 <=? p) = true) as -> by (apply Z.leb_le; lia).
      assert ((0 <=? p + zlen a) = true) as -> by (apply Z.leb_le; lia). cbn. f_equal.
      unfold zlen in *. rewrite take_app_ge by (rewrite length_take; lia).
      rewrite drop_app_ge by (rewrite length_take; lia). rewrite length_take.
      rewrite Nat.min_l by lia.
      replace (Z.to_nat (p + Z.of_nat (length a)) - Z.to_nat p)%nat with (length a) by lia.
      rewrite take_app_length, drop_app_ge, drop_drop, <- !app_assoc by lia.
      do 4 f_equal. lia.
    + assert ((p + zlen a + zlen b <=? zlen m) = false) as -> by (apply Z.leb_gt; lia).
      by rewrite !andb_false_r.
  - unfold wr_block in *. rewrite zlen_app. case_if; [|done]. exfalso.
    revert E. case_if; [done|]. zbool. rewrite andb_false_iff, !Z.leb_gt in E. lia.
Qed.

Lemma wr_block_seq m p a b m1 m2 :
  wr_block m p a = Some m1 -> wr_block m1 (p + zlen a) b = Some m2 ->
  wr_block m p (a ++ b) = Some m2.
Proof. intros H1 H2. by rewrite wr_block_app, H1. Qed.

(** A write in range succeeds. *)
Lemma wr_block_is_Some m p bs :
  0 <= p -> p + zlen bs <= zlen m -> exists m', wr_block m p bs = Some m'.
Proof. intros. eexists. by apply wr_block_ok. Qed.

Lemma rd_block_full m : rd_block m 0 (zlen m) = Some m.
Proof.
  pose proof (zlen_nonneg m). apply rd_block_Some. repeat split; try lia.
  unfold zlen. rewrite Nat2Z.id, drop_0. by rewrite firstn_all.
Qed.

(** Reading part of a block that was read. *)
Lemma rd_block_sub m p n bs q k :
  rd_block m p n = Some bs -> 0 <= q -> 0 <= k -> q + k <= n ->
  rd_block m (p + q) k = rd_block bs q k.
Proof.
  intros H Hq Hk Hn. pose proof (rd_block_zlen _ _ _ _ H) as Hl.
  apply rd_block_Some in H as (? & ? & ? & ->).
  rewrite !rd_block_ok by lia. f_equal.
  rewrite skipn_firstn_comm, take_take, drop_drop. f_equal; [|f_equal]; lia.
Qed.

Lemma be_at_sub n m p k bs q :
  rd_block m p k = Some bs -> 0 <= q -> 0 <= n -> q + n <= k -> be_at n m (p + q) = be_at n bs q.
Proof. intros. unfold be_at. by erewrite rd_block_sub. Qed.

Lemma rd_block_here pre x post : rd_block (pre ++ x ++ post) (zlen pre) (zlen x) = Some x.
Proof.
  pose proof (zlen_nonneg pre). pose proof (zlen_nonneg x). pose proof (zlen_nonneg post).
  apply rd_block_Some. rewrite !zlen_app. repeat split; try lia.
  unfold zlen. by rewrite !Nat2Z.id, drop_app_length, take_app_length.
Qed.

Lemma rd_block_front x post : rd_block (x ++ post) 0 (zlen x) = Some x.
Proof. exact (rd_block_here [] x post). Qed.

(** A part of a block that was read, given by the way the block splits. *)
Lemma rd_block_part m p n pre x post q k :
  rd_block m p n = Some (pre ++ x ++ post) -> q = p + zlen pre -> k = zlen x ->
  rd_block m q k = Some x.
Proof.
  intros H -> ->. pose proof (rd_block_zlen _ _ _ _ H) as Hl.
  rewrite !zlen_app in Hl. pose proof (zlen_nonneg pre). pose proof (zlen_nonneg x).
  pose proof (zlen_nonneg post).
  rewrite (rd_block_sub _ _ _ _ (zlen pre) (zlen x) H) by lia. apply rd_block_here.
Qed.

Lemma rd8_part m p n pre b post q :
  rd_block m p n = Some (pre ++ b :: post) -> q = p + zlen pre -> rd8 m q = Some b.
Proof.
  intros H Hq. apply rd_block_1. by apply (rd_block_part _ _ _ pre [b] post _ _ H).
Qed.

Lemma rd8_here pre b post k : k = zlen pre -> rd8 (pre ++ b :: post) k = Some b.
Proof. intros ->. by apply (rd8_part _ 0 (zlen (pre ++ b :: post)) pre b post); [apply rd_block_full|]. Qed.

Lemma wr8_here pre x post k c :
  k = zlen pre -> 0 <= c < 256 -> wr8 (pre ++ x :: post) k c = Some (pre ++ c :: post).
Proof.
  intros -> Hc. pose proof (zlen_nonneg pre). pose proof (zlen_nonneg post). unfold wr8. rewrite u8_small by done.
  rewrite wr_block_ok by (rewrite ?zlen_app, ?zlen_1, ?zlen_cons; lia). rewrite zlen_1. f_equal.
  unfold zlen. rewrite Nat2Z.id, take_app_length.
  replace (Z.to_nat (Z.of_nat (length pre) + 1)) with (length pre + 1)%nat by lia.
  by rewrite drop_app_add'.
Qed.

(** Writing twice at the same place keeps the second write. *)
Lemma wr_block_overwrite m p a b m1 :
  wr_block m p a = Some m1 -> zlen a = zlen b -> wr_block m1 p b = wr_block m p b.
Proof.
  intros H Hab. pose proof (wr_block_zlen _ _ _ _ H) as Hl.
  apply wr_block_Some in H as (Hp & Ha & ->). unfold wr_block. rewrite Hl, <- Hab.
  destruct ((0 <=? p) && (p + zlen a <=? zlen m)) eqn:E; [|done]. f_equal.
  unfold zlen in *. rewrite take_app_le by (rewrite length_take; lia). rewrite take_take.
  rewrite drop_app_ge, length_take by (rewrite length_take; lia).
  rewrite drop_app_ge by lia. rewrite drop_drop. f_equal; [f_equal; lia|]. f_equal. f_equal. lia.
Qed.

Lemma wr_block_full m bs : zlen bs = zlen m -> wr_block m 0 bs = Some bs.
Proof.
  intros H. rewrite wr_block_ok by lia. f_equal. change (Z.to_nat 0) with 0%nat.
  rewrite take_0, drop_ge by (unfold zlen in *; lia). by rewrite app_nil_r.
Qed.

(** Writing over a shorter write. *)
Lemma wr_block_overwrite_le m p a b m1 :
  wr_block m p a = Some m1 -> zlen a <= zlen b -> wr_block m1 p b = wr_block m p b.
Proof.
  intros H Hab. pose proof (zlen_nonneg a). set (n := Z.to_nat (zlen a)).
  rewrite <- (take_drop n b), !wr_block_app.
  assert (zlen (take n b) = zlen a) as Hn by (unfold n, zlen in *; rewrite length_take; lia).
  by rewrite (wr_block_overwrite _ _ _ (take n b) _ H) by lia.
Qed.

(** A longer write fails where a shorter one does. *)
Lemma wr_block_None_le m p a b :
  wr_block m p a = None -> zlen a <= zlen b -> wr_block m p b = None.
Proof.
  intros H Hab. destruct (wr_block m p b) as [m'|] eqn:E; [|done].
  apply wr_block_bounds in E as [? ?]. rewrite wr_block_ok in H by lia. done.
Qed.

(** Writing back what is there. *)
Lemma wr_block_same m p n bs : rd_block m p n = Some bs -> wr_block m p bs = Some m.
Proof.
  intros H. pose proof (rd_block_zlen _ _ _ _ H) as Hl.
  apply rd_block_Some in H as (Hp & Hn & Hb & ->). rewrite wr_block_ok by lia. rewrite Hl. f_equal.
  rewrite Z2Nat.inj_add by lia. rewrite <- drop_drop, take_drop. by rewrite take_drop.
Qed.

(** Writing nothing. *)
Lemma wr_block_nil m p m' : wr_block m p [] = Some m' -> m' = m.
Proof.
  intros (? & ? & ->)%wr_block_Some. rewrite zlen_nil, Z.add_0_r. cbn [app]. by rewrite take_drop.
Qed.

(** Reading what was written, by parts. *)
Lemma rd_wr_part m p pre x post m' q k :
  wr_block m p (pre ++ x ++ post) = Some m' -> q = p + zlen pre -> k = zlen x ->
  rd_block m' q k = Some x.
Proof. intros H. apply rd_wr_same in H. by apply (rd_block_part _ _ _ pre x post _ _ H). Qed.

(** The length rounded up to a multiple of 4. *)
Definition pad4 (n : Z) : Z := n + (- n) mod 4.

Lemma pad4_bounds n : n <= pad4 n < n + 4.
Proof. unfold pad4. Z.div_mod_to_equations. lia. Qed.

Lemma pad4_mod n : pad4 n mod 4 = 0.
Proof. unfold pad4. Z.div_mod_to_equations. lia. Qed.

Lemma pad4_id n : n mod 4 = 0 -> pad4 n = n.
Proof. unfold pad4. intros. Z.div_mod_to_equations. lia. Qed.

#[export] Hint Resolve bytes_take bytes_drop bytes_rev bytes_replicate0 bytes_le_split bytes_be_split : cmem.
#[export] Hint Resolve zlen_nonneg u8_range pad4_mod nswap16_range nswap32_range : cmem.

(** * Finite checks *)

Lemma forallb_upto (P : Z -> bool) n :
  forallb P (Z.of_nat <$> seq 0 (Z.to_nat n)) = true -> forall z, 0 <= z < n -> P z = true.
Proof.
  intros H z Hz. rewrite forallb_forall in H. apply H. apply list_elem_of_In, list_elem_of_fmap.
  exists (Z.to_nat z). split; [lia|]. apply elem_of_seq. lia.
Qed.

Lemma bytes_concrete l : forallb (λ b, (0 <=? b) && (b <? 256)) l = true -> bytes l.
Proof.
  intros H. unfold bytes. rewrite Forall_forall. intros b Hb. rewrite forallb_forall in H.
  apply list_elem_of_In, H in Hb. rewrite andb_true_iff, Z.leb_le, Z.ltb_lt in Hb. lia.
Qed.
