(* ===== verification/Defs.v ===== *)
(** Constants and enumerations of the protocol headers:
    [client/ns_turn_msg_defs.h], [client/ns_turn_msg_defs_experimental.h],
    [client/ns_turn_msg.h] and [include/ns_turn/ns_turn_defs.h].
    Macros with arguments are functions; an [enum] whose members are used as
    integers by the code keeps its numeric values through [*_val]. *)

From S2P Require Import Prelude.

(** * ns_turn_defs.h *)

Definition MAX_STUN_MESSAGE_SIZE : Z := 65507.
Definition STUN_BUFFER_SIZE : Z := MAX_STUN_MESSAGE_SIZE.
Definition DEFAULT_STUN_PORT : Z := 3478.
Definition DEFAULT_STUN_TLS_PORT : Z := 5349.
(** In network byte order, on a little-endian host. *)
Definition DEFAULT_STUN_PORT_NBO : Z := 0x960D.
Definition UDP_STUN_BUFFER_SIZE : Z := Z.shiftl 1024 4.
Definition NONCE_LENGTH_32BITS : Z := 4.
Definition TTL_IGNORE : Z := -1.
Definition TTL_DEFAULT : Z := 64.
Definition TOS_IGNORE : Z := -1.
Definition TOS_DEFAULT : Z := 0.

(** [_ioa_ntoh64]: the swap loop exchanges the byte at [src] with the one at
    [dst] while [src < dst]. *)
Fixpoint ioa_swap (fuel : nat) (v : list Z) (src dst : Z) : option (list Z) :=
  if src <? dst then
    match fuel with
    | O => None
    | S f =>
      vdst ← rd8 v dst;
      vsrc ← rd8 v src;
      v1 ← wr8 v dst vsrc;
      v2 ← wr8 v1 src vdst;
      ioa_swap f v2 (src + 1) (dst - 1)
    end
  else Some v.

Definition _ioa_ntoh64 (v : Z) : option Z := le_combine <$> ioa_swap 8 (le_split 8 v) 0 7.

(** [turn_time_before(t1,t2)] *)
Definition turn_time_before (t1 t2 : Z) : bool := to_i32 (to_i32 t1 - to_i32 t2) <? 0.

(** * ns_turn_msg_defs.h *)

Definition STUN_HEADER_LENGTH : Z := 20.
Definition STUN_CHANNEL_HEADER_LENGTH : Z := 4.
Definition STUN_MAX_USERNAME_SIZE : Z := 512.
Definition STUN_MAX_REALM_SIZE : Z := 127.
Definition STUN_MAX_NONCE_SIZE : Z := 127.
Definition STUN_MAX_SERVER_NAME_SIZE : Z := 1025.
Definition STUN_MAX_PWD_SIZE : Z := 256.
Definition AUTH_SECRET_SIZE : Z := STUN_MAX_PWD_SIZE.
Definition STUN_MAGIC_COOKIE : Z := 0x2112A442.

Definition IS_STUN_REQUEST (t : Z) : bool := Z.land t 0x0110 =? 0x0000.
Definition IS_STUN_INDICATION (t : Z) : bool := Z.land t 0x0110 =? 0x0010.
Definition IS_STUN_SUCCESS_RESP (t : Z) : bool := Z.land t 0x0110 =? 0x0100.
Definition IS_STUN_ERR_RESP (t : Z) : bool := Z.land t 0x0110 =? 0x0110.

Definition GET_STUN_REQUEST (t : Z) : Z := Z.land t 0xFEEF.
Definition GET_STUN_INDICATION (t : Z) : Z := Z.lor (Z.land t 0xFEEF) 0x0010.
Definition GET_STUN_SUCCESS_RESP (t : Z) : Z := Z.lor (Z.land t 0xFEEF) 0x0100.
Definition GET_STUN_ERR_RESP (t : Z) : Z := Z.lor t 0x0110.

Definition STUN_DEFAULT_ALLOCATE_LIFETIME : Z := 600.
Definition STUN_MIN_ALLOCATE_LIFETIME : Z := STUN_DEFAULT_ALLOCATE_LIFETIME.
Definition STUN_DEFAULT_MAX_ALLOCATE_LIFETIME : Z := 3600.
Definition STUN_DEFAULT_CHANNEL_LIFETIME : Z := 600.
Definition STUN_DEFAULT_NONCE_EXPIRATION_TIME : Z := 600.
Definition STUN_DEFAULT_PERMISSION_LIFETIME : Z := 300.

Definition STUN_METHOD_BINDING : Z := 0x0001.
Definition STUN_METHOD_ALLOCATE : Z := 0x0003.
Definition STUN_METHOD_REFRESH : Z := 0x0004.
Definition STUN_METHOD_SEND : Z := 0x0006.
Definition STUN_METHOD_DATA : Z := 0x0007.
Definition STUN_METHOD_CREATE_PERMISSION : Z := 0x0008.
Definition STUN_METHOD_CHANNEL_BIND : Z := 0x0009.
Definition STUN_METHOD_CONNECT : Z := 0x000a.
Definition STUN_METHOD_CONNECTION_BIND : Z := 0x000b.
Definition STUN_METHOD_CONNECTION_ATTEMPT : Z := 0x000c.

Definition STUN_ATTRIBUTE_MAPPED_ADDRESS : Z := 0x0001.
Definition OLD_STUN_ATTRIBUTE_RESPONSE_ADDRESS : Z := 0x0002.
Definition STUN_ATTRIBUTE_CHANGE_REQUEST : Z := 0x0003.
Definition OLD_STUN_ATTRIBUTE_SOURCE_ADDRESS : Z := 0x0004.
Definition OLD_STUN_ATTRIBUTE_CHANGED_ADDRESS : Z := 0x0005.
Definition STUN_ATTRIBUTE_USERNAME : Z := 0x0006.
Definition OLD_STUN_ATTRIBUTE_PASSWORD : Z := 0x0007.
Definition STUN_ATTRIBUTE_MESSAGE_INTEGRITY : Z := 0x0008.
Definition STUN_ATTRIBUTE_ERROR_CODE : Z := 0x0009.
Definition STUN_ATTRIBUTE_UNKNOWN_ATTRIBUTES : Z := 0x000A.
Definition OLD_STUN_ATTRIBUTE_REFLECTED_FROM : Z := 0x000B.
Definition STUN_ATTRIBUTE_REALM : Z := 0x0014.
Definition STUN_ATTRIBUTE_NONCE : Z := 0x0015.
Definition STUN_ATTRIBUTE_REQUESTED_ADDRESS_FAMILY : Z := 0x0017.
Definition STUN_ATTRIBUTE_XOR_MAPPED_ADDRESS : Z := 0x0020.
Definition OLD_STUN_ATTRIBUTE_XOR_MAPPED_ADDRESS : Z := 0x8020.
Definition STUN_ATTRIBUTE_SOFTWARE : Z := 0x8022.
Definition OLD_STUN_ATTRIBUTE_SERVER : Z := STUN_ATTRIBUTE_SOFTWARE.
Definition STUN_ATTRIBUTE_ALTERNATE_SERVER : Z := 0x8023.
Definition STUN_ATTRIBUTE_FINGERPRINT : Z := 0x8028.
Definition STUN_ATTRIBUTE_CHANNEL_NUMBER : Z := 0x000C.
Definition STUN_ATTRIBUTE_LIFETIME : Z := 0x000D.
Definition STUN_ATTRIBUTE_BANDWIDTH : Z := 0x0010.
Definition STUN_ATTRIBUTE_XOR_PEER_ADDRESS : Z := 0x0012.
Definition STUN_ATTRIBUTE_DATA : Z := 0x0013.
Definition STUN_ATTRIBUTE_XOR_RELAYED_ADDRESS : Z := 0x0016.
Definition STUN_ATTRIBUTE_EVEN_PORT : Z := 0x0018.
Definition STUN_ATTRIBUTE_REQUESTED_TRANSPORT : Z := 0x0019.
Definition STUN_ATTRIBUTE_DONT_FRAGMENT : Z := 0x001A.
Definition STUN_ATTRIBUTE_TIMER_VAL : Z := 0x0021.
Definition STUN_ATTRIBUTE_RESERVATION_TOKEN : Z := 0x0022.
Definition STUN_ATTRIBUTE_PRIORITY : Z := 0x0024.
Definition STUN_ATTRIBUTE_ICE_CONTROLLED : Z := 0x8029.
Definition STUN_ATTRIBUTE_PADDING : Z := 0x0026.
Definition STUN_ATTRIBUTE_RESPONSE_PORT : Z := 0x0027.
Definition STUN_ATTRIBUTE_RESPONSE_ORIGIN : Z := 0x802B.
Definition STUN_ATTRIBUTE_OTHER_ADDRESS : Z := 0x802C.

Definition STUN_VALID_CHANNEL (chn : Z) : bool := (0x4000 <=? chn) && (chn <=? 0x7FFF).

Definition STUN_ATTRIBUTE_REQUESTED_ADDRESS_FAMILY_VALUE_IPV4 : Z := 0x01.
Definition STUN_ATTRIBUTE_REQUESTED_ADDRESS_FAMILY_VALUE_IPV6 : Z := 0x02.
Definition STUN_ATTRIBUTE_REQUESTED_ADDRESS_FAMILY_VALUE_DEFAULT : Z := 0x00.
Definition STUN_ATTRIBUTE_REQUESTED_ADDRESS_FAMILY_VALUE_INVALID : Z := -1.

Definition SHA1SIZEBYTES : Z := 20.
Definition SHA256SIZEBYTES : Z := 32.
Definition SHA384SIZEBYTES : Z := 48.
Definition SHA512SIZEBYTES : Z := 64.
Definition MAXSHASIZE : Z := 128.

Inductive SHATYPE : Type :=
| SHATYPE_ERROR
| SHATYPE_SHA1
| SHATYPE_SHA256
| SHATYPE_SHA384
| SHATYPE_SHA512.

Inductive ENC_ALG : Type :=
| ENC_ALG_ERROR
| A256GCM
| A128GCM
| ENC_ALG_NUM.

Definition ENC_ALG_DEFAULT : ENC_ALG := A256GCM.

Definition STUN_ATTRIBUTE_THIRD_PARTY_AUTHORIZATION : Z := 0x802E.
Definition STUN_ATTRIBUTE_OAUTH_ACCESS_TOKEN : Z := 0x001B.
Definition OAUTH_KID_SIZE : Z := 128.
Definition OAUTH_HASH_FUNC_SIZE : Z := 64.
Definition OAUTH_ALG_SIZE : Z := 64.
Definition OAUTH_KEY_SIZE : Z := 256.
Definition OAUTH_GCM_NONCE_SIZE : Z := 12.
Definition OAUTH_MAX_NONCE_SIZE : Z := 256.
Definition OAUTH_GCM_TAG_SIZE : Z := 16.
Definition OAUTH_ENC_ALG_BLOCK_SIZE : Z := 16.
Definition OAUTH_DEFAULT_LIFETIME : Z := 0.
Definition OAUTH_TIME_DELTA : Z := 5.
Definition MAX_ENCODED_OAUTH_TOKEN_SIZE : Z := 1024.

(** * ns_turn_msg_defs_experimental.h *)

Definition STUN_ATTRIBUTE_ORIGIN : Z := 0x802F.
Definition STUN_ATTRIBUTE_MOBILITY_TICKET : Z := 0x8030.
Definition STUN_ATTRIBUTE_NEW_BANDWIDTH : Z := 0x8000 + STUN_ATTRIBUTE_BANDWIDTH.
Definition STUN_ATTRIBUTE_ADDITIONAL_ADDRESS_FAMILY : Z := 0x8032.
Definition STUN_ATTRIBUTE_ADDRESS_ERROR_CODE : Z := 0x8033.

(** * ns_turn_msg.h *)

Definition STUN_TID_SIZE : Z := 12.

Inductive turn_credential_type : Type :=
| TURN_CREDENTIALS_NONE
| TURN_CREDENTIALS_LONG_TERM
| TURN_CREDENTIALS_SHORT_TERM
| TURN_CREDENTIALS_UNDEFINED.

#[export] Instance SHATYPE_eq_dec : EqDecision SHATYPE.
Proof. solve_decision. Defined.

#[export] Instance ENC_ALG_eq_dec : EqDecision ENC_ALG.
Proof. solve_decision. Defined.

#[export] Instance turn_credential_type_eq_dec : EqDecision turn_credential_type.
Proof. solve_decision. Defined.

(** * The 64-bit swap loop is the byte reversal *)

(** [turn_time_before] for times less than half the range apart is [<] on the
    unwrapped times; the 32-bit counter may wrap between the two. *)
Lemma turn_time_before_wrap t d :
  0 < d < 2147483648 ->
  turn_time_before (u32 t) (u32 (t + d)) = true /\ turn_time_before (u32 (t + d)) (u32 t) = false.
Proof.
  intros Hd. unfold turn_time_before, to_i32, u32.
  rewrite Z.ltb_lt, Z.ltb_ge.
  split; Z.div_mod_to_equations; lia.
Qed.

Lemma ioa_swap_rev b0 b1 b2 b3 b4 b5 b6 b7 :
  let l := [b0; b1; b2; b3; b4; b5; b6; b7] in
  bytes l -> ioa_swap 8 l 0 7 = Some (rev l).
Proof.
  intros l Hl.
  assert (forall b, b ∈ l -> u8 b = b) as E.
  { intros b Hb. apply u8_small. unfold bytes in Hl. rewrite Forall_forall in Hl. by apply Hl. }
  cbv -[u8]. rewrite !E by (unfold l; set_unfold; tauto). done.
Qed.

Lemma _ioa_ntoh64_nswap64 v : _ioa_ntoh64 v = Some (nswap64 v).
Proof.
  unfold _ioa_ntoh64, nswap64. pose proof (bytes_le_split 8 v) as Hb.
  cbn [le_split] in *. by rewrite ioa_swap_rev.
Qed.
