(* ===== verification/CString.v ===== *)
(** The functions of the C standard library on strings that the code calls.

    A C string is a memory suffix: the list of the bytes from the pointer to
    the end of the object.  The functions stop at the NUL like their originals
    and return [None] when the object ends before they do, the out-of-bounds
    read of a string that is not terminated. *)

From S2P Require Import Prelude.

(** A string literal: its ASCII codes, without the terminator. *)
Definition lit (s : String.string) : list Z :=
  (λ c, Z.of_N (Ascii.N_of_ascii c)) <$> String.list_ascii_of_string s.

(** The characters before the NUL. *)
Fixpoint c_str (s : list Z) : option (list Z) :=
  match s with
  | [] => None
  | c :: s' => if c =? 0 then Some [] else cons c <$> c_str s'
  end.

Definition strlen (s : list Z) : option Z := zlen <$> c_str s.

(** The terminated string with given contents. *)
Definition cstring (s : list Z) : list Z := s ++ [0].

(** A string literal, through its ASCII codes. *)
Definition nonzero (s : list Z) : Prop := Forall (λ c, c ≠ 0) s.

(** [s] begins with [x] (a literal, given by its characters): the comparison
    stops at the first difference. *)
Fixpoint starts_with (s x : list Z) : option bool :=
  match x with
  | [] => Some true
  | c :: x' =>
    match s with
    | [] => None
    | d :: s' => if d =? c then starts_with s' x' else Some false
    end
  end.

(** [strstr(s,x)]: the offset of the first occurrence, [Some None] for NULL. *)
Fixpoint strstr (s x : list Z) : option (option Z) :=
  b ← starts_with s x;
  if (b : bool) then Some (Some 0) else
  match s with
  | [] => None
  | c :: s' => if c =? 0 then Some None else r ← strstr s' x; Some (option_map Z.succ r)
  end.

(** [strcmp(a,b) == 0] *)
Definition streq (a b : list Z) : bool := bool_decide (a = b).

Definition isspace (c : Z) : bool := (c =? 32) || ((9 <=? c) && (c <=? 13)).

Definition tolower (c : Z) : Z := if (65 <=? c) && (c <=? 90) then c + 32 else c.

Definition digit_val (base c : Z) : option Z :=
  let d := if (48 <=? c) && (c <=? 57) then c - 48
           else if (97 <=? c) && (c <=? 122) then c - 87
           else if (65 <=? c) && (c <=? 90) then c - 55 else base in
  if d <? base then Some d else None.

Fixpoint skip_space (s : list Z) : option (list Z) :=
  match s with
  | [] => None
  | c :: s' => if isspace c then skip_space s' else Some s
  end.

(** The value of the longest prefix of digits. *)
Fixpoint digits (base acc : Z) (s : list Z) : option Z :=
  match s with
  | [] => None
  | c :: s' =>
    match digit_val base c with
    | Some d => digits base (acc * base + d) s'
    | None => Some acc
    end
  end.

(** The optional sign: the flag says whether it is a minus. *)
Definition sign (s : list Z) : option (bool * list Z) :=
  match s with
  | [] => None
  | c :: s' => if c =? 45 then Some (true, s') else if c =? 43 then Some (false, s') else Some (false, s)
  end.

Definition ULONG_MAX : Z := 18446744073709551615.

(** [strtoul(s,NULL,base)] for base 10 and for base 16 without a [0x] prefix
    (the callers pass at most two characters in base 16, where the prefix gives
    the same 0).  [unsigned long] is 64 bits wide on arm64-v8a. *)
Definition strtoul (s : list Z) (base : Z) : option Z :=
  s1 ← skip_space s;
  '(neg, s2) ← sign s1;
  v ← digits base 0 s2;
  Some (if ULONG_MAX <? v then ULONG_MAX else if (neg : bool) then u64 (- v) else v).

(** [atoi(s)]; a value that does not fit an [int] is undefined behaviour. *)
Definition atoi (s : list Z) : option Z :=
  s1 ← skip_space s;
  '(neg, s2) ← sign s1;
  v ← digits 10 0 s2;
  i32 (if (neg : bool) then - v else v).

(** The digits [%d] and [%u] print for a nonnegative value. *)
Fixpoint dec_aux (fuel : nat) (n : Z) (acc : list Z) : list Z :=
  match fuel with
  | O => acc
  | S f => let acc' := 48 + n mod 10 :: acc in
           if n / 10 =? 0 then acc' else dec_aux f (n / 10) acc'
  end.

(** Ten digits are enough for 32 bits, and no [int] has more. *)
Definition dec_string (n : Z) : list Z := dec_aux 10 n [].

(** [strncpy] of a string into an array field of [n] bytes. *)
Definition strncpy_field (s : list Z) (n : Z) : list Z :=
  take (Z.to_nat n) s ++ replicate (Z.to_nat n - length s) 0.

(** [snprintf(dst,size,...)] of a text. *)
Definition snprintf (dst : list Z) (size : Z) (text : list Z) : option (list Z) :=
  if size =? 0 then Some dst else wr_block dst 0 (take (Z.to_nat (size - 1)) text ++ [0]).

(** [STRCPY(dst,src)] into an array of [sz] bytes, not the size of a pointer. *)
Definition STRCPY (dst : list Z) (sz : Z) (src : list Z) : option (list Z) :=
  s ← c_str src;
  dst ← wr_block dst 0 (strncpy_field s sz);
  wr8 dst (sz - 1) 0.

Definition zeros (n : Z) : list Z := replicate (Z.to_nat n) 0.

(** A string field: the text, then zeros to the end of the array. *)
Definition field (n : Z) (t : list Z) : list Z := t ++ zeros (n - zlen t).

(** * Lemmas *)

Lemma c_str_cstring s : nonzero s -> c_str (cstring s) = Some s.
Proof.
  unfold cstring, nonzero. induction 1 as [|c s Hc Hs IH]; [done|].
  cbn [app c_str]. case_if; zbool; [done|]. by rewrite IH.
Qed.

Lemma c_str_app s t r : c_str s = Some t -> c_str (s ++ r) = Some t.
Proof.
  revert t. induction s as [|c s IH]; intros t; [done|]. cbn [app c_str].
  case_if; [done|]. intros H. inv_bind. by erewrite IH.
Qed.

Lemma c_str_terminated s rest : nonzero s -> c_str (s ++ 0 :: rest) = Some s.
Proof.
  intros H. change (0 :: rest) with ([0] ++ rest). rewrite app_assoc. apply c_str_app. by apply c_str_cstring.
Qed.

Lemma strlen_cstring s : nonzero s -> strlen (cstring s) = Some (zlen s).
Proof. intros. unfold strlen. by rewrite c_str_cstring. Qed.

Lemma dec_digit n : digit_val 10 (48 + n mod 10) = Some (n mod 10).
Proof.
  pose proof (Z.mod_pos_bound n 10 ltac:(lia)). unfold digit_val.
  assert ((48 <=? 48 + n mod 10) && (48 + n mod 10 <=? 57) = true) as ->.
  { rewrite andb_true_iff, !Z.leb_le. lia. }
  replace (48 + n mod 10 - 48) with (n mod 10) by lia.
  case_if; [done|]. zbool. lia.
Qed.

Lemma digits_dec_aux fuel n acc a rest :
  0 <= n < 10 ^ Z.of_nat fuel ->
  (1 <= fuel)%nat ->
  exists k, 0 <= k /\ n < 10 ^ k /\
  digits 10 a (dec_aux fuel n acc ++ rest) = digits 10 (a * 10 ^ k + n) (acc ++ rest).
Proof.
  revert n acc a. induction fuel as [|f IH]; intros n acc a Hn Hf; [lia|].
  cbn [dec_aux]. pose proof (Z.div_mod n 10 ltac:(lia)) as Hdm.
  pose proof (Z.mod_pos_bound n 10 ltac:(lia)) as Hmb. case_if; zbool.
  - exists 1. split; [lia|]. split; [lia|]. cbn [app digits].
    rewrite dec_digit. f_equal. lia.
  - rewrite Nat2Z.inj_succ, Z.pow_succ_r in Hn by lia.
    destruct f as [|f']. { change (10 ^ Z.of_nat 0) with 1 in Hn. exfalso. apply E. apply Z.div_small. lia. }
    destruct (IH (n / 10) (48 + n mod 10 :: acc) a) as (k & Hk0 & Hk & ->); [|lia|].
    { split; [apply Z.div_pos; lia|]. apply Z.div_lt_upper_bound; lia. }
    exists (k + 1). rewrite Z.pow_add_r by lia. split; [lia|]. split; [lia|].
    cbn [app digits]. rewrite dec_digit. f_equal. lia.
Qed.

Lemma dec_aux_head fuel n acc :
  (1 <= fuel)%nat -> exists c t, dec_aux fuel n acc = c :: t /\ 48 <= c <= 57.
Proof.
  revert n acc. induction fuel as [|f IH]; intros n acc Hf; [lia|].
  cbn [dec_aux]. pose proof (Z.mod_pos_bound n 10 ltac:(lia)) as Hmb. case_if.
  - eexists _, _. split; [done|]. lia.
  - destruct f; [|apply IH; lia]. eexists _, _. split; [done|]. lia.
Qed.

(** Decimal printing and reading are inverse on the values the code prints. *)
Lemma atoi_dec_string n c rest :
  0 <= n <= 2147483647 -> digit_val 10 c = None -> atoi (dec_string n ++ c :: rest) = Some n.
Proof.
  intros Hn Hc. unfold atoi, dec_string.
  destruct (dec_aux_head 10 n []) as (d & t & Hd & Hdr); [lia|].
  assert (skip_space (dec_aux 10 n [] ++ c :: rest) = Some (dec_aux 10 n [] ++ c :: rest)) as ->.
  { rewrite Hd. cbn [app skip_space]. unfold isspace. repeat case_if; zbool; try done.
    apply orb_true_iff in E as [?|?]; zbool; lia. }
  cbn [mbind option_bind].
  assert (sign (dec_aux 10 n [] ++ c :: rest) = Some (false, dec_aux 10 n [] ++ c :: rest)) as ->.
  { rewrite Hd. cbn [app sign]. repeat case_if; zbool; try done; lia. }
  cbn [mbind option_bind].
  destruct (digits_dec_aux 10 n [] 0 (c :: rest)) as (k & _ & _ & ->); [|lia|].
  { change (10 ^ Z.of_nat 10) with 10000000000. lia. }
  cbn [app digits]. rewrite Hc. cbn [mbind option_bind]. rewrite i32_Some by lia. f_equal; lia.
Qed.

Lemma dec_aux_digits fuel n acc :
  Forall (λ c, 48 <= c <= 57) acc -> Forall (λ c, 48 <= c <= 57) (dec_aux fuel n acc).
Proof.
  revert n acc. induction fuel as [|f IH]; intros n acc H; [done|]. cbn [dec_aux].
  pose proof (Z.mod_pos_bound n 10 ltac:(lia)) as Hmb.
  assert (Forall (λ c, 48 <= c <= 57) (48 + n mod 10 :: acc)) by (constructor; [lia|done]).
  case_if; auto.
Qed.

Lemma dec_string_digits n : Forall (λ c, 48 <= c <= 57) (dec_string n).
Proof. apply dec_aux_digits. constructor. Qed.

Lemma rd8_head b post : rd8 (b :: post) 0 = Some b.
Proof. by apply (rd8_here []). Qed.

Lemma zlen_zeros n : 0 <= n -> zlen (zeros n) = n.
Proof. apply zlen_replicate. Qed.

Lemma STRCPY_field dst n w r :
  zlen dst = n -> nonzero w -> zlen w < n -> STRCPY dst n (w ++ 0 :: r) = Some (field n w).
Proof.
  intros Hd Hw Hl. pose proof (zlen_nonneg w). unfold STRCPY. rewrite c_str_terminated by done. cbn [mbind option_bind].
  assert (strncpy_field w n = field n w /\ zlen (field n w) = n) as [-> Hz].
  { unfold strncpy_field, field, zeros, zlen in *. rewrite take_ge by lia. split.
    - f_equal. f_equal. lia.
    - rewrite length_app, length_replicate. lia. }
  rewrite wr_block_full by lia. cbn [mbind option_bind].
  assert (field n w = (w ++ zeros (n - 1 - zlen w)) ++ [0]) as ->.
  { unfold field, zeros. rewrite <- app_assoc. f_equal.
    replace (Z.to_nat (n - zlen w)) with (Z.to_nat (n - 1 - zlen w) + 1)%nat by lia.
    by rewrite replicate_add. }
  apply wr8_here; [|done]. rewrite zlen_app, zlen_zeros by lia. lia.
Qed.

(** A field holds its text. *)
Lemma field_cons n w : zlen w < n -> field n w = w ++ 0 :: zeros (n - zlen w - 1).
Proof.
  intros H. unfold field, zeros. f_equal.
  by replace (Z.to_nat (n - zlen w)) with (S (Z.to_nat (n - zlen w - 1))) by lia.
Qed.

Lemma c_str_Some m s : c_str m = Some s -> nonzero s /\ exists r, m = s ++ 0 :: r.
Proof.
  revert s. induction m as [|c m IH]; intros s; [done|]. cbn [c_str]. case_if; zbool.
  - intros [= <-]. subst c. split; [constructor|by exists m].
  - intros H. inv_bind. destruct (IH _ H) as (Hn & r & ->). split; [by constructor|by exists r].
Qed.

(** A string written with its terminator at the start of an object is the string there. *)
Lemma c_str_written dst s d : nonzero s -> wr_block dst 0 (s ++ [0]) = Some d -> zlen d = zlen dst /\ c_str d = Some s.
Proof.
  intros Hs Hw. split; [by eapply wr_block_zlen|]. apply wr_block_Some in Hw as (_ & _ & ->).
  change (take (Z.to_nat 0) dst) with (@nil Z). cbn [app]. rewrite <- app_assoc. by apply c_str_terminated.
Qed.

Lemma snprintf_text dst size t :
  nonzero t -> zlen t < size <= zlen dst ->
  exists d, snprintf dst size t = Some d /\ zlen d = zlen dst /\ c_str d = Some t.
Proof.
  intros Ht Hz. pose proof (zlen_nonneg t). unfold snprintf. case_if; zbool; [lia|].
  rewrite take_ge by (unfold zlen in *; lia).
  destruct (wr_block dst 0 (t ++ [0])) as [d|] eqn:Hd;
    [|rewrite wr_block_ok in Hd by (rewrite ?zlen_app, ?zlen_1; lia); done].
  exists d. split; [done|]. by apply c_str_written.
Qed.

(** An array that ends with NUL holds a string. *)
Lemma c_str_ended l : exists t, c_str (l ++ [0]) = Some t.
Proof.
  induction l as [|c l [t IH]]; [by exists []|]. cbn [app c_str]. destruct (c =? 0); [by exists []|]. rewrite IH. by eexists.
Qed.

(** [snprintf] cuts the text at the size it is given. *)
Lemma snprintf_cut dst size t :
  nonzero t -> 0 < size <= zlen dst ->
  exists d, snprintf dst size t = Some d /\ zlen d = zlen dst /\ c_str d = Some (take (Z.to_nat (size - 1)) t).
Proof.
  intros Ht Hz. set (u := take _ t). assert (zlen u < size) as Hu by (unfold u, zlen; rewrite length_take; lia).
  unfold snprintf. fold u. destruct (Z.eqb_spec size 0); [lia|]. pose proof (zlen_nonneg u).
  destruct (wr_block dst 0 (u ++ [0])) as [d|] eqn:Hd; [|rewrite wr_block_ok in Hd by (rewrite ?zlen_app, ?zlen_1; lia); done].
  exists d. split; [done|]. apply c_str_written; [by apply Forall_take|done].
Qed.

(** [STRCPY] into an array cuts the string at the size of the array. *)
Lemma STRCPY_cut dst n src w :
  c_str src = Some w -> zlen dst = n -> 0 < n ->
  exists d, STRCPY dst n src = Some d /\ zlen d = n /\ c_str d = Some (take (Z.to_nat (n - 1)) w).
Proof.
  intros Hs Hd Hn. destruct (c_str_Some _ _ Hs) as (Hw & r & ->). pose proof (zlen_nonneg w).
  destruct (Z.lt_ge_cases (zlen w) n) as [Hl|Hl].
  { exists (field n w). rewrite (STRCPY_field _ n) by done. rewrite take_ge by (unfold zlen in *; lia).
    rewrite field_cons by done. split; [done|]. split; [|by apply c_str_terminated].
    rewrite zlen_app, zlen_cons, zlen_zeros by lia. lia. }
  unfold STRCPY, strncpy_field. rewrite Hs. cbn [mbind option_bind].
  replace (Z.to_nat n - length w)%nat with 0%nat by (unfold zlen in *; lia). cbn [replicate]. rewrite app_nil_r.
  destruct (drop (Z.to_nat (n - 1)) w) as [|x w'] eqn:Hx.
  { apply (f_equal length) in Hx. rewrite length_drop in Hx. cbn in Hx. unfold zlen in *. lia. }
  assert (zlen (take (Z.to_nat (n - 1)) w) = n - 1) as Hk by (unfold zlen in *; rewrite length_take; lia).
  assert (take (Z.to_nat n) w = take (Z.to_nat (n - 1)) w ++ [x]) as ->.
  { replace (Z.to_nat n) with (Z.to_nat (n - 1) + 1)%nat by lia. rewrite <- take_take_drop, Hx. done. }
  rewrite wr_block_full by (rewrite zlen_app, Hk, zlen_1; lia). cbn [mbind option_bind].
  rewrite (wr8_here _ x [] (n - 1) 0) by lia. eexists. split; [done|].
  split; [rewrite zlen_app, Hk, zlen_1; lia|]. apply c_str_terminated. by apply Forall_take.
Qed.

Lemma starts_with_nil s : starts_with s [] = Some true.
Proof. by destruct s. Qed.

(** Searching for one character. *)
Lemma strstr_char pre c r : nonzero pre -> c ∉ pre -> strstr (pre ++ c :: r) [c] = Some (Some (zlen pre)).
Proof.
  induction pre as [|d pre IH]; intros Hn Hc.
  - cbn [app strstr starts_with mbind option_bind]. rewrite Z.eqb_refl. by rewrite starts_with_nil.
  - apply Forall_cons in Hn as [Hd Hn]. apply not_elem_of_cons in Hc as [Hdc Hc].
    cbn [app strstr starts_with mbind option_bind]. destruct (Z.eqb_spec d c); [by subst|].
    apply Z.eqb_neq in Hd as ->. rewrite IH by done. cbn [mbind option_bind option_map]. rewrite zlen_cons. do 2 f_equal. lia.
Qed.

Lemma strstr_char_none t c r : nonzero t -> c ∉ t -> c <> 0 -> strstr (t ++ 0 :: r) [c] = Some None.
Proof.
  induction t as [|d t IH]; intros Hn Hc H0.
  - cbn [app strstr starts_with mbind option_bind]. by destruct (Z.eqb_spec 0 c); [subst|].
  - apply Forall_cons in Hn as [Hd Hn]. apply not_elem_of_cons in Hc as [Hdc Hc].
    cbn [app strstr starts_with mbind option_bind]. destruct (Z.eqb_spec d c); [by subst|].
    apply Z.eqb_neq in Hd as ->. by rewrite IH.
Qed.

Lemma zlen_dec_aux f n acc : zlen (dec_aux f n acc) <= Z.of_nat f + zlen acc.
Proof.
  revert n acc. induction f as [|f IH]; intros n acc; [cbn; lia|]. cbn [dec_aux].
  specialize (IH (n / 10) (48 + n mod 10 :: acc)). rewrite zlen_cons in IH. case_if; [rewrite zlen_cons|]; lia.
Qed.

Lemma zlen_dec_string n : zlen (dec_string n) <= 10.
Proof. pose proof (zlen_dec_aux 10 n []) as H. change (zlen (@nil Z)) with 0 in H. unfold dec_string. lia. Qed.
