(* ===== verification/IoAddr.v ===== *)
(** Transport addresses: [client/ns_turn_ioaddr.c] and [.h].

    [ioa_addr] is a union of [sockaddr], [sockaddr_in] and [sockaddr_in6]
    (28 bytes, Linux layout).  Its bytes are partitioned into the fields below:
    [sin_port] and [sin6_port] share bytes 2-3, [sin_addr] shares bytes 4-7 with
    [sin6_flowinfo].  Ports and [s_addr] are kept as the native integers the
    code reads, that is, with the network bytes in little-endian order.  A
    pointer argument the code tests for NULL is an [option]. *)

From S2P Require Import Prelude Defs CString.

Definition AF_INET : Z := 2.
Definition AF_INET6 : Z := 10.

Record ioa_addr : Type := IoaAddr {
  sa_family : Z;
  sin_port : Z;
  s_addr : Z;
  sin6_addr : list Z;
  sin6_scope_id : Z;
}.

Record ioa_addr_range : Type := IoaAddrRange {
  range_min : ioa_addr;
  range_max : ioa_addr;
}.

#[export] Instance ioa_addr_eq_dec : EqDecision ioa_addr.
Proof. solve_decision. Defined.

(** The field values an object in memory can have. *)
Record addr_ok (a : ioa_addr) : Prop := AddrOk {
  ok_family : 0 <= sa_family a < 65536;
  ok_port : 0 <= sin_port a < 65536;
  ok_s_addr : 0 <= s_addr a < 4294967296;
  ok_bytes6 : bytes (sin6_addr a);
  ok_len6 : length (sin6_addr a) = 16%nat;
}.

Definition set_family (a : ioa_addr) (f : Z) : ioa_addr :=
  IoaAddr f (sin_port a) (s_addr a) (sin6_addr a) (sin6_scope_id a).
Definition set_port_raw (a : ioa_addr) (p : Z) : ioa_addr :=
  IoaAddr (sa_family a) p (s_addr a) (sin6_addr a) (sin6_scope_id a).
Definition set_s_addr (a : ioa_addr) (v : Z) : ioa_addr :=
  IoaAddr (sa_family a) (sin_port a) v (sin6_addr a) (sin6_scope_id a).
Definition set_sin6_addr (a : ioa_addr) (v : list Z) : ioa_addr :=
  IoaAddr (sa_family a) (sin_port a) (s_addr a) v (sin6_scope_id a).

(** The bytes of [sin_addr]. *)
Definition sin_addr_bytes (a : ioa_addr) : list Z := le_split 4 (s_addr a).

Definition addr_zero : ioa_addr := IoaAddr 0 0 0 (replicate 16 0) 0.

Definition get_ioa_addr_len (addr : ioa_addr) : Z :=
  if sa_family addr =? AF_INET then 16
  else if sa_family addr =? AF_INET6 then 28
  else 0.

Definition addr_set_any (addr : option ioa_addr) : option ioa_addr :=
  match addr with Some _ => Some addr_zero | None => None end.

Definition addr_any (addr : option ioa_addr) : bool :=
  match addr with
  | None => true
  | Some addr =>
    if sa_family addr =? AF_INET then (s_addr addr =? 0) && (sin_port addr =? 0)
    else if sa_family addr =? AF_INET6 then
      if negb (sin_port addr =? 0) then false
      else forallb (λ b, b =? 0) (sin6_addr addr)
    else true
  end.

Definition addr_any_no_port (addr : option ioa_addr) : bool :=
  match addr with
  | None => true
  | Some addr =>
    if sa_family addr =? AF_INET then s_addr addr =? 0
    else if sa_family addr =? AF_INET6 then forallb (λ b, b =? 0) (sin6_addr addr)
    else true
  end.

(** * Hashes *)

Definition hash_int32 (a : Z) : Z :=
  let a := Z.lxor a (Z.shiftr a 4) in
  let a := u32 (Z.lxor a 0xdeadbeef + u32 (Z.shiftl a 5)) in
  Z.lxor a (Z.shiftr a 11).

Definition hash_int64 (a : Z) : Z :=
  let a := Z.lxor a (Z.shiftr a 4) in
  let a := u64 (Z.lxor a 0xdeadbeefdeadbeef + u64 (Z.shiftl a 5)) in
  Z.lxor a (Z.shiftr a 11).

Definition addr_hash (addr : option ioa_addr) : Z :=
  match addr with
  | None => 0
  | Some addr =>
    if sa_family addr =? AF_INET then hash_int32 (u32 (s_addr addr + sin_port addr))
    else
      let a0 := le_combine (take 8 (sin6_addr addr)) in
      let a1 := le_combine (drop 8 (sin6_addr addr)) in
      u32 (u64 (Z.shiftl (hash_int64 a0) 3) + hash_int64 (u64 (a1 + sin_port addr)))
  end.

Definition addr_hash_no_port (addr : option ioa_addr) : Z :=
  match addr with
  | None => 0
  | Some addr =>
    if sa_family addr =? AF_INET then hash_int32 (s_addr addr)
    else
      let a0 := le_combine (take 8 (sin6_addr addr)) in
      let a1 := le_combine (drop 8 (sin6_addr addr)) in
      u32 (u64 (Z.shiftl (hash_int64 a0) 3) + hash_int64 a1)
  end.

(** * Copies and comparisons *)

Definition addr_cpy (dst src : option ioa_addr) : option ioa_addr :=
  match dst, src with
  | Some _, Some s => Some s
  | _, _ => dst
  end.

(** [addr_cpy4] copies 16 bytes: family, port, [sin_addr] and 8 bytes of padding
    that overlap the first half of [sin6_addr]. *)
Definition addr_cpy4 (dst src : option ioa_addr) : option ioa_addr :=
  match src, dst with
  | Some s, Some d =>
    Some (IoaAddr (sa_family s) (sin_port s) (s_addr s)
                  (take 8 (sin6_addr s) ++ drop 8 (sin6_addr d)) (sin6_scope_id d))
  | _, _ => dst
  end.

Definition addr_cpy6 (dst src : option ioa_addr) : option ioa_addr :=
  match src, dst with
  | Some s, Some _ => Some s
  | _, _ => dst
  end.

Definition addr_eq (a1 a2 : option ioa_addr) : bool :=
  match a1, a2 with
  | None, None => true
  | None, Some _ => false
  | Some _, None => false
  | Some a1, Some a2 =>
    if sa_family a1 =? sa_family a2 then
      if (sa_family a1 =? AF_INET) && (sin_port a1 =? sin_port a2) then
        to_i32 (s_addr a1) =? to_i32 (s_addr a2)
      else if (sa_family a1 =? AF_INET6) && (sin_port a1 =? sin_port a2) then
        bool_decide (sin6_addr a1 = sin6_addr a2)
      else false
    else false
  end.

Definition addr_eq_no_port (a1 a2 : option ioa_addr) : bool :=
  match a1, a2 with
  | None, None => true
  | None, Some _ => false
  | Some _, None => false
  | Some a1, Some a2 =>
    if sa_family a1 =? sa_family a2 then
      if sa_family a1 =? AF_INET then to_i32 (s_addr a1) =? to_i32 (s_addr a2)
      else if sa_family a1 =? AF_INET6 then bool_decide (sin6_addr a1 = sin6_addr a2)
      else false
    else false
  end.

(** * Ports *)

Definition addr_set_port (addr : option ioa_addr) (port : Z) : option ioa_addr :=
  match addr with
  | None => None
  | Some a =>
    if sa_family a =? AF_INET then Some (set_port_raw a (nswap16 port))
    else if sa_family a =? AF_INET6 then Some (set_port_raw a (nswap16 port))
    else Some a
  end.

Definition addr_get_port (addr : option ioa_addr) : Z :=
  match addr with
  | None => 0
  | Some a =>
    if sa_family a =? AF_INET then nswap16 (sin_port a)
    else if sa_family a =? AF_INET6 then nswap16 (sin_port a)
    else 0
  end.

(** * Ranges *)

Definition ioa_addr_range_set (range : option ioa_addr_range) (addr_min addr_max : option ioa_addr)
    : option ioa_addr_range :=
  match range with
  | None => None
  | Some _ =>
    Some (IoaAddrRange (match addr_min with Some a => a | None => addr_zero end)
                       (match addr_max with Some a => a | None => addr_zero end))
  end.

(** The IPv6 loop: the first byte of [l] that exceeds its counterpart in [k]
    decides against. *)
Fixpoint bytes_all_le (l k : list Z) : bool :=
  match l, k with
  | a :: l', b :: k' => if b <? a then false else bytes_all_le l' k'
  | _, _ => true
  end.

Definition addr_less_eq (addr1 addr2 : option ioa_addr) : bool :=
  match addr1, addr2 with
  | None, _ => true
  | Some _, None => false
  | Some addr1, Some addr2 =>
    if negb (sa_family addr1 =? sa_family addr2) then sa_family addr1 <? sa_family addr2
    else if sa_family addr1 =? AF_INET then nswap32 (s_addr addr1) <=? nswap32 (s_addr addr2)
    else if sa_family addr1 =? AF_INET6 then bytes_all_le (sin6_addr addr1) (sin6_addr addr2)
    else true
  end.

Definition ioa_addr_in_range (range : option ioa_addr_range) (addr : option ioa_addr) : bool :=
  match range, addr with
  | Some range, Some addr =>
    if addr_any (Some (range_min range)) || addr_less_eq (Some (range_min range)) (Some addr) then
      if addr_any (Some (range_max range)) then true
      else addr_less_eq (Some addr) (Some (range_max range))
    else false
  | _, _ => false
  end.

Definition ioa_addr_range_cpy (dest src : option ioa_addr_range) : option ioa_addr_range :=
  match dest, src with
  | Some _, Some s => Some s
  | _, _ => dest
  end.

(** * Address classes *)

Definition ioa_addr_is_multicast (addr : option ioa_addr) : bool :=
  match addr with
  | None => false
  | Some a =>
    if sa_family a =? AF_INET then 223 <? nth 0 (sin_addr_bytes a) 0
    else if sa_family a =? AF_INET6 then nth 0 (sin6_addr a) 0 =? 255
    else false
  end.

Definition ioa_addr_is_loopback (addr : option ioa_addr) : bool :=
  match addr with
  | None => false
  | Some a =>
    if sa_family a =? AF_INET then nth 0 (sin_addr_bytes a) 0 =? 127
    else if sa_family a =? AF_INET6 then
      if nth 15 (sin6_addr a) 0 =? 1 then forallb (λ b, b =? 0) (take 15 (sin6_addr a))
      else false
    else false
  end.

Definition ioa_addr_is_zero (addr : option ioa_addr) : bool :=
  match addr with
  | None => false
  | Some a =>
    if sa_family a =? AF_INET then nth 0 (sin_addr_bytes a) 0 =? 0
    else if sa_family a =? AF_INET6 then forallb (λ b, b =? 0) (take 16 (sin6_addr a))
    else false
  end.

(** * The public/private address map

    The file's static state: two arrays grown by [realloc] in step, the number
    of entries [mcount] and the size in bytes [msz].  An array is the list of
    its slots, [None] for a slot not yet written. *)

Record addr_maps : Type := AddrMaps {
  public_addrs : list (option ioa_addr);
  private_addrs : list (option ioa_addr);
  mcount : Z;
  msz : Z;
}.

Definition addr_maps_init : addr_maps := AddrMaps [] [] 0 0.

Definition sizeof_ptr : Z := 8.

(** [realloc(a, new_size)] keeps the slots that fit and adds unset ones. *)
Definition realloc_slots (a : list (option ioa_addr)) (new_size : Z) : list (option ioa_addr) :=
  let n := Z.to_nat (new_size / sizeof_ptr) in
  take n a ++ replicate (n - length a) None.

Definition set_slot (a : list (option ioa_addr)) (i : Z) (v : ioa_addr)
    : option (list (option ioa_addr)) :=
  if (0 <=? i) && (i <? zlen a) then Some (<[Z.to_nat i := Some v]> a) else None.

Definition get_slot (a : list (option ioa_addr)) (i : Z) : option ioa_addr :=
  if 0 <=? i then mjoin (a !! Z.to_nat i) else None.

(** [None]: a write outside the arrays. *)
Definition ioa_addr_add_mapping (st : addr_maps) (apub apriv : ioa_addr) : option addr_maps :=
  let new_size := msz st + sizeof_ptr in
  let pub := realloc_slots (public_addrs st) new_size in
  let priv := realloc_slots (private_addrs st) new_size in
  pub' ← set_slot pub (mcount st) apub;
  priv' ← set_slot priv (mcount st) apriv;
  Some (AddrMaps pub' priv' (mcount st + 1) (msz st + sizeof_ptr)).

(** The two lookups are the same loop with the arrays exchanged: the first
    entry of [keys] with the address of [a] gives the result, with the port of
    [a].  [None]: a slot of an array is read before it is written. *)
Fixpoint map_addr_loop (n : nat) (i : Z) (keys vals : list (option ioa_addr)) (a : ioa_addr)
    : option ioa_addr :=
  match n with
  | O => Some a
  | S n' =>
    k ← get_slot keys i;
    if addr_eq_no_port (Some a) (Some k) then
      v ← get_slot vals i;
      addr_set_port (Some v) (addr_get_port (Some a))
    else map_addr_loop n' (i + 1) keys vals a
  end.

Definition map_addr_from_public_to_private (st : addr_maps) (public_addr : ioa_addr) : option ioa_addr :=
  map_addr_loop (Z.to_nat (mcount st)) 0 (public_addrs st) (private_addrs st) public_addr.

Definition map_addr_from_private_to_public (st : addr_maps) (private_addr : ioa_addr) : option ioa_addr :=
  map_addr_loop (Z.to_nat (mcount st)) 0 (private_addrs st) (public_addrs st) private_addr.

(** * Properties *)

Lemma to_i32_inj a b :
  0 <= a < 4294967296 -> 0 <= b < 4294967296 -> to_i32 a = to_i32 b -> a = b.
Proof. unfold to_i32. intros. Z.div_mod_to_equations. lia. Qed.

Lemma addr_eq_spec a b :
  addr_ok a -> addr_ok b ->
  addr_eq (Some a) (Some b) = true <->
  (sa_family a = AF_INET /\ sa_family b = AF_INET /\ sin_port a = sin_port b /\ s_addr a = s_addr b) \/
  (sa_family a = AF_INET6 /\ sa_family b = AF_INET6 /\ sin_port a = sin_port b /\
   sin6_addr a = sin6_addr b).
Proof.
  intros Ha Hb. unfold addr_eq, AF_INET, AF_INET6 in *.
  pose proof (ok_s_addr a Ha). pose proof (ok_s_addr b Hb). split.
  - case_if; [|done]. zbool. case_if; zbool.
    + intros ?%Z.eqb_eq%to_i32_inj; [|done..]. lia.
    + case_if; [|done]. zbool. intros ?%bool_decide_eq_true. right. repeat split; try done; lia.
  - intros [(E1 & E2 & -> & ->)|(E1 & E2 & -> & ->)]; rewrite E1, E2, !Z.eqb_refl; simpl.
    + done.
    + by apply bool_decide_eq_true.
Qed.

Lemma addr_eq_no_port_spec a b :
  addr_ok a -> addr_ok b ->
  addr_eq_no_port (Some a) (Some b) = true <->
  (sa_family a = AF_INET /\ sa_family b = AF_INET /\ s_addr a = s_addr b) \/
  (sa_family a = AF_INET6 /\ sa_family b = AF_INET6 /\ sin6_addr a = sin6_addr b).
Proof.
  intros Ha Hb. unfold addr_eq_no_port, AF_INET, AF_INET6 in *.
  pose proof (ok_s_addr a Ha). pose proof (ok_s_addr b Hb). split.
  - case_if; [|done]. zbool. case_if; zbool.
    + intros ?%Z.eqb_eq%to_i32_inj; [|done..]. lia.
    + case_if; [|done]. zbool. intros ?%bool_decide_eq_true. right. repeat split; try done; lia.
  - intros [(E1 & E2 & ->)|(E1 & E2 & ->)]; rewrite E1, E2, !Z.eqb_refl; simpl.
    + done.
    + by apply bool_decide_eq_true.
Qed.

(** Hashing respects address equality, so that a table of addresses that
    buckets by [addr_hash] (or [addr_hash_no_port]) and compares with [addr_eq]
    (or [addr_eq_no_port]) never misses an equal key. *)
Theorem addr_hash_respects_eq a b :
  addr_ok a -> addr_ok b ->
  (addr_eq (Some a) (Some b) = true -> addr_hash (Some a) = addr_hash (Some b)) /\
  (addr_eq_no_port (Some a) (Some b) = true ->
   addr_hash_no_port (Some a) = addr_hash_no_port (Some b)).
Proof.
  intros Ha Hb. split; intros H.
  - apply addr_eq_spec in H; [|done..]. unfold addr_hash.
    destruct H as [(E1 & E2 & -> & ->)|(E1 & E2 & -> & ->)]; by rewrite E1, E2.
  - apply addr_eq_no_port_spec in H; [|done..]. unfold addr_hash_no_port.
    destruct H as [(E1 & E2 & ->)|(E1 & E2 & ->)]; by rewrite E1, E2.
Qed.

Definition is_inet (a : ioa_addr) : Prop := sa_family a = AF_INET \/ sa_family a = AF_INET6.

Lemma addr_set_get_port a port :
  is_inet a -> exists a', addr_set_port (Some a) port = Some a' /\
  a' = set_port_raw a (nswap16 port) /\ addr_get_port (Some a') = u16 port.
Proof.
  intros H. unfold addr_set_port, addr_get_port.
  exists (set_port_raw a (nswap16 port)).
  assert (nswap16 (nswap16 port) = u16 port) as Hp.
  { unfold nswap16. by rewrite nswap_nswap. }
  destruct H as [E|E]; unfold set_port_raw; cbn [sa_family sin_port]; rewrite E; simpl; done.
Qed.

Lemma addr_set_own_port a :
  is_inet a -> addr_ok a -> addr_set_port (Some a) (addr_get_port (Some a)) = Some a.
Proof.
  intros H Ha. unfold addr_set_port, addr_get_port.
  destruct H as [E|E]; rewrite E; simpl; rewrite nswap16_nswap16 by apply Ha; by destruct a.
Qed.

(** ** IPv4 ranges *)

Definition ipv4 (a : ioa_addr) : Z := nswap32 (s_addr a).

Lemma addr_any_inet a : sa_family a = AF_INET ->
  addr_any (Some a) = true <-> s_addr a = 0 /\ sin_port a = 0.
Proof.
  intros E. unfold addr_any. rewrite E, Z.eqb_refl, andb_true_iff, !Z.eqb_eq. reflexivity.
Qed.

(** ** The order on IPv6 addresses *)

Lemma bytes_all_le_spec l k :
  length l = length k -> bytes_all_le l k = true <-> Forall2 (λ x y, x <= y) l k.
Proof.
  revert k. induction l as [|x l IH]; intros [|y k] Hl; try done.
  simpl in *. case_if; zbool.
  - split; [done|]. inversion 1; lia.
  - rewrite IH by lia. split; [by constructor|]. by inversion 1.
Qed.

(** ** The address map *)

(** The abstract state: the mappings in the order they were added. *)
Definition maps_repr (st : addr_maps) (l : list (ioa_addr * ioa_addr)) : Prop :=
  public_addrs st = Some ∘ fst <$> l /\ private_addrs st = Some ∘ snd <$> l /\
  mcount st = zlen l /\ msz st = sizeof_ptr * zlen l.

Lemma maps_repr_init : maps_repr addr_maps_init [].
Proof. done. Qed.

Lemma set_slot_grow (l : list (option ioa_addr)) v :
  set_slot (realloc_slots l (sizeof_ptr * zlen l + sizeof_ptr)) (zlen l) v = Some (l ++ [Some v]).
Proof.
  unfold realloc_slots, set_slot, sizeof_ptr.
  replace ((8 * zlen l + 8) / 8) with (zlen l + 1) by (Z.div_mod_to_equations; lia).
  unfold zlen. rewrite take_ge by lia.
  replace (Z.to_nat (Z.of_nat (length l) + 1) - length l)%nat with 1%nat by lia. simpl.
  rewrite length_app. simpl. case_if.
  - rewrite Nat2Z.id, insert_app_r_alt by lia. by rewrite Nat.sub_diag.
  - rewrite andb_false_iff, Z.leb_gt, Z.ltb_ge in E. lia.
Qed.

Lemma ioa_addr_add_mapping_spec st l pub priv :
  maps_repr st l -> exists st', ioa_addr_add_mapping st pub priv = Some st' /\
  maps_repr st' (l ++ [(pub, priv)]).
Proof.
  intros (E1 & E2 & E3 & E4). unfold ioa_addr_add_mapping. rewrite E1, E2, E3, E4.
  assert (forall (f : ioa_addr * ioa_addr -> ioa_addr) v,
    set_slot (realloc_slots (Some ∘ f <$> l) (sizeof_ptr * zlen l + sizeof_ptr)) (zlen l) v =
    Some ((Some ∘ f <$> l) ++ [Some v])) as Hgrow.
  { intros f v. replace (zlen l) with (zlen (Some ∘ f <$> l)) by (unfold zlen; by rewrite length_fmap).
    apply set_slot_grow. }
  rewrite !Hgrow. cbn [mbind option_bind].
  eexists. split; [done|]. unfold maps_repr. simpl.
  rewrite !fmap_app, zlen_app. change (zlen [(pub, priv)]) with 1. simpl.
  repeat split; unfold sizeof_ptr; lia.
Qed.

(** The reference lookup: the first pair whose key has the address of [a]. *)
Definition lookup_addr (l : list (ioa_addr * ioa_addr)) (a : ioa_addr) : ioa_addr :=
  match list_find (λ kv, addr_eq_no_port (Some a) (Some kv.1) = true) l with
  | Some (_, (_, v)) =>
    match addr_set_port (Some v) (addr_get_port (Some a)) with Some r => r | None => v end
  | None => a
  end.

Lemma get_slot_fmap {A} (f : A -> ioa_addr) (pre l : list A) x :
  get_slot (Some ∘ f <$> (pre ++ x :: l)) (zlen pre) = Some (f x).
Proof.
  unfold get_slot. pose proof (zlen_nonneg pre). case_if; zbool; [|lia].
  unfold zlen. rewrite Nat2Z.id, list_lookup_fmap, list_lookup_middle by done. done.
Qed.

Lemma map_addr_loop_spec {A} (fk fv : A -> ioa_addr) (l pre : list A) a :
  map_addr_loop (length l) (zlen pre) (Some ∘ fk <$> (pre ++ l)) (Some ∘ fv <$> (pre ++ l)) a =
  Some (lookup_addr ((λ x, (fk x, fv x)) <$> l) a).
Proof.
  revert pre. induction l as [|x l IH]; intros pre; [done|]. cbn [length map_addr_loop].
  rewrite !get_slot_fmap. cbn [mbind option_bind]. unfold lookup_addr. rewrite fmap_cons.
  cbn [list_find fst]. destruct (addr_eq_no_port (Some a) (Some (fk x))) eqn:E.
  - rewrite decide_True by done. unfold addr_set_port. repeat case_if; done.
  - rewrite decide_False by congruence.
    replace (zlen pre + 1) with (zlen (pre ++ [x])) by (rewrite zlen_app; done).
    rewrite (cons_middle x pre l), app_assoc, IH. unfold lookup_addr.
    destruct (list_find _ _) as [[? [? ?]]|]; done.
Qed.

Definition swap {A B} (p : A * B) : B * A := (p.2, p.1).

Lemma map_addr_spec st l a :
  maps_repr st l ->
  map_addr_from_public_to_private st a = Some (lookup_addr l a) /\
  map_addr_from_private_to_public st a = Some (lookup_addr (swap <$> l) a).
Proof.
  intros (E1 & E2 & E3 & _). unfold map_addr_from_public_to_private, map_addr_from_private_to_public.
  rewrite E1, E2, E3. unfold zlen. rewrite Nat2Z.id. split.
  - rewrite (map_addr_loop_spec fst snd l []). f_equal. f_equal.
    rewrite <- (list_fmap_id l) at 2. apply list_fmap_ext. by intros ? [].
  - by rewrite (map_addr_loop_spec snd fst l []).
Qed.

(** The static map: from any state reached by adding mappings, adding one
    more never writes outside the grown arrays and records it last, and the two
    lookups compute the first matching entry in insertion order with the port of
    the argument (the reference [lookup_addr]). *)
Theorem addr_maps_refine st l pub priv a :
  maps_repr st l ->
  (exists st', ioa_addr_add_mapping st pub priv = Some st' /\ maps_repr st' (l ++ [(pub, priv)])) /\
  map_addr_from_public_to_private st a = Some (lookup_addr l a) /\
  map_addr_from_private_to_public st a = Some (lookup_addr (swap <$> l) a).
Proof. intros H. split; [by apply ioa_addr_add_mapping_spec|by apply map_addr_spec]. Qed.

(** ** Range membership against the numeric order *)

Definition ipv6 (a : ioa_addr) : Z := be_combine (sin6_addr a).

Lemma le_combine_mono l k : Forall2 (λ x y, x <= y) l k -> le_combine l <= le_combine k.
Proof. induction 1; cbn [le_combine]; lia. Qed.

Lemma bytes_all_le_numeric a b :
  addr_ok a -> addr_ok b -> bytes_all_le (sin6_addr a) (sin6_addr b) = true -> ipv6 a <= ipv6 b.
Proof.
  intros Ha Hb H. apply bytes_all_le_spec in H; [|by rewrite !ok_len6].
  apply le_combine_mono. rewrite !rev_alt. by apply Forall2_reverse.
Qed.

(** Address ranges.  For IPv4 bounds that are set, membership is exactly the
    numeric interval of the network-order addresses.  For IPv6 bounds that are
    set, an accepted address lies in the numeric interval, but the converse
    fails: the bytewise loop of [addr_less_eq] rejects addresses of the interval. *)
Theorem ioa_addr_in_range_numeric mn mx a :
  addr_ok mn -> addr_ok mx -> addr_ok a ->
  addr_any (Some mn) = false -> addr_any (Some mx) = false ->
  (sa_family mn = AF_INET -> sa_family mx = AF_INET -> sa_family a = AF_INET ->
   ioa_addr_in_range (Some (IoaAddrRange mn mx)) (Some a) = true <-> ipv4 mn <= ipv4 a <= ipv4 mx) /\
  (sa_family mn = AF_INET6 -> sa_family mx = AF_INET6 -> sa_family a = AF_INET6 ->
   ioa_addr_in_range (Some (IoaAddrRange mn mx)) (Some a) = true -> ipv6 mn <= ipv6 a <= ipv6 mx) /\
  (exists lo x hi, addr_ok lo /\ addr_ok x /\ addr_ok hi /\
     sa_family lo = AF_INET6 /\ sa_family x = AF_INET6 /\ sa_family hi = AF_INET6 /\
     ipv6 lo <= ipv6 x <= ipv6 hi /\
     ioa_addr_in_range (Some (IoaAddrRange lo hi)) (Some x) = false).
Proof.
  intros Hmn Hmx Ha Nmn Nmx. unfold ioa_addr_in_range. cbn [range_min range_max].
  rewrite Nmn, Nmx. cbn [orb].
  split; [|split].
  - intros E1 E2 E3. unfold addr_less_eq. rewrite E1, E2, E3. cbn.
    case_if; zbool; rewrite ?Z.leb_le; unfold ipv4; split; try done; lia.
  - intros E1 E2 E3. unfold addr_less_eq. rewrite E1, E2, E3. cbn.
    case_if; [|done]. intros H. split; by apply bytes_all_le_numeric.
  - pose (v6 x y := IoaAddr AF_INET6 0 0 (x :: y :: replicate 14 0) 0).
    exists (v6 32 255), (v6 33 0), (v6 34 0).
    assert (forall x y, 0 <= x < 256 -> 0 <= y < 256 -> addr_ok (v6 x y)) as Hok.
    { intros. split; simpl; unfold AF_INET6; try lia; try done. repeat constructor; lia. }
    repeat split; try (apply Hok; lia); try done; by vm_compute.
Qed.

Definition v4_addr (a b c d port : Z) : ioa_addr :=
  IoaAddr AF_INET (nswap16 port) (le_combine [a; b; c; d]) (replicate 16 0) 0.

Lemma addr_ok_concrete a :
  (0 <=? sa_family a) && (sa_family a <? 65536) && (0 <=? sin_port a) && (sin_port a <? 65536) &&
  (0 <=? s_addr a) && (s_addr a <? 4294967296) &&
  forallb (λ b, (0 <=? b) && (b <? 256)) (sin6_addr a) && (length (sin6_addr a) =? 16)%nat = true ->
  addr_ok a.
Proof.
  intros H. rewrite !andb_true_iff, !Z.leb_le, !Z.ltb_lt, Nat.eqb_eq in H.
  destruct H as [[[[[[[H1 H2] H3] H4] H5] H6] H7] H8]. split; try lia; try done.
  unfold bytes. rewrite Forall_forall. intros b Hb. rewrite forallb_forall in H7.
  apply list_elem_of_In, H7 in Hb. rewrite andb_true_iff, Z.leb_le, Z.ltb_lt in Hb. lia.
Qed.

Lemma addr_hash_respects_eq_witness :
  let a := v4_addr 10 0 0 1 80 in
  addr_ok a /\ (addr_eq (Some a) (Some a) = true -> addr_hash (Some a) = addr_hash (Some a)).
Proof.
  split; [by apply addr_ok_concrete; vm_compute|].
  apply (addr_hash_respects_eq (v4_addr 10 0 0 1 80) (v4_addr 10 0 0 1 80));
    by apply addr_ok_concrete; vm_compute.
Defined.

Lemma addr_maps_refine_witness :
  let p := v4_addr 1 2 3 4 0 in let q := v4_addr 10 0 0 1 0 in
  map_addr_from_public_to_private (AddrMaps [Some p] [Some q] 1 8) (v4_addr 1 2 3 4 80) =
  Some (lookup_addr [(p, q)] (v4_addr 1 2 3 4 80)).
Proof.
  intros p q.
  destruct (addr_maps_refine (AddrMaps [Some p] [Some q] 1 8) [(p, q)] q p (v4_addr 1 2 3 4 80))
    as (_ & H & _); [by repeat split|exact H].
Defined.

Lemma ioa_addr_in_range_numeric_witness :
  ioa_addr_in_range (Some (IoaAddrRange (v4_addr 10 0 0 1 0) (v4_addr 10 0 255 0 0)))
                    (Some (v4_addr 10 0 1 0 5)) = true.
Proof.
  refine (proj2 (proj1 (ioa_addr_in_range_numeric (v4_addr 10 0 0 1 0)
    (v4_addr 10 0 255 0 0) (v4_addr 10 0 1 0 5) _ _ _ _ _) eq_refl eq_refl eq_refl) _);
    try (by apply addr_ok_concrete; vm_compute); try reflexivity.
  vm_compute. split; discriminate.
Defined.
