(* ===== verification/MsgAddr.v ===== *)
(** The address attribute codec: [client/ns_turn_msg_addr.c].

    [cfield] is the destination (or source) field array, [tsx_id] the 12 bytes
    of the transaction id, [mc] the magic cookie.  Results are [None] for an
    access outside an array, [Some] of the C return value with the outputs. *)

From S2P Require Import Prelude Defs IoAddr.

(** XOR of two byte sequences, the [for] loops over [dst[i] = src[i] ^ x[i]]. *)
Definition xor_bytes (src x : list Z) : list Z := zip_with Z.lxor src x.

Definition stun_addr_encode (ca : option ioa_addr) (cfield : option (list Z)) (xor_ed : bool)
    (mc : Z) (tsx_id : option (list Z)) : option (Z * option (list Z) * Z) :=
  match cfield, ca, tsx_id with
  | Some cf, Some ca, Some tid =>
    if (sa_family ca =? AF_INET) || (sa_family ca =? 0) then
      let clen := 8 in
      cf ← wr8 cf 0 0;
      cf ← wr8 cf 1 1;
      if xor_ed then
        cf ← store16 cf 2 (Z.lxor (sin_port ca) (nswap16 (Z.shiftr mc 16)));
        cf ← store32 cf 4 (Z.lxor (s_addr ca) (nswap32 mc));
        Some (0, Some cf, clen)
      else
        cf ← store16 cf 2 (sin_port ca);
        cf ← store32 cf 4 (s_addr ca);
        Some (0, Some cf, clen)
    else if sa_family ca =? AF_INET6 then
      let clen := 20 in
      cf ← wr8 cf 0 0;
      cf ← wr8 cf 1 2;
      if xor_ed then
        let src := sin6_addr ca in
        let magic := nswap32 mc in
        cf ← store16 cf 2 (Z.lxor (sin_port ca) (nswap16 (Z.shiftr mc 16)));
        cf ← wr_block cf 4 (xor_bytes (take 4 src) (le_split 4 magic));
        t ← rd_block tid 0 12;
        cf ← wr_block cf 8 (xor_bytes (drop 4 src) t);
        Some (0, Some cf, clen)
      else
        cf ← store16 cf 2 (sin_port ca);
        cf ← wr_block cf 4 (sin6_addr ca);
        Some (0, Some cf, clen)
    else Some (-1, Some cf, 0)
  | _, _, _ => Some (-1, cfield, 0)
  end.

Definition stun_addr_decode (ca : option ioa_addr) (cfield : option (list Z)) (len : Z)
    (xor_ed : bool) (mc : Z) (tsx_id : option (list Z)) : option (Z * option ioa_addr) :=
  match cfield, ca, tsx_id with
  | Some cf, Some ca, Some tid =>
    if (len =? 0) || (len <? 8) then Some (-1, Some ca) else
    c0 ← rd8 cf 0;
    if negb (c0 =? 0) then Some (-1, Some ca) else
    c1 ← rd8 cf 1;
    if negb ((c1 =? 1) || (c1 =? 2)) then Some (-1, Some ca) else
    let sa_family := if c1 =? 1 then AF_INET else AF_INET6 in
    let ca := set_family ca sa_family in
    if sa_family =? AF_INET then
      if negb (len =? 8) then Some (-1, Some ca) else
      port ← load16 cf 2;
      addr ← load32 cf 4;
      let ca := set_s_addr (set_port_raw ca port) addr in
      if xor_ed then
        Some (0, Some (set_s_addr (set_port_raw ca (Z.lxor port (nswap16 (Z.shiftr mc 16))))
                                  (Z.lxor addr (nswap32 mc))))
      else Some (0, Some ca)
    else
      if negb (len =? 20) then Some (-1, Some ca) else
      port ← load16 cf 2;
      src ← rd_block cf 4 16;
      let ca := set_sin6_addr (set_port_raw ca port) src in
      if xor_ed then
        let magic := nswap32 mc in
        t ← rd_block tid 0 12;
        Some (0, Some (set_sin6_addr (set_port_raw ca (Z.lxor port (nswap16 (Z.shiftr mc 16))))
                        (xor_bytes (take 4 src) (le_split 4 magic) ++ xor_bytes (drop 4 src) t)))
      else Some (0, Some ca)
  | _, _, _ => Some (-1, ca)
  end.

(** * The attribute value as a function of the address *)

(** Length of the encoding. *)
Definition addr_clen (a : ioa_addr) : Z := if sa_family a =? AF_INET6 then 20 else 8.

Definition xport (xor_ed : bool) (mc : Z) (p : Z) : Z :=
  if xor_ed then Z.lxor p (nswap16 (Z.shiftr mc 16)) else p.

(** The bytes [stun_addr_encode] produces. *)
Definition addr_value (a : ioa_addr) (xor_ed : bool) (mc : Z) (tid : list Z) : list Z :=
  if sa_family a =? AF_INET6 then
    [0; 2] ++ le_split 2 (xport xor_ed mc (sin_port a)) ++
    (if xor_ed then xor_bytes (take 4 (sin6_addr a)) (le_split 4 (nswap32 mc)) ++
                    xor_bytes (drop 4 (sin6_addr a)) tid
     else sin6_addr a)
  else
    [0; 1] ++ le_split 2 (xport xor_ed mc (sin_port a)) ++
    le_split 4 (if xor_ed then Z.lxor (s_addr a) (nswap32 mc) else s_addr a).

Lemma lxor_range k a b : 0 <= a < 2 ^ k -> 0 <= b < 2 ^ k -> 0 <= Z.lxor a b < 2 ^ k.
Proof.
  intros Ha Hb. assert (0 <= k) by (destruct (Z.neg_nonneg_cases k); [rewrite Z.pow_neg_r in Ha by lia; lia|done]).
  split; [by apply Z.lxor_nonneg; split; intros; lia|].
  destruct (Z.eq_dec (Z.lxor a b) 0) as [->|Hne]; [lia|].
  assert (0 <= Z.lxor a b) by (apply Z.lxor_nonneg; split; intros; lia).
  apply Z.log2_lt_pow2; [lia|].
  destruct (Z.eq_dec a 0) as [->|]; [rewrite Z.lxor_0_l in *; apply Z.log2_lt_pow2; lia|].
  destruct (Z.eq_dec b 0) as [->|]; [rewrite Z.lxor_0_r in *; apply Z.log2_lt_pow2; lia|].
  pose proof (Z.log2_lxor a b ltac:(lia) ltac:(lia)).
  assert (Z.log2 a < k) by (apply Z.log2_lt_pow2; lia).
  assert (Z.log2 b < k) by (apply Z.log2_lt_pow2; lia). lia.
Qed.

Lemma lxor_cancel a b : Z.lxor (Z.lxor a b) b = a.
Proof. by rewrite Z.lxor_assoc, Z.lxor_nilpotent, Z.lxor_0_r. Qed.

Lemma length_xor_bytes a b : length a = length b -> length (xor_bytes a b) = length a.
Proof. intros. unfold xor_bytes. rewrite length_zip_with. lia. Qed.

Lemma bytes_xor a b : bytes a -> bytes b -> bytes (xor_bytes a b).
Proof.
  intros Ha. revert b. unfold xor_bytes. induction Ha as [|x a Hx Ha IH]; intros b Hb; [constructor|].
  destruct Hb as [|y b Hy Hb]; [constructor|]. constructor; [|by apply IH].
  change 256 with (2 ^ 8). by apply lxor_range.
Qed.

Lemma xor_bytes_cancel a b : length a = length b -> xor_bytes (xor_bytes a b) b = a.
Proof.
  revert b. induction a as [|x a IH]; intros [|y b] H; try done.
  unfold xor_bytes in *. simpl in *. rewrite lxor_cancel. f_equal. apply IH. lia.
Qed.

Lemma xport_range x mc p : 0 <= p < 65536 -> 0 <= xport x mc p < 65536.
Proof.
  intros. unfold xport. destruct x; [|done]. change 65536 with (2 ^ 16) in *.
  apply lxor_range; [done|]. apply nswap16_range.
Qed.

Lemma xport_cancel x mc p : xport x mc (xport x mc p) = p.
Proof. destruct x; [apply lxor_cancel|done]. Qed.

Lemma bytes_addr_value a x mc tid : addr_ok a -> bytes tid -> bytes (addr_value a x mc tid).
Proof.
  intros Ha Ht. unfold addr_value.
  assert (bytes [0; 2] /\ bytes [0; 1]) as [? ?] by (split; repeat constructor; lia).
  case_if; rewrite !bytes_app; repeat split; auto using bytes_le_split.
  destruct x; [|apply Ha]. rewrite bytes_app.
  split; apply bytes_xor; auto using bytes_le_split, bytes_take, bytes_drop, ok_bytes6.
Qed.

Lemma zlen_addr_value a x mc tid :
  addr_ok a -> length tid = 12%nat -> zlen (addr_value a x mc tid) = addr_clen a.
Proof.
  intros Ha Ht. unfold addr_value, addr_clen, zlen. pose proof (ok_len6 a Ha) as H6.
  case_if; rewrite !length_app, !length_le_split; [|done].
  destruct x; rewrite ?length_app, ?length_xor_bytes, ?length_take, ?length_drop, ?length_le_split;
    rewrite ?length_take, ?length_drop, ?length_le_split; rewrite H6; simpl; lia.
Qed.

(** Reading a word back from bytes written with [le_split]. *)
Lemma load16_split m p v :
  0 <= v < 65536 -> rd_block m p 2 = Some (le_split 2 v) -> load16 m p = Some v.
Proof.
  intros Hv H. unfold load16. rewrite H. cbn [fmap option_fmap option_map]. f_equal.
  rewrite le_combine_split. by apply Z.mod_small.
Qed.

Lemma load32_split m p v :
  0 <= v < 4294967296 -> rd_block m p 4 = Some (le_split 4 v) -> load32 m p = Some v.
Proof.
  intros Hv H. unfold load32. rewrite H. cbn [fmap option_fmap option_map]. f_equal.
  rewrite le_combine_split. by apply Z.mod_small.
Qed.

(** The families the encoder accepts: IPv4, IPv6 and the unset address. *)
Definition encodable (a : ioa_addr) : Prop := is_inet a \/ sa_family a = 0.

(** Case on the outcome of the next write that both sides perform. *)
Ltac next_wr :=
  match goal with
  | |- context [wr_block ?m ?p ?bs] =>
    destruct (wr_block m p bs); cbn [mbind option_bind fmap option_fmap option_map]; [|done]
  end.

Lemma stun_addr_encode_value a cf x mc tid :
  addr_ok a -> encodable a -> length tid = 12%nat ->
  stun_addr_encode (Some a) (Some cf) x mc (Some tid) =
  (λ cf', (0, Some cf', addr_clen a)) <$> wr_block cf 0 (addr_value a x mc tid).
Proof.
  intros Ha He Ht.
  assert (rd_block tid 0 12 = Some tid) as Htid.
  { replace 12 with (zlen tid) by (unfold zlen; lia). apply rd_block_full. }
  assert (forall (b c : Z) d, wr_block cf 0 (b :: c :: d) =
    (m1 ← wr_block cf 0 [b]; m2 ← wr_block m1 1 [c]; wr_block m2 2 d)) as Hhdr.
  { intros b c d. change (b :: c :: d) with ([b] ++ [c] ++ d). rewrite wr_block_app.
    destruct (wr_block cf 0 [b]); cbn [mbind option_bind]; [|done]. by rewrite wr_block_app. }
  pose proof (ok_len6 a Ha) as H6.
  assert (zlen (xor_bytes (take 4 (sin6_addr a)) (le_split 4 (nswap32 mc))) = 4) as Hx4.
  { unfold zlen. rewrite length_xor_bytes; rewrite length_take, ?length_le_split; lia. }
  unfold stun_addr_encode, addr_value, addr_clen, wr8, store16, store32, xport in *.
  destruct (sa_family a =? AF_INET6) eqn:E6; zbool.
  - assert ((sa_family a =? AF_INET) || (sa_family a =? 0) = false) as -> by (by rewrite E6).
    cbn [app]. rewrite Hhdr. change (u8 0) with 0. change (u8 2) with 2.
    destruct x; rewrite ?Htid; do 2 next_wr; rewrite wr_block_app, zlen_le_split; next_wr.
    + change (2 + Z.of_nat 2) with 4. rewrite wr_block_app, Hx4. next_wr.
      change (4 + 4) with 8. by next_wr.
    + change (2 + Z.of_nat 2) with 4. by next_wr.
  - assert ((sa_family a =? AF_INET) || (sa_family a =? 0) = true) as ->.
    { destruct He as [[E|E]|E]; rewrite E in *; done. }
    cbn [app]. rewrite Hhdr. change (u8 0) with 0. change (u8 1) with 1.
    destruct x; do 2 next_wr; rewrite wr_block_app, zlen_le_split; next_wr;
      change (2 + Z.of_nat 2) with 4; by next_wr.
Qed.

(** What decoding an encoding of [a] leaves in an address that was [a0]: the
    fields the family of [a] uses. *)
Definition decoded (a a0 : ioa_addr) : ioa_addr :=
  if sa_family a =? AF_INET6
  then IoaAddr AF_INET6 (sin_port a) (s_addr a0) (sin6_addr a) (sin6_scope_id a0)
  else IoaAddr AF_INET (sin_port a) (s_addr a) (sin6_addr a0) (sin6_scope_id a0).

Lemma stun_addr_decode_value a a0 cf x mc tid :
  addr_ok a -> encodable a -> bytes tid -> length tid = 12%nat ->
  rd_block cf 0 (addr_clen a) = Some (addr_value a x mc tid) ->
  stun_addr_decode (Some a0) (Some cf) (addr_clen a) x mc (Some tid) = Some (0, Some (decoded a a0)).
Proof.
  intros Ha He Hb Ht H.
  assert (rd_block tid 0 12 = Some tid) as Htid.
  { replace 12 with (zlen tid) by (unfold zlen; lia). apply rd_block_full. }
  pose proof (ok_len6 a Ha) as H6. pose proof (ok_port a Ha) as Hport. pose proof (ok_s_addr a Ha) as Hs.
  unfold stun_addr_decode, decoded, addr_value, addr_clen in *.
  destruct (sa_family a =? AF_INET6) eqn:E6; zbool; cbn [Z.eqb Z.ltb Z.compare orb].
  all: rewrite (rd8_part _ _ _ [] _ _ 0 H) by done; cbn [mbind option_bind Z.eqb negb].
  all: rewrite (rd8_part _ _ _ [0] _ _ 1 H) by done; cbn [mbind option_bind Z.eqb Pos.eqb negb orb].
  all: change (AF_INET6 =? AF_INET) with false; change (AF_INET =? AF_INET) with true;
    cbn [negb Z.eqb Pos.eqb orb].
  all: rewrite (load16_split cf 2 (xport x mc (sin_port a)));
    [|by apply xport_range|eapply (rd_block_part _ _ _ [0; _]); [exact H|done|by rewrite zlen_le_split]].
  all: cbn [mbind option_bind].
  - change (20 =? 20) with true; cbn [negb]. unfold set_sin6_addr, set_port_raw, set_family.
    assert (rd_block cf 4 16 = Some (if x then xor_bytes (take 4 (sin6_addr a)) (le_split 4 (nswap32 mc)) ++
                    xor_bytes (drop 4 (sin6_addr a)) tid else sin6_addr a)) as ->.
    { eapply (rd_block_part _ _ _ ([0; 2] ++ le_split 2 (xport x mc (sin_port a))) _ []).
      - rewrite app_nil_r, <- app_assoc. exact H.
      - by rewrite zlen_app, zlen_le_split.
      - unfold zlen. destruct x; rewrite ?length_app, ?length_xor_bytes, ?length_take, ?length_drop;
          rewrite ?length_take, ?length_drop, ?length_le_split, ?H6; done. }
    cbn [mbind option_bind]. pose proof (xport_cancel x mc (sin_port a)) as Hxp.
    destruct x; cbn [xport] in *; [|done]. rewrite Htid; cbn [mbind option_bind].
    cbn [sa_family sin_port s_addr sin6_addr sin6_scope_id].
    rewrite Hxp. do 3 f_equal. rewrite take_app_length', drop_app_length'
      by (rewrite length_xor_bytes; rewrite length_take, ?length_le_split; lia).
    rewrite !xor_bytes_cancel, take_drop; [done|rewrite length_drop; lia|].
    rewrite length_take, length_le_split. lia.
  - change (8 =? 8) with true; cbn [negb].
    pose proof (xport_cancel x mc (sin_port a)) as Hxp.
    rewrite (load32_split cf 4 (if x then Z.lxor (s_addr a) (nswap32 mc) else s_addr a)).
    2: { destruct x; [|done]. change 4294967296 with (2 ^ 32) in *. apply lxor_range; [done|].
         apply nswap32_range. }
    2: { eapply (rd_block_part _ _ _ ([0; 1] ++ le_split 2 (xport x mc (sin_port a))) _ []).
         - rewrite app_nil_r, <- app_assoc. exact H.
         - by rewrite zlen_app, zlen_le_split.
         - by rewrite zlen_le_split. }
    cbn [mbind option_bind]. destruct x; cbn [xport] in *; [|done].
    unfold set_s_addr, set_port_raw, set_family.
    cbn [sa_family sin_port s_addr sin6_addr sin6_scope_id]. by rewrite Hxp, lxor_cancel.
Qed.

(** C24. Round trip of the address attribute: encoding an address (IPv4, IPv6 or
    unset) into an array of at least 20 bytes succeeds, and decoding the bytes
    written, with the same XOR mode, cookie and transaction id, gives back an
    address that [addr_eq] identifies with the original; a field it does not use
    keeps the value of the destination. *)
Theorem stun_addr_roundtrip a a0 cf x mc tid :
  addr_ok a -> encodable a -> 20 <= zlen cf -> bytes tid -> length tid = 12%nat ->
  exists cf' a',
    stun_addr_encode (Some a) (Some cf) x mc (Some tid) = Some (0, Some cf', addr_clen a) /\
    stun_addr_decode (Some a0) (Some cf') (addr_clen a) x mc (Some tid) = Some (0, Some a') /\
    a' = decoded a a0 /\ (is_inet a -> addr_eq (Some a') (Some a) = true).
Proof.
  intros Ha He Hcf Hb Ht. rewrite stun_addr_encode_value by done.
  pose proof (zlen_addr_value a x mc tid Ha Ht) as Hl.
  destruct (wr_block_is_Some cf 0 (addr_value a x mc tid)) as [cf' Hw]; [done| |].
  { rewrite Hl. unfold addr_clen. case_if; lia. }
  exists cf', (decoded a a0). rewrite Hw. split; [done|]. split; [|split; [done|]].
  - apply stun_addr_decode_value; try done. apply rd_wr_same in Hw. by rewrite Hl in Hw.
  - intros [E|E]; unfold decoded, addr_eq; rewrite E; cbn -[to_i32]; rewrite !Z.eqb_refl; [done|].
    by apply bool_decide_eq_true.
Qed.

Lemma stun_addr_roundtrip_witness :
  exists cf' a',
    stun_addr_encode (Some (v4_addr 192 0 2 1 32853)) (Some (replicate 64 0)) true 0x2112A442
      (Some (replicate 12 7)) = Some (0, Some cf', 8) /\
    stun_addr_decode (Some addr_zero) (Some cf') 8 true 0x2112A442 (Some (replicate 12 7))
      = Some (0, Some a').
Proof.
  destruct (stun_addr_roundtrip (v4_addr 192 0 2 1 32853) addr_zero (replicate 64 0) true 0x2112A442
              (replicate 12 7)) as (cf' & a' & H1 & H2 & _).
  - by apply addr_ok_concrete; vm_compute.
  - left. by left.
  - by vm_compute.
  - apply Forall_replicate. lia.
  - done.
  - exists cf', a'. split; [exact H1|exact H2].
Defined.

(** What the decoder accepts. *)
Definition addr_field_valid (cf : list Z) (len : Z) : bool :=
  (nth 0 cf 0 =? 0) &&
  (((nth 1 cf 0 =? 1) && (len =? 8)) || ((nth 1 cf 0 =? 2) && (len =? 20))).

Lemma rd8_nth m p : 0 <= p < zlen m -> rd8 m p = Some (nth (Z.to_nat p) m 0).
Proof.
  intros H. unfold rd8, rd_block. case_if.
  2: { rewrite !andb_false_iff, !Z.leb_gt in E. lia. }
  cbn [mbind option_bind]. change (Z.to_nat 1) with 1%nat. unfold zlen in H.
  destruct (nth_split m 0 (n := Z.to_nat p)) as (l1 & l2 & -> & Hl); [lia|].
  rewrite <- Hl, drop_app_length. rewrite app_nth2, Nat.sub_diag by lia. done.
Qed.

Lemma load16_ok m p : 0 <= p -> p + 2 <= zlen m -> exists v, load16 m p = Some v.
Proof. intros. unfold load16. rewrite rd_block_ok by lia. by eexists. Qed.

Lemma load32_ok m p : 0 <= p -> p + 4 <= zlen m -> exists v, load32 m p = Some v.
Proof. intros. unfold load32. rewrite rd_block_ok by lia. by eexists. Qed.

Lemma stun_addr_decode_total ca cf len x mc tid :
  length tid = 12%nat -> len <= zlen cf ->
  exists a', stun_addr_decode (Some ca) (Some cf) len x mc (Some tid) =
    Some (if addr_field_valid cf len then 0 else -1, Some a').
Proof.
  intros Ht Hl. unfold stun_addr_decode, addr_field_valid.
  assert (forall n, 0 <= n < 2 -> 8 <= len -> rd8 cf n = Some (nth (Z.to_nat n) cf 0)) as Hrd.
  { intros. apply rd8_nth. lia. }
  destruct ((len =? 0) || (len <? 8)) eqn:E.
  { assert (len < 8) by (apply orb_true_iff in E as [?|?]; zbool; lia). eexists.
    assert ((len =? 8) = false) as -> by (apply Z.eqb_neq; lia).
    assert ((len =? 20) = false) as -> by (apply Z.eqb_neq; lia). by rewrite !andb_false_r. }
  zbool. rewrite (Hrd 0) by lia. cbn [mbind option_bind]. change (Z.to_nat 0) with 0%nat.
  destruct (nth 0 cf 0 =? 0); cbn [negb andb]; [|by eexists].
  rewrite (Hrd 1) by lia. cbn [mbind option_bind]. change (Z.to_nat 1) with 1%nat.
  destruct (nth 1 cf 0 =? 1) eqn:E1; cbn [negb andb orb].
  - zbool. rewrite E1. change (AF_INET =? AF_INET) with true. cbv beta iota.
    change (1 =? 2) with false. cbn [andb]. rewrite orb_false_r.
    destruct (len =? 8) eqn:E8; cbn [negb]; [|by eexists].
    destruct (load16_ok cf 2) as [p ->]; [lia..|].
    destruct (load32_ok cf 4) as [v ->]; [lia..|]. cbn [mbind option_bind]. by destruct x; eexists.
  - destruct (nth 1 cf 0 =? 2) eqn:E2; cbn [negb andb orb]; [|by eexists].
    change (AF_INET6 =? AF_INET) with false. cbv beta iota.
    destruct (len =? 20) eqn:E20; cbn [negb]; [|by eexists]. zbool.
    destruct (load16_ok cf 2) as [p ->]; [lia..|].
    rewrite (rd_block_ok cf 4 16) by lia. cbn [mbind option_bind].
    rewrite (rd_block_ok tid 0 12) by (unfold zlen; lia). cbn [mbind option_bind]. by destruct x; eexists.
Qed.

(** The words of a buffer, re-split. *)
Lemma le_split_load16 cf p v : bytes cf -> load16 cf p = Some v -> rd_block cf p 2 = Some (le_split 2 v).
Proof.
  intros Hb H. unfold load16 in H. apply fmap_Some in H as (x & H & ->). rewrite H. f_equal. pose proof (rd_block_zlen _ _ _ _ H).
  rewrite <- (le_split_combine x) at 1 by (by eapply rd_block_bytes). f_equal. unfold zlen in *. lia.
Qed.

Lemma le_split_load32 cf p v : bytes cf -> load32 cf p = Some v -> rd_block cf p 4 = Some (le_split 4 v).
Proof.
  intros Hb H. unfold load32 in H. apply fmap_Some in H as (x & H & ->). rewrite H. f_equal. pose proof (rd_block_zlen _ _ _ _ H).
  rewrite <- (le_split_combine x) at 1 by (by eapply rd_block_bytes). f_equal. unfold zlen in *. lia.
Qed.

Lemma take_blocks cf p1 p2 p3 x1 x2 x3 :
  rd_block cf 0 p1 = Some x1 -> rd_block cf p1 p2 = Some x2 -> rd_block cf (p1 + p2) p3 = Some x3 ->
  rd_block cf 0 (p1 + p2 + p3) = Some (x1 ++ x2 ++ x3).
Proof.
  intros H1 H2 H3. rewrite app_assoc. eapply rd_block_app; [|exact H3].
  by eapply rd_block_app; [exact H1|].
Qed.

Lemma rd_block_hd2 cf : 2 <= zlen cf -> rd_block cf 0 2 = Some [nth 0 cf 0; nth 1 cf 0].
Proof.
  intros H. destruct cf as [|a [|b cf]]; [done..|]. by rewrite rd_block_ok by lia.
Qed.

(** What was decoded encodes to the bytes it was decoded from. *)
Lemma stun_addr_decode_inverse ca cf len x mc tid a' :
  bytes cf -> length tid = 12%nat -> len <= zlen cf ->
  stun_addr_decode (Some ca) (Some cf) len x mc (Some tid) = Some (0, Some a') ->
  len = addr_clen a' /\ rd_block cf 0 len = Some (addr_value a' x mc tid).
Proof.
  intros Hb Ht Hl. unfold stun_addr_decode. case_if; [done|]. zbool. pose proof (rd_block_hd2 cf ltac:(lia)) as H2.
  assert (rd_block tid 0 12 = Some tid) as Htid.
  { replace 12 with (zlen tid) by (unfold zlen; lia). apply rd_block_full. }
  rewrite !rd8_nth by lia. cbn [mbind option_bind]. change (Z.to_nat 0) with 0%nat.
  change (Z.to_nat 1) with 1%nat. case_if; [done|]. apply negb_false_iff in E as E0'.
  destruct (nth 1 cf 0 =? 1) eqn:E1; cbn [orb negb].
  - change (AF_INET =? AF_INET) with true. cbv iota. destruct (Z.eqb_spec len 8) as [->|]; [|done].
    cbn [negb]. destruct (load16 cf 2) as [p|] eqn:Ep; cbn [mbind option_bind]; [|done].
    destruct (load32 cf 4) as [v|] eqn:Ev; cbn [mbind option_bind]; [|done].
    apply le_split_load16 in Ep; [|done]. apply le_split_load32 in Ev; [|done].
    pose proof (take_blocks cf 2 2 4 _ _ _ H2 Ep Ev) as Hall. zbool. rewrite E0', E1 in Hall. change (2 + 2 + 4) with 8 in Hall.
    intros Ha'. split; [destruct x; by injection Ha' as <-|]. rewrite Hall.
    destruct x; injection Ha' as <-; unfold addr_value; cbn; [by rewrite !lxor_cancel|done].
  - destruct (nth 1 cf 0 =? 2) eqn:E2; [|done]. cbn [negb]. change (AF_INET6 =? AF_INET) with false.
    cbv iota. destruct (Z.eqb_spec len 20) as [->|]; [|done]. cbn [negb].
    destruct (load16 cf 2) as [p|] eqn:Ep; cbn [mbind option_bind]; [|done].
    destruct (rd_block cf 4 16) as [v|] eqn:Ev; cbn [mbind option_bind]; [|done].
    apply le_split_load16 in Ep; [|done]. pose proof (rd_block_zlen _ _ _ _ Ev) as Hv.
    pose proof (take_blocks cf 2 2 16 _ _ _ H2 Ep Ev) as Hall. zbool. rewrite E0', E2 in Hall. change (2 + 2 + 16) with 20 in Hall.
    unfold zlen in Hv. rewrite Htid. cbn [mbind option_bind].
    intros Ha'. split; [destruct x; by injection Ha' as <-|]. rewrite Hall. clear Hall.
    unfold addr_value. pose proof (length_le_split 4 (nswap32 mc)) as Hmg. cbv zeta in Ha'.
    set (mg := le_split 4 (nswap32 mc)) in *. clearbody mg.
    destruct x; injection Ha' as <-; cbn -[take drop xor_bytes le_split]; [|done].
    rewrite lxor_cancel, take_app_length', drop_app_length'
      by (rewrite length_xor_bytes; rewrite length_take; lia).
    rewrite !xor_bytes_cancel, take_drop; [done|rewrite length_drop; lia|].
    rewrite length_take. lia.
Qed.

(** C29. The decoder is memory safe and exact on any attribute value: with [len]
    bytes readable it reads nothing else, it accepts the value precisely when
    the first byte is 0 and the family byte matches the length, and the address
    it then returns is one whose encoding is that value. *)
Theorem stun_addr_decode_safe ca cf len x mc tid :
  bytes cf -> length tid = 12%nat -> len <= zlen cf ->
  exists a', stun_addr_decode (Some ca) (Some cf) len x mc (Some tid) =
    Some (if addr_field_valid cf len then 0 else -1, Some a') /\
  (addr_field_valid cf len = true ->
   len = addr_clen a' /\ rd_block cf 0 len = Some (addr_value a' x mc tid)).
Proof.
  intros Hb Ht Hl. destruct (stun_addr_decode_total ca cf len x mc tid Ht Hl) as [a' Ha'].
  exists a'. split; [done|]. intros Hv. rewrite Hv in Ha'. by eapply stun_addr_decode_inverse.
Qed.

Lemma stun_addr_decode_safe_witness :
  exists a', stun_addr_decode (Some addr_zero) (Some [0; 2; 1; 2; 3; 4; 5; 6]) 8 true 7
    (Some (replicate 12 0)) = Some (-1, Some a').
Proof.
  destruct (stun_addr_decode_safe addr_zero [0; 2; 1; 2; 3; 4; 5; 6] 8 true 7 (replicate 12 0))
    as (a' & H & _); [repeat constructor; lia|done|by vm_compute|].
  exists a'. exact H.
Defined.
