(* ===== verification/Crc.v ===== *)
(** CRC-32 of the FINGERPRINT attribute: [crctable] and [ns_crc32] of
    [client/ns_turn_msg.c], and the generator of the table that the source keeps
    in a comment. *)

From S2P Require Import Prelude Defs.

Definition CRC_MASK : Z := 0xFFFFFFFF.
Definition CRCPOLY : Z := 0xEDB88320.

Definition crctable : list Z := [
  0x00000000; 0x77073096; 0xee0e612c; 0x990951ba;
  0x076dc419; 0x706af48f; 0xe963a535; 0x9e6495a3;
  0x0edb8832; 0x79dcb8a4; 0xe0d5e91e; 0x97d2d988;
  0x09b64c2b; 0x7eb17cbd; 0xe7b82d07; 0x90bf1d91;
  0x1db71064; 0x6ab020f2; 0xf3b97148; 0x84be41de;
  0x1adad47d; 0x6ddde4eb; 0xf4d4b551; 0x83d385c7;
  0x136c9856; 0x646ba8c0; 0xfd62f97a; 0x8a65c9ec;
  0x14015c4f; 0x63066cd9; 0xfa0f3d63; 0x8d080df5;
  0x3b6e20c8; 0x4c69105e; 0xd56041e4; 0xa2677172;
  0x3c03e4d1; 0x4b04d447; 0xd20d85fd; 0xa50ab56b;
  0x35b5a8fa; 0x42b2986c; 0xdbbbc9d6; 0xacbcf940;
  0x32d86ce3; 0x45df5c75; 0xdcd60dcf; 0xabd13d59;
  0x26d930ac; 0x51de003a; 0xc8d75180; 0xbfd06116;
  0x21b4f4b5; 0x56b3c423; 0xcfba9599; 0xb8bda50f;
  0x2802b89e; 0x5f058808; 0xc60cd9b2; 0xb10be924;
  0x2f6f7c87; 0x58684c11; 0xc1611dab; 0xb6662d3d;
  0x76dc4190; 0x01db7106; 0x98d220bc; 0xefd5102a;
  0x71b18589; 0x06b6b51f; 0x9fbfe4a5; 0xe8b8d433;
  0x7807c9a2; 0x0f00f934; 0x9609a88e; 0xe10e9818;
  0x7f6a0dbb; 0x086d3d2d; 0x91646c97; 0xe6635c01;
  0x6b6b51f4; 0x1c6c6162; 0x856530d8; 0xf262004e;
  0x6c0695ed; 0x1b01a57b; 0x8208f4c1; 0xf50fc457;
  0x65b0d9c6; 0x12b7e950; 0x8bbeb8ea; 0xfcb9887c;
  0x62dd1ddf; 0x15da2d49; 0x8cd37cf3; 0xfbd44c65;
  0x4db26158; 0x3ab551ce; 0xa3bc0074; 0xd4bb30e2;
  0x4adfa541; 0x3dd895d7; 0xa4d1c46d; 0xd3d6f4fb;
  0x4369e96a; 0x346ed9fc; 0xad678846; 0xda60b8d0;
  0x44042d73; 0x33031de5; 0xaa0a4c5f; 0xdd0d7cc9;
  0x5005713c; 0x270241aa; 0xbe0b1010; 0xc90c2086;
  0x5768b525; 0x206f85b3; 0xb966d409; 0xce61e49f;
  0x5edef90e; 0x29d9c998; 0xb0d09822; 0xc7d7a8b4;
  0x59b33d17; 0x2eb40d81; 0xb7bd5c3b; 0xc0ba6cad;
  0xedb88320; 0x9abfb3b6; 0x03b6e20c; 0x74b1d29a;
  0xead54739; 0x9dd277af; 0x04db2615; 0x73dc1683;
  0xe3630b12; 0x94643b84; 0x0d6d6a3e; 0x7a6a5aa8;
  0xe40ecf0b; 0x9309ff9d; 0x0a00ae27; 0x7d079eb1;
  0xf00f9344; 0x8708a3d2; 0x1e01f268; 0x6906c2fe;
  0xf762575d; 0x806567cb; 0x196c3671; 0x6e6b06e7;
  0xfed41b76; 0x89d32be0; 0x10da7a5a; 0x67dd4acc;
  0xf9b9df6f; 0x8ebeeff9; 0x17b7be43; 0x60b08ed5;
  0xd6d6a3e8; 0xa1d1937e; 0x38d8c2c4; 0x4fdff252;
  0xd1bb67f1; 0xa6bc5767; 0x3fb506dd; 0x48b2364b;
  0xd80d2bda; 0xaf0a1b4c; 0x36034af6; 0x41047a60;
  0xdf60efc3; 0xa867df55; 0x316e8eef; 0x4669be79;
  0xcb61b38c; 0xbc66831a; 0x256fd2a0; 0x5268e236;
  0xcc0c7795; 0xbb0b4703; 0x220216b9; 0x5505262f;
  0xc5ba3bbe; 0xb2bd0b28; 0x2bb45a92; 0x5cb36a04;
  0xc2d7ffa7; 0xb5d0cf31; 0x2cd99e8b; 0x5bdeae1d;
  0x9b64c2b0; 0xec63f226; 0x756aa39c; 0x026d930a;
  0x9c0906a9; 0xeb0e363f; 0x72076785; 0x05005713;
  0x95bf4a82; 0xe2b87a14; 0x7bb12bae; 0x0cb61b38;
  0x92d28e9b; 0xe5d5be0d; 0x7cdcefb7; 0x0bdbdf21;
  0x86d3d2d4; 0xf1d4e242; 0x68ddb3f8; 0x1fda836e;
  0x81be16cd; 0xf6b9265b; 0x6fb077e1; 0x18b74777;
  0x88085ae6; 0xff0f6a70; 0x66063bca; 0x11010b5c;
  0x8f659eff; 0xf862ae69; 0x616bffd3; 0x166ccf45;
  0xa00ae278; 0xd70dd2ee; 0x4e048354; 0x3903b3c2;
  0xa7672661; 0xd06016f7; 0x4969474d; 0x3e6e77db;
  0xaed16a4a; 0xd9d65adc; 0x40df0b66; 0x37d83bf0;
  0xa9bcae53; 0xdebb9ec5; 0x47b2cf7f; 0x30b5ffe9;
  0xbdbdf21c; 0xcabac28a; 0x53b39330; 0x24b4a3a6;
  0xbad03605; 0xcdd70693; 0x54de5729; 0x23d967bf;
  0xb3667a2e; 0xc4614ab8; 0x5d681b02; 0x2a6f2b94;
  0xb40bbe37; 0xc30c8ea1; 0x5a05df1b; 0x2d02ef8d].

(** One round of the inner loop of [make_crctable]. *)
Definition crc_round (r : Z) : Z :=
  if truth (Z.land r 1) then Z.lxor (Z.shiftr r 1) CRCPOLY else Z.shiftr r 1.

Definition make_crctable : list Z :=
  (λ i, Nat.iter 8 crc_round (Z.of_nat i)) <$> seq 0 256.

(** [UPDATE_CRC]; the index is a byte, so the lookup is in the table. *)
Definition UPDATE_CRC (crc c : Z) : Z :=
  Z.lxor (nth (Z.to_nat (Z.lxor (u8 crc) (u8 c))) crctable 0) (Z.shiftr crc 8).

(** [None]: the buffer has fewer than [len] bytes. *)
Definition ns_crc32 (buffer : list Z) (len : Z) : option Z :=
  bs ← rd_block buffer 0 len;
  Some (Z.lxor (foldl UPDATE_CRC CRC_MASK bs) CRC_MASK).

(** * Reference: CRC-32 one bit at a time *)

Definition crc_ref_byte (crc c : Z) : Z := Nat.iter 8 crc_round (Z.lxor crc c).
Definition crc_ref (bs : list Z) : Z := Z.lxor (foldl crc_ref_byte CRC_MASK bs) CRC_MASK.

(** The table is the one its generator computes. *)
Lemma crctable_generated : crctable = make_crctable.
Proof. by vm_compute. Qed.

Lemma crctable_nth i : 0 <= i < 256 -> nth (Z.to_nat i) crctable 0 = Nat.iter 8 crc_round i.
Proof.
  intros Hi. rewrite crctable_generated. unfold make_crctable.
  apply (nth_error_nth _ _ 0). change (λ i, Nat.iter 8 crc_round (Z.of_nat i)) with
    (λ i, Nat.iter 8 crc_round (Z.of_nat i)).
  rewrite <- (Z2Nat.id i) at 2 by lia. generalize (Z.to_nat i) (ltac:(lia) : (Z.to_nat i < 256)%nat).
  intros n Hn. rewrite List.nth_error_map, nth_error_seq.
  destruct (n <? 256)%nat eqn:E; [done|]. apply Nat.ltb_ge in E. lia.
Qed.

Definition is_u32 (z : Z) : Prop := 0 <= z < 2 ^ 32.

Lemma truth_odd r : truth (Z.land r 1) = Z.odd r.
Proof.
  unfold truth. change 1 with (Z.ones 1). rewrite Z.land_ones by lia. change (2 ^ 1) with 2.
  rewrite Zmod_odd. by destruct (Z.odd r).
Qed.

Lemma crc_round_odd r :
  crc_round r = Z.lxor (Z.shiftr r 1) (if Z.odd r then CRCPOLY else 0).
Proof. unfold crc_round. rewrite truth_odd. destruct (Z.odd r); [done|]. by rewrite Z.lxor_0_r. Qed.

Lemma lxor_swap a b c d : Z.lxor (Z.lxor a b) (Z.lxor c d) = Z.lxor (Z.lxor a c) (Z.lxor b d).
Proof. apply Z.bits_inj'. intros n _. rewrite !Z.lxor_spec. by destruct (Z.testbit a n), (Z.testbit b n), (Z.testbit c n), (Z.testbit d n). Qed.

(** The round is linear over XOR. *)
Lemma crc_round_lxor a b : crc_round (Z.lxor a b) = Z.lxor (crc_round a) (crc_round b).
Proof.
  rewrite !crc_round_odd, lxor_swap, Z.shiftr_lxor. f_equal.
  rewrite <- !Z.bit0_odd, Z.lxor_spec.
  by destruct (Z.testbit a 0), (Z.testbit b 0).
Qed.

Lemma crc_rounds_lxor n a b :
  Nat.iter n crc_round (Z.lxor a b) = Z.lxor (Nat.iter n crc_round a) (Nat.iter n crc_round b).
Proof. induction n as [|n IH]; [done|]. simpl. by rewrite IH, crc_round_lxor. Qed.

(** Rounds on a multiple of a power of two only shift. *)
Lemma crc_rounds_shift (n : nat) h : Nat.iter n crc_round (Z.shiftl h (Z.of_nat n)) = h.
Proof.
  revert h. induction n as [|n IH]; intros h; [apply Z.shiftl_0_r|].
  rewrite Nat.iter_succ_r, crc_round_odd.
  assert (Z.odd (Z.shiftl h (Z.of_nat (S n))) = false) as ->.
  { rewrite <- Z.bit0_odd. apply Z.shiftl_spec_low. lia. }
  rewrite Z.lxor_0_r, Z.shiftr_shiftl_l by lia.
  replace (Z.of_nat (S n) - 1) with (Z.of_nat n) by lia. apply IH.
Qed.

Lemma u8_land z : u8 z = Z.land z 255.
Proof. unfold u8. change 255 with (Z.ones 8). by rewrite Z.land_ones. Qed.

Lemma lxor_hi_lo z : z = Z.lxor (Z.shiftl (Z.shiftr z 8) 8) (u8 z).
Proof.
  apply Z.bits_inj'. intros n Hn. rewrite Z.lxor_spec, u8_land, Z.land_spec.
  change 255 with (Z.ones 8). rewrite Z.testbit_ones by lia.
  destruct (Z.ltb_spec n 8).
  - rewrite Z.shiftl_spec_low by lia.
    replace (0 <=? n) with true by (symmetry; by apply Z.leb_le). simpl. by rewrite andb_true_r.
  - rewrite Z.shiftl_spec_high by lia. rewrite Z.shiftr_spec by lia.
    rewrite !andb_false_r, xorb_false_r. f_equal. lia.
Qed.

Lemma u8_lxor_range a b : 0 <= Z.lxor (u8 a) (u8 b) < 256.
Proof.
  rewrite !u8_land. replace (Z.lxor _ _) with (Z.land (Z.lxor a b) 255).
  - change 255 with (Z.ones 8). rewrite Z.land_ones by lia. apply Z.mod_pos_bound. lia.
  - apply Z.bits_inj'. intros n _. rewrite Z.land_spec, !Z.lxor_spec, !Z.land_spec.
    by destruct (Z.testbit a n), (Z.testbit b n), (Z.testbit 255 n).
Qed.

Lemma UPDATE_CRC_ref crc c : 0 <= c < 256 -> UPDATE_CRC crc c = crc_ref_byte crc c.
Proof.
  intros Hc. unfold UPDATE_CRC, crc_ref_byte.
  rewrite crctable_nth by apply u8_lxor_range. rewrite (u8_small c) by done.
  replace (Z.lxor crc c) with (Z.lxor (Z.shiftl (Z.shiftr crc 8) 8) (Z.lxor (u8 crc) c))
    by (by rewrite <- Z.lxor_assoc, <- lxor_hi_lo).
  rewrite (crc_rounds_lxor 8 (Z.shiftl _ _)).
  pose proof (crc_rounds_shift 8 (Z.shiftr crc 8)) as E. change (Z.of_nat 8) with 8 in E.
  rewrite E. apply Z.lxor_comm.
Qed.

Lemma ns_crc32_ref buffer len :
  bytes buffer -> 0 <= len <= zlen buffer ->
  ns_crc32 buffer len = Some (crc_ref (take (Z.to_nat len) buffer)).
Proof.
  intros Hb Hl. unfold ns_crc32.
  rewrite rd_block_ok by lia. cbn [mbind option_bind]. change (Z.to_nat 0) with 0%nat.
  rewrite drop_0. unfold crc_ref. f_equal. f_equal.
  pose proof (bytes_take (Z.to_nat len) _ Hb) as Ht. revert Ht.
  generalize (take (Z.to_nat len) buffer) CRC_MASK. intros bs.
  induction bs as [|b bs IH]; intros acc H; [done|]. inversion H; subst. simpl.
  rewrite UPDATE_CRC_ref by done. by apply IH.
Qed.

(** C34. The table-driven checksum is the bitwise CRC-32 (polynomial
    0x04C11DB7 reflected), the table is the one its generator computes, and the
    routine is defined for every length within the buffer. *)
Theorem ns_crc32_reference buffer len :
  bytes buffer -> 0 <= len <= zlen buffer ->
  crctable = make_crctable /\
  ns_crc32 buffer len = Some (crc_ref (take (Z.to_nat len) buffer)).
Proof. intros Hb Hl. split; [apply crctable_generated|by apply ns_crc32_ref]. Qed.

Lemma ns_crc32_reference_witness :
  ns_crc32 [49; 50; 51; 52; 53; 54; 55; 56; 57] 9 = Some 0xCBF43926.
Proof.
  rewrite (proj2 (ns_crc32_reference [49; 50; 51; 52; 53; 54; 55; 56; 57] 9
    ltac:(repeat constructor; lia) ltac:(vm_compute; split; discriminate))).
  by vm_compute.
Defined.

(** * Detection of a changed byte *)

Lemma is_u32_bits z : is_u32 z <-> 0 <= z /\ forall n, 32 <= n -> Z.testbit z n = false.
Proof.
  unfold is_u32. split.
  - intros H. split; [lia|]. intros n Hn. destruct (Z.eq_dec z 0) as [->|]; [apply Z.bits_0|].
    apply Z.bits_above_log2; [lia|]. apply (Z.lt_le_trans _ 32); [|done]. apply Z.log2_lt_pow2; lia.
  - intros [H0 H]. split; [done|]. destruct (Z.eq_dec z 0) as [->|]; [lia|].
    apply Z.log2_lt_pow2; [lia|]. destruct (Z.le_gt_cases 32 (Z.log2 z)) as [Hle|]; [|done].
    specialize (H _ Hle). rewrite Z.bit_log2 in H by lia. done.
Qed.

Lemma crc_round_u32 r : is_u32 r -> is_u32 (crc_round r).
Proof.
  rewrite !is_u32_bits. intros [H0 H]. rewrite crc_round_odd. split.
  - apply Z.lxor_nonneg. rewrite Z.shiftr_nonneg. destruct (Z.odd r); unfold CRCPOLY; lia.
  - intros n Hn. rewrite Z.lxor_spec, Z.shiftr_spec, H by lia.
    assert (is_u32 (if Z.odd r then CRCPOLY else 0)) as Hp.
    { unfold is_u32. destruct (Z.odd r); unfold CRCPOLY; lia. }
    apply is_u32_bits in Hp as [_ Hp]. by rewrite Hp.
Qed.

(** The top bit of the result is the bit shifted out, so a round is injective. *)
Lemma crc_round_top r : is_u32 r -> Z.testbit (crc_round r) 31 = Z.odd r.
Proof.
  intros [H0 H]%is_u32_bits. rewrite crc_round_odd, Z.lxor_spec, Z.shiftr_spec by lia.
  rewrite H by lia. by destruct (Z.odd r).
Qed.

Lemma crc_round_zero r : is_u32 r -> crc_round r = 0 -> r = 0.
Proof.
  intros Hr E. pose proof (crc_round_top r Hr) as Ho. rewrite E, Z.bits_0 in Ho.
  rewrite crc_round_odd, <- Ho, Z.lxor_0_r in E.
  rewrite Z.shiftr_div_pow2 in E by lia. change (2 ^ 1) with 2 in E.
  pose proof (Zdiv2_odd_eqn r) as Hd. rewrite Z.div2_div, E, <- Ho in Hd. lia.
Qed.

Lemma crc_rounds_u32 n r : is_u32 r -> is_u32 (Nat.iter n crc_round r).
Proof. intros Hr. induction n; [done|]. simpl. by apply crc_round_u32. Qed.

Lemma crc_rounds_zero n r : is_u32 r -> Nat.iter n crc_round r = 0 -> r = 0.
Proof.
  intros Hr. induction n as [|n IH]; [done|]. simpl. intros E.
  apply IH, crc_round_zero; [by apply crc_rounds_u32|done].
Qed.

Lemma lxor_u32 a b : is_u32 a -> is_u32 b -> is_u32 (Z.lxor a b).
Proof.
  rewrite !is_u32_bits. intros [? Ha] [? Hb]. split; [apply Z.lxor_nonneg; lia|].
  intros n Hn. by rewrite Z.lxor_spec, Ha, Hb.
Qed.

Lemma byte_u32 c : 0 <= c < 256 -> is_u32 c.
Proof. unfold is_u32. lia. Qed.

Lemma crc_ref_byte_u32 a c : is_u32 a -> 0 <= c < 256 -> is_u32 (crc_ref_byte a c).
Proof. intros. by apply crc_rounds_u32, lxor_u32, byte_u32. Qed.

(** Different registers stay different, and different bytes separate equal
    registers. *)
Lemma crc_ref_byte_inj a b c d :
  is_u32 a -> is_u32 b -> 0 <= c < 256 -> 0 <= d < 256 ->
  crc_ref_byte a c = crc_ref_byte b d -> Z.lxor a c = Z.lxor b d.
Proof.
  intros Ha Hb Hc Hd E. apply Z.lxor_eq. apply (crc_rounds_zero 8).
  - auto using lxor_u32, byte_u32.
  - unfold crc_ref_byte in E. by rewrite crc_rounds_lxor, E, Z.lxor_nilpotent.
Qed.

Lemma lxor_inj_l a b c : Z.lxor a c = Z.lxor b c -> a = b.
Proof.
  intros E. apply (f_equal (λ z, Z.lxor z c)) in E.
  by rewrite !Z.lxor_assoc, Z.lxor_nilpotent, !Z.lxor_0_r in E.
Qed.

Lemma lxor_inj_r a b c : Z.lxor c a = Z.lxor c b -> a = b.
Proof. rewrite !(Z.lxor_comm c). apply lxor_inj_l. Qed.

Lemma crc_fold_u32 bs a : is_u32 a -> bytes bs -> is_u32 (foldl crc_ref_byte a bs).
Proof.
  revert a. induction bs as [|c bs IH]; intros a Ha H; [done|]. inversion H; subst.
  simpl. apply IH; [|done]. by apply crc_ref_byte_u32.
Qed.

Lemma crc_fold_inj bs a b :
  is_u32 a -> is_u32 b -> bytes bs -> foldl crc_ref_byte a bs = foldl crc_ref_byte b bs -> a = b.
Proof.
  revert a b. induction bs as [|c bs IH]; intros a b Ha Hb H E; [done|]. inversion H; subst.
  simpl in E. apply IH in E; [|by apply crc_ref_byte_u32..|done].
  apply crc_ref_byte_inj in E; [|done..]. by apply lxor_inj_l in E.
Qed.

Lemma crc_ref_detects pre post c d :
  bytes pre -> bytes post -> 0 <= c < 256 -> 0 <= d < 256 -> c ≠ d ->
  crc_ref (pre ++ c :: post) ≠ crc_ref (pre ++ d :: post).
Proof.
  intros Hpre Hpost Hc Hd Hne E.
  unfold crc_ref in E. apply lxor_inj_l in E. rewrite !foldl_app in E. simpl in E.
  set (r := foldl crc_ref_byte CRC_MASK pre) in *.
  assert (is_u32 r) as Hr. { apply crc_fold_u32; [|done]. unfold is_u32, CRC_MASK. lia. }
  apply crc_fold_inj in E; [|by apply crc_ref_byte_u32..|done].
  apply crc_ref_byte_inj in E; [|done..]. by apply lxor_inj_r in E.
Qed.

Lemma ns_crc32_whole l : bytes l -> ns_crc32 l (zlen l) = Some (crc_ref l).
Proof.
  intros Hb. pose proof (zlen_nonneg l). rewrite ns_crc32_ref by (done || lia).
  unfold zlen. by rewrite Nat2Z.id, firstn_all.
Qed.

(** A fingerprint detects any change that is confined to one byte: two
    buffers that differ in exactly one of the first [len] bytes have different
    checksums. *)
Theorem ns_crc32_detects_byte pre post c d crc1 crc2 :
  bytes pre -> bytes post -> 0 <= c < 256 -> 0 <= d < 256 -> c ≠ d ->
  ns_crc32 (pre ++ c :: post) (zlen (pre ++ c :: post)) = Some crc1 ->
  ns_crc32 (pre ++ d :: post) (zlen (pre ++ d :: post)) = Some crc2 ->
  crc1 ≠ crc2.
Proof.
  intros Hpre Hpost Hc Hd Hne H1 H2.
  rewrite ns_crc32_whole in H1 by (apply bytes_app; split; [done|by constructor]).
  rewrite ns_crc32_whole in H2 by (apply bytes_app; split; [done|by constructor]).
  injection H1 as <-. injection H2 as <-. by apply crc_ref_detects.
Qed.

Lemma ns_crc32_detects_byte_witness :
  exists crc1 crc2, ns_crc32 [1; 2; 3] 3 = Some crc1 /\ ns_crc32 [1; 9; 3] 3 = Some crc2 /\
  crc1 ≠ crc2.
Proof.
  eexists _, _. split; [reflexivity|]. split; [reflexivity|].
  apply (ns_crc32_detects_byte [1] [3] 2 9); try (repeat constructor; lia); reflexivity.
Defined.
