(* ===== verification/StunHeader.v ===== *)
(** Message headers: type, method and class, length, magic cookie, transaction
    id, channel framing ([client/ns_turn_msg.c]).

    A readable buffer is the list of the bytes of its object; functions that
    test the pointer for NULL take an [option].  A message under construction
    ([uint8_t *buf, size_t *len]) is an [sbuf].  The result [None] is an access
    outside the object (or another undefined behaviour); C return values that are
    only 0 or 1 are [bool]. *)

From S2P Require Import Prelude Defs CString.

Record sbuf : Type := SBuf {
  sb_mem : list Z;
  sb_len : Z;
}.

(** [nswap16(((const uint16_t * )buf)[p/2])] and the 32-bit form. *)
Definition ldn16 (buf : list Z) (p : Z) : option Z := nswap16 <$> load16 buf p.
Definition ldn32 (buf : list Z) (p : Z) : option Z := nswap32 <$> load32 buf p.

(** The object seen from [buf + offset]. *)
Definition ptr_add (buf : list Z) (offset : Z) : option (list Z) :=
  if (0 <=? offset) && (offset <=? zlen buf) then Some (drop (Z.to_nat offset) buf) else None.

(** * Names of methods *)

(** [smethod] is the output array, if any. *)
Definition stun_method_str (method : Z) (smethod : option (list Z))
    : option (Z * option (list Z)) :=
  let '(ret, s) :=
    if method =? STUN_METHOD_BINDING then (0, lit "BINDING"%string)
    else if method =? STUN_METHOD_ALLOCATE then (0, lit "ALLOCATE"%string)
    else if method =? STUN_METHOD_REFRESH then (0, lit "REFRESH"%string)
    else if method =? STUN_METHOD_SEND then (0, lit "SEND"%string)
    else if method =? STUN_METHOD_DATA then (0, lit "DATA"%string)
    else if method =? STUN_METHOD_CREATE_PERMISSION then (0, lit "CREATE_PERMISSION"%string)
    else if method =? STUN_METHOD_CHANNEL_BIND then (0, lit "CHANNEL_BIND"%string)
    else if method =? STUN_METHOD_CONNECT then (0, lit "CONNECT"%string)
    else if method =? STUN_METHOD_CONNECTION_BIND then (0, lit "CONNECTION_BIND"%string)
    else if method =? STUN_METHOD_CONNECTION_ATTEMPT then (0, lit "CONNECTION_ATTEMPT"%string)
    else (-1, lit "UNKNOWN"%string) in
  match smethod with
  | Some dst => dst' ← wr_block dst 0 (cstring s); Some (ret, Some dst')
  | None => Some (ret, None)
  end.

(** * The length field *)

Definition stun_get_command_message_len_str (buf : list Z) (len : Z) : option Z :=
  if len <? STUN_HEADER_LENGTH then Some (-1) else
  l ← ldn16 buf 2;
  let bufLen := l + STUN_HEADER_LENGTH in
  if len <? bufLen then Some (-1) else Some bufLen.

Definition stun_set_command_message_len_str (buf : list Z) (len : Z) : option (Z * list Z) :=
  if len <? STUN_HEADER_LENGTH then Some (-1, buf) else
  buf' ← store16 buf 2 (nswap16 (u16 (len - STUN_HEADER_LENGTH)));
  Some (0, buf').

(** * Type, method and class *)

Definition stun_make_type (method : Z) : Z :=
  let method := Z.land method 0x0FFF in
  u16 (Z.lor (Z.lor (Z.lor (Z.land method 0x000F) (Z.shiftl (Z.land method 0x0070) 1))
                    (Z.shiftl (Z.land method 0x0380) 2))
             (Z.shiftl (Z.land method 0x0C00) 2)).

(** The inverse bit selection of [stun_get_method_str]. *)
Definition method_bits (tt : Z) : Z :=
  u16 (Z.lor (Z.lor (Z.lor (Z.land tt 0x000F) (Z.shiftr (Z.land tt 0x00E0) 1))
                    (Z.shiftr (Z.land tt 0x0E00) 2))
             (Z.shiftr (Z.land tt 0x3000) 2)).

Definition stun_get_method_str (buf : option (list Z)) (len : Z) : option Z :=
  match buf with
  | None => Some 0xFFFF
  | Some buf =>
    if len <? 2 then Some 0xFFFF else
    tt ← ldn16 buf 0;
    Some (method_bits tt)
  end.

Definition stun_get_msg_type_str (buf : option (list Z)) (len : Z) : option Z :=
  match buf with
  | None => Some 0xFFFF
  | Some buf => if len <? 2 then Some 0xFFFF else t ← ldn16 buf 0; Some (Z.land t 0x3FFF)
  end.

Definition is_channel_msg_str (buf : option (list Z)) (blen : Z) : option bool :=
  match buf with
  | None => Some false
  | Some buf => if 4 <=? blen then t ← ldn16 buf 0; Some (STUN_VALID_CHANNEL t) else Some false
  end.

(** The nested tests shared by the recognizers: not a channel, the two top bits
    clear, and the magic cookie test [ck] holds of the word at 4. *)
Definition stun_is_command_message_str (buf : option (list Z)) (blen : Z) : option bool :=
  match buf with
  | None => Some false
  | Some buf =>
    if STUN_HEADER_LENGTH <=? blen then
      t ← ldn16 buf 0;
      if negb (STUN_VALID_CHANNEL t) then
        b0 ← rd8 buf 0;
        if Z.land b0 0xC0 =? 0 then
          mc ← ldn32 buf 4;
          if mc =? STUN_MAGIC_COOKIE then
            len ← ldn16 buf 2;
            if Z.land len 0x0003 =? 0 then
              if len + STUN_HEADER_LENGTH =? blen then Some true else Some false
            else Some false
          else Some false
        else Some false
      else Some false
    else Some false
  end.

(** Returns the cookie of a classic (RFC 3489) message. *)
Definition old_stun_is_command_message_str (buf : option (list Z)) (blen : Z) (cookie : Z)
    : option (bool * Z) :=
  match buf with
  | None => Some (false, cookie)
  | Some buf =>
    if STUN_HEADER_LENGTH <=? blen then
      t ← ldn16 buf 0;
      if negb (STUN_VALID_CHANNEL t) then
        b0 ← rd8 buf 0;
        if Z.land b0 0xC0 =? 0 then
          mc ← ldn32 buf 4;
          if negb (mc =? STUN_MAGIC_COOKIE) then
            len ← ldn16 buf 2;
            if Z.land len 0x0003 =? 0 then
              if len + STUN_HEADER_LENGTH =? blen then
                cookie ← ldn32 buf 4; Some (true, cookie)
              else Some (false, cookie)
            else Some (false, cookie)
          else Some (false, cookie)
        else Some (false, cookie)
      else Some (false, cookie)
    else Some (false, cookie)
  end.

Definition stun_is_command_message_offset_str (buf : list Z) (blen offset : Z) : option bool :=
  p ← ptr_add buf offset;
  stun_is_command_message_str (Some p) blen.

Definition stun_is_request_str (buf : option (list Z)) (len : Z) : option bool :=
  c ← is_channel_msg_str buf len;
  if (c : bool) then Some false else
  t ← stun_get_msg_type_str buf len; Some (IS_STUN_REQUEST t).

Definition stun_is_success_response_str (buf : option (list Z)) (len : Z) : option bool :=
  c ← is_channel_msg_str buf len;
  if (c : bool) then Some false else
  t ← stun_get_msg_type_str buf len; Some (IS_STUN_SUCCESS_RESP t).

Definition stun_is_response_str (buf : option (list Z)) (len : Z) : option bool :=
  c ← is_channel_msg_str buf len;
  if (c : bool) then Some false else
  t ← stun_get_msg_type_str buf len;
  if IS_STUN_SUCCESS_RESP t then Some true else
  t ← stun_get_msg_type_str buf len;
  if IS_STUN_ERR_RESP t then Some true else Some false.

Definition stun_is_indication_str (buf : option (list Z)) (len : Z) : option bool :=
  c ← is_channel_msg_str buf len;
  if (c : bool) then Some false else
  t ← stun_get_msg_type_str buf len; Some (IS_STUN_INDICATION t).

Definition stun_make_request (method : Z) : Z := GET_STUN_REQUEST (stun_make_type method).
Definition stun_make_indication (method : Z) : Z := GET_STUN_INDICATION (stun_make_type method).
Definition stun_make_success_response (method : Z) : Z :=
  GET_STUN_SUCCESS_RESP (stun_make_type method).
Definition stun_make_error_response (method : Z) : Z := GET_STUN_ERR_RESP (stun_make_type method).

Definition stun_is_binding_request_str (buf : list Z) (len offset : Z) : option bool :=
  if offset <? len then
    p ← ptr_add buf offset;
    let len := len - offset in
    c ← stun_is_command_message_str (Some p) len;
    if (c : bool) then
      r ← stun_is_request_str (Some p) len;
      if (r : bool) then
        m ← stun_get_method_str (Some p) len;
        if m =? STUN_METHOD_BINDING then Some true else Some false
      else Some false
    else Some false
  else Some false.

Definition stun_is_binding_response_str (buf : option (list Z)) (len : Z) : option bool :=
  c ← stun_is_command_message_str buf len;
  if (c : bool) then
    m ← stun_get_method_str buf len;
    if m =? STUN_METHOD_BINDING then
      r ← stun_is_response_str buf len;
      if (r : bool) then Some true else Some false
    else Some false
  else Some false.

(** * Transaction ids and randomness

    The bytes and words that OpenSSL's [RAND_*] and libc's [random] produce are
    inputs of the model: [rnd_rc] is the return code of the [RAND_*] call,
    [rnd_bytes] what its array holds afterwards, [rnd_words] the results of the
    [random()] calls of the fallback. *)

Record entropy : Type := Entropy {
  rnd_rc : Z;
  rnd_bytes : list Z;
  rnd_words : list Z;
}.

(** A [long] filled by [RAND_bytes], or one [random()]. *)
Definition turn_random (e : entropy) : Z :=
  if rnd_rc e =? 0 then nth 0 (rnd_words e) 0
  else u64 (le_combine (rnd_bytes e) + 2 ^ 63) - 2 ^ 63.

Definition turn_random_tid_size (id : list Z) (e : entropy) : option (list Z) :=
  if rnd_rc e =? 0 then
    id ← store32 id 0 (u32 (nth 0 (rnd_words e) 0));
    id ← store32 id 4 (u32 (nth 1 (rnd_words e) 0));
    store32 id 8 (u32 (nth 2 (rnd_words e) 0))
  else wr_block id 0 (rnd_bytes e).

Definition generate_random_nonce (nonce : list Z) (sz : Z) (e : entropy) : option (list Z) :=
  if rnd_rc e =? 0 then wr_block nonce 0 (u8 <$> take (Z.to_nat sz) (rnd_words e))
  else wr_block nonce 0 (rnd_bytes e).

(** The loop of [stun_tid_equals]. *)
Fixpoint tid_bytes_eq (n : nat) (i : Z) (t1 t2 : list Z) : option bool :=
  match n with
  | O => Some true
  | S n' =>
    a ← rd8 t1 i;
    b ← rd8 t2 i;
    if negb (a =? b) then Some false else tid_bytes_eq n' (i + 1) t1 t2
  end.

Definition stun_tid_equals (id1 id2 : option (list Z)) : option bool :=
  match id1, id2 with
  | None, None => Some true
  | None, _ => Some false
  | _, None => Some false
  | Some t1, Some t2 => tid_bytes_eq (Z.to_nat STUN_TID_SIZE) 0 t1 t2
  end.

Definition stun_tid_cpy (id1 id2 : option (list Z)) : option (option (list Z)) :=
  match id1, id2 with
  | Some t1, Some t2 =>
    bs ← rd_block t2 0 STUN_TID_SIZE;
    t1' ← wr_block t1 0 bs;
    Some (Some t1')
  | _, _ => Some id1
  end.

(** [s] is [buf + p]. *)
Definition stun_tid_string_cpy (buf : list Z) (p : Z) (id : option (list Z)) : option (list Z) :=
  match id with
  | Some t => bs ← rd_block t 0 STUN_TID_SIZE; wr_block buf p bs
  | None => Some buf
  end.

Definition stun_tid_from_string (buf : list Z) (p : Z) (id : option (list Z))
    : option (option (list Z)) :=
  match id with
  | Some t => bs ← rd_block buf p STUN_TID_SIZE; t' ← wr_block t 0 bs; Some (Some t')
  | None => Some None
  end.

Definition stun_tid_from_message_str (buf : list Z) (len : Z) (id : option (list Z))
    : option (option (list Z)) :=
  stun_tid_from_string buf 8 id.

Definition stun_tid_message_cpy (buf : list Z) (id : option (list Z)) : option (list Z) :=
  match id with
  | Some _ => stun_tid_string_cpy buf 8 id
  | None => Some buf
  end.

Definition stun_tid_generate (id : option (list Z)) (e : entropy) : option (option (list Z)) :=
  match id with
  | Some t => t' ← turn_random_tid_size t e; Some (Some t')
  | None => Some None
  end.

(** A NULL [id] stands for the local [tmp]. *)
Definition stun_tid_generate_in_message_str (buf : list Z) (id : option (list Z)) (e : entropy)
    : option (list Z * option (list Z)) :=
  let id' := match id with Some t => Some t | None => Some (replicate 12 0) end in
  id' ← stun_tid_generate id' e;
  buf ← stun_tid_message_cpy buf id';
  Some (buf, match id with Some _ => id' | None => None end).

(** * Initialisation *)

Definition stun_init_buffer_str (b : sbuf) : option sbuf :=
  let len := STUN_HEADER_LENGTH in
  m ← wr_block (sb_mem b) 0 (replicate (Z.to_nat len) 0);
  Some (SBuf m len).

(** The common text of [stun_init_command_str] and its classic variant, which
    differ in the cookie they store. *)
Definition init_command_with (cookie : Z) (message_type : Z) (b : sbuf) (e : entropy) : option sbuf :=
  b ← stun_init_buffer_str b;
  let message_type := Z.land message_type 0x3FFF in
  m ← store16 (sb_mem b) 0 (nswap16 message_type);
  m ← store16 m 2 0;
  m ← store32 m 4 (nswap32 cookie);
  '(m, _) ← stun_tid_generate_in_message_str m None e;
  Some (SBuf m (sb_len b)).

Definition stun_init_command_str (message_type : Z) (b : sbuf) (e : entropy) : option sbuf :=
  init_command_with STUN_MAGIC_COOKIE message_type b e.

Definition old_stun_init_command_str (message_type : Z) (b : sbuf) (cookie : Z) (e : entropy)
    : option sbuf :=
  init_command_with cookie message_type b e.

Definition stun_init_request_str (method : Z) (b : sbuf) (e : entropy) : option sbuf :=
  stun_init_command_str (stun_make_request method) b e.

Definition stun_init_indication_str (method : Z) (b : sbuf) (e : entropy) : option sbuf :=
  stun_init_command_str (stun_make_indication method) b e.

Definition stun_init_success_response_str (method : Z) (b : sbuf) (id : option (list Z)) (e : entropy)
    : option sbuf :=
  b ← stun_init_command_str (stun_make_success_response method) b e;
  match id with
  | Some _ => m ← stun_tid_message_cpy (sb_mem b) id; Some (SBuf m (sb_len b))
  | None => Some b
  end.

Definition old_stun_init_success_response_str (method : Z) (b : sbuf) (id : option (list Z))
    (cookie : Z) (e : entropy) : option sbuf :=
  b ← old_stun_init_command_str (stun_make_success_response method) b cookie e;
  match id with
  | Some _ => m ← stun_tid_message_cpy (sb_mem b) id; Some (SBuf m (sb_len b))
  | None => Some b
  end.

Definition stun_set_binding_request_str (b : sbuf) (e : entropy) : option sbuf :=
  stun_init_request_str STUN_METHOD_BINDING b e.

(** * Channel messages *)

Definition stun_init_channel_message_str (chnumber : Z) (b : sbuf) (length : Z) (do_padding : bool)
    : option (Z * sbuf) :=
  let rlen := u16 length in
  if (length <? 0) || (MAX_STUN_MESSAGE_SIZE <? 4 + length) then Some (-1, b) else
  m ← store16 (sb_mem b) 0 (nswap16 chnumber);
  m ← store16 m 2 (nswap16 (u16 length));
  let rlen := if do_padding && truth (Z.land rlen 0x0003)
              then u16 (Z.shiftl (Z.shiftr rlen 2 + 1) 2) else rlen in
  Some (0, SBuf m (4 + rlen)).

(** Result: the verdict, the new value of [*blen] and of [*chnumber]. *)
Definition stun_is_channel_message_str (buf : list Z) (blen : option Z) (chnumber : option Z)
    (mandatory_padding : bool) : option (bool * option Z * option Z) :=
  match blen with
  | None => Some (false, blen, chnumber)
  | Some bl =>
    if bl <? 4 then Some (false, blen, chnumber) else
    chn ← ldn16 buf 0;
    if negb (STUN_VALID_CHANNEL chn) then Some (false, blen, chnumber) else
    let bl := if 0xFFFF <? bl then 0xFFFF else bl in
    let datalen_actual := u16 (u16 bl - 4) in
    datalen_header ← ldn16 buf 2;
    if datalen_actual <? datalen_header then Some (false, Some bl, chnumber) else
    let bad :=
      negb (datalen_header =? datalen_actual) && truth (Z.land datalen_actual 0x0003) &&
      (mandatory_padding ||
       ((datalen_actual <? datalen_header) || (datalen_header =? 0)) ||
       (3 <? u16 (datalen_actual - datalen_header))) in
    if bad then Some (false, Some bl, chnumber) else
    Some (true, Some (datalen_header + 4), match chnumber with Some _ => Some chn | None => None end)
  end.

(** * Lifetimes *)

Definition stun_adjust_allocate_lifetime (lifetime max_allowed_lifetime max_lifetime : Z) : Z :=
  let lifetime :=
    if lifetime =? 0 then STUN_DEFAULT_ALLOCATE_LIFETIME
    else if lifetime <? STUN_MIN_ALLOCATE_LIFETIME then STUN_MIN_ALLOCATE_LIFETIME
    else if max_allowed_lifetime <? lifetime then max_allowed_lifetime
    else lifetime in
  if truth max_lifetime && (max_lifetime <? lifetime) then max_lifetime else lifetime.

(** * Properties of the header fields *)

Lemma ldn16_be buf p : bytes buf -> ldn16 buf p = be_at 2 buf p.
Proof. apply nswap16_load16. Qed.

Lemma ldn32_be buf p : bytes buf -> ldn32 buf p = be_at 4 buf p.
Proof. apply nswap32_load32. Qed.

Lemma ldn16_ok buf p :
  bytes buf -> 0 <= p -> p + 2 <= zlen buf ->
  exists v, ldn16 buf p = Some v /\ be_at 2 buf p = Some v /\ 0 <= v < 65536.
Proof.
  intros Hb Hp Hl. destruct (be_at_ok 2 buf p) as [v Hv]; [lia..|]. exists v.
  rewrite ldn16_be by done. split; [done|]. split; [done|]. by apply (be_at_range 2 _ _ _ Hb Hv).
Qed.

Lemma ldn32_ok buf p :
  bytes buf -> 0 <= p -> p + 4 <= zlen buf ->
  exists v, ldn32 buf p = Some v /\ be_at 4 buf p = Some v /\ 0 <= v < 4294967296.
Proof.
  intros Hb Hp Hl. destruct (be_at_ok 4 buf p) as [v Hv]; [lia..|]. exists v.
  rewrite ldn32_be by done. split; [done|]. split; [done|]. by apply (be_at_range 4 _ _ _ Hb Hv).
Qed.

(** A finite check lifted to the quantifier. *)
Inductive stun_class : Type := Request | Indication | SuccessResp | ErrResp.

#[export] Instance stun_class_eq_dec : EqDecision stun_class.
Proof. solve_decision. Defined.

Definition make_of (c : stun_class) : Z -> Z :=
  match c with
  | Request => stun_make_request
  | Indication => stun_make_indication
  | SuccessResp => stun_make_success_response
  | ErrResp => stun_make_error_response
  end.

Definition is_class (c : stun_class) : Z -> bool :=
  match c with
  | Request => IS_STUN_REQUEST
  | Indication => IS_STUN_INDICATION
  | SuccessResp => IS_STUN_SUCCESS_RESP
  | ErrResp => IS_STUN_ERR_RESP
  end.

Definition classes : list stun_class := [Request; Indication; SuccessResp; ErrResp].

Definition type_check (m : Z) : bool :=
  forallb (λ c, let t := make_of c m in
    (method_bits t =? m) && (0 <=? t) && (t <? 0x4000) && (Z.land t 0x3FFF =? t) &&
    forallb (λ d, Bool.eqb (is_class d t) (bool_decide (c = d))) classes) classes.

Lemma type_check_all : forallb type_check (Z.of_nat <$> seq 0 4096) = true.
Proof. by vm_compute. Qed.

Lemma make_of_spec c m :
  0 <= m < 4096 ->
  let t := make_of c m in
  method_bits t = m /\ 0 <= t < 0x4000 /\ Z.land t 0x3FFF = t /\
  forall d, is_class d t = true <-> c = d.
Proof.
  intros Hm t. pose proof (forallb_upto type_check 4096 type_check_all m Hm) as H.
  unfold type_check in H. rewrite forallb_forall in H.
  assert (In c classes) as Hc by (destruct c; simpl; tauto). specialize (H c Hc).
  cbv zeta in H. fold t in H. rewrite !andb_true_iff in H. destruct H as [[[[H1 H2] H3] H4] H5].
  zbool. repeat split; try lia; try done.
  - rewrite forallb_forall in H5. intros Hd. assert (In d classes) as Hi by (destruct d; simpl; tauto).
    specialize (H5 d Hi). apply Bool.eqb_prop in H5. rewrite Hd in H5. symmetry in H5.
    by apply bool_decide_eq_true in H5.
  - rewrite forallb_forall in H5. intros <-. specialize (H5 c Hc). apply Bool.eqb_prop in H5.
    rewrite H5. by apply bool_decide_eq_true.
Qed.

(** Testing the top two bits of the first byte bounds the 16-bit type. *)
Lemma top_bits_check :
  forallb (λ b, Bool.eqb (Z.land b 0xC0 =? 0) (b <? 64)) (Z.of_nat <$> seq 0 256) = true.
Proof. by vm_compute. Qed.

Lemma top_bits b : 0 <= b < 256 -> (Z.land b 0xC0 =? 0) = (b <? 64).
Proof. intros Hb. by apply Bool.eqb_prop, (forallb_upto _ 256 top_bits_check). Qed.

Lemma be_at_2_bytes buf p t :
  bytes buf -> be_at 2 buf p = Some t ->
  exists b0 b1, rd8 buf p = Some b0 /\ 0 <= b0 < 256 /\ 0 <= b1 < 256 /\ t = 256 * b0 + b1.
Proof.
  intros Hb H. unfold be_at in H. inv_bind. pose proof (rd_block_zlen _ _ _ _ H) as Hl.
  pose proof (rd_block_bytes _ _ _ _ Hb H) as Hx.
  destruct x as [|b0 [|b1 [|? x]]]; rewrite ?zlen_cons, ?zlen_nil in Hl; try lia.
  2: { pose proof (zlen_nonneg x). lia. }
  exists b0, b1. unfold bytes in Hx. rewrite !Forall_cons in Hx. destruct Hx as (Hx0 & Hx1 & _).
  split; [|split; [done|split; [done|]]].
  - apply (rd8_part _ _ _ [] _ [b1] _ H). rewrite zlen_nil. lia.
  - unfold be_combine. simpl. lia.
Qed.

Lemma land3_mod z : 0 <= z -> (Z.land z 3 =? 0) = (z mod 4 =? 0).
Proof. intros. change 3 with (Z.ones 2). by rewrite Z.land_ones. Qed.

(** The header of a well-formed message of [blen] bytes. *)
Definition command_header (buf : list Z) (blen : Z) : Prop :=
  20 <= blen /\ exists t l,
    be_at 2 buf 0 = Some t /\ t < 0x4000 /\ be_at 4 buf 4 = Some STUN_MAGIC_COOKIE /\
    be_at 2 buf 2 = Some l /\ l mod 4 = 0 /\ blen = l + 20.

Lemma stun_is_command_message_spec buf blen :
  bytes buf -> blen <= zlen buf ->
  exists v, stun_is_command_message_str (Some buf) blen = Some v /\
  (v = true <-> command_header buf blen).
Proof.
  intros Hb Hl. unfold stun_is_command_message_str, command_header, STUN_HEADER_LENGTH.
  destruct (20 <=? blen) eqn:E20; zbool. 2: { exists false. split; [done|]. split; [done|lia]. }
  destruct (ldn16_ok buf 0) as (t & -> & Ht & Htr); [done|lia..|].
  destruct (ldn32_ok buf 4) as (mc & -> & Hmc & _); [done|lia..|].
  destruct (ldn16_ok buf 2) as (l & -> & Hll & Hlr); [done|lia..|].
  destruct (be_at_2_bytes _ _ _ Hb Ht) as (b0 & b1 & -> & Hb0 & Hb1 & Htb).
  cbn [mbind option_bind]. rewrite top_bits, land3_mod by lia. rewrite Ht, Hmc, Hll.
  assert (STUN_VALID_CHANNEL t = (0x4000 <=? t) && (t <=? 0x7FFF)) as -> by done.
  destruct (Z.ltb_spec b0 64) as [Hlt|Hge].
  - assert ((0x4000 <=? t) = false) as -> by (apply Z.leb_gt; lia). cbn [andb negb].
    destruct (mc =? STUN_MAGIC_COOKIE) eqn:Em; zbool.
    2: { exists false. split; [done|]. split; [done|]. intros (_ & ? & ? & _ & _ & [= ?] & _). done. }
    destruct (l mod 4 =? 0) eqn:E4; zbool.
    2: { exists false. split; [done|]. split; [done|]. intros (_ & ? & ? & _ & _ & _ & [= ->] & ? & _). done. }
    destruct (l + 20 =? blen) eqn:El; zbool.
    2: { exists false. split; [done|]. split; [done|]. intros (_ & ? & ? & _ & _ & _ & [= ->] & _ & ?). lia. }
    exists true. split; [done|]. split; [|done]. intros _. split; [done|]. exists t, l.
    repeat split; try done; try lia. by rewrite <- Em.
  - exists false. split; [by destruct (negb _)|]. split; [done|].
    intros (_ & ? & ? & [= <-] & ? & _). lia.
Qed.

(** Recognition of messages is exact and safe: on a buffer that holds the
    [blen] bytes received, no test reads outside it; [stun_is_command_message_str]
    answers yes precisely for a header with the two top bits clear, the magic
    cookie and a length field that is a multiple of 4 and matches [blen]; and no
    message is both a STUN message and a channel message. *)
Theorem stun_is_command_message_exact buf blen :
  bytes buf -> blen <= zlen buf ->
  exists v c, stun_is_command_message_str (Some buf) blen = Some v /\
  is_channel_msg_str (Some buf) blen = Some c /\
  (v = true <-> command_header buf blen) /\ ~ (v = true /\ c = true).
Proof.
  intros Hb Hl. destruct (stun_is_command_message_spec buf blen Hb Hl) as (v & Hv & Hiff).
  unfold is_channel_msg_str. destruct (4 <=? blen) eqn:E4; zbool.
  - destruct (ldn16_ok buf 0) as (t & -> & Ht & Htr); [done|lia..|]. cbn [mbind option_bind].
    exists v, (STUN_VALID_CHANNEL t). split; [done|]. split; [done|]. split; [done|].
    intros [(_ & t' & l & Ht' & Hlt & _)%Hiff Hc]. rewrite Ht in Ht'. injection Ht' as <-.
    unfold STUN_VALID_CHANNEL in Hc. zbool. lia.
  - exists v, false. split; [done|]. split; [done|]. split; [done|]. by intros [_ ?].
Qed.

(** The 14-bit message type determines method and class and is determined by
    them: for each of the four constructors of message types and every 12-bit
    method, reading the type back gives the method, exactly the predicate of that
    class holds, the mask applied when a message is initialised keeps the type,
    and the type is outside the channel range. *)
Theorem stun_make_type_roundtrip c m :
  0 <= m < 4096 ->
  let t := make_of c m in
  method_bits t = m /\ Z.land t 0x3FFF = t /\ STUN_VALID_CHANNEL t = false /\
  forall d, is_class d t = true <-> c = d.
Proof.
  intros Hm t. destruct (make_of_spec c m Hm) as (H1 & H2 & H3 & H4).
  repeat split; try done; try apply H4. unfold STUN_VALID_CHANNEL, t.
  apply andb_false_iff. left. apply Z.leb_gt. lia.
Qed.

Lemma stun_make_type_roundtrip_witness :
  method_bits (make_of ErrResp STUN_METHOD_CHANNEL_BIND) = STUN_METHOD_CHANNEL_BIND.
Proof. apply (stun_make_type_roundtrip ErrResp 9). lia. Defined.

Lemma stun_is_command_message_exact_witness :
  exists v c, stun_is_command_message_str (Some (0 :: 1 :: replicate 18 0)) 20 = Some v /\
  is_channel_msg_str (Some (0 :: 1 :: replicate 18 0)) 20 = Some c /\ ~ (v = true /\ c = true).
Proof.
  destruct (stun_is_command_message_exact (0 :: 1 :: replicate 18 0) 20) as (v & c & H1 & H2 & _ & H3).
  - repeat constructor; lia.
  - by vm_compute.
  - exists v, c. auto.
Defined.

(** * Properties of initialisation *)

Definition header_bytes (t l cookie : Z) (tid : list Z) : list Z :=
  be_split 2 t ++ be_split 2 l ++ be_split 4 cookie ++ tid.

Lemma zlen_header_bytes t l cookie tid : zlen (header_bytes t l cookie tid) = 8 + zlen tid.
Proof. unfold header_bytes. rewrite !zlen_app, !zlen_be_split. lia. Qed.

Definition entropy_ok (e : entropy) : Prop :=
  bytes (rnd_bytes e) /\ length (rnd_bytes e) = 12%nat.

(** The transaction id that a draw produces. *)
Definition tid_of (e : entropy) : list Z :=
  if rnd_rc e =? 0
  then le_split 4 (u32 (nth 0 (rnd_words e) 0)) ++ le_split 4 (u32 (nth 1 (rnd_words e) 0)) ++
       le_split 4 (u32 (nth 2 (rnd_words e) 0))
  else rnd_bytes e.

Lemma length_tid_of e : entropy_ok e -> length (tid_of e) = 12%nat.
Proof. intros [_ H]. unfold tid_of. case_if; [|done]. by rewrite !length_app, !length_le_split. Qed.

Lemma zlen_tid_of e : entropy_ok e -> zlen (tid_of e) = 12.
Proof. intros. unfold zlen. by rewrite length_tid_of. Qed.

Lemma bytes_tid_of e : entropy_ok e -> bytes (tid_of e).
Proof.
  intros [H _]. unfold tid_of. case_if; [|done]. rewrite !bytes_app. auto using bytes_le_split.
Qed.

Lemma turn_random_tid_size_eq id e :
  entropy_ok e -> length id = 12%nat -> turn_random_tid_size id e = Some (tid_of e).
Proof.
  intros He Hid. unfold turn_random_tid_size, tid_of, store32. destruct He as [Hb Hl].
  case_if.
  - set (w n := le_split 4 (u32 (nth n (rnd_words e) 0))).
    assert (forall n, zlen (w n) = 4) as Hw by (intros; apply zlen_le_split).
    fold (w 0%nat) (w 1%nat) (w 2%nat).
    pose proof (wr_block_full id (w 0%nat ++ w 1%nat ++ w 2%nat)) as Hf.
    rewrite wr_block_app, Hw in Hf. destruct (wr_block id 0 (w 0%nat)) as [m1|] eqn:E1.
    2: { cbn [mbind option_bind] in Hf. rewrite !zlen_app, !Hw in Hf. by rewrite Hf by (unfold zlen; lia). }
    cbn [mbind option_bind] in *. rewrite wr_block_app, Hw in Hf. apply Hf.
    rewrite !zlen_app, !Hw. unfold zlen. lia.
  - apply wr_block_full. unfold zlen. lia.
Qed.

Lemma rd_block_all m n : n = zlen m -> rd_block m 0 n = Some m.
Proof. intros ->. apply rd_block_full. Qed.

Lemma stun_tid_message_cpy_eq m tid :
  length tid = 12%nat -> stun_tid_message_cpy m (Some tid) = wr_block m 8 tid.
Proof.
  intros H. unfold stun_tid_message_cpy, stun_tid_string_cpy.
  rewrite rd_block_all by (unfold zlen, STUN_TID_SIZE; lia). done.
Qed.

Lemma stun_tid_generate_in_message_eq m e :
  entropy_ok e ->
  stun_tid_generate_in_message_str m None e = (λ m', (m', None)) <$> wr_block m 8 (tid_of e).
Proof.
  intros He. unfold stun_tid_generate_in_message_str, stun_tid_generate.
  rewrite turn_random_tid_size_eq by done. cbn [mbind option_bind].
  rewrite stun_tid_message_cpy_eq by by apply length_tid_of.
  by destruct (wr_block m 8 _).
Qed.

Lemma init_command_with_spec cookie t b e :
  entropy_ok e -> 20 <= zlen (sb_mem b) ->
  exists m, init_command_with cookie t b e = Some (SBuf m 20) /\
  wr_block (sb_mem b) 0 (header_bytes (Z.land t 0x3FFF) 0 cookie (tid_of e)) = Some m.
Proof.
  intros He Hl. set (hdr := header_bytes _ _ _ _).
  assert (zlen hdr = 20) as Hh by (unfold hdr; rewrite zlen_header_bytes, zlen_tid_of by done; done).
  destruct (wr_block_is_Some (sb_mem b) 0 hdr) as [m Hm]; [lia..|].
  exists m. split; [|done]. unfold init_command_with, stun_init_buffer_str, STUN_HEADER_LENGTH.
  destruct (wr_block_is_Some (sb_mem b) 0 (replicate (Z.to_nat 20) 0)) as [m0 Hm0];
    [lia|rewrite zlen_replicate; lia|]. rewrite Hm0. cbn [mbind option_bind sb_mem sb_len].
  rewrite <- (wr_block_overwrite _ _ _ hdr _ Hm0) in Hm by (rewrite Hh; apply zlen_replicate; lia).
  unfold hdr, header_bytes in Hm. rewrite wr_block_app, zlen_be_split in Hm.
  rewrite store16_nswap. destruct (wr_block m0 0 _) as [m1|]; cbn [mbind option_bind] in *; [|done].
  rewrite wr_block_app, zlen_be_split in Hm. change (store16 m1 2 0) with (wr_block m1 2 (be_split 2 0)).
  change (0 + Z.of_nat 2) with 2 in Hm.
  destruct (wr_block m1 2 _) as [m2|]; cbn [mbind option_bind] in *; [|done].
  rewrite wr_block_app, zlen_be_split, store32_nswap in *. change (2 + Z.of_nat 2) with 4 in Hm.
  destruct (wr_block m2 4 _) as [m3|]; cbn [mbind option_bind] in *; [|done].
  rewrite stun_tid_generate_in_message_eq by done. change (4 + Z.of_nat 4) with 8 in Hm.
  by rewrite Hm.
Qed.

(** * Properties of channel messages *)

Lemma land3 z : Z.land z 3 = z mod 4.
Proof. change 3 with (Z.ones 2). by rewrite Z.land_ones. Qed.

Lemma round_up_shift n : 0 <= n -> n mod 4 ≠ 0 -> Z.shiftl (Z.shiftr n 2 + 1) 2 = pad4 n.
Proof.
  intros Hn Hm. rewrite Z.shiftl_mul_pow2, Z.shiftr_div_pow2 by lia. change (2 ^ 2) with 4.
  unfold pad4. Z.div_mod_to_equations. lia.
Qed.

Lemma stun_init_channel_message_str_spec chn b length pad :
  bytes (sb_mem b) -> 4 <= zlen (sb_mem b) -> 0 <= length -> 4 + length <= MAX_STUN_MESSAGE_SIZE ->
  exists m, stun_init_channel_message_str chn b length pad =
    Some (0, SBuf m (4 + (if pad then pad4 length else length))) /\
  wr_block (sb_mem b) 0 (be_split 2 chn ++ be_split 2 length) = Some m.
Proof.
  intros Hb Hl H0 Hmax. unfold stun_init_channel_message_str. unfold MAX_STUN_MESSAGE_SIZE in *.
  assert ((length <? 0) || (65507 <? 4 + length) = false) as ->.
  { apply orb_false_iff. rewrite !Z.ltb_ge. lia. }
  destruct (wr_block_is_Some (sb_mem b) 0 (be_split 2 chn ++ be_split 2 length)) as [m Hm];
    [lia|rewrite zlen_app, !zlen_be_split; lia|].
  exists m. split; [|done]. rewrite wr_block_app, zlen_be_split in Hm.
  rewrite store16_nswap. destruct (wr_block (sb_mem b) 0 _) as [m1|]; [|done].
  cbn [mbind option_bind] in *. rewrite u16_small, store16_nswap by lia.
  change (0 + Z.of_nat 2) with 2 in Hm. rewrite Hm. cbn [mbind option_bind]. do 3 f_equal. f_equal.
  rewrite land3. unfold truth. destruct pad; cbn [andb]; [|done].
  destruct (Z.eqb_spec (length mod 4) 0) as [E|E]; cbn [negb]; [by rewrite pad4_id|].
  rewrite round_up_shift by done. apply u16_small. pose proof (pad4_bounds length). lia.
Qed.

(** Channel framing: a channel message initialised for a valid channel
    number and a payload of at most 65503 bytes is recognised, with or without
    padding, and gives back the channel number and the unpadded length.  The
    length to send fits the message buffer except for a padded payload of more
    than 65500 bytes, where the code exceeds it by one byte. *)
Theorem stun_channel_message_roundtrip chn b length pad mandatory c0 :
  bytes (sb_mem b) -> 4 <= zlen (sb_mem b) -> STUN_VALID_CHANNEL chn = true ->
  0 <= length -> 4 + length <= MAX_STUN_MESSAGE_SIZE ->
  exists b', stun_init_channel_message_str chn b length pad = Some (0, b') /\
  stun_is_channel_message_str (sb_mem b') (Some (sb_len b')) (Some c0) mandatory =
    Some (true, Some (4 + length), Some chn) /\
  is_channel_msg_str (Some (sb_mem b')) (sb_len b') = Some true /\
  (sb_len b' <= STUN_BUFFER_SIZE <-> ~ (pad = true /\ 65500 < length)) /\
  sb_len b' <= STUN_BUFFER_SIZE + 1.
Proof.
  intros Hb Hl Hc H0 Hmax.
  destruct (stun_init_channel_message_str_spec chn b length pad) as (m & Hi & Hw); [done..|].
  exists (SBuf m (4 + (if pad then pad4 length else length))). split; [done|]. clear Hi.
  cbn [sb_mem sb_len]. pose proof (pad4_bounds length) as Hp. pose proof (pad4_mod length) as Hp4.
  unfold MAX_STUN_MESSAGE_SIZE, STUN_BUFFER_SIZE, STUN_VALID_CHANNEL in *.
  apply andb_true_iff in Hc as [Hc1%Z.leb_le Hc2%Z.leb_le].
  assert (bytes m) as Hbm.
  { eapply wr_block_bytes; [done| |done]. apply bytes_app. split; apply bytes_be_split. }
  assert (ldn16 m 0 = Some chn) as E0.
  { rewrite ldn16_be by done. erewrite be_at_Some; [|by apply (rd_wr_part _ _ [] _ _ _ _ _ Hw)].
    rewrite be_combine_split. f_equal. apply Z.mod_small. change (256 ^ Z.of_nat 2) with 65536. lia. }
  assert (ldn16 m 2 = Some length) as E2.
  { rewrite ldn16_be by done.
    erewrite be_at_Some; [|apply (rd_wr_part _ _ (be_split 2 chn) (be_split 2 length) [] _ _ _ ltac:(rewrite app_nil_r; exact Hw)); by rewrite ?zlen_be_split].
    rewrite be_combine_split. f_equal. apply Z.mod_small. change (256 ^ Z.of_nat 2) with 65536. lia. }
  set (len := 4 + _). assert (4 + length <= len <= 65508) as Hlen.
  { unfold len, MAX_STUN_MESSAGE_SIZE in *. destruct pad; [|lia].
    assert (length <= 65500 \/ length = 65501 \/ length = 65502 \/ length = 65503) as [?|[->|[->| ->]]]
      by lia; [lia|by vm_compute..]. }
  assert (len <= 65507 <-> ~ (pad = true /\ 65500 < length)) as Hfit.
  { unfold len, MAX_STUN_MESSAGE_SIZE in *. destruct pad; [|split; [by intros _ [? _]|lia]].
    assert (length <= 65500 \/ length = 65501 \/ length = 65502 \/ length = 65503) as [?|[->|[->| ->]]] by lia.
    - unfold pad4 in *. split; [lia|]. intros _. Z.div_mod_to_equations. lia.
    - change (4 + pad4 65501) with 65508. split; [lia|]. intros []. split; [done|lia].
    - change (4 + pad4 65502) with 65508. split; [lia|]. intros []. split; [done|lia].
    - change (4 + pad4 65503) with 65508. split; [lia|]. intros []. split; [done|lia]. }
  split; [|split; [|split; [exact Hfit|unfold MAX_STUN_MESSAGE_SIZE; lia]]].
  - unfold stun_is_channel_message_str, STUN_VALID_CHANNEL.
    assert ((len <? 4) = false) as -> by (apply Z.ltb_ge; lia).
    rewrite E0. cbn [mbind option_bind].
    assert ((0x4000 <=? chn) && (chn <=? 0x7FFF) = true) as ->.
    { apply andb_true_iff. rewrite !Z.leb_le. lia. }
    assert ((0xFFFF <? len) = false) as -> by (apply Z.ltb_ge; lia). cbn [negb].
    rewrite E2. cbn [mbind option_bind]. rewrite (u16_small len), (u16_small (len - 4)) by lia.
    assert ((len - 4 <? length) = false) as -> by (apply Z.ltb_ge; lia).
    assert (negb (length =? len - 4) && truth (Z.land (len - 4) 3) = false) as ->.
    { rewrite land3. unfold len, truth. destruct pad.
      - replace (4 + pad4 length - 4) with (pad4 length) by lia. rewrite Hp4.
        by rewrite andb_false_r.
      - replace (4 + length - 4) with length by lia. by rewrite Z.eqb_refl. }
    cbn [andb]. by rewrite Z.add_comm.
  - unfold is_channel_msg_str, STUN_VALID_CHANNEL.
    assert ((4 <=? len) = true) as -> by (apply Z.leb_le; lia).
    rewrite E0. cbn [mbind option_bind]. f_equal. apply andb_true_iff. rewrite !Z.leb_le. lia.
Qed.

Lemma stun_channel_message_roundtrip_witness :
  exists b', stun_init_channel_message_str 0x4001 (SBuf (replicate 8 0) 0) 5 true = Some (0, b') /\
  stun_is_channel_message_str (sb_mem b') (Some (sb_len b')) (Some 0) true =
    Some (true, Some 9, Some 0x4001).
Proof.
  destruct (stun_channel_message_roundtrip 0x4001 (SBuf (replicate 8 0) 0) 5 true true 0)
    as (b' & H1 & H2 & _).
  - apply bytes_replicate0.
  - done.
  - done.
  - lia.
  - done.
  - exists b'. split; [exact H1|exact H2].
Defined.
