(* ===== verification/StunAttr.v ===== *)
(** Attributes of a STUN message: access, iteration and appending
    ([client/ns_turn_msg.c], section ATTR).

    [stun_attr_ref] is a pointer into the message buffer: its offset, or [None]
    for NULL.  The accessors, which in C only receive the pointer, receive the
    buffer too. *)

From S2P Require Import Prelude Defs CString IoAddr MsgAddr StunHeader.

Abbreviation stun_attr_ref := (option Z).

(** * Access *)

Definition stun_attr_get_type (buf : list Z) (attr : stun_attr_ref) : option Z :=
  match attr with Some p => ldn16 buf p | None => Some (-1) end.

Definition stun_attr_get_len (buf : list Z) (attr : stun_attr_ref) : option Z :=
  match attr with Some p => ldn16 buf (p + 2) | None => Some (-1) end.

Definition stun_attr_get_value (buf : list Z) (attr : stun_attr_ref) : option (option Z) :=
  match attr with
  | Some p =>
    len ← ldn16 buf (p + 2);
    if len <? 1 then Some None else Some (Some (p + 4))
  | None => Some None
  end.

Definition stun_get_requested_address_family (buf : list Z) (attr : stun_attr_ref) : option Z :=
  match attr with
  | Some p =>
    len ← ldn16 buf (p + 2);
    if negb (len =? 4) then Some STUN_ATTRIBUTE_REQUESTED_ADDRESS_FAMILY_VALUE_INVALID else
    val ← rd8 buf (p + 4);
    if val =? STUN_ATTRIBUTE_REQUESTED_ADDRESS_FAMILY_VALUE_IPV4 then Some val
    else if val =? STUN_ATTRIBUTE_REQUESTED_ADDRESS_FAMILY_VALUE_IPV6 then Some val
    else Some STUN_ATTRIBUTE_REQUESTED_ADDRESS_FAMILY_VALUE_INVALID
  | None => Some STUN_ATTRIBUTE_REQUESTED_ADDRESS_FAMILY_VALUE_DEFAULT
  end.

Definition stun_attr_get_channel_number (buf : list Z) (attr : stun_attr_ref) : option Z :=
  match attr with
  | Some _ =>
    value ← stun_attr_get_value buf attr;
    len ← stun_attr_get_len buf attr;
    match value with
    | Some v =>
      if 2 <=? len then
        cn ← ldn16 buf v;
        if STUN_VALID_CHANNEL cn then Some cn else Some 0
      else Some 0
    | None => Some 0
    end
  | None => Some 0
  end.

(** The shift is done in 32 bits before the widening to [band_limit_t]. *)
Definition stun_attr_get_bandwidth (buf : list Z) (attr : stun_attr_ref) : option Z :=
  match attr with
  | Some _ =>
    value ← stun_attr_get_value buf attr;
    len ← stun_attr_get_len buf attr;
    match value with
    | Some v => if 4 <=? len then bps ← ldn32 buf v; Some (u32 (Z.shiftl bps 7)) else Some 0
    | None => Some 0
    end
  | None => Some 0
  end.

Definition stun_attr_get_reservation_token_value (buf : list Z) (attr : stun_attr_ref) : option Z :=
  match attr with
  | Some _ =>
    value ← stun_attr_get_value buf attr;
    len ← stun_attr_get_len buf attr;
    match value with
    | Some v => if len =? 8 then token ← load64 buf v; _ioa_ntoh64 token else Some 0
    | None => Some 0
    end
  | None => Some 0
  end.

Definition stun_attr_is_addr (buf : list Z) (attr : stun_attr_ref) : option bool :=
  match attr with
  | Some _ =>
    t ← stun_attr_get_type buf attr;
    Some (existsb (λ k, t =? k)
      [STUN_ATTRIBUTE_XOR_MAPPED_ADDRESS; STUN_ATTRIBUTE_XOR_PEER_ADDRESS;
       STUN_ATTRIBUTE_XOR_RELAYED_ADDRESS; STUN_ATTRIBUTE_MAPPED_ADDRESS;
       STUN_ATTRIBUTE_ALTERNATE_SERVER; OLD_STUN_ATTRIBUTE_RESPONSE_ADDRESS;
       OLD_STUN_ATTRIBUTE_SOURCE_ADDRESS; OLD_STUN_ATTRIBUTE_CHANGED_ADDRESS;
       OLD_STUN_ATTRIBUTE_REFLECTED_FROM; STUN_ATTRIBUTE_RESPONSE_ORIGIN;
       STUN_ATTRIBUTE_OTHER_ADDRESS])
  | None => Some false
  end.

Definition stun_attr_get_even_port (buf : list Z) (attr : stun_attr_ref) : option Z :=
  match attr with
  | Some _ =>
    value ← stun_attr_get_value buf attr;
    match value with
    | Some v => b ← rd8 buf v; if 0x7F <? b then Some 1 else Some 0
    | None => Some 0
    end
  | None => Some 0
  end.

(** Result: the return code and the new values of [*change_ip], [*change_port]. *)
Definition stun_attr_get_change_request_str (buf : list Z) (attr : stun_attr_ref)
    (change_ip change_port : Z) : option (Z * Z * Z) :=
  len ← stun_attr_get_len buf attr;
  if len =? 4 then
    value ← stun_attr_get_value buf attr;
    match value with
    | Some v => b ← rd8 buf (v + 3); Some (0, Z.land b 0x04, Z.land b 0x02)
    | None => Some (-1, change_ip, change_port)
    end
  else Some (-1, change_ip, change_port).

Definition stun_attr_get_response_port_str (buf : list Z) (attr : stun_attr_ref) : option Z :=
  len ← stun_attr_get_len buf attr;
  if 2 <=? len then
    value ← stun_attr_get_value buf attr;
    match value with Some v => ldn16 buf v | None => Some (-1) end
  else Some (-1).

Definition stun_attr_get_padding_len_str (buf : list Z) (attr : stun_attr_ref) : option Z :=
  len ← stun_attr_get_len buf attr;
  if len <? 0 then Some (-1) else Some (u16 len).

(** * Iteration *)

(** [attrlen] rounded up to the 4-byte boundary, as both iterators compute it. *)
Definition attr_round (attrlen : Z) : Z :=
  let rem4 := Z.land (u16 attrlen) 0x0003 in
  if truth rem4 then attrlen + 4 - rem4 else attrlen.

Definition stun_attr_check_valid (buf : list Z) (attr : Z) (remaining : Z) : option stun_attr_ref :=
  if 4 <=? remaining then
    attrlen ← stun_attr_get_len buf (Some attr);
    let remaining := remaining - 4 in
    if attr_round attrlen <=? remaining then Some (Some attr) else Some None
  else Some None.

Definition stun_attr_get_first_str (buf : list Z) (len : Z) : option stun_attr_ref :=
  bufLen ← stun_get_command_message_len_str buf len;
  if STUN_HEADER_LENGTH <? bufLen then
    stun_attr_check_valid buf STUN_HEADER_LENGTH (bufLen - STUN_HEADER_LENGTH)
  else Some None.

Definition stun_attr_get_next_str (buf : list Z) (len : Z) (prev : stun_attr_ref)
    : option stun_attr_ref :=
  match prev with
  | None => stun_attr_get_first_str buf len
  | Some p =>
    end_ ← stun_get_command_message_len_str buf len;
    attrlen ← stun_attr_get_len buf (Some p);
    let attrlen := attr_round attrlen in
    if attrlen <? end_ - p - 4 then
      let attr_end := p + 4 + attrlen in
      stun_attr_check_valid buf attr_end (end_ - attr_end)
    else Some None
  end.

(** [while(attr) { body; attr = stun_attr_get_next_str(buf,len,attr); }] with a
    body that updates a state and may leave the loop with a result.  The message
    length bounds the number of attributes; [None] without fuel. *)
Fixpoint attr_loop {S A} (fuel : nat) (buf : list Z) (len : Z)
    (body : S -> Z -> option (S * option A)) (st : S) (attr : stun_attr_ref) : option (S * option A) :=
  match attr with
  | None => Some (st, None)
  | Some a =>
    match fuel with
    | O => None
    | Datatypes.S f =>
      '(st, r) ← body st a;
      match r with
      | Some x => Some (st, Some x)
      | None =>
        nxt ← stun_attr_get_next_str buf len (Some a);
        attr_loop f buf len body st nxt
      end
    end
  end.

Definition attr_fuel (len : Z) : nat := Z.to_nat len.

Definition stun_attr_get_first_by_type_str (buf : list Z) (len : Z) (attr_type : Z)
    : option stun_attr_ref :=
  attr ← stun_attr_get_first_str buf len;
  '(_, r) ← attr_loop (attr_fuel len) buf len
    (λ (_ : unit) a, t ← stun_attr_get_type buf (Some a);
                     Some (tt, if t =? attr_type then Some a else None)) tt attr;
  Some r.

Definition stun_attr_get_first_channel_number_str (buf : list Z) (len : Z) : option Z :=
  attr ← stun_attr_get_first_str buf len;
  '(_, r) ← attr_loop (attr_fuel len) buf len
    (λ (_ : unit) a,
       t ← stun_attr_get_type buf (Some a);
       if t =? STUN_ATTRIBUTE_CHANNEL_NUMBER then
         ret ← stun_attr_get_channel_number buf (Some a);
         Some (tt, if STUN_VALID_CHANNEL ret then Some ret else None)
       else Some (tt, None)) tt attr;
  Some (match r with Some n => n | None => 0 end).

(** The attributes whose address is XORed. *)
Definition xor_attr (attr_type : Z) : bool :=
  (attr_type =? STUN_ATTRIBUTE_XOR_MAPPED_ADDRESS) ||
  (attr_type =? STUN_ATTRIBUTE_XOR_PEER_ADDRESS) ||
  (attr_type =? STUN_ATTRIBUTE_XOR_RELAYED_ADDRESS).

(** What [stun_attr_get_addr_str] does after it has read the transaction id. *)
Definition get_addr_with (maps : addr_maps) (tid : option (list Z)) (buf : list Z) (attr : stun_attr_ref)
    (default_addr : option ioa_addr) : option (Z * ioa_addr) :=
  let ca := addr_zero in
  let public_addr := addr_zero in
  attr_type ← stun_attr_get_type buf attr;
  if attr_type <? 0 then Some (-1, ca) else
  let xor_ed := xor_attr attr_type in
  cfield ← stun_attr_get_value buf attr;
  match cfield with
  | None => Some (-1, ca)
  | Some v =>
    alen ← stun_attr_get_len buf attr;
    cf ← ptr_add buf v;
    '(r, pa) ← stun_addr_decode (Some public_addr) (Some cf) alen xor_ed STUN_MAGIC_COOKIE tid;
    match pa with
    | Some public_addr =>
      if r <? 0 then Some (-1, ca) else
      ca ← map_addr_from_public_to_private maps public_addr;
      match default_addr with
      | Some d =>
        if addr_any_no_port (Some ca) && negb (addr_any_no_port (Some d)) then
          let port := addr_get_port (Some ca) in
          ca ← addr_set_port (Some d) port;
          Some (0, ca)
        else Some (0, ca)
      | None => Some (0, ca)
      end
    | None => None
    end
  end.

Definition stun_attr_get_addr_str (maps : addr_maps) (buf : list Z) (len : Z) (attr : stun_attr_ref)
    (ca : ioa_addr) (default_addr : option ioa_addr) : option (Z * ioa_addr) :=
  tid ← stun_tid_from_message_str buf len (Some (replicate 12 0));
  get_addr_with maps tid buf attr default_addr.

Definition stun_attr_get_first_addr_str (maps : addr_maps) (buf : list Z) (len : Z) (attr_type : Z)
    (ca : ioa_addr) (default_addr : option ioa_addr) : option (Z * ioa_addr) :=
  attr ← stun_attr_get_first_str buf len;
  '(ca, r) ← attr_loop (attr_fuel len) buf len
    (λ ca a,
       is_addr ← stun_attr_is_addr buf (Some a);
       t ← stun_attr_get_type buf (Some a);
       if (is_addr : bool) && (attr_type =? t) then
         '(ret, ca) ← stun_attr_get_addr_str maps buf len (Some a) ca default_addr;
         Some (ca, if ret =? 0 then Some 0 else None)
       else Some (ca, None)) ca attr;
  Some (match r with Some z => z | None => -1 end, ca).

(** * Appending *)

Definition stun_attr_add_str (b : sbuf) (attr : Z) (avalue : option (list Z)) (alen : Z)
    : option (Z * sbuf) :=
  let alen := if alen <? 0 then 0 else alen in
  let '(avalue, alen) := match avalue with Some v => (v, alen) | None => ([0], 0) end in
  clen ← stun_get_command_message_len_str (sb_mem b) (sb_len b);
  newlen ← i32 (clen + 4 + alen);
  let newlenrem4 := Z.land newlen 3 in
  newlen ← i32 (if truth newlenrem4 then newlen + (4 - newlenrem4) else newlen);
  if MAX_STUN_MESSAGE_SIZE <=? newlen then Some (-1, b) else
  '(_, m) ← stun_set_command_message_len_str (sb_mem b) newlen;
  m ← store16 m clen (nswap16 attr);
  m ← store16 m (clen + 2) (nswap16 (u16 alen));
  m ← (if 0 <? alen then v ← rd_block avalue 0 alen; wr_block m (clen + 4) v else Some m);
  Some (0, SBuf m newlen).

Definition stun_attr_add_addr_str (maps : addr_maps) (b : sbuf) (attr_type : Z) (ca : ioa_addr)
    : option (Z * sbuf) :=
  tid ← stun_tid_from_message_str (sb_mem b) (sb_len b) (Some (replicate 12 0));
  let xor_ed := xor_attr attr_type in
  public_addr ← map_addr_from_private_to_public maps ca;
  '(r, cfield, clen) ← stun_addr_encode (Some public_addr) (Some (replicate 64 0)) xor_ed
                         STUN_MAGIC_COOKIE tid;
  if r <? 0 then Some (-1, b) else
  '(r, b) ← stun_attr_add_str b attr_type cfield clen;
  if r <? 0 then Some (-1, b) else Some (0, b).

Definition stun_attr_add_channel_number_str (b : sbuf) (chnumber : Z) : option (Z * sbuf) :=
  let field := le_split 2 (nswap16 chnumber) ++ le_split 2 0 in
  stun_attr_add_str b STUN_ATTRIBUTE_CHANNEL_NUMBER (Some field) 4.

Definition stun_attr_add_bandwidth_str (b : sbuf) (bps0 : Z) : option (Z * sbuf) :=
  let bps := u32 (Z.shiftr bps0 7) in
  let field := nswap32 bps in
  stun_attr_add_str b STUN_ATTRIBUTE_NEW_BANDWIDTH (Some (le_split 4 field)) 4.

Definition stun_attr_add_change_request_str (b : sbuf) (change_ip change_port : Z)
    : option (Z * sbuf) :=
  let v3 := if truth change_ip then (if truth change_port then 0x06 else 0x04)
            else if truth change_port then 0x02 else 0 in
  stun_attr_add_str b STUN_ATTRIBUTE_CHANGE_REQUEST (Some [0; 0; 0; v3]) 4.

Definition stun_attr_add_response_port_str (b : sbuf) (port : Z) : option (Z * sbuf) :=
  let avalue := le_split 2 (nswap16 port) ++ [0; 0] in
  stun_attr_add_str b STUN_ATTRIBUTE_RESPONSE_PORT (Some avalue) 4.

(** The bytes past [padding_len] of the local array are not initialised: [rest]. *)
Definition stun_attr_add_padding_str (rest : list Z) (b : sbuf) (padding_len : Z)
    : option (Z * sbuf) :=
  let avalue := replicate (Z.to_nat padding_len) 0 ++ rest in
  stun_attr_add_str b STUN_ATTRIBUTE_PADDING (Some avalue) padding_len.

(** * Safety of iteration on arbitrary bytes *)

Lemma attr_round_pad4 l : 0 <= l < 65536 -> attr_round l = pad4 l.
Proof.
  intros H. unfold attr_round. rewrite u16_small, land3 by done. unfold truth, pad4.
  destruct (Z.eqb_spec (l mod 4) 0); cbn [negb]; Z.div_mod_to_equations; lia.
Qed.

(** An attribute inside a message that ends at [e]: its header is readable and
    its padded value ends within the message. *)
Definition valid_attr (buf : list Z) (e a : Z) : Prop :=
  20 <= a /\ exists l, be_at 2 buf (a + 2) = Some l /\ a + 4 + pad4 l <= e.

Lemma command_message_len_spec buf len :
  bytes buf -> len <= zlen buf ->
  exists e, stun_get_command_message_len_str buf len = Some e /\
  (e = -1 \/ (20 <= e <= len /\ be_at 2 buf 2 = Some (e - 20))).
Proof.
  intros Hb Hl. unfold stun_get_command_message_len_str, STUN_HEADER_LENGTH.
  destruct (Z.ltb_spec len 20); [by eexists; eauto|].
  destruct (ldn16_ok buf 2) as (l & -> & Hbe & Hr); [done|lia..|]. cbn [mbind option_bind].
  destruct (Z.ltb_spec len (l + 20)); eexists; (split; [done|]); [by left|].
  right. replace (l + 20 - 20) with l by lia. split; [lia|done].
Qed.

Lemma check_valid_spec buf a e :
  bytes buf -> 20 <= a -> e <= zlen buf ->
  exists r, stun_attr_check_valid buf a (e - a) = Some r /\
  (r = None \/ (r = Some a /\ valid_attr buf e a)).
Proof.
  intros Hb Ha He. unfold stun_attr_check_valid.
  destruct (Z.leb_spec 4 (e - a)); [|by eexists; eauto].
  cbn [stun_attr_get_len]. destruct (ldn16_ok buf (a + 2)) as (l & -> & Hl & Hr); [done|lia..|].
  cbn [mbind option_bind]. rewrite attr_round_pad4 by done.
  destruct (Z.leb_spec (pad4 l) (e - a - 4)); eexists; (split; [done|]); [right|by left].
  split; [done|]. split; [done|]. exists l. split; [done|lia].
Qed.

Lemma get_first_spec buf len :
  bytes buf -> len <= zlen buf ->
  exists r, stun_attr_get_first_str buf len = Some r /\
  (r = None \/ exists e, stun_get_command_message_len_str buf len = Some e /\ 20 <= e <= len /\
                         r = Some 20 /\ valid_attr buf e 20).
Proof.
  intros Hb Hl. unfold stun_attr_get_first_str.
  destruct (command_message_len_spec buf len Hb Hl) as (e & -> & He). cbn [mbind option_bind].
  unfold STUN_HEADER_LENGTH. destruct (Z.ltb_spec 20 e); [|by eexists; eauto].
  destruct He as [->|[He _]]; [lia|].
  destruct (check_valid_spec buf 20 e Hb) as (r & Hr & Hv); [lia..|].
  exists r. split; [done|]. destruct Hv as [->|[-> Hv]]; [by left|right]. by exists e.
Qed.

Lemma get_next_spec buf len e a :
  bytes buf -> len <= zlen buf -> stun_get_command_message_len_str buf len = Some e ->
  e <= len -> valid_attr buf e a ->
  exists r, stun_attr_get_next_str buf len (Some a) = Some r /\
  (r = None \/ exists a', r = Some a' /\ a + 4 <= a' /\ valid_attr buf e a').
Proof.
  intros Hb Hl He Hel (Ha & l & Hbe & Hend). unfold stun_attr_get_next_str. rewrite He.
  cbn [mbind option_bind stun_attr_get_len]. rewrite ldn16_be, Hbe by done. cbn [mbind option_bind].
  pose proof (be_at_range 2 _ _ _ Hb Hbe) as Hr. change (256 ^ 2) with 65536 in Hr.
  rewrite attr_round_pad4 by done. pose proof (pad4_bounds l).
  destruct (Z.ltb_spec (pad4 l) (e - a - 4)); [|by eexists; eauto].
  destruct (check_valid_spec buf (a + 4 + pad4 l) e Hb) as (r & Hr' & Hv); [lia..|].
  exists r. split; [done|]. destruct Hv as [->|[-> Hv]]; [by left|right].
  eexists. split; [done|]. split; [lia|done].
Qed.

Lemma valid_attr_bounds buf e a : bytes buf -> valid_attr buf e a -> 20 <= a /\ a + 4 <= e.
Proof.
  intros Hb (Ha & l & Hl & He). pose proof (be_at_range 2 _ _ _ Hb Hl).
  pose proof (pad4_bounds l). lia.
Qed.

(** The loop terminates within its fuel and stays inside the message when its
    body is safe on valid attributes; a result satisfies what the body promises
    of the attribute it stops at. *)
Lemma attr_loop_safe {S A} (body : S -> Z -> option (S * option A)) (P : A -> Prop) buf len e :
  bytes buf -> len <= zlen buf -> stun_get_command_message_len_str buf len = Some e -> e <= len ->
  (forall st a, valid_attr buf e a ->
    exists st' r, body st a = Some (st', r) /\ forall x, r = Some x -> P x) ->
  forall fuel st a, (forall p, a = Some p -> valid_attr buf e p /\ e - p <= 4 * Z.of_nat fuel) ->
  exists st' r, attr_loop fuel buf len body st a = Some (st', r) /\ forall x, r = Some x -> P x.
Proof.
  intros Hb Hl He Hel Hbody. induction fuel as [|fuel IH]; intros st a Ha.
  - destruct a as [a|]; [|by eexists _, None]. destruct (Ha a eq_refl) as [Hv Hf].
    apply valid_attr_bounds in Hv; [lia|done].
  - destruct a as [a|]; [|by eexists _, None]. destruct (Ha a eq_refl) as [Hv Hf]. cbn [attr_loop].
    destruct (Hbody st a Hv) as (st' & r & -> & Hr). cbn [mbind option_bind].
    destruct r as [x|]; [by exists st', (Some x)|].
    destruct (get_next_spec buf len e a Hb Hl He Hel Hv) as (nxt & -> & Hn). cbn [mbind option_bind].
    apply IH. intros p ->. destruct Hn as [?|(a' & [= <-] & ? & ?)]; [done|]. split; [done|lia].
Qed.

Lemma attr_loop_first_safe {S A} (body : S -> Z -> option (S * option A)) (P : A -> Prop) buf len st :
  bytes buf -> len <= zlen buf ->
  (forall e, e <= len -> forall st a, valid_attr buf e a ->
    exists st' r, body st a = Some (st', r) /\ forall x, r = Some x -> P x) ->
  exists st' r, (attr ← stun_attr_get_first_str buf len;
                 attr_loop (attr_fuel len) buf len body st attr) = Some (st', r) /\
  forall x, r = Some x -> P x.
Proof.
  intros Hb Hl Hbody. destruct (get_first_spec buf len Hb Hl) as (r & -> & Hr). cbn [mbind option_bind].
  destruct Hr as [->|(e & He & Hel & -> & Hv)].
  { exists st, None. split; [by destruct (attr_fuel len)|done]. }
  apply (attr_loop_safe body P buf len e); [done..|lia|by apply Hbody; lia|].
  intros p [= <-]. split; [done|]. unfold attr_fuel. lia.
Qed.

Lemma get_type_valid buf e a :
  bytes buf -> e <= zlen buf -> valid_attr buf e a ->
  exists t, stun_attr_get_type buf (Some a) = Some t /\ be_at 2 buf a = Some t /\ 0 <= t < 65536.
Proof.
  intros Hb He Hv. pose proof (valid_attr_bounds _ _ _ Hb Hv). cbn [stun_attr_get_type].
  apply ldn16_ok; [done|lia..].
Qed.

Lemma get_len_valid buf e a :
  bytes buf -> e <= zlen buf -> valid_attr buf e a ->
  exists l, stun_attr_get_len buf (Some a) = Some l /\ 0 <= l < 65536 /\ a + 4 + l <= e /\
  stun_attr_get_value buf (Some a) = Some (if l <? 1 then None else Some (a + 4)).
Proof.
  intros Hb He (Ha & l & Hl & Hend). exists l. cbn [stun_attr_get_len stun_attr_get_value].
  rewrite ldn16_be, Hl by done. pose proof (be_at_range 2 _ _ _ Hb Hl) as Hr.
  change (256 ^ 2) with 65536 in Hr. pose proof (pad4_bounds l).
  split; [done|]. split; [done|]. split; [lia|]. cbn [mbind option_bind].
  by destruct (l <? 1).
Qed.

Lemma ptr_add_ok buf p : 0 <= p <= zlen buf -> ptr_add buf p = Some (drop (Z.to_nat p) buf).
Proof.
  intros H. unfold ptr_add. case_if; [done|]. rewrite andb_false_iff, !Z.leb_gt in E. lia.
Qed.

Lemma zlen_drop {A} (l : list A) p : 0 <= p <= zlen l -> zlen (drop (Z.to_nat p) l) = zlen l - p.
Proof. unfold zlen. rewrite length_drop. lia. Qed.

Lemma tid_from_message_ok buf len :
  20 <= zlen buf ->
  exists tid, stun_tid_from_message_str buf len (Some (replicate 12 0)) = Some (Some tid) /\
  rd_block buf 8 12 = Some tid /\ length tid = 12%nat.
Proof.
  intros H. unfold stun_tid_from_message_str, stun_tid_from_string, STUN_TID_SIZE.
  destruct (rd_block buf 8 12) as [tid|] eqn:E; [|by rewrite rd_block_ok in E by lia].
  pose proof (rd_block_zlen _ _ _ _ E) as Hl. exists tid. cbn [mbind option_bind].
  rewrite wr_block_full by (rewrite Hl; done). split; [done|]. split; [done|].
  unfold zlen in Hl. lia.
Qed.

Lemma map_addr_total st l a :
  maps_repr st l -> exists a', map_addr_from_public_to_private st a = Some a'.
Proof. intros H. destruct (map_addr_spec st l a H) as [-> _]. eauto. Qed.

Lemma get_addr_safe maps l buf len e a ca d :
  maps_repr maps l -> bytes buf -> e <= zlen buf -> valid_attr buf e a ->
  exists r ca', stun_attr_get_addr_str maps buf len (Some a) ca d = Some (r, ca').
Proof.
  intros Hm Hb He Hv. pose proof (valid_attr_bounds _ _ _ Hb Hv). unfold stun_attr_get_addr_str, get_addr_with.
  destruct (tid_from_message_ok buf len) as (tid & -> & _ & Htl); [lia|]. cbn [mbind option_bind].
  destruct (get_type_valid buf e a Hb He Hv) as (t & -> & _ & Ht). cbn [mbind option_bind].
  destruct (Z.ltb_spec t 0); [lia|].
  destruct (get_len_valid buf e a Hb He Hv) as (n & -> & Hn & Hend & ->). cbn [mbind option_bind].
  destruct (n <? 1); cbn [mbind option_bind]; [by eexists _, _|].
  rewrite ptr_add_ok by lia. cbn [mbind option_bind].
  destruct (stun_addr_decode_total addr_zero (drop (Z.to_nat (a + 4)) buf) n (xor_attr t)
              STUN_MAGIC_COOKIE tid Htl) as (a' & ->).
  { rewrite zlen_drop; lia. }
  cbn [mbind option_bind]. destruct (addr_field_valid _ _); cbn [Z.ltb Z.compare]; [|by eexists _, _].
  destruct (map_addr_total maps l a' Hm) as (ca' & ->). cbn [mbind option_bind].
  destruct d as [d|]; [|by eexists _, _]. case_if; [|by eexists _, _].
  unfold addr_set_port. repeat case_if; by eexists _, _.
Qed.

Lemma get_first_by_type_safe buf len t :
  bytes buf -> len <= zlen buf ->
  exists r, stun_attr_get_first_by_type_str buf len t = Some r /\
  forall a, r = Some a -> valid_attr buf len a /\ be_at 2 buf a = Some t.
Proof.
  intros Hb Hl. unfold stun_attr_get_first_by_type_str.
  edestruct (attr_loop_first_safe (A := Z) (λ (_ : unit) a, t0 ← stun_attr_get_type buf (Some a);
      Some (tt, if t0 =? t then Some a else None))
      (λ a, valid_attr buf len a /\ be_at 2 buf a = Some t) buf len tt Hb Hl)
    as (st & r & Hloop & Hr).
  { intros e He [] a Hv. destruct (get_type_valid buf e a Hb ltac:(lia) Hv) as (t0 & -> & Ht0 & _).
    cbn [mbind option_bind]. eexists _, _. split; [done|]. destruct (Z.eqb_spec t0 t); [|done].
    intros ? [= <-]. subst. split; [|done]. destruct Hv as (? & n & ? & ?). split; [done|].
    exists n. split; [done|lia]. }
  destruct (stun_attr_get_first_str buf len); cbn [mbind option_bind] in *; [|done].
  rewrite Hloop. cbn [mbind option_bind]. by exists r.
Qed.

Lemma get_channel_number_valid buf e a :
  bytes buf -> e <= zlen buf -> valid_attr buf e a ->
  exists n, stun_attr_get_channel_number buf (Some a) = Some n /\ (n = 0 \/ STUN_VALID_CHANNEL n = true).
Proof.
  intros Hb He Hv. unfold stun_attr_get_channel_number.
  destruct (get_len_valid buf e a Hb He Hv) as (n & -> & Hn & Hend & ->).
  cbn [mbind option_bind]. destruct (Z.ltb_spec n 1); [by eexists; eauto|].
  destruct (Z.leb_spec 2 n); [|by eexists; eauto]. pose proof (valid_attr_bounds _ _ _ Hb Hv).
  destruct (ldn16_ok buf (a + 4)) as (cn & -> & _ & _); [done|lia..|]. cbn [mbind option_bind].
  destruct (STUN_VALID_CHANNEL cn) eqn:Ec; eexists; eauto.
Qed.

Lemma get_first_channel_number_safe buf len :
  bytes buf -> len <= zlen buf ->
  exists n, stun_attr_get_first_channel_number_str buf len = Some n /\
  (n = 0 \/ STUN_VALID_CHANNEL n = true).
Proof.
  intros Hb Hl. unfold stun_attr_get_first_channel_number_str.
  edestruct (attr_loop_first_safe (A := Z) (λ (_ : unit) a,
     t ← stun_attr_get_type buf (Some a);
     if t =? STUN_ATTRIBUTE_CHANNEL_NUMBER then
       ret ← stun_attr_get_channel_number buf (Some a);
       Some (tt, if STUN_VALID_CHANNEL ret then Some ret else None)
     else Some (tt, None)) (λ n, STUN_VALID_CHANNEL n = true) buf len tt Hb Hl)
    as (st & r & Hloop & Hr).
  { intros e He [] a Hv. destruct (get_type_valid buf e a Hb ltac:(lia) Hv) as (t0 & -> & Ht0 & _).
    cbn [mbind option_bind]. case_if; [|by eexists _, _].
    destruct (get_channel_number_valid buf e a Hb ltac:(lia) Hv) as (n & -> & _). cbn [mbind option_bind].
    eexists _, _. split; [done|]. destruct (STUN_VALID_CHANNEL n) eqn:En; [|done]. by intros ? [= <-]. }
  destruct (stun_attr_get_first_str buf len); cbn [mbind option_bind] in *; [|done].
  rewrite Hloop. cbn [mbind option_bind]. eexists. split; [done|]. destruct r; eauto.
Qed.

Lemma get_first_addr_safe maps l buf len t ca d :
  maps_repr maps l -> bytes buf -> len <= zlen buf ->
  exists r ca', stun_attr_get_first_addr_str maps buf len t ca d = Some (r, ca') /\ (r = 0 \/ r = -1).
Proof.
  intros Hm Hb Hl. unfold stun_attr_get_first_addr_str.
  edestruct (attr_loop_first_safe (A := Z) (λ ca a,
     is_addr ← stun_attr_is_addr buf (Some a);
     t0 ← stun_attr_get_type buf (Some a);
     if (is_addr : bool) && (t =? t0) then
       '(ret, ca) ← stun_attr_get_addr_str maps buf len (Some a) ca d;
       Some (ca, if ret =? 0 then Some 0 else None)
     else Some (ca, None)) (λ n, n = 0) buf len ca Hb Hl) as (st & r & Hloop & Hr).
  { intros e He ca' a Hv. cbn [stun_attr_is_addr].
    destruct (get_type_valid buf e a Hb ltac:(lia) Hv) as (t0 & -> & Ht0 & _).
    cbn [mbind option_bind]. case_if; [|by eexists _, _].
    destruct (get_addr_safe maps l buf len e a ca' d Hm Hb ltac:(lia) Hv) as (r & ca'' & ->).
    cbn [mbind option_bind]. eexists _, _. split; [done|]. destruct (r =? 0); [|done].
    by intros ? [= <-]. }
  destruct (stun_attr_get_first_str buf len); cbn [mbind option_bind] in *; [|done].
  rewrite Hloop. cbn [mbind option_bind]. eexists _, _. split; [done|].
  destruct r; [left; by apply Hr|by right].
Qed.

(** C1. Searching a received buffer is memory safe and terminates, whatever the
    bytes: for a buffer that holds the [len] bytes received, each of the three
    searches returns without reading outside it; an attribute found by type lies
    with its padded value inside the received bytes and has that type; a channel
    number found is in the channel range. *)
Theorem stun_attr_search_safe maps l buf len t ca d :
  maps_repr maps l -> bytes buf -> len <= zlen buf ->
  (exists r, stun_attr_get_first_by_type_str buf len t = Some r /\
     forall a, r = Some a -> valid_attr buf len a /\ be_at 2 buf a = Some t) /\
  (exists n, stun_attr_get_first_channel_number_str buf len = Some n /\
     (n = 0 \/ STUN_VALID_CHANNEL n = true)) /\
  (exists r ca', stun_attr_get_first_addr_str maps buf len t ca d = Some (r, ca') /\ (r = 0 \/ r = -1)).
Proof.
  intros Hm Hb Hl. split; [by apply get_first_by_type_safe|].
  split; [by apply get_first_channel_number_safe|by eapply get_first_addr_safe].
Qed.

Lemma stun_attr_search_safe_witness :
  exists r, stun_attr_get_first_by_type_str (0 :: 1 :: 0 :: 7 :: replicate 23 0) 27 0 = Some r.
Proof.
  destruct (stun_attr_search_safe addr_maps_init [] (0 :: 1 :: 0 :: 7 :: replicate 23 0) 27 0 addr_zero None)
    as [(r & H & _) _].
  - exact maps_repr_init.
  - repeat constructor; lia.
  - vm_compute. discriminate.
  - exists r. exact H.
Defined.
