(* ===== verification/StunSpec.v ===== *)
(** Abstract messages, and the refinement of the buffer operations by operations
    on them.

    A [stun_msg] is what a STUN message means: type, cookie, transaction id and
    the list of its attributes with their unpadded values.  [repr b m] says that
    the buffer [b] holds the message [m]; the padding bytes are unconstrained,
    as the code leaves them. *)

From S2P Require Import Prelude Defs CString IoAddr MsgAddr StunHeader StunAttr.

Record stun_msg : Type := StunMsg {
  m_type : Z;
  m_cookie : Z;
  m_tid : list Z;
  m_attrs : list (Z * list Z);
}.

Definition attr_size (v : list Z) : Z := 4 + pad4 (zlen v).

Fixpoint attrs_size (l : list (Z * list Z)) : Z :=
  match l with
  | [] => 0
  | (_, v) :: l' => attr_size v + attrs_size l'
  end.

Definition msg_size (m : stun_msg) : Z := STUN_HEADER_LENGTH + attrs_size (m_attrs m).

Definition add_attr (m : stun_msg) (t : Z) (v : list Z) : stun_msg :=
  StunMsg (m_type m) (m_cookie m) (m_tid m) (m_attrs m ++ [(t, v)]).

(** The attributes [l] are stored from offset [p] on. *)
Fixpoint attrs_at (buf : list Z) (p : Z) (l : list (Z * list Z)) : Prop :=
  match l with
  | [] => True
  | (t, v) :: l' =>
    be_at 2 buf p = Some t /\ be_at 2 buf (p + 2) = Some (zlen v) /\
    rd_block buf (p + 4) (zlen v) = Some v /\ attrs_at buf (p + attr_size v) l'
  end.

Record repr (b : sbuf) (m : stun_msg) : Prop := Repr {
  repr_bytes : bytes (sb_mem b);
  repr_len : sb_len b = msg_size m;
  repr_cap : msg_size m <= zlen (sb_mem b);
  repr_type : be_at 2 (sb_mem b) 0 = Some (m_type m);
  repr_size : be_at 2 (sb_mem b) 2 = Some (msg_size m - STUN_HEADER_LENGTH);
  repr_cookie : be_at 4 (sb_mem b) 4 = Some (m_cookie m);
  repr_tid : rd_block (sb_mem b) 8 12 = Some (m_tid m);
  repr_attrs : attrs_at (sb_mem b) STUN_HEADER_LENGTH (m_attrs m);
}.

(** The first value of an attribute type. *)
Definition find_attr (t : Z) (l : list (Z * list Z)) : option (list Z) :=
  snd <$> (snd <$> list_find (λ kv, kv.1 = t) l).

(** * Sizes *)

Lemma attr_size_bounds v : 4 <= attr_size v /\ 4 + zlen v <= attr_size v /\ attr_size v mod 4 = 0.
Proof.
  unfold attr_size. pose proof (pad4_bounds (zlen v)). pose proof (pad4_mod (zlen v)).
  pose proof (zlen_nonneg v). split; [lia|]. split; [lia|]. Z.div_mod_to_equations. lia.
Qed.

Lemma attrs_size_nonneg l : 0 <= attrs_size l /\ attrs_size l mod 4 = 0.
Proof.
  induction l as [|[t v] l IH]; [done|]. cbn [attrs_size]. pose proof (attr_size_bounds v).
  split; [lia|]. Z.div_mod_to_equations. lia.
Qed.

Lemma attrs_size_app l k : attrs_size (l ++ k) = attrs_size l + attrs_size k.
Proof. induction l as [|[t v] l IH]; [done|]. cbn [app attrs_size]. lia. Qed.

Lemma msg_size_add m t v : msg_size (add_attr m t v) = msg_size m + attr_size v.
Proof. unfold msg_size, add_attr. cbn [m_attrs]. rewrite attrs_size_app. cbn [attrs_size]. lia. Qed.

Lemma msg_size_bounds m : 20 <= msg_size m /\ msg_size m mod 4 = 0.
Proof.
  unfold msg_size, STUN_HEADER_LENGTH. pose proof (attrs_size_nonneg (m_attrs m)).
  split; [lia|]. Z.div_mod_to_equations. lia.
Qed.

Lemma attrs_at_app buf p l k :
  attrs_at buf p (l ++ k) <-> attrs_at buf p l /\ attrs_at buf (p + attrs_size l) k.
Proof.
  revert p. induction l as [|[t v] l IH]; intros p; cbn [app attrs_at attrs_size].
  - rewrite Z.add_0_r. tauto.
  - rewrite IH, Z.add_assoc. tauto.
Qed.

(** A write outside the attributes keeps them. *)
Lemma attrs_at_wr buf q bs buf' p l :
  wr_block buf q bs = Some buf' -> q + zlen bs <= p \/ p + attrs_size l <= q ->
  attrs_at buf p l -> attrs_at buf' p l.
Proof.
  intros Hw. revert p. induction l as [|[t v] l IH]; intros p Hq; [done|].
  cbn [attrs_at attrs_size] in *. intros (Ht & Hl & Hv & Hr). pose proof (attr_size_bounds v).
  pose proof (attrs_size_nonneg l).
  rewrite (be_at_wr_disjoint 2 _ _ _ _ p Hw), (be_at_wr_disjoint 2 _ _ _ _ (p + 2) Hw) by lia.
  rewrite (rd_wr_disjoint _ _ _ _ (p + 4) _ Hw) by lia.
  repeat split; try done. apply IH; [lia|done].
Qed.

(** * The message length *)

Lemma repr_command_len b m :
  repr b m -> stun_get_command_message_len_str (sb_mem b) (sb_len b) = Some (msg_size m).
Proof.
  intros H. unfold stun_get_command_message_len_str. rewrite (repr_len _ _ H).
  pose proof (msg_size_bounds m). unfold STUN_HEADER_LENGTH in *.
  destruct (Z.ltb_spec (msg_size m) 20); [lia|].
  rewrite ldn16_be, (repr_size _ _ H) by apply H. cbn [mbind option_bind]. unfold STUN_HEADER_LENGTH.
  replace (msg_size m - 20 + 20) with (msg_size m) by lia. by rewrite Z.ltb_irrefl.
Qed.

Lemma repr_size_bound b m : repr b m -> msg_size m < 65556.
Proof.
  intros H. pose proof (be_at_range 2 _ _ _ (repr_bytes _ _ H) (repr_size _ _ H)) as Hr.
  change (256 ^ 2) with 65536 in Hr. unfold STUN_HEADER_LENGTH in Hr. lia.
Qed.

(** * Initialisation *)

Lemma be_at_here n k p (m : list Z) v :
  rd_block m p (Z.of_nat n) = Some (be_split n v) -> k = Z.of_nat n -> 0 <= v < 256 ^ k ->
  be_at k m p = Some v.
Proof.
  intros H -> Hv. unfold be_at. rewrite H. cbn [fmap option_fmap option_map].
  rewrite be_combine_split. f_equal. by apply Z.mod_small.
Qed.

Lemma repr_header m0 t cookie tid m :
  bytes m0 -> 0 <= t < 65536 -> 0 <= cookie < 4294967296 -> bytes tid -> length tid = 12%nat ->
  wr_block m0 0 (header_bytes t 0 cookie tid) = Some m -> repr (SBuf m 20) (StunMsg t cookie tid []).
Proof.
  intros Hb Ht Hc Htb Htl Hw. unfold header_bytes in Hw.
  assert (zlen tid = 12) as Hz by (unfold zlen; lia).
  split; cbn [sb_mem sb_len m_type m_cookie m_tid m_attrs].
  - eapply wr_block_bytes; [exact Hb| |exact Hw]. rewrite !bytes_app. auto using bytes_be_split.
  - done.
  - apply wr_block_bounds in Hw as Hbd. apply wr_block_zlen in Hw. rewrite Hw.
    rewrite !zlen_app, !zlen_be_split, Hz in Hbd. change (msg_size _) with 20. lia.
  - apply (be_at_here 2); [|done|done].
    by apply (rd_wr_part _ _ [] (be_split 2 t) _ _ _ _ Hw); rewrite ?zlen_be_split.
  - apply (be_at_here 2); [|done|done].
    by apply (rd_wr_part _ _ (be_split 2 t) (be_split 2 0) _ _ _ _ Hw); rewrite ?zlen_be_split.
  - apply (be_at_here 4); [|done|done].
    apply (rd_wr_part m0 0 (be_split 2 t ++ be_split 2 0) (be_split 4 cookie) tid m);
      rewrite ?zlen_app, ?zlen_be_split; [|done..].
    by rewrite <- app_assoc.
  - apply (rd_wr_part m0 0 (be_split 2 t ++ be_split 2 0 ++ be_split 4 cookie) tid [] m);
      rewrite ?zlen_app, ?zlen_be_split; [|done..].
    by rewrite <- !app_assoc, app_nil_r.
  - done.
Qed.

Lemma repr_init cookie t b e :
  bytes (sb_mem b) -> 20 <= zlen (sb_mem b) -> entropy_ok e -> 0 <= cookie < 4294967296 ->
  exists b', init_command_with cookie t b e = Some b' /\
  repr b' (StunMsg (Z.land t 0x3FFF) cookie (tid_of e) []) /\ zlen (sb_mem b') = zlen (sb_mem b).
Proof.
  intros Hb Hl He Hc. destruct (init_command_with_spec cookie t b e He Hl) as (m & Hi & Hw).
  exists (SBuf m 20). split; [done|]. split.
  - apply (repr_header (sb_mem b)); try done; [|by apply bytes_tid_of|by apply length_tid_of].
    change 0x3FFF with (Z.ones 14). rewrite Z.land_ones by lia.
    pose proof (Z.mod_pos_bound t (2 ^ 14) ltac:(lia)). change (2 ^ 14) with 16384 in *. lia.
  - cbn [sb_mem]. by apply wr_block_zlen in Hw.
Qed.

(** Storing a transaction id. *)
Lemma repr_set_tid b m tid :
  repr b m -> bytes tid -> length tid = 12%nat ->
  exists m', stun_tid_message_cpy (sb_mem b) (Some tid) = Some m' /\
  repr (SBuf m' (sb_len b)) (StunMsg (m_type m) (m_cookie m) tid (m_attrs m)) /\
  zlen m' = zlen (sb_mem b).
Proof.
  intros H Hb Hl. rewrite stun_tid_message_cpy_eq by done.
  pose proof (msg_size_bounds m). pose proof (repr_cap _ _ H).
  assert (zlen tid = 12) as Hz by (unfold zlen; lia).
  destruct (wr_block_is_Some (sb_mem b) 8 tid) as [m' Hw]; [lia..|]. exists m'. split; [done|].
  split; [|by eapply wr_block_zlen].
  assert (be_at 2 m' 0 = be_at 2 (sb_mem b) 0) as E0 by (eapply be_at_wr_disjoint; [done|lia]).
  assert (be_at 2 m' 2 = be_at 2 (sb_mem b) 2) as E2 by (eapply be_at_wr_disjoint; [done|lia]).
  assert (be_at 4 m' 4 = be_at 4 (sb_mem b) 4) as E4 by (eapply be_at_wr_disjoint; [done|lia]).
  split; cbn [sb_mem sb_len m_type m_cookie m_tid m_attrs].
  - eapply wr_block_bytes; [apply H|exact Hb|done].
  - by rewrite (repr_len _ _ H).
  - rewrite (wr_block_zlen _ _ _ _ Hw). apply H.
  - rewrite E0. apply H.
  - rewrite E2. apply H.
  - rewrite E4. apply H.
  - rewrite <- Hz. by eapply rd_wr_same.
  - eapply attrs_at_wr; [done| |apply H]. unfold STUN_HEADER_LENGTH. lia.
Qed.

(** * Appending an attribute *)

(** [newlen] of [stun_attr_add_str]: both roundings agree on a multiple of 4. *)
Lemma add_newlen c n :
  c mod 4 = 0 -> 0 <= n ->
  (if truth (Z.land (c + 4 + n) 3) then c + 4 + n + (4 - Z.land (c + 4 + n) 3) else c + 4 + n) =
  c + (4 + pad4 n).
Proof.
  intros Hc Hn. rewrite land3. unfold truth, pad4.
  destruct (Z.eqb_spec ((c + 4 + n) mod 4) 0); cbn [negb]; Z.div_mod_to_equations; lia.
Qed.

Definition c_attr_value (avalue : option (list Z)) (alen : Z) : option (list Z) :=
  match avalue with
  | None => Some []
  | Some a => if alen <=? 0 then Some [] else rd_block a 0 alen
  end.

(** The writes of [stun_attr_add_str], on a memory that holds [m]. *)
Lemma repr_append_writes b m t v :
  repr b m -> 0 <= t < 65536 -> bytes v ->
  msg_size m + attr_size v < MAX_STUN_MESSAGE_SIZE -> msg_size m + attr_size v <= zlen (sb_mem b) ->
  exists m', wr_block (sb_mem b) 2 (be_split 2 (msg_size m + attr_size v - 20)) ≫=
               (λ m1, wr_block m1 (msg_size m) (be_split 2 t ++ be_split 2 (zlen v) ++ v)) = Some m' /\
  repr (SBuf m' (msg_size m + attr_size v)) (add_attr m t v) /\ zlen m' = zlen (sb_mem b).
Proof.
  intros H Ht Hv Hmax Hcap. pose proof (msg_size_bounds m) as [Hs Hs4].
  pose proof (attr_size_bounds v) as (Ha4 & Hav & Ham). pose proof (zlen_nonneg v) as Hv0.
  unfold MAX_STUN_MESSAGE_SIZE in Hmax.
  destruct (wr_block_is_Some (sb_mem b) 2 (be_split 2 (msg_size m + attr_size v - 20))) as [m1 H1];
    [lia|rewrite zlen_be_split; lia|]. rewrite H1. cbn [mbind option_bind].
  pose proof (wr_block_zlen _ _ _ _ H1) as Hz1.
  set (bs := be_split 2 t ++ be_split 2 (zlen v) ++ v).
  assert (zlen bs = 4 + zlen v) as Hbs by (unfold bs; rewrite !zlen_app, !zlen_be_split; lia).
  destruct (wr_block_is_Some m1 (msg_size m) bs) as [m2 H2]; [lia..|].
  exists m2. split; [done|]. pose proof (wr_block_zlen _ _ _ _ H2) as Hz2. split; [|lia].
  assert (forall n q, (q + n <= 2 \/ 4 <= q) -> q + n <= msg_size m -> be_at n m2 q = be_at n (sb_mem b) q) as Hbe.
  { intros n q Hq Hq2. rewrite (be_at_wr_disjoint n _ _ _ _ q H2) by lia.
    apply (be_at_wr_disjoint n _ _ _ _ q H1). rewrite zlen_be_split. lia. }
  split; cbn [sb_mem sb_len m_type m_cookie m_tid m_attrs add_attr];
    rewrite ?msg_size_add.
  - eapply wr_block_bytes; [| |exact H2].
    + eapply wr_block_bytes; [apply H|apply bytes_be_split|exact H1].
    + unfold bs. rewrite !bytes_app. auto using bytes_be_split.
  - done.
  - lia.
  - rewrite Hbe by lia. apply H.
  - rewrite (be_at_wr_disjoint 2 _ _ _ _ 2 H2) by lia.
    apply (be_at_here 2); [|done|change (256 ^ 2) with 65536; unfold STUN_HEADER_LENGTH; lia].
    apply rd_wr_same in H1. by rewrite zlen_be_split in H1.
  - rewrite Hbe by lia. apply H.
  - rewrite (rd_wr_disjoint _ _ _ _ 8 12 H2) by lia.
    rewrite (rd_wr_disjoint _ _ _ _ 8 12 H1) by (rewrite zlen_be_split; lia). apply H.
  - apply attrs_at_app. split.
    + eapply attrs_at_wr; [exact H2| |].
      { right. unfold msg_size. lia. }
      eapply attrs_at_wr; [exact H1| |apply H]. rewrite zlen_be_split. unfold STUN_HEADER_LENGTH. lia.
    + fold (msg_size m). cbn [attrs_at]. unfold bs in H2.
      assert (zlen v < 65536) by lia.
      split; [|split; [|split; [|done]]].
      * apply (be_at_here 2); [|done|done].
        by apply (rd_wr_part m1 (msg_size m) [] (be_split 2 t) _ m2 _ _ H2); rewrite ?zlen_be_split, ?zlen_nil; lia.
      * apply (be_at_here 2); [|done|done].
        by apply (rd_wr_part m1 (msg_size m) (be_split 2 t) (be_split 2 (zlen v)) _ m2 _ _ H2);
          rewrite ?zlen_be_split; lia.
      * apply (rd_wr_part m1 (msg_size m) (be_split 2 t ++ be_split 2 (zlen v)) v [] m2);
          rewrite ?zlen_app, ?zlen_be_split; [|lia|done].
        by rewrite <- !app_assoc, app_nil_r.
Qed.

Lemma stun_attr_add_str_spec b m t avalue alen v :
  repr b m -> 0 <= t < 65536 -> c_attr_value avalue alen = Some v -> bytes v -> alen < 2147000000 ->
  (msg_size m + attr_size v < MAX_STUN_MESSAGE_SIZE -> msg_size m + attr_size v <= zlen (sb_mem b)) ->
  if msg_size m + attr_size v <? MAX_STUN_MESSAGE_SIZE then
    exists b', stun_attr_add_str b t avalue alen = Some (0, b') /\
    repr b' (add_attr m t v) /\ zlen (sb_mem b') = zlen (sb_mem b)
  else stun_attr_add_str b t avalue alen = Some (-1, b).
Proof.
  intros H Ht Hv Hb Hmaxlen Hcap. unfold stun_attr_add_str.
  cbv zeta.
  assert (exists a n, match avalue with
    | Some v => (v, if alen <? 0 then 0 else alen) | None => ([0], 0) end = (a, n) /\ n = zlen v /\
    (if 0 <? n then rd_block a 0 n = Some v else v = [])) as (a & n & Ea & -> & Hrd).
  { destruct avalue as [a|]; cbn [c_attr_value] in Hv.
    - exists a, (if alen <? 0 then 0 else alen). split; [done|].
      destruct (Z.leb_spec alen 0); [injection Hv as <-|].
      + split; [by destruct (Z.ltb_spec alen 0); [|assert (alen = 0) as -> by lia]|].
        destruct (Z.ltb_spec alen 0); [done|]. by destruct (Z.ltb_spec 0 alen); [lia|].
      + destruct (Z.ltb_spec alen 0); [lia|]. apply rd_block_zlen in Hv as Hl.
        split; [done|]. by destruct (Z.ltb_spec 0 alen); [|lia].
    - injection Hv as <-. exists [0], 0. done. }
  rewrite Ea. rewrite (repr_command_len _ _ H). cbn [mbind option_bind].
  pose proof (msg_size_bounds m) as [Hs Hs4]. pose proof (zlen_nonneg v) as Hv0.
  pose proof (repr_size_bound _ _ H). pose proof (attr_size_bounds v) as (_ & Hav & _).
  assert (zlen v < 2147000001) as Hvl.
  { destruct avalue; cbn [c_attr_value] in Hv; [|by injection Hv as <-].
    revert Hv. case_if; intros Hv; [by injection Hv as <-|]. apply rd_block_zlen in Hv. lia. }
  pose proof (pad4_bounds (zlen v)).
  rewrite i32_Some by lia. cbn [mbind option_bind]. rewrite add_newlen by done.
  fold (attr_size v). rewrite i32_Some by (unfold attr_size; lia). cbn [mbind option_bind].
  destruct (Z.ltb_spec (msg_size m + attr_size v) MAX_STUN_MESSAGE_SIZE) as [Hlt|Hge].
  2: { destruct (Z.leb_spec MAX_STUN_MESSAGE_SIZE (msg_size m + attr_size v)); [done|lia]. }
  destruct (Z.leb_spec MAX_STUN_MESSAGE_SIZE (msg_size m + attr_size v)); [lia|].
  destruct (repr_append_writes b m t v) as (m' & Hw & Hr & Hz); [done..|by apply Hcap|].
  exists (SBuf m' (msg_size m + attr_size v)). split; [|done].
  unfold stun_set_command_message_len_str, STUN_HEADER_LENGTH, MAX_STUN_MESSAGE_SIZE in *.
  destruct (Z.ltb_spec (msg_size m + attr_size v) 20); [lia|].
  rewrite !u16_small, store16_nswap by lia.
  destruct (wr_block (sb_mem b) 2 _) as [m1|]; cbn [mbind option_bind] in *; [|done].
  rewrite wr_block_app, zlen_be_split in Hw. rewrite store16_nswap.
  destruct (wr_block m1 (msg_size m) _) as [m2|]; cbn [mbind option_bind] in *; [|done].
  rewrite wr_block_app, zlen_be_split in Hw. rewrite store16_nswap.
  change (Z.of_nat 2) with 2 in Hw.
  destruct (wr_block m2 (msg_size m + 2) _) as [m3|]; cbn [mbind option_bind] in *; [|done].
  replace (msg_size m + 2 + 2) with (msg_size m + 4) in Hw by lia.
  destruct (0 <? zlen v).
  - rewrite Hrd. cbn [mbind option_bind]. by rewrite Hw.
  - subst v. cbn [mbind option_bind]. apply wr_block_nil in Hw. by subst.
Qed.
