(* ===== verification/StunSearch.v ===== *)
(** Searching a well-formed message: the iteration functions of
    [client/ns_turn_msg.c] walk exactly the attributes of the abstract message,
    so the searches by type are lookups in its attribute list, and what an
    [stun_attr_add_*] function appends is what the matching getter reads. *)

From S2P Require Import Prelude Defs CString IoAddr MsgAddr StunHeader StunAttr StunSpec.

(** * The walk over the attributes *)

(** The loop over the attribute list of the abstract message: [body] is run at
    the offset of each attribute until it gives a result. *)
Fixpoint walk {S A} (body : S -> Z -> option (S * option A)) (st : S) (p : Z)
    (l : list (Z * list Z)) : option (S * option A) :=
  match l with
  | [] => Some (st, None)
  | (_, v) :: l' =>
    '(st, r) ← body st p;
    match r with Some x => Some (st, Some x) | None => walk body st (p + attr_size v) l' end
  end.

(** Where the attribute after the prefix [l] starts. *)
Definition attr_off (l : list (Z * list Z)) : Z := STUN_HEADER_LENGTH + attrs_size l.

Definition start_of (p : Z) (l : list (Z * list Z)) : stun_attr_ref :=
  match l with [] => None | _ :: _ => Some p end.

Section at_attr.
Context (b : sbuf) (m : stun_msg) (l1 : list (Z * list Z)) (t : Z) (v : list Z) (l2 : list (Z * list Z)).
Context (Hr : repr b m) (Hm : m_attrs m = l1 ++ (t, v) :: l2).

Lemma attr_fields :
  be_at 2 (sb_mem b) (attr_off l1) = Some t /\ be_at 2 (sb_mem b) (attr_off l1 + 2) = Some (zlen v) /\
  rd_block (sb_mem b) (attr_off l1 + 4) (zlen v) = Some v.
Proof using All.
  pose proof (repr_attrs _ _ Hr) as H. rewrite Hm in H. apply attrs_at_app in H as [_ H].
  cbn [attrs_at] in H. unfold attr_off. tauto.
Qed.

Lemma attr_get_type : stun_attr_get_type (sb_mem b) (Some (attr_off l1)) = Some t.
Proof using All.
  cbn [stun_attr_get_type]. rewrite ldn16_be by apply Hr. apply attr_fields.
Qed.

Lemma attr_get_len : stun_attr_get_len (sb_mem b) (Some (attr_off l1)) = Some (zlen v).
Proof using All.
  cbn [stun_attr_get_len]. rewrite ldn16_be by apply Hr. apply attr_fields.
Qed.

Lemma attr_get_value :
  stun_attr_get_value (sb_mem b) (Some (attr_off l1)) =
  Some (if zlen v <? 1 then None else Some (attr_off l1 + 4)).
Proof using All.
  cbn [stun_attr_get_value]. pose proof attr_get_len as H. cbn [stun_attr_get_len] in H.
  rewrite H. cbn [mbind option_bind]. by destruct (zlen v <? 1).
Qed.

Lemma attr_zlen_range : 0 <= zlen v < 65536.
Proof using All.
  destruct attr_fields as (_ & H & _). by apply be_at_range in H; [|apply Hr].
Qed.

Lemma attr_total :
  msg_size m = attr_off l1 + attr_size v + attrs_size l2.
Proof using Hm. unfold msg_size, attr_off. rewrite Hm, attrs_size_app. cbn [attrs_size]. lia. Qed.

Lemma attr_check_valid :
  stun_attr_check_valid (sb_mem b) (attr_off l1) (msg_size m - attr_off l1) = Some (Some (attr_off l1)).
Proof using All.
  pose proof attr_total. pose proof (attr_size_bounds v). pose proof (attrs_size_nonneg l2).
  unfold stun_attr_check_valid. destruct (Z.leb_spec 4 (msg_size m - attr_off l1)); [|lia].
  rewrite attr_get_len. cbn [mbind option_bind]. rewrite attr_round_pad4 by apply attr_zlen_range.
  destruct (Z.leb_spec (pad4 (zlen v)) (msg_size m - attr_off l1 - 4)); [done|].
  unfold attr_size in *. lia.
Qed.
End at_attr.

Lemma get_first_repr b m :
  repr b m -> stun_attr_get_first_str (sb_mem b) (sb_len b) = Some (start_of (attr_off []) (m_attrs m)).
Proof.
  intros Hr. unfold stun_attr_get_first_str. rewrite (repr_command_len _ _ Hr). cbn [mbind option_bind].
  destruct (m_attrs m) as [|[t v] l] eqn:Hm.
  - unfold msg_size. by rewrite Hm.
  - assert ((STUN_HEADER_LENGTH <? msg_size m) = true) as ->.
    { apply Z.ltb_lt. rewrite (attr_total m [] t v l Hm). unfold attr_off. cbn [attrs_size].
      pose proof (attr_size_bounds v). pose proof (attrs_size_nonneg l). lia. }
    apply (attr_check_valid b m [] t v l Hr Hm).
Qed.

Lemma get_next_repr b m l1 t v l2 :
  repr b m -> m_attrs m = l1 ++ (t, v) :: l2 ->
  stun_attr_get_next_str (sb_mem b) (sb_len b) (Some (attr_off l1)) =
  Some (start_of (attr_off l1 + attr_size v) l2).
Proof.
  intros Hr Hm. unfold stun_attr_get_next_str. rewrite (repr_command_len _ _ Hr). cbn [mbind option_bind].
  rewrite (attr_get_len b m l1 t v l2 Hr Hm). cbn [mbind option_bind].
  rewrite attr_round_pad4 by by eapply attr_zlen_range.
  pose proof (attr_total m l1 t v l2 Hm) as Htot. pose proof (attr_size_bounds v).
  destruct l2 as [|[t2 v2] l2]; cbn [attrs_size start_of] in *.
  - destruct (Z.ltb_spec (pad4 (zlen v)) (msg_size m - attr_off l1 - 4)); [|done].
    unfold attr_size in *. lia.
  - pose proof (attr_size_bounds v2). pose proof (attrs_size_nonneg l2).
    destruct (Z.ltb_spec (pad4 (zlen v)) (msg_size m - attr_off l1 - 4)); [|unfold attr_size in *; lia].
    assert (m_attrs m = (l1 ++ [(t, v)]) ++ (t2, v2) :: l2) as Hm2 by by rewrite <- app_assoc.
    assert (attr_off (l1 ++ [(t, v)]) = attr_off l1 + 4 + pad4 (zlen v)) as Ho.
    { unfold attr_off. rewrite attrs_size_app. cbn [attrs_size]. unfold attr_size. lia. }
    rewrite <- Ho, (attr_check_valid b m _ _ _ _ Hr Hm2), Ho. unfold attr_size. do 2 f_equal. lia.
Qed.

Lemma attr_loop_walk {S A} (body : S -> Z -> option (S * option A)) b m :
  repr b m -> forall l2 fuel st l1, m_attrs m = l1 ++ l2 -> (length l2 <= fuel)%nat ->
  attr_loop fuel (sb_mem b) (sb_len b) body st (start_of (attr_off l1) l2) = walk body st (attr_off l1) l2.
Proof.
  intros Hr. induction l2 as [|[t v] l2 IH]; intros fuel st l1 Hm Hf; [by destruct fuel|].
  destruct fuel as [|fuel]; [simpl in Hf; lia|]. cbn [start_of attr_loop walk].
  destruct (body st (attr_off l1)) as [[st' [x|]]|]; cbn [mbind option_bind]; try done.
  rewrite (get_next_repr b m l1 t v l2 Hr Hm). cbn [mbind option_bind].
  assert (attr_off l1 + attr_size v = attr_off (l1 ++ [(t, v)])) as ->.
  { unfold attr_off. rewrite attrs_size_app. cbn [attrs_size]. lia. }
  apply IH; [by rewrite <- app_assoc|simpl in Hf; lia].
Qed.

Lemma attrs_size_length l : Z.of_nat (length l) <= attrs_size l.
Proof.
  induction l as [|[t v] l IH]; [done|]. cbn [length attrs_size]. pose proof (attr_size_bounds v). lia.
Qed.

(** A search: the first attribute, then the loop. *)
Lemma search_repr {S A} (body : S -> Z -> option (S * option A)) b m st :
  repr b m ->
  (attr ← stun_attr_get_first_str (sb_mem b) (sb_len b);
   attr_loop (attr_fuel (sb_len b)) (sb_mem b) (sb_len b) body st attr) =
  walk body st (attr_off []) (m_attrs m).
Proof.
  intros Hr. rewrite (get_first_repr b m Hr). cbn [mbind option_bind].
  apply (attr_loop_walk body b m Hr (m_attrs m) _ st []); [done|].
  unfold attr_fuel. rewrite (repr_len _ _ Hr). unfold msg_size, STUN_HEADER_LENGTH.
  pose proof (attrs_size_length (m_attrs m)). lia.
Qed.

(** The same for a continuation of the search. *)
Lemma search_repr_bind {S A B} (body : S -> Z -> option (S * option A)) (k : S * option A -> option B) b m st :
  repr b m ->
  (attr ← stun_attr_get_first_str (sb_mem b) (sb_len b);
   x ← attr_loop (attr_fuel (sb_len b)) (sb_mem b) (sb_len b) body st attr; k x) =
  (x ← walk body st (attr_off []) (m_attrs m); k x).
Proof.
  intros Hr. rewrite <- (search_repr body b m st Hr).
  by destruct (stun_attr_get_first_str _ _); cbn [mbind option_bind].
Qed.

(** A walk whose body only stops where [stop] holds, with [f] of the place. *)
Lemma walk_find {S A} (body : S -> Z -> option (S * option A)) (stop : Z * list Z -> Prop)
    `{!forall x, Decision (stop x)} (st : S) (f : list (Z * list Z) -> list Z -> option A) :
  forall l2 l1,
  (forall l t v l', l1 ++ l2 = l ++ (t, v) :: l' -> (length l1 <= length l)%nat ->
     body st (attr_off l) = Some (st, if decide (stop (t, v)) then f l v else None)) ->
  (forall l v, f l v ≠ None) ->
  walk body st (attr_off l1) l2 =
  Some (st, match list_find stop l2 with
            | Some (i, (t, v)) => f (l1 ++ take i l2) v
            | None => None
            end).
Proof.
  induction l2 as [|[t v] l2 IH]; intros l1 Hb Hf; [done|]. cbn [walk list_find].
  rewrite (Hb l1 t v l2) by (done || lia). cbn [mbind option_bind].
  destruct (decide (stop (t, v))) as [Hs|Hs].
  - cbn [take]. rewrite app_nil_r. by destruct (f l1 v) eqn:E; [|destruct (Hf l1 v)].
  - assert (attr_off l1 + attr_size v = attr_off (l1 ++ [(t, v)])) as ->.
    { unfold attr_off. rewrite attrs_size_app. cbn [attrs_size]. lia. }
    rewrite IH; [| |done].
    + destruct (list_find stop l2) as [[i [t' v']]|]; [|done]. cbn [fmap option_fmap option_map prod_map].
      unfold prod_map. cbn. by rewrite <- app_assoc.
    + intros l t' v' l' E Hl. rewrite <- app_assoc in E. apply (Hb _ _ _ l'); [done|].
      rewrite length_app in Hl. simpl in Hl. lia.
Qed.

(** Skipping attributes the body passes over. *)
Lemma walk_skip {S A} (body : S -> Z -> option (S * option A)) (st : S) l2 :
  forall l1 l3,
  (forall l t v l', l1 ++ l2 = l ++ (t, v) :: l' -> body st (attr_off l) = Some (st, None)) ->
  walk body st (attr_off l1) (l2 ++ l3) = walk body st (attr_off (l1 ++ l2)) l3.
Proof.
  induction l2 as [|[t v] l2 IH]; intros l1 l3 Hb; [by rewrite app_nil_r|]. cbn [app walk].
  rewrite (Hb l1 t v l2) by done. cbn [mbind option_bind].
  assert (attr_off l1 + attr_size v = attr_off (l1 ++ [(t, v)])) as ->.
  { unfold attr_off. rewrite attrs_size_app. cbn [attrs_size]. lia. }
  rewrite IH; [by rewrite <- app_assoc|]. intros l t' v' l' E. rewrite <- app_assoc in E. by eapply Hb.
Qed.

(** * Search by type *)

Lemma find_attr_split t l v :
  find_attr t l = Some v -> exists l1 l2, l = l1 ++ (t, v) :: l2 /\
  list_find (λ kv : Z * list Z, kv.1 = t) l = Some (length l1, (t, v)).
Proof.
  unfold find_attr. destruct (list_find _ l) as [[i [t' v']]|] eqn:E; [|done]. cbn. intros [= ->].
  apply list_find_Some in E as H. destruct H as (Hl & Ht & _). cbn in Ht. subst t'.
  exists (take i l), (drop (S i) l). split; [by rewrite take_drop_middle|].
  rewrite length_take. apply lookup_lt_Some in Hl. by rewrite Nat.min_l by lia.
Qed.

Lemma find_attr_None t l : find_attr t l = None <-> Forall (λ kv, kv.1 ≠ t) l.
Proof.
  unfold find_attr. rewrite <- (list_find_None (λ kv : Z * list Z, kv.1 = t) l).
  by destruct (list_find _ l) as [[i [t' v']]|].
Qed.

Lemma find_attr_app_None t l k : find_attr t l = None -> find_attr t (l ++ k) = find_attr t k.
Proof.
  induction l as [|[t' v] l IH]; [done|]. unfold find_attr in *. cbn [app list_find].
  case_decide; [done|]. intros H1.
  destruct (list_find _ l) as [[]|]; [done|]. specialize (IH eq_refl). cbn in *.
  destruct (list_find _ (l ++ k)) as [[]|]; destruct (list_find _ k) as [[]|]; cbn in *; congruence.
Qed.

(** What [stun_attr_ref]s mean: the attribute at [a] has value [v]. *)
Record attr_holds (buf : list Z) (a : Z) (t : Z) (v : list Z) : Prop := AttrHolds {
  holds_type : stun_attr_get_type buf (Some a) = Some t;
  holds_len : stun_attr_get_len buf (Some a) = Some (zlen v);
  holds_value : stun_attr_get_value buf (Some a) = Some (if zlen v <? 1 then None else Some (a + 4));
  holds_block : rd_block buf (a + 4) (zlen v) = Some v;
  holds_start : 20 <= a;
}.

Lemma attr_holds_at b m l1 t v l2 :
  repr b m -> m_attrs m = l1 ++ (t, v) :: l2 -> attr_holds (sb_mem b) (attr_off l1) t v.
Proof.
  intros Hr Hm. split.
  - by eapply attr_get_type.
  - by eapply attr_get_len.
  - by eapply attr_get_value.
  - by eapply attr_fields.
  - unfold attr_off, STUN_HEADER_LENGTH. pose proof (attrs_size_nonneg l1). lia.
Qed.

Lemma get_first_by_type_find b m t :
  repr b m ->
  match find_attr t (m_attrs m) with
  | None => stun_attr_get_first_by_type_str (sb_mem b) (sb_len b) t = Some None
  | Some v => exists a, stun_attr_get_first_by_type_str (sb_mem b) (sb_len b) t = Some (Some a) /\
                        attr_holds (sb_mem b) a t v
  end.
Proof.
  intros Hr. unfold stun_attr_get_first_by_type_str. rewrite (search_repr_bind _ _ b m tt Hr).
  rewrite (walk_find _ (λ kv : Z * list Z, kv.1 = t) tt (λ l _, Some (attr_off l)) (m_attrs m) []); [| |done].
  2: { intros l t' v l' E _. cbn [app] in E. rewrite (attr_get_type b m l t' v l' Hr E).
       cbn [mbind option_bind]. case_decide; cbn in *.
       - subst. by rewrite Z.eqb_refl.
       - by destruct (Z.eqb_spec t' t). }
  destruct (find_attr t (m_attrs m)) as [v|] eqn:E.
  - apply find_attr_split in E as (l1 & l2 & Hm & ->). cbn [mbind option_bind app].
    exists (attr_off l1). rewrite Hm, take_app_length. split; [done|]. by eapply attr_holds_at.
  - unfold find_attr in E. by destruct (list_find _ (m_attrs m)) as [[i [t' v]]|].
Qed.

(** * Appending, then searching *)

(** There is room for an attribute whose value has [n] bytes. *)
Definition room (b : sbuf) (m : stun_msg) (n : Z) : Prop :=
  msg_size m + 4 + pad4 n < MAX_STUN_MESSAGE_SIZE /\ msg_size m + 4 + pad4 n <= zlen (sb_mem b).

Lemma add_in_room b m t avalue alen v :
  repr b m -> 0 <= t < 65536 -> c_attr_value avalue alen = Some v -> bytes v -> alen < 2147000000 ->
  room b m (zlen v) ->
  exists b', stun_attr_add_str b t avalue alen = Some (0, b') /\
  repr b' (add_attr m t v) /\ zlen (sb_mem b') = zlen (sb_mem b).
Proof.
  intros Hr Ht Hv Hb Hl [H1 H2].
  pose proof (stun_attr_add_str_spec b m t avalue alen v Hr Ht Hv Hb Hl) as H.
  unfold attr_size in H. destruct (Z.ltb_spec (msg_size m + (4 + pad4 (zlen v))) MAX_STUN_MESSAGE_SIZE); [|lia].
  apply H. lia.
Qed.

Lemma holds_after_add b' m t v :
  repr b' (add_attr m t v) -> find_attr t (m_attrs m) = None ->
  exists a, stun_attr_get_first_by_type_str (sb_mem b') (sb_len b') t = Some (Some a) /\
            attr_holds (sb_mem b') a t v.
Proof.
  intros Hr Hn. pose proof (get_first_by_type_find b' _ t Hr) as H. cbn [add_attr m_attrs] in H.
  rewrite find_attr_app_None in H by done. unfold find_attr in H. cbn [list_find] in H.
  by rewrite decide_True in H.
Qed.

Lemma add_then_find b m t f v :
  repr b m -> 0 <= t < 65536 -> bytes v -> 0 < zlen v < 65536 -> room b m (zlen v) ->
  find_attr t (m_attrs m) = None -> rd_block f 0 (zlen v) = Some v ->
  exists b' a, stun_attr_add_str b t (Some f) (zlen v) = Some (0, b') /\ repr b' (add_attr m t v) /\
  stun_attr_get_first_by_type_str (sb_mem b') (sb_len b') t = Some (Some a) /\
  attr_holds (sb_mem b') a t v.
Proof.
  intros Hr Ht Hb Hl Hroom Hn Hf.
  destruct (add_in_room b m t (Some f) (zlen v) v) as (b' & Ha & Hr' & _); try done; [|lia|].
  { cbn. destruct (Z.leb_spec (zlen v) 0); [lia|done]. }
  destruct (holds_after_add b' m t v Hr' Hn) as (a & Hs & Hh). by exists b', a.
Qed.

(** Words of a value. *)
Lemma holds_ldn16 buf a t v pre n post q :
  bytes buf -> attr_holds buf a t v -> v = pre ++ be_split 2 n ++ post -> q = a + 4 + zlen pre ->
  0 <= n < 65536 -> ldn16 buf q = Some n.
Proof.
  intros Hb Hh -> -> Hn. rewrite ldn16_be by done. apply (be_at_here 2); [|done|done].
  pose proof (holds_block _ _ _ _ Hh) as H. by apply (rd_block_part _ _ _ _ _ _ _ _ H).
Qed.

Lemma holds_ldn32 buf a t v pre n post q :
  bytes buf -> attr_holds buf a t v -> v = pre ++ be_split 4 n ++ post -> q = a + 4 + zlen pre ->
  0 <= n < 4294967296 -> ldn32 buf q = Some n.
Proof.
  intros Hb Hh -> -> Hn. rewrite ldn32_be by done. apply (be_at_here 4); [|done|done].
  pose proof (holds_block _ _ _ _ Hh) as H. by apply (rd_block_part _ _ _ _ _ _ _ _ H).
Qed.

Lemma holds_rd8 buf a t v pre c post q :
  attr_holds buf a t v -> v = pre ++ c :: post -> q = a + 4 + zlen pre -> rd8 buf q = Some c.
Proof.
  intros Hh -> ->. pose proof (holds_block _ _ _ _ Hh) as H. by apply (rd8_part _ _ _ _ _ _ _ H).
Qed.

(** * Properties *)

(** C9. Appending an attribute refines appending it to the abstract message: it
    returns 0 when the padded message stays below the maximal size, and the
    buffer then holds the message with the attribute last; otherwise it returns
    -1 and leaves the buffer as it was.  A search for the type then finds the
    new value, unless the message already had the type. *)
Theorem stun_attr_add_str_refines b m t avalue alen v :
  repr b m -> 0 <= t < 65536 -> c_attr_value avalue alen = Some v -> bytes v -> alen < 2147000000 ->
  (msg_size m + attr_size v < MAX_STUN_MESSAGE_SIZE -> msg_size m + attr_size v <= zlen (sb_mem b)) ->
  if msg_size m + attr_size v <? MAX_STUN_MESSAGE_SIZE then
    exists b', stun_attr_add_str b t avalue alen = Some (0, b') /\
    repr b' (add_attr m t v) /\
    (find_attr t (m_attrs m) = None ->
     exists a, stun_attr_get_first_by_type_str (sb_mem b') (sb_len b') t = Some (Some a) /\
               attr_holds (sb_mem b') a t v)
  else stun_attr_add_str b t avalue alen = Some (-1, b).
Proof.
  intros Hr Ht Hv Hb Hl Hc. pose proof (stun_attr_add_str_spec b m t avalue alen v Hr Ht Hv Hb Hl Hc) as H.
  case_if; [|done]. destruct H as (b' & Ha & Hr' & _). exists b'. split; [done|]. split; [done|].
  intros Hn. by eapply holds_after_add.
Qed.

(** C10. Searching by type is lookup in the attribute list of the abstract
    message: the search finds the first attribute of the type, with its length
    and value bytes, and returns NULL exactly when there is none. *)
Theorem stun_attr_get_first_by_type_refines b m t :
  repr b m ->
  match find_attr t (m_attrs m) with
  | None => stun_attr_get_first_by_type_str (sb_mem b) (sb_len b) t = Some None
  | Some v => exists a, stun_attr_get_first_by_type_str (sb_mem b) (sb_len b) t = Some (Some a) /\
                        attr_holds (sb_mem b) a t v
  end.
Proof. apply get_first_by_type_find. Qed.

(** A 4-byte attribute built from a local array. *)
Lemma add4_then_find b m t v :
  repr b m -> 0 <= t < 65536 -> bytes v -> zlen v = 4 -> room b m 4 -> find_attr t (m_attrs m) = None ->
  exists b' a, stun_attr_add_str b t (Some v) 4 = Some (0, b') /\ repr b' (add_attr m t v) /\
  stun_attr_get_first_by_type_str (sb_mem b') (sb_len b') t = Some (Some a) /\
  attr_holds (sb_mem b') a t v.
Proof.
  intros Hr Ht Hb Hz Hroom Hn. rewrite <- Hz. apply add_then_find; rewrite ?Hz; try done.
  by rewrite <- Hz, rd_block_full.
Qed.

Definition channel_value (chn : Z) : list Z := be_split 2 chn ++ [0; 0].

Lemma zlen_channel_value chn : zlen (channel_value chn) = 4.
Proof. unfold channel_value. by rewrite zlen_app, zlen_be_split. Qed.

Lemma bytes_channel_value chn : bytes (channel_value chn).
Proof.
  unfold channel_value. rewrite bytes_app. split; [apply bytes_be_split|]. repeat constructor; lia.
Qed.

Lemma holds_channel_number buf a t chn :
  bytes buf -> attr_holds buf a t (channel_value chn) -> 0 <= chn < 65536 ->
  stun_attr_get_channel_number buf (Some a) = Some (if STUN_VALID_CHANNEL chn then chn else 0).
Proof.
  intros Hb Hh Hc. unfold stun_attr_get_channel_number.
  rewrite (holds_value _ _ _ _ Hh), (holds_len _ _ _ _ Hh), zlen_channel_value. cbn [mbind option_bind].
  change (4 <? 1) with false. change (2 <=? 4) with true. cbv iota.
  rewrite (holds_ldn16 _ a _ _ [] chn [0; 0] _ Hb Hh) by (done || (rewrite zlen_nil; lia)).
  cbn [mbind option_bind]. by destruct (STUN_VALID_CHANNEL chn).
Qed.

Lemma add_channel_number_eq b chn :
  stun_attr_add_channel_number_str b chn =
  stun_attr_add_str b STUN_ATTRIBUTE_CHANNEL_NUMBER (Some (channel_value chn)) 4.
Proof. unfold stun_attr_add_channel_number_str, nswap16. by rewrite le_split_nswap. Qed.

Lemma add_channel_number_spec b m chn :
  repr b m -> room b m 4 -> find_attr STUN_ATTRIBUTE_CHANNEL_NUMBER (m_attrs m) = None ->
  exists b' a, stun_attr_add_channel_number_str b chn = Some (0, b') /\
  repr b' (add_attr m STUN_ATTRIBUTE_CHANNEL_NUMBER (channel_value chn)) /\
  stun_attr_get_first_by_type_str (sb_mem b') (sb_len b') STUN_ATTRIBUTE_CHANNEL_NUMBER = Some (Some a) /\
  attr_holds (sb_mem b') a STUN_ATTRIBUTE_CHANNEL_NUMBER (channel_value chn).
Proof.
  intros Hr Hroom Hn. rewrite add_channel_number_eq.
  by apply add4_then_find; try apply bytes_channel_value.
Qed.

(** The attributes before the first one of type [t]. *)
Lemma before_first b m l1 t x l2 l t' v' l' :
  repr b m -> m_attrs m = l1 ++ (t, x) :: l2 -> find_attr t l1 = None -> l1 = l ++ (t', v') :: l' ->
  stun_attr_get_type (sb_mem b) (Some (attr_off l)) = Some t' /\ t' ≠ t.
Proof.
  intros Hr Hm Hn E. split.
  - apply (attr_get_type b m l t' v' (l' ++ (t, x) :: l2) Hr). by rewrite Hm, E, <- app_assoc.
  - apply find_attr_None in Hn. rewrite E in Hn. apply Forall_app in Hn as [_ Hn]. by inversion Hn.
Qed.

(** The search by type gives the offset of the first attribute of the type. *)
Lemma first_by_type_at b m l1 t v l2 :
  repr b m -> m_attrs m = l1 ++ (t, v) :: l2 -> find_attr t l1 = None ->
  stun_attr_get_first_by_type_str (sb_mem b) (sb_len b) t = Some (Some (attr_off l1)).
Proof.
  intros Hr Hm Hn. unfold stun_attr_get_first_by_type_str.
  rewrite (search_repr_bind _ _ b m tt Hr), Hm, (walk_skip _ tt l1 []).
  2: { intros l t' v' l' E. cbn [app] in E. destruct (before_first _ _ _ _ _ _ _ _ _ _ Hr Hm Hn E) as [-> Hne].
       cbn [mbind option_bind]. by destruct (Z.eqb_spec t' t). }
  cbn [app walk]. rewrite (holds_type _ _ _ _ (attr_holds_at b m l1 t v l2 Hr Hm)).
  cbn [mbind option_bind]. by rewrite Z.eqb_refl.
Qed.

(** The first-channel search stops at the first CHANNEL-NUMBER if its number is valid. *)
Lemma first_channel_at b m l1 chn l2 :
  repr b m -> m_attrs m = l1 ++ (STUN_ATTRIBUTE_CHANNEL_NUMBER, channel_value chn) :: l2 ->
  find_attr STUN_ATTRIBUTE_CHANNEL_NUMBER l1 = None -> 0 <= chn < 65536 ->
  STUN_VALID_CHANNEL chn = true \/ l2 = [] ->
  stun_attr_get_first_channel_number_str (sb_mem b) (sb_len b) =
    Some (if STUN_VALID_CHANNEL chn then chn else 0).
Proof.
  intros Hr Hm Hn Hc Hv. unfold stun_attr_get_first_channel_number_str.
  rewrite (search_repr_bind _ _ b m tt Hr), Hm, (walk_skip _ tt l1 []).
  2: { intros l t v l' E. cbn [app] in E. destruct (before_first _ _ _ _ _ _ _ _ _ _ Hr Hm Hn E) as [-> Hne].
       cbn [mbind option_bind]. by destruct (Z.eqb_spec t STUN_ATTRIBUTE_CHANNEL_NUMBER). }
  cbn [app walk]. pose proof (attr_holds_at b m l1 _ _ l2 Hr Hm) as Hh.
  rewrite (holds_type _ _ _ _ Hh). cbn [mbind option_bind]. rewrite Z.eqb_refl.
  rewrite (holds_channel_number _ _ _ chn (repr_bytes _ _ Hr) Hh Hc). cbn [mbind option_bind].
  destruct Hv as [E| ->]; [by rewrite E; cbn [mbind option_bind]; rewrite E|].
  destruct (STUN_VALID_CHANNEL chn) eqn:E; cbn [mbind option_bind]; [by rewrite E|done].
Qed.

(** Channel numbers: the number appended is the number the first-channel
    search of the receiver returns; a number outside the channel range is
    written all the same and reads as 0. *)
Theorem stun_channel_number_roundtrip b m chn :
  repr b m -> 0 <= chn < 65536 -> room b m 4 ->
  find_attr STUN_ATTRIBUTE_CHANNEL_NUMBER (m_attrs m) = None ->
  exists b', stun_attr_add_channel_number_str b chn = Some (0, b') /\
  stun_attr_get_first_channel_number_str (sb_mem b') (sb_len b') =
    Some (if STUN_VALID_CHANNEL chn then chn else 0).
Proof.
  intros Hr Hc Hroom Hn. destruct (add_channel_number_spec b m chn Hr Hroom Hn) as (b' & _ & Ha & Hr' & _ & _).
  exists b'. split; [done|]. eapply (first_channel_at b'); [exact Hr'|reflexivity|done|done|by right].
Qed.

Lemma holds_bandwidth buf a t n :
  bytes buf -> attr_holds buf a t (be_split 4 n) -> 0 <= n < 4294967296 ->
  stun_attr_get_bandwidth buf (Some a) = Some (u32 (Z.shiftl n 7)).
Proof.
  intros Hb Hh Hn. unfold stun_attr_get_bandwidth.
  rewrite (holds_value _ _ _ _ Hh), (holds_len _ _ _ _ Hh), zlen_be_split. cbn [mbind option_bind].
  change (Z.of_nat 4 <? 1) with false. change (4 <=? Z.of_nat 4) with true. cbv iota.
  by rewrite (holds_ldn32 _ a _ _ [] n [] _ Hb Hh) by (done || (rewrite zlen_nil; lia)).
Qed.

Lemma bandwidth_units bps : u32 (Z.shiftl (u32 (Z.shiftr bps 7)) 7) = u32 (bps - bps mod 128).
Proof.
  unfold u32. rewrite Z.shiftl_mul_pow2, Z.shiftr_div_pow2 by lia. change (2 ^ 7) with 128.
  rewrite Z.mul_mod_idemp_l by lia. f_equal. Z.div_mod_to_equations. lia.
Qed.

(** Bandwidth: what is read back is the value appended, rounded down to the
    128-bit unit of the attribute and reduced modulo 2^32 (the getter shifts in
    32 bits), so exactly the value for multiples of 128 below 2^32. *)
Theorem stun_bandwidth_roundtrip b m bps :
  repr b m -> 0 <= bps -> room b m 4 -> find_attr STUN_ATTRIBUTE_NEW_BANDWIDTH (m_attrs m) = None ->
  exists b' a, stun_attr_add_bandwidth_str b bps = Some (0, b') /\
  stun_attr_get_first_by_type_str (sb_mem b') (sb_len b') STUN_ATTRIBUTE_NEW_BANDWIDTH = Some (Some a) /\
  stun_attr_get_bandwidth (sb_mem b') (Some a) = Some (u32 (bps - bps mod 128)).
Proof.
  intros Hr Hbps Hroom Hn. unfold stun_attr_add_bandwidth_str, nswap32. rewrite le_split_nswap.
  destruct (add4_then_find b m STUN_ATTRIBUTE_NEW_BANDWIDTH (be_split 4 (u32 (Z.shiftr bps 7))))
    as (b' & a & Ha & Hr' & Hs & Hh); try done; [apply bytes_be_split|].
  exists b', a. split; [done|]. split; [done|].
  rewrite (holds_bandwidth _ _ _ _ (repr_bytes _ _ Hr') Hh) by by apply Z.mod_pos_bound.
  by rewrite bandwidth_units.
Qed.

Lemma change_request_value change_ip change_port :
  let v3 := if truth change_ip then (if truth change_port then 0x06 else 0x04)
            else if truth change_port then 0x02 else 0 in
  0 <= v3 < 256 /\ Z.land v3 4 = 4 * b2z (truth change_ip) /\ Z.land v3 2 = 2 * b2z (truth change_port).
Proof. by destruct (truth change_ip), (truth change_port). Qed.

(** The behaviour-discovery attributes: CHANGE-REQUEST gives back the two
    flags (as the masks 4 and 2), RESPONSE-PORT the port, and each leaves the
    arguments of a failing getter alone: on a message without CHANGE-REQUEST the
    NULL attribute gives -1. *)
Theorem stun_discovery_attrs_roundtrip b m change_ip change_port port ci0 cp0 :
  repr b m -> 0 <= port < 65536 -> room b m 4 ->
  find_attr STUN_ATTRIBUTE_CHANGE_REQUEST (m_attrs m) = None ->
  find_attr STUN_ATTRIBUTE_RESPONSE_PORT (m_attrs m) = None ->
  (exists b' a, stun_attr_add_change_request_str b change_ip change_port = Some (0, b') /\
   stun_attr_get_first_by_type_str (sb_mem b') (sb_len b') STUN_ATTRIBUTE_CHANGE_REQUEST = Some (Some a) /\
   stun_attr_get_change_request_str (sb_mem b') (Some a) ci0 cp0 =
     Some (0, 4 * b2z (truth change_ip), 2 * b2z (truth change_port))) /\
  (exists b' a, stun_attr_add_response_port_str b port = Some (0, b') /\
   stun_attr_get_first_by_type_str (sb_mem b') (sb_len b') STUN_ATTRIBUTE_RESPONSE_PORT = Some (Some a) /\
   stun_attr_get_response_port_str (sb_mem b') (Some a) = Some port) /\
  stun_attr_get_change_request_str (sb_mem b) None ci0 cp0 = Some (-1, ci0, cp0).
Proof.
  intros Hr Hp Hroom Hn1 Hn2. split; [|split; [|done]].
  - destruct (change_request_value change_ip change_port) as (Hv & H4 & H2).
    unfold stun_attr_add_change_request_str. set (v3 := if truth change_ip then _ else _) in *. clearbody v3.
    destruct (add4_then_find b m STUN_ATTRIBUTE_CHANGE_REQUEST [0; 0; 0; v3])
      as (b' & a & Ha & Hr' & Hs & Hh); try done; [repeat constructor; lia|].
    exists b', a. split; [done|]. split; [done|]. unfold stun_attr_get_change_request_str.
    rewrite (holds_len _ _ _ _ Hh). cbn [mbind option_bind]. change (zlen _ =? 4) with true. cbv iota.
    rewrite (holds_value _ _ _ _ Hh). cbn [mbind option_bind]. change (zlen _ <? 1) with false. cbv iota.
    rewrite (holds_rd8 _ _ _ _ [0; 0; 0] v3 [] _ Hh) by done. cbn [mbind option_bind]. by rewrite H4, H2.
  - unfold stun_attr_add_response_port_str, nswap16. rewrite le_split_nswap. fold (channel_value port).
    destruct (add4_then_find b m STUN_ATTRIBUTE_RESPONSE_PORT (channel_value port))
      as (b' & a & Ha & Hr' & Hs & Hh); try done; [apply bytes_channel_value|].
    exists b', a. split; [done|]. split; [done|]. unfold stun_attr_get_response_port_str.
    rewrite (holds_len _ _ _ _ Hh), zlen_channel_value. cbn [mbind option_bind]. change (2 <=? 4) with true. cbv iota.
    rewrite (holds_value _ _ _ _ Hh), zlen_channel_value. cbn [mbind option_bind]. change (4 <? 1) with false. cbv iota.
    apply (holds_ldn16 _ a _ _ [] port [0; 0] _ (repr_bytes _ _ Hr') Hh); try done. rewrite zlen_nil. lia.
Qed.

(** * Addresses *)

Lemma tid_of_repr b m len :
  repr b m -> stun_tid_from_message_str (sb_mem b) len (Some (replicate 12 0)) = Some (Some (m_tid m)) /\
  bytes (m_tid m) /\ length (m_tid m) = 12%nat.
Proof.
  intros Hr. pose proof (msg_size_bounds m). pose proof (repr_cap _ _ Hr).
  destruct (tid_from_message_ok (sb_mem b) len) as (tid & Htid & Hrd & Hl); [lia|].
  rewrite (repr_tid _ _ Hr) in Hrd. injection Hrd as <-. split; [done|]. split; [|done].
  eapply rd_block_bytes; [apply Hr|apply (repr_tid _ _ Hr)].
Qed.

(** What the address attribute of [ca] says: the public address of [ca], XORed or
    not by the type. *)
Definition addr_attr (m : stun_msg) (t : Z) (pub : ioa_addr) : list Z :=
  addr_value pub (xor_attr t) STUN_MAGIC_COOKIE (m_tid m).

Lemma add_addr_spec maps l b m t ca :
  maps_repr maps l -> repr b m -> 0 <= t < 65536 ->
  let pub := lookup_addr (swap <$> l) ca in
  addr_ok pub -> encodable pub -> room b m (addr_clen pub) ->
  exists b', stun_attr_add_addr_str maps b t ca = Some (0, b') /\
  repr b' (add_attr m t (addr_attr m t pub)) /\ zlen (sb_mem b') = zlen (sb_mem b).
Proof.
  intros Hm Hr Ht pub Hok He Hroom. unfold stun_attr_add_addr_str.
  destruct (tid_of_repr b m (sb_len b) Hr) as (-> & Htb & Htl). cbn [mbind option_bind].
  destruct (map_addr_spec maps l ca Hm) as [_ ->]. fold pub. cbn [mbind option_bind].
  rewrite stun_addr_encode_value by done. fold (addr_attr m t pub).
  assert (zlen (addr_attr m t pub) = addr_clen pub) as Hz by by apply zlen_addr_value.
  assert (8 <= addr_clen pub <= 20) as Hc by (unfold addr_clen; case_if; lia).
  destruct (wr_block_is_Some (replicate 64 0) 0 (addr_attr m t pub)) as [cf Hw]; [lia| |].
  { rewrite Hz. change (zlen (replicate 64 0)) with 64. lia. }
  rewrite Hw. cbn [mbind option_bind fmap option_fmap option_map].
  apply rd_wr_same in Hw. rewrite Hz in Hw.
  destruct (add_in_room b m t (Some cf) (addr_clen pub) (addr_attr m t pub)) as (b' & -> & Hr' & Hzm);
    [done|done| |by apply bytes_addr_value|lia|by rewrite Hz|by exists b'].
  cbn. by destruct (Z.leb_spec (addr_clen pub) 0); [lia|].
Qed.

Lemma get_addr_holds maps l b m a t pub ca0 :
  maps_repr maps l -> repr b m -> 0 <= t -> attr_holds (sb_mem b) a t (addr_attr m t pub) ->
  addr_ok pub -> encodable pub ->
  stun_attr_get_addr_str maps (sb_mem b) (sb_len b) (Some a) ca0 None =
  Some (0, lookup_addr l (decoded pub addr_zero)).
Proof.
  intros Hm Hr Ht Hh Hok He. unfold stun_attr_get_addr_str, get_addr_with.
  destruct (tid_of_repr b m (sb_len b) Hr) as (-> & Htb & Htl). cbn [mbind option_bind].
  assert (zlen (addr_attr m t pub) = addr_clen pub) as Hz by by apply zlen_addr_value.
  assert (8 <= addr_clen pub) as Hc by (unfold addr_clen; case_if; lia).
  rewrite (holds_type _ _ _ _ Hh). cbn [mbind option_bind]. destruct (Z.ltb_spec t 0); [lia|].
  rewrite (holds_value _ _ _ _ Hh), Hz. cbn [mbind option_bind].
  destruct (Z.ltb_spec (addr_clen pub) 1); [lia|].
  rewrite (holds_len _ _ _ _ Hh), Hz. cbn [mbind option_bind].
  pose proof (holds_block _ _ _ _ Hh) as Hb. rewrite Hz in Hb.
  pose proof (rd_block_bounds _ _ _ _ Hb). rewrite ptr_add_ok by lia. cbn [mbind option_bind].
  rewrite (stun_addr_decode_value pub) ; try done.
  - cbn [mbind option_bind Z.ltb Z.compare]. by destruct (map_addr_spec maps l (decoded pub addr_zero) Hm) as [-> _].
  - apply rd_block_Some in Hb as (? & ? & ? & Hb). unfold addr_attr in Hb. rewrite Hb.
    apply rd_block_Some. rewrite zlen_drop by lia. change (Z.to_nat 0) with 0%nat. rewrite drop_0.
    repeat split; lia || done.
Qed.

(** The types [stun_attr_is_addr] accepts. *)
Definition addr_types : list Z :=
  [STUN_ATTRIBUTE_XOR_MAPPED_ADDRESS; STUN_ATTRIBUTE_XOR_PEER_ADDRESS;
   STUN_ATTRIBUTE_XOR_RELAYED_ADDRESS; STUN_ATTRIBUTE_MAPPED_ADDRESS;
   STUN_ATTRIBUTE_ALTERNATE_SERVER; OLD_STUN_ATTRIBUTE_RESPONSE_ADDRESS;
   OLD_STUN_ATTRIBUTE_SOURCE_ADDRESS; OLD_STUN_ATTRIBUTE_CHANGED_ADDRESS;
   OLD_STUN_ATTRIBUTE_REFLECTED_FROM; STUN_ATTRIBUTE_RESPONSE_ORIGIN;
   STUN_ATTRIBUTE_OTHER_ADDRESS].

Lemma is_addr_of_type buf a t :
  stun_attr_get_type buf (Some a) = Some t ->
  stun_attr_is_addr buf (Some a) = Some (existsb (λ k, t =? k) addr_types).
Proof. intros H. unfold stun_attr_is_addr. by rewrite H. Qed.

Lemma addr_types_range t : t ∈ addr_types -> 0 <= t < 65536 /\ existsb (λ k, t =? k) addr_types = true.
Proof.
  intros H. split.
  - revert t H. apply Forall_forall. repeat constructor; done.
  - apply existsb_exists. exists t. split; [by apply list_elem_of_In|apply Z.eqb_refl].
Qed.

Lemma addr_zero_decoded ca :
  is_inet ca -> addr_ok ca -> addr_eq (Some (decoded ca addr_zero)) (Some ca) = true.
Proof.
  intros [E|E] _; unfold decoded, addr_eq; rewrite E; cbn -[to_i32]; rewrite !Z.eqb_refl; [done|].
  by apply bool_decide_eq_true.
Qed.

(** The address search stops at the first attribute of the type. *)
Lemma first_addr_at maps l b m l1 t pub l2 ca0 :
  maps_repr maps l -> repr b m -> t ∈ addr_types ->
  m_attrs m = l1 ++ (t, addr_attr m t pub) :: l2 -> find_attr t l1 = None ->
  addr_ok pub -> encodable pub ->
  stun_attr_get_first_addr_str maps (sb_mem b) (sb_len b) t ca0 None =
    Some (0, lookup_addr l (decoded pub addr_zero)).
Proof.
  intros Hm Hr Ht Hma Hn Hok He. destruct (addr_types_range t Ht) as [Htr Hta].
  unfold stun_attr_get_first_addr_str. rewrite (search_repr_bind _ _ b m ca0 Hr), Hma, (walk_skip _ ca0 l1 []).
  2: { intros l0 t' v' l' E. cbn [app] in E.
       destruct (before_first _ _ _ _ _ _ _ _ _ _ Hr Hma Hn E) as [Hty Hne].
       rewrite (is_addr_of_type _ _ _ Hty), Hty. cbn [mbind option_bind].
       destruct (Z.eqb_spec t t'); [congruence|]. by rewrite andb_false_r. }
  cbn [app walk]. pose proof (attr_holds_at b m l1 _ _ l2 Hr Hma) as Hh.
  rewrite (is_addr_of_type _ _ _ (holds_type _ _ _ _ Hh)), (holds_type _ _ _ _ Hh), Hta.
  cbn [mbind option_bind]. rewrite Z.eqb_refl. cbn [andb].
  rewrite (get_addr_holds maps l b _ _ t pub ca0 Hm Hr) by (done || lia || exact Hh). done.
Qed.

(** Addresses through the codec, the XOR mask and the address map: what
    [stun_attr_add_addr_str] appends for [ca], the receiver's search reads as the
    private image of the public image of [ca]; with no mapping it is [ca] itself
    (equal for [addr_eq]), for every address attribute type. *)
Theorem stun_addr_attr_roundtrip maps l b m t ca ca0 :
  maps_repr maps l -> repr b m -> t ∈ addr_types ->
  let pub := lookup_addr (swap <$> l) ca in
  addr_ok pub -> encodable pub -> room b m (addr_clen pub) -> find_attr t (m_attrs m) = None ->
  exists b', stun_attr_add_addr_str maps b t ca = Some (0, b') /\
  stun_attr_get_first_addr_str maps (sb_mem b') (sb_len b') t ca0 None =
    Some (0, lookup_addr l (decoded pub addr_zero)) /\
  (l = [] -> is_inet ca -> addr_eq (Some (lookup_addr l (decoded pub addr_zero))) (Some ca) = true).
Proof.
  intros Hm Hr Ht pub Hok He Hroom Hn. destruct (addr_types_range t Ht) as [Htr Hta].
  destruct (add_addr_spec maps l b m t ca Hm Hr Htr Hok He Hroom) as (b' & Ha & Hr' & _). fold pub in Hr'.
  exists b'. split; [done|]. split.
  - eapply (first_addr_at maps l b'); [exact Hm|exact Hr'|done|reflexivity|done..].
  - intros -> Hi. by apply addr_zero_decoded.
Qed.

(** * A concrete message *)

Definition sample_tid : list Z := [1; 2; 3; 4; 5; 6; 7; 8; 9; 10; 11; 12].
Definition sample_buf : sbuf := SBuf (header_bytes 1 0 STUN_MAGIC_COOKIE sample_tid ++ replicate 60 0) 20.
Definition sample_msg : stun_msg := StunMsg 1 STUN_MAGIC_COOKIE sample_tid [].

Lemma sample_repr : repr sample_buf sample_msg.
Proof. split; try done. by apply bytes_concrete. Qed.

Lemma sample_room n : n <= 20 -> room sample_buf sample_msg n.
Proof.
  intros H. unfold room. change (msg_size sample_msg) with 20. change (zlen (sb_mem sample_buf)) with 80.
  pose proof (pad4_bounds n). unfold MAX_STUN_MESSAGE_SIZE. lia.
Qed.

Lemma stun_attr_add_str_refines_witness :
  exists b', stun_attr_add_str sample_buf 6 (Some [65; 66; 67]) 3 = Some (0, b') /\
  repr b' (add_attr sample_msg 6 [65; 66; 67]).
Proof.
  destruct (stun_attr_add_str_refines sample_buf sample_msg 6 (Some [65; 66; 67]) 3 [65; 66; 67])
    as (b' & H1 & H2 & _).
  - exact sample_repr.
  - lia.
  - reflexivity.
  - by apply bytes_concrete.
  - lia.
  - vm_compute. discriminate.
  - exists b'. split; [exact H1|exact H2].
Defined.

Lemma stun_attr_get_first_by_type_refines_witness :
  stun_attr_get_first_by_type_str (sb_mem sample_buf) (sb_len sample_buf) 6 = Some None.
Proof. exact (stun_attr_get_first_by_type_refines sample_buf sample_msg 6 sample_repr). Defined.

Lemma stun_channel_number_roundtrip_witness :
  exists b', stun_attr_add_channel_number_str sample_buf 0x4001 = Some (0, b') /\
  stun_attr_get_first_channel_number_str (sb_mem b') (sb_len b') = Some 0x4001.
Proof.
  apply (stun_channel_number_roundtrip sample_buf sample_msg 0x4001);
    [exact sample_repr|lia|by apply sample_room|reflexivity].
Defined.

Lemma stun_bandwidth_roundtrip_witness :
  exists b' a, stun_attr_add_bandwidth_str sample_buf 1000 = Some (0, b') /\
  stun_attr_get_bandwidth (sb_mem b') (Some a) = Some 896.
Proof.
  destruct (stun_bandwidth_roundtrip sample_buf sample_msg 1000) as (b' & a & H1 & _ & H2);
    [exact sample_repr|lia|by apply sample_room|reflexivity|].
  exists b', a. split; [exact H1|exact H2].
Defined.

Lemma stun_discovery_attrs_roundtrip_witness :
  exists b' a, stun_attr_add_response_port_str sample_buf 3478 = Some (0, b') /\
  stun_attr_get_response_port_str (sb_mem b') (Some a) = Some 3478.
Proof.
  destruct (stun_discovery_attrs_roundtrip sample_buf sample_msg 1 0 3478 0 0) as (_ & (b' & a & H1 & _ & H2) & _);
    [exact sample_repr|lia|by apply sample_room|reflexivity|reflexivity|].
  exists b', a. split; [exact H1|exact H2].
Defined.

Lemma stun_addr_attr_roundtrip_witness :
  exists b', stun_attr_add_addr_str addr_maps_init sample_buf STUN_ATTRIBUTE_XOR_PEER_ADDRESS
    (v4_addr 192 0 2 1 3478) = Some (0, b').
Proof.
  destruct (stun_addr_attr_roundtrip addr_maps_init [] sample_buf sample_msg STUN_ATTRIBUTE_XOR_PEER_ADDRESS
    (v4_addr 192 0 2 1 3478) addr_zero) as (b' & H & _).
  - exact maps_repr_init.
  - exact sample_repr.
  - right. left.
  - by apply addr_ok_concrete; vm_compute.
  - left. by left.
  - by apply sample_room.
  - reflexivity.
  - exists b'. exact H.
Defined.
