(* ===== verification/StunMsg.v ===== *)
(** Whole messages: responses, the ALLOCATE, CHANNEL-BIND and BINDING builders,
    the error attributes and the fingerprint ([client/ns_turn_msg.c]).

    Output arrays ([err_msg], [realm], [nonce], [server_name]) are their
    memories; an output pointer that may be NULL is an [option]. *)

From S2P Require Import Prelude Defs CString IoAddr MsgAddr Crc StunHeader StunAttr.

(** [if(stun_attr_add_str(...)<0) return -1;] *)
Definition or_fail (x : option (Z * sbuf)) (k : sbuf -> option (Z * sbuf)) : option (Z * sbuf) :=
  '(r, b) ← x;
  if r <? 0 then Some (-1, b) else k b.

Notation "b '<-?' x ';;' k" := (or_fail x (λ b, k))
  (at level 100, x at level 60, k at level 200, right associativity).

(** * Error responses *)

Definition stun_is_error_response_str (buf : list Z) (len : Z) (err_code : option Z)
    (err_msg : option (list Z)) (err_msg_size : Z) : option (bool * option Z * option (list Z)) :=
  c ← is_channel_msg_str (Some buf) len;
  if (c : bool) then Some (false, err_code, err_msg) else
  t ← stun_get_msg_type_str (Some buf) len;
  if IS_STUN_ERR_RESP t then
    match err_code with
    | None => Some (true, err_code, err_msg)
    | Some _ =>
      sar ← stun_attr_get_first_by_type_str buf len STUN_ATTRIBUTE_ERROR_CODE;
      match sar with
      | None => Some (true, err_code, err_msg)
      | Some _ =>
        alen ← stun_attr_get_len buf sar;
        if 4 <=? alen then
          val ← stun_attr_get_value buf sar;
          match val with
          | None => None
          | Some val =>
            v2 ← rd8 buf (val + 2);
            v3 ← rd8 buf (val + 3);
            let err_code := v2 * 100 + v3 in
            match err_msg with
            | Some em =>
              if 0 <? err_msg_size then
                em ← wr8 em 0 0;
                if 4 <? alen then
                  let msg_len := alen - 4 in
                  let msg_len := if err_msg_size - 1 <? msg_len then err_msg_size - 1 else msg_len in
                  bs ← rd_block buf (val + 4) msg_len;
                  em ← wr_block em 0 bs;
                  em ← wr8 em msg_len 0;
                  Some (true, Some err_code, Some em)
                else Some (true, Some err_code, Some em)
              else Some (true, Some err_code, Some em)
            | None => Some (true, Some err_code, None)
            end
          end
        else Some (true, err_code, err_msg)
      end
    end
  else Some (false, err_code, err_msg).

(** The outputs of [stun_is_challenge_response_str]. *)
Record challenge : Type := Challenge {
  ch_err_code : option Z;
  ch_err_msg : option (list Z);
  ch_realm : list Z;
  ch_nonce : list Z;
  ch_server_name : option (list Z);
  ch_oauth : option Z;
}.

(** [bcopy(value,dst,vlen); dst[vlen]=0;] *)
Definition copy_string (buf : list Z) (value vlen : Z) (dst : list Z) : option (list Z) :=
  bs ← rd_block buf value vlen;
  dst ← wr_block dst 0 bs;
  wr8 dst vlen 0.

Definition stun_is_challenge_response_str (buf : list Z) (len : Z) (err_msg_size : Z) (c : challenge)
    : option (bool * challenge) :=
  '(ret, err_code, err_msg) ← stun_is_error_response_str buf len (ch_err_code c) (ch_err_msg c) err_msg_size;
  let c := Challenge err_code err_msg (ch_realm c) (ch_nonce c) (ch_server_name c) (ch_oauth c) in
  if negb ret then Some (false, c) else
  ec ← err_code;
  if negb ((ec =? 401) || (ec =? 438)) then Some (false, c) else
  sar ← stun_attr_get_first_by_type_str buf len STUN_ATTRIBUTE_REALM;
  match sar with
  | None => Some (false, c)
  | Some _ =>
    value ← stun_attr_get_value buf sar;
    match value with
    | None => Some (false, c)
    | Some value =>
      vlen ← stun_attr_get_len buf sar;
      realm ← copy_string buf value vlen (ch_realm c);
      let c := Challenge err_code err_msg realm (ch_nonce c) (ch_server_name c) (ch_oauth c) in
      sar ← stun_attr_get_first_by_type_str buf len STUN_ATTRIBUTE_THIRD_PARTY_AUTHORIZATION;
      '(found_oauth, server_name) ←
        (value ← stun_attr_get_value buf sar;
         match value with
         | None => Some (0, ch_server_name c)
         | Some value =>
           vlen ← stun_attr_get_len buf sar;
           if 0 <? vlen then
             match ch_server_name c with
             | Some sn => bs ← rd_block buf value vlen; sn ← wr_block sn 0 bs; Some (1, Some sn)
             | None => Some (1, None)
             end
           else Some (0, ch_server_name c)
         end);
      let c := Challenge err_code err_msg realm (ch_nonce c) server_name (ch_oauth c) in
      sar ← stun_attr_get_first_by_type_str buf len STUN_ATTRIBUTE_NONCE;
      value ← stun_attr_get_value buf sar;
      match value with
      | None => Some (false, c)
      | Some value =>
        vlen ← stun_attr_get_len buf sar;
        nonce ← copy_string buf value vlen (ch_nonce c);
        let oauth := match ch_oauth c with Some _ => Some found_oauth | None => None end in
        Some (true, Challenge err_code err_msg realm nonce server_name oauth)
      end
    end
  end.

Definition get_default_reason (error_code : Z) : list Z :=
  if error_code =? 300 then lit "Try Alternate"
  else if error_code =? 400 then lit "Bad Request"
  else if error_code =? 401 then lit "Unauthorized"
  else if error_code =? 403 then lit "Forbidden"
  else if error_code =? 404 then lit "Not Found"
  else if error_code =? 420 then lit "Unknown Attribute"
  else if error_code =? 437 then lit "Allocation Mismatch"
  else if error_code =? 438 then lit "Stale Nonce"
  else if error_code =? 440 then lit "Address Family not Supported"
  else if error_code =? 441 then lit "Wrong Credentials"
  else if error_code =? 442 then lit "Unsupported Transport Protocol"
  else if error_code =? 443 then lit "Peer Address Family Mismatch"
  else if error_code =? 446 then lit "Connection Already Exists"
  else if error_code =? 447 then lit "Connection Timeout or Failure"
  else if error_code =? 486 then lit "Allocation Quota Reached"
  else if error_code =? 487 then lit "Role Conflict"
  else if error_code =? 500 then lit "Server Error"
  else if error_code =? 508 then lit "Insufficient Capacity"
  else lit "Unknown error".

(** The local array [avalue[513]]: the four header bytes, then [strncpy] of the
    reason, with the last byte set to 0.  Result: the array and the length the
    code computes for it. *)
Definition error_avalue (b0 b2 b3 : Z) (reason : list Z) : option (list Z * Z) :=
  avalue ← wr8 ([b0; 0; b2; b3] ++ strncpy_field reason 509) 512 0;
  slen ← strlen (drop 4 avalue);
  let alen := 4 + slen in
  let rem := Z.rem alen 4 in
  Some (avalue, if truth rem then alen + (4 - rem) else alen).

(** [reason]: NULL, or a C string (its memory). *)
Definition stun_init_error_response_common_str (b : sbuf) (error_code : Z) (reason : option (list Z))
    (id : option (list Z)) : option sbuf :=
  reason ← match reason with
           | None => Some (get_default_reason error_code)
           | Some r => s ← c_str r;
                       Some (if streq s (lit "Unknown error") then get_default_reason error_code else s)
           end;
  '(avalue, alen) ← error_avalue 0 (u8 (error_code / 100)) (u8 (error_code mod 100)) reason;
  '(_, b) ← stun_attr_add_str b STUN_ATTRIBUTE_ERROR_CODE (Some avalue) alen;
  match id with
  | Some _ => m ← stun_tid_message_cpy (sb_mem b) id; Some (SBuf m (sb_len b))
  | None => Some b
  end.

Definition old_stun_init_error_response_str (method : Z) (b : sbuf) (error_code : Z)
    (reason id : option (list Z)) (cookie : Z) (e : entropy) : option sbuf :=
  b ← old_stun_init_command_str (stun_make_error_response method) b cookie e;
  stun_init_error_response_common_str b error_code reason id.

Definition stun_init_error_response_str (method : Z) (b : sbuf) (error_code : Z)
    (reason id : option (list Z)) (e : entropy) : option sbuf :=
  b ← stun_init_command_str (stun_make_error_response method) b e;
  stun_init_error_response_common_str b error_code reason id.

(** * ADDRESS-ERROR-CODE *)

Definition stun_attr_add_address_error_code (b : sbuf) (requested_address_family error_code : Z)
    : option (Z * sbuf) :=
  let reason := get_default_reason error_code in
  '(avalue, alen) ← error_avalue (u8 requested_address_family) (u8 (Z.quot error_code 100))
                      (u8 (Z.rem error_code 100)) reason;
  '(_, b) ← stun_attr_add_str b STUN_ATTRIBUTE_ADDRESS_ERROR_CODE (Some avalue) alen;
  Some (0, b).

(** [requested_address_family], [error_code]: output pointers. *)
Definition stun_attr_get_address_error_code (buf : option (list Z)) (len : Z)
    (requested_address_family error_code : option Z) : option (Z * option Z * option Z) :=
  let raf := option_map (λ _, 0) requested_address_family in
  let ec := option_map (λ _, 0) error_code in
  match buf with
  | None => Some (0, raf, ec)
  | Some buf =>
    if len =? 0 then Some (0, raf, ec) else
    sar ← stun_attr_get_first_by_type_str buf len STUN_ATTRIBUTE_ADDRESS_ERROR_CODE;
    match sar with
    | None => Some (0, raf, ec)
    | Some _ =>
      value ← stun_attr_get_value buf sar;
      match value with
      | None => Some (-1, raf, ec)
      | Some value =>
        alen ← stun_attr_get_len buf sar;
        if negb (alen =? 4) then Some (-1, raf, ec) else
        v0 ← rd8 buf value;
        v2 ← rd8 buf (value + 2);
        v3 ← rd8 buf (value + 3);
        Some (0, option_map (λ _, v0) requested_address_family,
              option_map (λ _, v2 * 100 + v3) error_code)
      end
    end
  end.

(** * ALLOCATE *)

(** [rt]: NULL or the reservation token bytes. *)
Definition stun_set_allocate_request_str (b : sbuf) (lifetime : Z) (af4 af6 : bool) (transport : Z)
    (mobile : bool) (rt : option (list Z)) (ep : Z) (e : entropy) : option (Z * sbuf) :=
  b ← stun_init_request_str STUN_METHOD_ALLOCATE b e;
  b <-? stun_attr_add_str b STUN_ATTRIBUTE_REQUESTED_TRANSPORT (Some [transport; 0; 0; 0]) 4;;
  let lifetime := if lifetime <? 1 then STUN_DEFAULT_ALLOCATE_LIFETIME else lifetime in
  b <-? stun_attr_add_str b STUN_ATTRIBUTE_LIFETIME (Some (le_split 4 (nswap32 lifetime))) 4;;
  b <-? (if mobile then stun_attr_add_str b STUN_ATTRIBUTE_MOBILITY_TICKET (Some [0]) 0
         else Some (0, b));;
  b <-? (if -1 <? ep then
           stun_attr_add_str b STUN_ATTRIBUTE_EVEN_PORT (Some [if truth ep then 0x80 else 0x00]) 1
         else Some (0, b));;
  match rt with
  | Some _ =>
    '(_, b) ← stun_attr_add_str b STUN_ATTRIBUTE_RESERVATION_TOKEN rt 8;
    Some (0, b)
  | None =>
    b <-? (if af4 && negb af6 then
             stun_attr_add_str b STUN_ATTRIBUTE_REQUESTED_ADDRESS_FAMILY
               (Some [STUN_ATTRIBUTE_REQUESTED_ADDRESS_FAMILY_VALUE_IPV4; 0; 0; 0]) 4
           else Some (0, b));;
    b <-? (if af6 && negb af4 then
             stun_attr_add_str b STUN_ATTRIBUTE_REQUESTED_ADDRESS_FAMILY
               (Some [STUN_ATTRIBUTE_REQUESTED_ADDRESS_FAMILY_VALUE_IPV6; 0; 0; 0]) 4
           else Some (0, b));;
    b <-? (if af4 && af6 then
             stun_attr_add_str b STUN_ATTRIBUTE_ADDITIONAL_ADDRESS_FAMILY
               (Some [STUN_ATTRIBUTE_REQUESTED_ADDRESS_FAMILY_VALUE_IPV6; 0; 0; 0]) 4
           else Some (0, b));;
    Some (0, b)
  end.

Definition add_opt_addr (maps : addr_maps) (b : sbuf) (attr_type : Z) (a : option ioa_addr)
    : option (Z * sbuf) :=
  match a with Some a => stun_attr_add_addr_str maps b attr_type a | None => Some (0, b) end.

(** [mobile_id]: NULL or a C string. *)
Definition stun_set_allocate_response_str (maps : addr_maps) (b : sbuf) (tid : option (list Z))
    (relayed_addr1 relayed_addr2 reflexive_addr : option ioa_addr) (lifetime max_lifetime : Z)
    (error_code : Z) (reason : option (list Z)) (reservation_token : Z)
    (mobile_id : option (list Z)) (e : entropy) : option (Z * sbuf) :=
  if error_code =? 0 then
    b ← stun_init_success_response_str STUN_METHOD_ALLOCATE b tid e;
    b <-? add_opt_addr maps b STUN_ATTRIBUTE_XOR_RELAYED_ADDRESS relayed_addr1;;
    b <-? add_opt_addr maps b STUN_ATTRIBUTE_XOR_RELAYED_ADDRESS relayed_addr2;;
    b <-? add_opt_addr maps b STUN_ATTRIBUTE_XOR_MAPPED_ADDRESS reflexive_addr;;
    b ← (if truth reservation_token then
           token ← _ioa_ntoh64 reservation_token;
           '(_, b) ← stun_attr_add_str b STUN_ATTRIBUTE_RESERVATION_TOKEN (Some (le_split 8 token)) 8;
           Some b
         else Some b);
    let lifetime := if lifetime <? 1 then STUN_DEFAULT_ALLOCATE_LIFETIME
                    else if max_lifetime <? lifetime then max_lifetime else lifetime in
    b <-? stun_attr_add_str b STUN_ATTRIBUTE_LIFETIME (Some (le_split 4 (nswap32 lifetime))) 4;;
    match mobile_id with
    | Some mid =>
      c ← rd8 mid 0;
      if truth c then
        n ← strlen mid;
        b <-? stun_attr_add_str b STUN_ATTRIBUTE_MOBILITY_TICKET (Some mid) (to_i32 n);;
        Some (0, b)
      else Some (0, b)
    | None => Some (0, b)
    end
  else
    b ← stun_init_error_response_str STUN_METHOD_ALLOCATE b (u16 error_code) reason tid e;
    Some (0, b).

(** * CHANNEL BIND *)

(** [er] is the entropy of [turn_random], [e] that of the transaction id. *)
Definition stun_set_channel_bind_request_str (maps : addr_maps) (b : sbuf) (peer_addr : option ioa_addr)
    (channel_number : Z) (er e : entropy) : option (Z * sbuf) :=
  let channel_number :=
    if negb (STUN_VALID_CHANNEL channel_number)
    then 0x4000 + u16 (u32 (turn_random er) mod (0x7FFF - 0x4000 + 1)) else channel_number in
  b ← stun_init_request_str STUN_METHOD_CHANNEL_BIND b e;
  '(r, b) ← stun_attr_add_channel_number_str b channel_number;
  if r <? 0 then Some (0, b) else
  let peer := match peer_addr with None => addr_zero | Some a => a end in
  '(r, b) ← stun_attr_add_addr_str maps b STUN_ATTRIBUTE_XOR_PEER_ADDRESS peer;
  if r <? 0 then Some (0, b) else Some (channel_number, b).

Definition stun_set_channel_bind_response_str (b : sbuf) (tid : option (list Z)) (error_code : Z)
    (reason : option (list Z)) (e : entropy) : option sbuf :=
  if error_code =? 0 then stun_init_success_response_str STUN_METHOD_CHANNEL_BIND b tid e
  else stun_init_error_response_str STUN_METHOD_CHANNEL_BIND b (u16 error_code) reason tid e.

(** * BINDING *)

Definition stun_set_binding_response_str (maps : addr_maps) (b : sbuf) (tid : option (list Z))
    (reflexive_addr : option ioa_addr) (error_code : Z) (reason : option (list Z)) (cookie : Z)
    (old_stun no_stun_backward_compatibility : bool) (e : entropy) : option (Z * sbuf) :=
  if error_code =? 0 then
    b ← (if negb old_stun then stun_init_success_response_str STUN_METHOD_BINDING b tid e
         else old_stun_init_success_response_str STUN_METHOD_BINDING b tid cookie e);
    b <-? (if negb old_stun then add_opt_addr maps b STUN_ATTRIBUTE_XOR_MAPPED_ADDRESS reflexive_addr
           else Some (0, b));;
    b <-? (if negb no_stun_backward_compatibility
           then add_opt_addr maps b STUN_ATTRIBUTE_MAPPED_ADDRESS reflexive_addr else Some (0, b));;
    Some (0, b)
  else if negb old_stun then
    b ← stun_init_error_response_str STUN_METHOD_BINDING b (u16 error_code) reason tid e;
    Some (0, b)
  else
    b ← old_stun_init_error_response_str STUN_METHOD_BINDING b (u16 error_code) reason tid cookie e;
    Some (0, b).

(** * FINGERPRINT *)

Definition FINGERPRINT_XOR : Z := 0x5354554e.

(** The result of the append is not tested: [*len] is that of the buffer after it. *)
Definition stun_attr_add_fingerprint_str (b : sbuf) : option (Z * sbuf) :=
  '(_, b) ← stun_attr_add_str b STUN_ATTRIBUTE_FINGERPRINT (Some (le_split 4 0)) 4;
  crc32 ← ns_crc32 (sb_mem b) (u32 (to_i32 (sb_len b) - 8));
  m ← store32 (sb_mem b) (sb_len b - 4) (nswap32 (Z.lxor crc32 FINGERPRINT_XOR));
  Some (0, SBuf m (sb_len b)).

(** Result: the verdict and the new [*fingerprint_present]. *)
Definition stun_is_command_message_full_check_str (buf : list Z) (blen : Z) (must_check_fingerprint : bool)
    (fingerprint_present : option Z) : option (bool * option Z) :=
  c ← stun_is_command_message_str (Some buf) blen;
  if negb (c : bool) then Some (false, fingerprint_present) else
  sar ← stun_attr_get_first_by_type_str buf blen STUN_ATTRIBUTE_FINGERPRINT;
  match sar with
  | None =>
    let fingerprint_present := option_map (λ _, 0) fingerprint_present in
    m ← stun_get_method_str (Some buf) blen;
    if m =? STUN_METHOD_BINDING then Some (true, fingerprint_present)
    else Some (negb must_check_fingerprint, fingerprint_present)
  | Some _ =>
    alen ← stun_attr_get_len buf sar;
    if negb (alen =? 4) then Some (false, fingerprint_present) else
    fingerprint ← stun_attr_get_value buf sar;
    match fingerprint with
    | None => Some (negb must_check_fingerprint, fingerprint_present)
    | Some fp =>
      let crc32len := u32 (fp - 4) in
      word ← load32 buf fp;
      crc ← ns_crc32 buf crc32len;
      let ret := word =? nswap32 (Z.lxor crc FINGERPRINT_XOR) in
      if ret then Some (ret, option_map (λ _, 1) fingerprint_present)
      else Some (ret, fingerprint_present)
    end
  end.
