(* ===== verification/StunBuild.v ===== *)
(** What the builders of [StunMsg] produce, as abstract messages, and what the
    receiving functions read from it. *)

From S2P Require Import Prelude Defs CString IoAddr MsgAddr Crc StunHeader StunAttr StunSpec StunSearch StunMsg.

(** The buffer [b], of [cap] bytes, holds [m], whose size is at most [k]. *)
Record built (cap : Z) (b : sbuf) (m : stun_msg) (k : Z) : Prop := Built {
  built_repr : repr b m;
  built_cap : zlen (sb_mem b) = cap;
  built_size : msg_size m <= k;
}.

(** A builder returns 0 and its buffer holds [M]. *)
Definition builds (M : stun_msg) (r : option (Z * sbuf)) : Prop :=
  exists b, r = Some (0, b) /\ repr b M.

Lemma or_fail_ok M x k b : x = Some (0, b) -> builds M (k b) -> builds M (or_fail x k).
Proof. by intros ->. Qed.

Lemma built_add cap b m k t f n v s :
  built cap b m k -> 0 <= t < 65536 -> c_attr_value f n = Some v -> bytes v -> n < 2147000000 ->
  attr_size v = s -> k + s <= cap -> k + s < MAX_STUN_MESSAGE_SIZE ->
  exists b', stun_attr_add_str b t f n = Some (0, b') /\ built cap b' (add_attr m t v) (k + s).
Proof.
  intros [Hr Hc Hk] Ht Hv Hb Hn Hs H1 H2.
  destruct (add_in_room b m t f n v Hr Ht Hv Hb Hn) as (b' & Ha & Hr' & Hz).
  { unfold room. fold (pad4 (zlen v)). unfold attr_size in Hs. lia. }
  exists b'. split; [done|]. split; [done|lia|]. rewrite msg_size_add. lia.
Qed.

(** One step of a builder: the append succeeds and the rest is run on its result. *)
Lemma built_step M cap b m k t f n v s cont :
  built cap b m k -> 0 <= t < 65536 -> c_attr_value f n = Some v -> bytes v -> n < 2147000000 ->
  attr_size v = s -> k + s <= cap -> k + s < MAX_STUN_MESSAGE_SIZE ->
  (forall b', built cap b' (add_attr m t v) (k + s) -> builds M (cont b')) ->
  builds M (or_fail (stun_attr_add_str b t f n) cont).
Proof.
  intros Hb Ht Hv Hvb Hn Hs H1 H2 Hk.
  destruct (built_add cap b m k t f n v s) as (b' & Ha & Hb'); [done..|].
  eapply or_fail_ok; [exact Ha|by apply Hk].
Qed.

Lemma built_init cookie t b e :
  bytes (sb_mem b) -> 20 <= zlen (sb_mem b) -> entropy_ok e -> 0 <= cookie < 4294967296 ->
  exists b', init_command_with cookie t b e = Some b' /\
  built (zlen (sb_mem b)) b' (StunMsg (Z.land t 0x3FFF) cookie (tid_of e) []) 20.
Proof.
  intros Hb Hl He Hc. destruct (repr_init cookie t b e Hb Hl He Hc) as (b' & Hi & Hr & Hz).
  exists b'. split; [done|]. by split.
Qed.

(** A transaction id passed by the caller replaces the generated one. *)
Definition the_tid (id : option (list Z)) (e : entropy) : list Z :=
  match id with Some t => t | None => tid_of e end.

Definition tid_ok (id : option (list Z)) : Prop :=
  forall t, id = Some t -> bytes t /\ length t = 12%nat.

Lemma built_set_tid cap b m k (id : option (list Z)) :
  built cap b m k -> tid_ok id ->
  exists b', match id with
             | Some _ => m' ← stun_tid_message_cpy (sb_mem b) id; Some (SBuf m' (sb_len b))
             | None => Some b
             end = Some b' /\
  built cap b' (StunMsg (m_type m) (m_cookie m) (match id with Some t => t | None => m_tid m end) (m_attrs m)) k.
Proof.
  intros [Hr Hc Hk] Hid. destruct id as [tid|].
  - destruct (Hid tid eq_refl) as [Hb Hl].
    destruct (repr_set_tid b m tid Hr Hb Hl) as (m' & -> & Hr' & Hz). eexists. split; [done|].
    split; [done|cbn [sb_mem]; lia|done].
  - exists b. split; [done|]. split; [by destruct m|done..].
Qed.

Lemma built_success_response cookie meth b id e :
  bytes (sb_mem b) -> 20 <= zlen (sb_mem b) -> entropy_ok e -> 0 <= cookie < 4294967296 ->
  0 <= meth < 4096 -> tid_ok id ->
  exists b', old_stun_init_success_response_str meth b id cookie e = Some b' /\
  built (zlen (sb_mem b)) b' (StunMsg (stun_make_success_response meth) cookie (the_tid id e) []) 20.
Proof.
  intros Hb Hl He Hc Hm Hid. unfold old_stun_init_success_response_str, old_stun_init_command_str.
  destruct (built_init cookie (stun_make_success_response meth) b e Hb Hl He Hc) as (b1 & -> & Hb1).
  cbn [mbind option_bind]. destruct (built_set_tid _ _ _ _ id Hb1 Hid) as (b2 & H2 & Hb2).
  cbn [m_type m_cookie m_tid m_attrs] in Hb2.
  destruct (make_of_spec SuccessResp meth Hm) as (_ & _ & E & _). cbn [make_of] in E. rewrite E in Hb2.
  exists b2. by destruct id.
Qed.

Lemma new_success_response meth b id e :
  stun_init_success_response_str meth b id e =
  old_stun_init_success_response_str meth b id STUN_MAGIC_COOKIE e.
Proof. done. Qed.

Lemma built_request meth b e :
  bytes (sb_mem b) -> 20 <= zlen (sb_mem b) -> entropy_ok e -> 0 <= meth < 4096 ->
  exists b', stun_init_request_str meth b e = Some b' /\
  built (zlen (sb_mem b)) b' (StunMsg (stun_make_request meth) STUN_MAGIC_COOKIE (tid_of e) []) 20.
Proof.
  intros Hb Hl He Hm. unfold stun_init_request_str, stun_init_command_str.
  destruct (built_init STUN_MAGIC_COOKIE (stun_make_request meth) b e Hb Hl He) as (b1 & -> & Hb1); [done|].
  destruct (make_of_spec Request meth Hm) as (_ & _ & E & _). cbn [make_of] in E. rewrite E in Hb1.
  by exists b1.
Qed.

(** * ALLOCATE requests *)

(** The attributes of a request, in order.  The reservation token excludes the
    address family. *)
Definition allocate_request_attrs (lifetime : Z) (af4 af6 : bool) (transport : Z) (mobile : bool)
    (rt : option (list Z)) (ep : Z) : list (Z * list Z) :=
  [(STUN_ATTRIBUTE_REQUESTED_TRANSPORT, [transport; 0; 0; 0]);
   (STUN_ATTRIBUTE_LIFETIME,
    be_split 4 (if lifetime <? 1 then STUN_DEFAULT_ALLOCATE_LIFETIME else lifetime))] ++
  (if mobile then [(STUN_ATTRIBUTE_MOBILITY_TICKET, [])] else []) ++
  (if -1 <? ep then [(STUN_ATTRIBUTE_EVEN_PORT, [if truth ep then 0x80 else 0x00])] else []) ++
  match rt with
  | Some token => [(STUN_ATTRIBUTE_RESERVATION_TOKEN, take 8 token)]
  | None =>
    (if af4 && negb af6 then [(STUN_ATTRIBUTE_REQUESTED_ADDRESS_FAMILY, [1; 0; 0; 0])] else []) ++
    (if af6 && negb af4 then [(STUN_ATTRIBUTE_REQUESTED_ADDRESS_FAMILY, [2; 0; 0; 0])] else []) ++
    (if af4 && af6 then [(STUN_ATTRIBUTE_ADDITIONAL_ADDRESS_FAMILY, [2; 0; 0; 0])] else [])
  end.

Definition add_attrs (m : stun_msg) (l : list (Z * list Z)) : stun_msg :=
  StunMsg (m_type m) (m_cookie m) (m_tid m) (m_attrs m ++ l).

Lemma add_attrs_nil m : add_attrs m [] = m.
Proof. destruct m. unfold add_attrs. cbn. by rewrite app_nil_r. Qed.

Lemma add_attrs_app m l k : add_attrs (add_attrs m l) k = add_attrs m (l ++ k).
Proof. unfold add_attrs. cbn. by rewrite app_assoc. Qed.

Lemma add_attr_attrs m t v : add_attr m t v = add_attrs m [(t, v)].
Proof. done. Qed.

(** A literal array of bytes. *)
Ltac small_bytes := first [by apply bytes_concrete | repeat constructor; lia].

(** A step that is taken only if [c] holds. *)
Lemma built_step_if M (c : bool) cap b m k t f n v s cont :
  built cap b m k -> 0 <= t < 65536 -> c_attr_value f n = Some v -> bytes v -> n < 2147000000 ->
  attr_size v = s -> k + s <= cap -> k + s < MAX_STUN_MESSAGE_SIZE ->
  (forall b', built cap b' (add_attrs m (if c then [(t, v)] else [])) (k + s) -> builds M (cont b')) ->
  builds M (or_fail (if c then stun_attr_add_str b t f n else Some (0, b)) cont).
Proof.
  intros Hb Ht Hv Hvb Hn Hs H1 H2 Hk. destruct c.
  - by eapply built_step.
  - eapply or_fail_ok; [done|]. rewrite add_attrs_nil in Hk. apply Hk.
    destruct Hb as [Hr Hc Hm]. split; [done|done|]. pose proof (attr_size_bounds v). lia.
Qed.

Lemma c_attr_array v n : n = zlen v -> 0 < n -> c_attr_value (Some v) n = Some v.
Proof. intros -> H. cbn. destruct (Z.leb_spec (zlen v) 0); [lia|]. apply rd_block_full. Qed.

(** An ALLOCATE request: on any buffer of at least 100 bytes the builder
    succeeds and the buffer holds the request with exactly the attributes the
    arguments ask for, in order: the default lifetime for 0, and the reservation
    token or else one address family attribute, never both. *)
Theorem stun_set_allocate_request_refines b lifetime af4 af6 transport mobile rt ep e :
  bytes (sb_mem b) -> 100 <= zlen (sb_mem b) -> entropy_ok e ->
  0 <= lifetime < 4294967296 -> 0 <= transport < 256 ->
  (forall token, rt = Some token -> bytes token /\ 8 <= zlen token) ->
  builds (StunMsg (stun_make_request STUN_METHOD_ALLOCATE) STUN_MAGIC_COOKIE (tid_of e)
            (allocate_request_attrs lifetime af4 af6 transport mobile rt ep))
    (stun_set_allocate_request_str b lifetime af4 af6 transport mobile rt ep e).
Proof.
  intros Hb Hl He Hlt Htr Hrt. unfold stun_set_allocate_request_str.
  destruct (built_request STUN_METHOD_ALLOCATE b e) as (b0 & -> & H0); [done|lia|done|done|].
  cbn [mbind option_bind]. set (cap := zlen (sb_mem b)) in *. clearbody cap.
  eapply built_step with (s := 8); [exact H0|done|by apply c_attr_array|small_bytes|lia|done|lia|done|].
  clear b0 H0. intros b0 H0. cbv zeta. unfold nswap32. rewrite le_split_nswap.
  eapply built_step with (s := 8); [exact H0|done|by apply c_attr_array|apply bytes_be_split|lia|done|lia|done|].
  clear b0 H0. intros b0 H0. rewrite !add_attr_attrs in H0.
  eapply (built_step_if _ mobile) with (s := 4); [exact H0|done|done|apply Forall_nil; done|lia|done|lia|done|].
  clear b0 H0. intros b0 H0.
  eapply (built_step_if _ (-1 <? ep)) with (s := 8); [exact H0|done|by apply c_attr_array|by destruct (truth ep); small_bytes
    |lia|done|lia|done|].
  clear b0 H0. intros b0 H0. rewrite !add_attrs_app in H0.
  destruct rt as [token|].
  - destruct (Hrt token eq_refl) as [Htb Htl].
    assert (zlen (take 8 token) = 8) as Hz by (unfold zlen in *; rewrite length_take; lia).
    destruct (built_add cap b0 _ _ STUN_ATTRIBUTE_RESERVATION_TOKEN (Some token) 8 (take 8 token) 12 H0)
      as (b' & -> & H'); [done| |by apply bytes_take|lia| |lia|done|].
    + cbn. rewrite rd_block_ok by lia. done.
    + unfold attr_size. by rewrite Hz.
    + exists b'. split; [done|]. destruct H' as [Hr _ _].
      by rewrite add_attr_attrs, add_attrs_app, <- !app_assoc in Hr.
  - eapply (built_step_if _ (af4 && negb af6)) with (s := 8); [exact H0|done|by apply c_attr_array|small_bytes|lia|done|lia|done|].
    clear b0 H0. intros b0 H0.
    eapply (built_step_if _ (af6 && negb af4)) with (s := 8); [exact H0|done|by apply c_attr_array|small_bytes|lia|done|lia|done|].
    clear b0 H0. intros b0 H0.
    eapply (built_step_if _ (af4 && af6)) with (s := 8); [exact H0|done|by apply c_attr_array|small_bytes|lia|done|lia|done|].
    clear b0 H0. intros b0 [H0 _ _].
    rewrite !add_attrs_app, <- !app_assoc in H0. by exists b0.
Qed.

(** * Error responses *)

Lemma nonzero_take n s : nonzero s -> nonzero (take n s).
Proof. apply Forall_take. Qed.

(** A string and a run of zeros, cut anywhere and terminated. *)
Lemma c_str_cut k s n rest :
  nonzero s -> c_str (take k (s ++ replicate n 0) ++ 0 :: rest) = Some (take k s).
Proof.
  intros H. rewrite take_app, <- app_assoc.
  destruct (take (k - length s) (replicate n 0)) as [|z l] eqn:E.
  { by apply c_str_terminated, nonzero_take. }
  assert (z = 0) as ->.
  { assert (z ∈ replicate n 0) as Hz.
    { rewrite <- (take_drop (k - length s) (replicate n 0)), E. left. }
    by apply elem_of_replicate in Hz as [-> _]. }
  by apply c_str_terminated, nonzero_take.
Qed.

(** The reason the array has room for, and the attribute value with its manual
    padding. *)
Definition error_value (b0 b2 b3 : Z) (reason : list Z) : list Z :=
  [b0; 0; b2; b3] ++ reason ++ replicate (Z.to_nat (pad4 (zlen reason) - zlen reason)) 0.

Definition cut_reason (reason : list Z) : list Z := take 508 reason.

Lemma strncpy_cut reason :
  exists n, (length (cut_reason reason) + n = 509)%nat /\
  take 508 (strncpy_field reason 509) ++ [0] = cut_reason reason ++ replicate n 0.
Proof.
  unfold strncpy_field, cut_reason. change (Z.to_nat 509) with 509%nat.
  destruct (decide (length reason <= 508)%nat) as [H|H].
  - exists (509 - length reason)%nat. rewrite !(take_ge reason) by lia. split; [lia|].
    rewrite take_app, (take_ge reason) by lia. rewrite <- app_assoc. f_equal.
    rewrite take_replicate, (Nat.min_l (508 - length reason)) by lia.
    replace (509 - length reason)%nat with (508 - length reason + 1)%nat by lia.
    by rewrite replicate_add.
  - exists 1%nat. rewrite length_take. split; [lia|].
    rewrite take_app_le by (rewrite length_take; lia). by rewrite take_take.
Qed.

Lemma error_avalue_spec b0 b2 b3 reason :
  0 <= b0 < 256 -> nonzero reason ->
  exists avalue, error_avalue b0 b2 b3 reason = Some (avalue, 4 + pad4 (zlen (cut_reason reason))) /\
  rd_block avalue 0 (4 + pad4 (zlen (cut_reason reason))) = Some (error_value b0 b2 b3 (cut_reason reason)).
Proof.
  intros Hb0 Hn. unfold error_avalue. destruct (strncpy_cut reason) as (n & Hn4 & Hcut).
  set (r := cut_reason reason) in *.
  assert (length (strncpy_field reason 509) = 509%nat) as Hl.
  { unfold strncpy_field. rewrite length_app, length_take, length_replicate. lia. }
  assert (length r <= 508)%nat as Hr by (unfold r, cut_reason; rewrite length_take; lia).
  assert (wr8 ([b0; 0; b2; b3] ++ strncpy_field reason 509) 512 0 =
          Some ([b0; 0; b2; b3] ++ r ++ replicate n 0)) as ->.
  { unfold wr8. rewrite wr_block_ok; [|lia|unfold zlen; rewrite length_app, Hl; cbn; lia]. f_equal.
    change (Z.to_nat 512) with 512%nat.
    change (Z.to_nat (512 + zlen [u8 0])) with 513%nat.
    rewrite (drop_ge _ 513) by (rewrite length_app, Hl; cbn [length]; lia). rewrite app_nil_r.
    change (u8 0) with 0. rewrite <- Hcut. change 512%nat with (4 + 508)%nat.
    by rewrite take_app_add', <- app_assoc. }
  cbn [mbind option_bind]. change (drop 4 ([b0; 0; b2; b3] ++ r ++ replicate n 0)) with (r ++ replicate n 0).
  assert (strlen (r ++ replicate n 0) = Some (zlen r)) as ->.
  { unfold strlen. destruct n as [|n]; [lia|]. cbn [replicate].
    by rewrite c_str_terminated by by apply nonzero_take. }
  cbn [mbind option_bind]. pose proof (zlen_nonneg r) as Hz.
  assert ((if truth (Z.rem (4 + zlen r) 4) then 4 + zlen r + (4 - Z.rem (4 + zlen r) 4) else 4 + zlen r)
          = 4 + pad4 (zlen r)) as ->.
  { rewrite Z.rem_mod_nonneg by lia. unfold truth, pad4.
    destruct (Z.eqb_spec ((4 + zlen r) mod 4) 0); cbn [negb]; Z.div_mod_to_equations; lia. }
  eexists. split; [done|]. unfold error_value. pose proof (pad4_bounds (zlen r)).
  assert (pad4 (zlen r) <= 508) as Hp.
  { pose proof (pad4_mod (zlen r)). unfold zlen in *. Z.div_mod_to_equations. lia. }
  rewrite rd_block_ok; [|lia..|].
  2: { unfold zlen in *. rewrite !length_app, length_replicate. cbn [length]. lia. }
  f_equal. change (Z.to_nat 0) with 0%nat. rewrite drop_0.
  replace (Z.to_nat (4 + pad4 (zlen r))) with (4 + (length r + Z.to_nat (pad4 (zlen r) - zlen r)))%nat
    by (unfold zlen in *; lia).
  rewrite !take_app_add' by done. rewrite take_replicate. repeat f_equal. unfold zlen in *. lia.
Qed.

Lemma default_reason_ok code : nonzero (get_default_reason code) /\ bytes (get_default_reason code).
Proof.
  assert (forall l, forallb (λ b, (0 <? b) && (b <? 256)) l = true -> nonzero l /\ bytes l) as H.
  { intros l Hl. unfold nonzero, bytes. rewrite !Forall_forall. rewrite forallb_forall in Hl.
    split; intros c Hc; apply list_elem_of_In, Hl in Hc; zbool; lia. }
  unfold get_default_reason. repeat case_if; by apply H.
Qed.

(** The reason a builder uses: the argument, or the default for NULL and for
    "Unknown error". *)
Definition reason_used (code : Z) (reason : option (list Z)) : list Z :=
  match reason with
  | None => get_default_reason code
  | Some s => if streq s (lit "Unknown error") then get_default_reason code else s
  end.

(** The C string argument for the characters [s]. *)
Definition c_arg (s : option (list Z)) : option (list Z) := cstring <$> s.

Definition reason_ok (reason : option (list Z)) : Prop :=
  forall s, reason = Some s -> nonzero s /\ bytes s.

Lemma reason_used_ok code reason :
  reason_ok reason -> nonzero (reason_used code reason) /\ bytes (reason_used code reason).
Proof.
  intros H. unfold reason_used. destruct reason as [s|]; [|apply default_reason_ok].
  case_if; [apply default_reason_ok|by apply H].
Qed.

Lemma bytes_error_value b0 b2 b3 r :
  0 <= b0 < 256 -> 0 <= b2 < 256 -> 0 <= b3 < 256 -> bytes r -> bytes (error_value b0 b2 b3 r).
Proof.
  intros. unfold error_value. rewrite !bytes_app. repeat split; [repeat constructor; lia|done|].
  apply bytes_replicate0.
Qed.

Lemma zlen_error_value b0 b2 b3 r : zlen (error_value b0 b2 b3 r) = 4 + pad4 (zlen r).
Proof.
  unfold error_value. pose proof (pad4_bounds (zlen r)). rewrite !zlen_app, zlen_replicate by lia.
  change (zlen [b0; 0; b2; b3]) with 4. lia.
Qed.

Lemma zlen_cut_reason r : pad4 (zlen (cut_reason r)) <= 508.
Proof.
  pose proof (pad4_mod (zlen (cut_reason r))). pose proof (pad4_bounds (zlen (cut_reason r))).
  assert (zlen (cut_reason r) <= 508) by (unfold zlen, cut_reason; rewrite length_take; lia).
  Z.div_mod_to_equations. lia.
Qed.

Definition error_attr (code : Z) (reason : list Z) : list Z :=
  error_value 0 (u8 (code / 100)) (u8 (code mod 100)) (cut_reason reason).

Lemma attr_size_error code r : attr_size (error_attr code r) <= 516.
Proof.
  unfold attr_size, error_attr. rewrite zlen_error_value, pad4_id.
  - pose proof (zlen_cut_reason r). lia.
  - pose proof (pad4_mod (zlen (cut_reason r))). Z.div_mod_to_equations. lia.
Qed.

Lemma built_error_response cookie meth b code reason id e :
  bytes (sb_mem b) -> 540 <= zlen (sb_mem b) -> entropy_ok e -> 0 <= cookie < 4294967296 ->
  0 <= meth < 4096 -> tid_ok id -> reason_ok reason ->
  exists b', old_stun_init_error_response_str meth b code (c_arg reason) id cookie e = Some b' /\
  built (zlen (sb_mem b)) b' (StunMsg (stun_make_error_response meth) cookie (the_tid id e)
    [(STUN_ATTRIBUTE_ERROR_CODE, error_attr code (reason_used code reason))]) 536.
Proof.
  intros Hb Hl He Hc Hm Hid Hrs. unfold old_stun_init_error_response_str, old_stun_init_command_str.
  destruct (built_init cookie (stun_make_error_response meth) b e) as (b1 & -> & H1); [done|lia|done..|].
  cbn [mbind option_bind]. destruct (make_of_spec ErrResp meth Hm) as (_ & _ & E & _). cbn [make_of] in E.
  rewrite E in H1. unfold stun_init_error_response_common_str. destruct (reason_used_ok code reason Hrs) as [Hn Hnb].
  assert (match c_arg reason with
          | Some r => s ← c_str r; Some (if streq s (lit "Unknown error") then get_default_reason code else s)
          | None => Some (get_default_reason code) end = Some (reason_used code reason)) as ->.
  { destruct reason as [s|]; [|done]. cbn. by rewrite c_str_cstring by (by apply Hrs). }
  cbn [mbind option_bind]. destruct (error_avalue_spec 0 (u8 (code / 100)) (u8 (code mod 100))
    (reason_used code reason)) as (av & -> & Hav); [lia|done|]. cbn [mbind option_bind].
  set (r := reason_used code reason) in *. pose proof (attr_size_error code r).
  pose proof (zlen_cut_reason r).
  pose proof (pad4_bounds (zlen (cut_reason r))). pose proof (zlen_nonneg (cut_reason r)).
  destruct (built_add _ _ _ _ STUN_ATTRIBUTE_ERROR_CODE (Some av) (4 + pad4 (zlen (cut_reason r)))
    (error_attr code r) (attr_size (error_attr code r)) H1) as (b2 & -> & Hb2);
    [done| | |lia|done|lia|unfold MAX_STUN_MESSAGE_SIZE; lia|].
  - cbn. by destruct (Z.leb_spec (4 + pad4 (zlen (cut_reason r))) 0); [lia|].
  - apply bytes_error_value; [lia|apply u8_range|apply u8_range|by apply bytes_take].
  - cbn [mbind option_bind]. destruct (built_set_tid _ _ _ _ id Hb2 Hid) as (b3 & Hs3 & Hb3).
    exists b3. split; [by destruct id|]. destruct Hb3 as [Hr' Hc' Hs']. split; [done|done|etransitivity; [exact Hs'|lia]].
Qed.

(** * Reading messages back *)

Section reads.
Context (b : sbuf) (m : stun_msg) (Hr : repr b m).

Lemma repr_type_range : 0 <= m_type m < 65536.
Proof using Hr. pose proof (repr_type _ _ Hr) as H. by apply be_at_range in H; [|apply Hr]. Qed.

Lemma repr_ldn_type : ldn16 (sb_mem b) 0 = Some (m_type m).
Proof using Hr. rewrite ldn16_be by apply Hr. apply Hr. Qed.

Lemma repr_len20 : 20 <= sb_len b <= zlen (sb_mem b).
Proof using Hr.
  rewrite (repr_len _ _ Hr). pose proof (msg_size_bounds m). pose proof (repr_cap _ _ Hr). lia.
Qed.

Lemma repr_is_channel :
  is_channel_msg_str (Some (sb_mem b)) (sb_len b) = Some (STUN_VALID_CHANNEL (m_type m)).
Proof using Hr.
  unfold is_channel_msg_str. pose proof repr_len20. destruct (Z.leb_spec 4 (sb_len b)); [|lia].
  by rewrite repr_ldn_type.
Qed.

Lemma repr_msg_type :
  stun_get_msg_type_str (Some (sb_mem b)) (sb_len b) = Some (Z.land (m_type m) 0x3FFF).
Proof using Hr.
  unfold stun_get_msg_type_str. pose proof repr_len20. destruct (Z.ltb_spec (sb_len b) 2); [lia|].
  by rewrite repr_ldn_type.
Qed.

Lemma repr_method :
  stun_get_method_str (Some (sb_mem b)) (sb_len b) = Some (method_bits (m_type m)).
Proof using Hr.
  unfold stun_get_method_str. pose proof repr_len20. destruct (Z.ltb_spec (sb_len b) 2); [lia|].
  by rewrite repr_ldn_type.
Qed.

(** A message with the magic cookie and a 14-bit type is recognised. *)
Lemma repr_is_command :
  m_type m < 0x4000 -> m_cookie m = STUN_MAGIC_COOKIE ->
  stun_is_command_message_str (Some (sb_mem b)) (sb_len b) = Some true.
Proof using Hr.
  intros Ht Hc. pose proof repr_len20.
  destruct (stun_is_command_message_spec (sb_mem b) (sb_len b)) as (v & -> & Hv);
    [apply Hr|lia|]. f_equal. apply Hv. split; [lia|].
  exists (m_type m), (msg_size m - 20). pose proof (msg_size_bounds m) as [_ Hm].
  split; [apply Hr|]. split; [done|]. split; [rewrite (repr_cookie _ _ Hr); by rewrite Hc|].
  split; [apply (repr_size _ _ Hr)|]. split; [Z.div_mod_to_equations; lia|].
  rewrite (repr_len _ _ Hr). lia.
Qed.
End reads.

(** The two bytes of the error code and the reason of an ERROR-CODE value. *)
Lemma error_bytes buf a t b2 b3 r :
  attr_holds buf a t (error_value 0 b2 b3 r) ->
  rd8 buf (a + 4 + 2) = Some b2 /\ rd8 buf (a + 4 + 3) = Some b3 /\
  rd_block buf (a + 4 + 4) (pad4 (zlen r)) =
    Some (r ++ replicate (Z.to_nat (pad4 (zlen r) - zlen r)) 0).
Proof.
  intros Hh. pose proof (holds_block _ _ _ _ Hh) as Hb. unfold error_value in *.
  split; [|split].
  - by apply (rd8_part _ _ _ [0; 0] b2 _ _ Hb).
  - by apply (rd8_part _ _ _ [0; 0; b2] b3 _ _ Hb).
  - eapply (rd_block_part _ _ _ [0; 0; b2; b3] _ []).
    + rewrite app_nil_r. exact Hb.
    + done.
    + pose proof (pad4_bounds (zlen r)). rewrite zlen_app, zlen_replicate by lia. lia.
Qed.

(** The copy of the message text into a caller's array. *)
Lemma copy_message buf p n s em size :
  rd_block buf p (pad4 (zlen s)) = Some (s ++ replicate n 0) -> nonzero s -> 1 <= size <= zlen em ->
  0 < pad4 (zlen s) ->
  let k := if size - 1 <? pad4 (zlen s) then size - 1 else pad4 (zlen s) in
  exists em', (em ← wr8 em 0 0; bs ← rd_block buf p k; em ← wr_block em 0 bs; wr8 em k 0) = Some em' /\
  c_str em' = Some (take (Z.to_nat (size - 1)) s) /\ zlen em' = zlen em.
Proof.
  intros Hb Hs Hsz Hp k. assert (0 <= k <= pad4 (zlen s) /\ k <= size - 1) as Hk.
  { unfold k. destruct (Z.ltb_spec (size - 1) (pad4 (zlen s))); lia. }
  destruct (wr_block_is_Some em 0 [u8 0]) as [e1 H1]; [lia|change (zlen [u8 0]) with 1; lia|].
  assert (wr8 em 0 0 = Some e1) as -> by exact H1. cbn [mbind option_bind].
  pose proof (rd_block_zlen _ _ _ _ Hb) as Hz.
  assert (rd_block buf p k = Some (take (Z.to_nat k) (s ++ replicate n 0))) as ->.
  { replace p with (p + 0) by lia. rewrite (rd_block_sub _ _ _ _ 0 k Hb) by lia.
    by rewrite rd_block_ok by lia. }
  cbn [mbind option_bind]. set (bs := take _ _). assert (zlen bs = k) as Hbs.
  { unfold bs, zlen in *. rewrite length_take. lia. }
  pose proof (wr_block_zlen _ _ _ _ H1) as Hz1.
  destruct (wr_block_is_Some e1 0 (bs ++ [0])) as [e2 H2]; [lia|rewrite zlen_app, Hbs; change (zlen [0]) with 1; lia|].
  pose proof (wr_block_zlen _ _ _ _ H2) as Hz2. pose proof H2 as H2'.
  rewrite wr_block_app in H2. destruct (wr_block e1 0 bs) as [e3|]; [|done].
  cbn [mbind option_bind] in *. rewrite Hbs in H2. exists e2. split; [exact H2|]. split; [|lia].
  apply wr_block_Some in H2' as (_ & _ & ->). change (Z.to_nat 0) with 0%nat. rewrite take_0.
  cbn [app]. rewrite <- app_assoc. unfold bs. cbn [app]. rewrite c_str_cut by done. f_equal.
  unfold k. destruct (Z.ltb_spec (size - 1) (pad4 (zlen s))); [done|].
  pose proof (pad4_bounds (zlen s)). rewrite !take_ge by (unfold zlen in *; lia). done.
Qed.

Lemma read_error_attr b m ec0 em size code r :
  repr b m -> m_type m < 0x4000 -> IS_STUN_ERR_RESP (m_type m) = true ->
  find_attr STUN_ATTRIBUTE_ERROR_CODE (m_attrs m) = Some (error_attr code r) ->
  nonzero r -> 0 <= code < 25600 -> 1 <= size <= zlen em ->
  exists em', stun_is_error_response_str (sb_mem b) (sb_len b) (Some ec0) (Some em) size =
    Some (true, Some code, Some em') /\
  c_str em' = Some (take (Z.to_nat (size - 1)) (cut_reason r)) /\ zlen em' = zlen em.
Proof.
  intros Hr Ht Herr Hf Hn Hc Hs. unfold stun_is_error_response_str.
  rewrite (repr_is_channel _ _ Hr). pose proof (repr_type_range _ _ Hr). unfold STUN_VALID_CHANNEL.
  destruct (Z.leb_spec 0x4000 (m_type m)); [lia|]. cbn [andb mbind option_bind].
  rewrite (repr_msg_type _ _ Hr). cbn [mbind option_bind]. change 0x3FFF with (Z.ones 14).
  rewrite Z.land_ones, Z.mod_small by (change (2 ^ 14) with 0x4000; lia). rewrite Herr.
  pose proof (get_first_by_type_find _ _ STUN_ATTRIBUTE_ERROR_CODE Hr) as Hg. rewrite Hf in Hg.
  destruct Hg as (a & -> & Hh). cbn [mbind option_bind].
  rewrite (holds_len _ _ _ _ Hh), (holds_value _ _ _ _ Hh). unfold error_attr in Hh |- *.
  rewrite zlen_error_value. cbn [mbind option_bind]. set (s := cut_reason r) in *.
  pose proof (zlen_nonneg s). pose proof (pad4_bounds (zlen s)).
  destruct (Z.leb_spec 4 (4 + pad4 (zlen s))); [|lia].
  destruct (Z.ltb_spec (4 + pad4 (zlen s)) 1); [lia|].
  destruct (error_bytes _ _ _ _ _ _ Hh) as (-> & -> & Hb). cbn [mbind option_bind].
  assert (u8 (code / 100) * 100 + u8 (code mod 100) = code) as ->.
  { rewrite !u8_small; Z.div_mod_to_equations; lia. }
  destruct (Z.ltb_spec 0 size); [|lia].
  destruct (Z.ltb_spec 4 (4 + pad4 (zlen s))) as [Hgt|Hle].
  - destruct (copy_message _ _ _ s em size Hb) as (em' & Hem & Hcs & Hz); [by apply nonzero_take|done|lia|].
    replace (4 + pad4 (zlen s) - 4) with (pad4 (zlen s)) by lia. exists em'. clear Hb.
    destruct (wr8 em 0 0) as [e1|]; cbn [mbind option_bind] in *; [|done].
    destruct (rd_block _ _ _) as [bs|]; cbn [mbind option_bind] in *; [|done].
    destruct (wr_block e1 0 bs) as [e2|]; cbn [mbind option_bind] in *; [|done].
    by rewrite Hem.
  - destruct s as [|c s']; [|rewrite zlen_cons in *; pose proof (zlen_nonneg s'); lia].
    destruct (wr_block_is_Some em 0 [u8 0]) as [e1 H1']; [lia|change (zlen [u8 0]) with 1; lia|].
    unfold wr8. rewrite H1'. cbn [mbind option_bind]. exists e1. split; [done|].
    pose proof (wr_block_zlen _ _ _ _ H1'). split; [|done].
    apply wr_block_Some in H1' as (_ & _ & ->). rewrite take_nil. done.
Qed.

Lemma new_error_response meth b code reason id e :
  stun_init_error_response_str meth b code reason id e =
  old_stun_init_error_response_str meth b code reason id STUN_MAGIC_COOKIE e.
Proof. done. Qed.

(** Error responses: for every method and every error code below 25600, the
    builder (classic with any cookie, or modern, its instance with the magic
    cookie) succeeds and the receiver reads back the code and the reason: the
    default text for NULL or "Unknown error", cut to 508 characters and to the
    caller's array, always terminated. *)
Theorem stun_error_response_roundtrip cookie meth b code reason id e ec0 em size :
  bytes (sb_mem b) -> 540 <= zlen (sb_mem b) -> entropy_ok e -> 0 <= cookie < 4294967296 ->
  0 <= meth < 4096 -> tid_ok id -> reason_ok reason -> 0 <= code < 25600 -> 1 <= size <= zlen em ->
  stun_init_error_response_str meth b code (c_arg reason) id e =
    old_stun_init_error_response_str meth b code (c_arg reason) id STUN_MAGIC_COOKIE e /\
  exists b' em',
    old_stun_init_error_response_str meth b code (c_arg reason) id cookie e = Some b' /\
    stun_is_error_response_str (sb_mem b') (sb_len b') (Some ec0) (Some em) size =
      Some (true, Some code, Some em') /\
    c_str em' = Some (take (Z.to_nat (size - 1)) (cut_reason (reason_used code reason))).
Proof.
  intros Hb Hl He Hc Hm Hid Hrs Hcode Hs. split; [apply new_error_response|].
  destruct (built_error_response cookie meth b code reason id e) as (b' & Hb' & [Hr _ _]); [done..|].
  destruct (make_of_spec ErrResp meth Hm) as (_ & Ht & _ & Hcl). cbn [make_of] in *.
  destruct (read_error_attr b' _ ec0 em size code (reason_used code reason) Hr) as (em' & Hre & Hcs & _).
  - cbn [m_type]. lia.
  - by apply (Hcl ErrResp).
  - done.
  - by apply reason_used_ok.
  - done.
  - done.
  - by exists b', em'.
Qed.
