(* ===== verification/StunReply.v ===== *)
(** Properties of the message functions that a client or a server runs on what
    it received or is about to send: challenges, fingerprints, channel binding,
    the answers to ALLOCATE and BINDING, and ADDRESS-ERROR-CODE. *)

From S2P Require Import Prelude Defs CString IoAddr MsgAddr Crc StunHeader StunAttr StunSpec StunSearch StunMsg StunBuild.

(** * Challenges *)

(** The unbounded copy of a string into an array: it fits when the array has a
    byte for the terminator, and otherwise writes outside the array. *)
Lemma copy_string_spec buf a t v dst :
  attr_holds buf a t v ->
  (zlen v < zlen dst ->
   exists d, copy_string buf (a + 4) (zlen v) dst = Some d /\
   rd_block d 0 (zlen v + 1) = Some (v ++ [0]) /\ zlen d = zlen dst) /\
  (zlen dst <= zlen v -> copy_string buf (a + 4) (zlen v) dst = None).
Proof.
  intros Hh. unfold copy_string. rewrite (holds_block _ _ _ _ Hh). cbn [mbind option_bind].
  pose proof (zlen_nonneg v). split; intros Hl.
  - destruct (wr_block_is_Some dst 0 (v ++ [0])) as [d Hd]; [lia|rewrite zlen_app; change (zlen [0]) with 1; lia|].
    exists d. pose proof (wr_block_zlen _ _ _ _ Hd) as Hz. pose proof (rd_wr_same _ _ _ _ Hd) as Hrd.
    rewrite zlen_app in Hrd. change (zlen [0]) with 1 in Hrd. split; [|done].
    rewrite wr_block_app in Hd. destruct (wr_block dst 0 v); [|done]. exact Hd.
  - destruct (wr_block dst 0 v) as [d|] eqn:Hd; cbn [mbind option_bind]; [|done].
    pose proof (wr_block_zlen _ _ _ _ Hd). unfold wr8, wr_block. case_if; [|done].
    zbool. change (zlen [u8 0]) with 1 in *. lia.
Qed.

Section challenge.
Context (b : sbuf) (m : stun_msg) (Hr : repr b m) (Ht : m_type m < 0x4000)
  (Herr : IS_STUN_ERR_RESP (m_type m) = true)
  (code : Z) (r : list Z) (Hcode : find_attr STUN_ATTRIBUTE_ERROR_CODE (m_attrs m) = Some (error_attr code r))
  (Hn : nonzero r) (Hc : code = 401 \/ code = 438)
  (v w : list Z) (Hv : find_attr STUN_ATTRIBUTE_REALM (m_attrs m) = Some v)
  (Hw : find_attr STUN_ATTRIBUTE_NONCE (m_attrs m) = Some w)
  (Hv1 : 1 <= zlen v) (Hw1 : 1 <= zlen w)
  (Hno : find_attr STUN_ATTRIBUTE_THIRD_PARTY_AUTHORIZATION (m_attrs m) = None).

Lemma challenge_spec ec0 em size realm nonce sn oauth :
  1 <= size <= zlen em ->
  let run := stun_is_challenge_response_str (sb_mem b) (sb_len b) size
               (Challenge (Some ec0) (Some em) realm nonce sn oauth) in
  (zlen v < zlen realm -> zlen w < zlen nonce ->
   exists em' realm' nonce',
     run = Some (true, Challenge (Some code) (Some em') realm' nonce' sn (option_map (λ _, 0) oauth)) /\
     rd_block realm' 0 (zlen v + 1) = Some (v ++ [0]) /\
     rd_block nonce' 0 (zlen w + 1) = Some (w ++ [0])) /\
  (zlen realm <= zlen v \/ (zlen v < zlen realm /\ zlen nonce <= zlen w) -> run = None).
Proof using All.
  intros Hs run. destruct (read_error_attr b m ec0 em size code r Hr Ht Herr Hcode Hn) as (em' & Hre & _);
    [lia|done|].
  pose proof (get_first_by_type_find _ _ STUN_ATTRIBUTE_REALM Hr) as Hgv. rewrite Hv in Hgv.
  pose proof (get_first_by_type_find _ _ STUN_ATTRIBUTE_NONCE Hr) as Hgw. rewrite Hw in Hgw.
  pose proof (get_first_by_type_find _ _ STUN_ATTRIBUTE_THIRD_PARTY_AUTHORIZATION Hr) as Hgn.
  rewrite Hno in Hgn. destruct Hgv as (av & Hav & Hhv). destruct Hgw as (aw & Haw & Hhw).
  assert ((code =? 401) || (code =? 438) = true) as Hcc by (by destruct Hc as [->| ->]).
  destruct (copy_string_spec _ _ _ _ realm Hhv) as [Hrok Hrbad].
  destruct (copy_string_spec _ _ _ _ nonce Hhw) as [Hnok Hnbad].
  assert ((zlen v <? 1) = false) as Ev by (apply Z.ltb_ge; lia).
  assert ((zlen w <? 1) = false) as Ew by (apply Z.ltb_ge; lia).
  subst run. unfold stun_is_challenge_response_str.
  cbn [ch_err_code ch_err_msg ch_realm ch_nonce ch_server_name ch_oauth].
  rewrite Hre. cbn [mbind option_bind negb]. rewrite Hcc. cbn [negb]. rewrite Hav. cbn [mbind option_bind].
  rewrite (holds_value _ _ _ _ Hhv), Ev, (holds_len _ _ _ _ Hhv). cbn [mbind option_bind].
  rewrite Hgn, Haw. cbn [stun_attr_get_value mbind option_bind].
  split.
  - intros H1 H2. destruct (Hrok H1) as (realm' & -> & Hr1 & _). cbn [mbind option_bind].
    destruct (Hnok H2) as (nonce' & Hn' & Hn1 & _).
    pose proof (holds_value _ _ _ _ Hhw) as Hvw. cbn [stun_attr_get_value] in Hvw. rewrite Hvw, Ew.
    cbn [mbind option_bind]. rewrite (holds_len _ _ _ _ Hhw). cbn [mbind option_bind]. rewrite Hn'.
    exists em', realm', nonce'. split; [by destruct oauth|done].
  - intros [H1|[H1 H2]]; [by rewrite Hrbad|]. destruct (Hrok H1) as (realm' & -> & _).
    cbn [mbind option_bind]. pose proof (holds_value _ _ _ _ Hhw) as Hvw. cbn [stun_attr_get_value] in Hvw.
    rewrite Hvw, Ew. cbn [mbind option_bind]. rewrite (holds_len _ _ _ _ Hhw). cbn [mbind option_bind].
    by rewrite Hnbad.
Qed.
End challenge.

(** Long-term credential challenges (401 or 438): when REALM and NONCE fit
    the caller's arrays with their terminator, the response is recognised and
    both strings are copied and terminated.  The copies are not bounded: a longer
    REALM or NONCE makes the function write outside the caller's array. *)
Theorem stun_challenge_response_copies b m code r v w ec0 em size realm nonce sn oauth :
  repr b m -> m_type m < 0x4000 -> IS_STUN_ERR_RESP (m_type m) = true ->
  find_attr STUN_ATTRIBUTE_ERROR_CODE (m_attrs m) = Some (error_attr code r) -> nonzero r ->
  code = 401 \/ code = 438 ->
  find_attr STUN_ATTRIBUTE_REALM (m_attrs m) = Some v -> find_attr STUN_ATTRIBUTE_NONCE (m_attrs m) = Some w ->
  1 <= zlen v -> 1 <= zlen w ->
  find_attr STUN_ATTRIBUTE_THIRD_PARTY_AUTHORIZATION (m_attrs m) = None -> 1 <= size <= zlen em ->
  let run := stun_is_challenge_response_str (sb_mem b) (sb_len b) size
               (Challenge (Some ec0) (Some em) realm nonce sn oauth) in
  (zlen v < zlen realm -> zlen w < zlen nonce ->
   exists em' realm' nonce',
     run = Some (true, Challenge (Some code) (Some em') realm' nonce' sn (option_map (λ _, 0) oauth)) /\
     rd_block realm' 0 (zlen v + 1) = Some (v ++ [0]) /\
     rd_block nonce' 0 (zlen w + 1) = Some (w ++ [0])) /\
  (zlen realm <= zlen v \/ (zlen v < zlen realm /\ zlen nonce <= zlen w) -> run = None).
Proof. intros. by eapply challenge_spec. Qed.

(** * ADDRESS-ERROR-CODE *)

Lemma default_reason_nonempty code : 1 <= zlen (cut_reason (get_default_reason code)).
Proof. unfold get_default_reason. repeat case_if; vm_compute; done. Qed.

(** The ADDRESS-ERROR-CODE attribute the code writes is one its own reader
    rejects: the writer appends the reason phrase after the four bytes, the
    reader requires a length of exactly 4, so it returns -1 and zeros for every
    family and error code. *)
Theorem stun_address_error_code_unreadable b m family code f0 c0 :
  repr b m -> room b m 600 -> find_attr STUN_ATTRIBUTE_ADDRESS_ERROR_CODE (m_attrs m) = None ->
  exists b', stun_attr_add_address_error_code b family code = Some (0, b') /\
  stun_attr_get_address_error_code (Some (sb_mem b')) (sb_len b') (Some f0) (Some c0) =
    Some (-1, Some 0, Some 0).
Proof.
  intros Hr [Hroom1 Hroom2] Hn. unfold stun_attr_add_address_error_code.
  set (reason := get_default_reason code). destruct (default_reason_ok code) as [Hnz Hb].
  pose proof (default_reason_nonempty code) as H1. fold reason in Hnz, Hb, H1.
  set (b0 := u8 family). set (b2 := u8 (Z.quot code 100)). set (b3 := u8 (Z.rem code 100)).
  destruct (error_avalue_spec b0 b2 b3 reason) as (av & -> & Hav); [apply u8_range|done|].
  cbn [mbind option_bind]. set (v := error_value b0 b2 b3 (cut_reason reason)) in *.
  assert (zlen v = 4 + pad4 (zlen (cut_reason reason))) as Hz by apply zlen_error_value.
  pose proof (zlen_cut_reason reason). pose proof (pad4_bounds (zlen (cut_reason reason))).
  change (pad4 600) with 600 in *. rewrite <- Hz. pose proof (pad4_bounds (zlen v)).
  destruct (add_in_room b m STUN_ATTRIBUTE_ADDRESS_ERROR_CODE (Some av) (zlen v) v) as (b' & Ha & Hr' & _);
    try done; try lia.
  - cbn [c_attr_value]. rewrite Hz. destruct (Z.leb_spec (4 + pad4 (zlen (cut_reason reason))) 0); [lia|done].
  - apply bytes_error_value; try apply u8_range. by apply bytes_take.
  - unfold room. lia.
  - exists b'. rewrite Ha. split; [done|]. unfold stun_attr_get_address_error_code. cbn [option_map].
    pose proof (repr_len20 _ _ Hr'). destruct (Z.eqb_spec (sb_len b') 0); [lia|].
    destruct (holds_after_add b' m _ v Hr' Hn) as (a & -> & Hh). cbn [mbind option_bind].
    rewrite (holds_value _ _ _ _ Hh). destruct (Z.ltb_spec (zlen v) 1); [lia|]. cbn [mbind option_bind].
    rewrite (holds_len _ _ _ _ Hh). cbn [mbind option_bind]. by destruct (Z.eqb_spec (zlen v) 4); [lia|].
Qed.

(** * The fingerprint *)

(** Overwriting the value of the last attribute. *)
Lemma repr_set_last b m t v v' mem' :
  repr b (add_attr m t v) -> zlen v' = zlen v -> bytes v' ->
  wr_block (sb_mem b) (attr_off (m_attrs m) + 4) v' = Some mem' ->
  repr (SBuf mem' (sb_len b)) (add_attr m t v').
Proof.
  intros Hr Hz Hb Hw. pose proof (wr_block_zlen _ _ _ _ Hw) as Hzm.
  assert (attr_size v' = attr_size v) as Hs by (unfold attr_size; by rewrite Hz).
  assert (msg_size (add_attr m t v') = msg_size (add_attr m t v)) as Hms by (rewrite !msg_size_add; lia).
  pose proof (attrs_size_nonneg (m_attrs m)).
  assert (forall n p, p + n <= 20 -> be_at n mem' p = be_at n (sb_mem b) p) as Hbe.
  { intros. eapply be_at_wr_disjoint; [exact Hw|]. left. unfold attr_off, STUN_HEADER_LENGTH. lia. }
  destruct Hr as [R1 R2 R3 R4 R5 R6 R7 R8]. split; cbn [sb_mem sb_len].
  - eapply wr_block_bytes; [exact R1|exact Hb|exact Hw].
  - by rewrite Hms.
  - rewrite Hms. lia.
  - rewrite Hbe by lia. exact R4.
  - rewrite Hms. by rewrite Hbe by lia.
  - rewrite Hbe by lia. exact R6.
  - rewrite (rd_wr_disjoint _ _ _ _ 8 12 Hw) by (unfold attr_off, STUN_HEADER_LENGTH; lia). exact R7.
  - cbn [add_attr m_attrs] in *. apply attrs_at_app in R8 as [Ra Rb]. apply attrs_at_app.
    fold (attr_off (m_attrs m)) in *.
    split.
    + eapply attrs_at_wr; [exact Hw| |exact Ra]. right. unfold attr_off. lia.
    + cbn [attrs_at] in *. destruct Rb as (Rt & Rl & _ & _).
      rewrite (be_at_wr_disjoint 2 _ _ _ _ _ Hw) by lia.
      rewrite (be_at_wr_disjoint 2 _ _ _ _ (attr_off (m_attrs m) + 2) Hw) by lia.
      split; [done|]. split; [by rewrite Hz|]. split; [by eapply rd_wr_same|done].
Qed.

Lemma ns_crc32_wr mem p bs mem' n :
  bytes mem -> bytes bs -> wr_block mem p bs = Some mem' -> 0 <= n <= p ->
  exists crc, ns_crc32 mem n = Some crc /\ ns_crc32 mem' n = Some crc /\ 0 <= crc < 4294967296.
Proof.
  intros Hm Hb Hw Hn. pose proof (wr_block_bounds _ _ _ _ Hw). pose proof (zlen_nonneg bs).
  pose proof (wr_block_bytes _ _ _ _ Hm Hb Hw) as Hm'. pose proof (wr_block_zlen _ _ _ _ Hw).
  eexists. split; [by apply ns_crc32_ref; [done|lia]|]. split.
  - rewrite ns_crc32_ref by (done || lia). f_equal. f_equal.
    pose proof (rd_wr_before _ _ _ _ 0 n Hw ltac:(lia)) as E. rewrite !rd_block_ok in E by lia.
    change (Z.to_nat 0) with 0%nat in E. rewrite !drop_0 in E. by injection E.
  - apply (lxor_u32 _ CRC_MASK); [|unfold is_u32, CRC_MASK; lia].
    apply crc_fold_u32; [unfold is_u32, CRC_MASK; lia|by apply bytes_take].
Qed.

Lemma fingerprint_added b m :
  repr b m -> m_type m < 0x4000 -> m_cookie m = STUN_MAGIC_COOKIE -> room b m 4 ->
  find_attr STUN_ATTRIBUTE_FINGERPRINT (m_attrs m) = None ->
  exists b' crc, stun_attr_add_fingerprint_str b = Some (0, b') /\
  repr b' (add_attr m STUN_ATTRIBUTE_FINGERPRINT (be_split 4 (Z.lxor crc FINGERPRINT_XOR))) /\
  ns_crc32 (sb_mem b') (msg_size m) = Some crc /\ zlen (sb_mem b') = zlen (sb_mem b) /\
  forall must fp0, stun_is_command_message_full_check_str (sb_mem b') (sb_len b') must (Some fp0) = Some (true, Some 1).
Proof.
  intros Hr Ht Hc Hroom Hn. unfold stun_attr_add_fingerprint_str.
  destruct (add_in_room b m STUN_ATTRIBUTE_FINGERPRINT (Some (le_split 4 0)) 4 (le_split 4 0)) as (b1 & -> & Hr1 & Hz1);
    [done|done|reflexivity|apply bytes_le_split|done|exact Hroom|]. cbn [mbind option_bind].
  pose proof (repr_len _ _ Hr1) as Hl. rewrite msg_size_add in Hl. change (attr_size (le_split 4 0)) with 8 in Hl.
  pose proof (msg_size_bounds m). pose proof (repr_size_bound _ _ Hr).
  assert (u32 (to_i32 (sb_len b1) - 8) = msg_size m) as ->.
  { unfold u32, to_i32. rewrite !Z.mod_small by (rewrite ?Z.mod_small; lia). lia. }
  assert (attr_off (m_attrs m) = msg_size m) as Hoff by done.
  replace (sb_len b1 - 4) with (attr_off (m_attrs m) + 4) by lia.
  pose proof (repr_cap _ _ Hr1) as Hcap. rewrite msg_size_add in Hcap.
  change (attr_size (le_split 4 0)) with 8 in Hcap.
  assert (exists crc, ns_crc32 (sb_mem b1) (msg_size m) = Some crc) as [crc Hcrc].
  { rewrite ns_crc32_ref; [by eexists|apply Hr1|lia]. }
  rewrite Hcrc. cbn [mbind option_bind]. rewrite store32_nswap.
  set (x := Z.lxor crc FINGERPRINT_XOR).
  destruct (wr_block_is_Some (sb_mem b1) (attr_off (m_attrs m) + 4) (be_split 4 x)) as [mem' Hw];
    [lia|rewrite zlen_be_split; lia|]. rewrite Hw. cbn [mbind option_bind].
  pose proof (repr_set_last b1 m _ _ (be_split 4 x) mem' Hr1) as Hr2.
  specialize (Hr2 eq_refl (bytes_be_split 4 x) Hw). exists (SBuf mem' (sb_len b1)), crc.
  split; [done|]. split; [done|].
  destruct (ns_crc32_wr _ _ _ _ (msg_size m) (repr_bytes _ _ Hr1) (bytes_be_split 4 x) Hw)
    as (crc' & Hc1 & Hc2 & Hcr); [lia|]. rewrite Hcrc in Hc1. injection Hc1 as <-. split; [done|].
  split; [cbn [sb_mem]; rewrite (wr_block_zlen _ _ _ _ Hw); done|]. intros must fp0.
  unfold stun_is_command_message_full_check_str.
  rewrite (repr_is_command _ _ Hr2) by done. cbn [mbind option_bind negb].
  rewrite (first_by_type_at _ _ (m_attrs m) _ _ [] Hr2 eq_refl Hn). cbn [mbind option_bind].
  pose proof (attr_holds_at _ _ (m_attrs m) _ _ [] Hr2 eq_refl) as Hh.
  rewrite (holds_len _ _ _ _ Hh), (holds_value _ _ _ _ Hh). rewrite zlen_be_split. cbn [mbind option_bind].
  change (Z.of_nat 4 =? 4) with true. change (Z.of_nat 4 <? 1) with false. cbn [negb mbind option_bind].
  replace (attr_off (m_attrs m) + 4 - 4) with (msg_size m) by lia.
  assert (u32 (msg_size m) = msg_size m) as -> by (apply Z.mod_small; lia).
  cbn [sb_mem]. rewrite Hc2.
  assert (load32 mem' (attr_off (m_attrs m) + 4) = Some (nswap32 x)) as ->.
  { unfold load32. apply rd_wr_same in Hw. rewrite zlen_be_split in Hw. change (Z.of_nat 4) with 4 in Hw.
    by rewrite Hw. }
  cbn [mbind option_bind]. fold x. by rewrite Z.eqb_refl.
Qed.

(** C33. Fingerprints: after [stun_attr_add_fingerprint_str] on a message that
    has room for the attribute, the full check accepts the message, reports the
    fingerprint as present, and the message is otherwise unchanged. *)
Theorem stun_fingerprint_roundtrip b m must fp0 :
  repr b m -> m_type m < 0x4000 -> m_cookie m = STUN_MAGIC_COOKIE -> room b m 4 ->
  find_attr STUN_ATTRIBUTE_FINGERPRINT (m_attrs m) = None ->
  exists b' crc, stun_attr_add_fingerprint_str b = Some (0, b') /\
  repr b' (add_attr m STUN_ATTRIBUTE_FINGERPRINT (be_split 4 (Z.lxor crc FINGERPRINT_XOR))) /\
  ns_crc32 (sb_mem b') (msg_size m) = Some crc /\
  stun_is_command_message_full_check_str (sb_mem b') (sb_len b') must (Some fp0) = Some (true, Some 1).
Proof.
  intros Hr Ht Hc Hroom Hn. destruct (fingerprint_added b m Hr Ht Hc Hroom Hn) as (b' & crc & Ha & Hr' & Hcrc & _ & Hk).
  exists b', crc. done.
Qed.

(** Reads beyond a changed byte. *)
Lemma rd_block_change pre post (c d : Z) p n :
  zlen pre < p -> rd_block (pre ++ d :: post) p n = rd_block (pre ++ c :: post) p n.
Proof.
  intros Hp. unfold rd_block. rewrite !zlen_app, !zlen_cons. case_if; [|done]. f_equal. f_equal.
  unfold zlen in Hp. rewrite !drop_app_ge by lia.
  destruct (Z.to_nat p - length pre)%nat eqn:En; [lia|done].
Qed.

Lemma take_change (pre post : list Z) c n :
  zlen pre < n -> take (Z.to_nat n) (pre ++ c :: post) = pre ++ c :: take (Z.to_nat n - length pre - 1) post.
Proof.
  unfold zlen. intros H. rewrite take_app_ge by lia. f_equal.
  destruct (Z.to_nat n - length pre)%nat eqn:E; [lia|]. cbn [take]. f_equal. f_equal. lia.
Qed.

Lemma nswap32_inj x y :
  0 <= x < 4294967296 -> 0 <= y < 4294967296 -> nswap32 x = nswap32 y -> x = y.
Proof. intros Hx Hy E. rewrite <- (nswap32_nswap32 x), <- (nswap32_nswap32 y) by done. by rewrite E. Qed.

Lemma fingerprint_word_range l : bytes l -> 0 <= Z.lxor (crc_ref l) FINGERPRINT_XOR < 4294967296.
Proof.
  intros Hl. apply (lxor_u32 _ FINGERPRINT_XOR); [|unfold is_u32, FINGERPRINT_XOR; lia].
  apply (lxor_u32 _ CRC_MASK); [|unfold is_u32, CRC_MASK; lia].
  apply crc_fold_u32; [unfold is_u32, CRC_MASK; lia|done].
Qed.

(** The full check of a message whose fingerprint search gives [a]. *)
Lemma full_check_at buf blen must fp0 a :
  bytes buf -> blen <= zlen buf -> zlen buf < 2147483648 ->
  stun_attr_get_first_by_type_str buf blen STUN_ATTRIBUTE_FINGERPRINT = Some (Some a) ->
  exists v l w, stun_is_command_message_str (Some buf) blen = Some v /\
  ldn16 buf (a + 2) = Some l /\
  (l = 4 -> load32 buf (a + 4) = Some w) /\ 20 <= a < zlen buf /\
  stun_is_command_message_full_check_str buf blen must fp0 =
    Some (if v && (l =? 4) && (w =? nswap32 (Z.lxor (crc_ref (take (Z.to_nat a) buf)) FINGERPRINT_XOR))
          then (true, option_map (λ _, 1) fp0) else (false, fp0)).
Proof.
  intros Hb Hl Hmax Hs. unfold stun_is_command_message_full_check_str.
  destruct (stun_is_command_message_spec buf blen Hb Hl) as (v & Hv & _).
  destruct (get_first_by_type_safe buf blen STUN_ATTRIBUTE_FINGERPRINT Hb Hl) as (r & Hr & Hva).
  rewrite Hs in Hr. injection Hr as <-. destruct (Hva a eq_refl) as [Hval _].
  pose proof (valid_attr_bounds _ _ _ Hb Hval) as Hab.
  destruct (get_len_valid buf blen a Hb Hl Hval) as (l & Hlen & Hlr & Hend & Hvalue).
  rewrite Hs, Hv. cbn [mbind option_bind]. cbn [stun_attr_get_len] in Hlen.
  destruct (Z.eqb_spec l 4) as [->|Hne].
  - destruct (load32_ok buf (a + 4)) as [w Hw]; [lia..|]. exists v, 4, w.
    split; [done|]. split; [done|]. split; [done|]. split; [lia|]. destruct v; cbn [negb andb]; [|done].
    cbn [stun_attr_get_len]. rewrite Hlen, Hvalue. cbn [mbind option_bind].
    change (4 =? 4) with true. change (4 <? 1) with false. cbn [negb]. rewrite Hw. cbn [mbind option_bind].
    replace (a + 4 - 4) with a by lia. assert (u32 a = a) as -> by (apply Z.mod_small; lia).
    rewrite ns_crc32_ref by (done || lia). cbn [mbind option_bind]. by case_if.
  - exists v, l, 0. split; [done|]. split; [done|]. split; [done|]. split; [lia|].
    destruct v; cbn [negb andb]; [|done]. cbn [stun_attr_get_len]. rewrite Hlen. cbn [mbind option_bind].
    by destruct (Z.eqb_spec l 4).
Qed.

(** The full check of a message without a fingerprint. *)
Lemma full_check_unfound buf blen must fp0 :
  bytes buf -> blen <= zlen buf ->
  stun_attr_get_first_by_type_str buf blen STUN_ATTRIBUTE_FINGERPRINT = Some None ->
  exists (v : bool) k, stun_get_method_str (Some buf) blen = Some k /\
  stun_is_command_message_full_check_str buf blen must fp0 =
    Some (if v then ((k =? STUN_METHOD_BINDING) || negb must, option_map (λ _, 0) fp0) else (false, fp0)).
Proof.
  intros Hb Hl Hs. unfold stun_is_command_message_full_check_str.
  destruct (stun_is_command_message_spec buf blen Hb Hl) as (v & -> & _).
  assert (exists k, stun_get_method_str (Some buf) blen = Some k) as [k Hk].
  { unfold stun_get_method_str. destruct (Z.ltb_spec blen 2); [by eexists|].
    destruct (ldn16_ok buf 0) as (t & -> & _); [done|lia|lia|]. by eexists. }
  exists v, k. split; [done|]. destruct v; [|done]. cbn [mbind option_bind negb]. rewrite Hs. cbn [mbind option_bind]. rewrite Hk.
  cbn [mbind option_bind]. by destruct (k =? STUN_METHOD_BINDING).
Qed.

(** A message with a fingerprint at [a], of which one byte before [a] was changed, where
    the search still finds [a]. *)
Lemma fingerprint_changed pre post c d blen must fp0 a fp1 :
  let buf x := pre ++ x :: post in
  bytes pre -> bytes post -> 0 <= c < 256 -> 0 <= d < 256 -> c ≠ d ->
  blen <= zlen (buf c) < 2147483648 -> zlen pre < a ->
  stun_attr_get_first_by_type_str (buf c) blen STUN_ATTRIBUTE_FINGERPRINT = Some (Some a) ->
  stun_attr_get_first_by_type_str (buf d) blen STUN_ATTRIBUTE_FINGERPRINT = Some (Some a) ->
  stun_is_command_message_full_check_str (buf c) blen must fp0 = Some (true, fp1) ->
  stun_is_command_message_full_check_str (buf d) blen must fp0 = Some (false, fp0).
Proof.
  intros buf Hpre Hpost Hc Hd Hne Hl Ha Hsc Hsd Hchk.
  assert (forall x, 0 <= x < 256 -> bytes (buf x)) as Hb.
  { intros x Hx. apply bytes_app. split; [done|]. by constructor. }
  assert (zlen (buf d) = zlen (buf c)) as Hz by (unfold buf; by rewrite !zlen_app, !zlen_cons).
  destruct (full_check_at (buf c) blen must fp0 a) as (v & l & w & _ & Hlc & Hwc & Hac & Hfc);
    [by apply Hb|lia|lia|done|].
  destruct (full_check_at (buf d) blen must fp0 a) as (v' & l' & w' & _ & Hld & Hwd & _ & Hfd);
    [by apply Hb|lia|lia|done|].
  rewrite Hfc in Hchk. revert Hchk. case_if; [|done]. intros _.
  apply andb_true_iff in E as [[_ Hl4%Z.eqb_eq]%andb_true_iff Hw%Z.eqb_eq].
  rewrite Hfd. f_equal. case_if; [|done]. exfalso.
  apply andb_true_iff in E as [[_ Hl4'%Z.eqb_eq]%andb_true_iff Hw'%Z.eqb_eq].
  assert (forall p n, zlen pre < p -> rd_block (buf d) p n = rd_block (buf c) p n) as Hrd.
  { intros. by apply rd_block_change. }
  subst l l'. specialize (Hwc eq_refl). specialize (Hwd eq_refl). unfold load32 in *.
  rewrite Hrd, Hwc in Hwd by lia. injection Hwd as <-. rewrite Hw in Hw'.
  unfold buf in Hw'. rewrite !take_change in Hw' by done.
  apply nswap32_inj in Hw'.
  - apply lxor_inj_l in Hw'. revert Hw'. apply crc_ref_detects; try done. by apply bytes_take.
  - apply fingerprint_word_range, bytes_app. split; [done|]. constructor; [done|by apply bytes_take].
  - apply fingerprint_word_range, bytes_app. split; [done|]. constructor; [done|by apply bytes_take].
Qed.

(** C35. Corruption is detected, or shows.  When a message with a fingerprint passes the full
    check, let any one byte before the fingerprint attribute be changed.  If the search still
    finds the fingerprint at its place, the check fails.  If it finds none (the changed byte
    was the length of an attribute, say), the check passes only when the fingerprint is not
    required or the message is a binding message, and then the caller is told that there is
    no fingerprint.  (The third case is a fingerprint elsewhere, among the bytes of another
    attribute.) *)
Theorem stun_fingerprint_detects pre post c d blen must fp0 a fp1 :
  let buf x := pre ++ x :: post in
  bytes pre -> bytes post -> 0 <= c < 256 -> 0 <= d < 256 -> c ≠ d ->
  blen <= zlen (buf c) < 2147483648 -> zlen pre < a ->
  stun_attr_get_first_by_type_str (buf c) blen STUN_ATTRIBUTE_FINGERPRINT = Some (Some a) ->
  stun_is_command_message_full_check_str (buf c) blen must fp0 = Some (true, fp1) ->
  exists found passed fp', stun_attr_get_first_by_type_str (buf d) blen STUN_ATTRIBUTE_FINGERPRINT = Some found /\
    stun_is_command_message_full_check_str (buf d) blen must fp0 = Some (passed, fp') /\
    match found with
    | Some a' => a' = a -> passed = false /\ fp' = fp0
    | None => passed = true -> fp' = option_map (λ _, 0) fp0 /\
        (must = false \/ stun_get_method_str (Some (buf d)) blen = Some STUN_METHOD_BINDING)
    end.
Proof.
  intros buf Hpre Hpost Hc Hd Hne Hl Ha Hsc Hchk.
  assert (bytes (buf d)) as Hb by (apply bytes_app; split; [done|by constructor]).
  assert (zlen (buf d) = zlen (buf c)) as Hz by (unfold buf; by rewrite !zlen_app, !zlen_cons).
  destruct (get_first_by_type_safe (buf d) blen STUN_ATTRIBUTE_FINGERPRINT Hb) as (found & Hs & _); [lia|].
  exists found. destruct found as [a'|].
  - destruct (full_check_at (buf d) blen must fp0 a') as (v & l & w & _ & _ & _ & _ & Hf); [done|lia|lia|done|].
    destruct (Z.eq_dec a' a) as [->|].
    + exists false, fp0. split; [done|]. split; [|done]. by apply (fingerprint_changed pre post c d blen must fp0 a fp1).
    + rewrite Hf. case_if; eexists _, _; done.
  - destruct (full_check_unfound (buf d) blen must fp0 Hb) as (v & k & Hk & Hf); [lia|done|].
    rewrite Hf. destruct v; eexists _, _; (split; [done|]); (split; [done|]); [|done]. intros H. split; [done|].
    rewrite Hk. destruct (Z.eqb_spec k STUN_METHOD_BINDING) as [->|]; [by right|left]. by destruct must.
Qed.

(** * Messages with addresses *)

Section addresses.
Context (maps : addr_maps) (l : list (ioa_addr * ioa_addr)) (Hm : maps_repr maps l).

(** The public image of an address, which is what travels. *)
Definition public_of (a : ioa_addr) : ioa_addr := lookup_addr (swap <$> l) a.

Definition sendable (a : ioa_addr) : Prop := addr_ok (public_of a) /\ encodable (public_of a).

(** The attribute of type [t] for an optional address. *)
Definition opt_addr_attr (tid : list Z) (t : Z) (a : option ioa_addr) : list (Z * list Z) :=
  match a with
  | Some a => [(t, addr_value (public_of a) (xor_attr t) STUN_MAGIC_COOKIE tid)]
  | None => []
  end.

Lemma addr_clen_bounds a : 8 <= addr_clen a <= 20.
Proof. unfold addr_clen. case_if; lia. Qed.

Lemma built_addr cap b m k t a :
  built cap b m k -> 0 <= t < 65536 -> sendable a -> k + 24 <= cap -> k + 24 < MAX_STUN_MESSAGE_SIZE ->
  exists b', stun_attr_add_addr_str maps b t a = Some (0, b') /\
  built cap b' (add_attrs m (opt_addr_attr (m_tid m) t (Some a))) (k + 24).
Proof using Hm.
  intros [Hr Hc Hk] Ht [Hok He] H1 H2. pose proof (addr_clen_bounds (public_of a)) as Hcl.
  destruct (add_addr_spec maps l b m t a Hm Hr Ht Hok He) as (b' & Ha & Hr' & Hz).
  { unfold room. fold (public_of a).
    assert (pad4 (addr_clen (public_of a)) = addr_clen (public_of a)) as ->.
    { apply pad4_id. unfold addr_clen. by case_if. }
    lia. }
  exists b'. split; [done|]. split; [done|lia|].
  change (add_attrs m _) with (add_attr m t (addr_value (public_of a) (xor_attr t) STUN_MAGIC_COOKIE (m_tid m))).
  rewrite msg_size_add. unfold attr_size. destruct (tid_of_repr b m (sb_len b) Hr) as (_ & _ & Htl).
  fold (public_of a). rewrite zlen_addr_value by done.
  assert (pad4 (addr_clen (public_of a)) = addr_clen (public_of a)) as ->; [|lia].
  apply pad4_id. unfold addr_clen. by case_if.
Qed.

Lemma built_step_addr M cap b m k t a cont :
  built cap b m k -> 0 <= t < 65536 -> (forall x, a = Some x -> sendable x) ->
  k + 24 <= cap -> k + 24 < MAX_STUN_MESSAGE_SIZE ->
  (forall b', built cap b' (add_attrs m (opt_addr_attr (m_tid m) t a)) (k + 24) -> builds M (cont b')) ->
  builds M (or_fail (add_opt_addr maps b t a) cont).
Proof using Hm.
  intros Hb Ht Ha H1 H2 Hk. destruct a as [a|]; cbn [add_opt_addr].
  - destruct (built_addr cap b m k t a Hb Ht (Ha a eq_refl) H1 H2) as (b' & Hadd & Hb').
    eapply or_fail_ok; [exact Hadd|by apply Hk].
  - eapply or_fail_ok; [done|]. cbn [opt_addr_attr] in Hk. rewrite add_attrs_nil in Hk. apply Hk.
    destruct Hb as [Hr Hc Hmk]. split; [done|done|lia].
Qed.

(** The attributes of a CHANNEL-BIND request. *)
Definition channel_bind_attrs (tid : list Z) (chn : Z) (peer : ioa_addr) : list (Z * list Z) :=
  (STUN_ATTRIBUTE_CHANNEL_NUMBER, channel_value chn) :: opt_addr_attr tid STUN_ATTRIBUTE_XOR_PEER_ADDRESS (Some peer).

Lemma channel_bind_builds b a chn er e :
  bytes (sb_mem b) -> 60 <= zlen (sb_mem b) -> entropy_ok e -> 0 <= chn < 65536 -> sendable a ->
  exists chn' b', stun_set_channel_bind_request_str maps b (Some a) chn er e = Some (chn', b') /\
  STUN_VALID_CHANNEL chn' = true /\ (STUN_VALID_CHANNEL chn = true -> chn' = chn) /\
  built (zlen (sb_mem b)) b' (StunMsg (stun_make_request STUN_METHOD_CHANNEL_BIND) STUN_MAGIC_COOKIE (tid_of e)
                                (channel_bind_attrs (tid_of e) chn' a)) 52.
Proof using Hm.
  intros Hb Hl He Hc Ha. unfold stun_set_channel_bind_request_str. cbv zeta.
  set (chn' := if negb (STUN_VALID_CHANNEL chn) then _ else _).
  assert (STUN_VALID_CHANNEL chn' = true) as Hv.
  { unfold chn'. destruct (STUN_VALID_CHANNEL chn) eqn:E; cbn [negb]; [done|].
    pose proof (Z.mod_pos_bound (u32 (turn_random er)) (0x7FFF - 0x4000 + 1) ltac:(lia)).
    unfold STUN_VALID_CHANNEL. rewrite u16_small by lia. apply andb_true_iff. rewrite !Z.leb_le. lia. }
  assert (STUN_VALID_CHANNEL chn = true -> chn' = chn) as Hsame by (unfold chn'; by intros ->).
  clearbody chn'. pose proof Hv as Hr16. unfold STUN_VALID_CHANNEL in Hr16. zbool.
  destruct (built_request STUN_METHOD_CHANNEL_BIND b e) as (b0 & -> & Hb0); [done|lia|done|done|].
  cbn [mbind option_bind]. set (cap := zlen (sb_mem b)) in *. clearbody cap. rewrite add_channel_number_eq.
  destruct (built_add _ _ _ _ STUN_ATTRIBUTE_CHANNEL_NUMBER (Some (channel_value chn')) 4 (channel_value chn') 8 Hb0)
    as (b1 & -> & Hb1); [done|by apply c_attr_array|apply bytes_channel_value|lia|done|lia|done|].
  cbn [mbind option_bind]. change (0 <? 0) with false. cbv iota.
  destruct (built_addr _ _ _ _ STUN_ATTRIBUTE_XOR_PEER_ADDRESS a Hb1) as (b2 & -> & Hb2); [done..|lia|done|].
  cbn [mbind option_bind]. change (0 <? 0) with false. cbv iota. by exists chn', b2.
Qed.

(** A CHANNEL-BIND request carries a valid channel number, the caller's
    when it is valid and otherwise a random one, and the peer address (the
    unset address for NULL); the server's searches read both back. *)
Theorem stun_channel_bind_request_readable b peer chn er e ca0 :
  bytes (sb_mem b) -> 60 <= zlen (sb_mem b) -> entropy_ok e -> 0 <= chn < 65536 ->
  let a := match peer with Some a => a | None => addr_zero end in
  sendable a ->
  exists chn' b', stun_set_channel_bind_request_str maps b peer chn er e = Some (chn', b') /\
  STUN_VALID_CHANNEL chn' = true /\ (STUN_VALID_CHANNEL chn = true -> chn' = chn) /\
  stun_attr_get_first_channel_number_str (sb_mem b') (sb_len b') = Some chn' /\
  stun_attr_get_first_addr_str maps (sb_mem b') (sb_len b') STUN_ATTRIBUTE_XOR_PEER_ADDRESS ca0 None =
    Some (0, lookup_addr l (decoded (public_of a) addr_zero)).
Proof using Hm.
  intros Hb Hl He Hc a Ha.
  destruct (channel_bind_builds b a chn er e) as (chn' & b2 & Hf & Hv & Hsame & [Hr2 _ _]); [done..|].
  exists chn', b2. split; [by destruct peer|]. split; [done|]. split; [done|].
  pose proof Hv as Hr16. unfold STUN_VALID_CHANNEL in Hr16. zbool. split.
  - erewrite (first_channel_at b2 _ [] chn' _ Hr2); [by rewrite Hv|reflexivity|done|lia|by left].
  - eapply (first_addr_at maps l b2 _ [_] _ (public_of a) [] ca0 Hm Hr2);
      [right; left|reflexivity|reflexivity|apply Ha|apply Ha].
Qed.

(** * ALLOCATE responses *)

Definition allocate_response_attrs (tid : list Z) (r1 r2 refl : option ioa_addr) (lifetime max_lifetime token : Z)
    (mobile_id : option (list Z)) : list (Z * list Z) :=
  opt_addr_attr tid STUN_ATTRIBUTE_XOR_RELAYED_ADDRESS r1 ++
  opt_addr_attr tid STUN_ATTRIBUTE_XOR_RELAYED_ADDRESS r2 ++
  opt_addr_attr tid STUN_ATTRIBUTE_XOR_MAPPED_ADDRESS refl ++
  (if truth token then [(STUN_ATTRIBUTE_RESERVATION_TOKEN, be_split 8 token)] else []) ++
  [(STUN_ATTRIBUTE_LIFETIME,
    be_split 4 (if lifetime <? 1 then STUN_DEFAULT_ALLOCATE_LIFETIME else Z.min lifetime max_lifetime))] ++
  match mobile_id with
  | Some (c :: s) => [(STUN_ATTRIBUTE_MOBILITY_TICKET, c :: s)]
  | _ => []
  end.

Lemma built_token cap b m k token :
  built cap b m k -> k + 12 <= cap -> k + 12 < MAX_STUN_MESSAGE_SIZE ->
  exists b', (if truth token then
                token ← _ioa_ntoh64 token;
                '(_, b) ← stun_attr_add_str b STUN_ATTRIBUTE_RESERVATION_TOKEN (Some (le_split 8 token)) 8;
                Some b
              else Some b) = Some b' /\
  built cap b' (add_attrs m (if truth token then [(STUN_ATTRIBUTE_RESERVATION_TOKEN, be_split 8 token)] else []))
    (k + 12).
Proof.
  intros Hb H1 H2. destruct (truth token).
  - rewrite _ioa_ntoh64_nswap64. cbn [mbind option_bind]. unfold nswap64. rewrite le_split_nswap.
    destruct (built_add cap b m k STUN_ATTRIBUTE_RESERVATION_TOKEN (Some (be_split 8 token)) 8 (be_split 8 token) 12 Hb)
      as (b' & -> & Hb'); [done|by apply c_attr_array|apply bytes_be_split|lia|done|lia|done|].
    by exists b'.
  - exists b. rewrite add_attrs_nil. split; [done|]. destruct Hb as [Hr Hc Hk]. split; [done|done|lia].
Qed.

(** The caller's lifetime as the response states it. *)
Lemma response_lifetime lifetime max_lifetime :
  (if lifetime <? 1 then STUN_DEFAULT_ALLOCATE_LIFETIME
   else if max_lifetime <? lifetime then max_lifetime else lifetime) =
  if lifetime <? 1 then STUN_DEFAULT_ALLOCATE_LIFETIME else Z.min lifetime max_lifetime.
Proof. destruct (lifetime <? 1); [done|]. destruct (Z.ltb_spec max_lifetime lifetime); lia. Qed.

Lemma built_mobile cap b m k mobile_id M :
  built cap b m k -> k + 512 <= cap -> k + 512 < MAX_STUN_MESSAGE_SIZE -> reason_ok mobile_id ->
  (forall s, mobile_id = Some s -> zlen s <= 500) ->
  M = add_attrs m match mobile_id with
                  | Some (c :: s) => [(STUN_ATTRIBUTE_MOBILITY_TICKET, c :: s)]
                  | _ => []
                  end ->
  builds M
    match c_arg mobile_id with
    | Some mid =>
      c ← rd8 mid 0;
      if truth c then
        n ← strlen mid;
        or_fail (stun_attr_add_str b STUN_ATTRIBUTE_MOBILITY_TICKET (Some mid) (to_i32 n)) (λ b, Some (0, b))
      else Some (0, b)
    | None => Some (0, b)
    end.
Proof.
  intros Hb H1 H2 Hok Hlen ->. destruct mobile_id as [[|c s]|]; cbn [c_arg fmap option_fmap option_map].
  - exists b. rewrite add_attrs_nil. split; [done|apply Hb].
  - destruct (Hok _ eq_refl) as [Hnz Hby]. specialize (Hlen _ eq_refl). set (v := c :: s) in *.
    pose proof (zlen_nonneg v). assert (rd8 (cstring v) 0 = Some c) as ->.
    { apply (rd8_part _ 0 (zlen (cstring v)) [] c (s ++ [0])); [apply rd_block_full|done]. }
    cbn [mbind option_bind]. assert (truth c = true) as ->.
    { unfold truth. inversion_clear Hnz as [|? ? Hc _]. by destruct (Z.eqb_spec c 0). }
    rewrite strlen_cstring by done. cbn [mbind option_bind].
    assert (to_i32 (zlen v) = zlen v) as ->.
    { unfold to_i32. rewrite Z.mod_small by lia. lia. }
    assert (1 <= zlen v) by (unfold v; rewrite zlen_cons; pose proof (zlen_nonneg s); lia).
    pose proof (attr_size_bounds v) as (_ & _ & _). pose proof (pad4_bounds (zlen v)).
    eapply built_step with (s := attr_size v) (v := v); [exact Hb|done| |done|lia|done| | |].
    + cbn [c_attr_value]. destruct (Z.leb_spec (zlen v) 0); [lia|]. unfold cstring.
      by apply (rd_block_here [] v [0]).
    + unfold attr_size. lia.
    + unfold attr_size. lia.
    + intros b' [Hr' _ _]. by exists b'.
  - exists b. rewrite add_attrs_nil. split; [done|apply Hb].
Qed.

Lemma allocate_response_builds b tid r1 r2 refl lifetime max_lifetime reason token mobile_id e :
  bytes (sb_mem b) -> 640 <= zlen (sb_mem b) -> entropy_ok e -> tid_ok tid ->
  (forall a, r1 = Some a \/ r2 = Some a \/ refl = Some a -> sendable a) -> reason_ok mobile_id ->
  (forall s, mobile_id = Some s -> zlen s <= 500) ->
  builds (StunMsg (stun_make_success_response STUN_METHOD_ALLOCATE) STUN_MAGIC_COOKIE (the_tid tid e)
            (allocate_response_attrs (the_tid tid e) r1 r2 refl lifetime max_lifetime token mobile_id))
    (stun_set_allocate_response_str maps b tid r1 r2 refl lifetime max_lifetime 0 reason token
       (c_arg mobile_id) e).
Proof using Hm.
  intros Hb Hl He Htid Ha Hmob Hmlen. unfold stun_set_allocate_response_str. change (0 =? 0) with true. cbv iota.
  rewrite new_success_response.
  destruct (built_success_response STUN_MAGIC_COOKIE STUN_METHOD_ALLOCATE b tid e) as (b0 & -> & H0);
    [done|lia|done|done|done|done|].
  cbn [mbind option_bind]. set (cap := zlen (sb_mem b)) in *. clearbody cap.
  eapply built_step_addr; [exact H0|done|by intros; apply Ha; auto|lia|done|].
  clear b0 H0. intros b0 H0.
  eapply built_step_addr; [exact H0|done|by intros; apply Ha; auto|lia|done|].
  clear b0 H0. intros b0 H0.
  eapply built_step_addr; [exact H0|done|by intros; apply Ha; auto|lia|done|].
  clear b0 H0. intros b0 H0. cbn [add_attrs m_tid] in H0.
  destruct (built_token _ _ _ _ token H0) as (b1 & -> & H1); [lia|done|]. cbn [mbind option_bind]. cbv zeta.
  rewrite response_lifetime. unfold nswap32. rewrite le_split_nswap.
  eapply built_step with (s := 8); [exact H1|done|by apply c_attr_array|apply bytes_be_split|lia|done|lia|done|].
  clear b0 b1 H0 H1. intros b0 H0. eapply built_mobile; [exact H0|lia|done|done|done|].
  unfold allocate_response_attrs, add_attrs, add_attr. cbn [m_type m_cookie m_tid m_attrs app].
  by rewrite <- !app_assoc.
Qed.

(** A successful ALLOCATE response holds, in order, the relayed addresses,
    the reflexive address, the reservation token, the granted lifetime (the
    default for 0, never more than the maximum) and the mobility ticket; the
    client's search for the relayed address returns the first one. *)
Theorem stun_allocate_response_readable b tid r1 r2 refl lifetime max_lifetime reason token mobile_id e a ca0 :
  bytes (sb_mem b) -> 640 <= zlen (sb_mem b) -> entropy_ok e -> tid_ok tid ->
  (forall a, r1 = Some a \/ r2 = Some a \/ refl = Some a -> sendable a) -> reason_ok mobile_id ->
  (forall s, mobile_id = Some s -> zlen s <= 500) -> r1 = Some a ->
  exists b', stun_set_allocate_response_str maps b tid r1 r2 refl lifetime max_lifetime 0 reason token
               (c_arg mobile_id) e = Some (0, b') /\
  repr b' (StunMsg (stun_make_success_response STUN_METHOD_ALLOCATE) STUN_MAGIC_COOKIE (the_tid tid e)
            (allocate_response_attrs (the_tid tid e) r1 r2 refl lifetime max_lifetime token mobile_id)) /\
  stun_attr_get_first_addr_str maps (sb_mem b') (sb_len b') STUN_ATTRIBUTE_XOR_RELAYED_ADDRESS ca0 None =
    Some (0, lookup_addr l (decoded (public_of a) addr_zero)).
Proof using Hm.
  intros Hb Hl He Htid Ha Hmob Hmlen Hr1.
  destruct (allocate_response_builds b tid r1 r2 refl lifetime max_lifetime reason token mobile_id e)
    as (b' & Hf & Hr); [done..|]. exists b'. split; [done|]. split; [done|].
  destruct (Ha a ltac:(auto)) as [Hok He']. subst r1.
  eapply (first_addr_at maps l b' _ [] _ (public_of a) _ ca0 Hm Hr);
    [right; right; left|reflexivity|reflexivity|done|done].
Qed.

(** * BINDING responses *)

Definition binding_response_attrs (tid : list Z) (refl : option ioa_addr) (old_stun no_compat : bool) :
    list (Z * list Z) :=
  (if old_stun then [] else opt_addr_attr tid STUN_ATTRIBUTE_XOR_MAPPED_ADDRESS refl) ++
  (if no_compat then [] else opt_addr_attr tid STUN_ATTRIBUTE_MAPPED_ADDRESS refl).

Lemma binding_response_builds b tid refl reason cookie (old_stun no_compat : bool) e :
  bytes (sb_mem b) -> 100 <= zlen (sb_mem b) -> entropy_ok e -> tid_ok tid -> 0 <= cookie < 4294967296 ->
  (forall a, refl = Some a -> sendable a) ->
  builds (StunMsg (stun_make_success_response STUN_METHOD_BINDING)
            (if old_stun then cookie else STUN_MAGIC_COOKIE) (the_tid tid e)
            (binding_response_attrs (the_tid tid e) refl old_stun no_compat))
    (stun_set_binding_response_str maps b tid refl 0 reason cookie old_stun no_compat e).
Proof using Hm.
  intros Hb Hl He Htid Hc Ha. unfold stun_set_binding_response_str. change (0 =? 0) with true. cbv iota.
  set (ck := if old_stun then cookie else STUN_MAGIC_COOKIE).
  assert (0 <= ck < 4294967296) as Hck by (unfold ck; by destruct old_stun).
  destruct (built_success_response ck STUN_METHOD_BINDING b tid e) as (b0 & Hi & H0);
    [done|lia|done|done|done|done|].
  assert ((if negb old_stun then stun_init_success_response_str STUN_METHOD_BINDING b tid e
           else old_stun_init_success_response_str STUN_METHOD_BINDING b tid cookie e) = Some b0) as ->.
  { unfold ck in Hi. destruct old_stun; cbn [negb]; [done|]. by rewrite new_success_response. }
  cbn [mbind option_bind]. set (cap := zlen (sb_mem b)) in *. clearbody cap ck. unfold binding_response_attrs.
  assert (forall c t b m k cont M, built cap b m k -> 0 <= t < 65536 -> k + 24 <= cap -> k + 24 < MAX_STUN_MESSAGE_SIZE ->
    (forall b', built cap b' (add_attrs m (if c : bool then opt_addr_attr (m_tid m) t refl else [])) (k + 24) ->
       builds M (cont b')) ->
    builds M (or_fail (if c then add_opt_addr maps b t refl else Some (0, b)) cont)) as Hstep.
  { intros c t b1 m k cont M Hb1 Ht H1 H2 Hk. destruct c; [by eapply built_step_addr|].
    eapply or_fail_ok; [done|]. rewrite add_attrs_nil in Hk. apply Hk.
    destruct Hb1 as [Hr1 Hc1 Hk1]. split; [done|done|lia]. }
  eapply Hstep; [exact H0|done|lia|done|]. intros b1 H1.
  eapply Hstep; [exact H1|done|lia|done|]. intros b2 [Hr2 _ _]. exists b2. split; [done|].
  by destruct old_stun, no_compat.
Qed.

(** A successful BINDING response tells the client its reflexive address:
    as XOR-MAPPED-ADDRESS in the modern form, as MAPPED-ADDRESS in the classic
    form, whose cookie is the caller's, unless the compatible form is disabled. *)
Theorem stun_binding_response_readable b tid a reason cookie (old_stun no_compat : bool) e ca0 :
  bytes (sb_mem b) -> 100 <= zlen (sb_mem b) -> entropy_ok e -> tid_ok tid -> 0 <= cookie < 4294967296 ->
  sendable a ->
  exists b', stun_set_binding_response_str maps b tid (Some a) 0 reason cookie old_stun no_compat e = Some (0, b') /\
  repr b' (StunMsg (stun_make_success_response STUN_METHOD_BINDING)
            (if old_stun then cookie else STUN_MAGIC_COOKIE) (the_tid tid e)
            (binding_response_attrs (the_tid tid e) (Some a) old_stun no_compat)) /\
  (old_stun = false ->
   stun_attr_get_first_addr_str maps (sb_mem b') (sb_len b') STUN_ATTRIBUTE_XOR_MAPPED_ADDRESS ca0 None =
     Some (0, lookup_addr l (decoded (public_of a) addr_zero))) /\
  (no_compat = false ->
   stun_attr_get_first_addr_str maps (sb_mem b') (sb_len b') STUN_ATTRIBUTE_MAPPED_ADDRESS ca0 None =
     Some (0, lookup_addr l (decoded (public_of a) addr_zero))).
Proof using Hm.
  intros Hb Hl He Htid Hc Ha.
  destruct (binding_response_builds b tid (Some a) reason cookie old_stun no_compat e) as (b' & Hf & Hr);
    [done..|by intros ? [= <-]|]. exists b'. split; [done|]. split; [done|].
  destruct Ha as [Hok He']. split; intros ->.
  - eapply (first_addr_at maps l b' _ [] _ (public_of a) _ ca0 Hm Hr);
      [left|reflexivity|reflexivity|done|done].
  - destruct old_stun.
    + eapply (first_addr_at maps l b' _ [] _ (public_of a) _ ca0 Hm Hr);
        [do 3 right; left|reflexivity|reflexivity|done|done].
    + eapply (first_addr_at maps l b' _ [_] _ (public_of a) _ ca0 Hm Hr);
        [do 3 right; left|reflexivity|reflexivity|done|done].
Qed.
End addresses.

(** * Witnesses *)

(** A message of 24 attribute-free header bytes in a large buffer. *)
Definition big_buf : sbuf := SBuf (replicate 700 0) 0.

Lemma big_buf_ok n : n <= 700 -> bytes (sb_mem big_buf) /\ n <= zlen (sb_mem big_buf).
Proof. intros H. split; [apply bytes_replicate0|]. by change (zlen (sb_mem big_buf)) with 700. Qed.

Definition sample_entropy : entropy := Entropy 1 sample_tid [].

Lemma sample_entropy_ok : entropy_ok sample_entropy.
Proof. split; [by apply bytes_concrete|done]. Qed.

Definition sample_addr : ioa_addr := v4_addr 192 0 2 1 3478.

Lemma sample_sendable : sendable [] sample_addr.
Proof. split; [by apply addr_ok_concrete; vm_compute|left; by left]. Qed.

(** A 401 response with REALM "r" and NONCE "n". *)
Definition challenge_msg : stun_msg :=
  StunMsg 0x0113 STUN_MAGIC_COOKIE sample_tid
    [(STUN_ATTRIBUTE_ERROR_CODE, error_attr 401 []); (STUN_ATTRIBUTE_REALM, [114]);
     (STUN_ATTRIBUTE_NONCE, [110])].

Definition challenge_buf : sbuf :=
  SBuf (header_bytes 0x0113 24 STUN_MAGIC_COOKIE sample_tid ++
        [0; 9; 0; 4; 0; 0; 4; 1; 0; 0x14; 0; 1; 114; 0; 0; 0; 0; 0x15; 0; 1; 110; 0; 0; 0]) 44.

Lemma challenge_repr : repr challenge_buf challenge_msg.
Proof. split; try done. by apply bytes_concrete. Qed.

Lemma stun_challenge_response_copies_witness :
  exists em realm nonce,
  stun_is_challenge_response_str (sb_mem challenge_buf) 44 4
    (Challenge (Some 0) (Some (replicate 4 0)) (replicate 128 0) (replicate 128 0) None (Some 7)) =
    Some (true, Challenge (Some 401) (Some em) realm nonce None (Some 0)) /\
  rd_block realm 0 2 = Some [114; 0].
Proof.
  destruct (stun_challenge_response_copies challenge_buf challenge_msg 401 [] [114] [110] 0 (replicate 4 0) 4
    (replicate 128 0) (replicate 128 0) None (Some 7) challenge_repr) as [H _];
    try reflexivity; try (left; reflexivity); try (vm_compute; split; discriminate); try (vm_compute; discriminate).
  destruct H as (em & realm & nonce & H1 & H2 & _); [reflexivity|reflexivity|].
  exists em, realm, nonce. split; [exact H1|exact H2].
Defined.

Lemma stun_address_error_code_unreadable_witness :
  exists b', stun_attr_get_address_error_code (Some (sb_mem b')) (sb_len b') (Some 1) (Some 1) =
    Some (-1, Some 0, Some 0).
Proof.
  destruct (repr_init STUN_MAGIC_COOKIE 1 big_buf sample_entropy) as (b0 & _ & Hr & Hz);
    [apply (big_buf_ok 0); lia|apply (big_buf_ok 20); lia|exact sample_entropy_ok|done|].
  destruct (stun_address_error_code_unreadable b0 _ 1 440 1 1 Hr) as (b' & _ & H).
  - unfold room. rewrite Hz. change (msg_size _) with 20. change (pad4 600) with 600.
    change (zlen (sb_mem big_buf)) with 700. unfold MAX_STUN_MESSAGE_SIZE. lia.
  - reflexivity.
  - exists b'. exact H.
Defined.

Lemma stun_fingerprint_roundtrip_witness :
  exists b', stun_attr_add_fingerprint_str sample_buf = Some (0, b') /\
  stun_is_command_message_full_check_str (sb_mem b') (sb_len b') true (Some 0) = Some (true, Some 1).
Proof.
  destruct (stun_fingerprint_roundtrip sample_buf sample_msg true 0 sample_repr) as (b' & crc & H1 & _ & _ & H2);
    [reflexivity|reflexivity|by apply sample_room|reflexivity|].
  exists b'. split; [exact H1|exact H2].
Defined.

(** The sample message with its fingerprint; byte 8 is the first of the
    transaction id. *)
Definition fp_pre : list Z := [0; 1; 0; 8; 0x21; 0x12; 0xA4; 0x42].
Definition fp_post : list Z :=
  [2; 3; 4; 5; 6; 7; 8; 9; 10; 11; 12; 0x80; 0x28; 0; 4] ++
  be_split 4 (Z.lxor (crc_ref (fp_pre ++ 1 :: [2; 3; 4; 5; 6; 7; 8; 9; 10; 11; 12])) FINGERPRINT_XOR).

Lemma stun_fingerprint_detects_witness :
  exists found passed fp', stun_attr_get_first_by_type_str (fp_pre ++ 9 :: fp_post) 28 STUN_ATTRIBUTE_FINGERPRINT = Some found /\
    stun_is_command_message_full_check_str (fp_pre ++ 9 :: fp_post) 28 true None = Some (passed, fp') /\
    match found with
    | Some a' => a' = 20 -> passed = false /\ fp' = None
    | None => passed = true -> fp' = None /\
        (true = false \/ stun_get_method_str (Some (fp_pre ++ 9 :: fp_post)) 28 = Some STUN_METHOD_BINDING)
    end.
Proof.
  apply (stun_fingerprint_detects fp_pre fp_post 1 9 28 true None 20 None);
    try (by apply bytes_concrete); try lia; try (vm_compute; (reflexivity || (split; congruence) || congruence)).
Defined.

Lemma stun_channel_bind_request_readable_witness :
  exists b', stun_set_channel_bind_request_str addr_maps_init big_buf (Some sample_addr) 0x4005
    sample_entropy sample_entropy = Some (0x4005, b').
Proof.
  destruct (stun_channel_bind_request_readable addr_maps_init [] maps_repr_init big_buf (Some sample_addr) 0x4005
    sample_entropy sample_entropy addr_zero) as (chn & b' & H & _ & Hc & _);
    [apply (big_buf_ok 60); lia|apply (big_buf_ok 60); lia|exact sample_entropy_ok|lia|exact sample_sendable|].
  specialize (Hc eq_refl). subst chn. exists b'. exact H.
Defined.

Lemma stun_allocate_response_readable_witness :
  exists b', stun_set_allocate_response_str addr_maps_init big_buf (Some sample_tid) (Some sample_addr) None
    (Some sample_addr) 600 3600 0 None 0 None sample_entropy = Some (0, b').
Proof.
  destruct (stun_allocate_response_readable addr_maps_init [] maps_repr_init big_buf (Some sample_tid)
    (Some sample_addr) None (Some sample_addr) 600 3600 None 0 None sample_entropy sample_addr addr_zero)
    as (b' & H & _); [apply (big_buf_ok 640); lia|apply (big_buf_ok 640); lia|exact sample_entropy_ok
    |intros t [= <-]; split; [by apply bytes_concrete|reflexivity]| |discriminate|discriminate|reflexivity|].
  - intros a [[= <-]|[?|[= <-]]]; [exact sample_sendable|discriminate|exact sample_sendable].
  - exists b'. exact H.
Defined.

Lemma stun_binding_response_readable_witness :
  exists b', stun_set_binding_response_str addr_maps_init big_buf (Some sample_tid) (Some sample_addr) 0 None 0
    false false sample_entropy = Some (0, b').
Proof.
  destruct (stun_binding_response_readable addr_maps_init [] maps_repr_init big_buf (Some sample_tid) sample_addr
    None 0 false false sample_entropy addr_zero) as (b' & H & _);
    [apply (big_buf_ok 100); lia|apply (big_buf_ok 100); lia|exact sample_entropy_ok
    |intros t [= <-]; split; [by apply bytes_concrete|reflexivity]|lia|exact sample_sendable|].
  exists b'. exact H.
Defined.

Lemma stun_set_allocate_request_refines_witness :
  builds (StunMsg 3 STUN_MAGIC_COOKIE sample_tid
            (allocate_request_attrs 0 true false 17 false None (-1)))
    (stun_set_allocate_request_str big_buf 0 true false 17 false None (-1) sample_entropy).
Proof.
  apply (stun_set_allocate_request_refines big_buf 0 true false 17 false None (-1) sample_entropy);
    [apply (big_buf_ok 100); lia|apply (big_buf_ok 100); lia|exact sample_entropy_ok|lia|lia|discriminate].
Defined.

Lemma stun_error_response_roundtrip_witness :
  exists b' em', stun_init_error_response_str 3 big_buf 438 None None sample_entropy = Some b' /\
  stun_is_error_response_str (sb_mem b') (sb_len b') (Some 0) (Some (replicate 64 0)) 64 =
    Some (true, Some 438, Some em') /\ c_str em' = Some (lit "Stale Nonce").
Proof.
  destruct (stun_error_response_roundtrip STUN_MAGIC_COOKIE 3 big_buf 438 None None sample_entropy 0
    (replicate 64 0) 64) as (E & b' & em' & H1 & H2 & H3);
    [apply (big_buf_ok 540); lia|apply (big_buf_ok 540); lia|exact sample_entropy_ok|done|lia|discriminate
    |discriminate|lia|vm_compute; split; discriminate|].
  exists b', em'. split; [exact H1|]. split; [exact H2|exact H3].
Defined.
