(* ===== verification/HttpFrame.v ===== *)
(** Framing of a byte stream: where the next message ends, when STUN messages,
    HTTP requests and channel messages share a connection ([sheadof], [findstr],
    [is_http], [stun_get_message_len_str] of [client/ns_turn_msg.c]).

    Pointers into the input are offsets; strings of the source are given by
    their characters.  [strstr] and [strtoul] stop at a NUL, not at the length
    of the input: [None] is the read past the end of the object. *)

From S2P Require Import Prelude Defs CString StunHeader StunAttr.

(** [head] is the characters of a C string, [full] the memory from the pointer. *)
Fixpoint sheadof (head full : list Z) (ignore_case : bool) : option bool :=
  match head with
  | [] => Some true
  | c :: head' =>
    match full with
    | [] => None
    | d :: full' =>
      if negb (c =? d) then
        if ignore_case && (tolower c =? tolower d) then sheadof head' full' ignore_case
        else Some false
      else sheadof head' full' ignore_case
    end
  end.

(** The search loop: [n] positions from [i] on. *)
Fixpoint findstr_loop (n : nat) (i : Z) (hay needle : list Z) (ignore_case : bool) : option (option Z) :=
  match n with
  | O => Some None
  | S n' =>
    b ← sheadof needle (drop (Z.to_nat i) hay) ignore_case;
    if (b : bool) then Some (Some i) else findstr_loop n' (i + 1) hay needle ignore_case
  end.

(** Result: the offset in [hay], or [Some None] for NULL. *)
Definition findstr (hay : list Z) (slen : Z) (needle : list Z) (ignore_case : bool) : option (option Z) :=
  if negb (slen =? 0) then
    let nlen := zlen needle in
    if nlen <=? slen then
      let smax := slen - nlen + 1 in
      findstr_loop (Z.to_nat smax) 0 hay needle ignore_case
    else Some None
  else Some None.

(** [strstr(s,x)==s] *)
Definition strstr_here (s x : list Z) : option bool :=
  r ← strstr s x;
  Some (match r with Some o => o =? 0 | None => false end).

Definition http_method (s : list Z) : option bool :=
  b ← strstr_here s (lit "GET ");
  if (b : bool) then Some true else
  b ← strstr_here s (lit "POST ");
  if (b : bool) then Some true else
  b ← strstr_here s (lit "DELETE ");
  if (b : bool) then Some true else strstr_here s (lit "PUT ").

Definition CRLFCRLF : list Z := [13; 10; 13; 10].

(** [s]: NULL, or the memory from the pointer.  Result: the [int] returned. *)
Definition is_http_inline (s : option (list Z)) (blen : Z) : option Z :=
  match s with
  | None => Some 0
  | Some s =>
    if 12 <=? blen then
      h ← http_method s;
      if (h : bool) then
        s4 ← ptr_add s 4;
        sp ← findstr s4 (blen - 4) (lit " HTTP/") false;
        match sp with
        | None => Some 0
        | Some o =>
          let sp := 4 + o + 6 in
          let diff_blen := sp in
          if diff_blen + 4 <=? blen then
            ssp ← ptr_add s sp;
            r ← findstr ssp (blen - diff_blen) CRLFCRLF false;
            match r with
            | None => Some 0
            | Some o2 =>
              let sp := sp + o2 in
              let ret_len := to_i32 (sp + 4) in
              cl ← findstr s sp (lit "content-length: ") true;
              match cl with
              | None => Some ret_len
              | Some c =>
                scl ← ptr_add s (c + zlen (lit "content-length: "));
                clen ← strtoul scl 10;
                if (0 <? clen) && (clen <? 0x0FFFFFFF) then i32 (ret_len + clen) else Some ret_len
              end
            end
          else Some 0
        end
      else Some 0
    else Some 0
  end.

Definition is_http (s : option (list Z)) (blen : Z) : option Z := is_http_inline s blen.

(** The three recognisers of [stun_get_message_len_str], in its order.  The
    first gives the length if it accepts. *)
Definition message_len_stun (buf : list Z) (blen : Z) : option (option Z) :=
  if STUN_HEADER_LENGTH <=? blen then
    t ← ldn16 buf 0;
    if negb (STUN_VALID_CHANNEL t) then
      b0 ← rd8 buf 0;
      if Z.land b0 0xC0 =? 0 then
        mc ← ldn32 buf 4;
        if mc =? STUN_MAGIC_COOKIE then
          len ← ldn16 buf 2;
          if Z.land len 0x0003 =? 0 then
            let len := u16 (len + STUN_HEADER_LENGTH) in
            if len <=? blen then Some (Some len) else Some None
          else Some None
        else Some None
      else Some None
    else Some None
  else Some None.

(** The last one gives the result of the function and [*app_len]. *)
Definition message_len_channel (buf : list Z) (blen : Z) (padding : bool) (app_len : Z) : option (Z * Z) :=
  if 4 <=? blen then
    chn ← ldn16 buf 0;
    if STUN_VALID_CHANNEL chn then
      l ← ldn16 buf 2;
      let bret := u16 (4 + l) in
      let app_len := bret in
      let bret := if padding && truth (Z.land bret 0x0003)
                  then u16 (Z.shiftl (Z.shiftr bret 2 + 1) 2) else bret in
      if bret <=? blen then Some (bret, app_len) else Some (-1, app_len)
    else Some (-1, app_len)
  else Some (-1, app_len).

(** Result: the [int] returned and the new value of [*app_len]. *)
Definition stun_get_message_len_str (buf : option (list Z)) (blen : Z) (padding : bool) (app_len : Z)
    : option (Z * Z) :=
  match buf with
  | None => Some (-1, app_len)
  | Some buf =>
    if blen =? 0 then Some (-1, app_len) else
    stun ← message_len_stun buf blen;
    match stun with
    | Some len => Some (len, len)
    | None =>
      http_len ← is_http_inline (Some buf) blen;
      if (0 <? http_len) && (http_len <=? blen) then Some (http_len, http_len) else
      message_len_channel buf blen padding app_len
    end
  end.

(** * Totality of the string functions on terminated strings *)

Definition terminated (s : list Z) : Prop := exists t, c_str s = Some t.

Lemma terminated_app l rest : terminated (l ++ 0 :: rest).
Proof.
  induction l as [|c l [t IH]]; [by exists []|]. unfold terminated. cbn [app c_str].
  case_if; [by exists []|]. rewrite IH. by eexists.
Qed.

Lemma terminated_cons c s : terminated (c :: s) -> c ≠ 0 -> terminated s.
Proof.
  intros [t H] Hc. cbn [c_str] in H. destruct (Z.eqb_spec c 0); [done|].
  destruct (c_str s) as [t'|] eqn:E; [by exists t'|done].
Qed.

Lemma terminated_nil : ~ terminated [].
Proof. by intros [t H]. Qed.

Lemma starts_with_total s x : terminated s -> nonzero x -> exists b, starts_with s x = Some b.
Proof.
  revert s. induction x as [|c x IH]; intros s Hs Hx; [exists true; by destruct s|]. inversion_clear Hx as [|? ? Hc Hx'].
  destruct s as [|d s]; [by apply terminated_nil in Hs|]. cbn [starts_with].
  destruct (Z.eqb_spec d c) as [->|]; [|by eexists]. apply IH; [by eapply terminated_cons|done].
Qed.

(** [strstr(s,x)==s] is the comparison at the start. *)
Lemma strstr_here_spec s x : terminated s -> nonzero x -> strstr_here s x = starts_with s x.
Proof.
  intros Hs Hx. unfold strstr_here. destruct (starts_with_total s x Hs Hx) as [b Hb].
  assert (forall s, terminated s -> exists r, strstr s x = Some r) as Htot.
  { clear s Hs b Hb. induction s as [|c s IH]; intros Hs; [by apply terminated_nil in Hs|].
    destruct (starts_with_total _ x Hs Hx) as [b Hb]. cbn [strstr]. rewrite Hb. cbn [mbind option_bind].
    destruct b; [by eexists|]. destruct (Z.eqb_spec c 0); [by eexists|].
    destruct IH as [r ->]; [by eapply terminated_cons|by eexists]. }
  destruct s as [|c s]; [by apply terminated_nil in Hs|]. cbn [strstr]. rewrite Hb. cbn [mbind option_bind].
  destruct b; [done|]. destruct (Z.eqb_spec c 0); [done|].
  destruct (Htot s) as [r Hr]; [by eapply terminated_cons|]. rewrite Hr. cbn [mbind option_bind].
  destruct r as [o|]; [|done]. cbn [option_map]. f_equal. apply Z.eqb_neq.
  assert (forall s o, strstr s x = Some (Some o) -> 0 <= o) as Hpos; [|apply Hpos in Hr; lia].
  clear. induction s as [|c s IH]; intros o; cbn [strstr]; intros H.
  - apply bind_Some in H as (b & _ & H). destruct b; [by injection H as <-|done].
  - apply bind_Some in H as (b & _ & H). destruct b; [by injection H as <-|].
    destruct (c =? 0); [done|]. apply bind_Some in H as (r & Hr & H). destruct r as [o'|]; [|done].
    cbn in H. injection H as <-. apply IH in Hr. lia.
Qed.

Lemma lit_nonzero s : forallb (λ c, negb (c =? 0)) (lit s) = true -> nonzero (lit s).
Proof.
  intros H. unfold nonzero. rewrite Forall_forall. intros c Hc. rewrite forallb_forall in H.
  apply list_elem_of_In, H in Hc. by apply negb_true_iff, Z.eqb_neq in Hc.
Qed.

(** The methods, by their first two characters. *)
Definition method_start (s : list Z) : Prop :=
  take 2 s = [71; 69] \/ take 2 s = [80; 79] \/ take 2 s = [68; 69] \/ take 2 s = [80; 85].

Lemma starts_with_prefix s x : starts_with s x = Some true -> take (length x) s = x.
Proof.
  revert s. induction x as [|c x IH]; intros s; [by rewrite take_0|]. destruct s as [|d s]; [done|].
  cbn [starts_with length take]. destruct (Z.eqb_spec d c) as [->|]; [|done]. intros H. f_equal. by apply IH.
Qed.

Lemma starts_with_take2 s a b x : starts_with s (a :: b :: x) = Some true -> take 2 s = [a; b].
Proof.
  intros H%starts_with_prefix. cbn [length] in H. apply (f_equal (take 2)) in H. rewrite take_take in H.
  by rewrite Nat.min_l in H by lia.
Qed.

Lemma http_method_spec s :
  terminated s -> exists b, http_method s = Some b /\ (b = true -> method_start s).
Proof.
  intros Hs. unfold http_method.
  rewrite !strstr_here_spec by (done || by apply lit_nonzero).
  destruct (starts_with_total s (lit "GET ") Hs) as [b1 H1]; [by apply lit_nonzero|].
  destruct (starts_with_total s (lit "POST ") Hs) as [b2 H2]; [by apply lit_nonzero|].
  destruct (starts_with_total s (lit "DELETE ") Hs) as [b3 H3]; [by apply lit_nonzero|].
  destruct (starts_with_total s (lit "PUT ") Hs) as [b4 H4]; [by apply lit_nonzero|].
  rewrite H1, H2, H3, H4. cbn [mbind option_bind]. unfold method_start.
  destruct b1; [by exists true; apply starts_with_take2 in H1; auto|].
  destruct b2; [by exists true; apply starts_with_take2 in H2; auto|].
  destruct b3; [by exists true; apply starts_with_take2 in H3; auto|].
  exists b4. split; [done|]. intros ->. apply starts_with_take2 in H4. auto.
Qed.

Lemma sheadof_total head full ic :
  (length head <= length full)%nat -> exists b, sheadof head full ic = Some b.
Proof.
  revert full. induction head as [|c head IH]; intros full Hl; [by eexists|].
  destruct full as [|d full]; [simpl in Hl; lia|]. cbn [sheadof]. simpl in Hl.
  assert (exists b, sheadof head full ic = Some b) as [b Hb] by (apply IH; lia). rewrite Hb.
  repeat case_if; by eexists.
Qed.

Lemma findstr_spec hay slen needle ic :
  0 <= slen <= zlen hay ->
  exists r, findstr hay slen needle ic = Some r /\
  forall o, r = Some o -> 0 <= o /\ o + zlen needle <= slen.
Proof.
  intros Hs. unfold findstr. destruct (Z.eqb_spec slen 0); cbn [negb]; [by exists None|].
  destruct (Z.leb_spec (zlen needle) slen) as [Hn|]; [|by exists None].
  assert (forall n i, 0 <= i -> i + Z.of_nat n + zlen needle <= slen + 1 ->
    exists r, findstr_loop n i hay needle ic = Some r /\ forall o, r = Some o -> 0 <= o /\ o + zlen needle <= slen) as H.
  { intros k. induction k as [|k IH]; intros i Hi Hb; [by exists None|]. cbn [findstr_loop].
    destruct (sheadof_total needle (drop (Z.to_nat i) hay) ic) as [b ->].
    { rewrite length_drop. unfold zlen in *. lia. }
    cbn [mbind option_bind]. destruct b; [|apply IH; lia]. exists (Some i). split; [done|].
    intros o [= <-]. lia. }
  apply H; [lia|]. unfold zlen in *. lia.
Qed.

Lemma skip_space_terminated s : terminated s -> exists s', skip_space s = Some s' /\ terminated s'.
Proof.
  induction s as [|c s IH]; intros Hs; [by apply terminated_nil in Hs|]. cbn [skip_space].
  destruct (isspace c) eqn:E; [|by exists (c :: s)]. apply IH. eapply terminated_cons; [done|].
  intros ->. done.
Qed.

Lemma digits_total base acc s : terminated s -> base <= 16 -> exists v, digits base acc s = Some v.
Proof.
  revert acc. induction s as [|c s IH]; intros acc Hs Hb; [by apply terminated_nil in Hs|]. cbn [digits].
  destruct (digit_val base c) eqn:E; [|by eexists]. apply IH; [|done]. eapply terminated_cons; [done|].
  intros ->. unfold digit_val in E. cbn in E. by rewrite Z.ltb_irrefl in E.
Qed.

Lemma strtoul_total s base : terminated s -> base <= 16 -> exists v, strtoul s base = Some v.
Proof.
  intros Hs Hb. unfold strtoul. destruct (skip_space_terminated s Hs) as (s1 & -> & Hs1).
  cbn [mbind option_bind]. destruct s1 as [|c s1]; [by apply terminated_nil in Hs1|]. cbn [sign].
  destruct (Z.eqb_spec c 45) as [->|]; [|destruct (Z.eqb_spec c 43) as [->|]]; cbn [mbind option_bind].
  - destruct (digits_total base 0 s1) as [v ->]; [by eapply terminated_cons|done|]. by eexists.
  - destruct (digits_total base 0 s1) as [v ->]; [by eapply terminated_cons|done|]. by eexists.
  - destruct (digits_total base 0 (c :: s1) Hs1) as [v ->]; [done|]. by eexists.
Qed.

(** * Framing *)

Lemma terminated_drop data rest k :
  0 <= k <= zlen data -> terminated (drop (Z.to_nat k) (data ++ 0 :: rest)).
Proof.
  intros Hk. unfold zlen in Hk. rewrite drop_app_le by lia. apply terminated_app.
Qed.

(** On a terminated input the HTTP recogniser never reads outside it. *)
Lemma is_http_inline_total data rest blen :
  0 <= blen <= zlen data -> blen < 0x10000000 ->
  exists r, is_http_inline (Some (data ++ 0 :: rest)) blen = Some r /\
  (12 <= blen -> 0 < r -> method_start (data ++ 0 :: rest)) /\ 0 <= r.
Proof.
  intros Hbl Hmax. set (s := data ++ 0 :: rest). unfold is_http_inline. pose proof (zlen_nonneg data) as Hd.
  assert (terminated s) as Hs by apply terminated_app.
  assert (blen < zlen s) as Hzs.
  { unfold s. rewrite zlen_app, zlen_cons. pose proof (zlen_nonneg rest). lia. }
  destruct (Z.leb_spec 12 blen); [|by exists 0].
  destruct (http_method_spec s Hs) as (h & -> & Hh). cbn [mbind option_bind]. destruct h; [|by exists 0].
  specialize (Hh eq_refl).
  rewrite ptr_add_ok by lia. cbn [mbind option_bind].
  destruct (findstr_spec (drop (Z.to_nat 4) s) (blen - 4) (lit " HTTP/") false) as (sp & -> & Hsp).
  { unfold zlen in *. rewrite length_drop. lia. }
  cbn [mbind option_bind]. destruct sp as [o|]; [|by exists 0].
  destruct (Hsp o eq_refl) as [Ho1 Ho2]. change (zlen (lit " HTTP/")) with 6 in Ho2.
  destruct (Z.leb_spec (4 + o + 6 + 4) blen); [|by exists 0].
  rewrite ptr_add_ok by lia. cbn [mbind option_bind].
  destruct (findstr_spec (drop (Z.to_nat (4 + o + 6)) s) (blen - (4 + o + 6)) CRLFCRLF false)
    as (r & -> & Hr).
  { unfold zlen in *. rewrite length_drop. lia. }
  cbn [mbind option_bind]. destruct r as [o2|]; [|by exists 0].
  destruct (Hr o2 eq_refl) as [Ho3 Ho4]. change (zlen CRLFCRLF) with 4 in Ho4.
  set (e := 4 + o + 6 + o2) in *. assert (to_i32 (e + 4) = e + 4) as ->.
  { unfold to_i32. rewrite Z.mod_small by lia. lia. }
  destruct (findstr_spec s e (lit "content-length: ") true) as (cl & -> & Hcl); [lia|].
  cbn [mbind option_bind]. destruct cl as [c|]; [|exists (e + 4); split; [done|]; split; [done|lia]].
  destruct (Hcl c eq_refl) as [Hc1 Hc2]. set (k := zlen (lit "content-length: ")) in *.
  assert (0 <= k) as Hk by by vm_compute.
  rewrite ptr_add_ok by lia. cbn [mbind option_bind]. destruct (strtoul_total (drop (Z.to_nat (c + k)) s) 10) as [clen ->];
    [apply terminated_drop; lia|lia|]. cbn [mbind option_bind]. case_if; zbool.
  - rewrite i32_Some by lia. eexists. split; [done|]. split; [done|lia].
  - exists (e + 4). split; [done|]. split; [done|lia].
Qed.

(** The verdict for a STUN message: its length, reduced modulo 2^16. *)
Lemma message_len_stun_branch buf blen :
  bytes buf -> blen <= zlen buf ->
  exists r, message_len_stun buf blen = Some r /\
  (forall n, r = Some n -> n <= blen /\ exists l, be_at 2 buf 2 = Some l /\ 0 <= l < 65536 /\ n = u16 (l + 20)) /\
  (forall t l, be_at 2 buf 0 = Some t -> t < 0x4000 -> be_at 4 buf 4 = Some STUN_MAGIC_COOKIE ->
     be_at 2 buf 2 = Some l -> l mod 4 = 0 -> 20 <= blen -> u16 (l + 20) <= blen -> r = Some (u16 (l + 20))) /\
  (forall t, be_at 2 buf 0 = Some t -> STUN_VALID_CHANNEL t = true -> r = None).
Proof.
  intros Hb Hl. unfold message_len_stun, STUN_HEADER_LENGTH. destruct (Z.leb_spec 20 blen).
  2: { exists None. split; [done|]. split; [done|]. split; [lia|done]. }
  destruct (ldn16_ok buf 0) as (t & -> & Ht & Htr); [done|lia..|]. cbn [mbind option_bind]. rewrite Ht.
  destruct (be_at_2_bytes _ _ _ Hb Ht) as (b0 & b1 & -> & Hb0 & Hb1 & Htb). cbn [mbind option_bind].
  destruct (ldn32_ok buf 4) as (mc & -> & Hmc & _); [done|lia..|]. cbn [mbind option_bind]. rewrite Hmc.
  destruct (ldn16_ok buf 2) as (l & -> & Hll & Hlr); [done|lia..|]. cbn [mbind option_bind]. rewrite Hll.
  rewrite top_bits, land3_mod by lia. cbv zeta.
  destruct (STUN_VALID_CHANNEL t) eqn:Ev; cbn [negb].
  { exists None. split; [done|]. split; [done|]. split; [|done].
    intros ? ? [= <-] Hlt. unfold STUN_VALID_CHANNEL in Ev. zbool. lia. }
  destruct (Z.ltb_spec b0 64).
  2: { exists None. split; [done|]. split; [done|]. split; [intros ? ? [= <-]; lia|done]. }
  destruct (Z.eqb_spec mc STUN_MAGIC_COOKIE) as [->|Hne].
  2: { exists None. split; [done|]. split; [done|]. split; [|done]. by intros ? ? _ _ [= ?]. }
  destruct (Z.eqb_spec (l mod 4) 0).
  2: { exists None. split; [done|]. split; [done|]. split; [|done]. by intros ? ? _ _ _ [= <-]. }
  destruct (Z.leb_spec (u16 (l + 20)) blen).
  2: { exists None. split; [done|]. split; [done|]. split; [|done]. intros ? ? _ _ _ [= <-]. lia. }
  eexists. split; [done|]. split; [|split].
  - intros n' [= <-]. split; [done|]. by exists l.
  - by intros ? ? _ _ _ [= <-].
  - intros ? [= <-]. congruence.
Qed.

(** The verdict for a channel message. *)
Definition channel_frame (l : Z) (padding : bool) : Z :=
  let bret := u16 (4 + l) in
  if padding && truth (Z.land bret 3) then u16 (Z.shiftl (Z.shiftr bret 2 + 1) 2) else bret.

Lemma channel_frame_range l padding : 0 <= l < 65536 ->
  0 <= channel_frame l padding < 65536 /\ (channel_frame l padding = 0 -> 65516 <= l) /\
  (l <= 65528 -> channel_frame l padding = 4 + (if padding then pad4 l else l)).
Proof.
  intros Hl. unfold channel_frame. pose proof (Z.mod_pos_bound (4 + l) 65536 ltac:(lia)) as Hm.
  rewrite land3. unfold truth. fold (u16 (4 + l)) in Hm.
  destruct padding; cbn [andb].
  2: { split; [done|]. unfold u16 in *. split; [Z.div_mod_to_equations; lia|]. intros. apply Z.mod_small. lia. }
  destruct (Z.eqb_spec (u16 (4 + l) mod 4) 0) as [E|E]; cbn [negb].
  - split; [done|]. unfold u16 in *. split; [Z.div_mod_to_equations; lia|]. intros H.
    rewrite Z.mod_small in * by lia. unfold pad4. Z.div_mod_to_equations. lia.
  - rewrite round_up_shift by (done || lia). pose proof (pad4_bounds (u16 (4 + l))).
    pose proof (pad4_mod (u16 (4 + l))). split; [apply Z.mod_pos_bound; lia|].
    unfold u16 in *. split; [intros; Z.div_mod_to_equations; lia|]. intros H1.
    rewrite (Z.mod_small (4 + l)) in * by lia. unfold pad4 in *.
    rewrite Z.mod_small; Z.div_mod_to_equations; lia.
Qed.

Lemma channel_frame_app l padding : 0 <= l < 65536 ->
  0 < channel_frame l padding -> 0 <= u16 (4 + l) <= channel_frame l padding.
Proof.
  intros Hl. unfold channel_frame. pose proof (Z.mod_pos_bound (4 + l) 65536 ltac:(lia)) as Hm.
  rewrite land3. unfold truth. fold (u16 (4 + l)) in *. destruct padding; cbn [andb]; [|lia].
  destruct (Z.eqb_spec (u16 (4 + l) mod 4) 0) as [E|E]; cbn [negb]; [lia|].
  rewrite round_up_shift by (done || lia). pose proof (pad4_bounds (u16 (4 + l))) as Hb.
  pose proof (pad4_mod (u16 (4 + l))) as Hp. set (x := u16 (4 + l)) in *.
  assert (pad4 x <= 65536) as Hle by (Z.div_mod_to_equations; lia).
  intros Hpos. destruct (Z.eq_dec (pad4 x) 65536) as [He|Hne]; [by rewrite He in Hpos|].
  rewrite u16_small by lia. lia.
Qed.

Lemma message_len_channel_branch buf blen padding a0 :
  bytes buf -> blen <= zlen buf ->
  exists r app,
    message_len_channel buf blen padding a0 = Some (r, app) /\
    -1 <= r <= Z.max (-1) blen /\ (0 < r -> 0 <= app <= r) /\
    (r = 0 -> exists l, be_at 2 buf 2 = Some l /\ 65516 <= l) /\
    (forall chn l, be_at 2 buf 0 = Some chn -> STUN_VALID_CHANNEL chn = true -> be_at 2 buf 2 = Some l ->
       4 <= blen -> channel_frame l padding <= blen ->
       r = channel_frame l padding /\ app = u16 (4 + l)).
Proof.
  intros Hb Hl. unfold message_len_channel. destruct (Z.leb_spec 4 blen).
  2: { exists (-1), a0. split; [done|]. split; [lia|]. split; [lia|]. split; [lia|]. lia. }
  destruct (ldn16_ok buf 0) as (t & -> & Ht & _); [done|lia..|]. cbn [mbind option_bind]. rewrite Ht.
  destruct (STUN_VALID_CHANNEL t) eqn:Ev.
  2: { exists (-1), a0. split; [done|]. split; [lia|]. split; [lia|]. split; [done|]. intros ? ? [= <-]. congruence. }
  destruct (ldn16_ok buf 2) as (l & -> & Hll & Hlr); [done|lia..|]. cbn [mbind option_bind]. rewrite Hll. cbv zeta.
  fold (channel_frame l padding). destruct (channel_frame_range l padding Hlr) as (Hr & H0 & _).
  pose proof (channel_frame_app l padding Hlr) as Happ.
  destruct (Z.leb_spec (channel_frame l padding) blen).
  - eexists _, _. split; [done|]. split; [lia|]. split; [exact Happ|]. split; [intros Hz; exists l; auto|].
    by intros ? ? [= <-] _ [= <-].
  - eexists _, _. split; [done|]. split; [lia|]. split; [lia|]. split; [done|]. intros ? ? [= <-] _ [= <-]. lia.
Qed.

(** On [blen] bytes with a terminator at or after their end, the function reads
    nothing outside the buffer and returns at most [blen]. *)
Lemma message_len_total data rest blen padding a0 :
  bytes (data ++ 0 :: rest) -> 0 < blen <= zlen data -> blen < 0x10000000 ->
  exists r app, stun_get_message_len_str (Some (data ++ 0 :: rest)) blen padding a0 = Some (r, app) /\
  -1 <= r <= blen /\ (0 < r -> 0 <= app <= r) /\
  (r = 0 -> exists l, be_at 2 (data ++ 0 :: rest) 2 = Some l /\ 65516 <= l).
Proof.
  intros Hb He Hmax. unfold stun_get_message_len_str. set (buf := data ++ 0 :: rest) in *.
  assert (blen <= zlen buf) as Hz.
  { unfold buf. rewrite zlen_app, zlen_cons. pose proof (zlen_nonneg rest). lia. }
  destruct (Z.eqb_spec blen 0); [lia|].
  destruct (message_len_stun_branch buf blen Hb Hz) as (r & -> & Hr & _). cbn [mbind option_bind].
  destruct r as [v|].
  { destruct (Hr v eq_refl) as (Hn & l & Hbe & Hlr & ->). exists (u16 (l + 20)), (u16 (l + 20)).
    split; [done|]. unfold u16 in *. split; [Z.div_mod_to_equations; lia|]. split; [lia|]. intros H0. exists l. split; [done|].
    Z.div_mod_to_equations. lia. }
  destruct (is_http_inline_total data rest blen) as (h & Hh & _ & Hh0); [lia..|]. fold buf in Hh. rewrite Hh.
  cbn [mbind option_bind]. destruct ((0 <? h) && (h <=? blen)) eqn:Eh.
  { exists h, h. zbool. split; [done|]. split; [lia|]. split; lia. }
  destruct (message_len_channel_branch buf blen padding a0 Hb Hz) as (r & app & Hc & Hrb & Ha & Hr0 & _).
  exists r, app. split; [exact Hc|]. split; [lia|]. by split.
Qed.

(** A buffer with a terminator at or after its first [blen] bytes. *)
Lemma terminated_from (buf : list Z) blen :
  0 <= blen -> 0 ∈ drop (Z.to_nat blen) buf -> exists data rest, buf = data ++ 0 :: rest /\ blen <= zlen data.
Proof.
  intros Hn (l1 & l2 & Hd)%list_elem_of_split. exists (take (Z.to_nat blen) buf ++ l1), l2.
  assert (Z.to_nat blen < length buf)%nat as Hl.
  { apply (f_equal length) in Hd. rewrite length_drop, length_app in Hd. cbn [length] in Hd. lia. }
  split; [by rewrite <- app_assoc, <- Hd, take_drop|]. rewrite zlen_app. unfold zlen. rewrite length_take. lia.
Qed.

(** The first [blen] bytes begin with a whole STUN message: the first test of the
    function recognises it. *)
Definition stun_first (buf : list Z) (blen : Z) : Prop :=
  exists t l, be_at 2 buf 0 = Some t /\ t < 0x4000 /\ be_at 4 buf 4 = Some STUN_MAGIC_COOKIE /\
    be_at 2 buf 2 = Some l /\ l mod 4 = 0 /\ 20 <= blen /\ u16 (l + 20) <= blen.

(** C2. Framing a byte stream is safe and bounded: on [blen] received bytes, fewer than
    2^28 and of any values, the function reads nothing outside the buffer if a NUL
    stands somewhere at or after their end, or if the search for an HTTP method is not
    reached: fewer than 12 bytes were received, or they begin with a whole STUN message.
    The length it returns is -1 or at most [blen], so a caller can cut the message off;
    a length of 0, which would not advance, needs a length field of 65516 or more, where
    the 16-bit sum wraps. *)
Theorem stun_get_message_len_bounds buf blen padding a0 :
  bytes buf -> 0 < blen <= zlen buf -> blen < 0x10000000 ->
  0 ∈ drop (Z.to_nat blen) buf \/ blen < 12 \/ stun_first buf blen ->
  exists r app, stun_get_message_len_str (Some buf) blen padding a0 = Some (r, app) /\
  -1 <= r <= blen /\
  (r = 0 -> exists l, be_at 2 buf 2 = Some l /\ 65516 <= l).
Proof.
  intros Hb Hz Hmax [H|H].
  { destruct (terminated_from buf blen ltac:(lia) H) as (data & rest & -> & Hd).
    destruct (message_len_total data rest blen padding a0 Hb) as (r & app & Hr & Hle & _ & H0); [lia..|]. by exists r, app. }
  unfold stun_get_message_len_str. destruct (Z.eqb_spec blen 0); [lia|].
  destruct (message_len_stun_branch buf blen Hb) as (r & Hs & Hr & Hstun & _); [lia|]. rewrite Hs. cbn [mbind option_bind].
  destruct r as [v|].
  { destruct (Hr v eq_refl) as (Hn & l & Hbe & Hlr & ->). exists (u16 (l + 20)), (u16 (l + 20)). split; [done|].
    unfold u16 in *. split; [Z.div_mod_to_equations; lia|]. intros H0. exists l. split; [done|]. Z.div_mod_to_equations. lia. }
  destruct H as [H|(t & l & H1 & H2 & H3 & H4 & H5 & H6 & H7)]; [|by specialize (Hstun t l H1 H2 H3 H4 H5 H6 H7)].
  unfold is_http_inline. destruct (Z.leb_spec 12 blen); [lia|]. cbn [mbind option_bind]. change (0 <? 0) with false. cbn [andb].
  destruct (message_len_channel_branch buf blen padding a0 Hb) as (r & app & Hc & Hrb & _ & Hr0 & _); [lia|].
  exists r, app. split; [exact Hc|]. split; [lia|exact Hr0].
Qed.

(** Framing recognises what the code sends.  A STUN message with the magic
    cookie at the start of the input is cut at its own length, up to 65535 bytes.
    A channel message is cut at its padded or unpadded length, with the payload
    length reported, unless its channel number spells the first two letters of an
    HTTP method. *)
Theorem stun_get_message_len_frames data rest blen padding a0 t l :
  let buf := data ++ 0 :: rest in
  bytes buf -> blen = zlen data -> blen < 0x10000000 -> be_at 2 buf 0 = Some t -> be_at 2 buf 2 = Some l ->
  (t < 0x4000 -> be_at 4 buf 4 = Some STUN_MAGIC_COOKIE -> l mod 4 = 0 -> l <= 65515 -> l + 20 <= blen ->
   stun_get_message_len_str (Some buf) blen padding a0 = Some (l + 20, l + 20)) /\
  (STUN_VALID_CHANNEL t = true -> ~ method_start buf -> l <= 65528 ->
   4 + (if padding then pad4 l else l) <= blen -> 12 <= blen ->
   stun_get_message_len_str (Some buf) blen padding a0 =
     Some (4 + (if padding then pad4 l else l), 4 + l)).
Proof.
  intros buf Hb He Hmax Ht Hl.
  assert (blen <= zlen buf) as Hz.
  { unfold buf. rewrite zlen_app, zlen_cons. pose proof (zlen_nonneg rest). lia. }
  pose proof (be_at_range 2 _ _ _ Hb Hl) as Hlr. change (256 ^ 2) with 65536 in Hlr.
  destruct (message_len_stun_branch buf blen Hb Hz) as (r & Hs & _ & Hstun & Hchan).
  unfold stun_get_message_len_str. split.
  - intros Htr Hc Hm Hl1 Hl2. destruct (Z.eqb_spec blen 0); [lia|]. rewrite Hs. cbn [mbind option_bind].
    assert (u16 (l + 20) = l + 20) as Eu by (apply u16_small; lia).
    by rewrite (Hstun t l Ht Htr Hc Hl Hm) by lia; rewrite Eu.
  - intros Hv Hn Hl1 Hl2 H12. destruct (Z.eqb_spec blen 0); [lia|]. rewrite Hs. cbn [mbind option_bind].
    rewrite (Hchan t Ht Hv). destruct (is_http_inline_total data rest blen) as (h & Hh & Hms & Hh0); [lia..|].
    fold buf in Hh, Hms. rewrite Hh. cbn [mbind option_bind].
    destruct (Z.ltb_spec 0 h); [exfalso; auto|]. cbn [andb].
    destruct (channel_frame_range l padding ltac:(lia)) as (_ & _ & Hf). specialize (Hf Hl1).
    destruct (message_len_channel_branch buf blen padding a0 Hb Hz) as (r' & app & Hc & _ & _ & _ & Hch).
    destruct (Hch t l Ht Hv Hl) as [-> ->]; [lia..|]. rewrite Hf in Hc.
    assert (u16 (4 + l) = 4 + l) as Eu by (apply u16_small; lia). rewrite Eu in Hc. exact Hc.
Qed.

(** Bytes that are no message with a NUL behind them, and a STUN message that fills its
    buffer. *)
Lemma stun_get_message_len_bounds_witness :
  (exists r app, stun_get_message_len_str (Some (replicate 24 65 ++ [0])) 24 true 7 = Some (r, app) /\ -1 <= r <= 24) /\
  (exists r app, stun_get_message_len_str (Some ([0; 1; 0; 0; 0x21; 0x12; 0xA4; 0x42] ++ replicate 12 9)) 20 true 7 = Some (r, app) /\
     -1 <= r <= 20).
Proof.
  split.
  - destruct (stun_get_message_len_bounds (replicate 24 65 ++ [0]) 24 true 7) as (r & app & H & Hr & _);
      [repeat constructor; lia|by vm_compute|lia|left; apply list_elem_of_here|]. exists r, app. split; [exact H|exact Hr].
  - destruct (stun_get_message_len_bounds ([0; 1; 0; 0; 0x21; 0x12; 0xA4; 0x42] ++ replicate 12 9) 20 true 7) as (r & app & H & Hr & _);
      [repeat constructor; lia|by vm_compute|lia| |].
    { right; right. exists 1, 0. by repeat split. }
    exists r, app. split; [exact H|exact Hr].
Defined.

Lemma stun_get_message_len_frames_witness :
  let buf := [0x40; 1; 0; 5; 1; 2; 3; 4; 5; 0; 0; 0; 9; 9] ++ 0 :: [] in
  stun_get_message_len_str (Some buf) 14 true 7 = Some (12, 9).
Proof.
  intros buf. apply (proj2 (stun_get_message_len_frames [0x40; 1; 0; 5; 1; 2; 3; 4; 5; 0; 0; 0; 9; 9] [] 14 true 7 0x4001 5
    ltac:(repeat constructor; lia) eq_refl ltac:(lia) eq_refl eq_refl));
    [reflexivity|intros [H|[H|[H|H]]]; discriminate H|lia|discriminate|lia].
Defined.
