(* ===== verification/Crypto.v ===== *)
(** The interface to OpenSSL's hashing functions.

    [HMAC] and the message digests are not code of the repository: they are
    operations of the class [Crypto], with what the code relies on (that a digest
    has the size of its algorithm and is made of bytes) as the laws [CryptoLaws].
    [toy_crypto] is an instance on which witnesses compute. *)

From S2P Require Import Prelude Defs.

Inductive digest_alg : Type := MD5 | SHA1 | SHA256 | SHA384 | SHA512.

Definition digest_size (a : digest_alg) : Z :=
  match a with MD5 => 16 | SHA1 => 20 | SHA256 => 32 | SHA384 => 48 | SHA512 => 64 end.

Class Crypto : Type := {
  (** [HMAC(alg,key,keylen,data,len,...)]: [None] for the NULL it returns on failure. *)
  HMAC : digest_alg -> list Z -> list Z -> option (list Z);
  (** [EVP_DigestInit/Update/Final] over the whole data. *)
  EVP_Digest : digest_alg -> list Z -> list Z;
}.

Class CryptoLaws (C : Crypto) : Prop := {
  HMAC_size a k d h : HMAC a k d = Some h -> zlen h = digest_size a;
  HMAC_bytes a k d h : HMAC a k d = Some h -> bytes h;
  EVP_Digest_size a d : zlen (EVP_Digest a d) = digest_size a;
  EVP_Digest_bytes a d : bytes (EVP_Digest a d);
}.

(** The sum of the bytes, repeated: a function with the right sizes. *)
Definition toy_sum (d : list Z) : Z := u8 (foldl Z.add 0 d).

#[export] Instance toy_crypto : Crypto := {
  HMAC a k d := Some (replicate (Z.to_nat (digest_size a)) (u8 (toy_sum k + toy_sum d)));
  EVP_Digest a d := replicate (Z.to_nat (digest_size a)) (toy_sum d);
}.

#[export] Instance toy_crypto_laws : CryptoLaws toy_crypto.
Proof.
  split.
  - intros a k d h [= <-]. by destruct a.
  - intros a k d h [= <-]. apply Forall_replicate. apply u8_range.
  - intros a d. by destruct a.
  - intros a d. apply Forall_replicate. apply u8_range.
Qed.
