(* ===== verification/Password.v ===== *)
(** Stored passwords and password preparation ([readable_string],
    [generate_enc_password], [encrypted_password], [check_password], [SASLprep]
    of [client/ns_turn_msg.c]). *)

From S2P Require Import Prelude Defs CString StunHeader Crypto.

Definition PWD_SALT_SIZE : Z := 8.

(** The lower-case hexadecimal digit of a value below 16. *)
Definition hex_digit (d : Z) : Z := if d <? 10 then 48 + d else 87 + d.

(** ["%02x"] of a byte. *)
Definition hex2 (b : Z) : list Z := [hex_digit (b / 16); hex_digit (b mod 16)].

(** The loop of [readable_string], from index [i]; [snprintf] also writes a NUL. *)
Fixpoint readable_loop (n : nat) (i : Z) (orig out : list Z) (p : Z) : option (list Z) :=
  match n with
  | O => Some out
  | S n' =>
    b ← rd8 orig i;
    out ← wr_block out (p + i * 2) (hex2 b ++ [0]);
    readable_loop n' (i + 1) orig out p
  end.

(** [out] is the array from [out + p]. *)
Definition readable_string (orig : list Z) (out : list Z) (p : Z) (sz : Z) : option (list Z) :=
  out ← wr8 out p 0;
  readable_loop (Z.to_nat sz) 0 orig out p.

Section password.
Context `{C : Crypto}.

(** [pwd]: the memory of the C string; [result]: the caller's array. *)
Definition generate_enc_password (pwd : list Z) (result : list Z) (orig_salt : option (list Z)) (e : entropy)
    : option (list Z) :=
  let salt := replicate 9 0 in
  salt ← match orig_salt with
         | None => generate_random_nonce salt PWD_SALT_SIZE e
         | Some os =>
           bs ← rd_block os 0 PWD_SALT_SIZE;
           salt ← wr_block salt 0 bs;
           wr8 salt PWD_SALT_SIZE 0
         end;
  let rsalt := replicate 17 0 in
  rsalt ← readable_string salt rsalt 0 PWD_SALT_SIZE;
  result ← wr8 result 0 36;
  result ← wr8 result 1 53;
  result ← wr8 result 2 36;
  rs ← rd_block rsalt 0 (PWD_SALT_SIZE + PWD_SALT_SIZE);
  result ← wr_block result 3 rs;
  result ← wr8 result (3 + PWD_SALT_SIZE + PWD_SALT_SIZE) 36;
  s8 ← rd_block salt 0 PWD_SALT_SIZE;
  pw ← c_str pwd;
  let h := EVP_Digest SHA256 (s8 ++ pw) in
  hash ← wr_block (replicate 129 0) 0 h;
  readable_string hash result (3 + PWD_SALT_SIZE + PWD_SALT_SIZE + 1) (zlen h).

Definition generate_new_enc_password (pwd result : list Z) (e : entropy) : option (list Z) :=
  generate_enc_password pwd result None e.

(** The loop that reads the salt back: [pin+3+i+i], two characters a byte. *)
Fixpoint salt_loop (n : nat) (i : Z) (pin salt : list Z) : option (list Z) :=
  match n with
  | O => Some salt
  | S n' =>
    c0 ← rd8 pin (3 + i + i);
    c1 ← rd8 pin (3 + i + i + 1);
    v ← strtoul [c0; c1; 0] 16;
    salt ← wr8 salt i v;
    salt_loop n' (i + 1) pin salt
  end.

Definition encrypted_password (pin salt : list Z) : option (bool * list Z) :=
  let min_len := 3 + PWD_SALT_SIZE + PWD_SALT_SIZE + 1 + 32 in
  n ← strlen pin;
  if min_len <=? n then
    c0 ← rd8 pin 0; c1 ← rd8 pin 1; c2 ← rd8 pin 2;
    c19 ← rd8 pin (3 + PWD_SALT_SIZE + PWD_SALT_SIZE);
    if (c0 =? 36) && (c1 =? 53) && (c2 =? 36) && (c19 =? 36) then
      salt ← salt_loop (Z.to_nat PWD_SALT_SIZE) 0 pin salt;
      Some (true, salt)
    else Some (false, salt)
  else Some (false, salt).

(** [strcmp(a,b)==0] *)
Definition strcmp_eq (a b : list Z) : option bool :=
  x ← c_str a; y ← c_str b; Some (streq x y).

(** [true] stands for the 0 of [strcmp]. *)
Definition check_password (pin pwd : list Z) : option bool :=
  '(enc, salt) ← encrypted_password pwd (replicate 8 0);
  if negb enc then strcmp_eq pin pwd else
  enc_pin ← generate_enc_password pin (replicate 257 0) (Some salt) (Entropy 1 [] []);
  strcmp_eq enc_pin pwd.
End password.

(** * SASLprep *)

(** The loop, with its input and output positions. *)
Fixpoint sasl_loop (fuel : nat) (s : list Z) (strin strout : Z) : option (Z * list Z) :=
  match fuel with
  | O => None
  | S f =>
    c ← rd8 s strin;
    if c =? 0 then s ← wr8 s strout 0; Some (0, s)
    else if c =? 0xAD then sasl_loop f s (strin + 1) strout
    else if (c =? 0xA0) || (c =? 0x20) then s ← wr8 s strout 0x20; sasl_loop f s (strin + 1) (strout + 1)
    else if c =? 0x7F then Some (-1, s)
    else if c <? 0x1F then Some (-1, s)
    else if (0x80 <=? c) && (c <=? 0x9F) then Some (-1, s)
    else s ← wr8 s strout c; sasl_loop f s (strin + 1) (strout + 1)
  end.

(** [s]: NULL or the memory of the C string, prepared in place. *)
Definition SASLprep (s : option (list Z)) : option (Z * option (list Z)) :=
  match s with
  | None => Some (0, None)
  | Some s => '(r, s) ← sasl_loop (length s) s 0 0; Some (r, Some s)
  end.

(** The characters [SASLprep] leaves, or [None] for a prohibited one. *)
Fixpoint sasl_chars (t : list Z) : option (list Z) :=
  match t with
  | [] => Some []
  | c :: t' =>
    if c =? 0xAD then sasl_chars t'
    else if (c =? 0xA0) || (c =? 0x20) then cons 0x20 <$> sasl_chars t'
    else if (c =? 0x7F) || (c <? 0x1F) || ((0x80 <=? c) && (c <=? 0x9F)) then None
    else cons c <$> sasl_chars t'
  end.

(** * Hexadecimal strings *)

Definition hexs (bs : list Z) : list Z := concat (hex2 <$> bs).

Lemma zlen_hexs bs : zlen (hexs bs) = 2 * zlen bs.
Proof.
  induction bs as [|b bs IH]; [done|]. unfold hexs in *. cbn [fmap list_fmap concat].
  rewrite zlen_app, IH, zlen_cons. change (zlen (hex2 b)) with 2. lia.
Qed.

Lemma readable_loop_spec bs pre post out p :
  rd_block out (p + 2 * zlen pre) 1 = Some [0] ->
  readable_loop (length bs) (zlen pre) (pre ++ bs ++ post) out p =
  wr_block out (p + 2 * zlen pre) (hexs bs ++ [0]).
Proof.
  revert pre out. induction bs as [|b bs IH]; intros pre out H0.
  - symmetry. by eapply wr_block_same.
  - cbn [length readable_loop].
    assert (rd8 (pre ++ (b :: bs) ++ post) (zlen pre) = Some b) as ->.
    { apply (rd8_part _ 0 (zlen (pre ++ (b :: bs) ++ post)) pre b (bs ++ post)); [apply rd_block_full|lia]. }
    cbn [mbind option_bind]. replace (p + zlen pre * 2) with (p + 2 * zlen pre) by lia.
    set (q := p + 2 * zlen pre) in *. change (hexs (b :: bs)) with (hex2 b ++ hexs bs).
    rewrite <- app_assoc, (wr_block_app _ _ (hex2 b) (hexs bs ++ [0])), (wr_block_app _ _ (hex2 b) [0]).
    change (zlen (hex2 b)) with 2. destruct (wr_block out q (hex2 b)) as [o|] eqn:Eo; cbn [mbind option_bind]; [|done].
    destruct (wr_block o (q + 2) [0]) as [o1|] eqn:E1; cbn [mbind option_bind].
    + rewrite <- (wr_block_overwrite_le _ _ _ (hexs bs ++ [0]) _ E1)
        by (rewrite zlen_app, !zlen_1; pose proof (zlen_nonneg (hexs bs)); lia).
      assert (zlen (pre ++ [b]) = zlen pre + 1) as Hz by (by rewrite zlen_app).
      specialize (IH (pre ++ [b]) o1). rewrite Hz in IH.
      replace (p + 2 * (zlen pre + 1)) with (q + 2) in IH by lia. rewrite <- IH; [by rewrite <- app_assoc|].
      by apply rd_wr_same in E1.
    + symmetry. eapply wr_block_None_le; [exact E1|]. rewrite zlen_app. pose proof (zlen_nonneg (hexs bs)). lia.
Qed.

Lemma readable_string_spec bs rest out p :
  0 <= p -> p + 2 * zlen bs + 1 <= zlen out ->
  exists out', readable_string (bs ++ rest) out p (zlen bs) = Some out' /\
  wr_block out p (hexs bs ++ [0]) = Some out'.
Proof.
  intros Hp Hl. unfold readable_string. pose proof (zlen_nonneg bs).
  destruct (wr_block_is_Some out p [u8 0]) as [o Ho]; [lia|change (zlen [u8 0]) with 1; lia|].
  assert (wr8 out p 0 = Some o) as -> by exact Ho. cbn [mbind option_bind].
  assert (Z.to_nat (zlen bs) = length bs) as -> by (unfold zlen; lia).
  pose proof (readable_loop_spec bs [] rest o p) as H1. cbn [app] in H1. change (zlen []) with 0 in H1.
  rewrite Z.mul_0_r, Z.add_0_r in H1. rewrite H1 by (by apply rd_wr_same in Ho).
  rewrite (wr_block_overwrite_le _ _ _ (hexs bs ++ [0]) _ Ho)
    by (rewrite zlen_app, !zlen_1; pose proof (zlen_nonneg (hexs bs)); lia).
  destruct (wr_block_is_Some out p (hexs bs ++ [0])) as [o' Ho']; [lia| |by exists o'].
  rewrite zlen_app, zlen_hexs. change (zlen [0]) with 1. lia.
Qed.

Definition hex_check (b : Z) : bool :=
  forallb (λ c, negb (c =? 0)) (hex2 b) && bool_decide (strtoul (hex2 b ++ [0]) 16 = Some b).

Lemma hex_check_all : forallb hex_check (Z.of_nat <$> seq 0 256) = true.
Proof. by vm_compute. Qed.

Lemma hex2_spec b : 0 <= b < 256 ->
  nonzero (hex2 b) /\ strtoul (hex2 b ++ [0]) 16 = Some b.
Proof.
  intros Hb. pose proof (forallb_upto hex_check 256 hex_check_all b Hb) as H. unfold hex_check in H.
  apply andb_true_iff in H as [H1 H2%bool_decide_eq_true]. split; [|done].
  unfold nonzero. rewrite Forall_forall. rewrite forallb_forall in H1.
  intros c Hc. apply list_elem_of_In, H1 in Hc. by apply negb_true_iff, Z.eqb_neq in Hc.
Qed.

Lemma hexs_nonzero bs : bytes bs -> nonzero (hexs bs).
Proof.
  induction 1 as [|b bs Hb Hbs IH]; [constructor|]. apply Forall_app. split; [by apply hex2_spec|done].
Qed.

(** Hexadecimal printing is injective. *)
Lemma hexs_inj a b : bytes a -> bytes b -> hexs a = hexs b -> a = b.
Proof.
  intros Ha. revert b. induction Ha as [|x a Hx Ha IH]; intros b Hb; destruct Hb as [|y b Hy Hb]; try done.
  intros E. unfold hexs in E. cbn [fmap list_fmap concat] in E.
  assert (hex2 x = hex2 y /\ concat (hex2 <$> a) = concat (hex2 <$> b)) as [E1 E2].
  { unfold hex2 in *. cbn [app] in E. injection E as -> -> E. done. }
  f_equal; [|by apply IH]. destruct (hex2_spec x Hx) as [_ Ex]. destruct (hex2_spec y Hy) as [_ Ey].
  rewrite E1, Ey in Ex. by injection Ex.
Qed.

(** * Stored passwords *)

Section stored.
Context `{C : Crypto} {L : CryptoLaws C}.

(** The stored form: "$5$", the salt in hexadecimal, "$", and the hexadecimal
    SHA-256 of the salt followed by the password. *)
Definition stored (salt pw : list Z) : list Z :=
  lit "$5$" ++ hexs salt ++ [36] ++ hexs (EVP_Digest SHA256 (salt ++ pw)).

(** The salt a new password gets. *)
Definition nonce_of (e : entropy) : list Z :=
  if rnd_rc e =? 0 then u8 <$> take 8 (rnd_words e) else rnd_bytes e.

Definition salt_ok (salt : list Z) : Prop := bytes salt /\ length salt = 8%nat.

Definition salt_used (orig_salt : option (list Z)) (e : entropy) (salt : list Z) : Prop :=
  match orig_salt with Some os => rd_block os 0 8 = Some salt | None => nonce_of e = salt end.

Lemma salt_array (salt : list Z) :
  length salt = 8%nat -> wr_block (replicate 9 0) 0 salt = Some (salt ++ [0]).
Proof.
  intros H. assert (zlen salt = 8) as Hz by (unfold zlen; lia).
  rewrite wr_block_ok; [|lia|rewrite Hz; done]. by rewrite Hz.
Qed.

Lemma zlen_hash d : zlen (EVP_Digest SHA256 d) = 32.
Proof using L. by rewrite EVP_Digest_size. Qed.

Lemma generate_enc_password_spec pw result orig_salt e salt :
  nonzero pw -> 85 <= zlen result -> salt_ok salt -> salt_used orig_salt e salt ->
  exists r', generate_enc_password (cstring pw) result orig_salt e = Some r' /\
  wr_block result 0 (stored salt pw ++ [0]) = Some r'.
Proof using L.
  intros Hpw Hres [Hsb Hsl] Hsalt. unfold generate_enc_password. cbv zeta. unfold PWD_SALT_SIZE.
  assert (zlen salt = 8) as Hz by (unfold zlen; lia). assert (zlen (hexs salt) = 16) as Hzh by (rewrite zlen_hexs; lia).
  assert (match orig_salt with
          | None => generate_random_nonce (replicate 9 0) 8 e
          | Some os => bs ← rd_block os 0 8; s ← wr_block (replicate 9 0) 0 bs; wr8 s 8 0
          end = Some (salt ++ [0])) as ->.
  { unfold salt_used in Hsalt. destruct orig_salt as [os|].
    - rewrite Hsalt. cbn [mbind option_bind]. rewrite salt_array by done. cbn [mbind option_bind].
      unfold wr8. apply (wr_block_same _ _ 1). rewrite <- (app_nil_r (salt ++ [0])), <- app_assoc, <- Hz.
      by apply (rd_block_here salt [0] []).
    - unfold generate_random_nonce, nonce_of in *. change (Z.to_nat 8) with 8%nat.
      destruct (rnd_rc e =? 0); rewrite Hsalt; by apply salt_array. }
  cbn [mbind option_bind].
  destruct (readable_string_spec salt [0] (replicate 17 0) 0) as (rs & Hrs & Hw); [lia|rewrite Hz; done|].
  rewrite Hz in Hrs. rewrite Hrs. cbn [mbind option_bind].
  destruct (wr_block_is_Some result 0 (stored salt pw ++ [0])) as [r' Hr']; [lia| |].
  { unfold stored. rewrite !zlen_app, Hzh, zlen_hexs, zlen_hash, !zlen_1. by change (zlen (lit "$5$")) with 3. }
  exists r'. split; [|done]. unfold stored in Hr'. rewrite <- !app_assoc in Hr'.
  change (lit "$5$") with ([36] ++ [53] ++ [36]) in Hr'. rewrite <- !app_assoc in Hr'.
  rewrite wr_block_app in Hr'. change (wr8 result 0 36) with (wr_block result 0 [36]).
  destruct (wr_block result 0 [36]) as [r1|]; cbn [mbind option_bind] in *; [|done].
  rewrite wr_block_app in Hr'. change (wr8 r1 1 53) with (wr_block r1 (0 + zlen [36]) [53]).
  destruct (wr_block r1 _ [53]) as [r2|]; cbn [mbind option_bind] in *; [|done].
  rewrite wr_block_app in Hr'. change (wr8 r2 2 36) with (wr_block r2 (0 + zlen [36] + zlen [53]) [36]).
  destruct (wr_block r2 _ [36]) as [r3|]; cbn [mbind option_bind] in *; [|done].
  assert (rd_block rs 0 (8 + 8) = Some (hexs salt)) as ->.
  { by apply (rd_wr_part _ _ [] (hexs salt) [0] _ 0 16 Hw). }
  cbn [mbind option_bind]. rewrite wr_block_app in Hr'. change (0 + zlen [36] + zlen [53] + zlen [36]) with 3 in Hr'.
  destruct (wr_block r3 3 (hexs salt)) as [r4|]; cbn [mbind option_bind] in *; [|done].
  rewrite wr_block_app, Hzh in Hr'. change (wr8 r4 (3 + 8 + 8) 36) with (wr_block r4 (3 + 16) [36]).
  destruct (wr_block r4 (3 + 16) [36]) as [r5|] eqn:E5; cbn [mbind option_bind] in *; [|done].
  assert (rd_block (salt ++ [0]) 0 8 = Some salt) as ->.
  { rewrite <- Hz. by apply (rd_block_here [] salt [0]). }
  cbn [mbind option_bind]. rewrite c_str_cstring by done. cbn [mbind option_bind].
  set (h := EVP_Digest SHA256 (salt ++ pw)) in *. assert (zlen h = 32) as Hh by apply zlen_hash.
  rewrite wr_block_ok; [|lia|rewrite Hh; done]. cbn [mbind option_bind]. change (Z.to_nat 0) with 0%nat. rewrite take_0.
  change (3 + 16 + zlen [36]) with 20 in Hr'. apply wr_block_bounds in Hr' as Hbd. rewrite zlen_app, zlen_hexs, zlen_1 in Hbd.
  destruct (readable_string_spec h (drop (Z.to_nat (0 + zlen h)) (replicate 129 0)) r5 20) as (r6 & Hr6 & Hw6); [lia|lia|].
  rewrite Hw6 in Hr'. rewrite <- Hr', <- Hr6. done.
Qed.

Lemma stored_nonzero salt pw : bytes salt -> nonzero (stored salt pw).
Proof using L.
  intros Hs. unfold stored. apply Forall_app. split; [by repeat constructor|].
  apply Forall_app. split; [by apply hexs_nonzero|]. constructor; [done|]. apply hexs_nonzero, EVP_Digest_bytes.
Qed.

Lemma salt_loop_spec pin pre s : forall a zs post,
  bytes s -> zlen pre = 3 + 2 * zlen a -> pin = pre ++ hexs s ++ post -> length zs = length s ->
  salt_loop (length s) (zlen a) pin (a ++ zs) = Some (a ++ s).
Proof.
  revert pre. induction s as [|b s IH]; intros pre a zs post Hs Hp Hpin Hz.
  - destruct zs; [|done]. done.
  - inversion_clear Hs as [|? ? Hb Hs']. destruct zs as [|z zs]; [done|]. cbn [length salt_loop].
    change (hexs (b :: s)) with (hex2 b ++ hexs s) in Hpin. rewrite <- app_assoc in Hpin.
    assert (rd8 pin (3 + zlen a + zlen a) = Some (hex_digit (b / 16))) as ->.
    { apply (rd8_part _ 0 (zlen pin) pre (hex_digit (b / 16)) (hex_digit (b mod 16) :: hexs s ++ post)); [|lia].
      by rewrite rd_block_full, Hpin. }
    assert (rd8 pin (3 + zlen a + zlen a + 1) = Some (hex_digit (b mod 16))) as ->.
    { apply (rd8_part _ 0 (zlen pin) (pre ++ [hex_digit (b / 16)]) (hex_digit (b mod 16)) (hexs s ++ post));
        [|rewrite zlen_app, zlen_1; lia].
      rewrite rd_block_full, Hpin. by rewrite <- app_assoc. }
    cbn [mbind option_bind]. destruct (hex2_spec b Hb) as [_ Hh]. cbn [hex2 app] in Hh. rewrite Hh.
    cbn [mbind option_bind]. rewrite wr8_here by done.
    change (a ++ b :: zs) with (a ++ [b] ++ zs). rewrite (app_assoc a [b] zs).
    cbn [mbind option_bind]. replace (zlen a + 1) with (zlen (a ++ [b])) by by rewrite zlen_app.
    rewrite (IH (pre ++ hex2 b) (a ++ [b]) zs post Hs').
    + by rewrite <- app_assoc.
    + rewrite !zlen_app, zlen_1. change (zlen (hex2 b)) with 2. lia.
    + by rewrite Hpin, <- app_assoc.
    + by injection Hz.
Qed.

Lemma encrypted_password_stored salt pw rest :
  salt_ok salt ->
  encrypted_password (stored salt pw ++ 0 :: rest) (replicate 8 0) = Some (true, salt).
Proof using L.
  intros [Hb Hl]. unfold encrypted_password, PWD_SALT_SIZE. unfold strlen.
  rewrite c_str_terminated by by apply stored_nonzero. cbn [fmap option_fmap option_map mbind option_bind].
  set (pin := stored salt pw ++ 0 :: rest). assert (zlen salt = 8) as Hz by (unfold zlen; lia).
  assert (zlen (hexs salt) = 16) as Hzh by (rewrite zlen_hexs; lia).
  assert ((3 + 8 + 8 + 1 + 32 <=? zlen (stored salt pw)) = true) as ->.
  { apply Z.leb_le. unfold stored. rewrite !zlen_app, Hzh, zlen_hexs, zlen_hash, zlen_1. vm_compute. discriminate. }
  assert (pin = lit "$5$" ++ hexs salt ++ 36 :: hexs (EVP_Digest SHA256 (salt ++ pw)) ++ 0 :: rest) as Hpin.
  { unfold pin, stored. by rewrite <- !app_assoc. }
  assert (rd8 pin 0 = Some 36) as -> by (rewrite Hpin; by apply (rd8_here [])).
  assert (rd8 pin 1 = Some 53) as -> by (rewrite Hpin; by apply (rd8_here [36])).
  assert (rd8 pin 2 = Some 36) as -> by (rewrite Hpin; by apply (rd8_here [36; 53])).
  assert (rd8 pin (3 + 8 + 8) = Some 36) as ->.
  { rewrite Hpin, app_assoc. apply rd8_here. by rewrite zlen_app, Hzh. }
  cbn [mbind option_bind]. change ((36 =? 36) && (53 =? 53) && (36 =? 36) && (36 =? 36)) with true. cbv iota.
  pose proof (salt_loop_spec pin (lit "$5$") salt [] (replicate 8 0)
    ([36] ++ hexs (EVP_Digest SHA256 (salt ++ pw)) ++ 0 :: rest) Hb eq_refl Hpin) as Hloop.
  rewrite Hl in Hloop. specialize (Hloop eq_refl). cbn [app] in Hloop. change (zlen []) with 0 in Hloop.
  change (Z.to_nat 8) with 8%nat. by rewrite Hloop.
Qed.

Lemma stored_inj salt a b :
  bytes salt -> stored salt a = stored salt b <-> EVP_Digest SHA256 (salt ++ a) = EVP_Digest SHA256 (salt ++ b).
Proof using L.
  intros Hs. unfold stored. split; [|by intros ->].
  intros E. do 3 apply app_inv_head in E. apply hexs_inj; [apply EVP_Digest_bytes..|done].
Qed.

Lemma streq_decide a b : streq a b = bool_decide (a = b).
Proof. done. Qed.

Lemma check_password_stored salt pw rest pin :
  salt_ok salt -> nonzero pin ->
  check_password (cstring pin) (stored salt pw ++ 0 :: rest) =
  Some (bool_decide (EVP_Digest SHA256 (salt ++ pin) = EVP_Digest SHA256 (salt ++ pw))).
Proof using L.
  intros Hs Hpin. unfold check_password. rewrite encrypted_password_stored by done.
  cbn [mbind option_bind negb].
  destruct (generate_enc_password_spec pin (replicate 257 0) (Some salt) (Entropy 1 [] []) salt) as (r' & -> & Hw);
    [done|done|done| |].
  { unfold salt_used. destruct Hs as [_ Hl]. replace 8 with (zlen salt) by (unfold zlen; lia). apply rd_block_full. }
  cbn [mbind option_bind]. apply wr_block_Some in Hw as (_ & _ & ->). change (Z.to_nat 0) with 0%nat.
  rewrite take_0. cbn [app]. rewrite <- app_assoc. cbn [app]. unfold strcmp_eq. destruct Hs as [Hb _].
  rewrite !c_str_terminated by by apply stored_nonzero. cbn [mbind option_bind]. f_equal.
  unfold streq. apply bool_decide_ext. by apply stored_inj.
Qed.

(** Stored passwords: the form [generate_new_enc_password] produces is one
    [check_password] recognises, with the salt it was made with, and the check
    succeeds exactly when the salted SHA-256 of the attempt is that of the
    password, so always for the password itself; against a stored plain password
    (shorter than the stored form) the check is string equality. *)
Theorem stored_password_check pw pin result e plain :
  nonzero pw -> nonzero pin -> 85 <= zlen result -> salt_ok (nonce_of e) -> nonzero plain -> zlen plain < 52 ->
  (exists r', generate_new_enc_password (cstring pw) result e = Some r' /\
   check_password (cstring pin) r' =
     Some (bool_decide (EVP_Digest SHA256 (nonce_of e ++ pin) = EVP_Digest SHA256 (nonce_of e ++ pw))) /\
   check_password (cstring pw) r' = Some true) /\
  check_password (cstring pin) (cstring plain) = Some (bool_decide (pin = plain)).
Proof using L.
  intros Hpw Hpin Hres Hs Hplain Hlen. split.
  - destruct (generate_enc_password_spec pw result None e (nonce_of e)) as (r' & Hg & Hw); [done..|].
    exists r'. split; [exact Hg|]. apply wr_block_Some in Hw as (_ & _ & ->). change (Z.to_nat 0) with 0%nat.
    rewrite take_0. cbn [app]. rewrite <- app_assoc. cbn [app].
    rewrite !check_password_stored by done. split; [done|]. by rewrite bool_decide_eq_true_2.
  - unfold check_password, encrypted_password, PWD_SALT_SIZE. rewrite strlen_cstring by done.
    cbn [mbind option_bind]. destruct (Z.leb_spec (3 + 8 + 8 + 1 + 32) (zlen plain)); [lia|].
    cbn [mbind option_bind negb]. unfold strcmp_eq. by rewrite !c_str_cstring.
Qed.
End stored.

Lemma stored_password_check_witness :
  exists r', generate_new_enc_password (cstring (lit "pw")) (replicate 257 0) (Entropy 1 [1; 2; 3; 4; 5; 6; 7; 8] [])
    = Some r' /\ check_password (cstring (lit "pw")) r' = Some true.
Proof.
  destruct (stored_password_check (lit "pw") (lit "px") (replicate 257 0) (Entropy 1 [1; 2; 3; 4; 5; 6; 7; 8] []) [65])
    as ((r' & H1 & _ & H2) & _);
    [by repeat constructor|by repeat constructor|done|split; [repeat constructor; lia|done]|by repeat constructor|done|].
  exists r'. split; [exact H1|exact H2].
Defined.

(** * SASLprep *)

Lemma sasl_chars_nonzero t u : nonzero t -> sasl_chars t = Some u -> nonzero u.
Proof.
  intros Ht. revert u. induction Ht as [|c t Hc Ht IH]; intros u; cbn [sasl_chars]; [intros [= <-]; constructor|].
  destruct (c =? 0xAD); [apply IH|]. destruct ((c =? 0xA0) || (c =? 0x20)).
  - intros (v & Hv & ->)%fmap_Some. constructor; [done|by apply IH].
  - destruct (_ || _ || _); [done|]. intros (v & Hv & ->)%fmap_Some. constructor; [done|by apply IH].
Qed.

Lemma sasl_chars_idem t u : sasl_chars t = Some u -> sasl_chars u = Some u.
Proof.
  revert u. induction t as [|c t IH]; intros u; cbn [sasl_chars]; [by intros [= <-]|].
  destruct (c =? 0xAD) eqn:E1; [apply IH|]. destruct ((c =? 0xA0) || (c =? 0x20)) eqn:E2.
  - intros (v & Hv & ->)%fmap_Some. cbn. by rewrite (IH v Hv).
  - destruct ((c =? 0x7F) || (c <? 0x1F) || ((0x80 <=? c) && (c <=? 0x9F))) eqn:E3; [done|].
    intros (v & Hv & ->)%fmap_Some. cbn [sasl_chars]. rewrite E1, E2, E3. by rewrite (IH v Hv).
Qed.

(** The loop: [out] written so far, then [gap] bytes already read, then the rest. *)
Lemma sasl_loop_spec t : forall fuel out gap rest,
  nonzero t -> bytes t -> (length t < fuel)%nat ->
  match sasl_chars t with
  | Some u => exists tail, sasl_loop fuel (out ++ gap ++ t ++ 0 :: rest) (zlen out + zlen gap) (zlen out) =
                Some (0, (out ++ u) ++ 0 :: tail)
  | None => exists s', sasl_loop fuel (out ++ gap ++ t ++ 0 :: rest) (zlen out + zlen gap) (zlen out) = Some (-1, s')
  end.
Proof.
  induction t as [|c t IH]; intros fuel out gap rest Hnz Hb Hf; (destruct fuel as [|fuel]; [simpl in Hf; lia|]);
    cbn [sasl_chars sasl_loop].
  - rewrite app_nil_l, (app_assoc out gap). rewrite rd8_here by (rewrite zlen_app; lia). cbn [mbind option_bind].
    rewrite Z.eqb_refl, <- app_assoc, app_nil_r. destruct gap as [|g gap]; cbn [app].
    + rewrite wr8_here by (done || lia). by exists rest.
    + rewrite wr8_here by (done || lia). by exists (gap ++ 0 :: rest).
  - inversion_clear Hnz as [|? ? Hc Hnz']. inversion_clear Hb as [|? ? Hcb Hb']. simpl in Hf.
    rewrite (app_assoc out gap). cbn [app]. rewrite rd8_here by (rewrite zlen_app; lia). cbn [mbind option_bind].
    rewrite <- app_assoc. destruct (Z.eqb_spec c 0); [done|].
    assert (forall d, 0 <= d < 256 -> exists gap', zlen gap' = zlen gap /\
      wr8 (out ++ gap ++ c :: t ++ 0 :: rest) (zlen out) d = Some ((out ++ [d]) ++ gap' ++ t ++ 0 :: rest)) as Hstep.
    { intros d Hd. destruct gap as [|g gap].
      - exists []. cbn [app]. rewrite wr8_here by done. split; [done|]. by rewrite <- app_assoc.
      - exists (gap ++ [c]). rewrite zlen_app, zlen_1, zlen_cons. split; [lia|]. cbn [app].
        rewrite wr8_here by done. by rewrite <- !app_assoc. }
    assert (forall d, zlen out + 1 = zlen (out ++ [d])) as Hout by (intros; by rewrite zlen_app).
    destruct (c =? 0xAD) eqn:E1.
    { replace (zlen out + zlen gap + 1) with (zlen out + zlen (gap ++ [c])) by (rewrite zlen_app, zlen_1; lia).
      change (c :: t ++ 0 :: rest) with ([c] ++ t ++ 0 :: rest). rewrite (app_assoc gap [c]).
      apply IH; [done|done|lia]. }
    destruct ((c =? 0xA0) || (c =? 0x20)) eqn:E2.
    { destruct (Hstep 0x20 ltac:(lia)) as (gap' & Hz & ->). cbn [mbind option_bind].
      specialize (IH fuel (out ++ [0x20]) gap' rest Hnz' Hb' ltac:(lia)).
      rewrite Hz, <- (Hout 0x20) in IH. replace (zlen out + 1 + zlen gap) with (zlen out + zlen gap + 1) in IH by lia.
      destruct (sasl_chars t); cbn [fmap option_fmap option_map]; [|done]. destruct IH as [tail Htl].
      exists tail. by rewrite Htl, <- !app_assoc. }
    destruct (c =? 0x7F); cbn [orb]; [by eexists|]. destruct (c <? 0x1F); cbn [orb]; [by eexists|].
    destruct ((0x80 <=? c) && (c <=? 0x9F)); [by eexists|].
    destruct (Hstep c Hcb) as (gap' & Hz & ->). cbn [mbind option_bind].
    specialize (IH fuel (out ++ [c]) gap' rest Hnz' Hb' ltac:(lia)).
    rewrite Hz, <- (Hout c) in IH. replace (zlen out + 1 + zlen gap) with (zlen out + zlen gap + 1) in IH by lia.
    destruct (sasl_chars t); cbn [fmap option_fmap option_map]; [|done]. destruct IH as [tail Htl].
    exists tail. by rewrite Htl, <- !app_assoc.
Qed.

(** SASLprep works in place: on any terminated string it terminates inside
    the string, removes soft hyphens, maps the no-break space to a space, and
    returns -1 exactly when a prohibited character occurs; preparing a prepared
    string changes nothing.  The control character 0x1F passes. *)
Theorem SASLprep_functional t rest :
  nonzero t -> bytes t ->
  match sasl_chars t with
  | Some u => exists tail, SASLprep (Some (t ++ 0 :: rest)) = Some (0, Some (u ++ 0 :: tail)) /\
                c_str (u ++ 0 :: tail) = Some u /\ sasl_chars u = Some u
  | None => exists s', SASLprep (Some (t ++ 0 :: rest)) = Some (-1, Some s')
  end /\
  SASLprep (Some [0x1F; 0]) = Some (0, Some [0x1F; 0]).
Proof.
  intros Hnz Hb. split; [|done]. unfold SASLprep.
  pose proof (sasl_loop_spec t (length (t ++ 0 :: rest)) [] [] rest Hnz Hb) as H.
  change (zlen []) with 0 in H. cbn [app] in H. change (0 + 0) with 0 in H.
  specialize (H ltac:(rewrite length_app; simpl; lia)).
  destruct (sasl_chars t) as [u|] eqn:E.
  - destruct H as [tail ->]. exists tail. split; [done|]. split; [|by eapply sasl_chars_idem].
    apply c_str_terminated. by eapply sasl_chars_nonzero.
  - destruct H as [s' ->]. by exists s'.
Qed.

Lemma SASLprep_functional_witness :
  exists tail, SASLprep (Some ([65; 0xAD; 0xA0; 66] ++ 0 :: [])) = Some (0, Some ([65; 32; 66] ++ 0 :: tail)).
Proof.
  destruct (SASLprep_functional [65; 0xAD; 0xA0; 66] []) as [(tail & H & _) _];
    [by repeat constructor|repeat constructor; lia|]. exists tail. exact H.
Defined.
