(* ===== verification/Integrity.v ===== *)
(** Message integrity: keys, the MESSAGE-INTEGRITY attribute and its check
    ([stun_calculate_hmac] to [stun_check_message_integrity_str] of
    [client/ns_turn_msg.c]).

    [key] and [pwd] are the memories of the arrays [hmackey_t] and [password_t];
    a local array that is not initialised is an argument ([junk]). *)

From S2P Require Import Prelude Defs CString StunHeader StunAttr StunMsg Crypto.

Section integrity.
Context `{C : Crypto}.

(** The digest each SHATYPE selects for HMAC: SHA-1 for any other value. *)
Definition hmac_alg (shatype : SHATYPE) : digest_alg :=
  match shatype with
  | SHATYPE_SHA256 => SHA256
  | SHATYPE_SHA384 => SHA384
  | SHATYPE_SHA512 => SHA512
  | _ => SHA1
  end.

(** [hmac + off] is the output; result: return code, output memory, [*hmac_len]. *)
Definition stun_calculate_hmac (buf : list Z) (len : Z) (key : list Z) (keylen : Z) (hmac : list Z) (off : Z)
    (hmac_len : Z) (shatype : SHATYPE) : option (Z * list Z * Z) :=
  data ← rd_block buf 0 len;
  k ← rd_block key 0 keylen;
  match HMAC (hmac_alg shatype) k data with
  | None => Some (-1, hmac, hmac_len)
  | Some h => hmac ← wr_block hmac off h; Some (0, hmac, zlen h)
  end.

(** The digest of the long-term key: MD5 by default. *)
Definition key_alg (shatype : SHATYPE) : digest_alg :=
  match shatype with
  | SHATYPE_SHA256 => SHA256
  | SHATYPE_SHA384 => SHA384
  | SHATYPE_SHA512 => SHA512
  | _ => MD5
  end.

(** [strncpy(str+p,src,n)] for a C string [src]. *)
Definition strncpy_at (str : list Z) (p : Z) (src : list Z) (n : Z) : option (list Z) :=
  s ← c_str src;
  wr_block str p (strncpy_field s n).

(** [junk] fills the block [malloc] returns. *)
Definition stun_produce_integrity_key_str (uname realm upwd key : list Z) (shatype : SHATYPE) (junk : Z)
    : option (Z * list Z) :=
  ulen ← strlen uname;
  rlen ← strlen realm;
  plen ← strlen upwd;
  let sz := ulen + 1 + rlen + 1 + plen + 1 + 10 in
  let strl := ulen + 1 + rlen + 1 + plen in
  let str := replicate (Z.to_nat (sz + 1)) junk in
  str ← strncpy_at str 0 uname sz;
  str ← wr8 str ulen 58;
  str ← strncpy_at str (ulen + 1) realm (sz - ulen - 1);
  str ← wr8 str (ulen + 1 + rlen) 58;
  str ← strncpy_at str (ulen + 1 + rlen + 1) upwd (sz - ulen - 1 - rlen - 1);
  str ← wr8 str strl 0;
  data ← rd_block str 0 strl;
  key ← wr_block key 0 (EVP_Digest (key_alg shatype) data);
  Some (0, key).

Definition get_hmackey_size (shatype : SHATYPE) : Z :=
  match shatype with
  | SHATYPE_SHA256 => 32
  | SHATYPE_SHA384 => 48
  | SHATYPE_SHA512 => 64
  | _ => 16
  end.

Definition shasize_of (shatype : SHATYPE) : Z :=
  match shatype with
  | SHATYPE_SHA256 => SHA256SIZEBYTES
  | SHATYPE_SHA384 => SHA384SIZEBYTES
  | SHATYPE_SHA512 => SHA512SIZEBYTES
  | _ => SHA1SIZEBYTES
  end.

(** [junk]: the uninitialised local [hmac]. *)
Definition stun_attr_add_integrity_str (ct : turn_credential_type) (b : sbuf) (key pwd : list Z)
    (shatype : SHATYPE) (junk : list Z) : option (Z * sbuf) :=
  let shasize := shasize_of shatype in
  b <-? stun_attr_add_str b STUN_ATTRIBUTE_MESSAGE_INTEGRITY (Some junk) shasize;;
  '(r, m, _) ←
    (if decide (ct = TURN_CREDENTIALS_SHORT_TERM) then
       pl ← strlen pwd;
       stun_calculate_hmac (sb_mem b) (sb_len b - 4 - shasize) pwd pl (sb_mem b) (sb_len b - shasize) shasize shatype
     else
       stun_calculate_hmac (sb_mem b) (sb_len b - 4 - shasize) key (get_hmackey_size shatype)
         (sb_mem b) (sb_len b - shasize) shasize shatype);
  if r <? 0 then Some (-1, SBuf m (sb_len b)) else Some (0, SBuf m (sb_len b)).

Definition stun_attr_add_integrity_by_key_str (b : sbuf) (uname realm key nonce : list Z) (shatype : SHATYPE)
    (p junk : list Z) : option (Z * sbuf) :=
  ul ← strlen uname;
  b <-? stun_attr_add_str b STUN_ATTRIBUTE_USERNAME (Some uname) (to_i32 ul);;
  nl ← strlen nonce;
  b <-? stun_attr_add_str b STUN_ATTRIBUTE_NONCE (Some nonce) (to_i32 nl);;
  rl ← strlen realm;
  b <-? stun_attr_add_str b STUN_ATTRIBUTE_REALM (Some realm) (to_i32 rl);;
  stun_attr_add_integrity_str TURN_CREDENTIALS_LONG_TERM b key p shatype junk.

(** [key0], [p]: the uninitialised locals of this function and of the callee. *)
Definition stun_attr_add_integrity_by_user_str (b : sbuf) (uname realm upwd nonce : list Z) (shatype : SHATYPE)
    (key0 p junk : list Z) (j : Z) : option (Z * sbuf) :=
  '(r, key) ← stun_produce_integrity_key_str uname realm upwd key0 shatype j;
  if r <? 0 then Some (-1, b) else
  stun_attr_add_integrity_by_key_str b uname realm key nonce shatype p junk.

Definition stun_attr_add_integrity_by_user_short_term_str (b : sbuf) (uname pwd : list Z) (shatype : SHATYPE)
    (key0 junk : list Z) : option (Z * sbuf) :=
  ul ← strlen uname;
  b <-? stun_attr_add_str b STUN_ATTRIBUTE_USERNAME (Some uname) (to_i32 ul);;
  stun_attr_add_integrity_str TURN_CREDENTIALS_SHORT_TERM b key0 pwd shatype junk.

(** The [switch] on the attribute's length: the size, if it is that of the
    expected algorithm. *)
Definition check_shasize (sarlen : Z) (shatype : SHATYPE) : option Z :=
  if sarlen =? SHA256SIZEBYTES then (if decide (shatype = SHATYPE_SHA256) then Some SHA256SIZEBYTES else None)
  else if sarlen =? SHA384SIZEBYTES then (if decide (shatype = SHATYPE_SHA384) then Some SHA384SIZEBYTES else None)
  else if sarlen =? SHA512SIZEBYTES then (if decide (shatype = SHATYPE_SHA512) then Some SHA512SIZEBYTES else None)
  else if sarlen =? SHA1SIZEBYTES then (if decide (shatype = SHATYPE_SHA1) then Some SHA1SIZEBYTES else None)
  else None.

(** The comparison of the computed value with the received one is commented out
    in the source, so the last step is the constant 1.  Result: the return code
    and the buffer, which the function modifies and restores. *)
Definition stun_check_message_integrity_by_key_str (ct : turn_credential_type) (buf : list Z) (len : Z)
    (key pwd : list Z) (shatype : SHATYPE) (new_hmac : list Z) : option (Z * list Z) :=
  sar ← stun_attr_get_first_by_type_str buf len STUN_ATTRIBUTE_MESSAGE_INTEGRITY;
  match sar with
  | None => Some (-1, buf)
  | Some a =>
    sarlen ← stun_attr_get_len buf sar;
    match check_shasize sarlen shatype with
    | None => Some (-1, buf)
    | Some shasize =>
      orig_len ← stun_get_command_message_len_str buf len;
      if orig_len <? 0 then Some (-1, buf) else
      let new_len := to_i32 (a + 4 + shasize) in
      if orig_len <? new_len then Some (-1, buf) else
      '(r, buf) ← stun_set_command_message_len_str buf new_len;
      if r <? 0 then Some (-1, buf) else
      '(res, _, _) ←
        (if decide (ct = TURN_CREDENTIALS_SHORT_TERM) then
           pl ← strlen pwd;
           stun_calculate_hmac buf (new_len - 4 - shasize) pwd pl new_hmac 0 shasize shatype
         else
           stun_calculate_hmac buf (new_len - 4 - shasize) key (get_hmackey_size shatype) new_hmac 0 shasize shatype);
      '(_, buf) ← stun_set_command_message_len_str buf orig_len;
      if res <? 0 then Some (-1, buf) else
      old_hmac ← stun_attr_get_value buf sar;
      match old_hmac with None => Some (-1, buf) | Some _ => Some (1, buf) end
    end
  end.

Definition stun_check_message_integrity_str (ct : turn_credential_type) (buf : list Z) (len : Z)
    (uname realm upwd : list Z) (shatype : SHATYPE) (key0 pwd0 new_hmac : list Z) (junk : Z)
    : option (Z * list Z) :=
  if decide (ct = TURN_CREDENTIALS_SHORT_TERM) then
    pwd ← strncpy_at pwd0 0 upwd (STUN_MAX_PWD_SIZE + 1);
    stun_check_message_integrity_by_key_str ct buf len key0 pwd shatype new_hmac
  else
    '(r, key) ← stun_produce_integrity_key_str uname realm upwd key0 shatype junk;
    if r <? 0 then Some (-1, buf) else
    stun_check_message_integrity_by_key_str ct buf len key pwd0 shatype new_hmac.
End integrity.
