(* ===== verification/IntegritySpec.v ===== *)
(** Properties of the message integrity functions: the key they derive, the
    attribute they append, and what the check decides. *)

From S2P Require Import Prelude Defs CString StunHeader StunAttr StunSpec StunSearch StunMsg StunBuild StunReply Crypto Integrity.

(** * Strings in memory *)

Lemma c_str_block s t : c_str s = Some t -> rd_block s 0 (zlen t) = Some t /\ zlen t < zlen s /\ nonzero t.
Proof.
  revert t. induction s as [|c s IH]; intros t; [done|]. cbn [c_str]. destruct (Z.eqb_spec c 0) as [->|Hc].
  - intros [= <-]. change (zlen (@nil Z)) with 0. rewrite zlen_cons. pose proof (zlen_nonneg s). split; [|split; [lia|constructor]].
    by rewrite rd_block_ok by (rewrite ?zlen_cons; lia).
  - intros (u & Hu & ->)%fmap_Some. destruct (IH u Hu) as (H1 & H2 & H3). rewrite !zlen_cons.
    split; [|split; [lia|by constructor]]. apply rd_block_Some in H1 as (_ & _ & _ & H1).
    pose proof (zlen_nonneg u). rewrite rd_block_ok by (rewrite ?zlen_cons; lia). f_equal.
    replace (Z.to_nat (1 + zlen u)) with (S (Z.to_nat (zlen u))) by lia.
    change (Z.to_nat 0) with 0%nat in *. rewrite drop_0 in *. cbn [take]. by rewrite <- H1.
Qed.

(** Extending a known prefix by a write. *)
Lemma rd_wr_extend m a x y z m' :
  rd_block m 0 a = Some x -> wr_block m a (y ++ z) = Some m' -> rd_block m' 0 (a + zlen y) = Some (x ++ y).
Proof.
  intros Hx Hw. pose proof (rd_block_bounds _ _ _ _ Hx). apply (rd_block_app _ 0 a (zlen y)).
  - rewrite (rd_wr_before _ _ _ _ 0 a Hw) by lia. done.
  - apply (rd_wr_part _ _ [] y z _ (0 + a) (zlen y) Hw); [change (zlen (@nil Z)) with 0; lia|done].
Qed.

Lemma strncpy_field_short s n :
  zlen s <= n -> strncpy_field s n = s ++ replicate (Z.to_nat n - length s) 0 /\ zlen (strncpy_field s n) = n.
Proof.
  intros H. unfold strncpy_field, zlen in *. rewrite take_ge by lia. split; [done|].
  rewrite length_app, length_replicate. lia.
Qed.

Section spec.
Context `{C : Crypto} {L : CryptoLaws C}.

(** The long-term key: the digest of "user:realm:password". *)
Definition long_term_key (shatype : SHATYPE) (u r p : list Z) : list Z :=
  EVP_Digest (key_alg shatype) (u ++ [58] ++ r ++ [58] ++ p).

Lemma hmackey_size shatype u r p : zlen (long_term_key shatype u r p) = get_hmackey_size shatype.
Proof using L. unfold long_term_key. rewrite EVP_Digest_size. by destruct shatype. Qed.

Lemma produce_key_spec uname realm upwd u r p key shatype junk :
  c_str uname = Some u -> c_str realm = Some r -> c_str upwd = Some p -> 64 <= zlen key ->
  exists key', stun_produce_integrity_key_str uname realm upwd key shatype junk = Some (0, key') /\
  wr_block key 0 (long_term_key shatype u r p) = Some key'.
Proof using L.
  intros Hu Hr Hp Hk. unfold stun_produce_integrity_key_str, strlen, strncpy_at. rewrite Hu, Hr, Hp.
  cbn [fmap option_fmap option_map mbind option_bind]. cbv zeta.
  pose proof (zlen_nonneg u) as Hu0. pose proof (zlen_nonneg r) as Hr0. pose proof (zlen_nonneg p) as Hp0.
  set (sz := zlen u + 1 + zlen r + 1 + zlen p + 1 + 10).
  assert (zlen (replicate (Z.to_nat (sz + 1)) junk) = sz + 1) as Hz0 by (apply zlen_replicate; lia).
  set (s0 := replicate _ junk) in *. clearbody s0.
  destruct (strncpy_field_short u sz) as [Eu Zu]; [lia|].
  destruct (strncpy_field_short r (sz - zlen u - 1)) as [Er Zr]; [lia|].
  destruct (strncpy_field_short p (sz - zlen u - 1 - zlen r - 1)) as [Ep Zp]; [lia|].
  destruct (wr_block_is_Some s0 0 (strncpy_field u sz)) as [s1 H1]; [lia..|]. rewrite H1. cbn [mbind option_bind].
  pose proof (wr_block_zlen _ _ _ _ H1) as Hz1.
  assert (rd_block s1 0 (zlen u) = Some u) as R1.
  { rewrite Eu in H1. by apply (rd_wr_part _ _ [] u _ _ 0 _ H1). }
  destruct (wr_block_is_Some s1 (zlen u) [u8 58]) as [s2 H2]; [lia|rewrite zlen_1; lia|].
  assert (wr8 s1 (zlen u) 58 = Some s2) as -> by exact H2. cbn [mbind option_bind].
  pose proof (wr_block_zlen _ _ _ _ H2) as Hz2.
  pose proof (rd_wr_extend _ _ _ [u8 58] [] _ R1 H2) as R2. rewrite zlen_1 in R2.
  destruct (wr_block_is_Some s2 (zlen u + 1) (strncpy_field r (sz - zlen u - 1))) as [s3 H3]; [lia..|].
  rewrite H3. cbn [mbind option_bind]. pose proof (wr_block_zlen _ _ _ _ H3) as Hz3. rewrite Er in H3.
  pose proof (rd_wr_extend _ _ _ _ _ _ R2 H3) as R3.
  destruct (wr_block_is_Some s3 (zlen u + 1 + zlen r) [u8 58]) as [s4 H4]; [lia|rewrite zlen_1; lia|].
  assert (wr8 s3 (zlen u + 1 + zlen r) 58 = Some s4) as -> by exact H4. cbn [mbind option_bind].
  pose proof (wr_block_zlen _ _ _ _ H4) as Hz4.
  pose proof (rd_wr_extend _ _ _ [u8 58] [] _ R3 H4) as R4. rewrite zlen_1 in R4.
  destruct (wr_block_is_Some s4 (zlen u + 1 + zlen r + 1) (strncpy_field p (sz - zlen u - 1 - zlen r - 1)))
    as [s5 H5]; [lia..|].
  rewrite H5. cbn [mbind option_bind]. pose proof (wr_block_zlen _ _ _ _ H5) as Hz5. rewrite Ep in H5.
  pose proof (rd_wr_extend _ _ _ _ _ _ R4 H5) as R5.
  destruct (wr_block_is_Some s5 (zlen u + 1 + zlen r + 1 + zlen p) [u8 0]) as [s6 H6]; [lia|rewrite zlen_1; lia|].
  assert (wr8 s5 (zlen u + 1 + zlen r + 1 + zlen p) 0 = Some s6) as -> by exact H6. cbn [mbind option_bind].
  rewrite (rd_wr_before _ _ _ _ 0 _ H6), R5 by lia. cbn [mbind option_bind].
  assert (EVP_Digest (key_alg shatype) ((((u ++ [u8 58]) ++ r) ++ [u8 58]) ++ p) = long_term_key shatype u r p) as ->.
  { unfold long_term_key. by rewrite <- !app_assoc. }
  pose proof (hmackey_size shatype u r p) as Hks.
  destruct (wr_block_is_Some key 0 (long_term_key shatype u r p)) as [key' Hk']; [lia| |].
  { rewrite Hks. destruct shatype; cbn [get_hmackey_size]; lia. }
  rewrite Hk'. by exists key'.
Qed.

(** [HMAC] does not fail: it returns NULL only for lack of memory or of the algorithm. *)
Definition hmac_total : Prop := forall a k d, exists h, HMAC a k d = Some h.

Lemma shasize_props shatype :
  digest_size (hmac_alg shatype) = shasize_of shatype /\ 20 <= shasize_of shatype <= 64 /\
  pad4 (shasize_of shatype) = shasize_of shatype.
Proof. destruct shatype; vm_compute; repeat split; congruence. Qed.

(** The value written over the appended attribute. *)
Lemma add_integrity_value cap b m k key kb shatype junk pwd :
  built cap b m k -> hmac_total -> bytes junk -> zlen junk = MAXSHASIZE ->
  rd_block key 0 (get_hmackey_size shatype) = Some kb ->
  k + 68 <= cap -> k + 68 < MAX_STUN_MESSAGE_SIZE ->
  exists b' h data, stun_attr_add_integrity_str TURN_CREDENTIALS_LONG_TERM b key pwd shatype junk = Some (0, b') /\
  repr b' (add_attr m STUN_ATTRIBUTE_MESSAGE_INTEGRITY h) /\ zlen (sb_mem b') = cap /\
  rd_block (sb_mem b') 0 (msg_size m) = Some data /\ HMAC (hmac_alg shatype) kb data = Some h.
Proof using L.
  intros [Hr Hc Hk] Ht Hj Hjz Hkey H1 H2. unfold stun_attr_add_integrity_str. cbv zeta.
  destruct (shasize_props shatype) as (Hds & Hss & Hp4). set (n := shasize_of shatype) in *.
  unfold MAXSHASIZE in Hjz. set (v := take (Z.to_nat n) junk).
  assert (zlen v = n) as Hv by (unfold v, zlen in *; rewrite length_take; lia).
  destruct (add_in_room b m STUN_ATTRIBUTE_MESSAGE_INTEGRITY (Some junk) n v Hr) as (b1 & -> & Hr1 & Hz1);
    [done| |by apply bytes_take|lia|unfold room; rewrite Hv, Hp4; lia|].
  { cbn [c_attr_value]. destruct (Z.leb_spec n 0); [lia|]. by rewrite rd_block_ok by lia. }
  unfold or_fail. cbn [mbind option_bind]. change (0 <? 0) with false. cbv iota.
  rewrite decide_False by done. pose proof (repr_len _ _ Hr1) as Hl. rewrite msg_size_add in Hl.
  unfold attr_size in Hl. rewrite Hv, Hp4 in Hl.
  replace (sb_len b1 - 4 - n) with (msg_size m) by lia. replace (sb_len b1 - n) with (attr_off (m_attrs m) + 4).
  2: { change (attr_off (m_attrs m)) with (msg_size m). lia. }
  unfold stun_calculate_hmac. pose proof (msg_size_bounds m).
  destruct (rd_block (sb_mem b1) 0 (msg_size m)) as [data|] eqn:Ed; [|rewrite rd_block_ok in Ed by lia; done].
  cbn [mbind option_bind]. rewrite Hkey. cbn [mbind option_bind]. destruct (Ht (hmac_alg shatype) kb data) as [h Hh].
  rewrite Hh. pose proof (HMAC_size _ _ _ _ Hh) as Hhz. rewrite Hds in Hhz.
  destruct (wr_block_is_Some (sb_mem b1) (attr_off (m_attrs m) + 4) h) as [mem' Hw].
  { change (attr_off (m_attrs m)) with (msg_size m). lia. }
  { change (attr_off (m_attrs m)) with (msg_size m). lia. }
  rewrite Hw. cbn [mbind option_bind]. change (0 <? 0) with false. cbv iota.
  exists (SBuf mem' (sb_len b1)), h, data. split; [done|]. split.
  - eapply (repr_set_last b1 m); [exact Hr1|lia|by eapply HMAC_bytes|done].
  - split; [cbn [sb_mem]; rewrite (wr_block_zlen _ _ _ _ Hw); lia|]. split; [|done]. cbn [sb_mem]. rewrite (rd_wr_before _ _ _ _ 0 _ Hw); [done|].
    change (attr_off (m_attrs m)) with (msg_size m). lia.
Qed.

(** Appending a C string as an attribute. *)
Lemma built_step_string (M : option (Z * sbuf) -> Prop) cap b m k t s u cont :
  built cap b m k -> 0 <= t < 65536 -> c_str s = Some u -> bytes u -> zlen u <= 1024 ->
  k + 1032 <= cap -> k + 1032 < MAX_STUN_MESSAGE_SIZE ->
  (forall b', built cap b' (add_attrs m [(t, u)]) (k + 1032) -> M (cont b')) ->
  M (n ← strlen s; or_fail (stun_attr_add_str b t (Some s) (to_i32 n)) cont).
Proof.
  intros Hb Ht Hs Hu Hl H1 H2 Hk. destruct (c_str_block s u Hs) as (Hrd & Hlt & _).
  unfold strlen. rewrite Hs. cbn [fmap option_fmap option_map mbind option_bind].
  pose proof (zlen_nonneg u). assert (to_i32 (zlen u) = zlen u) as ->.
  { unfold to_i32. rewrite Z.mod_small by lia. lia. }
  pose proof (pad4_bounds (zlen u)).
  destruct (built_add cap b m k t (Some s) (zlen u) u (attr_size u) Hb Ht) as (b' & -> & Hb');
    [|done|lia|done|unfold attr_size; lia..|].
  { cbn [c_attr_value]. destruct (Z.leb_spec (zlen u) 0); [|done]. destruct u; [done|].
    rewrite zlen_cons in *. pose proof (zlen_nonneg u). lia. }
  apply Hk. destruct Hb' as [Hr Hc Hm]. split; [done|done|].
  change (add_attrs m [(t, u)]) with (add_attr m t u). unfold attr_size in Hm. lia.
Qed.

(** The message [m] followed by the credentials and the integrity value that
    covers them: [data] is what the HMAC was computed over. *)
Definition authenticated (cap : Z) (m : stun_msg) (shatype : SHATYPE) (u r p n : list Z) (x : option (Z * sbuf)) : Prop :=
  exists b' h data, x = Some (0, b') /\
  (let m3 := add_attrs m [(STUN_ATTRIBUTE_USERNAME, u); (STUN_ATTRIBUTE_NONCE, n); (STUN_ATTRIBUTE_REALM, r)] in
   repr b' (add_attr m3 STUN_ATTRIBUTE_MESSAGE_INTEGRITY h) /\ zlen (sb_mem b') = cap /\
   rd_block (sb_mem b') 0 (msg_size m3) = Some data) /\
  HMAC (hmac_alg shatype) (long_term_key shatype u r p) data = Some h.

Lemma user_integrity_added b m uname realm upwd nonce u r p n shatype key0 pj junk j :
  repr b m -> msg_size m <= 1024 -> 5000 <= zlen (sb_mem b) -> hmac_total ->
  c_str uname = Some u -> c_str realm = Some r -> c_str upwd = Some p -> c_str nonce = Some n ->
  bytes u -> bytes r -> bytes n -> zlen u <= 1024 -> zlen r <= 1024 -> zlen n <= 1024 ->
  zlen key0 = 64 -> bytes junk -> zlen junk = MAXSHASIZE ->
  authenticated (zlen (sb_mem b)) m shatype u r p n
    (stun_attr_add_integrity_by_user_str b uname realm upwd nonce shatype key0 pj junk j).
Proof using L.
  intros Hr Hms Hcap Ht Hu Hre Hp Hn Hbu Hbr Hbn Hlu Hlr Hln Hk0 Hj Hjz.
  unfold stun_attr_add_integrity_by_user_str.
  destruct (produce_key_spec uname realm upwd u r p key0 shatype j Hu Hre Hp) as (key & -> & Hkey); [lia|].
  cbn [mbind option_bind]. change (0 <? 0) with false. cbv iota. unfold stun_attr_add_integrity_by_key_str.
  pose proof (hmackey_size shatype u r p) as Hks. apply rd_wr_same in Hkey. rewrite Hks in Hkey.
  assert (built (zlen (sb_mem b)) b m 1024) as Hb by by split.
  set (cap := zlen (sb_mem b)) in *. clearbody cap.
  set (M := authenticated cap m shatype u r p n).
  apply (built_step_string M cap b m 1024 STUN_ATTRIBUTE_USERNAME uname u); [done..|lia|done|].
  clear b Hb Hr. intros b Hb.
  apply (built_step_string M cap b _ _ STUN_ATTRIBUTE_NONCE nonce n _ Hb); [done..|lia|done|].
  clear b Hb. intros b Hb.
  apply (built_step_string M cap b _ _ STUN_ATTRIBUTE_REALM realm r _ Hb); [done..|lia|done|].
  clear b Hb. intros b Hb. rewrite !add_attrs_app in Hb. cbn [app] in Hb.
  destruct (add_integrity_value cap b _ _ key _ shatype junk pj Hb Ht Hj Hjz Hkey) as (b' & h & data & Ha & Hr' & Hz' & Hd & Hh);
    [lia|done|]. exists b', h, data. by rewrite Ha.
Qed.

(** C36. Long-term credentials: on a message with room, the function appends the
    user name, the nonce and the realm, and then a MESSAGE-INTEGRITY whose value
    is the HMAC, under the digest of "user:realm:password", of all the bytes
    before it with the length field already counting it. *)
Theorem stun_attr_add_integrity_by_user_refines b m uname realm upwd nonce u r p n shatype key0 pj junk j :
  repr b m -> msg_size m <= 1024 -> 5000 <= zlen (sb_mem b) -> hmac_total ->
  c_str uname = Some u -> c_str realm = Some r -> c_str upwd = Some p -> c_str nonce = Some n ->
  bytes u -> bytes r -> bytes n -> zlen u <= 1024 -> zlen r <= 1024 -> zlen n <= 1024 ->
  zlen key0 = 64 -> bytes junk -> zlen junk = MAXSHASIZE ->
  authenticated (zlen (sb_mem b)) m shatype u r p n
    (stun_attr_add_integrity_by_user_str b uname realm upwd nonce shatype key0 pj junk j).
Proof using L. apply user_integrity_added. Qed.

(** * The check *)

Lemma check_shasize_ok (v : list Z) shatype :
  zlen v = shasize_of shatype -> shatype ≠ SHATYPE_ERROR -> check_shasize (zlen v) shatype = Some (zlen v).
Proof. intros -> H. by destruct shatype. Qed.

(** Shortening the length field and restoring it. *)
Lemma set_len_restore b m n :
  repr b m -> 20 <= n <= msg_size m ->
  exists m1, stun_set_command_message_len_str (sb_mem b) n = Some (0, m1) /\ zlen m1 = zlen (sb_mem b) /\
  stun_set_command_message_len_str m1 (msg_size m) = Some (0, sb_mem b).
Proof.
  intros Hr Hn. unfold stun_set_command_message_len_str, STUN_HEADER_LENGTH.
  pose proof (repr_size_bound _ _ Hr). pose proof (repr_len20 _ _ Hr).
  destruct (Z.ltb_spec n 20); [lia|]. destruct (Z.ltb_spec (msg_size m) 20); [lia|].
  rewrite !u16_small, !store16_nswap by lia.
  destruct (wr_block_is_Some (sb_mem b) 2 (be_split 2 (n - 20))) as [m1 Hm1]; [lia|rewrite zlen_be_split; lia|].
  rewrite Hm1. cbn [mbind option_bind]. exists m1. split; [done|]. split; [by eapply wr_block_zlen|].
  rewrite store16_nswap, (wr_block_overwrite _ _ _ (be_split 2 (msg_size m - 20)) _ Hm1) by by rewrite !zlen_be_split.
  pose proof (repr_size _ _ Hr) as Hs. unfold be_at, STUN_HEADER_LENGTH in Hs. apply fmap_Some in Hs as (x & Hx & ->).
  assert (be_split 2 (be_combine x) = x) as ->.
  { pose proof (rd_block_zlen _ _ _ _ Hx) as Hz. replace 2%nat with (length x) by (unfold zlen in Hz; lia).
    apply be_split_combine. eapply rd_block_bytes; [apply Hr|exact Hx]. }
  by rewrite (wr_block_same _ _ _ _ Hx).
Qed.

Lemma check_by_key_value ct b m key pwd shatype new_hmac :
  repr b m -> hmac_total -> zlen key = 64 -> (ct = TURN_CREDENTIALS_SHORT_TERM -> exists p, c_str pwd = Some p) -> zlen new_hmac = MAXSHASIZE ->
  shatype ≠ SHATYPE_ERROR ->
  match find_attr STUN_ATTRIBUTE_MESSAGE_INTEGRITY (m_attrs m) with
  | Some v =>
    (zlen v = shasize_of shatype ->
     stun_check_message_integrity_by_key_str ct (sb_mem b) (sb_len b) key pwd shatype new_hmac =
       Some (1, sb_mem b)) /\
    (zlen v ≠ shasize_of shatype ->
     stun_check_message_integrity_by_key_str ct (sb_mem b) (sb_len b) key pwd shatype new_hmac =
       Some (-1, sb_mem b))
  | None =>
    stun_check_message_integrity_by_key_str ct (sb_mem b) (sb_len b) key pwd shatype new_hmac =
      Some (-1, sb_mem b)
  end.
Proof using L.
  intros Hr Ht Hkey Hpwd Hnh Hsha. unfold stun_check_message_integrity_by_key_str.
  pose proof (get_first_by_type_find _ _ STUN_ATTRIBUTE_MESSAGE_INTEGRITY Hr) as Hf.
  destruct (find_attr _ (m_attrs m)) as [v|]; [|by rewrite Hf].
  destruct Hf as (a & Hs & Hh). rewrite Hs. cbn [mbind option_bind].
  rewrite (holds_len _ _ _ _ Hh). cbn [mbind option_bind]. split; intros Hz.
  2: { assert (check_shasize (zlen v) shatype = None) as ->; [|done]. unfold check_shasize.
       repeat case_if; zbool; repeat case_decide; try done; subst shatype; cbn [shasize_of] in Hz; congruence. }
  rewrite check_shasize_ok by done. rewrite (repr_command_len _ _ Hr). cbn [mbind option_bind].
  pose proof (repr_len20 _ _ Hr) as H20. pose proof (repr_len _ _ Hr) as Hlen.
  pose proof (repr_size_bound _ _ Hr) as Hmax. destruct (shasize_props shatype) as (Hds & Hss & Hp4).
  rewrite <- Hz in Hss, Hp4, Hds.
  destruct (Z.ltb_spec (msg_size m) 0); [lia|].
  destruct (get_first_by_type_safe (sb_mem b) (sb_len b) STUN_ATTRIBUTE_MESSAGE_INTEGRITY) as (r & Hr1 & Hva);
    [apply Hr|lia|]. rewrite Hs in Hr1. injection Hr1 as <-. destruct (Hva a eq_refl) as [(Ha20 & l & Hl & Hend) _].
  assert (l = zlen v) as ->.
  { pose proof (holds_len _ _ _ _ Hh) as Hl'. cbn [stun_attr_get_len] in Hl'.
    rewrite ldn16_be, Hl in Hl' by apply Hr. by injection Hl'. }
  assert (to_i32 (a + 4 + zlen v) = a + 4 + zlen v) as ->.
  { unfold to_i32. rewrite Z.mod_small by lia. lia. }
  destruct (Z.ltb_spec (msg_size m) (a + 4 + zlen v)); [lia|].
  destruct (set_len_restore b m (a + 4 + zlen v) Hr) as (m1 & -> & Hz1 & Hrest); [lia|]. cbn [mbind option_bind].
  change (0 <? 0) with false. cbv iota.
  assert (forall k n, (exists kb, rd_block k 0 n = Some kb) -> exists h hm hl,
    stun_calculate_hmac m1 (a + 4 + zlen v - 4 - zlen v) k n new_hmac 0 (zlen v) shatype = Some (0, hm, hl) /\ h = 0) as Hcalc.
  { intros k n [kb Hkb]. unfold stun_calculate_hmac. rewrite (rd_block_ok m1 0) by lia. cbn [mbind option_bind].
    rewrite Hkb. cbn [mbind option_bind]. edestruct Ht as [h Hh']. rewrite Hh'.
    pose proof (HMAC_size _ _ _ _ Hh') as Hhz. unfold MAXSHASIZE in Hnh.
    destruct (wr_block_is_Some new_hmac 0 h) as [hm ->]; [lia|rewrite Hhz; destruct shatype; cbn; lia|].
    by exists 0, hm, (zlen h). }
  assert (exists hm hl, (if decide (ct = TURN_CREDENTIALS_SHORT_TERM)
    then strlen pwd ≫= λ pl : Z, stun_calculate_hmac m1 (a + 4 + zlen v - 4 - zlen v) pwd pl new_hmac 0 (zlen v) shatype
    else stun_calculate_hmac m1 (a + 4 + zlen v - 4 - zlen v) key (get_hmackey_size shatype) new_hmac 0 (zlen v) shatype)
    = Some (0, hm, hl)) as (hm & hl & ->).
  { case_decide as Hct.
    - destruct (Hpwd Hct) as [p Hp]. unfold strlen. rewrite Hp. cbn [fmap option_fmap option_map mbind option_bind].
      destruct (c_str_block pwd p Hp) as (Hrd & _). destruct (Hcalc pwd (zlen p)) as (_ & hm & hl & Hc & _); eauto.
    - destruct (Hcalc key (get_hmackey_size shatype)) as (_ & hm & hl & Hc & _); [|eauto].
      rewrite rd_block_ok; [eauto|lia|destruct shatype; cbn; lia|destruct shatype; cbn; lia]. }
  cbn [mbind option_bind]. rewrite Hrest. cbn [mbind option_bind]. change (0 <? 0) with false. cbv iota.
  rewrite (holds_value _ _ _ _ Hh). cbn [mbind option_bind]. by destruct (Z.ltb_spec (zlen v) 1); [lia|].
Qed.
(** What passes: a MESSAGE-INTEGRITY of the length of the algorithm. *)
Lemma check_user_value b m uname realm upwd u r p v shatype key0 pwd0 new_hmac j :
  repr b m -> hmac_total -> c_str uname = Some u -> c_str realm = Some r -> c_str upwd = Some p ->
  zlen key0 = 64 -> zlen new_hmac = MAXSHASIZE -> shatype ≠ SHATYPE_ERROR ->
  find_attr STUN_ATTRIBUTE_MESSAGE_INTEGRITY (m_attrs m) = Some v -> zlen v = shasize_of shatype ->
  stun_check_message_integrity_str TURN_CREDENTIALS_LONG_TERM (sb_mem b) (sb_len b) uname realm upwd shatype key0 pwd0
    new_hmac j = Some (1, sb_mem b).
Proof using L.
  intros Hr Ht Hu Hre Hp Hk Hn Hsha Hf Hz. unfold stun_check_message_integrity_str. rewrite decide_False by done.
  destruct (produce_key_spec uname realm upwd u r p key0 shatype j Hu Hre Hp) as (key & -> & Hkey); [lia|].
  cbn [mbind option_bind]. change (0 <? 0) with false. cbv iota.
  pose proof (check_by_key_value TURN_CREDENTIALS_LONG_TERM b m key pwd0 shatype new_hmac Hr Ht) as H. rewrite Hf in H.
  apply H; [|done..]. by rewrite (wr_block_zlen _ _ _ _ Hkey).
Qed.

(** The integrity check does not check integrity: for a well-formed message
    whose MESSAGE-INTEGRITY has the length of the expected algorithm, it returns 1
    and leaves the buffer unchanged whatever the attribute's value and whatever
    the key or password; without the attribute, or with another length, it
    returns -1.  The 0 that is documented for a wrong value is never returned. *)
Theorem stun_check_message_integrity_vacuous ct b m key pwd p shatype new_hmac :
  repr b m -> hmac_total -> zlen key = 64 -> c_str pwd = Some p -> zlen new_hmac = MAXSHASIZE ->
  shatype ≠ SHATYPE_ERROR ->
  match find_attr STUN_ATTRIBUTE_MESSAGE_INTEGRITY (m_attrs m) with
  | Some v =>
    (zlen v = shasize_of shatype ->
     stun_check_message_integrity_by_key_str ct (sb_mem b) (sb_len b) key pwd shatype new_hmac =
       Some (1, sb_mem b)) /\
    (zlen v ≠ shasize_of shatype ->
     stun_check_message_integrity_by_key_str ct (sb_mem b) (sb_len b) key pwd shatype new_hmac =
       Some (-1, sb_mem b))
  | None =>
    stun_check_message_integrity_by_key_str ct (sb_mem b) (sb_len b) key pwd shatype new_hmac =
      Some (-1, sb_mem b)
  end.
Proof using L. intros Hr Ht Hkey Hpwd. apply check_by_key_value; [done..|by eexists]. Qed.
End spec.

(** * Witnesses *)

Lemma toy_hmac_total : hmac_total.
Proof. intros a k d. by eexists. Qed.

Lemma stun_attr_add_integrity_by_user_refines_witness :
  exists b m, repr b m /\
  authenticated (zlen (sb_mem b)) m SHATYPE_SHA1 (lit "user") (lit "realm") (lit "pw") (lit "nonce")
    (stun_attr_add_integrity_by_user_str b (cstring (lit "user")) (cstring (lit "realm")) (cstring (lit "pw"))
       (cstring (lit "nonce")) SHATYPE_SHA1 (replicate 64 0) [] (replicate 128 0) 0).
Proof.
  destruct (repr_init STUN_MAGIC_COOKIE 1 (SBuf (replicate (Z.to_nat 5000) 0) 0) sample_entropy)
    as (b0 & _ & Hr & Hz);
    [apply bytes_replicate0|cbn [sb_mem]; rewrite zlen_replicate; lia|exact sample_entropy_ok|done|].
  eexists b0, _. split; [exact Hr|].
  apply (stun_attr_add_integrity_by_user_refines b0 _ _ _ _ _ (lit "user") (lit "realm") (lit "pw") (lit "nonce"));
    [exact Hr|vm_compute; discriminate|rewrite Hz; cbn [sb_mem]; rewrite zlen_replicate; lia|exact toy_hmac_total
    |reflexivity|reflexivity|reflexivity|reflexivity|by apply bytes_concrete|by apply bytes_concrete
    |by apply bytes_concrete|vm_compute; discriminate|vm_compute; discriminate|vm_compute; discriminate|reflexivity
    |apply bytes_replicate0|reflexivity].
Defined.

(** A message with an integrity value of zeros. *)
Definition forged_msg : stun_msg :=
  StunMsg 1 STUN_MAGIC_COOKIE sample_tid [(STUN_ATTRIBUTE_MESSAGE_INTEGRITY, replicate 20 0)].

Definition forged_buf : sbuf :=
  SBuf (header_bytes 1 24 STUN_MAGIC_COOKIE sample_tid ++ [0; 8; 0; 20] ++ replicate 20 0) 44.

Lemma forged_repr : repr forged_buf forged_msg.
Proof. split; try done. by apply bytes_concrete. Qed.

Lemma stun_check_message_integrity_vacuous_witness :
  stun_check_message_integrity_by_key_str TURN_CREDENTIALS_LONG_TERM (sb_mem forged_buf) 44 (replicate 64 7) [0]
    SHATYPE_SHA1 (replicate 128 0) = Some (1, sb_mem forged_buf).
Proof.
  exact (proj1 (stun_check_message_integrity_vacuous TURN_CREDENTIALS_LONG_TERM forged_buf forged_msg (replicate 64 7)
    [0] [] SHATYPE_SHA1 (replicate 128 0) forged_repr toy_hmac_total eq_refl eq_refl eq_refl ltac:(discriminate))
    eq_refl).
Defined.
