(* ===== verification/Evp.v ===== *)
(** The interface to OpenSSL's EVP ciphers, as the OAuth tokens use them.

    [EVP_*] are operations of the class [Evp] over an abstract context.  The
    laws [EvpLaws] state the documented behaviour of AES-GCM: a context is
    described by a [gcm_state], each call moves that description, the cipher is
    length-preserving and its own inverse, the tag is a function of the key, the
    nonce, the additional data and the ciphertext, and [EVP_DecryptFinal_ex]
    succeeds exactly on the expected tag.  [toy_evp] is an instance on which
    witnesses compute. *)

From S2P Require Import Prelude Defs.

Inductive EVP_CIPHER : Type := EVP_aes_128_gcm | EVP_aes_256_gcm.

#[export] Instance EVP_CIPHER_eq_dec : EqDecision EVP_CIPHER.
Proof. solve_decision. Defined.

(** The number of key bytes each cipher reads. *)
Definition cipher_key_length (c : EVP_CIPHER) : Z :=
  match c with EVP_aes_128_gcm => 16 | EVP_aes_256_gcm => 32 end.

Class Evp : Type := {
  evp_ctx : Type;
  EVP_CIPHER_CTX_new : evp_ctx;
  (** Cipher, key and IV, each NULL or the memory from its pointer. *)
  EVP_EncryptInit_ex : evp_ctx -> option EVP_CIPHER -> option (list Z) -> option (list Z) -> Z * evp_ctx;
  EVP_DecryptInit_ex : evp_ctx -> option EVP_CIPHER -> option (list Z) -> option (list Z) -> Z * evp_ctx;
  EVP_CIPHER_CTX_set_padding : evp_ctx -> Z -> evp_ctx;
  (** [EVP_CIPHER_CTX_ctrl] with the three requests the code makes. *)
  EVP_CTRL_GCM_SET_IVLEN : evp_ctx -> Z -> Z * evp_ctx;
  EVP_CTRL_GCM_GET_TAG : evp_ctx -> Z -> list Z;
  EVP_CTRL_GCM_SET_TAG : evp_ctx -> list Z -> evp_ctx;
  (** Is there an output buffer, and the input; result: return code, [*outl],
      the bytes written, the context. *)
  EVP_EncryptUpdate : evp_ctx -> bool -> list Z -> Z * Z * list Z * evp_ctx;
  EVP_DecryptUpdate : evp_ctx -> bool -> list Z -> Z * Z * list Z * evp_ctx;
  (** Return code and the bytes written ([*outl] is their number). *)
  EVP_EncryptFinal_ex : evp_ctx -> Z * list Z * evp_ctx;
  EVP_DecryptFinal_ex : evp_ctx -> Z * list Z;
}.

(** What a GCM context holds. *)
Record gcm_state : Type := GcmState {
  g_cipher : option EVP_CIPHER;
  g_enc : bool;
  g_ivlen : Z;
  g_key : list Z;
  g_iv : list Z;
  g_aad : list Z;
  g_ct : list Z;
  g_tag : list Z;
}.

(** After the key and the nonce are set. *)
Definition gcm_start (c : EVP_CIPHER) (enc : bool) (key iv tag : list Z) : gcm_state :=
  GcmState (Some c) enc (zlen iv) key iv [] [] tag.

Definition gcm_aad (g : gcm_state) (aad : list Z) : gcm_state :=
  GcmState (g_cipher g) (g_enc g) (g_ivlen g) (g_key g) (g_iv g) aad (g_ct g) (g_tag g).

Definition gcm_data (g : gcm_state) (ct : list Z) : gcm_state :=
  GcmState (g_cipher g) (g_enc g) (g_ivlen g) (g_key g) (g_iv g) (g_aad g) ct (g_tag g).

Class EvpLaws (E : Evp) : Type := {
  (** The cipher and the tag, as functions of key and nonce. *)
  gcm_crypt : EVP_CIPHER -> list Z -> list Z -> list Z -> list Z;
  gcm_auth : EVP_CIPHER -> list Z -> list Z -> list Z -> list Z -> list Z;
  gcm_crypt_zlen c k v d : zlen (gcm_crypt c k v d) = zlen d;
  gcm_crypt_bytes c k v d : bytes k -> bytes v -> bytes d -> bytes (gcm_crypt c k v d);
  gcm_crypt_inv c k v d : bytes k -> bytes v -> bytes d -> gcm_crypt c k v (gcm_crypt c k v d) = d;
  gcm_auth_zlen c k v a d : zlen (gcm_auth c k v a d) = OAUTH_GCM_TAG_SIZE;
  gcm_auth_bytes c k v a d : bytes (gcm_auth c k v a d);
  (** The description of a context. *)
  view : evp_ctx -> gcm_state;
  EncryptInit_cipher c :
    let (r, x) := EVP_EncryptInit_ex EVP_CIPHER_CTX_new (Some c) None None in
    r = 1 /\ view x = GcmState (Some c) true 12 [] [] [] [] [];
  DecryptInit_cipher c :
    let (r, x) := EVP_DecryptInit_ex EVP_CIPHER_CTX_new (Some c) None None in
    r = 1 /\ view x = GcmState (Some c) false 12 [] [] [] [] [];
  set_padding_view x n : view (EVP_CIPHER_CTX_set_padding x n) = view x;
  SetIvlen_view x c e l n :
    view x = GcmState (Some c) e l [] [] [] [] [] -> 1 <= n ->
    let (r, y) := EVP_CTRL_GCM_SET_IVLEN x n in
    r = 1 /\ view y = GcmState (Some c) e n [] [] [] [] [];
  EncryptInit_key x c n key iv :
    view x = GcmState (Some c) true n [] [] [] [] [] -> cipher_key_length c <= zlen key -> n <= zlen iv ->
    let (r, y) := EVP_EncryptInit_ex x None (Some key) (Some iv) in
    r = 1 /\ view y = GcmState (Some c) true n (take (Z.to_nat (cipher_key_length c)) key) (take (Z.to_nat n) iv) [] [] [];
  DecryptInit_key x c n key iv :
    view x = GcmState (Some c) false n [] [] [] [] [] -> cipher_key_length c <= zlen key -> n <= zlen iv ->
    let (r, y) := EVP_DecryptInit_ex x None (Some key) (Some iv) in
    r = 1 /\ view y = GcmState (Some c) false n (take (Z.to_nat (cipher_key_length c)) key) (take (Z.to_nat n) iv) [] [] [];
  SetTag_view x c k v t t' :
    view x = gcm_start c false k v t -> view (EVP_CTRL_GCM_SET_TAG x t') = gcm_start c false k v t';
  EncryptUpdate_aad x c k v t a :
    view x = gcm_start c true k v t ->
    let '(r, n, w, y) := EVP_EncryptUpdate x false a in
    r = 1 /\ n = zlen a /\ w = [] /\ view y = gcm_aad (view x) a;
  DecryptUpdate_aad x c k v t a :
    view x = gcm_start c false k v t ->
    let '(r, n, w, y) := EVP_DecryptUpdate x false a in
    r = 1 /\ n = zlen a /\ w = [] /\ view y = gcm_aad (view x) a;
  EncryptUpdate_data x c k v t a d :
    view x = gcm_aad (gcm_start c true k v t) a ->
    let '(r, n, w, y) := EVP_EncryptUpdate x true d in
    r = 1 /\ n = zlen d /\ w = gcm_crypt c k v d /\ view y = gcm_data (view x) w;
  DecryptUpdate_data x c k v t a d :
    view x = gcm_aad (gcm_start c false k v t) a ->
    let '(r, n, w, y) := EVP_DecryptUpdate x true d in
    r = 1 /\ n = zlen d /\ w = gcm_crypt c k v d /\ view y = gcm_data (view x) d;
  EncryptFinal_view x c k v t a d :
    view x = gcm_data (gcm_aad (gcm_start c true k v t) a) d ->
    let '(_, w, y) := EVP_EncryptFinal_ex x in w = [] /\ view y = view x;
  GetTag_view x c k v t a d :
    view x = gcm_data (gcm_aad (gcm_start c true k v t) a) d ->
    EVP_CTRL_GCM_GET_TAG x OAUTH_GCM_TAG_SIZE = gcm_auth c k v a d;
  DecryptFinal_view x c k v t a d :
    view x = gcm_data (gcm_aad (gcm_start c false k v t) a) d ->
    let '(r, w) := EVP_DecryptFinal_ex x in
    w = [] /\ (1 <= r <-> t = gcm_auth c k v a d);
}.

(** * An instance that computes *)

Definition toy_mask (k v : list Z) : Z := u8 (foldl Z.add 0 k + foldl Z.add 0 v).

Definition toy_crypt (k v d : list Z) : list Z := (λ b, u8 (toy_mask k v - b)) <$> d.

Definition toy_auth (k v a d : list Z) : list Z :=
  replicate 16 (u8 (toy_mask k v + foldl Z.add 0 a + 3 * foldl Z.add 0 d)).

Definition toy_klen (g : gcm_state) : nat :=
  match g_cipher g with Some c => Z.to_nat (cipher_key_length c) | None => 0 end.

Definition toy_init (e : bool) (g : gcm_state) (c : option EVP_CIPHER) (key iv : option (list Z)) : Z * gcm_state :=
  match c, key, iv with
  | Some c, None, None => (1, GcmState (Some c) e 12 [] [] [] [] [])
  | None, Some k, Some v =>
    (1, GcmState (g_cipher g) e (g_ivlen g) (take (toy_klen g) k) (take (Z.to_nat (g_ivlen g)) v) [] [] (g_tag g))
  | _, _, _ => (0, g)
  end.

#[export] Instance toy_evp : Evp := {
  evp_ctx := gcm_state;
  EVP_CIPHER_CTX_new := GcmState None true 12 [] [] [] [] [];
  EVP_EncryptInit_ex := toy_init true;
  EVP_DecryptInit_ex := toy_init false;
  EVP_CIPHER_CTX_set_padding g _ := g;
  EVP_CTRL_GCM_SET_IVLEN g n :=
    (1, GcmState (g_cipher g) (g_enc g) n (g_key g) (g_iv g) (g_aad g) (g_ct g) (g_tag g));
  EVP_CTRL_GCM_GET_TAG g _ := toy_auth (g_key g) (g_iv g) (g_aad g) (g_ct g);
  EVP_CTRL_GCM_SET_TAG g t := GcmState (g_cipher g) (g_enc g) (g_ivlen g) (g_key g) (g_iv g) (g_aad g) (g_ct g) t;
  EVP_EncryptUpdate g out d :=
    if out : bool then let w := toy_crypt (g_key g) (g_iv g) d in (1, zlen d, w, gcm_data g w)
    else (1, zlen d, [], gcm_aad g d);
  EVP_DecryptUpdate g out d :=
    if out : bool then (1, zlen d, toy_crypt (g_key g) (g_iv g) d, gcm_data g d)
    else (1, zlen d, [], gcm_aad g d);
  EVP_EncryptFinal_ex g := (1, [], g);
  EVP_DecryptFinal_ex g :=
    (b2z (bool_decide (g_tag g = toy_auth (g_key g) (g_iv g) (g_aad g) (g_ct g))), []);
}.

Lemma toy_crypt_inv k v d : bytes d -> toy_crypt k v (toy_crypt k v d) = d.
Proof.
  unfold toy_crypt. induction 1 as [|b d Hb Hd IH]; [done|]. rewrite !fmap_cons. f_equal; [|done].
  pose proof (u8_range (foldl Z.add 0 k + foldl Z.add 0 v)) as Hm. fold (toy_mask k v) in Hm.
  unfold u8. rewrite Zminus_mod_idemp_r. replace (toy_mask k v - (toy_mask k v - b)) with b by lia.
  by apply Z.mod_small.
Qed.

#[export] Instance toy_evp_laws : EvpLaws toy_evp.
Proof.
  refine {| gcm_crypt c k v d := toy_crypt k v d; gcm_auth c k v a d := toy_auth k v a d;
            view := (λ g : gcm_state, g) : @evp_ctx toy_evp -> gcm_state |}.
  - intros c k v d. unfold toy_crypt, zlen. by rewrite length_fmap.
  - intros c k v d _ _ _. unfold toy_crypt. apply Forall_fmap, Forall_true. intros b. apply u8_range.
  - intros c k v d _ _ Hd. by apply toy_crypt_inv.
  - done.
  - intros c k v a d. apply Forall_replicate. apply u8_range.
  - done.
  - done.
  - done.
  - intros x c e l n -> Hn. done.
  - intros x c n key iv -> Hk Hn. done.
  - intros x c n key iv -> Hk Hn. done.
  - intros x c k v t t' ->. done.
  - intros x c k v t a ->. done.
  - intros x c k v t a ->. done.
  - intros x c k v t a d ->. done.
  - intros x c k v t a d ->. done.
  - intros x c k v t a d ->. done.
  - intros x c k v t a d ->. done.
  - intros x c k v t a d ->. split; [done|]. cbn [EVP_DecryptFinal_ex toy_evp g_tag g_key g_iv g_aad g_ct gcm_data gcm_aad gcm_start].
    case_bool_decide; cbn [b2z]; split; try done; lia.
Defined.
