(* ===== verification/OAuth.v ===== *)
(** Third-party authorization: the key data and the self-contained tokens of
    [client/ns_turn_msg.c] ([remove_spaces] to [decode_oauth_token]), with
    TURN_NO_GCM undefined.

    Structures are records of their fields, an array field is its memory.
    OpenSSL's contexts come from the class [Evp].  Messages printed on stderr
    are not modelled. *)

From S2P Require Import Prelude Defs CString StunHeader StunMsg Evp.

(** * Strings *)

(** The leading blanks: the position of the first character that is not ' '. *)
Fixpoint rs_skip (fuel : nat) (s : list Z) (p : Z) : option Z :=
  match fuel with
  | O => None
  | S f =>
    c ← rd8 s p;
    if (c =? 0) || negb (c =? 32) then Some p else rs_skip f s (p + 1)
  end.

(** [while( *sfns && ( *sfns != ' ')) *s++ = *sfns++; *s = 0;] *)
Fixpoint rs_move (fuel : nat) (s : list Z) (dst src : Z) : option (list Z) :=
  match fuel with
  | O => None
  | S f =>
    c ← rd8 s src;
    if truth c && negb (c =? 32) then s ← wr8 s dst c; rs_move f s (dst + 1) (src + 1)
    else wr8 s dst 0
  end.

(** The first blank becomes the end of the string. *)
Fixpoint rs_cut (fuel : nat) (s : list Z) (p : Z) : option (list Z) :=
  match fuel with
  | O => None
  | S f =>
    c ← rd8 s p;
    if c =? 0 then Some s else if c =? 32 then wr8 s p 0 else rs_cut f s (p + 1)
  end.

Definition remove_spaces (s : list Z) : option (list Z) :=
  sfns ← rs_skip (length s) s 0;
  c ← rd8 s sfns;
  if truth c then
    if negb (sfns =? 0) then rs_move (length s) s 0 sfns else rs_cut (length s) s 0
  else Some s.

Fixpoint na_loop (fuel : nat) (s : list Z) (p : Z) : option (list Z) :=
  match fuel with
  | O => None
  | S f =>
    c ← rd8 s p;
    if truth c then
      s ← (if c =? 95 then wr8 s p 45
           else if (97 <=? c) && (c <=? 122) then wr8 s p (c - 97 + 65) else Some s);
      na_loop f s (p + 1)
    else Some s
  end.

Definition normalize_algorithm (s : list Z) : option (list Z) := na_loop (length s) s 0.

(** * Keys *)

Record oauth_key_data : Type := OauthKeyData {
  okd_kid : list Z;
  okd_ikm_key : list Z;
  okd_ikm_key_size : Z;
  okd_timestamp : Z;
  okd_lifetime : Z;
  okd_as_rs_alg : list Z;
}.

Record oauth_key : Type := OauthKey {
  ok_kid : list Z;
  ok_ikm_key : list Z;
  ok_ikm_key_size : Z;
  ok_timestamp : Z;
  ok_lifetime : Z;
  ok_as_rs_alg : ENC_ALG;
  ok_as_rs_key : list Z;
  ok_as_rs_key_size : Z;
  ok_auth_key : list Z;
  ok_auth_key_size : Z;
}.

Definition calculate_enc_key_length (a : ENC_ALG) : Z :=
  match a with A128GCM => 16 | _ => 32 end.

Definition calculate_auth_key_length (a : ENC_ALG) : Z :=
  match a with A256GCM | A128GCM => 0 | _ => 0 end.

(** The return code and [new_key]; [key_size] is not used. *)
Definition calculate_key (key : list Z) (key_size : Z) (new_key : list Z) (new_key_size : Z)
    : option (Z * list Z) :=
  bs ← rd_block key 0 new_key_size;
  new_key ← wr_block new_key 0 bs;
  Some (0, new_key).

(** [if(err_msg) snprintf(err_msg,err_msg_size,...)] *)
Definition set_err (err_msg : option (list Z)) (size : Z) (text : list Z) : option (option (list Z)) :=
  match err_msg with
  | None => Some None
  | Some m => m ← snprintf m size text; Some (Some m)
  end.

(** The structure [bzero] leaves; the enumeration value 0 is A256GCM. *)
Definition oauth_key_zero : oauth_key :=
  OauthKey (replicate 129 0) (replicate 257 0) 0 0 0 ENC_ALG_DEFAULT (replicate 257 0) 0 (replicate 257 0) 0.

(** [now] is [turn_time()].  Result: the return code, [*key], [err_msg]. *)
Definition convert_oauth_key_data (now : Z) (oakd0 : option oauth_key_data) (key : option oauth_key)
    (err_msg : option (list Z)) (err_msg_size : Z) : option (Z * option oauth_key * option (list Z)) :=
  match oakd0, key with
  | Some oakd, Some _ =>
    err_msg ← (if negb (truth (okd_ikm_key_size oakd)) then set_err err_msg err_msg_size (lit "key is not defined")
               else Some err_msg);
    kid ← remove_spaces (okd_kid oakd);
    alg ← remove_spaces (okd_as_rs_alg oakd);
    alg ← normalize_algorithm alg;
    k0 ← rd8 kid 0;
    if negb (truth k0) then
      err_msg ← set_err err_msg err_msg_size (lit "KID is not defined");
      Some (-1, key, err_msg)
    else
    let k := oauth_key_zero in
    kk ← STRCPY (ok_kid k) (OAUTH_KID_SIZE + 1) kid;
    ikm ← rd_block (okd_ikm_key oakd) 0 (OAUTH_KEY_SIZE + 1);
    let ts := if truth (okd_timestamp oakd) then okd_timestamp oakd else now in
    let lt := if truth (okd_lifetime oakd) then okd_lifetime oakd else OAUTH_DEFAULT_LIFETIME in
    let k1 := OauthKey kk ikm (okd_ikm_key_size oakd) ts lt ENC_ALG_DEFAULT (ok_as_rs_key k) 0 (ok_auth_key k) 0 in
    a ← c_str alg;
    let finish (x : ENC_ALG) :=
      auth ← wr8 (ok_auth_key k1) 0 0;
      let auth_size := calculate_auth_key_length x in
      '(r, auth) ← (if truth auth_size then calculate_key ikm (ok_ikm_key_size k1) auth auth_size else Some (0, auth));
      if r <? 0 then
        Some (-1, Some (OauthKey kk ikm (okd_ikm_key_size oakd) ts lt x (ok_as_rs_key k1) 0 auth auth_size), err_msg)
      else
      let size := calculate_enc_key_length x in
      '(r, ask) ← calculate_key ikm (ok_ikm_key_size k1) (ok_as_rs_key k1) size;
      Some ((if r <? 0 then -1 else 0),
            Some (OauthKey kk ikm (okd_ikm_key_size oakd) ts lt x ask size auth auth_size), err_msg) in
    if streq a (lit "A128GCM") then finish A128GCM
    else if streq a (lit "A256GCM") then finish A256GCM
    else
      err_msg ← set_err err_msg err_msg_size
                  (lit "Wrong oAuth token encryption algorithm: " ++ a ++ lit " (2)" ++ [10]);
      Some (-1, Some k1, err_msg)
  | _, _ => Some (0, key, err_msg)
  end.

(** * Tokens *)

Record oauth_encrypted_block : Type := OauthBlock {
  ob_nonce_length : Z;
  ob_nonce : list Z;
  ob_key_length : Z;
  ob_mac_key : list Z;
  ob_timestamp : Z;
  ob_lifetime : Z;
}.

Record oauth_token : Type := OauthToken { enc_block : oauth_encrypted_block }.

Record encoded_oauth_token : Type := EncodedToken { et_token : list Z; et_size : Z }.

Definition get_cipher_type (enc_alg : ENC_ALG) : option EVP_CIPHER :=
  match enc_alg with
  | A128GCM => Some EVP_aes_128_gcm
  | A256GCM => Some EVP_aes_256_gcm
  | _ => None
  end.

Section tokens.
Context `{E : Evp}.

(** The loop of both functions: [cycles] is the number of calls the counter
    still allows (127 at the start), [out] the offset of the output in [mem], or
    [None] for NULL.  Result: the return code, [mem], [out_len], the context. *)
Fixpoint update_loop (upd : evp_ctx -> bool -> list Z -> Z * Z * list Z * evp_ctx) (cycles : nat) (ctx : evp_ctx)
    (mem : list Z) (out : option Z) (inp : list Z) (out_len : Z) : option (Z * list Z * Z * evp_ctx) :=
  match cycles with
  | O => Some (1, mem, out_len, ctx)
  | S n =>
    if out_len <? zlen inp then
      rest ← rd_block inp out_len (zlen inp - out_len);
      let '(ret, tmp_outl, w, ctx) := upd ctx (match out with Some _ => true | None => false end) rest in
      mem ← match out with Some p => wr_block mem (p + out_len) w | None => Some mem end;
      let out_len := out_len + tmp_outl in
      if ret <? 1 then Some (ret, mem, out_len, ctx) else update_loop upd n ctx mem out inp out_len
    else Some (1, mem, out_len, ctx)
  end.

(** [outl]: the caller's variable, set on success only. *)
Definition my_update (upd : evp_ctx -> bool -> list Z -> Z * Z * list Z * evp_ctx) (ctx : evp_ctx)
    (mem : list Z) (out : option Z) (outl : Z) (inp : list Z) : option (Z * list Z * Z * evp_ctx) :=
  '(ret, mem, out_len, ctx) ← update_loop upd 127 ctx mem out inp 0;
  Some (ret, mem, (if ret <? 1 then outl else out_len), ctx).

Definition my_EVP_EncryptUpdate := my_update EVP_EncryptUpdate.
Definition my_EVP_DecryptUpdate := my_update EVP_DecryptUpdate.

Definition encode_oauth_token_normal (server_name : list Z) (etoken : encoded_oauth_token) (key : oauth_key)
    (dtoken : oauth_token) : Z := -1.
Definition decode_oauth_token_normal (server_name : list Z) (etoken : encoded_oauth_token) (key : oauth_key)
    (dtoken : oauth_token) : Z := -1.

(** The pointers are not NULL: the only caller has tested them.  [nonce0] is
    NULL or the caller's nonce, [j] fills the local array [nonce]. *)
Definition encode_oauth_token_gcm (server_name : list Z) (etoken : encoded_oauth_token) (key : oauth_key)
    (dtoken : oauth_token) (nonce0 : option (list Z)) (e : entropy) (j : Z) : option (Z * encoded_oauth_token) :=
  let b := enc_block dtoken in
  if negb (ob_key_length b <=? MAXSHASIZE) then Some (-1, etoken) else
  let orig_field := replicate (Z.to_nat MAX_ENCODED_OAUTH_TOKEN_SIZE) 0 in
  nonce ← match nonce0 with
          | Some n0 => rd_block n0 0 OAUTH_GCM_NONCE_SIZE
          | None => generate_random_nonce (replicate (Z.to_nat OAUTH_GCM_NONCE_SIZE) j) OAUTH_GCM_NONCE_SIZE e
          end;
  orig_field ← store16 orig_field 0 (nswap16 OAUTH_GCM_NONCE_SIZE);
  let len := 2 in
  orig_field ← wr_block orig_field len nonce;
  let len := len + OAUTH_GCM_NONCE_SIZE in
  orig_field ← store16 orig_field len (nswap16 (ob_key_length b));
  let len := len + 2 in
  mk ← rd_block (ob_mac_key b) 0 (ob_key_length b);
  orig_field ← wr_block orig_field len mk;
  let len := len + ob_key_length b in
  orig_field ← store64 orig_field len (nswap64 (ob_timestamp b));
  let len := len + 8 in
  orig_field ← store32 orig_field len (nswap32 (ob_lifetime b));
  let len := len + 4 in
  match get_cipher_type (ok_as_rs_alg key) with
  | None => Some (-1, etoken)
  | Some cipher =>
    let '(r, ctx) := EVP_EncryptInit_ex EVP_CIPHER_CTX_new (Some cipher) None None in
    if negb (r =? 1) then Some (-1, etoken) else
    let ctx := EVP_CIPHER_CTX_set_padding ctx 1 in
    let '(r, ctx) := EVP_CTRL_GCM_SET_IVLEN ctx OAUTH_GCM_NONCE_SIZE in
    if negb (r =? 1) then Some (-1, etoken) else
    let '(r, ctx) := EVP_EncryptInit_ex ctx None (Some (ok_as_rs_key key)) (Some nonce) in
    if negb (r =? 1) then Some (-1, etoken) else
    sn ← c_str server_name;
    '(r, _, _, ctx) ← my_EVP_EncryptUpdate ctx [] None 0 sn;
    if negb (r =? 1) then Some (-1, etoken) else
    hd ← rd_block orig_field 0 (OAUTH_GCM_NONCE_SIZE + 2);
    token ← wr_block (et_token etoken) 0 hd;
    let encoded_field := OAUTH_GCM_NONCE_SIZE + 2 in
    start_field ← rd_block orig_field (OAUTH_GCM_NONCE_SIZE + 2) (len - (OAUTH_GCM_NONCE_SIZE + 2));
    '(r, token, outl, ctx) ← my_EVP_EncryptUpdate ctx token (Some encoded_field) 0 start_field;
    if negb (r =? 1) then Some (-1, EncodedToken token (et_size etoken)) else
    let '(_, w, ctx) := EVP_EncryptFinal_ex ctx in
    token ← wr_block token (encoded_field + outl) w;
    let outl := outl + zlen w in
    token ← wr_block token (encoded_field + outl) (EVP_CTRL_GCM_GET_TAG ctx OAUTH_GCM_TAG_SIZE);
    let outl := outl + OAUTH_GCM_TAG_SIZE in
    Some (0, EncodedToken token (2 + OAUTH_GCM_NONCE_SIZE + outl))
  end.

(** [junk]: the uninitialised array [decoded_field]. *)
Definition decode_oauth_token_gcm (server_name : list Z) (etoken : encoded_oauth_token) (key : oauth_key)
    (dtoken : oauth_token) (junk : list Z) : option (Z * oauth_token) :=
  let token := et_token etoken in
  snl ← load16 token 0;
  let nonce_len := nswap16 snl in
  let b := enc_block dtoken in
  let fail (nonce : list Z) :=
    Some (-1, OauthToken (OauthBlock nonce_len nonce (ob_key_length b) (ob_mac_key b) (ob_timestamp b) (ob_lifetime b))) in
  if et_size etoken <? 2 + 4 + 8 + nonce_len + 2 + OAUTH_GCM_TAG_SIZE + 1 then fail (ob_nonce b) else
  let encoded_field_size := u32 (et_size etoken - nonce_len - 2 - OAUTH_GCM_TAG_SIZE) in
  nc ← rd_block token 2 nonce_len;
  nonce ← wr_block (ob_nonce b) 0 nc;
  tag ← rd_block token (nonce_len + 2 + encoded_field_size) OAUTH_GCM_TAG_SIZE;
  match get_cipher_type (ok_as_rs_alg key) with
  | None => fail nonce
  | Some cipher =>
    let '(r, ctx) := EVP_DecryptInit_ex EVP_CIPHER_CTX_new (Some cipher) None None in
    if negb (r =? 1) then fail nonce else
    let '(r, ctx) := EVP_CTRL_GCM_SET_IVLEN ctx nonce_len in
    if negb (r =? 1) then fail nonce else
    let '(r, ctx) := EVP_DecryptInit_ex ctx None (Some (ok_as_rs_key key)) (Some (drop 2 token)) in
    if negb (r =? 1) then fail nonce else
    let ctx := EVP_CTRL_GCM_SET_TAG ctx tag in
    sn ← c_str server_name;
    '(r, _, outl, ctx) ← my_EVP_DecryptUpdate ctx [] None 0 sn;
    if negb (r =? 1) then fail nonce else
    encoded_field ← rd_block token (nonce_len + 2) encoded_field_size;
    '(r, decoded_field, outl, ctx) ← my_EVP_DecryptUpdate ctx junk (Some 0) outl encoded_field;
    if negb (r =? 1) then fail nonce else
    let '(r, w) := EVP_DecryptFinal_ex ctx in
    decoded_field ← wr_block decoded_field outl w;
    if r <? 1 then fail nonce else
    kl ← load16 decoded_field 0;
    let key_length := nswap16 kl in
    mk ← rd_block decoded_field 2 key_length;
    mac_key ← wr_block (ob_mac_key b) 0 mk;
    ts ← load64 decoded_field (2 + key_length);
    lt ← load32 decoded_field (2 + key_length + 8);
    Some (0, OauthToken (OauthBlock nonce_len nonce key_length mac_key (nswap64 ts) (nswap32 lt)))
  end.

Definition encode_oauth_token (server_name : option (list Z)) (etoken : option encoded_oauth_token)
    (key : option oauth_key) (dtoken : option oauth_token) (nonce : option (list Z)) (e : entropy) (j : Z)
    : option (Z * option encoded_oauth_token) :=
  match server_name, etoken, key, dtoken with
  | Some sn, Some et, Some k, Some dt =>
    match ok_as_rs_alg k with
    | A256GCM | A128GCM =>
      '(r, et) ← encode_oauth_token_gcm sn et k dt nonce e j; Some (r, Some et)
    | _ => Some (-1, etoken)
    end
  | _, _, _, _ => Some (-1, etoken)
  end.

Definition decode_oauth_token (server_name : option (list Z)) (etoken : option encoded_oauth_token)
    (key : option oauth_key) (dtoken : option oauth_token) (junk : list Z)
    : option (Z * option oauth_token) :=
  match server_name, etoken, key, dtoken with
  | Some sn, Some et, Some k, Some dt =>
    match ok_as_rs_alg k with
    | A256GCM | A128GCM =>
      '(r, dt) ← decode_oauth_token_gcm sn et k dt junk; Some (r, Some dt)
    | _ => Some (-1, dtoken)
    end
  | _, _, _, _ => Some (-1, dtoken)
  end.
End tokens.
