(* ===== verification/OAuthSpec.v ===== *)
(** The OAuth key data and tokens: what the functions of [OAuth] compute.

    [convert_oauth_key_data] normalises the identifiers and derives the keys;
    encoding a token and decoding it with the same key, server name and nonce is
    the identity; decoding accepts exactly the tokens whose tag is right. *)

From S2P Require Import Prelude Defs CString StunHeader StunMsg Evp OAuth.

(** * Words *)

Fixpoint drop_blanks (t : list Z) : list Z :=
  match t with
  | c :: t' => if c =? 32 then drop_blanks t' else t
  | [] => []
  end.

Fixpoint take_word (t : list Z) : list Z :=
  match t with
  | c :: t' => if c =? 32 then [] else c :: take_word t'
  | [] => []
  end.

(** What [remove_spaces] leaves: the first word, or the text itself when it has
    nothing but blanks. *)
Definition first_word (t : list Z) : list Z :=
  match drop_blanks t with [] => t | w => take_word w end.

Definition norm_char (c : Z) : Z :=
  if c =? 95 then 45 else if (97 <=? c) && (c <=? 122) then c - 32 else c.

Lemma zlen_drop_blanks t : zlen (drop_blanks t) <= zlen t.
Proof.
  induction t as [|c t IH]; [done|]. cbn [drop_blanks]. rewrite zlen_cons. case_if; [lia|]. rewrite zlen_cons. lia.
Qed.

Lemma drop_blanks_suffix t : exists k, t = replicate k 32 ++ drop_blanks t.
Proof.
  induction t as [|c t [k IH]]; [by exists 0%nat|]. cbn [drop_blanks]. case_if; zbool.
  - exists (S k). subst. cbn [replicate app]. by f_equal.
  - by exists 0%nat.
Qed.

Lemma rs_skip_at fuel pre t rest :
  nonzero t -> (length t < fuel)%nat ->
  rs_skip fuel (pre ++ t ++ 0 :: rest) (zlen pre) = Some (zlen pre + (zlen t - zlen (drop_blanks t))).
Proof.
  revert pre t. induction fuel as [|f IH]; intros pre t Ht Hf; [lia|]. cbn [rs_skip].
  destruct t as [|c t].
  - cbn [app]. rewrite rd8_here by done. cbn. f_equal. lia.
  - inversion Ht as [|? ? Hc Ht']; subst. cbn [app]. rewrite rd8_here by done. cbn [mbind option_bind drop_blanks].
    apply Z.eqb_neq in Hc as ->. cbn [orb].
    destruct (c =? 32) eqn:E; cbn [negb]; [|f_equal; lia].
    replace (pre ++ c :: t ++ 0 :: rest) with ((pre ++ [c]) ++ t ++ 0 :: rest) by by rewrite <- app_assoc.
    replace (zlen pre + 1) with (zlen (pre ++ [c])) by (by rewrite zlen_app).
    rewrite IH by (try done; cbn in Hf; lia). rewrite zlen_app, zlen_1, zlen_cons. f_equal. lia.
Qed.

Lemma rs_move_at fuel pre x mid w rest :
  bytes w -> nonzero w -> (length w < fuel)%nat ->
  exists rest', rs_move fuel (pre ++ (x :: mid) ++ w ++ 0 :: rest) (zlen pre) (zlen pre + zlen (x :: mid))
    = Some (pre ++ take_word w ++ 0 :: rest').
Proof.
  revert pre x mid w. induction fuel as [|f IH]; intros pre x mid w Hb Hw Hf; [lia|]. cbn [rs_move].
  destruct w as [|c w].
  - rewrite (app_assoc pre). cbn [app take_word].
    rewrite rd8_here by (by rewrite zlen_app). cbn [mbind option_bind truth Z.eqb negb andb].
    rewrite <- app_assoc. cbn [app]. rewrite wr8_here by (done || lia). eauto.
  - inversion Hw as [|? ? Hc Hw']; inversion Hb as [|? ? Hbc Hb']; subst.
    rewrite (app_assoc pre). cbn [app take_word].
    rewrite rd8_here by (by rewrite zlen_app). cbn [mbind option_bind].
    unfold truth. apply Z.eqb_neq in Hc as ->. cbn [negb andb].
    destruct (c =? 32) eqn:E; cbn [negb].
    + rewrite <- app_assoc. cbn [app]. rewrite wr8_here by (done || lia). eauto.
    + rewrite <- app_assoc. cbn [app]. rewrite wr8_here by (done || lia). cbn [mbind option_bind].
      destruct mid as [|y mid].
      * destruct (IH (pre ++ [c]) c [] w) as [rest' IH']; [done..|cbn in Hf; lia|].
        exists rest'. rewrite <- app_assoc in IH'. rewrite zlen_app, !zlen_1 in IH'. cbn [app] in *.
        rewrite zlen_1, IH'. by rewrite <- app_assoc.
      * destruct (IH (pre ++ [c]) y (mid ++ [c]) w) as [rest' IH']; [done..|cbn in Hf; lia|].
        exists rest'. rewrite <- !app_assoc in IH'. cbn [app] in *. rewrite <- app_assoc in IH'. cbn [app] in IH'.
        rewrite <- IH'. repeat rewrite ?zlen_app, ?zlen_cons. change (zlen (@nil Z)) with 0. f_equal; lia.
Qed.

Lemma rs_cut_at fuel pre t rest :
  nonzero t -> (length t < fuel)%nat ->
  exists rest', rs_cut fuel (pre ++ t ++ 0 :: rest) (zlen pre) = Some (pre ++ take_word t ++ 0 :: rest').
Proof.
  revert pre t. induction fuel as [|f IH]; intros pre t Ht Hf; [lia|]. cbn [rs_cut].
  destruct t as [|c t]; cbn [app take_word]; rewrite rd8_here by done; cbn [mbind option_bind].
  - by eexists.
  - inversion Ht as [|? ? Hc Ht']; subst. apply Z.eqb_neq in Hc as ->.
    destruct (c =? 32) eqn:E; [rewrite wr8_here by (done || lia); eauto|].
    replace (pre ++ c :: t ++ 0 :: rest) with ((pre ++ [c]) ++ t ++ 0 :: rest) by by rewrite <- app_assoc.
    replace (zlen pre + 1) with (zlen (pre ++ [c])) by (by rewrite zlen_app).
    destruct (IH (pre ++ [c]) t) as [rest' ->]; [done|cbn in Hf; lia|]. exists rest'. by rewrite <- app_assoc.
Qed.

Lemma remove_spaces_word t rest :
  bytes t -> nonzero t -> exists rest', remove_spaces (t ++ 0 :: rest) = Some (first_word t ++ 0 :: rest').
Proof.
  intros Hb Ht. unfold remove_spaces.
  assert ((length t < length (t ++ 0%Z :: rest))%nat) as Hf by (rewrite length_app; cbn; lia).
  pose proof (rs_skip_at _ [] t rest Ht Hf) as Hs. cbn [app] in Hs. change (zlen []) with 0 in Hs.
  rewrite Hs. cbn [mbind option_bind]. rewrite Z.add_0_l.
  destruct (drop_blanks_suffix t) as [k Hk]. unfold first_word.
  remember (drop_blanks t) as w eqn:Ew. clear Ew.
  assert (zlen t - zlen w = zlen (replicate k 32)) as -> by (rewrite Hk, zlen_app; lia).
  rewrite Hk in Hb, Ht. apply bytes_app in Hb as [_ Hb]. apply Forall_app in Ht as [_ Ht].
  destruct w as [|c w].
  - rewrite app_nil_r in Hk. rewrite Hk, rd8_here by done. cbn [mbind option_bind truth Z.eqb negb]. by eexists.
  - assert (rd8 (t ++ 0 :: rest) (zlen (replicate k 32)) = Some c) as ->.
    { rewrite Hk, <- app_assoc. by apply rd8_here. }
    cbn [mbind option_bind].
    pose proof Ht as [Hc _]%Forall_cons. unfold truth at 1. apply Z.eqb_neq in Hc as ->. cbn [negb].
    destruct k as [|k].
    + cbn [replicate app] in *. change (zlen []) with 0. cbn [Z.eqb negb].
      rewrite <- Hk in *. by apply (rs_cut_at _ [] t).
    + cbn [replicate] in *. set (n := length (t ++ 0 :: rest)).
      assert ((zlen (32 :: replicate k 32) =? 0) = false) as ->.
      { pose proof (zlen_nonneg (replicate k 32)). rewrite zlen_cons. lia. }
      cbn [negb].
      destruct (rs_move_at n [] 32 (replicate k 32) (c :: w) rest) as [rest' Hr]; [done..| |].
      { unfold n. rewrite Hk, !length_app. cbn. lia. }
      exists rest'. cbn [app] in Hr. rewrite Hk. cbn [app]. rewrite <- app_assoc. exact Hr.
Qed.

Lemma na_loop_at fuel pre t rest :
  bytes t -> nonzero t -> (length t < fuel)%nat ->
  na_loop fuel (pre ++ t ++ 0 :: rest) (zlen pre) = Some (pre ++ (norm_char <$> t) ++ 0 :: rest).
Proof.
  revert pre t. induction fuel as [|f IH]; intros pre t Hb Ht Hf; [lia|]. cbn [na_loop].
  destruct t as [|c t]; cbn [app]; rewrite rd8_here by done; cbn [mbind option_bind].
  - done.
  - inversion Ht as [|? ? Hc Ht']; inversion Hb as [|? ? Hbc Hb']; subst.
    unfold truth. apply Z.eqb_neq in Hc as ->. cbn [negb].
    assert ((if c =? 95 then wr8 (pre ++ c :: t ++ 0 :: rest) (zlen pre) 45
       else if (97 <=? c) && (c <=? 122) then wr8 (pre ++ c :: t ++ 0 :: rest) (zlen pre) (c - 97 + 65)
       else Some (pre ++ c :: t ++ 0 :: rest)) = Some ((pre ++ [norm_char c]) ++ t ++ 0 :: rest)) as ->.
    { unfold norm_char. rewrite <- app_assoc. repeat case_if; zbool; rewrite ?wr8_here by (done || lia); try done.
      replace (c - 97 + 65) with (c - 32) by lia. done. }
    cbn [mbind option_bind]. replace (zlen pre + 1) with (zlen (pre ++ [norm_char c])) by (by rewrite zlen_app).
    rewrite IH by (try done; cbn in Hf; lia). by rewrite <- app_assoc.
Qed.

Lemma normalize_algorithm_map t rest :
  bytes t -> nonzero t -> normalize_algorithm (t ++ 0 :: rest) = Some ((norm_char <$> t) ++ 0 :: rest).
Proof.
  intros Hb Ht. unfold normalize_algorithm. apply (na_loop_at _ []); [done..|].
  rewrite length_app. cbn. lia.
Qed.

Lemma take_word_Forall (P : Z -> Prop) t : Forall P t -> Forall P (take_word t).
Proof. induction 1; cbn [take_word]; [done|]. case_if; [done|]. by constructor. Qed.

Lemma first_word_Forall (P : Z -> Prop) t : Forall P t -> Forall P (first_word t).
Proof.
  intros H. unfold first_word. destruct (drop_blanks_suffix t) as [k Hk].
  destruct (drop_blanks t) eqn:E; [done|]. rewrite Hk in H. apply Forall_app in H as [_ H].
  by apply take_word_Forall.
Qed.

Lemma zlen_take_word t : zlen (take_word t) <= zlen t.
Proof.
  induction t as [|c t IH]; [done|]. cbn [take_word]. pose proof (zlen_nonneg t).
  case_if; rewrite ?zlen_cons; [change (zlen []) with 0|]; lia.
Qed.

Lemma zlen_first_word t : zlen (first_word t) <= zlen t.
Proof.
  pose proof (zlen_drop_blanks t). unfold first_word. destruct (drop_blanks t) as [|c w] eqn:E; [lia|].
  pose proof (zlen_take_word (c :: w)). lia.
Qed.

(** * Keys *)

(** A C string in an array of [n] bytes. *)
Definition string_in (n : Z) (m t : list Z) : Prop :=
  exists rest, m = t ++ 0 :: rest /\ zlen m = n /\ bytes m /\ nonzero t.

(** The two names of algorithms the code knows. *)
Definition named_alg (t : list Z) : option ENC_ALG :=
  if streq t (lit "A128GCM") then Some A128GCM
  else if streq t (lit "A256GCM") then Some A256GCM else None.

(** The key that [convert_oauth_key_data] derives for an algorithm. *)
Definition oauth_key_of (now : Z) (kd : oauth_key_data) (kid : list Z) (a : ENC_ALG) (n : Z) : oauth_key :=
  OauthKey (field 129 kid) (okd_ikm_key kd) (okd_ikm_key_size kd)
    (if okd_timestamp kd =? 0 then now else okd_timestamp kd) (okd_lifetime kd) a
    (field 257 (take (Z.to_nat n) (okd_ikm_key kd))) n (zeros 257) 0.

Record kd_ok (kd : oauth_key_data) (kid alg : list Z) : Prop := {
  kd_kid : string_in 129 (okd_kid kd) kid;
  kd_alg : string_in 65 (okd_as_rs_alg kd) alg;
  kd_ikm : zlen (okd_ikm_key kd) = 257;
}.

Lemma calculate_key_field key sz n :
  zlen key = 257 -> 0 <= n <= 257 ->
  calculate_key key sz (zeros 257) n = Some (0, field 257 (take (Z.to_nat n) key)).
Proof.
  intros Hk Hn. unfold calculate_key. rewrite rd_block_ok by lia. cbn [mbind option_bind]. rewrite drop_0.
  assert (zlen (take (Z.to_nat n) key) = n) as Ht by (unfold zlen in *; rewrite length_take; lia).
  assert (zlen (zeros 257) = 257) as Hz by done.
  rewrite wr_block_ok by (rewrite ?Ht; lia).
  cbn [mbind option_bind]. do 2 f_equal. unfold field, zeros. rewrite Ht, drop_replicate.
  change (Z.to_nat 0) with 0%nat. rewrite take_0. cbn [app]. do 3 f_equal. lia.
Qed.

Lemma wr8_zeros : wr8 (zeros 257) 0 0 = Some (zeros 257).
Proof. reflexivity. Qed.

Lemma string_in_inv n m t : string_in n m t -> zlen t < n /\ bytes t.
Proof.
  intros (r & -> & Hz & Hb & _). pose proof (zlen_nonneg r).
  rewrite zlen_app, zlen_cons in Hz. apply bytes_app in Hb as [? _]. split; [lia|done].
Qed.

Lemma norm_nonzero t : nonzero t -> nonzero (norm_char <$> t).
Proof.
  intros H. apply Forall_fmap. eapply Forall_impl; [exact H|]. intros c Hc. cbn beta in *. unfold compose, norm_char.
  repeat case_if; zbool; lia.
Qed.

(** Both algorithms, with the message left by the test of the key's size. *)
Lemma convert_eq now kd key err err1 sz kid alg :
  kd_ok kd kid alg ->
  (if negb (truth (okd_ikm_key_size kd)) then set_err err sz (lit "key is not defined") else Some err) = Some err1 ->
  convert_oauth_key_data now (Some kd) (Some key) err sz =
  if decide (first_word kid = []) then e ← set_err err1 sz (lit "KID is not defined"); Some (-1, Some key, e)
  else match named_alg (norm_char <$> first_word alg) with
       | Some a => Some (0, Some (oauth_key_of now kd (first_word kid) a (calculate_enc_key_length a)), err1)
       | None =>
         e ← set_err err1 sz (lit "Wrong oAuth token encryption algorithm: "
                              ++ (norm_char <$> first_word alg) ++ lit " (2)" ++ [10]);
         Some (-1, Some (oauth_key_of now kd (first_word kid) ENC_ALG_DEFAULT 0), e)
       end.
Proof.
  intros [Hkid Halg Hikm] He. unfold convert_oauth_key_data. rewrite He. cbn [mbind option_bind].
  destruct (string_in_inv _ _ _ Hkid) as [Lk Bk], (string_in_inv _ _ _ Halg) as [La Ba].
  destruct Hkid as (rk & -> & _ & _ & Nk), Halg as (ra & -> & _ & _ & Na).
  destruct (remove_spaces_word kid rk Bk Nk) as [rk' ->], (remove_spaces_word alg ra Ba Na) as [ra' ->].
  cbn [mbind option_bind].
  pose proof (first_word_Forall _ _ Bk) as Bkw. pose proof (first_word_Forall _ _ Nk) as Nkw.
  pose proof (zlen_first_word kid) as Lkw.
  rewrite normalize_algorithm_map by by apply first_word_Forall. cbn [mbind option_bind].
  destruct (first_word kid) as [|c w].
  { destruct (decide _) as [_|]; [|done]. cbn [app]. by rewrite rd8_head. }
  destruct (decide _) as [|_]; [done|]. cbn [app]. rewrite rd8_head. cbn [mbind option_bind].
  pose proof Nkw as [Hc _]%Forall_cons. unfold truth at 1. apply Z.eqb_neq in Hc as ->. cbn [negb].
  change (ok_kid oauth_key_zero) with (zeros 129). change (OAUTH_KID_SIZE + 1) with 129.
  change (c :: w ++ 0 :: rk') with ((c :: w) ++ 0 :: rk').
  rewrite (STRCPY_field (zeros 129) 129) by (done || lia). cbn [mbind option_bind].
  change (OAUTH_KEY_SIZE + 1) with 257. rewrite <- Hikm at 1. rewrite rd_block_full. cbn [mbind option_bind].
  rewrite c_str_terminated by (apply norm_nonzero, first_word_Forall; done). cbn [mbind option_bind].
  cbn [ok_auth_key ok_as_rs_key ok_ikm_key_size oauth_key_zero].
  change (replicate 257 0) with (zeros 257). rewrite wr8_zeros. cbn [mbind option_bind].
  unfold named_alg, oauth_key_of, truth, OAUTH_DEFAULT_LIFETIME.
  assert ((if negb (okd_timestamp kd =? 0) then okd_timestamp kd else now)
          = (if okd_timestamp kd =? 0 then now else okd_timestamp kd)) as -> by by destruct (_ =? 0).
  assert ((if negb (okd_lifetime kd =? 0) then okd_lifetime kd else 0) = okd_lifetime kd) as ->
    by (destruct (okd_lifetime kd =? 0) eqn:E0; zbool; [by rewrite E0|done]).
  repeat case_if; cbn [calculate_auth_key_length calculate_enc_key_length Z.eqb negb mbind option_bind Z.ltb Z.compare];
    rewrite ?calculate_key_field by (done || lia); done.
Qed.

(** [convert_oauth_key_data] on well-formed key data: an identifier that is
    empty after [remove_spaces] is refused and leaves the key alone; an algorithm
    other than A128GCM and A256GCM (in any case, with '_' for '-') is refused; for
    those two the derived key holds the identifier, the raw key, the time defaults
    and the first 16 or 32 bytes of the raw key as the encryption key. *)
Theorem convert_oauth_key_data_spec now kd key sz kid alg :
  kd_ok kd kid alg ->
  convert_oauth_key_data now (Some kd) (Some key) None sz =
  Some (if decide (first_word kid = []) then (-1, Some key, None)
        else match named_alg (norm_char <$> first_word alg) with
             | Some a => (0, Some (oauth_key_of now kd (first_word kid) a (calculate_enc_key_length a)), None)
             | None => (-1, Some (oauth_key_of now kd (first_word kid) ENC_ALG_DEFAULT 0), None)
             end).
Proof.
  intros H. rewrite (convert_eq now kd key None None sz kid alg H) by by case_if.
  destruct (decide _); [done|]. by destruct (named_alg _).
Qed.

Definition sample_kd : oauth_key_data :=
  OauthKeyData (field 129 (lit "  north ")) (field 257 (lit "carleon")) 7 0 0 (field 65 (lit "a256gcm")).

Lemma sample_kd_ok : kd_ok sample_kd (lit "  north ") (lit "a256gcm").
Proof.
  split; [| |done].
  - exists (zeros 120). repeat split; try done.
    + by apply (bool_decide_unpack _); vm_compute.
    + by apply (bool_decide_unpack _); vm_compute.
  - exists (zeros 57). repeat split; try done.
    + by apply (bool_decide_unpack _); vm_compute.
    + by apply (bool_decide_unpack _); vm_compute.
Qed.

Lemma convert_oauth_key_data_spec_witness :
  convert_oauth_key_data 1700000000 (Some sample_kd) (Some oauth_key_zero) None 0 =
  Some (0, Some (oauth_key_of 1700000000 sample_kd (lit "north") A256GCM 32), None).
Proof.
  rewrite (convert_oauth_key_data_spec _ _ _ _ _ _ sample_kd_ok). reflexivity.
Defined.

(** Key data whose raw key is empty ([ikm_key_size] 0) is not refused: the
    message "key is not defined" is written, but the function goes on, returns 0 and
    derives a key from whatever the array holds. *)
Theorem convert_oauth_key_data_no_key now kd key m sz kid alg a :
  kd_ok kd kid alg -> okd_ikm_key_size kd = 0 -> first_word kid <> [] ->
  named_alg (norm_char <$> first_word alg) = Some a -> 19 <= sz -> 19 <= zlen m ->
  exists m', convert_oauth_key_data now (Some kd) (Some key) (Some m) sz =
    Some (0, Some (oauth_key_of now kd (first_word kid) a (calculate_enc_key_length a)), Some m')
    /\ c_str m' = Some (lit "key is not defined").
Proof.
  intros H H0 Hk Ha Hs Hm. set (t := lit "key is not defined").
  assert (zlen (t ++ [0]) = 19) as Hz by done.
  destruct (wr_block_is_Some m 0 (t ++ [0])) as [m' Hw]; [lia..|].
  assert (take (Z.to_nat (sz - 1)) t = t) as Ht.
  { apply take_ge. change (length t) with 18%nat. lia. }
  exists m'. split.
  - rewrite (convert_eq now kd key (Some m) (Some m') sz kid alg H).
    + rewrite Ha. by destruct (decide _).
    + rewrite H0. cbn [truth Z.eqb negb set_err]. unfold snprintf. fold t. rewrite Ht, Hw.
      by destruct (Z.eqb_spec sz 0); [lia|].
  - apply wr_block_Some in Hw as (_ & _ & ->). change (Z.to_nat 0) with 0%nat. rewrite take_0. cbn [app].
    rewrite <- app_assoc. cbn [app]. apply c_str_terminated. by apply (bool_decide_unpack _); vm_compute.
Qed.

Lemma convert_oauth_key_data_no_key_witness :
  exists m', convert_oauth_key_data 5
    (Some (OauthKeyData (field 129 (lit "north")) (zeros 257) 0 0 0 (field 65 (lit "A128GCM"))))
    (Some oauth_key_zero) (Some (zeros 64)) 64 =
    Some (0, Some (oauth_key_of 5 (OauthKeyData (field 129 (lit "north")) (zeros 257) 0 0 0 (field 65 (lit "A128GCM")))
                     (lit "north") A128GCM 16), Some m')
    /\ c_str m' = Some (lit "key is not defined").
Proof.
  apply (convert_oauth_key_data_no_key 5 _ _ (zeros 64) 64 (lit "north") (lit "A128GCM") A128GCM);
    [|done|done|done|lia|vm_compute; discriminate].
  split; [| |done].
  - exists (zeros 123). repeat split; try done.
    + by apply (bool_decide_unpack _); vm_compute.
    + by apply (bool_decide_unpack _); vm_compute.
  - exists (zeros 57). repeat split; try done.
    + by apply (bool_decide_unpack _); vm_compute.
    + by apply (bool_decide_unpack _); vm_compute.
Defined.
