(* ===== verification/OAuthToken.v ===== *)
(** The self-contained OAuth tokens of [OAuth] over the AES-GCM of [Evp]: the
    wire format, encoding and decoding as inverse functions, and which tokens
    decoding refuses. *)

From S2P Require Import Prelude Defs CString StunHeader StunMsg StunSearch Evp OAuth OAuthSpec.

(** Writing just after a prefix that is kept. *)
Lemma wr_block_append pre r x p :
  p = zlen pre -> zlen x <= zlen r ->
  wr_block (pre ++ r) p x = Some ((pre ++ x) ++ drop (length x) r).
Proof.
  intros -> Hx. pose proof (zlen_nonneg pre). pose proof (zlen_nonneg x).
  rewrite wr_block_ok by (rewrite ?zlen_app; lia). f_equal. unfold zlen.
  rewrite Nat2Z.id, take_app_length, <- app_assoc. do 2 f_equal.
  replace (Z.to_nat (Z.of_nat (length pre) + Z.of_nat (length x))) with (length pre + length x)%nat by lia.
  by rewrite drop_app_add'.
Qed.

Lemma zlen_drop_length {A} (x : list A) (r : list Z) : zlen x <= zlen r -> zlen (drop (length x) r) = zlen r - zlen x.
Proof. unfold zlen. rewrite length_drop. lia. Qed.

(** * Wire format *)

(** The encrypted block. *)
Definition plain (b : oauth_encrypted_block) : list Z :=
  be_split 2 (ob_key_length b) ++ take (Z.to_nat (ob_key_length b)) (ob_mac_key b)
  ++ be_split 8 (ob_timestamp b) ++ be_split 4 (ob_lifetime b).

(** A token: the nonce's length, the nonce, the ciphertext and the tag. *)
Definition framed (nonce ct tag : list Z) : list Z := be_split 2 (zlen nonce) ++ nonce ++ ct ++ tag.

Record block_ok (b : oauth_encrypted_block) : Prop := {
  bo_mac : zlen (ob_mac_key b) = MAXSHASIZE;
  bo_mac_bytes : bytes (ob_mac_key b);
  bo_klen : 0 <= ob_key_length b <= MAXSHASIZE;
  bo_ts : 0 <= ob_timestamp b < 18446744073709551616;
  bo_lt : 0 <= ob_lifetime b < 4294967296;
}.

Record key_ok (k : oauth_key) (c : EVP_CIPHER) : Prop := {
  ko_cipher : get_cipher_type (ok_as_rs_alg k) = Some c;
  ko_zlen : zlen (ok_as_rs_key k) = OAUTH_KEY_SIZE + 1;
  ko_bytes : bytes (ok_as_rs_key k);
}.

(** The bytes of the key that the cipher uses. *)
Definition cipher_key (k : oauth_key) (c : EVP_CIPHER) : list Z :=
  take (Z.to_nat (cipher_key_length c)) (ok_as_rs_key k).

Lemma zlen_plain b : block_ok b -> zlen (plain b) = ob_key_length b + 14.
Proof.
  intros [Hm _ Hk _ _]. unfold plain. rewrite !zlen_app, !zlen_be_split.
  unfold MAXSHASIZE, zlen in *. rewrite length_take. lia.
Qed.

Lemma bytes_plain b : block_ok b -> bytes (plain b).
Proof.
  intros [_ Hm _ _ _]. unfold plain. rewrite !bytes_app. auto using bytes_be_split, bytes_take.
Qed.

Lemma store64_nswap m p v : store64 m p (nswap64 v) = wr_block m p (be_split 8 v).
Proof. unfold store64, nswap64. by rewrite le_split_nswap. Qed.

(** The four stores of the encoder, after the header. *)
Lemma plain_stores h r b :
  block_ok b -> ob_key_length b + 14 <= zlen r ->
  (m ← store16 (h ++ r) (zlen h) (nswap16 (ob_key_length b));
   mk ← rd_block (ob_mac_key b) 0 (ob_key_length b);
   m ← wr_block m (zlen h + 2) mk;
   m ← store64 m (zlen h + 2 + ob_key_length b) (nswap64 (ob_timestamp b));
   store32 m (zlen h + 2 + ob_key_length b + 8) (nswap32 (ob_lifetime b)))
  = Some ((h ++ plain b) ++ drop (length (plain b)) r).
Proof.
  intros Hb Hr. pose proof (zlen_plain b Hb) as Hp. destruct Hb as [Hm _ Hk _ _]. pose proof (zlen_nonneg h).
  set (mk := take (Z.to_nat (ob_key_length b)) (ob_mac_key b)).
  assert (zlen mk = ob_key_length b) as Hmk.
  { unfold mk, MAXSHASIZE, zlen in *. rewrite length_take. lia. }
  rewrite store16_nswap, rd_block_ok by lia. change (Z.to_nat 0) with 0%nat. rewrite drop_0. fold mk.
  transitivity (wr_block (h ++ r) (zlen h) (plain b)).
  - unfold plain. fold mk. rewrite wr_block_app, zlen_be_split.
    destruct (wr_block (h ++ r) _ _) as [m1|]; [|done]. cbn [mbind option_bind].
    change (Z.of_nat 2) with 2. rewrite wr_block_app, Hmk.
    destruct (wr_block m1 _ _) as [m2|]; [|done]. cbn [mbind option_bind].
    rewrite store64_nswap, wr_block_app, zlen_be_split.
    destruct (wr_block m2 _ _) as [m3|]; [|done]. cbn [mbind option_bind].
    by rewrite store32_nswap.
  - apply wr_block_append; [done|lia].
Qed.

Section tokens.
Context `{E : Evp} {L : EvpLaws E}.

(** * The update loops take one turn *)

Lemma cycles_127 : exists n, 127%nat = S (S n).
Proof. by exists 125%nat. Qed.

Lemma my_update_data upd ctx mem p outl d w x :
  upd ctx true d = (1, zlen d, w, x) -> 0 < zlen d ->
  my_update upd ctx mem (Some p) outl d = (m ← wr_block mem p w; Some (1, m, zlen d, x)).
Proof.
  intros Hu Hd. unfold my_update. destruct cycles_127 as [n0 ->]. cbn [update_loop].
  destruct (Z.ltb_spec 0 (zlen d)) as [_|]; [|lia]. rewrite Z.sub_0_r, rd_block_full. cbn [mbind option_bind].
  rewrite Hu. rewrite !Z.add_0_l, Z.add_0_r. destruct (wr_block mem p w) as [m|]; [|done]. cbn [mbind option_bind].
  cbn [Z.ltb Z.compare Pos.compare]. destruct (Z.ltb_spec (zlen d) (zlen d)); [lia|]. done.
Qed.

Lemma my_encrypt_aad ctx mem outl c k v t a :
  view ctx = gcm_start c true k v t ->
  exists x, my_EVP_EncryptUpdate ctx mem None outl a = Some (1, mem, zlen a, x)
    /\ view x = gcm_aad (gcm_start c true k v t) a.
Proof.
  intros Hv. unfold my_EVP_EncryptUpdate, my_update. destruct cycles_127 as [n0 ->]. cbn [update_loop].
  pose proof (zlen_nonneg a). destruct (Z.ltb_spec 0 (zlen a)) as [Ha|Ha].
  - rewrite Z.sub_0_r, rd_block_full. cbn [mbind option_bind].
    pose proof (EncryptUpdate_aad ctx c k v t a Hv) as Hu.
    destruct (EVP_EncryptUpdate ctx false a) as [[[r n] w] y]. destruct Hu as (-> & -> & -> & Hy).
    cbn [Z.ltb Z.compare Pos.compare]. rewrite Z.add_0_l. destruct (Z.ltb_spec (zlen a) (zlen a)); [lia|].
    exists y. split; [done|]. by rewrite Hy, Hv.
  - assert (a = []) as -> by (destruct a; [done|]; rewrite zlen_cons in *; pose proof (zlen_nonneg a); lia).
    exists ctx. split; [done|]. by rewrite Hv.
Qed.

Lemma my_decrypt_aad ctx mem outl c k v t a :
  view ctx = gcm_start c false k v t ->
  exists x, my_EVP_DecryptUpdate ctx mem None outl a = Some (1, mem, zlen a, x)
    /\ view x = gcm_aad (gcm_start c false k v t) a.
Proof.
  intros Hv. unfold my_EVP_DecryptUpdate, my_update. destruct cycles_127 as [n0 ->]. cbn [update_loop].
  pose proof (zlen_nonneg a). destruct (Z.ltb_spec 0 (zlen a)) as [Ha|Ha].
  - rewrite Z.sub_0_r, rd_block_full. cbn [mbind option_bind].
    pose proof (DecryptUpdate_aad ctx c k v t a Hv) as Hu.
    destruct (EVP_DecryptUpdate ctx false a) as [[[r n] w] y]. destruct Hu as (-> & -> & -> & Hy).
    cbn [Z.ltb Z.compare Pos.compare]. rewrite Z.add_0_l. destruct (Z.ltb_spec (zlen a) (zlen a)); [lia|].
    exists y. split; [done|]. by rewrite Hy, Hv.
  - assert (a = []) as -> by (destruct a; [done|]; rewrite zlen_cons in *; pose proof (zlen_nonneg a); lia).
    exists ctx. split; [done|]. by rewrite Hv.
Qed.

(** * Encoding *)

Definition sealed (k : oauth_key) (c : EVP_CIPHER) (nonce aad pt : list Z) : list Z :=
  let ct := gcm_crypt c (cipher_key k c) nonce pt in
  framed nonce ct (gcm_auth c (cipher_key k c) nonce aad ct).

Lemma zlen_cipher_key k c : key_ok k c -> zlen (cipher_key k c) = cipher_key_length c /\ cipher_key_length c <= zlen (ok_as_rs_key k).
Proof.
  intros [_ Hz _]. unfold cipher_key, OAUTH_KEY_SIZE, zlen in *. rewrite length_take. destruct c; cbn; lia.
Qed.

(** The output part of the encoder, from the context that holds key and nonce. *)
Lemma seal_token x token hd c k v a pt :
  view x = gcm_aad (gcm_start c true k v []) a -> 0 < zlen pt -> zlen hd = 14 ->
  zlen hd + zlen pt + 16 <= zlen token ->
  let ct := gcm_crypt c k v pt in
  let out := hd ++ ct ++ gcm_auth c k v a ct in
  exists t1 t2 y r z,
    wr_block token 0 hd = Some t1
    /\ my_EVP_EncryptUpdate x t1 (Some 14) 0 pt = Some (1, t2, zlen pt, y)
    /\ EVP_EncryptFinal_ex y = (r, [], z)
    /\ wr_block t2 (14 + zlen pt) [] = Some t2
    /\ wr_block t2 (14 + zlen pt) (EVP_CTRL_GCM_GET_TAG z OAUTH_GCM_TAG_SIZE)
       = Some (out ++ drop (length out) token)
    /\ zlen out = 14 + zlen pt + 16.
Proof.
  intros Hv Hpt Hhd Hsz ct out.
  pose proof (EncryptUpdate_data x c k v [] a pt Hv) as Hu. pose proof (gcm_crypt_zlen c k v pt) as Hct.
  destruct (EVP_EncryptUpdate x true pt) as [[[r n] w] y] eqn:Eu. destruct Hu as (-> & -> & -> & Hy).
  fold ct in Hct, Hy, Eu. rewrite Hv in Hy.
  pose proof (EncryptFinal_view y c k v [] a ct Hy) as Hf.
  destruct (EVP_EncryptFinal_ex y) as [[rf wf] z] eqn:Ef. destruct Hf as [-> Hz]. rewrite Hy in Hz.
  pose proof (GetTag_view z c k v [] a ct Hz) as Htag.
  pose proof (gcm_auth_zlen c k v a ct) as Htg. change OAUTH_GCM_TAG_SIZE with 16 in Htg.
  set (t1 := hd ++ drop (length hd) token).
  assert (zlen (drop (length hd) token) = zlen token - 14) as Hd1 by (rewrite zlen_drop_length; lia).
  set (t2 := (hd ++ ct) ++ drop (length ct) (drop (length hd) token)).
  assert (zlen (hd ++ ct) = 14 + zlen pt) as Hhc by (rewrite zlen_app; lia).
  exists t1, t2, y, rf, z. split; [|split; [|split; [|split; [|split]]]].
  - apply (wr_block_append [] token hd); [done|lia].
  - unfold my_EVP_EncryptUpdate. rewrite (my_update_data _ _ _ _ _ _ _ _ Eu) by done.
    unfold t1. rewrite (wr_block_append hd) by lia. done.
  - done.
  - unfold t2. rewrite wr_block_append; [|lia|change (zlen (@nil Z)) with 0; apply zlen_nonneg].
    cbn [length]. by rewrite drop_0, app_nil_r.
  - rewrite Htag. unfold t2. rewrite wr_block_append; [|lia|rewrite zlen_drop_length; lia].
    unfold out. f_equal. rewrite <- !app_assoc. do 3 f_equal. by rewrite !drop_drop, !length_app, ?Nat.add_assoc.
  - unfold out. rewrite !zlen_app. lia.
Qed.

Lemma encode_gcm_eq sn rest_sn et k c dt n0 e j :
  block_ok (enc_block dt) -> key_ok k c -> nonzero sn ->
  zlen n0 = OAUTH_GCM_NONCE_SIZE -> zlen (et_token et) = MAX_ENCODED_OAUTH_TOKEN_SIZE ->
  let out := sealed k c n0 sn (plain (enc_block dt)) in
  encode_oauth_token_gcm (sn ++ 0 :: rest_sn) et k dt (Some n0) e j =
  Some (0, EncodedToken (out ++ drop (length out) (et_token et)) (zlen out)).
Proof.
  intros Hb Hk Hsn Hn Het out. pose proof (zlen_plain _ Hb) as Hp. pose proof (zlen_cipher_key k c Hk) as [Hck Hck'].
  set (b := enc_block dt) in *.
  pose proof (bo_klen _ Hb) as Hkl. unfold MAXSHASIZE, MAX_ENCODED_OAUTH_TOKEN_SIZE, OAUTH_GCM_NONCE_SIZE in *.
  unfold encode_oauth_token_gcm. fold b. unfold MAXSHASIZE.
  destruct (Z.leb_spec (ob_key_length b) 128); [|lia]. cbn [negb].
  change OAUTH_GCM_NONCE_SIZE with 12. rewrite <- Hn at 1. rewrite rd_block_full. cbn [mbind option_bind].
  change (Z.to_nat MAX_ENCODED_OAUTH_TOKEN_SIZE) with 1024%nat. set (z := replicate 1024 0).
  assert (zlen z = 1024) as Hz by done. rewrite store16_nswap.
  assert (wr_block z 0 (be_split 2 12) = Some (([] ++ be_split 2 12) ++ drop 2 z)) as ->
    by (apply (wr_block_append [] z); done).
  cbn [mbind option_bind app]. set (l2 := be_split 2 12). assert (zlen l2 = 2) as Hl2 by done.
  rewrite (wr_block_append l2) by (rewrite ?Hn; done). cbn [mbind option_bind].
  set (r := drop (length n0) (drop 2 z)).
  assert (zlen r = 1010) as Hr.
  { unfold r. rewrite zlen_drop_length; rewrite Hn; done. }
  pose proof (plain_stores (l2 ++ n0) r b Hb ltac:(lia)) as Hst.
  rewrite zlen_app, Hl2, Hn in Hst. change (2 + 12) with 14 in *.
  inv_bind. rewrite H0. cbn [mbind option_bind]. rewrite H1. cbn [mbind option_bind]. rewrite H2. cbn [mbind option_bind].
  rewrite H3. cbn [mbind option_bind]. rewrite H4. cbn [mbind option_bind]. clear H0 H1 H2 H3 H4.
  rewrite (ko_cipher _ _ Hk).
  pose proof (EncryptInit_cipher c) as H1. destruct (EVP_EncryptInit_ex _ (Some c) None None) as [r1 c1].
  destruct H1 as [-> V1]. cbn [Z.eqb Pos.eqb negb].
  pose proof (set_padding_view c1 1) as V2. rewrite V1 in V2.
  pose proof (SetIvlen_view _ c _ _ 12 V2 ltac:(lia)) as H3.
  destruct (EVP_CTRL_GCM_SET_IVLEN _ 12) as [r3 c3]. destruct H3 as [-> V3]. cbn [Z.eqb Pos.eqb negb].
  pose proof (EncryptInit_key c3 c 12 _ n0 V3 Hck' ltac:(lia)) as H4.
  destruct (EVP_EncryptInit_ex c3 None _ _) as [r4 c4]. destruct H4 as [-> V4]. cbn [Z.eqb Pos.eqb negb].
  fold (cipher_key k c) in V4. rewrite take_ge in V4 by (unfold zlen in Hn; lia).
  rewrite c_str_terminated by done. cbn [mbind option_bind].
  assert (view c4 = gcm_start c true (cipher_key k c) n0 []) as V4' by by (rewrite V4; unfold gcm_start; rewrite Hn).
  destruct (my_encrypt_aad c4 [] 0 c _ _ _ sn V4') as (c5 & -> & V5). cbn [mbind option_bind Z.eqb Pos.eqb negb].
  change (12 + 2) with 14. set (m := ((l2 ++ n0) ++ plain b) ++ drop (length (plain b)) r).
  assert (zlen m = 1024) as Hm.
  { unfold m. rewrite !zlen_app, zlen_drop_length by lia. lia. }
  assert (rd_block m 0 (zlen m) = Some ([] ++ (l2 ++ n0) ++ (plain b ++ drop (length (plain b)) r))) as Hfull.
  { rewrite rd_block_full. unfold m. by rewrite <- (app_assoc (l2 ++ n0)). }
  assert (rd_block m 0 14 = Some (l2 ++ n0)) as ->.
  { apply (rd_block_part _ _ _ [] (l2 ++ n0) _ _ _ Hfull); [done|rewrite zlen_app; lia]. }
  cbn [mbind option_bind].
  assert (rd_block m 14 (14 + 2 + ob_key_length b + 8 + 4 - 14) = Some (plain b)) as ->.
  { apply (rd_block_part _ 0 (zlen m) (l2 ++ n0) (plain b) (drop (length (plain b)) r)); [exact Hfull|rewrite zlen_app; lia|lia]. }
  pose proof (seal_token c5 (et_token et) (l2 ++ n0) c _ _ sn (plain b) V5 ltac:(lia) ltac:(rewrite zlen_app; lia)
                ltac:(rewrite zlen_app; lia)) as Hseal.
  cbn zeta in Hseal. destruct Hseal as (t1 & t2 & y & rf & z' & -> & S2 & S3 & S4 & S5 & S6).
  cbn [mbind option_bind]. rewrite S2. cbn [mbind option_bind Z.eqb Pos.eqb negb]. rewrite S3, S4.
  cbn [mbind option_bind]. change (zlen (@nil Z)) with 0. rewrite Z.add_0_r, S5. cbn [mbind option_bind].
  assert (out = (l2 ++ n0) ++ gcm_crypt c (cipher_key k c) n0 (plain b) ++
     gcm_auth c (cipher_key k c) n0 sn (gcm_crypt c (cipher_key k c) n0 (plain b))) as ->.
  { unfold out, sealed, framed. rewrite Hn. by rewrite <- app_assoc. }
  do 3 f_equal. rewrite S6. change OAUTH_GCM_TAG_SIZE with 16. lia.
Qed.

(** * Decoding *)

(** An encoded token of the format, whose parts have the sizes decoding accepts. *)
Record token_is (et : encoded_oauth_token) (nonce ct tag : list Z) : Prop := {
  ti_token : exists rest, et_token et = framed nonce ct tag ++ rest;
  ti_zlen : zlen (et_token et) = MAX_ENCODED_OAUTH_TOKEN_SIZE;
  ti_bytes : bytes (et_token et);
  ti_size : et_size et = zlen (framed nonce ct tag);
  ti_nonce : 1 <= zlen nonce <= OAUTH_MAX_NONCE_SIZE;
  ti_ct : 15 <= zlen ct;
  ti_tag : zlen tag = OAUTH_GCM_TAG_SIZE;
}.

(** The block with the nonce that decoding stores before it checks the token. *)
Definition with_nonce (b : oauth_encrypted_block) (nonce : list Z) : oauth_encrypted_block :=
  OauthBlock (zlen nonce) (nonce ++ drop (length nonce) (ob_nonce b)) (ob_key_length b) (ob_mac_key b)
    (ob_timestamp b) (ob_lifetime b).

(** Reading the decrypted block into the structure. *)
Definition parse_block (dec : list Z) (b : oauth_encrypted_block) : option oauth_encrypted_block :=
  key_length ← be_at 2 dec 0;
  mk ← rd_block dec 2 key_length;
  mac_key ← wr_block (ob_mac_key b) 0 mk;
  ts ← be_at 8 dec (2 + key_length);
  lt ← be_at 4 dec (2 + key_length + 8);
  Some (OauthBlock (ob_nonce_length b) (ob_nonce b) key_length mac_key ts lt).

Lemma zlen_framed nonce ct tag : zlen (framed nonce ct tag) = 2 + zlen nonce + zlen ct + zlen tag.
Proof. unfold framed. rewrite !zlen_app, zlen_be_split. lia. Qed.

(** The cipher's part of decoding: what the context decides about a tag. *)
Lemma open_token x junk c k v a ct tag outl :
  view x = gcm_aad (gcm_start c false k v tag) a -> 0 < zlen ct -> zlen ct <= zlen junk ->
  exists y r,
    my_EVP_DecryptUpdate x junk (Some 0) outl ct
      = Some (1, gcm_crypt c k v ct ++ drop (length ct) junk, zlen ct, y)
    /\ EVP_DecryptFinal_ex y = (r, []) /\ (1 <= r <-> tag = gcm_auth c k v a ct).
Proof.
  intros Hv Hct Hj. pose proof (DecryptUpdate_data x c k v tag a ct Hv) as Hu.
  pose proof (gcm_crypt_zlen c k v ct) as Hpt.
  destruct (EVP_DecryptUpdate x true ct) as [[[r n] w] y] eqn:Eu. destruct Hu as (-> & -> & -> & Hy).
  rewrite Hv in Hy. pose proof (DecryptFinal_view y c k v tag a ct Hy) as Hf.
  destruct (EVP_DecryptFinal_ex y) as [rf wf] eqn:Ef. destruct Hf as [-> Hf].
  exists y, rf. split; [|done]. unfold my_EVP_DecryptUpdate.
  rewrite (my_update_data _ _ _ _ _ _ _ _ Eu) by done.
  set (pt := gcm_crypt c k v ct) in *.
  assert (wr_block junk 0 pt = Some (([] ++ pt) ++ drop (length pt) junk)) as ->
    by (apply (wr_block_append [] junk pt); [done|lia]).
  assert (length pt = length ct) as -> by (unfold zlen in Hpt; lia). done.
Qed.

Lemma decode_gcm_eq sn rest_sn et k c dt junk nonce ct tag :
  token_is et nonce ct tag -> key_ok k c -> nonzero sn ->
  zlen (ob_nonce (enc_block dt)) = OAUTH_MAX_NONCE_SIZE ->
  bytes junk -> zlen junk = MAX_ENCODED_OAUTH_TOKEN_SIZE ->
  decode_oauth_token_gcm (sn ++ 0 :: rest_sn) et k dt junk =
  let b' := with_nonce (enc_block dt) nonce in
  if decide (tag = gcm_auth c (cipher_key k c) nonce sn ct) then
    b ← parse_block (gcm_crypt c (cipher_key k c) nonce ct ++ drop (length ct) junk) b';
    Some (0, OauthToken b)
  else Some (-1, OauthToken b').
Proof.
  intros [[rest Ht] Hz Hb Hsz Hn Hct Htag] Hk Hsn Hnon Hj Hjz.
  pose proof (zlen_cipher_key k c Hk) as [Hck Hck']. pose proof (zlen_framed nonce ct tag) as Hf.
  unfold decode_oauth_token_gcm. set (b := enc_block dt) in *. set (token := et_token et) in *.
  unfold OAUTH_MAX_NONCE_SIZE, MAX_ENCODED_OAUTH_TOKEN_SIZE in *. change OAUTH_GCM_TAG_SIZE with 16 in *.
  pose proof (zlen_nonneg rest) as Hrest. pose proof Ht as Hz'. apply (f_equal zlen) in Hz'. rewrite zlen_app in Hz'.
  assert (rd_block token 0 (zlen token) = Some ([] ++ be_split 2 (zlen nonce) ++ (nonce ++ ct ++ tag ++ rest))) as F1.
  { rewrite rd_block_full, Ht. unfold framed. by rewrite <- !app_assoc. }
  assert (rd_block token 0 (zlen token) = Some (be_split 2 (zlen nonce) ++ nonce ++ (ct ++ tag ++ rest))) as F2 by exact F1.
  assert (rd_block token 0 (zlen token) = Some ((be_split 2 (zlen nonce) ++ nonce) ++ ct ++ (tag ++ rest))) as F3
    by by rewrite F2, <- app_assoc.
  assert (rd_block token 0 (zlen token) = Some ((be_split 2 (zlen nonce) ++ nonce ++ ct) ++ tag ++ rest)) as F4
    by by rewrite F2, <- !app_assoc.
  assert (be_at 2 token 0 = Some (zlen nonce)) as Hl.
  { unfold be_at. rewrite (rd_block_part _ _ _ [] _ _ 0 2 F1) by done. cbn [fmap option_fmap option_map].
    rewrite be_combine_split. f_equal. apply Z.mod_small. change (256 ^ Z.of_nat 2) with 65536. lia. }
  destruct (be_at_load16 _ _ _ Hb Hl) as (snl & -> & Hsnl). cbn [mbind option_bind]. rewrite Hsnl.
  destruct (Z.ltb_spec (et_size et) (2 + 4 + 8 + zlen nonce + 2 + 16 + 1)); [lia|].
  assert (u32 (et_size et - zlen nonce - 2 - 16) = zlen ct) as -> by (unfold u32; rewrite Z.mod_small; lia).
  rewrite (rd_block_part _ _ _ _ nonce _ 2 (zlen nonce) F2) by (rewrite ?zlen_be_split; lia). cbn [mbind option_bind].
  assert (wr_block (ob_nonce b) 0 nonce = Some (([] ++ nonce) ++ drop (length nonce) (ob_nonce b))) as ->
    by (apply (wr_block_append [] (ob_nonce b)); [done|lia]).
  cbn [mbind option_bind app].
  rewrite (rd_block_part _ _ _ _ tag _ (zlen nonce + 2 + zlen ct) 16 F4)
    by (rewrite ?zlen_app, ?zlen_be_split; lia). cbn [mbind option_bind].
  rewrite (ko_cipher _ _ Hk).
  pose proof (DecryptInit_cipher c) as H1. destruct (EVP_DecryptInit_ex _ (Some c) None None) as [r1 c1].
  destruct H1 as [-> V1]. cbn [Z.eqb Pos.eqb negb].
  pose proof (SetIvlen_view _ c _ _ (zlen nonce) V1 ltac:(lia)) as H3.
  destruct (EVP_CTRL_GCM_SET_IVLEN _ (zlen nonce)) as [r3 c3]. destruct H3 as [-> V3]. cbn [Z.eqb Pos.eqb negb].
  assert (drop 2 token = nonce ++ ct ++ tag ++ rest) as Hiv.
  { rewrite Ht. unfold framed. rewrite <- !app_assoc. apply (drop_app_length (be_split 2 _)). }
  pose proof (DecryptInit_key c3 c (zlen nonce) _ (drop 2 token) V3 Hck') as H4. rewrite Hiv in *.
  destruct (EVP_DecryptInit_ex c3 None _ _) as [r4 c4].
  destruct H4 as [-> V4]; [rewrite zlen_app; pose proof (zlen_nonneg (ct ++ tag ++ rest)); lia|]. cbn [Z.eqb Pos.eqb negb].
  fold (cipher_key k c) in V4. unfold zlen in V4 at 2. rewrite Nat2Z.id, take_app_length in V4.
  pose proof (SetTag_view c4 c _ _ [] tag V4) as V5.
  rewrite c_str_terminated by done. cbn [mbind option_bind].
  destruct (my_decrypt_aad _ [] 0 c _ _ _ sn V5) as (c6 & -> & V6). cbn [mbind option_bind Z.eqb Pos.eqb negb].
  rewrite (rd_block_part _ _ _ _ ct _ (zlen nonce + 2) (zlen ct) F3)
    by (rewrite ?zlen_app, ?zlen_be_split; lia). cbn [mbind option_bind].
  destruct (open_token c6 junk c _ _ sn ct tag (zlen sn) V6) as (y & r & -> & Ef & Hr); [lia..|].
  cbn [mbind option_bind Z.eqb Pos.eqb negb]. rewrite Ef.
  set (pt := gcm_crypt c (cipher_key k c) nonce ct) in *.
  set (dec := pt ++ drop (length ct) junk).
  assert (zlen dec = 1024) as Hdec.
  { unfold dec, pt. rewrite zlen_app, gcm_crypt_zlen, zlen_drop_length; lia. }
  assert (wr_block dec (zlen ct) [] = Some dec) as ->.
  { destruct (wr_block_is_Some dec (zlen ct) []) as [m Hm]; [lia|change (zlen (@nil Z)) with 0; lia|].
    by rewrite Hm, (wr_block_nil _ _ _ Hm). }
  cbn [mbind option_bind].
  destruct (decide (tag = _)) as [Hok|Hbad].
  2: { destruct (Z.ltb_spec r 1); [done|]. exfalso. apply Hbad, Hr. lia. }
  apply Hr in Hok. destruct (Z.ltb_spec r 1); [lia|].
  assert (bytes dec) as Hdb.
  { unfold dec. rewrite bytes_app. split; [|by apply bytes_drop]. apply gcm_crypt_bytes.
    - apply bytes_take, (ko_bytes _ _ Hk).
    - rewrite Ht in Hb. unfold framed in Hb. rewrite !bytes_app in Hb. tauto.
    - rewrite Ht in Hb. unfold framed in Hb. rewrite !bytes_app in Hb. tauto. }
  unfold parse_block. rewrite <- nswap16_load16 by done. destruct (load16 dec 0) as [kl|]; [|done].
  cbn [mbind option_bind fmap option_fmap option_map].
  destruct (rd_block dec 2 (nswap16 kl)) as [mk|]; [|done]. cbn [mbind option_bind].
  change (ob_mac_key (with_nonce b nonce)) with (ob_mac_key b).
  destruct (wr_block (ob_mac_key b) 0 mk) as [mac|]; [|done]. cbn [mbind option_bind].
  rewrite <- nswap64_load64 by done. destruct (load64 dec _) as [ts|]; [|done].
  cbn [mbind option_bind fmap option_fmap option_map].
  rewrite <- nswap32_load32 by done. by destruct (load32 dec _).
Qed.

Lemma parse_plain b r b' :
  block_ok b -> zlen (ob_mac_key b') = MAXSHASIZE ->
  parse_block (plain b ++ r) b' =
  Some (OauthBlock (ob_nonce_length b') (ob_nonce b') (ob_key_length b)
          (take (Z.to_nat (ob_key_length b)) (ob_mac_key b) ++ drop (Z.to_nat (ob_key_length b)) (ob_mac_key b'))
          (ob_timestamp b) (ob_lifetime b)).
Proof.
  intros [Hm _ Hk Hts Hlt] Hm'. unfold MAXSHASIZE in *. unfold parse_block, plain.
  set (mk := take (Z.to_nat (ob_key_length b)) (ob_mac_key b)).
  assert (zlen mk = ob_key_length b) as Hmk by (unfold mk, zlen in *; rewrite length_take; lia).
  set (x2 := be_split 2 (ob_key_length b)). set (x8 := be_split 8 (ob_timestamp b)).
  set (x4 := be_split 4 (ob_lifetime b)). set (dec := (x2 ++ mk ++ x8 ++ x4) ++ r).
  assert (zlen x2 = 2 /\ zlen x8 = 8 /\ zlen x4 = 4) as (Z2 & Z8 & Z4) by (unfold x2, x8, x4; by rewrite !zlen_be_split).
  assert (rd_block dec 0 (zlen dec) = Some ([] ++ x2 ++ (mk ++ x8 ++ x4 ++ r))) as F1.
  { rewrite rd_block_full. unfold dec. by rewrite <- !app_assoc. }
  assert (rd_block dec 0 (zlen dec) = Some (x2 ++ mk ++ (x8 ++ x4 ++ r))) as F2 by exact F1.
  assert (rd_block dec 0 (zlen dec) = Some ((x2 ++ mk) ++ x8 ++ (x4 ++ r))) as F3 by by rewrite F2, <- app_assoc.
  assert (rd_block dec 0 (zlen dec) = Some ((x2 ++ mk ++ x8) ++ x4 ++ r)) as F4 by by rewrite F2, <- !app_assoc.
  unfold be_at. rewrite (rd_block_part _ _ _ [] x2 _ 0 2 F1) by done. cbn [fmap option_fmap option_map mbind option_bind].
  assert (be_combine x2 = ob_key_length b) as ->.
  { unfold x2. rewrite be_combine_split. apply Z.mod_small. change (256 ^ Z.of_nat 2) with 65536. lia. }
  rewrite (rd_block_part _ _ _ x2 mk _ 2 (ob_key_length b) F2) by lia. cbn [mbind option_bind].
  assert (wr_block (ob_mac_key b') 0 mk = Some (([] ++ mk) ++ drop (length mk) (ob_mac_key b'))) as ->
    by (apply (wr_block_append [] (ob_mac_key b')); [done|lia]).
  cbn [mbind option_bind app]. replace (length mk) with (Z.to_nat (ob_key_length b)) by (unfold zlen in Hmk; lia).
  rewrite (rd_block_part _ _ _ _ x8 _ (2 + ob_key_length b) 8 F3) by (rewrite ?zlen_app; lia).
  rewrite (rd_block_part _ _ _ _ x4 _ (2 + ob_key_length b + 8) 4 F4) by (rewrite ?zlen_app; lia).
  cbn [fmap option_fmap option_map mbind option_bind]. unfold x8, x4. rewrite !be_combine_split.
  rewrite !Z.mod_small; [done|..].
  - change (256 ^ Z.of_nat 4) with 4294967296. lia.
  - change (256 ^ Z.of_nat 8) with 18446744073709551616. lia.
Qed.

(** The dispatchers reach the GCM functions for the keys of [key_ok]. *)
Lemma encode_dispatch k c sn et dt n0 e j :
  key_ok k c ->
  encode_oauth_token (Some sn) (Some et) (Some k) (Some dt) n0 e j =
  ('(r, t) ← encode_oauth_token_gcm sn et k dt n0 e j; Some (r, Some t)).
Proof. intros [Hc _ _]. unfold encode_oauth_token. by destruct (ok_as_rs_alg k). Qed.

Lemma decode_dispatch k c sn et dt junk :
  key_ok k c ->
  decode_oauth_token (Some sn) (Some et) (Some k) (Some dt) junk =
  ('(r, t) ← decode_oauth_token_gcm sn et k dt junk; Some (r, Some t)).
Proof. intros [Hc _ _]. unfold decode_oauth_token. by destruct (ok_as_rs_alg k). Qed.

(** A sealed block is a token of the format. *)
Lemma sealed_token k c n0 aad b et :
  key_ok k c -> block_ok b -> bytes n0 -> zlen n0 = OAUTH_GCM_NONCE_SIZE ->
  bytes (et_token et) -> zlen (et_token et) = MAX_ENCODED_OAUTH_TOKEN_SIZE ->
  let out := sealed k c n0 aad (plain b) in
  let ct := gcm_crypt c (cipher_key k c) n0 (plain b) in
  zlen out = ob_key_length b + 44 ->
  15 <= zlen ct ->
  token_is (EncodedToken (out ++ drop (length out) (et_token et)) (zlen out)) n0 ct
    (gcm_auth c (cipher_key k c) n0 aad ct).
Proof.
  intros Hk Hb Hn Hnz Het Hetz out ct Ho Hct. pose proof (bo_klen _ Hb) as Hkl.
  unfold MAXSHASIZE, MAX_ENCODED_OAUTH_TOKEN_SIZE, OAUTH_GCM_NONCE_SIZE in *.
  assert (bytes ct) as Hcb.
  { apply gcm_crypt_bytes; [apply bytes_take, (ko_bytes _ _ Hk)|done|by apply bytes_plain]. }
  split; cbn [et_token et_size].
  - by exists (drop (length out) (et_token et)).
  - rewrite zlen_app, zlen_drop_length by lia. unfold MAX_ENCODED_OAUTH_TOKEN_SIZE. lia.
  - rewrite bytes_app. split; [|by apply bytes_drop]. unfold out, sealed, framed. rewrite !bytes_app.
    auto using bytes_be_split, gcm_auth_bytes.
  - done.
  - unfold OAUTH_MAX_NONCE_SIZE. lia.
  - done.
  - apply gcm_auth_zlen.
Qed.

(** C23. Encoding a token and decoding the result with the same key and server name
    gives the key length, the MAC key, the timestamp, the lifetime and the nonce that
    were encoded; both functions return 0 and the token is 44 bytes longer than the
    MAC key. *)
Theorem oauth_token_roundtrip sn rest_sn et k c dt n0 e j dt0 junk :
  key_ok k c -> block_ok (enc_block dt) -> 1 <= ob_key_length (enc_block dt) -> nonzero sn ->
  bytes n0 -> zlen n0 = OAUTH_GCM_NONCE_SIZE ->
  bytes (et_token et) -> zlen (et_token et) = MAX_ENCODED_OAUTH_TOKEN_SIZE ->
  zlen (ob_nonce (enc_block dt0)) = OAUTH_MAX_NONCE_SIZE -> zlen (ob_mac_key (enc_block dt0)) = MAXSHASIZE ->
  bytes junk -> zlen junk = MAX_ENCODED_OAUTH_TOKEN_SIZE ->
  let server := Some (sn ++ 0 :: rest_sn) in
  let b := enc_block dt in
  exists et' b',
    encode_oauth_token server (Some et) (Some k) (Some dt) (Some n0) e j = Some (0, Some et')
    /\ et_size et' = ob_key_length b + 44
    /\ decode_oauth_token server (Some et') (Some k) (Some dt0) junk = Some (0, Some (OauthToken b'))
    /\ ob_key_length b' = ob_key_length b
    /\ take (Z.to_nat (ob_key_length b)) (ob_mac_key b') = take (Z.to_nat (ob_key_length b)) (ob_mac_key b)
    /\ ob_timestamp b' = ob_timestamp b /\ ob_lifetime b' = ob_lifetime b
    /\ ob_nonce_length b' = 12 /\ take 12 (ob_nonce b') = n0.
Proof.
  intros Hk Hb H1 Hsn Hn Hnz Het Hetz Hnon Hmac Hj Hjz server b.
  pose proof (zlen_plain _ Hb) as Hp. fold b in Hb, Hp, H1. pose proof (bo_klen _ Hb) as Hkl.
  set (ct := gcm_crypt c (cipher_key k c) n0 (plain b)). set (out := sealed k c n0 sn (plain b)).
  pose proof (gcm_crypt_zlen c (cipher_key k c) n0 (plain b)) as Hctz. fold ct in Hctz.
  assert (zlen out = ob_key_length b + 44) as Ho.
  { unfold out, sealed. rewrite zlen_framed, gcm_auth_zlen, Hnz. fold ct.
    change OAUTH_GCM_TAG_SIZE with 16. change OAUTH_GCM_NONCE_SIZE with 12. lia. }
  exists (EncodedToken (out ++ drop (length out) (et_token et)) (zlen out)). eexists.
  split; [|split; [exact Ho|split]].
  - unfold server. rewrite (encode_dispatch _ _ _ _ _ _ _ _ Hk).
    by rewrite (encode_gcm_eq sn rest_sn et k c dt n0 e j).
  - unfold server. rewrite (decode_dispatch _ _ _ _ _ _ Hk).
    assert (15 <= zlen ct) as H15 by lia.
    pose proof (sealed_token k c n0 sn b et Hk Hb Hn Hnz Het Hetz Ho H15) as Hti.
    fold out in Hti. rewrite (decode_gcm_eq sn rest_sn _ k c dt0 junk n0 ct _ Hti) by done. cbn zeta.
    destruct (decide _) as [_|?]; [|done].
    unfold ct at 1. rewrite gcm_crypt_inv; [|apply bytes_take, (ko_bytes _ _ Hk)|done|by apply bytes_plain].
    by rewrite parse_plain.
  - cbn [ob_key_length ob_mac_key ob_timestamp ob_lifetime ob_nonce_length ob_nonce with_nonce].
    repeat split; try done.
    + apply take_app_length'. unfold MAXSHASIZE, zlen in *. rewrite length_take.
      pose proof (bo_mac _ Hb) as Hbm. unfold MAXSHASIZE, zlen in Hbm. lia.
    + replace 12%nat with (length n0) by (unfold OAUTH_GCM_NONCE_SIZE, zlen in Hnz; lia). apply take_app_length.
Qed.

(** C37. A token of the format whose tag is not the authentication tag of its nonce,
    of the server name and of its ciphertext under the key is refused: decoding
    returns -1, and of the caller's structure only the nonce has been written. *)
Theorem decode_oauth_token_authentic sn rest_sn et k c dt junk nonce ct tag :
  token_is et nonce ct tag -> key_ok k c -> nonzero sn ->
  zlen (ob_nonce (enc_block dt)) = OAUTH_MAX_NONCE_SIZE ->
  bytes junk -> zlen junk = MAX_ENCODED_OAUTH_TOKEN_SIZE ->
  tag <> gcm_auth c (cipher_key k c) nonce sn ct ->
  decode_oauth_token (Some (sn ++ 0 :: rest_sn)) (Some et) (Some k) (Some dt) junk
  = Some (-1, Some (OauthToken (with_nonce (enc_block dt) nonce))).
Proof.
  intros Hti Hk Hsn Hnon Hj Hjz Htag. rewrite (decode_dispatch _ _ _ _ _ _ Hk).
  rewrite (decode_gcm_eq sn rest_sn et k c dt junk nonce ct tag Hti) by done. cbn zeta.
  by destruct (decide _).
Qed.

(** C38. A token of at most 1024 bytes that is long enough for the nonce it announces
    ([n + 33] bytes, the only test that comes before), with [n] greater than 256: the nonce
    is copied past the end of the 256-byte array before the tag is verified, whatever the
    key and the tag are (undefined behaviour). *)
Theorem decode_oauth_token_nonce_overflow server et k c dt junk n :
  key_ok k c -> bytes (et_token et) -> zlen (et_token et) = MAX_ENCODED_OAUTH_TOKEN_SIZE ->
  be_at 2 (et_token et) 0 = Some n -> n > OAUTH_MAX_NONCE_SIZE ->
  n + 33 <= et_size et <= MAX_ENCODED_OAUTH_TOKEN_SIZE ->
  zlen (ob_nonce (enc_block dt)) = OAUTH_MAX_NONCE_SIZE ->
  decode_oauth_token (Some server) (Some et) (Some k) (Some dt) junk = None.
Proof.
  intros Hk Hb Hz Hn Hgt Hsz Hnon. rewrite (decode_dispatch _ _ _ _ _ _ Hk). unfold decode_oauth_token_gcm.
  destruct (be_at_load16 _ _ _ Hb Hn) as (snl & -> & Hs). cbn [mbind option_bind]. rewrite Hs.
  change OAUTH_GCM_TAG_SIZE with 16. unfold MAX_ENCODED_OAUTH_TOKEN_SIZE, OAUTH_MAX_NONCE_SIZE in *.
  destruct (Z.ltb_spec (et_size et) (2 + 4 + 8 + n + 2 + 16 + 1)); [lia|].
  destruct (rd_block (et_token et) 2 n) as [nc|] eqn:Enc; [|done]. cbn [mbind option_bind].
  pose proof (rd_block_zlen _ _ _ _ Enc). destruct (wr_block _ 0 nc) as [m|] eqn:Ew; [|done].
  apply wr_block_bounds in Ew. lia.
Qed.
End tokens.

(** * Witnesses *)

Definition sample_key : oauth_key := oauth_key_of 1700000000 sample_kd (lit "north") A256GCM 32.

Definition sample_block : oauth_encrypted_block :=
  OauthBlock 0 (zeros 256) 20 (field 128 (lit "ZksjpweoixXmvn67534m")) 92470300704768 3600.

Definition zero_block : oauth_encrypted_block := OauthBlock 0 (zeros 256) 0 (zeros 128) 0 0.

Lemma sample_key_ok : key_ok sample_key EVP_aes_256_gcm.
Proof. split; [done|done|]. apply bytes_concrete. vm_compute. reflexivity. Qed.

Lemma sample_block_ok : block_ok sample_block.
Proof.
  split; [done| |cbn; unfold MAXSHASIZE; lia|cbn; lia|cbn; lia]. apply bytes_concrete. vm_compute. reflexivity.
Qed.

Lemma oauth_token_roundtrip_witness :
  exists et' b',
    encode_oauth_token (Some (cstring (lit "blackdow.carleon.gov"))) (Some (EncodedToken (zeros 1024) 0))
      (Some sample_key) (Some (OauthToken sample_block)) (Some (lit "h4j3k2l2n4b5")) (Entropy 1 [] []) 0
      = Some (0, Some et')
    /\ et_size et' = 64
    /\ decode_oauth_token (Some (cstring (lit "blackdow.carleon.gov"))) (Some et') (Some sample_key)
         (Some (OauthToken zero_block)) (zeros 1024) = Some (0, Some (OauthToken b'))
    /\ ob_lifetime b' = 3600.
Proof.
  destruct (oauth_token_roundtrip (lit "blackdow.carleon.gov") [] (EncodedToken (zeros 1024) 0) sample_key
              EVP_aes_256_gcm (OauthToken sample_block) (lit "h4j3k2l2n4b5") (Entropy 1 [] []) 0
              (OauthToken zero_block) (zeros 1024))
    as (et' & b' & H1 & H2 & H3 & _ & _ & _ & H4 & _);
    [exact sample_key_ok|exact sample_block_ok|cbn; lia|by apply (bool_decide_unpack _); vm_compute
    |apply bytes_concrete; reflexivity|reflexivity|apply bytes_replicate0|reflexivity|reflexivity|reflexivity
    |apply bytes_replicate0|reflexivity|].
  exists et', b'. exact (conj H1 (conj H2 (conj H3 H4))).
Defined.

Definition forged : encoded_oauth_token :=
  EncodedToken (framed (lit "h4j3k2l2n4b5") (replicate 20 7) (replicate 16 1) ++ zeros 974) 50.

Lemma forged_is : token_is forged (lit "h4j3k2l2n4b5") (replicate 20 7) (replicate 16 1).
Proof.
  split; [by exists (zeros 974)|reflexivity|apply bytes_concrete; reflexivity|reflexivity| | |reflexivity].
  - unfold OAUTH_MAX_NONCE_SIZE. change (zlen (lit "h4j3k2l2n4b5")) with 12. lia.
  - change (zlen (replicate 20 7)) with 20. lia.
Qed.

Lemma decode_oauth_token_authentic_witness :
  decode_oauth_token (Some (cstring (lit "blackdow.carleon.gov"))) (Some forged) (Some sample_key)
    (Some (OauthToken zero_block)) (zeros 1024)
  = Some (-1, Some (OauthToken (with_nonce zero_block (lit "h4j3k2l2n4b5")))).
Proof.
  apply (decode_oauth_token_authentic (lit "blackdow.carleon.gov") [] forged sample_key EVP_aes_256_gcm
           (OauthToken zero_block) (zeros 1024) (lit "h4j3k2l2n4b5") (replicate 20 7) (replicate 16 1));
    [exact forged_is|exact sample_key_ok|by apply (bool_decide_unpack _); vm_compute|reflexivity
    |apply bytes_replicate0|reflexivity|by apply (bool_decide_unpack _); vm_compute].
Defined.

Lemma decode_oauth_token_nonce_overflow_witness :
  decode_oauth_token (Some (cstring (lit "srv"))) (Some (EncodedToken ([1; 44] ++ zeros 1022) 400)) (Some sample_key)
    (Some (OauthToken zero_block)) (zeros 1024) = None.
Proof.
  apply (decode_oauth_token_nonce_overflow _ _ _ EVP_aes_256_gcm _ _ 300);
    [exact sample_key_ok|apply bytes_concrete; reflexivity|reflexivity|reflexivity| | |reflexivity].
  - unfold OAUTH_MAX_NONCE_SIZE. lia.
  - unfold MAX_ENCODED_OAUTH_TOKEN_SIZE. cbn. lia.
Defined.
