(* ===== verification/Base64.v ===== *)
(** Base64 ([base64_encode] to [base64_decode] of [common/apputils.c]).

    The static table [decoding_table], built at the first use, is explicit
    state.  [j] fills the blocks that [malloc] returns. *)

From S2P Require Import Prelude Defs CString.

(** * The code *)

Definition encoding_table : list Z :=
  lit "ABCDEFGHIJKLMNOPQRSTUVWXYZabcdefghijklmnopqrstuvwxyz0123456789+/".

Definition mod_table : list Z := [0; 2; 1].

(** [i < input_length ? data[i++] : 0] *)
Definition octet (data : list Z) (input_length i : Z) : option (Z * Z) :=
  if i <? input_length then b ← rd8 data i; Some (b, i + 1) else Some (0, i).

(** [encoding_table[(triple >> s) & 0x3F]] *)
Definition enc_char (triple s : Z) : option Z := rd8 encoding_table (Z.land (Z.shiftr triple s) 0x3F).

Fixpoint encode_loop (fuel : nat) (data : list Z) (input_length i j : Z) (out : list Z) : option (list Z) :=
  if i <? input_length then
    match fuel with
    | O => None
    | S f =>
      '(octet_a, i) ← octet data input_length i;
      '(octet_b, i) ← octet data input_length i;
      '(octet_c, i) ← octet data input_length i;
      let triple := u32 (Z.shiftl octet_a 16 + Z.shiftl octet_b 8 + octet_c) in
      e0 ← enc_char triple 18; out ← wr8 out j e0;
      e1 ← enc_char triple 12; out ← wr8 out (j + 1) e1;
      e2 ← enc_char triple 6; out ← wr8 out (j + 2) e2;
      e3 ← enc_char triple 0; out ← wr8 out (j + 3) e3;
      encode_loop f data input_length i (j + 4) out
    end
  else Some out.

(** [encoded_data[*output_length - 1 - i] = '=']: [n] turns are left. *)
Fixpoint pad_loop (n : nat) (out : list Z) (output_length i : Z) : option (list Z) :=
  match n with
  | O => Some out
  | S n' => out ← wr8 out (output_length - 1 - i) 61; pad_loop n' out output_length (i + 1)
  end.

(** The block returned and [*output_length]; [malloc] does not fail. *)
Definition base64_encode (data : list Z) (input_length j : Z) : option (list Z * Z) :=
  let output_length := 4 * ((input_length + 2) / 3) in
  let out := replicate (Z.to_nat (output_length + 1)) j in
  out ← encode_loop (Z.to_nat (output_length / 4)) data input_length 0 0 out;
  k ← rd8 mod_table (input_length mod 3);
  out ← pad_loop (Z.to_nat k) out output_length 0;
  out ← wr8 out output_length 0;
  Some (out, output_length).

(** [for (i = 0; i < 64; i++) decoding_table[encoding_table[i]] = i] *)
Fixpoint table_loop (n : nat) (i : Z) (t : list Z) : option (list Z) :=
  match n with
  | O => Some t
  | S n' => c ← rd8 encoding_table i; t ← wr8 t c i; table_loop n' (i + 1) t
  end.

Definition build_base64_decoding_table : option (list Z) := table_loop 64 0 (replicate 256 0).

(** [data[i] == '=' ? 0 & i++ : decoding_table[(int)data[i++]]]; [char] is
    unsigned on the target. *)
Definition sextet (data table : list Z) (i : Z) : option (Z * Z) :=
  c ← rd8 data i;
  if c =? 61 then Some (0, i + 1) else v ← rd8 table c; Some (v, i + 1).

(** [if (j < *output_length) decoded_data[j++] = v] *)
Definition put (out : list Z) (j output_length v : Z) : option (list Z * Z) :=
  if j <? output_length then out ← wr8 out j v; Some (out, j + 1) else Some (out, j).

Fixpoint decode_loop (fuel : nat) (data table : list Z) (input_length output_length i j : Z) (out : list Z)
    : option (list Z) :=
  if i <? input_length then
    match fuel with
    | O => None
    | S f =>
      '(sextet_a, i) ← sextet data table i;
      '(sextet_b, i) ← sextet data table i;
      '(sextet_c, i) ← sextet data table i;
      '(sextet_d, i) ← sextet data table i;
      let triple := u32 (Z.shiftl sextet_a 18 + Z.shiftl sextet_b 12 + Z.shiftl sextet_c 6 + sextet_d) in
      '(out, j) ← put out j output_length (Z.land (Z.shiftr triple 16) 0xFF);
      '(out, j) ← put out j output_length (Z.land (Z.shiftr triple 8) 0xFF);
      '(out, j) ← put out j output_length (Z.land (Z.shiftr triple 0) 0xFF);
      decode_loop f data table input_length output_length i j out
    end
  else Some out.

(** Result: [decoding_table], the block ([None] is NULL), [*output_length]. *)
Definition base64_decode (decoding_table : option (list Z)) (data : list Z) (input_length output_length0 j : Z)
    : option (option (list Z) * option (list Z) * Z) :=
  table ← match decoding_table with Some t => Some t | None => build_base64_decoding_table end;
  if negb (input_length mod 4 =? 0) then Some (Some table, None, output_length0) else
  let output_length := input_length / 4 * 3 in
  c1 ← rd8 data (input_length - 1);
  let output_length := if c1 =? 61 then output_length - 1 else output_length in
  c2 ← rd8 data (input_length - 2);
  let output_length := if c2 =? 61 then output_length - 1 else output_length in
  out ← decode_loop (Z.to_nat (input_length / 4)) data table input_length output_length 0 0
          (replicate (Z.to_nat output_length) j);
  Some (Some table, Some out, output_length).

(** * The encoding as a function of the data *)

Definition char64 (s : Z) : Z := nth (Z.to_nat s) encoding_table 0.

(** The four characters of a group of three bytes. *)
Definition quad (a b c : Z) : list Z :=
  let t := a * 65536 + b * 256 + c in
  [char64 (t / 262144); char64 (t / 4096 mod 64); char64 (t / 64 mod 64); char64 (t mod 64)].

(** [p] stands where a byte is missing from the last group. *)
Fixpoint b64 (p : Z) (d : list Z) : list Z :=
  match d with
  | a :: b :: c :: d' => quad a b c ++ b64 p d'
  | [a; b] => take 3 (quad a b 0) ++ [p]
  | [a] => take 2 (quad a 0 0) ++ [p; p]
  | [] => []
  end.

Lemma list3_ind (P : list Z -> Prop) :
  P [] -> (forall a, P [a]) -> (forall a b, P [a; b]) -> (forall a b c d, P d -> P (a :: b :: c :: d)) ->
  forall d, P d.
Proof.
  intros H0 H1 H2 H3. fix IH 1. intros [|a [|b [|c d]]]; [exact H0|apply H1|apply H2|]. apply H3, IH.
Qed.

Definition dec_table : list Z := default [] build_base64_decoding_table.

Lemma build_table_eq : build_base64_decoding_table = Some dec_table.
Proof. vm_compute. reflexivity. Qed.

Lemma forall64 (P : Z -> bool) :
  forallb (λ n, P (Z.of_nat n)) (seq 0 64) = true -> forall s, 0 <= s < 64 -> P s = true.
Proof.
  intros H s Hs. rewrite forallb_forall in H. specialize (H (Z.to_nat s)).
  rewrite Z2Nat.id in H by lia. apply H. apply in_seq. lia.
Qed.

(** Every table entry is read in bounds, is not '=', and the tables are inverse. *)
Lemma char64_ok s : 0 <= s < 64 ->
  rd8 encoding_table s = Some (char64 s) /\ char64 s <> 61 /\ 0 <= char64 s < 256
  /\ rd8 dec_table (char64 s) = Some s.
Proof.
  intros Hs.
  assert (bool_decide (rd8 encoding_table s = Some (char64 s)) && negb (char64 s =? 61)
     && ((0 <=? char64 s) && (char64 s <? 256)) && bool_decide (rd8 dec_table (char64 s) = Some s) = true) as H.
  { revert s Hs. apply forall64. vm_compute. reflexivity. }
  repeat rewrite andb_true_iff in H. destruct H as [[[H1 H2] H3] H4].
  apply bool_decide_eq_true in H1, H4. rewrite negb_true_iff in H2. zbool.
  rewrite Z.leb_le, Z.ltb_lt in H3. done.
Qed.

(** * Encoding *)

Definition byte (b : Z) : Prop := 0 <= b < 256.

Lemma triple_div a b c :
  byte a -> byte b -> byte c ->
  let t := a * 65536 + b * 256 + c in
  0 <= t < 16777216
  /\ 0 <= t / 262144 < 64 /\ 0 <= t / 4096 mod 64 < 64 /\ 0 <= t / 64 mod 64 < 64 /\ 0 <= t mod 64 < 64
  /\ t / 262144 * 262144 + t / 4096 mod 64 * 4096 + t / 64 mod 64 * 64 + t mod 64 = t
  /\ t / 65536 = a /\ t / 256 mod 256 = b /\ t mod 256 = c.
Proof. unfold byte. intros Ha Hb Hc. repeat split; Z.div_mod_to_equations; lia. Qed.

Lemma enc_triple a b c :
  byte a -> byte b -> byte c -> u32 (Z.shiftl a 16 + Z.shiftl b 8 + c) = a * 65536 + b * 256 + c.
Proof.
  unfold byte. intros. rewrite !Z.shiftl_mul_pow2 by lia. change (2 ^ 16) with 65536. change (2 ^ 8) with 256.
  apply Z.mod_small. lia.
Qed.

Lemma land_63 n : Z.land n 63 = n mod 64.
Proof. apply (Z.land_ones n 6). lia. Qed.

Lemma land_255 n : Z.land n 255 = n mod 256.
Proof. apply (Z.land_ones n 8). lia. Qed.

Lemma enc_char_eq t s : 0 <= t -> 0 <= s -> enc_char t s = Some (char64 (t / 2 ^ s mod 64)).
Proof.
  intros Ht Hs. unfold enc_char. rewrite land_63, Z.shiftr_div_pow2 by done.
  apply char64_ok. by apply Z.mod_pos_bound.
Qed.

(** Four characters written one after the other. *)
Lemma wr8_quad pre x0 x1 x2 x3 r c0 c1 c2 c3 k :
  k = zlen pre -> byte c0 -> byte c1 -> byte c2 -> byte c3 ->
  (out ← wr8 (pre ++ x0 :: x1 :: x2 :: x3 :: r) k c0;
   out ← wr8 out (k + 1) c1; out ← wr8 out (k + 2) c2; wr8 out (k + 3) c3)
  = Some ((pre ++ [c0; c1; c2; c3]) ++ r).
Proof.
  intros -> H0 H1 H2 H3. rewrite wr8_here by done. cbn [mbind option_bind].
  change (pre ++ c0 :: x1 :: x2 :: x3 :: r) with (pre ++ [c0] ++ x1 :: x2 :: x3 :: r). rewrite app_assoc.
  rewrite wr8_here by (rewrite ?zlen_app; done). cbn [mbind option_bind].
  rewrite <- app_assoc. cbn [app]. change (pre ++ c0 :: c1 :: x2 :: x3 :: r) with (pre ++ [c0; c1] ++ x2 :: x3 :: r).
  rewrite app_assoc. rewrite wr8_here by (rewrite ?zlen_app; done). cbn [mbind option_bind].
  rewrite <- app_assoc. cbn [app]. change (pre ++ c0 :: c1 :: c2 :: x3 :: r) with (pre ++ [c0; c1; c2] ++ x3 :: r).
  rewrite app_assoc. rewrite wr8_here by (rewrite ?zlen_app; done).
  by rewrite <- !app_assoc.
Qed.

Lemma octet_in pre b post n i :
  i = zlen pre -> n = zlen (pre ++ b :: post) -> octet (pre ++ b :: post) n i = Some (b, i + 1).
Proof.
  intros -> ->. unfold octet. pose proof (zlen_nonneg post). rewrite zlen_app, zlen_cons.
  destruct (Z.ltb_spec (zlen pre) (zlen pre + (1 + zlen post))); [|lia]. by rewrite rd8_here.
Qed.

Lemma octet_out data n i : n <= i -> octet data n i = Some (0, i).
Proof. intros. unfold octet. by destruct (Z.ltb_spec i n); [lia|]. Qed.

(** The four stores of a turn. *)
Lemma enc_quad a b c pre x0 x1 x2 x3 r k :
  byte a -> byte b -> byte c -> k = zlen pre ->
  let t := u32 (Z.shiftl a 16 + Z.shiftl b 8 + c) in
  exists o1 o2 o3 e0 e1 e2 e3,
    enc_char t 18 = Some e0 /\ wr8 (pre ++ x0 :: x1 :: x2 :: x3 :: r) k e0 = Some o1
    /\ enc_char t 12 = Some e1 /\ wr8 o1 (k + 1) e1 = Some o2
    /\ enc_char t 6 = Some e2 /\ wr8 o2 (k + 2) e2 = Some o3
    /\ enc_char t 0 = Some e3 /\ wr8 o3 (k + 3) e3 = Some ((pre ++ quad a b c) ++ r).
Proof.
  intros Ha Hb Hc Hk t. unfold t. rewrite enc_triple by done.
  pose proof (triple_div a b c Ha Hb Hc) as H. cbn zeta in H. unfold quad. set (v := a * 65536 + b * 256 + c) in *.
  destruct H as (Hv & H0 & H1 & H2 & H3 & _). rewrite !enc_char_eq by lia.
  change (2 ^ 18) with 262144. change (2 ^ 12) with 4096. change (2 ^ 6) with 64. change (2 ^ 0) with 1.
  rewrite Z.div_1_r. rewrite (Z.mod_small (v / 262144)) by lia.
  pose proof (wr8_quad pre x0 x1 x2 x3 r (char64 (v / 262144)) (char64 (v / 4096 mod 64))
    (char64 (v / 64 mod 64)) (char64 (v mod 64)) k Hk) as Hw.
  assert (forall s, 0 <= s < 64 -> byte (char64 s)) as Hc64 by (intros s Hs; apply char64_ok, Hs).
  specialize (Hw (Hc64 _ H0) (Hc64 _ H1) (Hc64 _ H2) (Hc64 _ H3)). inv_bind. eauto 20.
Qed.

(** Room for the rest of the output. *)
Definition groups (d : list Z) : nat := Z.to_nat ((zlen d + 2) / 3).

Lemma groups_cons a b c d : groups (a :: b :: c :: d) = S (groups d).
Proof.
  unfold groups. rewrite !zlen_cons. pose proof (zlen_nonneg d).
  replace (1 + (1 + (1 + zlen d)) + 2) with (zlen d + 2 + 1 * 3) by lia. rewrite Z.div_add by lia.
  rewrite Z2Nat.inj_add by (try apply Z.div_pos; lia). change (Z.to_nat 1) with 1%nat. lia.
Qed.

Lemma split4 (r : list Z) n : (4 * S n <= length r)%nat ->
  exists x0 x1 x2 x3 r', r = x0 :: x1 :: x2 :: x3 :: r' /\ (4 * n <= length r')%nat.
Proof.
  destruct r as [|x0 [|x1 [|x2 [|x3 r']]]]; cbn; intros; try lia.
  exists x0, x1, x2, x3, r'. split; [done|lia].
Qed.

(** What the loop writes for the last, partial group. *)
Lemma quad_1 a : byte a -> quad a 0 0 = take 2 (quad a 0 0) ++ [65; 65].
Proof.
  intros Ha. unfold quad. cbn [take app]. do 2 f_equal. rewrite !Z.add_0_r. unfold byte in Ha.
  replace (a * 65536 / 64 mod 64) with 0 by (Z.div_mod_to_equations; lia).
  replace (a * 65536 mod 64) with 0 by (Z.div_mod_to_equations; lia). done.
Qed.

Lemma quad_2 a b : byte a -> byte b -> quad a b 0 = take 3 (quad a b 0) ++ [65].
Proof.
  intros Ha Hb. unfold quad. cbn [take app]. do 3 f_equal. rewrite !Z.add_0_r. unfold byte in *.
  replace ((a * 65536 + b * 256) mod 64) with 0 by (Z.div_mod_to_equations; lia). done.
Qed.

(** One turn, given the octets it reads. *)
Lemma encode_turn f data n i i1 i2 i3 a b c pre r x0 x1 x2 x3 :
  i < n -> octet data n i = Some (a, i1) -> octet data n i1 = Some (b, i2) -> octet data n i2 = Some (c, i3) ->
  byte a -> byte b -> byte c ->
  encode_loop (S f) data n i (zlen pre) (pre ++ x0 :: x1 :: x2 :: x3 :: r)
  = encode_loop f data n i3 (zlen (pre ++ quad a b c)) ((pre ++ quad a b c) ++ r).
Proof.
  intros Hi O1 O2 O3 Ha Hb Hc. cbn [encode_loop]. destruct (Z.ltb_spec i n); [|lia].
  rewrite O1. cbn [mbind option_bind]. rewrite O2. cbn [mbind option_bind]. rewrite O3. cbn [mbind option_bind].
  destruct (enc_quad a b c pre x0 x1 x2 x3 r (zlen pre) Ha Hb Hc eq_refl)
    as (o1 & o2 & o3 & e0 & e1 & e2 & e3 & -> & W1 & -> & W2 & -> & W3 & -> & W4).
  cbn [mbind option_bind]. rewrite W1. cbn [mbind option_bind]. rewrite W2. cbn [mbind option_bind].
  rewrite W3. cbn [mbind option_bind]. rewrite W4. cbn [mbind option_bind].
  by rewrite zlen_app.
Qed.

Lemma encode_loop_end f data n i j out : n <= i -> encode_loop f data n i j out = Some out.
Proof. intros. destruct f; cbn [encode_loop]; (destruct (Z.ltb_spec i n); [lia|done]). Qed.

Lemma encode_loop_at d : bytes d -> forall pd pre r f,
  (4 * groups d <= length r)%nat -> (groups d <= f)%nat ->
  encode_loop f (pd ++ d) (zlen (pd ++ d)) (zlen pd) (zlen pre) (pre ++ r)
  = Some (pre ++ b64 65 d ++ drop (4 * groups d) r).
Proof.
  assert (byte 0) as H0 by done.
  induction d as [|a|a b|a b c d IH] using list3_ind; intros Hd pd pre r f Hr Hf.
  - change (4 * groups [])%nat with 0%nat. rewrite drop_0, app_nil_r. apply encode_loop_end. lia.
  - change (groups [a]) with 1%nat in *. destruct f as [|f]; [lia|].
    destruct (split4 r 0 Hr) as (x0 & x1 & x2 & x3 & r' & -> & _). apply Forall_cons in Hd as [Ha _].
    rewrite (encode_turn _ _ _ _ (zlen pd + 1) (zlen pd + 1) (zlen pd + 1) a 0 0);
      [|rewrite zlen_app, zlen_1; lia|by apply octet_in|apply octet_out; rewrite zlen_app, zlen_1; lia
       |apply octet_out; rewrite zlen_app, zlen_1; lia|done..].
    rewrite encode_loop_end by (rewrite zlen_app, zlen_1; lia).
    rewrite quad_1 by done. by rewrite <- !app_assoc.
  - change (groups [a; b]) with 1%nat in *. destruct f as [|f]; [lia|].
    destruct (split4 r 0 Hr) as (x0 & x1 & x2 & x3 & r' & -> & _). apply Forall_cons in Hd as [Ha [Hb _]%Forall_cons].
    assert (zlen (pd ++ [a; b]) = zlen pd + 2) as Hz by by rewrite zlen_app.
    rewrite (encode_turn _ _ _ _ (zlen pd + 1) (zlen pd + 2) (zlen pd + 2) a b 0);
      [|lia|by apply octet_in| |apply octet_out; lia|done..].
    2: { change (pd ++ [a; b]) with (pd ++ [a] ++ [b]). rewrite app_assoc.
         rewrite octet_in; [f_equal; f_equal; lia|by rewrite zlen_app|done]. }
    rewrite encode_loop_end by lia. rewrite quad_2 by done. by rewrite <- !app_assoc.
  - rewrite groups_cons in *. destruct f as [|f]; [lia|].
    destruct (split4 r _ Hr) as (x0 & x1 & x2 & x3 & r' & -> & Hr').
    apply Forall_cons in Hd as [Ha [Hb [Hc Hd]%Forall_cons]%Forall_cons].
    assert (zlen (pd ++ a :: b :: c :: d) = zlen pd + 3 + zlen d) as Hz by (rewrite zlen_app, !zlen_cons; lia).
    pose proof (zlen_nonneg d).
    rewrite (encode_turn _ _ _ _ (zlen pd + 1) (zlen pd + 2) (zlen pd + 3) a b c);
      [|lia|by apply octet_in| | |done..].
    2: { change (pd ++ a :: b :: c :: d) with (pd ++ [a] ++ b :: c :: d). rewrite app_assoc.
         rewrite octet_in; [f_equal; f_equal; lia|by rewrite zlen_app|done]. }
    2: { change (pd ++ a :: b :: c :: d) with (pd ++ [a; b] ++ c :: d). rewrite app_assoc.
         rewrite octet_in; [f_equal; f_equal; lia|by rewrite zlen_app|done]. }
    specialize (IH Hd (pd ++ [a; b; c]) (pre ++ quad a b c) r' f ltac:(lia) ltac:(lia)).
    rewrite (zlen_app pd) in IH. change (zlen [a; b; c]) with 3 in IH.
    rewrite <- !app_assoc in IH. cbn [app] in IH.
    rewrite <- app_assoc, IH. cbn [b64]. rewrite <- !app_assoc. do 4 f_equal.
    by replace (4 * S (groups d))%nat with (S (S (S (S (4 * groups d))))) by lia.
Qed.

Lemma zlen_b64 p d : zlen (b64 p d) = 4 * Z.of_nat (groups d).
Proof.
  induction d as [|a|a b|a b c d IH] using list3_ind; [done..|].
  rewrite groups_cons. cbn [b64]. rewrite zlen_app, IH. change (zlen (quad a b c)) with 4. lia.
Qed.

Lemma zlen_mod3_cons (a b c : Z) d : zlen (a :: b :: c :: d) mod 3 = zlen d mod 3.
Proof. rewrite !zlen_cons. Z.div_mod_to_equations. lia. Qed.

(** The significant characters, and how many pad the last group. *)
Lemma b64_pad d : exists pre k,
  (forall p, b64 p d = pre ++ replicate k p) /\ rd8 mod_table (zlen d mod 3) = Some (Z.of_nat k) /\ (k <= 2)%nat
  /\ zlen d = 3 * Z.of_nat (groups d) - Z.of_nat k.
Proof.
  induction d as [|a|a b|a b c d (pre & k & Hp & Hm & Hk & Hl)] using list3_ind.
  - exists [], 0%nat. repeat split; try done; lia.
  - exists (take 2 (quad a 0 0)), 2%nat. repeat split; try done; lia.
  - exists (take 3 (quad a b 0)), 1%nat. repeat split; try done; lia.
  - exists (quad a b c ++ pre), k. rewrite zlen_mod3_cons. repeat split; [|done..|].
    + intros p. cbn [b64]. by rewrite Hp, app_assoc.
    + rewrite groups_cons, !zlen_cons. lia.
Qed.

Lemma pad_loop_at k pre x :
  (k <= 2)%nat ->
  pad_loop k (pre ++ replicate k 65 ++ [x]) (zlen pre + Z.of_nat k) 0 = Some (pre ++ replicate k 61 ++ [x]).
Proof.
  intros Hk. destruct k as [|[|[|k]]]; [done| | |lia]; cbn [pad_loop replicate app].
  - by rewrite wr8_here by (done || lia).
  - change (pre ++ 65 :: 65 :: [x]) with (pre ++ [65] ++ 65 :: [x]). rewrite app_assoc.
    rewrite wr8_here by (rewrite ?zlen_app, ?zlen_1; done || lia). cbn [mbind option_bind].
    rewrite <- app_assoc. cbn [app]. by rewrite wr8_here by (done || lia).
Qed.

Lemma base64_encode_eq d j :
  bytes d -> base64_encode d (zlen d) j = Some (b64 61 d ++ [0], zlen (b64 61 d)).
Proof.
  intros Hd. unfold base64_encode. pose proof (zlen_nonneg d).
  assert (4 * ((zlen d + 2) / 3) = 4 * Z.of_nat (groups d)) as ->.
  { unfold groups. rewrite Z2Nat.id; [done|]. apply Z.div_pos; lia. }
  rewrite zlen_b64. set (g := groups d).
  replace (Z.to_nat (4 * Z.of_nat g + 1)) with (4 * g + 1)%nat by lia.
  replace (Z.to_nat (4 * Z.of_nat g / 4)) with g by (rewrite Z.mul_comm, Z.div_mul; lia).
  pose proof (encode_loop_at d Hd [] [] (replicate (4 * g + 1) j) g) as He. cbn [app] in He.
  change (zlen (@nil Z)) with 0 in He. rewrite He by (rewrite ?length_replicate; fold g; lia). fold g. cbn [mbind option_bind].
  rewrite drop_replicate. replace (4 * g + 1 - 4 * g)%nat with 1%nat by lia.
  destruct (b64_pad d) as (pre & k & Hp & -> & Hk & Hl). fold g in Hl. cbn [mbind option_bind]. rewrite Nat2Z.id.
  pose proof (zlen_b64 61 d) as Hz. fold g in Hz. rewrite Hp in Hz. rewrite !Hp.
  rewrite zlen_app in Hz. unfold zlen in Hz at 2. rewrite length_replicate in Hz.
  rewrite <- Hz, <- app_assoc. cbn [replicate]. rewrite pad_loop_at by done. cbn [mbind option_bind].
  rewrite app_assoc. rewrite wr8_here; [by rewrite app_nil_r || done| |done].
  rewrite zlen_app. f_equal. unfold zlen. by rewrite length_replicate.
Qed.

(** * Decoding *)

Lemma sextet_char pre s post i :
  i = zlen pre -> 0 <= s < 64 ->
  sextet (pre ++ char64 s :: post) dec_table i = Some (s, i + 1).
Proof.
  intros -> Hs. unfold sextet. destruct (char64_ok s Hs) as (_ & Hne & _ & Hd).
  rewrite rd8_here by done. cbn [mbind option_bind]. apply Z.eqb_neq in Hne as ->. by rewrite Hd.
Qed.

Lemma sextet_pad pre post i : i = zlen pre -> sextet (pre ++ 61 :: post) dec_table i = Some (0, i + 1).
Proof. intros ->. unfold sextet. by rewrite rd8_here. Qed.

Lemma put_in done x r n v : n > zlen done -> byte v ->
  put (done ++ x :: r) (zlen done) n v = Some ((done ++ [v]) ++ r, zlen (done ++ [v])).
Proof.
  intros Hn Hv. unfold put. destruct (Z.ltb_spec (zlen done) n); [|lia]. rewrite wr8_here by done.
  cbn [mbind option_bind]. rewrite <- app_assoc, zlen_app. done.
Qed.

Lemma put_out out j n v : n <= j -> put out j n v = Some (out, j).
Proof. intros. unfold put. by destruct (Z.ltb_spec j n); [lia|]. Qed.

Lemma dec_triple s0 s1 s2 s3 t :
  0 <= s0 < 64 -> 0 <= s1 < 64 -> 0 <= s2 < 64 -> 0 <= s3 < 64 ->
  s0 * 262144 + s1 * 4096 + s2 * 64 + s3 = t ->
  u32 (Z.shiftl s0 18 + Z.shiftl s1 12 + Z.shiftl s2 6 + s3) = t.
Proof.
  intros. rewrite !Z.shiftl_mul_pow2 by lia. change (2 ^ 18) with 262144. change (2 ^ 12) with 4096.
  change (2 ^ 6) with 64. unfold u32. rewrite Z.mod_small; lia.
Qed.

(** The three bytes of a group. *)
Lemma dec_bytes a b c :
  byte a -> byte b -> byte c ->
  let t := a * 65536 + b * 256 + c in
  Z.land (Z.shiftr t 16) 255 = a /\ Z.land (Z.shiftr t 8) 255 = b /\ Z.land (Z.shiftr t 0) 255 = c.
Proof.
  intros Ha Hb Hc t. pose proof (triple_div a b c Ha Hb Hc) as H. cbn zeta in H. fold t in H.
  rewrite !land_255, Z.shiftr_0_r, !Z.shiftr_div_pow2 by lia. change (2 ^ 16) with 65536. change (2 ^ 8) with 256.
  destruct H as (_ & _ & _ & _ & _ & _ & H1 & H2 & H3). rewrite H1. split; [|done]. by apply Z.mod_small.
Qed.

(** The sextets of a group, with the pads of a partial one. *)
Lemma sextets_at pin g post a b c k :
  byte a -> byte b -> byte c -> (k <= 2)%nat ->
  ((k = 1)%nat -> c = 0) -> ((k = 2)%nat -> b = 0 /\ c = 0) ->
  g = take (4 - k) (quad a b c) ++ replicate k 61 ->
  let t := a * 65536 + b * 256 + c in
  let i := zlen pin in
  exists s0 s1 s2 s3,
    sextet (pin ++ g ++ post) dec_table i = Some (s0, i + 1)
    /\ sextet (pin ++ g ++ post) dec_table (i + 1) = Some (s1, i + 2)
    /\ sextet (pin ++ g ++ post) dec_table (i + 2) = Some (s2, i + 3)
    /\ sextet (pin ++ g ++ post) dec_table (i + 3) = Some (s3, i + 4)
    /\ u32 (Z.shiftl s0 18 + Z.shiftl s1 12 + Z.shiftl s2 6 + s3) = t.
Proof.
  intros Ha Hb Hc Hk K1 K2 Hg t i. pose proof (triple_div a b c Ha Hb Hc) as H. cbn zeta in H. fold t in H.
  destruct H as (_ & H0 & H1 & H2 & H3 & Hsum & _). unfold quad in Hg. fold t in Hg.
  exists (t / 262144), (t / 4096 mod 64), (t / 64 mod 64), (t mod 64).
  assert (forall x y z w post', sextet (pin ++ [x; y; z; w] ++ post') dec_table i
            = sextet (pin ++ x :: ([y; z; w] ++ post')) dec_table i
          /\ sextet (pin ++ [x; y; z; w] ++ post') dec_table (i + 1)
            = sextet ((pin ++ [x]) ++ y :: ([z; w] ++ post')) dec_table (i + 1)
          /\ sextet (pin ++ [x; y; z; w] ++ post') dec_table (i + 2)
            = sextet ((pin ++ [x; y]) ++ z :: ([w] ++ post')) dec_table (i + 2)
          /\ sextet (pin ++ [x; y; z; w] ++ post') dec_table (i + 3)
            = sextet ((pin ++ [x; y; z]) ++ w :: post') dec_table (i + 3)) as Hs.
  { intros. rewrite <- !app_assoc. done. }
  assert (i + 1 = zlen (pin ++ [0]) /\ i + 2 = zlen (pin ++ [0; 0]) /\ i + 3 = zlen (pin ++ [0; 0; 0])) as (Z1 & Z2 & Z3)
    by (rewrite !zlen_app; done).
  rewrite zlen_app in Z1, Z2, Z3. cbn -[zlen Z.add] in Z1, Z2, Z3.
  assert (exists z w, g = [char64 (t / 262144); char64 (t / 4096 mod 64); z; w]
     /\ (z = char64 (t / 64 mod 64) \/ z = 61 /\ t / 64 mod 64 = 0)
     /\ (w = char64 (t mod 64) \/ w = 61 /\ t mod 64 = 0)) as (z & w & -> & Hz & Hw).
  { unfold byte in *. destruct k as [|[|[|k]]]; [| | |lia]; cbn in Hg; eexists _, _; (split; [exact Hg|]).
    - auto.
    - split; [auto|]. right. split; [done|]. unfold t. rewrite (K1 eq_refl). Z.div_mod_to_equations. lia.
    - destruct K2 as [Eb Ec]; [done|]. split; right; (split; [done|]); unfold t; rewrite Eb, Ec; Z.div_mod_to_equations; lia. }
  destruct (Hs (char64 (t / 262144)) (char64 (t / 4096 mod 64)) z w post) as (E0 & E1 & E2 & E3).
  rewrite E0, E1, E2, E3. split; [by apply sextet_char|]. split; [|split; [|split]].
  - rewrite sextet_char by (rewrite ?zlen_app; done). f_equal. f_equal. lia.
  - destruct Hz as [->|[-> ->]]; [rewrite sextet_char|rewrite sextet_pad]; try (by rewrite zlen_app); try done;
      f_equal; f_equal; lia.
  - destruct Hw as [->|[-> ->]]; [rewrite sextet_char|rewrite sextet_pad]; try (by rewrite zlen_app); try done;
      f_equal; f_equal; lia.
  - by apply dec_triple.
Qed.

Lemma decode_loop_end f data t n m i j out : n <= i -> decode_loop f data t n m i j out = Some out.
Proof. intros. destruct f; cbn [decode_loop]; (destruct (Z.ltb_spec i n); [lia|done]). Qed.

(** One turn: the sextets of a group and the stores that its bytes make. *)
Lemma decode_turn f pin g post a b c k n m j out o1 j1 o2 j2 o3 j3 :
  byte a -> byte b -> byte c -> (k <= 2)%nat -> ((k = 1)%nat -> c = 0) -> ((k = 2)%nat -> b = 0 /\ c = 0) ->
  g = take (4 - k) (quad a b c) ++ replicate k 61 -> zlen pin < n ->
  put out j m a = Some (o1, j1) -> put o1 j1 m b = Some (o2, j2) -> put o2 j2 m c = Some (o3, j3) ->
  decode_loop (S f) (pin ++ g ++ post) dec_table n m (zlen pin) j out
  = decode_loop f (pin ++ g ++ post) dec_table n m (zlen pin + 4) j3 o3.
Proof.
  intros Ha Hb Hc Hk K1 K2 Hg Hi P1 P2 P3.
  destruct (sextets_at pin g post a b c k Ha Hb Hc Hk K1 K2 Hg) as (s0 & s1 & s2 & s3 & S0 & S1 & S2 & S3 & Ht).
  destruct (dec_bytes a b c Ha Hb Hc) as (B1 & B2 & B3).
  cbn [decode_loop]. destruct (Z.ltb_spec (zlen pin) n); [|lia].
  rewrite S0. cbn [mbind option_bind]. rewrite S1. cbn [mbind option_bind]. rewrite S2. cbn [mbind option_bind].
  rewrite S3. cbn [mbind option_bind]. rewrite Ht, B1, B2, B3, P1. cbn [mbind option_bind].
  rewrite P2. cbn [mbind option_bind]. by rewrite P3.
Qed.

Lemma decode_loop_at d : bytes d -> forall pin rest dn r f,
  (groups d <= f)%nat -> length r = length d ->
  decode_loop f (pin ++ b64 61 d ++ rest) dec_table (zlen pin + zlen (b64 61 d)) (zlen dn + zlen d)
    (zlen pin) (zlen dn) (dn ++ r) = Some (dn ++ d).
Proof.
  assert (byte 0) as H0 by done.
  induction d as [|a|a b|a b c d IH] using list3_ind; intros Hd pin rest dn r f Hf Hr.
  - destruct r; [|done]. apply decode_loop_end. change (zlen (b64 61 [])) with 0. lia.
  - destruct r as [|x [|]]; try done. change (groups [a]) with 1%nat in Hf. destruct f as [|f]; [lia|]. apply Forall_cons in Hd as [Ha _].
    change (zlen [a]) with 1. change (zlen (b64 61 [a])) with 4.
    erewrite (decode_turn f pin (b64 61 [a]) rest a 0 0 2);
      [|done|done|done|lia|done|done|done|lia|apply put_in; [lia|done]
       |apply put_out; rewrite zlen_app, zlen_1; lia|apply put_out; rewrite zlen_app, zlen_1; lia].
    rewrite decode_loop_end by lia. by rewrite app_nil_r.
  - destruct r as [|x [|y [|]]]; try done. change (groups [a; b]) with 1%nat in Hf. destruct f as [|f]; [lia|].
    apply Forall_cons in Hd as [Ha [Hb _]%Forall_cons].
    change (zlen [a; b]) with 2. change (zlen (b64 61 [a; b])) with 4.
    erewrite (decode_turn f pin (b64 61 [a; b]) rest a b 0 1);
      [|done|done|done|lia|done|done|done|lia|apply put_in; [lia|done]
       |apply put_in; [rewrite zlen_app, zlen_1; lia|done]
       |apply put_out; rewrite !zlen_app, !zlen_1; lia].
    rewrite decode_loop_end by lia. rewrite app_nil_r. by rewrite <- app_assoc.
  - rewrite groups_cons in Hf. destruct f as [|f]; [lia|]. destruct r as [|x [|y [|z r]]]; try done.
    apply Forall_cons in Hd as [Ha [Hb [Hc Hd]%Forall_cons]%Forall_cons].
    pose proof (zlen_nonneg d). cbn [b64]. rewrite zlen_app, !zlen_cons.
    pose proof (zlen_nonneg (b64 61 d)). rewrite <- app_assoc.
    change (zlen (quad a b c)) with 4 at 1.
    erewrite (decode_turn f pin (quad a b c) (b64 61 d ++ rest) a b c 0);
      [|done|done|done|lia|done|done|done| |apply put_in; [lia|done]
       |apply put_in; [rewrite zlen_app, zlen_1; lia|done]
       |apply put_in; [rewrite !zlen_app, !zlen_1; lia|done]].
    2: { change (zlen (quad a b c)) with 4. lia. }
    specialize (IH Hd (pin ++ quad a b c) rest (dn ++ [a; b; c]) r f ltac:(lia) ltac:(cbn in Hr; lia)).
    rewrite !(zlen_app pin), !(zlen_app dn) in IH. change (zlen (quad a b c)) with 4 in *.
    change (zlen [a; b; c]) with 3 in IH.
    rewrite !zlen_app, !zlen_1. rewrite <- !app_assoc in *. cbn [app] in *.
    rewrite <- IH. f_equal; lia.
Qed.

(** The last two characters tell the number of pads. *)
Lemma b64_tail d : d <> [] -> exists pre x y k,
  b64 61 d = pre ++ [x; y] /\ zlen d = 3 * Z.of_nat (groups d) - k
  /\ k = b2z (y =? 61) + b2z (x =? 61).
Proof.
  assert (forall s, 0 <= s < 64 -> (char64 s =? 61) = false) as Hne.
  { intros s Hs. apply Z.eqb_neq. by apply char64_ok. }
  induction d as [|a|a b|a b c d IH] using list3_ind; intros Hd; [done|..].
  - exists (take 2 (quad a 0 0)), 61, 61, 2. done.
  - exists (take 2 (quad a b 0)), (nth 2 (quad a b 0) 0), 61, 1. split; [done|]. split; [done|].
    unfold quad. cbn [nth]. rewrite Hne by (apply Z.mod_pos_bound; lia). done.
  - destruct d as [|d0 d].
    + exists (take 2 (quad a b c)), (nth 2 (quad a b c) 0), (nth 3 (quad a b c) 0), 0. split; [done|]. split; [done|].
      unfold quad. cbn [nth]. rewrite !Hne by (apply Z.mod_pos_bound; lia). done.
    + destruct IH as (pre & x & y & k & Hp & Hl & Hk); [done|]. exists (quad a b c ++ pre), x, y, k.
      split; [cbn [b64] in *; by rewrite Hp, app_assoc|]. split; [|done].
      rewrite groups_cons, !zlen_cons in *. lia.
Qed.

Lemma base64_decode_eq st d rest n0 j :
  bytes d -> d <> [] -> (st = None \/ st = Some dec_table) ->
  base64_decode st (b64 61 d ++ rest) (zlen (b64 61 d)) n0 j = Some (Some dec_table, Some d, zlen d).
Proof.
  intros Hd Hne Hst. unfold base64_decode.
  assert (match st with Some t => Some t | None => build_base64_decoding_table end = Some dec_table) as ->
    by (destruct Hst as [->| ->]; [exact build_table_eq|done]).
  cbn [mbind option_bind]. destruct (b64_tail d Hne) as (pre & x & y & k & Hp & Hl & Hk).
  pose proof (zlen_b64 61 d) as Hz. set (g := groups d) in *. rewrite Hz.
  assert ((4 * Z.of_nat g) mod 4 = 0) as -> by (rewrite Z.mul_comm; apply Z.mod_mul; lia).
  assert (4 * Z.of_nat g / 4 = Z.of_nat g) as -> by (rewrite Z.mul_comm; apply Z.div_mul; lia).
  cbn [Z.eqb negb]. rewrite Hp in Hz. rewrite zlen_app in Hz. change (zlen [x; y]) with 2 in Hz.
  assert (rd8 (b64 61 d ++ rest) (4 * Z.of_nat g - 1) = Some y) as ->.
  { rewrite Hp. change [x; y] with ([x] ++ [y]). rewrite (app_assoc pre), <- app_assoc.
    apply rd8_here. rewrite zlen_app, zlen_1. lia. }
  assert (rd8 (b64 61 d ++ rest) (4 * Z.of_nat g - 2) = Some x) as ->.
  { rewrite Hp, <- app_assoc. apply rd8_here. lia. }
  cbn [mbind option_bind].
  assert ((let n := if y =? 61 then Z.of_nat g * 3 - 1 else Z.of_nat g * 3 in
           if x =? 61 then n - 1 else n) = zlen d) as E.
  { cbn zeta. destruct (y =? 61), (x =? 61); cbn [b2z] in Hk; lia. }
  cbn zeta in E. rewrite E, Nat2Z.id.
  pose proof (decode_loop_at d Hd [] rest [] (replicate (Z.to_nat (zlen d)) j) g) as Hdl. cbn [app] in Hdl.
  change (zlen (@nil Z)) with 0 in Hdl. rewrite !Z.add_0_l, zlen_b64 in Hdl. fold g in Hdl.
  rewrite Hdl by (rewrite ?length_replicate; unfold zlen; lia). done.
Qed.

(** Base64: encoding a block and decoding the text gives the block back, with its
    length; the text is a C string of four characters for every three bytes, and the
    decoding table built at the first use is the one every later call finds. *)
Theorem base64_roundtrip d j j' st n0 :
  bytes d -> d <> [] -> (st = None \/ st = build_base64_decoding_table) ->
  exists text n,
    base64_encode d (zlen d) j = Some (text, n)
    /\ n = 4 * ((zlen d + 2) / 3) /\ zlen text = n + 1 /\ rd8 text n = Some 0
    /\ base64_decode st text n n0 j' = Some (build_base64_decoding_table, Some d, zlen d).
Proof.
  intros Hd Hne Hst. rewrite build_table_eq in *. exists (b64 61 d ++ [0]), (zlen (b64 61 d)).
  split; [by apply base64_encode_eq|]. split; [|split; [|split]].
  - rewrite zlen_b64. unfold groups. rewrite Z2Nat.id; [done|]. pose proof (zlen_nonneg d). apply Z.div_pos; lia.
  - by rewrite zlen_app.
  - by apply rd8_here.
  - by apply base64_decode_eq.
Qed.

Lemma base64_roundtrip_witness :
  exists text n, base64_encode [77; 97] (zlen [77; 97]) 0 = Some (text, n) /\ n = 4 /\ text = lit "TWE=" ++ [0].
Proof.
  destruct (base64_roundtrip [77; 97] 0 0 None 0) as (text & n & H1 & H2 & _).
  - apply (bool_decide_unpack _). reflexivity.
  - done.
  - by left.
  - exists text, n. split; [exact H1|]. vm_compute in H1. injection H1 as <- <-. done.
Defined.
