(* ===== verification/KeyStore.v ===== *)
(** Stored OAuth keys: [convert_oauth_key_data_raw] of [common/apputils.c], which
    turns a database record into the key data of [OAuth]. *)

From S2P Require Import Prelude Defs CString StunSearch OAuth OAuthSpec Base64.

Record oauth_key_data_raw : Type := OauthKeyDataRaw {
  raw_kid : list Z;
  raw_ikm_key : list Z;
  raw_timestamp : Z;
  raw_lifetime : Z;
  raw_as_rs_alg : list Z;
  raw_realm : list Z;
}.

(** [st] is [decoding_table] before the call; result: the table after it, [*oakd]. *)
Definition convert_oauth_key_data_raw (st : option (list Z)) (raw : option oauth_key_data_raw)
    (oakd : option oauth_key_data) (j : Z) : option (option (list Z) * option oauth_key_data) :=
  match raw, oakd with
  | Some raw, Some _ =>
    alg ← rd_block (raw_as_rs_alg raw) 0 (OAUTH_ALG_SIZE + 1);
    kid ← rd_block (raw_kid raw) 0 (OAUTH_KID_SIZE + 1);
    let mk ikm sz := Some (OauthKeyData kid ikm sz (u32 (raw_timestamp raw)) (raw_lifetime raw) alg) in
    let ikm := replicate (Z.to_nat (OAUTH_KEY_SIZE + 1)) 0 in
    c ← rd8 (raw_ikm_key raw) 0;
    if truth c then
      n ← strlen (raw_ikm_key raw);
      '(st, ikm_key, ikm_key_size) ← base64_decode st (raw_ikm_key raw) n 0 j;
      match ikm_key with
      | Some k => bs ← rd_block k 0 ikm_key_size; ikm ← wr_block ikm 0 bs; Some (st, mk ikm ikm_key_size)
      | None => Some (st, mk ikm 0)
      end
    else Some (st, mk ikm 0)
  | _, _ => Some (st, oakd)
  end.

Lemma b64_nonzero d : bytes d -> nonzero (b64 61 d).
Proof.
  assert (forall s, 0 <= s < 64 -> char64 s <> 0) as Hc.
  { intros s Hs. apply Z.eqb_neq, negb_true_iff. revert s Hs. apply forall64. vm_compute. reflexivity. }
  assert (forall a b c, byte a -> byte b -> byte c -> nonzero (quad a b c)) as Hq.
  { intros a b c Ha Hb Hd. pose proof (triple_div a b c Ha Hb Hd) as H. cbn zeta in H. unfold quad.
    destruct H as (_ & H0 & H1 & H2 & H3 & _). by repeat (constructor; [apply Hc; done|]). }
  assert (byte 0) as H0 by done.
  induction d as [|a|a b|a b c d IH] using list3_ind; intros Hd; cbn [b64].
  - constructor.
  - apply Forall_cons in Hd as [Ha _]. apply Forall_app. split; [by apply Forall_take, Hq|by repeat constructor].
  - apply Forall_cons in Hd as [Ha [Hb _]%Forall_cons]. apply Forall_app.
    split; [by apply Forall_take, Hq|by repeat constructor].
  - apply Forall_cons in Hd as [Ha [Hb [Hc' Hd]%Forall_cons]%Forall_cons]. apply Forall_app.
    split; [by apply Hq|by apply IH].
Qed.

(** A stored record whose [ikm_key] is the base64 text of a secret of at most 192
    bytes (what its 257-byte field can hold) becomes key data with that secret, its
    length, and identifier and algorithm fields that [convert_oauth_key_data] accepts;
    the timestamp is cut to 32 bits. *)
Theorem convert_oauth_key_data_raw_roundtrip raw kid alg secret post kd0 st j :
  string_in 129 (raw_kid raw) kid -> string_in 65 (raw_as_rs_alg raw) alg ->
  raw_ikm_key raw = b64 61 secret ++ 0 :: post -> bytes secret -> secret <> [] -> zlen secret <= 192 ->
  (st = None \/ st = build_base64_decoding_table) ->
  exists kd, convert_oauth_key_data_raw st (Some raw) (Some kd0) j = Some (build_base64_decoding_table, Some kd)
    /\ kd_ok kd kid alg /\ okd_ikm_key kd = field 257 secret /\ okd_ikm_key_size kd = zlen secret
    /\ okd_lifetime kd = raw_lifetime raw /\ okd_timestamp kd = raw_timestamp raw mod 4294967296.
Proof.
  intros Hkid Halg Hikm Hb Hne Hl Hst. rewrite build_table_eq in *. pose proof (zlen_nonneg secret).
  assert (zlen (field 257 secret) = 257) as Hf.
  { unfold field, zeros. rewrite zlen_app, zlen_replicate; lia. }
  exists (OauthKeyData (raw_kid raw) (field 257 secret) (zlen secret) (u32 (raw_timestamp raw)) (raw_lifetime raw)
            (raw_as_rs_alg raw)).
  split; [|repeat split; done]. unfold convert_oauth_key_data_raw. cbn zeta.
  change (OAUTH_ALG_SIZE + 1) with 65. change (OAUTH_KID_SIZE + 1) with 129. change (OAUTH_KEY_SIZE + 1) with 257.
  assert (zlen (raw_as_rs_alg raw) = 65 /\ zlen (raw_kid raw) = 129) as [<- <-].
  { destruct Halg as (? & _ & ? & _), Hkid as (? & _ & ? & _). done. }
  rewrite rd_block_full. cbn [mbind option_bind]. rewrite rd_block_full. cbn [mbind option_bind].
  rewrite Hikm. pose proof (b64_nonzero secret Hb) as Hnz.
  destruct (b64 61 secret) as [|c t] eqn:Et.
  { pose proof (zlen_b64 61 secret) as Hz. rewrite Et in Hz. change (zlen (@nil Z)) with 0 in Hz.
    destruct (b64_pad secret) as (? & k & _ & _ & _ & Hk). destruct secret; [done|]. rewrite zlen_cons in Hk.
    pose proof (zlen_nonneg secret). lia. }
  cbn [app]. rewrite rd8_head. cbn [mbind option_bind]. pose proof Hnz as [Hc _]%Forall_cons.
  unfold truth. apply Z.eqb_neq in Hc as ->. cbn [negb]. change (c :: t ++ 0 :: post) with ((c :: t) ++ 0 :: post).
  rewrite <- Et in *. unfold strlen. rewrite c_str_terminated by done. cbn [fmap option_fmap option_map mbind option_bind].
  rewrite base64_decode_eq by done. cbn [mbind option_bind]. rewrite rd_block_full. cbn [mbind option_bind].
  change (replicate (Z.to_nat 257) 0) with (zeros 257).
  assert (zlen (zeros 257) = 257) as Hz by done. rewrite wr_block_ok by lia. cbn [mbind option_bind].
  do 3 f_equal. f_equal. change (Z.to_nat 0) with 0%nat. rewrite take_0. cbn [app]. unfold field, zeros.
  rewrite drop_replicate. do 2 f_equal. lia.
Qed.

Definition sample_raw : oauth_key_data_raw :=
  OauthKeyDataRaw (field 129 (lit "north")) (field 257 (lit "Y2FybGVvbg==")) 0 3600 (field 65 (lit "A128GCM")) [].

Lemma convert_oauth_key_data_raw_roundtrip_witness :
  exists kd, convert_oauth_key_data_raw None (Some sample_raw) (Some sample_kd) 0
             = Some (build_base64_decoding_table, Some kd)
    /\ okd_ikm_key kd = field 257 (lit "carleon") /\ okd_ikm_key_size kd = 7.
Proof.
  destruct (convert_oauth_key_data_raw_roundtrip sample_raw (lit "north") (lit "A128GCM") (lit "carleon") (zeros 244)
              sample_kd None 0) as (kd & H1 & _ & H2 & H3 & _).
  - exists (zeros 123). repeat split; [apply bytes_concrete; reflexivity|by apply (bool_decide_unpack _); vm_compute].
  - exists (zeros 57). repeat split; [apply bytes_concrete; reflexivity|by apply (bool_decide_unpack _); vm_compute].
  - reflexivity.
  - apply bytes_concrete. reflexivity.
  - done.
  - change (zlen (lit "carleon")) with 7. lia.
  - by left.
  - exists kd. exact (conj H1 (conj H2 H3)).
Defined.
