(* ===== verification/AddrText.v ===== *)
(** Addresses as text ([make_ioa_addr] to [addr_to_string_no_port] of
    [client/ns_turn_ioaddr.c]).

    The C library's conversions and the resolver are operations of the class
    [NetDb]; its laws state what [inet_ntop] prints and that [inet_pton] reads
    it back.  A string is its memory; functions that write into one return it. *)

From S2P Require Import Prelude Defs CString IoAddr.

Class NetDb : Type := {
  (** The address bytes, or [None] when [inet_pton] does not return 1. *)
  inet_pton : Z -> list Z -> option (list Z);
  (** The text [inet_ntop] prints. *)
  inet_ntop : Z -> list Z -> list Z;
  (** The socket addresses of the list [getaddrinfo] returns; [None] is an error. *)
  getaddrinfo : list Z -> option (list ioa_addr);
}.

Definition MAX_IOA_ADDR_STRING : Z := 65.
Definition INET_ADDRSTRLEN : Z := 16.
Definition INET6_ADDRSTRLEN : Z := 46.

(** * The code *)

(** [while( *s == ' ') ++s;] the offset where it stops. *)
Fixpoint skip_sp (fuel : nat) (s : list Z) (p : Z) : option Z :=
  match fuel with
  | O => None
  | S f => c ← rd8 s p; if c =? 32 then skip_sp f s (p + 1) else Some p
  end.

(** The trailing blanks of the string at [p], of length [len]. *)
Fixpoint trim_loop (fuel : nat) (s : list Z) (p len : Z) : option (list Z * Z) :=
  if 0 <? len then
    match fuel with
    | O => None
    | S f =>
      c ← rd8 s (p + len - 1);
      if c =? 32 then s ← wr8 s (p + len - 1) 0; trim_loop f s p (len - 1) else Some (s, len)
    end
  else Some (s, len).

Section text.
Context `{N : NetDb}.

(** The first address of a family: 16 bytes of a [sockaddr_in] are copied, the
    whole of a [sockaddr_in6]; then the port is set. *)
Fixpoint find_family (family : Z) (l : list ioa_addr) (addr : ioa_addr) (port : Z) : option ioa_addr :=
  match l with
  | [] => None
  | r :: l' =>
    if sa_family r =? family then
      if sa_family r =? AF_INET then
        a ← addr_cpy4 (Some addr) (Some r); Some (set_port_raw a (nswap16 port))
      else if sa_family r =? AF_INET6 then
        a ← addr_cpy6 (Some addr) (Some r); Some (set_port_raw a (nswap16 port))
      else find_family family l' addr port
    else find_family family l' addr port
  end.

(** [j] fills the local array.  Result: the return code and [*addr]. *)
Definition make_ioa_addr (saddr0 : option (list Z)) (port : Z) (addr : option ioa_addr) (j : Z)
    : option (Z * option ioa_addr) :=
  match saddr0, addr with
  | Some saddr0, Some _ =>
    ssaddr ← STRCPY (replicate 257 j) 257 saddr0;
    p ← skip_sp 257 ssaddr 0;
    len ← strlen (drop (Z.to_nat p) ssaddr);
    '(ssaddr, len) ← trim_loop 257 ssaddr p len;
    saddr ← c_str (drop (Z.to_nat p) ssaddr);
    let v4 := if len =? 0 then Some (replicate 4 0) else inet_pton AF_INET saddr in
    match v4 with
    | Some b => Some (0, Some (set_port_raw (set_family (set_s_addr addr_zero (le_combine b)) AF_INET) (nswap16 port)))
    | None =>
      match inet_pton AF_INET6 saddr with
      | Some b => Some (0, Some (set_port_raw (set_family (set_sin6_addr addr_zero b) AF_INET6) (nswap16 port)))
      | None =>
        match getaddrinfo saddr with
        | None | Some [] => Some (-1, Some addr_zero)
        | Some l =>
          match find_family AF_INET l addr_zero port with
          | Some a => Some (0, Some a)
          | None =>
            match find_family AF_INET6 l addr_zero port with
            | Some a => Some (0, Some a)
            | None => Some (0, Some addr_zero)
            end
          end
        end
      end
    end
  | _, _ => Some (-1, addr)
  end.

(** The memory after the call, the offset returned ([None] is NULL), [*port]. *)
Definition get_addr_string_and_port (s0 : list Z) (port : Z) : option (list Z * option Z * Z) :=
  s ← skip_sp (length s0) s0 0;
  c ← rd8 s0 s;
  if c =? 91 then
    let s := s + 1 in
    t ← strstr (drop (Z.to_nat s) s0) [93];
    match t with
    | None => Some (s0, None, port)
    | Some t =>
      let tail := s + t in
      s0 ← wr8 s0 tail 0;
      tail ← skip_sp (length s0) s0 (tail + 1);
      c ← rd8 s0 tail;
      if c =? 58 then
        n ← atoi (drop (Z.to_nat (tail + 1)) s0);
        Some (s0, Some s, n)
      else if c =? 0 then Some (s0, Some s, 0)
      else Some (s0, None, port)
    end
  else
    t ← strstr (drop (Z.to_nat s) s0) [58];
    match t with
    | Some t =>
      let tail := s + t in
      s0 ← wr8 s0 tail 0;
      n ← atoi (drop (Z.to_nat (tail + 1)) s0);
      Some (s0, Some s, n)
    | None => Some (s0, Some s, 0)
    end.

Definition make_ioa_addr_from_full_string (saddr : list Z) (default_port : Z) (addr : option ioa_addr) (j : Z)
    : option (Z * option ioa_addr) :=
  match addr with
  | None => Some (-1, None)
  | Some a =>
    t ← c_str saddr;
    '(s, sa, port) ← get_addr_string_and_port (cstring t) 0;
    match sa with
    | None => Some (-1, Some a)
    | Some sa =>
      let port := if port <? 1 then default_port else port in
      make_ioa_addr (Some (drop (Z.to_nat sa) s)) port (Some a) j
    end
  end.

(** [strncpy(saddr,addrtmp,MAX_IOA_ADDR_STRING)] *)
Definition put_string (saddr text : list Z) : option (list Z) :=
  wr_block saddr 0 (strncpy_field text MAX_IOA_ADDR_STRING).

(** [saddr] is NULL or the caller's array. *)
Definition addr_to_string (addr : option ioa_addr) (saddr : option (list Z)) : option (Z * option (list Z)) :=
  match addr, saddr with
  | Some a, Some saddr =>
    if sa_family a =? AF_INET then
      let addrtmp := inet_ntop AF_INET (sin_addr_bytes a) in
      saddr ← (if 0 <? addr_get_port addr then
                 snprintf saddr MAX_IOA_ADDR_STRING (addrtmp ++ lit ":" ++ dec_string (addr_get_port addr))
               else put_string saddr addrtmp);
      Some (0, Some saddr)
    else if sa_family a =? AF_INET6 then
      let addrtmp := inet_ntop AF_INET6 (sin6_addr a) in
      saddr ← (if 0 <? addr_get_port addr then
                 snprintf saddr MAX_IOA_ADDR_STRING (lit "[" ++ addrtmp ++ lit "]:" ++ dec_string (addr_get_port addr))
               else put_string saddr addrtmp);
      Some (0, Some saddr)
    else Some (-1, Some saddr)
  | _, _ => Some (-1, saddr)
  end.

Definition addr_to_string_no_port (addr : option ioa_addr) (saddr : option (list Z)) : option (Z * option (list Z)) :=
  match addr, saddr with
  | Some a, Some saddr =>
    if sa_family a =? AF_INET then
      saddr ← put_string saddr (inet_ntop AF_INET (sin_addr_bytes a)); Some (0, Some saddr)
    else if sa_family a =? AF_INET6 then
      saddr ← put_string saddr (inet_ntop AF_INET6 (sin6_addr a)); Some (0, Some saddr)
    else Some (-1, Some saddr)
  | _, _ => Some (-1, saddr)
  end.
End text.

(** * Laws *)

(** A character [inet_ntop] may print: no terminator, no blank, no bracket. *)
Definition ntop_char (c : Z) : Prop := 0 < c < 256 /\ c <> 32 /\ c <> 91 /\ c <> 93.

Class NetDbLaws (N : NetDb) : Prop := {
  (** Dotted decimal: no colon, at most 15 characters. *)
  ntop4_chars b : length b = 4%nat -> bytes b -> Forall (λ c, ntop_char c /\ c <> 58) (inet_ntop AF_INET b);
  ntop4_zlen b : length b = 4%nat -> bytes b -> 0 < zlen (inet_ntop AF_INET b) < INET_ADDRSTRLEN;
  pton4_ntop b : length b = 4%nat -> bytes b -> inet_pton AF_INET (inet_ntop AF_INET b) = Some b;
  ntop6_chars b : length b = 16%nat -> bytes b -> Forall ntop_char (inet_ntop AF_INET6 b);
  ntop6_zlen b : length b = 16%nat -> bytes b -> 0 < zlen (inet_ntop AF_INET6 b) < INET6_ADDRSTRLEN;
  pton6_ntop b : length b = 16%nat -> bytes b -> inet_pton AF_INET6 (inet_ntop AF_INET6 b) = Some b;
  (** An IPv6 text has colons, which no IPv4 text has. *)
  pton4_colon s : 58 ∈ s -> inet_pton AF_INET s = None;
  ntop6_colon b : length b = 16%nat -> bytes b -> 58 ∈ inet_ntop AF_INET6 b;
}.
