(* ===== verification/AddrTextSpec.v ===== *)
(** Printing and reading addresses: the round trip of [addr_to_string] and
    [make_ioa_addr_from_full_string], and the IPv6 text without a port that reads
    as another address. *)

From S2P Require Import Prelude Defs CString IoAddr Password AddrText.

(** Text without blanks: [make_ioa_addr] trims nothing. *)
Definition no_blank (t : list Z) : Prop := Forall (λ c, c <> 0 /\ c <> 32) t.

Lemma no_blank_nonzero t : no_blank t -> nonzero t.
Proof. intros H. eapply Forall_impl; [exact H|]. cbn. tauto. Qed.

Lemma skip_sp_here f pre c r : c <> 32 -> skip_sp (S f) (pre ++ c :: r) (zlen pre) = Some (zlen pre).
Proof. intros Hc. cbn [skip_sp]. rewrite rd8_here by done. cbn [mbind option_bind]. by apply Z.eqb_neq in Hc as ->. Qed.

Lemma skip_sp_0 f c r : c <> 32 -> skip_sp (S f) (c :: r) 0 = Some 0.
Proof. apply (skip_sp_here f []). Qed.

(** The last character of a string that has no blanks is kept. *)
Lemma trim_none f t r : no_blank t -> trim_loop (S f) (t ++ 0 :: r) 0 (zlen t) = Some (t ++ 0 :: r, zlen t).
Proof.
  intros Ht. cbn [trim_loop]. destruct t as [|c t] using rev_ind; [done|]. clear IHt.
  apply Forall_app in Ht as [_ [[Hc0 Hc] _]%Forall_cons]. pose proof (zlen_nonneg t).
  rewrite zlen_app, zlen_1. destruct (Z.ltb_spec 0 (zlen t + 1)); [|lia].
  rewrite <- app_assoc. cbn [app]. rewrite rd8_here by lia. cbn [mbind option_bind].
  by apply Z.eqb_neq in Hc as ->.
Qed.

Lemma wr8_head x post c : 0 <= c < 256 -> wr8 (x :: post) 0 c = Some (c :: post).
Proof. by apply (wr8_here []). Qed.

Section spec.
Context `{N : NetDb} {L : NetDbLaws N}.

(** What [make_ioa_addr] makes of a text, once it is isolated. *)
Definition resolve (t : list Z) (port : Z) : Z * ioa_addr :=
  match (if zlen t =? 0 then Some (replicate 4 0) else inet_pton AF_INET t) with
  | Some b => (0, set_port_raw (set_family (set_s_addr addr_zero (le_combine b)) AF_INET) (nswap16 port))
  | None =>
    match inet_pton AF_INET6 t with
    | Some b => (0, set_port_raw (set_family (set_sin6_addr addr_zero b) AF_INET6) (nswap16 port))
    | None =>
      match getaddrinfo t with
      | None | Some [] => (-1, addr_zero)
      | Some l =>
        match find_family AF_INET l addr_zero port with
        | Some a => (0, a)
        | None => match find_family AF_INET6 l addr_zero port with Some a => (0, a) | None => (0, addr_zero) end
        end
      end
    end
  end.

Lemma make_ioa_addr_text t r port a j :
  no_blank t -> zlen t < 257 ->
  make_ioa_addr (Some (t ++ 0 :: r)) port (Some a) j =
  Some (fst (resolve t port), Some (snd (resolve t port))).
Proof.
  intros Ht Hl. pose proof (no_blank_nonzero _ Ht) as Hn. unfold make_ioa_addr.
  rewrite (STRCPY_field _ 257) by (rewrite ?zlen_replicate; done || lia). cbn [mbind option_bind].
  rewrite field_cons by done. set (z := zeros (257 - zlen t - 1)).
  assert (skip_sp 257 (t ++ 0 :: z) 0 = Some 0) as ->.
  { change 257%nat with (S 256). destruct t as [|c t]; cbn [app]; [by apply skip_sp_0|].
    apply Forall_cons in Ht as [[_ Hc] _]. by apply skip_sp_0. }
  cbn [mbind option_bind]. change (Z.to_nat 0) with 0%nat. rewrite drop_0. unfold strlen.
  rewrite c_str_terminated by done. cbn [fmap option_fmap option_map mbind option_bind].
  change 257%nat with (S 256). rewrite trim_none by done. cbn [mbind option_bind]. rewrite drop_0.
  rewrite c_str_terminated by done. cbn [mbind option_bind]. unfold resolve.
  destruct (if zlen t =? 0 then _ else _); [done|]. destruct (inet_pton AF_INET6 t); [done|].
  destruct (getaddrinfo t) as [[|x l]|]; [done| |done].
  destruct (find_family AF_INET (x :: l) addr_zero port); [done|].
  by destruct (find_family AF_INET6 (x :: l) addr_zero port).
Qed.

(** Splitting "host:port". *)
Lemma split_host_port h n r p0 :
  no_blank h -> 58 ∉ h -> h <> [] -> head h <> Some 91 -> 0 <= n <= 2147483647 ->
  get_addr_string_and_port (h ++ 58 :: dec_string n ++ 0 :: r) p0
  = Some (h ++ 0 :: dec_string n ++ 0 :: r, Some 0, n).
Proof.
  intros Hh Hc Hne H91 Hn. pose proof (no_blank_nonzero _ Hh) as Hnz. unfold get_addr_string_and_port.
  destruct h as [|c h]; [done|]. pose proof Hh as [[_ Hc32] _]%Forall_cons.
  cbn [app length]. rewrite skip_sp_0 by done. cbn [mbind option_bind]. rewrite rd8_head. cbn [mbind option_bind].
  destruct (Z.eqb_spec c 91) as [->|_]; [done|]. change (Z.to_nat 0) with 0%nat. rewrite drop_0.
  change (c :: h ++ 58 :: dec_string n ++ 0 :: r) with ((c :: h) ++ 58 :: dec_string n ++ 0 :: r).
  rewrite strstr_char by done. cbn [mbind option_bind]. rewrite Z.add_0_l.
  rewrite wr8_here by done. cbn [mbind option_bind].
  replace (Z.to_nat (zlen (c :: h) + 1)) with (length ((c :: h) ++ [0])) by (rewrite length_app; unfold zlen; cbn; lia).
  change ((c :: h) ++ 0 :: dec_string n ++ 0 :: r) with ((c :: h) ++ [0] ++ (dec_string n ++ 0 :: r)).
  rewrite app_assoc, drop_app_length, atoi_dec_string by done. cbn [mbind option_bind].
  by rewrite <- app_assoc.
Qed.

(** Splitting "[host]:port". *)
Lemma split_bracket_port h n r p0 :
  no_blank h -> 93 ∉ h -> 0 <= n <= 2147483647 ->
  get_addr_string_and_port (91 :: h ++ 93 :: 58 :: dec_string n ++ 0 :: r) p0
  = Some ((91 :: h) ++ 0 :: 58 :: dec_string n ++ 0 :: r, Some 1, n).
Proof.
  intros Hh Hc Hn. pose proof (no_blank_nonzero _ Hh) as Hnz. unfold get_addr_string_and_port.
  cbn [length]. rewrite skip_sp_0 by done. cbn [mbind option_bind]. rewrite rd8_head. cbn [mbind option_bind Z.eqb Pos.eqb].
  change (Z.to_nat (0 + 1)) with 1%nat. cbn [skipn]. rewrite drop_0, strstr_char by done. cbn [mbind option_bind].
  replace (0 + 1 + zlen h) with (zlen (91 :: h)) by (rewrite zlen_cons; lia).
  change (91 :: h ++ 93 :: 58 :: dec_string n ++ 0 :: r) with ((91 :: h) ++ 93 :: 58 :: dec_string n ++ 0 :: r).
  rewrite wr8_here by done. cbn [mbind option_bind].
  set (m := (91 :: h) ++ 0 :: 58 :: dec_string n ++ 0 :: r).
  assert (m = ((91 :: h) ++ [0]) ++ 58 :: dec_string n ++ 0 :: r) as Em by (unfold m; by rewrite <- app_assoc).
  assert (zlen (91 :: h) + 1 = zlen ((91 :: h) ++ [0])) as -> by (by rewrite zlen_app).
  assert (skip_sp (length m) m (zlen ((91 :: h) ++ [0])) = Some (zlen ((91 :: h) ++ [0]))) as ->.
  { destruct (length m) as [|f] eqn:El; [done|]. rewrite Em. by apply skip_sp_here. }
  cbn [mbind option_bind]. rewrite Em at 1. rewrite rd8_here by done. cbn [mbind option_bind Z.eqb Pos.eqb].
  replace (Z.to_nat (zlen ((91 :: h) ++ [0]) + 1)) with (length (((91 :: h) ++ [0]) ++ [58]))
    by (rewrite (length_app _ [58]); unfold zlen; cbn [length]; lia).
  assert (drop (length (((91 :: h) ++ [0]) ++ [58])) m = dec_string n ++ 0 :: r) as ->.
  { rewrite Em. change (58 :: dec_string n ++ 0 :: r) with ([58] ++ (dec_string n ++ 0 :: r)).
    by rewrite app_assoc, drop_app_length. }
  by rewrite atoi_dec_string.
Qed.

(** A host text without brackets and colons is left whole. *)
Lemma split_host h r p0 :
  no_blank h -> 58 ∉ h -> h <> [] -> head h <> Some 91 ->
  get_addr_string_and_port (h ++ 0 :: r) p0 = Some (h ++ 0 :: r, Some 0, 0).
Proof.
  intros Hh Hc Hne H91. pose proof (no_blank_nonzero _ Hh) as Hnz. unfold get_addr_string_and_port.
  destruct h as [|c h]; [done|]. pose proof Hh as [[_ Hc32] _]%Forall_cons.
  cbn [app length]. rewrite skip_sp_0 by done. cbn [mbind option_bind]. rewrite rd8_head. cbn [mbind option_bind].
  destruct (Z.eqb_spec c 91) as [->|_]; [done|]. change (Z.to_nat 0) with 0%nat. rewrite drop_0.
  change (c :: h ++ 0 :: r) with ((c :: h) ++ 0 :: r). by rewrite strstr_char_none.
Qed.

(** * What the printers write *)

Lemma snprintf_addr m t : zlen m >= 65 -> nonzero t -> zlen t < 65 ->
  exists m', snprintf m MAX_IOA_ADDR_STRING t = Some m' /\ c_str m' = Some t.
Proof.
  intros Hm Hn Hl. destruct (snprintf_text m MAX_IOA_ADDR_STRING t Hn) as (d & Hd & _ & Hc);
    [unfold MAX_IOA_ADDR_STRING; lia|by exists d].
Qed.

Lemma put_string_text m t : zlen m >= 65 -> nonzero t -> zlen t < 65 ->
  exists m', put_string m t = Some m' /\ c_str m' = Some t.
Proof.
  intros Hm Hn Hl. unfold put_string, MAX_IOA_ADDR_STRING.
  assert (strncpy_field t 65 = field 65 t) as ->.
  { unfold strncpy_field, field, zeros, zlen in *. rewrite take_ge by lia. f_equal. f_equal. lia. }
  assert (zlen (field 65 t) = 65) as Hz.
  { unfold field. rewrite zlen_app, zlen_zeros; lia. }
  destruct (wr_block_is_Some m 0 (field 65 t)) as [m' Hw]; [lia..|].
  exists m'. split; [exact Hw|]. apply wr_block_Some in Hw as (_ & _ & ->).
  change (Z.to_nat 0) with 0%nat. rewrite take_0. cbn [app]. rewrite field_cons by done.
  rewrite <- app_assoc. cbn [app]. by apply c_str_terminated.
Qed.

Lemma ntop4_text b : length b = 4%nat -> bytes b ->
  let t := inet_ntop AF_INET b in
  no_blank t /\ (58 ∉ t) /\ t <> [] /\ head t <> Some 91 /\ 0 < zlen t < 16.
Proof.
  intros Hl Hb t. pose proof (ntop4_chars b Hl Hb) as Hc. pose proof (ntop4_zlen b Hl Hb) as Hz. fold t in Hc, Hz.
  unfold INET_ADDRSTRLEN in Hz. split; [|split; [|split; [|split]]].
  - eapply Forall_impl; [exact Hc|]. intros c [(H1 & H2 & _) _]. lia.
  - intros Hin. rewrite Forall_forall in Hc. by destruct (Hc _ Hin).
  - intros E. rewrite E in Hz; change (zlen (@nil Z)) with 0 in Hz; lia.
  - destruct t as [|c t]; [done|]. apply Forall_cons in Hc as [[(_ & _ & Hc & _) _] _]. cbn. congruence.
  - lia.
Qed.

Lemma ntop6_text b : length b = 16%nat -> bytes b ->
  let t := inet_ntop AF_INET6 b in
  no_blank t /\ (93 ∉ t) /\ 0 < zlen t < 46.
Proof.
  intros Hl Hb t. pose proof (ntop6_chars b Hl Hb) as Hc. pose proof (ntop6_zlen b Hl Hb) as Hz. fold t in Hc, Hz.
  unfold INET6_ADDRSTRLEN in Hz. split; [|split].
  - eapply Forall_impl; [exact Hc|]. intros c (H1 & H2 & _). lia.
  - intros Hin. rewrite Forall_forall in Hc. by destruct (Hc _ Hin) as (_ & _ & _ & ?).
  - lia.
Qed.

Lemma dec_no_blank n : no_blank (dec_string n).
Proof. eapply Forall_impl; [apply dec_string_digits|]. cbn. intros c Hc. lia. Qed.

(** What reading a printed text yields, by the way it was printed. *)
Lemma read_host_port h n m dp a0 j :
  no_blank h -> 58 ∉ h -> h <> [] -> head h <> Some 91 -> zlen h < 257 -> 1 <= n < 65536 ->
  c_str m = Some (h ++ lit ":" ++ dec_string n) ->
  make_ioa_addr_from_full_string m dp (Some a0) j = Some (fst (resolve h n), Some (snd (resolve h n))).
Proof.
  intros Hh Hc Hne H91 Hl Hn Hm. unfold make_ioa_addr_from_full_string. rewrite Hm. cbn [mbind option_bind].
  unfold cstring. change (lit ":") with [58]. rewrite <- !app_assoc. cbn [app].
  rewrite split_host_port by (done || lia). cbn [mbind option_bind].
  destruct (Z.ltb_spec n 1); [lia|]. change (Z.to_nat 0) with 0%nat. rewrite drop_0.
  by apply make_ioa_addr_text.
Qed.

Lemma read_bracket_port h n m dp a0 j :
  no_blank h -> 93 ∉ h -> zlen h < 257 -> 1 <= n < 65536 ->
  c_str m = Some (lit "[" ++ h ++ lit "]:" ++ dec_string n) ->
  make_ioa_addr_from_full_string m dp (Some a0) j = Some (fst (resolve h n), Some (snd (resolve h n))).
Proof.
  intros Hh Hc Hl Hn Hm. unfold make_ioa_addr_from_full_string. rewrite Hm. cbn [mbind option_bind].
  unfold cstring. change (lit "[") with [91]. change (lit "]:") with [93; 58]. rewrite <- !app_assoc. cbn [app].
  rewrite split_bracket_port by (done || lia). cbn [mbind option_bind].
  destruct (Z.ltb_spec n 1); [lia|]. change (Z.to_nat 1) with 1%nat. cbn [app skipn]. rewrite drop_0.
  by apply make_ioa_addr_text.
Qed.

Lemma read_host h m dp a0 j :
  no_blank h -> 58 ∉ h -> h <> [] -> head h <> Some 91 -> zlen h < 257 -> c_str m = Some h ->
  make_ioa_addr_from_full_string m dp (Some a0) j = Some (fst (resolve h dp), Some (snd (resolve h dp))).
Proof.
  intros Hh Hc Hne H91 Hl Hm. unfold make_ioa_addr_from_full_string. rewrite Hm. cbn [mbind option_bind].
  unfold cstring. rewrite split_host by done. cbn [mbind option_bind Z.ltb Z.compare].
  change (Z.to_nat 0) with 0%nat. rewrite drop_0. by apply make_ioa_addr_text.
Qed.

Lemma resolve_ntop4 b port : length b = 4%nat -> bytes b ->
  resolve (inet_ntop AF_INET b) port
  = (0, set_port_raw (set_family (set_s_addr addr_zero (le_combine b)) AF_INET) (nswap16 port)).
Proof.
  intros Hl Hb. destruct (ntop4_text b Hl Hb) as (_ & _ & _ & _ & Hz). unfold resolve.
  destruct (Z.eqb_spec (zlen (inet_ntop AF_INET b)) 0); [lia|]. by rewrite pton4_ntop.
Qed.

Lemma resolve_ntop6 b port : length b = 16%nat -> bytes b ->
  resolve (inet_ntop AF_INET6 b) port
  = (0, set_port_raw (set_family (set_sin6_addr addr_zero b) AF_INET6) (nswap16 port)).
Proof.
  intros Hl Hb. destruct (ntop6_text b Hl Hb) as (_ & _ & Hz). unfold resolve.
  destruct (Z.eqb_spec (zlen (inet_ntop AF_INET6 b)) 0); [lia|].
  rewrite (pton4_colon _ (ntop6_colon b Hl Hb)). by rewrite pton6_ntop.
Qed.

(** The address bytes and the text [addr_to_string] prints. *)
Definition addr_bytes (a : ioa_addr) : list Z :=
  if sa_family a =? AF_INET then sin_addr_bytes a else sin6_addr a.

Definition printed (a : ioa_addr) : list Z :=
  let h := inet_ntop (sa_family a) (addr_bytes a) in
  let n := addr_get_port (Some a) in
  if n =? 0 then h
  else if sa_family a =? AF_INET then h ++ lit ":" ++ dec_string n else lit "[" ++ h ++ lit "]:" ++ dec_string n.

Lemma addr_bytes_ok a : addr_ok a -> is_inet a ->
  bytes (addr_bytes a) /\ length (addr_bytes a) = (if sa_family a =? AF_INET then 4%nat else 16%nat).
Proof.
  intros Hok Hin. unfold addr_bytes. destruct Hin as [->| ->]; cbn [Z.eqb AF_INET AF_INET6 Pos.eqb].
  - split; [apply bytes_le_split|apply length_le_split].
  - split; [apply Hok|apply Hok].
Qed.

Lemma inet_port a : is_inet a -> addr_get_port (Some a) = nswap16 (sin_port a).
Proof. unfold addr_get_port. by intros [->| ->]. Qed.

Lemma addr_to_string_printed a m :
  addr_ok a -> is_inet a -> 65 <= zlen m ->
  exists m', addr_to_string (Some a) (Some m) = Some (0, Some m') /\ c_str m' = Some (printed a).
Proof.
  intros Hok Hin Hm. destruct (addr_bytes_ok a Hok Hin) as [Hb Hl]. pose proof (inet_port a Hin) as Hp.
  pose proof (nswap16_range (sin_port a)) as Hr. rewrite <- Hp in Hr. unfold addr_to_string, printed, addr_bytes in *.
  set (n := addr_get_port (Some a)) in *. clearbody n.
  pose proof (zlen_dec_string n) as Hd. pose proof (no_blank_nonzero _ (dec_no_blank n)) as Hdn.
  destruct Hin as [Ef|Ef]; rewrite Ef in *; cbn [Z.eqb AF_INET AF_INET6 Pos.eqb] in *;
    change 2 with AF_INET; change 10 with AF_INET6.
  - destruct (ntop4_text _ Hl Hb) as (T1 & _ & _ & _ & T5). set (t := inet_ntop AF_INET (sin_addr_bytes a)) in *.
    pose proof (no_blank_nonzero _ T1) as T1'. destruct (Z.ltb_spec 0 n), (Z.eqb_spec n 0); try lia.
    + destruct (snprintf_addr m (t ++ lit ":" ++ dec_string n)) as (m' & -> & Hc); [lia| | |by exists m'].
      * apply Forall_app. split; [done|]. by constructor.
      * rewrite !zlen_app. change (zlen (lit ":")) with 1. lia.
    + destruct (put_string_text m t) as (m' & -> & Hc); [lia|done|lia|by exists m'].
  - destruct (ntop6_text _ Hl Hb) as (T1 & _ & T5). set (t := inet_ntop AF_INET6 (sin6_addr a)) in *.
    pose proof (no_blank_nonzero _ T1) as T1'. destruct (Z.ltb_spec 0 n), (Z.eqb_spec n 0); try lia.
    + destruct (snprintf_addr m (lit "[" ++ t ++ lit "]:" ++ dec_string n)) as (m' & -> & Hc); [lia| | |by exists m'].
      * constructor; [done|]. apply Forall_app. split; [done|]. constructor; [done|]. by constructor.
      * rewrite !zlen_app. change (zlen (lit "[")) with 1. change (zlen (lit "]:")) with 2. lia.
    + destruct (put_string_text m t) as (m' & -> & Hc); [lia|done|lia|by exists m'].
Qed.

(** The address that the text stands for. *)
Definition read_back (a : ioa_addr) (port : Z) : ioa_addr :=
  set_port_raw (set_family (if sa_family a =? AF_INET then set_s_addr addr_zero (s_addr a)
                            else set_sin6_addr addr_zero (sin6_addr a)) (sa_family a)) (nswap16 port).

Lemma read_printed a m dp a0 j :
  addr_ok a -> is_inet a -> (sa_family a = AF_INET6 -> addr_get_port (Some a) <> 0) -> c_str m = Some (printed a) ->
  make_ioa_addr_from_full_string m dp (Some a0) j
  = Some (0, Some (read_back a (if addr_get_port (Some a) =? 0 then dp else addr_get_port (Some a)))).
Proof.
  intros Hok Hin H6 Hm. destruct (addr_bytes_ok a Hok Hin) as [Hb Hl]. pose proof (inet_port a Hin) as Hp.
  pose proof (nswap16_range (sin_port a)) as Hr. rewrite <- Hp in Hr. unfold printed, addr_bytes, read_back in *.
  set (n := addr_get_port (Some a)) in *. clearbody n. clear Hp.
  destruct Hin as [Ef|Ef]; rewrite Ef in *; cbn [Z.eqb AF_INET AF_INET6 Pos.eqb] in *;
    change 2 with AF_INET in *; change 10 with AF_INET6 in *.
  - destruct (ntop4_text _ Hl Hb) as (T1 & T2 & T3 & T4 & T5).
    assert (le_combine (sin_addr_bytes a) = s_addr a) as Hs.
    { unfold sin_addr_bytes. rewrite le_combine_split. apply Z.mod_small, (ok_s_addr _ Hok). }
    destruct (Z.eqb_spec n 0).
    + rewrite (read_host _ m dp a0 j T1 T2 T3 T4 ltac:(lia) Hm). rewrite resolve_ntop4 by done. by rewrite Hs.
    + rewrite (read_host_port _ n m dp a0 j T1 T2 T3 T4 ltac:(lia) ltac:(lia) Hm).
      rewrite resolve_ntop4 by done. by rewrite Hs.
  - destruct (ntop6_text _ Hl Hb) as (T1 & T2 & T5). specialize (H6 eq_refl).
    destruct (Z.eqb_spec n 0); [done|].
    rewrite (read_bracket_port _ n m dp a0 j T1 T2 ltac:(lia) ltac:(lia) Hm). by rewrite resolve_ntop6.
Qed.

Lemma read_back_eq a port : addr_ok a -> is_inet a ->
  addr_eq_no_port (Some a) (Some (read_back a port)) = true /\ addr_get_port (Some (read_back a port)) = u16 port.
Proof.
  intros Hok Hin. assert (nswap16 (nswap16 port) = u16 port) as Hsw by (unfold nswap16; by rewrite nswap_nswap).
  unfold read_back, addr_get_port, addr_eq_no_port.
  destruct Hin as [Ef|Ef]; rewrite Ef; cbn -[nswap16]; (split; [|done]).
  - by apply Z.eqb_eq.
  - by apply bool_decide_eq_true.
Qed.

(** C40. Printing an address and reading the text gives the address back: any IPv4
    address, any IPv6 address with a port.  A port of 0 is not printed, so the
    reader's default port takes its place. *)
Theorem addr_string_roundtrip a m a0 dp j :
  addr_ok a -> is_inet a -> 65 <= zlen m ->
  (sa_family a = AF_INET6 -> addr_get_port (Some a) <> 0) ->
  exists m' a',
    addr_to_string (Some a) (Some m) = Some (0, Some m')
    /\ make_ioa_addr_from_full_string m' dp (Some a0) j = Some (0, Some a')
    /\ addr_eq_no_port (Some a) (Some a') = true
    /\ addr_get_port (Some a') = u16 (if addr_get_port (Some a) =? 0 then dp else addr_get_port (Some a)).
Proof.
  intros Hok Hin Hm H6. destruct (addr_to_string_printed a m Hok Hin Hm) as (m' & Hs & Hc).
  exists m'. eexists. split; [done|]. split; [by apply read_printed|]. by apply read_back_eq.
Qed.

(** An IPv6 address without a port whose text begins with "::" (the loopback
    address "::1", the unspecified address) does not come back: the text is printed
    without brackets, the reader cuts it at the first colon, takes the empty host for
    the IPv4 wildcard address and returns 0. *)
Theorem addr_string_v6_no_port a m a0 dp j r :
  addr_ok a -> sa_family a = AF_INET6 -> addr_get_port (Some a) = 0 -> 65 <= zlen m ->
  inet_ntop AF_INET6 (sin6_addr a) = 58 :: 58 :: r ->
  exists m',
    addr_to_string (Some a) (Some m) = Some (0, Some m')
    /\ make_ioa_addr_from_full_string m' dp (Some a0) j
       = Some (0, Some (IoaAddr AF_INET (nswap16 dp) 0 (replicate 16 0) 0)).
Proof.
  intros Hok Hf Hp Hm Ht. assert (is_inet a) as Hin by by right.
  destruct (addr_to_string_printed a m Hok Hin Hm) as (m' & Hs & Hc). exists m'. split; [done|].
  unfold make_ioa_addr_from_full_string. rewrite Hc. unfold printed. rewrite Hp. cbn [Z.eqb].
  unfold addr_bytes. rewrite Hf. cbn [Z.eqb AF_INET6 AF_INET Pos.eqb]. change 10 with AF_INET6. rewrite Ht.
  cbn [mbind option_bind]. unfold cstring, get_addr_string_and_port. cbn [app length].
  rewrite skip_sp_0 by done. cbn [mbind option_bind]. rewrite rd8_head. cbn [mbind option_bind Z.eqb Pos.eqb].
  change (Z.to_nat 0) with 0%nat. rewrite drop_0.
  change (strstr (58 :: 58 :: r ++ [0]) [58]) with (strstr ([] ++ 58 :: 58 :: r ++ [0]) [58]).
  rewrite strstr_char; [|constructor|by apply not_elem_of_nil]. cbn [mbind option_bind].
  change (0 + zlen (@nil Z)) with 0. rewrite wr8_head by done. cbn [mbind option_bind].
  change (Z.to_nat (0 + 1)) with 1%nat. cbn [skipn]. rewrite ?drop_0. cbn [atoi skip_space].
  replace (atoi (58 :: r ++ [0])) with (Some 0) by done. cbn [mbind option_bind Z.ltb Z.compare].
  change (Z.to_nat 0) with 0%nat. rewrite drop_0.
  pose proof (make_ioa_addr_text [] (58 :: r ++ [0]) dp a0 j) as H. cbn [app] in H. rewrite H; [done|constructor|done].
Qed.
End spec.

(** * An instance that computes

    IPv4 addresses in dotted decimal; IPv6 addresses as eight groups of four
    digits, with "::" for the fourteen leading zeros of an address such as "::1". *)

Definition octets : list Z := Z.of_nat <$> seq 0 256.

Definition octet_of (print : Z -> list Z) (t : list Z) : option Z :=
  List.find (λ n, bool_decide (print n = t)) octets.

(** The text before the first [c], and what follows it. *)
Fixpoint break (c : Z) (s : list Z) : list Z * list Z :=
  match s with
  | [] => ([], [])
  | d :: s' => if d =? c then ([], s') else let '(a, r) := break c s' in (d :: a, r)
  end.

Definition toy_ntop4 (b : list Z) : list Z :=
  match b with
  | [b0; b1; b2; b3] => dec_string b0 ++ 46 :: dec_string b1 ++ 46 :: dec_string b2 ++ 46 :: dec_string b3
  | _ => []
  end.

Definition toy_pton4 (s : list Z) : option (list Z) :=
  if bool_decide (58 ∈ s) then None else
  let '(t0, r) := break 46 s in let '(t1, r) := break 46 r in let '(t2, t3) := break 46 r in
  b0 ← octet_of dec_string t0; b1 ← octet_of dec_string t1; b2 ← octet_of dec_string t2; b3 ← octet_of dec_string t3;
  Some [b0; b1; b2; b3].

Fixpoint colons (b : list Z) : list Z :=
  match b with
  | [x; y] => hex2 x ++ hex2 y
  | x :: y :: b' => hex2 x ++ hex2 y ++ 58 :: colons b'
  | _ => []
  end.

Fixpoint uncolons (n : nat) (s : list Z) : option (list Z) :=
  match n with
  | O => Some []
  | S n' =>
    x ← octet_of hex2 (take 2 s); y ← octet_of hex2 (take 2 (drop 2 s));
    r ← uncolons n' (drop 5 s); Some (x :: y :: r)
  end.

Definition toy_ntop6 (b : list Z) : list Z :=
  if bool_decide (take 14 b = replicate 14 0) then 58 :: 58 :: colons (drop 14 b) else colons b.

Definition toy_pton6 (s : list Z) : option (list Z) :=
  match s with
  | 58 :: 58 :: s' => r ← uncolons 1 s'; Some (replicate 14 0 ++ r)
  | _ => uncolons 8 s
  end.

#[export] Instance toy_netdb : NetDb := {
  inet_pton f s := if f =? AF_INET then toy_pton4 s else toy_pton6 s;
  inet_ntop f b := if f =? AF_INET then toy_ntop4 b else toy_ntop6 b;
  getaddrinfo _ := None;
}.

(** A property of every octet, by evaluation. *)
Lemma all_octets (P : Z -> Prop) `{forall z, Decision (P z)} :
  forallb (λ z, bool_decide (P z)) octets = true -> forall b, 0 <= b < 256 -> P b.
Proof.
  intros Hall b Hb. rewrite forallb_forall in Hall. apply (bool_decide_unpack (P b)).
  apply Is_true_eq_left, Hall. apply list_elem_of_In, list_elem_of_fmap. exists (Z.to_nat b).
  split; [lia|]. apply list_elem_of_In, in_seq. lia.
Qed.

Lemma octet_of_dec b : 0 <= b < 256 -> octet_of dec_string (dec_string b) = Some b.
Proof. revert b. apply (all_octets (λ b, octet_of dec_string (dec_string b) = Some b)). vm_compute. reflexivity. Qed.

Lemma octet_of_hex b : 0 <= b < 256 -> octet_of hex2 (hex2 b) = Some b.
Proof. revert b. apply (all_octets (λ b, octet_of hex2 (hex2 b) = Some b)). vm_compute. reflexivity. Qed.

(** The characters of a printed octet. *)
Definition text_char (c : Z) : Prop := 48 <= c <= 57 \/ 97 <= c <= 102.

#[export] Instance text_char_dec c : Decision (text_char c).
Proof. unfold text_char. apply _. Defined.

Lemma dec_octet b : 0 <= b < 256 -> Forall text_char (dec_string b) /\ 1 <= zlen (dec_string b) <= 3.
Proof.
  revert b. apply (all_octets (λ b, Forall text_char (dec_string b) /\ 1 <= zlen (dec_string b) <= 3)). vm_compute. reflexivity.
Qed.

Lemma hex_octet b : 0 <= b < 256 -> Forall text_char (hex2 b).
Proof. revert b. apply (all_octets (λ b, Forall text_char (hex2 b))). vm_compute. reflexivity. Qed.

Lemma break_app t r : Forall text_char t -> break 46 (t ++ 46 :: r) = (t, r).
Proof.
  intros Ht. induction Ht as [|d t Hd Ht IH]; cbn [app break]; [done|].
  destruct (Z.eqb_spec d 46) as [->|_]; [destruct Hd; lia|]. by rewrite IH.
Qed.

Lemma text_not c t : Forall text_char t -> ~ text_char c -> c ∉ t.
Proof. intros Ht Hc Hin. rewrite Forall_forall in Ht. by apply Hc, Ht. Qed.

Lemma colons_chars n b : length b = (2 * n)%nat -> bytes b ->
  Forall (λ c, text_char c \/ c = 58) (colons b) /\ zlen (colons b) <= 5 * Z.of_nat n.
Proof.
  revert b. induction n as [|n IH]; intros [|x [|y b]] Hl Hb; cbn in Hl; try lia; [done|].
  apply Forall_cons in Hb as [Hx [Hy Hb]%Forall_cons].
  assert (forall z, 0 <= z < 256 -> Forall (λ c, text_char c \/ c = 58) (hex2 z)) as Hh.
  { intros z Hz. eapply Forall_impl; [by apply hex_octet|]. auto. }
  destruct (IH b) as [IH1 IH2]; [lia|done|]. destruct b as [|z b];
    [change (colons [x; y]) with (hex2 x ++ hex2 y)
    |change (colons (x :: y :: z :: b)) with (hex2 x ++ hex2 y ++ 58 :: colons (z :: b))].
  - split; [apply Forall_app; auto|]. rewrite zlen_app. change (zlen (hex2 x)) with 2. change (zlen (hex2 y)) with 2. lia.
  - split.
    + apply Forall_app. split; [auto|]. apply Forall_app. split; [auto|]. constructor; [by right|done].
    + rewrite !zlen_app, zlen_cons. change (zlen (hex2 x)) with 2. change (zlen (hex2 y)) with 2. lia.
Qed.

Lemma uncolons_colons n b : length b = (2 * n)%nat -> bytes b -> uncolons n (colons b) = Some b.
Proof.
  revert b. induction n as [|n IH]; intros [|x [|y b]] Hl Hb; cbn in Hl; try lia; [done|].
  apply Forall_cons in Hb as [Hx [Hy Hb]%Forall_cons]. specialize (IH b ltac:(lia) Hb).
  assert (exists r, colons (x :: y :: b) = hex2 x ++ hex2 y ++ r /\ uncolons n (drop 1 r) = Some b) as (r & -> & Hr).
  { destruct b as [|z b]; cbn [colons].
    - exists []. rewrite app_nil_r. split; [done|]. by destruct n.
    - exists (58 :: colons (z :: b)). split; [done|]. cbn [skipn]. by rewrite drop_0. }
  cbn [uncolons]. change (take 2 (hex2 x ++ hex2 y ++ r)) with (hex2 x).
  change (take 2 (drop 2 (hex2 x ++ hex2 y ++ r))) with (hex2 y).
  change (drop 5 (hex2 x ++ hex2 y ++ r)) with (drop 1 r).
  rewrite !octet_of_hex by done. cbn [mbind option_bind]. by rewrite Hr.
Qed.

Lemma text_ntop c : text_char c -> ntop_char c /\ c <> 58.
Proof. unfold text_char, ntop_char. lia. Qed.

Lemma list4 (b : list Z) : length b = 4%nat -> exists b0 b1 b2 b3, b = [b0; b1; b2; b3].
Proof. destruct b as [|b0 [|b1 [|b2 [|b3 [|]]]]]; try done. by exists b0, b1, b2, b3. Qed.

Lemma toy_ntop4_ok b : length b = 4%nat -> bytes b ->
  Forall (λ c, ntop_char c /\ c <> 58) (toy_ntop4 b) /\ 0 < zlen (toy_ntop4 b) < 16
  /\ toy_pton4 (toy_ntop4 b) = Some b.
Proof.
  intros Hl Hb. destruct (list4 b Hl) as (b0 & b1 & b2 & b3 & ->).
  apply Forall_cons in Hb as [H0 [H1 [H2 [H3 _]%Forall_cons]%Forall_cons]%Forall_cons].
  destruct (dec_octet b0 H0) as [D0 L0], (dec_octet b1 H1) as [D1 L1].
  destruct (dec_octet b2 H2) as [D2 L2], (dec_octet b3 H3) as [D3 L3].
  assert (forall t, Forall text_char t -> Forall (λ c, ntop_char c /\ c <> 58) t) as Hc.
  { intros t Ht. eapply Forall_impl; [exact Ht|]. apply text_ntop. }
  assert (ntop_char 46 /\ 46 <> 58) as Hdot by (unfold ntop_char; lia).
  assert (Forall (λ c, ntop_char c /\ c <> 58) (toy_ntop4 [b0; b1; b2; b3])) as Hall.
  { cbn [toy_ntop4]. apply Forall_app; split; [auto|]. constructor; [done|].
    apply Forall_app; split; [auto|]. constructor; [done|].
    apply Forall_app; split; [auto|]. constructor; [done|auto]. }
  split; [exact Hall|]. split.
  - cbn [toy_ntop4]. rewrite zlen_app, zlen_cons, zlen_app, zlen_cons, zlen_app, zlen_cons. lia.
  - unfold toy_pton4. rewrite bool_decide_eq_false_2.
    + cbn [toy_ntop4]. rewrite !break_app by done. rewrite !octet_of_dec by done. done.
    + intros Hin. rewrite Forall_forall in Hall. by destruct (Hall _ Hin).
Qed.

(** A text in digits does not begin with a colon. *)
Lemma colons_head n b : length b = (2 * S n)%nat -> bytes b -> exists c t, colons b = c :: t /\ c <> 58.
Proof.
  destruct b as [|x [|y b]]; cbn; intros Hl Hb; try lia. apply Forall_cons in Hb as [Hx _].
  pose proof (hex_octet x Hx) as [Hc _]%Forall_cons.
  destruct b; eexists _, _; (split; [done|]); by apply text_ntop in Hc as [_ ?].
Qed.

Lemma toy_ntop6_ok b : length b = 16%nat -> bytes b ->
  Forall ntop_char (toy_ntop6 b) /\ 0 < zlen (toy_ntop6 b) < 46 /\ 58 ∈ toy_ntop6 b
  /\ toy_pton6 (toy_ntop6 b) = Some b.
Proof.
  intros Hl Hb.
  assert (ntop_char 58) as Hcolon by (unfold ntop_char; lia).
  assert (forall n b', length b' = (2 * n)%nat -> bytes b' -> Forall ntop_char (colons b')) as Hch.
  { intros n b' Hl' Hb'. eapply Forall_impl; [by eapply (colons_chars n)|].
    intros c [Hc| ->]; [by apply text_ntop|done]. }
  unfold toy_ntop6. case_bool_decide as E.
  - assert (bytes (drop 14 b)) as Hb' by by apply bytes_drop.
    assert (length (drop 14 b) = 2%nat) as Hl' by (rewrite length_drop; lia).
    destruct (colons_chars 1 (drop 14 b) Hl' Hb') as [_ Hz]. pose proof (zlen_nonneg (colons (drop 14 b))).
    split; [constructor; [done|]; constructor; [done|by apply (Hch 1%nat)]|]. split; [rewrite !zlen_cons; lia|].
    split; [by left|]. cbn [toy_pton6]. rewrite (uncolons_colons 1) by done. cbn [mbind option_bind].
    by rewrite <- E, take_drop.
  - destruct (colons_chars 8 b Hl Hb) as [_ Hz]. destruct (colons_head 7 b Hl Hb) as (c & t & Ec & Hne).
    split; [by apply (Hch 8%nat)|]. split; [|split].
    + split; [|lia]. rewrite Ec, zlen_cons. pose proof (zlen_nonneg t). lia.
    + destruct b as [|x [|y [|z b]]]; try done. change (colons (x :: y :: z :: b)) with (hex2 x ++ hex2 y ++ 58 :: colons (z :: b)).
      apply elem_of_app. right. apply elem_of_app. right. by left.
    + rewrite <- (uncolons_colons 8 b Hl Hb). unfold toy_pton6. rewrite Ec.
      destruct (Z.eq_dec c 58); [done|]. destruct c as [|p|p]; try done.
      by repeat (destruct p as [p|p|]; try done).
Qed.

#[export] Instance toy_netdb_laws : NetDbLaws toy_netdb.
Proof.
  split; cbn [inet_ntop inet_pton toy_netdb AF_INET AF_INET6 Z.eqb Pos.eqb]; intros.
  - by apply toy_ntop4_ok.
  - by apply toy_ntop4_ok.
  - by apply toy_ntop4_ok.
  - by apply toy_ntop6_ok.
  - by apply toy_ntop6_ok.
  - by apply toy_ntop6_ok.
  - unfold toy_pton4. by rewrite bool_decide_eq_true_2.
  - by apply toy_ntop6_ok.
Qed.

(** [2001:db8::1] port 3478, and the loopback address without a port. *)
Definition doc_addr : ioa_addr :=
  IoaAddr AF_INET6 (nswap16 3478) 0 ([32; 1; 13; 184] ++ replicate 11 0 ++ [1]) 0.
Definition loopback6 : ioa_addr := IoaAddr AF_INET6 0 0 (replicate 15 0 ++ [1]) 0.

Lemma addr_string_roundtrip_witness :
  exists m' a',
    addr_to_string (Some doc_addr) (Some (zeros 65)) = Some (0, Some m')
    /\ make_ioa_addr_from_full_string m' 0 (Some addr_zero) 0 = Some (0, Some a')
    /\ addr_get_port (Some a') = 3478.
Proof.
  destruct (addr_string_roundtrip doc_addr (zeros 65) addr_zero 0 0) as (m' & a' & H1 & H2 & _ & H3).
  - by apply addr_ok_concrete.
  - by right.
  - change (zlen (zeros 65)) with 65. lia.
  - intros _. vm_compute. discriminate.
  - exists m', a'. split; [exact H1|]. split; [exact H2|]. rewrite H3. reflexivity.
Defined.

Lemma addr_string_v6_no_port_witness :
  exists m',
    addr_to_string (Some loopback6) (Some (zeros 65)) = Some (0, Some m')
    /\ make_ioa_addr_from_full_string m' 3478 (Some addr_zero) 0
       = Some (0, Some (IoaAddr AF_INET (nswap16 3478) 0 (replicate 16 0) 0)).
Proof.
  apply (addr_string_v6_no_port loopback6 (zeros 65) addr_zero 3478 0 (lit "0001")).
  - by apply addr_ok_concrete.
  - reflexivity.
  - reflexivity.
  - change (zlen (zeros 65)) with 65. lia.
  - vm_compute. reflexivity.
Defined.
