(* ===== verification/Uri.v ===== *)
(** URIs: the parser of [event/http.c] that the canonical form of an origin uses.

    A pointer into the copy of the text is the list of the bytes from it to the end of
    the allocation; a range [s..eos) is such a list with its length.  Reading past the
    end of the allocation gives [None].  [malloc] does not fail. *)

From S2P Require Import Prelude CString IoAddr AddrText.

(** * Character classes of [event/evutil.c] *)

Definition EVUTIL_ISALPHA_TABLE : list Z := [0; 0; 0x7fffffe; 0x7fffffe; 0; 0; 0; 0].
Definition EVUTIL_ISALNUM_TABLE : list Z := [0; 0x3ff0000; 0x7fffffe; 0x7fffffe; 0; 0; 0; 0].
Definition EVUTIL_ISXDIGIT_TABLE : list Z := [0; 0x3ff0000; 0x7e; 0x7e; 0; 0; 0; 0].
Definition EVUTIL_ISDIGIT_TABLE : list Z := [0; 0x3ff0000; 0; 0; 0; 0; 0; 0].

Definition ctype (table : list Z) (c : Z) : bool :=
  let u := u8 c in
  truth (Z.land (nth (Z.to_nat (Z.land (Z.shiftr u 5) 7)) table 0) (Z.shiftl 1 (Z.land u 31))).

Definition EVUTIL_ISALPHA_ : Z -> bool := ctype EVUTIL_ISALPHA_TABLE.
Definition EVUTIL_ISALNUM_ : Z -> bool := ctype EVUTIL_ISALNUM_TABLE.
Definition EVUTIL_ISXDIGIT_ : Z -> bool := ctype EVUTIL_ISXDIGIT_TABLE.
Definition EVUTIL_ISDIGIT_ : Z -> bool := ctype EVUTIL_ISDIGIT_TABLE.

Definition uri_chars : list Z := [
  (* 0 *)
  0; 0; 0; 0; 0; 0; 0; 0;   0; 0; 0; 0; 0; 0; 0; 0;
  0; 0; 0; 0; 0; 0; 0; 0;   0; 0; 0; 0; 0; 0; 0; 0;
  0; 0; 0; 0; 0; 0; 0; 0;   0; 0; 0; 0; 0; 1; 1; 0;
  1; 1; 1; 1; 1; 1; 1; 1;   1; 1; 0; 0; 0; 0; 0; 0;
  (* 64 *)
  0; 1; 1; 1; 1; 1; 1; 1;   1; 1; 1; 1; 1; 1; 1; 1;
  1; 1; 1; 1; 1; 1; 1; 1;   1; 1; 1; 0; 0; 0; 0; 1;
  0; 1; 1; 1; 1; 1; 1; 1;   1; 1; 1; 1; 1; 1; 1; 1;
  1; 1; 1; 1; 1; 1; 1; 1;   1; 1; 1; 0; 0; 0; 1; 0;
  (* 128 *)
  0; 0; 0; 0; 0; 0; 0; 0;   0; 0; 0; 0; 0; 0; 0; 0;
  0; 0; 0; 0; 0; 0; 0; 0;   0; 0; 0; 0; 0; 0; 0; 0;
  0; 0; 0; 0; 0; 0; 0; 0;   0; 0; 0; 0; 0; 0; 0; 0;
  0; 0; 0; 0; 0; 0; 0; 0;   0; 0; 0; 0; 0; 0; 0; 0;
  (* 192 *)
  0; 0; 0; 0; 0; 0; 0; 0;   0; 0; 0; 0; 0; 0; 0; 0;
  0; 0; 0; 0; 0; 0; 0; 0;   0; 0; 0; 0; 0; 0; 0; 0;
  0; 0; 0; 0; 0; 0; 0; 0;   0; 0; 0; 0; 0; 0; 0; 0;
  0; 0; 0; 0; 0; 0; 0; 0;   0; 0; 0; 0; 0; 0; 0; 0].

Definition CHAR_IS_UNRESERVED (c : Z) : bool := truth (nth (Z.to_nat (u8 c)) uri_chars 0).

Definition SUBDELIMS : list Z := lit "!$&'()*+,;=".

(** [strchr(SUBDELIMS, c)]: the terminator is found too. *)
Definition subdelim (c : Z) : bool := bool_decide (c ∈ cstring SUBDELIMS).

(** [strchr(s, c)]: the offset of the first [c], [Some None] for NULL. *)
Fixpoint strchr (s : list Z) (c : Z) : option (option Z) :=
  match s with
  | [] => None
  | x :: s' => if x =? c then Some (Some 0) else if x =? 0 then Some None else
               r ← strchr s' c; Some (option_map Z.succ r)
  end.

(** * Parts of a URI *)

(** The loop of [scheme_ok], from the second character. *)
Fixpoint scheme_tail (s : list Z) (n : Z) : option bool :=
  if n <=? 0 then Some true else
  match s with
  | [] => None
  | c :: s' => if negb (EVUTIL_ISALNUM_ c) && negb (c =? 43) && negb (c =? 45) && negb (c =? 46)
               then Some false else scheme_tail s' (n - 1)
  end.

Definition scheme_ok (s : list Z) (n : Z) : option bool :=
  if n =? 0 then Some false else
  match s with
  | [] => None
  | c :: s' => if negb (EVUTIL_ISALPHA_ c) then Some false else scheme_tail s' (n - 1)
  end.

(** The two digits of [%XX], read as far as the conjunction goes; the rest behind them. *)
Definition pct (s : list Z) : option (option (list Z)) :=
  match s with
  | [] => None
  | h :: s' =>
    if negb (EVUTIL_ISXDIGIT_ h) then Some None else
    match s' with
    | [] => None
    | h' :: s'' => Some (if EVUTIL_ISXDIGIT_ h' then Some s'' else None)
    end
  end.

(** [userinfo_ok] and [regname_ok] are the same loop: a colon is [colon], [strict] is
    the test [s+2 < eos]. *)
Fixpoint chars_ok (colon strict : bool) (fuel : nat) (s : list Z) (n : Z) : option bool :=
  match fuel with
  | O => None
  | S fuel =>
    if n <=? 0 then Some true else
    match s with
    | [] => None
    | c :: s' =>
      if CHAR_IS_UNRESERVED c || subdelim c || colon && (c =? 58) then chars_ok colon strict fuel s' (n - 1)
      else if (c =? 37) && (negb strict || (2 <? n)) then
        r ← pct s';
        match r with
        | Some s'' => chars_ok colon strict fuel s'' (n - 3)
        | None => Some false
        end
      else Some false
    end
  end.

Definition userinfo_ok (s : list Z) (n : Z) : option bool := chars_ok true true (S (length s)) s n.
Definition regname_ok (s : list Z) (n : Z) : option bool := chars_ok false false (S (length s)) s n.

(** [parse_port]: -1 for a character that is not a digit and for more than 65535. *)
Fixpoint parse_port_loop (portnum : Z) (s : list Z) (n : Z) : option Z :=
  if n <=? 0 then Some portnum else
  match s with
  | [] => None
  | c :: s' =>
    if negb (EVUTIL_ISDIGIT_ c) then Some (-1) else
    portnum ← i32 (portnum * 10 + (c - 48));
    if portnum <? 0 then Some (-1) else
    if 65535 <? portnum then Some (-1) else
    parse_port_loop portnum s' (n - 1)
  end.
Definition parse_port (s : list Z) (n : Z) : option Z := parse_port_loop 0 s n.

(** IPvFuture: the hexadecimal digits up to the dot, with what is behind them. *)
Fixpoint future_version (s : list Z) (n : Z) : option (option (list Z * Z)) :=
  match s with
  | [] => None
  | c :: s' =>
    if (n <=? 0) || (c =? 46) then Some (if c =? 46 then Some (s', n - 1) else None) else
    if EVUTIL_ISXDIGIT_ c then future_version s' (n - 1) else Some None
  end.
Fixpoint future_address (s : list Z) (n : Z) : option bool :=
  if n <=? 0 then Some true else
  match s with
  | [] => None
  | c :: s' => if CHAR_IS_UNRESERVED c || subdelim c || (c =? 58) then future_address s' (n - 1) else Some false
  end.

Section uri.
Context `{N : NetDb}.

(** 0 for bad, 1 for IPv6, 2 for IPvFuture. *)
Definition bracket_addr_ok (s : list Z) (n : Z) : option Z :=
  if n <? 3 then Some 0 else
  c ← rd8 s 0;
  if negb (c =? 91) then Some 0 else
  l ← rd8 s (n - 1);
  if negb (l =? 93) then Some 0 else
  v ← rd8 s 1;
  if v =? 118 then
    h ← rd8 s 2;
    if negb (EVUTIL_ISXDIGIT_ h) then Some 0 else
    r ← future_version (drop 2 s) (n - 3);
    match r with
    | None => Some 0
    | Some (s', n') => ok ← future_address s' n'; Some (if (ok : bool) then 2 else 0)
    end
  else if 64 <=? n - 2 then Some 0
  else
    buf ← rd_block s 1 (n - 2);
    buf ← c_str (buf ++ [0]);
    Some (b2z (bool_decide (is_Some (inet_pton AF_INET6 buf)))).

Record evhttp_uri : Type := Uri {
  ur_flags : Z;
  ur_scheme : option (list Z);
  ur_userinfo : option (list Z);
  ur_host : option (list Z);
  ur_port : Z;
  ur_unixsocket : option (list Z);
  ur_path : option (list Z);
  ur_query : option (list Z);
  ur_fragment : option (list Z);
}.

Definition EVHTTP_URI_NONCONFORMANT : Z := 0x01.
Definition EVHTTP_URI_HOST_STRIP_BRACKETS : Z := 0x04.
Definition EVHTTP_URI_UNIX_SOCKET : Z := 0x08.
Definition _EVHTTP_URI_HOST_HAS_BRACKETS : Z := 0x02.

Definition has_flag (flags f : Z) : bool := truth (Z.land flags f).

(** The number of digits at the end of [s..s+n). *)
Fixpoint digits_before (r : list Z) : Z :=
  match r with
  | c :: r' => if EVUTIL_ISDIGIT_ c then digits_before r' + 1 else 0
  | [] => 0
  end.

(** [eos] is moved to the colon of an optional port.  Result: the new length and what
    the port is set to, if it is; [None] for a bad port. *)
Definition host_port (cp : list Z) (n : Z) : option (option (Z * option Z)) :=
  r ← rd_block cp 0 n;
  let port := n - 1 - digits_before (rev r) in
  if port <? 0 then Some (Some (n, None)) else
  c ← rd8 cp port;
  if negb (c =? 58) then Some (Some (n, None)) else
  if port + 1 =? n then Some (Some (port, Some (-1))) else
  p ← parse_port (drop (Z.to_nat (port + 1)) cp) (n - (port + 1));
  Some (if p <? 0 then None else Some (port, Some p)).

(** The host from [cp] to [eos], with the new flags; [None] for a bad one. *)
Definition host_part (flags : Z) (cp : list Z) (n : Z) : option (option (list Z * Z)) :=
  c ← rd8 cp 0;
  let strip := has_flag flags EVHTTP_URI_HOST_STRIP_BRACKETS in
  brackets ← (if (c =? 91) && (2 <=? n) then l ← rd8 cp (n - 1); Some (l =? 93) else Some false);
  ok ← (if (brackets : bool) then r ← bracket_addr_ok cp n; Some (truth r) else regname_ok cp n);
  if negb ok then Some None else
  if (c =? 91) && strip then
    h ← rd_block cp 1 (if (brackets : bool) then n - 2 else n);
    Some (Some (h, Z.lor flags _EVHTTP_URI_HOST_HAS_BRACKETS))
  else h ← rd_block cp 0 n; Some (Some (h, flags)).

(** [parse_authority(uri, s, eos, &uri->flags)]: 0 or -1 and the memory at [s], in which
    the ends of the parts are overwritten. *)
Definition parse_authority (uri : evhttp_uri) (s : list Z) (n : Z) : option (Z * evhttp_uri * list Z) :=
  let 'Uri flags scheme userinfo host port sock path query fragment := uri in
  if n =? 0 then Some (0, Uri flags scheme userinfo (Some []) port sock path query fragment, s) else
  a ← strchr s 64;
  let at_ := match a with Some i => if i <? n then Some i else None | None => None end in
  ui ← (match at_ with Some i => userinfo_ok s i | None => Some true end);
  if negb ui then Some (-1, uri, s) else
  s ← (match at_ with Some i => wr8 s i 0 | None => Some s end);
  userinfo ← (match at_ with Some _ => t ← c_str s; Some (Some t) | None => Some userinfo end);
  let start := match at_ with Some i => i + 1 | None => 0 end in
  let cp := drop (Z.to_nat start) s in
  let uri := Uri flags scheme userinfo host port sock path query fragment in
  u ← (if has_flag flags EVHTTP_URI_UNIX_SOCKET then starts_with cp (lit "unix:") else Some false);
  if (u : bool) then
    e ← strchr (drop 5 cp) 58;
    match e with
    | None => Some (-1, uri, s)
    | Some e =>
      s ← wr8 s (start + 5 + e) 0;
      sock ← c_str (drop (Z.to_nat (start + 5)) s);
      Some (0, Uri flags scheme userinfo host port (Some sock) path query fragment, s)
    end
  else
    p ← host_port cp (n - start);
    match p with
    | None => Some (-1, Uri flags scheme userinfo host (-1) sock path query fragment, s)
    | Some (len, p) =>
      let port := match p with Some p => p | None => port end in
      h ← host_part flags cp len;
      match h with
      | None => Some (-1, Uri flags scheme userinfo host port sock path query fragment, s)
      | Some (h, flags) => Some (0, Uri flags scheme userinfo (Some h) port sock path query fragment, s)
      end
    end.

(** The length of the authority. *)
Fixpoint end_of_authority (cp : list Z) : option Z :=
  match cp with
  | [] => None
  | c :: cp' => if (c =? 0) || (c =? 63) || (c =? 35) || (c =? 47) then Some 0 else Z.succ <$> end_of_authority cp'
  end.

Inductive uri_part : Type := PART_PATH | PART_QUERY | PART_FRAGMENT.

Definition is_part (part : uri_part) (stop : Z) : bool :=
  match part with PART_PATH => (stop =? 35) || (stop =? 63) | PART_QUERY => stop =? 35 | PART_FRAGMENT => false end.

(** [EVHTTP_URI_NONCONFORMANT]: up to the characters that end the part. *)
Fixpoint end_of_any (part : uri_part) (cp : list Z) : option Z :=
  match cp with
  | [] => None
  | c :: cp' => if (c =? 0) || is_part part c then Some 0 else Z.succ <$> end_of_any part cp'
  end.

Fixpoint end_of_chars (query : bool) (fuel : nat) (cp : list Z) : option Z :=
  match fuel with
  | O => None
  | S fuel =>
    match cp with
    | [] => None
    | c :: cp' =>
      if c =? 0 then Some 0 else
      if CHAR_IS_UNRESERVED c || subdelim c || (c =? 58) || (c =? 64) || (c =? 47)
      then Z.succ <$> end_of_chars query fuel cp'
      else
        r ← (if c =? 37 then pct cp' else Some None);
        match r with
        | Some cp'' => Z.add 3 <$> end_of_chars query fuel cp''
        | None => if (c =? 63) && query then Z.succ <$> end_of_chars query fuel cp' else Some 0
        end
    end
  end.

(** The number of characters of the part. *)
Definition end_of_path (cp : list Z) (part : uri_part) (flags : Z) : option Z :=
  if has_flag flags EVHTTP_URI_NONCONFORMANT then end_of_any part cp
  else end_of_chars (match part with PART_PATH => false | _ => true end) (S (length cp)) cp.

Fixpoint path_matches_noscheme (cp : list Z) : option bool :=
  match cp with
  | [] => None
  | c :: cp' => if c =? 0 then Some true else if c =? 58 then Some false else if c =? 47 then Some true
                else path_matches_noscheme cp'
  end.

(** [?query] and [#fragment], introduced by [mark]: the part and what is behind it, or
    what was there. *)
Definition marked (mark : Z) (part : uri_part) (flags : Z) (readp : list Z) : option (option (list Z) * list Z) :=
  c ← rd8 readp 0;
  if negb (c =? mark) then Some (None, readp) else
  let q := drop 1 readp in
  n ← end_of_path q part flags;
  Some (Some (take (Z.to_nat n) q), drop (Z.to_nat n) q).

(** [Some None] is the NULL of a text that is not a URI. *)
Definition evhttp_uri_parse_with_flags (source_uri : list Z) (flags : Z) : option (option evhttp_uri) :=
  src ← c_str source_uri;
  let readp := cstring src in
  token ← strchr readp 58;
  sch ← (match token with
         | Some t => ok ← scheme_ok readp t; Some (if (ok : bool) then Some (take (Z.to_nat t) readp) else None)
         | None => Some None end);
  let readp := match sch with Some s => drop (S (length s)) readp | None => readp end in
  let uri := Uri flags sch None None (-1) None None None None in
  b ← starts_with readp (lit "//");
  r ← (if (b : bool) then
         let authority := drop 2 readp in
         n ← end_of_authority authority;
         '(rc, uri, s) ← parse_authority uri authority n;
         Some (rc, uri, drop (Z.to_nat n) s)
       else Some (0, uri, readp));
  let '(rc, uri, path) := r in
  if rc <? 0 then Some None else
  n ← end_of_path path PART_PATH flags;
  '(query, readp) ← marked 63 PART_QUERY flags (drop (Z.to_nat n) path);
  '(fragment, readp) ← marked 35 PART_FRAGMENT flags readp;
  c ← rd8 readp 0;
  if negb (c =? 0) then Some None else
  let ptext := take (Z.to_nat n) path in
  d ← starts_with (cstring ptext) (lit "//");
  if negb b && d then Some None else
  p0 ← rd8 (cstring ptext) 0;
  if b && negb (p0 =? 47) && negb (p0 =? 0) then Some None else
  noscheme ← (match ur_scheme uri with None => path_matches_noscheme (cstring ptext) | Some _ => Some true end);
  if negb noscheme then Some None else
  let 'Uri flags scheme userinfo host port sock _ _ _ := uri in
  Some (Some (Uri flags scheme userinfo host port sock (Some ptext) query fragment)).

Definition evhttp_uri_parse (source_uri : list Z) : option (option evhttp_uri) :=
  evhttp_uri_parse_with_flags source_uri 0.
End uri.
