(* ===== verification/Origin.v ===== *)
(** Origins and string checks: the last part of [common/ns_turn_utils.c].

    A local array that is written through its terminator before it is read is its text. *)

From S2P Require Import Prelude Defs CString AddrText Uri.

Definition STUN_MAX_ORIGIN_SIZE : Z := 127.

(** [memcmp(name,scheme,n) == 0] for a name of [n] characters. *)
Definition is_scheme (name scheme : list Z) : option bool :=
  s ← rd_block scheme 0 (zlen name); Some (bool_decide (s = name)).

(** The first scheme of the list, 0 for none. *)
Fixpoint scheme_port (l : list (list Z * Z)) (scheme : list Z) : option Z :=
  match l with
  | [] => Some 0
  | (name, port) :: l => b ← is_scheme name scheme; if (b : bool) then Some port else scheme_port l scheme
  end.

Definition get_default_protocol_port (scheme : option (list Z)) (slen : Z) : option Z :=
  match scheme with
  | None => Some 0
  | Some scheme =>
    if slen =? 3 then scheme_port [(lit "ftp", 21); (lit "svn", 3690); (lit "ssh", 22); (lit "sip", 5060)] scheme
    else if slen =? 4 then scheme_port [(lit "http", 80); (lit "ldap", 389); (lit "sips", 5061); (lit "turn", 3478); (lit "stun", 3478)] scheme
    else if slen =? 5 then scheme_port [(lit "https", 443); (lit "ldaps", 636); (lit "turns", 5349); (lit "stuns", 5349)] scheme
    else if slen =? 6 then scheme_port [(lit "telnet", 23); (lit "radius", 1645)] scheme
    else if slen =? 7 then scheme_port [(lit "svn+ssh", 22)] scheme
    else Some 0
  end.

Definition lower (s : list Z) : list Z := tolower <$> s.

(** [strncpy(dst,src,sz)] of a text. *)
Definition strncpy (dst src : list Z) (sz : Z) : option (list Z) :=
  if sz <? 0 then None else wr_block dst 0 (strncpy_field src sz).

Section origin.
Context `{N : NetDb}.

(** The text in [otmp]; [sizeof(otmp)] is twice STUN_MAX_ORIGIN_SIZE. *)
Definition origin_text (scheme host : list Z) (port : Z) : option (list Z) :=
  let schlen := zlen scheme in
  let s := lower scheme in
  port ← (if port <? 1 then get_default_protocol_port (Some (cstring s)) schlen else Some port);
  let size := STUN_MAX_ORIGIN_SIZE + STUN_MAX_ORIGIN_SIZE - schlen - 1 in
  let tail := lit "://" ++ host ++ (if 0 <? port then lit ":" ++ dec_string port else []) in
  let t := take (Z.to_nat (size - 1)) tail in
  Some (s ++ take 3 t ++ lower (drop 3 t)).

(** The text of the origin when it has a scheme and a host that fit, [None] else. *)
Definition canonic_text (uri : evhttp_uri) (sz : Z) : option (option (list Z)) :=
  match ur_scheme uri, ur_host uri with
  | Some scheme, Some host =>
    if negb (0 <? zlen scheme) then Some None else
    if negb ((zlen scheme <? u64 sz) && (zlen scheme <? STUN_MAX_ORIGIN_SIZE)) then Some None else
    if negb (0 <? zlen host) then Some None else
    Some <$> origin_text scheme host (ur_port uri)
  | _, _ => Some None
  end.

(** Result: the return code and the array [co]. *)
Definition get_canonic_origin (o : option (list Z)) (co : option (list Z)) (sz : Z) : option (Z * option (list Z)) :=
  match o, co with
  | Some o, Some co =>
    c ← rd8 o 0;
    if c =? 0 then Some (-1, Some co) else
    co ← wr8 co 0 0;
    uri ← evhttp_uri_parse o;
    t ← (match uri with Some uri => canonic_text uri sz | None => Some None end);
    s ← (match t with Some t => Some t | None => c_str o end);
    co ← strncpy co s sz;
    co ← wr8 co sz 0;
    Some (match t with Some _ => 0 | None => -1 end, Some co)
  | _, _ => Some (-1, co)
  end.
End origin.

(** [strstr(s,x)] as a condition. *)
Definition contains (s x : list Z) : option bool := r ← strstr s x; Some (bool_decide (is_Some r)).

(** The alternatives of a condition in their order, up to the first that holds. *)
Fixpoint contains_any (s : list Z) (l : list (list Z)) : option bool :=
  match l with
  | [] => Some false
  | x :: l => b ← contains s x; if (b : bool) then Some true else contains_any s l
  end.

Definition is_secure_string (string : option (list Z)) (sanitizesql : bool) : option Z :=
  match string with
  | None => Some 0
  | Some string =>
    t ← c_str string;
    let s := cstring (lower t) in
    b ← contains_any s [lit " "; [9]; lit "'"; [34]; [10]; [13]; lit "\"];
    if (b : bool) then Some 0 else
    b ← (if sanitizesql then
           u ← contains s (lit "union"); if (u : bool) then contains s (lit "select") else Some false
         else Some false);
    Some (if (b : bool) then 0 else 1)
  end.
