(* ===== verification/UriSpec.v ===== *)
(** Safety of the URI parser, the URIs that have the form of an origin, and the
    canonical form of an origin. *)

From S2P Require Import Prelude CString IoAddr AddrText AddrTextSpec Uri Origin.

(** * Character classes *)

Definition scheme_char (c : Z) : bool := EVUTIL_ISALNUM_ c || (c =? 43) || (c =? 45) || (c =? 46).
Definition reg_char (c : Z) : bool := CHAR_IS_UNRESERVED c || subdelim c.
(** What ends an authority or splits it. *)
Definition delimiter (c : Z) : bool := (c =? 0) || (c =? 35) || (c =? 47) || (c =? 63) || (c =? 64).

(** An implication between two predicates, checked on every byte. *)
Lemma byte_implies (P Q : Z -> bool) c :
  forallb (λ c, implb (P c) (Q c)) (Z.of_nat <$> seq 0 (Z.to_nat 256)) = true -> 0 <= c < 256 -> P c = true -> Q c = true.
Proof. intros H Hc HP. pose proof (forallb_upto _ _ H c Hc) as Hb. cbv beta in Hb. by rewrite HP in Hb. Qed.

Ltac on_byte Q H :=
  match type of H with
  | ?P ?c = true => let Hq := fresh in assert (Q c = true) as Hq;
    [apply (byte_implies P Q c); [by vm_compute|lia|exact H]|];
    cbv beta in Hq; rewrite ?andb_true_iff, ?negb_true_iff, ?Z.eqb_neq in Hq; tauto
  end.

Lemma alpha_class c : 0 <= c < 256 -> EVUTIL_ISALPHA_ c = true ->
  scheme_char c = true /\ EVUTIL_ISALPHA_ (tolower c) = true.
Proof. intros Hc H. on_byte (λ c, scheme_char c && EVUTIL_ISALPHA_ (tolower c)) H. Qed.
Lemma scheme_char_class c : 0 <= c < 256 -> scheme_char c = true ->
  c <> 58 /\ delimiter c = false /\ scheme_char (tolower c) = true.
Proof. intros Hc H. on_byte (λ c, negb (c =? 58) && negb (delimiter c) && scheme_char (tolower c)) H. Qed.
Lemma reg_char_class c : 0 <= c < 256 -> c <> 0 -> reg_char c = true ->
  c <> 58 /\ c <> 37 /\ c <> 91 /\ c <> 93 /\ delimiter c = false /\ reg_char (tolower c) = true /\ tolower c <> 0.
Proof.
  intros Hc H0 H. assert (negb (c =? 0) && reg_char c = true) as H' by (rewrite H, andb_true_r; by apply negb_true_iff, Z.eqb_neq).
  revert H'. generalize (eq_refl (negb (c =? 0) && reg_char c)). intros _ H'.
  change ((λ c, negb (c =? 0) && reg_char c) c = true) in H'.
  on_byte (λ c, negb (c =? 58) && negb (c =? 37) && negb (c =? 91) && negb (c =? 93) && negb (delimiter c)
    && reg_char (tolower c) && negb (tolower c =? 0)) H'.
Qed.
Lemma xdigit_class c : 0 <= c < 256 -> EVUTIL_ISXDIGIT_ c = true ->
  c <> 58 /\ delimiter c = false /\ EVUTIL_ISXDIGIT_ (tolower c) = true /\ reg_char c = true.
Proof. intros Hc H. on_byte (λ c, negb (c =? 58) && negb (delimiter c) && EVUTIL_ISXDIGIT_ (tolower c) && reg_char c) H. Qed.
Lemma digit_class c : 0 <= c < 256 -> EVUTIL_ISDIGIT_ c = true -> 48 <= c <= 57.
Proof.
  intros Hc H. assert ((λ c, (48 <=? c) && (c <=? 57)) c = true) as Hq by
    (apply (byte_implies EVUTIL_ISDIGIT_ (λ c, (48 <=? c) && (c <=? 57)) c); [by vm_compute|lia|exact H]).
  cbv beta in Hq. rewrite andb_true_iff, !Z.leb_le in Hq. lia.
Qed.
Lemma is_digit c : 48 <= c <= 57 -> EVUTIL_ISDIGIT_ c = true.
Proof.
  intros H. apply (byte_implies (λ c, (48 <=? c) && (c <=? 57)) EVUTIL_ISDIGIT_ c); [by vm_compute|lia|].
  cbv beta. rewrite andb_true_iff, !Z.leb_le. lia.
Qed.
Lemma tolower_byte c : 0 <= c < 256 -> 0 <= tolower c < 256.
Proof. intros H. unfold tolower. destruct (Z.leb_spec 65 c), (Z.leb_spec c 90); cbn [andb]; lia. Qed.
Lemma tolower_idem c : tolower (tolower c) = tolower c.
Proof.
  unfold tolower. destruct (Z.leb_spec 65 c), (Z.leb_spec c 90); cbn [andb];
    repeat match goal with |- context [?a <=? ?b] => destruct (Z.leb_spec a b) end; cbn [andb]; lia.
Qed.
Lemma lower_idem s : lower (lower s) = lower s.
Proof. unfold lower. rewrite <- list_fmap_compose. apply list_fmap_ext. intros i c _. apply tolower_idem. Qed.
Lemma zlen_lower s : zlen (lower s) = zlen s.
Proof. unfold zlen, lower. by rewrite length_fmap. Qed.
Lemma lower_app s t : lower (s ++ t) = lower s ++ lower t.
Proof. apply fmap_app. Qed.
Lemma bytes_lower s : bytes s -> bytes (lower s).
Proof. intros H. apply Forall_fmap. eapply Forall_impl; [exact H|]. intros c Hc. by apply tolower_byte. Qed.

(** * Safety: the parser stays inside the text *)

Lemma c_str_cons c s t : c_str (c :: s) = Some t ->
  c = 0 /\ t = [] \/ c <> 0 /\ exists t', t = c :: t' /\ c_str s = Some t'.
Proof.
  cbn [c_str]. case_if; zbool; intros H; [injection H as <-; by left|]. right. split; [done|].
  destruct (c_str s) as [t'|] eqn:Hs; [|done]. injection H as <-. by exists t'.
Qed.

Lemma c_str_text c s t t' : c_str (c :: s) = Some t -> t = c :: t' -> c <> 0 /\ c_str s = Some t'.
Proof. intros H ->. apply c_str_cons in H as [[_ ?]|(? & ? & Hq & ?)]; [done|]. by injection Hq as <-. Qed.

(** A text position: the terminated text behind a nonempty one. *)
Lemma c_str_drop s t n : c_str s = Some t -> 0 <= n <= zlen t -> c_str (drop (Z.to_nat n) s) = Some (drop (Z.to_nat n) t).
Proof.
  intros H Hn. apply c_str_Some in H as [Hz [r ->]].
  assert ((Z.to_nat n <= length t)%nat) as Hl by (unfold zlen in Hn; lia).
  rewrite drop_app_le by done. apply c_str_terminated. by apply Forall_drop.
Qed.

Lemma c_str_nil : c_str [] = None.
Proof. done. Qed.

Lemma strchr_spec s t c : c_str s = Some t -> c <> 0 ->
  exists r, strchr s c = Some r /\
  match r with
  | Some i => 0 <= i < zlen t /\ take (Z.to_nat i) t = take (Z.to_nat i) s /\ c ∉ take (Z.to_nat i) t /\
              t = take (Z.to_nat i) t ++ c :: drop (Z.to_nat (i + 1)) t
  | None => c ∉ t
  end.
Proof.
  intros H Hc. revert t H. induction s as [|x s IH]; intros t H; [done|].
  cbn [strchr]. apply c_str_cons in H as [[-> ->]|(Hx & t' & -> & H)].
  - destruct (Z.eqb_spec 0 c); [by subst|]. exists None. split; [done|]. apply not_elem_of_nil.
  - pose proof (zlen_nonneg t'). destruct (Z.eqb_spec x c) as [->|Hxc].
    + exists (Some 0). rewrite zlen_cons. split; [done|]. split; [lia|]. split; [done|]. split; [apply not_elem_of_nil|done].
    + destruct (Z.eqb_spec x 0); [by subst|]. destruct (IH t' H) as (r & -> & Hr). cbn [mbind option_bind].
      exists (option_map Z.succ r). split; [done|]. destruct r as [i|]; cbn [option_map].
      * destruct Hr as (Hi & Ht & Hn & He). rewrite zlen_cons. split; [lia|].
        replace (Z.to_nat (Z.succ i)) with (S (Z.to_nat i)) by lia. cbn [take firstn].
        replace (Z.to_nat (Z.succ i + 1)) with (S (Z.to_nat (i + 1))) by lia. cbn [drop skipn app].
        split; [f_equal; exact Ht|]. split; [by apply not_elem_of_cons|]. f_equal. exact He.
      * by apply not_elem_of_cons.
Qed.

Lemma chars_ok_total colon strict fuel s t n :
  c_str s = Some t -> n <= zlen t -> (length s < fuel)%nat -> exists b, chars_ok colon strict fuel s n = Some b.
Proof.
  revert s t n. induction fuel as [|fuel IH]; intros s t n H Hn Hf; [lia|]. cbn [chars_ok].
  destruct (Z.leb_spec n 0); [by eexists|]. destruct s as [|c s]; [done|].
  apply c_str_cons in H as [[-> ->]|(Hc & t' & -> & H)]; [change (zlen []) with 0 in Hn; lia|]. rewrite zlen_cons in Hn. cbn [length] in Hf.
  destruct (_ || _); [apply (IH _ t'); [done|lia|lia]|]. destruct (_ && _); [|by eexists].
  unfold pct. destruct s as [|h s]; [done|].
  apply c_str_cons in H as [[-> ->]|(Hh & t2 & -> & H)]; [by eexists|]. rewrite zlen_cons in Hn.
  destruct (negb _); [by eexists|]. destruct s as [|h' s]; [done|].
  destruct (EVUTIL_ISXDIGIT_ h') eqn:E; cbn [mbind option_bind]; [|by eexists].
  apply c_str_cons in H as [[-> ->]|(Hh' & t3 & -> & H)]; [done|]. rewrite zlen_cons in Hn. cbn [length] in Hf.
  apply (IH _ t3); [done|lia|lia].
Qed.

Lemma scheme_tail_total s n : n <= zlen s -> exists b, scheme_tail s n = Some b.
Proof.
  revert n. induction s as [|c s IH]; intros n Hn; cbn [scheme_tail].
  - change (zlen []) with 0 in Hn. destruct (Z.leb_spec n 0); [by eexists|lia].
  - destruct (Z.leb_spec n 0); [by eexists|]. rewrite zlen_cons in Hn.
    destruct (_ && _); [by eexists|]. apply IH. lia.
Qed.

Lemma scheme_ok_total s n : 0 <= n <= zlen s -> exists b, scheme_ok s n = Some b.
Proof.
  intros Hn. unfold scheme_ok. destruct (Z.eqb_spec n 0); [by eexists|].
  destruct s as [|c s]; [change (zlen []) with 0 in Hn; lia|]. rewrite zlen_cons in Hn.
  destruct (negb _); [by eexists|]. apply scheme_tail_total. lia.
Qed.

Lemma parse_port_loop_total v s n : bytes s -> 0 <= v <= 65535 -> n <= zlen s ->
  exists p, parse_port_loop v s n = Some p /\ -1 <= p <= 65535.
Proof.
  revert v n. induction s as [|c s IH]; intros v n Hb Hv Hn; cbn [parse_port_loop].
  - change (zlen []) with 0 in Hn. destruct (Z.leb_spec n 0); [eexists; split; [done|lia]|lia].
  - destruct (Z.leb_spec n 0); [eexists; split; [done|lia]|]. rewrite zlen_cons in Hn. inversion Hb as [|? ? Hc Hb']; subst.
    destruct (EVUTIL_ISDIGIT_ c) eqn:E; cbn [negb]; [|eexists; split; [done|lia]].
    apply digit_class in E; [|done]. rewrite i32_Some by lia. cbn [mbind option_bind].
    destruct (Z.ltb_spec (v * 10 + (c - 48)) 0); [lia|].
    destruct (Z.ltb_spec 65535 (v * 10 + (c - 48))); [eexists; split; [done|lia]|]. apply IH; [done|lia|lia].
Qed.

Lemma future_version_total s n : 1 <= zlen s -> n < zlen s -> exists r, future_version s n = Some r /\
  forall s' n', r = Some (s', n') -> n' <= zlen s' /\ n' <= n - 1.
Proof.
  revert n. induction s as [|c s IH]; intros n H1 Hn; cbn [future_version]; [change (zlen []) with 0 in H1; lia|].
  rewrite zlen_cons in Hn. destruct (Z.leb_spec n 0); cbn [orb].
  { destruct (c =? 46); eexists; (split; [done|]); [|done]. intros s' n' Hq. injection Hq as <- <-. pose proof (zlen_nonneg s). lia. }
  destruct (Z.eqb_spec c 46) as [->|Hc]. { eexists; split; [done|]. intros s' n' Hq. injection Hq as <- <-. lia. }
  destruct (EVUTIL_ISXDIGIT_ c); [|by eexists].
  destruct (IH (n - 1)) as (r & -> & Hr); [lia|lia|]. exists r. split; [done|].
  intros s' n' Hq. destruct (Hr s' n' Hq). lia.
Qed.

Lemma future_address_total s n : n <= zlen s -> exists b, future_address s n = Some b.
Proof.
  revert n. induction s as [|c s IH]; intros n Hn; cbn [future_address].
  - change (zlen []) with 0 in Hn. destruct (Z.leb_spec n 0); [by eexists|lia].
  - destruct (Z.leb_spec n 0); [by eexists|]. rewrite zlen_cons in Hn. destruct (_ || _); [apply IH; lia|by eexists].
Qed.

Lemma c_str_some_app s r : exists t, c_str (s ++ 0 :: r) = Some t.
Proof.
  induction s as [|c s IH]; [by eexists|]. cbn [app c_str]. destruct (c =? 0); [by eexists|].
  destruct IH as [t ->]. by eexists.
Qed.

Lemma zlen_drop_Z (s : list Z) n : 0 <= n <= zlen s -> zlen (drop (Z.to_nat n) s) = zlen s - n.
Proof. intros H. unfold zlen in *. rewrite length_drop. lia. Qed.

Section safety.
Context `{N : NetDb}.

Lemma bracket_total s n : n <= zlen s -> exists r, bracket_addr_ok s n = Some r.
Proof.
  intros Hn. unfold bracket_addr_ok. destruct (Z.ltb_spec n 3); [by eexists|].
  destruct (rd8_ok s 0) as (c & -> & _); [lia|]. cbn [mbind option_bind]. destruct (negb (c =? 91)); [by eexists|].
  destruct (rd8_ok s (n - 1)) as (l & -> & _); [lia|]. cbn [mbind option_bind]. destruct (negb (l =? 93)); [by eexists|].
  destruct (rd8_ok s 1) as (v & -> & _); [lia|]. cbn [mbind option_bind]. destruct (v =? 118).
  - destruct (rd8_ok s 2) as (h & -> & _); [lia|]. cbn [mbind option_bind]. destruct (negb _); [by eexists|].
    pose proof (zlen_drop_Z s 2) as Hd. change (Z.to_nat 2) with 2%nat in Hd.
    destruct (future_version_total (drop 2 s) (n - 3)) as (r & -> & Hr); [rewrite Hd; lia|rewrite Hd; lia|]. cbn [mbind option_bind].
    destruct r as [[s' n']|]; [|by eexists]. destruct (Hr s' n') as [H1 _]; [done|].
    destruct (future_address_total s' n' H1) as [b ->]. by eexists.
  - destruct (64 <=? n - 2); [by eexists|]. rewrite rd_block_ok by lia. cbn [mbind option_bind].
    destruct (c_str_some_app (take (Z.to_nat (n - 2)) (drop (Z.to_nat 1) s)) []) as [t ->]. by eexists.
Qed.

Lemma digits_before_bounds r : 0 <= digits_before r <= zlen r.
Proof. induction r as [|c r IH]; cbn [digits_before]; [done|]. rewrite zlen_cons. destruct (EVUTIL_ISDIGIT_ c); lia. Qed.

Lemma host_port_total cp n : bytes cp -> 0 <= n <= zlen cp ->
  exists r, host_port cp n = Some r /\ forall len p, r = Some (len, p) ->
    0 <= len <= n /\ match p with Some p => -1 <= p <= 65535 | None => True end.
Proof.
  intros Hb Hn. unfold host_port. rewrite rd_block_ok by lia. cbn [mbind option_bind]. cbv zeta.
  set (r := take _ _). assert (zlen (rev r) = n) as Hr.
  { unfold zlen. rewrite length_rev. unfold r. rewrite length_take, length_drop. unfold zlen in Hn. lia. }
  pose proof (digits_before_bounds (rev r)) as Hd. set (k := digits_before _) in *.
  destruct (Z.ltb_spec (n - 1 - k) 0). { eexists; split; [done|]. intros ? ? Hq. injection Hq as <- <-. lia. }
  destruct (rd8_ok cp (n - 1 - k)) as (c & -> & _); [lia|]. cbn [mbind option_bind].
  destruct (negb _). { eexists; split; [done|]. intros ? ? Hq. injection Hq as <- <-. lia. }
  destruct (Z.eqb_spec (n - 1 - k + 1) n). { eexists; split; [done|]. intros ? ? Hq. injection Hq as <- <-. lia. }
  destruct (parse_port_loop_total 0 (drop (Z.to_nat (n - 1 - k + 1)) cp) (n - (n - 1 - k + 1))) as (p & Hp & Hpr);
    [by apply bytes_drop|lia|rewrite zlen_drop_Z; lia|].
  unfold parse_port. rewrite Hp. cbn [mbind option_bind]. destruct (p <? 0); (eexists; split; [done|]); [done|].
  intros ? ? Hq. injection Hq as <- <-. lia.
Qed.

Lemma host_part_total flags cp t n : c_str cp = Some t -> 0 <= n <= zlen t -> exists r, host_part flags cp n = Some r.
Proof.
  intros H Hn. pose proof (c_str_Some _ _ H) as [Hz [rest Hcp]].
  assert (zlen t + 1 <= zlen cp) as Hl by (rewrite Hcp, zlen_app, zlen_cons; pose proof (zlen_nonneg rest); lia).
  unfold host_part. destruct (rd8_ok cp 0) as (c & Hc & _); [lia|]. rewrite Hc. cbn [mbind option_bind]. cbv zeta.
  assert (exists br, (if (c =? 91) && (2 <=? n) then l ← rd8 cp (n - 1); Some (l =? 93) else Some false) = Some br /\
    (br = true -> 2 <= n)) as (br & -> & Hbr).
  { destruct (c =? 91); cbn [andb]; [|by eexists]. destruct (Z.leb_spec 2 n); [|by eexists].
    destruct (rd8_ok cp (n - 1)) as (l & -> & _); [lia|]. by eexists. }
  cbn [mbind option_bind].
  assert (exists ok, (if br then r ← bracket_addr_ok cp n; Some (truth r) else regname_ok cp n) = Some ok) as [ok Hok].
  { destruct br; [destruct (bracket_total cp n) as [r ->]; [lia|by eexists]|]. unfold regname_ok.
    apply (chars_ok_total _ _ _ _ t); [done|lia|lia]. }
  rewrite Hok. cbn [mbind option_bind]. destruct ok; cbn [negb]; [|by eexists].
  destruct (Z.eqb_spec c 91) as [Hc91|_]; cbn [andb]; [|rewrite rd_block_ok by lia; by eexists].
  destruct (has_flag _ _); [|rewrite rd_block_ok by lia; by eexists].
  rewrite rd_block_ok; [by eexists|destruct br; [specialize (Hbr eq_refl); lia|lia]|destruct br; [specialize (Hbr eq_refl); lia|lia]|destruct br; lia].
Qed.

Lemma c_str_from s k n : rd8 s k = Some 0 -> 0 <= n <= k -> exists t, c_str (drop (Z.to_nat n) s) = Some t.
Proof.
  intros H Hn. apply rd_block_1, rd_block_Some in H as (Hk & _ & _ & He).
  destruct (drop (Z.to_nat k) s) as [|x r] eqn:E; [done|]. cbn in He. injection He as <-.
  rewrite <- (take_drop (Z.to_nat (k - n)) (drop (Z.to_nat n) s)), drop_drop.
  replace (Z.to_nat n + Z.to_nat (k - n))%nat with (Z.to_nat k) by lia. rewrite E. apply c_str_some_app.
Qed.
Lemma c_str_end s t : c_str s = Some t -> rd8 s (zlen t) = Some 0.
Proof. intros H. apply c_str_Some in H as [_ [r ->]]. by apply rd8_here. Qed.
Lemma c_str_room s t : c_str s = Some t -> zlen t < zlen s.
Proof. intros H. apply c_str_Some in H as [_ [r ->]]. rewrite zlen_app, zlen_cons. pose proof (zlen_nonneg r). lia. Qed.

(** A byte of the text is replaced; the terminator stays where it is. *)
Lemma overwrite s k i : rd8 s k = Some 0 -> bytes s -> 0 <= i < k -> k < zlen s ->
  exists s', wr8 s i 0 = Some s' /\ rd8 s' k = Some 0 /\ bytes s' /\ zlen s' = zlen s /\
    drop (Z.to_nat (i + 1)) s' = drop (Z.to_nat (i + 1)) s.
Proof.
  intros H Hb Hi Hk. unfold wr8. change (u8 0) with 0. destruct (wr_block_is_Some s i [0]) as [s' Hs]; [lia|rewrite zlen_1; lia|].
  exists s'. split; [done|]. split; [|split; [|split; [by eapply wr_block_zlen|]]].
  - apply rd_block_1. rewrite (rd_wr_disjoint _ _ _ _ k 1 Hs) by (rewrite zlen_1; lia). by apply rd_block_1.
  - eapply wr_block_bytes; [exact Hb| |exact Hs]. repeat constructor; lia.
  - apply wr_block_Some in Hs as (_ & _ & ->). rewrite zlen_1, drop_app_ge by (rewrite length_take; lia).
    rewrite length_take, Nat.min_l by (unfold zlen in Hk; lia).
    replace (Z.to_nat (i + 1) - Z.to_nat i)%nat with 1%nat by lia. done.
Qed.

Lemma starts_with_text s t x : c_str s = Some t -> nonzero x ->
  starts_with s x = Some (bool_decide (take (length x) t = x)).
Proof.
  intros H Hx. revert s t H. induction Hx as [|c x Hc Hx IH]; intros s t H; [by destruct s|].
  destruct s as [|d s]; [done|]. cbn [starts_with length].
  apply c_str_cons in H as [[-> ->]|(Hd & t' & -> & H)].
  { destruct (Z.eqb_spec 0 c); [by subst|done]. }
  cbn [take firstn]. destruct (Z.eqb_spec d c) as [->|Hdc].
  - rewrite (IH s t' H). f_equal. apply bool_decide_ext. split; [by intros ->|intros Hq; by injection Hq].
  - by rewrite bool_decide_eq_false_2 by (intros Hq; by injection Hq).
Qed.

Lemma parse_authority_total uri s t n : c_str s = Some t -> bytes s -> 0 <= n <= zlen t ->
  exists rc uri' s', parse_authority uri s n = Some (rc, uri', s') /\ exists t', c_str (drop (Z.to_nat n) s') = Some t'.
Proof.
  intros H Hb Hn. destruct uri as [flags sch ui host port sock pa q fr]. unfold parse_authority. cbv zeta.
  pose proof (c_str_end _ _ H) as He. pose proof (c_str_room _ _ H) as Hl.
  destruct (Z.eqb_spec n 0). { eexists _, _, _. split; [done|]. by apply (c_str_from s (zlen t)). }
  destruct (strchr_spec s t 64 H) as (a & -> & Ha); [done|]. cbn [mbind option_bind].
  set (at_ := match a with Some i => if i <? n then Some i else None | None => None end).
  assert (forall i, at_ = Some i -> 0 <= i < n /\ i < zlen t) as Hat.
  { intros i. unfold at_. destruct a as [j|]; [|done]. destruct (Z.ltb_spec j n); [|done]. intros Hq. injection Hq as <-. lia. }
  clearbody at_. clear Ha a.
  assert (exists b, (match at_ with Some i => userinfo_ok s i | None => Some true end) = Some b) as [b ->].
  { destruct at_ as [i|]; [|by eexists]. destruct (Hat i eq_refl). apply (chars_ok_total _ _ _ _ t); [done|lia|lia]. }
  cbn [mbind option_bind]. destruct b; cbn [negb]; [|eexists _, _, _; split; [done|]; by apply (c_str_from s (zlen t))].
  assert (exists s1, (match at_ with Some i => wr8 s i 0 | None => Some s end) = Some s1 /\
    rd8 s1 (zlen t) = Some 0 /\ bytes s1 /\ zlen s1 = zlen s /\
    (let k := Z.to_nat (match at_ with Some i => i + 1 | None => 0 end) in drop k s1 = drop k s))
    as (s1 & -> & He1 & Hb1 & Hl1 & Hd1).
  { destruct at_ as [i|]; [|by exists s]. destruct (Hat i eq_refl). apply overwrite; [done|done|lia|lia]. }
  cbn [mbind option_bind].
  assert (exists v, (match at_ with Some _ => t ← c_str s1; Some (Some t) | None => Some ui end) = Some v) as [v ->].
  { destruct at_; [|by eexists]. destruct (c_str_from s1 (zlen t) 0) as [u Hu]; [done|lia|]. rewrite drop_0 in Hu. rewrite Hu. by eexists. }
  cbn [mbind option_bind]. set (start := match at_ with Some i => i + 1 | None => 0 end).
  assert (0 <= start <= n) as Hst by (unfold start; destruct at_ as [i|]; [destruct (Hat i eq_refl)|]; lia).
  cbv zeta in Hd1. fold start in Hd1.
  pose proof (c_str_drop s t start H ltac:(lia)) as Hu. rewrite <- Hd1 in Hu. set (u := drop (Z.to_nat start) t) in Hu.
  assert (zlen u = zlen t - start) as Hul by (apply zlen_drop_Z; lia).
  set (cp := drop (Z.to_nat start) s1) in *.
  assert (nonzero (lit "unix:")) as Hnz by (repeat constructor; done).
  rewrite (starts_with_text _ _ _ Hu Hnz). set (b := bool_decide _).
  assert ((if has_flag flags EVHTTP_URI_UNIX_SOCKET then Some b else Some false) = Some (has_flag flags EVHTTP_URI_UNIX_SOCKET && b)) as ->
    by (by destruct (has_flag _ _)).
  cbn [mbind option_bind]. 
  destruct (has_flag flags EVHTTP_URI_UNIX_SOCKET && b) eqn:E.
  - apply andb_prop in E as [_ Hq]. apply bool_decide_eq_true in Hq.
    assert (5 <= zlen u) as H5 by (apply (f_equal length) in Hq; rewrite length_take in Hq; change (length (lit "unix:")) with 5%nat in Hq; unfold zlen; lia).
    pose proof (c_str_drop cp u 5 Hu ltac:(lia)) as Hu5. change (Z.to_nat 5) with 5%nat in Hu5.
    destruct (strchr_spec _ _ 58 Hu5) as (e & -> & Hee); [done|]. cbn [mbind option_bind].
    destruct e as [e|]; [|eexists _, _, _; split; [done|]; apply (c_str_from s1 (zlen t)); [done|lia]].
    destruct Hee as (Hee & _). pose proof (zlen_drop_Z u 5 ltac:(lia)) as Hz5. change (Z.to_nat 5) with 5%nat in Hz5. rewrite Hz5 in Hee.
    destruct (overwrite s1 (zlen t) (start + 5 + e)) as (s2 & -> & He2 & _); [done|done|lia|lia|]. cbn [mbind option_bind].
    destruct (c_str_from s2 (zlen t) (start + 5)) as [v2 ->]; [done|lia|]. cbn [mbind option_bind].
    eexists _, _, _. split; [done|]. by apply (c_str_from s2 (zlen t)).
  -    pose proof (zlen_drop_Z s1 start ltac:(lia)) as Hcl. fold cp in Hcl.
    destruct (host_port_total cp (n - start)) as (r & -> & Hr); [by apply bytes_drop|lia|]. cbn [mbind option_bind].
    destruct r as [[len p]|]; [|eexists _, _, _; split; [done|]; by apply (c_str_from s1 (zlen t))].
    destruct (Hr len p eq_refl) as [Hlen _].
    assert (exists r, host_part flags cp len = Some r) as [r2 ->].
    { apply (host_part_total _ _ u); [done|lia]. }
    cbn [mbind option_bind]. destruct r2 as [[h fl]|]; eexists _, _, _; (split; [done|]); by apply (c_str_from s1 (zlen t)).
Qed.

Lemma end_of_authority_total s t : c_str s = Some t -> exists n, end_of_authority s = Some n /\ 0 <= n <= zlen t.
Proof.
  revert t. induction s as [|c s IH]; intros t H; [done|]. cbn [end_of_authority]. pose proof (zlen_nonneg t).
  destruct (_ || _) eqn:E; [exists 0; split; [done|lia]|].
  apply c_str_cons in H as [[-> ->]|(Hc & t' & -> & H)]; [done|].
  destruct (IH t' H) as (n & -> & Hn). exists (Z.succ n). rewrite zlen_cons. split; [done|lia].
Qed.

Lemma end_of_any_total part s t : c_str s = Some t -> exists n, end_of_any part s = Some n /\ 0 <= n <= zlen t.
Proof.
  revert t. induction s as [|c s IH]; intros t H; [done|]. cbn [end_of_any]. pose proof (zlen_nonneg t).
  destruct (_ || _) eqn:E; [exists 0; split; [done|lia]|].
  apply c_str_cons in H as [[-> ->]|(Hc & t' & -> & H)]; [done|].
  destruct (IH t' H) as (n & -> & Hn). exists (Z.succ n). rewrite zlen_cons. split; [done|lia].
Qed.

Lemma end_of_chars_total query fuel s t : c_str s = Some t -> (length s < fuel)%nat ->
  exists n, end_of_chars query fuel s = Some n /\ 0 <= n <= zlen t.
Proof.
  revert s t. induction fuel as [|fuel IH]; intros s t H Hf; [lia|]. cbn [end_of_chars]. pose proof (zlen_nonneg t).
  destruct s as [|c s]; [done|]. cbn [length] in Hf.
  destruct (Z.eqb_spec c 0) as [->|Hc]; [exists 0; split; [done|lia]|].
  apply c_str_cons in H as [[-> _]|(_ & t' & -> & H)]; [done|]. rewrite zlen_cons in *.
  destruct (IH s t' H ltac:(lia)) as (n & Hn & Hnb).
  destruct (_ || _). { rewrite Hn. exists (Z.succ n). split; [done|lia]. }
  assert (exists n, (if (c =? 63) && query then Z.succ <$> end_of_chars query fuel s else Some 0) = Some n /\ 0 <= n <= 1 + zlen t') as Helse.
  { destruct (_ && _); [rewrite Hn; exists (Z.succ n); split; [done|lia]|exists 0; split; [done|lia]]. }
  destruct (c =? 37); [|exact Helse]. unfold pct. destruct s as [|h s]; [done|].
  apply c_str_cons in H as [[-> ->]|(Hh & t2 & -> & H)]; [exact Helse|].
  destruct (negb _); [exact Helse|]. destruct s as [|h' s]; [done|].
  apply c_str_cons in H as [[-> ->]|(Hh' & t3 & -> & H)]; [exact Helse|].
  cbn [mbind option_bind]. destruct (EVUTIL_ISXDIGIT_ h'); [|exact Helse]. cbn [length] in Hf.
  destruct (IH s t3 H ltac:(lia)) as (k & -> & Hk). exists (3 + k). rewrite !zlen_cons. split; [done|lia].
Qed.

Lemma end_of_path_total s t part flags : c_str s = Some t -> exists n, end_of_path s part flags = Some n /\ 0 <= n <= zlen t.
Proof.
  intros H. unfold end_of_path. destruct (has_flag _ _); [by apply end_of_any_total|]. apply end_of_chars_total; [done|lia].
Qed.

Lemma marked_total mark part flags s t : mark <> 0 -> c_str s = Some t ->
  exists q r, marked mark part flags s = Some (q, r) /\ exists t', c_str r = Some t'.
Proof.
  intros Hm H. unfold marked. destruct s as [|c s]; [done|]. rewrite rd8_head. cbn [mbind option_bind].
  destruct (Z.eqb_spec c mark) as [->|]; cbn [negb]; [|eexists _, _; split; [done|by eexists]].
  apply c_str_cons in H as [[? _]|(_ & t' & -> & H)]; [done|]. cbv zeta. change (drop 1 (mark :: s)) with s.
  destruct (end_of_path_total s t' part flags H) as (n & -> & Hn). cbn [mbind option_bind].
  eexists _, _. split; [done|]. exists (drop (Z.to_nat n) t'). by apply c_str_drop.
Qed.

Lemma path_noscheme_total s t : c_str s = Some t -> exists b, path_matches_noscheme s = Some b.
Proof.
  revert t. induction s as [|c s IH]; intros t H; [done|]. cbn [path_matches_noscheme].
  apply c_str_cons in H as [[-> ->]|(Hc & t' & -> & H)]; [by eexists|].
  destruct (c =? 0); [by eexists|]. destruct (c =? 58); [by eexists|]. destruct (c =? 47); [by eexists|]. by apply (IH t').
Qed.

Lemma slashes_nonzero : nonzero (lit "//").
Proof. repeat constructor; done. Qed.

(** The scheme of a text, with what follows its colon. *)
Definition split_scheme (src : list Z) : option (list Z) * list Z :=
  match strchr (cstring src) 58 with
  | Some (Some t) =>
    match scheme_ok (cstring src) t with
    | Some true => (Some (take (Z.to_nat t) src), drop (S (Z.to_nat t)) src)
    | _ => (None, src)
    end
  | _ => (None, src)
  end.

Lemma text_bytes s t : c_str s = Some t -> bytes s -> bytes t.
Proof. intros H Hb. apply c_str_Some in H as [_ [r ->]]. by apply bytes_app in Hb as [? _]. Qed.

(** C39. Parsing a URI reads nothing outside the text and comes to an end, for every text and
    every combination of the flags. *)
Theorem evhttp_uri_parse_safe source flags src :
  c_str source = Some src -> bytes src -> exists r, evhttp_uri_parse_with_flags source flags = Some r.
Proof.
  intros H Hb. pose proof (c_str_Some _ _ H) as [Hz _]. unfold evhttp_uri_parse_with_flags. rewrite H. cbn [mbind option_bind]. cbv zeta.
  pose proof (c_str_cstring src Hz) as Hc. assert (bytes (cstring src)) as Hcb by (apply bytes_app; split; [done|repeat constructor; lia]).
  destruct (strchr_spec _ _ 58 Hc) as (tok & -> & Htok); [done|]. cbn [mbind option_bind].
  assert (exists sch, (match tok with
         | Some t => ok ← scheme_ok (cstring src) t; Some (if (ok : bool) then Some (take (Z.to_nat t) (cstring src)) else None)
         | None => Some None end) = Some sch /\
         forall s, sch = Some s -> (S (length s) <= length src)%nat) as (sch & -> & Hsch).
  { destruct tok as [t|]; [|by eexists]. destruct Htok as (Ht & _).
    destruct (scheme_ok_total (cstring src) t) as [b ->]; [unfold cstring; rewrite zlen_app, zlen_1; lia|]. cbn [mbind option_bind].
    eexists; split; [done|]. destruct b; [|done]. intros s Hq. injection Hq as <-. rewrite length_take. unfold zlen in Ht. lia. }
  cbn [mbind option_bind].
  set (readp := match sch with Some s => drop (S (length s)) (cstring src) | None => cstring src end).
  assert (exists t, c_str readp = Some t /\ bytes readp) as (t & Ht & Hrb).
  { unfold readp. destruct sch as [s|]; [|by eexists]. specialize (Hsch s eq_refl).
    pose proof (c_str_drop _ _ (Z.of_nat (S (length s))) Hc ltac:(unfold zlen; lia)) as Hd. rewrite Nat2Z.id in Hd.
    eexists. split; [exact Hd|by apply bytes_drop]. }
  clearbody readp. set (uri := Uri _ _ _ _ _ _ _ _ _). clearbody uri.
  rewrite (starts_with_text _ _ _ Ht slashes_nonzero). cbn [mbind option_bind]. set (b := bool_decide _).
  assert (exists rc u path, (if b then
         n ← end_of_authority (drop 2 readp);
         '(rc, uri, s) ← parse_authority uri (drop 2 readp) n;
         Some (rc, uri, drop (Z.to_nat n) s)
       else Some (0, uri, readp)) = Some (rc, u, path) /\ exists t', c_str path = Some t') as (rc & u & path & -> & t2 & Ht2).
  { destruct b eqn:E; [|eexists _, _, _; split; [done|by eexists]]. apply bool_decide_eq_true in E.
    assert (2 <= zlen t) as H2 by (apply (f_equal length) in E; rewrite length_take in E; change (length (lit "//")) with 2%nat in E; unfold zlen; lia).
    pose proof (c_str_drop _ _ 2 Ht ltac:(lia)) as Hd. change (Z.to_nat 2) with 2%nat in Hd.
    destruct (end_of_authority_total _ _ Hd) as (n & -> & Hn). cbn [mbind option_bind].
    destruct (parse_authority_total uri _ _ n Hd) as (rc & u & s' & -> & t' & Ht'); [by apply bytes_drop|done|].
    eexists _, _, _. split; [done|by eexists]. }
  cbn [mbind option_bind]. destruct (rc <? 0); [by eexists|].
  destruct (end_of_path_total path t2 PART_PATH flags Ht2) as (n & -> & Hn). cbn [mbind option_bind].
  pose proof (c_str_drop _ _ n Ht2 Hn) as Hp.
  destruct (marked_total 63 PART_QUERY flags _ _ ltac:(done) Hp) as (q & r1 & -> & t3 & H3). cbn [mbind option_bind].
  destruct (marked_total 35 PART_FRAGMENT flags _ _ ltac:(done) H3) as (f & r2 & -> & t4 & H4). cbn [mbind option_bind].
  destruct r2 as [|c r2]; [done|]. rewrite rd8_head. cbn [mbind option_bind]. destruct (negb _); [by eexists|].
  set (p := take (Z.to_nat n) path). assert (exists t5, c_str (cstring p) = Some t5) as [t5 H5] by apply c_str_some_app.
  rewrite (starts_with_text _ _ _ H5 slashes_nonzero). cbn [mbind option_bind]. destruct (_ && _); [by eexists|].
  destruct (rd8_ok (cstring p) 0) as (p0 & -> & _); [unfold cstring; rewrite zlen_app, zlen_1; pose proof (zlen_nonneg p); lia|].
  cbn [mbind option_bind]. destruct (_ && _); [by eexists|].
  assert (exists v, (match ur_scheme u with None => path_matches_noscheme (cstring p) | Some _ => Some true end) = Some v) as [v ->].
  { destruct (ur_scheme u); [by eexists|]. by eapply path_noscheme_total. }
  cbn [mbind option_bind]. destruct v; cbn [negb]; [|by eexists]. destruct u. by eexists.
Qed.
End safety.

(** * URIs of the form [scheme://host:port] *)

Definition scheme_text (s : list Z) : Prop :=
  exists c r, s = c :: r /\ EVUTIL_ISALPHA_ c = true /\ Forall (λ c, scheme_char c = true) r.

(** A registered name: characters and percent-encoded octets. *)
Inductive reg_text : list Z -> Prop :=
| reg_nil : reg_text []
| reg_cons c h : c <> 0 -> reg_char c = true -> reg_text h -> reg_text (c :: h)
| reg_pct a b h : EVUTIL_ISXDIGIT_ a = true -> EVUTIL_ISXDIGIT_ b = true -> reg_text h -> reg_text (37 :: a :: b :: h).

Lemma scheme_text_chars s : bytes s -> scheme_text s -> Forall (λ c, scheme_char c = true) s.
Proof.
  intros Hb (c & r & -> & Hc & Hr). inversion Hb; subst. constructor; [|done]. by apply alpha_class.
Qed.

Lemma scheme_tail_ok r rest : Forall (λ c, scheme_char c = true) r -> scheme_tail (r ++ rest) (zlen r) = Some true.
Proof.
  induction 1 as [|c r Hc Hr IH]; [by destruct rest|]. cbn [app scheme_tail]. rewrite zlen_cons. pose proof (zlen_nonneg r).
  destruct (Z.leb_spec (1 + zlen r) 0); [lia|]. unfold scheme_char in Hc.
  assert (negb (EVUTIL_ISALNUM_ c) && negb (c =? 43) && negb (c =? 45) && negb (c =? 46) = false) as ->.
  { rewrite <- !negb_orb, Hc. done. }
  replace (1 + zlen r - 1) with (zlen r) by lia. exact IH.
Qed.

Lemma scheme_text_ok s rest : scheme_text s -> scheme_ok (s ++ rest) (zlen s) = Some true.
Proof.
  intros (c & r & -> & Hc & Hr). unfold scheme_ok. rewrite zlen_cons. pose proof (zlen_nonneg r).
  destruct (Z.eqb_spec (1 + zlen r) 0); [lia|]. cbn [app]. rewrite Hc. cbn [negb].
  replace (1 + zlen r - 1) with (zlen r) by lia. by apply scheme_tail_ok.
Qed.

Lemma scheme_tail_inv s n : scheme_tail s n = Some true -> n <= zlen s -> Forall (λ c, scheme_char c = true) (take (Z.to_nat n) s).
Proof.
  revert n. induction s as [|c s IH]; intros n H Hn; [by rewrite take_nil|]. rewrite zlen_cons in Hn. cbn [scheme_tail] in H.
  destruct (Z.leb_spec n 0); [replace (Z.to_nat n) with 0%nat by lia; constructor|].
  destruct (_ && _) eqn:E; [done|]. replace (Z.to_nat n) with (S (Z.to_nat (n - 1))) by lia. cbn [take firstn]. constructor.
  - unfold scheme_char. rewrite <- !negb_orb, negb_false_iff in E. exact E.
  - apply IH; [done|lia].
Qed.

Lemma scheme_ok_inv s n : scheme_ok s n = Some true -> 0 <= n <= zlen s -> scheme_text (take (Z.to_nat n) s).
Proof.
  unfold scheme_ok. intros H Hn. destruct (Z.eqb_spec n 0); [done|]. destruct s as [|c s]; [done|]. rewrite zlen_cons in Hn.
  destruct (EVUTIL_ISALPHA_ c) eqn:E; cbn [negb] in H; [|done]. replace (Z.to_nat n) with (S (Z.to_nat (n - 1))) by lia.
  exists c, (take (Z.to_nat (n - 1)) s). split; [done|]. split; [done|]. apply scheme_tail_inv; [done|lia].
Qed.

Lemma xdigit_nonzero c : EVUTIL_ISXDIGIT_ c = true -> c <> 0.
Proof. by intros H ->. Qed.

Lemma regname_chars fuel h rest : reg_text h -> (length (h ++ rest) < fuel)%nat ->
  chars_ok false false fuel (h ++ rest) (zlen h) = Some true.
Proof.
  intros H. revert fuel. induction H as [|c h H0 Hc Hr IH|a b h Ha Hb Hr IH]; intros fuel Hf; (destruct fuel as [|fuel]; [lia|]);
    cbn [chars_ok]; [done|rewrite zlen_cons|rewrite !zlen_cons]; pose proof (zlen_nonneg h).
  - destruct (Z.leb_spec (1 + zlen h) 0); [lia|]. cbn [app]. cbn [app length] in Hf.
    unfold reg_char in Hc. rewrite Hc. cbn [orb]. replace (1 + zlen h - 1) with (zlen h) by lia. apply IH. lia.
  - destruct (Z.leb_spec (1 + (1 + (1 + zlen h))) 0); [lia|]. cbn [app]. cbn [app length] in Hf.
    assert (CHAR_IS_UNRESERVED 37 || subdelim 37 || false && (37 =? 58) = false) as -> by (by vm_compute).
    change (37 =? 37) with true. cbn [negb orb andb pct]. rewrite Ha. cbn [negb]. rewrite Hb. cbn [mbind option_bind].
    replace (1 + (1 + (1 + zlen h)) - 3) with (zlen h) by lia. apply IH. lia.
Qed.

(** What is behind the name is not a hexadecimal digit, so that an escape does not
    reach over its end. *)
Lemma chars_regname fuel h c rest : chars_ok false false fuel (h ++ c :: rest) (zlen h) = Some true ->
  EVUTIL_ISXDIGIT_ c = false -> nonzero h -> reg_text h.
Proof.
  revert h. induction fuel as [|fuel IH]; intros h H Hx Hz; [done|]. cbn [chars_ok] in H.
  destruct h as [|d h]; [constructor|]. rewrite zlen_cons in H. pose proof (zlen_nonneg h). inversion Hz as [|? ? Hd Hz']; subst.
  destruct (Z.leb_spec (1 + zlen h) 0); [lia|]. cbn [app] in H. rewrite andb_false_l, orb_false_r in H.
  replace (1 + zlen h - 1) with (zlen h) in H by lia. fold (reg_char d) in H.
  destruct (reg_char d) eqn:Er; [by constructor; [..|apply IH]|]. cbn [negb orb] in H. rewrite andb_true_r in H.
  destruct (Z.eqb_spec d 37) as [->|]; [|done].
  destruct h as [|a h]; cbn [app pct] in H; [by rewrite Hx in H|]. destruct (EVUTIL_ISXDIGIT_ a) eqn:Ea; cbn [negb] in H; [|done].
  destruct h as [|b h]; cbn [app] in H; [by rewrite Hx in H|]. destruct (EVUTIL_ISXDIGIT_ b) eqn:Eb; [|done].
  cbn [mbind option_bind] in H. rewrite !zlen_cons in H. replace (1 + (1 + (1 + zlen h)) - 3) with (zlen h) in H by lia.
  constructor; [done|done|]. apply IH; [done|done|]. by apply (Forall_drop _ 2 (a :: b :: h)).
Qed.

Lemma reg_text_chars h : bytes h -> reg_text h ->
  Forall (λ c, delimiter c = false /\ c <> 58 /\ c <> 91) h /\ nonzero h /\ reg_text (lower h).
Proof.
  intros Hb H. induction H as [|c h H0 Hc Hr IH|a b h Ha Hx Hr IH]; [repeat constructor|..].
  - inversion Hb as [|? ? Hcb Hb']; subst. destruct (IH Hb') as (H1 & H2 & H3).
    destruct (reg_char_class c) as (? & ? & ? & ? & ? & ? & ?); [done..|]. split; [by constructor|]. split; [by constructor|]. by constructor.
  - inversion Hb as [|? ? _ Hb1]; inversion Hb1 as [|? ? Hab Hb2]; inversion Hb2 as [|? ? Hbb Hb3]; subst.
    destruct (IH Hb3) as (H1 & H2 & H3).
    destruct (xdigit_class a) as (Ha1 & Ha2 & Ha3 & Ha4); [done..|]. destruct (xdigit_class b) as (Hb4 & Hb5 & Hb6 & Hb7); [done..|].
    pose proof (xdigit_nonzero _ Ha). pose proof (xdigit_nonzero _ Hx).
    destruct (reg_char_class a) as (_ & _ & ? & _); [done..|]. destruct (reg_char_class b) as (_ & _ & ? & _); [done..|].
    split; [by repeat constructor|]. split; [by repeat constructor|].
    change (lower (37 :: a :: b :: h)) with (37 :: tolower a :: tolower b :: lower h). by constructor.
Qed.

Section brackets.
Context `{N : NetDb}.

(** What [inet_pton] accepts as an IPv6 address: hexadecimal digits of either case,
    colons and dots. *)
Class PtonLaws : Prop := {
  pton6_chars s : is_Some (inet_pton AF_INET6 s) -> Forall (λ c, EVUTIL_ISXDIGIT_ c = true \/ c = 58 \/ c = 46) s;
  pton6_lower s : is_Some (inet_pton AF_INET6 s) -> is_Some (inet_pton AF_INET6 (lower s));
}.

Definition future_char (c : Z) : Prop := c <> 0 /\ (CHAR_IS_UNRESERVED c || subdelim c || (c =? 58)) = true.

(** The text between the brackets. *)
Inductive literal_text : list Z -> Prop :=
| ip_future v a : v <> [] -> Forall (λ c, EVUTIL_ISXDIGIT_ c = true) v -> Forall future_char a -> literal_text (118 :: v ++ 46 :: a)
| ip_v6 c m : c <> 118 -> zlen (c :: m) < 64 -> is_Some (inet_pton AF_INET6 (c :: m)) -> literal_text (c :: m).

Lemma future_version_text v a rest : Forall (λ c, EVUTIL_ISXDIGIT_ c = true) v ->
  future_version (v ++ 46 :: a ++ rest) (zlen v + 1 + zlen a) = Some (Some (a ++ rest, zlen a)).
Proof.
  pose proof (zlen_nonneg a). induction 1 as [|c v Hc Hv IH]; cbn [app future_version].
  - change (zlen []) with 0. destruct (Z.leb_spec (0 + 1 + zlen a) 0); [lia|]. change (46 =? 46) with true. cbn [orb].
    by replace (0 + 1 + zlen a - 1) with (zlen a) by lia.
  - rewrite zlen_cons. pose proof (zlen_nonneg v). destruct (Z.leb_spec (1 + zlen v + 1 + zlen a) 0); [lia|].
    destruct (Z.eqb_spec c 46) as [->|]; [done|]. cbn [orb]. rewrite Hc.
    by replace (1 + zlen v + 1 + zlen a - 1) with (zlen v + 1 + zlen a) by lia.
Qed.

Lemma future_version_inv w e rest s' n' : e <> 46 -> future_version (w ++ e :: rest) (zlen w) = Some (Some (s', n')) ->
  exists v a, w = v ++ 46 :: a /\ Forall (λ c, EVUTIL_ISXDIGIT_ c = true) v /\ s' = a ++ e :: rest /\ n' = zlen a.
Proof.
  intros He. induction w as [|c w IH]; cbn [app future_version].
  { change (zlen [] <=? 0) with true. cbn [orb]. by destruct (Z.eqb_spec e 46). }
  rewrite zlen_cons. pose proof (zlen_nonneg w). destruct (Z.leb_spec (1 + zlen w) 0); [lia|]. cbn [orb].
  replace (1 + zlen w - 1) with (zlen w) by lia.
  destruct (Z.eqb_spec c 46) as [->|]; [intros [= <- <-]; by exists [], w|].
  destruct (EVUTIL_ISXDIGIT_ c) eqn:E; [|done]. intros H'. destruct (IH H') as (v & a & -> & Hv & Hs & Hn).
  exists (c :: v), a. split; [done|]. split; [by constructor|done].
Qed.

Lemma future_address_text a rest : Forall future_char a -> future_address (a ++ rest) (zlen a) = Some true.
Proof.
  induction 1 as [|c a [_ Hc] Ha IH]; [by destruct rest|]. cbn [app future_address]. rewrite zlen_cons. pose proof (zlen_nonneg a).
  destruct (Z.leb_spec (1 + zlen a) 0); [lia|]. rewrite Hc. by replace (1 + zlen a - 1) with (zlen a) by lia.
Qed.

Lemma future_address_inv a rest : future_address (a ++ rest) (zlen a) = Some true -> nonzero a -> Forall future_char a.
Proof.
  induction a as [|c a IH]; [constructor|]. cbn [app future_address]. rewrite zlen_cons. pose proof (zlen_nonneg a).
  destruct (Z.leb_spec (1 + zlen a) 0); [lia|]. destruct (_ || _) eqn:E; [|done].
  replace (1 + zlen a - 1) with (zlen a) by lia. intros H' Hz. inversion Hz; subst. constructor; [done|by apply IH].
Qed.

Lemma bracket_reads (c : Z) m rest :
  rd8 (91 :: (c :: m) ++ 93 :: rest) 0 = Some 91 /\ rd8 (91 :: (c :: m) ++ 93 :: rest) (zlen (c :: m) + 1) = Some 93 /\
  rd8 (91 :: (c :: m) ++ 93 :: rest) 1 = Some c /\ rd_block (91 :: (c :: m) ++ 93 :: rest) 1 (zlen (c :: m)) = Some (c :: m).
Proof.
  split; [apply rd8_head|]. split; [apply (rd8_here (91 :: c :: m)); rewrite (zlen_cons 91); lia|].
  split; [by apply (rd8_here [91])|]. exact (rd_block_here [91] (c :: m) (93 :: rest)).
Qed.

Lemma bracket_text mid rest : literal_text mid -> nonzero mid ->
  exists r, bracket_addr_ok (91 :: mid ++ 93 :: rest) (zlen mid + 2) = Some r /\ truth r = true.
Proof.
  intros H Hz. assert (exists c m, mid = c :: m) as (c & m & Hm) by (destruct H; eauto).
  destruct (bracket_reads c m rest) as (R0 & R1 & R2 & R3). rewrite <- Hm in *.
  assert (1 <= zlen mid) as Hl by (rewrite Hm, zlen_cons; pose proof (zlen_nonneg m); lia).
  unfold bracket_addr_ok. destruct (Z.ltb_spec (zlen mid + 2) 3); [lia|]. rewrite R0. cbn [mbind option_bind]. change (91 =? 91) with true. cbn [negb].
  replace (zlen mid + 2 - 1) with (zlen mid + 1) by lia. rewrite R1. cbn [mbind option_bind]. change (93 =? 93) with true. cbn [negb].
  rewrite R2. cbn [mbind option_bind]. destruct H as [v a Hv Hvx Ha|c' m' Hc Hlen Hp].
  - injection Hm as <- <-. change (118 =? 118) with true. cbv iota.
    destruct v as [|h v]; [done|]. inversion Hvx as [|? ? Hh Hvx']; subst.
    match goal with |- context [rd8 ?l 2] => replace (rd8 l 2) with (Some h) by (symmetry; by apply (rd8_here [91; 118])) end.
    cbn [mbind option_bind]. rewrite Hh. cbn [negb].
    match goal with |- context [future_version ?l ?n] => replace (future_version l n) with (Some (Some (a ++ 93 :: rest, zlen a))) end.
    2: { symmetry. cbn [drop skipn app]. rewrite <- app_assoc. cbn [app].
         etransitivity; [|exact (future_version_text (h :: v) a (93 :: rest) Hvx)]. f_equal.
         change (118 :: h :: v ++ 46 :: a) with ((118 :: h :: v) ++ 46 :: a). rewrite zlen_app, !zlen_cons. lia. }
    cbn [mbind option_bind]. rewrite future_address_text by done. by eexists.
  - injection Hm as <- <-. destruct (Z.eqb_spec c' 118); [done|].
    replace (zlen (c' :: m') + 2 - 2) with (zlen (c' :: m')) by lia. destruct (Z.leb_spec 64 (zlen (c' :: m'))); [lia|].
    rewrite R3. cbn [mbind option_bind]. fold (cstring (c' :: m')). rewrite c_str_cstring by done. cbn [mbind option_bind].
    rewrite bool_decide_eq_true_2 by done. by eexists.
Qed.

Lemma bracket_inv mid rest r : bracket_addr_ok (91 :: mid ++ 93 :: rest) (zlen mid + 2) = Some r -> truth r = true ->
  nonzero mid -> literal_text mid.
Proof.
  intros H Hr Hz. unfold bracket_addr_ok in H. destruct mid as [|c m]; [by injection H as <-|].
  destruct (bracket_reads c m rest) as (R0 & R1 & R2 & R3).
  destruct (Z.ltb_spec (zlen (c :: m) + 2) 3); [by injection H as <-|]. rewrite R0 in H. cbn [mbind option_bind] in H.
  change (91 =? 91) with true in H. cbn [negb] in H. replace (zlen (c :: m) + 2 - 1) with (zlen (c :: m) + 1) in H by lia.
  rewrite R1 in H. cbn [mbind option_bind] in H. change (93 =? 93) with true in H. cbn [negb] in H. rewrite R2 in H. cbn [mbind option_bind] in H.
  destruct (Z.eqb_spec c 118) as [->|Hc].
  - destruct (rd8 _ 2) as [h|] eqn:Eh; [|done]. cbn [mbind option_bind] in H. destruct (EVUTIL_ISXDIGIT_ h) eqn:Ex; cbn [negb] in H; [|by injection H as <-].
    change (drop 2 (91 :: (118 :: m) ++ 93 :: rest)) with (m ++ 93 :: rest) in H.
    replace (zlen (118 :: m) + 2 - 3) with (zlen m) in H by (rewrite zlen_cons; lia).
    destruct (future_version _ _) as [[[s' n']|]|] eqn:Ev; [|by injection H as <-|done]. cbn [mbind option_bind] in H.
    apply future_version_inv in Ev as (v & a & -> & Hv & -> & ->); [|done].
    destruct (future_address _ _) as [[]|] eqn:Ea; [|by injection H as <-|done].
    inversion Hz as [|? ? _ Hz']; subst. apply Forall_app in Hz' as [_ Hz']. inversion Hz'; subst.
    constructor; [|done|by eapply future_address_inv]. destruct v as [|? v]; [|done]. cbn [app] in Eh.
    match type of Eh with rd8 ?l 2 = _ => assert (rd8 l 2 = Some 46) as E46 by (by apply (rd8_here [91; 118])) end.
    rewrite E46 in Eh. by injection Eh as <-.
  - replace (zlen (c :: m) + 2 - 2) with (zlen (c :: m)) in H by lia. destruct (Z.leb_spec 64 (zlen (c :: m))); [by injection H as <-|].
    rewrite R3 in H. cbn [mbind option_bind] in H. fold (cstring (c :: m)) in H. rewrite c_str_cstring in H by done. cbn [mbind option_bind] in H.
    injection H as <-. constructor; [done|done|]. by destruct (bool_decide_reflect (is_Some (inet_pton AF_INET6 (c :: m)))).
Qed.
End brackets.

Lemma tolower_nonzero c : c <> 0 -> tolower c <> 0.
Proof. unfold tolower. destruct (Z.leb_spec 65 c), (Z.leb_spec c 90); cbn [andb]; lia. Qed.
Lemma nonzero_lower s : nonzero s -> nonzero (lower s).
Proof. intros H. apply Forall_fmap. eapply Forall_impl; [exact H|]. intros c. apply tolower_nonzero. Qed.
Lemma bytes_cons c s : bytes (c :: s) -> 0 <= c < 256 /\ bytes s.
Proof. intros H. by inversion H. Qed.

Section hosts.
Context `{N : NetDb} {L : PtonLaws}.

Definition host_text (h : list Z) : Prop := reg_text h \/ exists mid, h = 91 :: mid ++ [93] /\ literal_text mid.

Lemma future_char_class c : 0 <= c < 256 -> future_char c -> delimiter c = false /\ future_char (tolower c).
Proof.
  intros Hc [H0 H]. apply orb_true_iff in H as [H|H%Z.eqb_eq].
  - destruct (reg_char_class c) as (_ & _ & _ & _ & Hd & Hr & H0'); [done..|]. split; [done|]. split; [done|].
    unfold reg_char in Hr. by rewrite Hr.
  - subst. by vm_compute.
Qed.

Lemma pton_char_class c : 0 <= c < 256 -> EVUTIL_ISXDIGIT_ c = true \/ c = 58 \/ c = 46 -> delimiter c = false /\ (c <> 118 -> tolower c <> 118).
Proof.
  intros Hc [H|[->| ->]]; [|by vm_compute..]. destruct (xdigit_class c Hc H) as (_ & Hd & _). split; [done|]. intros _.
  assert (negb (tolower c =? 118) = true) as Hq by (apply (byte_implies EVUTIL_ISXDIGIT_ (λ c, negb (tolower c =? 118)) c); [by vm_compute|lia|exact H]).
  by apply negb_true_iff, Z.eqb_neq in Hq.
Qed.

Lemma literal_chars mid : bytes mid -> literal_text mid -> Forall (λ c, delimiter c = false) mid /\ literal_text (lower mid).
Proof.
  intros Hb H. revert Hb. destruct H as [v a Hv Hx Ha|c m Hc Hl Hp]; intros Hb.
  - apply bytes_cons in Hb as [_ Hb]. apply bytes_app in Hb as [Hvb Hb]. apply bytes_cons in Hb as [_ Hab]. split.
    + constructor; [done|]. apply Forall_app. split; [|constructor; [done|]].
      * rewrite Forall_forall in Hx |- *. intros c Hin. unfold bytes in Hvb. rewrite Forall_forall in Hvb. apply xdigit_class; [by apply Hvb|by apply Hx].
      * unfold bytes in Hab. rewrite Forall_forall in Ha, Hab |- *. intros c Hin. apply future_char_class; [by apply Hab|by apply Ha].
    + change (118 :: v ++ 46 :: a) with ([118] ++ v ++ [46] ++ a). rewrite !lower_app.
      change (lower [118] ++ lower v ++ lower [46] ++ lower a) with (118 :: lower v ++ 46 :: lower a).
      constructor; [by destruct v|..]; apply Forall_fmap; unfold bytes in *.
      * rewrite Forall_forall in Hx, Hvb |- *. intros c Hin. apply xdigit_class; [by apply Hvb|by apply Hx].
      * rewrite Forall_forall in Ha, Hab |- *. intros c Hin. apply future_char_class; [by apply Hab|by apply Ha].
  - pose proof (pton6_chars _ Hp) as Hch. unfold bytes in Hb. split.
    + rewrite Forall_forall in Hch, Hb |- *. intros d Hin. apply pton_char_class; [by apply Hb|by apply Hch].
    + change (lower (c :: m)) with (tolower c :: lower m). constructor.
      * inversion Hch; subst. inversion Hb; subst. by apply pton_char_class.
      * change (tolower c :: lower m) with (lower (c :: m)). by rewrite zlen_lower.
      * by apply (pton6_lower (c :: m)).
Qed.

Lemma host_chars h : bytes h -> host_text h -> Forall (λ c, delimiter c = false) h /\ host_text (lower h).
Proof.
  intros Hb [H|(mid & -> & H)].
  - destruct (reg_text_chars h Hb H) as (H1 & _ & H2). split; [|by left]. eapply Forall_impl; [exact H1|]. by intros c (? & _).
  - apply bytes_cons in Hb as [_ Hb]. apply bytes_app in Hb as [Hb _]. destruct (literal_chars mid Hb H) as [H1 H2].
    split; [constructor; [done|]; apply Forall_app; split; [done|by repeat constructor]|].
    right. exists (lower mid). split; [|done]. change (91 :: mid ++ [93]) with ([91] ++ mid ++ [93]). by rewrite !lower_app.
Qed.

Lemma no_delimiter h : Forall (λ c, delimiter c = false) h -> nonzero h.
Proof. intros H. eapply Forall_impl; [exact H|]. by intros c Hc ->. Qed.
End hosts.

(** * Ports *)

Lemma digits_mono s v w : 0 <= v -> digits 10 v s = Some w -> v <= w.
Proof.
  revert v. induction s as [|c s IH]; intros v Hv H; [done|]. cbn [digits] in H.
  destruct (digit_val 10 c) as [d|] eqn:E; [|injection H as <-; lia].
  assert (0 <= d) as Hd.
  { unfold digit_val in E. revert E. destruct (Z.leb_spec 48 c), (Z.leb_spec c 57), (Z.leb_spec 97 c), (Z.leb_spec c 122), (Z.leb_spec 65 c), (Z.leb_spec c 90);
      cbn [andb]; cbv zeta; match goal with |- context [?a <? ?b] => destruct (Z.ltb_spec a b) end; intros E; try done; injection E as <-; lia. }
  apply IH in H; lia.
Qed.

Lemma digit_val_digit c : 48 <= c <= 57 -> digit_val 10 c = Some (c - 48).
Proof.
  intros H. unfold digit_val. destruct (Z.leb_spec 48 c); [|lia]. destruct (Z.leb_spec c 57); [|lia]. cbn [andb].
  destruct (Z.ltb_spec (c - 48) 10); [done|lia].
Qed.

Lemma parse_port_digits ds rest v w : Forall (λ c, 48 <= c <= 57) ds -> 0 <= v -> w <= 65535 ->
  digits 10 v (ds ++ [0]) = Some w -> parse_port_loop v (ds ++ rest) (zlen ds) = Some w.
Proof.
  intros Hd. revert v. induction Hd as [|c ds Hc Hd IH]; intros v Hv Hw H; cbn [app parse_port_loop].
  - cbn in H. injection H as ->. by destruct rest.
  - rewrite zlen_cons. pose proof (zlen_nonneg ds). destruct (Z.leb_spec (1 + zlen ds) 0); [lia|].
    rewrite is_digit by done. cbn [negb]. cbn [app digits] in H. rewrite digit_val_digit in H by done.
    assert (v * 10 + (c - 48) <= w) by (eapply digits_mono; [|exact H]; lia). rewrite i32_Some by lia. cbn [mbind option_bind].
    destruct (Z.ltb_spec (v * 10 + (c - 48)) 0); [lia|]. destruct (Z.ltb_spec 65535 (v * 10 + (c - 48))); [lia|].
    replace (1 + zlen ds - 1) with (zlen ds) by lia. apply IH; [lia|done|done].
Qed.

Lemma parse_port_dec p rest : 0 <= p <= 65535 -> parse_port (dec_string p ++ rest) (zlen (dec_string p)) = Some p.
Proof.
  intros Hp. apply parse_port_digits; [apply dec_string_digits|done|lia|].
  destruct (digits_dec_aux 10 p [] 0 [0]) as (k & _ & _ & Hk); [change (10 ^ Z.of_nat 10) with 10000000000; lia|lia|].
  exact Hk.
Qed.

Definition port_text (p : Z) : list Z := if 0 <? p then 58 :: dec_string p else [].

Lemma digits_before_stop ds c l : Forall (λ c, 48 <= c <= 57) ds -> EVUTIL_ISDIGIT_ c = false -> digits_before (ds ++ c :: l) = zlen ds.
Proof.
  intros H Hc. induction H as [|d ds Hd H IH]; cbn [app digits_before]; [by rewrite Hc|].
  rewrite is_digit, IH, zlen_cons by done. lia.
Qed.
Lemma digits_before_all ds : Forall (λ c, 48 <= c <= 57) ds -> digits_before ds = zlen ds.
Proof. induction 1 as [|d ds Hd H IH]; [done|]. cbn [digits_before]. rewrite is_digit, IH, zlen_cons by done. lia. Qed.

(** The digits at the end of a text. *)
Lemma trailing_digits r : bytes r -> Forall (λ c, 48 <= c <= 57) r \/
  exists a c ds, r = a ++ c :: ds /\ EVUTIL_ISDIGIT_ c = false /\ Forall (λ c, 48 <= c <= 57) ds.
Proof.
  intros Hb. induction r as [|x r IH] using rev_ind; [by left|]. apply bytes_app in Hb as [Hb Hx]. inversion Hx as [|? ? Hxb _]; subst.
  destruct (EVUTIL_ISDIGIT_ x) eqn:E; [|right; exists r, x, []; by repeat constructor].
  apply digit_class in E; [|done]. destruct (IH Hb) as [H|(a & c & ds & -> & Hc & Hd)].
  - left. apply Forall_app. split; [done|]. constructor; [done|constructor].
  - right. exists a, c, (ds ++ [x]). split; [by rewrite <- app_assoc|]. split; [done|].
    apply Forall_app. split; [done|]. constructor; [done|constructor].
Qed.

Lemma zlen_rev (l : list Z) : zlen (rev l) = zlen l.
Proof. unfold zlen. by rewrite length_rev. Qed.

Section ports.
Context `{N : NetDb}.

(** A text that does not end in a colon and digits has no port. *)
Lemma host_port_none h rest : bytes h -> (forall a ds, h = a ++ 58 :: ds -> Forall (λ c, 48 <= c <= 57) ds -> False) ->
  host_port (h ++ rest) (zlen h) = Some (Some (zlen h, None)).
Proof.
  intros Hb Hno. unfold host_port. rewrite (rd_block_front h rest). cbn [mbind option_bind]. cbv zeta. pose proof (zlen_nonneg h).
  destruct (trailing_digits h Hb) as [H'|(a & c & ds & -> & Hc & Hd)].
  - rewrite digits_before_all by (apply Forall_rev; done). rewrite zlen_rev. destruct (Z.ltb_spec (zlen h - 1 - zlen h) 0); [done|lia].
  - rewrite rev_app_distr. cbn [rev]. rewrite <- app_assoc. cbn [app]. rewrite digits_before_stop; [|by apply Forall_rev|done].
    rewrite zlen_rev. replace (zlen (a ++ c :: ds) - 1 - zlen ds) with (zlen a) by (rewrite zlen_app, zlen_cons; lia).
    pose proof (zlen_nonneg a). destruct (Z.ltb_spec (zlen a) 0); [lia|]. rewrite <- app_assoc. cbn [app].
    rewrite (rd8_here a c) by done. cbn [mbind option_bind].
    destruct (Z.eqb_spec c 58) as [->|]; [by exfalso; eapply Hno|done].
Qed.

Lemma host_port_port h p rest : 1 <= p <= 65535 ->
  host_port ((h ++ port_text p) ++ rest) (zlen (h ++ port_text p)) = Some (Some (zlen h, Some p)).
Proof.
  intros Hp. unfold host_port. rewrite (rd_block_front (h ++ port_text p) rest). cbn [mbind option_bind]. cbv zeta.
  unfold port_text. destruct (Z.ltb_spec 0 p); [|lia]. set (ds := dec_string p).
  rewrite rev_app_distr. cbn [rev]. rewrite <- app_assoc. cbn [app].
  rewrite digits_before_stop; [|apply Forall_rev, dec_string_digits|done]. rewrite zlen_rev.
  replace (zlen (h ++ 58 :: ds) - 1 - zlen ds) with (zlen h) by (rewrite zlen_app, zlen_cons; lia).
  pose proof (zlen_nonneg h). destruct (Z.ltb_spec (zlen h) 0); [lia|]. rewrite <- app_assoc. cbn [app].
  rewrite (rd8_here h 58) by done. cbn [mbind option_bind]. change (58 =? 58) with true. cbn [negb].
  assert (0 < zlen ds) as Hl by (destruct (dec_aux_head 10 p []) as (c & t & Hc & _); [lia|]; unfold ds, dec_string; rewrite Hc, zlen_cons; pose proof (zlen_nonneg t); lia).
  rewrite zlen_app, zlen_cons. destruct (Z.eqb_spec (zlen h + 1) (zlen h + (1 + zlen ds))); [lia|].
  replace (drop (Z.to_nat (zlen h + 1)) (h ++ 58 :: ds ++ rest)) with (ds ++ rest).
  2: { change (h ++ 58 :: ds ++ rest) with (h ++ [58] ++ ds ++ rest). rewrite app_assoc, drop_app_ge by (rewrite length_app; unfold zlen; cbn; lia).
       replace (_ - _)%nat with 0%nat by (rewrite length_app; unfold zlen; cbn; lia). done. }
  replace (zlen h + (1 + zlen ds) - (zlen h + 1)) with (zlen ds) by lia. unfold ds. rewrite parse_port_dec by lia. cbn [mbind option_bind].
  destruct (Z.ltb_spec p 0); [lia|done].
Qed.
End ports.

Lemma strchr_at pre c r : nonzero pre -> c ∉ pre -> strchr (pre ++ c :: r) c = Some (Some (zlen pre)).
Proof.
  induction 1 as [|x pre Hx Hp IH]; cbn [app strchr]; [by rewrite Z.eqb_refl|].
  intros [Hne Hn]%not_elem_of_cons. destruct (Z.eqb_spec x c); [by subst|]. destruct (Z.eqb_spec x 0); [done|].
  rewrite IH by done. cbn [mbind option_bind option_map]. rewrite zlen_cons. do 2 f_equal. lia.
Qed.

Lemma strchr_none t c r : nonzero t -> c ∉ t -> c <> 0 -> strchr (t ++ 0 :: r) c = Some None.
Proof.
  intros Hz. revert c. induction Hz as [|x t Hx Ht IH]; intros c Hn Hc; cbn [app strchr].
  - destruct (Z.eqb_spec 0 c); [by subst|done].
  - apply not_elem_of_cons in Hn as [Hne Hn]. destruct (Z.eqb_spec x c); [by subst|]. destruct (Z.eqb_spec x 0); [done|]. by rewrite IH.
Qed.

Lemma end_of_authority_text h r : Forall (λ c, delimiter c = false) h -> end_of_authority (h ++ 0 :: r) = Some (zlen h).
Proof.
  induction 1 as [|c h Hc Hh IH]; [done|]. cbn [app end_of_authority].
  assert ((c =? 0) || (c =? 63) || (c =? 35) || (c =? 47) = false) as ->.
  { unfold delimiter in Hc. rewrite !orb_false_iff in *. tauto. }
  rewrite IH, zlen_cons. cbn. f_equal. lia.
Qed.

Lemma not_in_text (P : Z -> bool) h c : Forall (λ c, P c = false) h -> P c = true -> c ∉ h.
Proof. intros H Hc Hin. rewrite Forall_forall in H. rewrite (H c Hin) in Hc. done. Qed.

Lemma port_text_chars p : Forall (λ c, delimiter c = false) (port_text p).
Proof.
  unfold port_text. case_if; [|constructor]. constructor; [done|]. eapply Forall_impl; [apply dec_string_digits|].
  intros c Hc. cbv beta in Hc. unfold delimiter. repeat match goal with |- context [c =? ?k] => destruct (Z.eqb_spec c k); [lia|] end. done.
Qed.

Section origins.
Context `{N : NetDb} {L : PtonLaws}.

Lemma host_part_text h rest : bytes h -> host_text h -> h <> [] -> host_part 0 (h ++ rest) (zlen h) = Some (Some (h, 0)).
Proof.
  intros Hb Hh Hne. destruct h as [|c h]; [done|]. unfold host_part. cbn [app]. rewrite rd8_head. cbn [mbind option_bind]. cbv zeta.
  change (has_flag 0 EVHTTP_URI_HOST_STRIP_BRACKETS) with false. rewrite andb_false_r.
  change (c :: h ++ rest) with ((c :: h) ++ rest).
  destruct Hh as [Hr|(mid & Hq & Hl)].
  - destruct (reg_text_chars _ Hb Hr) as (Hch & _ & _). inversion Hch as [|? ? (_ & _ & H91) _]; subst.
    destruct (Z.eqb_spec c 91); [done|]. cbn [andb mbind option_bind]. unfold regname_ok.
    rewrite regname_chars by (done || lia). cbn [mbind option_bind negb]. by rewrite rd_block_front.
  - injection Hq as -> ->. apply bytes_cons in Hb as [_ Hb]. apply bytes_app in Hb as [Hb _].
    change (91 =? 91) with true. cbn [andb].
    assert (zlen (91 :: mid ++ [93]) = zlen mid + 2) as Hz by (rewrite zlen_cons, zlen_app, zlen_1; lia).
    rewrite Hz. pose proof (zlen_nonneg mid). destruct (Z.leb_spec 2 (zlen mid + 2)); [|lia].
    replace (zlen mid + 2 - 1) with (zlen (91 :: mid)) by (rewrite zlen_cons; lia).
    replace ((91 :: mid ++ [93]) ++ rest) with ((91 :: mid) ++ 93 :: rest) by (cbn [app]; by rewrite <- app_assoc).
    rewrite (rd8_here (91 :: mid) 93) by done. cbn [mbind option_bind]. change (93 =? 93) with true. cbv iota.
    destruct (literal_chars mid Hb Hl) as [Hd _].
    change ((91 :: mid) ++ 93 :: rest) with (91 :: mid ++ 93 :: rest).
    destruct (bracket_text mid rest Hl (no_delimiter _ Hd)) as (r & -> & Hr). cbn [mbind option_bind]. rewrite Hr. cbn [negb].
    replace (91 :: mid ++ 93 :: rest) with ((91 :: mid ++ [93]) ++ rest) by (cbn [app]; by rewrite <- app_assoc).
    by rewrite <- Hz, rd_block_front.
Qed.

Lemma host_no_port h : bytes h -> host_text h -> forall a ds, h = a ++ 58 :: ds -> Forall (λ c, 48 <= c <= 57) ds -> False.
Proof.
  intros Hb [H|(mid & Hq & H)] a ds -> Hd.
  - destruct (reg_text_chars _ Hb H) as (Hch & _). apply Forall_app in Hch as [_ Hch]. inversion Hch as [|? ? (_ & ? & _) _]; subst. done.
  - apply (f_equal (rev (A := Z))) in Hq. change (91 :: mid ++ [93]) with ([91] ++ mid ++ [93]) in Hq. rewrite !rev_app_distr in Hq. cbn [rev app] in Hq.
    apply Forall_rev in Hd. destruct (rev ds) as [|x l]; [done|]. cbn [app] in Hq. injection Hq as -> _. inversion Hd; subst. lia.
Qed.

Lemma origin_host_port h p rest : bytes h -> host_text h -> p <= 65535 ->
  host_port ((h ++ port_text p) ++ rest) (zlen (h ++ port_text p)) = Some (Some (zlen h, if 0 <? p then Some p else None)).
Proof.
  intros Hb Hh Hp. destruct (Z.ltb_spec 0 p) as [H|H]; [by apply host_port_port; lia|].
  assert (port_text p = []) as -> by (unfold port_text; by destruct (Z.ltb_spec 0 p); [lia|]). rewrite app_nil_r.
  apply host_port_none; [done|]. by apply host_no_port.
Qed.

(** A scheme, a host and perhaps a port are read back from the text that is made of
    them. *)
Lemma parse_origin s h p : bytes s -> scheme_text s -> bytes h -> host_text h -> h <> [] -> p <= 65535 ->
  evhttp_uri_parse (cstring (s ++ lit "://" ++ h ++ port_text p)) =
  Some (Some (Uri 0 (Some s) None (Some h) (if 0 <? p then p else -1) None (Some []) None None)).
Proof.
  intros Hsb Hs Hhb Hh Hne Hp. destruct (host_chars h Hhb Hh) as [Hhd _].
  assert (Forall (λ c, delimiter c = false) (h ++ port_text p)) as Ha by (apply Forall_app; split; [done|apply port_text_chars]).
  assert (Forall (λ c, c <> 58 /\ delimiter c = false) s) as Hsc.
  { pose proof (scheme_text_chars s Hsb Hs) as Hc. unfold bytes in Hsb. rewrite Forall_forall in Hc, Hsb |- *.
    intros c Hin. destruct (scheme_char_class c) as (? & ? & _); [by apply Hsb|by apply Hc|done]. }
  assert (nonzero s) as Hsz by (apply no_delimiter; eapply Forall_impl; [exact Hsc|]; by intros c [_ ?]).
  assert (58 ∉ s) as H58 by (rewrite Forall_forall in Hsc; intros Hin; by apply Hsc in Hin as [? _]).
  set (a := h ++ port_text p) in *. unfold evhttp_uri_parse, evhttp_uri_parse_with_flags.
  assert (nonzero (s ++ lit "://" ++ a)) as Hz.
  { apply Forall_app. split; [done|]. apply Forall_app. split; [by repeat constructor|by apply no_delimiter]. }
  rewrite c_str_cstring by done. cbn [mbind option_bind]. cbv zeta.
  assert (cstring (s ++ lit "://" ++ a) = s ++ 58 :: 47 :: 47 :: a ++ [0]) as -> by (unfold cstring; by rewrite <- !app_assoc).
  rewrite strchr_at by done. cbn [mbind option_bind]. rewrite scheme_text_ok by done. cbn [mbind option_bind].
  assert (take (Z.to_nat (zlen s)) (s ++ 58 :: 47 :: 47 :: a ++ [0]) = s) as -> by (unfold zlen; by rewrite Nat2Z.id, take_app_length).
  assert (drop (S (length s)) (s ++ 58 :: 47 :: 47 :: a ++ [0]) = 47 :: 47 :: a ++ [0]) as ->.
  { rewrite drop_app_ge by lia. by replace (S (length s) - length s)%nat with 1%nat by lia. }
  assert (starts_with (47 :: 47 :: a ++ [0]) (lit "//") = Some true) as -> by apply (starts_with_nil (a ++ [0])).
  cbn [mbind option_bind].
  change (drop 2 (47 :: 47 :: a ++ [0])) with (a ++ [0]). rewrite end_of_authority_text by done. cbn [mbind option_bind].
  unfold parse_authority. cbv zeta. pose proof (zlen_nonneg (port_text p)).
  assert (0 < zlen h) as Hl by (destruct h; [done|rewrite zlen_cons; pose proof (zlen_nonneg h); lia]).
  assert (0 < zlen a) as Hla by (unfold a; rewrite zlen_app; lia).
  destruct (Z.eqb_spec (zlen a) 0); [lia|]. rewrite strchr_none; [|by apply no_delimiter|by apply (not_in_text _ _ _ Ha)|done].
  cbn [mbind option_bind negb]. change (has_flag 0 EVHTTP_URI_UNIX_SOCKET) with false. cbn [mbind option_bind].
  change (drop (Z.to_nat 0) (a ++ [0])) with (a ++ [0]). rewrite Z.sub_0_r. 
  pose proof (origin_host_port h p [0] Hhb Hh Hp) as Hport. fold a in Hport. rewrite Hport. cbn [mbind option_bind].
  assert (host_part 0 (a ++ [0]) (zlen h) = Some (Some (h, 0))) as -> by (unfold a; rewrite <- app_assoc; by apply host_part_text).
  cbn [mbind option_bind].
  change (0 <? 0) with false. cbv iota.
  assert (drop (Z.to_nat (zlen a)) (a ++ [0]) = [0]) as -> by (unfold zlen; by rewrite Nat2Z.id, drop_app_length).
  by destruct (0 <? p).
Qed.
End origins.

(** * What a parsed URI holds *)

Lemma rd8_split m k c : rd8 m k = Some c -> exists a b, m = a ++ c :: b /\ zlen a = k.
Proof.
  intros H. apply rd_block_1, rd_block_Some in H as (Hk & _ & Hl & He).
  exists (take (Z.to_nat k) m), (drop 1 (drop (Z.to_nat k) m)).
  split; [|unfold zlen in *; rewrite length_take; lia]. rewrite <- (take_drop (Z.to_nat k) m) at 1. f_equal.
  change (Z.to_nat 1) with 1%nat in He. destruct (drop (Z.to_nat k) m) as [|x l]; [done|]. cbn in He. by injection He as ->.
Qed.

Section inversion.
Context `{N : NetDb}.

Lemma host_port_inv v rest len p : host_port (v ++ rest) (zlen v) = Some (Some (len, p)) ->
  exists h w, v = h ++ w /\ zlen h = len /\ (w = [] \/ exists w', w = 58 :: w').
Proof.
  unfold host_port. rewrite rd_block_front. cbn [mbind option_bind]. cbv zeta. set (k := zlen v - 1 - _).
  assert (forall q, Some (Some (zlen v, None)) = Some (Some (len, p)) -> q = zlen v ->
    exists h w, v = h ++ w /\ zlen h = len /\ (w = [] \/ exists w', w = 58 :: w')) as Hwhole.
  { intros _ Hq _. injection Hq as <- _. exists v, []. rewrite app_nil_r. by repeat constructor. }
  assert (0 <= digits_before (rev v)) as Hd by apply digits_before_bounds.
  destruct (Z.ltb_spec k 0); [intros H'; by apply (Hwhole (zlen v))|].
  assert (k < zlen v) as Hkv by (unfold k; lia).
  destruct (rd8 (v ++ rest) k) as [c|] eqn:Ec; [|done]. cbn [mbind option_bind].
  destruct (Z.eqb_spec c 58) as [->|]; cbn [negb]; [|intros H'; by apply (Hwhole (zlen v))].
  apply rd8_split in Ec as (a & b & He & Ha).
  assert (exists w', v = a ++ 58 :: w') as [w' ->].
  { apply (f_equal (take (length v))) in He. rewrite take_app_length in He.
    rewrite take_app_ge in He by (unfold zlen in *; lia). destruct (length v - length a)%nat eqn:E; [unfold zlen in *; lia|].
    eexists. exact He. }
  intros H'. assert (len = k) as ->.
  { destruct (k + 1 =? _); [by injection H' as <- _|]. destruct (parse_port _ _) as [q|]; [|done]. cbn [mbind option_bind] in H'.
    destruct (q <? 0); [done|by injection H' as <- _]. }
  exists a, (58 :: w'). split; [done|]. split; [done|]. right. by exists w'.
Qed.

Lemma host_part_inv h0 c rest h fl : host_part 0 (h0 ++ c :: rest) (zlen h0) = Some (Some (h, fl)) ->
  EVUTIL_ISXDIGIT_ c = false -> nonzero h0 -> h = h0 /\ host_text h0.
Proof.
  intros H Hx Hz. unfold host_part in H. destruct (rd8 _ 0) as [c0|] eqn:E0; [|done]. cbn [mbind option_bind] in H. cbv zeta in H.
  change (has_flag 0 EVHTTP_URI_HOST_STRIP_BRACKETS) with false in H. rewrite andb_false_r, rd_block_front in H.
  assert (forall b : bool, (if negb b then Some None else h ← Some h0; Some (Some (h, 0))) = Some (Some (h, fl)) -> b = true /\ h = h0) as Hb.
  { intros [] Hq; [by injection Hq as -> _|done]. }
  assert (forall ok, ok = regname_ok (h0 ++ c :: rest) (zlen h0) ->
    (b ← ok; if negb b then Some None else h ← Some h0; Some (Some (h, 0))) = Some (Some (h, fl)) -> h = h0 /\ host_text h0) as Hreg.
  { intros [b|] Hok Hq; [|done]. cbn [mbind option_bind] in Hq. apply Hb in Hq as [-> ->]. split; [done|]. left. by eapply chars_regname. }
  destruct ((c0 =? 91) && (2 <=? zlen h0)) eqn:E; [|by apply (Hreg _ eq_refl)].
  apply andb_prop in E as [E91%Z.eqb_eq E2%Z.leb_le]. subst c0.
  destruct (rd8 _ (zlen h0 - 1)) as [l|] eqn:El; [|done]. cbn [mbind option_bind] in H.
  destruct (Z.eqb_spec l 93) as [->|]; [|by apply (Hreg _ eq_refl)].
  assert (exists mid, h0 = 91 :: mid ++ [93]) as [mid ->].
  { destruct h0 as [|x h0]; [change (zlen []) with 0 in E2; lia|]. cbn [app] in E0. rewrite rd8_head in E0. injection E0 as ->.
    rewrite zlen_cons in E2. destruct h0 as [|y m _] using rev_ind; [change (zlen []) with 0 in E2; lia|].
    exists m. cbn [app] in El. rewrite <- app_assoc in El. cbn [app] in El.
    match type of El with rd8 ?l ?k = _ => assert (rd8 l k = Some y) as Ey by
      (apply (rd8_here (91 :: m)); rewrite !zlen_cons, zlen_app, zlen_1; lia) end.
    rewrite Ey in El. by injection El as ->. }
  destruct (bracket_addr_ok _ _) as [r|] eqn:Er; [|done]. cbn [mbind option_bind] in H. apply Hb in H as [Hr ->]. split; [done|].
  right. exists mid. split; [done|]. cbn [app] in Er. rewrite <- app_assoc in Er. cbn [app] in Er.
  replace (zlen (91 :: mid ++ [93])) with (zlen mid + 2) in Er by (rewrite zlen_cons, zlen_app, zlen_1; lia).
  eapply bracket_inv; [exact Er|exact Hr|]. inversion Hz as [|? ? _ Hz']; subst. by apply Forall_app in Hz' as [? _].
Qed.
End inversion.

Section inversion2.
Context `{N : NetDb}.

(** The scheme, host and port of a parsed URI. *)
Definition uri_ok (u : evhttp_uri) : Prop :=
  (forall s, ur_scheme u = Some s -> scheme_text s /\ bytes s) /\
  (forall h, ur_host u = Some h -> h = [] \/ host_text h /\ bytes h) /\ -1 <= ur_port u <= 65535.

Lemma host_of_region v c rest len p h fl : bytes v -> nonzero v -> EVUTIL_ISXDIGIT_ c = false ->
  host_port (v ++ c :: rest) (zlen v) = Some (Some (len, p)) ->
  host_part 0 (v ++ c :: rest) len = Some (Some (h, fl)) -> host_text h /\ bytes h.
Proof.
  intros Hb Hz Hx Hp Hh. apply host_port_inv in Hp as (h0 & w & -> & <- & Hw).
  apply bytes_app in Hb as [Hb _]. apply Forall_app in Hz as [Hz _].
  assert (exists c' r', (h0 ++ w) ++ c :: rest = h0 ++ c' :: r' /\ EVUTIL_ISXDIGIT_ c' = false) as (c' & r' & He & Hx').
  { destruct Hw as [->|[w' ->]]; [exists c, rest; by rewrite app_nil_r|]. exists 58, (w' ++ c :: rest). by rewrite <- app_assoc. }
  rewrite He in Hh. apply host_part_inv in Hh as [-> Ht]; [done|done|done].
Qed.

Lemma strchr_found s x i : strchr s x = Some (Some i) -> exists u w, s = u ++ x :: w /\ zlen u = i.
Proof.
  revert i. induction s as [|y s IH]; intros i H; [done|]. cbn [strchr] in H.
  destruct (Z.eqb_spec y x) as [->|]; [injection H as <-; by exists [], s|]. destruct (y =? 0); [done|].
  destruct (strchr s x) as [[j|]|]; [|done..]. cbn in H. injection H as <-. destruct (IH j eq_refl) as (u & w & -> & <-).
  exists (y :: u), w. rewrite zlen_cons. split; [done|lia].
Qed.

Lemma app_split (a u w b : list Z) x : a ++ b = u ++ x :: w -> zlen u < zlen a -> exists v, a = u ++ x :: v /\ w = v ++ b.
Proof.
  revert a. induction u as [|y u IH]; intros [|z a] H Hl.
  - done.
  - cbn [app] in H. injection H as -> <-. by exists a.
  - change (zlen []) with 0 in Hl. pose proof (zlen_nonneg (y :: u)). lia.
  - cbn [app] in H. injection H as -> H. rewrite !zlen_cons in Hl. destruct (IH a H) as (v & -> & ->); [lia|]. by exists v.
Qed.

(** The end of [parse_authority], without flags. *)
Definition authority_tail (sch ui sock pa q fr : option (list Z)) (s cp : list Z) (n : Z) : option (Z * evhttp_uri * list Z) :=
  p ← host_port cp n;
  match p with
  | None => Some (-1, Uri 0 sch ui None (-1) sock pa q fr, s)
  | Some (len, p) =>
    let port := match p with Some p => p | None => -1 end in
    h ← host_part 0 cp len;
    match h with
    | None => Some (-1, Uri 0 sch ui None port sock pa q fr, s)
    | Some (h, flags) => Some (0, Uri flags sch ui (Some h) port sock pa q fr, s)
    end
  end.

Lemma authority_tail_inv sch ui sock pa q fr s v c rest rc uri' s' : (forall x, sch = Some x -> scheme_text x /\ bytes x) ->
  bytes (v ++ c :: rest) -> nonzero v -> EVUTIL_ISXDIGIT_ c = false ->
  authority_tail sch ui sock pa q fr s (v ++ c :: rest) (zlen v) = Some (rc, uri', s') -> 0 <= rc -> uri_ok uri'.
Proof.
  intros Hs Hb Hz Hx H Hrc. unfold authority_tail in H. pose proof (zlen_nonneg v). pose proof (zlen_nonneg rest).
  destruct (host_port_total (v ++ c :: rest) (zlen v) Hb) as (r & Hr & Hrange); [rewrite zlen_app, zlen_cons; lia|].
  rewrite Hr in H. cbn [mbind option_bind] in H. destruct r as [[len p]|]; [|injection H as <- _ _; lia].
  destruct (Hrange len p eq_refl) as [_ Hp]. destruct (host_part 0 _ len) as [[[h fl]|]|] eqn:Eh; [|injection H as <- _ _; lia|done].
  cbn [mbind option_bind] in H. injection H as _ <- _. split; [exact Hs|]. split; [|cbn; destruct p; [exact Hp|lia]].
  intros h' Hq. injection Hq as <-. right. apply bytes_app in Hb as [Hvb _]. by eapply host_of_region.
Qed.

Lemma parse_authority_inv sch a c rest rc uri' s' : (forall x, sch = Some x -> scheme_text x /\ bytes x) ->
  bytes (a ++ c :: rest) -> nonzero a -> EVUTIL_ISXDIGIT_ c = false ->
  parse_authority (Uri 0 sch None None (-1) None None None None) (a ++ c :: rest) (zlen a) = Some (rc, uri', s') -> 0 <= rc -> uri_ok uri'.
Proof.
  intros Hs Hb Hz Hx H Hrc. unfold parse_authority in H. cbv zeta in H. change (has_flag 0 EVHTTP_URI_UNIX_SOCKET) with false in H.
  destruct (Z.eqb_spec (zlen a) 0).
  { injection H as _ <- _. split; [exact Hs|]. split; [|cbn; lia]. intros h Hq. injection Hq as <-. by left. }
  destruct (strchr (a ++ c :: rest) 64) as [[i|]|] eqn:Estr; [|cbn [mbind option_bind negb] in H|done].
  2: { change (drop (Z.to_nat 0) (a ++ c :: rest)) with (a ++ c :: rest) in H. rewrite Z.sub_0_r in H. by eapply authority_tail_inv. }
  cbn [mbind option_bind] in H. apply strchr_found in Estr as (u & w & He & <-).
  destruct (Z.ltb_spec (zlen u) (zlen a)) as [Hlt|].
  2: { cbn [mbind option_bind negb] in H. change (drop (Z.to_nat 0) (a ++ c :: rest)) with (a ++ c :: rest) in H. rewrite Z.sub_0_r in H. by eapply authority_tail_inv. }
  destruct (app_split _ _ _ _ _ He Hlt) as (v & -> & ->). clear He.
  destruct (userinfo_ok _ _) as [[]|]; cbn [mbind option_bind negb] in H; [|injection H as <- _ _; lia|done].
  rewrite <- app_assoc in H. cbn [app] in H. rewrite (wr8_here u 64) in H by (done || lia). cbn [mbind option_bind] in H.
  destruct (c_str _) as [t|]; [|done]. cbn [mbind option_bind] in H.
  assert (drop (Z.to_nat (zlen u + 1)) (u ++ 0 :: v ++ c :: rest) = v ++ c :: rest) as Hd.
  { change (u ++ 0 :: v ++ c :: rest) with (u ++ [0] ++ v ++ c :: rest). rewrite app_assoc.
    replace (Z.to_nat (zlen u + 1)) with (length (u ++ [0])) by (rewrite length_app; unfold zlen; cbn; lia). apply drop_app_length. }
  rewrite Hd in H. replace (zlen (u ++ 64 :: v) - (zlen u + 1)) with (zlen v) in H by (rewrite zlen_app, zlen_cons; lia).
  rewrite <- app_assoc in Hb. apply bytes_app in Hb as [_ Hb]. cbn [app] in Hb. apply bytes_cons in Hb as [_ Hb].
  apply Forall_app in Hz as [_ Hz]. inversion Hz as [|? ? _ Hz']; subst. by eapply authority_tail_inv.
Qed.

Lemma end_of_authority_split s n : end_of_authority s = Some n ->
  exists a c rest, s = a ++ c :: rest /\ zlen a = n /\ nonzero a /\ EVUTIL_ISXDIGIT_ c = false.
Proof.
  revert n. induction s as [|c s IH]; intros n H; [done|]. cbn [end_of_authority] in H.
  destruct (_ || _) eqn:E.
  - injection H as <-. exists [], c, s. split; [done|]. split; [done|]. split; [constructor|].
    rewrite !orb_true_iff, !Z.eqb_eq in E. by destruct E as [[[->| ->]| ->]| ->].
  - destruct (end_of_authority s) as [k|]; [|done]. cbn in H. injection H as <-.
    destruct (IH k eq_refl) as (a & d & rest & -> & <- & Hz & Hx). exists (c :: a), d, rest. split; [done|].
    split; [rewrite zlen_cons; lia|]. split; [constructor; [|done]|done].
    rewrite !orb_false_iff, !Z.eqb_neq in E. tauto.
Qed.

Lemma uri_parse_ok source src u : c_str source = Some src -> bytes src -> evhttp_uri_parse source = Some (Some u) -> uri_ok u.
Proof.
  intros Hc Hb H. unfold evhttp_uri_parse, evhttp_uri_parse_with_flags in H. rewrite Hc in H. cbn [mbind option_bind] in H. cbv zeta in H.
  pose proof (c_str_Some _ _ Hc) as [Hz _]. pose proof (c_str_cstring src Hz) as Hcs.
  assert (bytes (cstring src)) as Hcb by (apply bytes_app; split; [done|repeat constructor; lia]).
  destruct (strchr_spec _ _ 58 Hcs) as (tok & Htok & Hspec); [done|]. rewrite Htok in H. cbn [mbind option_bind] in H.
  match type of H with (sch ← ?m; _) = _ => destruct m as [sch|] eqn:Esch; [|done] end. cbn [mbind option_bind] in H.
  assert (forall x, sch = Some x -> scheme_text x /\ bytes x) as Hs.
  { intros x ->. destruct tok as [t|]; [|done]. destruct Hspec as (Ht & _).
    destruct (scheme_ok (cstring src) t) as [[]|] eqn:Eok; [|done..]. cbn in Esch. injection Esch as <-.
    split; [|by apply bytes_take]. apply scheme_ok_inv; [done|]. unfold cstring. rewrite zlen_app, zlen_1. lia. }
  clear Esch Hspec Htok. set (readp := match sch with Some s => drop (S (length s)) (cstring src) | None => cstring src end) in H.
  assert (bytes readp) as Hrb by (unfold readp; destruct sch; [by apply bytes_drop|done]). clearbody readp.
  destruct (starts_with readp (lit "//")) as [b|]; [|done]. cbn [mbind option_bind] in H.
  match type of H with (r ← ?m; _) = _ => destruct m as [[[rc u'] path]|] eqn:Er; [|done] end. cbn [mbind option_bind] in H.
  destruct (Z.ltb_spec rc 0); [done|].
  assert (uri_ok u') as Hu.
  { destruct b; [|injection Er as _ <- _; split; [exact Hs|]; split; [done|cbn; lia]].
    destruct (end_of_authority _) as [n|] eqn:En; [|done]. cbn [mbind option_bind] in Er.
    apply end_of_authority_split in En as (a & c & rest & Hd & <- & Hza & Hx).
    apply (bytes_drop 2) in Hrb. rewrite Hd in Er, Hrb.
    destruct (parse_authority _ _ _) as [[[rc' u''] s']|] eqn:Ep; [|done]. cbn [mbind option_bind] in Er. injection Er as -> -> _.
    by eapply parse_authority_inv. }
  clear Er. destruct (end_of_path path _ _) as [n|]; [|done]. cbn [mbind option_bind] in H.
  destruct (marked 63 _ _ _) as [[q r1]|]; [|done]. cbn [mbind option_bind] in H.
  destruct (marked 35 _ _ _) as [[f r2]|]; [|done]. cbn [mbind option_bind] in H.
  destruct (rd8 r2 0) as [c|]; [|done]. cbn [mbind option_bind] in H. destruct (negb (c =? 0)); [done|].
  destruct (starts_with (cstring _) _) as [d|]; [|done]. cbn [mbind option_bind] in H. destruct (negb b && d); [done|].
  destruct (rd8 (cstring _) 0) as [p0|]; [|done]. cbn [mbind option_bind] in H. destruct (b && _ && _); [done|].
  match type of H with (v ← ?m; _) = _ => destruct m as [[]|] end; [|done..]. cbn [mbind option_bind negb] in H.
  destruct u'. by injection H as <-.
Qed.
End inversion2.
