(* ===== verification/OriginSpec.v ===== *)
(** The canonical form of an origin, and what a secure string holds. *)

From S2P Require Import Prelude CString IoAddr AddrText AddrTextSpec Uri Origin UriSpec.

(** * Writing the result *)

Lemma strncpy_field_zlen s n : 0 <= n -> zlen (strncpy_field s n) = n.
Proof. intros H. unfold strncpy_field, zlen. rewrite length_app, length_take, length_replicate. lia. Qed.

Lemma canonic_stored co s sz : nonzero s -> 0 <= sz < zlen co ->
  exists c co', strncpy co s sz = Some c /\ wr8 c sz 0 = Some co' /\ c_str co' = Some (take (Z.to_nat sz) s).
Proof.
  intros Hs Hsz. unfold strncpy. destruct (Z.ltb_spec sz 0); [lia|]. pose proof (strncpy_field_zlen s sz ltac:(lia)) as Hl.
  rewrite wr_block_ok by lia. set (rest := drop (Z.to_nat (0 + zlen (strncpy_field s sz))) co).
  change (take (Z.to_nat 0) co) with ([] : list Z). cbn [app]. unfold wr8. change (u8 0) with 0.
  assert (exists x r, rest = x :: r) as (x & r & Hr).
  { destruct rest as [|x r] eqn:E; [|by eexists _, _]. apply (f_equal length) in E. unfold rest in E. rewrite length_drop in E.
    rewrite Hl in E. unfold zlen in Hsz. cbn in E. lia. }
  rewrite Hr. assert (wr_block (strncpy_field s sz ++ x :: r) sz [0] = Some (strncpy_field s sz ++ 0 :: r)) as Hw.
  { pose proof (wr8_here (strncpy_field s sz) x r sz 0 ltac:(by rewrite Hl) ltac:(lia)) as H'. exact H'. }
  eexists _, _. split; [done|]. split; [exact Hw|].
  unfold strncpy_field. rewrite <- app_assoc. assert (nonzero (take (Z.to_nat sz) s)) as Ht by (by apply Forall_take).
  destruct (Z.to_nat sz - length s)%nat eqn:E; cbn [replicate app]; by apply c_str_terminated.
Qed.

(** * The text *)

Lemma is_scheme_total name s : zlen name <= zlen s -> exists b, is_scheme name s = Some b.
Proof. intros H. unfold is_scheme. pose proof (zlen_nonneg name). rewrite rd_block_ok by lia. by eexists. Qed.

Lemma scheme_port_total l s : Forall (λ x, zlen x.1 <= zlen s /\ 0 <= x.2 <= 65535) l ->
  exists p, scheme_port l s = Some p /\ 0 <= p <= 65535.
Proof.
  induction 1 as [|[name p] l [Hn Hp] Hl IH]; cbn [scheme_port]; [by exists 0|].
  destruct (is_scheme_total name s Hn) as [[] ->]; cbn [mbind option_bind]; [by exists p|exact IH].
Qed.

Lemma default_port_total s : exists p, get_default_protocol_port (Some (cstring s)) (zlen s) = Some p /\ 0 <= p <= 65535.
Proof.
  assert (forall n, zlen s = n -> n <= zlen (cstring s)) as Hl by (intros n <-; unfold cstring; rewrite zlen_app, zlen_1; lia).
  unfold get_default_protocol_port.
  repeat match goal with |- context [zlen s =? ?n] =>
    destruct (Z.eqb_spec (zlen s) n) as [E|_];
      [apply scheme_port_total; specialize (Hl _ E); repeat (apply Forall_cons; split; [split; [exact Hl|cbn; lia]|]); by apply Forall_nil|] end.
  exists 0. split; [done|lia].
Qed.

Definition default_port (s : list Z) : Z :=
  match get_default_protocol_port (Some (cstring s)) (zlen s) with Some p => p | None => 0 end.

(** The port of an origin: the one given, or the one of the scheme. *)
Definition origin_port (s : list Z) (p : Z) : Z := if p <? 1 then default_port (lower s) else p.

Definition canonical (s h : list Z) (p : Z) : list Z := lower s ++ lit "://" ++ lower h ++ port_text (origin_port s p).

Lemma origin_port_range s p : p <= 65535 -> 0 <= origin_port s p <= 65535.
Proof.
  intros H. unfold origin_port, default_port. destruct (default_port_total (lower s)) as (q & -> & Hq). destruct (Z.ltb_spec p 1); lia.
Qed.

Lemma lower_port p : lower (port_text p) = port_text p.
Proof.
  unfold port_text. case_if; [|done]. change (lower (58 :: dec_string p)) with (58 :: lower (dec_string p)). f_equal.
  unfold lower. rewrite <- (list_fmap_id (dec_string p)) at 2. apply Forall_fmap_ext_1. eapply Forall_impl; [apply dec_string_digits|].
  intros c Hc. cbv beta in Hc. unfold tolower. destruct (Z.leb_spec 65 c); [lia|done].
Qed.

(** 252 characters of the text are kept. *)
Lemma origin_text_run s h p : p <= 65535 -> zlen s < STUN_MAX_ORIGIN_SIZE ->
  origin_text s h p = Some (take 252 (canonical s h p)).
Proof.
  intros Hp Hs. unfold origin_text. cbv zeta. unfold STUN_MAX_ORIGIN_SIZE in *. pose proof (zlen_nonneg s).
  assert ((if p <? 1 then get_default_protocol_port (Some (cstring (lower s))) (zlen s) else Some p) = Some (origin_port s p)) as ->.
  { unfold origin_port, default_port. destruct (p <? 1); [|done]. rewrite zlen_lower. by destruct (default_port_total (lower s)) as (q & Hq & _); rewrite <- zlen_lower, Hq. }
  cbn [mbind option_bind]. set (q := origin_port s p). change (if 0 <? q then lit ":" ++ dec_string q else []) with (port_text q).
  f_equal. set (n := Z.to_nat _). assert (n = (252 - length s)%nat) as -> by (unfold n, zlen; lia).
  unfold canonical. fold q. rewrite (take_app (lower s) _ 252). assert (length (lower s) = length s) as Hls by (apply length_fmap).
  rewrite (take_ge (lower s)) by (unfold zlen in Hs; lia). rewrite Hls. f_equal.
  set (n := (252 - length s)%nat). assert (3 <= n)%nat as Hn by (unfold n, zlen in *; lia).
  assert (exists m, n = (3 + m)%nat) as [m ->] by (exists (n - 3)%nat; lia).
  set (tail := h ++ port_text q). change (lit "://" ++ tail) with (58 :: 47 :: 47 :: tail).
  change (take (3 + m) (58 :: 47 :: 47 :: tail)) with (58 :: 47 :: 47 :: take m tail).
  change (take 3 (58 :: 47 :: 47 :: take m tail)) with [58; 47; 47]. change (drop 3 (58 :: 47 :: 47 :: take m tail)) with (take m tail).
  unfold tail. unfold lower at 1. rewrite fmap_take. fold (lower (h ++ port_text q)). by rewrite lower_app, lower_port.
Qed.

(** * The function *)

Section origin.
Context `{N : NetDb} {L : PtonLaws}.

Lemma uri_empty o u : c_str o = Some [] -> evhttp_uri_parse o = Some (Some u) -> ur_scheme u = None.
Proof.
  intros Hc. unfold evhttp_uri_parse, evhttp_uri_parse_with_flags. rewrite Hc. vm_compute. by intros [= <-].
Qed.

Lemma canonical_nonzero s h p : bytes s -> scheme_text s -> bytes h -> host_text h -> nonzero (canonical s h p).
Proof.
  intros Hsb Hs Hhb Hh. destruct (host_chars h Hhb Hh) as [Hd _]. pose proof (scheme_text_chars s Hsb Hs) as Hsc.
  unfold canonical. apply Forall_app. split.
  { apply nonzero_lower. unfold nonzero, bytes in *. rewrite Forall_forall in Hsb, Hsc |- *. intros c Hin.
    destruct (scheme_char_class c) as (_ & Hc & _); [by apply Hsb|by apply Hsc|]. by intros ->. }
  apply Forall_app. split; [by repeat constructor|]. apply Forall_app. split; [by apply nonzero_lower, no_delimiter|].
  by apply no_delimiter, port_text_chars.
Qed.

Lemma get_canonic_run o src co sz u s h : c_str o = Some src -> bytes src -> evhttp_uri_parse o = Some (Some u) ->
  ur_scheme u = Some s -> ur_host u = Some h -> h <> [] -> zlen s < u64 sz -> zlen s < STUN_MAX_ORIGIN_SIZE -> 0 <= sz < zlen co ->
  exists co', get_canonic_origin (Some o) (Some co) sz = Some (0, Some co') /\
    c_str co' = Some (take (Z.to_nat sz) (take 252 (canonical s h (ur_port u)))).
Proof.
  intros Ho Hb Hu Hs Hh Hne Hs1 Hs2 Hsz. destruct (uri_parse_ok o src u Ho Hb Hu) as (Hsok & Hhok & Hp).
  destruct (Hsok s Hs) as [Hst Hsb]. destruct (Hhok h Hh) as [->|[Hht Hhb]]; [done|].
  assert (0 < zlen h) as Hhl by (destruct h; [done|rewrite zlen_cons; pose proof (zlen_nonneg h); lia]).
  assert (0 < zlen s) as Hsl by (destruct Hst as (c & r & -> & _); rewrite zlen_cons; pose proof (zlen_nonneg r); lia).
  unfold get_canonic_origin. destruct o as [|c o]; [done|]. rewrite rd8_head. cbn [mbind option_bind].
  destruct (Z.eqb_spec c 0) as [->|Hc].
  { cbn in Ho. injection Ho as <-. apply uri_empty in Hu; [by rewrite Hs in Hu|done]. }
  destruct (wr_block_is_Some co 0 [u8 0]) as [co1 Hco1]; [lia|rewrite zlen_1; lia|]. fold (wr8 co 0 0) in Hco1. rewrite Hco1. cbn [mbind option_bind].
  rewrite Hu. cbn [mbind option_bind]. unfold canonic_text. rewrite Hs, Hh.
  destruct (Z.ltb_spec 0 (zlen s)); [|lia]. destruct (Z.ltb_spec (zlen s) (u64 sz)); [|lia].
  destruct (Z.ltb_spec (zlen s) STUN_MAX_ORIGIN_SIZE); [|lia]. destruct (Z.ltb_spec 0 (zlen h)); [|lia]. cbn [andb negb].
  rewrite origin_text_run by lia. cbn [mbind option_bind fmap option_fmap option_map].
  pose proof (wr_block_zlen _ _ _ _ Hco1) as Hz.
  destruct (canonic_stored co1 (take 252 (canonical s h (ur_port u))) sz) as (c1 & co' & -> & Hw & Hres);
    [by apply Forall_take, canonical_nonzero|lia|].
  cbn [mbind option_bind]. rewrite Hw. cbn [mbind option_bind]. by eexists.
Qed.

Lemma bytes_port p : bytes (port_text p).
Proof.
  unfold port_text. case_if; [|constructor]. constructor; [lia|]. eapply Forall_impl; [apply dec_string_digits|]. intros c Hc. cbv beta in Hc. lia.
Qed.

(** An origin that is made of its parts. *)
Lemma origin_run s h p co sz : bytes s -> scheme_text s -> bytes h -> host_text h -> h <> [] -> p <= 65535 ->
  zlen s < u64 sz -> zlen s < STUN_MAX_ORIGIN_SIZE -> 0 <= sz < zlen co ->
  forall o, c_str o = Some (s ++ lit "://" ++ h ++ port_text p) ->
  exists co', get_canonic_origin (Some o) (Some co) sz = Some (0, Some co') /\
    c_str co' = Some (take (Z.to_nat sz) (take 252 (canonical s h p))).
Proof.
  intros Hsb Hs Hhb Hh Hne Hp Hs1 Hs2 Hsz o Ho. pose proof (parse_origin s h p Hsb Hs Hhb Hh Hne Hp) as Hparse.
  assert (evhttp_uri_parse o = evhttp_uri_parse (cstring (s ++ lit "://" ++ h ++ port_text p))) as Heq.
  { unfold evhttp_uri_parse, evhttp_uri_parse_with_flags. rewrite Ho, c_str_cstring; [done|]. by apply c_str_Some in Ho as [? _]. }
  rewrite Hparse in Heq.
  set (u := Uri _ _ _ _ _ _ _ _ _) in Heq.
  destruct (get_canonic_run o _ co sz u s h Ho) as (co' & Hrun & Hco'); [|done..|].
  { apply bytes_app. split; [done|]. apply bytes_app. split; [by repeat constructor|]. apply bytes_app. split; [done|apply bytes_port]. }
  exists co'. split; [done|]. rewrite Hco'. unfold u. cbn [ur_port]. unfold canonical, origin_port.
  destruct (Z.ltb_spec 0 p); destruct (Z.ltb_spec p 1); (lia || done).
Qed.

(** The canonical form of an origin is the scheme and the host in lower case with the
    port given, or with the port of the scheme: the spellings of an origin have the same
    form. *)
Theorem get_canonic_origin_text s h p co : bytes s -> scheme_text s -> bytes h -> host_text h -> h <> [] -> p <= 65535 ->
  zlen (canonical s h p) <= STUN_MAX_ORIGIN_SIZE -> zlen s < STUN_MAX_ORIGIN_SIZE -> STUN_MAX_ORIGIN_SIZE < zlen co ->
  exists co', get_canonic_origin (Some (cstring (s ++ lit "://" ++ h ++ port_text p))) (Some co) STUN_MAX_ORIGIN_SIZE = Some (0, Some co') /\
    c_str co' = Some (canonical s h p).
Proof.
  intros Hsb Hs Hhb Hh Hne Hp Hl Hs2 Hco. unfold STUN_MAX_ORIGIN_SIZE in *.
  destruct (origin_run s h p co 127 Hsb Hs Hhb Hh Hne Hp) with (o := cstring (s ++ lit "://" ++ h ++ port_text p)) as (co' & Hrun & Hco');
    [exact Hs2|exact Hs2|lia| |].
  - apply c_str_cstring. apply Forall_app. split.
    + pose proof (scheme_text_chars s Hsb Hs) as Hsc. unfold nonzero, bytes in *. rewrite Forall_forall in Hsb, Hsc |- *.
      intros c Hin. destruct (scheme_char_class c) as (_ & Hc & _); [by apply Hsb|by apply Hsc|]. by intros ->.
    + destruct (host_chars h Hhb Hh) as [Hd _]. apply Forall_app. split; [by repeat constructor|].
      apply no_delimiter, Forall_app. split; [done|apply port_text_chars].
  - exists co'. split; [exact Hrun|]. rewrite Hco'. f_equal. rewrite !take_ge by (rewrite ?length_take; unfold zlen in Hl; lia). done.
Qed.

Lemma canonic_text_inv u sz t : canonic_text u sz = Some (Some t) -> exists s h, ur_scheme u = Some s /\ ur_host u = Some h /\ h <> [] /\
  zlen s < u64 sz /\ zlen s < STUN_MAX_ORIGIN_SIZE.
Proof.
  unfold canonic_text. destruct (ur_scheme u) as [s|]; [|done]. destruct (ur_host u) as [h|]; [|done].
  destruct (0 <? zlen s); [|done]. destruct (Z.ltb_spec (zlen s) (u64 sz)); [|done].
  destruct (Z.ltb_spec (zlen s) STUN_MAX_ORIGIN_SIZE); [|done]. destruct (Z.ltb_spec 0 (zlen h)) as [Hh|]; [|done].
  intros _. exists s, h. split; [done|]. split; [done|]. split; [by intros ->|done].
Qed.

Lemma canonical_idem s h p : canonical (lower s) (lower h) (origin_port s p) = canonical s h p.
Proof.
  unfold canonical. rewrite !lower_idem. do 3 f_equal. unfold origin_port. rewrite !lower_idem.
  destruct (Z.ltb_spec (if p <? 1 then default_port (lower s) else p) 1) as [H|H]; [|done].
  destruct (Z.ltb_spec p 1); [done|]. lia.
Qed.

(** The canonical form is its own canonical form, whatever the origin was, as long as it
    was not cut. *)
Theorem get_canonic_origin_idempotent o src co sz co1 t co2 :
  c_str o = Some src -> bytes src -> 0 <= sz <= 252 -> sz < zlen co -> sz < zlen co2 ->
  get_canonic_origin (Some o) (Some co) sz = Some (0, Some co1) -> c_str co1 = Some t -> zlen t < sz ->
  exists co3, get_canonic_origin (Some co1) (Some co2) sz = Some (0, Some co3) /\ c_str co3 = Some t.
Proof.
  intros Ho Hb Hsz Hco Hco2 H Ht Hl. assert (u64 sz = sz) as Hu64 by (apply Z.mod_small; lia).
  assert (exists u s h, evhttp_uri_parse o = Some (Some u) /\ ur_scheme u = Some s /\ ur_host u = Some h /\ h <> [] /\
    zlen s < u64 sz /\ zlen s < STUN_MAX_ORIGIN_SIZE) as (u & s & h & Hu & Hs & Hh & Hne & Hs1 & Hs2).
  { unfold get_canonic_origin in H. destruct (rd8 o 0) as [c|]; [|done]. cbn [mbind option_bind] in H. destruct (c =? 0); [done|].
    destruct (wr8 co 0 0); [|done]. cbn [mbind option_bind] in H.
    destruct (evhttp_uri_parse o) as [[u|]|]; [|cbn [mbind option_bind] in H|done].
    2: { destruct (c_str o); [|done]. cbn [mbind option_bind] in H. destruct (strncpy _ _ _); [|done]. cbn [mbind option_bind] in H.
         by destruct (wr8 _ sz 0). }
    cbn [mbind option_bind] in H. destruct (canonic_text u sz) as [[t'|]|] eqn:E; [|cbn [mbind option_bind] in H|done].
    2: { destruct (c_str o); [|done]. cbn [mbind option_bind] in H. destruct (strncpy _ _ _); [|done]. cbn [mbind option_bind] in H.
         by destruct (wr8 _ sz 0). }
    apply canonic_text_inv in E as (s & h & ?). by exists u, s, h. }
  destruct (uri_parse_ok o src u Ho Hb Hu) as (Hsok & Hhok & Hp). destruct (Hsok s Hs) as [Hst Hsb].
  destruct (Hhok h Hh) as [->|[Hht Hhb]]; [done|]. set (p := ur_port u) in *.
  destruct (get_canonic_run o src co sz u s h Ho Hb Hu Hs Hh Hne Hs1 Hs2 ltac:(lia)) as (co' & Hrun & Hco').
  rewrite Hrun in H. injection H as ->. rewrite Ht in Hco'. injection Hco' as Hco'. fold p in Hco'.
  assert (t = canonical s h p) as Hcan.
  { rewrite take_take in Hco'. rewrite Nat.min_l in Hco' by lia. rewrite Hco'. apply take_ge.
    rewrite Hco' in Hl. unfold zlen in Hl. rewrite length_take in Hl. lia. }
  pose proof (origin_port_range s p ltac:(lia)) as Hq.
  destruct (host_chars h Hhb Hht) as [_ Hlh].
  destruct (origin_run (lower s) (lower h) (origin_port s p) co2 sz) with (o := co1) as (co3 & Hrun2 & Hco3);
    [by apply bytes_lower| |by apply bytes_lower|exact Hlh|by destruct h|lia|by rewrite zlen_lower|by rewrite zlen_lower|lia|by rewrite Ht, Hcan|].
  - destruct Hst as (c & r & -> & Hc & Hr). apply bytes_cons in Hsb as [Hcb Hrb]. exists (tolower c), (lower r). split; [done|].
    split; [by apply alpha_class|]. apply Forall_fmap. unfold bytes in Hrb. rewrite Forall_forall in Hr, Hrb |- *.
    intros d Hin. apply scheme_char_class; [by apply Hrb|by apply Hr].
  - exists co3. split; [exact Hrun2|]. rewrite Hco3, canonical_idem, <- Hcan. f_equal.
    rewrite (take_ge t) by (unfold zlen in Hl; lia). apply take_ge. unfold zlen in Hl. lia.
Qed.
End origin.

(** * Secure strings *)

Definition infix_of (x t : list Z) : Prop := exists a b, t = a ++ x ++ b.

Lemma starts_with_spec t x : nonzero t -> nonzero x -> exists b, starts_with (cstring t) x = Some b /\ (b = true <-> exists r, t = x ++ r).
Proof.
  intros Ht Hx. rewrite (starts_with_text _ t x (c_str_cstring _ Ht) Hx). eexists. split; [done|]. rewrite bool_decide_eq_true. split.
  - intros H. exists (drop (length x) t). by rewrite <- H at 1; rewrite take_drop.
  - intros [r ->]. apply take_app_length.
Qed.

Lemma strstr_infix t x : nonzero t -> nonzero x -> x <> [] -> exists r, strstr (cstring t) x = Some r /\ (is_Some r <-> infix_of x t).
Proof.
  intros Ht Hx Hne. induction Ht as [|c t Hc Ht IH].
  - destruct x as [|d x]; [done|]. inversion Hx; subst. cbn [cstring app strstr starts_with].
    destruct (Z.eqb_spec 0 d); [by subst|]. cbn [mbind option_bind]. change (0 =? 0) with true. exists None. split; [done|].
    split; [by intros [??]|]. intros (a & b & Hq). by destruct a.
  - destruct (starts_with_spec (c :: t) x) as (b & Hb & Hiff); [by constructor|done|].
    change (cstring (c :: t)) with (c :: cstring t) in Hb |- *. cbn [strstr]. rewrite Hb. cbn [mbind option_bind]. destruct b.
    + exists (Some 0). split; [done|]. split; [|by eexists]. intros _. destruct Hiff as [Hr _]. destruct (Hr eq_refl) as [r Hq]. by exists [], r.
    + destruct (Z.eqb_spec c 0); [done|]. destruct IH as (r & -> & Hr). cbn [mbind option_bind]. exists (option_map Z.succ r). split; [done|].
      transitivity (is_Some r); [destruct r; split; intros [? ?]; by eexists|]. rewrite Hr. split.
      * intros (a & b & ->). by exists (c :: a), b.
      * intros (a & b & Hq). destruct a as [|y a]; cbn [app] in Hq; [|injection Hq as _ ->; by exists a, b].
        destruct Hiff as [_ Hf]. assert (false = true) by (apply Hf; by exists b). done.
Qed.

Lemma contains_infix t x : nonzero t -> nonzero x -> x <> [] -> exists b, contains (cstring t) x = Some b /\ (b = true <-> infix_of x t).
Proof.
  intros Ht Hx Hne. destruct (strstr_infix t x Ht Hx Hne) as (r & Hr & Hi). unfold contains. rewrite Hr. cbn [mbind option_bind].
  eexists. split; [done|]. by rewrite bool_decide_eq_true.
Qed.

Lemma infix_char c t : infix_of [c] t <-> c ∈ t.
Proof.
  split; [intros (a & b & ->); set_solver|]. intros (a & b & ->)%list_elem_of_split. by exists a, b.
Qed.

Lemma contains_any_spec t l : nonzero t -> Forall (λ x, nonzero x /\ x <> []) l ->
  exists b, contains_any (cstring t) l = Some b /\ (b = true <-> Exists (λ x, infix_of x t) l).
Proof.
  intros Ht. induction 1 as [|x l [Hx Hne] Hl IH]; cbn [contains_any]; [exists false; split; [done|]; split; [done|by intros H%Exists_nil]|].
  destruct (contains_infix t x Ht Hx Hne) as (b & -> & Hb). cbn [mbind option_bind]. pose proof (Exists_cons (λ x, infix_of x t) x l) as Hec. cbv beta in Hec. destruct b.
  - exists true. split; [done|]. tauto.
  - destruct IH as (b & -> & Hb'). exists b. split; [done|]. rewrite Hb', Hec. assert (~ infix_of x t) by (intros H; by apply Hb in H). tauto.
Qed.

(** Blanks, quotes, line ends and backslashes. *)
Definition unsafe_chars : list Z := [32; 9; 39; 34; 10; 13; 92].

Lemma unsafe_lower t : Exists (λ x, infix_of x (lower t)) ((λ c, [c]) <$> unsafe_chars) <-> Exists (λ c, c ∈ t) unsafe_chars.
Proof.
  unfold unsafe_chars. cbn [fmap list_fmap]. rewrite !Exists_cons, !Exists_nil, !infix_char.
  assert (forall c, tolower c = c -> (forall d, tolower d = c -> d = c) -> c ∈ lower t <-> c ∈ t) as Hl.
  { intros c Hc Hd. unfold lower. rewrite list_elem_of_fmap. split; [intros (d & Hq & Hin); symmetry in Hq; by apply Hd in Hq as ->|].
    intros Hin. by exists c. }
  assert (forall c d, c < 97 -> tolower d = c -> d = c) as Hback.
  { intros c d Hc. unfold tolower. destruct (Z.leb_spec 65 d), (Z.leb_spec d 90); cbn [andb]; lia. }
  rewrite !Hl; [done|..]; try done; intros d; apply Hback; lia.
Qed.

(** [is_secure_string] holds exactly for the texts without blanks, quotes, line ends and
    backslashes, and, if SQL is looked for, without one of the words [union] and
    [select] in any case. *)
Theorem is_secure_string_spec s t sql : c_str s = Some t ->
  exists b, is_secure_string (Some s) sql = Some (b2z b) /\
    (b = true <-> ~ Exists (λ c, c ∈ t) unsafe_chars /\
                  ~ (sql = true /\ infix_of (lit "union") (lower t) /\ infix_of (lit "select") (lower t))).
Proof.
  intros H. apply c_str_Some in H as Ht. destruct Ht as [Ht _]. apply nonzero_lower in Ht. unfold is_secure_string. rewrite H. cbn [mbind option_bind]. cbv zeta.
  destruct (contains_any_spec (lower t) ((λ c, [c]) <$> unsafe_chars) Ht) as (b & Hb & Hiff).
  { repeat (apply Forall_cons; split; [split; [by repeat constructor|done]|]). by apply Forall_nil. }
  change ((λ c, [c]) <$> unsafe_chars) with [lit " "; [9]; lit "'"; [34]; [10]; [13]; lit "\"] in Hb. rewrite Hb. cbn [mbind option_bind].
  rewrite unsafe_lower in Hiff. destruct b.
  { exists false. split; [done|]. split; [done|]. intros [Hn _]. exfalso. apply Hn, Hiff. done. }
  assert (~ Exists (λ c, c ∈ t) unsafe_chars) as Hu by (intros Hn; by apply Hiff in Hn).
  destruct (contains_infix (lower t) (lit "union") Ht) as (u & Hcu & Hui); [by repeat constructor|done|].
  destruct (contains_infix (lower t) (lit "select") Ht) as (v & Hcv & Hvi); [by repeat constructor|done|].
  destruct sql; cbn [mbind option_bind].
  2: { exists true. split; [done|]. split; [intros _; by split; [|intros [? _]]|done]. }
  rewrite Hcu. cbn [mbind option_bind]. destruct u; [rewrite Hcv|]; cbn [mbind option_bind].
  - exists (negb v). split; [by destruct v|]. rewrite <- Hui, <- Hvi. destruct v; cbn [negb]; naive_solver.
  - exists true. split; [done|]. rewrite <- Hui. naive_solver.
Qed.

(** * Witnesses *)

(** An [inet_pton] that takes every text of the characters of an IPv6 address. *)
Definition loose_netdb : NetDb := {|
  inet_pton _ s := if forallb (λ c, EVUTIL_ISXDIGIT_ c || (c =? 58) || (c =? 46)) s then Some (zeros 16) else None;
  inet_ntop _ _ := [];
  getaddrinfo _ := None;
|}.

Lemma loose_chars s : is_Some (@inet_pton loose_netdb AF_INET6 s) -> Forall (λ c, EVUTIL_ISXDIGIT_ c || (c =? 58) || (c =? 46) = true) s.
Proof.
  intros [x H]. cbn in H. destruct (forallb _ s) eqn:E; [|done]. rewrite forallb_forall in E.
  apply Forall_forall. intros c Hc. by apply E, list_elem_of_In.
Qed.

Lemma loose_lower c : EVUTIL_ISXDIGIT_ c || (c =? 58) || (c =? 46) = true ->
  EVUTIL_ISXDIGIT_ (tolower c) || (tolower c =? 58) || (tolower c =? 46) = true.
Proof.
  intros H. assert (0 <= c < 256 \/ tolower c = c) as [Hc| ->].
  { unfold tolower. destruct (Z.leb_spec 65 c), (Z.leb_spec c 90); cbn [andb]; lia. }
  - apply (byte_implies (λ c, EVUTIL_ISXDIGIT_ c || (c =? 58) || (c =? 46))
      (λ c, EVUTIL_ISXDIGIT_ (tolower c) || (tolower c =? 58) || (tolower c =? 46)) c); [by vm_compute|done|done].
  - done.
Qed.

Lemma loose_laws : @PtonLaws loose_netdb.
Proof.
  split; intros s H%loose_chars.
  - eapply Forall_impl; [exact H|]. intros c Hc. cbv beta in Hc. rewrite !orb_true_iff, !Z.eqb_eq in Hc. tauto.
  - cbn. assert (forallb (λ c, EVUTIL_ISXDIGIT_ c || (c =? 58) || (c =? 46)) (lower s) = true) as ->; [|by eexists].
    apply forallb_forall. intros c Hin%list_elem_of_In. unfold lower in Hin. apply list_elem_of_fmap in Hin as (d & -> & Hd).
    rewrite Forall_forall in H. by apply loose_lower, H.
Qed.

Definition sample_origin : list Z := lit "HTTP://user@[FE80::1]:0/index?q#f".

Lemma evhttp_uri_parse_safe_witness :
  c_str (cstring sample_origin) = Some sample_origin /\
  exists r, @evhttp_uri_parse_with_flags loose_netdb (cstring sample_origin) 0 = Some r.
Proof.
  split; [by vm_compute|]. apply (@evhttp_uri_parse_safe loose_netdb _ _ sample_origin); [by vm_compute|by apply bytes_concrete; vm_compute].
Defined.

Definition sample_canonic : list Z := lit "http://[fe80::1]:80".
Definition sample_co : list Z := sample_canonic ++ zeros (128 - zlen sample_canonic).

Lemma get_canonic_origin_idempotent_witness :
  @get_canonic_origin loose_netdb (Some (cstring sample_origin)) (Some (zeros 128)) 127 = Some (0, Some sample_co) /\
  exists co3, @get_canonic_origin loose_netdb (Some sample_co) (Some (zeros 200)) 127 = Some (0, Some co3) /\ c_str co3 = Some sample_canonic.
Proof.
  split; [by vm_compute|].
  apply (@get_canonic_origin_idempotent loose_netdb loose_laws (cstring sample_origin) sample_origin (zeros 128) 127 sample_co sample_canonic).
  - by vm_compute.
  - apply bytes_concrete. by vm_compute.
  - lia.
  - by vm_compute.
  - by vm_compute.
  - by vm_compute.
  - by vm_compute.
  - by vm_compute.
Defined.

Lemma get_canonic_origin_text_witness :
  exists co', @get_canonic_origin loose_netdb (Some (cstring (lit "SIPS" ++ lit "://" ++ lit "Example.org" ++ port_text (-1)))) (Some (zeros 128)) 127 =
    Some (0, Some co') /\ c_str co' = Some (canonical (lit "SIPS") (lit "Example.org") (-1)).
Proof.
  apply (@get_canonic_origin_text loose_netdb loose_laws).
  - apply bytes_concrete. by vm_compute.
  - exists 83, (lit "IPS"). split; [done|]. split; [by vm_compute|]. repeat constructor.
  - apply bytes_concrete. by vm_compute.
  - left. repeat (apply reg_cons; [done|by vm_compute|]). apply reg_nil.
  - done.
  - lia.
  - by vm_compute.
  - by vm_compute.
  - by vm_compute.
Defined.

Lemma is_secure_string_spec_witness :
  exists b, is_secure_string (Some (cstring (lit "a_UNION_b"))) true = Some (b2z b) /\
    (b = true <-> ~ Exists (λ c, c ∈ lit "a_UNION_b") unsafe_chars /\
                  ~ (true = true /\ infix_of (lit "union") (lower (lit "a_UNION_b")) /\ infix_of (lit "select") (lower (lit "a_UNION_b")))).
Proof. apply (is_secure_string_spec _ (lit "a_UNION_b")). by vm_compute. Defined.
