(* ===== verification/StunBuffer.v ===== *)
(** The buffers of the clients: [stun_buffer] and its functions
    ([common/stun_buffer.h], [common/stun_buffer.c]), thin callers of the message
    functions.

    A pointer the code tests for NULL is an [option]; the others are the structure
    itself.  [SBuf (buf b) (len b)] is the pair of pointers the callee receives. *)

From S2P Require Import Prelude Defs CString IoAddr MsgAddr Crc StunHeader StunAttr StunMsg.

Record stun_buffer : Type := StunBuffer {
  channel : list Z;
  buf : list Z;
  len : Z;
  offset : Z;
  coffset : Z;
}.

(** The arguments [buf->buf, &(buf->len)], and what the callee leaves there. *)
Definition to_sbuf (b : stun_buffer) : sbuf := SBuf (buf b) (len b).
Definition of_sbuf (b : stun_buffer) (s : sbuf) : stun_buffer :=
  StunBuffer (channel b) (sb_mem s) (sb_len s) (offset b) (coffset b).
Definition set_buf (b : stun_buffer) (m : list Z) : stun_buffer :=
  StunBuffer (channel b) m (len b) (offset b) (coffset b).
Definition set_len (b : stun_buffer) (l : Z) : stun_buffer :=
  StunBuffer (channel b) (buf b) l (offset b) (coffset b).

Definition on_sbuf {A} (b : stun_buffer) (r : option (A * sbuf)) : option (A * stun_buffer) :=
  '(x, s) ← r; Some (x, of_sbuf b s).
Definition on_sbuf' (b : stun_buffer) (r : option sbuf) : option stun_buffer :=
  s ← r; Some (of_sbuf b s).

Definition stun_init_buffer (b : option stun_buffer) : Z * option stun_buffer :=
  match b with
  | None => (-1, None)
  | Some b => (0, Some (StunBuffer (channel b) (replicate (length (buf b)) 0) 0 0 0))
  end.

Definition stun_get_size (b : option stun_buffer) : Z :=
  match b with None => 0 | Some _ => STUN_BUFFER_SIZE end.

(** * Transaction ids *)

Definition stun_tid_from_message (b : stun_buffer) (id : list Z) : option (list Z) :=
  id ← stun_tid_from_message_str (buf b) (len b) (Some id);
  id.

Definition stun_tid_generate_in_message (b : option stun_buffer) (id : option (list Z)) (e : entropy)
    : option (option stun_buffer * option (list Z)) :=
  match b with
  | None => Some (None, id)
  | Some b => '(m, id) ← stun_tid_generate_in_message_str (buf b) id e; Some (Some (set_buf b m), id)
  end.

(** * Recognisers *)

Definition is_channel_msg (b : option stun_buffer) : option bool :=
  match b with
  | Some b => if 0 <? len b then is_channel_msg_str (Some (buf b)) (len b) else Some false
  | None => Some false
  end.

Definition stun_is_command_message (b : option stun_buffer) : option bool :=
  match b with
  | None => Some false
  | Some b => if len b <=? 0 then Some false else stun_is_command_message_str (Some (buf b)) (len b)
  end.

Definition stun_is_request (b : stun_buffer) : option bool := stun_is_request_str (Some (buf b)) (len b).

Definition stun_is_success_response (b : stun_buffer) : option bool :=
  stun_is_success_response_str (Some (buf b)) (len b).

Definition stun_is_error_response (b : stun_buffer) (err_code : option Z) (err_msg : option (list Z))
    (err_msg_size : Z) : option (bool * option Z * option (list Z)) :=
  stun_is_error_response_str (buf b) (len b) err_code err_msg err_msg_size.

Definition stun_is_response (b : stun_buffer) : option bool := stun_is_response_str (Some (buf b)) (len b).

Definition stun_get_msg_type (b : option stun_buffer) : option Z :=
  match b with None => Some 0xFFFF | Some b => stun_get_msg_type_str (Some (buf b)) (len b) end.

Definition stun_is_indication (b : stun_buffer) : option bool :=
  c ← is_channel_msg (Some b);
  if (c : bool) then Some false else t ← stun_get_msg_type (Some b); Some (IS_STUN_INDICATION t).

Definition stun_get_method (b : stun_buffer) : option Z := stun_get_method_str (Some (buf b)) (len b).

Definition stun_get_command_message_len (b : stun_buffer) : option Z :=
  stun_get_command_message_len_str (buf b) (len b).

Definition stun_is_binding_response (b : stun_buffer) : option bool :=
  stun_is_binding_response_str (Some (buf b)) (len b).

(** * Initialisation *)

Definition stun_init_command (message_type : Z) (b : stun_buffer) (e : entropy) : option stun_buffer :=
  let b := set_len b (stun_get_size (Some b)) in
  on_sbuf' b (stun_init_command_str message_type (to_sbuf b) e).

Definition stun_init_request (method : Z) (b : stun_buffer) (e : entropy) : option stun_buffer :=
  stun_init_command (stun_make_request method) b e.

Definition stun_init_indication (method : Z) (b : stun_buffer) (e : entropy) : option stun_buffer :=
  stun_init_command (stun_make_indication method) b e.

Definition stun_init_success_response (method : Z) (b : stun_buffer) (id : option (list Z)) (e : entropy)
    : option stun_buffer :=
  let b := set_len b (stun_get_size (Some b)) in
  on_sbuf' b (stun_init_success_response_str method (to_sbuf b) id e).

Definition stun_init_error_response (method : Z) (b : stun_buffer) (error_code : Z)
    (reason id : option (list Z)) (e : entropy) : option stun_buffer :=
  let b := set_len b (stun_get_size (Some b)) in
  on_sbuf' b (stun_init_error_response_str method (to_sbuf b) error_code reason id e).

(** * Channel messages *)

Definition stun_init_channel_message (chnumber : Z) (b : stun_buffer) (length : Z) (do_padding : bool)
    : option (Z * stun_buffer) :=
  on_sbuf b (stun_init_channel_message_str chnumber (to_sbuf b) length do_padding).

(** Only a recognised message changes [len]. *)
Definition stun_is_channel_message (b : option stun_buffer) (chnumber : option Z) (mandatory : bool)
    : option (bool * option stun_buffer * option Z) :=
  match b with
  | None => Some (false, None, chnumber)
  | Some b =>
    '(ret, blen, chnumber) ← stun_is_channel_message_str (buf b) (Some (len b)) chnumber mandatory;
    match (if (ret : bool) then blen else None) with
    | Some l => Some (ret, Some (set_len b l), chnumber)
    | None => Some (ret, Some b, chnumber)
    end
  end.

(** * Requests and responses *)

Definition stun_set_allocate_request (b : stun_buffer) (lifetime : Z) (af4 af6 : bool) (transport : Z)
    (mobile : bool) (rt : option (list Z)) (ep : Z) (e : entropy) : option (Z * stun_buffer) :=
  on_sbuf b (stun_set_allocate_request_str (to_sbuf b) lifetime af4 af6 transport mobile rt ep e).

Definition stun_set_allocate_response (maps : addr_maps) (b : stun_buffer) (tid : option (list Z))
    (relayed_addr1 relayed_addr2 reflexive_addr : option ioa_addr) (lifetime max_lifetime error_code : Z)
    (reason : option (list Z)) (reservation_token : Z) (mobile_id : option (list Z)) (e : entropy)
    : option (Z * stun_buffer) :=
  on_sbuf b (stun_set_allocate_response_str maps (to_sbuf b) tid relayed_addr1 relayed_addr2 reflexive_addr
               lifetime max_lifetime error_code reason reservation_token mobile_id e).

Definition stun_set_channel_bind_request (maps : addr_maps) (b : stun_buffer) (peer_addr : option ioa_addr)
    (channel_number : Z) (er e : entropy) : option (Z * stun_buffer) :=
  on_sbuf b (stun_set_channel_bind_request_str maps (to_sbuf b) peer_addr channel_number er e).

Definition stun_set_channel_bind_response (b : stun_buffer) (tid : option (list Z)) (error_code : Z)
    (reason : option (list Z)) (e : entropy) : option stun_buffer :=
  on_sbuf' b (stun_set_channel_bind_response_str (to_sbuf b) tid error_code reason e).

Definition stun_set_binding_request (b : stun_buffer) (e : entropy) : option stun_buffer :=
  on_sbuf' b (stun_set_binding_request_str (to_sbuf b) e).

Definition stun_set_binding_response (maps : addr_maps) (b : stun_buffer) (tid : option (list Z))
    (reflexive_addr : option ioa_addr) (error_code : Z) (reason : option (list Z)) (e : entropy)
    : option (Z * stun_buffer) :=
  on_sbuf b (stun_set_binding_response_str maps (to_sbuf b) tid reflexive_addr error_code reason 0 false true e).

Definition stun_prepare_binding_request (b : stun_buffer) (e : entropy) : option stun_buffer :=
  on_sbuf' b (stun_set_binding_request_str (to_sbuf b) e).

(** * Attributes *)

Definition stun_attr_get_first (b : stun_buffer) : option stun_attr_ref :=
  stun_attr_get_first_str (buf b) (len b).

Definition stun_attr_get_next (b : stun_buffer) (prev : stun_attr_ref) : option stun_attr_ref :=
  stun_attr_get_next_str (buf b) (len b) prev.

Definition stun_attr_add (b : stun_buffer) (attr : Z) (avalue : option (list Z)) (alen : Z)
    : option (Z * stun_buffer) :=
  on_sbuf b (stun_attr_add_str (to_sbuf b) attr avalue alen).

Definition stun_attr_add_channel_number (b : stun_buffer) (chnumber : Z) : option (Z * stun_buffer) :=
  on_sbuf b (stun_attr_add_channel_number_str (to_sbuf b) chnumber).

Definition stun_attr_add_addr (maps : addr_maps) (b : stun_buffer) (attr_type : Z) (ca : ioa_addr)
    : option (Z * stun_buffer) :=
  on_sbuf b (stun_attr_add_addr_str maps (to_sbuf b) attr_type ca).

Definition stun_attr_get_addr (maps : addr_maps) (b : stun_buffer) (attr : stun_attr_ref) (ca : ioa_addr)
    (default_addr : option ioa_addr) : option (Z * ioa_addr) :=
  stun_attr_get_addr_str maps (buf b) (len b) attr ca default_addr.

Definition stun_attr_get_first_addr (maps : addr_maps) (b : stun_buffer) (attr_type : Z) (ca : ioa_addr)
    (default_addr : option ioa_addr) : option (Z * ioa_addr) :=
  stun_attr_get_first_addr_str maps (buf b) (len b) attr_type ca default_addr.

Definition stun_attr_add_even_port (b : stun_buffer) (value : Z) : option (Z * stun_buffer) :=
  let value := if truth value then 0x80 else value in
  stun_attr_add b STUN_ATTRIBUTE_EVEN_PORT (Some [value]) 1.

Definition stun_attr_get_first_channel_number (b : stun_buffer) : option Z :=
  stun_attr_get_first_channel_number_str (buf b) (len b).

Definition stun_attr_get_first_by_type (b : stun_buffer) (attr_type : Z) : option stun_attr_ref :=
  stun_attr_get_first_by_type_str (buf b) (len b) attr_type.
