(* ===== verification/System.v ===== *)
(** Programs that talk to their environment: the machine of the clients.

    A run of a client is determined by what its environment answers, call by
    call: results of [send], [recv], [select] and OpenSSL, random numbers, time.
    The world holds those answers, in the order of the calls ([w_script]), [errno],
    the statics of the client files, and what the program has done so far
    ([w_trace]).  A call whose next answer is of another kind, or missing, does not
    return ([Stuck]): the script does not describe a longer run.  A loop consumes
    an answer at each turn, so the length of the script is fuel enough ([iter]).

    [wp] is the logic the engine's theorems are proved in: a postcondition for the
    runs that return, another for those that exit or wait, and no fault. *)

From S2P Require Import Prelude Defs StunHeader IoAddr.

(** The [errno] values the code distinguishes. *)
Inductive errno : Type :=
| EINTR | ENOBUFS | EAGAIN | EMSGSIZE | EBADF | EHOSTDOWN | ECONNRESET | ECONNREFUSED
| ENOMEM | EACCES | EPERM | EINPROGRESS | EADDRINUSE | EOTHER.

#[export] Instance errno_eq_dec : EqDecision errno.
Proof. solve_decision. Defined.

(** The results of [SSL_get_error] the code distinguishes. *)
Inductive ssl_error : Type :=
| SSL_ERROR_NONE | SSL_ERROR_WANT_WRITE | SSL_ERROR_WANT_READ | SSL_ERROR_ZERO_RETURN
| SSL_ERROR_SYSCALL | SSL_ERROR_SSL | SSL_ERROR_OTHER.

(** What [event_base_dispatch] does next: it leaves for [event_base_loopexit], calls
    the timer, or the reader of descriptor [fd] of the session with number [i]. *)
Inductive event : Type :=
| LoopExit
| Timer
| Readable (i : nat) (fd : Z).

Inductive answer : Type :=
| ARandom (z : Z)                     (* random() *)
| AEntropy (e : entropy)              (* the random sources of ns_turn_msg.c *)
| ABytes (bs : list Z)                (* RAND_bytes *)
| ACall (rc : Z) (err : errno)        (* a call with a return code; errno when negative *)
| AData (bs : list Z)                 (* recv or SSL_read delivers bytes *)
| ASsl (rc : Z) (err : errno) (se : ssl_error)  (* an SSL call, errno after it, SSL_get_error *)
| AShutdown (b : bool)                (* SSL_get_shutdown *)
| AName (a : option ioa_addr)         (* getsockname *)
| AEvent (e : event)                  (* event_base_dispatch *)
| ATime (t : Z)                       (* time(), gettimeofday: seconds *)
| AInt (v : Z).                       (* an integer a library reads out: getsockopt, BIO_ctrl, clock_gettime *)

(** What a run does to the outside. *)
Inductive action : Type :=
| Sent (fd : Z) (bs : list Z)         (* bytes the socket accepted *)
| SentTo (fd : Z) (to : ioa_addr) (bs : list Z)  (* a datagram, its destination *)
| SslSent (bs : list Z)               (* bytes SSL_write accepted *)
| Notify (type : Z) (text : list Z) (port : Z)  (* the callback of the application *)
| Waited (ms : Z)                     (* the timeout given to select *)
| Closed (fd : Z)
| SetOpt (v : Z)                      (* the integer given to setsockopt *)
| SetMtu (mtu : Z)                    (* the MTU given to a DTLS connection *)
| SslFreed.

(** The statics of [p2p/connect_manager.c] and the globals it assigns. *)
Record globals : Type := Globals {
  allocate_rtcp : bool;
  current_reservation_token : Z;
  default_address_family : Z;
  g_peer_addr : ioa_addr;
}.

Record world : Type := World {
  w_errno : errno;
  w_script : list answer;
  w_globals : globals;
  w_trace : list action;
}.

Inductive outcome (A : Type) : Type :=
| Ret (a : A) (w : world)
| Exited (code : Z) (w : world)
| Stuck (w : world)
| Fault
| Diverged.
Arguments Ret {A} a w.
Arguments Exited {A} code w.
Arguments Stuck {A} w.
Arguments Fault {A}.
Arguments Diverged {A}.

Definition prog (A : Type) : Type := world -> outcome A.

#[export] Instance prog_ret : MRet prog := λ A a w, Ret a w.
#[export] Instance prog_bind : MBind prog := λ A B k m w,
  match m w with
  | Ret a w' => k a w'
  | Exited c w' => Exited c w'
  | Stuck w' => Stuck w'
  | Fault => Fault
  | Diverged => Diverged
  end.

(** A memory operation: [None] is undefined behaviour. *)
Definition lift {A} (x : option A) : prog A := λ w, match x with Some a => Ret a w | None => Fault end.
Definition exit {A} (code : Z) : prog A := λ w, Exited code w.
Definition fault {A} : prog A := λ w, Fault.
(** A loop that is out of fuel. *)
Definition diverge {A} : prog A := λ w, Diverged.

Definition get_errno : prog errno := λ w, Ret (w_errno w) w.
Definition set_errno (e : errno) : prog unit := λ w, Ret tt (World e (w_script w) (w_globals w) (w_trace w)).
Definition get_globals : prog globals := λ w, Ret (w_globals w) w.
Definition set_globals (g : globals) : prog unit := λ w, Ret tt (World (w_errno w) (w_script w) g (w_trace w)).
Definition act (a : action) : prog unit :=
  λ w, Ret tt (World (w_errno w) (w_script w) (w_globals w) (w_trace w ++ [a])).

(** The next answer, read by [f]: [None] is an answer of another kind. *)
Definition ask {A} (f : answer -> option A) : prog A := λ w,
  match w_script w with
  | a :: s => match f a with
              | Some x => Ret x (World (w_errno w) s (w_globals w) (w_trace w))
              | None => Stuck w
              end
  | [] => Stuck w
  end.

(** * Calls *)

Definition random : prog Z := ask (λ a, match a with ARandom z => Some z | _ => None end).
Definition entropy_ : prog entropy := ask (λ a, match a with AEntropy e => Some e | _ => None end).
Definition RAND_bytes (n : Z) : prog (list Z) :=
  ask (λ a, match a with ABytes bs => if zlen bs =? n then Some bs else None | _ => None end).
Definition time_ : prog Z := ask (λ a, match a with ATime t => Some t | _ => None end).
Definition next_event : prog event := ask (λ a, match a with AEvent e => Some e | _ => None end).
Definition getsockname : prog (option ioa_addr) := ask (λ a, match a with AName n => Some n | _ => None end).
Definition int_ : prog Z := ask (λ a, match a with AInt v => Some v | _ => None end).
Definition SSL_get_shutdown : prog bool := ask (λ a, match a with AShutdown b => Some b | _ => None end).

(** A call with a return code; a negative one sets [errno]. *)
Definition syscall : prog Z :=
  '(rc, err) ← ask (λ a, match a with ACall rc err => Some (rc, err) | _ => None end);
  if rc <? 0 then set_errno err;; mret rc else mret rc.

(** [send(fd,bs,size,0)]: at most the bytes offered are accepted. *)
Definition send (fd : Z) (bs : list Z) : prog Z :=
  rc ← syscall;
  if rc <? 0 then mret rc else
  let n := Z.min rc (zlen bs) in
  act (Sent fd (take (Z.to_nat n) bs));; mret n.

(** [sendto(fd,bs,size,0,to,tolen)]. *)
Definition sendto (fd : Z) (to : ioa_addr) (bs : list Z) : prog Z :=
  rc ← syscall;
  if rc <? 0 then mret rc else
  let n := Z.min rc (zlen bs) in
  act (SentTo fd to (take (Z.to_nat n) bs));; mret n.

(** [recv(fd,p,size,flags)]: the return code and the bytes delivered, at most [size]. *)
Definition recv (fd size : Z) : prog (Z * list Z) :=
  r ← ask (λ a, match a with
                | AData bs => Some (inl (take (Z.to_nat size) bs))
                | ACall rc err => if rc <? 0 then Some (inr (rc, err)) else None
                | _ => None end);
  match r with
  | inl bs => mret (zlen bs, bs)
  | inr (rc, err) => set_errno err;; mret (rc, [])
  end.

(** [SSL_write] of the whole of [bs], and what [SSL_get_error] says of it. *)
Definition SSL_write (bs : list Z) : prog (Z * ssl_error) :=
  '(rc, err, se) ← ask (λ a, match a with ASsl rc err se => Some (rc, err, se) | _ => None end);
  if rc <=? 0 then set_errno err;; mret (rc, se)
  else act (SslSent (take (Z.to_nat rc) bs));; mret (Z.min rc (zlen bs), se).

(** [SSL_read] into [size] bytes: the return code, the bytes, [SSL_get_error]. *)
Definition SSL_read (size : Z) : prog (Z * list Z * ssl_error) :=
  r ← ask (λ a, match a with
                | AData bs => Some (inl (take (Z.to_nat size) bs))
                | ASsl rc err se => if rc <=? 0 then Some (inr (rc, err, se)) else None
                | _ => None end);
  match r with
  | inl bs => mret (zlen bs, bs, if zlen bs =? 0 then SSL_ERROR_ZERO_RETURN else SSL_ERROR_NONE)
  | inr (rc, err, se) => set_errno err;; mret (rc, [], se)
  end.

(** A call that only has [SSL_get_error]: [SSL_connect]. *)
Definition SSL_connect : prog (Z * ssl_error) :=
  '(rc, err, se) ← ask (λ a, match a with ASsl rc err se => Some (rc, err, se) | _ => None end);
  if rc <=? 0 then set_errno err;; mret (rc, se) else mret (rc, se).

(** * Loops *)

(** One turn gives the next state ([inl]) or leaves the loop ([inr]). *)
Fixpoint loop {S A} (fuel : nat) (body : S -> prog (S + A)) (s : S) : prog A :=
  match fuel with
  | O => diverge
  | Datatypes.S f =>
    r ← body s;
    match r with inl s' => loop f body s' | inr a => mret a end
  end.

Definition iter {S A} (body : S -> prog (S + A)) (s : S) : prog A :=
  λ w, loop (Datatypes.S (length (w_script w))) body s w.

(** * Logic *)

(** The order of worlds along a run: answers are consumed, actions appended. *)
Record steps (w w' : world) : Prop := Steps {
  steps_script : exists s, w_script w = s ++ w_script w';
  steps_trace : exists t, w_trace w' = w_trace w ++ t;
}.

#[export] Instance steps_preorder : PreOrder steps.
Proof.
  split.
  - intros w. split; exists []; [done|by rewrite app_nil_r].
  - intros w1 w2 w3 [[s Hs] [t Ht]] [[s' Hs'] [t' Ht']]. split.
    + exists (s ++ s'). by rewrite Hs, Hs', app_assoc.
    + exists (t ++ t'). by rewrite Ht', Ht, app_assoc.
Qed.

(** [F] says whether undefined behaviour is let through: [False] for the theorems
    on safety, [True] for those on what the runs without it do.  A loop never runs
    out of fuel, either way. *)
Definition wpf (F : Prop) {A} (m : prog A) (Q : A -> world -> Prop) (E : world -> Prop) (w : world) : Prop :=
  match m w with
  | Ret a w' => steps w w' /\ Q a w'
  | Exited _ w' => steps w w' /\ E w'
  | Stuck w' => steps w w' /\ E w'
  | Fault => F
  | Diverged => False
  end.
Abbreviation wp := (wpf False).

Section rules.
Context {F : Prop} {A B : Type}.

Lemma wp_ret (a : A) (Q : A -> world -> Prop) E w : Q a w -> wpf F (mret a) Q E w.
Proof. intros H. by split. Qed.

Lemma wp_bind (m : prog A) (k : A -> prog B) (Q : B -> world -> Prop) (E : world -> Prop) w : wpf F m (λ a w', wpf F (k a) Q E w') E w -> wpf F (m ≫= k) Q E w.
Proof.
  unfold wpf, mbind, prog_bind. destruct (m w) as [a w'|c w'|w'| |]; [|done..].
  intros [Hs H]. destruct (k a w') as [b w''|c w''|w''| |]; try done;
    (destruct H as [Hs' H]; split; [by transitivity w'|done]).
Qed.

Lemma wp_mono (m : prog A) (Q Q' : A -> world -> Prop) (E E' : world -> Prop) w :
  wpf F m Q E w -> (forall a w', steps w w' -> Q a w' -> Q' a w') -> (forall w', steps w w' -> E w' -> E' w') ->
  wpf F m Q' E' w.
Proof. unfold wpf. intros H HQ HE. destruct (m w) as [a w'|c w'|w'| |]; [destruct H; auto..|done|done]. Qed.

Lemma wp_weaken (F' : Prop) (m : prog A) (Q : A -> world -> Prop) E w :
  wpf F' m Q E w -> (F' -> F) -> wpf F m Q E w.
Proof. unfold wpf. intros H HF. destruct (m w); auto. Qed.

Lemma wp_and (m : prog A) (Q Q' : A -> world -> Prop) (E E' : world -> Prop) w :
  wpf F m Q E w -> wpf F m Q' E' w -> wpf F m (λ a w', Q a w' /\ Q' a w') (λ w', E w' /\ E' w') w.
Proof. unfold wpf. destruct (m w); tauto. Qed.

Lemma wp_post (m : prog A) (Q Q' : A -> world -> Prop) E w :
  wpf F m Q E w -> (forall a w', steps w w' -> Q a w' -> Q' a w') -> wpf F m Q' E w.
Proof. intros H HQ. eapply wp_mono; eauto. Qed.

Lemma wp_lift (x : option A) a (Q : A -> world -> Prop) E w : x = Some a -> Q a w -> wpf F (lift x) Q E w.
Proof. intros -> H. by split. Qed.

(** A memory operation of a run without undefined behaviour. *)
Lemma wp_try (x : option A) (Q : A -> world -> Prop) E w :
  F -> (forall a, x = Some a -> Q a w) -> wpf F (lift x) Q E w.
Proof. intros H HQ. destruct x as [a|]; [split; [done|by apply HQ]|exact H]. Qed.

Lemma wp_exit c (Q : A -> world -> Prop) (E : world -> Prop) w : E w -> wpf F (@exit A c) Q E w.
Proof. intros H. by split. Qed.

(** Each turn keeps the invariant and consumes an answer, or leaves. *)
Lemma wp_loop {S} (Inv : S -> world -> Prop) (body : S -> prog (S + A)) (Q : A -> world -> Prop) E n :
  (forall s w, Inv s w ->
     wpf F (body s) (λ r w', match r with
                          | inl s' => Inv s' w' /\ (length (w_script w') < length (w_script w))%nat
                          | inr a => Q a w' end) E w) ->
  forall s w, (length (w_script w) < n)%nat -> Inv s w -> wpf F (loop n body s) Q E w.
Proof.
  intros Hb. induction n as [|n IH]; intros s w Hn Hi; [lia|]. cbn [loop].
  specialize (Hb s w Hi). unfold wpf, mbind, prog_bind in *.
  destruct (body s w) as [[s'|a] w'|c w'|w'| |]; try done.
  - destruct Hb as [Hs [Hi' Hl]]. specialize (IH s' w' ltac:(lia) Hi'). unfold wpf in IH.
    destruct (loop n body s' w') as [b w''|c w''|w''| |]; try done;
      destruct IH; split; try done; by transitivity w'.
Qed.

Lemma wp_iter {S} (Inv : S -> world -> Prop) (body : S -> prog (S + A)) (Q : A -> world -> Prop) E s w :
  (forall s w, Inv s w ->
     wpf F (body s) (λ r w', match r with
                          | inl s' => Inv s' w' /\ (length (w_script w') < length (w_script w))%nat
                          | inr a => Q a w' end) E w) ->
  Inv s w -> wpf F (iter body s) Q E w.
Proof. intros Hb Hi. unfold iter. by apply (wp_loop Inv body Q E _ Hb s w); [lia|]. Qed.
End rules.

(** * Rules of the calls *)



(** What [ask] does: one answer less, and nothing else. *)
Definition pop (w : world) (s : list answer) : world := World (w_errno w) s (w_globals w) (w_trace w).
Definition with_errno (w : world) (e : errno) : world := World e (w_script w) (w_globals w) (w_trace w).
Definition with_globals (w : world) (g : globals) : world := World (w_errno w) (w_script w) g (w_trace w).
Definition with_action (w : world) (a : action) : world :=
  World (w_errno w) (w_script w) (w_globals w) (w_trace w ++ [a]).

Lemma steps_pop w a s : w_script w = a :: s -> steps w (pop w s).
Proof. intros H. split; [by exists [a]|exists []; by rewrite app_nil_r]. Qed.

Lemma steps_same w w' : w_script w' = w_script w -> w_trace w' = w_trace w -> steps w w'.
Proof. intros H1 H2. split; exists []; [done|by rewrite app_nil_r]. Qed.

Section calls.
Context {F : Prop}.

Lemma wp_ask {A} (f : answer -> option A) Q E w :
  E w -> (forall a s x, w_script w = a :: s -> f a = Some x -> Q x (pop w s)) -> wpf F (ask f) Q E w.
Proof.
  intros HE HQ. unfold wpf, ask. destruct (w_script w) as [|a s] eqn:Hs; [by split|].
  destruct (f a) as [x|] eqn:Hx; [|by split].
  split; [by apply (steps_pop w a)|by apply (HQ a)].
Qed.

Lemma wp_get_errno Q E w : Q (w_errno w) w -> wpf F get_errno Q E w.
Proof. intros H. by split. Qed.

Lemma wp_set_errno e Q E w : Q tt (with_errno w e) -> wpf F (set_errno e) Q E w.
Proof. intros H. split; [by apply steps_same|done]. Qed.

Lemma wp_get_globals Q E w : Q (w_globals w) w -> wpf F get_globals Q E w.
Proof. intros H. by split. Qed.

Lemma wp_set_globals g Q E w : Q tt (with_globals w g) -> wpf F (set_globals g) Q E w.
Proof. intros H. split; [by apply steps_same|done]. Qed.

Lemma wp_act a Q E w : Q tt (with_action w a) -> wpf F (act a) Q E w.
Proof. intros H. split; [|done]. split; [by exists []|by exists [a]]. Qed.

Lemma wp_random Q E w :
  E w -> (forall z s, w_script w = ARandom z :: s -> Q z (pop w s)) -> wpf F random Q E w.
Proof. intros HE HQ. apply wp_ask; [done|]. intros [] s x Hs; naive_solver. Qed.

Lemma wp_entropy Q E w :
  E w -> (forall e s, w_script w = AEntropy e :: s -> Q e (pop w s)) -> wpf F entropy_ Q E w.
Proof. intros HE HQ. apply wp_ask; [done|]. intros [] s x Hs; naive_solver. Qed.

Lemma wp_RAND_bytes n Q E w :
  E w -> (forall bs s, w_script w = ABytes bs :: s -> zlen bs = n -> Q bs (pop w s)) -> wpf F (RAND_bytes n) Q E w.
Proof.
  intros HE HQ. apply wp_ask; [done|]. intros [] s x Hs; try done.
  destruct (Z.eqb_spec (zlen bs) n); [|done]. intros [= <-]. by apply HQ.
Qed.

Lemma wp_time Q E w :
  E w -> (forall t s, w_script w = ATime t :: s -> Q t (pop w s)) -> wpf F time_ Q E w.
Proof. intros HE HQ. apply wp_ask; [done|]. intros [] s x Hs; naive_solver. Qed.

Lemma wp_getsockname Q E w :
  E w -> (forall t s, w_script w = AName t :: s -> Q t (pop w s)) -> wpf F getsockname Q E w.
Proof. intros HE HQ. apply wp_ask; [done|]. intros [] s x Hs; naive_solver. Qed.

Lemma wp_shutdown Q E w :
  E w -> (forall b s, w_script w = AShutdown b :: s -> Q b (pop w s)) -> wpf F SSL_get_shutdown Q E w.
Proof. intros HE HQ. apply wp_ask; [done|]. intros [] s x Hs; naive_solver. Qed.

Lemma wp_syscall Q E w :
  E w ->
  (forall rc err s, w_script w = ACall rc err :: s ->
     (rc < 0 -> Q rc (with_errno (pop w s) err)) /\ (0 <= rc -> Q rc (pop w s))) ->
  wpf F syscall Q E w.
Proof.
  intros HE HQ. apply wp_bind, wp_ask; [done|]. intros [] s [rc' err'] Hs; try done. intros [= <- <-].
  destruct (HQ _ _ _ Hs) as [H1 H2]. destruct (Z.ltb_spec rc 0).
  - apply wp_bind, wp_set_errno. apply wp_ret, H1. lia.
  - apply wp_ret, H2. lia.
Qed.

Lemma wp_send fd bs Q E w :
  E w ->
  (forall rc err s, w_script w = ACall rc err :: s ->
     (rc < 0 -> Q rc (with_errno (pop w s) err)) /\
     (0 <= rc -> Q (Z.min rc (zlen bs))
                   (with_action (pop w s) (Sent fd (take (Z.to_nat (Z.min rc (zlen bs))) bs))))) ->
  wpf F (send fd bs) Q E w.
Proof.
  intros HE HQ. apply wp_bind, wp_syscall; [done|]. intros rc err s Hs. destruct (HQ _ _ _ Hs) as [H1 H2].
  split; intros Hr.
  - destruct (Z.ltb_spec rc 0); [|lia]. by apply wp_ret, H1.
  - destruct (Z.ltb_spec rc 0); [lia|]. by apply wp_bind, wp_act, wp_ret, H2.
Qed.

Lemma wp_recv fd size Q E w :
  E w ->
  (forall bs s, w_script w = AData bs :: s ->
     let d := take (Z.to_nat size) bs in Q (zlen d, d) (pop w s)) ->
  (forall rc err s, w_script w = ACall rc err :: s -> rc < 0 -> Q (rc, []) (with_errno (pop w s) err)) ->
  wpf F (recv fd size) Q E w.
Proof.
  intros HE HD HC. apply wp_bind, wp_ask; [done|]. intros a s x Hs Hx. destruct a; try done.
  - destruct (Z.ltb_spec rc 0); [|done]. injection Hx as <-.
    apply wp_bind, wp_set_errno, wp_ret. by apply HC.
  - injection Hx as <-. apply wp_ret. by apply HD.
Qed.

Lemma wp_SSL_write bs Q E w :
  E w ->
  (forall rc err se s, w_script w = ASsl rc err se :: s ->
     (rc <= 0 -> Q (rc, se) (with_errno (pop w s) err)) /\
     (0 < rc -> Q (Z.min rc (zlen bs), se) (with_action (pop w s) (SslSent (take (Z.to_nat rc) bs))))) ->
  wpf F (SSL_write bs) Q E w.
Proof.
  intros HE HQ. apply wp_bind, wp_ask; [done|]. intros a s [[rc' err'] se'] Hs Hx. destruct a; try done.
  injection Hx as -> -> ->. destruct (HQ _ _ _ _ Hs) as [H1 H2]. destruct (Z.leb_spec rc' 0).
  - apply wp_bind, wp_set_errno, wp_ret, H1. lia.
  - apply wp_bind, wp_act, wp_ret, H2. lia.
Qed.

Lemma wp_SSL_connect Q E w :
  E w ->
  (forall rc err se s, w_script w = ASsl rc err se :: s ->
     (rc <= 0 -> Q (rc, se) (with_errno (pop w s) err)) /\ (0 < rc -> Q (rc, se) (pop w s))) ->
  wpf F SSL_connect Q E w.
Proof.
  intros HE HQ. apply wp_bind, wp_ask; [done|]. intros a s [[rc' err'] se'] Hs Hx. destruct a; try done.
  injection Hx as -> -> ->. destruct (HQ _ _ _ _ Hs) as [H1 H2]. destruct (Z.leb_spec rc' 0).
  - apply wp_bind, wp_set_errno, wp_ret, H1. lia.
  - apply wp_ret, H2. lia.
Qed.

Lemma wp_SSL_read size Q E w :
  E w ->
  (forall bs s, w_script w = AData bs :: s ->
     let d := take (Z.to_nat size) bs in
     Q (zlen d, d, if zlen d =? 0 then SSL_ERROR_ZERO_RETURN else SSL_ERROR_NONE) (pop w s)) ->
  (forall rc err se s, w_script w = ASsl rc err se :: s -> rc <= 0 -> Q (rc, [], se) (with_errno (pop w s) err)) ->
  wpf F (SSL_read size) Q E w.
Proof.
  intros HE HD HC. apply wp_bind, wp_ask; [done|]. intros a s x Hs Hx. destruct a; try done.
  - injection Hx as <-. apply wp_ret. by apply HD.
  - destruct (Z.leb_spec rc 0); [|done]. injection Hx as <-.
    apply wp_bind, wp_set_errno, wp_ret. by apply HC.
Qed.
End calls.

(** * Well-formed environments *)

(** What the calls deliver is made of bytes. *)
Definition answer_ok (a : answer) : Prop :=
  match a with
  | AData bs | ABytes bs => bytes bs
  | AEntropy e => entropy_ok e
  | AName (Some a) => addr_ok a
  | _ => True
  end.

Definition script_ok (w : world) : Prop := Forall answer_ok (w_script w).

Lemma script_ok_steps w w' : steps w w' -> script_ok w -> script_ok w'.
Proof. intros [[s Hs] _]. unfold script_ok. rewrite Hs, Forall_app. tauto. Qed.

Lemma steps_length w w' : steps w w' -> (length (w_script w') <= length (w_script w))%nat.
Proof. intros [[s Hs] _]. rewrite Hs, length_app. lia. Qed.

(** * What a program keeps *)

(** [f] of the world is the same at the end of every run. *)
Definition keeps {X A} (f : world -> X) (m : prog A) : Prop :=
  forall w, match m w with
            | Ret _ w' | Exited _ w' | Stuck w' => f w' = f w
            | Fault | Diverged => True
            end.

Section keeps.
Context {X : Type} (f : world -> X).

Lemma keeps_ret {A} (a : A) : keeps f (mret a).
Proof. by intros w. Qed.

Lemma keeps_exit {A} c : keeps f (@exit A c).
Proof. by intros w. Qed.

Lemma keeps_fault {A} : keeps f (@fault A).
Proof. by intros w. Qed.

Lemma keeps_diverge {A} : keeps f (@diverge A).
Proof. by intros w. Qed.

Lemma keeps_lift {A} (x : option A) : keeps f (lift x).
Proof. intros w. by destruct x. Qed.

Lemma keeps_get_errno : keeps f get_errno.
Proof. by intros w. Qed.

Lemma keeps_get_globals : keeps f get_globals.
Proof. by intros w. Qed.

Lemma keeps_bind {A B} (m : prog A) (k : A -> prog B) :
  keeps f m -> (forall a, keeps f (k a)) -> keeps f (m ≫= k).
Proof.
  intros Hm Hk w. unfold mbind, prog_bind. specialize (Hm w). destruct (m w) as [a w'|c w'|w'| |]; try done.
  specialize (Hk a w'). destruct (k a w'); congruence.
Qed.

Lemma keeps_iter {S A} (body : S -> prog (S + A)) s : (forall s, keeps f (body s)) -> keeps f (iter body s).
Proof.
  intros Hb w. unfold iter. generalize (Datatypes.S (length (w_script w))). intros n.
  revert s w. induction n as [|n IH]; intros s w; [done|]. cbn [loop].
  revert w. apply keeps_bind; [done|]. intros [s'|a]; [exact (IH s')|apply keeps_ret].
Qed.
End keeps.

Lemma wp_keeps {F X A} (f : world -> X) (m : prog A) Q E w :
  wpf F m Q E w -> keeps f m -> wpf F m (λ a w', Q a w' /\ f w' = f w) (λ w', E w' /\ f w' = f w) w.
Proof.
  unfold wpf, keeps. intros H Hk. specialize (Hk w).
  destruct (m w) as [a w'|c w'|w'| |]; [destruct H; auto..|done|done].
Qed.

(** The draws for transaction ids and nonces that are left in the script. *)
Definition is_entropy (a : answer) : bool := match a with AEntropy _ => true | _ => false end.
Definition draws (w : world) : nat := length (List.filter is_entropy (w_script w)).

(** Programs that keep the statics and draw nothing. *)
Definition kept (w : world) : globals * nat := (w_globals w, draws w).
Abbreviation quiet m := (keeps kept m).

Lemma quiet_ask {A} (g : answer -> option A) : (forall e, g (AEntropy e) = None) -> quiet (ask g).
Proof.
  intros Hg w. unfold ask. destruct (w_script w) as [|a s] eqn:Hs; [done|].
  destruct (g a) eqn:Ha; [|done]. unfold kept, draws. cbn [w_script w_globals]. rewrite Hs. f_equal.
  destruct a; try done. by rewrite Hg in Ha.
Qed.

Lemma quiet_set_errno e : quiet (set_errno e).
Proof. by intros w. Qed.

Lemma quiet_act a : quiet (act a).
Proof. by intros w. Qed.

Create HintDb quiet discriminated.
#[export] Hint Resolve keeps_ret keeps_exit keeps_fault keeps_diverge keeps_lift keeps_get_errno keeps_get_globals quiet_set_errno quiet_act : quiet.

(** Follows the structure of a program; calls are left to the database. *)
Ltac keeps_step :=
  match goal with
  | |- keeps _ (_ ≫= _) => apply keeps_bind; [|intros ?]
  | |- keeps _ (iter _ _) => apply keeps_iter; intros ?
  | |- keeps _ (match ?x with _ => _ end) => destruct x
  | |- keeps _ _ => solve [auto with quiet]
  end.
Ltac keeps_tac := repeat keeps_step.

Lemma quiet_random : quiet random.
Proof. by apply quiet_ask. Qed.
Lemma quiet_RAND_bytes n : quiet (RAND_bytes n).
Proof. by apply quiet_ask. Qed.
Lemma quiet_time : quiet time_.
Proof. by apply quiet_ask. Qed.
Lemma quiet_next_event : quiet next_event.
Proof. by apply quiet_ask. Qed.
Lemma quiet_getsockname : quiet getsockname.
Proof. by apply quiet_ask. Qed.
Lemma quiet_shutdown : quiet SSL_get_shutdown.
Proof. by apply quiet_ask. Qed.
Lemma quiet_syscall : quiet syscall.
Proof. unfold syscall. keeps_tac. by apply quiet_ask. Qed.
#[export] Hint Resolve quiet_random quiet_RAND_bytes quiet_time quiet_next_event quiet_getsockname quiet_shutdown quiet_syscall : quiet.
Lemma quiet_send fd bs : quiet (send fd bs).
Proof. unfold send. keeps_tac. Qed.
Lemma quiet_recv fd n : quiet (recv fd n).
Proof. unfold recv. keeps_tac. by apply quiet_ask. Qed.
Lemma quiet_SSL_write bs : quiet (SSL_write bs).
Proof. unfold SSL_write. keeps_tac. by apply quiet_ask. Qed.
Lemma quiet_SSL_read n : quiet (SSL_read n).
Proof. unfold SSL_read. keeps_tac. by apply quiet_ask. Qed.
Lemma quiet_SSL_connect : quiet SSL_connect.
Proof. unfold SSL_connect. keeps_tac. by apply quiet_ask. Qed.
#[export] Hint Resolve quiet_SSL_connect quiet_send quiet_recv quiet_SSL_write quiet_SSL_read : quiet.

(** * Proof steps *)

(** The first call of the program, with its rule; [done] proves [E]. *)
Ltac wp_step :=
  match goal with
  | |- wpf _ (mret _) _ _ _ => apply wp_ret
  | |- wpf _ (_ ≫= _) _ _ _ => apply wp_bind
  | |- wpf _ get_errno _ _ _ => apply wp_get_errno
  | |- wpf _ (set_errno _) _ _ _ => apply wp_set_errno
  | |- wpf _ get_globals _ _ _ => apply wp_get_globals
  | |- wpf _ (set_globals _) _ _ _ => apply wp_set_globals
  | |- wpf _ (act _) _ _ _ => apply wp_act
  | |- wpf _ (exit _) _ _ _ => apply wp_exit; done
  | |- wpf _ random _ _ _ => apply wp_random; [done|intros ? ? ?]
  | |- wpf _ entropy_ _ _ _ => apply wp_entropy; [done|intros ? ? ?]
  | |- wpf _ time_ _ _ _ => apply wp_time; [done|intros ? ? ?]
  | |- wpf _ getsockname _ _ _ => apply wp_getsockname; [done|intros ? ? ?]
  | |- wpf _ (RAND_bytes _) _ _ _ => apply wp_RAND_bytes; [done|intros ? ? ? ?]
  | |- wpf _ SSL_get_shutdown _ _ _ => apply wp_shutdown; [done|intros ? ? ?]
  | |- wpf _ (let '(_, _) := ?p in _) _ _ _ => destruct p
  end; cbv beta iota.
Ltac wp_steps := repeat wp_step.

(** Worlds after a call, seen through their fields. *)
Ltac world_simpl := cbn [w_errno w_script w_globals w_trace pop with_errno with_globals with_action] in *.
