(* ===== verification/Progress.v ===== *)
(** Termination of programs: every loop asks the environment at each turn.

    [halts m Q]: every run of [m] ends, with undefined behaviour let through; a run
    that returns [a] satisfies [Q a b], where [b] says whether an answer of the
    environment was consumed.  [ends] and [moves] are the two cases without a
    condition on the result.  [spends n m]: no run of [m] draws more than [n]
    transaction ids.  [costs n m Q]: a run asks for a bounded number of answers (the
    second half of the file).  All follow the structure of a program; the databases
    [ends], [moves] and [costs] hold the calls. *)

From S2P Require Import Prelude Defs StunHeader IoAddr System.

Definition consumed (w w' : world) : bool := (length (w_script w') <? length (w_script w))%nat.

Definition halts {A} (m : prog A) (Q : A -> bool -> Prop) : Prop :=
  forall w, wpf True m (λ a w', Q a (consumed w w')) (λ _, True) w.
Abbreviation ends m := (halts m (λ _ _, True)).
Abbreviation moves m := (halts m (λ _ b, b = true)).

(** A turn of a loop: to go on it has consumed an answer. *)
Definition goes_on {S A} (Inv : S -> Prop) (r : S + A) (b : bool) : Prop :=
  match r with inl s => Inv s /\ b = true | inr _ => True end.

Lemma consumed_trans w w1 w2 : steps w w1 -> steps w1 w2 -> consumed w w2 = consumed w w1 || consumed w1 w2.
Proof.
  intros H1%steps_length H2%steps_length. unfold consumed.
  repeat match goal with |- context [(?a <? ?b)%nat] => destruct (Nat.ltb_spec a b) end; cbn; lia.
Qed.

Lemma halts_mono {A} (m : prog A) (Q Q' : A -> bool -> Prop) : halts m Q -> (forall a b, Q a b -> Q' a b) -> halts m Q'.
Proof. intros H HQ w. eapply wp_post; [apply H|]. auto. Qed.

Lemma halts_and {A} (m : prog A) (Q Q' : A -> bool -> Prop) :
  halts m Q -> halts m Q' -> halts m (λ a b, Q a b /\ Q' a b).
Proof. intros H H' w. specialize (H w). specialize (H' w). unfold wpf in *. destruct (m w); tauto. Qed.

Section rules.
Context {A B : Type}.
Implicit Types Q : B -> bool -> Prop.

Lemma halts_ret (a : A) (Q : A -> bool -> Prop) : Q a false -> halts (mret a) Q.
Proof. intros H w. apply wp_ret. unfold consumed. by rewrite Nat.ltb_irrefl. Qed.

Lemma halts_bind (m : prog A) (k : A -> prog B) (R : A -> bool -> Prop) Q :
  halts m R -> (forall a b, R a b -> halts (k a) (λ c b', Q c (b || b'))) -> halts (m ≫= k) Q.
Proof.
  intros Hm Hk w. apply wp_bind. eapply wp_post; [apply Hm|]. intros a w' Hs HR.
  eapply wp_post; [by apply (Hk a _ HR)|]. intros c w'' Hs'. by rewrite (consumed_trans w w' w'').
Qed.

(** The two cases the automation uses. *)
Lemma halts_ends (m : prog A) (k : A -> prog B) Q : ends m -> (forall a, halts (k a) Q) ->
  (forall c b, Q c b -> Q c true) -> halts (m ≫= k) Q.
Proof.
  intros Hm Hk HQ. eapply halts_bind; [exact Hm|]. intros a b _. eapply halts_mono; [exact (Hk a)|].
  intros c b' H. destruct b; [by apply HQ in H|done].
Qed.

Lemma halts_moves (m : prog A) (k : A -> prog B) Q : moves m -> (forall a, halts (k a) (λ c _, Q c true)) ->
  halts (m ≫= k) Q.
Proof. intros Hm Hk. eapply halts_bind; [exact Hm|]. intros a b ->. exact (Hk a). Qed.

Lemma halts_lift (x : option A) (Q : A -> bool -> Prop) : (forall a, x = Some a -> Q a false) -> halts (lift x) Q.
Proof. intros H w. apply wp_try; [done|]. intros a Ha. unfold consumed. rewrite Nat.ltb_irrefl. by apply H. Qed.

Lemma halts_lift_eq (x : option A) : halts (lift x) (λ a _, x = Some a).
Proof. by apply halts_lift. Qed.

Lemma halts_exit c (Q : A -> bool -> Prop) : halts (@exit A c) Q.
Proof. intros w. by apply wp_exit. Qed.

Lemma halts_fault (Q : A -> bool -> Prop) : halts (@fault A) Q.
Proof. by intros w. Qed.

Lemma halts_ask (f : answer -> option A) (Q : A -> bool -> Prop) : (forall a, Q a true) -> halts (ask f) Q.
Proof.
  intros H w. apply wp_ask; [done|]. intros a s x Hs _. unfold consumed. cbn [w_script pop]. rewrite Hs. cbn [length].
  destruct (Nat.ltb_spec (length s) (S (length s))); [apply H|lia].
Qed.

Lemma halts_loop {S} (Inv : S -> Prop) (body : S -> prog (S + A)) (Q : A -> bool -> Prop) s :
  Inv s -> (forall s, Inv s -> halts (body s) (λ r b, match r with inl s' => Inv s' /\ b = true | inr a => forall b', Q a (b' || b) end)) ->
  halts (iter body s) Q.
Proof.
  intros Hi Hb w.
  apply (wp_iter (λ s w', Inv s /\ steps w w')); [|by split].
  intros s' w1 [Hi' Hs]. eapply wp_post; [by apply Hb|]. intros [s2|a] w2 Hs2 H.
  - destruct H as [H Hc]. unfold consumed in Hc. apply Nat.ltb_lt in Hc. split; [|done]. split; [done|]. by transitivity w1.
  - rewrite (consumed_trans w w1 w2) by done. apply H.
Qed.

Lemma ends_iter {S} (body : S -> prog (S + A)) s : (forall s, halts (body s) (goes_on (λ _, True))) -> ends (iter body s).
Proof.
  intros Hb. apply (halts_loop (λ _, True)); [done|]. intros s' _. eapply halts_mono; [apply Hb|]. by intros [s2|a] b H.
Qed.

Lemma moves_iter {S} (body : S -> prog (S + A)) s : (forall s, moves (body s)) -> moves (iter body s).
Proof.
  intros Hb. apply (halts_loop (λ _, True)); [done|]. intros s' _. eapply halts_mono; [apply Hb|].
  intros [s2|a] b ->; [done|]. intros []; done.
Qed.
End rules.

Lemma halts_get_errno Q : (forall e, Q e false) -> halts get_errno Q.
Proof. intros H w. apply wp_get_errno. unfold consumed. by rewrite Nat.ltb_irrefl. Qed.
Lemma halts_set_errno e Q : Q tt false -> halts (set_errno e) Q.
Proof. intros H w. apply wp_set_errno. unfold consumed. by rewrite Nat.ltb_irrefl. Qed.
Lemma halts_get_globals Q : (forall g, Q g false) -> halts get_globals Q.
Proof. intros H w. apply wp_get_globals. unfold consumed. by rewrite Nat.ltb_irrefl. Qed.
Lemma halts_set_globals g Q : Q tt false -> halts (set_globals g) Q.
Proof. intros H w. apply wp_set_globals. unfold consumed. by rewrite Nat.ltb_irrefl. Qed.
Lemma halts_act a Q : Q tt false -> halts (act a) Q.
Proof. intros H w. apply wp_act. unfold consumed. by rewrite Nat.ltb_irrefl. Qed.

(** * Automation *)

Create HintDb ends discriminated.
Create HintDb moves discriminated.
#[export] Hint Constants Opaque : ends moves.
#[export] Hint Resolve halts_exit halts_fault : ends.
#[export] Hint Extern 1 (halts (ask _) _) => (apply halts_ask; done) : ends moves.
#[export] Hint Extern 1 (halts (lift _) _) => (apply halts_lift; done) : ends.
#[export] Hint Extern 1 (halts get_errno _) => (apply halts_get_errno; done) : ends.
#[export] Hint Extern 1 (halts (set_errno _) _) => (apply halts_set_errno; done) : ends.
#[export] Hint Extern 1 (halts get_globals _) => (apply halts_get_globals; done) : ends.
#[export] Hint Extern 1 (halts (set_globals _) _) => (apply halts_set_globals; done) : ends.
#[export] Hint Extern 1 (halts (act _) _) => (apply halts_act; done) : ends.

(** What is said of results is monotone in the flag, or asks for it. *)
Ltac halts_side :=
  first [ done | by (intros ? ? ->) | by (intros [] ? ->) | by (intros [] ?) | by (intros ? [] ?) | by (intros [] [] ?) ].

(** A part of a program that the databases know. *)
Ltac halts_leaf :=
  first [ solve [auto with ends nocore]
        | eapply halts_mono; [solve [auto with moves nocore]|halts_side]
        | eapply halts_mono; [solve [auto with ends nocore]|halts_side] ].

(** Follows a program whose last results satisfy the condition by computation. *)
Ltac halts_step :=
  match goal with
  | |- halts (mret _) _ => apply halts_ret; first [done | split; done]
  | |- halts (_ ≫= _) _ =>
    first [ apply halts_moves; [solve [auto with moves nocore]|intros ?]
          | eapply halts_ends; [|intros ?|halts_side] ]
  | |- halts (iter _ _) _ => halts_leaf || (apply ends_iter; intros ?)
  | |- halts (match ?x with _ => _ end) _ => destruct x
  | |- halts _ _ => halts_leaf
  end.
Ltac halts_tac := repeat (halts_step; cbv beta iota).

Lemma moves_random : moves random.
Proof. by apply halts_ask. Qed.
Lemma moves_entropy : moves entropy_.
Proof. by apply halts_ask. Qed.
Lemma moves_RAND_bytes n : moves (RAND_bytes n).
Proof. by apply halts_ask. Qed.
Lemma moves_time : moves time_.
Proof. by apply halts_ask. Qed.
Lemma moves_next_event : moves next_event.
Proof. by apply halts_ask. Qed.
Lemma moves_getsockname : moves getsockname.
Proof. by apply halts_ask. Qed.
Lemma moves_shutdown : moves SSL_get_shutdown.
Proof. by apply halts_ask. Qed.
Lemma moves_syscall : moves syscall.
Proof. unfold syscall. halts_tac. Qed.
#[export] Hint Resolve moves_random moves_entropy moves_RAND_bytes moves_time moves_next_event moves_getsockname moves_shutdown moves_syscall : moves.
Lemma moves_send fd bs : moves (send fd bs).
Proof. unfold send. halts_tac. Qed.
Lemma moves_sendto fd to bs : moves (sendto fd to bs).
Proof. unfold sendto. halts_tac. Qed.
Lemma moves_recv fd n : moves (recv fd n).
Proof. unfold recv. halts_tac. Qed.
Lemma moves_SSL_write bs : moves (SSL_write bs).
Proof. unfold SSL_write. halts_tac. Qed.
Lemma moves_SSL_read n : moves (SSL_read n).
Proof. unfold SSL_read. halts_tac. Qed.
Lemma moves_SSL_connect : moves SSL_connect.
Proof. unfold SSL_connect. halts_tac. Qed.
#[export] Hint Resolve moves_send moves_sendto moves_recv moves_SSL_write moves_SSL_read moves_SSL_connect : moves.

(** What moves ends. *)
Lemma moves_ends {A} (m : prog A) : moves m -> ends m.
Proof. intros H. by eapply halts_mono. Qed.
#[export] Hint Extern 5 (halts _ _) => (apply moves_ends; solve [auto with moves nocore]) : ends.
#[export] Hint Extern 4 (halts (iter _ _) _) => (apply moves_iter; intros ?; solve [auto with moves nocore]) : moves.

(** * Transaction ids *)

(** A run of [m] draws at most [n] of them. *)
Definition spends {A} (n : nat) (m : prog A) : Prop :=
  forall w, match m w with
            | Ret _ w' | Exited _ w' | Stuck w' => (draws w <= draws w' + n)%nat
            | Fault | Diverged => True
            end.

Lemma spends_quiet {A} (m : prog A) n : quiet m -> spends n m.
Proof.
  intros H w. specialize (H w).
  destruct (m w) as [a w'|c w'|w'| |]; [..|done|done]; apply (f_equal snd) in H; cbn in H; lia.
Qed.

Lemma spends_mono {A} (m : prog A) n n' : spends n m -> (n <= n')%nat -> spends n' m.
Proof. intros H Hn w. specialize (H w). destruct (m w); lia || done. Qed.

Lemma spends_bind {A B} (m : prog A) (k : A -> prog B) n n1 n2 :
  spends n1 m -> (forall a, spends n2 (k a)) -> (n1 + n2 <= n)%nat -> spends n (m ≫= k).
Proof.
  intros Hm Hk Hn w. unfold mbind, prog_bind. specialize (Hm w). destruct (m w) as [a w'|c w'|w'| |]; [..|done|done];
    [|lia|lia]. specialize (Hk a w'). destruct (k a w'); lia || done.
Qed.

Lemma spends_after {A B} (m : prog A) (k : A -> prog B) n :
  quiet m -> (forall a, spends n (k a)) -> spends n (m ≫= k).
Proof. intros Hm Hk. apply (spends_bind _ _ n 0 n); [by apply spends_quiet|done|lia]. Qed.

Lemma spends_free {A B} (m : prog A) (k : A -> prog B) n :
  spends 0 m -> (forall a, spends n (k a)) -> spends n (m ≫= k).
Proof. intros Hm Hk. by apply (spends_bind _ _ n 0 n). Qed.

Lemma spends_ask {A} (f : answer -> option A) : spends 1 (ask f).
Proof.
  intros w. unfold ask. destruct (w_script w) as [|a s] eqn:Hs; [lia|].
  destruct (f a); [|lia]. unfold draws. cbn [w_script]. rewrite Hs. cbn [List.filter]. destruct (is_entropy a); cbn [length]; lia.
Qed.

Lemma spends_keeps {A} (m : prog A) n : keeps draws m -> spends n m.
Proof. intros H w. specialize (H w). destruct (m w); lia || done. Qed.

Lemma spends_iter {S A} (body : S -> prog (S + A)) s : (forall s, spends 0 (body s)) -> spends 0 (iter body s).
Proof.
  intros Hb w. unfold iter. generalize (Datatypes.S (length (w_script w))). intros n.
  revert s w. induction n as [|n IH]; intros s w; [done|]. cbn [loop].
  revert w. apply (spends_bind _ _ _ 0 0); [done| |lia]. intros [s'|a]; [exact (IH s')|apply spends_quiet; keeps_tac].
Qed.

Lemma spends_set_globals g : spends 0 (set_globals g).
Proof. apply spends_keeps. by intros w. Qed.

Create HintDb spends discriminated.
#[export] Hint Constants Opaque : spends.
#[export] Hint Resolve spends_set_globals : spends.

(** Follows the structure of a program: parts that draw nothing are passed. *)
Ltac spends_step :=
  match goal with
  | |- spends _ (_ ≫= _) =>
    first [ apply spends_after; [solve [keeps_tac]|intros ?]
          | apply spends_free; [solve [auto with spends nocore]|intros ?] ]
  | |- spends _ (match ?x with _ => _ end) => destruct x
  | |- spends _ _ => solve [auto with spends nocore] || (apply spends_quiet; solve [keeps_tac])
  end.
Ltac spends_tac := repeat spends_step.

(** * How many answers a run asks for

    Some answers entitle the clients to go on: data arrived, a call failed or was
    interrupted, OpenSSL was called, a socket accepted no byte of a message.
    [costs n m Q]: a run of [m] asks for at most [n] answers, and [n] more for each
    answer of these kinds, its renewals; a run that returns [a] satisfies [Q a b],
    where [b] says whether there was a renewal.  As a program that waits for an answer
    of another kind, or finds none, is charged what it asked for, a loop that goes on
    without renewals is within no allowance.  The rules follow the structure of a program; the
    database [costs] holds the calls. *)

(** ** Renewals *)

Definition renews (a : answer) : bool :=
  match a with
  | ARandom z => z =? 0
  | ACall rc _ => rc <? 0
  | AData (_ :: _) => true
  | ASsl _ _ _ => true
  | _ => false
  end.
Definition is_empty_send (a : action) : bool := match a with Sent _ [] => true | _ => false end.

Definition renewals_left (w : world) : Z := Z.of_nat (length (List.filter renews (w_script w))).
Definition empty_sends (w : world) : Z := Z.of_nat (length (List.filter is_empty_send (w_trace w))).
Definition answers_left (w : world) : Z := zlen (w_script w).

(** What a run from [w] to [w'] consumed. *)
Definition asked (w w' : world) : Z := answers_left w - answers_left w'.
Definition renewed (w w' : world) : Z := (renewals_left w - renewals_left w') + (empty_sends w' - empty_sends w).

Definition within (n : Z) (w w' : world) : Prop :=
  0 <= renewed w w' <= asked w w' /\ asked w w' <= n * (1 + renewed w w').

Definition costs {A} (n : Z) (m : prog A) (Q : A -> bool -> Prop) : Prop :=
  forall w, match m w with
            | Ret a w' => within n w w' /\ Q a (0 <? renewed w w')
            | Exited _ w' | Stuck w' => within n w w'
            | Fault => True
            | Diverged => False
            end.
Abbreviation bounded n m := (costs n m (λ _ _, True)).

Lemma within_refl n w : 0 <= n -> within n w w.
Proof. unfold within, asked, renewed. lia. Qed.

Lemma renewed_refl w : renewed w w = 0.
Proof. unfold renewed. lia. Qed.

Lemma renewed_trans w1 w2 w3 : renewed w1 w3 = renewed w1 w2 + renewed w2 w3.
Proof. unfold renewed. lia. Qed.

Lemma asked_trans w1 w2 w3 : asked w1 w3 = asked w1 w2 + asked w2 w3.
Proof. unfold asked. lia. Qed.

Lemma within_mono n n' w w' : within n w w' -> n <= n' -> within n' w w'.
Proof. unfold within. intros [H1 H2] Hn. split; [done|]. nia. Qed.

Lemma within_trans n1 n2 w1 w2 w3 : 0 <= n1 -> 0 <= n2 -> within n1 w1 w2 -> within n2 w2 w3 -> within (n1 + n2) w1 w3.
Proof.
  unfold within. rewrite (renewed_trans w1 w2 w3), (asked_trans w1 w2 w3). intros Hn1 Hn2 [H1 H2] [H3 H4]. split; [lia|]. nia.
Qed.

(** The parts of the world that are counted. *)
Lemma within_same n w w1 w' :
  w_script w1 = w_script w -> w_trace w1 = w_trace w -> (within n w1 w' <-> within n w w') /\ renewed w1 w' = renewed w w'.
Proof. intros Hs Ht. unfold within, asked, renewed, answers_left, renewals_left, empty_sends. by rewrite Hs, Ht. Qed.

Lemma costs_mono {A} n n' (m : prog A) (Q Q' : A -> bool -> Prop) :
  costs n m Q -> n <= n' -> (forall a b, Q a b -> Q' a b) -> costs n' m Q'.
Proof.
  intros H Hn HQ w. specialize (H w). destruct (m w) as [a w'|c w'|w'| |]; [destruct H as [H1 H2]; split; [|by apply HQ]|..];
    try done; by eapply within_mono.
Qed.

Lemma costs_and {A} n (m : prog A) (Q Q' : A -> bool -> Prop) :
  costs n m Q -> costs n m Q' -> costs n m (λ a b, Q a b /\ Q' a b).
Proof. intros H H' w. specialize (H w). specialize (H' w). destruct (m w); tauto. Qed.

(** What is known of the result without the count. *)
Lemma costs_halts {A} n (m : prog A) (Q R : A -> bool -> Prop) :
  costs n m Q -> halts m R -> costs n m (λ a b, Q a b /\ exists b', R a b').
Proof.
  intros H H' w. specialize (H w). specialize (H' w). unfold wpf in H'. destruct (m w); try done.
  destruct H as [H1 H2], H' as [_ H']. split; [done|]. split; [done|]. by exists (consumed w w0).
Qed.

(** ** Rules *)

Section costs.
Context {A B : Type}.
Implicit Types Q : B -> bool -> Prop.

Lemma costs_ret n (a : A) (Q : A -> bool -> Prop) : 0 <= n -> Q a false -> costs n (mret a) Q.
Proof. intros Hn H w. split; [by apply within_refl|]. by rewrite renewed_refl. Qed.

Lemma costs_bind n n1 n2 (m : prog A) (k : A -> prog B) (R : A -> bool -> Prop) Q :
  costs n1 m R -> (forall a b, R a b -> costs n2 (k a) (λ c b', Q c (b || b'))) -> 0 <= n1 -> 0 <= n2 -> n1 + n2 <= n ->
  costs n (m ≫= k) Q.
Proof.
  intros Hm Hk H1 H2 Hn w. specialize (Hm w). unfold mbind, prog_bind.
  destruct (m w) as [a w1|c w1|w1| |]; [|eapply within_mono; [exact Hm|lia]..|done|done].
  destruct Hm as [Hw HR]. specialize (Hk a _ HR w1). destruct (k a w1) as [c w2|c w2|w2| |]; [destruct Hk as [Hk HQ]|..]; try done;
    pose proof (within_trans n1 n2 w w1 w2 H1 H2 Hw Hk) as Ht; [split|..]; try (eapply within_mono; [exact Ht|lia]).
  destruct Hw as [Hw _], Hk as [Hk _]. rewrite (renewed_trans w w1 w2).
  destruct (Z.ltb_spec 0 (renewed w w1)), (Z.ltb_spec 0 (renewed w1 w2)), (Z.ltb_spec 0 (renewed w w1 + renewed w1 w2)); cbn in HQ; lia || done.
Qed.

Lemma costs_lift n (x : option A) (Q : A -> bool -> Prop) : 0 <= n -> (forall a, x = Some a -> Q a false) -> costs n (lift x) Q.
Proof. intros Hn H w. unfold lift. destruct x; [|done]. split; [by apply within_refl|]. rewrite renewed_refl. by apply H. Qed.

Lemma costs_exit n c (Q : A -> bool -> Prop) : 0 <= n -> costs n (@exit A c) Q.
Proof. intros Hn w. by apply within_refl. Qed.

Lemma costs_fault n (Q : A -> bool -> Prop) : costs n (@fault A) Q.
Proof. done. Qed.

(** A call that changes neither the script nor the trace. *)
Lemma costs_local n (m : prog A) (Q : A -> bool -> Prop) :
  0 <= n -> (forall w, exists a w', m w = Ret a w' /\ w_script w' = w_script w /\ w_trace w' = w_trace w) -> (forall a, Q a false) ->
  costs n m Q.
Proof.
  intros Hn Hm HQ w. destruct (Hm w) as (a & w' & -> & Hs & Ht).
  assert (renewed w w' = 0) as Hr by (unfold renewed, renewals_left, empty_sends; rewrite Hs, Ht; lia).
  assert (asked w w' = 0) as Ha by (unfold asked, answers_left; rewrite Hs; lia).
  split; [|rewrite Hr; apply HQ]. unfold within. rewrite Hr, Ha. lia.
Qed.

(** An answer that is consumed. *)
Lemma popped a s w e g : w_script w = a :: s -> let w' := World e s g (w_trace w) in
  asked w w' = 1 /\ renewed w w' = b2z (renews a).
Proof.
  intros Hs w'. unfold asked, renewed, answers_left, renewals_left, empty_sends. cbn [w' w_script w_trace]. rewrite Hs, zlen_cons.
  cbn [List.filter]. destruct (renews a); cbn [length b2z]; lia.
Qed.

Lemma costs_ask n (f : answer -> option A) (Q : A -> bool -> Prop) :
  1 <= n -> (forall a x, f a = Some x -> Q x (renews a)) -> costs n (ask f) Q.
Proof.
  intros Hn HQ w. unfold ask. destruct (w_script w) as [|a s] eqn:Hs; [apply within_refl; lia|].
  destruct (f a) as [x|] eqn:Hx; [|apply within_refl; lia].
  destruct (popped a s w (w_errno w) (w_globals w) Hs) as [Ha Hr]. specialize (HQ a x Hx). unfold within.
  rewrite Ha, Hr. destruct (renews a); cbn [b2z]; (split; [nia|done]).
Qed.

(** ** Loops *)

(** Every turn that goes on was renewed, or lowers the measure. *)
Lemma costs_loop_measure {S} n k (mu : S -> Z) (Inv : S -> Prop) (body : S -> prog (S + A)) (Q : A -> bool -> Prop) s :
  0 <= n -> Inv s -> 0 <= mu s <= k ->
  (forall s, Inv s -> costs n (body s) (λ r b, match r with
     | inl s' => Inv s' /\ 0 <= mu s' <= mu s /\ (b = true \/ mu s' < mu s)
     | inr a => forall b', Q a (b' || b) end)) ->
  (forall s w s' w', Inv s -> body s w = Ret (inl s') w' -> (length (w_script w') < length (w_script w))%nat) ->
  costs (n * (k + 2)) (iter body s) Q.
Proof.
  intros Hn Hi Hk Hb Hprog w. unfold iter.
  assert (forall f w1 s, (length (w_script w1) < f)%nat -> Inv s -> 0 <= mu s ->
    match loop f body s w1 with
    | Ret a w' => (0 <= renewed w1 w' <= asked w1 w' /\ asked w1 w' <= n * (1 + mu s) + 2 * n * renewed w1 w') /\
                  (forall b', Q a (b' || (0 <? renewed w1 w')))
    | Exited _ w' | Stuck w' => 0 <= renewed w1 w' <= asked w1 w' /\ asked w1 w' <= n * (1 + mu s) + 2 * n * renewed w1 w'
    | Fault => True
    | Diverged => False
    end) as Hloop.
  { clear s w Hi Hk. induction f as [|f IH]; intros w1 s Hf Hi Hm; [lia|]. cbn [loop]. unfold mbind, prog_bind.
    specialize (Hb s Hi w1). specialize (Hprog s w1).
    destruct (body s w1) as [[s'|a] w2|c w2|w2| |]; [| |unfold within in Hb; split; [tauto|nia]..|done|done].
    - destruct Hb as [[Hw1 Hw2] (Hi' & Hmu & Hd)]. specialize (Hprog s' w2 Hi eq_refl).
      specialize (IH w2 s' ltac:(lia) Hi' ltac:(lia)).
      assert (asked w1 w2 <= n * (mu s - mu s') + 2 * n * renewed w1 w2) as Hturn.
      { destruct Hd as [Hd%Z.ltb_lt|Hd]; nia. }
      destruct (loop f body s' w2) as [a w3|c w3|w3| |]; try done.
      + destruct IH as [[I1 I2] I3]. rewrite (renewed_trans w1 w2 w3), (asked_trans w1 w2 w3). split; [split; [lia|nia]|].
        intros b'. replace (0 <? renewed w1 w2 + renewed w2 w3) with ((0 <? renewed w1 w2) || (0 <? renewed w2 w3))
          by (destruct (Z.ltb_spec 0 (renewed w1 w2)), (Z.ltb_spec 0 (renewed w2 w3)), (Z.ltb_spec 0 (renewed w1 w2 + renewed w2 w3)); cbn; lia || done).
        rewrite orb_assoc. apply I3.
      + destruct IH as [I1 I2]. rewrite (renewed_trans w1 w2 w3), (asked_trans w1 w2 w3). split; [lia|nia].
      + destruct IH as [I1 I2]. rewrite (renewed_trans w1 w2 w3), (asked_trans w1 w2 w3). split; [lia|nia].
    - destruct Hb as [[Hw1 Hw2] HQ]. cbn. split; [split; [done|nia]|exact HQ]. }
  specialize (Hloop (Datatypes.S (length (w_script w))) w s ltac:(lia) Hi ltac:(lia)).
  destruct (loop _ body s w) as [a w'|c w'|w'| |]; try done; unfold within.
  - destruct Hloop as [[I1 I2] I3]. split; [|by apply (I3 false)]. split; [done|nia].
  - destruct Hloop as [I1 I2]. split; [done|nia].
  - destruct Hloop as [I1 I2]. split; [done|nia].
Qed.
End costs.

(** A turn that goes on was renewed. *)
Definition renews_to_go {S A} (Inv : S -> Prop) (r : S + A) (b : bool) : Prop :=
  match r with inl s => Inv s /\ b = true | inr _ => True end.

Lemma costs_loop {S A} n m (Inv : S -> Prop) (body : S -> prog (S + A)) (Q : A -> bool -> Prop) s :
  0 <= n -> 2 * n <= m -> Inv s ->
  (forall s, Inv s -> costs n (body s) (λ r b, match r with
     | inl s' => Inv s' /\ b = true
     | inr a => forall b', Q a (b' || b) end)) ->
  costs m (iter body s) Q.
Proof.
  intros Hn Hm Hi Hb. eapply costs_mono; [|exact Hm|intros ? ? H; exact H].
  replace (2 * n) with (n * (0 + 2)) by lia. apply (costs_loop_measure n 0 (λ _, 0) Inv); [done|done|lia|..].
  - intros s' Hs'. eapply costs_mono; [by apply Hb|lia|]. intros [s2|a] b H; [|done]. destruct H. split; [done|]. split; [lia|]. by left.
  - intros s1 w s' w' Hs1 Hw. specialize (Hb s1 Hs1 w). rewrite Hw in Hb. destruct Hb as [[H1 _] [_ H2%Z.ltb_lt]].
    unfold asked, answers_left, zlen in H1. lia.
Qed.

Lemma bounded_loop {S A} n m (body : S -> prog (S + A)) s :
  (forall s, costs n (body s) (renews_to_go (λ _, True))) -> 0 <= n -> 2 * n <= m -> bounded m (iter body s).
Proof.
  intros Hb Hn Hm. apply (costs_loop n m (λ _, True)); [done..|]. intros s' _. eapply costs_mono; [apply Hb|lia|].
  by intros [s2|a] b H.
Qed.

(** ** Calls *)

Lemma costs_get_errno n Q : 0 <= n -> (forall e, Q e false) -> costs n get_errno Q.
Proof. intros Hn H. apply costs_local; [done| |done]. intros w. by eexists _, _. Qed.
Lemma costs_set_errno n e Q : 0 <= n -> (forall x, Q x false) -> costs n (set_errno e) Q.
Proof. intros Hn H. apply costs_local; [done| |done]. intros w. by eexists _, _. Qed.
Lemma costs_get_globals n Q : 0 <= n -> (forall g, Q g false) -> costs n get_globals Q.
Proof. intros Hn H. apply costs_local; [done| |done]. intros w. by eexists _, _. Qed.
Lemma costs_set_globals n g Q : 0 <= n -> (forall x, Q x false) -> costs n (set_globals g) Q.
Proof. intros Hn H. apply costs_local; [done| |done]. intros w. by eexists _, _. Qed.

Lemma costs_act n a Q : 0 <= n -> is_empty_send a = false -> Q tt false -> costs n (act a) Q.
Proof.
  intros Hn Ha HQ w. unfold act.
  assert (renewed w (World (w_errno w) (w_script w) (w_globals w) (w_trace w ++ [a])) = 0) as Hr.
  { unfold renewed, renewals_left, empty_sends. cbn [w_script w_trace]. rewrite List.filter_app. cbn [List.filter]. rewrite Ha, app_nil_r. lia. }
  split; [|by rewrite Hr]. unfold within. rewrite Hr. unfold asked, answers_left. cbn [w_script]. lia.
Qed.

(** An answer of a kind that is never a renewal, or always one. *)
Lemma bounded_ask {A} n (f : answer -> option A) : 1 <= n -> bounded n (ask f).
Proof. intros Hn. by apply costs_ask. Qed.

Lemma costs_syscall n Q : 1 <= n -> (forall rc, Q rc (rc <? 0)) -> costs n syscall Q.
Proof.
  intros Hn H. unfold syscall. apply (costs_bind n 1 0 _ _ (λ x b, b = (x.1 <? 0))); [|intros [rc err] b ->|lia..].
  - apply costs_ask; [lia|]. intros [] x; try done. by intros [= <-].
  - cbn [fst]. specialize (H rc). destruct (rc <? 0).
    + apply (costs_bind 0 0 0 _ _ (λ _ b, b = false)); [by apply costs_set_errno|intros [] b ->|lia..]. by apply costs_ret.
    + by apply costs_ret.
Qed.

(** A [send] that accepts nothing is a renewal. *)
Lemma costs_send n fd bs Q : 1 <= n -> (forall rc b, (rc <= 0 -> b = true) -> Q rc b) -> costs n (send fd bs) Q.
Proof.
  intros Hn HQ w. unfold send, mbind, prog_bind, syscall, mbind, prog_bind, ask.
  destruct (w_script w) as [|a s] eqn:Hs; [apply within_refl; lia|]. destruct a; try (apply within_refl; lia).
  destruct (Z.ltb_spec rc 0) as [Hrc|Hrc]; cbn -[within renewed].
  - destruct (Z.ltb_spec rc 0); [|lia]. cbn -[within renewed].
    destruct (popped _ s w err (w_globals w) Hs) as [Ha Hr]. cbn [renews] in Hr. destruct (Z.ltb_spec rc 0); [|lia]. cbn [b2z] in Hr.
    unfold within. rewrite Ha, Hr. split; [nia|]. by apply HQ.
  - destruct (Z.ltb_spec rc 0); [lia|]. cbn -[within renewed].
    set (d := take _ bs). set (w' := World _ s _ _).
    assert (asked w w' = 1) as Ha by (unfold asked, answers_left; rewrite Hs, zlen_cons; cbn [w' w_script]; lia).
    assert (renewed w w' = b2z (is_empty_send (Sent fd d))) as Hr.
    { unfold renewed, renewals_left, empty_sends. cbn [w' w_script w_trace]. rewrite Hs, List.filter_app. cbn [List.filter renews].
      destruct (Z.ltb_spec rc 0); [lia|]. rewrite length_app. destruct (is_empty_send _); cbn [length b2z]; lia. }
    unfold within. rewrite Ha, Hr. split; [destruct (is_empty_send _); cbn [b2z]; nia|]. apply HQ. intros Hz.
    unfold d. replace (Z.to_nat (Z.min rc (zlen bs))) with 0%nat by lia. done.
Qed.

Lemma costs_recv n fd size Q :
  1 <= n -> (forall rc bs b, (rc < 0 -> b = true) -> (0 < rc -> b = true) -> Q (rc, bs) b) -> costs n (recv fd size) Q.
Proof.
  intros Hn HQ. unfold recv.
  apply (costs_bind n 1 0 _ _ (λ x b, match x with inl bs => 0 < zlen bs -> b = true | inr (rc, _) => b = true end)); [| |lia..].
  - apply costs_ask; [lia|]. intros [] x; try done.
    + destruct (rc <? 0) eqn:E; [|done]. intros [= <-]. by cbn.
    + intros [= <-]. destruct bs; [by rewrite take_nil|done].
  - intros [bs|[rc err]] b H; [apply costs_ret; [lia|]; pose proof (zlen_nonneg bs); apply HQ; [lia|]; by rewrite orb_false_r|].
    subst b. apply (costs_bind 0 0 0 _ _ (λ _ b, b = false)); [by apply costs_set_errno|intros [] b ->|lia..]. by apply costs_ret, HQ.
Qed.

(** Every call into OpenSSL is one, a read that ends the stream apart. *)
Lemma costs_SSL_write n bs Q : 1 <= n -> (forall x, Q x true) -> costs n (SSL_write bs) Q.
Proof.
  intros Hn HQ. unfold SSL_write. apply (costs_bind n 1 0 _ _ (λ _ b, b = true)); [|intros [[rc err] se] b ->|lia..].
  - apply costs_ask; [lia|]. by intros [] x.
  - destruct (rc <=? 0); (apply (costs_bind 0 0 0 _ _ (λ _ b, b = false));
      [first [by apply costs_set_errno|by apply costs_act]|intros [] b ->|lia..]); by apply costs_ret.
Qed.

Lemma costs_SSL_connect n Q : 1 <= n -> (forall x, Q x true) -> costs n SSL_connect Q.
Proof.
  intros Hn HQ. unfold SSL_connect. apply (costs_bind n 1 0 _ _ (λ _ b, b = true)); [|intros [[rc err] se] b ->|lia..].
  - apply costs_ask; [lia|]. by intros [] x.
  - destruct (rc <=? 0); [|by apply costs_ret].
    apply (costs_bind 0 0 0 _ _ (λ _ b, b = false)); [by apply costs_set_errno|intros [] b ->|lia..]. by apply costs_ret.
Qed.

Lemma costs_SSL_read n size Q : 1 <= n -> (forall rc bs se b, rc ≠ 0 -> b = true -> Q (rc, bs, se) b) ->
  (forall bs se b, Q (0, bs, se) b) -> costs n (SSL_read size) Q.
Proof.
  intros Hn HQ HQ0. unfold SSL_read.
  apply (costs_bind n 1 0 _ _ (λ x b, match x with inl bs => zlen bs ≠ 0 -> b = true | inr _ => b = true end)); [| |lia..].
  - apply costs_ask; [lia|]. intros [] x; try done.
    + intros [= <-]. destruct bs; [by rewrite take_nil|done].
    + destruct (rc <=? 0); [|done]. by intros [= <-].
  - intros [bs|[[rc err] se]] b H.
    + apply costs_ret; [lia|]. rewrite orb_false_r. destruct (Z.eqb_spec (zlen bs) 0) as [->|]; [apply HQ0|by apply HQ; [|apply H]].
    + subst b. apply (costs_bind 0 0 0 _ _ (λ _ b, b = false)); [by apply costs_set_errno|intros [] b ->|lia..].
      apply costs_ret; [lia|]. destruct (Z.eq_dec rc 0) as [->|]; [apply HQ0|by apply HQ].
Qed.

Lemma costs_sendto n fd to bs Q : 1 <= n -> (forall rc b, (rc < 0 -> b = true) -> Q rc b) -> costs n (sendto fd to bs) Q.
Proof.
  intros Hn HQ. unfold sendto. apply (costs_bind n 1 0 _ _ (λ rc b, b = (rc <? 0))); [by apply costs_syscall|intros rc b ->|lia..].
  destruct (Z.ltb_spec rc 0); [by apply costs_ret, HQ|].
  apply (costs_bind 0 0 0 _ _ (λ _ b, b = false)); [by apply costs_act|intros [] b ->|lia..].
  apply costs_ret; [lia|]. apply HQ. pose proof (zlen_nonneg bs). lia.
Qed.

(** ** Automation *)

Lemma costs_seq {A B} n n1 (m : prog A) (k : A -> prog B) Q :
  bounded n1 m -> 0 <= n1 <= n -> (forall a, costs (n - n1) (k a) Q) -> (forall c b, Q c b -> Q c true) -> costs n (m ≫= k) Q.
Proof.
  intros Hm Hn Hk HQ. apply (costs_bind n n1 (n - n1) _ _ (λ _ _, True)); [done| |lia..].
  intros a b _. eapply costs_mono; [apply Hk|lia|]. intros c b' H. destruct b; [by apply HQ in H|done].
Qed.

Create HintDb costs discriminated.
#[export] Hint Constants Opaque : costs.
#[export] Hint Extern 1 (costs _ (exit _) _) => (apply (costs_exit 0); done) : costs.
#[export] Hint Extern 1 (costs _ fault _) => (apply (costs_fault 0)) : costs.
#[export] Hint Extern 1 (costs _ (ask _) _) => (apply (bounded_ask 1); done) : costs.
#[export] Hint Extern 1 (costs _ (lift _) _) => (apply (costs_lift 0); done) : costs.
#[export] Hint Extern 1 (costs _ get_errno _) => (apply (costs_get_errno 0); done) : costs.
#[export] Hint Extern 1 (costs _ (set_errno _) _) => (apply (costs_set_errno 0); done) : costs.
#[export] Hint Extern 1 (costs _ get_globals _) => (apply (costs_get_globals 0); done) : costs.
#[export] Hint Extern 1 (costs _ (set_globals _) _) => (apply (costs_set_globals 0); done) : costs.
#[export] Hint Extern 1 (costs _ (act _) _) => (apply (costs_act 0); done) : costs.
#[export] Hint Extern 1 (costs _ syscall _) => (apply (costs_syscall 1); done) : costs.
#[export] Hint Extern 1 (costs _ (mret _) _) => (apply (costs_ret 0); done) : costs.

Lemma bounded_random : bounded 1 random.
Proof. by apply bounded_ask. Qed.
Lemma bounded_entropy : bounded 1 entropy_.
Proof. by apply bounded_ask. Qed.
Lemma bounded_RAND_bytes n : bounded 1 (RAND_bytes n).
Proof. by apply bounded_ask. Qed.
Lemma bounded_time : bounded 1 time_.
Proof. by apply bounded_ask. Qed.
Lemma bounded_getsockname : bounded 1 getsockname.
Proof. by apply bounded_ask. Qed.
Lemma bounded_shutdown : bounded 1 SSL_get_shutdown.
Proof. by apply bounded_ask. Qed.
#[export] Hint Resolve bounded_random bounded_entropy bounded_RAND_bytes bounded_time bounded_getsockname bounded_shutdown : costs.

Lemma renews_mono {S A} (Inv : S -> Prop) (r : S + A) b b' : renews_to_go Inv r (b || b') -> renews_to_go Inv r (b || true).
Proof. destruct r; [|done]. intros [? ?]. split; [done|]. by rewrite orb_true_r. Qed.

Ltac costs_side :=
  first [ halts_side | (intros ? ?; apply renews_mono)
        | (intros ? ?; repeat match goal with |- context [match ?c with _ => _ end] => is_var c; destruct c end;
           rewrite ?orb_true_r; by auto) ].
Ltac costs_num := match goal with |- costs ?n _ _ => let n' := eval vm_compute in n in change n with n' end.

(** A part of a program that the database knows. *)
Ltac costs_leaf := eapply (costs_mono _ _ _ (λ _ _, True)); [solve [eauto with costs nocore]|lia|costs_side].

(** Follows a program with a number of answers to spend; a composite first part gets the
    smallest allowance of a few that is enough. *)
Ltac costs_step :=
  match goal with
  | |- costs _ (mret _) _ => apply costs_ret; [lia|first [done | split; done]]
  | |- costs _ (_ ≫= _) _ =>
    first [ eapply costs_seq; [solve [eauto with costs nocore]|lia|intros ?; costs_num|costs_side]
          | eapply (costs_seq _ 0); [solve [costs_tac]|lia|intros ?; costs_num|costs_side]
          | eapply (costs_seq _ 10); [solve [costs_tac]|lia|intros ?; costs_num|costs_side]
          | eapply (costs_seq _ 1000); [solve [costs_tac]|lia|intros ?; costs_num|costs_side]
          | eapply (costs_seq _ 1000000); [solve [costs_tac]|lia|intros ?; costs_num|costs_side]
          | eapply (costs_seq _ 10000000); [solve [costs_tac]|lia|intros ?; costs_num|costs_side]
          | eapply (costs_seq _ 300000000); [solve [costs_tac]|lia|intros ?; costs_num|costs_side] ]
  | |- costs _ (match ?x with _ => _ end) _ => destruct x
  | |- costs _ _ _ => costs_leaf
  end
with costs_tac := repeat (costs_step; cbv beta iota).

(** The first part of a program, charged [n1]: what it says of its result, or nothing. *)
Ltac costs_first n1 R :=
  match goal with |- costs ?n _ _ =>
    let n2 := eval vm_compute in (n - n1) in apply (costs_bind n n1 n2 _ _ R); [| |lia..] end.
Ltac costs_pass n1 := eapply (costs_seq _ n1); [|lia|intros ?; costs_num|costs_side].

(** A first part that asks for nothing; what it returns is introduced. *)
Ltac costs_quiet x :=
  match goal with |- costs ?n _ _ =>
    apply (costs_bind n 0 n _ _ (λ _ b, b = false));
    [first [by apply costs_get_errno|by apply costs_set_errno|by apply costs_get_globals|by apply costs_set_globals
           |by apply costs_lift|by apply costs_act]
    |intros x ? ->|lia..] end.
