(* ===== verification/Session.v ===== *)
(** The data of the clients ([p2p/session.h]) and the settings they read
    ([p2p/uclient_manager.c]).

    Pointers to OpenSSL connections are the booleans "not NULL"; the text fields
    are the memories of their arrays.  [frame] holds the contents of the local
    arrays the code does not initialise. *)

From S2P Require Import Prelude Defs IoAddr StunBuffer OAuth System.

Inductive UR_STATE : Type := UR_STATE_UNKNOWN | UR_STATE_READY | UR_STATE_DONE.

Record app_tcp_conn_info : Type := TcpConnInfo {
  cid : Z;
  tcp_data_local_addr : ioa_addr;
  tcp_data_fd : Z;
  tcp_data_ssl : bool;
  tcp_data_bound : bool;
}.

(** [tcp_conn] is NULL or the array of [tcp_conn_number] pointers. *)
Record app_ur_conn_info : Type := ConnInfo {
  ci_local_addr : ioa_addr;
  ci_lsaddr : list Z;
  ci_remote_addr : ioa_addr;
  ci_rsaddr : list Z;
  ci_ifname : list Z;
  ci_peer_addr : ioa_addr;
  ci_relay_addr : ioa_addr;
  ci_fd : Z;
  ci_ssl : bool;
  ci_broken : bool;
  ci_nonce : list Z;
  ci_realm : list Z;
  ci_oauth : Z;
  ci_server_name : list Z;
  ci_key : list Z;
  ci_key_set : bool;
  ci_cok : Z;
  ci_tcp_conn : option (list (option app_tcp_conn_info));
  ci_is_peer : bool;
  ci_s_mobile_id : list Z;
}.

(** Assignments to the fields the code changes. *)
Definition set_fd (c : app_ur_conn_info) (fd : Z) (ssl : bool) : app_ur_conn_info :=
  ConnInfo (ci_local_addr c) (ci_lsaddr c) (ci_remote_addr c) (ci_rsaddr c) (ci_ifname c) (ci_peer_addr c)
    (ci_relay_addr c) fd ssl (ci_broken c) (ci_nonce c) (ci_realm c) (ci_oauth c) (ci_server_name c) (ci_key c)
    (ci_key_set c) (ci_cok c) (ci_tcp_conn c) (ci_is_peer c) (ci_s_mobile_id c).
Definition set_broken (c : app_ur_conn_info) : app_ur_conn_info :=
  ConnInfo (ci_local_addr c) (ci_lsaddr c) (ci_remote_addr c) (ci_rsaddr c) (ci_ifname c) (ci_peer_addr c)
    (ci_relay_addr c) (ci_fd c) (ci_ssl c) true (ci_nonce c) (ci_realm c) (ci_oauth c) (ci_server_name c) (ci_key c)
    (ci_key_set c) (ci_cok c) (ci_tcp_conn c) (ci_is_peer c) (ci_s_mobile_id c).
Definition set_challenge (c : app_ur_conn_info) (realm nonce server_name : list Z) (oauth : Z) : app_ur_conn_info :=
  ConnInfo (ci_local_addr c) (ci_lsaddr c) (ci_remote_addr c) (ci_rsaddr c) (ci_ifname c) (ci_peer_addr c)
    (ci_relay_addr c) (ci_fd c) (ci_ssl c) (ci_broken c) nonce realm oauth server_name (ci_key c)
    (ci_key_set c) (ci_cok c) (ci_tcp_conn c) (ci_is_peer c) (ci_s_mobile_id c).
Definition set_cok (c : app_ur_conn_info) (cok : Z) : app_ur_conn_info :=
  ConnInfo (ci_local_addr c) (ci_lsaddr c) (ci_remote_addr c) (ci_rsaddr c) (ci_ifname c) (ci_peer_addr c)
    (ci_relay_addr c) (ci_fd c) (ci_ssl c) (ci_broken c) (ci_nonce c) (ci_realm c) (ci_oauth c) (ci_server_name c)
    (ci_key c) (ci_key_set c) cok (ci_tcp_conn c) (ci_is_peer c) (ci_s_mobile_id c).
Definition set_key (c : app_ur_conn_info) (key : list Z) : app_ur_conn_info :=
  ConnInfo (ci_local_addr c) (ci_lsaddr c) (ci_remote_addr c) (ci_rsaddr c) (ci_ifname c) (ci_peer_addr c)
    (ci_relay_addr c) (ci_fd c) (ci_ssl c) (ci_broken c) (ci_nonce c) (ci_realm c) (ci_oauth c) (ci_server_name c)
    key true (ci_cok c) (ci_tcp_conn c) (ci_is_peer c) (ci_s_mobile_id c).
Definition set_relay_addr (c : app_ur_conn_info) (a : ioa_addr) : app_ur_conn_info :=
  ConnInfo (ci_local_addr c) (ci_lsaddr c) (ci_remote_addr c) (ci_rsaddr c) (ci_ifname c) (ci_peer_addr c)
    a (ci_fd c) (ci_ssl c) (ci_broken c) (ci_nonce c) (ci_realm c) (ci_oauth c) (ci_server_name c)
    (ci_key c) (ci_key_set c) (ci_cok c) (ci_tcp_conn c) (ci_is_peer c) (ci_s_mobile_id c).
Definition set_conn_peer_addr (c : app_ur_conn_info) (a : ioa_addr) : app_ur_conn_info :=
  ConnInfo (ci_local_addr c) (ci_lsaddr c) (ci_remote_addr c) (ci_rsaddr c) (ci_ifname c) a
    (ci_relay_addr c) (ci_fd c) (ci_ssl c) (ci_broken c) (ci_nonce c) (ci_realm c) (ci_oauth c) (ci_server_name c)
    (ci_key c) (ci_key_set c) (ci_cok c) (ci_tcp_conn c) (ci_is_peer c) (ci_s_mobile_id c).
Definition set_mobile_id (c : app_ur_conn_info) (id : list Z) : app_ur_conn_info :=
  ConnInfo (ci_local_addr c) (ci_lsaddr c) (ci_remote_addr c) (ci_rsaddr c) (ci_ifname c) (ci_peer_addr c)
    (ci_relay_addr c) (ci_fd c) (ci_ssl c) (ci_broken c) (ci_nonce c) (ci_realm c) (ci_oauth c) (ci_server_name c)
    (ci_key c) (ci_key_set c) (ci_cok c) (ci_tcp_conn c) (ci_is_peer c) id.
Definition set_endpoints (c : app_ur_conn_info) (la : ioa_addr) (ls : list Z) (ra : ioa_addr) (rs ifn : list Z)
    (fd : Z) : app_ur_conn_info :=
  ConnInfo la ls ra rs ifn (ci_peer_addr c)
    (ci_relay_addr c) fd (ci_ssl c) (ci_broken c) (ci_nonce c) (ci_realm c) (ci_oauth c) (ci_server_name c)
    (ci_key c) (ci_key_set c) (ci_cok c) (ci_tcp_conn c) (ci_is_peer c) (ci_s_mobile_id c).

(** The fields the modelled code uses; the others are written once and not read. *)
Record app_ur_session : Type := Session {
  pinfo : app_ur_conn_info;
  state : UR_STATE;
  chnum : Z;
  wait_cycles : Z;
  in_buffer : stun_buffer;
  refresh_time : Z;
  rmsgnum : Z;
  recvmsgnum : Z;
  recvtimems : Z;
  loss : Z;
}.

Definition set_pinfo (s : app_ur_session) (c : app_ur_conn_info) : app_ur_session :=
  Session c (state s) (chnum s) (wait_cycles s) (in_buffer s) (refresh_time s) (rmsgnum s) (recvmsgnum s)
    (recvtimems s) (loss s).
Definition set_in_buffer (s : app_ur_session) (b : stun_buffer) : app_ur_session :=
  Session (pinfo s) (state s) (chnum s) (wait_cycles s) b (refresh_time s) (rmsgnum s) (recvmsgnum s)
    (recvtimems s) (loss s).
Definition set_refresh_time (s : app_ur_session) (t : Z) : app_ur_session :=
  Session (pinfo s) (state s) (chnum s) (wait_cycles s) (in_buffer s) t (rmsgnum s) (recvmsgnum s)
    (recvtimems s) (loss s).
Definition set_ready (s : app_ur_session) (rmn chn : Z) : app_ur_session :=
  Session (pinfo s) UR_STATE_READY chn (wait_cycles s) (in_buffer s) (refresh_time s) (rmsgnum s) rmn
    (recvtimems s) (loss s).
Definition set_counters (s : app_ur_session) (wc rm rmn rt ls : Z) : app_ur_session :=
  Session (pinfo s) (state s) (chnum s) wc (in_buffer s) (refresh_time s) rm rmn rt ls.

(** The payload header the client looks at: [int msgnum; uint64_t mstime], 16
    bytes with the padding. *)
Record message_info : Type := MessageInfo { mi_msgnum : Z; mi_mstime : Z }.
Definition sizeof_message_info : Z := 16.
Definition message_info_of (bs : list Z) : option message_info :=
  n ← load32 bs 0; t ← load64 bs 8; Some (MessageInfo (to_i32 n) t).

(** * Settings *)

(** The globals of [uclient_manager.c] the engine reads; [mCB] of [connect_manager.c]
    is "not NULL". *)
Record config : Type := Config {
  use_tcp : bool;
  use_secure : bool;
  use_sctp : bool;
  dos : bool;
  no_rtcp : bool;
  dual_allocation : bool;
  mobility : bool;
  dont_fragment : bool;
  use_fingerprints : bool;
  oauth : bool;
  negative_test : bool;
  negative_protocol_test : bool;
  no_permissions : bool;
  do_not_use_channel : bool;
  extra_requests : bool;
  c2c : bool;
  relay_transport : Z;
  clmessage_length : Z;
  bps : Z;
  origin : list Z;
  shatype : SHATYPE;
  g_uname : list Z;
  g_upwd : list Z;
  okey_array : list oauth_key;
  root_tls_ctx_num : Z;
  mCB : bool;
}.

Definition STUN_ATTRIBUTE_TRANSPORT_TCP_VALUE : Z := 6.
Definition STUN_ATTRIBUTE_CONNECTION_ID : Z := 0x002A.
Definition is_TCP_relay (cfg : config) : bool := relay_transport cfg =? STUN_ATTRIBUTE_TRANSPORT_TCP_VALUE.

(** * Uninitialised locals *)

(** The arrays of a stack frame: [hmackey_t], [password_t], a digest, the byte
    [malloc]ed blocks hold, a message, an error text, an address, a token. *)
Record frame : Type := Frame {
  fr_key : list Z;
  fr_pwd : list Z;
  fr_hmac : list Z;
  fr_byte : Z;
  fr_buffer : stun_buffer;
  fr_err_msg : list Z;
  fr_addr : ioa_addr;
  fr_nonce : list Z;
  fr_etoken : encoded_oauth_token;
}.

Definition block_ok (b : stun_buffer) : Prop := bytes (buf b) /\ zlen (buf b) = STUN_BUFFER_SIZE.
Definition buffer_ok (b : stun_buffer) : Prop := block_ok b /\ 0 <= len b <= STUN_BUFFER_SIZE.

Record frame_ok (f : frame) : Prop := FrameOk {
  fok_key : bytes (fr_key f) /\ zlen (fr_key f) = 64;
  fok_pwd : bytes (fr_pwd f) /\ zlen (fr_pwd f) = 257;
  fok_hmac : bytes (fr_hmac f) /\ zlen (fr_hmac f) = 128;
  fok_byte : 0 <= fr_byte f < 256;
  fok_buffer : block_ok (fr_buffer f);
  fok_err_msg : bytes (fr_err_msg f) /\ zlen (fr_err_msg f) = 129;
  fok_addr : addr_ok (fr_addr f);
  fok_nonce : bytes (fr_nonce f) /\ zlen (fr_nonce f) = 256;
}.
