(* ===== verification/Samples.v ===== *)
(** A configuration, a connection, a message and a stack frame of the client, for
    the witnesses: plain UDP, descriptor 3, a message of 20 zeros. *)

From S2P Require Import Prelude Defs CString IoAddr StunBuffer OAuth System Session.

Definition sample_cfg : config :=
  Config false false false false false false false false true false false false false false false false
    17 100 0 (zeros 129) SHATYPE_SHA1 (zeros 513) (zeros 257) [] 0 true.

Definition sample_conn : app_ur_conn_info :=
  ConnInfo addr_zero (zeros 129) addr_zero (zeros 129) (zeros 129) addr_zero addr_zero 3 false false
    (zeros 128) (zeros 128) 0 (zeros 1026) (zeros 64) false 0 None false (zeros 33).

Definition sample_message : stun_buffer := StunBuffer (zeros 4) (zeros STUN_BUFFER_SIZE) 20 0 0.

(** Zeros in every uninitialised local. *)
Definition sample_frame : frame :=
  Frame (zeros 64) (zeros 257) (zeros 128) 0 sample_message (zeros 129) addr_zero (zeros 256) (EncodedToken (zeros 1024) 0).

Definition sample_world (s : list answer) : world := World EOTHER s (Globals false 0 0 addr_zero) [].

Lemma sample_memory_ok : block_ok sample_message.
Proof. split; cbn [buf sample_message]; [apply bytes_replicate0|by rewrite zlen_zeros]. Qed.

Lemma sample_message_ok : buffer_ok sample_message.
Proof. split; [apply sample_memory_ok|]. cbn [len sample_message]. unfold STUN_BUFFER_SIZE, MAX_STUN_MESSAGE_SIZE. lia. Qed.

Lemma sample_frame_ok : frame_ok sample_frame.
Proof.
  assert (forall n, 0 <= n -> bytes (zeros n) /\ zlen (zeros n) = n) as Hz
    by (intros n Hn; split; [apply bytes_replicate0|by apply zlen_zeros]).
  split; [by apply Hz..|done|exact sample_memory_ok|by apply Hz|by vm_compute; repeat constructor|by apply Hz].
Qed.
