(* ===== verification/Transport.v ===== *)
(** Sending and receiving messages: [wait_fd], [send_buffer] and [recv_buffer] of
    [p2p/p2p_client.c], [handle_socket_error] of [common/apputils.c].

    The C functions write through their pointers; here they return the structures
    they changed.  Log output is left out. *)

From S2P Require Import Prelude Defs IoAddr StunHeader StunBuffer HttpFrame System Session.

Definition FD_SETSIZE : Z := 1024.
Definition MAX_LISTENING_CYCLE_NUMBER : nat := 7.

Definition handle_socket_error (err : errno) : bool :=
  match err with
  | EINTR | ENOBUFS | EAGAIN | EMSGSIZE => true
  | EBADF => false
  | EHOSTDOWN => true
  | ECONNRESET | ECONNREFUSED => false
  | ENOMEM => false
  | EACCES => true
  | _ => false
  end.

(** * wait_fd *)

(** [timeout.tv_sec = 1; while(--cycle) timeout.tv_sec = timeout.tv_sec + timeout.tv_sec;]
    for a cycle of at least 1; the cycle is 0 afterwards. *)
Fixpoint double_cycles (cycle : nat) (tv_sec : Z) : Z :=
  match cycle with
  | S (S _ as c) => double_cycles c (tv_sec + tv_sec)
  | _ => tv_sec
  end.

(** One turn of the [do] loop.  State: [cycle], [ctime.tv_sec] and [rc]; the timeout
    in milliseconds is what [select] is given. *)
Definition wait_turn (start_time : Z) (st : nat * Z * Z) : prog (nat * Z * Z + Z) :=
  let '(cycle, ctime, rc) := st in
  let timeout :=
    match cycle with
    | O => Some 500
    | _ =>
      let tv_sec := double_cycles cycle 1 in
      if start_time <? ctime then
        if start_time + tv_sec <=? ctime then None else Some ((tv_sec - (ctime - start_time)) * 1000)
      else Some (tv_sec * 1000)
    end in
  match timeout with
  | None => mret (inr rc)
  | Some ms =>
    act (Waited ms);;
    rc ← syscall;
    err ← get_errno;
    if (rc <? 0) && bool_decide (err = EINTR) then ctime ← time_; mret (inl (0%nat, ctime, rc))
    else mret (inr rc)
  end.

Definition wait_fd (dos : bool) (fd : Z) (cycle : nat) : prog Z :=
  if FD_SETSIZE <=? fd then mret 1
  else if dos && (cycle =? 0)%nat then mret 0
  else
    start_time ← time_;
    iter (wait_turn start_time) (cycle, start_time, 0).

(** What the callers of [recv_buffer] get: the return code and the structures. *)
Abbreviation received := (Z * app_ur_conn_info * stun_buffer * option stun_buffer)%type.

Section transport.
Context (cfg : config).

(** * send_buffer *)

(** [while(np-- > 0) ...]: random bytes at random places. *)
Fixpoint spoil (np : nat) (message : stun_buffer) : prog stun_buffer :=
  match np with
  | O => mret message
  | S np =>
    r ← random;
    let pos := to_i32 (u64 r mod len message) in
    v ← random;
    m ← lift (wr8 (buf message) pos (u8 (u64 v mod 256)));
    spoil np (set_buf message m)
  end.

Definition negative_protocol (message : stun_buffer) : prog stun_buffer :=
  if negative_protocol_test cfg && (0 <? len message) then
    r ← random;
    if Z.rem r 10 =? 0 then
      n ← random;
      spoil (Z.to_nat (u64 n mod 10)) message
    else mret message
  else mret message.

(** [do len=SSL_write(...) while(len<0 && (errno==EINTR || errno==ENOBUFS));] *)
Definition ssl_write_turn (data : list Z) (_ : unit) : prog (unit + Z * ssl_error) :=
  '(n, se) ← SSL_write data;
  err ← get_errno;
  if (n <? 0) && (bool_decide (err = EINTR) || bool_decide (err = ENOBUFS)) then mret (inl tt)
  else mret (inr (n, se)).

(** A turn of [while(!message_sent)]; the result is [ret], or a broken connection. *)
Definition ssl_send_turn (data : list Z) (len : Z) (_ : unit) : prog (unit + option Z) :=
  down ← SSL_get_shutdown;
  if (down : bool) then mret (inr (Some (-1))) else
  '(n, se) ← iter (ssl_write_turn data) tt;
  if n =? to_i32 len then mret (inr (Some n)) else
  match se with
  | SSL_ERROR_NONE | SSL_ERROR_WANT_WRITE | SSL_ERROR_WANT_READ | SSL_ERROR_ZERO_RETURN => mret (inl tt)
  | SSL_ERROR_SYSCALL =>
    err ← get_errno;
    if handle_socket_error err then mret (inl tt) else mret (inr None)
  | SSL_ERROR_SSL | SSL_ERROR_OTHER => mret (inr None)
  end.

(** [do rc=send(...) while(rc<=0 && (errno==EINTR || ...));] *)
Definition send_turn (fd : Z) (data : list Z) (_ : unit) : prog (unit + Z) :=
  rc ← send fd data;
  err ← get_errno;
  if (rc <=? 0) && (bool_decide (err = EINTR) || bool_decide (err = ENOBUFS) || bool_decide (err = EAGAIN))
  then mret (inl tt) else mret (inr rc).

(** [while(left > 0)]: [p] is [buffer], [n] is [left].  The loop ends with the
    final [left]. *)
Definition plain_send_turn (fd : Z) (m : list Z) (st : Z * Z) : prog (Z * Z + Z) :=
  let '(p, n) := st in
  if 0 <? n then
    data ← lift (rd_block m p n);
    rc ← iter (send_turn fd data) tt;
    if 0 <? rc then mret (inl (p + rc, n - rc)) else mret (inr n)
  else mret (inr n).

(** The connection a message goes to: [ssl] and [fd], or none. *)
Definition send_target (clnet_info : app_ur_conn_info) (data_connection : bool) (atc : option app_tcp_conn_info)
    : option (bool * Z) :=
  if data_connection then
    match atc with
    | Some a => Some (tcp_data_ssl a, tcp_data_fd a)
    | None => if is_TCP_relay cfg then None else Some (ci_ssl clnet_info, ci_fd clnet_info)
    end
  else Some (ci_ssl clnet_info, ci_fd clnet_info).

Definition send_buffer (clnet_info : app_ur_conn_info) (message : stun_buffer) (data_connection : bool)
    (atc : option app_tcp_conn_info) : prog (Z * app_ur_conn_info * stun_buffer) :=
  message ← negative_protocol message;
  match send_target clnet_info data_connection atc with
  | None => mret (-1, clnet_info, message)
  | Some (ssl, fd) =>
    if (ssl : bool) then
      data ← lift (rd_block (buf message) 0 (len message));
      r ← iter (ssl_send_turn data (len message)) tt;
      match r with
      | Some ret => mret (ret, clnet_info, message)
      | None => mret (-1, set_broken clnet_info, message)
      end
    else if 0 <=? fd then
      n ← iter (plain_send_turn fd (buf message)) (0, len message);
      if 0 <? n then mret (-1, clnet_info, message) else mret (to_i32 (len message), clnet_info, message)
    else mret (-1, clnet_info, message)
  end.

(** * recv_buffer *)

(** [do rc=recv(...); if(rc<0 && errno==EAGAIN && sync) errno=EINTR; while(rc<0 && errno==EINTR);] *)
Definition recv_turn (fd size : Z) (sync : bool) (_ : unit) : prog (unit + Z * list Z) :=
  '(rc, bs) ← recv fd size;
  err ← get_errno;
  (if (rc <? 0) && bool_decide (err = EAGAIN) && sync then set_errno EINTR else mret tt);;
  err ← get_errno;
  if (rc <? 0) && bool_decide (err = EINTR) then mret (inl tt) else mret (inr (rc, bs)).

(** The retransmission phase: [n] is the number of cycles left.  [inr] is a
    return of [recv_buffer]. *)
Fixpoint listen (n : nat) (fd : Z) (cycle : nat) (clnet_info : app_ur_conn_info) (request : stun_buffer)
    (data_connection : bool) (atc : option app_tcp_conn_info)
    : prog (app_ur_conn_info * stun_buffer + app_ur_conn_info * stun_buffer) :=
  match n with
  | O => mret (inl (clnet_info, request))
  | S n =>
    serc ← wait_fd (dos cfg) fd cycle;
    if 0 <? serc then mret (inl (clnet_info, request))
    else if serc <? 0 then mret (inr (clnet_info, request))
    else
      '(r, clnet_info, request) ← send_buffer clnet_info request data_connection atc;
      if r <=? 0 then mret (inr (clnet_info, request))
      else listen n fd (S cycle) clnet_info request data_connection atc
  end.

(** The DTLS and the TLS branch, which have the same text.  [n] is [100 - cycle].
    Result: [rc] and the message, or [None] with [broken] set or not. *)
Definition ssl_read_turn (_ : unit) : prog (unit + Z * list Z * ssl_error) :=
  '(rc, bs, se) ← SSL_read (STUN_BUFFER_SIZE - 1);
  err ← get_errno;
  if (rc <? 0) && bool_decide (err = EINTR) then mret (inl tt) else mret (inr (rc, bs, se)).

Fixpoint ssl_receive (n : nat) (rc : Z) (sync : bool) (clnet_info : app_ur_conn_info) (message : stun_buffer)
    : prog (option Z * app_ur_conn_info * stun_buffer) :=
  match n with
  | O => mret (Some rc, clnet_info, message)
  | S n =>
    down ← SSL_get_shutdown;
    if (down : bool) then mret (None, clnet_info, message) else
    '(rc, bs, se) ← iter ssl_read_turn tt;
    if 0 <? rc then
      m ← lift (wr_block (buf message) 0 bs);
      mret (Some rc, clnet_info, set_len (set_buf message m) rc)
    else
      let again := if sync then ssl_receive n rc sync clnet_info message
                   else mret (Some rc, clnet_info, message) in
      match se with
      | SSL_ERROR_NONE | SSL_ERROR_WANT_WRITE | SSL_ERROR_WANT_READ | SSL_ERROR_ZERO_RETURN => again
      | SSL_ERROR_SYSCALL =>
        err ← get_errno;
        if handle_socket_error err then again else mret (None, set_broken clnet_info, message)
      | SSL_ERROR_SSL | SSL_ERROR_OTHER => mret (None, set_broken clnet_info, message)
      end
  end.

(** [while(rsf < mlen && cycle++ < 128)]: the bytes of one message of the stream. *)
Fixpoint collect (n : nat) (fd mlen rsf : Z) (sync : bool) (m : list Z) : prog (Z * list Z) :=
  if rsf <? mlen then
    match n with
    | O => mret (rsf, m)
    | S n =>
      '(rcr, bs) ← iter (recv_turn fd (mlen - rsf) sync) tt;
      if 0 <? rcr then
        m ← lift (wr_block m rsf bs);
        collect n fd mlen (rsf + rcr) sync m
      else collect n fd mlen rsf sync m
    end
  else mret (rsf, m).

(** Plain TCP: the message at the head of the stream is looked at, then read. *)
Definition tcp_receive (fd : Z) (sync : bool) (atc : option app_tcp_conn_info) (message : stun_buffer)
    : prog (option Z * stun_buffer) :=
  '(rc, bs) ← iter (recv_turn fd (STUN_BUFFER_SIZE - 1) sync) tt;
  if 0 <? rc then
    m ← lift (wr_block (buf message) 0 bs);
    '(mlen, app_msg_len) ← lift
      (match atc with
       | None => stun_get_message_len_str (Some m) rc true rc
       | Some _ =>
         let mlen := if negb sync then clmessage_length cfg else rc in
         let mlen := if clmessage_length cfg <? mlen then clmessage_length cfg else mlen in
         Some (mlen, u64 mlen)
       end);
    if 0 <? mlen then
      '(rsf, m) ← collect 128 fd mlen 0 sync m;
      let message := set_buf message m in
      if rsf <? 1 then mret (None, message)
      else if (rsf <? to_i32 app_msg_len) && negb (app_msg_len / rsf * rsf =? app_msg_len) then mret (None, message)
      else mret (Some (to_i32 app_msg_len), set_len message app_msg_len)
    else mret (Some 0, set_buf message m)
  else mret (Some rc, message).

Definition udp_receive (fd : Z) (sync : bool) (message : stun_buffer) : prog (option Z * stun_buffer) :=
  '(rc, bs) ← iter (recv_turn fd (STUN_BUFFER_SIZE - 1) sync) tt;
  if rc <? 0 then mret (None, message)
  else m ← lift (wr_block (buf message) 0 bs); mret (Some rc, set_len (set_buf message m) rc).

(** The branch of the transport; [None] is [return -1].  No branch: [rc] keeps its
    value. *)
Definition receive (fd : Z) (ssl sync : bool) (atc : option app_tcp_conn_info) (rc : Z)
    (clnet_info : app_ur_conn_info) (message : stun_buffer)
    : prog (option Z * app_ur_conn_info * stun_buffer) :=
  if negb (use_secure cfg) && negb (use_tcp cfg) && (0 <=? fd) then
    '(rc, message) ← udp_receive fd sync message; mret (rc, clnet_info, message)
  else if use_secure cfg && negb (use_tcp cfg) && ssl && negb (ci_broken clnet_info) then
    ssl_receive 100 rc sync clnet_info message
  else if use_secure cfg && use_tcp cfg && ssl && negb (ci_broken clnet_info) then
    ssl_receive 100 rc sync clnet_info message
  else if negb (use_secure cfg) && use_tcp cfg && (0 <=? fd) then
    '(rc, message) ← tcp_receive fd sync atc message; mret (rc, clnet_info, message)
  else mret (Some rc, clnet_info, message).

(** From [recv_again] to the end.  The loop state is [rc] and the structures. *)
Definition recv_again (fd : Z) (ssl sync data_connection : bool) (atc : option app_tcp_conn_info)
    (tid : list Z) (method : Z) (st : received) : prog (received + received) :=
  let '(rc, clnet_info, message, request_message) := st in
  l ← match request_message with
      | Some req =>
        if negb (use_tcp cfg) && sync && (0 <=? fd) then
          r ← listen MAX_LISTENING_CYCLE_NUMBER fd 0 clnet_info req data_connection atc;
          match r with
          | inl (c, q) => mret (inl (c, Some q))
          | inr (c, q) => mret (inr (c, Some q))
          end
        else mret (inl (clnet_info, request_message))
      | None => mret (inl (clnet_info, request_message))
      end;
  match l with
  | inr (clnet_info, request_message) => mret (inr (-1, clnet_info, message, request_message))
  | inl (clnet_info, request_message) =>
    '(r, clnet_info, message) ← receive fd ssl sync atc rc clnet_info message;
    match r with
    | None => mret (inr (-1, clnet_info, message, request_message))
    | Some rc =>
      match request_message with
      | Some _ =>
        if 0 <? rc then
          recv_tid ← lift (stun_tid_from_message message (replicate 12 0));
          recv_method ← lift (stun_get_method message);
          if negb (method =? recv_method) then mret (inl (rc, clnet_info, message, request_message))
          else if negb (bool_decide (tid = recv_tid)) then mret (inl (rc, clnet_info, message, request_message))
          else mret (inr (rc, clnet_info, message, request_message))
        else mret (inr (rc, clnet_info, message, request_message))
      | None => mret (inr (rc, clnet_info, message, request_message))
      end
    end
  end.

Definition recv_buffer (clnet_info : app_ur_conn_info) (message : stun_buffer) (sync data_connection : bool)
    (atc : option app_tcp_conn_info) (request_message : option stun_buffer) : prog received :=
  '(tid, method) ← match request_message with
                   | Some req =>
                     tid ← lift (stun_tid_from_message req (replicate 12 0));
                     method ← lift (stun_get_method req);
                     mret (tid, method)
                   | None => mret (replicate 12 0, 0)
                   end;
  let fd := match atc with Some a => tcp_data_fd a | None => ci_fd clnet_info end in
  let ssl := match atc with Some a => tcp_data_ssl a | None => ci_ssl clnet_info end in
  iter (recv_again fd ssl sync data_connection atc tid method) (0, clnet_info, message, request_message).
End transport.
