(* ===== verification/TransportSpec.v ===== *)
(** What sending and receiving do, for every environment ([p2p/p2p_client.c]):
    a plain socket gets the whole message or the caller gets -1; [recv_buffer] stays
    inside the caller's buffer (over plain TCP if its last byte is a NUL) and returns
    with a response only if its method and transaction id are those of the request. *)

From S2P Require Import Prelude Defs IoAddr StunHeader StunBuffer HttpFrame System Session Samples Transport.

(** The bytes a trace put on the wire. *)
Definition payload (t : list action) : list Z :=
  concat ((λ a, match a with Sent _ bs | SentTo _ _ bs | SslSent bs => bs | _ => [] end) <$> t).

Lemma payload_app t1 t2 : payload (t1 ++ t2) = payload t1 ++ payload t2.
Proof. unfold payload. by rewrite fmap_app, concat_app. Qed.

(** A program that returns, or waits, without a fault. *)
Abbreviation safe m Q w := (wp m Q (λ _, True) w).

Section spec.
Context (cfg : config).

(** * Plain sends *)

Definition sends (w w' : world) (bs : list Z) : Prop :=
  exists t, w_trace w' = w_trace w ++ t /\ payload t = bs.

Lemma sends_refl w w' : w_trace w' = w_trace w -> sends w w' [].
Proof. intros H. exists []. by rewrite app_nil_r. Qed.

Lemma sends_trans w1 w2 w3 a b : sends w1 w2 a -> sends w2 w3 b -> sends w1 w3 (a ++ b).
Proof.
  intros (t & Ht & <-) (t' & Ht' & <-). exists (t ++ t'). by rewrite Ht', Ht, app_assoc, payload_app.
Qed.

(** One [send] of the inner loop: a prefix of the data goes out, as long as the
    positive result says. *)
Lemma wp_send_turns fd data w (Q : Z -> world -> Prop) :
  (forall rc w', (length (w_script w') < length (w_script w))%nat -> rc <= zlen data ->
     sends w w' (take (Z.to_nat rc) data) -> Q rc w') ->
  safe (iter (send_turn fd data) tt) Q w.
Proof.
  intros HQ.
  apply (wp_iter (λ _ w1, (length (w_script w1) <= length (w_script w))%nat /\ sends w w1 []));
    [|split; [done|by apply sends_refl]].
  intros [] w1 [Hl Hs]. unfold send_turn. wp_step. pose proof (zlen_nonneg data) as Hd. apply wp_send; [done|].
  intros rc err s Hw. assert (length (w_script w1) = S (length s)) as Hl1 by (by rewrite Hw). split; intros Hr.
  - wp_steps. cbn [w_errno with_errno pop].
    assert (sends w (with_errno (pop w1 s) err) []) as Hs'
      by (destruct Hs as (t & Ht & Hp); exists t; done).
    destruct ((rc <=? 0) && _); wp_steps.
    + split; [split; [world_simpl; lia|done]|world_simpl; lia].
    + apply HQ; [world_simpl; lia|lia|]. replace (Z.to_nat rc) with 0%nat by lia. exact Hs'.
  - set (n := Z.min rc (zlen data)). wp_steps.
    assert (sends w (with_action (pop w1 s) (Sent fd (take (Z.to_nat n) data))) (take (Z.to_nat n) data)) as Hs'.
    { apply (sends_trans w w1 _ [] _ Hs). exists [Sent fd (take (Z.to_nat n) data)].
      split; [reflexivity|exact (app_nil_r _)]. }
    destruct ((n <=? 0) && _) eqn:Hn; wp_steps.
    + split; [split; [world_simpl; lia|]|world_simpl; lia].
      apply andb_prop in Hn as [Hn _]. apply Z.leb_le in Hn.
      replace (Z.to_nat n) with 0%nat in * by lia. exact Hs'.
    + apply HQ; [world_simpl; lia|unfold n; lia|done].
Qed.

(** The outer loop, from the first byte not yet accepted. *)
Lemma wp_plain_sends fd m n w (Q : Z -> world -> Prop) :
  0 <= n <= zlen m ->
  (forall left w', (length (w_script w') <= length (w_script w))%nat -> 0 <= left <= n ->
     sends w w' (take (Z.to_nat (n - left)) m) -> Q left w') ->
  safe (iter (plain_send_turn fd m) (0, n)) Q w.
Proof.
  intros Hn HQ.
  apply (wp_iter (λ st w1, let '(p, l) := st in p + l = n /\ 0 <= p /\ 0 <= l /\
            (length (w_script w1) <= length (w_script w))%nat /\ sends w w1 (take (Z.to_nat p) m)));
    [|repeat split; try lia; by apply sends_refl].
  intros [p l] w1 (Hpl & Hp & Hl & Hw & Hs). unfold plain_send_turn.
  assert (Q l w1) as Hend by (apply HQ; [lia..|]; by replace (n - l) with p by lia).
  destruct (Z.ltb_spec 0 l) as [Hlt|]; [|by wp_steps].
  wp_step. eapply wp_lift; [apply rd_block_ok; lia|]. wp_step. apply wp_send_turns. intros rc w2 Hw2 Hrc Hs2.
  assert (zlen (take (Z.to_nat l) (drop (Z.to_nat p) m)) = l) as Hz
    by (unfold zlen in *; rewrite length_take, length_drop; lia).
  destruct (Z.ltb_spec 0 rc); wp_steps.
  - split; [|lia]. repeat split; try lia. rewrite take_take in Hs2.
    replace (Z.to_nat rc `min` Z.to_nat l)%nat with (Z.to_nat rc) in Hs2 by lia.
    replace (Z.to_nat (p + rc)) with (Z.to_nat p + Z.to_nat rc)%nat by lia.
    rewrite <- take_take_drop. exact (sends_trans _ _ _ _ _ Hs Hs2).
  - apply HQ; [lia..|]. replace (Z.to_nat rc) with 0%nat in Hs2 by lia.
    pose proof (sends_trans _ _ _ _ _ Hs Hs2) as Hst. rewrite take_0, app_nil_r in Hst.
    by replace (n - l) with p by lia.
Qed.
(** * TLS sends *)

Lemma wp_ssl_writes data w (Q : Z * ssl_error -> world -> Prop) :
  (forall n se w', (length (w_script w') < length (w_script w))%nat -> n <= zlen data ->
     sends w w' (if 0 <? n then take (Z.to_nat n) data else []) -> Q (n, se) w') ->
  safe (iter (ssl_write_turn data) tt) Q w.
Proof.
  intros HQ.
  apply (wp_iter (λ _ w1, (length (w_script w1) <= length (w_script w))%nat /\ sends w w1 []));
    [|split; [done|by apply sends_refl]].
  intros [] w1 [Hl Hs]. unfold ssl_write_turn. wp_step. pose proof (zlen_nonneg data) as Hd. apply wp_SSL_write; [done|].
  intros rc err se s Hw. assert (length (w_script w1) = S (length s)) as Hl1 by (by rewrite Hw). split; intros Hr.
  - wp_steps. cbn [w_errno with_errno pop].
    assert (sends w (with_errno (pop w1 s) err) []) as Hs'
      by (destruct Hs as (t & Ht & Hp); exists t; done).
    destruct ((rc <? 0) && _); wp_steps.
    + split; [split; [world_simpl; lia|done]|world_simpl; lia].
    + apply HQ; [world_simpl; lia|lia|]. destruct (Z.ltb_spec 0 rc); [lia|done].
  - set (n := Z.min rc (zlen data)). wp_steps.
    destruct (Z.ltb_spec n 0) as [Hn|Hn]; [lia|]. cbn [andb]. wp_steps.
    apply HQ; [world_simpl; lia|unfold n; lia|].
    apply (sends_trans w w1 _ [] _ Hs). exists [SslSent (take (Z.to_nat rc) data)].
    split; [reflexivity|]. etransitivity; [exact (app_nil_r _)|].
    destruct (Z.ltb_spec 0 n) as [Hp|Hp].
    + unfold n. unfold zlen in *. destruct (Z.min_spec rc (Z.of_nat (length data))) as [[_ ->]|[H ->]]; [done|].
      rewrite !take_ge by lia. done.
    + assert (zlen data = 0) as Hz by lia. unfold zlen in Hz. destruct data; [|cbn in Hz; lia]. by rewrite take_nil.
Qed.

(** What an unfinished TLS send leaves on the wire: after a short write the message is
    offered from its first byte again. *)
Definition restarts (data bs : list Z) : Prop :=
  exists ks, Forall (λ k, 0 <= k < zlen data) ks /\ bs = concat ((λ k, take (Z.to_nat k) data) <$> ks).

Lemma restarts_nil data : restarts data [].
Proof. by exists []. Qed.

Lemma restarts_snoc data bs k : 0 <= k < zlen data -> restarts data bs -> restarts data (bs ++ take (Z.to_nat k) data).
Proof.
  intros Hk (ks & Hks & ->). exists (ks ++ [k]). split; [by apply Forall_app; split; [|constructor]|].
  rewrite fmap_app, concat_app. cbn [fmap list_fmap concat]. by rewrite app_nil_r.
Qed.

Lemma wp_ssl_sends data w (Q : option Z -> world -> Prop) :
  zlen data <= STUN_BUFFER_SIZE ->
  (forall w' pre, restarts data pre -> sends w w' (pre ++ data) -> Q (Some (zlen data)) w') ->
  (forall w' bs, restarts data bs -> sends w w' bs -> Q (Some (-1)) w') ->
  (forall w' bs, restarts data bs -> sends w w' bs -> Q None w') ->
  safe (iter (ssl_send_turn data (zlen data)) tt) Q w.
Proof.
  intros Hd HQ HQe HQn. pose proof (zlen_nonneg data) as Hd0. unfold STUN_BUFFER_SIZE, MAX_STUN_MESSAGE_SIZE in Hd.
  assert (to_i32 (zlen data) = zlen data) as Hi by (unfold to_i32; rewrite Z.mod_small by lia; lia).
  apply (wp_iter (λ _ w1, exists bs, restarts data bs /\ sends w w1 bs));
    [|exists []; split; [apply restarts_nil|by apply sends_refl]].
  intros [] w1 (bs & Hrs & Hs). unfold ssl_send_turn. apply wp_bind, wp_shutdown; [done|]. intros down s Hw.
  assert (sends w (pop w1 s) bs) as Hs1 by (destruct Hs as (t & Ht & Hp); exists t; done).
  assert (length (w_script w1) = S (length s)) as Hl1 by (by rewrite Hw).
  destruct down; [wp_steps; by eapply HQe|]. wp_step. apply wp_ssl_writes. intros n se w2 Hl2 Hn Hs2.
  pose proof (sends_trans _ _ _ _ _ Hs1 Hs2) as Hs3. world_simpl. rewrite Hi.
  destruct (Z.eqb_spec n (zlen data)) as [->|Hne].
  - wp_steps. apply (HQ _ bs Hrs). destruct (Z.ltb_spec 0 (zlen data)).
    + unfold zlen in Hs3. by rewrite Nat2Z.id, take_ge in Hs3 by lia.
    + unfold zlen in *. destruct data; [done|cbn in *; lia].
  - assert (exists bs', restarts data bs' /\ sends w w2 bs') as (bs' & Hrs' & Hs').
    { destruct (Z.ltb_spec 0 n); eexists; (split; [|exact Hs3]); [apply restarts_snoc; [lia|done]|by rewrite app_nil_r]. }
    destruct se; wp_steps; try (split; [by exists bs'|lia]); try by eapply HQn.
    destruct (handle_socket_error _); wp_steps; [split; [by exists bs'|lia]|by eapply HQn].
Qed.
(** * send_buffer *)

Definition message_bytes (m : stun_buffer) : list Z := take (Z.to_nat (len m)) (buf m).

Lemma zlen_message_bytes m : buffer_ok m -> zlen (message_bytes m) = len m.
Proof. intros [[_ Hz] Hl]. unfold message_bytes, zlen in *. rewrite length_take. lia. Qed.

Lemma block_ok_write m p bs :
  block_ok m -> bytes bs -> 0 <= p -> p + zlen bs <= STUN_BUFFER_SIZE ->
  exists m', wr_block (buf m) p bs = Some m' /\ block_ok (set_buf m m').
Proof.
  intros [Hb Hz] Hbs Hp Hl. destruct (wr_block_is_Some (buf m) p bs) as [m' Hm]; [lia..|]. exists m'. split; [done|].
  split; cbn [buf set_buf]; [exact (wr_block_bytes _ _ _ _ Hb Hbs Hm)|by rewrite (wr_block_zlen _ _ _ _ Hm)].
Qed.

Lemma bytes_u8 v : bytes [u8 v].
Proof. by repeat constructor; apply u8_range. Qed.

Lemma wp_spoil np m w (Q : stun_buffer -> world -> Prop) :
  buffer_ok m -> 0 < len m ->
  (forall m' w', buffer_ok m' -> len m' = len m -> sends w w' [] -> Q m' w') -> safe (spoil np m) Q w.
Proof.
  revert m w. induction np as [|np IH]; intros m w Hm Hl HQ; cbn [spoil].
  { apply wp_ret, HQ; [done..|by apply sends_refl]. }
  apply wp_bind, wp_random; [done|]. intros r s Hs. apply wp_bind, wp_random; [done|]. intros v s' Hs'. wp_step.
  pose proof Hm as [_ [_ Hl2]]. unfold STUN_BUFFER_SIZE, MAX_STUN_MESSAGE_SIZE in Hl2.
  pose proof (Z.mod_pos_bound (u64 r) (len m) Hl) as Hr.
  assert (to_i32 (u64 r mod len m) = u64 r mod len m) as -> by (unfold to_i32; rewrite Z.mod_small by lia; lia).
  destruct (block_ok_write m (u64 r mod len m) [u8 (u8 (u64 v mod 256))] (proj1 Hm)) as (m1 & Hw & Hok);
    [apply bytes_u8|lia|rewrite zlen_1; unfold STUN_BUFFER_SIZE, MAX_STUN_MESSAGE_SIZE; lia|].
  eapply wp_lift; [exact Hw|]. apply IH; [by split; [|apply Hm]|done|]. intros m' w' Hm' Hl' Hsd. by apply HQ.
Qed.

Lemma wp_negative_protocol m w (Q : stun_buffer -> world -> Prop) :
  buffer_ok m ->
  (forall m' w', buffer_ok m' -> len m' = len m -> (negative_protocol_test cfg = false -> m' = m) ->
     sends w w' [] -> Q m' w') ->
  safe (negative_protocol cfg m) Q w.
Proof.
  intros Hm HQ. unfold negative_protocol.
  assert (forall w', w_trace w' = w_trace w -> Q m w') as Hid by (intros w' Hw; by apply HQ, sends_refl).
  destruct (negative_protocol_test cfg); cbn [andb]; [|by apply wp_ret, Hid].
  destruct (Z.ltb_spec 0 (len m)); [|by apply wp_ret, Hid].
  apply wp_bind, wp_random; [done|]. intros r s Hs. destruct (Z.rem r 10 =? 0); [|by apply wp_ret, Hid].
  apply wp_bind, wp_random; [done|]. intros n s' Hs'. apply wp_spoil; [done..|].
  intros m' w' Hm' Hl' Hsd. by apply HQ.
Qed.

(** What an attempt that did not end leaves on the wire: nothing without a connection, a
    proper prefix of the message on a plain socket (nothing of an empty one). *)
Definition partly (target : option (bool * Z)) (data bs : list Z) : Prop :=
  match target with
  | None => bs = []
  | Some (false, _) => exists k, 0 <= k < Z.max 1 (zlen data) /\ bs = take (Z.to_nat k) data
  | Some (true, _) => restarts data bs
  end.

(** What [send_buffer] returns, and the bytes it put on the wire: the message, which a
    TLS connection gets after what its short writes took, or the return code -1. *)
Inductive send_outcome (c : app_ur_conn_info) (target : option (bool * Z)) (data : list Z) :
    Z -> app_ur_conn_info -> list Z -> Prop :=
| SentAll pre :
    match target with Some (true, _) => restarts data pre | _ => pre = [] end ->
    send_outcome c target data (zlen data) c (pre ++ data)
| SentPart bs :
    partly target data bs ->
    send_outcome c target data (-1) c bs
| SentBroken fd bs :
    target = Some (true, fd) -> partly target data bs ->
    send_outcome c target data (-1) (set_broken c) bs.

Lemma wp_send_buffer c m dc atc w (Q : Z * app_ur_conn_info * stun_buffer -> world -> Prop) :
  buffer_ok m ->
  (forall r c' m' w' bs, buffer_ok m' -> len m' = len m -> (negative_protocol_test cfg = false -> m' = m) ->
     send_outcome c (send_target cfg c dc atc) (message_bytes m') r c' bs -> sends w w' bs -> Q (r, c', m') w') ->
  safe (send_buffer cfg c m dc atc) Q w.
Proof.
  intros Hm HQ. unfold send_buffer. wp_step. apply wp_negative_protocol; [done|].
  intros m' w' Hm' Hl Hid Hs. pose proof (zlen_message_bytes m' Hm') as Hz.
  pose proof (zlen_nonneg (message_bytes m')) as Hz0.
  pose proof Hm' as [[_ Hsz] Hl2]. unfold STUN_BUFFER_SIZE, MAX_STUN_MESSAGE_SIZE in Hsz, Hl2.
  assert (rd_block (buf m') 0 (len m') = Some (message_bytes m')) as Hrd
    by (rewrite rd_block_ok by lia; by rewrite drop_0).
  destruct (send_target cfg c dc atc) as [[ssl fd]|].
  2: { apply wp_ret. eapply HQ; [done..| |exact Hs]. by apply SentPart. }
  destruct ssl.
  - wp_step. eapply wp_lift; [exact Hrd|]. wp_step. rewrite <- Hz. apply wp_ssl_sends.
    + unfold STUN_BUFFER_SIZE, MAX_STUN_MESSAGE_SIZE. lia.
    + intros w2 pre Hp Hs2. wp_steps. eapply HQ; [done..| |exact (sends_trans _ _ _ _ _ Hs Hs2)]. by apply (SentAll _ _ _ pre).
    + intros w2 bs Hp Hs2. wp_steps. eapply HQ; [done..| |exact (sends_trans _ _ _ _ _ Hs Hs2)]. by apply (SentPart _ _ _ bs).
    + intros w2 bs Hp Hs2. wp_steps. eapply HQ; [done..| |exact (sends_trans _ _ _ _ _ Hs Hs2)]. by eapply SentBroken.
  - destruct (Z.leb_spec 0 fd) as [Hfd|Hfd].
    2: { apply wp_ret. eapply HQ; [done..| |exact Hs]. apply SentPart. exists 0. split; [lia|done]. }
    wp_step. apply wp_plain_sends; [lia|]. intros left w2 Hl3 Hleft Hs2.
    pose proof (sends_trans _ _ _ _ _ Hs Hs2) as Hs3. destruct (Z.ltb_spec 0 left); wp_steps.
    + eapply HQ; [done..| |exact Hs3]. apply SentPart. exists (len m' - left). split; [lia|].
      unfold message_bytes. cbn [app]. rewrite take_take. f_equal. lia.
    + eapply HQ; [done..| |exact Hs3]. replace (len m' - left) with (len m') by lia.
      replace (to_i32 (len m')) with (zlen (message_bytes m')).
      * by apply (SentAll _ _ _ []).
      * rewrite Hz. unfold to_i32. rewrite Z.mod_small by lia. lia.
Qed.
(** * Receiving *)

Lemma sends_trace w w1 w2 bs : w_trace w2 = w_trace w1 -> sends w w1 bs -> sends w w2 bs.
Proof. intros He (t & Ht & Hp). exists t. by rewrite He. Qed.

Lemma wp_wait_fd d fd cycle w (Q : Z -> world -> Prop) :
  (forall r w', script_ok w -> script_ok w' -> sends w w' [] -> Q r w') ->
  script_ok w -> safe (wait_fd d fd cycle) Q w.
Proof.
  intros HQ Hok. unfold wait_fd.
  assert (forall r, Q r w) as Hid by (intros r; apply HQ; [done..|by apply sends_refl]).
  destruct (FD_SETSIZE <=? fd); [apply wp_ret, Hid|]. destruct (d && _); [apply wp_ret, Hid|].
  apply wp_bind, wp_time; [done|]. intros t s Hs.
  apply (wp_iter (λ _ w1, script_ok w1 /\ sends w w1 [])).
  2: { split; [|by apply sends_refl]. unfold script_ok in *. rewrite Hs in Hok. by inversion Hok. }
  intros [[c ct] rc0] w1 [Hok1 Hs1]. unfold wait_turn. destruct (match c with O => _ | S _ => _ end) as [ms|].
  2: { apply wp_ret. by apply HQ. }
  wp_step. wp_step. wp_step. apply wp_syscall; [done|]. intros rc err s1 Hs2. world_simpl.
  assert (script_ok (pop w1 s1)) as Hok2 by (unfold script_ok in *; rewrite Hs2 in Hok1; by inversion Hok1).
  assert (forall w2, w_trace w2 = w_trace w1 ++ [Waited ms] -> sends w w2 []) as Hs3.
  { intros w2 Hw2. destruct Hs1 as (t1 & Ht1 & Hp1). exists (t1 ++ [Waited ms]).
    rewrite Hw2, Ht1, app_assoc, payload_app, Hp1. done. }
  assert (length (w_script w1) = S (length s1)) as Hl1 by (by rewrite Hs2).
  split; intros Hr; wp_steps; world_simpl; (destruct ((rc <? 0) && _); [|wp_steps; by apply HQ; [..|apply Hs3]]).
  - apply wp_bind, wp_time; [done|]. intros t2 s2 Hs4. wp_steps. world_simpl.
    assert (length s1 = S (length s2)) as Hl2 by (by rewrite Hs4). split; [split|lia]; [|by apply Hs3].
    unfold script_ok in *. world_simpl. rewrite Hs4 in Hok2. by inversion Hok2.
  - apply wp_bind, wp_time; [done|]. intros t2 s2 Hs4. wp_steps. world_simpl.
    assert (length s1 = S (length s2)) as Hl2 by (by rewrite Hs4). split; [split|lia]; [|by apply Hs3].
    unfold script_ok in *. world_simpl. rewrite Hs4 in Hok2. by inversion Hok2.
Qed.

Lemma script_ok_cons w a s : script_ok w -> w_script w = a :: s -> answer_ok a /\ Forall answer_ok s.
Proof. unfold script_ok. intros H Hs. rewrite Hs in H. by inversion H. Qed.

(** What one reception gives: bytes, at most [size], or no byte. *)
Definition got (size rc : Z) (bs : list Z) : Prop :=
  bytes bs /\ (rc = zlen bs /\ rc <= size \/ rc < 0 /\ bs = []).

Lemma got_bytes size bs : 0 <= size -> bytes bs -> got size (zlen (take (Z.to_nat size) bs)) (take (Z.to_nat size) bs).
Proof.
  intros Hs Hb. split; [by apply bytes_take|]. left. split; [done|]. unfold zlen. rewrite length_take. lia.
Qed.

(** A world reached by consuming answers only. *)
Definition after (w w' : world) : Prop :=
  script_ok w' /\ (length (w_script w') < length (w_script w))%nat /\ w_trace w' = w_trace w.

Lemma after_pop w a s e : script_ok w -> w_script w = a :: s -> after w (with_errno (pop w s) e).
Proof.
  intros Hok Hs. destruct (script_ok_cons _ _ _ Hok Hs) as [_ H]. repeat split; [done|]. by rewrite Hs; cbn; lia.
Qed.

Lemma after_trans w1 w2 w3 : after w1 w2 -> after w2 w3 -> after w1 w3.
Proof. intros (_ & Hl & Ht) (Ho & Hl' & Ht'). repeat split; [done|lia|congruence]. Qed.

Lemma wp_recvs fd size sync w (Q : Z * list Z -> world -> Prop) :
  script_ok w -> 0 <= size ->
  (forall rc bs w', after w w' -> got size rc bs -> Q (rc, bs) w') ->
  safe (iter (recv_turn fd size sync) tt) Q w.
Proof.
  intros Hok Hsz HQ.
  apply (wp_iter (λ _ w1, script_ok w1 /\ (w1 = w \/ after w w1))); [|by auto].
  intros [] w1 [Hok1 Hw1]. unfold recv_turn. wp_step.
  assert (forall w2, after w1 w2 -> after w w2) as Htr.
  { destruct Hw1 as [->|Hw1]; [done|]. intros w2. by apply after_trans. }
  apply wp_recv; [done|..].
  - intros bs s Hs d. destruct (script_ok_cons _ _ _ Hok1 Hs) as [Hbs _]. pose proof (zlen_nonneg d).
    wp_steps. destruct (Z.ltb_spec (zlen d) 0); [lia|]. cbn [andb]. wp_steps.
    destruct (Z.ltb_spec (zlen d) 0); [lia|]. cbn [andb]. wp_steps.
    apply HQ; [|by apply got_bytes]. apply Htr. by apply (after_pop _ _ _ (w_errno w1) Hok1) in Hs.
  - intros rc err s Hs Hrc. wp_steps. destruct ((rc <? 0) && _ && sync); wp_steps; world_simpl;
      (destruct ((rc <? 0) && _); wp_steps; [split; [split; [|right; apply Htr]|]|apply HQ; [apply Htr|by split; [constructor|right]]]);
      try (eapply after_pop; done); try (eapply (after_pop w1); done).
Qed.

Lemma wp_ssl_reads w (Q : Z * list Z * ssl_error -> world -> Prop) :
  script_ok w ->
  (forall rc bs se w', after w w' -> got (STUN_BUFFER_SIZE - 1) rc bs \/ rc = 0 /\ bs = [] -> Q (rc, bs, se) w') ->
  safe (iter ssl_read_turn tt) Q w.
Proof.
  intros Hok HQ.
  apply (wp_iter (λ _ w1, script_ok w1 /\ (w1 = w \/ after w w1))); [|by auto].
  intros [] w1 [Hok1 Hw1]. unfold ssl_read_turn. wp_step.
  assert (forall w2, after w1 w2 -> after w w2) as Htr.
  { destruct Hw1 as [->|Hw1]; [done|]. intros w2. by apply after_trans. }
  apply wp_SSL_read; [done|..].
  - intros bs s Hs d. destruct (script_ok_cons _ _ _ Hok1 Hs) as [Hbs _]. pose proof (zlen_nonneg d).
    wp_steps. destruct (Z.ltb_spec (zlen d) 0); [lia|]. cbn [andb]. wp_steps.
    apply HQ; [|left; by apply got_bytes]. apply Htr. by apply (after_pop _ _ _ (w_errno w1) Hok1) in Hs.
  - intros rc err se s Hs Hrc. pose proof (after_pop _ _ _ err Hok1 Hs) as Ha.
    wp_steps. destruct ((rc <? 0) && _); wp_steps.
    + split; [split; [|right; by apply Htr]|]; apply Ha.
    + apply HQ; [by apply Htr|]. destruct (Z.eq_dec rc 0) as [->|]; [by right|].
      left. split; [constructor|right; split; [lia|done]].
Qed.

(** The last byte of the array, which no reception writes. *)
Definition guard (m : stun_buffer) : Prop := last (buf m) = Some 0.

Lemma guard_write m p bs m' :
  block_ok m -> guard m -> wr_block (buf m) p bs = Some m' -> p + zlen bs <= STUN_BUFFER_SIZE - 1 -> last m' = Some 0.
Proof.
  intros [_ Hz] Hg (Hp & _ & ->)%wr_block_Some Hl. unfold guard in Hg. rewrite app_assoc, last_app.
  rewrite last_lookup in Hg. unfold zlen in *. set (n := (Z.to_nat p + length bs)%nat).
  assert (last (drop n (buf m)) = Some 0) as Hd; [|].
  { rewrite last_lookup, lookup_drop, length_drop. rewrite <- Hg. f_equal. unfold n. lia. }
  replace (Z.to_nat (p + Z.of_nat (length bs))) with n by (unfold n; lia). by rewrite Hd.
Qed.

(** What receiving into [m] leaves there. *)
Definition into (m m' : stun_buffer) : Prop := block_ok m' /\ (guard m -> guard m').

Lemma into_refl m : block_ok m -> into m m.
Proof. by split. Qed.

Lemma into_write m p bs :
  block_ok m -> bytes bs -> 0 <= p -> p + zlen bs <= STUN_BUFFER_SIZE - 1 ->
  exists m', wr_block (buf m) p bs = Some m' /\ into m (set_buf m m').
Proof.
  intros Hm Hb Hp Hl. destruct (block_ok_write m p bs Hm Hb Hp) as (m' & Hw & Hok); [lia|].
  exists m'. split; [done|]. split; [done|]. intros Hg. by apply (guard_write m p bs).
Qed.

(** A reception: -1, nothing, or [rc] bytes at the start of the buffer. *)
Definition reception (w w' : world) (m : stun_buffer) (r : option Z) (m' : stun_buffer) : Prop :=
  into m m' /\ script_ok w' /\ w_trace w' = w_trace w /\
  forall rc, r = Some rc -> 0 < rc -> rc = len m' /\ rc < STUN_BUFFER_SIZE /\
    (length (w_script w') < length (w_script w))%nat.

Lemma reception_none w w' m r : block_ok m -> script_ok w' -> w_trace w' = w_trace w ->
  (forall rc, r = Some rc -> rc <= 0) -> reception w w' m r m.
Proof. intros Hm Hok Ht Hr. split; [by apply into_refl|]. split; [done|]. split; [done|]. intros rc H. specialize (Hr rc H). lia. Qed.

Lemma wp_udp_receive fd sync m w (Q : option Z * stun_buffer -> world -> Prop) :
  block_ok m -> script_ok w -> (forall r m' w', reception w w' m r m' -> Q (r, m') w') ->
  safe (udp_receive fd sync m) Q w.
Proof.
  intros Hm Hok HQ. unfold udp_receive. wp_step. apply wp_recvs; [done|done|].
  intros rc bs w1 (Hok1 & Hl1 & Ht1) [Hb Hrc]. destruct (Z.ltb_spec rc 0).
  { wp_steps. apply HQ, reception_none; by auto. }
  destruct Hrc as [[-> Hle]|[? _]]; [|lia]. wp_step.
  destruct (into_write m 0 bs Hm Hb) as (m1 & Hw & Hi); [lia..|]. eapply wp_lift; [exact Hw|]. wp_steps.
  apply HQ. split; [exact Hi|]. split; [done|]. split; [done|]. intros rc [= <-] Hpos. cbn [len set_len].
  split; [done|]. split; [lia|done].
Qed.

(** The connection after a reception: the same, or broken with [return -1]. *)
Definition conn_after (c c' : app_ur_conn_info) (r : option Z) : Prop := c' = c \/ c' = set_broken c /\ r = None.

Lemma wp_ssl_receive n rc sync c m w (Q : option Z * app_ur_conn_info * stun_buffer -> world -> Prop) :
  block_ok m -> script_ok w -> rc <= 0 \/ (0 < n)%nat ->
  (forall r c' m' w', reception w w' m r m' -> conn_after c c' r -> Q (r, c', m') w') ->
  safe (ssl_receive n rc sync c m) Q w.
Proof.
  revert rc w. induction n as [|n IH]; intros rc w Hm Hok Hn HQ; cbn [ssl_receive].
  { wp_steps. apply HQ; [|by left]. apply reception_none; [done..|]. intros ? [= <-]. lia. }
  apply wp_bind, wp_shutdown; [done|]. intros down s Hs. pose proof (after_pop _ _ _ (w_errno w) Hok Hs) as (Hok1 & Hl1 & Ht1).
  destruct down; [wp_steps; apply HQ; [|by left]; by apply reception_none|].
  wp_step. apply wp_ssl_reads; [done|]. intros rc1 bs se w2 (Hok2 & Hl2 & Ht2) Hgot. world_simpl.
  destruct (Z.ltb_spec 0 rc1) as [Hpos|Hneg].
  - destruct Hgot as [[Hb [[-> Hle]|[? _]]]|[-> _]]; [|lia..]. wp_step.
    destruct (into_write m 0 bs Hm Hb) as (m1 & Hw & Hi); [lia..|]. eapply wp_lift; [exact Hw|]. wp_steps.
    apply HQ; [|by left]. split; [exact Hi|]. split; [done|]. split; [congruence|]. intros rc' [= <-] _. cbn [len set_len].
    split; [done|]. split; [lia|]. lia.
  - assert (safe (if sync then ssl_receive n rc1 sync c m else mret (Some rc1, c, m)) Q w2) as Hagain.
    { destruct sync.
      - apply IH; [done|done|by left|]. intros r c' m' w' (Hi & Ho & Ht & Hr) Hc. apply HQ; [|done].
        split; [done|]. split; [done|]. split; [congruence|]. intros rc' He Hp. destruct (Hr rc' He Hp) as (? & ? & ?).
        repeat split; [done..|lia].
      - wp_steps. apply HQ; [|by left]. apply reception_none; [done|done|congruence|]. by intros ? [= <-]. }
    assert (Q (None, set_broken c, m) w2) as Hbrk.
    { apply HQ; [|by right]. apply reception_none; [done|done|congruence|done]. }
    destruct se; try exact Hagain; try (by wp_steps). wp_step. wp_step.
    destruct (handle_socket_error _); [exact Hagain|by wp_steps].
Qed.

Lemma into_trans m1 m2 m3 : into m1 m2 -> into m2 m3 -> into m1 m3.
Proof. intros [_ H1] [Hb H2]. split; [done|auto]. Qed.

Lemma wp_collect n fd mlen rsf sync m w (Q : Z * list Z -> world -> Prop) :
  block_ok m -> script_ok w -> 0 <= rsf <= mlen -> mlen <= STUN_BUFFER_SIZE - 1 ->
  (forall rsf' m' w', script_ok w' -> (length (w_script w') <= length (w_script w))%nat ->
     w_trace w' = w_trace w -> rsf <= rsf' <= mlen -> into m (set_buf m m') -> Q (rsf', m') w') ->
  safe (collect n fd mlen rsf sync (buf m)) Q w.
Proof.
  revert rsf m w. induction n as [|n IH]; intros rsf m w Hm Hok Hr Hml HQ; cbn [collect].
  { assert (Q (rsf, buf m) w) as H by (apply HQ; [done|lia|done|lia|by split]). by destruct (rsf <? mlen); wp_steps. }
  destruct (Z.ltb_spec rsf mlen); [|wp_steps; apply HQ; [done|lia|done|lia|by split]].
  wp_step. apply wp_recvs; [done|lia|]. intros rc bs w1 (Hok1 & Hl1 & Ht1) [Hb Hrc].
  destruct (Z.ltb_spec 0 rc).
  - destruct Hrc as [[-> Hle]|[? _]]; [|lia]. wp_step.
    destruct (into_write m rsf bs Hm Hb) as (m1 & Hw & Hi); [lia..|]. eapply wp_lift; [exact Hw|].
    apply (IH _ (set_buf m m1)); [apply Hi|done|lia|lia|]. intros rsf' m' w' Ho Hl Ht Hr' Hi'.
    apply HQ; [done|lia|congruence|lia|]. exact (into_trans _ _ _ Hi Hi').
  - apply IH; [done|done|lia|done|]. intros rsf' m' w' Ho Hl Ht Hr' Hi'. apply HQ; [done|lia|congruence|lia|done].
Qed.

(** The framing of the plain TCP branch, on a buffer whose last byte is 0 when no
    data connection gives the length. *)
Lemma tcp_length m rc :
  block_ok m -> guard m -> 0 < rc <= STUN_BUFFER_SIZE - 1 ->
  exists r app, stun_get_message_len_str (Some (buf m)) rc true rc = Some (r, app) /\ -1 <= r <= rc /\ (0 < r -> 0 <= app <= r).
Proof.
  intros [Hb Hz] Hg Hrc. unfold guard in Hg. apply last_Some in Hg as [data Hd].
  unfold STUN_BUFFER_SIZE, MAX_STUN_MESSAGE_SIZE in *. rewrite Hd in Hb, Hz |- *. rewrite zlen_app, zlen_1 in Hz.
  destruct (message_len_total data [] rc true rc Hb) as (r & app & H & Hr & Ha & _); [lia..|].
  exists r, app. by split; [exact H|].
Qed.

Lemma wp_tcp_receive fd sync atc m w (Q : option Z * stun_buffer -> world -> Prop) :
  block_ok m -> guard m -> script_ok w -> 0 <= clmessage_length cfg <= STUN_BUFFER_SIZE - 1 ->
  (forall r m' w', reception w w' m r m' -> Q (r, m') w') ->
  safe (tcp_receive cfg fd sync atc m) Q w.
Proof.
  intros Hm Hg Hok Hcl HQ. unfold tcp_receive. wp_step. apply wp_recvs; [done|done|].
  intros rc bs w1 (Hok1 & Hl1 & Ht1) [Hb Hrc]. destruct (Z.ltb_spec 0 rc) as [Hpos|].
  2: { wp_steps. apply HQ, reception_none; [done..|]. by intros ? [= <-]. }
  destruct Hrc as [[-> Hle]|[? _]]; [|lia]. wp_step.
  destruct (into_write m 0 bs Hm Hb) as (m1 & Hw & Hi); [lia..|]. eapply wp_lift; [exact Hw|]. wp_step.
  set (x := match atc with Some _ => _ | None => _ end).
  assert (exists mlen app, x = Some (mlen, app) /\ mlen <= STUN_BUFFER_SIZE - 1 /\ (0 < mlen -> 0 <= app <= mlen))
    as (mlen & app & Hx & Hmle & Happ).
  { unfold x. destruct atc.
    - set (l := if negb sync then clmessage_length cfg else zlen bs).
      assert (0 <= l) by (unfold l; destruct sync; cbn [negb]; lia).
      destruct (Z.ltb_spec (clmessage_length cfg) l); eexists _, _; (split; [done|]);
        unfold u64, STUN_BUFFER_SIZE, MAX_STUN_MESSAGE_SIZE in *; rewrite ?Z.mod_small by lia; lia.
    - destruct (tcp_length (set_buf m m1) (zlen bs)) as (r & app & He & Hr & Ha); [apply Hi|by apply Hi|lia|].
      cbn [buf set_buf] in He. exists r, app. split; [exact He|]. split; [lia|done]. }
  rewrite Hx. eapply wp_lift; [done|]. cbv beta iota. destruct (Z.ltb_spec 0 mlen) as [Hml|].
  2: { wp_steps. apply HQ. split; [done|]. split; [done|]. split; [done|]. by intros ? [= <-]. }
  wp_step. apply (wp_collect 128 fd mlen 0 sync (set_buf m m1)); [apply Hi|done|lia|done|].
  intros rsf m2 w2 Hok2 Hl2 Ht2 Hr2 Hi2. cbn [buf set_buf] in Hi2.
  assert (into m (set_buf m m2)) as Hi3 by exact (into_trans _ _ _ Hi Hi2). clear Hi2.
  assert (reception w w2 m None (set_buf m m2)) as Hnone.
  { split; [done|]. split; [done|]. split; [congruence|done]. }
  destruct (rsf <? 1); [by wp_steps; apply HQ|]. destruct (_ && _); [by wp_steps; apply HQ|].
  wp_steps. apply HQ. specialize (Happ Hml). unfold STUN_BUFFER_SIZE, MAX_STUN_MESSAGE_SIZE in *.
  split; [by destruct Hi3|]. split; [done|]. split; [congruence|]. intros ? [= <-] _. cbn [len set_len].
  assert (to_i32 app = app) as -> by (unfold to_i32; rewrite Z.mod_small by lia; lia).
  unfold STUN_BUFFER_SIZE, MAX_STUN_MESSAGE_SIZE. repeat split; lia.
Qed.

(** * recv_buffer *)

(** The plain TCP branch searches the buffer for the end of a string. *)
Definition recv_ready (m : stun_buffer) : Prop :=
  block_ok m /\ (use_tcp cfg = true -> use_secure cfg = false -> guard m /\ 0 <= clmessage_length cfg <= STUN_BUFFER_SIZE - 1).

(** The transports [receive] has a branch for. *)
Definition receiving (fd : Z) (ssl : bool) (c : app_ur_conn_info) : bool :=
  if use_secure cfg then ssl && negb (ci_broken c) else 0 <=? fd.

Lemma wp_receive fd ssl sync atc rc0 c m w (Q : option Z * app_ur_conn_info * stun_buffer -> world -> Prop) :
  recv_ready m -> script_ok w ->
  (receiving fd ssl c = false -> Q (Some rc0, c, m) w) ->
  (receiving fd ssl c = true ->
   forall r c' m' w', reception w w' m r m' -> conn_after c c' r -> Q (r, c', m') w') ->
  safe (receive cfg fd ssl sync atc rc0 c m) Q w.
Proof.
  intros [Hm Hg] Hok Hno HQ. unfold receive, receiving in *.
  destruct (use_secure cfg), (use_tcp cfg); cbn [negb andb].
  - destruct (ssl && _); [|by wp_steps; apply Hno]. apply wp_ssl_receive; [done|done|right; lia|]. by apply HQ.
  - destruct (ssl && _); [|by wp_steps; apply Hno]. apply wp_ssl_receive; [done|done|right; lia|]. by apply HQ.
  - destruct (0 <=? fd); [|by wp_steps; apply Hno]. wp_step. destruct Hg as [Hg Hcl]; [done..|].
    apply wp_tcp_receive; [done..|]. intros r m' w' Hr. wp_steps. apply HQ; [done|done|by left].
  - destruct (0 <=? fd); [|by wp_steps; apply Hno]. wp_step.
    apply wp_udp_receive; [done..|]. intros r m' w' Hr. wp_steps. apply HQ; [done|done|by left].
Qed.

(** The transaction id and the method the receiver compares. *)
Lemma tid_from_message m :
  block_ok m -> exists tid, stun_tid_from_message m (replicate 12 0) = Some tid /\ rd_block (buf m) 8 12 = Some tid.
Proof.
  intros [Hb Hz]. unfold stun_tid_from_message, stun_tid_from_message_str, stun_tid_from_string, STUN_TID_SIZE.
  unfold STUN_BUFFER_SIZE, MAX_STUN_MESSAGE_SIZE in Hz.
  destruct (rd_block (buf m) 8 12) as [t|] eqn:E; [|by rewrite rd_block_ok in E by lia].
  pose proof (rd_block_zlen _ _ _ _ E) as Hl. cbn [mbind option_bind].
  rewrite wr_block_full by (rewrite Hl; done). by exists t.
Qed.

Lemma get_method_ok m : block_ok m -> exists k, stun_get_method m = Some k.
Proof.
  intros [Hb Hz]. unfold stun_get_method, stun_get_method_str.
  destruct (Z.ltb_spec (len m) 2); [by eexists|].
  destruct (ldn16_ok (buf m) 0) as (t & -> & _); [done|lia|rewrite Hz; done|]. by eexists.
Qed.

Lemma wp_listen n fd cycle c q dc atc w
    (Q : app_ur_conn_info * stun_buffer + app_ur_conn_info * stun_buffer -> world -> Prop) :
  buffer_ok q -> script_ok w ->
  (forall c' q' w', script_ok w' -> (length (w_script w') <= length (w_script w))%nat ->
     buffer_ok q' -> len q' = len q -> (negative_protocol_test cfg = false -> q' = q) ->
     (c' = c -> Q (inl (c', q')) w') /\ Q (inr (c', q')) w') ->
  safe (listen cfg n fd cycle c q dc atc) Q w.
Proof.
  revert cycle q w. induction n as [|n IH]; intros cycle q w Hq Hok HQ; cbn [listen].
  { wp_steps. by eapply HQ. }
  wp_step. apply (wp_post _ (λ _ w1, script_ok w1)).
  { apply wp_wait_fd; [|done]. by intros. }
  intros serc w1 Hst Hok1. pose proof (steps_length _ _ Hst) as Hl.
  destruct (0 <? serc); [wp_steps; by eapply HQ|]. destruct (serc <? 0); [wp_steps; by eapply HQ|].
  wp_step. apply (wp_post _ (λ x w2, let '(r, c', q') := x in buffer_ok q' /\ len q' = len q /\
     (negative_protocol_test cfg = false -> q' = q) /\ (0 < r -> c' = c))).
  { apply wp_send_buffer; [done|]. intros r c' m' w' bs Hm' Hl' Hid Ho _. repeat split; try done; try apply Hm'.
    intros Hr. by inversion Ho; subst; try lia. }
  intros [[r c'] q'] w2 Hst2 (Hq' & Hlq & Hid & Hc). pose proof (steps_length _ _ Hst2) as Hl2.
  pose proof (script_ok_steps _ _ Hst2 Hok1) as Hok2.
  destruct (Z.leb_spec r 0); [wp_steps; by eapply HQ; [|lia|..]|].
  rewrite (Hc ltac:(lia)). apply IH; [done|done|]. intros c2 q2 w3 Ho3 Hl3 Hb3 Hlq3 Hid3.
  apply HQ; [done|lia|done|lia|]. intros Hn. by rewrite Hid3, Hid.
Qed.

(** A response: the method and the transaction id of the request. *)
Definition answers (q m : stun_buffer) : Prop :=
  exists tid k, stun_tid_from_message q (replicate 12 0) = Some tid /\ stun_get_method q = Some k /\
    stun_tid_from_message m (replicate 12 0) = Some tid /\ stun_get_method m = Some k.

Definition received_ok (req : option stun_buffer) (x : received) : Prop :=
  let '(r, c', m', req') := x in
  recv_ready m' /\ (negative_protocol_test cfg = false -> req' = req) /\
  (forall q', req' = Some q' -> buffer_ok q') /\
  (0 < r -> len m' = r /\ r < STUN_BUFFER_SIZE /\ forall q, req = Some q -> answers q m').

Lemma recv_ready_into m m' : recv_ready m -> into m m' -> recv_ready m'.
Proof. intros [Hm Hg] [Hb Hi]. split; [done|]. intros H1 H2. destruct (Hg H1 H2). auto. Qed.

(** The state of the receiving loop. *)
Definition request_ok (req req1 : option stun_buffer) : Prop :=
  (forall q, req1 = Some q -> buffer_ok q) /\ (negative_protocol_test cfg = false -> req1 = req) /\
  (req1 = None <-> req = None).

Definition recv_inv (req : option stun_buffer) (fd : Z) (ssl : bool) (st : received) (w : world) : Prop :=
  let '(rc, c, m, req1) := st in
  recv_ready m /\ script_ok w /\ request_ok req req1 /\ (rc = 0 \/ receiving fd ssl c = true).

(** The retransmission phase of a turn. *)
Lemma wp_listen_phase fd sync dc atc c req req1 w
    (Q : app_ur_conn_info * option stun_buffer + app_ur_conn_info * option stun_buffer -> world -> Prop) :
  request_ok req req1 -> script_ok w ->
  (forall c' req' w', script_ok w' -> (length (w_script w') <= length (w_script w))%nat -> request_ok req req' ->
     (c' = c -> Q (inl (c', req')) w') /\ Q (inr (c', req')) w') ->
  safe (match req1 with
        | Some q =>
          if negb (use_tcp cfg) && sync && (0 <=? fd) then
            r ← listen cfg MAX_LISTENING_CYCLE_NUMBER fd 0 c q dc atc;
            match r with
            | inl (c, q) => mret (inl (c, Some q))
            | inr (c, q) => mret (inr (c, Some q))
            end
          else mret (inl (c, req1))
        | None => mret (inl (c, req1))
        end) Q w.
Proof.
  intros Hr Hok HQ. assert (Q (inl (c, req1)) w) as Hid by by apply HQ.
  destruct req1 as [q|]; [|by wp_steps]. destruct (negb _ && _ && _); [|by wp_steps].
  destruct Hr as (Hb & Hn & Hi). wp_step. apply wp_listen; [by apply Hb|done|].
  intros c' q' w' Hok' Hl Hq' Hlq Hidq.
  assert (request_ok req (Some q')) as Hr'.
  { split; [by intros ? [= <-]|]. split; [|by split; [|intros Hx%Hi]]. intros Hf. by rewrite <- Hn, Hidq. }
  split; intros; wp_steps; by apply HQ.
Qed.

Lemma wp_recv_again fd ssl sync dc atc tid k req st w :
  recv_inv req fd ssl st w ->
  (forall q, req = Some q -> stun_tid_from_message q (replicate 12 0) = Some tid /\ stun_get_method q = Some k) ->
  safe (recv_again cfg fd ssl sync dc atc tid k st)
    (λ r w', match r with
             | inl st' => recv_inv req fd ssl st' w' /\ (length (w_script w') < length (w_script w))%nat
             | inr x => received_ok req x end) w.
Proof.
  destruct st as [[[rc c] m] req1]. intros (Hm & Hok & Hr & Hrc) Hreq. unfold recv_again. wp_step.
  apply (wp_listen_phase fd sync dc atc c req); [done|done|]. intros c1 req2 w1 Hok1 Hl1 Hr2.
  assert (forall r c' m', into m m' -> (0 < r -> len m' = r /\ r < STUN_BUFFER_SIZE /\ forall q, req = Some q -> answers q m') ->
    received_ok req (r, c', m', req2)) as Hret.
  { intros r c' m' Hi Hpos. destruct Hr2 as (Hb & Hn & _). split; [by eapply recv_ready_into|]. split; [done|]. by split. }
  split; [intros ->|wp_steps; apply Hret; [by apply into_refl, Hm|lia]].
  wp_step. apply wp_receive; [done|done|..].
  - intros Hf. destruct Hrc as [->|]; [|congruence].
    assert (received_ok req (0, c, m, req2)) by (apply Hret; [by apply into_refl, Hm|lia]). by destruct req2; wp_steps.
  - intros Ht r c' m' w2 (Hi & Hok2 & _ & Hr3) Hc. pose proof Hi as [Hm' _].
    destruct r as [rc'|]; [|wp_steps; apply Hret; [done|lia]]. destruct Hc as [->|[_ [=]]].
    destruct (Z.ltb_spec 0 rc') as [Hpos|].
    2: { assert (received_ok req (rc', c, m', req2)) by (apply Hret; [done|lia]). by destruct req2; wp_steps. }
    destruct (Hr3 rc' eq_refl Hpos) as (Hlen & Hsz & Hl2).
    destruct req2 as [q2|].
    2: { wp_steps. apply Hret; [done|]. intros _. split; [done|]. split; [done|]. intros q ->.
         by destruct Hr2 as (_ & _ & [Hx _]); specialize (Hx eq_refl). }
    destruct (tid_from_message m' Hm') as (tid' & Htid & _). destruct (get_method_ok m' Hm') as (k' & Hk).
    assert (recv_inv req fd ssl (rc', c, m', Some q2) w2) as Hinv.
    { split; [by eapply recv_ready_into|]. split; [done|]. split; [done|by right]. }
    wp_step. eapply wp_lift; [exact Htid|]. wp_step. eapply wp_lift; [exact Hk|].
    destruct (Z.eqb_spec k k') as [<-|]; cbn [negb]; [|wp_steps; split; [done|lia]].
    destruct (bool_decide_reflect (tid = tid')) as [<-|]; cbn [negb]; [|wp_steps; split; [done|lia]].
    wp_steps. apply Hret; [done|]. intros _. split; [done|]. split; [done|]. intros q Hq.
    destruct (Hreq q Hq) as [H1 H2]. by exists tid, k.
Qed.

Lemma wp_recv_buffer c m sync dc atc req w :
  recv_ready m -> script_ok w -> (forall q, req = Some q -> buffer_ok q) ->
  safe (recv_buffer cfg c m sync dc atc req) (λ x _, received_ok req x) w.
Proof.
  intros Hm Hok Hq. unfold recv_buffer. wp_step.
  apply (wp_post _ (λ x w', w' = w /\ let '(tid, k) := x in
    forall q, req = Some q -> stun_tid_from_message q (replicate 12 0) = Some tid /\ stun_get_method q = Some k)).
  { destruct req as [q|]; [|by wp_steps]. pose proof (proj1 (Hq q eq_refl)) as Hb.
    destruct (tid_from_message q Hb) as (tid & Ht & _). destruct (get_method_ok q Hb) as (k & Hk).
    wp_step. eapply wp_lift; [exact Ht|]. wp_step. eapply wp_lift; [exact Hk|]. wp_steps. split; [done|].
    by intros ? [= <-]. }
  intros [tid k] w1 _ [-> Hreq]. set (fd := match atc with Some _ => _ | None => ci_fd c end).
  set (ssl := match atc with Some _ => _ | None => ci_ssl c end). cbv zeta.
  apply (wp_iter (recv_inv req fd ssl)).
  - intros st w1 Hi. by apply wp_recv_again.
  - split; [done|]. split; [done|]. split; [|by left]. by split; [|split].
Qed.

(** * The properties *)

(** C13. [send_buffer] is memory safe and delivers the message or says -1, whatever the
    socket or OpenSSL accepts at each call and whichever errors interrupt it
    ([send_outcome]).  With the length as its result a plain socket got exactly the
    message; a TLS connection got it after the beginnings of it that short writes took,
    as each attempt starts at the first byte.  With -1 a plain socket got a proper prefix,
    a TLS connection only such beginnings, and the connection is marked broken or is as
    it was.  The message has the caller's length, and is the caller's unless the fault
    injection ([negative_protocol_test]) changed some of its bytes before the sending. *)
Theorem send_buffer_delivers clnet_info message data_connection atc w :
  buffer_ok message ->
  safe (send_buffer cfg clnet_info message data_connection atc)
    (λ '(r, c', m') w', len m' = len message /\ (negative_protocol_test cfg = false -> m' = message) /\
       exists bs, sends w w' bs /\
         send_outcome clnet_info (send_target cfg clnet_info data_connection atc) (message_bytes m') r c' bs) w.
Proof.
  intros Hm. apply wp_send_buffer; [done|]. intros r c' m' w' bs _ Hl Hid Ho Hs.
  split; [done|]. split; [done|]. by exists bs.
Qed.

(** C6. [recv_buffer] over UDP, DTLS and TLS is memory safe whatever arrives: it stays
    inside the caller's buffer.  Over plain TCP it is so if the last byte of the caller's
    buffer is a NUL, where the search for an HTTP method ends, and
    [0 <= clmessage_length <= 65506], the length a data connection is read by.  A positive
    result is the length of a message which, when a request was given, carries the
    request's method and transaction id. *)
Theorem recv_buffer_answers clnet_info message sync data_connection atc request_message w :
  block_ok message ->
  (use_tcp cfg = true -> use_secure cfg = false ->
     last (buf message) = Some 0 /\ 0 <= clmessage_length cfg <= STUN_BUFFER_SIZE - 1) ->
  script_ok w -> (forall q, request_message = Some q -> buffer_ok q) ->
  safe (recv_buffer cfg clnet_info message sync data_connection atc request_message)
    (λ '(r, _, m', _) _, block_ok m' /\
       (0 < r -> len m' = r /\ r < STUN_BUFFER_SIZE /\ forall q, request_message = Some q -> answers q m')) w.
Proof.
  intros Hm Hg Hok Hq. eapply wp_post; [by apply wp_recv_buffer; [split|..]|].
  intros [[[r c'] m'] q'] w' _ ((Hb & _) & _ & _ & Hr). by split.
Qed.
End spec.

Lemma send_buffer_delivers_witness :
  buffer_ok sample_message /\
  safe (send_buffer sample_cfg sample_conn sample_message false None)
    (λ '(r, c', m') w', len m' = 20 /\ (negative_protocol_test sample_cfg = false -> m' = sample_message) /\
       exists bs, sends (sample_world [ACall 7 EOTHER; ACall (-1) EINTR; ACall 13 EOTHER]) w' bs /\
         send_outcome sample_conn (Some (false, 3)) (message_bytes m') r c' bs)
    (sample_world [ACall 7 EOTHER; ACall (-1) EINTR; ACall 13 EOTHER]).
Proof.
  split; [apply sample_message_ok|].
  exact (send_buffer_delivers sample_cfg sample_conn sample_message false None _ sample_message_ok).
Defined.

Lemma recv_buffer_answers_witness :
  block_ok sample_message /\
  safe (recv_buffer sample_cfg sample_conn sample_message true false None (Some sample_message))
    (λ '(r, _, m', _) _, block_ok m' /\
       (0 < r -> len m' = r /\ r < STUN_BUFFER_SIZE /\ forall q, Some sample_message = Some q -> answers q m'))
    (sample_world [ATime 0; ACall 1 EOTHER; AData (replicate 20 0)]).
Proof.
  split; [apply sample_memory_ok|].
  apply (recv_buffer_answers sample_cfg sample_conn sample_message true false None (Some sample_message)).
  - apply sample_memory_ok.
  - discriminate.
  - unfold script_ok, sample_world. cbn [w_script].
    constructor; [exact I|constructor; [exact I|constructor; [apply bytes_replicate0|constructor]]].
  - intros q [= <-]. apply sample_message_ok.
Defined.
