(* ===== verification/Credentials.v ===== *)
(** Authentication of the client's messages: [add_integrity] and
    [check_integrity] of [p2p/p2p_client.c], with [get_turn_credentials_type] and
    [get_socket_type].

    [stack] gives the contents of the uninitialised locals at each call. *)

From S2P Require Import Prelude Defs IoAddr StunHeader StunAttr StunMsg StunBuffer Crypto Integrity Evp OAuth System Session.

Definition OAUTH_SESSION_LIFETIME : Z := 555.

Inductive SOCKET_TYPE : Type :=
| UNKNOWN_SOCKET | TCP_SOCKET | UDP_SOCKET | TLS_SOCKET | SCTP_SOCKET | TLS_SCTP_SOCKET
| DTLS_SOCKET | TCP_SOCKET_PROXY | TENTATIVE_SCTP_SOCKET | TENTATIVE_TCP_SOCKET.

Definition get_turn_credentials_type : turn_credential_type := TURN_CREDENTIALS_LONG_TERM.

Definition get_socket_type (cfg : config) : SOCKET_TYPE :=
  if use_sctp cfg then
    if use_secure cfg then TLS_SCTP_SOCKET else SCTP_SOCKET
  else if use_tcp cfg then
    if use_secure cfg then TLS_SOCKET else TCP_SOCKET
  else
    if use_secure cfg then DTLS_SOCKET else UDP_SOCKET.

Section credentials.
Context `{C : Crypto} `{V : Evp}.
Context (cfg : config) (stack : world -> frame).

Definition get_frame : prog frame := λ w, Ret (stack w) w.

(** [while(!random_lifetime) random_lifetime = random();] *)
Definition lifetime_turn (_ : unit) : prog (unit + Z) :=
  r ← random;
  if truth r then mret (inr r) else mret (inl tt).

(** The key length of a token: that of the digest. *)
Definition mac_key_length : Z :=
  match shatype cfg with
  | SHATYPE_SHA256 => 32
  | SHATYPE_SHA384 => 48
  | SHATYPE_SHA512 => 64
  | _ => 20
  end.

(** A fresh token, appended to the message; its key becomes that of the
    connection.  [None] is [return -1]. *)
Definition new_token (clnet_info : app_ur_conn_info) (message : stun_buffer)
    : prog (bool * app_ur_conn_info * stun_buffer) :=
  r ← random;
  let cok := u16 r mod 3 in
  let clnet_info := set_cok clnet_info cok in
  nonce ← RAND_bytes 12;
  let halflifetime := Z.quot OAUTH_SESSION_LIFETIME 2 in
  random_lifetime ← iter lifetime_turn tt;
  let random_lifetime := if random_lifetime <? 0 then - random_lifetime else random_lifetime in
  let random_lifetime := Z.rem random_lifetime halflifetime in
  t ← time_;
  let timestamp := u64 (Z.shiftl (u32 t) 16) in
  mac ← RAND_bytes mac_key_length;
  f ← get_frame;
  mac_key ← lift (wr_block (fr_hmac f) 0 mac);
  let otoken := OauthToken (OauthBlock (fr_byte f) (fr_nonce f) mac_key_length mac_key timestamp
                              (u32 (halflifetime + random_lifetime))) in
  okey ← lift (okey_array cfg !! Z.to_nat cok);
  '(rc, etoken) ← lift (encode_oauth_token (Some (ci_server_name clnet_info)) (Some (fr_etoken f)) (Some okey)
                          (Some otoken) (Some nonce) (Entropy 0 [] []) (fr_byte f));
  if rc <? 0 then mret (false, clnet_info, message) else
  etoken ← lift etoken;
  '(_, message) ← lift (stun_attr_add message STUN_ATTRIBUTE_OAUTH_ACCESS_TOKEN (Some (et_token etoken))
                          (to_i32 (et_size etoken)));
  key ← lift (wr_block (ci_key clnet_info) 0 mac);
  mret (true, set_key clnet_info key, message).

Definition add_integrity (clnet_info : app_ur_conn_info) (message : stun_buffer)
    : prog (Z * app_ur_conn_info * stun_buffer) :=
  n0 ← lift (rd8 (ci_nonce clnet_info) 0);
  if truth n0 then
    if oauth cfg && truth (ci_oauth clnet_info) then
      method ← lift (stun_get_method_str (Some (buf message)) (len message));
      '(ok, clnet_info, message) ←
        (if ((method =? STUN_METHOD_ALLOCATE) || (method =? STUN_METHOD_REFRESH)) || negb (ci_key_set clnet_info)
         then new_token clnet_info message
         else mret (true, clnet_info, message));
      if negb ok then mret (-1, clnet_info, message) else
      okey ← lift (okey_array cfg !! Z.to_nat (ci_cok clnet_info));
      f ← get_frame;
      '(rc, message) ← lift (on_sbuf message
        (stun_attr_add_integrity_by_key_str (to_sbuf message) (ok_kid okey) (ci_realm clnet_info) (ci_key clnet_info)
           (ci_nonce clnet_info) (shatype cfg) (fr_pwd f) (fr_hmac f)));
      if rc <? 0 then mret (-1, clnet_info, message) else
      '(rc, m) ← lift (stun_check_message_integrity_by_key_str get_turn_credentials_type (buf message) (len message)
                         (ci_key clnet_info) (fr_pwd f) (shatype cfg) (fr_hmac f));
      if rc <? 1 then mret (-1, clnet_info, set_buf message m) else mret (0, clnet_info, set_buf message m)
    else
      f ← get_frame;
      '(rc, message) ← lift (on_sbuf message
        (stun_attr_add_integrity_by_user_str (to_sbuf message) (g_uname cfg) (ci_realm clnet_info) (g_upwd cfg)
           (ci_nonce clnet_info) (shatype cfg) (fr_key f) (fr_pwd f) (fr_hmac f) (fr_byte f)));
      if rc <? 0 then mret (-1, clnet_info, message) else mret (0, clnet_info, message)
  else mret (0, clnet_info, message).

Definition check_integrity (clnet_info : app_ur_conn_info) (message : stun_buffer) : prog (Z * stun_buffer) :=
  f ← get_frame;
  if oauth cfg && truth (ci_oauth clnet_info) then
    '(rc, m) ← lift (stun_check_message_integrity_by_key_str get_turn_credentials_type (buf message) (len message)
                       (ci_key clnet_info) (fr_pwd f) (shatype cfg) (fr_hmac f));
    mret (rc, set_buf message m)
  else
    '(rc, m) ← lift (stun_check_message_integrity_str get_turn_credentials_type (buf message) (len message)
                       (g_uname cfg) (ci_realm clnet_info) (g_upwd cfg) (shatype cfg) (fr_key f) (fr_pwd f)
                       (fr_hmac f) (fr_byte f));
    if rc <? 1 then mret (-1, set_buf message m) else mret (0, set_buf message m).

Lemma wp_get_frame {F} Q E w : Q (stack w) w -> wpf F get_frame Q E w.
Proof. intros H. by split. Qed.
End credentials.
