(* ===== verification/Sockets.v ===== *)
(** Sockets of the clients: the wrappers of [common/apputils.c] around the system
    calls, the MTU of a connection and the limits of the system.

    The build is for Linux ([SO_REUSEADDR], [SO_REUSEPORT], [SO_BINDTODEVICE],
    [IP_MTU_DISCOVER] exist) without SCTP.  A system call is an answer of the
    environment; the trace shows the integers given to [setsockopt]. *)

From S2P Require Import Prelude Defs CString IoAddr System Session Credentials.

Definition UR_CLIENT_SOCK_BUF_SIZE : Z := 65536.
Definition MIN_MTU : Z := 576 - 20 - 8.
Definition MAX_MTU : Z := 1500 - 20 - 8.
Definition SOSO_MTU : Z := 1300.

(** [setsockopt] of an integer option. *)
Definition setsockopt (v : Z) : prog Z := act (SetOpt v);; syscall.

(** [do err = f() while(err < 0 && errno == EINTR)] *)
Definition retry_turn (_ : unit) : prog (unit + Z) :=
  rc ← syscall;
  err ← get_errno;
  if (rc <? 0) && bool_decide (err = EINTR) then mret (inl tt) else mret (inr rc).
Definition retry : prog Z := iter retry_turn tt.

(** [while(sz > 0) { if(setsockopt(...) < 0) sz = sz/2; else break; }] *)
Definition buf_size_turn (sz : Z) : prog (Z + Z) :=
  if 0 <? sz then
    rc ← setsockopt sz;
    if rc <? 0 then mret (inl (sz / 2)) else mret (inr sz)
  else mret (inr sz).

Definition set_sock_buf_size (fd sz0 : Z) : prog Z :=
  _ ← iter buf_size_turn sz0;
  _ ← iter buf_size_turn sz0;
  mret 0.

Definition socket_set_nonblocking (fd : Z) : prog Z :=
  rc ← syscall; if rc =? -1 then mret (-1) else mret 0.

Definition socket_set_reusable (fd flag : Z) (st : SOCKET_TYPE) : prog Z :=
  if fd <? 0 then mret (-1) else
  _ ← setsockopt flag;
  _ ← setsockopt flag;
  mret 0.

(** [ifname]: a C string. *)
Definition sock_bind_to_device (fd : Z) (ifname : list Z) : prog Z :=
  c ← lift (rd8 ifname 0);
  if (0 <=? fd) && truth c then
    rc ← syscall;
    if rc <? 0 then mret (-1) else mret 0
  else mret 0.

(** Result: the return code and [*out_errno], which is also written after a
    success, and not at all for a bad argument. *)
Definition addr_connect (fd : Z) (addr : ioa_addr) (out_errno : errno) : prog (Z * errno) :=
  if fd <? 0 then mret (-1, out_errno)
  else if (sa_family addr =? AF_INET) || (sa_family addr =? AF_INET6) then
    err ← retry;
    e ← get_errno;
    mret (err, e)
  else mret (-1, out_errno).

Definition addr_bind (fd : Z) (addr : ioa_addr) (reusable : Z) (st : SOCKET_TYPE) : prog Z :=
  if fd <? 0 then mret (-1) else
  _ ← socket_set_reusable fd reusable st;
  if sa_family addr =? AF_INET then retry
  else if sa_family addr =? AF_INET6 then
    _ ← setsockopt 0;
    retry
  else mret (-1).

(** [getsockname] is tried with the size of an IPv6 address, then of an IPv4 one. *)
Definition addr_get_from_sock (fd : Z) (addr : ioa_addr) : prog (Z * ioa_addr) :=
  if fd <? 0 then mret (-1, addr) else
  a ← getsockname;
  match a with
  | Some a => a ← lift (addr_cpy (Some addr) (Some a)); mret (0, a)
  | None =>
    a ← getsockname;
    match a with
    | Some a => a ← lift (addr_cpy (Some addr) (Some a)); mret (0, a)
    | None => mret (-1, addr)
    end
  end.

(** The value given to [setsockopt] is corrected first; the type of service of an
    IPv4 socket is not. *)
Definition CORRECT_RAW_TTL (ttl : Z) : Z := if (ttl <? 0) || (255 <? ttl) then 64 else ttl.
Definition CORRECT_RAW_TOS (tos : Z) : Z := if (tos <? 0) || (255 <? tos) then 0 else tos.

Definition set_raw_socket_ttl (fd family ttl : Z) : prog Z :=
  rc ← setsockopt (CORRECT_RAW_TTL ttl); if rc <? 0 then mret (-1) else mret 0.

Definition set_raw_socket_tos (fd family tos : Z) : prog Z :=
  rc ← setsockopt (if family =? AF_INET6 then CORRECT_RAW_TOS tos else tos);
  if rc <? 0 then mret (-1) else mret 0.

(** [IP_PMTUDISC_DO] is 2, [IP_PMTUDISC_DONT] 0; the IPv6 values are the same. *)
Definition set_socket_df (fd family value : Z) : prog Z :=
  setsockopt (if value =? 0 then 0 else 2).

(** [ssl]: not NULL.  [set_query_mtu] sets an option of the connection. *)
Definition set_mtu_df (ssl : bool) (fd family mtu df_value : Z) : prog Z :=
  if negb ssl || (fd <? 0) then mret 0 else
  ret ← set_socket_df fd family df_value;
  let mtu := if mtu =? 0 then SOSO_MTU else if mtu <? MIN_MTU then MIN_MTU
             else if MAX_MTU <? mtu then MAX_MTU else mtu in
  act (SetMtu mtu);;
  mret ret.

Definition socket_tcp_set_keepalive (fd : Z) (st : SOCKET_TYPE) : prog Z := _ ← setsockopt 1; mret 0.

(** [recv] into a static buffer nobody reads. *)
Definition read_spare_buffer (fd : Z) : prog unit := if 0 <=? fd then _ ← recv fd 65536; mret tt else mret tt.

(** [getsockopt] of an integer option into [v]; [None] for an error, which leaves [v]. *)
Definition getsockopt : prog (option Z) :=
  rc ← syscall; if rc <? 0 then mret None else v ← int_; mret (Some v).

Definition get_raw_socket_ttl (fd family : Z) : prog Z :=
  v ← getsockopt; mret (match v with Some ttl => CORRECT_RAW_TTL ttl | None => TTL_IGNORE end).

Definition get_raw_socket_tos (fd family : Z) : prog Z :=
  v ← getsockopt; mret (match v with Some tos => CORRECT_RAW_TOS tos | None => -1 end).

(** The result is the value read, 0 after an error. *)
Definition get_socket_mtu (fd family : Z) : prog Z :=
  v ← getsockopt; mret (match v with Some mtu => mtu | None => 0 end).

(** [BIO_ctrl(...,BIO_CTRL_DGRAM_QUERY_MTU,...)] *)
Definition get_mtu_from_ssl (ssl : bool) : prog Z := if ssl then int_ else mret SOSO_MTU.

Definition MTU_STEP : Z := 68.

(** The new MTU, from the one that was used and the one of the connection. *)
Definition smaller_mtu (mtu new_mtu : Z) : Z :=
  let new_mtu := if new_mtu <? 1 then mtu else new_mtu in
  let mtu := if MAX_MTU <? new_mtu then MAX_MTU else mtu in
  let mtu := if (0 <? new_mtu) && (new_mtu <? MIN_MTU) then MIN_MTU
             else if new_mtu <? mtu then new_mtu else mtu - MTU_STEP in
  if mtu <? MIN_MTU then MIN_MTU else mtu.

Definition decrease_mtu (ssl : bool) (mtu : Z) : prog Z :=
  if negb ssl then mret mtu else
  new_mtu ← get_mtu_from_ssl ssl;
  let mtu := smaller_mtu mtu new_mtu in
  act (SetMtu mtu);;
  mret mtu.

(** * The system *)

Definition turn_getRandTime : prog Z := sec ← time_; nsec ← int_; mret (u64 (sec + nsec)).

(** [while((setrlimit(...)<0) && (rlim.rlim_cur>0)) rlim.rlim_cur = rlim.rlim_cur>>1;] *)
Definition rlimit_turn (cur : Z) : prog (Z + Z) :=
  rc ← syscall;
  if (rc <? 0) && (0 <? cur) then mret (inl (Z.shiftr cur 1)) else mret (inr cur).

(** The seed, the locale and the signal leave no trace in the model; the decoding table of
    base64 that is built here is the state of [Base64].  The result: the limit on open files
    that was set, 0 without one. *)
Definition set_system_parameters (max_resources : Z) : prog Z :=
  _ ← turn_getRandTime;
  _ ← syscall;
  if truth max_resources then
    v ← getsockopt;
    match v with Some rlim_max => iter rlimit_turn (u64 rlim_max) | None => mret 0 end
  else mret 0.

(** * Socket types *)

Definition socket_type_name (st : SOCKET_TYPE) : list Z :=
  match st with
  | TCP_SOCKET => lit "TCP"
  | SCTP_SOCKET => lit "SCTP"
  | UDP_SOCKET => lit "UDP"
  | TLS_SOCKET => lit "TLS/TCP"
  | TLS_SCTP_SOCKET => lit "TLS/SCTP"
  | DTLS_SOCKET => lit "DTLS"
  | TENTATIVE_TCP_SOCKET => lit "TLS/TCP ?"
  | TENTATIVE_SCTP_SOCKET => lit "TLS/SCTP ?"
  | _ => lit "UNKNOWN"
  end.

Definition is_stream_socket (st : SOCKET_TYPE) : bool :=
  match st with
  | TCP_SOCKET | TCP_SOCKET_PROXY | TLS_SOCKET | TENTATIVE_TCP_SOCKET | SCTP_SOCKET | TLS_SCTP_SOCKET
  | TENTATIVE_SCTP_SOCKET => true
  | _ => false
  end.

Definition is_tcp_socket (st : SOCKET_TYPE) : bool :=
  match st with TCP_SOCKET | TLS_SOCKET | TENTATIVE_TCP_SOCKET => true | _ => false end.

Definition is_sctp_socket (st : SOCKET_TYPE) : bool :=
  match st with SCTP_SOCKET | TLS_SCTP_SOCKET | TENTATIVE_SCTP_SOCKET => true | _ => false end.
