(* ===== verification/Connect.v ===== *)
(** Connecting to the server, and the small functions of
    [p2p/connect_manager.c] that the exchanges share.

    [NetDb] gives [inet_ntop] and the resolver.  A path that ends the process
    ([exit]) is the outcome [Exited]. *)

From S2P Require Import Prelude Defs CString IoAddr MsgAddr AddrText StunHeader StunAttr StunBuffer Crypto Evp System Session Credentials Sockets.

Definition LOCAL_IP : Z := 1.
Definition RELAY_IP : Z := 2.
Definition REFLEXIVE_IP : Z := 3.
Definition REMOTE_IP : Z := 4.
Definition OTHER_IP : Z := 5.

Definition MAX_TLS_CYCLES : Z := 32.

(** * Helpers *)

Definition STUN_ATTRIBUTE_ORIGIN_TEXT1 : list Z := lit "https://carleon.gov:443".
Definition STUN_ATTRIBUTE_ORIGIN_TEXT2 : list Z := lit "ftp://uffrith.net".

(** The results of the appends are not tested. *)
Definition add_origin (origin : list Z) (message : stun_buffer) : option stun_buffer :=
  c ← rd8 origin 0;
  if truth c then
    '(_, message) ← stun_attr_add message STUN_ATTRIBUTE_ORIGIN (Some (cstring STUN_ATTRIBUTE_ORIGIN_TEXT1))
                      (zlen STUN_ATTRIBUTE_ORIGIN_TEXT1);
    n ← strlen origin;
    '(_, message) ← stun_attr_add message STUN_ATTRIBUTE_ORIGIN (Some origin) (to_i32 n);
    '(_, message) ← stun_attr_add message STUN_ATTRIBUTE_ORIGIN (Some (cstring STUN_ATTRIBUTE_ORIGIN_TEXT2))
                      (zlen STUN_ATTRIBUTE_ORIGIN_TEXT2);
    Some message
  else Some message.

Definition get_allocate_address_family (relay_addr : ioa_addr) : Z :=
  if sa_family relay_addr =? AF_INET then STUN_ATTRIBUTE_REQUESTED_ADDRESS_FAMILY_VALUE_DEFAULT
  else if sa_family relay_addr =? AF_INET6 then STUN_ATTRIBUTE_REQUESTED_ADDRESS_FAMILY_VALUE_IPV6
  else STUN_ATTRIBUTE_REQUESTED_ADDRESS_FAMILY_VALUE_INVALID.

(** [sizeof(clnet_info->s_mobile_id)] is 33. *)
Definition read_mobility_ticket (clnet_info : app_ur_conn_info) (message : stun_buffer)
    : option (Z * app_ur_conn_info) :=
  sar ← stun_attr_get_first_by_type message STUN_ATTRIBUTE_MOBILITY_TICKET;
  match sar with
  | None => Some (0, clnet_info)
  | Some _ =>
    smid_len ← stun_attr_get_len (buf message) sar;
    if (0 <? smid_len) && (smid_len <? 33) then
      smid_val ← stun_attr_get_value (buf message) sar;
      match smid_val with
      | None => Some (0, clnet_info)
      | Some v =>
        bs ← rd_block (buf message) v smid_len;
        id ← wr_block (ci_s_mobile_id clnet_info) 0 bs;
        id ← wr8 id smid_len 0;
        Some (0, set_mobile_id clnet_info id)
      end
    else Some (-1, clnet_info)
  end.

Section connect.
Context `{N : NetDb}.
Context (cfg : config) (stack : world -> frame).

(** The text is that of the IPv4 member of the union, whatever the family. *)
Definition notify_ip (type : Z) (addr : ioa_addr) : prog unit :=
  if mCB cfg then act (Notify type (inet_ntop AF_INET (sin_addr_bytes addr)) (nswap16 (sin_port addr)))
  else mret tt.

Definition rare_event : prog bool :=
  if dos cfg then r ← random; mret (u64 r mod 1000 =? 777) else mret false.

Definition not_rare_event : prog bool :=
  if dos cfg then r ← random; mret (u64 r mod 1000 <? 200) else mret false.

(** * clnet_connect *)

Definition socket_connect (fd : Z) (remote_addr : ioa_addr) (connect_err : errno) : prog Z :=
  '(rc, connect_err) ← addr_connect fd remote_addr connect_err;
  if rc <? 0 then
    if bool_decide (connect_err = EINPROGRESS) then mret 0
    else if bool_decide (connect_err = EADDRINUSE) then mret 1
    else mret (-1)
  else mret 0.

(** [do rc = SSL_connect(ssl) while(rc < 0 && errno == EINTR)] *)
Definition ssl_connect_turn (_ : unit) : prog (unit + Z * ssl_error) :=
  '(rc, se) ← SSL_connect;
  err ← get_errno;
  if (rc <? 0) && bool_decide (err = EINTR) then mret (inl tt) else mret (inr (rc, se)).

(** Result: is the connection made, and [*try_again]. *)
Definition tls_turn (connect_cycle : Z) (_ : unit) : prog (unit + bool * bool) :=
  '(rc, se) ← iter ssl_connect_turn tt;
  if 0 <? rc then mret (inr (true, false)) else
  match se with
  | SSL_ERROR_WANT_READ | SSL_ERROR_WANT_WRITE => mret (inl tt)
  | _ => if connect_cycle <? MAX_TLS_CYCLES then act SslFreed;; mret (inr (false, true)) else exit (-1)
  end.

Definition tls_connect (fd : Z) (remote_addr : ioa_addr) (connect_cycle : Z) : prog (bool * bool) :=
  r ← random;
  if root_tls_ctx_num cfg =? 0 then fault else
  (if use_tcp cfg then mret 0 else set_mtu_df true fd (sa_family remote_addr) SOSO_MTU 1);;
  iter (tls_turn connect_cycle) tt.

(** From [start_socket] to the end.  [self]: the strings are the fields of
    [clnet_info] themselves, which [STRCPY] does not copy. *)
Definition connect_turn (port : Z) (remote_address ifname local_address : list Z) (self : bool)
    (st : Z * app_ur_conn_info) : prog (Z * app_ur_conn_info + Z * app_ur_conn_info) :=
  let '(connect_cycle, clnet_info) := st in
  f ← get_frame stack;
  '(rc, remote_addr) ← lift (make_ioa_addr (Some remote_address) port (Some addr_zero) (fr_byte f));
  if rc <? 0 then mret (inr (-1, clnet_info)) else
  remote_addr ← lift remote_addr;
  clnet_fd ← syscall;
  if clnet_fd <? 0 then mret (inr (-1, clnet_info)) else
  rc ← sock_bind_to_device clnet_fd ifname;
  if rc <? 0 then mret (inr (-1, clnet_info)) else
  _ ← set_sock_buf_size clnet_fd UR_CLIENT_SOCK_BUF_SIZE;
  _ ← set_raw_socket_tos clnet_fd (sa_family remote_addr) 0x22;
  _ ← set_raw_socket_ttl clnet_fd (sa_family remote_addr) 47;
  l0 ← lift (rd8 local_address 0);
  f ← get_frame stack;
  l ← (if ci_is_peer clnet_info && (l0 =? 0) then
         '(rc, la) ← lift (make_ioa_addr
                (Some (cstring (if sa_family remote_addr =? AF_INET6 then lit "::1" else lit "127.0.0.1"))) 0
                (Some addr_zero) (fr_byte f));
         if rc <? 0 then mret None else
         la ← lift la;
         _ ← addr_bind clnet_fd la 0 (get_socket_type cfg);
         mret (Some la)
       else
         n ← lift (strlen local_address);
         if 0 <? n then
           '(rc, la) ← lift (make_ioa_addr (Some local_address) 0 (Some addr_zero) (fr_byte f));
           if rc <? 0 then mret None else
           la ← lift la;
           _ ← addr_bind clnet_fd la 0 (get_socket_type cfg);
           mret (Some la)
         else mret (Some addr_zero));
  match l with
  | None => mret (inr (-1, clnet_info))
  | Some local_addr =>
    again ← (if ci_is_peer clnet_info then mret 0 else socket_connect clnet_fd remote_addr EOTHER);
    if 0 <? again then mret (inl (connect_cycle, clnet_info)) else
    '(_, local_addr) ← addr_get_from_sock clnet_fd local_addr;
    ls ← lift (if self then Some (ci_lsaddr clnet_info) else STRCPY (ci_lsaddr clnet_info) 129 local_address);
    rs ← lift (if self then Some (ci_rsaddr clnet_info) else STRCPY (ci_rsaddr clnet_info) 129 remote_address);
    ifn ← lift (if self then Some (ci_ifname clnet_info) else STRCPY (ci_ifname clnet_info) 129 ifname);
    let clnet_info := set_endpoints clnet_info local_addr ls remote_addr rs ifn clnet_fd in
    t ← (if use_secure cfg then
           '(made, try_again) ← tls_connect clnet_fd remote_addr connect_cycle;
           mret (if (made : bool) then Some true else if (try_again : bool) then None else Some false)
         else mret (Some (ci_ssl clnet_info)));
    match t with
    | None => mret (inl (connect_cycle + 1, set_fd clnet_info clnet_fd false))
    | Some ssl =>
      let clnet_info := set_fd clnet_info clnet_fd ssl in
      if use_secure cfg && negb ssl then mret (inr (-1, clnet_info)) else
      notify_ip LOCAL_IP (ci_local_addr clnet_info);;
      notify_ip REMOTE_IP remote_addr;;
      mret (inr (0, clnet_info))
    end
  end.

Definition clnet_connect (port : Z) (remote_address ifname local_address : list Z) (self : bool)
    (clnet_info : app_ur_conn_info) : prog (Z * app_ur_conn_info) :=
  iter (connect_turn port remote_address ifname local_address self) (0, clnet_info).
End connect.
