(* ===== verification/Allocate.v ===== *)
(** The allocation exchange: [clnet_allocate] of [p2p/connect_manager.c], an
    ALLOCATE request until it is granted, then a REFRESH.

    The loops with a count in the code ([af_cycle]) are [Fixpoint]s on what is left
    of it; the receiving loops consume an answer at each turn.  Both callers pass
    NULL for [turn_addr] and [turn_port].  The socket and the OpenSSL connection
    that [clnet_allocate] closes are shown in the trace; freeing a connection twice
    is a fault. *)

From S2P Require Import Prelude Defs CString IoAddr MsgAddr AddrText StunHeader StunAttr StunMsg StunBuffer Crypto Integrity Evp OAuth System Session Transport Credentials Sockets Connect.

Definition UCLIENT_SESSION_LIFETIME : Z := 777.

(** How the handling of one response ends. *)
Inductive verdict : Type :=
| VReturn (rc : Z)     (* return rc *)
| VAgain               (* goto beg_... *)
| VFinished            (* received, exchange finished *)
| VRetry               (* received, to be tried again on a new socket *)
| VUnknown.            (* not received: wait for another one *)

Section allocate.
Context `{N : NetDb} `{C : Crypto} `{V : Evp}.
Context (cfg : config) (stack : world -> frame) (maps : addr_maps).

(** * Responses *)

(** The loop over the attributes of a success response.  Result: [return -1], or
    the connection and whether an address was found; [relay_addr]. *)
Fixpoint relay_loop (n : nat) (m : stun_buffer) (sar : stun_attr_ref) (c : app_ur_conn_info) (relay_addr : ioa_addr)
    : prog (option (bool * app_ur_conn_info) * ioa_addr) :=
  match sar with
  | None => mret (Some (false, c), relay_addr)
  | Some _ =>
    match n with
    | O => diverge
    | S n =>
      attr_type ← lift (stun_attr_get_type (buf m) sar);
      let next (c : app_ur_conn_info) (relay_addr : ioa_addr) :=
        sar ← lift (stun_attr_get_next m sar); relay_loop n m sar c relay_addr in
      if attr_type =? STUN_ATTRIBUTE_XOR_RELAYED_ADDRESS then
        '(rc, relay_addr) ← lift (stun_attr_get_addr maps m sar relay_addr None);
        if rc <? 0 then mret (None, relay_addr) else
        notify_ip cfg RELAY_IP relay_addr;;
        g ← get_globals;
        let want6 := default_address_family g =? STUN_ATTRIBUTE_REQUESTED_ADDRESS_FAMILY_VALUE_IPV6 in
        if negb (addr_any (Some relay_addr)) &&
           (((sa_family relay_addr =? AF_INET) && negb want6) || ((sa_family relay_addr =? AF_INET6) && want6))
        then mret (Some (true, set_relay_addr c relay_addr), relay_addr)
        else next c relay_addr
      else next c relay_addr
    end
  end.

(** What a [challenge] leaves in the connection. *)
Definition with_challenge (c : app_ur_conn_info) (ch : challenge) : app_ur_conn_info :=
  set_challenge c (ch_realm ch) (ch_nonce ch) (default (ci_server_name c) (ch_server_name ch))
    (default (ci_oauth c) (ch_oauth ch)).

(** [stun_is_challenge_response_str(...,&err_code,err_msg,sizeof(err_msg),clnet_info->realm,...)] *)
Definition is_challenge (f : frame) (m : stun_buffer) (c : app_ur_conn_info)
    : option (bool * challenge * app_ur_conn_info) :=
  '(b, ch) ← stun_is_challenge_response_str (buf m) (len m) 129
              (Challenge (Some 0) (Some (fr_err_msg f)) (ci_realm c) (ci_nonce c) (Some (ci_server_name c))
                 (Some (ci_oauth c)));
  Some (b, ch, with_challenge c ch).

(** [if(clnet_info->nonce[0]) if(check_integrity(...) < 0) return -1;]: is it passed? *)
Definition authentic (c : app_ur_conn_info) (m : stun_buffer) : prog (bool * stun_buffer) :=
  n0 ← lift (rd8 (ci_nonce c) 0);
  if truth n0 then
    '(rc, m) ← check_integrity cfg stack c m; mret (negb (rc <? 0), m)
  else mret (true, m).

Definition allocate_granted (c : app_ur_conn_info) (m : stun_buffer) (relay_addr : ioa_addr)
    : prog (verdict * app_ur_conn_info * ioa_addr) :=
  '(ok, m) ← authentic c m;
  if negb ok then mret (VReturn (-1), c, relay_addr) else
  sar ← lift (stun_attr_get_first m);
  '(r, relay_addr) ← relay_loop (attr_fuel (len m)) m sar c relay_addr;
  match r with
  | Some (true, c) =>
    rt_sar ← lift (stun_attr_get_first_by_type m STUN_ATTRIBUTE_RESERVATION_TOKEN);
    rtv ← lift (stun_attr_get_reservation_token_value (buf m) rt_sar);
    g ← get_globals;
    set_globals (Globals (allocate_rtcp g) rtv (default_address_family g) (g_peer_addr g));;
    '(_, c) ← lift (read_mobility_ticket c m);
    mret (VFinished, c, relay_addr)
  | _ => mret (VReturn (-1), c, relay_addr)
  end.

(** [turn_addr] and [*turn_port]; [None]: the pointers are NULL. *)
Abbreviation turn_server := (option (list Z * Z))%type.

Definition set_turn_server (alternate_server : ioa_addr) (turn : turn_server) : option turn_server :=
  match turn with
  | None => Some None
  | Some (turn_addr, _) =>
    '(_, turn_addr) ← addr_to_string_no_port (Some alternate_server) (Some turn_addr);
    turn_addr ← turn_addr;
    Some (Some (turn_addr, u16 (addr_get_port (Some alternate_server))))
  end.

Definition allocate_refused (c : app_ur_conn_info) (m : stun_buffer) (err_code : Z) (turn : turn_server)
    : prog (verdict * turn_server) :=
  f ← get_frame stack;
  t ← (if err_code =? 300 then
         '(ok, m) ← authentic c m;
         if (ok : bool) then
           '(rc, alternate_server) ←
             lift (stun_attr_get_first_addr maps m STUN_ATTRIBUTE_ALTERNATE_SERVER (fr_addr f) None);
           turn ← lift (if rc =? -1 then Some turn else set_turn_server alternate_server turn);
           mret (Some turn)
         else mret None
       else mret (Some turn));
  match t with
  | None => mret (VReturn (-1), turn)
  | Some turn =>
    if negb (err_code =? 437) then
      g ← get_globals;
      set_globals (Globals (allocate_rtcp g) 0 (default_address_family g) (g_peer_addr g));;
      mret (VReturn (-1), turn)
    else mret (VRetry, turn)
  end.

(** One response of length [n] in [m]. *)
Definition allocate_response (c : app_ur_conn_info) (m : stun_buffer) (n : Z) (relay_addr : ioa_addr)
    (turn : turn_server) : prog (verdict * app_ur_conn_info * ioa_addr * turn_server) :=
  let m := set_len m n in
  f ← get_frame stack;
  success ← lift (stun_is_success_response m);
  if (success : bool) then
    '(v, c, relay_addr) ← allocate_granted c m relay_addr; mret (v, c, relay_addr, turn)
  else
  '(b, ch, c) ← lift (is_challenge f m c);
  if (b : bool) then mret (VAgain, c, relay_addr, turn) else
  '(b, err_code, _) ← lift (stun_is_error_response m (ch_err_code ch) (ch_err_msg ch) 129);
  if (b : bool) then
    err_code ← lift err_code;
    '(v, turn) ← allocate_refused c m err_code turn;
    mret (v, c, relay_addr, turn)
  else mret (VUnknown, c, relay_addr, turn).

(** The state the exchanges thread: the connection, the two messages, and what the
    pointers of the caller point to. *)
Record exchange : Type := Exchange {
  ex_conn : app_ur_conn_info;
  ex_request : stun_buffer;
  ex_response : stun_buffer;
  ex_relay : ioa_addr;
  ex_turn : turn_server;
}.

(** [while(!allocate_received)]; [None] is the [break] after a failed receive. *)
Definition allocate_receive_turn (ex : exchange) : prog (exchange + option verdict * exchange) :=
  '(n, c, m, req) ← recv_buffer cfg (ex_conn ex) (ex_response ex) true false None (Some (ex_request ex));
  req ← lift req;
  if 0 <? n then
    '(v, c, relay, turn) ← allocate_response c m n (ex_relay ex) (ex_turn ex);
    let ex := Exchange c req m relay turn in
    match v with VUnknown => mret (inl ex) | _ => mret (inr (Some v, ex)) end
  else mret (inr (None, Exchange c req m (ex_relay ex) (ex_turn ex))).

(** * Requests *)

(** The [ep] argument: -1 for no EVEN-PORT, else its value. *)
Definition even_port (rt : bool) : prog Z :=
  let ep := negb (no_rtcp cfg) && negb (dual_allocation cfg) in
  if is_TCP_relay cfg then mret (-1)
  else if rt then mret (-1)
  else if negb ep then r ← random; mret (u8 r mod 2 - 1)
  else mret 1.

(** The request up to its fingerprint; [inl] is [return -1], with what [add_integrity]
    left in the connection. *)
Definition allocate_request (af : Z) (c : app_ur_conn_info) (m : stun_buffer)
    : prog (app_ur_conn_info + app_ur_conn_info * stun_buffer) :=
  let af4 := dual_allocation cfg || (af =? STUN_ATTRIBUTE_REQUESTED_ADDRESS_FAMILY_VALUE_IPV4) in
  let af6 := dual_allocation cfg || (af =? STUN_ATTRIBUTE_REQUESTED_ADDRESS_FAMILY_VALUE_IPV6) in
  g ← get_globals;
  token ← lift (_ioa_ntoh64 (current_reservation_token g));
  let rt := if negb (no_rtcp cfg) && allocate_rtcp g then Some (le_split 8 token) else None in
  ep ← even_port (match rt with Some _ => true | None => false end);
  e ← entropy_;
  let lifetime := if dos cfg then Z.quot UCLIENT_SESSION_LIFETIME 3 else UCLIENT_SESSION_LIFETIME in
  '(_, m) ← lift (stun_set_allocate_request m lifetime af4 af6 (relay_transport cfg) (mobility cfg) rt ep e);
  '(_, m) ← lift (if truth (bps cfg) then on_sbuf m (stun_attr_add_bandwidth_str (to_sbuf m) (bps cfg))
                  else Some (0, m));
  '(_, m) ← lift (if dont_fragment cfg then stun_attr_add m STUN_ATTRIBUTE_DONT_FRAGMENT None 0 else Some (0, m));
  m ← lift (add_origin (origin cfg) m);
  '(rc, c, m) ← add_integrity cfg stack c m;
  if rc <? 0 then mret (inl c) else
  '(_, m) ← lift (on_sbuf m (stun_attr_add_fingerprint_str (to_sbuf m)));
  mret (inr (c, m)).

(** [if(reopen_socket && !use_tcp)] *)
Definition reopen (reopen_socket : bool) (c : app_ur_conn_info) : prog (bool * app_ur_conn_info) :=
  if reopen_socket && negb (use_tcp cfg) then
    act (Closed (ci_fd c));;
    '(rc, c) ← clnet_connect cfg stack (addr_get_port (Some (ci_remote_addr c))) (ci_rsaddr c) (ci_ifname c)
                 (ci_lsaddr c) true (set_fd c (-1) (ci_ssl c));
    if rc <? 0 then exit (-1) else mret (false, c)
  else mret (reopen_socket, c).

(** [while(!allocate_finished && af_cycle++ < 32)], re-entered by [goto beg_allocate]:
    [n] is [32 - af_cycle].  [inl] is a return, [inr] the end of the loop with
    [allocate_finished]. *)
Fixpoint allocate_loop (n : nat) (reopen_socket : bool) (af : Z) (ex : exchange)
    : prog (Z * exchange + bool * exchange) :=
  match n with
  | O => mret (inr (false, ex))
  | S n =>
    '(reopen_socket, c) ← reopen reopen_socket (ex_conn ex);
    r ← allocate_request af c (ex_request ex);
    match r with
    | inl c => mret (inl (-1, Exchange c (ex_request ex) (ex_response ex) (ex_relay ex) (ex_turn ex)))
    | inr (c, req) =>
      '(k, c, req) ← send_buffer cfg c req false None;
      if k <=? 0 then exit 1 else
      let ex := Exchange c req (ex_response ex) (ex_relay ex) (ex_turn ex) in
      rare ← not_rare_event cfg;
      if (rare : bool) then mret (inl (0, ex)) else
      '(v, ex) ← iter allocate_receive_turn ex;
      match v with
      | None => allocate_loop n reopen_socket af ex
      | Some (VReturn rc) => mret (inl (rc, ex))
      | Some VFinished => mret (inr (true, ex))
      | Some VRetry => allocate_loop n true af ex
      | Some VAgain | Some VUnknown => allocate_loop n reopen_socket af ex
      end
    end
  end.

(** * Mobility *)

(** [SSL_shutdown(ssl); SSL_free(ssl);] of a connection that may be freed already. *)
Definition ssl_free (freed : bool) : prog unit :=
  if freed then fault else act SslFreed.

(** [if(clnet_info->s_mobile_id[0])]: the socket is replaced.  [ssl] and [fd] are
    the local copies; [freed]: [ssl] still points to the connection that was freed. *)
Definition mobile_reopen (c : app_ur_conn_info) : prog app_ur_conn_info :=
  id0 ← lift (rd8 (ci_s_mobile_id c) 0);
  if negb (truth id0) then mret c else
  close_now ← random;
  '(fd, ssl, freed) ←
    (if truth (Z.rem close_now 2) then
       close_socket ← random;
       if ci_ssl c && negb (truth (Z.rem close_socket 2)) then ssl_free false;; mret (-1, ci_ssl c, true)
       else if 0 <=? ci_fd c then act (Closed (ci_fd c));; mret (-1, false, false)
       else mret (ci_fd c, ci_ssl c, false)
     else mret (ci_fd c, ci_ssl c, false));
  '(rc, c) ← clnet_connect cfg stack (addr_get_port (Some (ci_remote_addr c))) (ci_rsaddr c) (ci_ifname c)
               (ci_lsaddr c) false (set_fd c (-1) false);
  if rc <? 0 then exit (-1) else
  (if (ssl : bool) then ssl_free freed
   else if 0 <=? fd then act (Closed fd) else mret tt);;
  mret c.

(** * REFRESH *)

(** [((uint8_t) random()) % 3]: no address family, IPv4 or IPv6. *)
Definition add_random_family (m : stun_buffer) : prog stun_buffer :=
  if dual_allocation cfg && negb (mobility cfg) then
    r ← random;
    let t := u8 r mod 3 in
    if truth t then
      let v := if t =? 1 then STUN_ATTRIBUTE_REQUESTED_ADDRESS_FAMILY_VALUE_IPV4
               else STUN_ATTRIBUTE_REQUESTED_ADDRESS_FAMILY_VALUE_IPV6 in
      '(_, m) ← lift (stun_attr_add m STUN_ATTRIBUTE_REQUESTED_ADDRESS_FAMILY (Some [v; 0; 0; 0]) 4);
      mret m
    else mret m
  else mret m.

Definition refresh_request (c : app_ur_conn_info) (m : stun_buffer)
    : prog (app_ur_conn_info + app_ur_conn_info * stun_buffer) :=
  e ← entropy_;
  m ← lift (stun_init_request STUN_METHOD_REFRESH m e);
  '(_, m) ← lift (stun_attr_add m STUN_ATTRIBUTE_LIFETIME (Some (le_split 4 (nswap32 UCLIENT_SESSION_LIFETIME))) 4);
  id0 ← lift (rd8 (ci_s_mobile_id c) 0);
  m ← (if truth id0 then
         n ← lift (strlen (ci_s_mobile_id c));
         '(_, m) ← lift (stun_attr_add m STUN_ATTRIBUTE_MOBILITY_TICKET (Some (ci_s_mobile_id c)) (to_i32 n));
         mret m
       else mret m);
  m ← add_random_family m;
  m ← lift (add_origin (origin cfg) m);
  '(rc, c, m) ← add_integrity cfg stack c m;
  if rc <? 0 then mret (inl c) else
  '(_, m) ← lift (on_sbuf m (stun_attr_add_fingerprint_str (to_sbuf m)));
  mret (inr (c, m)).

(** One response, of length [n]. *)
Definition refresh_response (c : app_ur_conn_info) (m : stun_buffer) (n : Z)
    : prog (verdict * app_ur_conn_info) :=
  let m := set_len m n in
  f ← get_frame stack;
  success ← lift (stun_is_success_response m);
  if (success : bool) then
    '(_, c) ← lift (read_mobility_ticket c m);
    mret (VFinished, c)
  else
    '(b, ch, c) ← lift (is_challenge f m c);
    if (b : bool) then mret (VAgain, c) else
    '(b, _, _) ← lift (stun_is_error_response m (ch_err_code ch) (ch_err_msg ch) 129);
    if (b : bool) then mret (VReturn (-1), c) else mret (VUnknown, c).

(** With a mobility ticket two messages are received, the second one is used. *)
Definition refresh_receive_turn (ex : exchange) : prog (exchange + verdict * exchange) :=
  '(n, c, m, req) ← recv_buffer cfg (ex_conn ex) (ex_response ex) true false None (Some (ex_request ex));
  id0 ← lift (rd8 (ci_s_mobile_id c) 0);
  '(n, c, m, req) ← (if truth id0 then recv_buffer cfg c m true false None req else mret (n, c, m, req));
  req ← lift req;
  if 0 <? n then
    '(v, c) ← refresh_response c m n;
    let ex := Exchange c req m (ex_relay ex) (ex_turn ex) in
    match v with VUnknown => mret (inl ex) | _ => mret (inr (v, ex)) end
  else exit (-1).

(** From [beg_refresh]: [n] is the number of requests [af_cycle++ > 32] allows. *)
Fixpoint refresh_loop (n : nat) (ex : exchange) : prog (Z * exchange) :=
  match n with
  | O => exit (-1)
  | S n =>
    r ← refresh_request (ex_conn ex) (ex_request ex);
    match r with
    | inl c => mret (-1, Exchange c (ex_request ex) (ex_response ex) (ex_relay ex) (ex_turn ex))
    | inr (c, req) =>
      '(k, c, req) ← send_buffer cfg c req false None;
      if k <=? 0 then exit 1 else
      id0 ← lift (rd8 (ci_s_mobile_id c) 0);
      '(c, req) ← (if truth id0 then '(_, c, req) ← send_buffer cfg c req false None; mret (c, req)
                   else mret (c, req));
      let ex := Exchange c req (ex_response ex) (ex_relay ex) (ex_turn ex) in
      rare ← not_rare_event cfg;
      if (rare : bool) then mret (0, ex) else
      '(v, ex) ← iter refresh_receive_turn ex;
      match v with
      | VReturn rc => mret (rc, ex)
      | VFinished => mret (0, ex)
      | _ => refresh_loop n ex
      end
    end
  end.

Definition MAX_ALLOCATE_CYCLES : nat := 32.
Definition MAX_REFRESH_CYCLES : nat := 33.

(** [turn]: where the address of an alternate server goes. *)
Definition clnet_allocate (af : Z) (clnet_info : app_ur_conn_info) (relay_addr : ioa_addr) (turn : turn_server)
    : prog (Z * app_ur_conn_info * ioa_addr * turn_server) :=
  f ← get_frame stack;
  let ex := Exchange clnet_info (fr_buffer f) (fr_buffer f) relay_addr turn in
  r ← allocate_loop MAX_ALLOCATE_CYCLES false af ex;
  match r with
  | inl (rc, ex) => mret (rc, ex_conn ex, ex_relay ex, ex_turn ex)
  | inr (allocate_finished, ex) =>
    rare ← rare_event cfg;
    if (rare : bool) then mret (0, ex_conn ex, ex_relay ex, ex_turn ex) else
    if negb allocate_finished then exit (-1) else
    g ← get_globals;
    set_globals (Globals (negb (allocate_rtcp g)) (current_reservation_token g) (default_address_family g)
                   (g_peer_addr g));;
    c ← mobile_reopen (ex_conn ex);
    '(rc, ex) ← refresh_loop MAX_REFRESH_CYCLES (Exchange c (ex_request ex) (ex_response ex) (ex_relay ex) (ex_turn ex));
    mret (rc, ex_conn ex, ex_relay ex, ex_turn ex)
  end.
End allocate.
