(* ===== verification/Bind.v ===== *)
(** Channel binding and permissions: [turn_channel_bind], [turn_create_permission],
    [bind_real], [start_connection] and [start_c2c_connection] of
    [p2p/connect_manager.c].

    A challenge re-enters the request with [goto], without a count: the exchanges
    are loops ([iter]) whose turns consume the answers of the environment. *)

From S2P Require Import Prelude Defs CString IoAddr MsgAddr AddrText StunHeader StunAttr StunMsg StunBuffer Crypto Integrity Evp OAuth System Session Transport Credentials Sockets Connect Allocate.

Definition EXTRA_CREATE_PERMS : Z := 25.

Section bind.
Context `{N : NetDb} `{C : Crypto} `{V : Evp}.
Context (cfg : config) (stack : world -> frame) (maps : addr_maps).

(** * Channel binding *)

(** The state of an exchange: the connection, the request, the response. *)
Abbreviation bind_state := (Z * app_ur_conn_info * stun_buffer * stun_buffer)%type.

(** The end of a request: origin, integrity, fingerprint; [inl] is [return -1], with what
    [add_integrity] left in the connection. *)
Definition seal_request (c : app_ur_conn_info) (m : stun_buffer) : prog (app_ur_conn_info + app_ur_conn_info * stun_buffer) :=
  m ← lift (add_origin (origin cfg) m);
  '(rc, c, m) ← add_integrity cfg stack c m;
  if rc <? 0 then mret (inl c) else
  '(_, m) ← lift (on_sbuf m (stun_attr_add_fingerprint_str (to_sbuf m)));
  mret (inr (c, m)).

(** A random channel number is drawn when [chn] is not one. *)
Definition bind_request (chn : Z) (peer_addr : ioa_addr) (m : stun_buffer) : prog (Z * stun_buffer) :=
  chn ← (if negative_test cfg then r ← random; mret (u16 r) else mret chn);
  er ← (if STUN_VALID_CHANNEL chn then mret (Entropy 0 [] []) else entropy_);
  e ← entropy_;
  lift (stun_set_channel_bind_request maps m (Some peer_addr) chn er e).

(** One response; the exchanges of this file share its cases. *)
Definition bind_response (c : app_ur_conn_info) (m : stun_buffer) : prog (verdict * app_ur_conn_info * stun_buffer) :=
  f ← get_frame stack;
  success ← lift (stun_is_success_response m);
  if (success : bool) then
    '(ok, m) ← authentic cfg stack c m;
    mret (if (ok : bool) then VFinished else VReturn (-1), c, m)
  else
    '(b, ch, c) ← lift (is_challenge f m c);
    if (b : bool) then mret (VAgain, c, m) else
    '(b, _, _) ← lift (stun_is_error_response m (ch_err_code ch) (ch_err_msg ch) 129);
    if (b : bool) then mret (VReturn (-1), c, m) else mret (VUnknown, c, m).

(** [while(!cb_received)]; [None] is a failed receive. *)
Definition bind_receive_turn (st : app_ur_conn_info * stun_buffer * stun_buffer)
    : prog (app_ur_conn_info * stun_buffer * stun_buffer +
            option verdict * app_ur_conn_info * stun_buffer * stun_buffer) :=
  let '(c, req, m) := st in
  '(n, c, m, req) ← recv_buffer cfg c m true false None (Some req);
  req ← lift req;
  if 0 <? n then
    '(v, c, m) ← bind_response c m;
    match v with VUnknown => mret (inl (c, req, m)) | _ => mret (inr (Some v, c, req, m)) end
  else mret (inr (None, c, req, m)).

(** From [beg_bind] to the next [goto] or the return. *)
Definition bind_turn (peer_addr : ioa_addr) (st : bind_state) : prog (bind_state + Z * Z * app_ur_conn_info) :=
  let '(chn, c, req, m) := st in
  '(chn, req) ← bind_request chn peer_addr req;
  r ← seal_request c req;
  match r with
  | inl c => mret (inr (-1, chn, c))
  | inr (c, req) =>
    '(k, c, req) ← send_buffer cfg c req false None;
    if k <=? 0 then mret (inr (-1, chn, c)) else
    rare ← not_rare_event cfg;
    if (rare : bool) then mret (inr (0, chn, c)) else
    '(v, c, req, m) ← iter bind_receive_turn (c, req, m);
    match v with
    | None => mret (inr (-1, chn, c))
    | Some (VReturn rc) => mret (inr (rc, chn, c))
    | Some VAgain => mret (inl (chn, c, req, m))
    | Some _ => mret (inr (0, chn, c))
    end
  end.

(** Result: the return code, [*chn] and the connection. *)
Definition turn_channel_bind (chn : Z) (clnet_info : app_ur_conn_info) (peer_addr : ioa_addr)
    : prog (Z * Z * app_ur_conn_info) :=
  f ← get_frame stack;
  iter (bind_turn peer_addr) (chn, clnet_info, fr_buffer f, fr_buffer f).

(** * Permissions *)

Fixpoint add_peers (m : stun_buffer) (peers : list ioa_addr) : option stun_buffer :=
  match peers with
  | [] => Some m
  | a :: peers => '(_, m) ← stun_attr_add_addr maps m STUN_ATTRIBUTE_XOR_PEER_ADDRESS a; add_peers m peers
  end.

Definition permission_turn (peers : list ioa_addr) (st : app_ur_conn_info * stun_buffer * stun_buffer)
    : prog (app_ur_conn_info * stun_buffer * stun_buffer + Z * app_ur_conn_info) :=
  let '(c, req, m) := st in
  e ← entropy_;
  req ← lift (stun_init_request STUN_METHOD_CREATE_PERMISSION req e);
  req ← lift (add_peers req peers);
  r ← seal_request c req;
  match r with
  | inl c => mret (inr (-1, c))
  | inr (c, req) =>
    '(k, c, req) ← send_buffer cfg c req false None;
    if k <=? 0 then exit 1 else
    rare ← not_rare_event cfg;
    if (rare : bool) then mret (inr (0, c)) else
    '(v, c, req, m) ← iter bind_receive_turn (c, req, m);
    match v with
    | None => exit (-1)
    | Some (VReturn rc) => mret (inr (rc, c))
    | Some VAgain => mret (inl (c, req, m))
    | Some _ => mret (inr (0, c))
    end
  end.

(** [peers]: the array and [addrnum].  The text form of the first address is only
    logged. *)
Definition turn_create_permission (clnet_info : app_ur_conn_info) (peers : list ioa_addr)
    : prog (Z * app_ur_conn_info) :=
  if no_permissions cfg || (zlen peers <? 1) then mret (0, clnet_info) else
  f ← get_frame stack;
  _ ← lift (addr_to_string (head peers) (Some (replicate 129 0)));
  iter (permission_turn peers) (clnet_info, fr_buffer f, fr_buffer f).

(** * bind_real *)

(** [addr_set_port(&a, port); u[random % 4] = u[random % 4] + 1;] *)
Definition tweak_addr (a : ioa_addr) (port : Z) : prog ioa_addr :=
  a ← lift (addr_set_port (Some a) port);
  i ← random;
  j ← random;
  let u := le_split 4 (s_addr a) in
  v ← lift (rd8 u (u16 j mod 4));
  u ← lift (wr8 u (u16 i mod 4) (v + 1));
  mret (set_s_addr a (le_combine u)).

(** The address of the tests: a text, or an IPv6 one every other time. *)
Definition random_peer (text : list Z) : prog ioa_addr :=
  r ← random;
  let sarbaddr := if Z.rem r 2 =? 0 then lit "2001::172" else text in
  f ← get_frame stack;
  '(_, a) ← lift (make_ioa_addr (Some (cstring sarbaddr)) 333 (Some (fr_addr f)) (fr_byte f));
  lift a.

Fixpoint extra_binds (n : nat) (c : app_ur_conn_info) (arbaddr : ioa_addr) : prog app_ur_conn_info :=
  match n with
  | O => mret c
  | S n =>
    r ← random;
    let port := u16 r in
    let port := if port <? 1024 then port + 1024 else port in
    arbaddr ← tweak_addr arbaddr port;
    '(_, _, c) ← turn_channel_bind 0 c arbaddr;
    extra_binds n c arbaddr
  end.

(** [arbaddr[i]] from [i]; [first] is [arbaddr[0]], which its own turn changes. *)
Fixpoint extra_peers (n : nat) (first : ioa_addr) : prog (list ioa_addr) :=
  match n with
  | O => mret []
  | S n => r ← random; a ← tweak_addr first (u16 r); l ← extra_peers n first; mret (a :: l)
  end.

Definition extra_permissions (c : app_ur_conn_info) : prog app_ur_conn_info :=
  if negb (extra_requests cfg) then mret c else
  first ← random_peer (lit "64.56.78.90");
  r ← random;
  let maxi := Z.to_nat (u16 r mod EXTRA_CREATE_PERMS) in
  peers ← match maxi with
          | O => mret []
          | S n => r ← random; first ← tweak_addr first (u16 r); l ← extra_peers n first; mret (first :: l)
          end;
  '(_, c) ← turn_create_permission c peers;
  mret c.

(** The path of [!do_not_use_channel], from the second channel binding on. *)
Definition bind_channels (c : app_ur_conn_info) (chn : Z) (peer : ioa_addr) : prog app_ur_conn_info :=
  '(rc, chn, c) ← turn_channel_bind chn c peer;
  if rc <? 0 then mret c else
  rare ← rare_event cfg;
  if (rare : bool) then mret c else
  c ← (if extra_requests cfg then
         arbaddr ← random_peer (lit "164.156.178.190");
         r ← random;
         extra_binds (Z.to_nat (u16 r mod EXTRA_CREATE_PERMS)) c arbaddr
       else mret c);
  rare ← rare_event cfg;
  if (rare : bool) then mret c else extra_permissions c.

Definition bind_permissions (c : app_ur_conn_info) (peer : ioa_addr) : prog app_ur_conn_info :=
  r ← random;
  let before := Z.rem r 2 =? 0 in
  '(stop, c) ← (if before then
                  '(rc, c) ← turn_create_permission c [peer];
                  if rc <? 0 then mret (true, c) else rare ← rare_event cfg; mret (rare, c)
                else mret (false, c));
  if (stop : bool) then mret c else
  c ← extra_permissions c;
  if negb before then
    '(rc, c) ← turn_create_permission c [peer];
    if rc <? 0 then mret c else _ ← rare_event cfg; mret c
  else mret c.

(** The peer address of the program; [false] is a return. *)
Definition set_peer (address : list Z) (port : Z) : prog bool :=
  if c2c cfg then mret true else
  f ← get_frame stack;
  g ← get_globals;
  '(rc, a) ← lift (make_ioa_addr (Some address) port (Some (g_peer_addr g)) (fr_byte f));
  a ← lift a;
  let af := if rc <? 0 then default_address_family g
            else if sa_family a =? AF_INET6 then STUN_ATTRIBUTE_REQUESTED_ADDRESS_FAMILY_VALUE_IPV6
            else if sa_family a =? AF_INET then STUN_ATTRIBUTE_REQUESTED_ADDRESS_FAMILY_VALUE_IPV4
            else default_address_family g in
  set_globals (Globals (allocate_rtcp g) (current_reservation_token g) af a);;
  mret (negb (rc <? 0)).

(** The channel number stays in a local variable. *)
Definition bind_real (address : list Z) (port : Z) (clnet_info : app_ur_conn_info) : prog app_ur_conn_info :=
  ok ← set_peer address port;
  if negb ok then mret clnet_info else
  if dos cfg then mret clnet_info else
  g ← get_globals;
  if negb (do_not_use_channel cfg) then
    '(rc, chn, c) ← turn_channel_bind 0 clnet_info (g_peer_addr g);
    if rc <? 0 then mret c else
    rare ← rare_event cfg;
    if (rare : bool) then mret c else bind_channels c chn (g_peer_addr g)
  else bind_permissions clnet_info (g_peer_addr g).

(** * Connections *)

(** Result: the return code, the connection and [*chn]. *)
Definition start_connection (port : Z) (remote_address0 ifname local_address : list Z)
    (clnet_info : app_ur_conn_info) : prog (Z * app_ur_conn_info * Z) :=
  f ← get_frame stack;
  remote_address ← lift (STRCPY (replicate 1025 (fr_byte f)) 1025 remote_address0);
  '(rc, c) ← clnet_connect cfg stack port remote_address ifname local_address false clnet_info;
  if rc <? 0 then mret (-1, c, 0) else
  g ← get_globals;
  let af := if truth (default_address_family g) then default_address_family g
            else get_allocate_address_family (g_peer_addr g) in
  '(rc, c, _, _) ← clnet_allocate cfg stack maps af c (fr_addr f) None;
  if rc <? 0 then mret (-1, c, 0) else
  rare ← rare_event cfg;
  if (rare : bool) then mret (0, c, 0) else
  g ← get_globals;
  mret (0, set_conn_peer_addr c (g_peer_addr g), 0).

(** Both branches of [!no_rtcp] have the same text. *)
Definition start_c2c_connection (port : Z) (remote_address0 ifname local_address : list Z)
    (clnet_info1 : app_ur_conn_info) : prog (Z * app_ur_conn_info * Z) :=
  f ← get_frame stack;
  remote_address ← lift (STRCPY (replicate 1025 (fr_byte f)) 1025 remote_address0);
  '(rc, c) ← clnet_connect cfg stack port remote_address ifname local_address false clnet_info1;
  if rc <? 0 then mret (-1, c, 0) else
  g ← get_globals;
  '(rc, c, _, _) ← clnet_allocate cfg stack maps (default_address_family g) c (fr_addr f) None;
  if rc <? 0 then mret (-1, c, 0) else
  _ ← rare_event cfg;
  mret (0, c, 0).
End bind.
