(* ===== verification/Client.v ===== *)
(** The session of the client: [refresh_channel], [client_read],
    [client_input_handler], [start_client], [start_c2c], [start_p2p_client] and
    [bind_client] of [p2p/p2p_client.c].

    [elems[0]] is the one session the program has.  Registering the descriptor with
    libevent is not part of the model; the callback it makes is
    [client_input_handler]. *)

From S2P Require Import Prelude Defs CString IoAddr MsgAddr AddrText StunHeader StunAttr StunMsg StunBuffer Crypto Integrity Evp OAuth System Session Transport Credentials Sockets Connect Allocate Bind.

(** [current_mstime] is only ever its initial value. *)
Definition current_mstime : Z := 0.

(** [_init_app_session] of fresh memory: zeros and [fd = -1]. *)
Definition conn_zero : app_ur_conn_info :=
  ConnInfo addr_zero (zeros 129) addr_zero (zeros 129) (zeros 129) addr_zero addr_zero (-1) false false
    (zeros 128) (zeros 128) 0 (zeros 1026) (zeros 64) false 0 None false (zeros 33).

Definition buffer_zero : stun_buffer := StunBuffer (zeros 4) (zeros STUN_BUFFER_SIZE) 0 0 0.

Definition create_new_ss : app_ur_session :=
  Session conn_zero UR_STATE_UNKNOWN 0 0 buffer_zero 0 0 0 0 0.

Section client.
Context `{N : NetDb} `{C : Crypto} `{V : Evp}.
Context (cfg : config) (stack : world -> frame) (maps : addr_maps).

(** * refresh_channel *)

(** Origin, integrity and, when asked for, the fingerprint; [inl] is [return -1], with what
    [add_integrity] left in the connection. *)
Definition seal_refresh (c : app_ur_conn_info) (m : stun_buffer) : prog (app_ur_conn_info + app_ur_conn_info * stun_buffer) :=
  m ← lift (add_origin (origin cfg) m);
  '(rc, c, m) ← add_integrity cfg stack c m;
  if rc <? 0 then mret (inl c) else
  '(_, m) ← lift (if use_fingerprints cfg then on_sbuf m (stun_attr_add_fingerprint_str (to_sbuf m)) else Some (0, m));
  mret (inr (c, m)).

(** A request that is sealed and sent; the result of the send is not looked at. *)
Definition send_sealed (elem : app_ur_session) (m : stun_buffer) (data_connection : bool)
    : prog (app_ur_session + app_ur_session * stun_buffer) :=
  r ← seal_refresh (pinfo elem) m;
  match r with
  | inl c => mret (inl (set_pinfo elem c))
  | inr (c, m) =>
    '(_, c, m) ← send_buffer cfg c m data_connection None;
    mret (inr (set_pinfo elem c, m))
  end.

(** [if(!method || method == STUN_METHOD_...)] *)
Definition asks (method wanted : Z) : bool := (method =? 0) || (method =? wanted).

Definition refresh_allocation (elem : app_ur_session) (m : stun_buffer) (method lt : Z)
    : prog (app_ur_session + app_ur_session * stun_buffer) :=
  if asks method STUN_METHOD_REFRESH then
    e ← entropy_;
    m ← lift (stun_init_request STUN_METHOD_REFRESH m e);
    '(_, m) ← lift (stun_attr_add m STUN_ATTRIBUTE_LIFETIME (Some (le_split 4 (nswap32 lt))) 4);
    m ← add_random_family cfg m;
    send_sealed elem m false
  else mret (inr (elem, m)).

Definition refresh_permission (elem : app_ur_session) (m : stun_buffer) (method : Z)
    : prog (app_ur_session + app_ur_session * stun_buffer) :=
  if negb (no_permissions cfg) && asks method STUN_METHOD_CREATE_PERMISSION then
    e ← entropy_;
    m ← lift (stun_init_request STUN_METHOD_CREATE_PERMISSION m e);
    '(_, m) ← lift (stun_attr_add_addr maps m STUN_ATTRIBUTE_XOR_PEER_ADDRESS (ci_peer_addr (pinfo elem)));
    send_sealed elem m false
  else mret (inr (elem, m)).

Definition refresh_binding (elem : app_ur_session) (m : stun_buffer) (method : Z)
    : prog (app_ur_session + app_ur_session * stun_buffer) :=
  if asks method STUN_METHOD_CHANNEL_BIND && STUN_VALID_CHANNEL (chnum elem) then
    e ← entropy_;
    '(_, m) ← lift (stun_set_channel_bind_request maps m (Some (ci_peer_addr (pinfo elem))) (chnum elem)
                      (Entropy 0 [] []) e);
    send_sealed elem m true
  else mret (inr (elem, m)).

(** Swapping [lt] to network order does not change whether it is 0.  [now] is
    [current_mstime]. *)
Definition refresh_channel_at (now : Z) (elem : app_ur_session) (method lt : Z) : prog (Z * app_ur_session) :=
  if ci_is_peer (pinfo elem) then mret (0, elem) else
  f ← get_frame stack;
  r ← refresh_allocation elem (fr_buffer f) method lt;
  match r with
  | inl elem => mret (-1, elem)
  | inr (elem, m) =>
    r ← (if truth lt && negb (addr_any (Some (ci_peer_addr (pinfo elem)))) then
           r ← refresh_permission elem m method;
           match r with
           | inl elem => mret (inl elem)
           | inr (elem, m) => refresh_binding elem m method
           end
         else mret (inr (elem, m)));
    match r with
    | inl elem => mret (-1, elem)
    | inr (elem, _) => mret (0, set_refresh_time elem (u32 (now + 30 * 1000)))
    end
  end.

Definition refresh_channel : app_ur_session -> Z -> Z -> prog (Z * app_ur_session) := refresh_channel_at current_mstime.

(** * client_read *)

(** How the reading of a message ends: the message is done with ([return rc]),
    [return -1], or a payload was read and the counters are updated. *)
Inductive reading : Type :=
| RDone
| RFail
| RPayload (mi : option message_info) (buffers : Z).

(** The search for CONNECTION-ID, whose value is not used. *)
Definition find_connection_id (m : stun_buffer) : option (option Z) :=
  attr ← stun_attr_get_first m;
  '(_, r) ← attr_loop (attr_fuel (len m)) (buf m) (len m)
    (λ (_ : unit) a,
       t ← stun_attr_get_type (buf m) (Some a);
       if t =? STUN_ATTRIBUTE_CONNECTION_ID then
         v ← stun_attr_get_value (buf m) (Some a);
         v ← v;
         cid ← load32 (buf m) v;
         Some (tt, Some cid)
       else Some (tt, None)) tt attr;
  Some r.

(** A DATA indication. *)
Definition read_data (m : stun_buffer) : option reading :=
  sar ← stun_attr_get_first_by_type m STUN_ATTRIBUTE_DATA;
  match sar with
  | None => Some RDone
  | Some _ =>
    rlen ← stun_attr_get_len (buf m) sar;
    if negb (rlen =? clmessage_length cfg) then Some RDone else
    v ← stun_attr_get_value (buf m) sar;
    v ← v;
    bs ← rd_block (buf m) v sizeof_message_info;
    mi ← message_info_of bs;
    Some (RPayload (Some mi) 1)
  end.

Definition read_indication (m : stun_buffer) : option reading :=
  method ← stun_get_method m;
  if (method =? STUN_METHOD_CONNECTION_ATTEMPT) && is_TCP_relay cfg then
    _ ← find_connection_id m; Some RDone
  else if negb (method =? STUN_METHOD_DATA) then Some RDone
  else read_data m.

(** A channel message: only one of the session's channel and of the expected
    length is a payload.  The buffer's length is the one the header gives. *)
Definition read_channel (elem_chnum chnumber : Z) (m : stun_buffer) : option reading :=
  if negb (elem_chnum =? chnumber) then Some RDone else
  if 4 <=? len m then
    if (to_i32 (len m - 4) <? clmessage_length cfg) || (clmessage_length cfg + 3 <? to_i32 (len m - 4))
    then Some RDone else
    bs ← rd_block (buf m) 4 sizeof_message_info;
    mi ← message_info_of bs;
    Some (RPayload (Some mi) 1)
  else Some (RPayload None 1).

(** The dispatch on the kind of message. *)
Definition read_message (elem : app_ur_session) (is_tcp_data : bool) : prog (reading * app_ur_session) :=
  let m := in_buffer elem in
  if is_tcp_data then
    if to_i32 (len m) =? clmessage_length cfg then
      bs ← lift (rd_block (buf m) 0 sizeof_message_info);
      mi ← lift (message_info_of bs);
      mret (RPayload (Some mi) 1, elem)
    else if clmessage_length cfg =? 0 then fault
    else mret (RPayload None (u64 (Z.quot (to_i32 (len m)) (clmessage_length cfg))), elem)
  else
  f ← get_frame stack;
  ind ← lift (stun_is_indication m);
  if (ind : bool) then r ← lift (read_indication m); mret (r, elem) else
  success ← lift (stun_is_success_response m);
  if (success : bool) then
    '(ok, m) ← authentic cfg stack (pinfo elem) m;
    let elem := set_in_buffer elem m in
    if negb ok then mret (RFail, elem) else
    method ← lift (stun_get_method m);
    _ ← lift (if is_TCP_relay cfg && (method =? STUN_METHOD_CONNECT) then find_connection_id m else Some None);
    mret (RDone, elem)
  else
  '(b, _, c) ← lift (is_challenge f m (pinfo elem));
  let elem := set_pinfo elem c in
  if (b : bool) then
    method ← lift (stun_get_method m);
    if is_TCP_relay cfg && (method =? STUN_METHOD_CONNECT) then mret (RDone, elem)
    else if method =? STUN_METHOD_REFRESH then
      '(_, elem) ← refresh_channel elem method 600;
      mret (RDone, elem)
    else mret (RDone, elem)
  else
  '(b, _, _) ← lift (stun_is_error_response m None None 0);
  if (b : bool) then mret (RDone, elem) else
  '(b, m', chn) ← lift (stun_is_channel_message (Some m) (Some 0) (use_tcp cfg));
  m' ← lift m';
  let elem := set_in_buffer elem m' in
  if (b : bool) then
    chn ← lift chn;
    r ← lift (read_channel (chnum elem) chn m');
    mret (r, elem)
  else mret (RDone, elem).

(** Message numbers follow each other; a gap is counted as one loss. *)
Definition count_message (elem : app_ur_session) (mi : option message_info) (buffers : Z) : option app_ur_session :=
  '(ls, rmn) ←
    match mi with
    | Some mi =>
      expected ← i32 (recvmsgnum elem + 1);
      Some (if negb (mi_msgnum mi =? expected) then u64 (loss elem + 1) else loss elem, mi_msgnum mi)
    | None => Some (loss elem, recvmsgnum elem)
    end;
  Some (set_counters elem 0 (to_i32 (rmsgnum elem + buffers)) rmn (u32 current_mstime) ls).

Definition client_read (elem : app_ur_session) (is_tcp_data : bool) (atc : option app_tcp_conn_info)
    : prog (Z * app_ur_session) :=
  match state elem with
  | UR_STATE_READY =>
    '(rc, c, m, _) ← recv_buffer cfg (pinfo elem) (in_buffer elem) false is_tcp_data atc None;
    let elem := set_in_buffer (set_pinfo elem c) m in
    if 0 <? rc then
      let elem := set_in_buffer elem (set_len m rc) in
      '(r, elem) ← read_message elem is_tcp_data;
      match r with
      | RDone => mret (rc, elem)
      | RFail => mret (-1, elem)
      | RPayload mi buffers => elem ← lift (count_message elem mi buffers); mret (rc, elem)
      end
    else if rc =? 0 then mret (0, elem)
    else mret (-1, elem)
  | _ => mret (-1, elem)
  end.

(** * client_input_handler *)

Definition EV_READ : Z := 2.

(** The data connection whose descriptor is [fd]. *)
Definition find_tcp_conn (fd : Z) (c : app_ur_conn_info) : option app_tcp_conn_info :=
  match ci_tcp_conn c with
  | None => None
  | Some l =>
    foldr (λ a r, match a with
                  | Some t => if (fd =? tcp_data_fd t) && tcp_data_bound t then Some t else r
                  | None => r end) None l
  end.

Definition handler_turn (fd : Z) (elem : app_ur_session) : prog (app_ur_session + app_ur_session) :=
  let atc := find_tcp_conn fd (pinfo elem) in
  '(rc, elem) ← client_read elem (match atc with Some _ => true | None => false end) atc;
  if rc <=? 0 then mret (inr elem) else mret (inl elem).

Definition client_input_handler (fd what : Z) (elem : app_ur_session) : prog app_ur_session :=
  if negb (truth (Z.land what EV_READ)) then mret elem else
  match state elem with
  | UR_STATE_READY => iter (handler_turn fd) elem
  | _ => mret elem
  end.

(** * Sessions *)

(** [elems[0]] after the call; [None]: the session was not stored. *)
Definition start_client (remote_address : list Z) (port : Z) (ifname local_address : list Z)
    : prog (Z * option app_ur_session) :=
  let ss := create_new_ss in
  '(rc, c, chn) ← start_connection cfg stack maps (u16 port) remote_address ifname local_address (pinfo ss);
  if rc <? 0 then mret (-1, None) else
  _ ← socket_set_nonblocking (ci_fd c);
  let ss := set_ready (set_pinfo ss c) (-1) chn in
  '(_, ss) ← refresh_channel ss 0 600;
  mret (0, Some ss).

(** The result of [start_c2c_connection] is not tested. *)
Definition start_c2c (remote_address : list Z) (port : Z) (ifname local_address : list Z)
    : prog (Z * option app_ur_session) :=
  let ss := create_new_ss in
  '(_, c, chn) ← start_c2c_connection cfg stack maps (u16 port) remote_address ifname local_address (pinfo ss);
  _ ← socket_set_nonblocking (ci_fd c);
  mret (0, Some (set_ready (set_pinfo ss c) (-1) chn)).

(** The session the program keeps, if any.  Without RTCP and [c2c] the loop over
    [mclient] sessions has one turn.  The event base is freed at the end. *)
Definition start_p2p_client (remote_address : list Z) (port : Z) (ifname local_address : list Z)
    : prog (option app_ur_session) :=
  '(rc, ss) ← (if c2c cfg then start_c2c remote_address port ifname local_address
               else start_client remote_address port ifname local_address);
  if rc <? 0 then mret None else mret ss.

Definition bind_client (address : list Z) (port : Z) (elem : app_ur_session) : prog app_ur_session :=
  c ← bind_real cfg stack maps address port (pinfo elem);
  mret (set_pinfo elem c).
End client.
