(* ===== verification/StunClient.v ===== *)
(** The STUN client: [stunclient/stun_manager.c], binding requests with the
    behaviour-discovery attributes of RFC 5780.

    [err(-1,NULL)] ends the process.  The statics of the file are a record of
    their own. *)

From S2P Require Import Prelude Defs CString IoAddr MsgAddr AddrText StunHeader StunAttr StunMsg StunBuffer System Session Credentials Sockets Connect.

(** [udp_fd], [real_local_addr], [counter]; the three callbacks are "not NULL". *)
Record stun_state : Type := StunState {
  udp_fd : Z;
  real_local_addr : ioa_addr;
  counter : Z;
}.
Record stun_callbacks : Type := StunCallbacks {
  reflexive_cb : bool;
  other_cb : bool;
  response_origin_cb : bool;
}.

Section stunclient.
Context `{N : NetDb}.
Context (stack : world -> frame) (maps : addr_maps) (cb : stun_callbacks).

Definition notify_address (type : Z) (addr : ioa_addr) (cb : bool) : prog unit :=
  if cb then act (Notify type (inet_ntop AF_INET (sin_addr_bytes addr)) (nswap16 (sin_port addr)))
  else mret tt.

(** [do len = sendto(...) while(len < 0 && (errno == EINTR || ENOBUFS || EAGAIN))] *)
Definition sendto_turn (fd : Z) (to : ioa_addr) (data : list Z) (_ : unit) : prog (unit + Z) :=
  rc ← sendto fd to data;
  err ← get_errno;
  if (rc <? 0) && (bool_decide (err = EINTR) || bool_decide (err = ENOBUFS) || bool_decide (err = EAGAIN))
  then mret (inl tt) else mret (inr rc).

Definition stun_recv_turn (fd size : Z) (_ : unit) : prog (unit + Z * list Z) :=
  '(rc, bs) ← recv fd size;
  err ← get_errno;
  if (rc <? 0) && (bool_decide (err = EINTR) || bool_decide (err = EAGAIN)) then mret (inl tt)
  else mret (inr (rc, bs)).

(** The sockets of a run: [udp_fd] is opened once, a second one is bound to the
    response port. *)
Definition stun_sockets (st : stun_state) (remote_addr : ioa_addr) (response_port : Z) : prog (stun_state * Z) :=
  st ← (if udp_fd st <? 0 then
          fd ← syscall;
          if fd <? 0 then exit (-1) else
          if negb (addr_any (Some (real_local_addr st))) then
            rc ← addr_bind fd (real_local_addr st) 0 UDP_SOCKET;
            if rc <? 0 then exit (-1) else mret (StunState fd (real_local_addr st) (counter st))
          else mret (StunState fd (real_local_addr st) (counter st))
        else mret st);
  if 0 <=? response_port then
    new_udp_fd ← syscall;
    if new_udp_fd <? 0 then exit (-1) else
    la ← lift (addr_set_port (Some (real_local_addr st)) response_port);
    rc ← addr_bind new_udp_fd la 0 UDP_SOCKET;
    if rc <? 0 then exit (-1) else mret (StunState (udp_fd st) la (counter st), new_udp_fd)
  else mret (st, -1).

Definition stun_request (f : frame) (e : entropy) (response_port change_ip change_port padding : Z)
    : option stun_buffer :=
  m ← stun_prepare_binding_request (fr_buffer f) e;
  '(_, m) ← (if 0 <=? response_port
             then on_sbuf m (stun_attr_add_response_port_str (to_sbuf m) (u16 response_port)) else Some (0, m));
  '(_, m) ← (if truth change_ip || truth change_port
             then on_sbuf m (stun_attr_add_change_request_str (to_sbuf m) change_ip change_port) else Some (0, m));
  '(_, m) ← (if truth padding
             then on_sbuf m (stun_attr_add_padding_str [] (to_sbuf m) 1500) else Some (0, m));
  Some m.

(** What a successful binding response says.  Result: the state and [*rfc5780]. *)
Definition stun_success (st : stun_state) (remote_addr : ioa_addr) (m : stun_buffer) (rfc5780 : Z)
    : prog (stun_state * Z) :=
  '(rc, reflexive_addr) ← lift (stun_attr_get_first_addr maps m STUN_ATTRIBUTE_XOR_MAPPED_ADDRESS addr_zero None);
  if rc <? 0 then mret (st, rfc5780) else
  sar ← lift (stun_attr_get_first_by_type m STUN_ATTRIBUTE_OTHER_ADDRESS);
  '(st, rfc5780) ←
    match sar with
    | Some _ =>
      f ← get_frame stack;
      '(_, other_addr) ← lift (stun_attr_get_addr maps m sar (fr_addr f) None);
      sar ← lift (stun_attr_get_first_by_type m STUN_ATTRIBUTE_RESPONSE_ORIGIN);
      match sar with
      | Some _ =>
        '(_, response_origin) ← lift (stun_attr_get_addr maps m sar (fr_addr f) None);
        notify_address REMOTE_IP response_origin (response_origin_cb cb)
      | None => mret tt
      end;;
      notify_address OTHER_IP other_addr (other_cb cb);;
      mret (StunState (udp_fd st) (real_local_addr st) (counter st + 1), 1)
    | None => mret (st, rfc5780)
    end;
  notify_address REFLEXIVE_IP reflexive_addr (reflexive_cb cb);;
  notify_address 4 (real_local_addr st) (reflexive_cb cb);;
  notify_address 5 remote_addr (reflexive_cb cb);;
  mret (st, rfc5780).

Definition stun_response (st : stun_state) (remote_addr : ioa_addr) (m : stun_buffer) (rfc5780 : Z)
    : prog (stun_state * Z) :=
  c ← lift (stun_is_command_message (Some m));
  if negb c then mret (st, rfc5780) else
  r ← lift (stun_is_response m);
  if negb r then mret (st, rfc5780) else
  s ← lift (stun_is_success_response m);
  if (s : bool) then
    b ← lift (stun_is_binding_response m);
    if (b : bool) then stun_success st remote_addr m rfc5780 else mret (st, rfc5780)
  else
    _ ← lift (stun_is_error_response m (Some 0) (Some (replicate 1025 0)) 1025);
    mret (st, rfc5780).

(** Result: the return code, the state, [*port] and [*rfc5780]. *)
Definition run_stunclient (rip : list Z) (rport port rfc5780 response_port change_ip change_port padding : Z)
    (st : stun_state) : prog (Z * stun_state * Z * Z) :=
  f ← get_frame stack;
  '(rc, remote_addr) ← lift (make_ioa_addr (Some rip) rport (Some addr_zero) (fr_byte f));
  if rc <? 0 then exit (-1) else
  remote_addr ← lift remote_addr;
  '(st, new_udp_fd) ← stun_sockets st remote_addr response_port;
  e ← entropy_;
  m ← lift (stun_request f e response_port change_ip change_port padding);
  data ← lift (rd_block (buf m) 0 (len m));
  n ← iter (sendto_turn (udp_fd st) remote_addr data) tt;
  if n <? 0 then mret (-1, st, port, rfc5780) else
  '(rc, la) ← addr_get_from_sock (udp_fd st) (real_local_addr st);
  let port := if rc <? 0 then port else addr_get_port (Some la) in
  let st := StunState (udp_fd st) la (counter st) in
  st ← (if 0 <=? new_udp_fd then
          act (Closed (udp_fd st));; mret (StunState new_udp_fd (real_local_addr st) (counter st))
        else mret st);
  '(n, bs) ← iter (stun_recv_turn (udp_fd st) STUN_BUFFER_SIZE) tt;
  b ← lift (wr_block (buf m) 0 bs);
  '(st, rfc5780) ← stun_response st remote_addr (set_len (set_buf m b) (u64 n)) rfc5780;
  mret (0, st, port, rfc5780).

(** The three tests of a run; the second one uses the port after the local one. *)
Definition stun_tests (rip : list Z) (rport : Z) (forceRfc5780 : bool) (st : stun_state) : prog stun_state :=
  '(_, st, local_port, rfc5780) ← run_stunclient rip rport (-1) 0 (-1) 0 0 0 st;
  if truth rfc5780 || forceRfc5780 then
    '(_, st, local_port, rfc5780) ← run_stunclient rip rport local_port rfc5780 (local_port + 1) 1 1 0 st;
    '(_, st, _, _) ← run_stunclient rip rport local_port rfc5780 (-1) 1 1 1 st;
    mret st
  else mret st.

Definition run_stun (local_addr rip : list Z) (rport : Z) (forceRfc5780 : bool) (st : stun_state) : prog stun_state :=
  c ← lift (rd8 local_addr 0);
  la ← (if truth c then
          f ← get_frame stack;
          '(rc, la) ← lift (make_ioa_addr (Some local_addr) 0 (Some addr_zero) (fr_byte f));
          if rc <? 0 then exit (-1) else lift la
        else mret addr_zero);
  st ← stun_tests rip rport forceRfc5780 (StunState (udp_fd st) la (counter st));
  act (Closed (udp_fd st));;
  mret (StunState (-1) (real_local_addr st) (counter st)).

Definition init_stun (rip : list Z) (rport : Z) (forceRfc5780 : bool) (st : stun_state) : prog stun_state :=
  stun_tests rip rport forceRfc5780 st.
End stunclient.

(** * Settings *)

Module Settings.

(** The statics that the setters assign. *)
Record stun_settings : Type := StunSettings {
  local_addr : list Z;
  forceRfc5780 : Z;
  callbacks : stun_callbacks;
}.

(** [local_addr[256]] is empty and no callback is set. *)
Definition initial : stun_settings := StunSettings (zeros 256) 0 (StunCallbacks false false false).

Definition set_forceRfc5780 (rfc5780 : Z) (s : stun_settings) : stun_settings :=
  StunSettings (local_addr s) rfc5780 (callbacks s).

(** [strcpy] into the array, which does not look at its size. *)
Definition set_local_address (local_address : list Z) (s : stun_settings) : option stun_settings :=
  t ← c_str local_address;
  la ← wr_block (zeros 256) 0 (t ++ [0]);
  Some (StunSettings la (forceRfc5780 s) (callbacks s)).

Definition set_reflexive_cb (cb : bool) (s : stun_settings) : stun_settings :=
  StunSettings (local_addr s) (forceRfc5780 s) (StunCallbacks cb (other_cb (callbacks s)) (response_origin_cb (callbacks s))).
Definition set_other_cb (cb : bool) (s : stun_settings) : stun_settings :=
  StunSettings (local_addr s) (forceRfc5780 s) (StunCallbacks (reflexive_cb (callbacks s)) cb (response_origin_cb (callbacks s))).
Definition set_response_origin_cb (cb : bool) (s : stun_settings) : stun_settings :=
  StunSettings (local_addr s) (forceRfc5780 s) (StunCallbacks (reflexive_cb (callbacks s)) (other_cb (callbacks s)) cb).

(** [run_stun] and [init_stun] under the settings. *)
Definition stun_run `{N : NetDb} (stack : world -> frame) (maps : addr_maps) (s : stun_settings) (rip : list Z) (rport : Z)
    (st : stun_state) : prog stun_state :=
  StunClient.run_stun stack maps (callbacks s) (local_addr s) rip rport (truth (forceRfc5780 s)) st.
Definition stun_init `{N : NetDb} (stack : world -> frame) (maps : addr_maps) (s : stun_settings) (rip : list Z) (rport : Z)
    (st : stun_state) : prog stun_state :=
  StunClient.init_stun stack maps (callbacks s) rip rport (truth (forceRfc5780 s)) st.

End Settings.
