(* ===== verification/NatDiscovery.v ===== *)
(** NAT behaviour discovery (RFC 5780): the program [natdiscovery/natdiscovery.c], the
    branch of a C compiler ([__cplusplus] not defined).

    The statics [udp_fd], [udp_fd2] and [counter], the variables of [main] whose
    addresses its functions take, and what is printed are one record.  The program has
    no other result than what it prints: [report] is its vocabulary.  [err(-1,NULL)]
    ends the process.  [addr_debug_print] is a log and is not modelled. *)

From S2P Require Import Prelude Defs CString IoAddr MsgAddr AddrText StunHeader StunAttr StunMsg StunBuffer System Session Credentials Sockets StunClient.

Inductive test : Type := Lifetime | Hairpinning | Mapping | Filtering | Collision.

(** The texts given to [discoveryresult]. *)
Inductive decision : Type :=
| NoNat                            (* "No NAT! (Endpoint Independent Mapping)" *)
| EndpointIndependentMapping | AddressDependentMapping | AddressPortDependentMapping
| EndpointIndependentFiltering | AddressDependentFiltering | AddressPortDependentFiltering.

Inductive report : Type :=
| Title (t : test)
| PaddingError | NoLocalAddress
| Rfc5780Response (n : Z)
| AlgDetected | NoAlg | NoMappedAddress
| UnreadableResponse | WrongResponse | ErrorReply (code : option Z) | UnknownErrorReply
| ReceivedRequest | NotAResponse | ReceiveTimeout | NotStun
| Result (d : decision)
| ChooseATest.

Record discovery : Type := Discovery {
  nd_udp_fd : Z;
  nd_udp_fd2 : Z;
  nd_counter : Z;
  nd_local_addr : ioa_addr;
  nd_remote_addr : ioa_addr;
  nd_reflexive_addr : ioa_addr;
  nd_other_addr : ioa_addr;
  nd_local_port : Z;
  nd_rfc5780 : Z;
  nd_reports : list report;
}.

(** ** Assignments *)

Definition set_fds (d : discovery) (fd fd2 : Z) : discovery :=
  Discovery fd fd2 (nd_counter d) (nd_local_addr d) (nd_remote_addr d) (nd_reflexive_addr d) (nd_other_addr d)
    (nd_local_port d) (nd_rfc5780 d) (nd_reports d).
Definition set_local (d : discovery) (a : ioa_addr) (port : Z) : discovery :=
  Discovery (nd_udp_fd d) (nd_udp_fd2 d) (nd_counter d) a (nd_remote_addr d) (nd_reflexive_addr d) (nd_other_addr d)
    port (nd_rfc5780 d) (nd_reports d).
Definition set_remote (d : discovery) (a : ioa_addr) : discovery :=
  Discovery (nd_udp_fd d) (nd_udp_fd2 d) (nd_counter d) (nd_local_addr d) a (nd_reflexive_addr d) (nd_other_addr d)
    (nd_local_port d) (nd_rfc5780 d) (nd_reports d).
Definition set_reflexive (d : discovery) (a : ioa_addr) : discovery :=
  Discovery (nd_udp_fd d) (nd_udp_fd2 d) (nd_counter d) (nd_local_addr d) (nd_remote_addr d) a (nd_other_addr d)
    (nd_local_port d) (nd_rfc5780 d) (nd_reports d).
(** [*rfc5780 = 1], [++counter] and [other_addr]. *)
Definition set_other (d : discovery) (a : ioa_addr) : discovery :=
  Discovery (nd_udp_fd d) (nd_udp_fd2 d) (nd_counter d + 1) (nd_local_addr d) (nd_remote_addr d) (nd_reflexive_addr d) a
    (nd_local_port d) 1 (nd_reports d).
Definition set_rfc5780 (d : discovery) (v : Z) : discovery :=
  Discovery (nd_udp_fd d) (nd_udp_fd2 d) (nd_counter d) (nd_local_addr d) (nd_remote_addr d) (nd_reflexive_addr d)
    (nd_other_addr d) (nd_local_port d) v (nd_reports d).
(** [printf]. *)
Definition print (d : discovery) (l : list report) : discovery :=
  Discovery (nd_udp_fd d) (nd_udp_fd2 d) (nd_counter d) (nd_local_addr d) (nd_remote_addr d) (nd_reflexive_addr d)
    (nd_other_addr d) (nd_local_port d) (nd_rfc5780 d) (nd_reports d ++ l).

Section natdiscovery.
Context `{N : NetDb}.
Context (stack : world -> frame) (maps : addr_maps).

(** [second]: [socketfd] is [&udp_fd2]; the test that follows the call looks at
    [udp_fd] all the same. *)
Definition init_socket (second : bool) (local_port : Z) (d : discovery) : prog discovery :=
  fd ← syscall;
  let d := if second then set_fds d (nd_udp_fd d) fd else set_fds d fd (nd_udp_fd2 d) in
  if nd_udp_fd d <? 0 then exit (-1) else
  la ← (if 0 <=? local_port then lift (addr_set_port (Some (nd_local_addr d)) local_port) else mret (nd_local_addr d));
  let d := set_local d la (nd_local_port d) in
  if negb (addr_any (Some la)) then
    rc ← addr_bind fd la 0 UDP_SOCKET;
    if rc <? 0 then exit (-1) else mret d
  else mret d.

(** The request; [true] if the padding could be added. *)
Definition discovery_request (m : stun_buffer) (e : entropy) (change_ip change_port padding response_port : Z)
    : option (stun_buffer * bool) :=
  m ← stun_prepare_binding_request m e;
  '(_, m) ← (if 0 <=? response_port
             then on_sbuf m (stun_attr_add_response_port_str (to_sbuf m) (u16 response_port)) else Some (0, m));
  '(_, m) ← (if truth change_ip || truth change_port
             then on_sbuf m (stun_attr_add_change_request_str (to_sbuf m) change_ip change_port) else Some (0, m));
  if truth padding then
    '(rc, m) ← on_sbuf m (stun_attr_add_padding_str [] (to_sbuf m) 1500);
    Some (m, negb (rc <? 0))
  else Some (m, true).

Definition stunclient_send (m : stun_buffer) (sockfd change_ip change_port padding response_port : Z) (d : discovery)
    : prog (stun_buffer * discovery) :=
  e ← entropy_;
  '(m, padded) ← lift (discovery_request m e change_ip change_port padding response_port);
  let d := if (padded : bool) then d else print d [PaddingError] in
  data ← lift (rd_block (buf m) 0 (len m));
  n ← iter (sendto_turn sockfd (nd_remote_addr d) data) tt;
  if n <? 0 then exit (-1) else
  '(rc, la) ← addr_get_from_sock sockfd (nd_local_addr d);
  if rc <? 0 then mret (m, print (set_local d la (nd_local_port d)) [NoLocalAddress])
  else mret (m, set_local d la (addr_get_port (Some la))).

(** [do len = recv(...) while(len < 0 && (errno == EINTR))]; a positive length leaves
    the loop at once. *)
Definition discovery_recv_turn (fd size : Z) (_ : unit) : prog (unit + Z * list Z) :=
  '(rc, bs) ← recv fd size;
  if 0 <? rc then mret (inr (rc, bs)) else
  err ← get_errno;
  if (rc <? 0) && bool_decide (err = EINTR) then mret (inl tt) else mret (inr (rc, bs)).

(** A binding success response. *)
Definition discovery_success (m : stun_buffer) (d : discovery) : prog discovery :=
  '(rc, reflexive) ← lift (stun_attr_get_first_addr maps m STUN_ATTRIBUTE_XOR_MAPPED_ADDRESS addr_zero None);
  let d := set_reflexive d reflexive in
  if rc <? 0 then mret (print d [UnreadableResponse]) else
  sar ← lift (stun_attr_get_first_by_type m STUN_ATTRIBUTE_OTHER_ADDRESS);
  match sar with
  | None => mret d
  | Some _ =>
    let d := print d [Rfc5780Response (nd_counter d + 1)] in
    '(rc, mapped_addr) ← lift (stun_attr_get_first_addr maps m STUN_ATTRIBUTE_MAPPED_ADDRESS addr_zero None);
    let d := print d [if rc <? 0 then NoMappedAddress
                      else if addr_eq (Some mapped_addr) (Some reflexive) then NoAlg else AlgDetected] in
    '(_, other) ← lift (stun_attr_get_addr maps m sar (nd_other_addr d) None);
    let d := set_other d other in
    sar ← lift (stun_attr_get_first_by_type m STUN_ATTRIBUTE_RESPONSE_ORIGIN);
    match sar with
    | Some _ =>
      f ← get_frame stack;
      _ ← lift (stun_attr_get_addr maps m sar (fr_addr f) None);
      mret d
    | None => mret d
    end
  end.

(** A message of any kind.  Result: the return code. *)
Definition discovery_message (m : stun_buffer) (d : discovery) : prog (Z * discovery) :=
  c ← lift (stun_is_command_message (Some m));
  if negb c then
    err ← get_errno;
    mret (1, print d [if bool_decide (err = EAGAIN) then ReceiveTimeout else NotStun])
  else
  r ← lift (stun_is_response m);
  if negb r then
    q ← lift (stun_is_request m);
    mret (if (q : bool) then (0, print d [ReceivedRequest]) else (1, print d [NotAResponse]))
  else
  s ← lift (stun_is_success_response m);
  if (s : bool) then
    b ← lift (stun_is_binding_response m);
    if (b : bool) then d ← discovery_success m d; mret (0, d) else mret (0, print d [WrongResponse])
  else
    '(e, code, _) ← lift (stun_is_error_response m (Some 0) (Some (replicate 1025 0)) 1025);
    mret (0, print d [if (e : bool) then ErrorReply code else UnknownErrorReply]).

(** [buf->len = len]: the length is a [size_t]. *)
Definition stunclient_receive (m : stun_buffer) (sockfd : Z) (d : discovery) : prog (Z * stun_buffer * discovery) :=
  _ ← syscall;
  '(n, bs) ← iter (discovery_recv_turn sockfd STUN_BUFFER_SIZE) tt;
  b ← lift (wr_block (buf m) 0 bs);
  let m := set_len (set_buf m b) (u64 n) in
  '(ret, d) ← discovery_message m d;
  mret (ret, m, d).

(** * The tests *)

Definition run_stunclient (change_ip change_port padding : Z) (d : discovery) : prog (Z * discovery) :=
  f ← get_frame stack;
  d ← init_socket false (nd_local_port d) d;
  '(m, d) ← stunclient_send (fr_buffer f) (nd_udp_fd d) change_ip change_port padding (-1) d;
  '(ret, _, d) ← stunclient_receive m (nd_udp_fd d) d;
  act (Closed (nd_udp_fd d));;
  mret (ret, d).

(** The response to the second request is looked for on the first socket, then on the
    second. *)
Definition run_stunclient_hairpinning (change_ip change_port padding : Z) (d : discovery) : prog (Z * discovery) :=
  f ← get_frame stack;
  d ← init_socket false (nd_local_port d) d;
  '(m, d) ← stunclient_send (fr_buffer f) (nd_udp_fd d) change_ip change_port padding (-1) d;
  '(_, m, d) ← stunclient_receive m (nd_udp_fd d) d;
  let d := set_remote d (nd_reflexive_addr d) in
  la ← lift (addr_set_port (Some (nd_local_addr d)) 0);
  d ← init_socket true 0 (set_local d la (nd_local_port d));
  '(m2, d) ← stunclient_send (fr_buffer f) (nd_udp_fd2 d) change_ip change_port padding (-1) d;
  '(ret, _, d) ← stunclient_receive m (nd_udp_fd d) d;
  '(ret, d) ← (if truth ret then
                 '(ret, _, d) ← stunclient_receive m2 (nd_udp_fd2 d) d; mret (ret, d)
               else mret (ret, d));
  act (Closed (nd_udp_fd d));;
  act (Closed (nd_udp_fd2 d));;
  mret (ret, d).

(** [sleep(timer)] is a wait. *)
Definition run_stunclient_lifetime (timer change_ip change_port padding : Z) (d : discovery) : prog (Z * discovery) :=
  f ← get_frame stack;
  d ← init_socket false (nd_local_port d) d;
  '(m, d) ← stunclient_send (fr_buffer f) (nd_udp_fd d) change_ip change_port padding (-1) d;
  '(_, m, d) ← stunclient_receive m (nd_udp_fd d) d;
  la ← lift (addr_set_port (Some (nd_local_addr d)) 0);
  act (Waited (u32 timer * 1000));;
  d ← init_socket true 0 (set_local d la (nd_local_port d));
  let response_port := addr_get_port (Some (nd_reflexive_addr d)) in
  '(_, d) ← stunclient_send (fr_buffer f) (nd_udp_fd2 d) change_ip change_port padding response_port d;
  '(ret, _, d) ← stunclient_receive m (nd_udp_fd d) d;
  act (Closed (nd_udp_fd d));;
  act (Closed (nd_udp_fd2 d));;
  mret (ret, d).

(** [init]. *)
Definition init_test (first : bool) (port : Z) (local_addr_string remote_param : list Z) (d : discovery) : prog discovery :=
  f ← get_frame stack;
  c ← lift (rd8 local_addr_string 0);
  la ← (if truth c then
          '(rc, la) ← lift (make_ioa_addr (Some local_addr_string) 0 (Some addr_zero) (fr_byte f));
          if rc <? 0 then exit (-1) else lift la
        else mret addr_zero);
  let d := set_local d la (if first then nd_local_port d else -1) in
  let d := set_rfc5780 d 0 in
  '(rc, ra) ← lift (make_ioa_addr (Some remote_param) port (Some (nd_remote_addr d)) (fr_byte f));
  if rc <? 0 then exit (-1) else
  ra ← lift ra;
  mret (set_remote d ra).

Definition discoveryresult (decision : decision) (d : discovery) : discovery := print d [Result decision].

Definition same_addr (a b : ioa_addr) : bool := addr_eq (Some a) (Some b).

(** [if(mapping)], after [init]. *)
Definition mapping_test (remote_port padding : Z) (d : discovery) : prog discovery :=
  '(_, d) ← run_stunclient 0 0 padding d;
  let d := if same_addr (nd_local_addr d) (nd_reflexive_addr d) then discoveryresult NoNat d else d in
  if truth (nd_rfc5780 d) && negb (addr_any (Some (nd_other_addr d))) then
    let tmp_addr := nd_reflexive_addr d in
    ra ← lift (addr_set_port (Some (nd_other_addr d)) remote_port);
    '(_, d) ← run_stunclient 0 0 padding (set_remote d ra);
    if same_addr tmp_addr (nd_reflexive_addr d) then mret (discoveryresult EndpointIndependentMapping d) else
    let tmp_addr := nd_reflexive_addr d in
    '(_, d) ← run_stunclient 0 0 padding (set_remote d (nd_other_addr d));
    mret (discoveryresult (if same_addr tmp_addr (nd_reflexive_addr d) then AddressDependentMapping
                           else AddressPortDependentMapping) d)
  else mret d.

(** [if(filtering)], after [init]. *)
Definition filtering_test (padding : Z) (d : discovery) : prog discovery :=
  '(_, d) ← run_stunclient 0 0 padding d;
  let d := if same_addr (nd_local_addr d) (nd_reflexive_addr d) then discoveryresult NoNat d else d in
  if truth (nd_rfc5780 d) && negb (addr_any (Some (nd_other_addr d))) then
    '(res, d) ← run_stunclient 1 1 padding d;
    if negb (truth res) then mret (discoveryresult EndpointIndependentFiltering d) else
    '(res, d) ← run_stunclient 0 1 padding d;
    mret (discoveryresult (if negb (truth res) then AddressDependentFiltering else AddressPortDependentFiltering) d)
  else mret d.

(** [if(collision)], after [init]: the second run has [&local2_addr] for [local_addr]. *)
Definition collision_test (padding : Z) (local2_addr_string : list Z) (d : discovery) : prog discovery :=
  f ← get_frame stack;
  c ← lift (rd8 local2_addr_string 0);
  local2 ← (if truth c then
              '(rc, a) ← lift (make_ioa_addr (Some local2_addr_string) 0 (Some addr_zero) (fr_byte f));
              if rc <? 0 then exit (-1) else lift a
            else mret addr_zero);
  '(_, d) ← run_stunclient 0 0 padding d;
  let local_addr := nd_local_addr d in
  local2 ← lift (addr_set_port (Some local2) (addr_get_port (Some local_addr)));
  '(_, d) ← run_stunclient 0 0 padding (set_local d local2 (nd_local_port d));
  mret (set_local d local_addr (nd_local_port d)).

(** * The command line *)

Record options : Type := Options {
  op_mapping : bool;
  op_filtering : bool;
  op_lifetime : bool;
  op_collision : bool;
  op_hairpinning : bool;
  op_padding : Z;
  op_remote_port : Z;
  op_local_port : Z;
  op_timer : Z;
  op_local_addr : list Z;
  op_local2_addr : list Z;
}.

Definition no_options : options :=
  Options false false false false false 0 DEFAULT_STUN_PORT (-1) (-1) (zeros 256) (zeros 256).

(** The body of the [switch], for the character [c] that [getopt] returns with
    [optarg]: a flag, a number or a text.  [None] is undefined behaviour. *)
Definition set_option (o : options) (c : Z) (optarg : list Z) : option (options + unit) :=
  let 'Options m f t cl h p rp lp tm la l2 := o in
  if c =? 109 (* m *) then Some (inl (Options true f t cl h p rp lp tm la l2))
  else if c =? 102 (* f *) then Some (inl (Options m true t cl h p rp lp tm la l2))
  else if c =? 116 (* t *) then Some (inl (Options m f true cl h p rp lp tm la l2))
  else if c =? 99 (* c *) then Some (inl (Options m f t true h p rp lp tm la l2))
  else if c =? 72 (* H *) then Some (inl (Options m f t cl true p rp lp tm la l2))
  else if c =? 80 (* P *) then Some (inl (Options m f t cl h 1 rp lp tm la l2))
  else if c =? 112 (* p *) then v ← atoi optarg; Some (inl (Options m f t cl h p v lp tm la l2))
  else if c =? 76 (* L *) then v ← STRCPY la 256 optarg; Some (inl (Options m f t cl h p rp lp tm v l2))
  else if c =? 108 (* l *) then v ← atoi optarg; Some (inl (Options m f t cl h p rp v tm la l2))
  else if c =? 65 (* A *) then v ← STRCPY l2 256 optarg; Some (inl (Options m f t cl h p rp lp tm la v))
  else if c =? 84 (* T *) then v ← atoi optarg; Some (inl (Options m f t cl h p rp lp v la l2))
  else Some (inr tt).

(** [args]: what [getopt] returns before -1. *)
Fixpoint read_options (o : options) (args : list (Z * list Z)) : prog options :=
  match args with
  | [] => mret o
  | (c, optarg) :: args =>
    r ← lift (set_option o c optarg);
    match r with inl o => read_options o args | inr _ => exit 1 end
  end.

(** The three checks after the options. *)
Definition check_options (o : options) (address : option (list Z)) : prog (list Z) :=
  match address with
  | None => exit (-1)
  | Some remote_param =>
    l2 ← lift (rd8 (op_local2_addr o) 0);
    if op_collision o && negb (truth l2) then exit (-1) else
    if op_lifetime o && (op_timer o =? -1) then exit (-1) else
    la ← lift (rd8 (op_local_addr o) 0);
    if (0 <=? op_local_port o) && negb (truth la) then exit (-1) else
    mret remote_param
  end.

(** One [if(option) { title; init; first=0; test }]. *)
Definition run_test (on : bool) (t : test) (o : options) (remote_param : list Z)
    (body : discovery -> prog discovery) (st : bool * discovery) : prog (bool * discovery) :=
  let '(first, d) := st in
  if on then
    d ← init_test first (op_remote_port o) (op_local_addr o) remote_param (print d [Title t]);
    d ← body d;
    mret (false, d)
  else mret (first, d).

Definition run_tests (o : options) (remote_param : list Z) (d : discovery) : prog discovery :=
  let test := λ on t body, run_test on t o remote_param body in
  st ← test (op_lifetime o) Lifetime (λ d, r ← run_stunclient_lifetime (op_timer o) 0 0 (op_padding o) d; mret r.2) (true, d);
  st ← test (op_hairpinning o) Hairpinning (λ d, r ← run_stunclient_hairpinning 0 0 (op_padding o) d; mret r.2) st;
  st ← test (op_mapping o) Mapping (mapping_test (op_remote_port o) (op_padding o)) st;
  st ← test (op_filtering o) Filtering (filtering_test (op_padding o)) st;
  '(_, d) ← test (op_collision o) Collision (collision_test (op_padding o) (op_local2_addr o)) st;
  mret (if negb (op_filtering o) && negb (op_mapping o) && negb (op_collision o) && negb (op_hairpinning o) && negb (op_lifetime o)
        then print d [ChooseATest] else d).

(** [args] are the options, [address] is [argv[optind]].  At the end both statics are
    closed, whatever the tests have closed already. *)
Definition main (args : list (Z * list Z)) (address : option (list Z)) : prog (Z * list report) :=
  o ← read_options no_options args;
  remote_param ← check_options o address;
  d ← run_tests o remote_param
        (Discovery (-1) (-1) 0 addr_zero addr_zero addr_zero addr_zero (op_local_port o) 0 []);
  act (Closed (nd_udp_fd d));;
  act (Closed (nd_udp_fd2 d));;
  mret (0, nd_reports d).
End natdiscovery.
