(* ===== verification/Scenario.v ===== *)
(** A run of the client, from the socket to the first refresh, evaluated: a server
    that allocates 9.8.7.6:5000 and accepts the refresh.  The witnesses of the
    theorems on whole runs use it. *)

From S2P Require Import Prelude Defs CString IoAddr MsgAddr AddrText AddrTextSpec StunHeader StunAttr StunMsg StunReply StunBuffer Crypto Integrity Evp OAuth System Session Samples Transport Credentials Sockets Connect Allocate Bind Client.

Definition done_ok : answer := ACall 0 EOTHER.
Definition accepted : answer := ACall 1500 EOTHER.
Definition readable : list answer := [ATime 0; ACall 1 EOTHER].

Definition relayed : ioa_addr := v4_addr 9 8 7 6 5000.

(** The bytes of a message a builder made. *)
Definition wire (b : option stun_buffer) : list Z :=
  match b with Some b => take (Z.to_nat (len b)) (buf b) | None => [] end.

Definition allocate_reply : list Z :=
  wire (snd <$> stun_set_allocate_response addr_maps_init sample_message (Some (tid_of sample_entropy)) (Some relayed) None
                  (Some relayed) 600 700 0 None 0 None sample_entropy).
Definition refresh_reply : list Z :=
  wire (stun_init_success_response STUN_METHOD_REFRESH sample_message (Some (tid_of sample_entropy)) sample_entropy).

(** The socket and its options, [connect], [getsockname]. *)
Definition connect_answers : list answer :=
  [ACall 3 EOTHER; done_ok; done_ok; done_ok; done_ok; done_ok; AName (Some (v4_addr 10 0 0 1 4000))].

(** ALLOCATE and its reply, REFRESH and its reply. *)
Definition allocate_answers : list answer :=
  [AEntropy sample_entropy; accepted] ++ readable ++ [AData allocate_reply] ++
  [AEntropy sample_entropy; accepted] ++ readable ++ [AData refresh_reply].

(** The socket made non-blocking, the REFRESH of the session. *)
Definition session_answers : list answer := [done_ok; AEntropy sample_entropy; accepted].

Definition scenario : world := sample_world (connect_answers ++ allocate_answers ++ session_answers).

Abbreviation scenario_start :=
  (start_p2p_client sample_cfg (λ _, sample_frame) addr_maps_init (cstring (lit "1.2.3.4")) 3478 (zeros 129) (zeros 129)).

(** The requests on the wire: ALLOCATE with the transport, the lifetime of 777
    seconds, EVEN-PORT and the fingerprint; REFRESH for 777, then for 600 seconds. *)
Definition allocate_wire : list Z :=
  [0; 3; 0; 32; 33; 18; 164; 66; 1; 2; 3; 4; 5; 6; 7; 8; 9; 10; 11; 12; 0; 25; 0; 4; 17; 0; 0; 0;
   0; 13; 0; 4; 0; 0; 3; 9; 0; 24; 0; 1; 128; 0; 0; 0; 128; 40; 0; 4; 27; 128; 249; 57].
Definition refresh_wire (lt crc : list Z) : list Z :=
  [0; 4; 0; 16; 33; 18; 164; 66; 1; 2; 3; 4; 5; 6; 7; 8; 9; 10; 11; 12; 0; 13; 0; 4] ++ lt ++ [128; 40; 0; 4] ++ crc.

Lemma scenario_run :
  match scenario_start scenario with
  | Ret (Some s) w =>
    ci_relay_addr (pinfo s) = relayed /\ chnum s = 0 /\ refresh_time s = 30000 /\ w_script w = [] /\
    w_trace w =
      [SetOpt 65536; SetOpt 65536; SetOpt 34; SetOpt 47;
       Notify LOCAL_IP (lit "10.0.0.1") 4000; Notify REMOTE_IP (lit "1.2.3.4") 3478;
       Sent 3 allocate_wire; Waited 500; Notify RELAY_IP (lit "9.8.7.6") 5000;
       Sent 3 (refresh_wire [0; 0; 3; 9] [186; 215; 93; 54]); Waited 500;
       Sent 3 (refresh_wire [0; 0; 2; 88] [191; 160; 13; 21])]
  | _ => False
  end.
Proof. vm_compute. repeat split. Qed.

Lemma scenario_starts : exists s w, scenario_start scenario = Ret (Some s) w.
Proof.
  pose proof scenario_run as H. destruct (scenario_start scenario) as [[s|] w|c w|w| |]; try contradiction.
  by exists s, w.
Qed.

(** The allocation alone, on a connection that is made. *)
Abbreviation scenario_allocate :=
  (clnet_allocate sample_cfg (λ _, sample_frame) addr_maps_init 0 sample_conn addr_zero None).

Lemma scenario_allocates :
  match scenario_allocate (sample_world allocate_answers) with
  | Ret (rc, c, a, _) w => rc = 0 /\ ci_relay_addr c = relayed /\ a = relayed /\ draws w = 0%nat
  | _ => False
  end.
Proof. vm_compute. repeat split. Qed.

Lemma scenario_allocated :
  exists c a t w, scenario_allocate (sample_world allocate_answers) = Ret (0, c, a, t) w /\ ci_relay_addr c = relayed.
Proof.
  pose proof scenario_allocates as H.
  destruct (scenario_allocate (sample_world allocate_answers)) as [[[[rc c] a] t] w| | | |]; try contradiction.
  destruct H as (-> & Hc & _). by exists c, a, t, w.
Qed.
