(* ===== verification/Retransmit.v ===== *)
(** The retransmission schedule of [recv_buffer] over UDP ([p2p/p2p_client.c]): how
    long each cycle waits and what is sent between the waits, as exact runs.

    [iter_done] and [iter_next] compute a loop turn by turn. *)

From S2P Require Import Prelude Defs IoAddr StunHeader StunBuffer HttpFrame System Session Samples Transport TransportSpec.

Section loops.
Context {S A : Type} (body : S -> prog (S + A)).

Lemma loop_mono n n' s w a w' : loop n body s w = Ret a w' -> (n <= n')%nat -> loop n' body s w = Ret a w'.
Proof.
  revert n' s w. induction n as [|n IH]; intros n' s w H Hn; [done|]. destruct n' as [|n']; [lia|].
  cbn [loop] in *. unfold mbind, prog_bind in *. destruct (body s w) as [[s'|x] w1|c w1|w1| |]; try done.
  apply IH; [done|lia].
Qed.

Lemma iter_done s w a w' : body s w = Ret (inr a) w' -> iter body s w = Ret a w'.
Proof. intros H. unfold iter. cbn [loop]. unfold mbind, prog_bind. by rewrite H. Qed.

Lemma iter_next s w s' w' a w'' :
  body s w = Ret (inl s') w' -> (length (w_script w') < length (w_script w))%nat ->
  iter body s' w' = Ret a w'' -> iter body s w = Ret a w''.
Proof.
  intros H Hl Hi. unfold iter. cbn [loop]. unfold mbind, prog_bind. rewrite H. apply (loop_mono _ _ _ _ _ _ Hi). lia.
Qed.
End loops.

Lemma bind_run {A B} (m : prog A) (k : A -> prog B) w a w' : m w = Ret a w' -> (m ≫= k) w = k a w'.
Proof. intros H. unfold mbind, prog_bind. by rewrite H. Qed.

Section retransmit.
Context (cfg : config).

(** The timeout of a cycle, in milliseconds. *)
Definition cycle_timeout (cycle : nat) : Z :=
  match cycle with O => 500 | S k => 2 ^ Z.of_nat k * 1000 end.

Lemma double_cycles_pow k t : double_cycles (S k) t = 2 ^ Z.of_nat k * t.
Proof.
  revert t. induction k as [|k IH]; intros t; [cbn [double_cycles]; lia|].
  change (double_cycles (S (S k)) t) with (double_cycles (S k) (t + t)). rewrite IH.
  rewrite Nat2Z.inj_succ, Z.pow_succ_r by lia. lia.
Qed.

(** The timeout of the first [select]. *)
Lemma first_timeout t k :
  (match k with
   | O => Some 500
   | _ => let tv_sec := double_cycles k 1 in
          if t <? t then if t + tv_sec <=? t then None else Some ((tv_sec - (t - t)) * 1000)
          else Some (tv_sec * 1000)
   end) = Some (cycle_timeout k).
Proof.
  destruct k as [|k]; [done|]. cbv zeta. rewrite Z.ltb_irrefl, double_cycles_pow. unfold cycle_timeout. f_equal. lia.
Qed.

Definition passed (w : world) (e : errno) (s : list answer) (t : list action) : world :=
  World e s (w_globals w) (w_trace w ++ t).

(** One [select], not interrupted. *)
Lemma wait_fd_run d fd k w t rc err s :
  fd < FD_SETSIZE -> d && (k =? 0)%nat = false -> w_script w = ATime t :: ACall rc err :: s ->
  0 <= rc \/ err <> EINTR ->
  exists e, wait_fd d fd k w = Ret rc (passed w e s [Waited (cycle_timeout k)]).
Proof.
  intros Hfd Hd Hs Hrc. unfold wait_fd. destruct (Z.leb_spec FD_SETSIZE fd); [lia|]. rewrite Hd.
  rewrite (bind_run _ _ _ t (pop w (ACall rc err :: s))) by (unfold time_, ask; by rewrite Hs).
  assert (exists e, wait_turn t (k, t, 0) (pop w (ACall rc err :: s)) =
    Ret (inr rc) (passed w e s [Waited (cycle_timeout k)])) as [e He].
  { unfold wait_turn. rewrite first_timeout. unfold syscall, ask, act, get_errno, mbind, prog_bind, pop, passed.
    cbn [w_script w_errno w_globals w_trace]. destruct (Z.ltb_spec rc 0) as [Hneg|Hneg]; cbn [mret prog_ret].
    - exists err. unfold set_errno. cbn [w_script w_errno w_globals w_trace mret prog_ret].
      destruct (Z.ltb_spec rc 0); [|lia]. rewrite bool_decide_eq_false_2 by (destruct Hrc; [lia|done]). done.
    - exists (w_errno w). destruct (Z.ltb_spec rc 0); [lia|]. done. }
  exists e. by apply iter_done.
Qed.

(** A [select] that a signal interrupts is repeated with a timeout of 500 ms,
    whatever the cycle: [while(--cycle)] has left 0 in [cycle]. *)
Lemma wait_fd_again d fd k w t rc1 t1 rc err s :
  fd < FD_SETSIZE -> (0 < k)%nat -> rc1 < 0 -> 0 <= rc ->
  w_script w = ATime t :: ACall rc1 EINTR :: ATime t1 :: ACall rc err :: s ->
  exists e, wait_fd d fd k w = Ret rc (passed w e s [Waited (cycle_timeout k); Waited 500]).
Proof.
  intros Hfd Hk Hrc1 Hrc Hs. destruct k as [|k]; [lia|]. unfold wait_fd.
  destruct (Z.leb_spec FD_SETSIZE fd); [lia|]. rewrite andb_false_r.
  set (s0 := ACall rc1 EINTR :: ATime t1 :: ACall rc err :: s).
  rewrite (bind_run _ _ _ t (pop w s0)) by (unfold time_, ask; by rewrite Hs).
  exists EINTR. apply (iter_next _ _ _ (0%nat, t1, rc1) (passed w EINTR (ACall rc err :: s) [Waited (cycle_timeout (S k))])).
  - unfold wait_turn. pose proof (first_timeout t (S k)) as Ht. cbv beta iota zeta in Ht |- *. rewrite Ht. unfold syscall, ask, act, get_errno, mbind, prog_bind, pop, s0.
    cbn [w_script w_errno w_globals w_trace]. destruct (Z.ltb_spec rc1 0); [|lia].
    cbn [mret prog_ret]. unfold set_errno. cbn [w_script w_errno w_globals w_trace mret prog_ret].
    destruct (Z.ltb_spec rc1 0); [|lia]. cbn [andb]. rewrite bool_decide_eq_true_2 by done. done.
  - cbn. lia.
  - apply iter_done. unfold wait_turn, syscall, ask, act, get_errno, mbind, prog_bind, passed.
    cbn [w_script w_errno w_globals w_trace]. destruct (Z.ltb_spec rc 0); [lia|]. cbn [mret prog_ret].
    destruct (Z.ltb_spec rc 0); [lia|]. cbn [andb]. by rewrite <- app_assoc.
Qed.

(** A datagram socket that takes the whole message. *)
Lemma send_buffer_run c q w n err s :
  buffer_ok q -> 0 < len q <= n -> negative_protocol_test cfg = false -> ci_ssl c = false -> 0 <= ci_fd c ->
  w_script w = ACall n err :: s ->
  send_buffer cfg c q false None w = Ret (len q, c, q) (passed w (w_errno w) s [Sent (ci_fd c) (message_bytes q)]).
Proof.
  intros Hq Hn Hneg Hssl Hfd Hs. pose proof Hq as [[_ Hsz] Hl2]. unfold STUN_BUFFER_SIZE, MAX_STUN_MESSAGE_SIZE in *.
  assert (to_i32 (len q) = len q) as Hi by (unfold to_i32; rewrite Z.mod_small by lia; lia).
  unfold send_buffer. rewrite (bind_run _ _ _ q w) by (unfold negative_protocol; by rewrite Hneg).
  cbn [send_target]. rewrite Hssl. destruct (Z.leb_spec 0 (ci_fd c)); [|lia].
  set (w1 := passed w (w_errno w) s [Sent (ci_fd c) (message_bytes q)]).
  assert (iter (send_turn (ci_fd c) (message_bytes q)) tt w = Ret (len q) w1) as Hturn.
  { apply iter_done. unfold send_turn, send, syscall, ask, act, get_errno, mbind, prog_bind. rewrite Hs.
    destruct (Z.ltb_spec n 0); [lia|]. cbn [mret prog_ret]. destruct (Z.ltb_spec n 0); [lia|].
    rewrite (zlen_message_bytes q Hq). rewrite Z.min_r by lia. cbn [w_script w_errno w_globals w_trace mret prog_ret].
    destruct (Z.leb_spec (len q) 0); [lia|]. cbn [andb]. unfold w1, passed. rewrite take_ge; [done|].
    pose proof (zlen_message_bytes q Hq). unfold zlen in *. lia. }
  rewrite (bind_run _ _ _ 0 w1); [cbn [Z.ltb Z.compare]; by rewrite Hi|].
  apply (iter_next _ _ _ (0 + len q, len q - len q) w1).
  - cbn [plain_send_turn]. destruct (Z.ltb_spec 0 (len q)); [|lia].
    rewrite (bind_run _ _ _ (message_bytes q) w) by (unfold lift; rewrite rd_block_ok by lia; by rewrite drop_0).
    rewrite (bind_run _ _ _ (len q) w1) by exact Hturn. destruct (Z.ltb_spec 0 (len q)); [done|lia].
  - unfold w1. cbn [w_script passed]. rewrite Hs. cbn [length]. lia.
  - apply iter_done. cbn [plain_send_turn]. by rewrite Z.sub_diag.
Qed.

(** * The schedule *)

(** What a silent server makes of [n] cycles: the clock, a [select] that times out,
    a retransmission that the socket takes. *)
Definition silence (n : Z) (times : list Z) : list answer :=
  concat ((λ t, [ATime t; ACall 0 EOTHER; ACall n EOTHER]) <$> times).

(** The actions of [n] cycles from cycle [k] on: wait, retransmit. *)
Fixpoint schedule (n k : nat) (fd : Z) (bs : list Z) : list action :=
  match n with
  | O => []
  | S n => Waited (cycle_timeout k) :: Sent fd bs :: schedule n (S k) fd bs
  end.

Lemma listen_silent n rest k c q times w r s :
  buffer_ok q -> 0 < len q <= r -> dos cfg = false -> negative_protocol_test cfg = false -> ci_ssl c = false ->
  0 <= ci_fd c < FD_SETSIZE -> length times = n -> w_script w = silence r times ++ s ->
  exists e, listen cfg (n + rest) (ci_fd c) k c q false None w =
    listen cfg rest (ci_fd c) (k + n) c q false None (passed w e s (schedule n k (ci_fd c) (message_bytes q))).
Proof.
  intros Hq Hr Hdos Hneg Hssl Hfd. revert k times w. induction n as [|n IH]; intros k times w Hlen Hs.
  { destruct times; [|done]. exists (w_errno w). cbn [schedule Nat.add]. unfold passed. rewrite Nat.add_0_r.
    cbn [silence concat fmap list_fmap app] in Hs. rewrite <- Hs, app_nil_r. by destruct w. }
  destruct times as [|t times]; [done|]. injection Hlen as Hlen. cbn [listen Nat.add].
  set (s1 := silence r times ++ s).
  destruct (wait_fd_run (dos cfg) (ci_fd c) k w t 0 EOTHER (ACall r EOTHER :: s1)) as [e1 Hw];
    [lia|by rewrite Hdos|exact Hs|by left|].
  rewrite (bind_run _ _ _ _ _ Hw). cbn [Z.ltb Z.compare].
  set (w1 := passed w e1 _ _).
  rewrite (bind_run _ _ _ _ _ (send_buffer_run c q w1 r EOTHER s1 Hq Hr Hneg Hssl (proj1 Hfd) eq_refl)).
  destruct (Z.leb_spec (len q) 0); [lia|].
  destruct (IH (S k) times (passed w1 (w_errno w1) s1 [Sent (ci_fd c) (message_bytes q)])) as [e He]; [done|done|].
  exists e. rewrite He, Nat.add_succ_r. cbn [Nat.add]. unfold w1, passed. cbn [w_globals w_trace schedule]. by rewrite <- !app_assoc.
Qed.

Lemma listen_run n k c q times w r s :
  buffer_ok q -> 0 < len q <= r -> dos cfg = false -> negative_protocol_test cfg = false -> ci_ssl c = false ->
  0 <= ci_fd c < FD_SETSIZE -> length times = n -> w_script w = silence r times ++ s ->
  exists e, listen cfg n (ci_fd c) k c q false None w =
    Ret (inl (c, q)) (passed w e s (schedule n k (ci_fd c) (message_bytes q))).
Proof.
  intros. destruct (listen_silent n 0 k c q times w r s) as [e He]; [done..|]. exists e. by rewrite Nat.add_0_r in He.
Qed.

(** The socket becomes readable in a later cycle. *)
Lemma listen_readable c q times t w r s :
  buffer_ok q -> 0 < len q <= r -> dos cfg = false -> negative_protocol_test cfg = false -> ci_ssl c = false ->
  0 <= ci_fd c < FD_SETSIZE -> (length times < MAX_LISTENING_CYCLE_NUMBER)%nat ->
  w_script w = silence r times ++ ATime t :: ACall 1 EOTHER :: s ->
  exists e, listen cfg MAX_LISTENING_CYCLE_NUMBER (ci_fd c) 0 c q false None w =
    Ret (inl (c, q)) (passed w e s (schedule (length times) 0 (ci_fd c) (message_bytes q) ++ [Waited (cycle_timeout (length times))])).
Proof.
  intros Hq Hr Hdos Hneg Hssl Hfd Hl Hs.
  destruct (listen_silent (length times) (MAX_LISTENING_CYCLE_NUMBER - length times) 0 c q times w r _ Hq Hr Hdos Hneg Hssl Hfd eq_refl Hs)
    as [e He]. rewrite Nat.add_sub_assoc, Nat.add_comm, Nat.add_sub in He by lia. rewrite He.
  destruct (MAX_LISTENING_CYCLE_NUMBER - length times)%nat as [|n] eqn:En; [lia|]. cbn [listen Nat.add].
  set (w1 := passed w e _ _). destruct (wait_fd_run (dos cfg) (ci_fd c) (length times) w1 t 1 EOTHER s) as [e1 Hw];
    [lia|by rewrite Hdos|done|by left|].
  rewrite (bind_run _ _ _ _ _ Hw). exists e1. cbn [Z.ltb Z.compare]. unfold w1, passed. cbn [w_globals w_trace]. by rewrite <- app_assoc.
Qed.

(** C14. A server that stays silent over UDP: the request is sent again after 0.5, 1, 2,
    4, 8, 16 and 32 seconds, seven times, and nothing else happens before the
    blocking receive. *)
Theorem retransmission_schedule c q times w r s :
  buffer_ok q -> 0 < len q <= r -> dos cfg = false -> negative_protocol_test cfg = false -> ci_ssl c = false ->
  0 <= ci_fd c < FD_SETSIZE -> length times = MAX_LISTENING_CYCLE_NUMBER -> w_script w = silence r times ++ s ->
  exists w', listen cfg MAX_LISTENING_CYCLE_NUMBER (ci_fd c) 0 c q false None w = Ret (inl (c, q)) w' /\
    w_script w' = s /\ w_globals w' = w_globals w /\
    w_trace w' = w_trace w ++
      concat ((λ ms, [Waited ms; Sent (ci_fd c) (message_bytes q)]) <$> [500; 1000; 2000; 4000; 8000; 16000; 32000]).
Proof.
  intros Hq Hr Hdos Hneg Hssl Hfd Hlen Hs.
  destruct (listen_run _ 0 c q times w r s Hq Hr Hdos Hneg Hssl Hfd Hlen Hs) as [e He].
  eexists. split; [exact He|]. done.
Qed.

(** A [select] of the schedule that a signal interrupts is repeated with a timeout
    of half a second in every cycle but the first, not with the rest of the cycle's
    time: the inner loop of [wait_fd] has counted [cycle] down to 0. *)
Theorem wait_fd_interrupted dos fd cycle w t rc1 t1 rc err s :
  fd < FD_SETSIZE -> (0 < cycle)%nat -> rc1 < 0 -> 0 <= rc ->
  w_script w = ATime t :: ACall rc1 EINTR :: ATime t1 :: ACall rc err :: s ->
  exists w', wait_fd dos fd cycle w = Ret rc w' /\ w_script w' = s /\
    w_trace w' = w_trace w ++ [Waited (2 ^ (Z.of_nat cycle - 1) * 1000); Waited 500].
Proof.
  intros Hfd Hc Hrc1 Hrc Hs. destruct (wait_fd_again dos fd cycle w t rc1 t1 rc err s) as [e He]; [done..|].
  eexists. split; [exact He|]. split; [done|]. cbn [w_trace passed]. do 3 f_equal.
  destruct cycle as [|k]; [lia|]. unfold cycle_timeout. by replace (Z.of_nat (S k) - 1) with (Z.of_nat k) by lia.
Qed.
End retransmit.

Lemma retransmission_schedule_witness :
  length [0; 1; 2; 4; 8; 16; 32] = MAX_LISTENING_CYCLE_NUMBER /\
  exists w', listen sample_cfg MAX_LISTENING_CYCLE_NUMBER 3 0 sample_conn sample_message false None
      (sample_world (silence 20 [0; 1; 2; 4; 8; 16; 32])) = Ret (inl (sample_conn, sample_message)) w' /\
    w_script w' = [] /\ w_globals w' = Globals false 0 0 addr_zero /\
    w_trace w' = concat ((λ ms, [Waited ms; Sent 3 (message_bytes sample_message)])
                           <$> [500; 1000; 2000; 4000; 8000; 16000; 32000]).
Proof.
  split; [reflexivity|].
  apply (retransmission_schedule sample_cfg sample_conn sample_message [0; 1; 2; 4; 8; 16; 32]
           (sample_world (silence 20 [0; 1; 2; 4; 8; 16; 32])) 20 []);
    [apply sample_message_ok|cbn [len sample_message]; lia|reflexivity|reflexivity|reflexivity
    |cbn [ci_fd sample_conn]; unfold FD_SETSIZE; lia|reflexivity|].
  cbn [w_script sample_world]. symmetry. apply app_nil_r.
Defined.

Lemma wait_fd_interrupted_witness :
  (0 < 6)%nat /\
  exists w', wait_fd false 3 6 (sample_world [ATime 0; ACall (-1) EINTR; ATime 1; ACall 0 EOTHER]) = Ret 0 w' /\
    w_script w' = [] /\ w_trace w' = [Waited 32000; Waited 500].
Proof.
  split; [lia|].
  apply (wait_fd_interrupted false 3 6 (sample_world [ATime 0; ACall (-1) EINTR; ATime 1; ACall 0 EOTHER]) 0 (-1) 1 0 EOTHER []);
    [unfold FD_SETSIZE; lia|lia|lia|lia|reflexivity].
Defined.
