(* ===== verification/Termination.v ===== *)
(** No loop of the engine turns without an answer of the environment, whatever the memory
    holds.  The number of answers is the subject of [Bounded]. *)

From S2P Require Import Prelude Defs CString IoAddr MsgAddr AddrText StunHeader StunAttr StunMsg StunBuffer Crypto Integrity Evp OAuth System Progress Session Transport TransportSpec Credentials Sockets Connect Allocate Bind Client StunClient.

(** * Sending *)

Section transport.
Context (cfg : config).

Lemma moves_wait_turn t st : halts (wait_turn t st) (goes_on (λ _, True)).
Proof. destruct st as [[c ct] rc]. unfold wait_turn. halts_tac. Qed.
#[local] Hint Resolve moves_wait_turn : ends.

Lemma ends_wait_fd d fd c : ends (wait_fd d fd c).
Proof. unfold wait_fd. halts_tac. Qed.

Lemma ends_spoil np m : ends (spoil np m).
Proof. revert m. induction np as [|np IH]; intros m; cbn [spoil]; halts_tac; apply IH. Qed.
#[local] Hint Resolve ends_wait_fd ends_spoil : ends.

Lemma ends_negative_protocol m : ends (negative_protocol cfg m).
Proof. unfold negative_protocol. halts_tac. Qed.

Lemma moves_ssl_write_turn d s : moves (ssl_write_turn d s).
Proof. unfold ssl_write_turn. halts_tac. Qed.
#[local] Hint Resolve ends_negative_protocol : ends.
#[local] Hint Resolve moves_ssl_write_turn : moves.

Lemma moves_ssl_send_turn d n s : moves (ssl_send_turn d n s).
Proof. unfold ssl_send_turn. halts_tac. Qed.

Lemma moves_send_turn fd d s : moves (send_turn fd d s).
Proof. unfold send_turn. halts_tac. Qed.
#[local] Hint Resolve moves_ssl_send_turn moves_send_turn : moves.

Lemma goes_plain_send_turn fd m st : halts (plain_send_turn fd m st) (goes_on (λ _, True)).
Proof. destruct st as [p n]. unfold plain_send_turn. halts_tac. Qed.
#[local] Hint Resolve goes_plain_send_turn : ends.

(** A send that succeeds leaves the connection as it was. *)
Lemma halts_send_buffer c m dc atc :
  halts (send_buffer cfg c m dc atc) (λ x _, let '(r, c', _) := x in c' = c \/ c' = set_broken c /\ r = -1).
Proof.
  unfold send_buffer. eapply halts_ends; [halts_tac|intros m'|by intros [[? ?] ?] []].
  destruct (send_target cfg c dc atc) as [[ssl fd]|]; [|apply halts_ret; by left]. destruct ssl.
  - eapply halts_ends; [halts_tac|intros d|by intros [[? ?] ?] []].
    eapply halts_ends; [halts_tac|intros [ret|]|by intros [[? ?] ?] []]; apply halts_ret; [by left|by right].
  - destruct (0 <=? fd); [|apply halts_ret; by left].
    eapply halts_ends; [halts_tac|intros n|by intros [[? ?] ?] []].
    destruct (0 <? n); apply halts_ret; by left.
Qed.

Lemma ends_send_buffer c m dc atc : ends (send_buffer cfg c m dc atc).
Proof. eapply halts_mono; [apply halts_send_buffer|done]. Qed.

(** * Receiving *)

Lemma moves_recv_turn fd n sync s : moves (recv_turn fd n sync s).
Proof. unfold recv_turn. halts_tac. Qed.

Lemma moves_ssl_read_turn s : moves (ssl_read_turn s).
Proof. unfold ssl_read_turn. halts_tac. Qed.
#[local] Hint Resolve moves_recv_turn moves_ssl_read_turn : moves.

Lemma ends_collect n fd l r sync m : ends (collect n fd l r sync m).
Proof. revert r m. induction n as [|n IH]; intros r m; cbn [collect]; halts_tac; apply IH. Qed.
#[local] Hint Resolve ends_collect : ends.

Lemma moves_udp_receive fd sync m : moves (udp_receive fd sync m).
Proof. unfold udp_receive. halts_tac. Qed.

Lemma moves_tcp_receive fd sync atc m : moves (tcp_receive cfg fd sync atc m).
Proof. unfold tcp_receive. halts_tac. Qed.
#[local] Hint Resolve moves_udp_receive moves_tcp_receive : moves.

(** A receive branch consumes an answer; when it delivers, the connection can
    still receive. *)
Lemma halts_ssl_receive n rc sync c m :
  ci_broken c = false ->
  halts (ssl_receive n rc sync c m)
    (λ x b, (n <> O -> b = true) /\ let '(r, c', _) := x in (r <> None -> ci_broken c' = false)).
Proof.
  revert rc c m. induction n as [|n IH]; intros rc c m Hc; cbn [ssl_receive]; [by apply halts_ret|].
  apply halts_moves; [auto with moves|]. intros down. destruct down; [by apply halts_ret|].
  eapply halts_ends; [halts_tac|intros [[rc' bs] se]|by intros [[? ?] ?] []].
  destruct (0 <? rc').
  { eapply halts_ends; [halts_tac|intros m'|by intros [[? ?] ?] []]. by apply halts_ret. }
  assert (halts (if sync then ssl_receive n rc' sync c m else mret (Some rc', c, m))
    (λ x _, (S n <> O -> true = true) /\ let '(r, c', _) := x in (r <> None -> ci_broken c' = false))) as Hagain.
  { destruct sync; [|by apply halts_ret]. eapply halts_mono; [by apply IH|]. by intros [[? ?] ?] b [_ ?]. }
  destruct se; try exact Hagain; try (by apply halts_ret).
  eapply halts_ends; [halts_tac|intros e|by intros [[? ?] ?] []].
  destruct (handle_socket_error e); [exact Hagain|by apply halts_ret].
Qed.

Lemma halts_receive fd ssl sync atc rc c m :
  halts (receive cfg fd ssl sync atc rc c m)
    (λ x b, let '(r, c', _) := x in
       if receiving cfg fd ssl c then b = true /\ (r <> None -> receiving cfg fd ssl c' = true)
       else r = Some rc /\ c' = c).
Proof.
  unfold receive, receiving.
  assert (ci_broken c = false -> halts (ssl_receive 100 rc sync c m)
    (λ x b, let '(r, c', _) := x in b = true /\ (r <> None -> true && negb (ci_broken c') = true))) as Hssl.
  { intros Hc. eapply halts_mono; [by apply halts_ssl_receive|]. intros [[r c'] m'] b [Hb Hr]. split; [by apply Hb|].
    intros ->%Hr. done. }
  assert (forall p : prog (option Z * stun_buffer), moves p ->
    halts ('(rc, message) ← p; mret (rc, c, message)) (λ x b, let '(r, c', _) := x in
      b = true /\ (r <> None -> true = true))) as Hrecv.
  { intros p Hp. apply halts_moves; [done|]. intros [r m']. by apply halts_ret. }
  destruct (use_secure cfg), (use_tcp cfg); cbn [negb andb];
    [destruct ssl, (ci_broken c) eqn:Hb; cbn [negb andb]; try (by apply halts_ret); by apply Hssl..| |];
    (destruct (0 <=? fd); [apply Hrecv; auto with moves|by apply halts_ret]).
Qed.

Lemma halts_listen n fd cycle c q dc atc :
  halts (listen cfg n fd cycle c q dc atc) (λ r _, match r with inl (c', _) => c' = c | inr _ => True end).
Proof.
  revert cycle q. induction n as [|n IH]; intros cycle q; cbn [listen]; [by apply halts_ret|].
  eapply halts_ends; [halts_tac|intros serc|by intros [[? ?]|?] []].
  destruct (0 <? serc); [by apply halts_ret|]. destruct (serc <? 0); [by apply halts_ret|].
  eapply halts_bind; [apply halts_send_buffer|]. intros [[r c'] q'] b Hc.
  destruct (Z.leb_spec r 0); [by apply halts_ret|]. destruct Hc as [->|[_ ->]]; [|lia]. apply IH.
Qed.

(** The state of the loop, and its turns: to go on, or to deliver a message, it has
    consumed an answer. *)
Definition can_receive (fd : Z) (ssl : bool) (st : received) : Prop :=
  let '(rc, c, _, _) := st in rc = 0 \/ receiving cfg fd ssl c = true.
Definition delivers (x : received) (b : bool) : Prop := let '(rc, _, _, _) := x in 0 < rc -> b = true.

Lemma halts_recv_again fd ssl sync dc atc tid k st :
  can_receive fd ssl st ->
  halts (recv_again cfg fd ssl sync dc atc tid k st)
    (λ r b, match r with inl st' => can_receive fd ssl st' /\ b = true | inr x => delivers x b end).
Proof.
  destruct st as [[[rc c] m] req]. intros Hi. unfold recv_again.
  eapply (halts_bind _ _ (λ l _, match l with inl (c', _) => c' = c | inr _ => True end)).
  { destruct req as [q|]; [|by apply halts_ret]. destruct (_ && _ && _); [|by apply halts_ret].
    eapply halts_bind; [apply halts_listen|]. intros [[c' q']|[c' q']] b H; by apply halts_ret. }
  intros [[c' req']|[c' req']] b H; [subst c'|by apply halts_ret].
  eapply halts_bind; [apply halts_receive|]. intros [[r c'] m'] b' Hr.
  destruct r as [rc'|]; [|by apply halts_ret].
  destruct (Z.ltb_spec 0 rc') as [Hpos|].
  2: { destruct req'; apply halts_ret; intros ?; lia. }
  destruct (receiving cfg fd ssl c) eqn:Hrec; [|destruct Hi, Hr; [simplify_eq; lia|congruence]].
  destruct Hr as [-> Hr]. specialize (Hr ltac:(done)).
  assert (forall b1, b || (true || b1) = true) as Hb by (intros; by destruct b).
  destruct req' as [q|]; [|apply halts_ret; intros _; apply Hb].
  eapply halts_ends; [halts_tac|intros rtid|by intros [?|[[[? ?] ?] ?]] b1 H; [destruct H|intros ?]].
  eapply halts_ends; [halts_tac|intros rk|by intros [?|[[[? ?] ?] ?]] b1 H; [destruct H|intros ?]].
  destruct (negb (k =? rk)); [apply halts_ret; split; [by right|apply Hb]|].
  destruct (negb _); apply halts_ret; [split; [by right|apply Hb]|intros _; apply Hb].
Qed.

Lemma halts_recv_buffer c m sync dc atc req : halts (recv_buffer cfg c m sync dc atc req) delivers.
Proof.
  unfold recv_buffer. eapply halts_ends; [halts_tac|intros [tid k]|by intros [[[? ?] ?] ?] b H ?].
  set (fd := match atc with Some _ => _ | None => ci_fd c end).
  set (ssl := match atc with Some _ => _ | None => ci_ssl c end). cbv zeta.
  apply (halts_loop (can_receive fd ssl)); [by left|].
  intros st Hi. eapply halts_mono; [by apply (halts_recv_again fd ssl)|].
  intros [st'|[[[rc ?] ?] ?]] b H; [done|]. intros b' Hp. rewrite (H Hp). apply orb_true_r.
Qed.

Lemma ends_recv_buffer c m sync dc atc req : ends (recv_buffer cfg c m sync dc atc req).
Proof. eapply halts_mono; [apply halts_recv_buffer|done]. Qed.
End transport.

#[export] Hint Resolve ends_wait_fd ends_send_buffer ends_recv_buffer : ends.
#[export] Hint Resolve moves_recv_turn : moves.

(** * Sockets, authentication *)

Section engine.
Context `{N : NetDb} `{C : Crypto} `{V : Evp}.
Context (cfg : config) (stack : world -> frame) (maps : addr_maps).

Lemma ends_get_frame : ends (get_frame stack).
Proof. intros w. by apply wp_get_frame. Qed.

Lemma moves_setsockopt v : moves (setsockopt v).
Proof. unfold setsockopt. halts_tac. Qed.
#[local] Hint Resolve ends_get_frame : ends.
#[local] Hint Resolve moves_setsockopt : moves.

Lemma moves_retry_turn s : moves (retry_turn s).
Proof. unfold retry_turn. halts_tac. Qed.
#[local] Hint Resolve moves_retry_turn : moves.
Lemma moves_retry : moves retry.
Proof. unfold retry. auto with moves. Qed.
Lemma goes_buf_size_turn sz : halts (buf_size_turn sz) (goes_on (λ _, True)).
Proof. unfold buf_size_turn. halts_tac. Qed.
#[local] Hint Resolve moves_retry : moves.
#[local] Hint Resolve goes_buf_size_turn : ends.

Lemma ends_set_sock_buf_size fd sz : ends (set_sock_buf_size fd sz).
Proof. unfold set_sock_buf_size. halts_tac. Qed.
Lemma ends_sock_bind_to_device fd n : ends (sock_bind_to_device fd n).
Proof. unfold sock_bind_to_device. halts_tac. Qed.
Lemma ends_socket_set_reusable fd n t : ends (socket_set_reusable fd n t).
Proof. unfold socket_set_reusable. halts_tac. Qed.
#[local] Hint Resolve ends_set_sock_buf_size ends_sock_bind_to_device ends_socket_set_reusable : ends.
Lemma ends_addr_connect fd a e : ends (addr_connect fd a e).
Proof. unfold addr_connect. halts_tac. Qed.
Lemma ends_addr_bind fd a r t : ends (addr_bind fd a r t).
Proof. unfold addr_bind. halts_tac. Qed.
Lemma ends_addr_get_from_sock fd a : ends (addr_get_from_sock fd a).
Proof. unfold addr_get_from_sock. halts_tac. Qed.
Lemma ends_set_raw_socket_ttl fd f t : ends (set_raw_socket_ttl fd f t).
Proof. unfold set_raw_socket_ttl. halts_tac. Qed.
Lemma ends_set_raw_socket_tos fd f t : ends (set_raw_socket_tos fd f t).
Proof. unfold set_raw_socket_tos. halts_tac. Qed.
Lemma ends_set_mtu_df s fd f m v : ends (set_mtu_df s fd f m v).
Proof. unfold set_mtu_df, set_socket_df. halts_tac. Qed.
Lemma ends_socket_set_nonblocking fd : ends (socket_set_nonblocking fd).
Proof. unfold socket_set_nonblocking. halts_tac. Qed.
#[local] Hint Resolve ends_addr_connect ends_addr_bind ends_addr_get_from_sock ends_set_raw_socket_ttl ends_set_raw_socket_tos ends_set_mtu_df ends_socket_set_nonblocking : ends.

Lemma moves_lifetime_turn s : moves (lifetime_turn s).
Proof. unfold lifetime_turn. halts_tac. Qed.
#[local] Hint Resolve moves_lifetime_turn : moves.
Lemma ends_new_token c m : ends (new_token cfg stack c m).
Proof. unfold new_token. halts_tac. Qed.
#[local] Hint Resolve ends_new_token : ends.
Lemma ends_add_integrity c m : ends (add_integrity cfg stack c m).
Proof. unfold add_integrity. halts_tac. Qed.
Lemma ends_check_integrity c m : ends (check_integrity cfg stack c m).
Proof. unfold check_integrity. halts_tac. Qed.
#[local] Hint Resolve ends_add_integrity ends_check_integrity : ends.

(** * Connecting *)

Lemma ends_notify_ip t a : ends (notify_ip cfg t a).
Proof. unfold notify_ip. halts_tac. Qed.
Lemma ends_rare_event : ends (rare_event cfg).
Proof. unfold rare_event. halts_tac. Qed.
Lemma ends_not_rare_event : ends (not_rare_event cfg).
Proof. unfold not_rare_event. halts_tac. Qed.
Lemma ends_socket_connect fd a e : ends (socket_connect fd a e).
Proof. unfold socket_connect. halts_tac. Qed.
Lemma moves_ssl_connect_turn s : moves (ssl_connect_turn s).
Proof. unfold ssl_connect_turn. halts_tac. Qed.
#[local] Hint Resolve ends_notify_ip ends_rare_event ends_not_rare_event ends_socket_connect : ends.
#[local] Hint Resolve moves_ssl_connect_turn : moves.
Lemma moves_tls_turn n s : moves (tls_turn n s).
Proof. unfold tls_turn. halts_tac. Qed.
#[local] Hint Resolve moves_tls_turn : moves.
Lemma ends_tls_connect fd a n : ends (tls_connect cfg fd a n).
Proof. unfold tls_connect. halts_tac. Qed.
#[local] Hint Resolve ends_tls_connect : ends.
Lemma goes_connect_turn port ra ifn la self st :
  halts (connect_turn cfg stack port ra ifn la self st) (goes_on (λ _, True)).
Proof. destruct st as [n c]. unfold connect_turn. halts_tac. Qed.
#[local] Hint Resolve goes_connect_turn : ends.
Lemma ends_clnet_connect port ra ifn la self c : ends (clnet_connect cfg stack port ra ifn la self c).
Proof. unfold clnet_connect. halts_tac. Qed.
#[local] Hint Resolve ends_clnet_connect : ends.

(** * Attributes of a response *)

Lemma ldn16_nonneg (buf : list Z) p v : ldn16 buf p = Some v -> 0 <= v.
Proof.
  unfold ldn16. intros (x & _ & ->)%fmap_Some. apply nswap16_range.
Qed.

Lemma attr_round_nonneg l : 0 <= l -> 0 <= attr_round l.
Proof.
  intros H. unfold attr_round. cbv zeta. change 3 with (Z.ones 2). rewrite Z.land_ones by lia.
  pose proof (Z.mod_pos_bound (u16 l) (2 ^ 2) ltac:(lia)). destruct (truth _); lia.
Qed.

Lemma check_valid_room buf p rem q : stun_attr_check_valid buf p rem = Some (Some q) -> q = p /\ 4 <= rem.
Proof.
  unfold stun_attr_check_valid. destruct (Z.leb_spec 4 rem); [|done].
  destruct (stun_attr_get_len buf (Some p)) as [l|]; [|done]. cbn [mbind option_bind].
  destruct (_ <=? _); [|done]. by intros [= <-].
Qed.

Lemma message_len_le buf n e : stun_get_command_message_len_str buf n = Some e -> e <= Z.max n (-1).
Proof.
  unfold stun_get_command_message_len_str. destruct (_ <? _); [intros [= <-]; lia|].
  destruct (ldn16 buf 2) as [l|]; [|done]. cbn [mbind option_bind].
  destruct (Z.ltb_spec n (l + STUN_HEADER_LENGTH)); intros [= <-]; lia.
Qed.

(** The attributes of a message follow each other. *)
Lemma get_first_room m q : stun_attr_get_first m = Some (Some q) -> 20 <= q /\ q + 4 <= len m.
Proof.
  unfold stun_attr_get_first, stun_attr_get_first_str.
  destruct (stun_get_command_message_len_str (buf m) (len m)) as [e|] eqn:He; [|done]. cbn [mbind option_bind].
  apply message_len_le in He. destruct (Z.ltb_spec STUN_HEADER_LENGTH e); [|done].
  intros [-> Hr]%check_valid_room. unfold STUN_HEADER_LENGTH in *. lia.
Qed.

Lemma get_next_room m p q :
  stun_attr_get_next m (Some p) = Some (Some q) -> 20 <= p -> p + 4 <= q /\ q + 4 <= len m.
Proof.
  unfold stun_attr_get_next, stun_attr_get_next_str.
  destruct (stun_get_command_message_len_str (buf m) (len m)) as [e|] eqn:He; [|done]. cbn [mbind option_bind].
  apply message_len_le in He. destruct (stun_attr_get_len (buf m) (Some p)) as [l|] eqn:Hl; [|done].
  cbn [mbind option_bind]. apply ldn16_nonneg, attr_round_nonneg in Hl.
  destruct (Z.ltb_spec (attr_round l) (e - p - 4)); [|done]. intros [-> Hr]%check_valid_room Hp. lia.
Qed.

Lemma ends_relay_loop n m sar c a :
  (forall p, sar = Some p -> 20 <= p /\ p + 4 <= len m /\ len m - p <= Z.of_nat n) ->
  ends (relay_loop cfg maps n m sar c a).
Proof.
  revert sar c a. induction n as [|n IH]; intros sar c a Hs; cbn [relay_loop];
    (destruct sar as [p|]; [|by apply halts_ret]); destruct (Hs p eq_refl) as (Hp & Hl & Hn); [lia|].
  eapply halts_ends; [halts_tac|intros t|done]. cbv zeta.
  assert (forall c a, ends (sar ← lift (stun_attr_get_next m (Some p)); relay_loop cfg maps n m sar c a)) as Hnext.
  { intros c1 a1. eapply (halts_bind _ _ (λ r _, stun_attr_get_next m (Some p) = Some r)); [by apply halts_lift|].
    intros r b Hr. eapply halts_mono; [apply IH|done]. intros q ->. apply get_next_room in Hr; lia. }
  destruct (t =? _); [|apply Hnext]. eapply halts_ends; [halts_tac|intros [rc a1]|done].
  destruct (rc <? 0); [by apply halts_ret|]. eapply halts_ends; [halts_tac|intros _|done].
  eapply halts_ends; [halts_tac|intros g|done]. destruct (_ && _); [by apply halts_ret|apply Hnext].
Qed.

(** * Allocation *)

Lemma ends_authentic c m : ends (authentic cfg stack c m).
Proof. unfold authentic. halts_tac. Qed.
#[local] Hint Resolve ends_authentic : ends.

Lemma ends_allocate_granted c m a : ends (allocate_granted cfg stack maps c m a).
Proof.
  unfold allocate_granted. eapply halts_ends; [halts_tac|intros [ok m1]|done].
  destruct (negb ok); [by apply halts_ret|].
  eapply (halts_bind _ _ (λ r _, stun_attr_get_first m1 = Some r)); [by apply halts_lift|]. intros sar b Hs.
  eapply halts_ends; [|intros [r a1]; halts_tac|done].
  apply ends_relay_loop. intros p ->. apply get_first_room in Hs. unfold attr_fuel. lia.
Qed.

Lemma ends_allocate_refused c m e t : ends (allocate_refused cfg stack maps c m e t).
Proof. unfold allocate_refused. halts_tac. Qed.
#[local] Hint Resolve ends_allocate_granted ends_allocate_refused : ends.

Lemma ends_allocate_response c m n a t : ends (allocate_response cfg stack maps c m n a t).
Proof. unfold allocate_response. halts_tac. Qed.
#[local] Hint Resolve ends_allocate_response : ends.

(** After a message was received the loops may go on. *)
Lemma halts_receives {B} c m sync dc atc req (k : received -> prog B) (Q : B -> bool -> Prop) :
  (forall x, halts (k x) (λ y b, if 0 <? x.1.1.1 then Q y true else forall b', Q y (b' || b))) ->
  halts (recv_buffer cfg c m sync dc atc req ≫= k) Q.
Proof.
  intros Hk. eapply halts_bind; [apply halts_recv_buffer|]. intros x b Hd. eapply halts_mono; [apply Hk|].
  destruct x as [[[rc ?] ?] ?]. cbn [fst]. intros y b' H. destruct (Z.ltb_spec 0 rc) as [Hp|]; [|done].
  by rewrite (Hd Hp).
Qed.

Lemma goes_allocate_receive_turn ex : halts (allocate_receive_turn cfg stack maps ex) (goes_on (λ _, True)).
Proof.
  unfold allocate_receive_turn. apply halts_receives. intros [[[n c] m] req]. cbn [fst].
  eapply halts_ends; [halts_tac|intros q|by destruct (0 <? n); intros [?|?] b H; try intros []].
  destruct (0 <? n); halts_tac.
Qed.
#[local] Hint Resolve goes_allocate_receive_turn : ends.

Lemma ends_even_port rt : ends (even_port cfg rt).
Proof. unfold even_port. halts_tac. Qed.
#[local] Hint Resolve ends_even_port : ends.
Lemma ends_allocate_request af c m : ends (allocate_request cfg stack af c m).
Proof. unfold allocate_request. halts_tac. Qed.
Lemma ends_reopen b c : ends (reopen cfg stack b c).
Proof. unfold reopen. halts_tac. Qed.
#[local] Hint Resolve ends_allocate_request ends_reopen : ends.

Lemma ends_allocate_loop n b af ex : ends (allocate_loop cfg stack maps n b af ex).
Proof. revert b ex. induction n as [|n IH]; intros b ex; cbn [allocate_loop]; halts_tac; apply IH. Qed.
#[local] Hint Resolve ends_allocate_loop : ends.

Lemma ends_ssl_free b : ends (ssl_free b).
Proof. unfold ssl_free. halts_tac. Qed.
#[local] Hint Resolve ends_ssl_free : ends.
Lemma ends_mobile_reopen c : ends (mobile_reopen cfg stack c).
Proof. unfold mobile_reopen. halts_tac. Qed.
#[local] Hint Resolve ends_mobile_reopen : ends.

Lemma ends_add_random_family m : ends (add_random_family cfg m).
Proof. unfold add_random_family. halts_tac. Qed.
#[local] Hint Resolve ends_add_random_family : ends.
Lemma ends_refresh_request c m : ends (refresh_request cfg stack c m).
Proof. unfold refresh_request. halts_tac. Qed.
Lemma ends_refresh_response c m n : ends (refresh_response stack c m n).
Proof. unfold refresh_response. halts_tac. Qed.
#[local] Hint Resolve ends_refresh_request ends_refresh_response : ends.

Lemma goes_refresh_receive_turn ex : halts (refresh_receive_turn cfg stack ex) (goes_on (λ _, True)).
Proof.
  unfold refresh_receive_turn. eapply halts_bind; [apply halts_recv_buffer|]. intros [[[n c] m] req] b Hd.
  assert (forall b1, b || (b1 || true) = true) as Hb by (intros []; by destruct b).
  eapply halts_ends; [halts_tac|intros id0|by intros [?|?] b1 H; [split; [|apply (Hb false)]|]].
  eapply (halts_bind _ _ (λ x b', delivers x (b || b'))).
  { destruct (truth id0).
    - eapply halts_mono; [apply halts_recv_buffer|]. intros [[[n' ?] ?] ?] b' H Hp. rewrite (H Hp). apply (Hb false).
    - apply halts_ret. by rewrite orb_false_r. }
  intros [[[n' c'] m'] req'] b' Hd'.
  eapply halts_ends; [halts_tac|intros q|by intros [?|?] b1 H; [split; [|apply Hb]|]].
  destruct (Z.ltb_spec 0 n') as [Hp|]; [|halts_tac]. pose proof (Hd' Hp) as Hbb.
  eapply halts_ends; [halts_tac|intros [v c2]|by intros [?|?] b1 H; [split; [|apply Hb]|]].
  destruct v; apply halts_ret; try done. split; [done|]. by rewrite orb_false_r.
Qed.
#[local] Hint Resolve goes_refresh_receive_turn : ends.

Lemma ends_refresh_loop n ex : ends (refresh_loop cfg stack n ex).
Proof. revert ex. induction n as [|n IH]; intros ex; cbn [refresh_loop]; halts_tac; apply IH. Qed.
#[local] Hint Resolve ends_refresh_loop : ends.

Lemma ends_clnet_allocate af c a t : ends (clnet_allocate cfg stack maps af c a t).
Proof. unfold clnet_allocate. halts_tac. Qed.
#[local] Hint Resolve ends_clnet_allocate : ends.

(** * Channels and permissions *)

Lemma ends_seal_request c m : ends (seal_request cfg stack c m).
Proof. unfold seal_request. halts_tac. Qed.
Lemma moves_bind_request n a m : moves (bind_request cfg maps n a m).
Proof. unfold bind_request. halts_tac. Qed.
Lemma ends_bind_response c m : ends (bind_response cfg stack c m).
Proof. unfold bind_response. halts_tac. Qed.
#[local] Hint Resolve ends_seal_request ends_bind_response : ends.
#[local] Hint Resolve moves_bind_request : moves.

Lemma goes_bind_receive_turn st : halts (bind_receive_turn cfg stack st) (goes_on (λ _, True)).
Proof.
  destruct st as [[c req] m]. unfold bind_receive_turn. apply halts_receives. intros [[[n c'] m'] req']. cbn [fst].
  eapply halts_ends; [halts_tac|intros q|by destruct (0 <? n); intros [?|?] b H; try intros []].
  destruct (0 <? n); halts_tac.
Qed.
#[local] Hint Resolve goes_bind_receive_turn : ends.

Lemma goes_bind_turn a st : halts (bind_turn cfg stack maps a st) (goes_on (λ _, True)).
Proof. destruct st as [[[n c] req] m]. unfold bind_turn. halts_tac. Qed.
Lemma goes_permission_turn l st : halts (permission_turn cfg stack maps l st) (goes_on (λ _, True)).
Proof. destruct st as [[c req] m]. unfold permission_turn. halts_tac. Qed.
#[local] Hint Resolve goes_bind_turn goes_permission_turn : ends.

Lemma ends_turn_channel_bind n c a : ends (turn_channel_bind cfg stack maps n c a).
Proof. unfold turn_channel_bind. halts_tac. Qed.
Lemma ends_turn_create_permission c l : ends (turn_create_permission cfg stack maps c l).
Proof. unfold turn_create_permission. halts_tac. Qed.
#[local] Hint Resolve ends_turn_channel_bind ends_turn_create_permission : ends.

Lemma ends_tweak_addr a p : ends (tweak_addr a p).
Proof. unfold tweak_addr. halts_tac. Qed.
Lemma ends_random_peer t : ends (random_peer stack t).
Proof. unfold random_peer. halts_tac. Qed.
#[local] Hint Resolve ends_tweak_addr ends_random_peer : ends.
Lemma ends_extra_binds n c a : ends (extra_binds cfg stack maps n c a).
Proof. revert c a. induction n as [|n IH]; intros c a; cbn [extra_binds]; halts_tac; apply IH. Qed.
Lemma ends_extra_peers n a : ends (extra_peers n a).
Proof. revert a. induction n as [|n IH]; intros a; cbn [extra_peers]; halts_tac; apply IH. Qed.
#[local] Hint Resolve ends_extra_binds ends_extra_peers : ends.
Lemma ends_extra_permissions c : ends (extra_permissions cfg stack maps c).
Proof. unfold extra_permissions. halts_tac. Qed.
#[local] Hint Resolve ends_extra_permissions : ends.
Lemma ends_bind_channels c n a : ends (bind_channels cfg stack maps c n a).
Proof. unfold bind_channels. halts_tac. Qed.
Lemma ends_bind_permissions c a : ends (bind_permissions cfg stack maps c a).
Proof. unfold bind_permissions. halts_tac. Qed.
Lemma ends_set_peer t p : ends (set_peer cfg stack t p).
Proof. unfold set_peer. halts_tac. Qed.
#[local] Hint Resolve ends_bind_channels ends_bind_permissions ends_set_peer : ends.
Lemma ends_bind_real t p c : ends (bind_real cfg stack maps t p c).
Proof. unfold bind_real. halts_tac. Qed.
Lemma ends_start_connection p ra i la c : ends (start_connection cfg stack maps p ra i la c).
Proof. unfold start_connection. halts_tac. Qed.
Lemma ends_start_c2c_connection p ra i la c : ends (start_c2c_connection cfg stack maps p ra i la c).
Proof. unfold start_c2c_connection. halts_tac. Qed.
#[local] Hint Resolve ends_bind_real ends_start_connection ends_start_c2c_connection : ends.

(** * The session *)

Lemma ends_seal_refresh c m : ends (seal_refresh cfg stack c m).
Proof. unfold seal_refresh. halts_tac. Qed.
#[local] Hint Resolve ends_seal_refresh : ends.
Lemma ends_send_sealed s m d : ends (send_sealed cfg stack s m d).
Proof. unfold send_sealed. halts_tac. Qed.
#[local] Hint Resolve ends_send_sealed : ends.
Lemma ends_refresh_allocation s m k l : ends (refresh_allocation cfg stack s m k l).
Proof. unfold refresh_allocation. halts_tac. Qed.
Lemma ends_refresh_permission s m k : ends (refresh_permission cfg stack maps s m k).
Proof. unfold refresh_permission. halts_tac. Qed.
Lemma ends_refresh_binding s m k : ends (refresh_binding cfg stack maps s m k).
Proof. unfold refresh_binding. halts_tac. Qed.
#[local] Hint Resolve ends_refresh_allocation ends_refresh_permission ends_refresh_binding : ends.
Lemma ends_refresh_channel s k l : ends (refresh_channel cfg stack maps s k l).
Proof. unfold refresh_channel, refresh_channel_at. halts_tac. Qed.
#[local] Hint Resolve ends_refresh_channel : ends.
Lemma ends_read_message s t : ends (read_message cfg stack maps s t).
Proof. unfold read_message. halts_tac. Qed.
#[local] Hint Resolve ends_read_message : ends.

(** [client_read] says that it read something only after an answer. *)
Lemma moves_client_read s t atc : halts (client_read cfg stack maps s t atc) (λ x b, 0 < x.1 -> b = true).
Proof.
  unfold client_read. destruct (state s); try (by apply halts_ret).
  apply halts_receives. intros [[[rc c] m] req]. cbn [fst]. destruct (Z.ltb_spec 0 rc).
  - eapply halts_ends; [halts_tac|intros [[] s']; halts_tac|done].
  - destruct (rc =? 0); apply halts_ret; cbn; lia.
Qed.

Lemma goes_handler_turn fd s : halts (handler_turn cfg stack maps fd s) (goes_on (λ _, True)).
Proof.
  unfold handler_turn. eapply halts_bind; [apply moves_client_read|]. intros [rc s'] b Hb. cbn [fst] in Hb.
  destruct (Z.leb_spec rc 0); apply halts_ret; [done|]. split; [done|]. rewrite Hb by done. done.
Qed.
#[local] Hint Resolve goes_handler_turn : ends.

Lemma ends_client_input_handler fd what s : ends (client_input_handler cfg stack maps fd what s).
Proof. unfold client_input_handler. halts_tac. Qed.
Lemma ends_start_client ra p i la : ends (start_client cfg stack maps ra p i la).
Proof. unfold start_client. generalize create_new_ss. intros ss. cbv zeta. halts_tac. Qed.
Lemma ends_start_c2c ra p i la : ends (start_c2c cfg stack maps ra p i la).
Proof. unfold start_c2c. generalize create_new_ss. intros ss. cbv zeta. halts_tac. Qed.
#[local] Hint Resolve ends_start_client ends_start_c2c : ends.
Lemma ends_start_p2p_client ra p i la : ends (start_p2p_client cfg stack maps ra p i la).
Proof. unfold start_p2p_client. halts_tac. Qed.
Lemma ends_bind_client t p s : ends (bind_client cfg stack maps t p s).
Proof. unfold bind_client. halts_tac. Qed.

(** * The STUN client *)

Context (cb : stun_callbacks).

Lemma moves_sendto_turn fd a d s : moves (sendto_turn fd a d s).
Proof. unfold sendto_turn. halts_tac. Qed.
Lemma moves_stun_recv_turn fd n s : moves (stun_recv_turn fd n s).
Proof. unfold stun_recv_turn. halts_tac. Qed.
#[local] Hint Resolve moves_sendto_turn moves_stun_recv_turn : moves.
Lemma ends_stun_sockets st a p : ends (stun_sockets st a p).
Proof. unfold stun_sockets. halts_tac. Qed.
Lemma ends_notify_address t a b : ends (notify_address t a b).
Proof. unfold notify_address. halts_tac. Qed.
#[local] Hint Resolve ends_stun_sockets ends_notify_address : ends.
Lemma ends_stun_response st a m r : ends (stun_response stack maps cb st a m r).
Proof. unfold stun_response, stun_success. halts_tac. Qed.
#[local] Hint Resolve ends_stun_response : ends.
Lemma ends_run_stunclient ip rp p r q ci cp pd st : ends (run_stunclient stack maps cb ip rp p r q ci cp pd st).
Proof. unfold run_stunclient. halts_tac. Qed.
#[local] Hint Resolve ends_run_stunclient : ends.
Lemma ends_stun_tests ip rp b st : ends (stun_tests stack maps cb ip rp b st).
Proof. unfold stun_tests. halts_tac. Qed.
#[local] Hint Resolve ends_stun_tests : ends.
Lemma ends_run_stun la ip rp b st : ends (run_stun stack maps cb la ip rp b st).
Proof. unfold run_stun. halts_tac. Qed.

(** What [halts] says of a run. *)
Lemma ends_converges {A} (m : prog A) w : ends m -> m w <> Diverged.
Proof. intros H Hd. specialize (H w). unfold wpf in H. by rewrite Hd in H. Qed.
End engine.

(** For the developments that follow these programs further. *)
#[export] Hint Resolve ends_spoil ends_negative_protocol goes_plain_send_turn ends_collect ends_get_frame
  goes_buf_size_turn ends_set_sock_buf_size ends_sock_bind_to_device ends_socket_set_reusable
  ends_addr_connect ends_addr_bind ends_addr_get_from_sock ends_set_raw_socket_ttl ends_set_raw_socket_tos
  ends_set_mtu_df ends_socket_set_nonblocking ends_new_token ends_add_integrity ends_check_integrity
  ends_notify_ip ends_rare_event ends_not_rare_event ends_socket_connect ends_tls_connect goes_connect_turn
  ends_clnet_connect ends_authentic ends_allocate_granted ends_allocate_refused ends_allocate_response
  goes_allocate_receive_turn ends_even_port ends_allocate_request ends_reopen ends_allocate_loop ends_ssl_free
  ends_mobile_reopen ends_add_random_family ends_refresh_request ends_refresh_response
  goes_refresh_receive_turn ends_refresh_loop ends_clnet_allocate ends_seal_request ends_bind_response
  goes_bind_receive_turn goes_bind_turn goes_permission_turn ends_turn_channel_bind
  ends_turn_create_permission ends_tweak_addr ends_random_peer ends_extra_binds ends_extra_peers
  ends_extra_permissions ends_bind_channels ends_bind_permissions ends_set_peer ends_bind_real
  ends_start_connection ends_start_c2c_connection ends_seal_refresh ends_send_sealed ends_refresh_allocation
  ends_refresh_permission ends_refresh_binding ends_refresh_channel ends_read_message goes_handler_turn
  ends_client_input_handler ends_start_client ends_start_c2c ends_start_p2p_client ends_bind_client
  ends_stun_sockets ends_notify_address ends_stun_response ends_run_stunclient ends_stun_tests ends_run_stun
  moves_wait_turn : ends.
#[export] Hint Resolve moves_ssl_write_turn moves_ssl_send_turn moves_send_turn moves_ssl_read_turn
  moves_udp_receive moves_tcp_receive moves_setsockopt moves_retry_turn moves_retry moves_lifetime_turn
  moves_ssl_connect_turn moves_tls_turn moves_bind_request moves_sendto_turn moves_stun_recv_turn : moves.
