(* ===== verification/Bounded.v ===== *)
(** How much the engine asks of its environment: each function of the two clients, with the
    number of answers it asks for at most, and again for each renewal ([Progress]).

    A loop that goes on only after a renewal costs twice its turn; the loop that sends the
    rest of a message over TCP is bounded by the length of the message, which is short; the
    loops with a count cost their turn that many times.  The numbers: a message is sent with
    at most 150,000 answers (a byte at a time), received with 2,200,000 (7 retransmissions,
    and once again), an ALLOCATE takes 4,600,000, a REFRESH 9,200,000.  The last part counts
    the requests of an allocation. *)

From S2P Require Import Prelude Defs CString IoAddr MsgAddr AddrText StunHeader StunAttr StunMsg StunBuffer Crypto Integrity Evp OAuth System Progress Session Transport TransportSpec Credentials Sockets Connect Allocate Bind Client StunClient Termination.

(** * Short messages

    The messages the clients build are short: no attribute makes a message longer than
    [MAX_STUN_MESSAGE_SIZE], whatever the memory holds. *)

Definition short (l : Z) : Prop := l <= MAX_STUN_MESSAGE_SIZE.

(** A builder: from a short message it makes a short one. *)
Definition keeps_short {R} (l : Z) (x : option (R * sbuf)) : Prop := forall r b, x = Some (r, b) -> short l -> short (sb_len b).
Definition keeps_short' {R} (l : Z) (x : option (R * stun_buffer)) : Prop := forall r m, x = Some (r, m) -> short l -> short (len m).

Lemma short_attr_add b t f n : keeps_short (sb_len b) (stun_attr_add_str b t f n).
Proof.
  intros r b' H Hl. unfold stun_attr_add_str in H.
  destruct (match f with Some v => _ | None => _ end) as [v l]. apply bind_Some in H as (c & _ & H). apply bind_Some in H as (n1 & _ & H).
  cbv zeta in H. apply bind_Some in H as (n2 & _ & H). destruct (Z.leb_spec MAX_STUN_MESSAGE_SIZE n2); [by injection H as <- <-|].
  apply bind_Some in H as ([? m1] & _ & H). apply bind_Some in H as (m2 & _ & H). apply bind_Some in H as (m3 & _ & H).
  apply bind_Some in H as (m4 & _ & [= <- <-]). unfold short. cbn [sb_len]. lia.
Qed.

Lemma short_on_sbuf {R} (m : stun_buffer) (x : option (R * sbuf)) : keeps_short (len m) x -> keeps_short' (len m) (on_sbuf m x).
Proof. intros H r m' Hx Hl. unfold on_sbuf in Hx. apply bind_Some in Hx as ([r' b] & Hx & [= <- <-]). by apply (H r' b). Qed.

Lemma short_add m t f n : keeps_short' (len m) (stun_attr_add m t f n).
Proof. exact (short_on_sbuf m _ (short_attr_add (to_sbuf m) t f n)). Qed.

Lemma short_add_addr maps b t a : keeps_short (sb_len b) (stun_attr_add_addr_str maps b t a).
Proof.
  intros r b' H Hl. unfold stun_attr_add_addr_str in H. apply bind_Some in H as (tid & _ & H). cbv zeta in H.
  apply bind_Some in H as (pub & _ & H). apply bind_Some in H as ([[k cf] cl] & _ & H).
  destruct (k <? 0); [by injection H as <- <-|].
  apply bind_Some in H as ([k2 b2] & H2 & H). pose proof (short_attr_add _ _ _ _ _ _ H2 Hl) as Hs. destruct (k2 <? 0); [by injection H as <- <-|by injection H as <- <-].
Qed.

Lemma short_fingerprint b : keeps_short (sb_len b) (stun_attr_add_fingerprint_str b).
Proof.
  intros r b' H Hl. unfold stun_attr_add_fingerprint_str in H. apply bind_Some in H as ([k b1] & H1 & H).
  pose proof (short_attr_add _ _ _ _ _ _ H1 Hl) as Hs. apply bind_Some in H as (crc & _ & H). apply bind_Some in H as (m & _ & [= <- <-]). done.
Qed.

(** A message after its initialisation. *)
Lemma short_init_command t b e b' : stun_init_command_str t b e = Some b' -> short (sb_len b').
Proof.
  unfold stun_init_command_str, init_command_with. intros H. apply bind_Some in H as (b1 & H1 & H). cbv zeta in H.
  apply bind_Some in H as (m1 & _ & H). apply bind_Some in H as (m2 & _ & H). apply bind_Some in H as (m3 & _ & H).
  apply bind_Some in H as ([m4 ?] & _ & [= <-]). unfold stun_init_buffer_str in H1. apply bind_Some in H1 as (m & _ & [= <-]). done.
Qed.

Lemma short_init_request k m e m' : stun_init_request k m e = Some m' -> short (len m').
Proof.
  unfold stun_init_request, stun_init_command, on_sbuf'. intros H. apply bind_Some in H as (b & Hb & [= <-]).
  by apply short_init_command in Hb.
Qed.

(** A builder of the C library that stops at the first failure. *)
Lemma short_or_fail l (x : option (Z * sbuf)) (k : sbuf -> option (Z * sbuf)) :
  keeps_short l x -> (forall b, keeps_short (sb_len b) (k b)) -> keeps_short l (or_fail x k).
Proof.
  intros Hx Hk r b H Hl. unfold or_fail in H. apply bind_Some in H as ([r1 b1] & H1 & H). pose proof (Hx _ _ H1 Hl) as Hs.
  destruct (r1 <? 0); [by injection H as <- <-|by apply (Hk b1 r b H)].
Qed.

Lemma short_done {R} (r : R) b : keeps_short (sb_len b) (Some (r, b)).
Proof. by intros ? ? [= <- <-]. Qed.

Lemma short_bind {R A} l (x : option A) (k : A -> option (R * sbuf)) :
  (forall a, keeps_short l (k a)) -> keeps_short l (x ≫= k).
Proof. intros Hk r b H Hl. apply bind_Some in H as (a & _ & H). by apply (Hk a r b). Qed.

(** Follows a builder. *)
Ltac short_step :=
  match goal with
  | |- keeps_short _ (or_fail _ _) => apply short_or_fail; [|intros ?]
  | |- keeps_short _ (stun_attr_add_str _ _ _ _) => apply short_attr_add
  | |- keeps_short _ (Some _) => apply short_done
  | |- keeps_short _ (match ?x with _ => _ end) => destruct x
  | |- keeps_short _ (_ ≫= _) => apply short_bind; intros ?
  end.
Ltac short_tac := repeat (short_step; cbv beta iota zeta).

Section integrity.
Context `{C : Crypto}.

Lemma short_integrity ct b key pwd sha junk : keeps_short (sb_len b) (stun_attr_add_integrity_str ct b key pwd sha junk).
Proof.
  unfold stun_attr_add_integrity_str. cbv zeta. apply short_or_fail; [apply short_attr_add|intros b1].
  apply short_bind. intros [[r m] ?]. destruct (r <? 0); by intros ? ? [= <- <-].
Qed.

Lemma short_integrity_by_key b u re key n sha p junk : keeps_short (sb_len b) (stun_attr_add_integrity_by_key_str b u re key n sha p junk).
Proof. unfold stun_attr_add_integrity_by_key_str. short_tac. apply short_integrity. Qed.

Lemma short_integrity_by_user b u re pw n sha k p junk j :
  keeps_short (sb_len b) (stun_attr_add_integrity_by_user_str b u re pw n sha k p junk j).
Proof. unfold stun_attr_add_integrity_by_user_str. short_tac. apply short_integrity_by_key. Qed.
End integrity.

Lemma short_allocate_request m lt af4 af6 tr mob rt ep e r m' :
  stun_set_allocate_request m lt af4 af6 tr mob rt ep e = Some (r, m') -> short (len m').
Proof.
  unfold stun_set_allocate_request, on_sbuf. intros H. apply bind_Some in H as ([k b] & H & [= <- <-]).
  unfold stun_set_allocate_request_str, stun_init_request_str in H. apply bind_Some in H as (b1 & H1 & H).
  apply short_init_command in H1. cbn [len of_sbuf]. revert H1. revert H. generalize k b. apply (id (A := keeps_short (sb_len b1) _)).
  apply short_or_fail; [short_tac|intros b2]. cbv zeta.
  repeat (apply short_or_fail; [short_tac|intros ?]). destruct rt; [|short_tac].
  intros k' b' H. apply bind_Some in H as ([? bt] & H3 & [= <- <-]). by apply (short_attr_add _ _ _ _ _ _ H3).
Qed.

Lemma short_channel_bind_request maps m a n er e r m' :
  stun_set_channel_bind_request maps m a n er e = Some (r, m') -> short (len m').
Proof.
  unfold stun_set_channel_bind_request, on_sbuf. intros H. apply bind_Some in H as ([k b] & H & [= <- <-]).
  unfold stun_set_channel_bind_request_str, stun_init_request_str in H. cbv zeta in H. apply bind_Some in H as (b1 & H1 & H).
  apply short_init_command in H1. apply bind_Some in H as ([k2 b2] & H2 & H). pose proof (short_attr_add _ _ _ _ _ _ H2 H1) as Hs. cbn [len of_sbuf].
  destruct (k2 <? 0); [by injection H as <- <-|]. apply bind_Some in H as ([k3 b3] & H3 & H). pose proof (short_add_addr _ _ _ _ _ _ H3 Hs) as Hs3.
  destruct (k3 <? 0); by injection H as <- <-.
Qed.

Lemma short_origin o m m' : add_origin o m = Some m' -> short (len m) -> short (len m').
Proof.
  unfold add_origin. intros H Hl. apply bind_Some in H as (c & _ & H). destruct (truth c); [|by injection H as <-].
  apply bind_Some in H as ([? m1] & H1 & H). pose proof (short_add _ _ _ _ _ _ H1 Hl) as Hs1.
  apply bind_Some in H as (n & _ & H). apply bind_Some in H as ([? m2] & H2 & H). pose proof (short_add _ _ _ _ _ _ H2 Hs1) as Hs2.
  apply bind_Some in H as ([? m3] & H3 & [= <-]). by apply (short_add _ _ _ _ _ _ H3).
Qed.

Lemma short_peers maps m l m' : add_peers maps m l = Some m' -> short (len m) -> short (len m').
Proof.
  revert m. induction l as [|a l IH]; intros m H' Hl; cbn [add_peers] in H'; [by injection H' as <-|].
  apply bind_Some in H' as ([? m1] & H1 & H'). apply (IH m1 H'). eapply short_on_sbuf; [apply (short_add_addr maps (to_sbuf m))|exact H1|done].
Qed.

(** * Sending *)

Section transport.
Context (cfg : config).

Lemma costs_wait_turn t st : costs 2 (wait_turn t st) (renews_to_go (λ _, True)).
Proof.
  destruct st as [[c ct] rc]. unfold wait_turn.
  destruct (match c with O => _ | _ => _ end) as [ms|]; [|by apply costs_ret].
  costs_pass 0; [eauto with costs nocore|].
  costs_first 1 (λ rc b, b = (rc <? 0)); [by apply costs_syscall|]. intros rc' b ->.
  destruct (rc' <? 0); cbn [orb andb].
  - costs_pass 0; [eauto with costs nocore|]. case_bool_decide; costs_tac.
  - costs_tac.
Qed.

Lemma bounded_wait_fd d fd c : bounded 5 (wait_fd d fd c).
Proof.
  unfold wait_fd. destruct (_ <=? _); [by apply costs_ret|]. destruct (_ && _); [by apply costs_ret|].
  costs_pass 1; [eauto with costs nocore|]. apply (bounded_loop 2); [apply costs_wait_turn|lia..].
Qed.

(** A message after some of its bytes were spoilt. *)
Lemma costs_spoil np m : costs (2 * Z.of_nat np) (spoil np m) (λ m' _, len m' = len m).
Proof.
  revert m. induction np as [|np IH]; intros m; cbn [spoil]; [by apply costs_ret|].
  eapply (costs_seq _ 1); [eauto with costs nocore|lia|intros r|halts_side].
  eapply (costs_seq _ 1); [eauto with costs nocore|lia|intros v|halts_side].
  eapply (costs_seq _ 0); [eauto with costs nocore|lia|intros m'|halts_side].
  eapply costs_mono; [apply IH|lia|]. by intros a b ->.
Qed.

Lemma costs_negative_protocol m : costs 20 (negative_protocol cfg m) (λ m' _, len m' = len m).
Proof.
  unfold negative_protocol. destruct (_ && _); [|by apply costs_ret].
  costs_pass 1; [eauto with costs nocore|]. destruct (_ =? 0); [|by apply costs_ret].
  costs_pass 1; [eauto with costs nocore|]. eapply costs_mono; [apply costs_spoil| |done].
  pose proof (Z.mod_pos_bound (u64 a0) 10). lia.
Qed.

Lemma costs_ssl_write_turn d s : costs 1 (ssl_write_turn d s) (λ _ b, b = true).
Proof.
  unfold ssl_write_turn. costs_first 1 (λ (_ : Z * ssl_error) b, b = true); [by apply costs_SSL_write|]. intros [n se] b ->. costs_tac.
Qed.

Lemma costs_ssl_send_turn d n s : costs 3 (ssl_send_turn d n s) (renews_to_go (λ _, True)).
Proof.
  unfold ssl_send_turn. costs_pass 1; [eauto with costs nocore|]. destruct a; [by apply costs_ret|].
  costs_first 2 (λ (_ : Z * ssl_error) b, b = true).
  { apply (costs_loop 1 2 (λ _, True)); [done..|]. intros [] _. eapply costs_mono; [apply costs_ssl_write_turn|lia|].
    intros [[]|x] b ->; [done|]. intros b'. apply orb_true_r. }
  intros [k se] b ->. costs_tac.
Qed.

Lemma costs_send_turn fd d s : costs 1 (send_turn fd d s) (renews_to_go (λ _, True)).
Proof.
  unfold send_turn. costs_first 1 (λ rc b, rc <= 0 -> b = true); [by apply costs_send|]. intros rc b Hb.
  destruct (Z.leb_spec rc 0) as [Hrc|]; [rewrite (Hb Hrc)|]; cbn [andb orb]; costs_tac.
Qed.

Lemma bounded_plain_send fd m n : short n -> bounded 140000 (iter (plain_send_turn fd m) (0, n)).
Proof.
  intros Hn. unfold short, MAX_STUN_MESSAGE_SIZE in Hn.
  eapply costs_mono; [apply (costs_loop_measure 2 65507 (λ s, Z.max 0 s.2) (λ _, True) (plain_send_turn fd m) (λ _ _, True))|lia|done];
    [lia|done|cbn; lia|..].
  - intros [p k] _. unfold plain_send_turn. destruct (Z.ltb_spec 0 k); [|by apply costs_ret].
    costs_first 0 (λ (_ : list Z) (b : bool), b = false); [by apply costs_lift|intros d b ->].
    costs_first 2 (λ (_ : Z) (b : bool), True).
    { apply (bounded_loop 1); [intros s; apply costs_send_turn|lia..]. }
    intros rc b _. destruct (Z.ltb_spec 0 rc); apply costs_ret; [lia| |lia|done]. split; [done|]. cbn. split; [lia|]. right. lia.
  - intros s1 w s' w' _ H. pose proof (goes_plain_send_turn fd m s1 w) as Hg. unfold wpf in Hg. rewrite H in Hg.
    destruct Hg as [_ [_ Hg]]. by apply Nat.ltb_lt in Hg.
Qed.

(** Sending a short message, which stays as long as it is. *)
Lemma costs_send_buffer c m dc atc :
  short (len m) ->
  costs 150000 (send_buffer cfg c m dc atc) (λ x _, let '(r, c', m') := x in len m' = len m).
Proof.
  intros Hm. unfold send_buffer. costs_first 20 (λ m' (_ : bool), len m' = len m); [apply costs_negative_protocol|].
  intros m' b Hl. rewrite <- Hl in Hm |- *.
  destruct (send_target cfg c dc atc) as [[[] fd]|]; [..|by apply costs_ret].
  - costs_pass 0; [eauto with costs nocore|].
    costs_pass 6; [apply (bounded_loop 3); [intros s; apply costs_ssl_send_turn|lia..]|].
    destruct a0; by apply costs_ret.
  - destruct (0 <=? fd); [|by apply costs_ret]. costs_pass 140000; [by apply bounded_plain_send|].
    destruct (0 <? a); by apply costs_ret.
Qed.

(** * Receiving *)

Lemma costs_recv_turn fd n sync s :
  costs 1 (recv_turn fd n sync s) (λ r b, match r with inl _ => b = true | inr (rc, _) => 0 < rc -> b = true end).
Proof.
  unfold recv_turn. costs_first 1 (λ (x : Z * list Z) b, (x.1 < 0 -> b = true) /\ (0 < x.1 -> b = true));
    [apply costs_recv; [lia|]; intros ? ? ? ? ?; done|].
  intros [rc bs] b [H1 H2]. cbn [fst] in *.
  costs_pass 0; [eauto with costs nocore|]. costs_pass 0; [destruct (_ && _); eauto with costs nocore|].
  costs_pass 0; [eauto with costs nocore|]. destruct (Z.ltb_spec rc 0); cbn [andb].
  - rewrite H1 by done. case_bool_decide; by apply costs_ret.
  - apply costs_ret; [done|]. intros ?. by rewrite H2.
Qed.

Lemma costs_recv_loop fd n sync : costs 2 (iter (recv_turn fd n sync) tt) (λ x b, 0 < x.1 -> b = true).
Proof.
  apply (costs_loop 1 2 (λ _, True)); [done..|]. intros [] _. eapply costs_mono; [apply costs_recv_turn|lia|].
  intros [[]|[rc bs]] b H; [done|]. intros b' Hp. by rewrite (H Hp), orb_true_r.
Qed.

Lemma costs_ssl_read_turn s :
  costs 1 (ssl_read_turn s) (λ r b, match r with inl _ => b = true | inr (rc, _, _) => rc <> 0 -> b = true end).
Proof.
  unfold ssl_read_turn. costs_first 1 (λ (x : Z * list Z * ssl_error) b, x.1.1 <> 0 -> b = true).
  { apply costs_SSL_read; [done|by intros ? ? ? ? ? ->|by intros ? ? ? []]. }
  intros [[rc bs] se] b H. cbn [fst] in *. costs_pass 0; [eauto with costs nocore|].
  destruct (Z.ltb_spec rc 0); cbn [andb]; [|apply costs_ret; [done|]; intros ?; by rewrite H].
  rewrite H by lia. case_bool_decide; by apply costs_ret.
Qed.

Lemma costs_ssl_read : costs 2 (iter ssl_read_turn tt) (λ x b, x.1.1 <> 0 -> b = true).
Proof.
  apply (costs_loop 1 2 (λ _, True)); [done..|]. intros [] _. eapply costs_mono; [apply costs_ssl_read_turn|lia|].
  intros [[]|[[rc bs] se]] b H; [done|]. intros b' Hp. by rewrite (H Hp), orb_true_r.
Qed.

(** What a receive branch returns was received. *)
Definition got (x : option Z * app_ur_conn_info * stun_buffer) (b : bool) : Prop :=
  match x.1.1 with Some rc => 0 < rc -> b = true | None => True end.

Lemma got_mono x b b' : got x (b || b') -> got x (b || true).
Proof. unfold got. destruct (x.1.1); [|done]. intros _ _. apply orb_true_r. Qed.

Lemma got_renewed x b : b = true -> got x b.
Proof. intros ->. unfold got. by destruct (x.1.1). Qed.

Lemma costs_ssl_receive n rc sync c m :
  rc <= 0 \/ (0 < n)%nat -> costs (3 * Z.of_nat n) (ssl_receive n rc sync c m) got.
Proof.
  revert rc c m. induction n as [|n IH]; intros rc c m Hrc; cbn [ssl_receive].
  { apply costs_ret; [lia|]. unfold got. cbn. lia. }
  apply (costs_bind _ 1 (3 * Z.of_nat n + 2) _ _ (λ _ _, True)); [eauto with costs nocore| |lia..]. intros down b0 _.
  destruct down; [by apply costs_ret; [lia|]|].
  apply (costs_bind _ 2 (3 * Z.of_nat n) _ _ (λ x b, x.1.1 <> 0 -> b = true)); [apply costs_ssl_read| |lia..].
  intros [[rc' bs] se] b H. cbn [fst] in H. destruct (Z.ltb_spec 0 rc').
  { apply (costs_bind _ 0 (3 * Z.of_nat n) _ _ (λ _ _, True)); [eauto with costs nocore| |lia..]. intros m' b' _.
    apply costs_ret; [lia|]. apply got_renewed. rewrite H by lia. by destruct b0. }
  assert (costs (3 * Z.of_nat n) (if sync then ssl_receive n rc' sync c m else mret (Some rc', c, m)) (λ x b', got x (b0 || (b || b')))) as Hagain.
  { destruct sync; [|apply costs_ret; [lia|]; unfold got; cbn; lia].
    eapply costs_mono; [apply IH; lia|lia|]. intros x b' Hx. unfold got in *. destruct (x.1.1); [|done]. intros Hp. rewrite (Hx Hp).
    destruct b0, b; done. }
  destruct se; try exact Hagain; try (apply costs_ret; [lia|done]).
  apply (costs_bind _ 0 (3 * Z.of_nat n) _ _ (λ _ b, b = false)); [by apply costs_get_errno| |lia..]. intros e b' ->.
  destruct (handle_socket_error e); [|by apply costs_ret; [lia|]]. eapply costs_mono; [exact Hagain|lia|done].
Qed.

Lemma bounded_collect n fd l r sync m : bounded (2 * Z.of_nat n) (collect n fd l r sync m).
Proof.
  revert r m. induction n as [|n IH]; intros r m; cbn [collect]; (destruct (r <? l); [|apply costs_ret; [lia|done]]); [by apply costs_ret|].
  apply (costs_bind _ 2 (2 * Z.of_nat n) _ _ (λ _ _, True)); [eapply costs_mono; [apply costs_recv_loop|lia|done]| |lia..].
  intros [rcr bs] b _. destruct (0 <? rcr); [|apply IH].
  apply (costs_bind _ 0 (2 * Z.of_nat n) _ _ (λ _ _, True)); [eauto with costs nocore|intros; apply IH|lia..].
Qed.

Lemma costs_udp_receive fd sync m : costs 2 (udp_receive fd sync m) (λ x b, match x.1 with Some rc => 0 < rc -> b = true | None => True end).
Proof.
  unfold udp_receive. costs_first 2 (λ (x : Z * list Z) b, 0 < x.1 -> b = true); [apply costs_recv_loop|].
  intros [rc bs] b H. cbn [fst] in H. destruct (rc <? 0); [by apply costs_ret|].
  costs_first 0 (λ (_ : list Z) (b : bool), True); [eauto with costs nocore|]. intros m' b' _.
  apply costs_ret; [done|]. cbn [fst]. intros Hp. by rewrite (H Hp).
Qed.

Lemma costs_tcp_receive fd sync atc m :
  costs 260 (tcp_receive cfg fd sync atc m) (λ x b, match x.1 with Some rc => 0 < rc -> b = true | None => True end).
Proof.
  unfold tcp_receive. costs_first 2 (λ (x : Z * list Z) b, 0 < x.1 -> b = true); [apply costs_recv_loop|].
  intros [rc bs] b H. cbn [fst] in H. destruct (Z.ltb_spec 0 rc) as [Hp|]; [|apply costs_ret; [done|]; cbn; lia].
  rewrite (H Hp). cbn [orb].
  eapply costs_mono; [|reflexivity|]; [|intros x b' _; by destruct (x.1)].
  instantiate (1 := λ _ _, True).
  costs_pass 0; [eauto with costs nocore|]. costs_pass 0; [eauto with costs nocore|]. destruct a0 as [mlen al].
  destruct (0 <? mlen); [|by apply costs_ret].
  costs_pass 256; [apply (bounded_collect 128)|]. destruct a0 as [rsf m2]. costs_tac.
Qed.

Lemma costs_receive fd ssl sync atc rc c m :
  costs 300 (receive cfg fd ssl sync atc rc c m) (λ x b, if receiving cfg fd ssl c then got x b else True).
Proof.
  assert (forall (p : prog (option Z * stun_buffer)) b0,
    costs 260 p (λ x b, match x.1 with Some rc => 0 < rc -> b = true | None => True end) ->
    costs 300 ('(rc, message) ← p; mret (rc, c, message)) (λ x b, if b0 : bool then got x b else True)) as Hrecv.
  { intros p b0 Hp. costs_first 260 (λ (x : option Z * stun_buffer) b, match x.1 with Some rc => 0 < rc -> b = true | None => True end); [done|].
    intros [r m'] b H. apply costs_ret; [done|]. rewrite orb_false_r. by destruct b0. }
  assert (forall b0 : bool, costs 300 (ssl_receive 100 rc sync c m) (λ x b, if b0 then got x b else True)) as Hssl.
  { intros b0. eapply costs_mono; [apply costs_ssl_receive; lia|lia|]. intros x b H. by destruct b0. }
  unfold receive, receiving.
  destruct (use_secure cfg), (use_tcp cfg); cbn [negb andb];
    [(destruct ssl; [destruct (ci_broken c)|]; cbn [negb andb]; [by apply costs_ret|apply (Hssl true)|by apply costs_ret])..| |];
    (destruct (0 <=? fd); [apply (Hrecv _ true); first [apply costs_tcp_receive|eapply costs_mono; [apply costs_udp_receive|lia|done]]|by apply costs_ret]).
Qed.

(** The retransmissions of a request. *)
Lemma costs_listen n fd cycle c q dc atc :
  short (len q) ->
  costs (150005 * Z.of_nat n) (listen cfg n fd cycle c q dc atc)
    (λ r _, match r with inl (_, q') | inr (_, q') => short (len q') end).
Proof.
  revert cycle c q. induction n as [|n IH]; intros cycle c q Hq; cbn [listen]; [by apply costs_ret|].
  apply (costs_bind _ 5 (150005 * Z.of_nat n + 150000) _ _ (λ _ _, True)); [apply bounded_wait_fd| |lia..]. intros serc b _.
  destruct (0 <? serc); [by apply costs_ret; [lia|]|]. destruct (serc <? 0); [by apply costs_ret; [lia|]|].
  apply (costs_bind _ 150000 (150005 * Z.of_nat n) _ _ (λ x (_ : bool), let '(r, c', m') := x in len m' = len q)); [by apply costs_send_buffer| |lia..].
  intros [[r c'] q'] b' Hl. rewrite <- Hl in Hq. destruct (r <=? 0); [by apply costs_ret; [lia|]|]. by apply IH.
Qed.

Definition short_request (r : option stun_buffer) : Prop := match r with Some q => short (len q) | None => True end.

Lemma costs_recv_again fd ssl sync dc atc tid k st :
  can_receive cfg fd ssl st -> short_request st.2 ->
  costs 1051000 (recv_again cfg fd ssl sync dc atc tid k st)
    (λ r b, match r with
            | inl st' => (can_receive cfg fd ssl st' /\ short_request st'.2) /\ b = true
            | inr x => delivers x b /\ short_request x.2
            end).
Proof.
  destruct st as [[[rc c] m] req]. cbn [snd]. intros Hi Hq. unfold recv_again.
  costs_first 1050035 (λ (l : app_ur_conn_info * option stun_buffer + app_ur_conn_info * option stun_buffer) (_ : bool),
    match l with inl (c', q') => c' = c /\ short_request q' | inr (_, q') => short_request q' end).
  { destruct req as [q|]; [|by apply costs_ret]. destruct (_ && _ && _); [|by apply costs_ret].
    costs_first 1050035 (λ (r : app_ur_conn_info * stun_buffer + app_ur_conn_info * stun_buffer) (_ : bool),
      match r with inl (c', q') => c' = c /\ short (len q') | inr (_, q') => short (len q') end).
    - eapply costs_mono; [apply costs_halts; [by apply costs_listen|apply halts_listen]|done|].
      intros [[c' q']|[c' q']] b [H1 [_ H2]]; [by split|done].
    - intros [[c' q']|[c' q']] b H; by apply costs_ret. }
  intros [[c' req']|[c' req']] b H; [destruct H as [-> Hq']|apply costs_ret; [done|]; split; [intros ?; lia|done]].
  costs_first 300 (λ (x : option Z * app_ur_conn_info * stun_buffer) (b' : bool),
    (if receiving cfg fd ssl c then got x b' else True) /\ exists b1, let '(r, c', _) := x in
       if receiving cfg fd ssl c then b1 = true /\ (r <> None -> receiving cfg fd ssl c' = true)
       else r = Some rc /\ c' = c).
  { apply costs_halts; [apply costs_receive|apply halts_receive]. }
  intros [[r c'] m'] b' [Hg [b1 Hr]].
  destruct r as [rc'|]; [|apply costs_ret; [done|]; split; [intros ?; lia|done]].
  destruct (Z.ltb_spec 0 rc') as [Hpos|].
  2: { destruct req'; (apply costs_ret; [done|]); (split; [intros ?; lia|done]). }
  destruct (receiving cfg fd ssl c) eqn:Hrec; [|destruct Hi, Hr; [simplify_eq; lia|congruence]].
  destruct Hr as [_ Hr]. specialize (Hr ltac:(done)). unfold got in Hg. cbn [fst] in Hg. rewrite (Hg Hpos).
  assert (forall b2, b || (true || b2) = true) as Hb by (intros; by destruct b).
  destruct req' as [q|]; [|apply costs_ret; [done|]; by split; [intros _; apply Hb|]].
  costs_first 0 (λ (_ : list Z) (b : bool), True); [eauto with costs nocore|]. intros rtid b2 _.
  costs_first 0 (λ (_ : Z) (b : bool), True); [eauto with costs nocore|]. intros rk b3 _.
  destruct (negb (k =? rk)); [apply costs_ret; [done|]; split; [split; [by right|done]|apply Hb]|].
  destruct (negb _); (apply costs_ret; [done|]); [split; [split; [by right|done]|apply Hb]|by split; [intros _; apply Hb|]].
Qed.

(** A message that was received is a renewal. *)
Lemma costs_recv_buffer c m sync dc atc req :
  short_request req ->
  costs 2200000 (recv_buffer cfg c m sync dc atc req) (λ x b, delivers x b /\ short_request x.2).
Proof.
  intros Hq. unfold recv_buffer. costs_first 0 (λ (_ : list Z * Z) (b : bool), b = false).
  { destruct req; [|by apply costs_ret]. costs_first 0 (λ (_ : list Z) (b : bool), b = false); [by apply costs_lift|intros ? ? ->].
    costs_first 0 (λ (_ : Z) (b : bool), b = false); [by apply costs_lift|intros ? ? ->].
    by apply costs_ret. }
  intros [tid k] b ->.
  set (fd := match atc with Some _ => _ | None => ci_fd c end).
  set (ssl := match atc with Some _ => _ | None => ci_ssl c end). cbv zeta.
  apply (costs_loop 1051000 2200000 (λ st, can_receive cfg fd ssl st /\ short_request st.2)); [done..|split; [by left|done]|].
  intros st [H1 H2]. eapply costs_mono; [by apply (costs_recv_again fd ssl)|done|].
  intros [st'|[[[rc ?] ?] q]] b H; [done|]. intros b'. destruct H as [H Hs]. split; [|done]. intros Hp. rewrite (H Hp). apply orb_true_r.
Qed.
End transport.

#[export] Hint Resolve bounded_wait_fd : costs.

(** * Sockets, authentication *)

Section engine.
Context `{N : NetDb} `{C : Crypto} `{V : Evp}.
Context (cfg : config) (stack : world -> frame) (maps : addr_maps).

Lemma bounded_get_frame : bounded 0 (get_frame stack).
Proof. apply costs_local; [done| |done]. intros w. by eexists _, _. Qed.
Lemma bounded_setsockopt v : bounded 1 (setsockopt v).
Proof. unfold setsockopt. costs_tac. Qed.
#[local] Hint Resolve bounded_get_frame bounded_setsockopt : costs.

Lemma costs_retry : costs 2 retry (λ rc b, rc < 0 -> b = true).
Proof.
  apply (costs_loop 1 2 (λ _, True)); [done..|]. intros [] _. unfold retry_turn.
  costs_first 1 (λ rc b, b = (rc <? 0)); [by apply costs_syscall|]. intros rc b ->.
  destruct (Z.ltb_spec rc 0); cbn [andb orb]; costs_quiet e; [case_bool_decide|];
    (apply costs_ret; [done|]); [done|intros; apply orb_true_r|lia].
Qed.
Lemma bounded_retry : bounded 2 retry.
Proof. eapply costs_mono; [apply costs_retry|lia|done]. Qed.
#[local] Hint Resolve bounded_retry : costs.

Lemma bounded_buf_size sz : bounded 2 (iter buf_size_turn sz).
Proof.
  apply (bounded_loop 1); [|lia..]. intros s. unfold buf_size_turn, setsockopt. destruct (0 <? s); [|by apply costs_ret].
  costs_first 1 (λ rc b, b = (rc <? 0)).
  { costs_quiet u. by apply costs_syscall. }
  intros rc b ->. destruct (rc <? 0); costs_tac.
Qed.
#[local] Hint Resolve bounded_buf_size : costs.

Lemma bounded_set_sock_buf_size fd sz : bounded 4 (set_sock_buf_size fd sz).
Proof. unfold set_sock_buf_size. costs_tac. Qed.
Lemma bounded_sock_bind_to_device fd n : bounded 1 (sock_bind_to_device fd n).
Proof. unfold sock_bind_to_device. costs_tac. Qed.
Lemma bounded_socket_set_reusable fd n t : bounded 2 (socket_set_reusable fd n t).
Proof. unfold socket_set_reusable. costs_tac. Qed.
#[local] Hint Resolve bounded_set_sock_buf_size bounded_sock_bind_to_device bounded_socket_set_reusable : costs.
Lemma bounded_addr_bind fd a r t : bounded 5 (addr_bind fd a r t).
Proof. unfold addr_bind. costs_tac. Qed.
Lemma bounded_addr_get_from_sock fd a : bounded 2 (addr_get_from_sock fd a).
Proof. unfold addr_get_from_sock. costs_tac. Qed.
Lemma bounded_set_raw_socket_ttl fd f t : bounded 1 (set_raw_socket_ttl fd f t).
Proof. unfold set_raw_socket_ttl. costs_tac. Qed.
Lemma bounded_set_raw_socket_tos fd f t : bounded 1 (set_raw_socket_tos fd f t).
Proof. unfold set_raw_socket_tos. costs_tac. Qed.
Lemma bounded_set_mtu_df s fd f m v : bounded 1 (set_mtu_df s fd f m v).
Proof. unfold set_mtu_df, set_socket_df. costs_tac. Qed.
Lemma bounded_socket_set_nonblocking fd : bounded 1 (socket_set_nonblocking fd).
Proof. unfold socket_set_nonblocking. costs_tac. Qed.
#[local] Hint Resolve bounded_addr_bind bounded_addr_get_from_sock bounded_set_raw_socket_ttl bounded_set_raw_socket_tos bounded_set_mtu_df bounded_socket_set_nonblocking : costs.

Lemma bounded_lifetime : bounded 2 (iter lifetime_turn tt).
Proof.
  apply (bounded_loop 1); [|lia..]. intros []. unfold lifetime_turn. costs_first 1 (λ r b, b = (r =? 0)).
  { apply costs_ask; [done|]. intros [] x; try done. by intros [= ->]. }
  intros r b ->. unfold truth. destruct (r =? 0); by apply costs_ret.
Qed.
#[local] Hint Resolve bounded_lifetime : costs.

(** * Requests *)

(** Adding to a short message. *)
Lemma costs_build {R A} n (x : option (R * stun_buffer)) m (k : R * stun_buffer -> prog A) (Q : A -> bool -> Prop) :
  keeps_short' (len m) x -> short (len m) -> 0 <= n -> (forall r m', short (len m') -> costs n (k (r, m')) Q) ->
  costs n (lift x ≫= k) Q.
Proof.
  intros Hx Hm Hn Hk. apply (costs_bind n 0 n _ _ (λ y b, b = false /\ short (len y.2))); [| |lia..].
  - apply costs_lift; [done|]. intros [r m'] ->. split; [done|]. by apply (Hx r m').
  - intros [r m'] b [-> H]. by apply Hk.
Qed.

Lemma costs_new_token c m : short (len m) -> costs 6 (new_token cfg stack c m) (λ x _, short (len x.2)).
Proof.
  intros Hm. unfold new_token. costs_pass 1; [eauto with costs nocore|]. cbv zeta. costs_pass 1; [eauto with costs nocore|].
  costs_pass 2; [eauto with costs nocore|]. costs_pass 1; [eauto with costs nocore|]. costs_pass 1; [eauto with costs nocore|].
  costs_pass 0; [eauto with costs nocore|]. costs_pass 0; [eauto with costs nocore|]. costs_pass 0; [eauto with costs nocore|].
  costs_pass 0; [eauto with costs nocore|]. destruct a7 as [rc et]. destruct (rc <? 0); [by apply costs_ret|].
  costs_pass 0; [eauto with costs nocore|]. apply (costs_build _ _ m); [apply short_add|done..|]. intros _ m' Hm'.
  costs_pass 0; [eauto with costs nocore|]. by apply costs_ret.
Qed.

Lemma costs_add_integrity c m : short (len m) -> costs 6 (add_integrity cfg stack c m) (λ x _, short (len x.2)).
Proof.
  intros Hm. unfold add_integrity. costs_pass 0; [eauto with costs nocore|]. destruct (truth a); [|by apply costs_ret].
  destruct (_ && _).
  - costs_pass 0; [eauto with costs nocore|].
    costs_first 6 (λ (x : bool * app_ur_conn_info * stun_buffer) (_ : bool), short (len x.2)).
    { destruct (_ || _); [by apply costs_new_token|by apply costs_ret]. }
    intros [[ok c'] m'] b Hm'. cbn [snd] in Hm'. destruct (negb ok); [by apply costs_ret|].
    costs_pass 0; [eauto with costs nocore|]. costs_pass 0; [eauto with costs nocore|].
    apply (costs_build _ _ m'); [apply short_on_sbuf, short_integrity_by_key|done..|]. intros rc m2 Hm2.
    destruct (rc <? 0); [by apply costs_ret|]. costs_pass 0; [eauto with costs nocore|].
    destruct a3 as [rc' m3]. destruct (rc' <? 1); by apply costs_ret.
  - costs_pass 0; [eauto with costs nocore|].
    apply (costs_build _ _ m); [apply short_on_sbuf, short_integrity_by_user|done..|]. intros rc m2 Hm2.
    destruct (rc <? 0); by apply costs_ret.
Qed.

Lemma bounded_check_integrity c m : bounded 0 (check_integrity cfg stack c m).
Proof. unfold check_integrity. costs_tac. Qed.
#[local] Hint Resolve bounded_check_integrity : costs.

(** * Connecting *)

Lemma bounded_notify_ip t a : bounded 0 (notify_ip cfg t a).
Proof. unfold notify_ip. costs_tac. Qed.
Lemma bounded_rare_event : bounded 1 (rare_event cfg).
Proof. unfold rare_event. costs_tac. Qed.
Lemma bounded_not_rare_event : bounded 1 (not_rare_event cfg).
Proof. unfold not_rare_event. costs_tac. Qed.
#[local] Hint Resolve bounded_notify_ip bounded_rare_event bounded_not_rare_event : costs.

Lemma costs_socket_connect fd a : costs 2 (socket_connect fd a EOTHER) (λ again b, 0 < again -> b = true).
Proof.
  unfold socket_connect. costs_first 2 (λ (x : Z * errno) b, b = true \/ 0 <= x.1 \/ x.2 = EOTHER).
  - unfold addr_connect. destruct (fd <? 0); [apply costs_ret; [done|]; by right; right|].
    destruct (_ || _); [|apply costs_ret; [done|]; by right; right].
    costs_first 2 (λ rc b, rc < 0 -> b = true); [apply costs_retry|]. intros rc b H. costs_quiet e.
    apply costs_ret; [done|]. cbn [fst]. destruct (Z.ltb_spec rc 0); [left; by rewrite H|by right; left].
  - intros [rc e] b H. cbn [fst snd] in H. destruct (Z.ltb_spec rc 0); [|by apply costs_ret].
    case_bool_decide; [by apply costs_ret|]. case_bool_decide; (apply costs_ret; [done|]); [|lia].
    intros _. destruct H as [->|[]]; [done|lia|by subst e].
Qed.

Lemma costs_ssl_connect_turn s : costs 1 (ssl_connect_turn s) (λ _ b, b = true).
Proof.
  unfold ssl_connect_turn. costs_first 1 (λ (_ : Z * ssl_error) b, b = true); [by apply costs_SSL_connect|]. intros [n se] b ->. costs_tac.
Qed.

Lemma costs_tls_turn n s : costs 2 (tls_turn n s) (λ _ b, b = true).
Proof.
  unfold tls_turn. costs_first 2 (λ (_ : Z * ssl_error) b, b = true).
  { apply (costs_loop 1 2 (λ _, True)); [done..|]. intros [] _. eapply costs_mono; [apply costs_ssl_connect_turn|lia|].
    intros [[]|x] b ->; [done|]. intros b'. apply orb_true_r. }
  intros [k se] b ->. costs_tac.
Qed.

(** A TLS connection that is to be tried again was answered. *)
Lemma costs_tls_connect fd a n : costs 6 (tls_connect cfg fd a n) (λ _ b, b = true).
Proof.
  unfold tls_connect. costs_first 1 (λ (_ : Z) (_ : bool), True); [eauto with costs nocore|]. intros r b _.
  destruct (_ =? 0); [apply costs_fault|].
  costs_first 1 (λ (_ : Z) (_ : bool), True).
  { destruct (use_tcp cfg); [by apply costs_ret|eauto with costs nocore]. }
  intros r' b' _. apply (costs_loop 2 4 (λ _, True)); [done..|]. intros [] _. eapply costs_mono; [apply costs_tls_turn|lia|].
  intros [[]|x] b2 ->; [done|]. intros b3. by destruct b, b', b3.
Qed.

Lemma costs_connect_turn port ra ifn la self st :
  costs 40 (connect_turn cfg stack port ra ifn la self st) (renews_to_go (λ _, True)).
Proof.
  destruct st as [n c]. unfold connect_turn.
  costs_pass 0; [eauto with costs nocore|]. costs_pass 0; [eauto with costs nocore|]. destruct a0 as [rc ra'].
  destruct (rc <? 0); [by apply costs_ret|]. costs_pass 0; [eauto with costs nocore|]. costs_pass 1; [eauto with costs nocore|].
  destruct (a1 <? 0); [by apply costs_ret|]. costs_pass 1; [eauto with costs nocore|]. destruct (a2 <? 0); [by apply costs_ret|].
  costs_pass 4; [eauto with costs nocore|]. costs_pass 1; [eauto with costs nocore|]. costs_pass 1; [eauto with costs nocore|].
  costs_pass 0; [eauto with costs nocore|]. costs_pass 0; [eauto with costs nocore|].
  costs_pass 10; [costs_tac|]. destruct a8 as [lad|]; [|by apply costs_ret].
  costs_first 2 (λ again b, 0 < again -> b = true); [destruct (ci_is_peer c); [by apply costs_ret|apply costs_socket_connect]|].
  intros again b Hb. destruct (Z.ltb_spec 0 again); [apply costs_ret; [done|]; by rewrite Hb|]. clear Hb.
  costs_pass 2; [eauto with costs nocore|]. destruct a8 as [r8 lad'].
  costs_pass 0; [eauto with costs nocore|]. costs_pass 0; [eauto with costs nocore|]. costs_pass 0; [eauto with costs nocore|]. cbv zeta.
  costs_first 6 (λ (t : option bool) b, t = None -> b = true).
  { destruct (use_secure cfg); [|by apply costs_ret]. costs_first 6 (λ (_ : bool * bool) b, b = true); [apply costs_tls_connect|].
    intros [[] []] b' ->; by apply costs_ret. }
  intros [ssl|] b' Hb'; [|apply costs_ret; [done|]; split; [done|]; rewrite Hb' by done; apply orb_true_r].
  destruct (_ && _); [by apply costs_ret|]. 
  do 2 (costs_first 0 (λ (_ : unit) (_ : bool), True); [eauto with costs nocore|intros ? ? _]). by apply costs_ret.
Qed.

Lemma bounded_clnet_connect port ra ifn la self c : bounded 80 (clnet_connect cfg stack port ra ifn la self c).
Proof. apply (bounded_loop 40); [apply costs_connect_turn|lia..]. Qed.
#[local] Hint Resolve bounded_clnet_connect : costs.

(** * Responses *)

Lemma bounded_relay_loop n m sar c a :
  (forall p, sar = Some p -> 20 <= p /\ p + 4 <= len m /\ len m - p <= Z.of_nat n) ->
  bounded 0 (relay_loop cfg maps n m sar c a).
Proof.
  revert sar c a. induction n as [|n IH]; intros sar c a Hs; cbn [relay_loop];
    (destruct sar as [p|]; [|by apply costs_ret]); destruct (Hs p eq_refl) as (Hp & Hl & Hn); [lia|].
  costs_pass 0; [eauto with costs nocore|]. cbv zeta.
  assert (forall c a, bounded 0 (sar ← lift (stun_attr_get_next m (Some p)); relay_loop cfg maps n m sar c a)) as Hnext.
  { intros c1 a1. costs_first 0 (λ r (_ : bool), stun_attr_get_next m (Some p) = Some r); [by apply costs_lift|].
    intros r b Hr. eapply costs_mono; [apply IH|done|done]. intros q ->. apply get_next_room in Hr; lia. }
  destruct (_ =? _); [|apply Hnext]. costs_pass 0; [eauto with costs nocore|]. destruct a1 as [rc a2].
  destruct (rc <? 0); [by apply costs_ret|]. costs_pass 0; [eauto with costs nocore|].
  costs_pass 0; [eauto with costs nocore|]. destruct (_ && _); [by apply costs_ret|apply Hnext].
Qed.

Lemma bounded_authentic c m : bounded 0 (authentic cfg stack c m).
Proof. unfold authentic. costs_tac. Qed.
#[local] Hint Resolve bounded_authentic : costs.

Lemma bounded_allocate_granted c m a : bounded 0 (allocate_granted cfg stack maps c m a).
Proof.
  unfold allocate_granted. costs_pass 0; [eauto with costs nocore|]. destruct a0 as [ok m1].
  destruct (negb ok); [by apply costs_ret|].
  costs_first 0 (λ r (_ : bool), stun_attr_get_first m1 = Some r); [by apply costs_lift|]. intros sar b Hs.
  costs_pass 0; [|destruct a0; costs_tac].
  apply bounded_relay_loop. intros p ->. apply get_first_room in Hs. unfold attr_fuel. lia.
Qed.

Lemma bounded_allocate_refused c m e t : bounded 0 (allocate_refused cfg stack maps c m e t).
Proof. unfold allocate_refused. costs_tac. Qed.
#[local] Hint Resolve bounded_allocate_granted bounded_allocate_refused : costs.

Lemma bounded_allocate_response c m n a t : bounded 0 (allocate_response cfg stack maps c m n a t).
Proof. unfold allocate_response. costs_tac. Qed.
#[local] Hint Resolve bounded_allocate_response : costs.

(** * Allocation *)

(** After a message was received the loops may go on. *)
Lemma costs_receives {B} n c m sync dc atc req (k : received -> prog B) (Q : B -> bool -> Prop) :
  short_request req -> 0 <= n ->
  (forall x, short_request x.2 -> costs n (k x) (λ y b, if 0 <? x.1.1.1 then Q y true else forall b', Q y (b' || b))) ->
  costs (2200000 + n) (recv_buffer cfg c m sync dc atc req ≫= k) Q.
Proof.
  intros Hq Hn Hk. eapply (costs_bind _ 2200000 n); [by apply costs_recv_buffer| |lia..]. intros x b [Hd Hs].
  eapply costs_mono; [by apply Hk|lia|]. destruct x as [[[rc ?] ?] ?]. cbn [fst]. intros y b' H.
  destruct (Z.ltb_spec 0 rc) as [Hp|]; [|done]. by rewrite (Hd Hp).
Qed.

Lemma costs_allocate_receive_turn ex :
  short (len (ex_request ex)) ->
  costs 2200000 (allocate_receive_turn cfg stack maps ex)
    (λ r b, match r with
            | inl ex' => short (len (ex_request ex')) /\ b = true
            | inr (_, ex') => short (len (ex_request ex'))
            end).
Proof.
  intros Hq. unfold allocate_receive_turn. change 2200000 with (2200000 + 0). apply costs_receives; [done..|].
  intros [[[n c] m] req] Hs. cbn [fst snd] in *.
  costs_first 0 (λ (q : stun_buffer) (_ : bool), short (len q)); [apply costs_lift; [done|]; by intros q ->|].
  intros q b Hq'. destruct (0 <? n); [|by apply costs_ret].
  costs_first 0 (λ (_ : verdict * app_ur_conn_info * ioa_addr * option (list Z * Z)) (_ : bool), True); [eauto with costs nocore|].
  intros [[[v c'] r] t] b' _. destruct v; by apply costs_ret.
Qed.

Lemma costs_allocate_receive ex :
  short (len (ex_request ex)) ->
  costs 4400000 (iter (allocate_receive_turn cfg stack maps) ex) (λ x _, short (len (ex_request x.2))).
Proof.
  intros Hq. apply (costs_loop 2200000 4400000 (λ ex, short (len (ex_request ex)))); [done..|].
  intros ex' H. eapply costs_mono; [by apply costs_allocate_receive_turn|done|]. by intros [ex2|[v ex2]] b Hb.
Qed.

Lemma bounded_even_port rt : bounded 1 (even_port cfg rt).
Proof. unfold even_port. costs_tac. Qed.
#[local] Hint Resolve bounded_even_port : costs.

Definition short_result {A} (r : app_ur_conn_info + A * stun_buffer) : Prop :=
  match r with inr (_, m) => short (len m) | inl _ => True end.

Lemma costs_fingerprint c m : short (len m) ->
  costs 0 ('(_, m) ← lift (on_sbuf m (stun_attr_add_fingerprint_str (to_sbuf m))); mret (inr (c, m)))
    (λ (r : app_ur_conn_info + app_ur_conn_info * stun_buffer) _, short_result r).
Proof.
  intros Hm. apply (costs_build _ _ m); [apply short_on_sbuf, short_fingerprint|done..|]. intros _ m' H. by apply costs_ret.
Qed.

(** The end of a request. *)
Lemma costs_sealed c m : short (len m) ->
  costs 6 ('(rc, c, m) ← add_integrity cfg stack c m;
           if rc <? 0 then mret (inl c) else
           '(_, m) ← lift (on_sbuf m (stun_attr_add_fingerprint_str (to_sbuf m)));
           mret (inr (c, m)))
    (λ (r : app_ur_conn_info + app_ur_conn_info * stun_buffer) _, short_result r).
Proof.
  intros Hm. costs_first 6 (λ (x : Z * app_ur_conn_info * stun_buffer) (_ : bool), short (len x.2)); [by apply costs_add_integrity|].
  intros [[rc c'] m'] b H. destruct (rc <? 0); [by apply costs_ret|]. by apply costs_fingerprint.
Qed.

Lemma costs_allocate_request af c m : costs 10 (allocate_request cfg stack af c m) (λ r _, short_result r).
Proof.
  unfold allocate_request. cbv zeta. costs_pass 0; [eauto with costs nocore|]. costs_pass 0; [eauto with costs nocore|].
  costs_pass 1; [eauto with costs nocore|]. costs_pass 1; [eauto with costs nocore|].
  costs_first 0 (λ (x : Z * stun_buffer) (_ : bool), short (len x.2)).
  { apply costs_lift; [done|]. intros [r m'] H. by apply short_allocate_request in H. }
  intros [r m1] b H1. cbn [snd] in H1.
  apply (costs_build _ _ m1); [|done..|].
  { destruct (truth _); [apply short_on_sbuf; unfold stun_attr_add_bandwidth_str; apply short_attr_add|by intros ? ? [= <- <-]]. }
  intros r2 m2 H2. apply (costs_build _ _ m2); [|done..|].
  { destruct (dont_fragment cfg); [apply short_add|by intros ? ? [= <- <-]]. }
  intros r3 m3 H3. costs_first 0 (λ (m : stun_buffer) (_ : bool), short (len m)).
  { apply costs_lift; [done|]. intros m' H. by apply short_origin in H. }
  intros m4 b4 H4. eapply costs_mono; [by apply costs_sealed|lia|done].
Qed.

Lemma bounded_reopen b c : bounded 80 (reopen cfg stack b c).
Proof. unfold reopen. costs_tac. Qed.
#[local] Hint Resolve bounded_reopen : costs.

(** Each request is sent, and answered to, once. *)
Lemma bounded_allocate_loop n b af ex : bounded (4600000 * Z.of_nat n) (allocate_loop cfg stack maps n b af ex).
Proof.
  revert b ex. induction n as [|n IH]; intros b ex; cbn [allocate_loop]; [by apply costs_ret|].
  set (k := 4600000 * Z.of_nat n).
  apply (costs_bind _ 80 (k + 4599920) _ _ (λ _ _, True)); [eauto with costs nocore| |lia..]. intros [ro c] _ _.
  apply (costs_bind _ 10 (k + 4599910) _ _ (λ r _, short_result r)); [apply costs_allocate_request| |lia..].
  intros [c1|[c1 req]] _ Hs; [apply costs_ret; [lia|done]|]. cbn [short_result] in Hs.
  apply (costs_bind _ 150000 (k + 4449910) _ _ (λ x _, short (len x.2))); [|intros [[r c2] req2] _ H2|lia..].
  { eapply costs_mono; [by apply costs_send_buffer|done|]. intros [[? ?] m'] b' Hl. cbn. by rewrite Hl. }
  destruct (r <=? 0); [apply costs_exit; lia|].
  apply (costs_bind _ 1 (k + 4449909) _ _ (λ _ _, True)); [eauto with costs nocore| |lia..]. intros rare _ _.
  destruct rare; [apply costs_ret; [lia|done]|].
  apply (costs_bind _ 4400000 k _ _ (λ x _, short (len (ex_request x.2)))); [by apply costs_allocate_receive| |lia..].
  intros [v ex2] _ _. destruct v as [[]|]; first [apply IH|apply costs_ret; [lia|done]].
Qed.

Lemma bounded_ssl_free b : bounded 0 (ssl_free b).
Proof. unfold ssl_free. costs_tac. Qed.
#[local] Hint Resolve bounded_ssl_free : costs.
Lemma bounded_mobile_reopen c : bounded 100 (mobile_reopen cfg stack c).
Proof. unfold mobile_reopen. costs_tac. Qed.
#[local] Hint Resolve bounded_mobile_reopen : costs.

Lemma costs_send_short c m dc atc : short (len m) ->
  costs 150000 (send_buffer cfg c m dc atc) (λ x _, short (len x.2)).
Proof.
  intros Hm. eapply costs_mono; [by apply costs_send_buffer|done|]. intros [[? ?] m'] b' Hl. cbn. by rewrite Hl.
Qed.

(** * REFRESH *)

Lemma costs_add_random_family m : short (len m) -> costs 1 (add_random_family cfg m) (λ m' _, short (len m')).
Proof.
  intros Hm. unfold add_random_family. destruct (_ && _); [|by apply costs_ret]. costs_pass 1; [eauto with costs nocore|]. cbv zeta.
  destruct (truth _); [|by apply costs_ret]. apply (costs_build _ _ m); [apply short_add|done..|]. intros _ m' H. by apply costs_ret.
Qed.

(** A request of a method. *)
Lemma costs_init {A} n k m e (f : stun_buffer -> prog A) (Q : A -> bool -> Prop) :
  0 <= n -> (forall m', short (len m') -> costs n (f m') Q) -> costs n (lift (stun_init_request k m e) ≫= f) Q.
Proof.
  intros Hn Hf. apply (costs_bind n 0 n _ _ (λ m' b, b = false /\ short (len m'))); [|intros m' b [-> H]; by apply Hf|lia..].
  apply costs_lift; [done|]. intros m' H. split; [done|]. by eapply short_init_request.
Qed.

Lemma costs_refresh_request c m : costs 10 (refresh_request cfg stack c m) (λ r _, short_result r).
Proof.
  unfold refresh_request. costs_pass 1; [eauto with costs nocore|]. apply costs_init; [done|]. intros m1 H1.
  apply (costs_build _ _ m1); [apply short_add|done..|]. intros _ m2 H2. costs_pass 0; [eauto with costs nocore|].
  costs_first 0 (λ (m : stun_buffer) (_ : bool), short (len m)).
  { destruct (truth _); [|by apply costs_ret]. costs_pass 0; [eauto with costs nocore|].
    apply (costs_build _ _ m2); [apply short_add|done..|]. intros _ m' H'. by apply costs_ret. }
  intros m3 b3 H3. costs_first 1 (λ (m : stun_buffer) (_ : bool), short (len m)); [by apply costs_add_random_family|].
  intros m4 b4 H4. costs_first 0 (λ (m : stun_buffer) (_ : bool), short (len m)).
  { apply costs_lift; [done|]. intros m' H. by apply short_origin in H. }
  intros m5 b5 H5. eapply costs_mono; [by apply costs_sealed|lia|done].
Qed.

Lemma bounded_refresh_response c m n : bounded 0 (refresh_response stack c m n).
Proof. unfold refresh_response. costs_tac. Qed.
#[local] Hint Resolve bounded_refresh_response : costs.

Lemma costs_refresh_receive_turn ex :
  short (len (ex_request ex)) ->
  costs 4400000 (refresh_receive_turn cfg stack ex) (renews_to_go (λ ex', short (len (ex_request ex')))).
Proof.
  intros Hq. unfold refresh_receive_turn.
  costs_first 2200000 (λ x b, delivers x b /\ short_request x.2); [by apply costs_recv_buffer|]. intros [[[n c] m] req] b [Hd Hs].
  cbn [snd] in Hs. costs_quiet id0.
  costs_first 2200000 (λ x b', delivers x (b || b') /\ short_request x.2).
  { destruct (truth id0); [|apply costs_ret; [done|]; by rewrite orb_false_r].
    eapply costs_mono; [by apply costs_recv_buffer|done|]. intros [[[n' c'] m'] req'] b' [H H']. split; [|done].
    intros Hp. rewrite (H Hp). apply orb_true_r. }
  intros [[[n' c'] m'] req'] b' [Hd' Hs']. cbn [snd] in Hs'.
  costs_first 0 (λ (q : stun_buffer) (_ : bool), short (len q)); [apply costs_lift; [done|]; by intros q ->|]. intros q b2 Hq'.
  destruct (Z.ltb_spec 0 n') as [Hp|]; [|by apply costs_exit].
  costs_first 0 (λ (_ : verdict * app_ur_conn_info) (_ : bool), True); [eauto with costs nocore|]. intros [v c2] b3 _.
  pose proof (Hd' Hp) as Hb. destruct v; (apply costs_ret; [done|]); try done. split; [done|].
  destruct b, b', b2, b3; done.
Qed.

Lemma costs_refresh_receive ex :
  short (len (ex_request ex)) -> bounded 8800000 (iter (refresh_receive_turn cfg stack) ex).
Proof.
  intros Hq. apply (costs_loop 4400000 8800000 (λ ex, short (len (ex_request ex)))); [done..|].
  intros ex' H. eapply costs_mono; [by apply costs_refresh_receive_turn|done|]. by intros [ex2|[v ex2]] b Hb.
Qed.

Lemma bounded_refresh_loop n ex : bounded (9200000 * Z.of_nat n) (refresh_loop cfg stack n ex).
Proof.
  revert ex. induction n as [|n IH]; intros ex; cbn [refresh_loop]; [by apply costs_exit|].
  set (k := 9200000 * Z.of_nat n).
  apply (costs_bind _ 10 (k + 9199990) _ _ (λ r _, short_result r)); [apply costs_refresh_request| |lia..].
  intros [c1|[c1 req]] _ Hs; [apply costs_ret; [lia|done]|]. cbn [short_result] in Hs.
  apply (costs_bind _ 150000 (k + 9049990) _ _ (λ x _, short (len x.2))); [by apply costs_send_short| |lia..].
  intros [[r c2] req2] _ H2. cbn [snd] in H2. destruct (r <=? 0); [apply costs_exit; lia|].
  apply (costs_bind _ 0 (k + 9049990) _ _ (λ _ _, True)); [eauto with costs nocore| |lia..]. intros id0 _ _.
  apply (costs_bind _ 150000 (k + 8899990) _ _ (λ x _, short (len x.2))); [| |lia..].
  { destruct (truth id0); [|by apply costs_ret].
    costs_first 150000 (λ (x : Z * app_ur_conn_info * stun_buffer) (_ : bool), short (len x.2)); [by apply costs_send_short|].
    intros [[? ?] m'] b' Hl. by apply costs_ret. }
  intros [c3 req3] _ H3. apply (costs_bind _ 1 (k + 8800000) _ _ (λ _ _, True)); [eauto with costs nocore| |lia..]. intros rare _ _.
  destruct rare; [apply costs_ret; [lia|done]|].
  apply (costs_bind _ 8800000 k _ _ (λ _ _, True)); [by apply costs_refresh_receive| |lia..].
  intros [v ex2] _ _. destruct v; first [apply IH|apply costs_ret; [lia|done]].
Qed.

Lemma bounded_clnet_allocate af c a t : bounded 460000000 (clnet_allocate cfg stack maps af c a t).
Proof.
  unfold clnet_allocate. costs_pass 0; [eauto with costs nocore|]. cbv zeta.
  costs_pass 147200000; [apply (bounded_allocate_loop 32)|]. destruct a1 as [[rc ex]|[fin ex]]; [by apply costs_ret|].
  costs_pass 1; [eauto with costs nocore|]. destruct a1; [by apply costs_ret|]. destruct (negb fin); [by apply costs_exit|].
  costs_pass 0; [eauto with costs nocore|]. costs_pass 0; [eauto with costs nocore|]. costs_pass 100; [eauto with costs nocore|].
  costs_pass 303600000; [apply (bounded_refresh_loop 33)|]. destruct a4. by apply costs_ret.
Qed.
#[local] Hint Resolve bounded_clnet_allocate : costs.

(** * Channels and permissions *)

Lemma costs_seal_request c m : short (len m) -> costs 6 (seal_request cfg stack c m) (λ r _, short_result r).
Proof.
  intros Hm. unfold seal_request. costs_first 0 (λ (m : stun_buffer) (_ : bool), short (len m)).
  { apply costs_lift; [done|]. intros m' H. by apply short_origin in H. }
  intros m' b H. by apply costs_sealed.
Qed.

Lemma costs_bind_request n a m : costs 3 (bind_request cfg maps n a m) (λ x _, short (len x.2)).
Proof.
  unfold bind_request. costs_pass 1; [costs_tac|]. costs_pass 1; [costs_tac|]. costs_pass 1; [costs_tac|].
  apply costs_lift; [done|]. intros [r m'] H. by apply short_channel_bind_request in H.
Qed.

Lemma bounded_bind_response c m : bounded 0 (bind_response cfg stack c m).
Proof. unfold bind_response. costs_tac. Qed.
#[local] Hint Resolve bounded_bind_response : costs.

(** A verdict comes with a message. *)
Definition judged (x : option verdict * app_ur_conn_info * stun_buffer * stun_buffer) (b : bool) : Prop :=
  let '(v, _, _, _) := x in v <> None -> b = true.

Lemma costs_bind_receive_turn st :
  short (len st.1.2) ->
  costs 2200000 (bind_receive_turn cfg stack st)
    (λ r b, match r with inl st' => short (len st'.1.2) /\ b = true | inr x => forall b', judged x (b' || b) end).
Proof.
  destruct st as [[c req] m]. cbn [fst snd]. intros Hq. unfold bind_receive_turn. change 2200000 with (2200000 + 0).
  apply costs_receives; [done..|]. intros [[[n c'] m'] req'] Hs. cbn [fst snd] in *.
  costs_first 0 (λ (q : stun_buffer) (_ : bool), short (len q)); [apply costs_lift; [done|]; by intros q ->|].
  intros q b Hq'. destruct (0 <? n); [|by (apply costs_ret; [done|]; intros ? ? [])].
  costs_first 0 (λ (_ : verdict * app_ur_conn_info * stun_buffer) (_ : bool), True); [eauto with costs nocore|].
  intros [[v c2] m2] b' _. destruct v; (apply costs_ret; [done|]); try done; intros b2 _; apply orb_true_r.
Qed.

Lemma costs_bind_receive st : short (len st.1.2) -> costs 4400000 (iter (bind_receive_turn cfg stack) st) judged.
Proof.
  intros Hq. apply (costs_loop 2200000 4400000 (λ st, short (len st.1.2))); [done..|].
  intros st' H. by apply costs_bind_receive_turn.
Qed.

Lemma costs_bind_turn a st : costs 4600000 (bind_turn cfg stack maps a st) (renews_to_go (λ _, True)).
Proof.
  destruct st as [[[n c] req] m]. unfold bind_turn.
  costs_first 3 (λ (x : Z * stun_buffer) (_ : bool), short (len x.2)); [apply costs_bind_request|]. intros [n1 req1] b1 H1.
  costs_first 6 (λ (r : app_ur_conn_info + app_ur_conn_info * stun_buffer) (_ : bool), short_result r); [by apply costs_seal_request|].
  intros [c1|[c2 req2]] b2 H2; [by apply costs_ret|].
  costs_first 150000 (λ (x : Z * app_ur_conn_info * stun_buffer) (_ : bool), short (len x.2)); [by apply costs_send_short|].
  intros [[k c3] req3] b3 H3. destruct (k <=? 0); [by apply costs_ret|].
  costs_first 1 (λ (_ : bool) (_ : bool), True); [eauto with costs nocore|]. intros rare b4 _. destruct rare; [by apply costs_ret|].
  costs_first 4400000 judged; [by apply costs_bind_receive|]. intros [[[v c4] req4] m4] b5 Hv.
  destruct v as [[]|]; (apply costs_ret; [done|]); try done. split; [done|]. rewrite Hv by done. by destruct b1, b2, b3, b4.
Qed.

Lemma bounded_turn_channel_bind n c a : bounded 9200000 (turn_channel_bind cfg stack maps n c a).
Proof.
  unfold turn_channel_bind. costs_pass 0; [eauto with costs nocore|]. apply (bounded_loop 4600000); [apply costs_bind_turn|lia..].
Qed.

Lemma costs_permission_turn l st : costs 4600000 (permission_turn cfg stack maps l st) (renews_to_go (λ _, True)).
Proof.
  destruct st as [[c req] m]. unfold permission_turn.
  costs_pass 1; [eauto with costs nocore|]. apply costs_init; [done|]. intros m1 H1.
  costs_first 0 (λ (m : stun_buffer) (_ : bool), short (len m)).
  { apply costs_lift; [done|]. intros m' H. by apply short_peers in H. }
  intros m2 b1 H2.
  costs_first 6 (λ (r : app_ur_conn_info + app_ur_conn_info * stun_buffer) (_ : bool), short_result r); [by apply costs_seal_request|].
  intros [c1|[c2 req2]] b2 Hs; [by apply costs_ret|].
  costs_first 150000 (λ (x : Z * app_ur_conn_info * stun_buffer) (_ : bool), short (len x.2)); [by apply costs_send_short|].
  intros [[k c3] req3] b3 H3. destruct (k <=? 0); [by apply costs_exit|].
  costs_first 1 (λ (_ : bool) (_ : bool), True); [eauto with costs nocore|]. intros rare b4 _. destruct rare; [by apply costs_ret|].
  costs_first 4400000 judged; [by apply costs_bind_receive|]. intros [[[v c4] req4] m4] b5 Hv.
  destruct v as [[]|]; try (by apply costs_exit); (apply costs_ret; [done|]); try done.
  split; [done|]. rewrite Hv by done. by destruct b1, b2, b3, b4.
Qed.

Lemma bounded_turn_create_permission c l : bounded 9200000 (turn_create_permission cfg stack maps c l).
Proof.
  unfold turn_create_permission. destruct (_ || _); [by apply costs_ret|]. costs_pass 0; [eauto with costs nocore|].
  costs_pass 0; [eauto with costs nocore|]. apply (bounded_loop 4600000); [apply costs_permission_turn|lia..].
Qed.
#[local] Hint Resolve bounded_turn_channel_bind bounded_turn_create_permission : costs.

Lemma bounded_tweak_addr a p : bounded 2 (tweak_addr a p).
Proof. unfold tweak_addr. costs_tac. Qed.
Lemma bounded_random_peer t : bounded 1 (random_peer stack t).
Proof. unfold random_peer. costs_tac. Qed.
#[local] Hint Resolve bounded_tweak_addr bounded_random_peer : costs.

(** At most [EXTRA_CREATE_PERMS] of them. *)
Lemma bounded_extra_binds n c a : bounded (9200003 * Z.of_nat n) (extra_binds cfg stack maps n c a).
Proof.
  revert c a. induction n as [|n IH]; intros c a; cbn [extra_binds]; [by apply costs_ret|]. set (k := 9200003 * Z.of_nat n).
  apply (costs_bind _ 1 (k + 9200002) _ _ (λ _ _, True)); [eauto with costs nocore| |lia..]. intros r _ _. cbv zeta.
  apply (costs_bind _ 2 (k + 9200000) _ _ (λ _ _, True)); [eauto with costs nocore| |lia..]. intros a' _ _.
  apply (costs_bind _ 9200000 k _ _ (λ _ _, True)); [eauto with costs nocore| |lia..]. intros [[? ?] c'] _ _. apply IH.
Qed.

Lemma bounded_extra_peers n a : bounded (3 * Z.of_nat n) (extra_peers n a).
Proof.
  revert a. induction n as [|n IH]; intros a; cbn [extra_peers]; [by apply costs_ret|]. set (k := 3 * Z.of_nat n).
  apply (costs_bind _ 1 (k + 2) _ _ (λ _ _, True)); [eauto with costs nocore| |lia..]. intros r _ _.
  apply (costs_bind _ 2 k _ _ (λ _ _, True)); [eauto with costs nocore| |lia..]. intros a' _ _.
  apply (costs_bind _ k 0 _ _ (λ _ _, True)); [apply IH| |lia..]. intros l _ _. by apply costs_ret.
Qed.

Lemma extra_count r : (Z.to_nat (u16 r mod EXTRA_CREATE_PERMS) <= 24)%nat.
Proof. unfold EXTRA_CREATE_PERMS. pose proof (Z.mod_pos_bound (u16 r) 25). lia. Qed.

Lemma bounded_extra_permissions c : bounded 9300000 (extra_permissions cfg stack maps c).
Proof.
  unfold extra_permissions. destruct (negb _); [by apply costs_ret|]. costs_pass 1; [eauto with costs nocore|].
  costs_pass 1; [eauto with costs nocore|]. cbv zeta. costs_pass 100; [|costs_tac].
  pose proof (extra_count a0) as Hc. destruct (Z.to_nat _) as [|n]; [by apply costs_ret|].
  costs_pass 1; [eauto with costs nocore|]. costs_pass 2; [eauto with costs nocore|]. costs_pass 75; [|by apply costs_ret].
  eapply costs_mono; [apply bounded_extra_peers|lia|done].
Qed.
#[local] Hint Resolve bounded_extra_permissions : costs.

Lemma bounded_bind_channels c n a : bounded 240000000 (bind_channels cfg stack maps c n a).
Proof.
  unfold bind_channels. costs_pass 9200000; [eauto with costs nocore|]. destruct a0 as [[rc n'] c'].
  destruct (rc <? 0); [by apply costs_ret|]. costs_pass 1; [eauto with costs nocore|]. destruct a0; [by apply costs_ret|].
  costs_pass 221000000; [|costs_tac]. destruct (extra_requests cfg); [|by apply costs_ret].
  costs_pass 1; [eauto with costs nocore|]. costs_pass 1; [eauto with costs nocore|].
  pose proof (extra_count a1) as Hc. eapply costs_mono; [apply bounded_extra_binds|lia|done].
Qed.
Lemma bounded_bind_permissions c a : bounded 40000000 (bind_permissions cfg stack maps c a).
Proof. unfold bind_permissions. costs_tac. Qed.
Lemma bounded_set_peer t p : bounded 0 (set_peer cfg stack t p).
Proof. unfold set_peer. costs_tac. Qed.
#[local] Hint Resolve bounded_bind_channels bounded_bind_permissions bounded_set_peer : costs.
Lemma bounded_bind_real t p c : bounded 260000000 (bind_real cfg stack maps t p c).
Proof. unfold bind_real. costs_tac. Qed.
Lemma bounded_start_connection p ra i la c : bounded 470000000 (start_connection cfg stack maps p ra i la c).
Proof. unfold start_connection. costs_tac. Qed.
Lemma bounded_start_c2c_connection p ra i la c : bounded 470000000 (start_c2c_connection cfg stack maps p ra i la c).
Proof. unfold start_c2c_connection. costs_tac. Qed.
#[local] Hint Resolve bounded_bind_real bounded_start_connection bounded_start_c2c_connection : costs.

(** * The session *)

Lemma costs_seal_refresh c m : short (len m) -> costs 6 (seal_refresh cfg stack c m) (λ r _, short_result r).
Proof.
  intros Hm. unfold seal_refresh. costs_first 0 (λ (m : stun_buffer) (_ : bool), short (len m)).
  { apply costs_lift; [done|]. intros m' H. by apply short_origin in H. }
  intros m' b H. costs_first 6 (λ (x : Z * app_ur_conn_info * stun_buffer) (_ : bool), short (len x.2)); [by apply costs_add_integrity|].
  intros [[rc c'] m2] b2 H2. destruct (rc <? 0); [by apply costs_ret|].
  apply (costs_build _ _ m2); [|done..|intros _ m3 H3; by apply costs_ret].
  destruct (use_fingerprints cfg); [apply short_on_sbuf, short_fingerprint|by intros ? ? [= <- <-]].
Qed.

Lemma bounded_send_sealed s m d : short (len m) -> bounded 150006 (send_sealed cfg stack s m d).
Proof.
  intros Hm. unfold send_sealed.
  costs_first 6 (λ (r : app_ur_conn_info + app_ur_conn_info * stun_buffer) (_ : bool), short_result r); [by apply costs_seal_refresh|].
  intros [c|[c m']] b H; [by apply costs_ret|].
  costs_first 150000 (λ (x : Z * app_ur_conn_info * stun_buffer) (_ : bool), short (len x.2)); [by apply costs_send_short|].
  intros [[? ?] ?] ? ?. by apply costs_ret.
Qed.

Lemma bounded_refresh_allocation s m k l : bounded 150010 (refresh_allocation cfg stack s m k l).
Proof.
  unfold refresh_allocation. destruct (asks _ _); [|by apply costs_ret]. costs_pass 1; [eauto with costs nocore|].
  apply costs_init; [done|]. intros m1 H1. apply (costs_build _ _ m1); [apply short_add|done..|]. intros _ m2 H2.
  costs_first 1 (λ (m : stun_buffer) (_ : bool), short (len m)); [by apply costs_add_random_family|]. intros m3 b H3.
  eapply costs_mono; [by apply bounded_send_sealed|lia|done].
Qed.

Lemma bounded_refresh_permission s m k : bounded 150010 (refresh_permission cfg stack maps s m k).
Proof.
  unfold refresh_permission. destruct (_ && _); [|by apply costs_ret]. costs_pass 1; [eauto with costs nocore|].
  apply costs_init; [done|]. intros m1 H1. apply (costs_build _ _ m1); [apply short_on_sbuf, short_add_addr|done..|]. intros _ m2 H2.
  eapply costs_mono; [by apply bounded_send_sealed|lia|done].
Qed.

Lemma bounded_refresh_binding s m k : bounded 150010 (refresh_binding cfg stack maps s m k).
Proof.
  unfold refresh_binding. destruct (_ && _); [|by apply costs_ret]. costs_pass 1; [eauto with costs nocore|].
  costs_first 0 (λ (x : Z * stun_buffer) (_ : bool), short (len x.2)).
  { apply costs_lift; [done|]. intros [r m'] H. by apply short_channel_bind_request in H. }
  intros [r m'] b H. eapply costs_mono; [by apply bounded_send_sealed|lia|done].
Qed.
#[local] Hint Resolve bounded_refresh_allocation bounded_refresh_permission bounded_refresh_binding : costs.

Lemma bounded_refresh_channel s k l : bounded 460000 (refresh_channel cfg stack maps s k l).
Proof.
  unfold refresh_channel, refresh_channel_at. destruct (ci_is_peer _); [by apply costs_ret|]. costs_pass 0; [eauto with costs nocore|].
  costs_pass 150010; [eauto with costs nocore|]. destruct a0 as [s1|[s1 m1]]; [by apply costs_ret|].
  costs_pass 300020; [|costs_tac]. destruct (_ && _); [|by apply costs_ret].
  costs_pass 150010; [eauto with costs nocore|]. destruct a0 as [s2|[s2 m2]]; [by apply costs_ret|]. eauto with costs nocore.
Qed.
#[local] Hint Resolve bounded_refresh_channel : costs.

Lemma bounded_read_message s t : bounded 460000 (read_message cfg stack maps s t).
Proof. unfold read_message. costs_tac. Qed.

(** [client_read] says that it read something only after a message was received. *)
Lemma costs_client_read s t atc : costs 2700000 (client_read cfg stack maps s t atc) (λ x b, 0 < x.1 -> b = true).
Proof.
  unfold client_read. destruct (state s); try (by apply costs_ret).
  change 2700000 with (2200000 + 500000). apply costs_receives; [done..|]. intros [[[rc c] m] req] _. cbn [fst]. cbv zeta.
  destruct (Z.ltb_spec 0 rc).
  - apply (costs_mono 500000 _ _ (λ _ _, True)); [|done|done]. costs_pass 460000; [apply bounded_read_message|]. costs_tac.
  - destruct (rc =? 0); (apply costs_ret; [done|]); cbn; lia.
Qed.

Lemma bounded_client_input_handler fd what s : bounded 5400000 (client_input_handler cfg stack maps fd what s).
Proof.
  unfold client_input_handler. destruct (negb _); [by apply costs_ret|]. destruct (state s); try (by apply costs_ret).
  apply (bounded_loop 2700000); [|lia..]. intros s'. unfold handler_turn.
  costs_first 2700000 (λ (x : Z * app_ur_session) b, 0 < x.1 -> b = true); [apply costs_client_read|].
  intros [rc s2] b Hb. cbn [fst] in Hb. destruct (Z.leb_spec rc 0); (apply costs_ret; [done|]); [done|]. split; [done|]. by rewrite Hb.
Qed.

Lemma bounded_start_client ra p i la : bounded 480000000 (start_client cfg stack maps ra p i la).
Proof. unfold start_client. generalize create_new_ss. intros ss. cbv zeta. costs_tac. Qed.
Lemma bounded_start_c2c ra p i la : bounded 480000000 (start_c2c cfg stack maps ra p i la).
Proof. unfold start_c2c. generalize create_new_ss. intros ss. cbv zeta. costs_tac. Qed.

Lemma bounded_start_p2p_client ra p i la : bounded 480000000 (start_p2p_client cfg stack maps ra p i la).
Proof.
  unfold start_p2p_client. costs_pass 480000000; [|costs_tac].
  destruct (c2c cfg); [apply bounded_start_c2c|apply bounded_start_client].
Qed.

Lemma bounded_bind_client t p s : bounded 260000000 (bind_client cfg stack maps t p s).
Proof. unfold bind_client. costs_pass 260000000; [eauto with costs nocore|]. by apply costs_ret. Qed.

(** * The STUN client *)

Context (cb : stun_callbacks).

Lemma bounded_sendto_loop fd a d : bounded 2 (iter (sendto_turn fd a d) tt).
Proof.
  apply (bounded_loop 1); [|lia..]. intros []. unfold sendto_turn.
  costs_first 1 (λ rc b, rc < 0 -> b = true); [by apply costs_sendto|]. intros rc b Hb.
  destruct (Z.ltb_spec rc 0); cbn [andb]; [rewrite Hb by done|]; costs_tac.
Qed.

Lemma bounded_stun_recv_loop fd n : bounded 2 (iter (stun_recv_turn fd n) tt).
Proof.
  apply (bounded_loop 1); [|lia..]. intros []. unfold stun_recv_turn.
  costs_first 1 (λ (x : Z * list Z) b, x.1 < 0 -> b = true); [by apply costs_recv|]. intros [rc bs] b Hb. cbn [fst] in Hb.
  destruct (Z.ltb_spec rc 0); cbn [andb]; [rewrite Hb by done|]; costs_tac.
Qed.
Lemma bounded_stun_sockets st a p : bounded 20 (stun_sockets st a p).
Proof. unfold stun_sockets. costs_tac. Qed.
Lemma bounded_notify_address t a b : bounded 0 (notify_address t a b).
Proof. unfold notify_address. costs_tac. Qed.
#[local] Hint Resolve bounded_sendto_loop bounded_stun_recv_loop bounded_stun_sockets bounded_notify_address : costs.
Lemma bounded_stun_response st a m r : bounded 0 (stun_response stack maps cb st a m r).
Proof. unfold stun_response, stun_success. costs_tac. Qed.
#[local] Hint Resolve bounded_stun_response : costs.
Lemma bounded_run_stunclient ip rp p r q ci cp pd st : bounded 40 (run_stunclient stack maps cb ip rp p r q ci cp pd st).
Proof. unfold run_stunclient. costs_tac. Qed.
#[local] Hint Resolve bounded_run_stunclient : costs.
Lemma bounded_stun_tests ip rp b st : bounded 120 (stun_tests stack maps cb ip rp b st).
Proof. unfold stun_tests. costs_tac. Qed.
#[local] Hint Resolve bounded_stun_tests : costs.
Lemma bounded_run_stun la ip rp b st : bounded 200 (run_stun stack maps cb la ip rp b st).
Proof. unfold run_stun. costs_tac. Qed.

End engine.

(** For the developments that follow these programs further. *)
#[export] Hint Resolve bounded_get_frame bounded_addr_bind bounded_addr_get_from_sock bounded_sendto_loop : costs.

(** * The requests of an allocation

    Each ALLOCATE or REFRESH draws one transaction id, and nothing else does. *)

Section requests.
Context `{N : NetDb} `{C : Crypto} `{V : Evp}.
Context (cfg : config) (stack : world -> frame) (maps : addr_maps).

(** ** What draws none *)

Lemma quiet_wait_fd d fd c : quiet (wait_fd d fd c).
Proof. unfold wait_fd, wait_turn. keeps_tac. Qed.
Lemma quiet_spoil n m : quiet (spoil n m).
Proof. revert m. induction n as [|n IH]; intros m; cbn [spoil]; keeps_tac; apply IH. Qed.
#[local] Hint Resolve quiet_wait_fd quiet_spoil : quiet.
Lemma quiet_send_buffer c m d a : quiet (send_buffer cfg c m d a).
Proof. unfold send_buffer, negative_protocol, ssl_send_turn, ssl_write_turn, plain_send_turn, send_turn. keeps_tac. Qed.
#[local] Hint Resolve quiet_send_buffer : quiet.
Lemma quiet_listen n fd k c q d a : quiet (listen cfg n fd k c q d a).
Proof. revert k c q. induction n as [|n IH]; intros k c q; cbn [listen]; keeps_tac; apply IH. Qed.
Lemma quiet_collect n fd l r s m : quiet (collect n fd l r s m).
Proof. revert r m. induction n as [|n IH]; intros r m; cbn [collect]; unfold recv_turn; keeps_tac; apply IH. Qed.
Lemma quiet_ssl_receive n rc s c m : quiet (ssl_receive n rc s c m).
Proof. revert rc c m. induction n as [|n IH]; intros rc c m; cbn [ssl_receive]; unfold ssl_read_turn; keeps_tac; apply IH. Qed.
#[local] Hint Resolve quiet_listen quiet_collect quiet_ssl_receive : quiet.
Lemma quiet_recv_buffer c m s d a q : quiet (recv_buffer cfg c m s d a q).
Proof. unfold recv_buffer, recv_again, receive, udp_receive, tcp_receive, recv_turn. keeps_tac. Qed.
Lemma quiet_get_frame : quiet (get_frame stack).
Proof. by intros w. Qed.
#[local] Hint Resolve quiet_recv_buffer quiet_get_frame : quiet.
Lemma quiet_add_integrity c m : quiet (add_integrity cfg stack c m).
Proof. unfold add_integrity, new_token, lifetime_turn. keeps_tac. Qed.
Lemma quiet_check_integrity c m : quiet (check_integrity cfg stack c m).
Proof. unfold check_integrity. keeps_tac. Qed.
Lemma quiet_rare_event : quiet (rare_event cfg).
Proof. unfold rare_event. keeps_tac. Qed.
Lemma quiet_not_rare_event : quiet (not_rare_event cfg).
Proof. unfold not_rare_event. keeps_tac. Qed.
Lemma quiet_clnet_connect p ra i la s c : quiet (clnet_connect cfg stack p ra i la s c).
Proof.
  unfold clnet_connect, connect_turn, sock_bind_to_device, set_sock_buf_size, buf_size_turn, set_raw_socket_tos, set_raw_socket_ttl.
  unfold addr_bind, socket_set_reusable, socket_connect, addr_connect, retry, retry_turn, setsockopt, addr_get_from_sock.
  unfold tls_connect, tls_turn, ssl_connect_turn, set_mtu_df, set_socket_df, notify_ip, setsockopt. keeps_tac.
Qed.
#[local] Hint Resolve quiet_add_integrity quiet_check_integrity quiet_rare_event quiet_not_rare_event quiet_clnet_connect : quiet.


Lemma quiet_authentic c m : quiet (authentic cfg stack c m).
Proof. unfold authentic. keeps_tac. Qed.
Lemma quiet_relay_loop n m sar c a : quiet (relay_loop cfg maps n m sar c a).
Proof. revert sar c a. induction n as [|n IH]; intros sar c a; cbn [relay_loop]; unfold notify_ip; keeps_tac; apply IH. Qed.
#[local] Hint Resolve quiet_authentic quiet_relay_loop : quiet.

Lemma spends_allocate_granted c m a : spends 0 (allocate_granted cfg stack maps c m a).
Proof. unfold allocate_granted. spends_tac. Qed.
Lemma spends_allocate_refused c m e t : spends 0 (allocate_refused cfg stack maps c m e t).
Proof. unfold allocate_refused. spends_tac. Qed.
#[local] Hint Resolve spends_allocate_granted spends_allocate_refused : spends.
Lemma spends_allocate_response c m n a t : spends 0 (allocate_response cfg stack maps c m n a t).
Proof. unfold allocate_response. spends_tac. Qed.
#[local] Hint Resolve spends_allocate_response : spends.

Lemma spends_allocate_receive ex : spends 0 (iter (allocate_receive_turn cfg stack maps) ex).
Proof. apply spends_iter. intros ex'. unfold allocate_receive_turn. spends_tac. Qed.
#[local] Hint Resolve spends_allocate_receive : spends.

(** An ALLOCATE request takes one id, a REFRESH request another. *)
Lemma spends_entropy : spends 1 entropy_.
Proof. apply spends_ask. Qed.

Lemma spends_allocate_request af c m : spends 1 (allocate_request cfg stack af c m).
Proof.
  unfold allocate_request, even_port. do 2 spends_step. cbv zeta. spends_step.
  eapply (spends_bind _ _ _ 1 0); [apply spends_entropy|intros e; cbv zeta; spends_tac|lia].
Qed.

Lemma spends_refresh_request c m : spends 1 (refresh_request cfg stack c m).
Proof.
  unfold refresh_request, add_random_family.
  eapply (spends_bind _ _ _ 1 0); [apply spends_entropy|intros e; cbv zeta; spends_tac|lia].
Qed.

Lemma quiet_reopen b c : quiet (reopen cfg stack b c).
Proof. unfold reopen. keeps_tac. Qed.
Lemma quiet_mobile_reopen c : quiet (mobile_reopen cfg stack c).
Proof. unfold mobile_reopen, ssl_free. keeps_tac. Qed.
Lemma quiet_refresh_receive ex : quiet (refresh_receive_turn cfg stack ex).
Proof. unfold refresh_receive_turn, refresh_response. keeps_tac. Qed.
#[local] Hint Resolve quiet_reopen quiet_mobile_reopen quiet_refresh_receive : quiet.

Lemma spends_allocate_loop n b af ex : spends n (allocate_loop cfg stack maps n b af ex).
Proof.
  revert b ex. induction n as [|n IH]; intros b ex; cbn [allocate_loop]; [spends_tac|].
  spends_step. destruct a as [b' c]. eapply (spends_bind _ _ _ 1 n); [apply spends_allocate_request|intros r|lia].
  spends_tac; apply IH.
Qed.

Lemma spends_refresh_loop n ex : spends n (refresh_loop cfg stack n ex).
Proof.
  revert ex. induction n as [|n IH]; intros ex; cbn [refresh_loop]; [spends_tac|].
  eapply (spends_bind _ _ _ 1 n); [apply spends_refresh_request|intros r|lia]. spends_tac; apply IH.
Qed.

Lemma spends_clnet_allocate af c a t : spends 65 (clnet_allocate cfg stack maps af c a t).
Proof.
  unfold clnet_allocate. spends_step.
  eapply (spends_bind _ _ _ MAX_ALLOCATE_CYCLES MAX_REFRESH_CYCLES);
    [apply spends_allocate_loop|intros r|unfold MAX_ALLOCATE_CYCLES, MAX_REFRESH_CYCLES; lia].
  destruct r as [[rc ex]|[fin ex]]; [spends_tac|]. spends_step. destruct a1; [spends_tac|].
  destruct (negb fin); [spends_tac|]. do 3 spends_step.
  eapply (spends_bind _ _ _ MAX_REFRESH_CYCLES 0); [apply spends_refresh_loop|intros r; spends_tac|lia].
Qed.

End requests.

#[export] Hint Resolve quiet_wait_fd quiet_spoil quiet_send_buffer quiet_listen quiet_collect
  quiet_ssl_receive quiet_recv_buffer quiet_get_frame quiet_add_integrity quiet_check_integrity
  quiet_rare_event quiet_not_rare_event quiet_clnet_connect quiet_authentic quiet_relay_loop quiet_reopen
  quiet_mobile_reopen quiet_refresh_receive : quiet.
