(* ===== verification/Steady.v ===== *)
(** What the exchanges keep of a connection: sending, receiving, authenticating and
    connecting change its endpoints, credentials and state, never its relayed
    address, its peer, its data connections and its role.  [Steady p] says that the
    projection [p] ignores those changes; the theorems on the session and on the
    allocation use it at their own projection.  [Stable p] only says that it ignores
    the mark of a broken connection, all that sending and receiving change. *)

From S2P Require Import Prelude Defs CString IoAddr MsgAddr AddrText StunHeader StunAttr StunMsg StunBuffer Crypto Integrity Evp OAuth System Progress Session Transport TransportSpec Credentials Sockets Connect Allocate Bind Termination.

Class Stable {X} (p : app_ur_conn_info -> X) : Prop := steady_broken c : p (set_broken c) = p c.

Class Steady {X} (p : app_ur_conn_info -> X) : Prop := {
  #[global] steady_stable :: Stable p;
  steady_fd c fd ssl : p (set_fd c fd ssl) = p c;
  steady_challenge c r n s o : p (set_challenge c r n s o) = p c;
  steady_cok c k : p (set_cok c k) = p c;
  steady_key c k : p (set_key c k) = p c;
  steady_mobile_id c i : p (set_mobile_id c i) = p c;
  steady_endpoints c la ls ra rs ifn fd : p (set_endpoints c la ls ra rs ifn fd) = p c;
}.

#[export] Instance steady_relay : Steady ci_relay_addr.
Proof. by split; intros []. Qed.
#[export] Instance stable_strings : Stable (λ c, (ci_realm c, ci_nonce c)).
Proof. by intros []. Qed.
#[export] Instance steady_role : Steady (λ c, (ci_tcp_conn c, ci_is_peer c)).
Proof. by split; intros []. Qed.

Create HintDb steady discriminated.

(** Follows a program; the database knows what its calls keep. *)
Ltac steady_set :=
  match goal with
  | |- context [?q (set_fd ?c ?a ?b)] => rewrite (steady_fd (p := q) c a b)
  | |- context [?q (set_broken ?c)] => rewrite (steady_broken (p := q) c)
  | |- context [?q (set_challenge ?c ?r ?n ?s ?o)] => rewrite (steady_challenge (p := q) c r n s o)
  | |- context [?q (set_cok ?c ?k)] => rewrite (steady_cok (p := q) c k)
  | |- context [?q (set_key ?c ?k)] => rewrite (steady_key (p := q) c k)
  | |- context [?q (set_mobile_id ?c ?i)] => rewrite (steady_mobile_id (p := q) c i)
  | |- context [?q (set_endpoints ?c ?la ?ls ?ra ?rs ?i ?fd)] => rewrite (steady_endpoints (p := q) c la ls ra rs i fd)
  end.
Ltac steady_fin := cbn [fst snd ex_conn] in *; cbv beta iota in *; repeat steady_set; first [done | congruence].
Ltac split_result x :=
  try first [ destruct x as [[[[? ?] ?] ?] ?] | destruct x as [[[? ?] ?] ?] | destruct x as [[? ?] ?] | destruct x as [? ?] ].
Ltac steady_step :=
  match goal with
  | |- halts (mret _) _ => apply halts_ret; try steady_fin
  | |- halts (_ ≫= _) _ =>
    first [ eapply halts_bind; [solve [eauto with steady nocore]|let x := fresh "x" in intros x ? ?; split_result x]
          | apply (halts_bind _ _ (λ _ _, True)); [solve [halts_tac]|intros ? ? _] ]
  | |- halts (match ?x with _ => _ end) _ => destruct x eqn:?
  | |- halts _ _ => solve [eapply halts_mono; [eauto with steady nocore|intros; steady_fin]]
  | |- halts _ _ => solve [halts_leaf]
  end; cbv beta iota zeta.
Ltac steady_tac := repeat steady_step.

(** * Sending and receiving *)

Section transfer.
Context {X : Type} (p : app_ur_conn_info -> X) `{!Stable p}.
Context `{N : NetDb} `{C : Crypto} `{V : Evp}.
Context (cfg : config) (stack : world -> frame) (maps : addr_maps).

Lemma steady_send_buffer c m dc atc : halts (send_buffer cfg c m dc atc) (λ x _, p x.1.2 = p c).
Proof.
  eapply halts_mono; [apply halts_send_buffer|]. intros [[r c'] m'] _ [->|[-> _]]; cbn [fst snd]; [done|apply steady_broken].
Qed.
#[local] Hint Resolve steady_send_buffer : steady.

Lemma steady_ssl_receive n rc s c m : halts (ssl_receive n rc s c m) (λ x _, p x.1.2 = p c).
Proof. revert rc c m. induction n as [|n IH]; intros rc c m; cbn [ssl_receive]; steady_tac. Qed.
#[local] Hint Resolve steady_ssl_receive : steady.

Lemma steady_listen n fd k c q dc atc :
  halts (listen cfg n fd k c q dc atc) (λ r _, match r with inl (c', _) | inr (c', _) => p c' = p c end).
Proof. revert k c q. induction n as [|n IH]; intros k c q; cbn [listen]; steady_tac.
  eapply halts_mono; [apply IH|]. intros [[? ?]|[? ?]] ? ?; steady_fin.
Qed.
#[local] Hint Resolve steady_listen : steady.

Lemma steady_receive fd ssl s atc rc c m :
  halts (receive cfg fd ssl s atc rc c m) (λ x _, p x.1.2 = p c).
Proof. unfold receive. steady_tac. Qed.

(** [recv_buffer] gives back the connection it was given, or one with the same
    projection. *)
Lemma steady_recv_again fd ssl s dc atc tid k st :
  can_receive cfg fd ssl st ->
  halts (recv_again cfg fd ssl s dc atc tid k st)
    (λ r b, match r with inl st' | inr st' => p st'.1.1.2 = p st.1.1.2 end).
Proof.
  destruct st as [[[rc c] m] req]. intros Hi. unfold recv_again. cbn [fst snd].
  eapply (halts_bind _ _ (λ l _, match l with inl (c', _) | inr (c', _) => p c' = p c end)).
  { destruct req as [q|]; [|by apply halts_ret]. destruct (_ && _ && _); [|by apply halts_ret].
    eapply halts_bind; [apply steady_listen|]. intros [[c' q']|[c' q']] b H; by apply halts_ret. }
  intros [[c' req']|[c' req']] b H; [|by apply halts_ret].
  eapply halts_bind; [apply steady_receive|]. intros [[r c2] m'] b' Hr. cbn [fst snd] in Hr. steady_tac.
Qed.

Lemma steady_recv_buffer c m s dc atc req :
  halts (recv_buffer cfg c m s dc atc req) (λ x _, p x.1.1.2 = p c).
Proof.
  unfold recv_buffer. apply (halts_bind _ _ (λ _ _, True)); [halts_tac|intros [tid k] b0 _].
  set (fd := match atc with Some _ => _ | None => ci_fd c end).
  set (ssl := match atc with Some _ => _ | None => ci_ssl c end). cbv zeta.
  apply (halts_loop (λ st : received, can_receive cfg fd ssl st /\ p st.1.1.2 = p c)); [by split; [left|]|].
  intros st [Hi Hp]. eapply halts_mono; [apply halts_and; [by apply halts_recv_again|by apply steady_recv_again]|].
  intros [st'|x] b [H1 H2]; [|congruence]. destruct H1. split; [split; [done|congruence]|done].
Qed.
End transfer.

Section steady.
Context {X : Type} (p : app_ur_conn_info -> X) `{!Steady p}.
Context `{N : NetDb} `{C : Crypto} `{V : Evp}.
Context (cfg : config) (stack : world -> frame) (maps : addr_maps).

#[local] Hint Extern 2 (halts (send_buffer _ _ _ _ _) _) => (apply (steady_send_buffer p)) : steady.
#[local] Hint Extern 2 (halts (recv_buffer _ _ _ _ _ _ _) _) => (apply (steady_recv_buffer p)) : steady.

Lemma steady_new_token c m : halts (new_token cfg stack c m) (λ x _, p x.1.2 = p c).
Proof. unfold new_token. steady_tac. Qed.
#[local] Hint Resolve steady_new_token : steady.

Lemma steady_add_integrity c m : halts (add_integrity cfg stack c m) (λ x _, p x.1.2 = p c).
Proof.
  unfold add_integrity. steady_step. destruct (truth a); [|by steady_tac].
  destruct (oauth cfg && _); [|by steady_tac]. steady_step.
  eapply (halts_bind _ _ (λ x _, p x.1.2 = p c)); [destruct (_ || _); steady_tac|intros [[ok c'] m'] ? Hc]. cbn [fst snd] in Hc.
  steady_tac.
Qed.
#[local] Hint Resolve steady_add_integrity : steady.

Lemma steady_connect_turn port ra ifn la self st :
  halts (connect_turn cfg stack port ra ifn la self st)
    (λ r _, match r with inl st' | inr st' => p st'.2 = p st.2 end).
Proof. destruct st as [n c]. unfold connect_turn. cbn [snd]. steady_tac. Qed.

Lemma steady_clnet_connect port ra ifn la self c :
  halts (clnet_connect cfg stack port ra ifn la self c) (λ x _, p x.2 = p c).
Proof.
  apply (halts_loop (λ st : Z * app_ur_conn_info, p st.2 = p c)); [done|]. intros st Hp.
  eapply halts_mono; [apply halts_and; [apply steady_connect_turn|apply goes_connect_turn]|].
  intros [st'|x] b [H1 H2]; [|congruence]. destruct H2. split; [congruence|done].
Qed.
#[local] Hint Resolve steady_clnet_connect : steady.

(** * Exchanges *)

Lemma steady_read_mobility_ticket c m r c' : read_mobility_ticket c m = Some (r, c') -> p c' = p c.
Proof.
  unfold read_mobility_ticket. intros H. apply bind_Some in H as (sar & _ & H). destruct sar as [v|]; [|by simplify_eq].
  apply bind_Some in H as (n & _ & H). destruct (_ && _); [|by simplify_eq].
  apply bind_Some in H as ([v'|] & _ & H); [|by simplify_eq].
  apply bind_Some in H as (bs & _ & H). apply bind_Some in H as (i1 & _ & H). apply bind_Some in H as (i2 & _ & [= <- <-]).
  apply steady_mobile_id.
Qed.

Lemma steady_lift_ticket c m : halts (lift (read_mobility_ticket c m)) (λ x _, p x.2 = p c).
Proof. apply halts_lift. intros [r c']. apply steady_read_mobility_ticket. Qed.

Lemma steady_is_challenge f m c : halts (lift (is_challenge f m c)) (λ x _, p x.2 = p c).
Proof.
  apply halts_lift. intros [[b ch] c']. unfold is_challenge. intros H. apply bind_Some in H as ([b' ch'] & _ & [= <- <- <-]).
  apply steady_challenge.
Qed.
#[local] Hint Resolve steady_lift_ticket steady_is_challenge : steady.

Lemma steady_reopen b c : halts (reopen cfg stack b c) (λ x _, p x.2 = p c).
Proof.
  unfold reopen. destruct (_ && _); [|by apply halts_ret]. steady_step.
  eapply halts_bind; [apply steady_clnet_connect|]. intros [rc c'] ? H. cbn [snd] in H. rewrite steady_fd in H. steady_tac.
Qed.

Lemma steady_seal_allocate af c m :
  halts (allocate_request cfg stack af c m) (λ r _, match r with inl c' | inr (c', _) => p c' = p c end).
Proof. unfold allocate_request. steady_tac. Qed.

Lemma steady_mobile_reopen c : halts (mobile_reopen cfg stack c) (λ c' _, p c' = p c).
Proof.
  unfold mobile_reopen. steady_step. destruct (negb _); [by apply halts_ret|]. steady_step.
  apply (halts_bind _ _ (λ _ _, True)); [halts_tac|intros [[fd ssl] freed] ? _].
  eapply halts_bind; [apply steady_clnet_connect|]. intros [rc c'] ? H. cbn [snd] in H. rewrite steady_fd in H. steady_tac.
Qed.

Lemma steady_refresh_request c m :
  halts (refresh_request cfg stack c m) (λ r _, match r with inl c' | inr (c', _) => p c' = p c end).
Proof. unfold refresh_request. steady_tac. Qed.

Lemma steady_refresh_response c m n : halts (refresh_response stack c m n) (λ x _, p x.2 = p c).
Proof. unfold refresh_response. steady_tac. Qed.
#[local] Hint Resolve steady_reopen steady_seal_allocate steady_mobile_reopen steady_refresh_request steady_refresh_response : steady.

Lemma steady_refresh_receive_turn ex :
  halts (refresh_receive_turn cfg stack ex)
    (λ r _, match r with inl ex' | inr (_, ex') => p (ex_conn ex') = p (ex_conn ex) end).
Proof.
  unfold refresh_receive_turn. steady_step. steady_step.
  eapply (halts_bind _ _ (λ x _, p x.1.1.2 = p (ex_conn ex))).
  { destruct (truth _); [|by apply halts_ret]. eapply halts_mono; [apply (steady_recv_buffer p)|].
    intros x ? Hx. cbn [fst snd] in *. congruence. }
  intros [[[n c] m] req] ? H1. cbn [fst snd] in H1. steady_tac.
Qed.

Lemma steady_refresh_receive ex :
  halts (iter (refresh_receive_turn cfg stack) ex) (λ x _, p (ex_conn x.2) = p (ex_conn ex)).
Proof.
  apply (halts_loop (λ ex', p (ex_conn ex') = p (ex_conn ex))); [done|]. intros ex' Hp.
  eapply halts_mono; [apply halts_and; [apply steady_refresh_receive_turn|apply goes_refresh_receive_turn]|].
  intros [ex''|[v ex'']] b [H1 H2]; [|cbn [snd]; congruence]. destruct H2. split; [congruence|done].
Qed.
#[local] Hint Resolve steady_refresh_receive : steady.

Lemma steady_refresh_loop n ex : halts (refresh_loop cfg stack n ex) (λ x _, p (ex_conn x.2) = p (ex_conn ex)).
Proof.
  revert ex. induction n as [|n IH]; intros ex; cbn [refresh_loop]; [steady_tac|]. steady_step. destruct x as [c|[c req]]; [steady_tac|].
  steady_step. steady_step; [steady_tac|]. steady_step.
  eapply (halts_bind _ _ (λ x _, p x.1 = p c)); [destruct (truth _); steady_tac|intros [c' req'] ? H'].
  cbn [fst snd] in *. apply (halts_bind _ _ (λ _ _, True)); [halts_tac|intros rare ? _]. destruct rare; [steady_tac|].
  eapply halts_bind; [apply steady_refresh_receive|]. intros [v ex'] ? H2. cbn [snd ex_conn] in H2. destruct v; steady_tac.
Qed.

(** * Channels and permissions *)

Lemma steady_seal_request c m :
  halts (seal_request cfg stack c m) (λ r _, match r with inl c' | inr (c', _) => p c' = p c end).
Proof. unfold seal_request. steady_tac. Qed.

Lemma steady_bind_response c m : halts (bind_response cfg stack c m) (λ x _, p x.1.2 = p c).
Proof. unfold bind_response. steady_tac. Qed.
#[local] Hint Resolve steady_seal_request steady_bind_response : steady.

Lemma steady_bind_receive_turn st :
  halts (bind_receive_turn cfg stack st)
    (λ r _, match r with inl st' => p st'.1.1 = p st.1.1 | inr x => p x.1.1.2 = p st.1.1 end).
Proof. destruct st as [[c req] m]. unfold bind_receive_turn. cbn [fst]. steady_tac. Qed.

Lemma steady_bind_receive c req m :
  halts (iter (bind_receive_turn cfg stack) (c, req, m)) (λ x _, p x.1.1.2 = p c).
Proof.
  apply (halts_loop (λ st : app_ur_conn_info * stun_buffer * stun_buffer, p st.1.1 = p c)); [done|]. intros st Hp.
  eapply halts_mono; [apply halts_and; [apply steady_bind_receive_turn|apply goes_bind_receive_turn]|].
  intros [st'|x] b [H1 H2]; [|congruence]. destruct H2. split; [congruence|done].
Qed.
#[local] Hint Resolve steady_bind_receive : steady.

Lemma steady_bind_turn a st :
  halts (bind_turn cfg stack maps a st) (λ r _, match r with inl st' => p st'.1.1.2 | inr x => p x.2 end = p st.1.1.2).
Proof.
  destruct st as [[[n c] req] m]. unfold bind_turn. cbn [fst snd].
  apply (halts_bind _ _ (λ _ _, True)); [halts_tac|intros [chn q] ? _].
  steady_step. destruct x as [c2|[c2 q2]]; [steady_tac|]. steady_tac.
Qed.

Lemma steady_turn_channel_bind n c a : halts (turn_channel_bind cfg stack maps n c a) (λ x _, p x.2 = p c).
Proof.
  unfold turn_channel_bind. steady_step.
  apply (halts_loop (λ st : Z * app_ur_conn_info * stun_buffer * stun_buffer, p st.1.1.2 = p c)); [done|]. intros st Hp.
  eapply halts_mono; [apply halts_and; [apply steady_bind_turn|apply goes_bind_turn]|].
  intros [st'|x] b' [H1 H2]; [|congruence]. destruct H2. split; [congruence|done].
Qed.

Lemma steady_permission_turn l st :
  halts (permission_turn cfg stack maps l st) (λ r _, match r with inl st' => p st'.1.1 | inr x => p x.2 end = p st.1.1).
Proof.
  destruct st as [[c req] m]. unfold permission_turn. cbn [fst snd]. steady_step. steady_step. steady_step. steady_step.
  destruct x as [c2|[c2 q2]]; [steady_tac|]. steady_tac.
Qed.

Lemma steady_turn_create_permission c l : halts (turn_create_permission cfg stack maps c l) (λ x _, p x.2 = p c).
Proof.
  unfold turn_create_permission. destruct (_ || _); [by apply halts_ret|]. steady_step. steady_step.
  apply (halts_loop (λ st : app_ur_conn_info * stun_buffer * stun_buffer, p st.1.1 = p c)); [done|]. intros st Hp.
  eapply halts_mono; [apply halts_and; [apply steady_permission_turn|apply goes_permission_turn]|].
  intros [st'|x] b' [H1 H2]; [|congruence]. destruct H2. split; [congruence|done].
Qed.
#[local] Hint Resolve steady_turn_channel_bind steady_turn_create_permission : steady.

Lemma steady_extra_binds n c a : halts (extra_binds cfg stack maps n c a) (λ c' _, p c' = p c).
Proof.
  revert c a. induction n as [|n IH]; intros c a; cbn [extra_binds]; steady_tac.
Qed.
Lemma steady_extra_permissions c : halts (extra_permissions cfg stack maps c) (λ c' _, p c' = p c).
Proof.
  unfold extra_permissions. destruct (negb _); [by apply halts_ret|]. do 2 steady_step.
  apply (halts_bind _ _ (λ _ _, True)); [halts_tac|intros peers ? _]. steady_tac.
Qed.
#[local] Hint Resolve steady_extra_binds steady_extra_permissions : steady.

Lemma steady_bind_channels c n a : halts (bind_channels cfg stack maps c n a) (λ c' _, p c' = p c).
Proof.
  unfold bind_channels. steady_step. destruct (z <? 0); [steady_tac|]. steady_step. destruct a1; [steady_tac|].
  eapply (halts_bind _ _ (λ c' _, p c' = p c)); [destruct (extra_requests cfg); steady_tac|intros c' ? Hc'].
  steady_tac.
Qed.

Lemma steady_bind_permissions c a : halts (bind_permissions cfg stack maps c a) (λ c' _, p c' = p c).
Proof.
  unfold bind_permissions. steady_step.
  eapply (halts_bind _ _ (λ x _, p x.2 = p c)); [destruct (Z.rem _ _ =? 0); steady_tac|intros [stop c'] ? Hc'].
  cbn [snd] in Hc'. destruct stop; [steady_tac|]. steady_tac.
Qed.
#[local] Hint Resolve steady_bind_channels steady_bind_permissions : steady.

Lemma steady_bind_real t port c : halts (bind_real cfg stack maps t port c) (λ c' _, p c' = p c).
Proof. unfold bind_real. steady_tac. Qed.
End steady.

(** * Allocation *)

(** What the allocation does not touch either. *)
Class Fixed {X} (p : app_ur_conn_info -> X) : Prop := {
  #[global] fixed_steady :: Steady p;
  fixed_relay c a : p (set_relay_addr c a) = p c;
  fixed_peer c a : p (set_conn_peer_addr c a) = p c;
}.

#[export] Instance fixed_role : Fixed (λ c, (ci_tcp_conn c, ci_is_peer c)).
Proof. split; [apply steady_role|by intros []..]. Qed.

Section fixed.
Context {X : Type} (p : app_ur_conn_info -> X) `{!Fixed p}.
Context `{N : NetDb} `{C : Crypto} `{V : Evp}.
Context (cfg : config) (stack : world -> frame) (maps : addr_maps).
#[local] Hint Extern 2 (halts (send_buffer _ _ _ _ _) _) => (apply (steady_send_buffer p)) : steady.
#[local] Hint Extern 2 (halts (recv_buffer _ _ _ _ _ _ _) _) => (apply (steady_recv_buffer p)) : steady.
#[local] Hint Extern 2 (halts (clnet_connect _ _ _ _ _ _ _ _) _) => (apply (steady_clnet_connect p)) : steady.
#[local] Hint Extern 2 (halts (reopen _ _ _ _) _) => (apply (steady_reopen p)) : steady.
#[local] Hint Extern 2 (halts (allocate_request _ _ _ _ _) _) => (apply (steady_seal_allocate p)) : steady.
#[local] Hint Extern 2 (halts (mobile_reopen _ _ _) _) => (apply (steady_mobile_reopen p)) : steady.
#[local] Hint Extern 2 (halts (refresh_loop _ _ _ _) _) => (apply (steady_refresh_loop p)) : steady.
#[local] Hint Extern 2 (halts (lift (read_mobility_ticket _ _)) _) => (apply (steady_lift_ticket p)) : steady.
#[local] Hint Extern 2 (halts (lift (is_challenge _ _ _)) _) => (apply (steady_is_challenge p)) : steady.

Lemma fixed_relay_loop n m sar c a :
  (forall q, sar = Some q -> 20 <= q /\ q + 4 <= len m /\ len m - q <= Z.of_nat n) ->
  halts (relay_loop cfg maps n m sar c a) (λ x _, forall b c', x.1 = Some (b, c') -> p c' = p c).
Proof.
  revert sar a. induction n as [|n IH]; intros sar a Hs; cbn [relay_loop];
    (destruct sar as [q|]; [|by apply halts_ret; intros ? ? [= <- <-]]); destruct (Hs q eq_refl) as (Hp & Hl & Hn); [lia|].
  steady_step. cbv zeta.
  assert (forall a, halts (sar ← lift (stun_attr_get_next m (Some q)); relay_loop cfg maps n m sar c a)
    (λ x _, forall b c', x.1 = Some (b, c') -> p c' = p c)) as Hnext.
  { intros a1. eapply (halts_bind _ _ (λ r _, stun_attr_get_next m (Some q) = Some r)); [by apply halts_lift|].
    intros r b1 Hr. eapply halts_mono; [apply IH|done]. intros q' ->. apply get_next_room in Hr; lia. }
  destruct (_ =? _).
  2: { eapply halts_mono; [apply Hnext|done]. }
  steady_step. destruct a1 as [rc a1]. destruct (rc <? 0); [by apply halts_ret|]. steady_step. steady_step.
  destruct (_ && _); [|eapply halts_mono; [apply Hnext|done]]. apply halts_ret. intros ? ? [= <- <-]. apply fixed_relay.
Qed.

Lemma fixed_allocate_granted c m a : halts (allocate_granted cfg stack maps c m a) (λ x _, p x.1.2 = p c).
Proof.
  unfold allocate_granted. steady_step. destruct a0 as [ok m1]. destruct (negb ok); [by apply halts_ret|].
  eapply (halts_bind _ _ (λ r _, stun_attr_get_first m1 = Some r)); [by apply halts_lift|]. intros sar b1 Hs.
  eapply halts_bind; [apply fixed_relay_loop|].
  { intros q ->. apply get_first_room in Hs. unfold attr_fuel. lia. }
  intros [r a2] b2 Hr. cbn [fst] in Hr. destruct r as [[[] c2]|]; [|by apply halts_ret..].
  specialize (Hr _ _ eq_refl). steady_tac.
Qed.

Lemma fixed_allocate_response c m n a t : halts (allocate_response cfg stack maps c m n a t) (λ x _, p x.1.1.2 = p c).
Proof.
  unfold allocate_response. steady_step. steady_step. steady_step.
  - eapply halts_bind; [apply fixed_allocate_granted|]. intros [[v c2] r2] ? H2. cbn [fst snd] in *. by apply halts_ret.
  - steady_tac.
Qed.

Lemma fixed_allocate_receive ex :
  halts (iter (allocate_receive_turn cfg stack maps) ex) (λ x _, p (ex_conn x.2) = p (ex_conn ex)).
Proof.
  apply (halts_loop (λ ex', p (ex_conn ex') = p (ex_conn ex))); [done|]. intros ex' Hp.
  eapply (halts_mono _ (λ r b, match r with inl ex2 | inr (_, ex2) => p (ex_conn ex2) = p (ex_conn ex') end /\ goes_on (λ _, True) r b)).
  - apply halts_and; [|apply goes_allocate_receive_turn]. unfold allocate_receive_turn. steady_step. steady_step.
    destruct (0 <? z); [|steady_tac]. eapply halts_bind; [apply fixed_allocate_response|].
    intros [[[v c'] r] t'] ? H'. cbn [fst snd] in *. destruct v; steady_tac.
  - intros [ex''|[v ex'']] b [H1 H2]; [|cbn [snd]; congruence]. destruct H2. split; [congruence|done].
Qed.

Lemma fixed_allocate_loop n b af ex :
  halts (allocate_loop cfg stack maps n b af ex)
    (λ r _, match r with inl (_, ex') | inr (_, ex') => p (ex_conn ex') = p (ex_conn ex) end).
Proof.
  revert b ex. induction n as [|n IH]; intros b ex; cbn [allocate_loop]; [by apply halts_ret|].
  steady_step. steady_step. destruct x as [c2|[c2 req]]; [steady_tac|]. steady_step. destruct (_ <=? 0); [steady_tac|].
  apply (halts_bind _ _ (λ _ _, True)); [halts_tac|intros rare ? _]. destruct rare; [steady_tac|].
  eapply halts_bind; [apply fixed_allocate_receive|]. intros [v ex'] ? H2. cbn [fst snd ex_conn] in *.
  destruct v as [[]|]; try (steady_tac); (eapply halts_mono; [apply IH|]; intros [[? ?]|[? ?]] ? ?; steady_fin).
Qed.

Lemma fixed_clnet_allocate af c a t : halts (clnet_allocate cfg stack maps af c a t) (λ x _, p x.1.1.2 = p c).
Proof.
  unfold clnet_allocate. steady_step. eapply halts_bind; [apply fixed_allocate_loop|].
  intros [[rc ex]|[fin ex]] ? H; cbn [ex_conn] in H; [steady_tac|].
  apply (halts_bind _ _ (λ _ _, True)); [halts_tac|intros rare ? _]. destruct rare; [steady_tac|].
  destruct (negb fin); [steady_tac|]. steady_tac.
Qed.

Lemma fixed_start_connection port ra i la c : halts (start_connection cfg stack maps port ra i la c) (λ x _, p x.1.2 = p c).
Proof.
  unfold start_connection. steady_step. steady_step. steady_step. destruct (_ <? 0); [steady_tac|]. steady_step.
  eapply halts_bind; [apply fixed_clnet_allocate|]. intros [[[rc c2] r2] t2] ? H2. cbn [fst snd] in *.
  destruct (rc <? 0); [steady_tac|]. apply (halts_bind _ _ (λ _ _, True)); [halts_tac|intros rare ? _].
  destruct rare; [steady_tac|]. steady_step. apply halts_ret. cbn [fst snd]. rewrite fixed_peer. congruence.
Qed.

Lemma fixed_start_c2c_connection port ra i la c :
  halts (start_c2c_connection cfg stack maps port ra i la c) (λ x _, p x.1.2 = p c).
Proof.
  unfold start_c2c_connection. steady_step. steady_step. steady_step. destruct (_ <? 0); [steady_tac|]. steady_step.
  eapply halts_bind; [apply fixed_clnet_allocate|]. intros [[[rc c2] r2] t2] ? H2. cbn [fst snd] in *. steady_tac.
Qed.
End fixed.
