(* ===== verification/AllocateSpec.v ===== *)
(** What an allocation that succeeds leaves behind ([clnet_allocate]): a relayed
    address that can be used, of the family the program asked for. *)

From S2P Require Import Prelude Defs CString IoAddr MsgAddr AddrText AddrTextSpec StunHeader StunAttr StunMsg StunBuffer Crypto Integrity Evp OAuth System Progress Session Samples Transport TransportSpec Credentials Sockets Connect Allocate Scenario Termination Bounded Steady.

Definition family (w : world) : Z := default_address_family (w_globals w).

(** Not the unspecified address, and IPv6 exactly when IPv6 was asked for. *)
Definition relay_usable (af : Z) (a : ioa_addr) : Prop :=
  addr_any (Some a) = false /\
  sa_family a = if af =? STUN_ATTRIBUTE_REQUESTED_ADDRESS_FAMILY_VALUE_IPV6 then AF_INET6 else AF_INET.

(** Runs that end: no loop spins, and undefined behaviour is let through. *)
Abbreviation run m Q w := (wpf True m Q (λ _, True) w).

(** Programs that keep the family: those that keep the statics, and the draws. *)
Lemma family_quiet {A} (m : prog A) : quiet m -> keeps family m.
Proof.
  intros H w. specialize (H w). destruct (m w) as [a w'|c w'|w'| |]; try done; unfold family; by injection H as -> _.
Qed.
Lemma family_ask {A} (f : answer -> option A) : keeps family (ask f).
Proof. intros w. unfold ask. destruct (w_script w) as [|a s]; [done|]. by destruct (f a). Qed.
#[local] Hint Extern 5 (keeps family _) => (apply family_quiet; solve [auto with quiet nocore]) : quiet.
Lemma family_entropy : keeps family entropy_.
Proof. apply family_ask. Qed.
#[local] Hint Resolve family_entropy : quiet.

Lemma run_family {A} (m : prog A) (R : A -> bool -> Prop) (Q : A -> world -> Prop) w :
  keeps family m -> halts m R -> (forall a b w', R a b -> family w' = family w -> Q a w') -> run m Q w.
Proof.
  intros Hq Hh HQ. eapply wp_mono; [exact (wp_keeps _ m _ _ w (Hh w) Hq)| |done].
  intros a w' _ [H Hk]. by apply (HQ a _ w' H).
Qed.

Lemma run_quiet {A} (m : prog A) (R : A -> bool -> Prop) (Q : A -> world -> Prop) w :
  quiet m -> halts m R -> (forall a b w', R a b -> w_globals w' = w_globals w -> Q a w') -> run m Q w.
Proof.
  intros Hq Hh HQ. eapply wp_mono; [exact (wp_keeps _ m _ _ w (Hh w) Hq)| |done].
  intros a w' _ [H Hk]. apply (HQ a _ w' H). by injection Hk.
Qed.

Lemma run_result {A} (m : prog A) (Q : A -> world -> Prop) w a w' : run m Q w -> m w = Ret a w' -> Q a w'.
Proof. unfold wpf. intros H Hm. rewrite Hm in H. by destruct H. Qed.

Lemma run_lift {A} (x : option A) (Q : A -> world -> Prop) w : (forall a, x = Some a -> Q a w) -> run (lift x) Q w.
Proof. by apply wp_try. Qed.

(** The first three steps of a run, taken as one. *)
Lemma run_assoc {A B D X} (m : prog A) (f : A -> prog B) (g : A -> B -> prog D) (k : D -> prog X) (Q : X -> world -> Prop) w :
  run ((a ← m; b ← f a; g a b) ≫= k) Q w -> run (a ← m; b ← f a; d ← g a b; k d) Q w.
Proof.
  unfold wpf, mbind, prog_bind. destruct (m w) as [a w1| | | |]; try done. destruct (f a w1) as [b w2| | | |]; done.
Qed.

Section allocate.
Context `{N : NetDb} `{C : Crypto} `{V : Evp}.
Context (cfg : config) (stack : world -> frame) (maps : addr_maps).

Lemma run_relay_loop n m sar c a w (Q : option (bool * app_ur_conn_info) * ioa_addr -> world -> Prop) :
  (forall p, sar = Some p -> 20 <= p /\ p + 4 <= len m /\ len m - p <= Z.of_nat n) ->
  (forall r a' w', w_globals w' = w_globals w ->
     match r with Some (true, c') => relay_usable (family w) (ci_relay_addr c') | _ => True end -> Q (r, a') w') ->
  run (relay_loop cfg maps n m sar c a) Q w.
Proof.
  revert sar a w. induction n as [|n IH]; intros sar a w Hs HQ; cbn [relay_loop];
    (destruct sar as [p|]; [|by apply wp_ret, HQ]); destruct (Hs p eq_refl) as (Hp & Hl & Hn); [lia|].
  apply wp_bind, run_lift. intros t _. cbv zeta.
  assert (forall a1 w1, w_globals w1 = w_globals w ->
    run (sar ← lift (stun_attr_get_next m (Some p)); relay_loop cfg maps n m sar c a1) Q w1) as Hnext.
  { intros a1 w1 Hg. apply wp_bind, run_lift. intros sar Hsar. apply IH.
    - intros q ->. apply get_next_room in Hsar; lia.
    - intros r a' w' Hg'. unfold family. rewrite Hg. apply HQ. congruence. }
  destruct (t =? _); [|by apply Hnext]. apply wp_bind, run_lift. intros [rc a1] _.
  destruct (rc <? 0); [by apply wp_ret, HQ|]. apply wp_bind.
  apply (run_quiet _ (λ _ _, True)); [unfold notify_ip; keeps_tac|apply ends_notify_ip|]. intros _ _ w1 _ Hg.
  apply wp_bind, wp_get_globals. destruct (_ && _) eqn:Hu; [|by apply Hnext].
  apply wp_ret, HQ; [done|]. apply andb_prop in Hu as [Hany Hf]. apply negb_true_iff in Hany.
  unfold relay_usable, family. rewrite <- Hg. cbn [ci_relay_addr set_relay_addr]. split; [done|].
  destruct (default_address_family (w_globals w1) =? _); cbn [negb] in Hf;
    rewrite ?andb_true_r, ?andb_false_r, ?orb_false_r in Hf; by apply Z.eqb_eq in Hf.
Qed.

(** * Responses *)

Definition granted (af : Z) (v : verdict) (c : app_ur_conn_info) : Prop :=
  match v with
  | VFinished => relay_usable af (ci_relay_addr c)
  | VReturn rc => rc = -1
  | _ => True
  end.

Lemma run_allocate_granted c m a w :
  run (allocate_granted cfg stack maps c m a) (λ '(v, c', _) w', family w' = family w /\ granted (family w) v c') w.
Proof.
  unfold allocate_granted. apply wp_bind. apply (run_quiet _ (λ _ _, True)); [keeps_tac|apply ends_authentic|].
  intros [ok m1] b1 w1 _ Hg. destruct (negb ok); [apply wp_ret; split; [unfold family; congruence|done]|].
  apply wp_bind, run_lift. intros sar Hsar. apply wp_bind. apply run_relay_loop.
  { intros p ->. apply get_first_room in Hsar. unfold attr_fuel. lia. }
  intros r a2 w2 Hg2 Hr. assert (family w2 = family w) as Hf by (unfold family; congruence).
  destruct r as [[[] c2]|]; [|by apply wp_ret..].
  apply wp_bind, run_lift. intros rt _. apply wp_bind, run_lift. intros rtv _. apply wp_bind, wp_get_globals.
  apply wp_bind, wp_set_globals. apply wp_bind, run_lift. intros [k c3] Hc3. apply wp_ret. split; [done|].
  cbn [granted]. apply (steady_read_mobility_ticket ci_relay_addr) in Hc3. rewrite Hc3.
  unfold family in *. by rewrite <- Hg.
Qed.

Lemma run_allocate_refused c m e t w :
  run (allocate_refused cfg stack maps c m e t)
    (λ '(v, _) w', family w' = family w /\ (v = VReturn (-1) \/ v = VRetry)) w.
Proof.
  unfold allocate_refused. apply wp_bind, wp_get_frame. apply wp_bind. apply (run_quiet _ (λ _ _, True)); [keeps_tac|halts_tac|].
  intros ok b1 w1 _ Hg. assert (family w1 = family w) as Hf by (unfold family; congruence).
  destruct ok as [t'|]; [|apply wp_ret; auto]. destruct (negb _); [|apply wp_ret; auto].
  apply wp_bind, wp_get_globals, wp_bind, wp_set_globals, wp_ret. auto.
Qed.

Lemma run_allocate_response c m n a t w :
  run (allocate_response cfg stack maps c m n a t) (λ '(v, c', _, _) w', family w' = family w /\ granted (family w) v c') w.
Proof.
  unfold allocate_response. cbv zeta. apply wp_bind, wp_get_frame. apply wp_bind, run_lift. intros success _.
  destruct success.
  { apply wp_bind. eapply wp_post; [apply run_allocate_granted|]. intros [[v c'] r] w' _ H. by apply wp_ret. } apply wp_bind, run_lift. intros [[b ch] c1] _.
  destruct b; [by apply wp_ret|]. apply wp_bind, run_lift. intros [[b err] msg] _. destruct b; [|by apply wp_ret].
  apply wp_bind, run_lift. intros e _. apply wp_bind. eapply wp_post; [apply run_allocate_refused|].
  intros [v t'] w' _ [Hf [-> | ->]]; by apply wp_ret.
Qed.

(** A loop whose turns are known to consume. *)
Lemma run_iter {S A} (body : S -> prog (S + A)) (Inv : S -> world -> Prop) (Q : A -> world -> Prop) s w :
  (forall s, halts (body s) (goes_on (λ _, True))) ->
  (forall s w, Inv s w -> run (body s) (λ r w', match r with inl s' => Inv s' w' | inr a => Q a w' end) w) ->
  Inv s w -> run (iter body s) Q w.
Proof.
  intros Hg Hb Hi. apply (wp_iter Inv); [|done]. intros s1 w1 Hi1.
  eapply wp_mono; [exact (wp_and _ _ _ _ _ _ (Hb s1 w1 Hi1) (Hg s1 w1))| |done].
  intros [s'|a] w' _ [H1 H2]; [|done]. split; [done|]. by apply Nat.ltb_lt, H2.
Qed.

Lemma run_allocate_receive ex w :
  run (iter (allocate_receive_turn cfg stack maps) ex)
    (λ '(v, ex') w', family w' = family w /\ forall v', v = Some v' -> granted (family w) v' (ex_conn ex')) w.
Proof.
  apply (run_iter _ (λ _ w1, family w1 = family w)); [apply goes_allocate_receive_turn| |done].
  intros ex1 w1 Hw1. unfold allocate_receive_turn. apply wp_bind.
  apply (run_quiet _ (λ _ _, True)); [keeps_tac|apply ends_recv_buffer|].
  intros [[[n c] m] req] b1 w2 _ Hg. assert (family w2 = family w) as Hf by (unfold family in *; congruence).
  apply wp_bind, run_lift. intros q _. destruct (0 <? n); [|by apply wp_ret].
  apply wp_bind. eapply wp_post; [apply run_allocate_response|]. intros [[[v c'] relay] t'] w3 _ [Hf3 Hv]. rewrite Hf in *.
  destruct v; apply wp_ret; cbn [ex_conn]; (split; [done|]) || done; intros v' [= <-]; done.
Qed.

(** * The whole exchange *)

Hypothesis no_dos : dos cfg = false.

Lemma rare_event_off w : rare_event cfg w = Ret false w.
Proof. unfold rare_event. by rewrite no_dos. Qed.
Lemma not_rare_event_off w : not_rare_event cfg w = Ret false w.
Proof. unfold not_rare_event. by rewrite no_dos. Qed.

Lemma run_eq {A} (m : prog A) a w (Q : A -> world -> Prop) : m w = Ret a w -> Q a w -> run m Q w.
Proof. intros H HQ. unfold wpf. by rewrite H. Qed.

Lemma family_allocate_request af c m : keeps family (allocate_request cfg stack af c m).
Proof. unfold allocate_request, even_port. keeps_tac. Qed.

Lemma family_refresh_loop n ex : keeps family (refresh_loop cfg stack n ex).
Proof.
  revert ex. induction n as [|n IH]; intros ex; cbn [refresh_loop]; unfold refresh_request, add_random_family; keeps_tac; apply IH.
Qed.

Lemma run_allocate_loop n b af ex w :
  run (allocate_loop cfg stack maps n b af ex)
    (λ r w', family w' = family w /\
       match r with
       | inl (rc, _) => rc = -1
       | inr (finished, ex') => finished = true -> relay_usable (family w) (ci_relay_addr (ex_conn ex'))
       end) w.
Proof.
  revert b ex w. induction n as [|n IH]; intros b ex w; cbn [allocate_loop]; [by apply wp_ret|].
  assert (forall b' ex' w', family w' = family w -> run (allocate_loop cfg stack maps n b' af ex')
    (λ r w', family w' = family w /\ match r with inl (rc, _) => rc = -1
       | inr (finished, ex') => finished = true -> relay_usable (family w) (ci_relay_addr (ex_conn ex')) end) w') as Hloop.
  { intros b' ex' w' Hf. rewrite <- Hf. apply IH. }
  apply wp_bind. apply (run_family _ (λ _ _, True)); [keeps_tac|apply ends_reopen|]. intros [b' c] _ w1 _ Hf1.
  apply wp_bind. apply (run_family _ (λ _ _, True)); [apply family_allocate_request|apply ends_allocate_request|].
  intros [c2|[c2 req]] _ w2 _ Hf2; [apply wp_ret; split; [congruence|done]|].
  apply wp_bind. apply (run_family _ (λ _ _, True)); [keeps_tac|apply ends_send_buffer|].
  intros [[k c3] req3] _ w3 _ Hf3. destruct (k <=? 0); [by apply wp_exit|]. cbv zeta.
  apply wp_bind. apply (run_eq _ false w3); [apply not_rare_event_off|].
  apply wp_bind. eapply wp_post; [apply run_allocate_receive|]. intros [v ex'] w4 _ [Hf4 Hv].
  assert (family w4 = family w) as Hf by congruence. assert (family w3 = family w) as Hf' by congruence. rewrite Hf' in Hv.
  destruct v as [[]|]; try (by apply Hloop); apply wp_ret; (split; [done|]); specialize (Hv _ eq_refl); [exact Hv|by intros _].
Qed.

Lemma run_clnet_allocate af c a t w :
  run (clnet_allocate cfg stack maps af c a t)
    (λ '(rc, c', _, _) w', rc = 0 -> relay_usable (family w') (ci_relay_addr c')) w.
Proof.
  unfold clnet_allocate. apply wp_bind, wp_get_frame. apply wp_bind. eapply wp_post; [apply run_allocate_loop|].
  intros [[rc ex]|[fin ex]] w1 _ [Hf Hr]; [apply wp_ret; intros ->; lia|].
  apply wp_bind. apply (run_eq _ false w1); [apply rare_event_off|]. destruct fin; [|by apply wp_exit].
  cbn [negb]. apply wp_bind, wp_get_globals. apply wp_bind, wp_set_globals. apply wp_bind.
  apply (run_family _ (λ c' _, ci_relay_addr c' = ci_relay_addr (ex_conn ex))); [keeps_tac|apply (steady_mobile_reopen ci_relay_addr)|].
  intros c2 _ w2 Hc2 Hf2. apply wp_bind.
  apply (run_family _ (λ x _, ci_relay_addr (ex_conn x.2) = ci_relay_addr c2));
    [apply family_refresh_loop|apply (steady_refresh_loop ci_relay_addr)|].
  intros [rc ex'] _ w3 Hc3 Hf3. apply wp_ret. intros _. cbn [snd ex_conn] in Hc3. rewrite Hc3, Hc2.
  change (family (with_globals w1 _)) with (family w1) in Hf2. rewrite Hf3, Hf2, Hf. by apply Hr.
Qed.
End allocate.

(** C12. An allocation that returns 0 (outside the load-test mode) has stored a relayed
    address in the connection that is not the unspecified one and is of the family
    the program asked for, and neither the socket that mobility opens anew nor the
    refresh that follows loses it, whatever the server answers. *)
Theorem clnet_allocate_relay `{NetDb} `{Crypto} `{Evp} cfg stack maps af clnet_info relay_addr turn w :
  dos cfg = false ->
  match clnet_allocate cfg stack maps af clnet_info relay_addr turn w with
  | Ret (rc, c, _, _) w' => rc = 0 -> relay_usable (default_address_family (w_globals w')) (ci_relay_addr c)
  | _ => True
  end.
Proof.
  intros Hdos. pose proof (run_clnet_allocate cfg stack maps Hdos af clnet_info relay_addr turn w) as Hr.
  destruct (clnet_allocate _ _ _ _ _ _ _ w) as [[[[rc c] a] t] w'| | | |] eqn:He; [|done..]. exact (run_result _ _ _ _ _ Hr He).
Qed.

Lemma clnet_allocate_relay_witness :
  dos sample_cfg = false /\
  exists c a t w', scenario_allocate (sample_world allocate_answers) = Ret (0, c, a, t) w' /\
    relay_usable (default_address_family (w_globals w')) (ci_relay_addr c).
Proof.
  split; [reflexivity|]. destruct scenario_allocated as (c & a & t & w' & H & _). exists c, a, t, w'. split; [exact H|].
  pose proof (clnet_allocate_relay sample_cfg (λ _, sample_frame) addr_maps_init 0 sample_conn addr_zero None
                (sample_world allocate_answers) eq_refl) as Hr.
  rewrite H in Hr. exact (Hr eq_refl).
Defined.
