(* ===== verification/SessionSpec.v ===== *)
(** The session of the client as a transition system: [start_p2p_client] makes it,
    the callback [client_input_handler] and [bind_client] change it, in any order
    and with any answers of the environment.  Every reachable session satisfies
    [session_ok]; in particular its channel number is 0, because the number that
    [bind_real] binds stays in a local variable, so that only DATA indications are
    ever counted. *)

From S2P Require Import Prelude Defs CString IoAddr MsgAddr AddrText AddrTextSpec StunHeader StunAttr StunMsg StunBuffer Crypto Integrity Evp OAuth System Progress Session Samples Transport TransportSpec Credentials Sockets Connect Allocate Bind Client Scenario Termination Steady.

Definition role (c : app_ur_conn_info) : option (list (option app_tcp_conn_info)) * bool := (ci_tcp_conn c, ci_is_peer c).

Record session_ok (s : app_ur_session) : Prop := SessionOk {
  ok_ready : state s = UR_STATE_READY;
  ok_chnum : chnum s = 0;
  ok_role : role (pinfo s) = (None, false);
  ok_wait : wait_cycles s = 0;
  ok_time : recvtimems s = 0;
  ok_refresh : refresh_time s = 0 \/ refresh_time s = 30000;
}.

(** The counters of received messages. *)
Definition counters (s : app_ur_session) : Z * Z * Z := (rmsgnum s, recvmsgnum s, loss s).

(** A session after a call that received or sent: still well-formed, the same
    counters. *)
Definition same (s s' : app_ur_session) : Prop := session_ok s' /\ counters s' = counters s.

Lemma same_refl s : session_ok s -> same s s.
Proof. by split. Qed.
Lemma same_pinfo s s1 c : same s s1 -> role c = role (pinfo s1) -> same s (set_pinfo s1 c).
Proof. intros [[] H] Hc. split; [|done]. by split; cbn; [..|congruence| | |]. Qed.
Lemma same_in_buffer s s1 m : same s s1 -> same s (set_in_buffer s1 m).
Proof. intros [[] H]. by split. Qed.
Lemma same_ok s s' : same s s' -> session_ok s'.
Proof. by intros []. Qed.

Section session.
Context `{N : NetDb} `{C : Crypto} `{V : Evp}.
Context (cfg : config) (stack : world -> frame) (maps : addr_maps).

(** * Refreshing *)

Lemma same_send_sealed s s1 m d :
  same s s1 -> halts (send_sealed cfg stack s1 m d) (λ r _, match r with inl s' | inr (s', _) => same s s' end).
Proof.
  intros Hs. unfold send_sealed, seal_refresh.
  eapply (halts_bind _ _ (λ r _, match r with inl c | inr (c, _) => role c = role (pinfo s1) end)).
  { apply (halts_bind _ _ (λ _ _, True)); [halts_tac|intros m1 ? _].
    eapply halts_bind; [apply (steady_add_integrity role)|]. intros [[rc c] m2] ? Hc. cbn [fst snd] in Hc.
    destruct (rc <? 0); [by apply halts_ret|]. apply (halts_bind _ _ (λ _ _, True)); [halts_tac|intros [k m3] ? _].
    by apply halts_ret. }
  intros [c|[c m1]] ? Hc; [by apply halts_ret, same_pinfo|]. eapply halts_bind; [apply (steady_send_buffer role)|].
  intros [[rc c2] m2] ? Hc2. cbn [fst snd] in Hc2. apply halts_ret, same_pinfo; [done|congruence].
Qed.

Lemma same_refresh_allocation s s1 m k l :
  same s s1 -> halts (refresh_allocation cfg stack s1 m k l) (λ r _, match r with inl s' | inr (s', _) => same s s' end).
Proof.
  intros Hs. unfold refresh_allocation. destruct (asks _ _); [|by apply halts_ret].
  do 2 (apply (halts_bind _ _ (λ _ _, True)); [halts_tac|intros ? ? _]).
  apply (halts_bind _ _ (λ _ _, True)); [halts_tac|intros [? m2] ? _].
  apply (halts_bind _ _ (λ _ _, True)); [halts_tac|intros m3 ? _]. by apply same_send_sealed.
Qed.

Lemma same_refresh_permission s s1 m k :
  same s s1 -> halts (refresh_permission cfg stack maps s1 m k) (λ r _, match r with inl s' | inr (s', _) => same s s' end).
Proof.
  intros Hs. unfold refresh_permission. destruct (_ && _); [|by apply halts_ret].
  do 2 (apply (halts_bind _ _ (λ _ _, True)); [halts_tac|intros ? ? _]).
  apply (halts_bind _ _ (λ _ _, True)); [halts_tac|intros [? m2] ? _]. by apply same_send_sealed.
Qed.

(** No channel is ever bound again: the session's channel number is 0. *)
Lemma refresh_binding_idle s m k : session_ok s -> refresh_binding cfg stack maps s m k = mret (inr (s, m)).
Proof. intros []. unfold refresh_binding. rewrite ok_chnum0. by rewrite andb_false_r. Qed.

Lemma same_refresh_time s s1 t : same s s1 -> t = 0 \/ t = 30000 -> same s (set_refresh_time s1 t).
Proof. intros [[] H] Ht. by split. Qed.

Lemma same_refresh_channel s s1 k l :
  same s s1 -> halts (refresh_channel cfg stack maps s1 k l) (λ x _, same s x.2).
Proof.
  intros Hs. unfold refresh_channel, refresh_channel_at. destruct (ci_is_peer _); [by apply halts_ret|].
  apply (halts_bind _ _ (λ _ _, True)); [halts_tac|intros f ? _].
  eapply halts_bind; [by apply same_refresh_allocation|]. intros [s2|[s2 m]] ? H2; [by apply halts_ret|].
  eapply (halts_bind _ _ (λ r _, match r with inl s' | inr (s', _) => same s s' end)).
  { destruct (_ && _); [|by apply halts_ret]. eapply halts_bind; [by apply same_refresh_permission|].
    intros [s3|[s3 m3]] ? H3; [by apply halts_ret|]. rewrite refresh_binding_idle by (eapply same_ok, H3). by apply halts_ret. }
  intros [s3|[s3 m3]] ? H3; apply halts_ret; cbn [snd]; [done|]. apply same_refresh_time; [done|by right].
Qed.

(** * Reading *)

(** What makes a message count. *)
Definition data_indication (m : stun_buffer) : Prop :=
  stun_is_indication m = Some true /\ stun_get_method m = Some STUN_METHOD_DATA.

Lemma read_indication_data m r : read_indication cfg m = Some r -> r = RDone \/ stun_get_method m = Some STUN_METHOD_DATA.
Proof.
  unfold read_indication. intros H. apply bind_Some in H as (k & Hk & H).
  destruct (_ && _); [apply bind_Some in H as (? & _ & [= <-]); by left|].
  destruct (Z.eqb_spec k STUN_METHOD_DATA) as [->|]; cbn [negb] in H; [by right|injection H as <-; by left].
Qed.

(** A channel message has a channel number that is not 0. *)
Lemma channel_number_valid m o r m' n :
  stun_is_channel_message (Some m) (Some 0) o = Some (true, m', n) -> n = Some r -> r <> 0.
Proof.
  unfold stun_is_channel_message, stun_is_channel_message_str. intros H. apply bind_Some in H as ([[b l] k] & H1 & H).
  assert (b = true /\ k = n) as [-> ->] by (destruct b; [destruct l|]; by simplify_eq).
  destruct (len m <? 4); [done|]. apply bind_Some in H1 as (c & Hc & H1).
  destruct (STUN_VALID_CHANNEL c) eqn:Hv; cbn [negb] in H1; [|done]. apply bind_Some in H1 as (d & Hd & H1).
  destruct (_ <? d); [done|]. destruct (_ && _); [done|]. injection H1 as _ <-. intros [= <-] ->. done.
Qed.

Lemma read_channel_done k m : k <> 0 -> read_channel cfg 0 k m = Some RDone.
Proof. intros Hk. unfold read_channel. destruct (Z.eqb_spec 0 k); [congruence|done]. Qed.

Lemma same_read_message s s1 :
  same s s1 ->
  halts (read_message cfg stack maps s1 false)
    (λ x _, same s x.2 /\ match x.1 with RPayload _ _ => data_indication (in_buffer x.2) | _ => True end).
Proof.
  intros Hs. unfold read_message. cbv zeta. cbn [in_buffer].
  apply (halts_bind _ _ (λ _ _, True)); [halts_tac|intros f ? _].
  eapply halts_bind; [apply halts_lift_eq|]. intros ind ? Hind. destruct ind.
  { eapply halts_bind; [apply halts_lift_eq|]. intros r ? Hr. apply halts_ret. cbn [fst snd].
    split; [done|]. apply read_indication_data in Hr as [->|Hr]; [done|]. by destruct r. }
  apply (halts_bind _ _ (λ _ _, True)); [halts_tac|intros success ? _]. destruct success.
  { apply (halts_bind _ _ (λ _ _, True)); [halts_tac|intros [ok m1] ? _]. destruct (negb ok);
      [apply halts_ret; split; [by apply same_in_buffer|done]|].
    do 2 (apply (halts_bind _ _ (λ _ _, True)); [halts_tac|intros ? ? _]).
    apply halts_ret. split; [by apply same_in_buffer|done]. }
  eapply halts_bind; [apply (steady_is_challenge role)|]. intros [[bc ch] c] ? Hc. cbn [snd] in Hc.
  assert (same s (set_pinfo s1 c)) as Hs2 by by apply same_pinfo.
  destruct bc.
  { apply (halts_bind _ _ (λ _ _, True)); [halts_tac|intros k ? _]. destruct (_ && _); [by apply halts_ret|].
    destruct (k =? _); [|by apply halts_ret]. eapply halts_bind; [by apply same_refresh_channel|].
    intros [? s3] ? H3. by apply halts_ret. }
  apply (halts_bind _ _ (λ _ _, True)); [halts_tac|intros [[be err] msg] ? _]. destruct be; [by apply halts_ret|].
  eapply halts_bind; [apply halts_lift_eq|]. intros [[bm m'] k] ? Hch.
  apply (halts_bind _ _ (λ _ _, True)); [halts_tac|intros m2 ? _].
  assert (same s (set_in_buffer (set_pinfo s1 c) m2)) as Hs3 by by apply same_in_buffer.
  destruct bm; [|by apply halts_ret].
  eapply halts_bind; [apply halts_lift_eq|]. intros n ? Hn.
  eapply (halts_bind _ _ (λ r _, r = RDone)).
  { apply halts_lift. intros r. cbn [chnum set_in_buffer set_pinfo]. destruct Hs as [[] _]. rewrite ok_chnum0.
    rewrite read_channel_done by by eapply channel_number_valid. by intros [= <-]. }
  intros r ? ->. by apply halts_ret.
Qed.

Lemma ok_count_message s mi n s' : session_ok s -> count_message s mi n = Some s' -> session_ok s'.
Proof.
  intros [] H. unfold count_message in H. apply bind_Some in H as ([ls rmn] & _ & [= <-]). by split.
Qed.

(** One read: the session stays well-formed; if a counter changed, the message that
    was read is a DATA indication. *)
Lemma client_read_counts s atc :
  session_ok s ->
  halts (client_read cfg stack maps s false atc)
    (λ x _, session_ok x.2 /\ (counters x.2 = counters s \/ data_indication (in_buffer x.2))).
Proof.
  intros Hs. pose proof (same_refl s Hs) as Hr. unfold client_read. rewrite (ok_ready s Hs).
  eapply halts_bind; [apply (steady_recv_buffer role)|]. intros [[[rc c] m] q] ? Hc. cbn [fst snd] in Hc. cbv zeta.
  assert (same s (set_in_buffer (set_pinfo s c) m)) as H1 by by apply same_in_buffer, same_pinfo.
  destruct (0 <? rc); [|destruct (rc =? 0); apply halts_ret; destruct H1; split; [done|by left|done|by left]].
  eapply halts_bind; [apply same_read_message, same_in_buffer, H1|].
  intros [r s2] ? [[Hok Hcnt] Hd]. cbn [fst snd] in *. destruct r; [apply halts_ret; split; [done|by left]..|].
  eapply halts_bind; [apply halts_lift_eq|]. intros s3 ? H3. apply halts_ret. cbn [snd].
  split; [exact (ok_count_message _ _ _ _ Hok H3)|]. right. unfold count_message in H3.
  apply bind_Some in H3 as ([ls rmn] & _ & [= <-]). exact Hd.
Qed.

Lemma find_tcp_conn_none fd s : session_ok s -> find_tcp_conn fd (pinfo s) = None.
Proof. intros []. unfold find_tcp_conn. unfold role in ok_role0. by injection ok_role0 as -> _. Qed.

Lemma ok_client_input_handler fd what s :
  session_ok s -> halts (client_input_handler cfg stack maps fd what s) (λ s' _, session_ok s').
Proof.
  intros Hs. unfold client_input_handler. destruct (negb _); [by apply halts_ret|]. rewrite (ok_ready s Hs).
  apply (halts_loop session_ok); [done|]. intros s1 Hs1.
  eapply (halts_mono _ (λ r b, match r with inl s2 | inr s2 => session_ok s2 end /\ goes_on (λ _, True) r b)).
  - apply halts_and; [|apply goes_handler_turn]. unfold handler_turn. rewrite (find_tcp_conn_none fd s1 Hs1). cbv zeta.
    eapply halts_bind; [by apply client_read_counts|]. intros [rc s2] ? [H2 _]. cbn [snd] in H2.
    destruct (rc <=? 0); by apply halts_ret.
  - intros [s2|s2] b [H1 H2]; [|done]. by destruct H2.
Qed.

(** * Making and binding sessions *)

Lemma ok_set_ready c : role c = (None, false) -> session_ok (set_ready (set_pinfo create_new_ss c) (-1) 0).
Proof. intros Hc. split; [reflexivity|reflexivity|exact Hc|reflexivity|reflexivity|left; reflexivity]. Qed.

Lemma start_chnum port ra i la c : halts (start_connection cfg stack maps port ra i la c) (λ x _, x.2 = 0).
Proof.
  unfold start_connection. do 2 (apply (halts_bind _ _ (λ _ _, True)); [halts_tac|intros ? ? _]).
  apply (halts_bind _ _ (λ _ _, True)); [halts_tac|intros [rc c1] ? _]. destruct (rc <? 0); [by apply halts_ret|].
  apply (halts_bind _ _ (λ _ _, True)); [halts_tac|intros g ? _].
  apply (halts_bind _ _ (λ _ _, True)); [halts_tac|intros [[[rc2 c2] r2] t2] ? _]. destruct (rc2 <? 0); [by apply halts_ret|].
  apply (halts_bind _ _ (λ _ _, True)); [halts_tac|intros rare ? _]. destruct rare; [by apply halts_ret|].
  apply (halts_bind _ _ (λ _ _, True)); [halts_tac|intros g2 ? _]. by apply halts_ret.
Qed.

Lemma start_c2c_chnum port ra i la c : halts (start_c2c_connection cfg stack maps port ra i la c) (λ x _, x.2 = 0).
Proof.
  unfold start_c2c_connection. do 2 (apply (halts_bind _ _ (λ _ _, True)); [halts_tac|intros ? ? _]).
  apply (halts_bind _ _ (λ _ _, True)); [halts_tac|intros [rc c1] ? _]. destruct (rc <? 0); [by apply halts_ret|].
  apply (halts_bind _ _ (λ _ _, True)); [halts_tac|intros g ? _].
  apply (halts_bind _ _ (λ _ _, True)); [halts_tac|intros [[[rc2 c2] r2] t2] ? _]. destruct (rc2 <? 0); [by apply halts_ret|].
  apply (halts_bind _ _ (λ _ _, True)); [halts_tac|intros rare ? _]. by apply halts_ret.
Qed.

Definition stored_ok (x : Z * option app_ur_session) : Prop := forall s, x.2 = Some s -> session_ok s.

Lemma ok_start_client ra port i la : halts (start_client cfg stack maps ra port i la) (λ x _, stored_ok x).
Proof.
  unfold start_client. cbv zeta.
  eapply halts_bind; [apply halts_and; [apply (fixed_start_connection role)|apply start_chnum]|].
  intros [[rc c] chn] ? [Hc Hn]. cbn [fst snd] in Hc, Hn. subst chn. destruct (rc <? 0); [by apply halts_ret|].
  apply (halts_bind _ _ (λ _ _, True)); [halts_tac|intros k ? _].
  eapply halts_bind; [apply same_refresh_channel, same_refl, ok_set_ready; exact Hc|].
  intros [k2 s] ? [Hs _]. apply halts_ret. by intros ? [= <-].
Qed.

Lemma ok_start_c2c ra port i la : halts (start_c2c cfg stack maps ra port i la) (λ x _, stored_ok x).
Proof.
  unfold start_c2c. cbv zeta.
  eapply halts_bind; [apply halts_and; [apply (fixed_start_c2c_connection role)|apply start_c2c_chnum]|].
  intros [[rc c] chn] ? [Hc Hn]. cbn [fst snd] in Hc, Hn. subst chn.
  apply (halts_bind _ _ (λ _ _, True)); [halts_tac|intros k ? _]. apply halts_ret.
  intros ? [= <-]. by apply ok_set_ready.
Qed.

Lemma ok_start_p2p_client ra port i la :
  halts (start_p2p_client cfg stack maps ra port i la) (λ r _, forall s, r = Some s -> session_ok s).
Proof.
  unfold start_p2p_client. eapply (halts_bind _ _ (λ x _, stored_ok x)).
  { destruct (c2c cfg); [apply ok_start_c2c|apply ok_start_client]. }
  intros [rc s] ? H. destruct (rc <? 0); apply halts_ret; [done|exact H].
Qed.

Lemma ok_bind_client t port s : session_ok s -> halts (bind_client cfg stack maps t port s) (λ s' _, session_ok s').
Proof.
  intros Hs. unfold bind_client. eapply halts_bind; [apply (steady_bind_real role)|]. intros c ? Hc. apply halts_ret.
  eapply same_ok, same_pinfo; [by apply same_refl|done].
Qed.

(** * Reachable sessions *)

(** The program's session and the world it runs in; between two calls the
    environment prepares any answers. *)
Inductive reachable : app_ur_session -> world -> Prop :=
| reach_start remote_address port ifname local_address w s w' :
    start_p2p_client cfg stack maps remote_address port ifname local_address w = Ret (Some s) w' -> reachable s w'
| reach_event fd what s w s' w' :
    reachable s w -> client_input_handler cfg stack maps fd what s w = Ret s' w' -> reachable s' w'
| reach_bind address port s w s' w' :
    reachable s w -> bind_client cfg stack maps address port s w = Ret s' w' -> reachable s' w'
| reach_answers s w script :
    reachable s w -> reachable s (World (w_errno w) script (w_globals w) (w_trace w)).

Lemma halts_result {A} (m : prog A) (Q : A -> Prop) w a w' : halts m (λ a _, Q a) -> m w = Ret a w' -> Q a.
Proof. intros H Hm. specialize (H w). unfold wpf in H. rewrite Hm in H. by destruct H. Qed.

Lemma reachable_ok s w : reachable s w -> session_ok s.
Proof.
  induction 1 as [ra port i la w s w' H|fd what s w s' w' _ IH H|t port s w s' w' _ IH H|]; [..|done].
  - by apply (halts_result _ _ _ _ _ (ok_start_p2p_client ra port i la) H).
  - exact (halts_result _ _ _ _ _ (ok_client_input_handler fd what s IH) H).
  - exact (halts_result _ _ _ _ _ (ok_bind_client t port s IH) H).
Qed.

(** C3. Every session the program can reach, by any sequence of callbacks and peer
    bindings under any environment, is ready, has no data connections and has the
    channel number 0, even after [bind_client] bound a channel.  Hence a channel is
    never bound again by [refresh_channel], and a message that is read is counted
    only if it is a DATA indication: what the peer sends over the channel is
    dropped as "wrong channel". *)
Theorem reachable_session s w :
  reachable s w ->
  session_ok s /\
  (forall message method, refresh_binding cfg stack maps s message method = mret (inr (s, message))) /\
  (forall rc s' w', client_read cfg stack maps s false None w = Ret (rc, s') w' ->
     counters s' = counters s \/ data_indication (in_buffer s')).
Proof.
  intros Hr. pose proof (reachable_ok s w Hr) as Hs. split; [done|]. split; [intros; by apply refresh_binding_idle|].
  intros rc s' w' H. by apply (halts_result _ _ _ _ _ (client_read_counts s None Hs)) in H as [_ H].
Qed.
End session.

Lemma reachable_session_witness :
  exists s w, reachable sample_cfg (λ _, sample_frame) addr_maps_init s w /\ session_ok s /\
    (forall rc s' w', client_read sample_cfg (λ _, sample_frame) addr_maps_init s false None w = Ret (rc, s') w' ->
       counters s' = counters s \/ data_indication (in_buffer s')).
Proof.
  destruct scenario_starts as (s & w & H). exists s, w.
  assert (reachable sample_cfg (λ _, sample_frame) addr_maps_init s w) as Hr by (eapply reach_start; exact H).
  split; [exact Hr|]. destruct (reachable_session _ _ _ s w Hr) as (Hok & _ & Hc). split; [exact Hok|exact Hc].
Defined.
