(* ===== verification/Uclient.v ===== *)
(** The settings and the entry points of the library, [p2p/uclient_manager.c].

    [uclient] holds the globals of the file: those the engine reads are the [config]
    of [Session]; a [char] array is its memory.  The OpenSSL contexts are counted
    ([root_tls_ctx_num]), what is loaded into them is asked from the environment.
    A parameter that may be NULL is an [option]. *)

From S2P Require Import Prelude Defs CString IoAddr StunBuffer Crypto Integrity Evp Base64 OAuth AddrText System Session Transport Credentials Client.

Record uclient : Type := Uclient {
  uc_cfg : config;
  use_auth_secret_with_timestamp : bool;
  auth_secret : list Z;
  rest_api_separator : Z;
  use_null_cipher : Z;
  cipher_suite : list Z;
  ca_cert_file : list Z;
  cert_file : list Z;
  pkey_file : list Z;
  client_ifname : list Z;
  peer_address : list Z;
  peer_port : Z;
}.

(** * Assignments *)

Definition set_cfg (u : uclient) (cfg : config) : uclient :=
  Uclient cfg (use_auth_secret_with_timestamp u) (auth_secret u) (rest_api_separator u) (use_null_cipher u)
    (cipher_suite u) (ca_cert_file u) (cert_file u) (pkey_file u) (client_ifname u) (peer_address u) (peer_port u).

Definition set_credentials (c : config) (uname upwd : list Z) : config :=
  Config (use_tcp c) (use_secure c) (use_sctp c) (dos c) (no_rtcp c) (dual_allocation c) (mobility c) (dont_fragment c)
    (use_fingerprints c) (oauth c) (negative_test c) (negative_protocol_test c) (no_permissions c)
    (do_not_use_channel c) (extra_requests c) (c2c c) (relay_transport c) (clmessage_length c) (bps c) (origin c)
    (shatype c) uname upwd (okey_array c) (root_tls_ctx_num c) (mCB c).

(** Transport switches: [use_tcp], [no_rtcp], [dont_fragment], [do_not_use_channel], [c2c]. *)
Definition set_switches (c : config) (tcp rtcp df nochan c2 : bool) : config :=
  Config tcp (use_secure c) (use_sctp c) (dos c) rtcp (dual_allocation c) (mobility c) df
    (use_fingerprints c) (oauth c) (negative_test c) (negative_protocol_test c) (no_permissions c)
    nochan (extra_requests c) c2 (relay_transport c) (clmessage_length c) (bps c) (origin c)
    (shatype c) (g_uname c) (g_upwd c) (okey_array c) (root_tls_ctx_num c) (mCB c).

Definition set_sizes (c : config) (clen ctxs : Z) : config :=
  Config (use_tcp c) (use_secure c) (use_sctp c) (dos c) (no_rtcp c) (dual_allocation c) (mobility c) (dont_fragment c)
    (use_fingerprints c) (oauth c) (negative_test c) (negative_protocol_test c) (no_permissions c)
    (do_not_use_channel c) (extra_requests c) (c2c c) (relay_transport c) clen (bps c) (origin c)
    (shatype c) (g_uname c) (g_upwd c) (okey_array c) ctxs (mCB c).

(** [strcpy(dst,src)]: no bound but the object. *)
Definition strcpy (dst src : list Z) : option (list Z) := s ← c_str src; wr_block dst 0 (s ++ [0]).

Definition set_peer_address (u : uclient) (peer_addr : list Z) : option uclient :=
  a ← strcpy (peer_address u) peer_addr;
  Some (Uclient (uc_cfg u) (use_auth_secret_with_timestamp u) (auth_secret u) (rest_api_separator u)
          (use_null_cipher u) (cipher_suite u) (ca_cert_file u) (cert_file u) (pkey_file u) (client_ifname u)
          a (peer_port u)).

Definition set_c2c (u : uclient) (_c2c : Z) : uclient :=
  let c := uc_cfg u in
  set_cfg u (set_switches c (use_tcp c) (no_rtcp c) (dont_fragment c) (do_not_use_channel c) (truth _c2c)).

Definition set_peer_port (u : uclient) (port : Z) : uclient :=
  Uclient (uc_cfg u) (use_auth_secret_with_timestamp u) (auth_secret u) (rest_api_separator u)
    (use_null_cipher u) (cipher_suite u) (ca_cert_file u) (cert_file u) (pkey_file u) (client_ifname u)
    (peer_address u) port.

Definition set_use_null_cipher (u : uclient) (cipher : Z) : uclient :=
  Uclient (uc_cfg u) (use_auth_secret_with_timestamp u) (auth_secret u) (rest_api_separator u)
    cipher (cipher_suite u) (ca_cert_file u) (cert_file u) (pkey_file u) (client_ifname u)
    (peer_address u) (peer_port u).

Definition set_cipher_suite (u : uclient) (suite : list Z) : option uclient :=
  s ← strcpy (zeros 1025) suite;
  Some (Uclient (uc_cfg u) (use_auth_secret_with_timestamp u) (auth_secret u) (rest_api_separator u)
          (use_null_cipher u) s (ca_cert_file u) (cert_file u) (pkey_file u) (client_ifname u)
          (peer_address u) (peer_port u)).

(** * Credentials *)

Definition DAY : Z := 3600 * 24.

(** [printf("%lu")]: the number has at most 20 digits. *)
Definition print_lu (n : Z) : list Z := dec_aux 20 n [].

(** [new_uname] as [snprintf] writes it, in a local of 1025 bytes filled with [j]. *)
Definition rest_uname (u : uclient) (now j : Z) (name : list Z) : option (list Z) :=
  let exp := print_lu (u64 (u64 now + DAY)) in
  c ← rd8 name 0;
  if truth c then s ← c_str name; snprintf (replicate 1025 j) 1025 (exp ++ [u8 (rest_api_separator u)] ++ s)
  else snprintf (replicate 1025 j) 1025 exp.

Definition rest_hmac_len (t : SHATYPE) : Z :=
  match t with
  | SHATYPE_SHA256 => SHA256SIZEBYTES
  | SHATYPE_SHA384 => SHA384SIZEBYTES
  | SHATYPE_SHA512 => SHA512SIZEBYTES
  | _ => SHA1SIZEBYTES
  end.

(** [base64(HMAC(secret,name))] into [g_upwd]; unchanged when the HMAC fails. *)
Definition rest_upwd `{Crypto} (u : uclient) (name upwd : list Z) (hmac : list Z) (j : Z) : option (list Z) :=
  hmac ← wr8 hmac 0 0;
  nl ← strlen name;
  sl ← strlen (auth_secret u);
  let t := shatype (uc_cfg u) in
  '(rc, hmac, hmac_len) ← stun_calculate_hmac name nl (auth_secret u) sl hmac 0 (rest_hmac_len t) t;
  if 0 <=? rc then
    d ← rd_block hmac 0 hmac_len;
    '(pwd, pwd_length) ← base64_encode d hmac_len j;
    if 0 <? pwd_length then
      bs ← rd_block pwd 0 pwd_length;
      upwd ← wr_block upwd 0 bs;
      wr8 upwd pwd_length 0
    else Some upwd
  else Some upwd.

(** [hmac] and [j]: the locals [hmac[MAXSHASIZE]] and [new_uname], [malloc]'s bytes. *)
Definition rest_credentials `{Crypto} (u : uclient) (now : Z) (hmac : list Z) (j : Z) : option uclient :=
  let c := uc_cfg u in
  n ← rest_uname u now j (g_uname c);
  name ← STRCPY (g_uname c) (STUN_MAX_USERNAME_SIZE + 1) n;
  upwd ← rest_upwd u name (g_upwd c) hmac j;
  Some (set_cfg u (set_credentials c name upwd)).

(** * Settings *)

Definition tcp_relay_settings (c : config) : config :=
  if is_TCP_relay c then set_switches c true true false true true else c.

Definition max_header : Z := 100.

Definition message_size (n : Z) : Z :=
  let n := if n <? sizeof_message_info then sizeof_message_info else n in
  if STUN_BUFFER_SIZE - max_header <? n then STUN_BUFFER_SIZE - max_header else n.

Definition default_port (c : config) (port : Z) : Z :=
  if port =? 0 then if use_secure c then DEFAULT_STUN_TLS_PORT else DEFAULT_STUN_PORT else port.

(** * TLS contexts *)

(** [SSL_CTX *root_tls_ctx[32]] *)
Definition ROOT_TLS_CTX_SIZE : Z := 32.

(** [root_tls_ctx[root_tls_ctx_num] = SSL_CTX_new(...); root_tls_ctx_num++;] *)
Definition new_ctx (n : Z) : option Z := if (0 <=? n) && (n <? ROOT_TLS_CTX_SIZE) then Some (n + 1) else None.

(** Four protocol versions over TCP, two over UDP. *)
Definition new_ctxs (tcp : bool) (n : Z) : option Z :=
  n ← new_ctx n; n ← new_ctx n;
  if tcp then n ← new_ctx n; new_ctx n else Some n.

Definition nonempty (s : list Z) : prog bool := c ← lift (rd8 s 0); mret (truth c).

(** One context: can the client go on? *)
Definition load_ctx (u : uclient) : prog bool :=
  with_cert ← nonempty (cert_file u);
  chain ← (if (with_cert : bool) then syscall else mret 1);
  if chain =? 0 then mret false else
  key ← syscall;
  if key =? 0 then mret false else
  fits ← (if (with_cert : bool) then syscall else mret 1);
  if fits =? 0 then mret false else
  with_ca ← nonempty (ca_cert_file u);
  _ ← (if (with_ca : bool) then syscall else mret 1);
  mret true.

Fixpoint load_ctxs (n : nat) (u : uclient) : prog bool :=
  match n with
  | O => mret true
  | S n => ok ← load_ctx u; if (ok : bool) then load_ctxs n u else mret false
  end.

Section uclient.
Context `{N : NetDb} `{C : Crypto} `{V : Evp}.
Context (stack : world -> frame) (maps : addr_maps).

(** [strcpy] of both strings, then the settings, up to the TLS contexts. *)
Definition start_settings (u : uclient) (uname upwd : list Z) : prog uclient :=
  let c := uc_cfg u in
  n ← lift (strcpy (g_uname c) uname);
  p ← lift (strcpy (g_upwd c) upwd);
  let c := set_credentials c n p in
  let c := if dual_allocation c then set_switches c (use_tcp c) true (dont_fragment c) (do_not_use_channel c) (c2c c) else c in
  let u := set_cfg u c in
  u ← (if use_auth_secret_with_timestamp u then
         now ← time_;
         f ← get_frame stack;
         lift (rest_credentials u now (fr_hmac f) (fr_byte f))
       else mret u);
  let c := tcp_relay_settings (uc_cfg u) in
  mret (set_cfg u (set_sizes c (message_size (clmessage_length c)) (root_tls_ctx_num c))).

(** The TLS contexts, when [use_secure] is set; [false]: the start is given up. *)
Definition init_tls (u : uclient) : prog (uclient * bool) :=
  if use_secure (uc_cfg u) then
    let c := uc_cfg u in
    n ← lift (new_ctxs (use_tcp c) (root_tls_ctx_num c));
    let u := set_cfg u (set_sizes c (clmessage_length c) n) in
    ok ← load_ctxs (Z.to_nat n) u;
    mret (u, ok)
  else mret (u, true).

(** The settings afterwards and the session, if one was started. *)
Definition start_uclient (u : uclient) (remote_address : list Z) (remote_port : Z) (uname upwd : option (list Z))
    : prog (uclient * option app_ur_session) :=
  uname ← lift uname;
  upwd ← lift upwd;
  u ← start_settings u uname upwd;
  let port := default_port (uc_cfg u) remote_port in
  '(u, ok) ← init_tls u;
  if negb ok then mret (u, None) else
  s ← start_p2p_client (uc_cfg u) stack maps remote_address port (client_ifname u) (zeros 256);
  mret (u, s).

Definition start_uclient_default (u : uclient) (remote_address : list Z) (remote_port : Z)
    : prog (uclient * option app_ur_session) :=
  start_uclient u remote_address remote_port None None.

Definition start_bind_client (u : uclient) (address : list Z) (port : Z) (elem : app_ur_session) : prog app_ur_session :=
  bind_client (uc_cfg u) stack maps address port elem.
End uclient.
