(* ===== verification/UclientSpec.v ===== *)
(** The start of the client: the credentials of the REST scheme, and the inputs for
    which [start_uclient] does not get as far as the client. *)

From S2P Require Import Prelude Defs CString IoAddr StunBuffer Crypto Integrity IntegritySpec Evp Base64 KeyStore OAuth AddrText AddrTextSpec System Session Samples Transport Credentials Client Retransmit Uclient.

(** The arrays of the settings have their declared sizes, the secret is a string and
    the separator is not NUL. *)
Record uclient_ok (u : uclient) (secret : list Z) : Prop := UclientOk {
  uok_uname : zlen (g_uname (uc_cfg u)) = STUN_MAX_USERNAME_SIZE + 1;
  uok_upwd : zlen (g_upwd (uc_cfg u)) = 257;
  uok_secret : c_str (auth_secret u) = Some secret;
  uok_separator : 0 < rest_api_separator u < 256;
}.

(** The user name of the REST scheme: the expiry time a day ahead, the separator and
    the name, as much of it as the array holds. *)
Definition rest_name (u : uclient) (now : Z) (uname : list Z) : list Z :=
  take 512 (print_lu (u64 (u64 now + DAY)) ++ match uname with [] => [] | _ => rest_api_separator u :: uname end).

(** The credentials of a configuration, as the strings in its arrays. *)
Definition has_credentials (c : config) (name pwd : list Z) : Prop :=
  zlen (g_uname c) = STUN_MAX_USERNAME_SIZE + 1 /\ c_str (g_uname c) = Some name /\
  zlen (g_upwd c) = 257 /\ c_str (g_upwd c) = Some pwd.

(** * Lemmas *)

Lemma strcpy_text dst src s n :
  c_str src = Some s -> zlen dst = n -> zlen s < n ->
  exists d, strcpy dst src = Some d /\ zlen d = n /\ c_str d = Some s.
Proof.
  intros Hs Hd Hl. pose proof (zlen_nonneg s). unfold strcpy. rewrite Hs. cbn [mbind option_bind].
  destruct (wr_block dst 0 (s ++ [0])) as [d|] eqn:Hw;
    [|rewrite wr_block_ok in Hw by (rewrite ?zlen_app, ?zlen_1; lia); done].
  exists d. split; [done|]. rewrite <- Hd. apply c_str_written; [|done]. by destruct (c_str_Some _ _ Hs).
Qed.

Lemma strcpy_overflow dst src s : c_str src = Some s -> zlen dst <= zlen s -> strcpy dst src = None.
Proof.
  intros Hs Hl. pose proof (zlen_nonneg dst). unfold strcpy. rewrite Hs. cbn [mbind option_bind].
  destruct (wr_block dst 0 (s ++ [0])) as [d|] eqn:Hw; [|done].
  apply wr_block_bounds in Hw as [_ Hw]. rewrite zlen_app, zlen_1 in Hw. lia.
Qed.

Lemma print_lu_text n : nonzero (print_lu n) /\ zlen (print_lu n) <= 20.
Proof.
  split.
  - eapply Forall_impl; [apply (dec_aux_digits 20 n []); constructor|]. intros c Hc. cbn in Hc. lia.
  - pose proof (zlen_dec_aux 20 n []) as H. change (zlen (@nil Z)) with 0 in H. unfold print_lu. lia.
Qed.

Lemma rest_uname_text u now j name s :
  c_str name = Some s -> zlen s <= 512 -> 0 < rest_api_separator u < 256 ->
  exists d, rest_uname u now j name = Some d /\
    c_str d = Some (print_lu (u64 (u64 now + DAY)) ++ match s with [] => [] | _ => rest_api_separator u :: s end).
Proof.
  intros Hs Hl Hsep. destruct (c_str_Some _ _ Hs) as (Hn & r & ->). unfold rest_uname.
  set (exp := print_lu _). destruct (print_lu_text (u64 (u64 now + DAY))) as [He Hz]. fold exp in He, Hz.
  assert (forall t, nonzero t -> zlen t < 1025 ->
    exists d, snprintf (replicate 1025 j) 1025 t = Some d /\ c_str d = Some t) as Hp.
  { intros t Ht Hzt. destruct (snprintf_text (replicate 1025 j) 1025 t Ht) as (d & Hd & _ & Hc).
    - change (zlen (replicate 1025 j)) with (Z.of_nat (length (replicate 1025 j))). rewrite length_replicate. lia.
    - by exists d. }
  destruct s as [|c s]; cbn [app]; rewrite rd8_head; cbn [mbind option_bind].
  - rewrite app_nil_r. apply Hp; [done|lia].
  - apply Forall_cons in Hn as [Hc Hn]. unfold truth. destruct (Z.eqb_spec c 0); [done|]. cbn [negb].
    assert (nonzero (c :: s)) as Hcs by (by constructor).
    change (c :: s ++ 0 :: r) with ((c :: s) ++ 0 :: r). rewrite (c_str_terminated (c :: s) r) by done.
    cbn [mbind option_bind]. rewrite u8_small by lia. cbn [app].
    apply Hp; [|rewrite zlen_cons in Hl; rewrite zlen_app, !zlen_cons; lia].
    apply Forall_app. split; [done|]. constructor; [lia|done].
Qed.

(** Every digest fits the password array as base64. *)
Lemma digest_fits `{L : CryptoLaws} a k d h :
  HMAC a k d = Some h -> bytes h /\ 0 < zlen h <= MAXSHASIZE /\ 0 < zlen (b64 61 h) < 257.
Proof.
  intros Hh. pose proof (HMAC_size _ _ _ _ Hh) as Hz. pose proof (HMAC_bytes _ _ _ _ Hh).
  assert (16 <= zlen h <= 64) by (rewrite Hz; destruct a; cbn; lia). split; [done|]. rewrite zlen_b64.
  unfold groups, MAXSHASIZE. split; [lia|].
  rewrite Z2Nat.id by (apply Z.div_pos; lia). Z.div_mod_to_equations. lia.
Qed.

Section start.
Context `{N : NetDb} `{C : Crypto} `{L : !CryptoLaws C} `{V : Evp}.
Context (stack : world -> frame) (maps : addr_maps).

Lemma rest_upwd_text u secret name s upwd hmac j h :
  c_str (auth_secret u) = Some secret -> c_str name = Some s -> zlen upwd = 257 -> zlen hmac = MAXSHASIZE ->
  HMAC (hmac_alg (shatype (uc_cfg u))) secret s = Some h ->
  exists d, rest_upwd u name upwd hmac j = Some d /\ zlen d = 257 /\ c_str d = Some (b64 61 h).
Proof using L.
  intros Hsec Hs Hu Hm Hh. destruct (digest_fits _ _ _ _ Hh) as (Hb & Hz & Hp). unfold rest_upwd, MAXSHASIZE in *.
  destruct (wr8 hmac 0 0) as [hm|] eqn:Hw; [|unfold wr8 in Hw; rewrite wr_block_ok in Hw by (rewrite ?zlen_1; lia); done].
  apply wr_block_zlen in Hw. cbn [mbind option_bind]. unfold strlen. rewrite Hs, Hsec. cbn [fmap option_fmap option_map mbind option_bind].
  destruct (c_str_Some _ _ Hs) as (_ & r1 & ->). destruct (c_str_Some _ _ Hsec) as (_ & r2 & Hr2).
  assert (exists hm', stun_calculate_hmac (s ++ 0 :: r1) (zlen s) (auth_secret u) (zlen secret) hm 0
            (rest_hmac_len (shatype (uc_cfg u))) (shatype (uc_cfg u)) = Some (0, hm', zlen h) /\
            rd_block hm' 0 (zlen h) = Some h) as (hm' & -> & Hrd).
  { unfold stun_calculate_hmac. rewrite (rd_block_front s). cbn [mbind option_bind].
    rewrite Hr2, (rd_block_front secret). cbn [mbind option_bind]. rewrite Hh.
    destruct (wr_block hm 0 h) as [hm'|] eqn:Hwr; [|rewrite wr_block_ok in Hwr by lia; done].
    exists hm'. split; [done|]. by apply rd_wr_same in Hwr. }
  cbn [mbind option_bind]. change (0 <=? 0) with true. cbv iota. rewrite Hrd. cbn [mbind option_bind].
  rewrite base64_encode_eq by done. cbn [mbind option_bind]. destruct (Z.ltb_spec 0 (zlen (b64 61 h))); [|lia].
  rewrite (rd_block_front (b64 61 h)). cbn [mbind option_bind].
  destruct (wr_block upwd 0 (b64 61 h ++ [0])) as [d|] eqn:Hd;
    [|rewrite wr_block_ok in Hd by (rewrite ?zlen_app, ?zlen_1; lia); done].
  pose proof Hd as Hd'. rewrite wr_block_app in Hd'.
  destruct (wr_block upwd 0 (b64 61 h)) as [d1|] eqn:Hd1; cbn [mbind option_bind] in *; [|done].
  exists d. unfold wr8. split; [exact Hd'|]. rewrite <- Hu. apply c_str_written; [|done]. by apply b64_nonzero.
Qed.

Lemma rest_credentials_text u secret now hmac j uname h :
  uclient_ok u secret -> c_str (g_uname (uc_cfg u)) = Some uname -> zlen uname <= 512 -> zlen hmac = MAXSHASIZE ->
  HMAC (hmac_alg (shatype (uc_cfg u))) secret (rest_name u now uname) = Some h ->
  exists n p, rest_credentials u now hmac j = Some (set_cfg u (set_credentials (uc_cfg u) n p)) /\
    zlen n = STUN_MAX_USERNAME_SIZE + 1 /\ c_str n = Some (rest_name u now uname) /\
    zlen p = 257 /\ c_str p = Some (b64 61 h).
Proof using L.
  intros [Hzn Hzp Hsec Hsep] Hn Hl Hm Hh. unfold rest_credentials.
  destruct (rest_uname_text u now j _ _ Hn Hl Hsep) as (d & -> & Hd). cbn [mbind option_bind].
  destruct (STRCPY_cut (g_uname (uc_cfg u)) (STUN_MAX_USERNAME_SIZE + 1) d _ Hd Hzn) as (n & -> & Hz & Hc); [done|].
  cbn [mbind option_bind]. change (Z.to_nat (STUN_MAX_USERNAME_SIZE + 1 - 1)) with 512%nat in Hc.
  destruct (rest_upwd_text u secret n _ (g_upwd (uc_cfg u)) hmac j h Hsec Hc Hzp Hm Hh) as (p & -> & Hp & Hcp).
  cbn [mbind option_bind]. exists n, p. done.
Qed.

(** The last settings, after the credentials. *)
Definition settled (c : config) : config :=
  let c := tcp_relay_settings c in set_sizes c (message_size (clmessage_length c)) (root_tls_ctx_num c).

Lemma message_size_bounds n : sizeof_message_info <= message_size n <= STUN_BUFFER_SIZE - max_header.
Proof.
  unfold message_size, sizeof_message_info, max_header, STUN_BUFFER_SIZE, MAX_STUN_MESSAGE_SIZE.
  repeat case_if; zbool; lia.
Qed.

(** What the settings leave of the rest. *)
Record settings_ok (c0 c : config) : Prop := SettingsOk {
  sok_secure : use_secure c = use_secure c0;
  sok_ctxs : root_tls_ctx_num c = root_tls_ctx_num c0;
  sok_size : sizeof_message_info <= clmessage_length c <= STUN_BUFFER_SIZE - max_header;
  sok_tcp : if is_TCP_relay c0
            then use_tcp c = true /\ no_rtcp c = true /\ c2c c = true /\ do_not_use_channel c = true /\ dont_fragment c = false
            else use_tcp c = use_tcp c0 /\ c2c c = c2c c0 /\ do_not_use_channel c = do_not_use_channel c0;
}.

Lemma settled_ok c0 c n p :
  c = set_credentials c0 n p \/
  c = set_switches (set_credentials c0 n p) (use_tcp c0) true (dont_fragment c0) (do_not_use_channel c0) (c2c c0) ->
  settings_ok c0 (settled c) /\ g_uname (settled c) = n /\ g_upwd (settled c) = p.
Proof.
  intros Hc. pose proof (message_size_bounds (clmessage_length (tcp_relay_settings c))).
  assert (is_TCP_relay c = is_TCP_relay c0) as Ht by (by destruct Hc as [-> | ->]).
  unfold settled, tcp_relay_settings in *. rewrite Ht in *.
  destruct Hc as [-> | ->], (is_TCP_relay c0) eqn:Hr; split; try done; split; try done; by rewrite Hr.
Qed.

(** The credentials the client runs with: those given, or those of the REST scheme. *)
Definition given (u : uclient) (secret : list Z) (now : Z) (uname upwd name pwd : list Z) : Prop :=
  if use_auth_secret_with_timestamp u
  then name = rest_name u now uname /\
       exists h, HMAC (hmac_alg (shatype (uc_cfg u))) secret name = Some h /\ pwd = b64 61 h
  else name = uname /\ pwd = upwd.

Definition frames_ok : Prop := forall w, frame_ok (stack w).

(** The inputs of a start: the settings, the two strings, which fit their arrays, and
    what the environment answers to the questions of the REST scheme.  [s] is the
    rest of the answers, [name] and [pwd] are the credentials the client runs with. *)
Inductive start_input (u : uclient) (un up : list Z) (w : world) (s : list answer) (name pwd : list Z) : Prop :=
  | StartInput (uname upwd secret : list Z) (now : Z) :
      uclient_ok u secret ->
      c_str un = Some uname /\ zlen uname <= STUN_MAX_USERNAME_SIZE ->
      c_str up = Some upwd /\ zlen upwd <= STUN_MAX_PWD_SIZE ->
      given u secret now uname upwd name pwd ->
      w_script w = (if use_auth_secret_with_timestamp u then ATime now :: s else s) ->
      start_input u un up w s name pwd.

Lemma start_settings_run u un up w s name pwd :
  frames_ok -> start_input u un up w s name pwd ->
  exists c, start_settings stack u un up w = Ret (set_cfg u c) (World (w_errno w) s (w_globals w) (w_trace w)) /\
    has_credentials c name pwd /\ settings_ok (uc_cfg u) c.
Proof using L.
  intros Hf [uname upwd secret now [Hzn Hzp Hsec Hsep] [Hun Hul] [Hup Hpl] Hauth Hs].
  unfold STUN_MAX_PWD_SIZE, STUN_MAX_USERNAME_SIZE, given in *.
  destruct (strcpy_text _ _ _ _ Hun Hzn) as (n & Hn & Hnz & Hnc); [lia|].
  destruct (strcpy_text _ _ _ _ Hup Hzp) as (p & Hp & Hpz & Hpc); [lia|].
  unfold start_settings. erewrite bind_run by (unfold lift; by rewrite Hn).
  erewrite bind_run by (unfold lift; by rewrite Hp).
  set (c0 := uc_cfg u) in *. set (c1 := if dual_allocation _ then _ else _).
  assert (forall a b, let c := set_credentials c1 a b in c = set_credentials c0 a b \/
    c = set_switches (set_credentials c0 a b) (use_tcp c0) true (dont_fragment c0) (do_not_use_channel c0) (c2c c0)) as Hc.
  { intros a b. subst c1. destruct (dual_allocation _); [by right|by left]. }
  change (use_auth_secret_with_timestamp (set_cfg u c1)) with (use_auth_secret_with_timestamp u).
  destruct (use_auth_secret_with_timestamp u) eqn:Ha.
  - destruct Hauth as (-> & h & Hh & ->).
    pose proof (fok_hmac _ (Hf (World (w_errno w) s (w_globals w) (w_trace w)))) as [_ Hm].
    destruct (rest_credentials_text (set_cfg u c1) secret now
      (fr_hmac (stack (World (w_errno w) s (w_globals w) (w_trace w))))
      (fr_byte (stack (World (w_errno w) s (w_globals w) (w_trace w)))) uname h) as (n' & p' & Hr & Hz & Hcn & Hz' & Hcp).
    { split; [by subst c1; destruct (dual_allocation _)..|done|done]. }
    { by subst c1; destruct (dual_allocation _). }
    { done. } { done. } { by subst c1; destruct (dual_allocation _). }
    destruct (settled_ok c0 _ n' p' (Hc n' p')) as (Hs1 & Hs2 & Hs3).
    exists (settled (set_credentials c1 n' p')).
    split; [|split; [unfold has_credentials; rewrite Hs2, Hs3; done|done]].
    rewrite (bind_run _ _ _ (set_cfg u (set_credentials c1 n' p')) (World (w_errno w) s (w_globals w) (w_trace w)));
      [reflexivity|]. erewrite bind_run by (unfold time_, ask; by rewrite Hs).
    erewrite bind_run by done. unfold lift. by rewrite Hr.
  - destruct Hauth as (-> & ->). subst s. destruct (settled_ok c0 c1 n p) as (Hs1 & Hs2 & Hs3).
    { subst c1. destruct (dual_allocation _); [by right|by left]. }
    exists (settled c1). split; [|split; [unfold has_credentials; rewrite Hs2, Hs3; done|done]].
    erewrite bind_run by done. by destruct w.
Qed.

(** Without TLS, [start_uclient] runs the client with the credentials given or, in the
    REST scheme, with the expiry time and the name as user name and the base64 of its
    HMAC under the shared secret as password; the port defaults to 3478, the message
    length is brought between 16 and 65407, and a TCP relay forces its switches. *)
Theorem start_uclient_credentials u ra port un up w s name pwd :
  frames_ok -> use_secure (uc_cfg u) = false -> start_input u un up w s name pwd ->
  exists c, has_credentials c name pwd /\ settings_ok (uc_cfg u) c /\
    start_uclient stack maps u ra port (Some un) (Some up) w =
    (ss ← start_p2p_client c stack maps ra (default_port c port) (client_ifname u) (zeros 256);
     mret (set_cfg u c, ss)) (World (w_errno w) s (w_globals w) (w_trace w)).
Proof using L.
  intros Hf Hsec Hi. destruct (start_settings_run u un up w s name pwd Hf Hi) as (c & Hr & Hc & Hok).
  exists c. split; [done|]. split; [done|]. unfold start_uclient, init_tls. do 2 (erewrite bind_run by done).
  erewrite bind_run by exact Hr. cbv zeta. change (uc_cfg (set_cfg u c)) with c. rewrite (sok_secure _ _ Hok), Hsec.
  by erewrite bind_run by done.
Qed.

(** With TLS, the settings done: the contexts are made and loaded. *)
Lemma start_uclient_tls u ra port un up w s name pwd :
  frames_ok -> use_secure (uc_cfg u) = true -> start_input u un up w s name pwd ->
  exists c, settings_ok (uc_cfg u) c /\
    start_uclient stack maps u ra port (Some un) (Some up) w =
    (n ← lift (new_ctxs (use_tcp c) (root_tls_ctx_num c));
     let u := set_cfg u (set_sizes c (clmessage_length c) n) in
     ok ← load_ctxs (Z.to_nat n) u;
     if negb ok then mret (u, None) else
     ss ← start_p2p_client (uc_cfg u) stack maps ra (default_port c port) (client_ifname u) (zeros 256);
     mret (u, ss)) (World (w_errno w) s (w_globals w) (w_trace w)).
Proof using L.
  intros Hf Hsec Hi. destruct (start_settings_run u un up w s name pwd Hf Hi) as (c & Hr & Hc & Hok).
  exists c. split; [done|]. unfold start_uclient, init_tls. do 2 (erewrite bind_run by done).
  erewrite bind_run by exact Hr. cbv zeta. change (uc_cfg (set_cfg u c)) with c. rewrite (sok_secure _ _ Hok), Hsec.
  unfold mbind, prog_bind, lift. destruct (new_ctxs _ _) as [n|]; [|done].
  by destruct (load_ctxs _ _ _) as [[|]| | | |].
Qed.

(** How many contexts a start makes. *)
Definition ctxs_needed (u : uclient) : Z := if is_TCP_relay (uc_cfg u) || use_tcp (uc_cfg u) then 4 else 2.

Lemma new_ctxs_eq tcp n :
  0 <= n -> new_ctxs tcp n = let k := if tcp then 4 else 2 in if n + k <=? ROOT_TLS_CTX_SIZE then Some (n + k) else None.
Proof.
  intros Hn. unfold new_ctxs, new_ctx, ROOT_TLS_CTX_SIZE.
  assert (forall m (A : Type) (f : Z -> option A), 0 <= m -> (if (0 <=? m) && (m <? 32) then Some (m + 1) else None) ≫= f =
    if m <? 32 then f (m + 1) else None) as Hs.
  { intros m A f Hm. destruct (Z.leb_spec 0 m); [|lia]. cbn [andb]. by destruct (m <? 32). }
  rewrite Hs by lia. destruct (Z.ltb_spec n 32); [|by destruct tcp; case_if; zbool; try lia].
  rewrite Hs by lia. destruct (Z.ltb_spec (n + 1) 32); [|by destruct tcp; case_if; zbool; try lia].
  destruct tcp; [|case_if; zbool; try lia; f_equal; lia].
  rewrite Hs by lia. destruct (Z.ltb_spec (n + 1 + 1) 32); [|by case_if; zbool; try lia].
  destruct (Z.leb_spec 0 (n + 1 + 1 + 1)); [|lia]. cbn [andb]. repeat case_if; zbool; try lia; try done. f_equal. lia.
Qed.

Lemma load_ctxs_no_key k u w e s :
  c_str (cert_file u) = Some [] -> w_script w = ACall 0 e :: s ->
  load_ctxs (S k) u w = Ret false (World (w_errno w) s (w_globals w) (w_trace w)).
Proof.
  intros Hc Hs. destruct (c_str_Some _ _ Hc) as (_ & r & Hr). cbn [load_ctxs]. unfold load_ctx.
  unfold nonempty, syscall, ask, lift, mbind, prog_bind. rewrite Hr. cbn [app]. rewrite rd8_head.
  destruct w as [er sc g tr]. cbn in Hs. by subst sc.
Qed.

Lemma settings_tcp u c : settings_ok (uc_cfg u) c -> (if use_tcp c then 4 else 2) = ctxs_needed u.
Proof.
  intros Hok. pose proof (sok_tcp _ _ Hok) as Ht. unfold ctxs_needed.
  destruct (is_TCP_relay (uc_cfg u)); [destruct Ht as [-> _]|destruct Ht as [-> _]]; done.
Qed.

(** The starts that do not reach the client.  Undefined behaviour: the default start,
    which passes NULL for both strings; a user name of more than 512 bytes or a
    password of more than 256; a start over TLS when the table of 32 contexts, which
    only grows, has no room for the new ones (after eight starts over TCP, sixteen
    over UDP).  A start over TLS whose private key is not loaded returns. *)
Theorem start_uclient_refuses u :
  frames_ok ->
  (forall ra port w, start_uclient_default stack maps u ra port w = Fault) /\
  (forall ra port un uname up w, zlen (g_uname (uc_cfg u)) = STUN_MAX_USERNAME_SIZE + 1 ->
     c_str un = Some uname -> STUN_MAX_USERNAME_SIZE < zlen uname ->
     start_uclient stack maps u ra port (Some un) (Some up) w = Fault) /\
  (forall ra port un uname up upwd w,
     zlen (g_uname (uc_cfg u)) = STUN_MAX_USERNAME_SIZE + 1 -> zlen (g_upwd (uc_cfg u)) = STUN_MAX_PWD_SIZE + 1 ->
     c_str un = Some uname -> zlen uname <= STUN_MAX_USERNAME_SIZE ->
     c_str up = Some upwd -> STUN_MAX_PWD_SIZE < zlen upwd ->
     start_uclient stack maps u ra port (Some un) (Some up) w = Fault) /\
  (forall ra port un up w s name pwd, use_secure (uc_cfg u) = true -> start_input u un up w s name pwd ->
     0 <= root_tls_ctx_num (uc_cfg u) -> ROOT_TLS_CTX_SIZE < root_tls_ctx_num (uc_cfg u) + ctxs_needed u ->
     start_uclient stack maps u ra port (Some un) (Some up) w = Fault) /\
  (forall ra port un up w e s name pwd, use_secure (uc_cfg u) = true -> start_input u un up w (ACall 0 e :: s) name pwd ->
     0 <= root_tls_ctx_num (uc_cfg u) -> root_tls_ctx_num (uc_cfg u) + ctxs_needed u <= ROOT_TLS_CTX_SIZE ->
     c_str (cert_file u) = Some [] ->
     exists c w', start_uclient stack maps u ra port (Some un) (Some up) w = Ret (set_cfg u c, None) w' /\
       root_tls_ctx_num c = root_tls_ctx_num (uc_cfg u) + ctxs_needed u /\ w_trace w' = w_trace w).
Proof using L.
  intros Hf. split; [done|]. split; [|split; [|split]].
  - intros ra port un uname up w Hz Hun Hl. unfold start_uclient, init_tls. do 2 (erewrite bind_run by done).
    unfold start_settings, lift, mbind, prog_bind. rewrite (strcpy_overflow _ _ _ Hun) by lia. done.
  - intros ra port un uname up upwd w Hz Hz' Hun Hl Hup Hl'. unfold start_uclient, init_tls. do 2 (erewrite bind_run by done).
    destruct (strcpy_text _ _ _ _ Hun Hz) as (n & Hn & _); [lia|].
    unfold start_settings, lift, mbind, prog_bind. rewrite Hn, (strcpy_overflow _ _ _ Hup) by lia. done.
  - intros ra port un up w s name pwd Hsec Hi H0 Hn.
    destruct (start_uclient_tls u ra port un up w s name pwd Hf Hsec Hi) as (c & Hok & ->).
    rewrite new_ctxs_eq by (rewrite (sok_ctxs _ _ Hok); done). cbv zeta. rewrite (sok_ctxs _ _ Hok), (settings_tcp u c Hok).
    destruct (Z.leb_spec (root_tls_ctx_num (uc_cfg u) + ctxs_needed u) ROOT_TLS_CTX_SIZE); [lia|done].
  - intros ra port un up w e s name pwd Hsec Hi H0 Hn Hcert.
    destruct (start_uclient_tls u ra port un up w _ name pwd Hf Hsec Hi) as (c & Hok & ->).
    rewrite new_ctxs_eq by (rewrite (sok_ctxs _ _ Hok); done). cbv zeta. rewrite (sok_ctxs _ _ Hok), (settings_tcp u c Hok).
    destruct (Z.leb_spec (root_tls_ctx_num (uc_cfg u) + ctxs_needed u) ROOT_TLS_CTX_SIZE); [|lia].
    assert (2 <= ctxs_needed u) by (unfold ctxs_needed; case_if; lia).
    destruct (Z.to_nat (root_tls_ctx_num (uc_cfg u) + ctxs_needed u)) as [|k] eqn:Hk; [lia|].
    do 2 eexists. split.
    { erewrite bind_run by done. cbv zeta. rewrite Hk.
      by erewrite bind_run by (by apply (load_ctxs_no_key k _ _ e s)). }
    done.
Qed.
End start.

(** * Witnesses *)

(** The REST scheme with the secret "north", over UDP without TLS. *)
Definition sample_uclient : uclient :=
  Uclient sample_cfg true (field 1025 (lit "north")) 58 0 (zeros 1025) (zeros 1025) (zeros 1025) (zeros 1025) (zeros 1025)
    (zeros 129) 3480.

Lemma sample_uclient_ok : uclient_ok sample_uclient (lit "north").
Proof. by split. Qed.

Lemma sample_start_input :
  start_input sample_uclient (cstring (lit "alice")) (cstring []) (sample_world [ATime 1000]) []
    (lit "87400:alice") (b64 61 (replicate 20 (u8 (toy_sum (lit "north") + toy_sum (lit "87400:alice"))))).
Proof.
  eapply (StartInput _ _ _ _ _ _ _ (lit "alice") [] (lit "north") 1000); [apply sample_uclient_ok|by split..| |done].
  split; [by vm_compute|]. by eexists.
Qed.

Lemma start_uclient_credentials_witness :
  start_input sample_uclient (cstring (lit "alice")) (cstring []) (sample_world [ATime 1000]) []
    (lit "87400:alice") (b64 61 (replicate 20 (u8 (toy_sum (lit "north") + toy_sum (lit "87400:alice"))))) /\
  exists c, has_credentials c (lit "87400:alice")
      (b64 61 (replicate 20 (u8 (toy_sum (lit "north") + toy_sum (lit "87400:alice"))))) /\
    settings_ok sample_cfg c /\
    start_uclient (λ _, sample_frame) addr_maps_init sample_uclient (cstring (lit "10.0.0.1")) 0
      (Some (cstring (lit "alice"))) (Some (cstring [])) (sample_world [ATime 1000]) =
    (ss ← start_p2p_client c (λ _, sample_frame) addr_maps_init (cstring (lit "10.0.0.1")) (default_port c 0)
            (client_ifname sample_uclient) (zeros 256);
     mret (set_cfg sample_uclient c, ss)) (sample_world []).
Proof.
  split; [exact sample_start_input|].
  exact (start_uclient_credentials (λ _, sample_frame) addr_maps_init sample_uclient (cstring (lit "10.0.0.1")) 0 _ _ _ _ _ _
           (λ _, sample_frame_ok) eq_refl sample_start_input).
Defined.

Lemma start_uclient_refuses_witness :
  frames_ok (λ _, sample_frame) /\
  start_uclient_default (λ _, sample_frame) addr_maps_init sample_uclient (cstring (lit "10.0.0.1")) 0 (sample_world []) = Fault.
Proof.
  split; [intros w; exact sample_frame_ok|].
  destruct (start_uclient_refuses (λ _, sample_frame) addr_maps_init sample_uclient (λ _, sample_frame_ok)) as [H _].
  exact (H _ _ _).
Defined.
