(* ===== verification/StunClientSpec.v ===== *)
(** The binding exchange: what the STUN client sends and what it makes of the response
    a server builds with the same library. *)

From S2P Require Import Prelude Defs CString IoAddr MsgAddr AddrText AddrTextSpec StunHeader StunAttr StunSpec StunSearch StunMsg StunBuild StunReply StunBuffer System Session Samples Credentials Sockets Connect Retransmit StunClient.

(** * Messages on the wire *)

(** The bytes of a message. *)
Definition wire (b : sbuf) : list Z := take (Z.to_nat (sb_len b)) (sb_mem b).

Lemma attrs_at_same m m' k x p l :
  rd_block m 0 k = Some x -> rd_block m' 0 k = Some x -> 0 <= p -> p + attrs_size l <= k ->
  attrs_at m p l -> attrs_at m' p l.
Proof.
  intros Hm Hm'. revert p. induction l as [|[t v] l IH]; intros p Hp Hk; [done|].
  cbn [attrs_at attrs_size] in *. pose proof (attr_size_bounds v). pose proof (attrs_size_nonneg l). pose proof (zlen_nonneg v).
  assert (forall q n, 0 <= q -> 0 <= n -> q + n <= k -> rd_block m' q n = rd_block m q n) as Hs.
  { intros q n Hq Hn Hqn. pose proof (rd_block_sub m 0 k x q n Hm Hq Hn Hqn) as Hr1.
    pose proof (rd_block_sub m' 0 k x q n Hm' Hq Hn Hqn) as Hr2. change (0 + q) with q in Hr1, Hr2. by rewrite Hr1, Hr2. }
  unfold be_at. rewrite !Hs by lia. intros (Ht & Hl & Hv & Hr). repeat split; try done. apply IH; [lia..|done].
Qed.

(** A message is determined by its bytes: whatever follows them in the buffer. *)
Lemma repr_same b m mem' x :
  repr b m -> bytes mem' -> rd_block (sb_mem b) 0 (sb_len b) = Some x -> rd_block mem' 0 (sb_len b) = Some x ->
  repr (SBuf mem' (sb_len b)) m.
Proof.
  intros Hr Hb Hx Hx'. pose proof (repr_len _ _ Hr) as Hl. pose proof (msg_size_bounds m) as Hs.
  assert (forall n q, 0 <= q -> 0 <= n -> q + n <= sb_len b -> be_at n mem' q = be_at n (sb_mem b) q) as Hbe.
  { intros n q Hq Hn Hqn. pose proof (be_at_sub n (sb_mem b) 0 (sb_len b) x q Hx Hq Hn Hqn) as H1.
    pose proof (be_at_sub n mem' 0 (sb_len b) x q Hx' Hq Hn Hqn) as H2. change (0 + q) with q in H1, H2. by rewrite H1, H2. }
  unfold STUN_HEADER_LENGTH in *. rewrite Hl in *. split; cbn [sb_mem sb_len]; rewrite ?Hbe by lia.
  - done.
  - lia.
  - apply rd_block_bounds in Hx'. lia.
  - apply Hr.
  - apply Hr.
  - apply Hr.
  - pose proof (rd_block_sub _ _ _ _ 8 12 Hx) as H1. pose proof (rd_block_sub _ _ _ _ 8 12 Hx') as H2. change (0 + 8) with 8 in H1, H2.
    rewrite H2 by lia. rewrite <- H1 by lia. apply Hr.
  - eapply attrs_at_same; [exact Hx|exact Hx'|unfold STUN_HEADER_LENGTH; lia| |apply Hr]. unfold msg_size. lia.
Qed.

Lemma wire_read b m : repr b m -> rd_block (sb_mem b) 0 (sb_len b) = Some (wire b) /\ zlen (wire b) = sb_len b.
Proof.
  intros Hr. pose proof (repr_len _ _ Hr). pose proof (repr_cap _ _ Hr). pose proof (msg_size_bounds m).
  unfold STUN_HEADER_LENGTH in *. rewrite rd_block_ok by lia. change (Z.to_nat 0) with 0%nat. rewrite drop_0.
  split; [done|]. unfold wire, zlen in *. rewrite length_take. lia.
Qed.

(** A message received at the start of a buffer is the message that was sent. *)
Lemma repr_received b m mem mem' :
  repr b m -> bytes mem -> wr_block mem 0 (wire b) = Some mem' -> repr (SBuf mem' (zlen (wire b))) m.
Proof.
  intros Hr Hb Hw. destruct (wire_read b m Hr) as [Hx Hz]. rewrite Hz. apply (repr_same b m mem' (wire b)); [done| |done|].
  - eapply wr_block_bytes; [exact Hb| |exact Hw]. apply bytes_take. apply Hr.
  - rewrite <- Hz. by apply rd_wr_same in Hw.
Qed.

(** * The response *)

Section response.
Context (m : stun_buffer) (M : stun_msg) (Hr : repr (to_sbuf m) M).
Context (Ht : m_type M = stun_make_success_response STUN_METHOD_BINDING) (Hc : m_cookie M = STUN_MAGIC_COOKIE).

Lemma binding_success_recognised :
  stun_is_command_message (Some m) = Some true /\ stun_is_response m = Some true /\
  stun_is_success_response m = Some true /\ stun_is_binding_response m = Some true.
Proof using All.
  pose proof (repr_len20 _ _ Hr) as Hl. cbn [sb_len to_sbuf] in Hl.
  pose proof (repr_is_command _ _ Hr ltac:(by rewrite Ht) Hc) as H1.
  pose proof (repr_is_channel _ _ Hr) as H2.
  pose proof (repr_msg_type _ _ Hr) as H3. pose proof (repr_method _ _ Hr) as H4. rewrite Ht in H2, H3, H4.
  cbn [sb_mem sb_len to_sbuf] in *. unfold stun_is_command_message, stun_is_response, stun_is_success_response,
    stun_is_binding_response, stun_is_binding_response_str, stun_is_response_str, stun_is_success_response_str.
  rewrite H1, H2, H3, H4. destruct (Z.leb_spec (len m) 0); [lia|]. done.
Qed.
End response.

(** * The exchange *)

Section exchange.
Context `{N : NetDb}.
Context (stack : world -> frame) (maps : addr_maps) (cb : stun_callbacks).

(** What the application is told after a successful test. *)
Definition notifications (reflexive local remote : ioa_addr) : list action :=
  if reflexive_cb cb
  then (λ '(k, a), Notify k (inet_ntop AF_INET (sin_addr_bytes a)) (nswap16 (sin_port a))) <$>
       [(REFLEXIVE_IP, reflexive); (4, local); (5, remote)]
  else [].

Lemma stun_success_run m M l pub rest st remote rfc w :
  repr (to_sbuf m) M -> maps_repr maps l ->
  m_attrs M = (STUN_ATTRIBUTE_XOR_MAPPED_ADDRESS, addr_attr M STUN_ATTRIBUTE_XOR_MAPPED_ADDRESS pub) :: rest ->
  addr_ok pub -> encodable pub -> find_attr STUN_ATTRIBUTE_OTHER_ADDRESS rest = None ->
  stun_success stack maps cb st remote m rfc w =
  Ret (st, rfc) (passed w (w_errno w) (w_script w)
                   (notifications (lookup_addr l (decoded pub addr_zero)) (real_local_addr st) remote)).
Proof.
  intros Hr Hm Ha Hok He Ho.
  assert (find_attr STUN_ATTRIBUTE_OTHER_ADDRESS (m_attrs M) = None) as Ho'.
  { rewrite Ha. apply find_attr_None in Ho. apply find_attr_None. by constructor. }
  pose proof (first_addr_at maps l _ M [] STUN_ATTRIBUTE_XOR_MAPPED_ADDRESS pub rest addr_zero Hm Hr
    ltac:(left) Ha eq_refl Hok He) as Hx.
  pose proof (get_first_by_type_find _ M STUN_ATTRIBUTE_OTHER_ADDRESS Hr) as Hf. rewrite Ho' in Hf.
  unfold stun_success. erewrite bind_run by (unfold lift, stun_attr_get_first_addr; cbn [sb_mem sb_len to_sbuf] in Hx; by rewrite Hx).
  cbv beta iota. change (0 <? 0) with false. cbv iota.
  erewrite bind_run by (unfold lift, stun_attr_get_first_by_type; cbn [sb_mem sb_len to_sbuf] in Hf; by rewrite Hf).
  unfold notify_address, notifications, passed. destruct (reflexive_cb cb); unfold mbind, prog_bind; cbn.
  - by rewrite <- !app_assoc.
  - rewrite app_nil_r. by destruct w.
Qed.

(** A datagram that holds a binding success response. *)
Lemma stun_response_run m M l pub rest st remote rfc w :
  repr (to_sbuf m) M -> m_type M = stun_make_success_response STUN_METHOD_BINDING -> m_cookie M = STUN_MAGIC_COOKIE ->
  maps_repr maps l ->
  m_attrs M = (STUN_ATTRIBUTE_XOR_MAPPED_ADDRESS, addr_attr M STUN_ATTRIBUTE_XOR_MAPPED_ADDRESS pub) :: rest ->
  addr_ok pub -> encodable pub -> find_attr STUN_ATTRIBUTE_OTHER_ADDRESS rest = None ->
  stun_response stack maps cb st remote m rfc w =
  Ret (st, rfc) (passed w (w_errno w) (w_script w)
                   (notifications (lookup_addr l (decoded pub addr_zero)) (real_local_addr st) remote)).
Proof.
  intros Hr Ht Hc Hm Ha Hok He Ho. destruct (binding_success_recognised m M Hr Ht Hc) as (H1 & H2 & H3 & H4).
  unfold stun_response. erewrite bind_run by (unfold lift; by rewrite H1). cbn [negb].
  erewrite bind_run by (unfold lift; by rewrite H2). cbn [negb].
  erewrite bind_run by (unfold lift; by rewrite H3). cbv iota.
  erewrite bind_run by (unfold lift; by rewrite H4). cbv iota. by eapply stun_success_run.
Qed.

(** The request of a plain test: a header and nothing else. *)
Lemma stun_request_plain f e :
  frame_ok f -> entropy_ok e ->
  exists m, stun_request f e (-1) 0 0 0 = Some m /\ block_ok m /\ len m = 20 /\
    rd_block (buf m) 0 20 = Some (header_bytes 1 0 STUN_MAGIC_COOKIE (tid_of e)).
Proof.
  intros Hf He. destruct (fok_buffer _ Hf) as [Hb Hz]. unfold stun_request, stun_prepare_binding_request.
  destruct (init_command_with_spec STUN_MAGIC_COOKIE (stun_make_request STUN_METHOD_BINDING) (to_sbuf (fr_buffer f)) e He)
    as (mem & Hi & Hw); [cbn [sb_mem to_sbuf]; rewrite Hz; done|]. cbn [sb_mem to_sbuf] in Hw.
  change (stun_set_binding_request_str (to_sbuf (fr_buffer f)) e)
    with (init_command_with STUN_MAGIC_COOKIE (stun_make_request STUN_METHOD_BINDING) (to_sbuf (fr_buffer f)) e).
  rewrite Hi. eexists. split; [reflexivity|]. unfold block_ok. cbn [buf len of_sbuf sb_mem sb_len].
  pose proof (bytes_tid_of e He) as Hbt. pose proof (zlen_tid_of e He) as Hzt.
  split; [split|split; [done|]].
  - eapply wr_block_bytes; [exact Hb| |exact Hw]. unfold header_bytes. rewrite !bytes_app. eauto using bytes_be_split.
  - rewrite <- Hz. by eapply wr_block_zlen.
  - apply rd_wr_same in Hw. by rewrite zlen_header_bytes, Hzt in Hw.
Qed.

(** The server's answer fits the client's buffer. *)
Lemma binding_response_size sl tid a no_compat :
  length tid = 12%nat -> addr_ok (public_of sl a) ->
  attrs_size (binding_response_attrs sl tid (Some a) false no_compat) <= 48.
Proof.
  intros Ht Ha. pose proof (addr_clen_bounds (public_of sl a)).
  assert (forall x, attr_size (addr_value (public_of sl a) x STUN_MAGIC_COOKIE tid) <= 24) as Hs.
  { intros x. unfold attr_size. rewrite zlen_addr_value by done. unfold pad4. Z.div_mod_to_equations. lia. }
  unfold binding_response_attrs, opt_addr_attr. pose proof (Hs (xor_attr STUN_ATTRIBUTE_XOR_MAPPED_ADDRESS)).
  pose proof (Hs (xor_attr STUN_ATTRIBUTE_MAPPED_ADDRESS)). destruct no_compat; cbn [app attrs_size]; lia.
Qed.

Lemma sendto_run fd to data w k err s :
  w_script w = ACall k err :: s -> 0 < zlen data <= k ->
  iter (sendto_turn fd to data) tt w = Ret (zlen data) (passed w (w_errno w) s [SentTo fd to data]).
Proof.
  intros Hs Hk. apply iter_done. unfold sendto_turn, sendto, syscall, ask, mbind, prog_bind. rewrite Hs. cbn.
  destruct (Z.ltb_spec k 0); [lia|]. cbn. rewrite Z.min_r by lia.
  destruct (Z.ltb_spec k 0); [lia|]. rewrite take_ge by (unfold zlen in *; lia). unfold get_errno, act. cbn.
  by destruct (Z.ltb_spec (zlen data) 0); [lia|].
Qed.

Lemma stun_recv_run fd size w bs s :
  w_script w = AData bs :: s -> zlen bs <= size ->
  iter (stun_recv_turn fd size) tt w = Ret (zlen bs, bs) (World (w_errno w) s (w_globals w) (w_trace w)).
Proof.
  intros Hs Hz. apply iter_done. pose proof (zlen_nonneg bs). unfold stun_recv_turn, recv, ask, mbind, prog_bind. rewrite Hs. cbn.
  rewrite take_ge by (unfold zlen in *; lia). by destruct (Z.ltb_spec (zlen bs) 0); [lia|].
Qed.

(** What a client without a static map tells the application of the address [seen]: the
    port, and the IPv4 member of the union, which is 0.0.0.0 for an IPv6 address. *)
Lemma told_address seen :
  sin_port (lookup_addr [] (decoded seen addr_zero)) = sin_port seen /\
  sin_addr_bytes (lookup_addr [] (decoded seen addr_zero)) =
    if sa_family seen =? AF_INET6 then [0; 0; 0; 0] else sin_addr_bytes seen.
Proof. unfold decoded. by destruct (_ =? _). Qed.

(** C15. A plain test against a server that answers with the library's binding response:
    one datagram is sent, the 20 bytes of a binding request, and with a callback set the
    application is told three addresses: the one the server put into its response (as the
    client's static map translates it), the local and the remote one, each as its port
    and the text of the IPv4 member.  Without a static map the first is the port and the
    address the server saw for IPv4, and 0.0.0.0 for IPv6.  The transaction id [tid] of
    the response is any: the client does not compare it with the one it sent, [tid_of e]. *)
Theorem binding_exchange l tid rip rport port rfc st remote e k err la sl smaps bs a reason cookie no_compat es b' s w :
  frame_ok (stack w) -> entropy_ok e -> 0 <= udp_fd st -> 20 <= k ->
  make_ioa_addr (Some rip) rport (Some addr_zero) (fr_byte (stack w)) = Some (0, Some remote) ->
  maps_repr maps l -> maps_repr smaps sl -> bytes (sb_mem bs) -> 100 <= zlen (sb_mem bs) ->
  entropy_ok es -> 0 <= cookie < 4294967296 -> sendable sl a -> bytes tid -> length tid = 12%nat ->
  stun_set_binding_response_str smaps bs (Some tid) (Some a) 0 reason cookie false no_compat es = Some (0, b') ->
  w_script w = AEntropy e :: ACall k err :: AName (Some la) :: AData (wire b') :: s ->
  let seen := public_of sl a in
  let told := lookup_addr l (decoded seen addr_zero) in
  run_stunclient stack maps cb rip rport port rfc (-1) 0 0 0 st w =
  Ret (0, StunState (udp_fd st) la (counter st), addr_get_port (Some la), rfc)
    (passed w (w_errno w) s
       (SentTo (udp_fd st) remote (header_bytes 1 0 STUN_MAGIC_COOKIE (tid_of e)) ::
        notifications told la remote)) /\
  (l = [] -> sin_port told = sin_port seen /\
     sin_addr_bytes told = if sa_family seen =? AF_INET6 then [0; 0; 0; 0] else sin_addr_bytes seen).
Proof.
  intros Hf He Hfd Hk Hmk Hm Hsm Hb Hz Hes Hck Ha Htb Htl Hsrv Hs seen told.
  split; [|intros Hl; unfold told; rewrite Hl; apply told_address]. unfold told, seen. clear told seen. revert Ha Hs.
  intros [Hok Henc] Hs. assert (tid_ok (Some tid)) as Htid by (by intros ? [= <-]).
  destruct (binding_response_builds smaps sl Hsm bs (Some tid) (Some a) reason cookie false no_compat es)
    as (b1 & Hb1 & Hr); [done..|by intros ? [= <-]|].
  rewrite Hsrv in Hb1. injection Hb1 as <-. cbn [the_tid] in Hr.
  pose proof (binding_response_size sl tid a no_compat Htl Hok) as Hsz.
  destruct (wire_read _ _ Hr) as [_ Hw]. rewrite (repr_len _ _ Hr) in Hw. unfold msg_size in Hw. cbn [m_attrs] in Hw.
  destruct (stun_request_plain (stack w) e Hf He) as (m & Hreq & [Hmb Hmz] & Hml & Hdata).
  unfold run_stunclient, stun_sockets. erewrite bind_run by done.
  erewrite bind_run by (unfold lift; by rewrite Hmk). cbv beta iota. change (0 <? 0) with false. cbv iota.
  erewrite bind_run by done. destruct (Z.ltb_spec (udp_fd st) 0); [lia|]. change (0 <=? -1) with false. cbv iota.
  erewrite bind_run by done. cbv beta iota.
  erewrite bind_run by (unfold entropy_, ask; by rewrite Hs).
  erewrite bind_run by (unfold lift; by rewrite Hreq).
  erewrite bind_run by (unfold lift; by rewrite Hml, Hdata).
  erewrite bind_run by (apply (sendto_run _ _ _ _ k err (AName (Some la) :: AData (wire b') :: s)); [done|];
    rewrite zlen_header_bytes, zlen_tid_of by done; lia).
  rewrite zlen_header_bytes, zlen_tid_of by done. change (8 + 12 <? 0) with false. cbv iota.
  erewrite bind_run by (unfold addr_get_from_sock; destruct (Z.ltb_spec (udp_fd st) 0); [lia|done]).
  cbv beta iota zeta. change (0 <? 0) with false. cbv iota. change (0 <=? -1) with false. cbv iota.
  erewrite bind_run by done.
  erewrite bind_run by (apply (stun_recv_run _ _ _ (wire b') s); [done|unfold STUN_BUFFER_SIZE, MAX_STUN_MESSAGE_SIZE, STUN_HEADER_LENGTH in *; lia]).
  cbv beta iota. destruct (wr_block_is_Some (buf m) 0 (wire b')) as [mem Hmem];
    [lia|unfold STUN_BUFFER_SIZE, MAX_STUN_MESSAGE_SIZE, STUN_HEADER_LENGTH in *; lia|].
  erewrite bind_run by (unfold lift; by rewrite Hmem).
  pose proof (repr_received _ _ _ _ Hr Hmb Hmem) as Hr'.
  unfold u64. rewrite Z.mod_small by (pose proof (zlen_nonneg (wire b')); unfold STUN_HEADER_LENGTH in *; lia).
  erewrite bind_run by (eapply (stun_response_run _ _ l (public_of sl a)); [exact Hr'|done|done|exact Hm|reflexivity|done|done|by destruct no_compat]).
  unfold passed. cbn. by rewrite <- !app_assoc.
Qed.
End exchange.

(** * Settings *)

(** The local address is kept if it fits the array with its terminator, and written beyond it otherwise. *)
Theorem set_local_address_exact t s :
  nonzero t ->
  Settings.set_local_address (t ++ [0]) s =
  if zlen t <? 256 then Some (Settings.StunSettings (field 256 t) (Settings.forceRfc5780 s) (Settings.callbacks s)) else None.
Proof.
  intros Ht. unfold Settings.set_local_address. rewrite c_str_terminated by done. cbn [mbind option_bind].
  pose proof (zlen_nonneg t). assert (zlen (zeros 256) = 256) as Hz by done. destruct (Z.ltb_spec (zlen t) 256).
  - rewrite wr_block_ok by (rewrite ?zlen_app, ?zlen_1; lia). cbn [mbind option_bind]. f_equal. f_equal.
    rewrite (field_cons 256 t) by lia. change (take (Z.to_nat 0) (zeros 256)) with (@nil Z). cbn [app]. rewrite <- app_assoc. cbn [app].
    do 2 f_equal. rewrite zlen_app, zlen_1. unfold zeros. rewrite drop_replicate. f_equal. lia.
  - unfold wr_block. rewrite zlen_app, zlen_1, Hz. destruct (Z.leb_spec (0 + (zlen t + 1)) 256); [lia|]. by rewrite andb_false_r.
Qed.

(** * Witness *)

(** A server at 10.0.0.1 that sees the client as 192.0.2.1:3478. *)
Definition server_reply : sbuf :=
  match stun_set_binding_response_str addr_maps_init big_buf (Some sample_tid) (Some sample_addr) 0 None 0
          false true sample_entropy with
  | Some (_, b) => b
  | None => big_buf
  end.

Definition exchange_answers : list answer :=
  [AEntropy sample_entropy; ACall 20 EOTHER; AName (Some (v4_addr 10 0 0 2 4000)); AData (wire server_reply)].

Lemma binding_exchange_witness :
  stun_set_binding_response_str addr_maps_init big_buf (Some sample_tid) (Some sample_addr) 0 None 0
    false true sample_entropy = Some (0, server_reply) /\
  run_stunclient (λ _, sample_frame) addr_maps_init (StunCallbacks true true true) (cstring (lit "10.0.0.1")) 3478 (-1) 0
    (-1) 0 0 0 (StunState 5 addr_zero 0) (sample_world exchange_answers) =
  Ret (0, StunState 5 (v4_addr 10 0 0 2 4000) 0, 4000, 0)
    (passed (sample_world exchange_answers) EOTHER []
       (SentTo 5 (v4_addr 10 0 0 1 3478) (header_bytes 1 0 STUN_MAGIC_COOKIE (tid_of sample_entropy)) ::
        notifications (StunCallbacks true true true)
          (lookup_addr [] (decoded (public_of [] sample_addr) addr_zero)) (v4_addr 10 0 0 2 4000) (v4_addr 10 0 0 1 3478))) /\
  sin_addr_bytes (lookup_addr [] (decoded (public_of [] sample_addr) addr_zero)) = [192; 0; 2; 1].
Proof.
  split; [vm_compute; reflexivity|]. destruct (big_buf_ok 100) as [Hb Hz]; [lia|].
  destruct (binding_exchange (λ _, sample_frame) addr_maps_init (StunCallbacks true true true) [] sample_tid (cstring (lit "10.0.0.1")) 3478
           (-1) 0 (StunState 5 addr_zero 0) (v4_addr 10 0 0 1 3478) sample_entropy 20 EOTHER (v4_addr 10 0 0 2 4000) []
           addr_maps_init big_buf sample_addr None 0 true sample_entropy server_reply [] (sample_world exchange_answers)) as [H Ht];
    [exact sample_frame_ok|exact sample_entropy_ok|cbn; lia|lia|vm_compute; reflexivity|exact maps_repr_init|exact maps_repr_init
    |exact Hb|exact Hz|exact sample_entropy_ok|lia|exact sample_sendable|by apply bytes_concrete|reflexivity|vm_compute; reflexivity|reflexivity|].
  split; [exact H|]. destruct (Ht eq_refl) as [_ Ht2]. exact Ht2.
Defined.
