(* ===== verification/SealSpec.v ===== *)
(** The end of every request of the engine: [seal_request] and [seal_refresh] complete
    a message with the origin, the long-term credentials and the fingerprint, as the
    abstract messages say. *)

From S2P Require Import Prelude Defs CString IoAddr MsgAddr StunHeader StunAttr StunSpec StunSearch StunMsg StunBuild StunReply StunBuffer Crypto Integrity IntegritySpec Evp OAuth AddrText System Session Samples Transport Credentials Sockets Connect Allocate Bind Retransmit.

(** * The specification *)

(** The program's strings: the origin, the user name and the password. *)
Record settings : Type := Settings { s_origin : list Z; s_uname : list Z; s_upwd : list Z }.

Record settings_hold (cfg : config) (s : settings) : Prop := SettingsHold {
  sh_origin : c_str (origin cfg) = Some (s_origin s) /\ bytes (s_origin s) /\ zlen (s_origin s) <= 128;
  sh_uname : c_str (g_uname cfg) = Some (s_uname s) /\ bytes (s_uname s) /\ zlen (s_uname s) <= 1024;
  sh_upwd : c_str (g_upwd cfg) = Some (s_upwd s);
}.

(** What the server's challenges left in the connection. *)
Definition conn_holds (c : app_ur_conn_info) (realm nonce : list Z) : Prop :=
  (c_str (ci_realm c) = Some realm /\ bytes realm /\ zlen realm <= 1024) /\
  (c_str (ci_nonce c) = Some nonce /\ bytes nonce /\ zlen nonce <= 1024).

Definition origin_attrs (o : list Z) : list (Z * list Z) :=
  match o with
  | [] => []
  | _ => [(STUN_ATTRIBUTE_ORIGIN, STUN_ATTRIBUTE_ORIGIN_TEXT1); (STUN_ATTRIBUTE_ORIGIN, o);
          (STUN_ATTRIBUTE_ORIGIN, STUN_ATTRIBUTE_ORIGIN_TEXT2)]
  end.

(** [M] with its credentials: as it is before the first challenge, and afterwards with
    the user name, the nonce, the realm and the HMAC, under the long-term key, of all
    the bytes before it. *)
Definition signed `{Crypto} (t : SHATYPE) (s : settings) (realm nonce : list Z) (M M' : stun_msg) : Prop :=
  match nonce with
  | [] => M' = M
  | _ => exists h data b1,
      let m3 := add_attrs M [(STUN_ATTRIBUTE_USERNAME, s_uname s); (STUN_ATTRIBUTE_NONCE, nonce); (STUN_ATTRIBUTE_REALM, realm)] in
      M' = add_attr m3 STUN_ATTRIBUTE_MESSAGE_INTEGRITY h /\
      repr b1 M' /\ rd_block (sb_mem b1) 0 (msg_size m3) = Some data /\
      HMAC (hmac_alg t) (long_term_key t (s_uname s) realm (s_upwd s)) data = Some h
  end.

(** A complete request: the origin, the credentials and, when asked for, a fingerprint
    that passes the full check. *)
Definition sealed `{Crypto} (t : SHATYPE) (s : settings) (fp : bool) (realm nonce : list Z) (M : stun_msg) (b : sbuf) : Prop :=
  exists M', signed t s realm nonce (add_attrs M (origin_attrs (s_origin s))) M' /\
  if fp then
    exists crc, repr b (add_attr M' STUN_ATTRIBUTE_FINGERPRINT (be_split 4 (Z.lxor crc FINGERPRINT_XOR))) /\
      forall must f, stun_is_command_message_full_check_str (sb_mem b) (sb_len b) must (Some f) = Some (true, Some 1)
  else repr b M'.

(** * Origin *)

Lemma add_attr_step cap m M k t f n v s :
  built cap (to_sbuf m) M k -> 0 <= t < 65536 -> c_attr_value f n = Some v -> bytes v -> n < 2147000000 ->
  attr_size v <= s -> k + s <= cap -> k + s < MAX_STUN_MESSAGE_SIZE ->
  exists m', stun_attr_add m t f n = Some (0, m') /\ built cap (to_sbuf m') (add_attr M t v) (k + s).
Proof.
  intros Hb Ht Hv Hvb Hn Hs H1 H2.
  destruct (built_add cap (to_sbuf m) M k t f n v (attr_size v)) as (b' & Ha & [Hr Hc Hk]); [done..|lia|lia|].
  exists (of_sbuf m b'). unfold stun_attr_add, on_sbuf. rewrite Ha. split; [done|].
  destruct b' as [mm ll]. split; [exact Hr|exact Hc|lia].
Qed.

Lemma add_origin_built cap o s m M k :
  c_str o = Some s -> bytes s -> zlen s <= 128 -> built cap (to_sbuf m) M k ->
  k + 300 <= cap -> k + 300 < MAX_STUN_MESSAGE_SIZE ->
  exists m', add_origin o m = Some m' /\ built cap (to_sbuf m') (add_attrs M (origin_attrs s)) (k + 300).
Proof.
  intros Ho Hbs Hl Hb H1 H2. destruct (c_str_Some _ _ Ho) as (Hn & r & ->). unfold add_origin.
  destruct s as [|c s]; cbn [app].
  { rewrite rd8_head. cbn [mbind option_bind]. change (truth 0) with false. cbv iota. exists m. split; [done|].
    rewrite add_attrs_nil. destruct Hb as [Hr Hc Hk]. split; [done|done|lia]. }
  apply Forall_cons in Hn as [Hc0 Hn].
  rewrite rd8_head. cbn [mbind option_bind]. unfold truth. destruct (Z.eqb_spec c 0); [done|]. cbn [negb].
  destruct (add_attr_step cap m M k STUN_ATTRIBUTE_ORIGIN (Some (cstring STUN_ATTRIBUTE_ORIGIN_TEXT1))
    (zlen STUN_ATTRIBUTE_ORIGIN_TEXT1) STUN_ATTRIBUTE_ORIGIN_TEXT1 60 Hb) as (m1 & -> & Hb1);
    [done|done|by apply bytes_concrete|done|by vm_compute|lia|lia|].
  cbn [mbind option_bind]. unfold strlen. change (c :: s ++ 0 :: r) with ((c :: s) ++ 0 :: r).
  rewrite Ho. cbn [fmap option_fmap option_map mbind option_bind].
  assert (to_i32 (zlen (c :: s)) = zlen (c :: s)) as ->.
  { pose proof (zlen_nonneg (c :: s)). unfold to_i32. rewrite Z.mod_small by lia. lia. }
  destruct (add_attr_step cap m1 _ _ STUN_ATTRIBUTE_ORIGIN (Some ((c :: s) ++ 0 :: r)) (zlen (c :: s)) (c :: s) 136 Hb1)
    as (m2 & -> & Hb2); [done| |done|lia| |lia|lia|].
  { unfold c_attr_value. destruct (Z.leb_spec (zlen (c :: s)) 0);
      [rewrite zlen_cons in *; pose proof (zlen_nonneg s); lia|]. exact (rd_block_here [] (c :: s) (0 :: r)). }
  { unfold attr_size. pose proof (pad4_bounds (zlen (c :: s))). lia. }
  cbn [mbind option_bind].
  destruct (add_attr_step cap m2 _ _ STUN_ATTRIBUTE_ORIGIN (Some (cstring STUN_ATTRIBUTE_ORIGIN_TEXT2))
    (zlen STUN_ATTRIBUTE_ORIGIN_TEXT2) STUN_ATTRIBUTE_ORIGIN_TEXT2 60 Hb2) as (m3 & -> & Hb3);
    [done|done|by apply bytes_concrete|done|by vm_compute|lia|lia|].
  cbn [mbind option_bind]. exists m3. split; [done|]. destruct Hb3 as [Hr Hc Hk]. split; [|done|].
  - unfold add_attrs, add_attr, origin_attrs in *. cbn [m_type m_cookie m_tid m_attrs] in Hr.
    rewrite <- !app_assoc in Hr. exact Hr.
  - unfold add_attrs, add_attr, msg_size in *. cbn [m_attrs origin_attrs] in *. rewrite <- !app_assoc in Hk. cbn [app] in Hk. lia.
Qed.

(** * Credentials *)

Section seal.
Context `{N : NetDb} `{C : Crypto} `{L : !CryptoLaws C} `{V : Evp}.
Context (cfg : config) (stack : world -> frame) (s : settings).
Context (Hf : forall w, frame_ok (stack w)) (Ht : hmac_total) (Hs : settings_hold cfg s) (Hoauth : oauth cfg = false).

Lemma signed_size (t : SHATYPE) realm nonce M M' :
  zlen realm <= 1024 -> zlen nonce <= 1024 -> signed t s realm nonce M M' -> msg_size M' <= msg_size M + 3164.
Proof using Hs L.
  intros Hr Hn. destruct (sh_uname _ _ Hs) as (_ & _ & Hu). unfold signed. destruct nonce as [|x nonce]; [intros ->; lia|].
  intros (h & data & b1 & -> & _ & _ & Hh). pose proof (HMAC_size _ _ _ _ Hh) as Hz.
  destruct (shasize_props t) as (Hds & Hss & _). rewrite Hds in Hz. rewrite msg_size_add.
  unfold msg_size, add_attrs. cbn [m_attrs]. rewrite attrs_size_app. cbn [attrs_size]. unfold attr_size.
  pose proof (pad4_bounds (zlen (s_uname s))). pose proof (pad4_bounds (zlen (x :: nonce))).
  pose proof (pad4_bounds (zlen realm)). pose proof (pad4_bounds (zlen h)). lia.
Qed.

Lemma signed_attrs (t : SHATYPE) realm nonce M M' :
  signed t s realm nonce M M' ->
  m_type M' = m_type M /\ m_cookie M' = m_cookie M /\ exists l, m_attrs M' = m_attrs M ++ l /\
    Forall (λ kv, kv.1 ∈ [STUN_ATTRIBUTE_USERNAME; STUN_ATTRIBUTE_NONCE; STUN_ATTRIBUTE_REALM; STUN_ATTRIBUTE_MESSAGE_INTEGRITY]) l.
Proof.
  unfold signed. destruct nonce as [|x nonce]; [intros ->; split; [done|]; split; [done|]; exists []; by rewrite app_nil_r|].
  intros (h & data & b1 & -> & _). split; [done|]. split; [done|].
  exists ([(STUN_ATTRIBUTE_USERNAME, s_uname s); (STUN_ATTRIBUTE_NONCE, x :: nonce); (STUN_ATTRIBUTE_REALM, realm)] ++
          [(STUN_ATTRIBUTE_MESSAGE_INTEGRITY, h)]).
  split; [unfold add_attr, add_attrs; cbn [m_attrs]; by rewrite <- app_assoc|].
  repeat constructor; cbn [fst]; set_solver.
Qed.

Lemma add_integrity_run c realm nonce m M w :
  conn_holds c realm nonce -> built STUN_BUFFER_SIZE (to_sbuf m) M 1024 ->
  exists m' M', add_integrity cfg stack c m w = Ret (0, c, m') w /\
    built STUN_BUFFER_SIZE (to_sbuf m') M' 4188 /\ signed (shatype cfg) s realm nonce M M'.
Proof using All.
  intros [(Hr & Hrb & Hrl) (Hn & Hnb & Hnl)] Hb. unfold add_integrity.
  destruct (c_str_Some _ _ Hn) as (Hnz & r & Hnm).
  destruct nonce as [|x nonce].
  { erewrite bind_run by (unfold lift; rewrite Hnm; cbn [app]; by rewrite rd8_head). change (truth 0) with false. cbv iota.
    exists m, M. split; [done|]. split; [|done]. destruct Hb as [Hre Hc Hk]. split; [done|done|lia]. }
  apply Forall_cons in Hnz as [Hx _].
  erewrite bind_run by (unfold lift; rewrite Hnm; cbn [app]; by rewrite rd8_head).
  unfold truth. destruct (Z.eqb_spec x 0); [done|]. cbn [negb]. rewrite Hoauth. cbn [andb].
  erewrite bind_run by reflexivity. destruct (Hf w) as [[_ Hk64] _ [Hhb Hhz] _ _ _ _ _].
  destruct (sh_uname _ _ Hs) as (Hu & Hub & Hul). destruct Hb as [Hre Hc Hk].
  destruct (user_integrity_added (to_sbuf m) M (g_uname cfg) (ci_realm c) (g_upwd cfg) (ci_nonce c) (s_uname s) realm
    (s_upwd s) (x :: nonce) (shatype cfg) (fr_key (stack w)) (fr_pwd (stack w)) (fr_hmac (stack w)) (fr_byte (stack w)))
    as (b' & h & data & Ha & (Hr' & Hz' & Hd) & Hh);
    [done|done|rewrite Hc; unfold STUN_BUFFER_SIZE, MAX_STUN_MESSAGE_SIZE; lia|done|done|done|apply Hs|done..|].
  erewrite bind_run by (unfold lift, on_sbuf; rewrite Ha; reflexivity). cbv beta iota. change (0 <? 0) with false. cbv iota.
  exists (of_sbuf m b'). assert (to_sbuf (of_sbuf m b') = b') as Hto by (by destruct b').
  assert (signed (shatype cfg) s realm (x :: nonce) M
    (add_attr (add_attrs M [(STUN_ATTRIBUTE_USERNAME, s_uname s); (STUN_ATTRIBUTE_NONCE, x :: nonce); (STUN_ATTRIBUTE_REALM, realm)])
       STUN_ATTRIBUTE_MESSAGE_INTEGRITY h)) as Hsg by (by exists h, data, b').
  eexists. split; [reflexivity|]. split; [|exact Hsg]. rewrite Hto. pose proof (signed_size _ _ _ _ _ Hrl Hnl Hsg).
  split; [exact Hr'|by rewrite Hz'|lia].
Qed.

(** A message of the engine before it is sealed. *)
Record sealable (m : stun_buffer) (M : stun_msg) : Prop := Sealable {
  sa_built : built STUN_BUFFER_SIZE (to_sbuf m) M 700;
  sa_type : m_type M < 0x4000;
  sa_cookie : m_cookie M = STUN_MAGIC_COOKIE;
  sa_attrs : find_attr STUN_ATTRIBUTE_FINGERPRINT (m_attrs M) = None;
}.

Lemma signed_no_fingerprint m M realm nonce M' :
  sealable m M -> signed (shatype cfg) s realm nonce (add_attrs M (origin_attrs (s_origin s))) M' ->
  m_type M' < 0x4000 /\ m_cookie M' = STUN_MAGIC_COOKIE /\ find_attr STUN_ATTRIBUTE_FINGERPRINT (m_attrs M') = None.
Proof.
  intros [Hb Hty Hck Hfp] Hsg. destruct (signed_attrs _ _ _ _ _ Hsg) as (Ht' & Hc' & l & Hl & Hall).
  rewrite Ht', Hc', Hl. split; [done|]. split; [done|]. cbn [add_attrs m_attrs].
  rewrite <- app_assoc, find_attr_app_None by done. apply find_attr_None, Forall_app. split.
  - unfold origin_attrs. destruct (s_origin s); repeat constructor; done.
  - eapply Forall_impl; [exact Hall|]. intros [k v] Hin Hk. cbn [fst] in *. subst k. revert Hin. rewrite !elem_of_cons, elem_of_nil.
    intros [|[|[|[|]]]]; done.
Qed.

Lemma repr_buffer_ok m M : repr (to_sbuf m) M -> zlen (buf m) = STUN_BUFFER_SIZE -> buffer_ok m.
Proof.
  intros Hr Hz. pose proof (repr_len20 _ _ Hr) as Hl. cbn [sb_mem sb_len to_sbuf] in Hl.
  split; [split; [apply Hr|done]|lia].
Qed.

Lemma fingerprint_run m M k :
  built STUN_BUFFER_SIZE (to_sbuf m) M k -> k <= 4188 -> m_type M < 0x4000 -> m_cookie M = STUN_MAGIC_COOKIE ->
  find_attr STUN_ATTRIBUTE_FINGERPRINT (m_attrs M) = None ->
  exists m' crc, on_sbuf m (stun_attr_add_fingerprint_str (to_sbuf m)) = Some (0, m') /\ buffer_ok m' /\
    repr (to_sbuf m') (add_attr M STUN_ATTRIBUTE_FINGERPRINT (be_split 4 (Z.lxor crc FINGERPRINT_XOR))) /\
    forall must f, stun_is_command_message_full_check_str (buf m') (len m') must (Some f) = Some (true, Some 1).
Proof.
  intros [Hr Hc Hk] Hk' Hty Hck Hfp.
  assert (room (to_sbuf m) M 4) as Hroom.
  { unfold room. rewrite Hc. unfold STUN_BUFFER_SIZE, MAX_STUN_MESSAGE_SIZE. change (pad4 4) with 4. lia. }
  destruct (fingerprint_added (to_sbuf m) M Hr Hty Hck Hroom Hfp) as (b' & crc & Ha & Hr' & _ & Hz & Hk2).
  exists (of_sbuf m b'), crc. assert (to_sbuf (of_sbuf m b') = b') as Hto by (by destruct b').
  unfold on_sbuf. rewrite Ha. split; [done|]. split; [|split; [by rewrite Hto|]].
  - eapply repr_buffer_ok; [by rewrite Hto|]. cbn [buf of_sbuf]. by rewrite Hz.
  - intros must f. by apply Hk2.
Qed.

(** [seal_request]: the fingerprint is always there. *)
Lemma seal_request_run c realm nonce m M w :
  conn_holds c realm nonce -> sealable m M ->
  exists m', seal_request cfg stack c m w = Ret (inr (c, m')) w /\ buffer_ok m' /\
    sealed (shatype cfg) s true realm nonce M (to_sbuf m').
Proof using All.
  intros Hc Hm. destruct (sh_origin _ _ Hs) as (Ho & Hob & Hol). unfold seal_request.
  destruct (add_origin_built _ _ _ m M 700 Ho Hob Hol (sa_built _ _ Hm)) as (m1 & Hm1 & Hb1);
    [unfold STUN_BUFFER_SIZE, MAX_STUN_MESSAGE_SIZE; lia..|].
  erewrite bind_run by (unfold lift; by rewrite Hm1).
  destruct (add_integrity_run c realm nonce m1 (add_attrs M (origin_attrs (s_origin s))) w Hc) as (m2 & M2 & Hi & Hb2 & Hsg).
  { destruct Hb1 as [? ? ?]. split; [done|done|lia]. }
  erewrite bind_run by exact Hi. cbv beta iota. change (0 <? 0) with false. cbv iota.
  destruct (signed_no_fingerprint _ _ _ _ _ Hm Hsg) as (Hty & Hck & Hfp).
  destruct (fingerprint_run m2 M2 4188 Hb2) as (m3 & crc & Ha & Hok & Hr3 & Hfull); [lia|done..|].
  erewrite bind_run by (unfold lift; rewrite Ha; reflexivity).
  exists m3. split; [done|]. split; [done|]. exists M2. split; [done|]. by exists crc.
Qed.
End seal.
