(* ===== verification/BindSpec.v ===== *)
(** Channel binding and permissions: a success is a success of the server, given to a
    complete request for the channel or the peers asked for. *)

From S2P Require Import Prelude Defs CString IoAddr MsgAddr AddrText AddrTextSpec StunHeader StunAttr StunSpec StunSearch StunMsg StunBuild StunReply StunBuffer Crypto Integrity IntegritySpec Evp OAuth System Progress Session Samples Transport TransportSpec Credentials Sockets Connect Allocate Bind Retransmit Termination Steady AllocateSpec Scenario SealSpec.

(** * Strings of a connection *)

Definition text_in (n : Z) (d : list Z) : Prop := zlen d = n /\ bytes d /\ exists s, c_str d = Some s.

(** The realm and the nonce are strings inside their arrays of 128 bytes. *)
Definition conn_ok (c : app_ur_conn_info) : Prop := text_in 128 (ci_realm c) /\ text_in 128 (ci_nonce c).

Lemma c_str_zero pre post : exists s, c_str (pre ++ 0 :: post) = Some s.
Proof.
  induction pre as [|x pre [s IH]]; cbn [app c_str]; [by eexists|]. case_if; [by eexists|]. rewrite IH. by eexists.
Qed.

Lemma c_str_bytes m s : bytes m -> c_str m = Some s -> bytes s /\ zlen s < zlen m.
Proof.
  intros Hb Hs. destruct (c_str_Some _ _ Hs) as (_ & r & ->). apply bytes_app in Hb as [? _].
  rewrite zlen_app, zlen_cons. pose proof (zlen_nonneg r). split; [done|lia].
Qed.

Lemma conn_ok_holds c : conn_ok c -> exists realm nonce, conn_holds c realm nonce.
Proof.
  intros [(Hz & Hb & r & Hr) (Hz' & Hb' & n & Hn)]. exists r, n.
  destruct (c_str_bytes _ _ Hb Hr), (c_str_bytes _ _ Hb' Hn). split; (split; [done|split; [done|lia]]).
Qed.

Lemma copy_string_text buf v n dst d :
  copy_string buf v n dst = Some d -> bytes buf -> bytes dst -> text_in (zlen dst) d.
Proof.
  unfold copy_string. intros H Hb Hd. apply bind_Some in H as (bs & Hbs & H). apply bind_Some in H as (d1 & Hd1 & H).
  assert (bytes d1) as Hb1 by (eapply wr_block_bytes; [exact Hd|eapply rd_block_bytes; [exact Hb|exact Hbs]|exact Hd1]).
  unfold wr8 in H. pose proof (wr_block_zlen _ _ _ _ H). pose proof (wr_block_zlen _ _ _ _ Hd1).
  split; [lia|]. split; [by eapply wr_block_bytes; [exact Hb1| |exact H]; repeat constructor|].
  apply wr_block_Some in H as (_ & _ & ->). apply c_str_zero.
Qed.

Lemma challenge_texts buf len size c b c' k :
  stun_is_challenge_response_str buf len size c = Some (b, c') -> bytes buf ->
  text_in k (ch_realm c) -> text_in k (ch_nonce c) -> text_in k (ch_realm c') /\ text_in k (ch_nonce c').
Proof.
  intros H Hb Hr Hn. unfold stun_is_challenge_response_str in H.
  apply bind_Some in H as ([[ret ec] em] & _ & H). cbv zeta in H. destruct (negb ret); [by simplify_eq|].
  apply bind_Some in H as (e & _ & H). destruct (negb _); [by simplify_eq|].
  apply bind_Some in H as (sar & _ & H). destruct sar as [sar|]; [|by simplify_eq].
  apply bind_Some in H as (v & _ & H). destruct v as [v|]; [|by simplify_eq].
  apply bind_Some in H as (n & _ & H). apply bind_Some in H as (realm & Hrealm & H).
  assert (text_in k realm) as Hr'.
  { destruct Hr as (<- & ? & _). by eapply copy_string_text. }
  cbn [ch_realm ch_nonce ch_server_name ch_oauth] in H.
  apply bind_Some in H as (sar2 & _ & H). apply bind_Some in H as ([fo sn] & _ & H).
  apply bind_Some in H as (sar3 & _ & H). apply bind_Some in H as (v3 & _ & H). destruct v3 as [v3|]; [|by simplify_eq].
  apply bind_Some in H as (n3 & _ & H). apply bind_Some in H as (nonce & Hnonce & H). injection H as <- <-.
  split; [done|]. destruct Hn as (<- & ? & _). by eapply copy_string_text.
Qed.

Lemma is_challenge_ok f m c b ch c' :
  is_challenge f m c = Some (b, ch, c') -> bytes (buf m) -> conn_ok c -> conn_ok c'.
Proof.
  unfold is_challenge. intros H Hb [Hr Hn]. apply bind_Some in H as ([b1 ch1] & H & [= <- <- <-]).
  by eapply challenge_texts in H.
Qed.

(** * Integrity checks keep the buffer *)

Lemma set_message_len_ok m n r m' :
  stun_set_command_message_len_str m n = Some (r, m') -> bytes m -> bytes m' /\ zlen m' = zlen m.
Proof.
  unfold stun_set_command_message_len_str. case_if; [by intros [= <- <-]|]. intros H Hb.
  apply bind_Some in H as (m1 & H & [= <- <-]). unfold store16 in H.
  split; [eapply wr_block_bytes; [exact Hb|apply bytes_le_split|exact H]|by eapply wr_block_zlen].
Qed.

Section integrity.
Context `{C : Crypto}.

Lemma check_by_key_ok ct m len key pwd t hm r m' :
  stun_check_message_integrity_by_key_str ct m len key pwd t hm = Some (r, m') -> bytes m -> bytes m' /\ zlen m' = zlen m.
Proof.
  unfold stun_check_message_integrity_by_key_str. intros H Hb.
  apply bind_Some in H as (sar & _ & H). destruct sar as [a|]; [|by simplify_eq].
  apply bind_Some in H as (n & _ & H). destruct (check_shasize n t) as [sz|]; [|by simplify_eq].
  apply bind_Some in H as (ol & _ & H). destruct (ol <? 0); [by simplify_eq|]. cbv zeta in H.
  destruct (ol <? _); [by simplify_eq|]. apply bind_Some in H as ([r1 m1] & H1 & H).
  apply set_message_len_ok in H1 as [Hb1 Hz1]; [|done]. destruct (r1 <? 0); [by simplify_eq|].
  apply bind_Some in H as ([[res hm'] k] & _ & H). apply bind_Some in H as ([r2 m2] & H2 & H).
  apply set_message_len_ok in H2 as [Hb2 Hz2]; [|done]. destruct (res <? 0); [simplify_eq; split; [done|congruence]|].
  apply bind_Some in H as (old & _ & H). destruct old; simplify_eq; (split; [done|congruence]).
Qed.

Lemma check_integrity_str_ok ct m len u re p t k0 p0 hm j r m' :
  stun_check_message_integrity_str ct m len u re p t k0 p0 hm j = Some (r, m') -> bytes m -> bytes m' /\ zlen m' = zlen m.
Proof.
  unfold stun_check_message_integrity_str. case_decide; intros H1 Hb.
  - apply bind_Some in H1 as (pw & _ & H1). by eapply check_by_key_ok.
  - apply bind_Some in H1 as ([r1 k] & _ & H1). destruct (r1 <? 0); [by simplify_eq|]. by eapply check_by_key_ok.
Qed.
End integrity.

(** * Responses *)

Section responses.
Context `{N : NetDb} `{C : Crypto} `{V : Evp}.
Context (cfg : config) (stack : world -> frame) (maps : addr_maps).

Lemma run_check_integrity c m w :
  block_ok m -> run (check_integrity cfg stack c m) (λ x w', block_ok x.2 /\ w' = w) w.
Proof.
  intros [Hb Hz]. unfold check_integrity. apply wp_bind, wp_get_frame.
  assert (forall m', bytes m' /\ zlen m' = zlen (buf m) -> block_ok (set_buf m m')) as Hok.
  { intros m' [Hb' Hz']. split; cbn [buf set_buf]; [done|congruence]. }
  destruct (oauth cfg && _); apply wp_bind, run_lift; intros [r m'] Hm.
  - apply wp_ret. split; [|done]. apply Hok. by eapply check_by_key_ok.
  - apply check_integrity_str_ok in Hm; [|done]. destruct (r <? 1); apply wp_ret; (split; [by apply Hok|done]).
Qed.

Lemma run_authentic c m w :
  block_ok m -> run (authentic cfg stack c m) (λ x w', block_ok x.2 /\ w' = w) w.
Proof.
  intros Hm. unfold authentic. apply wp_bind, run_lift. intros n0 _. destruct (truth n0); [|by apply wp_ret].
  apply wp_bind. eapply wp_post; [by apply run_check_integrity|]. intros [rc m'] w' _ [Hm' ->]. by apply wp_ret.
Qed.

(** What a response decides: only a success response finishes, and a return is a
    failure. *)
Definition decided (m : stun_buffer) (v : verdict) : Prop :=
  v = VUnknown \/ v = VAgain \/ v = VReturn (-1) \/ (v = VFinished /\ stun_is_success_response m = Some true).

Lemma run_bind_response c m w :
  block_ok m -> conn_ok c ->
  run (bind_response cfg stack c m)
    (λ '(v, c', m') w', block_ok m' /\ conn_ok c' /\ decided m v /\ w' = w) w.
Proof.
  intros Hm Hc. unfold bind_response. apply wp_bind, wp_get_frame. apply wp_bind, run_lift. intros success Hs.
  destruct success.
  - apply wp_bind. eapply wp_post; [by apply run_authentic|]. intros [ok m'] w' _ [Hm' ->]. apply wp_ret.
    split; [done|]. split; [done|]. split; [|done]. unfold decided. destruct ok; auto.
  - apply wp_bind, run_lift. intros [[b ch] c1] H1. apply is_challenge_ok in H1; [|apply Hm|done].
    destruct b; [apply wp_ret; split; [done|]; split; [done|]; split; [unfold decided; auto|done]|].
    apply wp_bind, run_lift. intros [[b e] em] _.
    destruct b; apply wp_ret; (split; [done|]; split; [done|]; split; [unfold decided; auto|done]).
Qed.
End responses.

(** * Exchanges *)

Lemma conn_ok_stable c c' : (ci_realm c', ci_nonce c') = (ci_realm c, ci_nonce c) -> conn_ok c -> conn_ok c'.
Proof. unfold conn_ok. by intros [= -> ->]. Qed.

(** What the server was asked and what it said: one of the requests [P], complete, went
    out whole (after what a broken TLS write may have left), and a success response
    with its method and transaction id came back. *)
Definition confirmed `{Crypto} (t : SHATYPE) (s : settings) (P : stun_msg -> Prop) (w w' : world) : Prop :=
  exists w1 w2 req resp M realm nonce pre,
    steps w w1 /\ sends w1 w2 (pre ++ message_bytes req) /\ steps w2 w' /\
    P M /\ sealed t s true realm nonce M (to_sbuf req) /\
    answers req resp /\ stun_is_success_response resp = Some true.

Section exchange.
Context `{N : NetDb} `{C : Crypto} `{L : !CryptoLaws C} `{V : Evp}.
Context (cfg : config) (stack : world -> frame) (maps : addr_maps) (s : settings) (l : list (ioa_addr * ioa_addr)).
Context (Hf : forall w, frame_ok (stack w)) (Ht : hmac_total) (Hs : settings_hold cfg s) (Hm : maps_repr maps l).
Context (Hoauth : oauth cfg = false) (Hudp : use_tcp cfg = false) (Hneg : negative_protocol_test cfg = false)
  (Hdos : dos cfg = false).

Lemma run_send_buffer c m dc atc w :
  buffer_ok m -> conn_ok c ->
  run (send_buffer cfg c m dc atc)
    (λ '(r, c', m') w', m' = m /\ conn_ok c' /\ (0 < r -> exists pre, sends w w' (pre ++ message_bytes m))) w.
Proof using Hneg.
  intros Hm' Hc. eapply wp_weaken; [apply wp_send_buffer; [exact Hm'|]|by intros []].
  intros r c' m' w' bs _ _ Hid Ho Hsn. pose proof (Hid Hneg) as ->. split; [done|].
  destruct Ho as [pre _|bs _|fd bs _]; (split; [by destruct c|]); [intros _; by exists pre|lia|lia].
Qed.

Lemma run_recv_buffer c m sync q w :
  block_ok m -> buffer_ok q -> conn_ok c -> script_ok w ->
  run (recv_buffer cfg c m sync false None (Some q))
    (λ '(r, c', m', q') w', conn_ok c' /\ block_ok m' /\ q' = Some q /\ script_ok w' /\ (0 < r -> answers q m')) w.
Proof using Hneg Hudp.
  intros Hb Hq Hc Hok. assert (recv_ready cfg m) as Hrr by (split; [exact Hb|by rewrite Hudp]).
  assert (forall q', Some q = Some q' -> buffer_ok q') as Hqq by (by intros ? [= <-]).
  eapply wp_mono; [exact (wp_and _ _ _ _ _ _
    (wp_weaken (F := True) False _ _ _ _ (wp_recv_buffer cfg c m sync false None (Some q) w Hrr Hok Hqq) (λ f, match f with end))
    (steady_recv_buffer (λ c, (ci_realm c, ci_nonce c)) cfg c m sync false None (Some q) w))| |done].
  intros [[[r c'] m'] q'] w' Hst [((Hb' & _) & Hq' & _ & Hr) Hc']. cbn [fst snd] in Hc'.
  split; [by eapply conn_ok_stable|]. split; [done|]. split; [by apply Hq'|]. split; [by eapply script_ok_steps|].
  intros H0. by apply Hr.
Qed.

(** The wait for the response of [q]. *)
Lemma run_bind_receive c q m w :
  conn_ok c -> buffer_ok q -> block_ok m -> script_ok w ->
  run (iter (bind_receive_turn cfg stack) (c, q, m))
    (λ '(v, c', q', m') w', conn_ok c' /\ q' = q /\ block_ok m' /\ script_ok w' /\
       (v = None \/ v = Some VAgain \/ v = Some (VReturn (-1)) \/
        (v = Some VFinished /\ exists resp, answers q resp /\ stun_is_success_response resp = Some true))) w.
Proof using Hneg Hudp.
  intros Hc Hq Hb Hok.
  apply (run_iter _ (λ st w1, let '(c1, q1, m1) := st in conn_ok c1 /\ q1 = q /\ block_ok m1 /\ script_ok w1));
    [apply goes_bind_receive_turn| |done].
  intros [[c1 q1] m1] w1 (Hc1 & -> & Hb1 & Hok1). unfold bind_receive_turn. apply wp_bind.
  eapply wp_post; [by apply run_recv_buffer|]. intros [[[n c2] m2] q2] w2 _ (Hc2 & Hb2 & -> & Hok2 & Ha).
  apply wp_bind, run_lift. intros ? [= <-]. destruct (Z.ltb_spec 0 n); [|apply wp_ret; split; [done|]; split; [done|]; split; [done|]; split; [done|]; by left].
  apply wp_bind. eapply wp_post; [by apply run_bind_response|]. intros [[v c3] m3] w3 _ (Hb3 & Hc3 & Hv & ->).
  destruct Hv as [->|[->|[->|[-> Hsu]]]]; apply wp_ret; (split; [done|]; split; [done|]); (split; [done|]);
    [done|split; [done|auto]..|split; [done|]].
  do 3 right. split; [done|]. exists m2. auto.
Qed.

(** * Channel binding *)

Definition channel_bind_msg (tid : list Z) (chn : Z) (peer : ioa_addr) : stun_msg :=
  StunMsg (stun_make_request STUN_METHOD_CHANNEL_BIND) STUN_MAGIC_COOKIE tid (channel_bind_attrs l tid chn peer).

Lemma valid_channel_range chn : STUN_VALID_CHANNEL chn = true -> 0 <= chn < 65536.
Proof. unfold STUN_VALID_CHANNEL. intros H. zbool. lia. Qed.

Lemma bind_message_made chn peer m er e :
  block_ok m -> 0 <= chn < 65536 -> sendable l peer -> entropy_ok e ->
  exists chn' m', stun_set_channel_bind_request maps m (Some peer) chn er e = Some (chn', m') /\
    STUN_VALID_CHANNEL chn' = true /\ (STUN_VALID_CHANNEL chn = true -> chn' = chn) /\
    sealable m' (channel_bind_msg (tid_of e) chn' peer).
Proof using Hm.
  intros [Hb Hz] Hchn Hp He.
  destruct (channel_bind_builds maps l Hm (to_sbuf m) peer chn er e) as (chn' & b' & Ha & Hv & Hsame & [Hre Hc Hk]);
    [exact Hb|cbn [sb_mem to_sbuf]; rewrite Hz; done|done|done|done|].
  exists chn', (of_sbuf m b'). unfold stun_set_channel_bind_request, on_sbuf. rewrite Ha. split; [done|].
  split; [done|]. split; [done|]. assert (to_sbuf (of_sbuf m b') = b') as Hto by (by destruct b').
  split; [rewrite Hto; split; [exact Hre|by rewrite Hc|unfold channel_bind_msg in *; lia]|done|done|done].
Qed.

Lemma run_bind_request chn peer m w :
  negative_test cfg = false -> block_ok m -> 0 <= chn < 65536 -> sendable l peer -> script_ok w ->
  run (bind_request cfg maps chn peer m)
    (λ '(chn', m') w', script_ok w' /\ STUN_VALID_CHANNEL chn' = true /\ (STUN_VALID_CHANNEL chn = true -> chn' = chn) /\
       exists tid, sealable m' (channel_bind_msg tid chn' peer)) w.
Proof using Hm.
  intros Hneg' Hb Hchn Hp Hok. unfold bind_request. apply wp_bind. rewrite Hneg'. apply wp_ret.
  apply wp_bind. apply (wp_post _ (λ _ w1, script_ok w1)).
  { destruct (STUN_VALID_CHANNEL chn); [by apply wp_ret|]. apply wp_entropy; [done|]. intros e r Hr.
    unfold script_ok in *. rewrite Hr in Hok. by inversion Hok. }
  intros er w1 _ Hok1. apply wp_bind, wp_entropy; [done|]. intros e r Hr.
  assert (entropy_ok e /\ script_ok (pop w1 r)) as [He Hok2] by (unfold script_ok in *; rewrite Hr in Hok1; by inversion Hok1).
  destruct (bind_message_made chn peer m er e Hb Hchn Hp He) as (chn' & m' & Ha & Hv & Hsame & Hseal).
  eapply wp_lift; [exact Ha|]. split; [done|]. split; [done|]. split; [done|]. by exists (tid_of e).
Qed.

(** What a channel binding that returns 0 has done. *)
Definition bound (chn : Z) (peer : ioa_addr) (w w' : world) (chn' : Z) : Prop :=
  STUN_VALID_CHANNEL chn' = true /\ (STUN_VALID_CHANNEL chn = true -> chn' = chn) /\
  confirmed (shatype cfg) s (λ M, exists tid, M = channel_bind_msg tid chn' peer) w w'.

Lemma run_bind_turn chn0 peer w0 chn c req m w :
  negative_test cfg = false -> sendable l peer -> steps w0 w ->
  (STUN_VALID_CHANNEL chn0 = true -> chn = chn0) -> 0 <= chn < 65536 ->
  conn_ok c -> block_ok req -> block_ok m -> script_ok w ->
  run (bind_turn cfg stack maps peer (chn, c, req, m))
    (λ r w', match r with
             | inl (chn', c', req', m') =>
               steps w0 w' /\ (STUN_VALID_CHANNEL chn0 = true -> chn' = chn0) /\ 0 <= chn' < 65536 /\
               conn_ok c' /\ block_ok req' /\ block_ok m' /\ script_ok w'
             | inr (rc, chn', _) => rc = 0 -> bound chn0 peer w0 w' chn'
             end) w.
Proof using All.
  intros Hnt Hp Hst Hsame Hchn Hc Hreq Hmb Hok. unfold bind_turn. apply wp_bind.
  eapply wp_post; [by apply run_bind_request|]. intros [chn' q] w1 Hst1 (Hok1 & Hv & Hsame' & tid & Hseal).
  assert (STUN_VALID_CHANNEL chn0 = true -> chn' = chn0) as Hchn0.
  { intros H0. rewrite Hsame in Hsame' by done. by apply Hsame'. }
  destruct (conn_ok_holds c Hc) as (realm & nonce & Hh).
  destruct (seal_request_run cfg stack s Hf Ht Hs Hoauth c realm nonce q _ w1 Hh Hseal) as (q1 & Hq1 & Hqok & Hsealed).
  apply wp_bind. eapply run_eq; [exact Hq1|]. apply wp_bind. eapply wp_post; [by apply run_send_buffer|].
  intros [[k c2] q2] w2 Hst2 (-> & Hc2 & Hsent). destruct (Z.leb_spec k 0); [by apply wp_ret|].
  destruct (Hsent ltac:(lia)) as [pre Hpre].
  apply wp_bind. apply (run_eq _ false w2); [by apply not_rare_event_off|].
  apply wp_bind. eapply wp_post; [apply run_bind_receive; [done|done|done|by eapply script_ok_steps]|].
  intros [[[v c3] q3] m3] w3 Hst3 (Hc3 & -> & Hb3 & Hok3 & Hv3).
  assert (steps w0 w3) as Hst03 by (etransitivity; [exact Hst|]; etransitivity; [exact Hst1|]; by etransitivity).
  destruct Hv3 as [->|[->|[->|[-> (resp & Ha & Hsu)]]]]; apply wp_ret; [done| |done|].
  - split; [done|]. split; [done|]. split; [by apply valid_channel_range|]. split; [done|]. split; [apply Hqok|done].
  - intros _. split; [done|]. split; [done|].
    exists w1, w2, q1, resp, (channel_bind_msg tid chn' peer), realm, nonce, pre.
    split; [etransitivity; [exact Hst|exact Hst1]|]. split; [done|]. split; [done|]. split; [by exists tid|]. done.
Qed.

(** C21. A channel binding over UDP that returns 0 was confirmed: a complete CHANNEL-BIND
    request for a valid channel, the one asked for if there was one, and for the peer
    was sent, and a success response with its method and transaction id was received,
    whatever else the server sent before. *)
Theorem turn_channel_bind_confirmed chn c peer w :
  negative_test cfg = false -> sendable l peer -> 0 <= chn < 65536 -> conn_ok c -> script_ok w ->
  match turn_channel_bind cfg stack maps chn c peer w with
  | Ret (rc, chn', _) w' => rc = 0 -> bound chn peer w w' chn'
  | _ => True
  end.
Proof using All.
  intros Hnt Hp Hchn Hc Hok.
  assert (run (turn_channel_bind cfg stack maps chn c peer) (λ '(rc, chn', _) w', rc = 0 -> bound chn peer w w' chn') w) as Hr.
  { unfold turn_channel_bind. apply wp_bind, wp_get_frame.
    apply (run_iter _ (λ st w1, let '(chn1, c1, q1, m1) := st in
      steps w w1 /\ (STUN_VALID_CHANNEL chn = true -> chn1 = chn) /\ 0 <= chn1 < 65536 /\
      conn_ok c1 /\ block_ok q1 /\ block_ok m1 /\ script_ok w1)).
    - intros st. apply goes_bind_turn.
    - intros [[[chn1 c1] q1] m1] w1 (H1 & H2 & H3 & H4 & H5 & H6 & H7).
      eapply wp_post; [by apply run_bind_turn|]. intros [[[[chn2 c2] q2] m2]|[[rc chn2] c2]] w2 _ H; exact H.
    - split; [done|]. split; [done|]. split; [done|]. split; [done|]. split; [apply Hf|]. split; [apply Hf|done]. }
  destruct (turn_channel_bind _ _ _ _ _ _ _) as [[[rc chn'] c'] w'| | | |] eqn:He; [|done..]. exact (run_result _ _ _ _ _ Hr He).
Qed.

(** * Permissions *)

Definition permission_msg (tid : list Z) (peers : list ioa_addr) : stun_msg :=
  StunMsg (stun_make_request STUN_METHOD_CREATE_PERMISSION) STUN_MAGIC_COOKIE tid
    (concat ((λ a, opt_addr_attr l tid STUN_ATTRIBUTE_XOR_PEER_ADDRESS (Some a)) <$> peers)).

Lemma add_peers_built peers m M k :
  Forall (sendable l) peers -> built STUN_BUFFER_SIZE (to_sbuf m) M k -> k + 24 * zlen peers <= 700 ->
  exists m', add_peers maps m peers = Some m' /\
    built STUN_BUFFER_SIZE (to_sbuf m')
      (add_attrs M (concat ((λ a, opt_addr_attr l (m_tid M) STUN_ATTRIBUTE_XOR_PEER_ADDRESS (Some a)) <$> peers)))
      (k + 24 * zlen peers).
Proof using Hm.
  intros Hall. revert m M k. induction Hall as [|a peers Ha Hall IH]; intros m M k Hb Hk; cbn [add_peers fmap list_fmap concat].
  { exists m. split; [done|]. rewrite add_attrs_nil. change (zlen (@nil ioa_addr)) with 0. by rewrite Z.add_0_r. }
  rewrite zlen_cons in *. pose proof (zlen_nonneg peers).
  destruct (built_addr maps l Hm _ _ _ _ STUN_ATTRIBUTE_XOR_PEER_ADDRESS a Hb) as (b' & Hadd & Hb');
    [done|done|unfold STUN_BUFFER_SIZE, MAX_STUN_MESSAGE_SIZE; lia..|].
  unfold stun_attr_add_addr, on_sbuf. rewrite Hadd. cbn [mbind option_bind].
  assert (to_sbuf (of_sbuf m b') = b') as Hto by (by destruct b').
  destruct (IH (of_sbuf m b') _ (k + 24) ltac:(rewrite Hto; exact Hb')) as (m' & -> & Hm'); [lia|].
  exists m'. split; [done|]. rewrite add_attrs_app in Hm'. cbn [m_tid add_attrs] in Hm'.
  by replace (k + 24 * (1 + zlen peers)) with (k + 24 + 24 * zlen peers) by lia.
Qed.

(** Making the request: the header and the peers. *)
Lemma run_permission_request peers m w :
  block_ok m -> Forall (sendable l) peers -> zlen peers <= 28 -> script_ok w ->
  run (e ← entropy_; req ← lift (stun_init_request STUN_METHOD_CREATE_PERMISSION m e); lift (add_peers maps req peers))
    (λ m' w', script_ok w' /\ exists tid, sealable m' (permission_msg tid peers)) w.
Proof using Hm.
  intros [Hb Hz] Hall Hl Hok. apply wp_bind, wp_entropy; [done|]. intros e r Hr.
  assert (entropy_ok e /\ script_ok (pop w r)) as [He Hok1] by (unfold script_ok in *; rewrite Hr in Hok; by inversion Hok).
  destruct (built_request STUN_METHOD_CREATE_PERMISSION (to_sbuf (set_len m (stun_get_size (Some m)))) e) as (b0 & Hi & Hb0);
    [exact Hb|cbn [sb_mem to_sbuf buf set_len]; rewrite Hz; done|done|done|].
  apply wp_bind. eapply wp_lift; [unfold stun_init_request, stun_init_command, on_sbuf'; cbv zeta; unfold stun_init_request_str in Hi; rewrite Hi; reflexivity|].
  set (m0 := of_sbuf _ b0). assert (to_sbuf m0 = b0) as Hto by (by destruct b0).
  destruct (add_peers_built peers m0 (StunMsg (stun_make_request STUN_METHOD_CREATE_PERMISSION) STUN_MAGIC_COOKIE (tid_of e) []) 20 Hall)
    as (m1 & Hm1 & [Hre Hc Hk]); [|lia|].
  { rewrite Hto. destruct Hb0 as [Hr0 Hc0 Hk0]. split; [done| |done]. rewrite Hc0. exact Hz. }
  eapply wp_lift; [exact Hm1|]. split; [done|]. exists (tid_of e).
  split; [split; [exact Hre|done|cbn [m_tid] in *; unfold permission_msg, add_attrs in *; cbn [m_type m_cookie m_tid m_attrs app] in *; lia]|done|done|].
  cbn [permission_msg m_attrs]. apply find_attr_None. clear. induction peers as [|a peers IH]; [constructor|].
  cbn [fmap list_fmap concat opt_addr_attr app]. by constructor.
Qed.

Lemma run_permission_turn peers w0 c req m w :
  Forall (sendable l) peers -> zlen peers <= 28 -> steps w0 w -> conn_ok c -> block_ok req -> block_ok m -> script_ok w ->
  run (permission_turn cfg stack maps peers (c, req, m))
    (λ r w', match r with
             | inl (c', req', m') => steps w0 w' /\ conn_ok c' /\ block_ok req' /\ block_ok m' /\ script_ok w'
             | inr (rc, _) => rc = 0 -> confirmed (shatype cfg) s (λ M, exists tid, M = permission_msg tid peers) w0 w'
             end) w.
Proof using All.
  intros Hall Hl Hst Hc Hreq Hmb Hok. unfold permission_turn. apply run_assoc, wp_bind.
  eapply wp_post; [by apply run_permission_request|]. intros q w1 Hst1 (Hok1 & tid & Hseal).
  destruct (conn_ok_holds c Hc) as (realm & nonce & Hh).
  destruct (seal_request_run cfg stack s Hf Ht Hs Hoauth c realm nonce q _ w1 Hh Hseal) as (q1 & Hq1 & Hqok & Hsealed).
  apply wp_bind. eapply run_eq; [exact Hq1|]. apply wp_bind. eapply wp_post; [by apply run_send_buffer|].
  intros [[k c2] q2] w2 Hst2 (-> & Hc2 & Hsent). destruct (Z.leb_spec k 0); [by apply wp_exit|].
  destruct (Hsent ltac:(lia)) as [pre Hpre].
  apply wp_bind. apply (run_eq _ false w2); [by apply not_rare_event_off|].
  apply wp_bind. eapply wp_post; [apply run_bind_receive; [done|done|done|by eapply script_ok_steps]|].
  intros [[[v c3] q3] m3] w3 Hst3 (Hc3 & -> & Hb3 & Hok3 & Hv3).
  assert (steps w0 w1) as Hst01 by (etransitivity; [exact Hst|exact Hst1]).
  assert (steps w0 w3) as Hst03 by (etransitivity; [exact Hst01|]; by etransitivity).
  destruct Hv3 as [->|[->|[->|[-> (resp & Ha & Hsu)]]]]; [by apply wp_exit|apply wp_ret..].
  - split; [done|]. split; [done|]. split; [apply Hqok|done].
  - done.
  - intros _. exists w1, w2, q1, resp, (permission_msg tid peers), realm, nonce, pre.
    split; [exact Hst01|]. split; [done|]. split; [done|]. split; [by exists tid|]. done.
Qed.

(** C22. Permissions over UDP that return 0 were confirmed: a complete CREATE-PERMISSION
    request that lists the peers in order was sent, and a success response with its
    method and transaction id was received.  25 peers is the most the program asks. *)
Theorem turn_create_permission_confirmed c peers w :
  no_permissions cfg = false -> peers <> [] -> Forall (sendable l) peers -> zlen peers <= 28 -> conn_ok c -> script_ok w ->
  match turn_create_permission cfg stack maps c peers w with
  | Ret (rc, _) w' => rc = 0 -> confirmed (shatype cfg) s (λ M, exists tid, M = permission_msg tid peers) w w'
  | _ => True
  end.
Proof using All.
  intros Hnp Hne Hall Hl Hc Hok.
  assert (run (turn_create_permission cfg stack maps c peers)
    (λ '(rc, _) w', rc = 0 -> confirmed (shatype cfg) s (λ M, exists tid, M = permission_msg tid peers) w w') w) as Hr.
  { unfold turn_create_permission. rewrite Hnp. destruct (Z.ltb_spec (zlen peers) 1) as [H|H].
    { destruct peers; [done|]. rewrite zlen_cons in H. pose proof (zlen_nonneg peers). lia. }
    cbn [orb]. apply wp_bind, wp_get_frame. apply wp_bind, run_lift. intros _ _.
    apply (run_iter _ (λ st w1, let '(c1, q1, m1) := st in
      steps w w1 /\ conn_ok c1 /\ block_ok q1 /\ block_ok m1 /\ script_ok w1)).
    - intros st. apply goes_permission_turn.
    - intros [[c1 q1] m1] w1 (H1 & H2 & H3 & H4 & H5).
      eapply wp_post; [by apply run_permission_turn|]. intros [[[c2 q2] m2]|[rc c2]] w2 _ H'; exact H'.
    - split; [done|]. split; [done|]. split; [apply Hf|]. split; [apply Hf|done]. }
  destruct (turn_create_permission _ _ _ _ _ _) as [[rc c'] w'| | | |] eqn:He; [|done..]. exact (run_result _ _ _ _ _ Hr He).
Qed.
End exchange.

(** * Witnesses *)

Definition no_settings : settings := Settings [] [] [].

Lemma sample_settings_hold : settings_hold sample_cfg no_settings.
Proof. split; [by repeat split; try constructor..|reflexivity]. Qed.

Lemma sample_conn_ok : conn_ok sample_conn.
Proof. split; (split; [by apply zlen_zeros|split; [apply bytes_replicate0|by exists []]]). Qed.

Definition success_reply (method : Z) : list Z :=
  wire (stun_init_success_response method sample_message (Some (tid_of sample_entropy)) sample_entropy).

(** A server that confirms, after a message that is not a response. *)
Definition confirming (method : Z) : list answer :=
  [AEntropy sample_entropy; accepted] ++ readable ++ [AData (success_reply STUN_METHOD_BINDING)] ++
  readable ++ [AData (success_reply method)].

Lemma sample_relayed : sendable [] relayed.
Proof. split; [by apply addr_ok_concrete; vm_compute|left; by left]. Qed.

Lemma confirming_ok method : bytes (success_reply method) -> script_ok (sample_world (confirming method)).
Proof.
  intros Hb. unfold script_ok, confirming, readable. cbn [w_script sample_world app].
  apply Forall_cons; split; [exact sample_entropy_ok|]. do 3 (apply Forall_cons; split; [done|]).
  apply Forall_cons; split; [by apply bytes_concrete; vm_compute|]. do 2 (apply Forall_cons; split; [done|]).
  apply Forall_cons; split; [exact Hb|done].
Qed.

Lemma success_reply_bytes :
  bytes (success_reply STUN_METHOD_CHANNEL_BIND) /\ bytes (success_reply STUN_METHOD_CREATE_PERMISSION).
Proof. split; by apply bytes_concrete; vm_compute. Qed.

Abbreviation sample_bind :=
  (turn_channel_bind sample_cfg (λ _, sample_frame) addr_maps_init 0x4001 sample_conn relayed (sample_world (confirming STUN_METHOD_CHANNEL_BIND))).
Abbreviation sample_permission :=
  (turn_create_permission sample_cfg (λ _, sample_frame) addr_maps_init sample_conn [relayed; sample_addr] (sample_world (confirming STUN_METHOD_CREATE_PERMISSION))).


Lemma sample_bind_returns : exists chn c w', sample_bind = Ret (0, chn, c) w'.
Proof.
  assert (match sample_bind with Ret (rc, _, _) _ => rc = 0 | _ => False end) as H by (vm_compute; reflexivity).
  destruct sample_bind as [[[rc chn] c] w'| | | |]; [|contradiction..]. subst rc. by exists chn, c, w'.
Qed.

Lemma sample_permission_returns : exists c w', sample_permission = Ret (0, c) w'.
Proof.
  assert (match sample_permission with Ret (rc, _) _ => rc = 0 | _ => False end) as H by (vm_compute; reflexivity).
  destruct sample_permission as [[rc c] w'| | | |]; [|contradiction..]. subst rc. by exists c, w'.
Qed.

Lemma turn_channel_bind_confirmed_witness :
  exists chn c w', sample_bind = Ret (0, chn, c) w' /\
    bound sample_cfg no_settings [] 0x4001 relayed (sample_world (confirming STUN_METHOD_CHANNEL_BIND)) w' chn.
Proof.
  destruct sample_bind_returns as (chn & c & w' & E). exists chn, c, w'. split; [exact E|].
  pose proof (turn_channel_bind_confirmed sample_cfg (λ _, sample_frame) addr_maps_init no_settings [] (λ _, sample_frame_ok)
    toy_hmac_total sample_settings_hold maps_repr_init eq_refl eq_refl eq_refl eq_refl 0x4001 sample_conn relayed
    (sample_world (confirming STUN_METHOD_CHANNEL_BIND)) eq_refl sample_relayed ltac:(lia) sample_conn_ok (confirming_ok _ (proj1 success_reply_bytes))) as T.
  rewrite E in T. exact (T eq_refl).
Defined.

Lemma turn_create_permission_confirmed_witness :
  exists c w', sample_permission = Ret (0, c) w' /\
    confirmed SHATYPE_SHA1 no_settings (λ M, exists tid, M = permission_msg [] tid [relayed; sample_addr])
      (sample_world (confirming STUN_METHOD_CREATE_PERMISSION)) w'.
Proof.
  destruct sample_permission_returns as (c & w' & E). exists c, w'. split; [exact E|].
  pose proof (turn_create_permission_confirmed sample_cfg (λ _, sample_frame) addr_maps_init no_settings [] (λ _, sample_frame_ok)
    toy_hmac_total sample_settings_hold maps_repr_init eq_refl eq_refl eq_refl eq_refl sample_conn [relayed; sample_addr]
    (sample_world (confirming STUN_METHOD_CREATE_PERMISSION)) eq_refl ltac:(discriminate)
    (Forall_cons_2 _ _ _ sample_relayed (Forall_cons_2 _ _ _ sample_sendable (Forall_nil_2 _))) ltac:(vm_compute; discriminate)
    sample_conn_ok (confirming_ok _ (proj2 success_reply_bytes))) as T.
  rewrite E in T. exact (T eq_refl).
Defined.
