(* ===== verification/AnswerSpec.v ===== *)
(** A server that answers: over UDP, whatever datagrams arrive before, a request whose
    response comes ends with it.  Exact runs of [recv_buffer] and of the exchanges of
    [p2p/connect_manager.c]. *)

From S2P Require Import Prelude Defs CString IoAddr MsgAddr AddrText AddrTextSpec StunHeader StunAttr StunSpec StunSearch StunMsg StunBuild StunReply StunBuffer Crypto Integrity IntegritySpec Evp OAuth System Progress Session Samples Transport TransportSpec Credentials Sockets Connect Allocate Bind Retransmit Termination Steady AllocateSpec Scenario SealSpec BindSpec StunClientSpec.

(** * Datagrams *)

(** A datagram that the receive buffer holds and that has the size of a header. *)
Definition datagram (d : list Z) : Prop := bytes d /\ 20 <= zlen d <= STUN_BUFFER_SIZE - 1.

(** The method and the transaction id of a datagram. *)
Definition ids (d : list Z) : option (Z * list Z) :=
  k ← stun_get_method_str (Some d) (zlen d); tid ← rd_block d 8 12; Some (k, tid).

(** What arrives: the clock at the silent cycles before it, the clock at the cycle in
    which the socket becomes readable, and the bytes. *)
Record delivery : Type := Delivery { dl_times : list Z; dl_clock : Z; dl_data : list Z }.

Definition delivered (r : Z) (d : delivery) : list answer :=
  silence r (dl_times d) ++ [ATime (dl_clock d); ACall 1 EOTHER; AData (dl_data d)].

Lemma delivered_length r d : (0 < length (delivered r d))%nat.
Proof. unfold delivered. rewrite length_app. cbn [length]. lia. Qed.

(** The waits, and the retransmissions of [bs] between them. *)
Definition waiting (fd : Z) (bs : list Z) (d : delivery) : list action :=
  schedule (length (dl_times d)) 0 fd bs ++ [Waited (cycle_timeout (length (dl_times d)))].

(** The buffer after a datagram. *)
Definition received_in (m : stun_buffer) (d : list Z) : stun_buffer :=
  set_len (set_buf m (d ++ drop (length d) (buf m))) (zlen d).

Lemma wr_block_received m d :
  block_ok m -> datagram d -> wr_block (buf m) 0 d = Some (d ++ drop (length d) (buf m)).
Proof.
  intros [_ Hz] [_ Hl]. rewrite wr_block_ok by lia. change (Z.to_nat 0) with 0%nat. cbn [take app]. by replace (Z.to_nat (0 + zlen d)) with (length d) by (unfold zlen; lia).
Qed.

Lemma received_in_ok m d : block_ok m -> datagram d -> buffer_ok (received_in m d).
Proof.
  intros Hm Hd. pose proof (wr_block_received m d Hm Hd) as Hw. destruct Hm as [Hb Hz], Hd as [Hdb Hl].
  split; [split|]; unfold received_in; cbn [buf len set_len set_buf].
  - eapply wr_block_bytes; [exact Hb|exact Hdb|exact Hw].
  - rewrite <- Hz. by eapply wr_block_zlen.
  - unfold STUN_BUFFER_SIZE, MAX_STUN_MESSAGE_SIZE in *. lia.
Qed.

(** The receiver reads the identity of the datagram. *)
Lemma received_ids m d :
  block_ok m -> datagram d ->
  exists k tid, ids d = Some (k, tid) /\ stun_get_method (received_in m d) = Some k /\
    stun_tid_from_message (received_in m d) (replicate 12 0) = Some tid.
Proof.
  intros Hm Hd. pose proof (received_in_ok m d Hm Hd) as [Hok _].
  assert (forall p n, 0 <= p -> 0 <= n -> p + n <= zlen d -> rd_block (buf (received_in m d)) p n = rd_block d p n) as Hs.
  { intros p n Hp Hn Hl. change (buf (received_in m d)) with (d ++ drop (length d) (buf m)).
    pose proof (rd_block_sub _ _ _ _ p n (rd_block_here [] d (drop (length d) (buf m))) Hp Hn Hl) as H.
    change (zlen []) with 0 in H. change (0 + p) with p in H. exact H. }
  destruct Hd as [Hdb Hdl]. destruct (tid_from_message _ Hok) as (tid & Ht & Htr). rewrite Hs in Htr by lia.
  destruct (get_method_ok _ Hok) as (k & Hk). exists k, tid. split; [|done].
  unfold ids. unfold stun_get_method, stun_get_method_str in *. change (len (received_in m d)) with (zlen d) in Hk.
  destruct (Z.ltb_spec (zlen d) 2); [lia|]. unfold ldn16, load16 in *. rewrite Hs in Hk by lia. rewrite Hk.
  cbn [mbind option_bind]. by rewrite Htr.
Qed.

(** * Receiving *)

Section receive.
Context (cfg : config) (c : app_ur_conn_info) (q : stun_buffer) (r : Z) (tid : list Z) (method : Z).
Context (Hq : buffer_ok q) (Hr : 0 < len q <= r) (Hudp : use_tcp cfg = false) (Hplain : use_secure cfg = false)
  (Hdos : dos cfg = false) (Hneg : negative_protocol_test cfg = false)
  (Hssl : ci_ssl c = false) (Hfd : 0 <= ci_fd c < FD_SETSIZE).
Context (Htid : stun_tid_from_message q (replicate 12 0) = Some tid) (Hmethod : stun_get_method q = Some method).

(** A delivery in time: before the cycles are spent. *)
Definition timely (d : delivery) : Prop :=
  datagram (dl_data d) /\ (length (dl_times d) < MAX_LISTENING_CYCLE_NUMBER)%nat.

(** A datagram that is not the response. *)
Definition stray (d : delivery) : Prop := timely d /\ ids (dl_data d) <> Some (method, tid).

Abbreviation again := (recv_again cfg (ci_fd c) (ci_ssl c) true false None tid method).

Lemma udp_receive_run m d w s :
  block_ok m -> datagram d -> w_script w = AData d :: s ->
  udp_receive (ci_fd c) true m w = Ret (Some (zlen d), received_in m d) (passed w (w_errno w) s []).
Proof.
  intros Hm Hd Hs. pose proof Hd as [_ Hl]. unfold udp_receive.
  erewrite bind_run.
  2: { apply iter_done. unfold recv_turn, recv, ask, set_errno, get_errno, mbind, prog_bind. rewrite Hs. cbn.
       rewrite take_ge by (unfold zlen in *; lia). destruct (Z.ltb_spec (zlen d) 0); [lia|]. cbn. destruct (Z.ltb_spec (zlen d) 0); [lia|].
       reflexivity. }
  cbv beta iota. destruct (Z.ltb_spec (zlen d) 0); [lia|].
  erewrite bind_run by (unfold lift; by rewrite wr_block_received). unfold passed. rewrite app_nil_r. done.
Qed.

Lemma again_run rc0 m d w s :
  block_ok m -> timely d -> w_script w = delivered r d ++ s ->
  exists e, again (rc0, c, m, Some q) w =
    Ret ((if decide (ids (dl_data d) = Some (method, tid)) then inr else inl)
           (zlen (dl_data d), c, received_in m (dl_data d), Some q))
        (passed w e s (waiting (ci_fd c) (message_bytes q) d)).
Proof using All.
  intros Hm [Hd Hl] Hs. unfold delivered in Hs. rewrite <- app_assoc in Hs. cbn [app] in Hs.
  destruct (listen_readable cfg c q (dl_times d) (dl_clock d) w r (AData (dl_data d) :: s)) as [e He]; [done..|].
  exists e. unfold recv_again. rewrite Hudp. destruct (Z.leb_spec 0 (ci_fd c)); [|lia]. cbn [negb andb].
  set (w1 := passed w e _ _) in He.
  erewrite bind_run by (erewrite bind_run by exact He; reflexivity). cbv iota.
  erewrite bind_run.
  2: { unfold receive. rewrite Hplain, Hudp. destruct (Z.leb_spec 0 (ci_fd c)); [|lia]. cbn [negb andb].
       erewrite bind_run by (apply udp_receive_run; [done|done|reflexivity]). reflexivity. }
  cbv beta iota. destruct (received_ids m (dl_data d) Hm Hd) as (k & t & Hids & Hk & Ht). rewrite Hids.
  destruct Hd as [_ Hdl]. destruct (Z.ltb_spec 0 (zlen (dl_data d))); [|lia].
  erewrite bind_run by (unfold lift; by rewrite Ht). erewrite bind_run by (unfold lift; by rewrite Hk).
  unfold w1, passed. cbn [w_errno w_globals w_trace]. rewrite app_nil_r.
  destruct (Z.eqb_spec method k) as [<-|Hne]; cbn [negb]; [|by rewrite decide_False by congruence].
  case_bool_decide as Ht2; cbn [negb]; [subst t; by rewrite decide_True|by rewrite decide_False by congruence].
Qed.

Lemma recv_run strays d m w s :
  block_ok m -> Forall stray strays -> timely d -> ids (dl_data d) = Some (method, tid) ->
  w_script w = concat (delivered r <$> strays) ++ delivered r d ++ s ->
  exists e m', recv_buffer cfg c m true false None (Some q) w =
    Ret (zlen (dl_data d), c, received_in m' (dl_data d), Some q)
      (passed w e s (concat (waiting (ci_fd c) (message_bytes q) <$> strays ++ [d]))) /\ block_ok m'.
Proof using All.
  intros Hm Hst Hd Hids Hs. unfold recv_buffer.
  erewrite bind_run by (erewrite bind_run by (unfold lift; by rewrite Htid); erewrite bind_run by (unfold lift; by rewrite Hmethod); reflexivity).
  cbv beta iota zeta. generalize 0. revert m w Hm Hs.
  induction Hst as [|d1 strays [H1 Hne] Hst IH]; intros m w Hm Hs rc0; cbn [fmap list_fmap concat app] in *.
  - destruct (again_run rc0 m d w s Hm Hd Hs) as [e He]. rewrite decide_True in He by done.
    exists e, m. split; [|done]. rewrite app_nil_r. by apply iter_done.
  - rewrite <- app_assoc in Hs. destruct (again_run rc0 m d1 w _ Hm H1 Hs) as [e He]. rewrite decide_False in He by done.
    set (w1 := passed w e _ _) in He. destruct (IH (received_in m (dl_data d1)) w1) with (z := zlen (dl_data d1)) as (e' & m' & H' & Hb);
      [apply received_in_ok; [done|apply H1]|done|].
    exists e', m'. split; [|done]. eapply iter_next; [exact He| |].
    + unfold w1. cbn [w_script passed]. rewrite Hs, (length_app (delivered r d1)). pose proof (delivered_length r d1). lia.
    + rewrite H'. unfold w1, passed. cbn [w_globals w_trace]. by rewrite <- app_assoc.
Qed.
End receive.

(** * The response *)

(** The bytes of a message have its identity. *)
Lemma ids_wire b M : repr b M -> ids (wire b) = Some (method_bits (m_type M), m_tid M).
Proof.
  intros Hr. destruct (wire_read b M Hr) as [Hrd Hz]. pose proof (repr_len20 _ _ Hr) as Hl.
  assert (forall p n, 0 <= p -> 0 <= n -> p + n <= sb_len b -> rd_block (wire b) p n = rd_block (sb_mem b) p n) as Hs.
  { intros p n Hp Hn Hpn. pose proof (rd_block_sub _ _ _ _ p n Hrd Hp Hn Hpn) as H1.
    change (0 + p) with p in H1. by rewrite H1. }
  pose proof (repr_method _ _ Hr) as Hm. unfold ids, stun_get_method_str in *. rewrite Hz.
  destruct (Z.ltb_spec (sb_len b) 2); [lia|]. unfold ldn16, load16 in *. rewrite (Hs 0 2), (Hs 8 12), Hm by lia. cbn [mbind option_bind].
  by rewrite (repr_tid _ _ Hr).
Qed.

Section exchange.
Context `{N : NetDb} `{C : Crypto} `{L : !CryptoLaws C} `{V : Evp}.
Context (cfg : config) (stack : world -> frame) (maps : addr_maps) (s : settings) (l : list (ioa_addr * ioa_addr)).
Context (Hf : forall w, frame_ok (stack w)) (Ht : hmac_total) (Hs : settings_hold cfg s) (Hm : maps_repr maps l).
Context (Hoauth : oauth cfg = false) (Hsha : shatype cfg <> SHATYPE_ERROR).

(** The server's signature, when the client has credentials: the check looks at the
    presence and the length of the attribute. *)
Definition countersigned (nonce : list Z) (M : stun_msg) : Prop :=
  nonce = [] \/ exists h, find_attr STUN_ATTRIBUTE_MESSAGE_INTEGRITY (m_attrs M) = Some h /\ zlen h = shasize_of (shatype cfg).

Lemma authentic_run c realm nonce m M w :
  conn_holds c realm nonce -> repr (to_sbuf m) M -> countersigned nonce M ->
  authentic cfg stack c m w = Ret (true, m) w.
Proof using Hf Hoauth Hs Hsha Ht L.
  intros [(Hre & Hrb & Hrl) (Hn & Hnb & Hnl)] Hr Hc. unfold authentic.
  destruct (c_str_Some _ _ Hn) as (Hnn & rest & Hnm). destruct nonce as [|x nonce].
  { erewrite bind_run by (unfold lift; rewrite Hnm; cbn [app]; by rewrite rd8_head). done. }
  apply Forall_cons in Hnn as [Hx _]. erewrite bind_run by (unfold lift; rewrite Hnm; cbn [app]; by rewrite rd8_head).
  unfold truth. destruct (Z.eqb_spec x 0); [done|]. cbn [negb].
  destruct Hc as [|(h & Hh & Hhz)]; [done|]. unfold check_integrity. erewrite bind_run by (erewrite bind_run by reflexivity; rewrite Hoauth; cbn [andb];
    destruct (Hf w) as [[_ Hk64] _ [Hhb Hhm] _ _ _ _ _]; erewrite bind_run by (unfold lift;
      pose proof (check_user_value (to_sbuf m) M (g_uname cfg) (ci_realm c) (g_upwd cfg) (s_uname s) realm (s_upwd s) h (shatype cfg)
        (fr_key (stack w)) (fr_pwd (stack w)) (fr_hmac (stack w)) (fr_byte (stack w)) Hr Ht ltac:(apply Hs) Hre ltac:(apply Hs)
        Hk64 Hhm Hsha Hh Hhz) as Hcheck; cbn [sb_mem sb_len to_sbuf] in Hcheck; unfold get_turn_credentials_type; by rewrite Hcheck);
    reflexivity).
  cbv beta iota. change (1 <? 1) with false. cbv iota. unfold mret, prog_ret. by destruct m.
Qed.

(** * Rounds of an exchange *)

(** The success response of [method] to the request with [tid]. *)
Definition grants (nonce tid : list Z) (method : Z) (M : stun_msg) : Prop :=
  m_type M = stun_make_success_response method /\ m_tid M = tid /\ countersigned nonce M.

(** The type of a message whose class is [k]. *)
Lemma class_recognised k method m M :
  repr (to_sbuf m) M -> 0 <= method < 4096 -> m_type M = make_of k method ->
  method_bits (m_type M) = method /\ m_type M < 0x4000 /\
  stun_is_success_response m = Some (bool_decide (k = SuccessResp)).
Proof.
  intros Hr Hk Hty. destruct (make_of_spec k method Hk) as (E1 & E2 & E3 & E4). rewrite Hty.
  split; [done|]. split; [lia|].
  pose proof (repr_msg_type _ _ Hr) as H1. pose proof (repr_is_channel _ _ Hr) as H2. rewrite Hty in H1, H2.
  cbn [sb_mem sb_len to_sbuf] in *. unfold stun_is_success_response, stun_is_success_response_str. rewrite H1, H2, E3.
  assert (STUN_VALID_CHANNEL (make_of k method) = false) as ->.
  { unfold STUN_VALID_CHANNEL. apply andb_false_iff. left. apply Z.leb_gt. lia. }
  cbn [mbind option_bind]. f_equal. change (IS_STUN_SUCCESS_RESP ?t) with (is_class SuccessResp t).
  case_bool_decide as Hd; [by apply E4|]. destruct (is_class SuccessResp _) eqn:E; [|done]. apply E4 in E. done.
Qed.

Lemma bind_response_granted c realm nonce tid method m M w :
  conn_holds c realm nonce -> repr (to_sbuf m) M -> 0 <= method < 4096 -> grants nonce tid method M ->
  bind_response cfg stack c m w = Ret (VFinished, c, m) w.
Proof using Hf Hoauth Hs Hsha Ht L.
  intros Hc Hr Hk (Hty & _ & Hmi). unfold bind_response. erewrite bind_run by reflexivity.
  destruct (class_recognised SuccessResp method m M Hr Hk Hty) as (_ & _ & Hsu).
  erewrite bind_run by (unfold lift; by rewrite Hsu). rewrite bool_decide_eq_true_2 by done.
  erewrite bind_run by (by eapply authentic_run). done.
Qed.

(** What a sealed request says of itself. *)
Lemma sealed_ids realm nonce M m k :
  sealed (shatype cfg) s true realm nonce M (to_sbuf m) -> buffer_ok m -> 0 <= k < 4096 -> m_type M = stun_make_request k ->
  stun_tid_from_message m (replicate 12 0) = Some (m_tid M) /\ stun_get_method m = Some k /\ 20 <= len m.
Proof using L.
  intros (M' & Hsg & crc & Hr & _) Hmb Hk Hty. pose proof (signed_attrs _ _ _ _ _ _ Hsg) as (Hty' & _).
  assert (m_tid M' = m_tid M) as Htid.
  { unfold signed in Hsg. destruct nonce; [by rewrite Hsg|]. destruct Hsg as (h & data & b1 & -> & _). done. }
  pose proof (repr_method _ _ Hr) as Hmeth. pose proof (repr_tid _ _ Hr) as Ht1. cbn [m_type m_tid add_attr] in Hmeth, Ht1.
  rewrite Hty' in Hmeth. cbn [m_type add_attrs] in Hmeth. rewrite Hty in Hmeth.
  destruct (make_of_spec Request k Hk) as (E1 & _). cbn [make_of] in E1. rewrite E1 in Hmeth.
  destruct (tid_from_message m (proj1 Hmb)) as (tid & Hx & Hrd). cbn [sb_mem sb_len to_sbuf] in *. rewrite Ht1 in Hrd.
  injection Hrd as <-. rewrite Hx, Htid. split; [done|]. split; [done|]. pose proof (repr_len20 _ _ Hr) as Hl. cbn [sb_len to_sbuf] in Hl. lia.
Qed.

Context (Hudp : use_tcp cfg = false) (Hplain : use_secure cfg = false) (Hdos : dos cfg = false)
  (Hneg : negative_protocol_test cfg = false).

(** A connection with a plain socket. *)
Definition plain (c : app_ur_conn_info) : Prop := ci_ssl c = false /\ 0 <= ci_fd c < FD_SETSIZE.

(** A round of an exchange: the transaction id drawn, the datagrams that arrive before
    the response, the response. *)
Record round : Type := Round { rd_entropy : entropy; rd_strays : list delivery; rd_last : delivery }.

Definition tid_drawn (d : round) : list Z := tid_of (rd_entropy d).

(** The answers of the environment in a round whose socket takes [r] bytes at once. *)
Definition round_answers (r : Z) (d : round) : list answer :=
  AEntropy (rd_entropy d) :: ACall r EOTHER :: concat (delivered r <$> rd_strays d) ++ delivered r (rd_last d).

(** What a round makes: the request, the waits and retransmissions. *)
Definition round_actions (fd : Z) (q : stun_buffer) (d : round) : list action :=
  Sent fd (message_bytes q) :: concat (waiting fd (message_bytes q) <$> rd_strays d ++ [rd_last d]).

Definition round_ok (method : Z) (d : round) : Prop :=
  entropy_ok (rd_entropy d) /\ Forall (stray (tid_drawn d) method) (rd_strays d) /\ timely (rd_last d).

(** The wait of a round: the response comes into the buffer. *)
Lemma round_receive c q r method d m w rest :
  plain c -> buffer_ok q -> 0 < len q <= r -> block_ok m -> round_ok method d ->
  stun_tid_from_message q (replicate 12 0) = Some (tid_drawn d) -> stun_get_method q = Some method ->
  ids (dl_data (rd_last d)) = Some (method, tid_drawn d) ->
  w_script w = concat (delivered r <$> rd_strays d) ++ delivered r (rd_last d) ++ rest ->
  exists e m', recv_buffer cfg c m true false None (Some q) w =
    Ret (zlen (dl_data (rd_last d)), c, received_in m' (dl_data (rd_last d)), Some q)
      (passed w e rest (concat (waiting (ci_fd c) (message_bytes q) <$> rd_strays d ++ [rd_last d]))) /\ block_ok m'.
Proof using Hudp Hplain Hdos Hneg. intros [Hssl Hfd] Hq Hr Hmb (_ & Hst & Hti) Hx Hk Hids Hsc. by eapply recv_run. Qed.

(** A challenge for [method]: 401 or 438, with the realm and the nonce to use. *)
Record challenges (realm nonce tid : list Z) (method : Z) (M : stun_msg) : Prop := Challenges {
  cg_type : m_type M = stun_make_error_response method;
  cg_tid : m_tid M = tid;
  cg_error : exists code reason, find_attr STUN_ATTRIBUTE_ERROR_CODE (m_attrs M) = Some (error_attr code reason) /\
    nonzero reason /\ (code = 401 \/ code = 438);
  cg_realm : find_attr STUN_ATTRIBUTE_REALM (m_attrs M) = Some realm /\ nonzero realm /\ bytes realm /\ 1 <= zlen realm < 128;
  cg_nonce : find_attr STUN_ATTRIBUTE_NONCE (m_attrs M) = Some nonce /\ nonzero nonce /\ bytes nonce /\ 1 <= zlen nonce < 128;
  cg_plain : find_attr STUN_ATTRIBUTE_THIRD_PARTY_AUTHORIZATION (m_attrs M) = None;
}.

Lemma c_str_of_block d v : nonzero v -> rd_block d 0 (zlen v + 1) = Some (v ++ [0]) -> c_str d = Some v.
Proof.
  intros Hn Hrd. apply rd_block_Some in Hrd as (_ & Hl & _ & Hd). change (Z.to_nat 0) with 0%nat in Hd. rewrite drop_0 in Hd.
  assert (exists rest, d = v ++ 0 :: rest) as [rest ->].
  { exists (drop (Z.to_nat (zlen v + 1)) d). rewrite <- (take_drop (Z.to_nat (zlen v + 1)) d) at 1.
    rewrite <- Hd, <- app_assoc. done. }
  clear Hd Hl. induction Hn as [|x v Hx Hn IH]; cbn [app c_str]; [done|]. destruct (Z.eqb_spec x 0); [done|]. by rewrite IH.
Qed.

Lemma bind_response_challenged c realm nonce tid method m M w :
  plain c -> conn_ok c -> repr (to_sbuf m) M -> 0 <= method < 4096 -> challenges realm nonce tid method M ->
  exists c', bind_response cfg stack c m w = Ret (VAgain, c', m) w /\ plain c' /\ ci_fd c' = ci_fd c /\ conn_ok c' /\ conn_holds c' realm nonce.
Proof using Hf.
  intros Hpl Hc Hr Hk [Hty _ (code & reason & Her & Hrn & Hcode) (Hre & Hre1 & Hre2 & Hre3) (Hno & Hno1 & Hno2 & Hno3) Htp].
  destruct (class_recognised ErrResp method m M Hr Hk Hty) as (_ & Hlt & Hsu).
  destruct (make_of_spec ErrResp method Hk) as (_ & _ & _ & Hcl). pose proof (proj2 (Hcl ErrResp) eq_refl) as Herr.
  change (is_class ErrResp ?t) with (IS_STUN_ERR_RESP t) in Herr. change (make_of ErrResp method) with (stun_make_error_response method) in Herr.
  rewrite <- Hty in Herr.
  destruct (Hf w) as [_ _ _ _ _ [_ Hem] _ _]. destruct (proj1 Hc) as (Hz1 & _). destruct (proj2 Hc) as (Hz2 & _).
  destruct (challenge_spec (to_sbuf m) M Hr Hlt Herr code reason Her Hrn Hcode realm nonce Hre Hno ltac:(lia) ltac:(lia) Htp
    0 (fr_err_msg (stack w)) 129 (ci_realm c) (ci_nonce c) (Some (ci_server_name c)) (Some (ci_oauth c)) ltac:(lia)) as [Hch _].
  destruct Hch as (em & realm' & nonce' & Hrun & Hb1 & Hb2); [lia..|].
  match type of Hrun with _ = Some (true, ?x) => set (ch := x) in Hrun end.
  assert (is_challenge (stack w) m c = Some (true, ch, with_challenge c ch)) as Hic.
  { unfold is_challenge. cbn [sb_mem sb_len to_sbuf] in Hrun. rewrite Hrun. done. }
  exists (with_challenge c ch). split.
  - unfold bind_response. erewrite bind_run by reflexivity. erewrite bind_run by (unfold lift; by rewrite Hsu).
    rewrite bool_decide_eq_false_2 by done. by erewrite bind_run by (unfold lift; by rewrite Hic).
  - split; [by destruct c|]. split; [by destruct c|]. split.
    + eapply is_challenge_ok; [exact Hic|apply Hr|done].
    + split; (split; [by apply c_str_of_block|split; [done|lia]]).
Qed.

Lemma received_repr b M m : repr b M -> block_ok m -> datagram (wire b) -> repr (to_sbuf (received_in m (wire b))) M.
Proof.
  intros Hr Hmb Hd. pose proof (wr_block_received m _ Hmb Hd) as Hw. exact (repr_received b M _ _ Hr (proj1 Hmb) Hw).
Qed.

(** The response of a round is the message [M]. *)
Definition responds (method : Z) (M : stun_msg) (d : round) : Prop :=
  round_ok method d /\ method_bits (m_type M) = method /\ m_tid M = tid_drawn d /\
  exists b, dl_data (rd_last d) = wire b /\ repr b M.

(** What the exchange makes of the message: the verdict, and the connection. *)
Definition verdict_on (c : app_ur_conn_info) (M : stun_msg) (v : verdict) (P : app_ur_conn_info -> Prop) : Prop :=
  forall m w, repr (to_sbuf m) M -> exists c', bind_response cfg stack c m w = Ret (v, c', m) w /\ P c'.

(** The wait ends with the verdict on the response. *)
Lemma bind_receive_run c q r method d M v m w rest P :
  plain c -> buffer_ok q -> 0 < len q <= r -> block_ok m -> responds method M d -> v <> VUnknown ->
  stun_tid_from_message q (replicate 12 0) = Some (tid_drawn d) -> stun_get_method q = Some method ->
  verdict_on c M v P ->
  w_script w = concat (delivered r <$> rd_strays d) ++ delivered r (rd_last d) ++ rest ->
  exists e m' c', iter (bind_receive_turn cfg stack) (c, q, m) w =
    Ret (Some v, c', q, m')
      (passed w e rest (concat (waiting (ci_fd c) (message_bytes q) <$> rd_strays d ++ [rd_last d]))) /\ block_ok m' /\ P c'.
Proof using Hudp Hplain Hdos Hneg.
  intros Hpl Hq Hr Hmb (Hok & Hmt & Htid & b & Hd & Hrep) Hv Hx Hk Hresp Hsc.
  assert (ids (dl_data (rd_last d)) = Some (method, tid_drawn d)) as Hids by (rewrite Hd, (ids_wire _ _ Hrep); congruence).
  destruct (round_receive c q r method d m w rest) as (e & m' & He & Hmb'); [done..|].
  pose proof Hok as (_ & _ & Hdg & _).
  destruct (Hresp (received_in m' (dl_data (rd_last d))) (passed w e rest (concat (waiting (ci_fd c) (message_bytes q) <$> rd_strays d ++ [rd_last d]))))
    as (c' & Hc' & HP); [rewrite Hd in *; by apply received_repr|].
  exists e, (received_in m' (dl_data (rd_last d))), c'.
  split; [|split; [by apply received_in_ok|done]]. apply iter_done. unfold bind_receive_turn.
  erewrite bind_run by exact He. cbv beta iota. erewrite bind_run by done.
  destruct Hdg as [Hdb Hdl]. destruct (Z.ltb_spec 0 (zlen (dl_data (rd_last d)))); [|lia].
  erewrite bind_run by exact Hc'. by destruct v.
Qed.

Context (Hnt : negative_test cfg = false).

Lemma bind_request_run chn peer m w e rest :
  block_ok m -> STUN_VALID_CHANNEL chn = true -> sendable l peer -> entropy_ok e -> w_script w = AEntropy e :: rest ->
  exists m', bind_request cfg maps chn peer m w = Ret (chn, m') (pop w rest) /\ sealable m' (channel_bind_msg l (tid_of e) chn peer).
Proof using Hm Hnt.
  intros Hmb Hchn Hp He Hsc. pose proof (valid_channel_range _ Hchn) as Hrange. unfold bind_request.
  erewrite bind_run by (rewrite Hnt; reflexivity). erewrite bind_run by (rewrite Hchn; reflexivity).
  erewrite bind_run by (unfold entropy_, ask; rewrite Hsc; reflexivity).
  destruct (bind_message_made maps l Hm chn peer m (Entropy 0 [] []) e Hmb Hrange Hp He) as (chn' & m' & Ha & _ & Hsame & Hseal).
  rewrite Hsame in Ha, Hseal by done. exists m'. split; [|done]. unfold lift. by rewrite Ha.
Qed.

(** From the message to the verdict: the request is sealed with what the connection
    holds and sent, and the verdict on the response decides. *)
Lemma exchange_run {A} k0 k1 k2 (k3 : option verdict -> app_ur_conn_info -> stun_buffer -> stun_buffer -> prog A)
    c realm nonce req M0 m r method d M v w rest P :
  plain c -> conn_holds c realm nonce -> sealable req M0 -> 0 <= method < 4096 -> m_type M0 = stun_make_request method ->
  m_tid M0 = tid_drawn d -> block_ok m ->
  STUN_BUFFER_SIZE <= r -> responds method M d -> v <> VUnknown -> verdict_on c M v P ->
  w_script w = ACall r EOTHER :: concat (delivered r <$> rd_strays d) ++ delivered r (rd_last d) ++ rest ->
  exists e q m' c',
    (x ← seal_request cfg stack c req;
     match x with
     | inl c => k0 c
     | inr (c, req) =>
       '(k, c, req) ← send_buffer cfg c req false None;
       if k <=? 0 then k1 c else
       rare ← not_rare_event cfg;
       if (rare : bool) then k2 c else
       '(v, c, req, m) ← iter (bind_receive_turn cfg stack) (c, req, m);
       k3 v c req m
     end) w = k3 (Some v) c' q m' (passed w e rest (round_actions (ci_fd c) q d)) /\
    sealed (shatype cfg) s true realm nonce M0 (to_sbuf q) /\ block_ok q /\ block_ok m' /\ P c'.
Proof using All.
  intros Hpl Hc Hseal Hmethod Hty Htid Hmb Hr Hd Hv Hresp Hsc.
  destruct (seal_request_run cfg stack s Hf Ht Hs Hoauth c realm nonce req _ w Hc Hseal) as (q & Hq & Hqok & Hsealed).
  erewrite bind_run by exact Hq. cbv iota beta.
  destruct (sealed_ids realm nonce _ q method Hsealed Hqok Hmethod Hty) as (Hx & Hk & Hl). rewrite Htid in Hx.
  pose proof Hqok as [_ Hlen]. pose proof Hpl as [Hssl Hfd].
  assert (0 < len q <= r) as Hqr by (unfold STUN_BUFFER_SIZE, MAX_STUN_MESSAGE_SIZE in *; lia).
  erewrite bind_run by (apply (send_buffer_run cfg c q w r EOTHER _ Hqok Hqr Hneg Hssl (proj1 Hfd) Hsc)).
  cbv beta iota. destruct (Z.leb_spec (len q) 0); [lia|].
  erewrite bind_run by (by apply not_rare_event_off). cbv iota.
  set (w2 := passed w _ _ _).
  destruct (bind_receive_run c q r method d M v m w2 rest P) as (e & m' & c' & Hrun & Hm'); [done..|].
  exists e, q, m', c'. split; [|split; [done|split; [apply Hqok|done]]].
  erewrite bind_run by exact Hrun. unfold w2, passed, round_actions. cbn [w_globals w_trace]. by rewrite <- app_assoc.
Qed.

Lemma bind_turn_run chn peer c realm nonce req m r d M v w rest P :
  plain c -> conn_holds c realm nonce -> block_ok req -> block_ok m -> STUN_VALID_CHANNEL chn = true -> sendable l peer ->
  STUN_BUFFER_SIZE <= r -> responds STUN_METHOD_CHANNEL_BIND M d -> v = VFinished \/ v = VAgain -> verdict_on c M v P ->
  w_script w = round_answers r d ++ rest ->
  exists e q m' c', bind_turn cfg stack maps peer (chn, c, req, m) w =
    Ret (match v with VAgain => inl (chn, c', q, m') | _ => inr (0, chn, c') end)
      (passed w e rest (round_actions (ci_fd c) q d)) /\ block_ok q /\ block_ok m' /\ P c'.
Proof using All.
  intros Hpl Hc Hreq Hmb Hchn Hp Hr Hd Hv Hresp Hsc. pose proof Hd as ((He & _) & _).
  unfold round_answers in Hsc. cbn [app] in Hsc. rewrite <- app_assoc in Hsc. unfold bind_turn.
  destruct (bind_request_run chn peer req w (rd_entropy d) _ Hreq Hchn Hp He Hsc) as (q0 & Hq0 & Hseal).
  erewrite bind_run by exact Hq0. cbv beta iota. set (w1 := pop w _).
  destruct (exchange_run (λ c, mret (inr (-1, chn, c))) (λ c, mret (inr (-1, chn, c))) (λ c, mret (inr (0, chn, c)))
    (λ v c req m, match v with
                  | None => mret (inr (-1, chn, c))
                  | Some (VReturn rc) => mret (inr (rc, chn, c))
                  | Some VAgain => mret (inl (chn, c, req, m))
                  | Some _ => mret (inr (0, chn, c))
                  end) c realm nonce q0 (channel_bind_msg l (tid_of (rd_entropy d)) chn peer) m r STUN_METHOD_CHANNEL_BIND d M v w1 rest P)
    as (e & q & m' & c' & Hrun & _ & Hq & Hm' & HP); [done..|by destruct Hv as [->| ->]|done|reflexivity|].
  exists e, q, m', c'. split; [|done]. etransitivity; [apply Hrun|]. by destruct Hv as [->| ->].
Qed.

(** * A server that serves *)

Lemma granted_verdict c realm nonce tid method M :
  conn_holds c realm nonce -> 0 <= method < 4096 -> grants nonce tid method M -> verdict_on c M VFinished (λ _, True).
Proof using Hf Hoauth Hs Hsha Ht L. intros Hc Hk Hg m w Hr. exists c. split; [by eapply bind_response_granted|done]. Qed.

Lemma challenged_verdict c realm nonce tid method M :
  plain c -> conn_ok c -> 0 <= method < 4096 -> challenges realm nonce tid method M ->
  verdict_on c M VAgain (λ c', plain c' /\ conn_ok c' /\ conn_holds c' realm nonce).
Proof using Hf.
  intros Hpl Hc Hk Hch m w Hr.
  destruct (bind_response_challenged c realm nonce tid method m M w Hpl Hc Hr Hk Hch) as (c' & ? & ? & _ & ?). by exists c'.
Qed.


(** The rounds of a server that answers every request for [method]: challenges, each
    with a fresh nonce, and in the end the success.  [nonce] is the client's. *)
Inductive serves (method : Z) : list Z -> list round -> Prop :=
| serves_success nonce d M :
    responds method M d -> grants nonce (tid_drawn d) method M -> serves method nonce [d]
| serves_challenge nonce d M realm' nonce' ds :
    responds method M d -> challenges realm' nonce' (tid_drawn d) method M -> serves method nonce' ds ->
    serves method nonce (d :: ds).

Lemma round_answers_length r d : (0 < length (round_answers r d))%nat.
Proof. cbn [round_answers length]. lia. Qed.

Lemma channel_bind_method : 0 <= STUN_METHOD_CHANNEL_BIND < 4096.
Proof. unfold STUN_METHOD_CHANNEL_BIND. lia. Qed.

(** C16. Liveness of a channel binding: against a server that answers, after any number
    of challenges, and whatever other datagrams and silent cycles come between, the
    exchange returns 0 with the channel that was asked for. *)
Theorem turn_channel_bind_served chn peer c realm nonce r ds w rest :
  plain c -> conn_ok c -> conn_holds c realm nonce -> STUN_VALID_CHANNEL chn = true -> sendable l peer -> STUN_BUFFER_SIZE <= r ->
  serves STUN_METHOD_CHANNEL_BIND nonce ds -> w_script w = concat (round_answers r <$> ds) ++ rest ->
  exists c' w', turn_channel_bind cfg stack maps chn c peer w = Ret (0, chn, c') w' /\ w_script w' = rest.
Proof using All.
  intros Hpl Hok Hc Hchn Hp Hr Hds Hsc. unfold turn_channel_bind. erewrite bind_run by reflexivity.
  assert (forall req m w, block_ok req -> block_ok m -> w_script w = concat (round_answers r <$> ds) ++ rest ->
    exists c' w', iter (bind_turn cfg stack maps peer) (chn, c, req, m) w = Ret (0, chn, c') w' /\ w_script w' = rest) as Hgen;
    [|apply Hgen; [apply Hf..|done]].
  clear w Hsc. revert c realm Hpl Hok Hc.
  induction Hds as [nonce d M Hd Hg|nonce d M realm' nonce' ds Hd Hch _ IH];
    intros c realm Hpl Hok Hc req m w Hreq Hmb Hsc; cbn [fmap list_fmap concat] in Hsc; rewrite <- app_assoc in Hsc.
  - destruct (bind_turn_run chn peer c realm nonce req m r d M VFinished w rest (λ _, True))
      as (e & q & m' & c' & Hrun & _); [done..|by left|eapply granted_verdict; [exact Hc|by apply channel_bind_method|exact Hg]|done|].
    eexists _, _. split; [by apply iter_done|done].
  - destruct (bind_turn_run chn peer c realm nonce req m r d M VAgain w (concat (round_answers r <$> ds) ++ rest)
      (λ c', plain c' /\ conn_ok c' /\ conn_holds c' realm' nonce'))
      as (e & q & m' & c' & Hrun & Hq & Hm' & Hpl' & Hok' & Hc'); [done..|by right|eapply challenged_verdict; [exact Hpl|exact Hok|by apply channel_bind_method|exact Hch]|done|].
    set (w1 := passed w e _ _) in Hrun.
    destruct (IH c' realm' Hpl' Hok' Hc' q m' w1) as (c2 & w2 & Hi & Hw2); [done..|].
    exists c2, w2. split; [|done]. eapply iter_next; [exact Hrun| |exact Hi].
    unfold w1. cbn [w_script passed]. rewrite Hsc, !length_app. pose proof (round_answers_length r d). lia.
Qed.
End exchange.

(** * Witness *)

(** A challenge with REALM "r" and NONCE "n", and a success with an integrity value. *)
Definition bind_challenge_msg : stun_msg :=
  StunMsg 0x0119 STUN_MAGIC_COOKIE (tid_of sample_entropy)
    [(STUN_ATTRIBUTE_ERROR_CODE, error_attr 401 []); (STUN_ATTRIBUTE_REALM, [114]); (STUN_ATTRIBUTE_NONCE, [110])].
Definition bind_challenge_buf : sbuf :=
  SBuf (header_bytes 0x0119 24 STUN_MAGIC_COOKIE (tid_of sample_entropy) ++
        [0; 9; 0; 4; 0; 0; 4; 1; 0; 0x14; 0; 1; 114; 0; 0; 0; 0; 0x15; 0; 1; 110; 0; 0; 0]) 44.
Definition bind_success_msg : stun_msg :=
  StunMsg 0x0109 STUN_MAGIC_COOKIE (tid_of sample_entropy) [(STUN_ATTRIBUTE_MESSAGE_INTEGRITY, replicate 20 7)].
Definition bind_success_buf : sbuf :=
  SBuf (header_bytes 0x0109 24 STUN_MAGIC_COOKIE (tid_of sample_entropy) ++ [0; 8; 0; 20] ++ replicate 20 7) 44.

Lemma bind_challenge_repr : repr bind_challenge_buf bind_challenge_msg.
Proof. split; try done. by apply bytes_concrete. Qed.
Lemma bind_success_repr : repr bind_success_buf bind_success_msg.
Proof. split; try done. by apply bytes_concrete. Qed.

(** The challenge is lost once: the request is sent again.  Before the success a late
    copy of something else arrives. *)
Definition stray_delivery : delivery := Delivery [] 0 (success_reply STUN_METHOD_BINDING).
Definition served_rounds : list round :=
  [Round sample_entropy [] (Delivery [0] 1 (wire bind_challenge_buf));
   Round sample_entropy [stray_delivery] (Delivery [] 0 (wire bind_success_buf))].

Definition served_world : world := sample_world (concat (round_answers STUN_BUFFER_SIZE <$> served_rounds)).

Lemma served_datagrams :
  datagram (wire bind_challenge_buf) /\ datagram (wire bind_success_buf) /\ datagram (success_reply STUN_METHOD_BINDING).
Proof. repeat split; try (by apply bytes_concrete; vm_compute); by vm_compute. Qed.

Lemma served_serves : serves sample_cfg STUN_METHOD_CHANNEL_BIND [] served_rounds.
Proof.
  destruct served_datagrams as (D1 & D2 & D3). apply (serves_challenge _ _ _ _ bind_challenge_msg [114] [110]).
  - split; [split; [exact sample_entropy_ok|split; [done|split; [exact D1|cbn; unfold MAX_LISTENING_CYCLE_NUMBER; lia]]]|].
    split; [done|]. split; [done|]. exists bind_challenge_buf. split; [done|exact bind_challenge_repr].
  - split; try done; [exists 401, []; split; [done|split; [constructor|by left]]|..];
      (split; [done|split; [by apply Forall_singleton|split; [by apply bytes_concrete|by vm_compute]]]).
  - apply (serves_success _ _ _ _ bind_success_msg).
    + split; [split; [exact sample_entropy_ok|split; [|split; [exact D2|cbn; unfold MAX_LISTENING_CYCLE_NUMBER; lia]]]|].
      * apply Forall_singleton. split; [split; [exact D3|cbn; unfold MAX_LISTENING_CYCLE_NUMBER; lia]|].
        vm_compute. discriminate.
      * split; [done|]. split; [done|]. exists bind_success_buf. split; [done|exact bind_success_repr].
    + split; [done|]. split; [done|]. right. by exists (replicate 20 7).
Qed.

Lemma turn_channel_bind_served_witness :
  exists c' w', turn_channel_bind sample_cfg (λ _, sample_frame) addr_maps_init 0x4001 sample_conn relayed served_world =
    Ret (0, 0x4001, c') w' /\ w_script w' = [].
Proof.
  apply (turn_channel_bind_served sample_cfg (λ _, sample_frame) addr_maps_init no_settings [] (λ _, sample_frame_ok)
    toy_hmac_total sample_settings_hold maps_repr_init eq_refl ltac:(discriminate) eq_refl eq_refl eq_refl eq_refl eq_refl
    0x4001 relayed sample_conn [] [] STUN_BUFFER_SIZE served_rounds served_world []).
  - split; [reflexivity|]. cbn [ci_fd sample_conn]. unfold FD_SETSIZE. lia.
  - exact sample_conn_ok.
  - split; (split; [reflexivity|split; [constructor|by vm_compute]]).
  - reflexivity.
  - exact sample_relayed.
  - lia.
  - exact served_serves.
  - unfold served_world. cbn [w_script sample_world]. symmetry. apply app_nil_r.
Defined.
