(* ===== verification/NatDiscoverySpec.v ===== *)
(** What the discovery program finds: the decisions it prints for every behaviour of a
    NAT, against a server that follows RFC 5780, and its termination. *)

From S2P Require Import Prelude Defs CString IoAddr MsgAddr AddrText AddrTextSpec StunHeader StunAttr StunSpec StunSearch StunMsg StunBuild StunReply StunBuffer System Progress Session Samples Transport TransportSpec Credentials Sockets Connect Retransmit StunClient StunClientSpec Termination Bounded NatDiscovery.

(** * Requests *)

Definition change_attrs (change_ip change_port : Z) : list (Z * list Z) :=
  if truth change_ip || truth change_port
  then [(STUN_ATTRIBUTE_CHANGE_REQUEST, [0; 0; 0; 4 * b2z (truth change_ip) + 2 * b2z (truth change_port)])] else [].
Definition padding_attrs (padding : Z) : list (Z * list Z) :=
  if truth padding then [(STUN_ATTRIBUTE_PADDING, zeros 1500)] else [].

(** A binding request with the attributes of a test. *)
Definition binding_request (tid : list Z) (change_ip change_port padding : Z) : stun_msg :=
  StunMsg (stun_make_request STUN_METHOD_BINDING) STUN_MAGIC_COOKIE tid
    (change_attrs change_ip change_port ++ padding_attrs padding).

Lemma binding_request_built m e change_ip change_port padding :
  block_ok m -> entropy_ok e ->
  exists m', discovery_request m e change_ip change_port padding (-1) = Some (m', true) /\
    built STUN_BUFFER_SIZE (to_sbuf m') (binding_request (tid_of e) change_ip change_port padding) 1540.
Proof.
  intros [Hb Hz] He. unfold discovery_request, stun_prepare_binding_request.
  destruct (built_init STUN_MAGIC_COOKIE (stun_make_request STUN_METHOD_BINDING) (to_sbuf m) e) as (b0 & Hi & Hb0);
    [exact Hb|cbn [sb_mem to_sbuf]; rewrite Hz; done|done|done|].
  change (stun_set_binding_request_str (to_sbuf m) e)
    with (init_command_with STUN_MAGIC_COOKIE (stun_make_request STUN_METHOD_BINDING) (to_sbuf m) e).
  rewrite Hi. unfold on_sbuf'. cbn [mbind option_bind]. change (0 <=? -1) with false. cbv iota. cbn [mbind option_bind].
  cbn [sb_mem to_sbuf] in Hb0. rewrite Hz in Hb0. set (m0 := of_sbuf m b0).
  assert (to_sbuf m0 = b0) as Hm0 by (by destruct b0).
  assert (exists m1, (if truth change_ip || truth change_port
      then on_sbuf m0 (stun_attr_add_change_request_str (to_sbuf m0) change_ip change_port) else Some (0, m0)) = Some (0, m1) /\
    built STUN_BUFFER_SIZE (to_sbuf m1) (StunMsg (stun_make_request STUN_METHOD_BINDING) STUN_MAGIC_COOKIE (tid_of e)
      (change_attrs change_ip change_port)) 28) as (m1 & -> & Hb1).
  { unfold change_attrs. rewrite Hm0.
    destruct (truth change_ip || truth change_port) eqn:Ec.
    - unfold stun_attr_add_change_request_str. set (v := if truth change_ip then _ else _).
      destruct (built_add STUN_BUFFER_SIZE b0 _ 20 STUN_ATTRIBUTE_CHANGE_REQUEST (Some [0; 0; 0; v]) 4 [0; 0; 0; v] 8 Hb0)
        as (b1 & Ha & Hb1); [done|done| |done|done|done|done|].
      + destruct (change_request_value change_ip change_port) as (Hv & _). fold v in Hv. repeat constructor; lia.
      + unfold on_sbuf. rewrite Ha. exists (of_sbuf m0 b1). split; [done|].
        replace (to_sbuf (of_sbuf m0 b1)) with b1 by (by destruct b1). unfold v in Hb1.
        destruct (truth change_ip), (truth change_port); exact Hb1.
    - exists m0. split; [done|]. rewrite Hm0. destruct Hb0 as [Hr Hc Hk]. split; [exact Hr|exact Hc|]. etransitivity; [exact Hk|done]. }
  cbn [mbind option_bind]. unfold binding_request, padding_attrs. destruct (truth padding).
  - unfold stun_attr_add_padding_str. rewrite app_nil_r.
    destruct (built_add STUN_BUFFER_SIZE (to_sbuf m1) _ 28 STUN_ATTRIBUTE_PADDING (Some (zeros 1500)) 1500 (zeros 1500) 1504 Hb1)
      as (b2 & Ha & Hb2); [done|vm_compute; reflexivity|apply bytes_replicate0|done|vm_compute; reflexivity|done|done|].
    change (replicate (Z.to_nat 1500) 0) with (zeros 1500). unfold on_sbuf. rewrite Ha. exists (of_sbuf m1 b2).
    split; [done|]. replace (to_sbuf (of_sbuf m1 b2)) with b2 by (by destruct b2).
    destruct Hb2 as [Hr Hc Hk]. split; [exact Hr|exact Hc|]. unfold add_attr in Hk. cbn [m_type m_cookie m_tid m_attrs] in *. lia.
  - exists m1. split; [done|]. rewrite app_nil_r. destruct Hb1 as [Hr Hc Hk]. split; [done|done|lia].
Qed.

(** * The environment of one test *)

Definition ok : answer := ACall 0 EOTHER.

(** [bind] and the socket options before it, when there is an address to bind. *)
Definition bind_answers (la : ioa_addr) : list answer :=
  if addr_any (Some la) then [] else if sa_family la =? AF_INET then [ok; ok; ok] else [ok; ok; ok; ok].

(** What happens in a test: the descriptor, the transaction id, the name of the bound
    socket, and the datagram that comes back within three seconds, if one does. *)
Record probe : Type := Probe {
  pb_fd : Z;
  pb_entropy : entropy;
  pb_local : ioa_addr;
  pb_reply : option (list Z);
}.

Definition reply_answer (p : probe) : answer :=
  match pb_reply p with Some d => AData d | None => ACall (-1) EAGAIN end.

Definition probe_answers (la : ioa_addr) (p : probe) : list answer :=
  ACall (pb_fd p) EOTHER :: bind_answers la ++
  [AEntropy (pb_entropy p); ACall STUN_BUFFER_SIZE EOTHER; AName (Some (pb_local p)); ok; reply_answer p].

(** The address [init_socket] binds. *)
Definition bound_addr (d : discovery) : ioa_addr :=
  if 0 <=? nd_local_port d then default addr_zero (addr_set_port (Some (nd_local_addr d)) (nd_local_port d)) else nd_local_addr d.

Definition probe_ok (p : probe) : Prop := 0 <= pb_fd p /\ entropy_ok (pb_entropy p).

(** The datagrams of a trace: destination and bytes. *)
Definition datagrams (t : list action) : list (ioa_addr * list Z) :=
  omap (λ a, match a with SentTo _ to bs => Some (to, bs) | _ => None end) t.

(** A complete binding request with the flags. *)
Definition asks (change_ip change_port padding : Z) (bs : list Z) : Prop :=
  exists tid q, repr (to_sbuf q) (binding_request tid change_ip change_port padding) /\ bs = message_bytes q.

Lemma bind_run3 fd la w rest :
  0 <= fd -> addr_any (Some la) = false -> w_script w = bind_answers la ++ rest ->
  exists t, addr_bind fd la 0 UDP_SOCKET w = Ret 0 (passed w (w_errno w) rest t) /\ datagrams t = [].
Proof.
  intros Hfd Ha Hs. unfold bind_answers in Hs. rewrite Ha in Hs.
  assert (forall v r w0, w_script w0 = ok :: r -> setsockopt v w0 = Ret 0 (passed w0 (w_errno w0) r [SetOpt v])) as Hset
    by (intros v r w0 H0; unfold setsockopt, syscall, act, ask, mbind, prog_bind; cbn [w_script w_errno w_globals w_trace mret prog_ret]; by rewrite H0).
  assert (forall r w0, w_script w0 = ok :: r -> retry w0 = Ret 0 (passed w0 (w_errno w0) r [])) as Hret.
  { intros r w0 H0. apply iter_done. unfold retry_turn, syscall, ask, get_errno, mbind, prog_bind. rewrite H0.
    cbn. unfold passed. by rewrite app_nil_r. }
  unfold addr_bind. destruct (Z.ltb_spec fd 0); [lia|].
  assert (forall r, w_script w = ok :: ok :: r -> socket_set_reusable fd 0 UDP_SOCKET w =
    Ret 0 (passed w (w_errno w) r [SetOpt 0; SetOpt 0])) as Hre.
  { intros r H0. unfold socket_set_reusable. destruct (Z.ltb_spec fd 0); [lia|].
    erewrite bind_run by (by apply Hset). erewrite bind_run by (by apply Hset). unfold passed. cbn. by rewrite <- app_assoc. }
  assert (sa_family la =? AF_INET = true \/ sa_family la =? AF_INET = false /\ sa_family la =? AF_INET6 = true) as Hfam.
  { unfold addr_any in Ha. destruct (sa_family la =? AF_INET); [by left|]. right. split; [done|].
    by destruct (sa_family la =? AF_INET6). }
  destruct Hfam as [Hf|[Hf Hf6]]; rewrite Hf in *; cbn [app] in Hs.
  - erewrite bind_run by (by apply Hre). exists [SetOpt 0; SetOpt 0].
    erewrite Hret by done. split; [|done]. unfold passed. cbn. by rewrite app_nil_r.
  - rewrite Hf6. erewrite bind_run by (by apply Hre). erewrite bind_run by (by apply Hset).
    exists [SetOpt 0; SetOpt 0; SetOpt 0]. erewrite Hret by done. split; [|done]. unfold passed. cbn.
    rewrite app_nil_r. by rewrite <- app_assoc.
Qed.

Section runs.
Context `{N : NetDb}.
Context (stack : world -> frame) (maps : addr_maps).
Context (Hf : forall w, frame_ok (stack w)) (Hm : maps_repr maps []).

Lemma init_socket_run d fd w rest :
  0 <= fd -> w_script w = ACall fd EOTHER :: bind_answers (bound_addr d) ++ rest ->
  exists t, init_socket false (nd_local_port d) d w =
    Ret (set_local (set_fds d fd (nd_udp_fd2 d)) (bound_addr d) (nd_local_port d)) (passed w (w_errno w) rest t) /\ datagrams t = [].
Proof.
  intros Hfd Hs. unfold init_socket.
  set (w1 := World (w_errno w) (bind_answers (bound_addr d) ++ rest) (w_globals w) (w_trace w)).
  erewrite (bind_run _ _ _ fd w1).
  2: { unfold syscall, ask, mbind, prog_bind. rewrite Hs. destruct (Z.ltb_spec fd 0); [lia|done]. }
  cbv zeta. cbn [nd_udp_fd set_fds nd_local_addr]. destruct (Z.ltb_spec fd 0); [lia|].
  erewrite (bind_run _ _ _ (bound_addr d) w1).
  2: { unfold bound_addr. destruct (0 <=? nd_local_port d); [|done]. unfold lift, addr_set_port.
       by destruct (sa_family (nd_local_addr d) =? AF_INET), (sa_family (nd_local_addr d) =? AF_INET6). }
  cbv beta. destruct (addr_any (Some (bound_addr d))) eqn:Ha; cbn [negb].
  - exists []. split; [|done]. assert (bind_answers (bound_addr d) = []) as Hnil by (unfold bind_answers; by rewrite Ha). unfold w1, passed. rewrite Hnil, app_nil_r. done.
  - destruct (bind_run3 fd (bound_addr d) w1 rest Hfd Ha eq_refl) as (t & Ht & Hd). exists t. split; [|done].
    erewrite bind_run by exact Ht. done.
Qed.

(** The request goes to [remote_addr], and the socket has its name. *)
Lemma stunclient_send_run m sockfd change_ip change_port padding d e la w rest :
  block_ok m -> entropy_ok e -> 0 <= sockfd ->
  w_script w = AEntropy e :: ACall STUN_BUFFER_SIZE EOTHER :: AName (Some la) :: rest ->
  exists q, stunclient_send m sockfd change_ip change_port padding (-1) d w =
    Ret (q, set_local d la (addr_get_port (Some la)))
      (passed w (w_errno w) rest [SentTo sockfd (nd_remote_addr d) (message_bytes q)]) /\
    block_ok q /\ repr (to_sbuf q) (binding_request (tid_of e) change_ip change_port padding).
Proof.
  intros Hmb He Hfd Hs. destruct (binding_request_built m e change_ip change_port padding Hmb He) as (q & Hq & [Hr Hc Hk]).
  pose proof (repr_len20 _ _ Hr) as Hl. cbn [sb_mem sb_len to_sbuf] in Hl, Hc.
  exists q. split; [|split; [split; [apply Hr|done]|done]]. unfold stunclient_send.
  erewrite bind_run by (unfold entropy_, ask; rewrite Hs; reflexivity).
  erewrite bind_run by (unfold lift; rewrite Hq; reflexivity). cbv beta iota zeta.
  erewrite bind_run by (unfold lift; rewrite rd_block_ok by lia; reflexivity).
  change (Z.to_nat 0) with 0%nat. rewrite drop_0. change (take (Z.to_nat (len q)) (buf q)) with (message_bytes q).
  assert (zlen (message_bytes q) = len q) as Hz by (unfold message_bytes, zlen in *; rewrite length_take; lia).
  erewrite bind_run by (apply (sendto_run _ _ _ _ STUN_BUFFER_SIZE EOTHER (AName (Some la) :: rest)); [reflexivity|lia]).
  destruct (Z.ltb_spec (zlen (message_bytes q)) 0); [lia|].
  erewrite bind_run by (unfold addr_get_from_sock; destruct (Z.ltb_spec sockfd 0); [lia|reflexivity]). done.
Qed.

(** * Replies *)

(** An address as it is read from a message: the unused fields are zero. *)
Definition canonical (a : ioa_addr) : Prop := decoded a addr_zero = a /\ addr_ok a /\ encodable a.

(** The response of a server of RFC 5780 at [org] to a client it sees as [x]: [mapped] is
    what a gateway that rewrites addresses has left in MAPPED-ADDRESS, [o] the other
    address of the server. *)
Record reply (M : stun_msg) (x mapped org o : ioa_addr) : Prop := Reply {
  rp_type : m_type M = stun_make_success_response STUN_METHOD_BINDING;
  rp_cookie : m_cookie M = STUN_MAGIC_COOKIE;
  rp_attrs : m_attrs M = (λ '(t, a), (t, addr_attr M t a)) <$>
    [(STUN_ATTRIBUTE_XOR_MAPPED_ADDRESS, x); (STUN_ATTRIBUTE_MAPPED_ADDRESS, mapped);
     (STUN_ATTRIBUTE_RESPONSE_ORIGIN, org); (STUN_ATTRIBUTE_OTHER_ADDRESS, o)];
  rp_canonical : Forall canonical [x; mapped; org; o];
}.

(** The state after it. *)
Definition answered (d : discovery) (x mapped o : ioa_addr) : discovery :=
  set_other (print (set_reflexive d x)
    [Rfc5780Response (nd_counter d + 1); if same_addr mapped x then NoAlg else AlgDetected]) o.

Lemma discovery_success_run m M x mapped org o d w :
  repr (to_sbuf m) M -> reply M x mapped org o -> discovery_success stack maps m d w = Ret (answered d x mapped o) w.
Proof using Hm.
  intros Hr [Hty Hck Ha Hcan]. cbn [fmap list_fmap] in Ha.
  repeat (apply Forall_cons in Hcan as [(? & ? & ?) Hcan]).
  assert (STUN_ATTRIBUTE_MAPPED_ADDRESS ∈ addr_types) as Hin by (apply (bool_decide_eq_true_1 _); by vm_compute).
  pose proof (first_addr_at maps [] _ M [] STUN_ATTRIBUTE_XOR_MAPPED_ADDRESS x _ addr_zero Hm Hr ltac:(left) Ha eq_refl
    ltac:(done) ltac:(done)) as Hx.
  pose proof (first_addr_at maps [] _ M [_] STUN_ATTRIBUTE_MAPPED_ADDRESS mapped _ addr_zero Hm Hr Hin Ha eq_refl
    ltac:(done) ltac:(done)) as Hmp.
  pose proof (get_first_by_type_find _ M STUN_ATTRIBUTE_OTHER_ADDRESS Hr) as Ho.
  pose proof (get_first_by_type_find _ M STUN_ATTRIBUTE_RESPONSE_ORIGIN Hr) as Hor.
  rewrite Ha in Ho, Hor. destruct Ho as (ao & Ho & Hao), Hor as (ar & Hor & Har).
  pose proof (λ ca, get_addr_holds maps [] _ M ao STUN_ATTRIBUTE_OTHER_ADDRESS o ca Hm Hr ltac:(done) Hao ltac:(done) ltac:(done)) as Hgo.
  pose proof (λ ca, get_addr_holds maps [] _ M ar STUN_ATTRIBUTE_RESPONSE_ORIGIN org ca Hm Hr ltac:(done) Har ltac:(done) ltac:(done)) as Hgr.
  change (lookup_addr [] ?a) with a in Hx, Hmp, Hgo, Hgr. rewrite H in Hx. rewrite H2 in Hmp. rewrite H8 in Hgo.
  cbn [sb_mem sb_len to_sbuf] in *. unfold discovery_success.
  erewrite bind_run by (unfold lift, stun_attr_get_first_addr; by rewrite Hx). cbv beta iota zeta. change (0 <? 0) with false. cbv iota.
  erewrite bind_run by (unfold lift, stun_attr_get_first_by_type; by rewrite Ho). cbv iota.
  erewrite bind_run by (unfold lift, stun_attr_get_first_addr; by rewrite Hmp). cbv beta iota zeta. change (0 <? 0) with false. cbv iota.
  erewrite bind_run by (unfold lift, stun_attr_get_addr; by rewrite Hgo). cbv beta iota zeta.
  erewrite bind_run by (unfold lift, stun_attr_get_first_by_type; by rewrite Hor). cbv iota.
  erewrite bind_run by reflexivity. erewrite bind_run by (unfold lift, stun_attr_get_addr; by rewrite Hgr).
  unfold answered, mret, prog_ret. do 2 f_equal. unfold print. cbn. by rewrite <- app_assoc.
Qed.

Lemma discovery_message_run m M x mapped org o d w :
  repr (to_sbuf m) M -> reply M x mapped org o -> discovery_message stack maps m d w = Ret (0, answered d x mapped o) w.
Proof using Hm.
  intros Hr Hrp. destruct (binding_success_recognised m M Hr (rp_type _ _ _ _ _ Hrp) (rp_cookie _ _ _ _ _ Hrp)) as (H1 & H2 & H3 & H4).
  unfold discovery_message. erewrite bind_run by (unfold lift; by rewrite H1). cbn [negb].
  erewrite bind_run by (unfold lift; by rewrite H2). cbn [negb].
  erewrite bind_run by (unfold lift; by rewrite H3). cbv iota.
  erewrite bind_run by (unfold lift; by rewrite H4). cbv iota.
  by erewrite bind_run by (by eapply discovery_success_run).
Qed.

(** A length that no message has: after a failed [recv] it is [(size_t)-1]. *)
Lemma oversize_not_command m n : block_ok m -> 65556 <= n -> stun_is_command_message (Some (set_len m n)) = Some false.
Proof.
  intros [Hb Hz] Hn. unfold STUN_BUFFER_SIZE, MAX_STUN_MESSAGE_SIZE in Hz.
  unfold stun_is_command_message, stun_is_command_message_str, STUN_HEADER_LENGTH. cbn [buf len set_len].
  destruct (Z.leb_spec n 0); [done|]. destruct (Z.leb_spec 20 n); [|lia].
  destruct (ldn16_ok (buf m) 0) as (t & -> & _); [done|lia|lia|]. cbn [mbind option_bind]. destruct (negb _); [|done].
  destruct (rd8_ok (buf m) 0) as (b0 & -> & _); [lia|]. cbn [mbind option_bind]. destruct (_ =? 0); [|done].
  destruct (load32_ok (buf m) 4) as [mc Hmc]; [lia..|]. unfold ldn32. rewrite Hmc. cbn [fmap option_fmap option_map mbind option_bind].
  destruct (_ =? STUN_MAGIC_COOKIE); [|done].
  destruct (ldn16_ok (buf m) 2) as (l & -> & _ & Hl); [done|lia|lia|]. cbn [mbind option_bind]. destruct (_ =? 0); [|done].
  destruct (Z.eqb_spec (l + 20) n); [lia|done].
Qed.

(** * One test *)

(** The state when the request is out. *)
Definition sent (d : discovery) (p : probe) : discovery :=
  set_local (set_fds d (pb_fd p) (nd_udp_fd2 d)) (pb_local p) (addr_get_port (Some (pb_local p))).

(** What the program makes of what comes back: the return code and the state. *)
Inductive outcome_of (p : probe) (d : discovery) : Z -> discovery -> Prop :=
| Replied b M x mapped org o :
    pb_reply p = Some (wire b) -> repr b M -> reply M x mapped org o -> zlen (wire b) <= STUN_BUFFER_SIZE ->
    outcome_of p d 0 (answered d x mapped o)
| Silent : pb_reply p = None -> outcome_of p d 1 (print d [ReceiveTimeout]).

Lemma stunclient_receive_run m fd d p w rest rc d' :
  block_ok m -> outcome_of p d rc d' -> w_script w = ok :: reply_answer p :: rest ->
  exists m' e, stunclient_receive stack maps m fd d w = Ret (rc, m', d') (passed w e rest []).
Proof using Hm.
  intros Hmb Hout Hs. unfold stunclient_receive.
  set (w1 := World (w_errno w) (reply_answer p :: rest) (w_globals w) (w_trace w)).
  erewrite (bind_run _ _ _ 0 w1) by (unfold syscall, ask, mbind, prog_bind; rewrite Hs; reflexivity).
  destruct Hout as [b M x mapped org o Hp Hr Hrp Hz|Hp].
  - assert (reply_answer p = AData (wire b)) as Hra by (unfold reply_answer; by rewrite Hp).
    destruct (wire_read b M Hr) as [_ Hw]. pose proof (repr_len20 _ _ Hr) as Hl. rewrite <- Hw in Hl.
    set (w2 := passed w (w_errno w) rest []).
    assert (iter (discovery_recv_turn fd STUN_BUFFER_SIZE) tt w1 = Ret (zlen (wire b), wire b) w2) as Hrecv.
    { apply iter_done. unfold discovery_recv_turn, recv, ask, get_errno, mbind, prog_bind, w1, w2, passed. cbn [w_script w_errno w_globals w_trace]. rewrite Hra.
      rewrite take_ge by (unfold zlen in *; lia). cbn. destruct (Z.ltb_spec 0 (zlen (wire b))); [|lia]. by rewrite app_nil_r. }
    erewrite bind_run by exact Hrecv. cbv beta iota. destruct Hmb as [Hb Hbz].
    destruct (wr_block_is_Some (buf m) 0 (wire b)) as [mem Hmem]; [lia|lia|].
    erewrite bind_run by (unfold lift; by rewrite Hmem). cbv zeta.
    pose proof (repr_received b M (buf m) mem Hr Hb Hmem) as Hr'.
    assert (u64 (zlen (wire b)) = zlen (wire b)) as -> by (unfold u64; rewrite Z.mod_small; [done|unfold STUN_BUFFER_SIZE, MAX_STUN_MESSAGE_SIZE in *; lia]).
    erewrite bind_run by (eapply discovery_message_run; [|exact Hrp]; exact Hr'). by eexists _, _.
  - assert (reply_answer p = ACall (-1) EAGAIN) as Hra by (unfold reply_answer; by rewrite Hp).
    set (w2 := passed w EAGAIN rest []).
    assert (iter (discovery_recv_turn fd STUN_BUFFER_SIZE) tt w1 = Ret (-1, []) w2) as Hrecv.
    { apply iter_done. unfold discovery_recv_turn, recv, ask, set_errno, get_errno, mbind, prog_bind, w1, w2, passed. rewrite Hra. cbn. by rewrite app_nil_r. }
    erewrite bind_run by exact Hrecv. cbv beta iota.
    destruct (wr_block_is_Some (buf m) 0 []) as [mem Hmem]; [lia|apply zlen_nonneg|]. apply wr_block_nil in Hmem as Heq. subst mem.
    erewrite bind_run by (unfold lift; by rewrite Hmem). cbv zeta.
    assert (block_ok (set_buf m (buf m))) as Hmb' by (by destruct m).
    unfold discovery_message.
    erewrite bind_run.
    2: { erewrite bind_run by (unfold lift; rewrite (oversize_not_command (set_buf m (buf m))); [reflexivity|done|by vm_compute]).
         cbn [negb]. erewrite bind_run by reflexivity. unfold w2, passed. cbn [w_errno]. rewrite bool_decide_eq_true_2 by done. reflexivity. }
    by eexists _, _.
Qed.

Lemma run_stunclient_run change_ip change_port padding d p w rest rc d' :
  probe_ok p -> outcome_of p (sent d p) rc d' -> w_script w = probe_answers (bound_addr d) p ++ rest ->
  exists t bs w', run_stunclient stack maps change_ip change_port padding d w = Ret (rc, d') w' /\
    w_script w' = rest /\ w_trace w' = w_trace w ++ t /\
    datagrams t = [(nd_remote_addr d, bs)] /\ asks change_ip change_port padding bs.
Proof using Hm Hf.
  intros [Hfd He] Hout Hs. unfold probe_answers in Hs. cbn [app] in Hs. rewrite <- app_assoc in Hs. unfold run_stunclient.
  erewrite bind_run by reflexivity.
  destruct (init_socket_run d (pb_fd p) w _ Hfd Hs) as (t0 & Hi & Ht0).
  erewrite bind_run by exact Hi. set (w1 := passed w _ _ t0). set (d1 := set_local _ _ _).
  destruct (stunclient_send_run (fr_buffer (stack w)) (pb_fd p) change_ip change_port padding d1 (pb_entropy p) (pb_local p) w1
    (ok :: reply_answer p :: rest)) as (q & Hsend & Hqb & Hqr); [apply Hf|done|done|done|].
  erewrite bind_run by exact Hsend. cbv beta iota. set (w2 := passed w1 _ _ _).
  destruct (stunclient_receive_run q (pb_fd p) (sent d p) p w2 rest rc d' Hqb Hout eq_refl) as (m' & e & Hrecv).
  assert (nd_udp_fd d' = pb_fd p) as Hfd' by (by destruct Hout).
  erewrite bind_run by exact Hrecv. cbv beta iota. rewrite Hfd'.
  erewrite bind_run by reflexivity.
  exists (t0 ++ [SentTo (pb_fd p) (nd_remote_addr d) (message_bytes q)] ++ [] ++ [Closed (pb_fd p)]), (message_bytes q).
  eexists. split; [reflexivity|]. split; [reflexivity|]. split; [cbn; by rewrite <- !app_assoc|].
  split; [unfold datagrams in *; rewrite omap_app, Ht0; done|]. by exists (tid_of (pb_entropy p)), q.
Qed.

(** * The tests against a NAT *)

Definition results (l : list report) : list decision :=
  omap (λ r, match r with Result d => Some d | _ => None end) l.

Definition with_port (a : ioa_addr) (port : Z) : ioa_addr := default a (addr_set_port (Some a) port).

(** The reply to a request sent to [a]: the client is seen as [nat a], and the server's
    other address is [other a]. *)
Definition responds_at (nat other : ioa_addr -> ioa_addr) (a : ioa_addr) (p : probe) : Prop :=
  exists b M mapped org, pb_reply p = Some (wire b) /\ repr b M /\ reply M (nat a) mapped org (other a) /\
    zlen (wire b) <= STUN_BUFFER_SIZE.

(** A probe of the socket named [la]. *)
Definition probes (la : ioa_addr) (p : probe) : Prop := probe_ok p /\ pb_local p = la.

Lemma answered_results d x mapped o : results (nd_reports (answered d x mapped o)) = results (nd_reports d).
Proof. unfold answered, set_other, print, set_reflexive, results. cbn [nd_reports]. rewrite omap_app. destruct (same_addr _ _); apply app_nil_r. Qed.

(** Binding the socket again. *)
Lemma bound_again d la :
  is_inet la -> 0 <= sin_port la < 65536 -> nd_local_addr d = la -> nd_local_port d = addr_get_port (Some la) -> bound_addr d = la.
Proof.
  intros Hi Hp Hl Hpo. unfold bound_addr. rewrite Hl, Hpo. unfold addr_get_port, addr_set_port.
  assert (0 <= nswap16 (sin_port la)) as H0 by (apply nswap16_range).
  destruct Hi as [Hi|Hi]; rewrite Hi; cbn [Z.eqb Pos.eqb]; change (AF_INET =? AF_INET) with true; change (AF_INET6 =? AF_INET) with false;
    change (AF_INET6 =? AF_INET6) with true; cbv iota; destruct (Z.leb_spec 0 (nswap16 (sin_port la))); try lia;
    rewrite nswap16_nswap16 by done; by destruct la.
Qed.

(** A test whose response comes. *)
Lemma run_responded nat other change_ip change_port padding d la p w rest :
  probes la p -> responds_at nat other (nd_remote_addr d) p -> is_inet la -> 0 <= sin_port la < 65536 ->
  w_script w = probe_answers (bound_addr d) p ++ rest ->
  exists d' t bs w', run_stunclient stack maps change_ip change_port padding d w = Ret (0, d') w' /\
    w_script w' = rest /\ w_trace w' = w_trace w ++ t /\
    datagrams t = [(nd_remote_addr d, bs)] /\ asks change_ip change_port padding bs /\
    nd_local_addr d' = la /\ bound_addr d' = la /\ nd_remote_addr d' = nd_remote_addr d /\
    nd_reflexive_addr d' = nat (nd_remote_addr d) /\ nd_other_addr d' = other (nd_remote_addr d) /\ nd_rfc5780 d' = 1 /\
    results (nd_reports d') = results (nd_reports d).
Proof using Hm Hf.
  intros [Hp Hla] (b & M & mapped & org & Hpr & Hr & Hrp & Hz) Hi Hport Hs.
  pose proof (Replied p (sent d p) b M (nat (nd_remote_addr d)) mapped org _ Hpr Hr Hrp Hz) as Hout.
  destruct (run_stunclient_run change_ip change_port padding d p w rest _ _ Hp Hout Hs) as (t & bs & w' & H1 & H2 & H3 & H4 & H5).
  eexists _, t, bs, w'. split; [exact H1|]. do 4 (split; [done|]). split; [done|]. split; [apply bound_again; [done|done|done|by rewrite <- Hla]|].
  do 4 (split; [done|]). by rewrite answered_results.
Qed.

Lemma results_print d l : results (nd_reports (print d l)) = results (nd_reports d) ++ results l.
Proof. unfold print, results. cbn [nd_reports]. by rewrite omap_app. Qed.

(** The first test of a discovery, and the comparison of the local address. *)
Definition checked (d : discovery) : discovery :=
  if same_addr (nd_local_addr d) (nd_reflexive_addr d) then discoveryresult NoNat d else d.

Lemma checked_spec d la x :
  nd_local_addr d = la -> nd_reflexive_addr d = x ->
  nd_local_addr (checked d) = la /\ bound_addr (checked d) = bound_addr d /\ nd_remote_addr (checked d) = nd_remote_addr d /\
  nd_reflexive_addr (checked d) = x /\ nd_other_addr (checked d) = nd_other_addr d /\ nd_rfc5780 (checked d) = nd_rfc5780 d /\
  results (nd_reports (checked d)) = results (nd_reports d) ++ (if same_addr la x then [NoNat] else []).
Proof.
  intros Hl Hx. unfold checked, discoveryresult. rewrite Hl, Hx. destruct (same_addr la x); repeat (split; [done|]).
  - apply results_print.
  - by rewrite app_nil_r.
Qed.

(** The requests of a run, in order: destination and flags. *)
Definition requests (padding : Z) (l : list (ioa_addr * Z * Z)) (t : list action) : Prop :=
  Forall2 (λ x q, let '(a, change_ip, change_port) := q in x.1 = a /\ asks change_ip change_port padding x.2) (datagrams t) l.

Lemma requests_app padding l1 l2 t1 t2 :
  requests padding l1 t1 -> requests padding l2 t2 -> requests padding (l1 ++ l2) (t1 ++ t2).
Proof. unfold requests, datagrams. rewrite omap_app. apply Forall2_app. Qed.

Lemma requests_one padding a ci cp bs t : datagrams t = [(a, bs)] -> asks ci cp padding bs -> requests padding [(a, ci, cp)] t.
Proof. unfold requests. intros -> H. by repeat constructor. Qed.

Section mapping.
Context (nat other : ioa_addr -> ioa_addr) (port : Z).

Lemma with_port_run a w : lift (addr_set_port (Some a) port) w = Ret (with_port a port) w.
Proof. unfold lift, with_port, addr_set_port. by destruct (sa_family a =? AF_INET), (sa_family a =? AF_INET6). Qed.

(** The destinations of the mapping test, from the server's address [a]: [a] itself, the
    other address with the port of the command line, and, when the two mappings
    differ, the other address of the second server. *)
Definition mapping_dests (a : ioa_addr) : list ioa_addr :=
  if addr_any (Some (other a)) then [a] else
  let a2 := with_port (other a) port in
  a :: a2 :: (if same_addr (nat a) (nat a2) then [] else [other a2]).

(** What the program decides from the mappings of these destinations.  It is a description
    of the code: for an address-dependent NAT the third destination is not the one of
    RFC 5780 ([address_dependent]). *)
Definition mapping_decisions (la a : ioa_addr) : list decision :=
  (if same_addr la (nat a) then [NoNat] else []) ++
  (if addr_any (Some (other a)) then [] else
   let a2 := with_port (other a) port in
   [if same_addr (nat a) (nat a2) then EndpointIndependentMapping
    else if same_addr (nat a2) (nat (other a2)) then AddressDependentMapping else AddressPortDependentMapping]).

(** From the second test on. *)
Definition second_test (padding : Z) (a : ioa_addr) (d : discovery) : prog discovery :=
  '(_, d) ← run_stunclient stack maps 0 0 padding (set_remote d (with_port (other a) port));
  if same_addr (nat a) (nd_reflexive_addr d) then mret (discoveryresult EndpointIndependentMapping d) else
  let tmp_addr := nd_reflexive_addr d in
  '(_, d) ← run_stunclient stack maps 0 0 padding (set_remote d (nd_other_addr d));
  mret (discoveryresult (if same_addr tmp_addr (nd_reflexive_addr d) then AddressDependentMapping
                         else AddressPortDependentMapping) d).

Lemma second_test_run padding d la a ps w rest :
  let a2 := with_port (other a) port in
  let same := same_addr (nat a) (nat a2) in
  Forall (probes la) ps -> Forall2 (responds_at nat other) (a2 :: (if same then [] else [other a2])) ps ->
  is_inet la -> 0 <= sin_port la < 65536 -> bound_addr d = la ->
  w_script w = concat (probe_answers la <$> ps) ++ rest ->
  exists d' w' t, second_test padding a d w = Ret d' w' /\ w_script w' = rest /\
    results (nd_reports d') = results (nd_reports d) ++
      [if same then EndpointIndependentMapping
       else if same_addr (nat a2) (nat (other a2)) then AddressDependentMapping else AddressPortDependentMapping] /\
    w_trace w' = w_trace w ++ t /\
    requests padding ((λ x, (x, 0, 0)) <$> a2 :: (if same then [] else [other a2])) t.
Proof using Hm Hf.
  intros a2 same Hps Hresp Hi Hpo Hb Hs. unfold second_test. fold a2.
  apply Forall2_cons_inv_l in Hresp as (p2 & ps' & Ha2 & Hresp & ->).
  apply Forall_cons in Hps as [Hp2 Hps]. cbn [fmap list_fmap concat] in Hs. rewrite <- app_assoc in Hs.
  destruct (run_responded nat other 0 0 padding (set_remote d a2) la p2 w (concat (probe_answers la <$> ps') ++ rest) Hp2 Ha2 Hi Hpo)
    as (d2 & t2 & bs2 & w2 & Hr2 & Hs2 & Htr2 & Ht2 & Hq2 & _ & Hb2 & _ & Hx2 & Ho2 & _ & Hres2).
  { rewrite Hs. f_equal. f_equal. by rewrite <- Hb. }
  erewrite bind_run by exact Hr2. cbv beta iota zeta. cbn [nd_remote_addr nd_reports set_remote] in *. rewrite Hx2, Ho2.
  unfold discoveryresult. fold same. destruct same.
  { apply Forall2_nil_inv_l in Hresp as ->. eexists _, w2, t2. split; [reflexivity|]. split; [done|].
    split; [by rewrite results_print, Hres2|]. split; [done|]. by eapply requests_one. }
  apply Forall2_cons_inv_l in Hresp as (p3 & ps'' & Ha3 & Hnil & ->). apply Forall2_nil_inv_l in Hnil as ->.
  apply Forall_cons in Hps as [Hp3 _]. cbn [fmap list_fmap concat] in Hs2. rewrite app_nil_r in Hs2.
  destruct (run_responded nat other 0 0 padding (set_remote d2 (other a2)) la p3 w2 rest Hp3 Ha3 Hi Hpo)
    as (d3 & t3 & bs3 & w3 & Hr3 & Hs3 & Htr3 & Ht3 & Hq3 & _ & _ & _ & Hx3 & _ & _ & Hres3).
  { rewrite Hs2. f_equal. f_equal. by rewrite <- Hb2. }
  erewrite bind_run by exact Hr3. cbv beta iota zeta. cbn [nd_remote_addr nd_reports set_remote] in *. rewrite Hx3.
  eexists _, w3, (t2 ++ t3). split; [reflexivity|]. split; [done|].
  split; [by rewrite results_print, Hres3, Hres2|]. split; [by rewrite Htr3, Htr2, app_assoc|].
  apply (requests_app padding [(a2, 0, 0)] [(other a2, 0, 0)]); by eapply requests_one.
Qed.

Lemma mapping_run padding d la p ps w rest :
  Forall (probes la) (p :: ps) -> Forall2 (responds_at nat other) (mapping_dests (nd_remote_addr d)) (p :: ps) ->
  is_inet la -> 0 <= sin_port la < 65536 ->
  w_script w = probe_answers (bound_addr d) p ++ concat (probe_answers la <$> ps) ++ rest ->
  exists d' w' t, mapping_test stack maps port padding d w = Ret d' w' /\ w_script w' = rest /\
    results (nd_reports d') = results (nd_reports d) ++ mapping_decisions la (nd_remote_addr d) /\
    w_trace w' = w_trace w ++ t /\ requests padding ((λ x, (x, 0, 0)) <$> mapping_dests (nd_remote_addr d)) t.
Proof using Hm Hf.
  intros Hps Hresp Hi Hpo Hs. apply Forall_cons in Hps as [Hp Hps]. set (a := nd_remote_addr d) in *.
  unfold mapping_test, mapping_decisions, mapping_dests in *.
  assert (responds_at nat other a p) as Ha by (destruct (addr_any (Some (other a))); by apply Forall2_cons in Hresp as [? _]).
  destruct (run_responded nat other 0 0 padding d la p w _ Hp Ha Hi Hpo Hs)
    as (d1 & t1 & bs1 & w1 & Hr1 & Hs1 & Htr1 & Ht1 & Hq1 & Hl1 & Hb1 & _ & Hx1 & Ho1 & Hrfc1 & Hres1).
  erewrite bind_run by exact Hr1. cbv beta iota zeta. fold (checked d1).
  destruct (checked_spec d1 la (nat a) Hl1 Hx1) as (_ & Hb & _ & Hx & Ho & Hrfc & Hres).
  rewrite Hrfc, Hrfc1, Ho, Ho1, Hx. change (truth 1) with true. cbn [andb]. fold a. rewrite Hres1 in Hres.
  destruct (addr_any (Some (other a))); cbn [negb].
  { apply Forall2_cons in Hresp as [_ Hnil]. apply Forall2_nil_inv_l in Hnil as ->.
    exists (checked d1), w1, t1. split; [done|]. split; [done|]. split; [by rewrite app_nil_r|]. split; [done|]. by eapply requests_one. }
  rewrite (bind_run _ _ _ _ _ (with_port_run (other a) w1)). apply Forall2_cons in Hresp as [_ Hresp].
  destruct (second_test_run padding (checked d1) la a ps w1 rest) as (d2 & w2 & t2 & Hr2 & Hs2 & Hres2 & Htr2 & Hq2);
    [done..|by rewrite Hb|done|].
  exists d2, w2, (t1 ++ t2). split; [exact Hr2|]. split; [done|]. split; [by rewrite Hres2, Hres, <- app_assoc|].
  split; [by rewrite Htr2, Htr1, app_assoc|]. eapply (requests_app padding [(a, 0, 0)]); [by eapply requests_one|exact Hq2].
Qed.
(** The decisions of the mapping test are those of the mappings the server reports for
    its destinations, which the program reaches in turn with plain requests. *)
Theorem mapping_test_decides padding d la p ps w rest :
  Forall (probes la) (p :: ps) -> Forall2 (responds_at nat other) (mapping_dests (nd_remote_addr d)) (p :: ps) ->
  is_inet la -> 0 <= sin_port la < 65536 ->
  w_script w = probe_answers (bound_addr d) p ++ concat (probe_answers la <$> ps) ++ rest ->
  exists d' w' t, mapping_test stack maps port padding d w = Ret d' w' /\ w_script w' = rest /\
    results (nd_reports d') = results (nd_reports d) ++ mapping_decisions la (nd_remote_addr d) /\
    w_trace w' = w_trace w ++ t /\ requests padding ((λ x, (x, 0, 0)) <$> mapping_dests (nd_remote_addr d)) t.
Proof using Hm Hf. apply mapping_run. Qed.
End mapping.

(** ** A server with two addresses and two ports *)

Definition v4 (ip port : Z) : ioa_addr := IoaAddr AF_INET (nswap16 port) ip (zeros 16) 0.

(** OTHER-ADDRESS: the other address and the other port (RFC 5780, 7.4). *)
Definition alternate (ip1 ip2 port1 port2 : Z) (a : ioa_addr) : ioa_addr :=
  v4 (if s_addr a =? ip1 then ip2 else ip1) (if sin_port a =? nswap16 port1 then port2 else port1).

(** A NAT whose mapping depends on the address of the destination, and not on its
    port. *)
Record address_dependent (nat : ioa_addr -> ioa_addr) (ip1 ip2 : Z) : Prop := AddressDependent {
  ad_address : forall ip p p', nat (v4 ip p) = nat (v4 ip p');
  ad_differs : forall p p', same_addr (nat (v4 ip1 p)) (nat (v4 ip2 p')) = false /\ same_addr (nat (v4 ip2 p)) (nat (v4 ip1 p')) = false;
}.

(** The other mapping behaviours (RFC 4787, 4.1), over the endpoints of the server. *)
Definition endpoints (ip1 ip2 port1 port2 : Z) : list ioa_addr := [v4 ip1 port1; v4 ip1 port2; v4 ip2 port1; v4 ip2 port2].

Inductive behaves (nat : ioa_addr -> ioa_addr) (ip1 ip2 port1 port2 : Z) : decision -> Prop :=
| endpoint_independent :
    (forall a b, a ∈ endpoints ip1 ip2 port1 port2 -> b ∈ endpoints ip1 ip2 port1 port2 -> same_addr (nat a) (nat b) = true) ->
    behaves nat ip1 ip2 port1 port2 EndpointIndependentMapping
| address_port_dependent :
    (forall a b, a ∈ endpoints ip1 ip2 port1 port2 -> b ∈ endpoints ip1 ip2 port1 port2 -> a <> b -> same_addr (nat a) (nat b) = false) ->
    behaves nat ip1 ip2 port1 port2 AddressPortDependentMapping.

(** Where the requests go that tell a behaviour. *)
Definition behaviour_dests (ip1 ip2 port1 port2 : Z) (behaviour : decision) : list ioa_addr :=
  v4 ip1 port1 :: v4 ip2 port1 :: match behaviour with EndpointIndependentMapping => [] | _ => [v4 ip1 port2] end.

(** The server's other endpoint, from its first one and from its second address. *)
Lemma alternate_endpoints ip1 ip2 port1 port2 :
  ip1 <> ip2 -> ip2 <> 0 ->
  let other := alternate ip1 ip2 port1 port2 in
  addr_any (Some (other (v4 ip1 port1))) = false /\ with_port (other (v4 ip1 port1)) port1 = v4 ip2 port1 /\
  other (v4 ip2 port1) = v4 ip1 port2.
Proof.
  intros Hne Hz other.
  assert (other (v4 ip1 port1) = v4 ip2 port2) as -> by (unfold other, alternate; cbn [s_addr sin_port v4]; by rewrite !Z.eqb_refl).
  split; [|split; [done|]].
  - unfold addr_any. cbn [sa_family s_addr v4]. change (AF_INET =? AF_INET) with true. cbv iota. by destruct (Z.eqb_spec ip2 0).
  - unfold other, alternate. cbn [s_addr sin_port v4]. rewrite Z.eqb_refl. destruct (Z.eqb_spec ip2 ip1); [congruence|done].
Qed.

Lemma behaviour_decided nat ip1 ip2 port1 port2 behaviour :
  ip1 <> ip2 -> ip2 <> 0 -> behaves nat ip1 ip2 port1 port2 behaviour ->
  let other := alternate ip1 ip2 port1 port2 in
  mapping_dests nat other port1 (v4 ip1 port1) = behaviour_dests ip1 ip2 port1 port2 behaviour /\
  forall la, mapping_decisions nat other port1 la (v4 ip1 port1) =
    (if same_addr la (nat (v4 ip1 port1)) then [NoNat] else []) ++ [behaviour].
Proof.
  intros Hne Hz Hb other. destruct (alternate_endpoints ip1 ip2 port1 port2 Hne Hz) as (H1 & H2 & H3). fold other in H1, H2, H3.
  unfold mapping_dests, mapping_decisions, behaviour_dests. rewrite H1, H2, H3.
  assert (forall p p', v4 ip1 p <> v4 ip2 p' /\ v4 ip2 p' <> v4 ip1 p) as Hd by (intros p p'; split; intros [=]; congruence).
  destruct Hb as [Hb|Hb]; rewrite !Hb; try done; try apply Hd; unfold endpoints; set_solver.
Qed.

Lemma alternate_dests nat ip1 ip2 port1 port2 :
  ip1 <> ip2 -> ip2 <> 0 -> 0 <= port1 < 65536 -> address_dependent nat ip1 ip2 ->
  let other := alternate ip1 ip2 port1 port2 in
  mapping_dests nat other port1 (v4 ip1 port1) = [v4 ip1 port1; v4 ip2 port1; v4 ip1 port2] /\
  forall la, mapping_decisions nat other port1 la (v4 ip1 port1) =
    (if same_addr la (nat (v4 ip1 port1)) then [NoNat] else []) ++ [AddressPortDependentMapping].
Proof.
  intros Hne Hz Hp [_ Had] other. destruct (alternate_endpoints ip1 ip2 port1 port2 Hne Hz) as (H1 & H2 & H3). fold other in H1, H2, H3.
  unfold mapping_dests, mapping_decisions. by rewrite H1, H2, H3, (proj1 (Had port1 port1)), (proj2 (Had port1 port2)).
Qed.

(** C32. The program takes an address-dependent mapping for an address- and port-dependent
    one.  For its third test it reads [other_addr], which the response to the second
    test has replaced: the second server's other address is the first one, so that
    the mappings compared are those of two addresses again, not of two ports. *)
Theorem address_dependent_mapping_misreported nat ip1 ip2 port1 port2 padding d la p1 p2 p3 w rest :
  ip1 <> ip2 -> ip2 <> 0 -> 0 <= port1 < 65536 -> address_dependent nat ip1 ip2 ->
  nd_remote_addr d = v4 ip1 port1 -> is_inet la -> 0 <= sin_port la < 65536 ->
  Forall (probes la) [p1; p2; p3] ->
  Forall2 (responds_at nat (alternate ip1 ip2 port1 port2)) [v4 ip1 port1; v4 ip2 port1; v4 ip1 port2] [p1; p2; p3] ->
  w_script w = probe_answers (bound_addr d) p1 ++ probe_answers la p2 ++ probe_answers la p3 ++ rest ->
  exists d' w', mapping_test stack maps port1 padding d w = Ret d' w' /\
    last (results (nd_reports d')) = Some AddressPortDependentMapping /\
    nat (v4 ip2 port1) = nat (v4 ip2 port2).
Proof using Hm Hf.
  intros Hne Hz Hp Had Hrem Hi Hpo Hps Hresp Hs.
  destruct (alternate_dests nat ip1 ip2 port1 port2 Hne Hz Hp Had) as (Hdests & Hdec).
  destruct (mapping_run nat (alternate ip1 ip2 port1 port2) port1 padding d la p1 [p2; p3] w rest) as (d' & w' & t & Hr & _ & Hres & _);
    [done|by rewrite Hrem, Hdests|done|done|by rewrite Hs; cbn [fmap list_fmap concat]; rewrite app_nil_r, <- app_assoc|].
  exists d', w'. split; [done|]. split; [|apply Had]. rewrite Hres, Hrem, Hdec, app_assoc. by rewrite last_snoc.
Qed.

(** * Filtering *)

(** A reply of any kind: to a request with flags it comes from elsewhere. *)
Definition some_reply (p : probe) : Prop :=
  exists b M x mapped org o, pb_reply p = Some (wire b) /\ repr b M /\ reply M x mapped org o /\
    zlen (wire b) <= STUN_BUFFER_SIZE.

(** The NAT lets the reply through, or nothing comes in three seconds. *)
Definition filtered (passes : bool) (p : probe) : Prop := if passes then some_reply p else pb_reply p = None.

Lemma run_filtered passes change_ip change_port padding d la p w rest :
  probes la p -> filtered passes p -> is_inet la -> 0 <= sin_port la < 65536 ->
  w_script w = probe_answers (bound_addr d) p ++ rest ->
  exists d' t bs w', run_stunclient stack maps change_ip change_port padding d w = Ret (if passes then 0 else 1, d') w' /\
    w_script w' = rest /\ w_trace w' = w_trace w ++ t /\
    datagrams t = [(nd_remote_addr d, bs)] /\ asks change_ip change_port padding bs /\
    bound_addr d' = la /\ nd_remote_addr d' = nd_remote_addr d /\ results (nd_reports d') = results (nd_reports d).
Proof using Hm Hf.
  intros [Hp Hla] Hpass Hi Hport Hs.
  assert (exists d', outcome_of p (sent d p) (if passes then 0 else 1) d' /\ nd_local_addr d' = la /\
    nd_local_port d' = addr_get_port (Some la) /\ nd_remote_addr d' = nd_remote_addr d /\
    results (nd_reports d') = results (nd_reports d)) as (d' & Hout & Hl & Hlp & Hrem & Hres).
  { destruct passes.
    - destruct Hpass as (b & M & x & mapped & org & o & Hpr & Hr & Hrp & Hz). eexists. split; [by eapply Replied|].
      split; [done|]. split; [by rewrite <- Hla|]. split; [done|]. by rewrite answered_results.
    - eexists. split; [by apply Silent|]. split; [done|]. split; [by rewrite <- Hla|]. split; [done|].
      rewrite results_print. by rewrite app_nil_r. }
  destruct (run_stunclient_run change_ip change_port padding d p w rest _ _ Hp Hout Hs) as (t & bs & w' & H1 & H2 & H3 & H4 & H5).
  exists d', t, bs, w'. do 5 (split; [done|]). split; [by apply bound_again|done].
Qed.

Section filtering.
Context (nat other : ioa_addr -> ioa_addr).
(** Does a reply come through from the other address and port, from the other port? *)
Context (from_other from_port : bool).

Definition filtering_decision : decision :=
  if from_other then EndpointIndependentFiltering else if from_port then AddressDependentFiltering
  else AddressPortDependentFiltering.

Definition filtering_flags (a : ioa_addr) : list (ioa_addr * Z * Z) :=
  if addr_any (Some (other a)) then [(a, 0, 0)]
  else (a, 0, 0) :: (a, 1, 1) :: (if from_other then [] else [(a, 0, 1)]).

(** C31. The decisions of the filtering test: the replies to CHANGE-REQUEST with both flags
    and, if that one is filtered, with the port flag, tell the three filters apart. *)
Theorem filtering_test_decides padding d la p p2 p3 w rest :
  let a := nd_remote_addr d in
  probes la p -> responds_at nat other a p -> probes la p2 -> filtered from_other p2 -> probes la p3 -> filtered from_port p3 ->
  is_inet la -> 0 <= sin_port la < 65536 -> addr_any (Some (other a)) = false ->
  w_script w = probe_answers (bound_addr d) p ++ probe_answers la p2 ++
               (if from_other then [] else probe_answers la p3) ++ rest ->
  exists d' w' t, filtering_test stack maps padding d w = Ret d' w' /\ w_script w' = rest /\
    results (nd_reports d') = results (nd_reports d) ++ (if same_addr la (nat a) then [NoNat] else []) ++ [filtering_decision] /\
    w_trace w' = w_trace w ++ t /\ requests padding (filtering_flags a) t.
Proof using Hm Hf.
  intros a Hp Ha Hp2 Hf2 Hp3 Hf3 Hi Hpo Hany Hs. unfold filtering_test, filtering_decision, filtering_flags. rewrite Hany.
  destruct (run_responded nat other 0 0 padding d la p w _ Hp Ha Hi Hpo Hs)
    as (d1 & t1 & bs1 & w1 & Hr1 & Hs1 & Htr1 & Ht1 & Hq1 & Hl1 & Hb1 & Hrem1 & Hx1 & Ho1 & Hrfc1 & Hres1).
  erewrite bind_run by exact Hr1. cbv beta iota zeta. fold (checked d1).
  destruct (checked_spec d1 la (nat a) Hl1 Hx1) as (_ & Hb & Hrem & _ & Ho & Hrfc & Hres).
  fold a in Ho1, Hrem1, Ht1. rewrite Hrfc, Hrfc1, Ho, Ho1, Hany. change (truth 1) with true. cbn [andb negb]. rewrite Hres1 in Hres. rewrite Hrem1 in Hrem.
  destruct (run_filtered from_other 1 1 padding (checked d1) la p2 w1 ((if from_other then [] else probe_answers la p3) ++ rest))
    as (d2 & t2 & bs2 & w2 & Hr2 & Hs2 & Htr2 & Ht2 & Hq2 & Hb2 & Hrem2 & Hres2); [done..|by rewrite Hb, Hb1|].
  erewrite bind_run by exact Hr2. cbv beta iota. rewrite Hrem in Ht2. rewrite Hres in Hres2. rewrite Hrem in Hrem2.
  destruct from_other.
  { change (truth 0) with false. cbn [negb]. eexists _, w2, (t1 ++ t2). split; [reflexivity|]. split; [done|].
    split; [unfold discoveryresult; by rewrite results_print, Hres2, <- app_assoc|]. split; [by rewrite Htr2, Htr1, app_assoc|].
    apply (requests_app padding [(a, 0, 0)] [(a, 1, 1)]); by eapply requests_one. }
  change (truth 1) with true. cbn [negb].
  destruct (run_filtered from_port 0 1 padding d2 la p3 w2 rest)
    as (d3 & t3 & bs3 & w3 & Hr3 & Hs3 & Htr3 & Ht3 & Hq3 & _ & _ & Hres3); [done..|by rewrite Hb2, Hs2|].
  erewrite bind_run by exact Hr3. cbv beta iota. rewrite Hrem2 in Ht3. rewrite Hres2 in Hres3.
  eexists _, w3, (t1 ++ t2 ++ t3). split; [reflexivity|]. split; [done|].
  split; [unfold discoveryresult; rewrite results_print, Hres3, <- app_assoc; by destruct from_port|].
  split; [by rewrite Htr3, Htr2, Htr1, !app_assoc|].
  apply (requests_app padding [(a, 0, 0)] [(a, 1, 1); (a, 0, 1)]); [by eapply requests_one|].
  apply (requests_app padding [(a, 1, 1)] [(a, 0, 1)]); by eapply requests_one.
Qed.
End filtering.

(** * The program *)

Lemma run_test_on t o host body first d d1 d2 w w1 w2 :
  init_test stack first (op_remote_port o) (op_local_addr o) host (print d [Title t]) w = Ret d1 w1 ->
  body d1 w1 = Ret d2 w2 -> run_test stack true t o host body (first, d) w = Ret (false, d2) w2.
Proof. intros H1 H2. unfold run_test. erewrite bind_run by exact H1. by erewrite bind_run by exact H2. Qed.

(** [init] without a local address. *)
Lemma init_test_run first port l host d a w :
  rd8 l 0 = Some 0 -> make_ioa_addr (Some host) port (Some (nd_remote_addr d)) (fr_byte (stack w)) = Some (0, Some a) ->
  init_test stack first port l host d w =
  Ret (set_remote (set_rfc5780 (set_local d addr_zero (if first then nd_local_port d else -1)) 0) a) w.
Proof.
  intros Hl Hmk. unfold init_test. erewrite bind_run by reflexivity. erewrite bind_run by (unfold lift; by rewrite Hl).
  erewrite bind_run by reflexivity. cbv zeta. erewrite bind_run.
  2: { unfold lift. change (nd_remote_addr (set_rfc5780 _ _)) with (nd_remote_addr d). by rewrite Hmk. }
  cbv beta iota. change (0 <? 0) with false. cbv iota. by erewrite bind_run by reflexivity.
Qed.

(** What [-m address] prints: the mapping test against the address and the default
    port, from a fresh socket, and the exit code 0. *)
Lemma mapping_option_run nat other host a la p ps w rest :
  let port := DEFAULT_STUN_PORT in
  (forall j, make_ioa_addr (Some host) port (Some addr_zero) j = Some (0, Some a)) ->
  Forall (probes la) (p :: ps) -> Forall2 (responds_at nat other) (mapping_dests nat other port a) (p :: ps) ->
  is_inet la -> 0 <= sin_port la < 65536 ->
  w_script w = probe_answers addr_zero p ++ concat (probe_answers la <$> ps) ++ rest ->
  exists l w' t, main stack maps [(109, [])] (Some host) w = Ret (0, l) w' /\ w_script w' = rest /\
    results l = mapping_decisions nat other port la a /\
    w_trace w' = w_trace w ++ t /\ requests 0 ((λ x, (x, 0, 0)) <$> mapping_dests nat other port a) t.
Proof using Hm Hf.
  intros port Hmk Hps Hresp Hi Hpo Hs. unfold main.
  erewrite bind_run by (cbn [read_options]; erewrite bind_run by reflexivity; reflexivity).
  erewrite bind_run by reflexivity. unfold run_tests. cbn [run_test op_lifetime op_hairpinning op_filtering op_collision op_mapping].
  set (d0 := Discovery _ _ _ _ _ _ _ _ _ _).
  set (d1 := set_remote (set_rfc5780 (set_local (print d0 [Title Mapping]) addr_zero (-1)) 0) a).
  destruct (mapping_run nat other port 0 d1 la p ps w rest) as (d2 & w2 & t2 & Hr2 & Hs2 & Hres2 & Htr2 & Hq2); [done..|].
  erewrite bind_run.
  2: { erewrite bind_run by reflexivity. erewrite bind_run by reflexivity.
       erewrite bind_run by (eapply run_test_on; [apply init_test_run; [reflexivity|apply Hmk]|exact Hr2]).
       erewrite bind_run by reflexivity. erewrite bind_run by reflexivity. reflexivity. }
  erewrite bind_run by reflexivity. erewrite bind_run by reflexivity.
  eexists _, _, (t2 ++ [Closed (nd_udp_fd d2); Closed (nd_udp_fd2 d2)]). split; [reflexivity|]. split; [exact Hs2|].
  split; [exact Hres2|]. split; [cbn; by rewrite Htr2, <- !app_assoc|].
  unfold requests, datagrams in *. rewrite omap_app. by rewrite app_nil_r.
Qed.
(** C30. [-m address] against a server with two addresses and two ports, each request being
    answered: for a NAT whose mappings do not depend on the destination, and for one that
    gives each destination its own, what is printed is the behaviour of the NAT (after "no
    NAT" when the server saw the local address), with plain requests to the server, to its
    second address and, in the second case, to its second port, and the exit code is 0.
    A NAT of the third kind is misreported ([address_dependent_mapping_misreported]). *)
Theorem natdiscovery_mapping nat ip1 ip2 port2 host la behaviour p ps w rest :
  let port := DEFAULT_STUN_PORT in
  let other := alternate ip1 ip2 port port2 in
  ip1 <> ip2 -> ip2 <> 0 -> behaves nat ip1 ip2 port port2 behaviour ->
  (forall j, make_ioa_addr (Some host) port (Some addr_zero) j = Some (0, Some (v4 ip1 port))) ->
  Forall (probes la) (p :: ps) -> Forall2 (responds_at nat other) (behaviour_dests ip1 ip2 port port2 behaviour) (p :: ps) ->
  is_inet la -> 0 <= sin_port la < 65536 ->
  w_script w = probe_answers addr_zero p ++ concat (probe_answers la <$> ps) ++ rest ->
  exists l w' t, main stack maps [(109, [])] (Some host) w = Ret (0, l) w' /\ w_script w' = rest /\
    results l = (if same_addr la (nat (v4 ip1 port)) then [NoNat] else []) ++ [behaviour] /\
    w_trace w' = w_trace w ++ t /\ requests 0 ((λ x, (x, 0, 0)) <$> behaviour_dests ip1 ip2 port port2 behaviour) t.
Proof using Hm Hf.
  intros port other Hne Hz Hb Hmk Hps Hresp Hi Hpo Hs.
  destruct (behaviour_decided nat ip1 ip2 port port2 behaviour Hne Hz Hb) as [Hdests Hdec].
  rewrite <- Hdests in Hresp |- *. rewrite <- Hdec. by apply (mapping_option_run nat other host (v4 ip1 port) la p ps).
Qed.
End runs.

(** * Termination *)

Section termination.
Context `{N : NetDb}.
Context (stack : world -> frame) (maps : addr_maps).

Lemma bounded_discovery_recv fd n : bounded 2 (iter (discovery_recv_turn fd n) tt).
Proof.
  apply (bounded_loop 1); [|lia..]. intros []. unfold discovery_recv_turn.
  costs_first 1 (λ (x : Z * list Z) b, x.1 < 0 -> b = true); [by apply costs_recv|]. intros [rc bs] b Hb. cbn [fst] in Hb.
  destruct (0 <? rc); [by apply costs_ret|]. destruct (Z.ltb_spec rc 0); cbn [andb]; [rewrite Hb by done|]; costs_tac.
Qed.
#[local] Hint Resolve bounded_discovery_recv : costs.
Lemma bounded_init_socket b p d : bounded 6 (init_socket b p d).
Proof. unfold init_socket. costs_tac. Qed.
Lemma bounded_stunclient_send m fd ci cp pd rp d : bounded 5 (stunclient_send m fd ci cp pd rp d).
Proof. unfold stunclient_send. costs_tac. Qed.
Lemma bounded_stunclient_receive m fd d : bounded 3 (stunclient_receive stack maps m fd d).
Proof. unfold stunclient_receive, discovery_message, discovery_success. costs_tac. Qed.
#[local] Hint Resolve bounded_init_socket bounded_stunclient_send bounded_stunclient_receive : costs.
Lemma bounded_discovery_run ci cp pd d : bounded 14 (NatDiscovery.run_stunclient stack maps ci cp pd d).
Proof. unfold NatDiscovery.run_stunclient. costs_tac. Qed.
Lemma bounded_hairpinning ci cp pd d : bounded 40 (run_stunclient_hairpinning stack maps ci cp pd d).
Proof. unfold run_stunclient_hairpinning. costs_tac. Qed.
Lemma bounded_lifetime_test t ci cp pd d : bounded 28 (run_stunclient_lifetime stack maps t ci cp pd d).
Proof. unfold run_stunclient_lifetime. costs_tac. Qed.
Lemma bounded_init_test f p l h d : bounded 0 (init_test stack f p l h d).
Proof. unfold init_test. costs_tac. Qed.
#[local] Hint Resolve bounded_discovery_run bounded_hairpinning bounded_lifetime_test bounded_init_test : costs.
Lemma bounded_mapping_test p pd d : bounded 42 (mapping_test stack maps p pd d).
Proof. unfold mapping_test. costs_tac. Qed.
Lemma bounded_filtering_test pd d : bounded 42 (filtering_test stack maps pd d).
Proof. unfold filtering_test. costs_tac. Qed.
Lemma bounded_collision_test pd l d : bounded 28 (collision_test stack maps pd l d).
Proof. unfold collision_test. costs_tac. Qed.

Lemma bounded_run_test n on t o h body st : 0 <= n -> (forall d, bounded n (body d)) -> bounded n (run_test stack on t o h body st).
Proof.
  intros Hn Hb. unfold run_test. destruct st as [first d]. destruct on; [|by apply costs_ret].
  apply (costs_bind n 0 n _ _ (λ _ _, True)); [apply bounded_init_test| |lia..]. intros d1 _ _.
  apply (costs_bind n n 0 _ _ (λ _ _, True)); [apply Hb| |lia..]. intros d2 _ _. by apply costs_ret.
Qed.

Lemma bounded_read_options o args : bounded 0 (read_options o args).
Proof. revert o. induction args as [|[c a] args IH]; intros o; cbn [read_options]; [by apply costs_ret|]. costs_pass 0; [eauto with costs nocore|]. destruct a0; [apply IH|by apply costs_exit]. Qed.
#[local] Hint Resolve bounded_read_options : costs.
Lemma bounded_check_options o a : bounded 0 (check_options o a).
Proof. unfold check_options. costs_tac. Qed.
#[local] Hint Resolve bounded_check_options : costs.

Lemma bounded_run_tests o h d : bounded 180 (run_tests stack maps o h d).
Proof.
  unfold run_tests. costs_pass 28; [apply bounded_run_test; [done|intros; costs_tac]|].
  costs_pass 40; [apply bounded_run_test; [done|intros; costs_tac]|].
  costs_pass 42; [apply bounded_run_test; [done|intros; apply bounded_mapping_test]|].
  costs_pass 42; [apply bounded_run_test; [done|intros; apply bounded_filtering_test]|].
  costs_pass 28; [apply bounded_run_test; [done|intros; apply bounded_collision_test]|]. destruct a3. by apply costs_ret.
Qed.
#[local] Hint Resolve bounded_run_tests : costs.

(** C19. The discovery program comes to an end.  For every command line and whatever the
    memory and the answers are, it asks for at most 180 answers, and as many again for each
    renewal: bytes received, or a call that failed or was interrupted.  When nothing
    arrives and no call fails, a program with every test asked for ends after 180 answers at
    most, in a return, [exit], undefined behaviour or a call that blocks. *)
Theorem natdiscovery_bounded args address : bounded 180 (main stack maps args address).
Proof.
  unfold main. costs_pass 0; [eauto with costs nocore|]. costs_pass 0; [eauto with costs nocore|].
  costs_pass 180; [eauto with costs nocore|]. costs_tac.
Qed.
End termination.

(** * Witnesses *)

(** A response with four IPv4 addresses. *)
Definition reply_msg (x mapped org o : ioa_addr) : stun_msg :=
  let m := StunMsg 0x0101 STUN_MAGIC_COOKIE sample_tid [] in
  StunMsg 0x0101 STUN_MAGIC_COOKIE sample_tid ((λ '(t, a), (t, addr_attr m t a)) <$>
    [(STUN_ATTRIBUTE_XOR_MAPPED_ADDRESS, x); (STUN_ATTRIBUTE_MAPPED_ADDRESS, mapped);
     (STUN_ATTRIBUTE_RESPONSE_ORIGIN, org); (STUN_ATTRIBUTE_OTHER_ADDRESS, o)]).
Definition reply_buf (M : stun_msg) : sbuf :=
  SBuf (header_bytes 0x0101 48 STUN_MAGIC_COOKIE sample_tid ++
        concat ((λ '(t, v), be_split 2 t ++ be_split 2 (zlen v) ++ v) <$> m_attrs M)) 68.

Definition ip1 : Z := s_addr (v4_addr 10 0 0 1 0).
Definition ip2 : Z := s_addr (v4_addr 10 0 0 2 0).
Definition sample_other : ioa_addr -> ioa_addr := alternate ip1 ip2 3478 3479.
(** One external port for each address of the destination, or for each destination. *)
Definition sample_nat (symmetric : bool) (a : ioa_addr) : ioa_addr :=
  v4_addr 9 9 9 9 (if s_addr a =? ip1 then if symmetric && (sin_port a =? nswap16 3479) then 1003 else 1001
                   else if symmetric && (sin_port a =? nswap16 3479) then 1004 else 1002).
Definition sample_local : ioa_addr := v4_addr 192 168 0 2 4000.

Definition sample_reply (b : bool) (a : ioa_addr) : stun_msg := reply_msg (sample_nat b a) (sample_nat b a) a (sample_other a).
Definition sample_probe (b : bool) (a : ioa_addr) : probe :=
  Probe 3 sample_entropy sample_local (Some (wire (reply_buf (sample_reply b a)))).

Definition sample_addrs : list ioa_addr := [v4 ip1 3478; v4 ip2 3478; v4 ip1 3479].

Lemma sample_repr_reply b a : a ∈ sample_addrs -> repr (reply_buf (sample_reply b a)) (sample_reply b a).
Proof.
  intros Ha. repeat (apply elem_of_cons in Ha as [->|Ha]); [..|by apply elem_of_nil in Ha];
    destruct b; (split; try (by vm_compute); by apply bytes_concrete; vm_compute).
Qed.

Lemma sample_reply_ok b a : a ∈ sample_addrs -> reply (sample_reply b a) (sample_nat b a) (sample_nat b a) a (sample_other a).
Proof.
  intros Ha. split; [done..|]. repeat (apply elem_of_cons in Ha as [->|Ha]); [..|by apply elem_of_nil in Ha]; destruct b;
    repeat (apply Forall_cons; split; [split; [by vm_compute|split; [by apply addr_ok_concrete; vm_compute|left; by left]]|]); constructor.
Qed.

Lemma sample_responds b a : a ∈ sample_addrs -> responds_at (sample_nat b) sample_other a (sample_probe b a).
Proof.
  intros Ha. exists (reply_buf (sample_reply b a)), (sample_reply b a), (sample_nat b a), a.
  split; [done|]. split; [by apply sample_repr_reply|]. split; [by apply sample_reply_ok|].
  repeat (apply elem_of_cons in Ha as [->|Ha]); [..|by apply elem_of_nil in Ha]; destruct b; by vm_compute.
Qed.

Lemma sample_probes b a : probes sample_local (sample_probe b a).
Proof. split; [split; [by vm_compute|exact sample_entropy_ok]|done]. Qed.

Lemma sample_responses b : Forall2 (responds_at (sample_nat b) sample_other) sample_addrs (sample_probe b <$> sample_addrs).
Proof. repeat constructor; apply sample_responds; set_solver. Qed.

Lemma sample_probed b l : Forall (probes sample_local) (sample_probe b <$> l).
Proof. apply Forall_fmap, Forall_true. intros a. apply sample_probes. Qed.

Lemma sample_local_ok : is_inet sample_local /\ 0 <= sin_port sample_local < 65536.
Proof. split; [by left|by vm_compute]. Qed.

Lemma sample_dependent : address_dependent (sample_nat false) ip1 ip2.
Proof. split; [done|]. intros p p'. split; by vm_compute. Qed.

Definition discovery_world (b : bool) (d : discovery) : world :=
  sample_world (probe_answers (bound_addr d) (sample_probe b (v4 ip1 3478)) ++
    probe_answers sample_local (sample_probe b (v4 ip2 3478)) ++ probe_answers sample_local (sample_probe b (v4 ip1 3479))).
Definition sample_discovery : discovery := Discovery (-1) (-1) 0 addr_zero (v4 ip1 3478) addr_zero addr_zero (-1) 0 [].

Lemma address_dependent_mapping_misreported_witness :
  exists d' w', mapping_test (λ _, sample_frame) addr_maps_init 3478 0 sample_discovery (discovery_world false sample_discovery) = Ret d' w' /\
    last (results (nd_reports d')) = Some AddressPortDependentMapping /\
    sample_nat false (v4 ip2 3478) = sample_nat false (v4 ip2 3479).
Proof.
  apply (address_dependent_mapping_misreported (λ _, sample_frame) addr_maps_init (λ _, sample_frame_ok) maps_repr_init
    (sample_nat false) ip1 ip2 3478 3479 0 sample_discovery sample_local (sample_probe false (v4 ip1 3478)) (sample_probe false (v4 ip2 3478))
    (sample_probe false (v4 ip1 3479)) (discovery_world false sample_discovery) []).
  - by vm_compute.
  - by vm_compute.
  - lia.
  - exact sample_dependent.
  - reflexivity.
  - exact (proj1 sample_local_ok).
  - exact (proj2 sample_local_ok).
  - exact (sample_probed false sample_addrs).
  - exact (sample_responses false).
  - unfold discovery_world. cbn [w_script sample_world]. by rewrite app_nil_r.
Defined.

Lemma sample_symmetric : behaves (sample_nat true) ip1 ip2 3478 3479 AddressPortDependentMapping.
Proof.
  apply address_port_dependent. intros a b Ha Hb. unfold endpoints in *.
  repeat (apply elem_of_cons in Ha as [->|Ha]); [..|by apply elem_of_nil in Ha];
    repeat (apply elem_of_cons in Hb as [->|Hb]); try (by apply elem_of_nil in Hb); try (by intros []); by vm_compute.
Qed.

Lemma natdiscovery_mapping_witness :
  exists l w' t, main (λ _, sample_frame) addr_maps_init [(109, [])] (Some (cstring (lit "10.0.0.1")))
      (discovery_world true sample_discovery) = Ret (0, l) w' /\ w_script w' = [] /\
    results l = (if same_addr sample_local (sample_nat true (v4 ip1 3478)) then [NoNat] else []) ++ [AddressPortDependentMapping] /\
    w_trace w' = [] ++ t /\
    requests 0 ((λ x, (x, 0, 0)) <$> behaviour_dests ip1 ip2 3478 3479 AddressPortDependentMapping) t.
Proof.
  apply (natdiscovery_mapping (λ _, sample_frame) addr_maps_init (λ _, sample_frame_ok) maps_repr_init (sample_nat true) ip1 ip2 3479
    (cstring (lit "10.0.0.1")) sample_local AddressPortDependentMapping (sample_probe true (v4 ip1 3478))
    [sample_probe true (v4 ip2 3478); sample_probe true (v4 ip1 3479)] (discovery_world true sample_discovery) []).
  - by vm_compute.
  - by vm_compute.
  - exact sample_symmetric.
  - intros j. vm_compute. reflexivity.
  - exact (sample_probed true sample_addrs).
  - exact (sample_responses true).
  - exact (proj1 sample_local_ok).
  - exact (proj2 sample_local_ok).
  - unfold discovery_world. cbn [w_script sample_world fmap list_fmap concat]. by rewrite !app_nil_r.
Defined.

Definition silent_probe : probe := Probe 3 sample_entropy sample_local None.

Definition filtering_world : world :=
  sample_world (probe_answers addr_zero (sample_probe false (v4 ip1 3478)) ++ probe_answers sample_local silent_probe ++
                probe_answers sample_local (sample_probe false (v4 ip1 3479))).

Lemma sample_some_reply : some_reply (sample_probe false (v4 ip1 3479)).
Proof.
  destruct (sample_responds false (v4 ip1 3479)) as (b & M & mapped & org & H); [set_solver|].
  exists b, M, (sample_nat false (v4 ip1 3479)), mapped, org, (sample_other (v4 ip1 3479)). exact H.
Qed.

Lemma filtering_test_decides_witness :
  exists d' w' t, filtering_test (λ _, sample_frame) addr_maps_init 0 sample_discovery filtering_world = Ret d' w' /\ w_script w' = [] /\
    results (nd_reports d') = results (nd_reports sample_discovery) ++
      (if same_addr sample_local (sample_nat false (v4 ip1 3478)) then [NoNat] else []) ++ [AddressDependentFiltering] /\
    w_trace w' = w_trace filtering_world ++ t /\
    requests 0 [(v4 ip1 3478, 0, 0); (v4 ip1 3478, 1, 1); (v4 ip1 3478, 0, 1)] t.
Proof.
  apply (filtering_test_decides (λ _, sample_frame) addr_maps_init (λ _, sample_frame_ok) maps_repr_init (sample_nat false) sample_other
    false true 0 sample_discovery sample_local (sample_probe false (v4 ip1 3478)) silent_probe (sample_probe false (v4 ip1 3479)) filtering_world []).
  - apply sample_probes.
  - apply sample_responds. set_solver.
  - split; [split; [by vm_compute|exact sample_entropy_ok]|done].
  - reflexivity.
  - apply sample_probes.
  - exact sample_some_reply.
  - exact (proj1 sample_local_ok).
  - exact (proj2 sample_local_ok).
  - by vm_compute.
  - unfold filtering_world. cbn [w_script sample_world]. by rewrite app_nil_r.
Defined.
