(* ===== verification/TcpRelay.v ===== *)
(** TCP relays (RFC 6062) of the load-test client: [turn_tcp_connect],
    [turn_tcp_connection_bind] and [tcp_data_connect] of [uclient/startuclient.c].

    The functions of [uclient/startuclient.c] and [uclient/uclient.c] that the two
    clients share ([send_buffer], [recv_buffer], [add_integrity], [clnet_connect],
    [clnet_allocate], [turn_channel_bind], [turn_create_permission]) have the text
    of [p2p/] and are the definitions of Transport, Credentials, Connect, Allocate
    and Bind. *)

From S2P Require Import Prelude Defs CString IoAddr MsgAddr AddrText StunHeader StunAttr StunMsg StunBuffer Crypto Integrity Evp OAuth System Session Transport Credentials Sockets Connect Allocate Bind.

(** Assignments to a data connection and to the array of them. *)
Definition set_tcp_conn (c : app_ur_conn_info) (l : option (list (option app_tcp_conn_info))) : app_ur_conn_info :=
  ConnInfo (ci_local_addr c) (ci_lsaddr c) (ci_remote_addr c) (ci_rsaddr c) (ci_ifname c) (ci_peer_addr c)
    (ci_relay_addr c) (ci_fd c) (ci_ssl c) (ci_broken c) (ci_nonce c) (ci_realm c) (ci_oauth c) (ci_server_name c)
    (ci_key c) (ci_key_set c) (ci_cok c) l (ci_is_peer c) (ci_s_mobile_id c).
Definition set_data_socket (a : app_tcp_conn_info) (la : ioa_addr) (fd : Z) : app_tcp_conn_info :=
  TcpConnInfo (cid a) la fd (tcp_data_ssl a) (tcp_data_bound a).
Definition set_data_ssl (a : app_tcp_conn_info) (ssl : bool) : app_tcp_conn_info :=
  TcpConnInfo (cid a) (tcp_data_local_addr a) (tcp_data_fd a) ssl (tcp_data_bound a).
Definition set_bound (a : app_tcp_conn_info) : app_tcp_conn_info :=
  TcpConnInfo (cid a) (tcp_data_local_addr a) (tcp_data_fd a) (tcp_data_ssl a) true.

Section relay.
Context `{N : NetDb} `{C : Crypto} `{V : Evp}.
Context (cfg : config) (stack : world -> frame) (maps : addr_maps).

(** * CONNECT *)

(** The response is read by [client_read]. *)
Definition turn_tcp_connect (clnet_info : app_ur_conn_info) (peer_addr : ioa_addr) : prog (Z * app_ur_conn_info) :=
  f ← get_frame stack;
  e ← entropy_;
  m ← lift (stun_init_request STUN_METHOD_CONNECT (fr_buffer f) e);
  '(_, m) ← lift (stun_attr_add_addr maps m STUN_ATTRIBUTE_XOR_PEER_ADDRESS peer_addr);
  r ← seal_request cfg stack clnet_info m;
  match r with
  | inl c => mret (-1, c)
  | inr (c, m) =>
    '(n, c, _) ← send_buffer cfg c m false None;
    if 0 <? n then mret (0, c) else exit 1
  end.

(** * CONNECTION-BIND *)

(** One response. *)
Definition connection_bind_response (c : app_ur_conn_info) (m : stun_buffer)
    : prog (verdict * app_ur_conn_info * stun_buffer) :=
  f ← get_frame stack;
  success ← lift (stun_is_success_response m);
  if (success : bool) then
    '(ok, m) ← authentic cfg stack c m;
    if negb ok then mret (VReturn (-1), c, m) else
    method ← lift (stun_get_method m);
    mret (if negb (method =? STUN_METHOD_CONNECTION_BIND) then VUnknown else VFinished, c, m)
  else
    '(b, ch, c) ← lift (is_challenge f m c);
    if (b : bool) then mret (VAgain, c, m) else
    '(b, _, _) ← lift (stun_is_error_response m (ch_err_code ch) (ch_err_msg ch) 129);
    if (b : bool) then mret (VReturn (-1), c, m) else mret (VUnknown, c, m).

(** [while(!cb_received)]; [None] is a failed receive. *)
Definition connection_bind_receive_turn (atc : app_tcp_conn_info) (st : app_ur_conn_info * stun_buffer * stun_buffer)
    : prog (app_ur_conn_info * stun_buffer * stun_buffer +
            option verdict * app_ur_conn_info * stun_buffer * stun_buffer) :=
  let '(c, req, m) := st in
  '(n, c, m, req) ← recv_buffer cfg c m true true (Some atc) (Some req);
  req ← lift req;
  if 0 <? n then
    '(v, c, m) ← connection_bind_response c m;
    match v with VUnknown => mret (inl (c, req, m)) | _ => mret (inr (Some v, c, req, m)) end
  else mret (inr (None, c, req, m)).

(** The value of CONNECTION-ID is the four bytes of [cid] as they lie in memory. *)
Definition connection_bind_request (id : Z) (m : stun_buffer) : prog stun_buffer :=
  e ← entropy_;
  m ← lift (stun_init_request STUN_METHOD_CONNECTION_BIND m e);
  '(_, m) ← lift (stun_attr_add m STUN_ATTRIBUTE_CONNECTION_ID (Some (le_split 4 id)) 4);
  mret m.

(** From [beg_cb] to the next [goto] or the return. *)
Definition connection_bind_turn (errorOK : bool) (atc : app_tcp_conn_info)
    (st : app_ur_conn_info * stun_buffer * stun_buffer)
    : prog (app_ur_conn_info * stun_buffer * stun_buffer + Z * app_ur_conn_info * app_tcp_conn_info) :=
  let '(c, req, m) := st in
  req ← connection_bind_request (cid atc) req;
  r ← seal_request cfg stack c req;
  match r with
  | inl c => mret (inr (-1, c, atc))
  | inr (c, req) =>
    '(k, c, req) ← send_buffer cfg c req true (Some atc);
    if k <=? 0 then if errorOK then mret (inr (0, c, atc)) else exit 1 else
    rare ← not_rare_event cfg;
    if (rare : bool) then mret (inr (0, c, atc)) else
    '(v, c, req, m) ← iter (connection_bind_receive_turn atc) (c, req, m);
    match v with
    | None => if errorOK then mret (inr (0, c, atc)) else exit (-1)
    | Some (VReturn rc) => mret (inr (rc, c, atc))
    | Some VAgain => mret (inl (c, req, m))
    | Some _ => mret (inr (0, c, set_bound atc))
    end
  end.

(** Result: the return code, the connection and the data connection. *)
Definition turn_tcp_connection_bind (clnet_info : app_ur_conn_info) (atc : app_tcp_conn_info) (errorOK : bool)
    : prog (Z * app_ur_conn_info * app_tcp_conn_info) :=
  f ← get_frame stack;
  iter (connection_bind_turn errorOK atc) (clnet_info, fr_buffer f, fr_buffer f).

(** * The data connection *)

Context (client_ifname : list Z).

Definition data_socket : prog Z :=
  clnet_fd ← syscall;
  if clnet_fd <? 0 then exit (-1) else
  _ ← sock_bind_to_device clnet_fd client_ifname;
  _ ← set_sock_buf_size clnet_fd (UR_CLIENT_SOCK_BUF_SIZE * 4);
  mret clnet_fd.

(** The local address is that of the control connection with any port. *)
Definition bind_data_socket (local_addr : ioa_addr) (fd : Z) : prog ioa_addr :=
  la ← lift (addr_set_port (Some local_addr) 0);
  _ ← addr_bind fd la 1 TCP_SOCKET;
  '(_, la) ← addr_get_from_sock fd la;
  mret la.

(** [while(cycle++ < 1024)]: [n] is the number of turns left.  The socket of the last
    turn is kept when all of them fail. *)
Fixpoint data_connect_loop (n : nat) (c : app_ur_conn_info) (atc : app_tcp_conn_info) : prog app_tcp_conn_info :=
  match n with
  | O => mret atc
  | S n =>
    '(rc, err) ← addr_connect (tcp_data_fd atc) (ci_remote_addr c) EOTHER;
    if rc <? 0 then
      if bool_decide (err = EADDRINUSE) then
        act (Closed (tcp_data_fd atc));;
        fd ← data_socket;
        la ← bind_data_socket (ci_local_addr c) fd;
        data_connect_loop n c (set_data_socket atc la fd)
      else exit (-1)
    else mret atc
  end.

Definition MAX_DATA_CONNECT_CYCLES : nat := 1024.

(** From [again] up to the handshake: a TLS failure that may be tried again takes the
    next turn.  Result: the connected data connection. *)
Definition data_connect_turn (c : app_ur_conn_info) (id connect_cycle : Z) : prog (Z + app_tcp_conn_info) :=
  fd ← data_socket;
  la ← bind_data_socket (ci_local_addr c) fd;
  atc ← data_connect_loop MAX_DATA_CONNECT_CYCLES c (TcpConnInfo id la fd false false);
  if use_secure cfg then
    '(made, try_again) ← tls_connect cfg (tcp_data_fd atc) (ci_remote_addr c) connect_cycle;
    if (made : bool) then mret (inr (set_data_ssl atc true))
    else if (try_again : bool) then mret (inl (connect_cycle + 1))
    else exit (-1)
  else mret (inr atc).

(** The new data connection is the last of the array, bound or not.  A connection
    that is given up for another try leaves the array ([--tcp_conn_number]). *)
Definition tcp_data_connect (clnet_info : app_ur_conn_info) (id : Z) : prog app_ur_conn_info :=
  atc ← iter (data_connect_turn clnet_info id) 0;
  '(rc, c, atc) ← turn_tcp_connection_bind clnet_info atc false;
  (if rc <? 0 then mret tt else _ ← socket_set_nonblocking (tcp_data_fd atc); mret tt);;
  mret (set_tcp_conn c (Some (default [] (ci_tcp_conn c) ++ [Some atc]))).
End relay.
