(* ===== verification/Load.v ===== *)
(** The load-test client: its sessions, its counters, reading and writing
    ([uclient/uclient.c]).

    [statics] holds the variables of [uclient.c]; [elems] is the map from an index to
    the session stored there, an index without a session is a NULL pointer.
    [tot_send_dropped] is only printed and left out. *)

From stdpp Require Import gmap.
From S2P Require Import Prelude Defs CString IoAddr MsgAddr AddrText StunHeader StunAttr StunMsg StunBuffer Crypto Integrity Evp OAuth System Session Transport Credentials Sockets Connect Allocate Bind Client TcpRelay.

Definition RTP_PACKET_INTERVAL : Z := 20.
Definition STOPPING_TIME : Z := 10.
Definition STARTING_TCP_RELAY_TIME : Z := 30.

(** The settings of [uclient_manager.c] only this client reads. *)
Record load_config : Type := LoadConfig {
  lc_cfg : config;
  passive_tcp : bool;
  hang_on : bool;
  random_disconnect : bool;
  mandatory_channel_padding : bool;
  lc_client_ifname : list Z;
}.

(** [app_ur_session] with the fields this client adds to [base]. *)
Record load_session : Type := LoadSession {
  base : app_ur_session;
  ctime : Z;
  completed : bool;
  out_buffer : stun_buffer;
  finished_time : Z;
  tot_msgnum : Z;
  wmsgnum : Z;
  to_send_timems : Z;
  latency : Z;
  jitter : Z;
}.

Record clock : Type := Clock {
  start_sec : Z;
  current_time : Z;
  current_mstime : Z;
  show_statistics : bool;
}.

Record traffic : Type := Traffic {
  tot_send_messages : Z;
  tot_send_bytes : Z;
  tot_recv_messages : Z;
  tot_recv_bytes : Z;
}.

Record extremes : Type := Extremes {
  min_latency : Z;
  max_latency : Z;
  min_jitter : Z;
  max_jitter : Z;
}.

Record totals : Type := Totals {
  total_loss : Z;
  total_latency : Z;
  total_jitter : Z;
}.

Record statics : Type := Statics {
  clk : clock;
  trf : traffic;
  ext : extremes;
  tot : totals;
  tot_messages : Z;
  start_full_timer : bool;
  current_clients_number : Z;
  total_clients : Z;
  buffer_to_send : list Z;
  elems : gmap nat load_session;
}.

(** Assignments. *)
Definition set_base (e : load_session) (s : app_ur_session) : load_session :=
  LoadSession s (ctime e) (completed e) (out_buffer e) (finished_time e) (tot_msgnum e) (wmsgnum e)
    (to_send_timems e) (latency e) (jitter e).
Definition set_conn (e : load_session) (c : app_ur_conn_info) : load_session := set_base e (set_pinfo (base e) c).
Definition set_ctime (e : load_session) (t : Z) : load_session :=
  LoadSession (base e) t (completed e) (out_buffer e) (finished_time e) (tot_msgnum e) (wmsgnum e)
    (to_send_timems e) (latency e) (jitter e).
Definition set_out_buffer (e : load_session) (b : stun_buffer) : load_session :=
  LoadSession (base e) (ctime e) (completed e) b (finished_time e) (tot_msgnum e) (wmsgnum e)
    (to_send_timems e) (latency e) (jitter e).
Definition set_finished_time (e : load_session) (t : Z) : load_session :=
  LoadSession (base e) (ctime e) (completed e) (out_buffer e) t (tot_msgnum e) (wmsgnum e)
    (to_send_timems e) (latency e) (jitter e).
Definition set_written (e : load_session) (n t : Z) : load_session :=
  LoadSession (base e) (ctime e) (completed e) (out_buffer e) (finished_time e) (tot_msgnum e) n
    t (latency e) (jitter e).
Definition set_delays (e : load_session) (l j : Z) : load_session :=
  LoadSession (base e) (ctime e) (completed e) (out_buffer e) (finished_time e) (tot_msgnum e) (wmsgnum e)
    (to_send_timems e) l j.
Definition set_tot_msgnum (e : load_session) (n : Z) : load_session :=
  LoadSession (base e) (ctime e) (completed e) (out_buffer e) (finished_time e) n (wmsgnum e)
    (to_send_timems e) (latency e) (jitter e).
Definition set_completed (e : load_session) : load_session :=
  LoadSession (base e) (ctime e) true (out_buffer e) (finished_time e) (tot_msgnum e) (wmsgnum e)
    (to_send_timems e) (latency e) (jitter e).
Definition set_state (s : app_ur_session) (x : UR_STATE) : app_ur_session :=
  Session (pinfo s) x (chnum s) (wait_cycles s) (in_buffer s) (refresh_time s) (rmsgnum s) (recvmsgnum s)
    (recvtimems s) (loss s).

Definition set_clk (st : statics) (c : clock) : statics :=
  Statics c (trf st) (ext st) (tot st) (tot_messages st) (start_full_timer st) (current_clients_number st)
    (total_clients st) (buffer_to_send st) (elems st).
Definition set_trf (st : statics) (t : traffic) : statics :=
  Statics (clk st) t (ext st) (tot st) (tot_messages st) (start_full_timer st) (current_clients_number st)
    (total_clients st) (buffer_to_send st) (elems st).
Definition set_ext (st : statics) (x : extremes) : statics :=
  Statics (clk st) (trf st) x (tot st) (tot_messages st) (start_full_timer st) (current_clients_number st)
    (total_clients st) (buffer_to_send st) (elems st).
Definition set_tot (st : statics) (x : totals) : statics :=
  Statics (clk st) (trf st) (ext st) x (tot_messages st) (start_full_timer st) (current_clients_number st)
    (total_clients st) (buffer_to_send st) (elems st).
Definition set_full (st : statics) (n : Z) (b : bool) : statics :=
  Statics (clk st) (trf st) (ext st) (tot st) n b (current_clients_number st)
    (total_clients st) (buffer_to_send st) (elems st).
Definition set_clients (st : statics) (n : Z) : statics :=
  Statics (clk st) (trf st) (ext st) (tot st) (tot_messages st) (start_full_timer st) n
    (total_clients st) (buffer_to_send st) (elems st).
Definition set_total_clients (st : statics) (n : Z) : statics :=
  Statics (clk st) (trf st) (ext st) (tot st) (tot_messages st) (start_full_timer st) (current_clients_number st)
    n (buffer_to_send st) (elems st).
Definition set_payload (st : statics) (b : list Z) : statics :=
  Statics (clk st) (trf st) (ext st) (tot st) (tot_messages st) (start_full_timer st) (current_clients_number st)
    (total_clients st) b (elems st).
Definition set_elems (st : statics) (m : gmap nat load_session) : statics :=
  Statics (clk st) (trf st) (ext st) (tot st) (tot_messages st) (start_full_timer st) (current_clients_number st)
    (total_clients st) (buffer_to_send st) m.

(** * Time *)

Definition __turn_getMSTime (st : statics) : prog statics :=
  sec ← time_;
  nsec ← time_;
  let k := clk st in
  let start := if start_sec k =? 0 then u64 sec else start_sec k in
  let t := u64 (u64 sec - start) in
  mret (set_clk st (Clock start t (u64 (t * 1000 + Z.quot nsec 1000000))
          (if current_time k =? t then show_statistics k else true))).

(** [(int64_t) t1 - (int64_t) t2], which may overflow. *)
Definition to_i64 (z : Z) : Z := (z + 2 ^ 63) mod 2 ^ 64 - 2 ^ 63.
Definition i64 (z : Z) : option Z := if (- 2 ^ 63 <=? z) && (z <? 2 ^ 63) then Some z else None.
Definition time_minus (t1 t2 : Z) : option Z := i64 (to_i64 t1 - to_i64 t2).

Section load.
Context `{N : NetDb} `{C : Crypto} `{V : Evp}.
Context (lc : load_config) (stack : world -> frame) (maps : addr_maps).

#[local] Abbreviation cfg := (lc_cfg lc).
#[local] Abbreviation clmsg := (clmessage_length cfg).

Definition refresh_channel (st : statics) (e : load_session) (method lt : Z) : prog (Z * load_session) :=
  '(rc, s) ← refresh_channel_at cfg stack maps (current_mstime (clk st)) (base e) method lt;
  mret (rc, set_base e s).

(** * client_read *)

(** How the reading of a message ends: [return rc] after counting some bytes,
    [return -1], or a payload of [applen] bytes. *)
Inductive reading : Type :=
| LDone (bytes : Z)
| LFail
| LPayload (mi : option message_info) (buffers applen : Z).

(** The value of CONNECTION-ID, 0 when there is none. *)
Definition connection_id (m : stun_buffer) : option Z := r ← find_connection_id m; Some (default 0 r).

Definition read_data (m : stun_buffer) : option reading :=
  sar ← stun_attr_get_first_by_type m STUN_ATTRIBUTE_DATA;
  match sar with
  | None => Some (LDone 0)
  | Some _ =>
    rlen ← stun_attr_get_len (buf m) sar;
    if negb (rlen =? clmsg) then Some (LDone rlen) else
    v ← stun_attr_get_value (buf m) sar;
    v ← v;
    bs ← rd_block (buf m) v sizeof_message_info;
    mi ← message_info_of bs;
    Some (LPayload (Some mi) 1 rlen)
  end.

Definition read_indication (c : app_ur_conn_info) (m : stun_buffer) : prog (reading * app_ur_conn_info) :=
  method ← lift (stun_get_method m);
  if (method =? STUN_METHOD_CONNECTION_ATTEMPT) && is_TCP_relay cfg then
    id ← lift (connection_id m);
    id ← (if negative_test cfg then r ← random; mret (u32 r) else mret id);
    c ← tcp_data_connect cfg stack (lc_client_ifname lc) c id;
    mret (LDone 0, c)
  else if negb (method =? STUN_METHOD_DATA) then mret (LDone 0, c)
  else r ← lift (read_data m); mret (r, c).

Definition read_channel (elem_chnum chnumber : Z) (m : stun_buffer) : option reading :=
  if negb (elem_chnum =? chnumber) then Some (LDone 0) else
  if 4 <=? len m then
    if (to_i32 (len m - 4) <? clmsg) || (clmsg + 3 <? to_i32 (len m - 4)) then Some (LDone 0) else
    bs ← rd_block (buf m) 4 sizeof_message_info;
    mi ← message_info_of bs;
    Some (LPayload (Some mi) 1 (to_i32 (len m - 4)))
  else Some (LPayload None 1 0).

(** The dispatch on the kind of message. *)
Definition read_message (st : statics) (e : load_session) (is_tcp_data : bool) : prog (reading * load_session) :=
  let m := in_buffer (base e) in
  if is_tcp_data then
    if to_i32 (len m) =? clmsg then
      bs ← lift (rd_block (buf m) 0 sizeof_message_info);
      mi ← lift (message_info_of bs);
      mret (LPayload (Some mi) 1 0, e)
    else if clmsg =? 0 then fault
    else mret (LPayload None (u64 (Z.quot (to_i32 (len m)) clmsg)) 0, e)
  else
  f ← get_frame stack;
  ind ← lift (stun_is_indication m);
  if (ind : bool) then
    '(r, c) ← read_indication (pinfo (base e)) m;
    mret (r, set_conn e c)
  else
  success ← lift (stun_is_success_response m);
  if (success : bool) then
    '(ok, m) ← authentic cfg stack (pinfo (base e)) m;
    let e := set_base e (set_in_buffer (base e) m) in
    if negb ok then mret (LFail, e) else
    method ← lift (stun_get_method m);
    if is_TCP_relay cfg && (method =? STUN_METHOD_CONNECT) then
      id ← lift (connection_id m);
      c ← tcp_data_connect cfg stack (lc_client_ifname lc) (pinfo (base e)) id;
      mret (LDone 0, set_conn e c)
    else mret (LDone 0, e)
  else
  '(b, _, c) ← lift (is_challenge f m (pinfo (base e)));
  let e := set_conn e c in
  if (b : bool) then
    method ← lift (stun_get_method m);
    if is_TCP_relay cfg && (method =? STUN_METHOD_CONNECT) then
      '(_, c) ← turn_tcp_connect cfg stack maps c (ci_peer_addr c);
      mret (LDone 0, set_conn e c)
    else if method =? STUN_METHOD_REFRESH then
      '(_, e) ← refresh_channel st e method 600;
      mret (LDone 0, e)
    else mret (LDone 0, e)
  else
  '(b, _, _) ← lift (stun_is_error_response m None None 0);
  if (b : bool) then mret (LDone 0, e) else
  '(b, m', chn) ← lift (stun_is_channel_message (Some m) (Some 0) (use_tcp cfg));
  m' ← lift m';
  let e := set_base e (set_in_buffer (base e) m') in
  if (b : bool) then
    chn ← lift chn;
    r ← lift (read_channel (chnum (base e)) chn m');
    mret (r, e)
  else mret (LDone 0, e).

(** [if(mi.msgnum != elem->recvmsgnum + 1) ...]: a gap is one loss; a message in
    order has a latency and, from the second on, a jitter. *)
Definition count_info (st : statics) (e : load_session) (mi : message_info) : option (statics * load_session * Z) :=
  let s := base e in
  let now := current_mstime (clk st) in
  let x := ext st in
  expected ← i32 (recvmsgnum s + 1);
  if negb (mi_msgnum mi =? expected) then Some (st, e, u64 (loss s + 1)) else
  d ← time_minus now (mi_mstime mi);
  let clatency := u64 d in
  let x := Extremes (if clatency <? min_latency x then clatency else min_latency x)
             (if max_latency x <? clatency then clatency else max_latency x) (min_jitter x) (max_jitter x) in
  let e := set_delays e (u64 (latency e + clatency)) (jitter e) in
  if 0 <? rmsgnum s then
    j ← i32 (to_i32 (u64 (now - recvtimems s)) - RTP_PACKET_INTERVAL);
    cjitter ← i32 (Z.abs j);
    let x := Extremes (min_latency x) (max_latency x) (if cjitter <? min_jitter x then cjitter else min_jitter x)
               (if max_jitter x <? cjitter then cjitter else max_jitter x) in
    Some (set_ext st x, set_delays e (latency e) (u64 (jitter e + cjitter)), loss s)
  else Some (set_ext st x, e, loss s).

Definition add_received (t : traffic) (messages bytes : Z) : traffic :=
  Traffic (tot_send_messages t) (tot_send_bytes t) (u32 (tot_recv_messages t + messages))
    (u64 (tot_recv_bytes t + bytes)).

(** From [if(miset)] to the end. *)
Definition count_message (st : statics) (e : load_session) (mi : option message_info) (buffers applen : Z)
    : option (statics * load_session) :=
  '(st, e, ls) ← (match mi with Some mi => count_info st e mi | None => Some (st, e, loss (base e)) end);
  let s := base e in
  let rmn := match mi with Some mi => mi_msgnum mi | None => recvmsgnum s end in
  Some (set_trf st (add_received (trf st) buffers (if 0 <? applen then applen else len (in_buffer s))),
        set_base e (set_counters s 0 (to_i32 (u64 (rmsgnum s + buffers))) rmn (u32 (current_mstime (clk st))) ls)).

Definition client_read (st : statics) (e : load_session) (is_tcp_data : bool) (atc : option app_tcp_conn_info)
    : prog (Z * statics * load_session) :=
  match state (base e) with
  | UR_STATE_READY =>
    let e := set_ctime e (u32 (current_time (clk st))) in
    '(rc, c, m, _) ← recv_buffer cfg (pinfo (base e)) (in_buffer (base e)) false is_tcp_data atc None;
    let e := set_base e (set_in_buffer (set_pinfo (base e) c) m) in
    if 0 <? rc then
      let e := set_base e (set_in_buffer (base e) (set_len m rc)) in
      '(r, e) ← read_message st e is_tcp_data;
      match r with
      | LDone bytes => mret (rc, set_trf st (add_received (trf st) 0 bytes), e)
      | LFail => mret (-1, st, e)
      | LPayload mi buffers applen =>
        '(st, e) ← lift (count_message st e mi buffers applen);
        mret (rc, st, e)
      end
    else if rc =? 0 then mret (0, st, e)
    else mret (-1, st, e)
  | _ => mret (-1, st, e)
  end.

(** * client_write *)

(** [mi->msgnum = elem->wmsgnum; mi->mstime = current_mstime;] *)
Definition stamp (st : statics) (e : load_session) : option statics :=
  b ← wr_block (buffer_to_send st) 0 (le_split 4 (wmsgnum e));
  b ← wr_block b 8 (le_split 8 (current_mstime (clk st)));
  Some (set_payload st b).

(** [++elem->wmsgnum; elem->to_send_timems += RTP_PACKET_INTERVAL;] *)
Definition next_message (e : load_session) : option load_session :=
  n ← i32 (wmsgnum e + 1);
  Some (set_written e n (u32 (to_send_timems e + RTP_PACKET_INTERVAL))).

(** [tot_send_messages++; tot_send_bytes += clmessage_length;] *)
Definition count_sent (st : statics) : statics :=
  let t := trf st in
  set_trf st (Traffic (u32 (tot_send_messages t + 1)) (u64 (tot_send_bytes t + clmsg)) (tot_recv_messages t)
                (tot_recv_bytes t)).

(** The branch of [is_TCP_relay()]: the data connection, drawn at random.  [None]: the
    message was sent to the peer directly or there is no connection. *)
Definition pick_tcp_conn (c : app_ur_conn_info) : prog (option app_tcp_conn_info) :=
  match ci_tcp_conn c with
  | None | Some [] => mret None
  | Some l =>
    r ← random;
    a ← lift (l !! Z.to_nat (u32 r mod zlen l));
    atc ← lift a;
    mret (if tcp_data_bound atc then Some atc else None)
  end.

Definition fill_channel (e : load_session) (data : list Z) : option stun_buffer :=
  '(_, m) ← stun_init_channel_message (chnum (base e)) (out_buffer e) clmsg
              (mandatory_channel_padding lc || use_tcp cfg);
  b ← wr_block (buf m) 4 data;
  Some (set_buf m b).

Definition fill_indication (e : load_session) (data : list Z) : prog stun_buffer :=
  en ← entropy_;
  m ← lift (stun_init_indication STUN_METHOD_SEND (out_buffer e) en);
  '(_, m) ← lift (stun_attr_add m STUN_ATTRIBUTE_DATA (Some data) clmsg);
  '(_, m) ← lift (stun_attr_add_addr maps m STUN_ATTRIBUTE_XOR_PEER_ADDRESS (ci_peer_addr (pinfo (base e))));
  '(_, m) ← lift (if dont_fragment cfg then stun_attr_add m STUN_ATTRIBUTE_DONT_FRAGMENT None 0 else Some (0, m));
  '(_, m) ← lift (if use_fingerprints cfg then on_sbuf m (stun_attr_add_fingerprint_str (to_sbuf m)) else Some (0, m));
  mret m.

(** [if(elem->out_buffer.len > 0)] *)
Definition write_out (st : statics) (e : load_session) (atc : option app_tcp_conn_info)
    : prog (Z * statics * load_session) :=
  if 0 <? len (out_buffer e) then
    '(rc, c, m) ← send_buffer cfg (pinfo (base e)) (out_buffer e) true atc;
    e ← lift (next_message (set_out_buffer (set_conn e c) m));
    if 0 <=? rc then mret (0, count_sent st, e) else mret (-1, st, e)
  else mret (0, st, e).

Definition client_write (st : statics) (e : load_session) : prog (Z * statics * load_session) :=
  match state (base e) with
  | UR_STATE_READY =>
    let e := set_ctime e (u32 (current_time (clk st))) in
    st ← lift (stamp st e);
    data ← lift (rd_block (buffer_to_send st) 0 clmsg);
    if is_TCP_relay cfg then
      b ← lift (wr_block (buf (out_buffer e)) 0 data);
      let e := set_out_buffer e (set_len (set_buf (out_buffer e) b) clmsg) in
      if ci_is_peer (pinfo (base e)) then
        rc ← send (ci_fd (pinfo (base e))) data;
        if 0 <=? rc then e ← lift (next_message e); mret (0, count_sent st, e) else mret (0, st, e)
      else
        atc ← pick_tcp_conn (pinfo (base e));
        match atc with
        | None => mret (-1, st, e)
        | Some atc => write_out st e (Some atc)
        end
    else if negb (do_not_use_channel cfg) then
      m ← lift (fill_channel e data);
      write_out st (set_out_buffer e m) None
    else
      m ← fill_indication e data;
      write_out st (set_out_buffer e m) None
  | _ => mret (-1, st, e)
  end.

(** * client_input_handler *)

Definition handler_turn (fd : Z) (x : statics * load_session) : prog (statics * load_session + statics * load_session) :=
  let '(st, e) := x in
  let atc := find_tcp_conn fd (pinfo (base e)) in
  '(rc, st, e) ← client_read st e (match atc with Some _ => true | None => false end) atc;
  if rc <=? 0 then mret (inr (st, e)) else mret (inl (st, e)).

Definition client_input_handler (fd what : Z) (st : statics) (e : load_session) : prog (statics * load_session) :=
  if negb (truth (Z.land what EV_READ)) then mret (st, e) else
  match state (base e) with
  | UR_STATE_READY => iter (handler_turn fd) (st, e)
  | _ => mret (st, e)
  end.

(** * Shutting a session down *)

(** [if(ssl && !broken) SSL_shutdown], when the shutdown was not sent before. *)
Definition ssl_shutdown : prog unit := _ ← SSL_get_shutdown; mret tt.

(** A data connection: one without TLS, or of a broken session, keeps its socket. *)
Definition close_tcp_conn (broken : bool) (a : option app_tcp_conn_info) : prog unit :=
  match a with
  | Some a =>
    if tcp_data_ssl a && negb broken then
      ssl_shutdown;;
      act SslFreed;;
      if 0 <=? tcp_data_fd a then act (Closed (tcp_data_fd a)) else mret tt
    else mret tt
  | None => mret tt
  end.

Fixpoint close_tcp_conns (broken : bool) (l : list (option app_tcp_conn_info)) : prog unit :=
  match l with
  | [] => mret tt
  | a :: l => close_tcp_conn broken a;; close_tcp_conns broken l
  end.

Definition uc_delete_session_elem_data (c : app_ur_conn_info) : prog app_ur_conn_info :=
  close_tcp_conns (ci_broken c) (default [] (ci_tcp_conn c));;
  (if ci_ssl c && negb (ci_broken c) then ssl_shutdown else mret tt);;
  (if ci_ssl c then act SslFreed else mret tt);;
  (if 0 <=? ci_fd c then act (Closed (ci_fd c)) else mret tt);;
  mret (set_fd (set_tcp_conn c None) (-1) (ci_ssl c)).

Definition remove_all_from_ss (st : statics) (e : load_session) : prog (statics * load_session) :=
  c ← uc_delete_session_elem_data (pinfo (base e));
  mret (set_clients st (u64 (current_clients_number st - 1)), set_conn e c).

Definition client_shutdown (st : statics) (e : load_session) : prog (statics * load_session) :=
  let e := set_ctime (set_base e (set_state (base e) UR_STATE_DONE)) (u32 (current_time (clk st))) in
  remove_all_from_ss st e.
End load.
