(* ===== verification/LoadStart.v ===== *)
(** The connections of a load-test session: [start_connection] and
    [start_c2c_connection] of [uclient/startuclient.c].

    Both are a sequence of steps on the connections of their arguments; a step goes
    on ([inl]) or returns from the function ([inr]).  The connection of a role that
    is NULL without RTCP ([no_rtcp]) is not touched then. *)

From S2P Require Import Prelude Defs CString IoAddr MsgAddr AddrText StunHeader StunAttr StunMsg StunBuffer Crypto Integrity Evp OAuth System Session Transport Credentials Sockets Connect Allocate Bind TcpRelay Load.

(** The connections: the probe, those of the (first) session and of the second one,
    each with its RTCP companion. *)
Inductive role : Type := Probe | Real1 | Rtcp1 | Real2 | Rtcp2.

#[export] Instance role_eq_dec : EqDecision role.
Proof. solve_decision. Defined.

(** [s_conn], [s_chn], [s_relay]: connection, channel number and relayed address of a
    role; [s_turn]: [remote_address] and [clnet_remote_port]. *)
Record start_state : Type := StartState {
  s_conn : role -> app_ur_conn_info;
  s_chn : role -> Z;
  s_relay : role -> ioa_addr;
  s_turn : list Z * Z;
}.

Definition update {A} (f : role -> A) (r : role) (a : A) : role -> A := λ x, if decide (x = r) then a else f x.

Definition put_conn (s : start_state) (r : role) (c : app_ur_conn_info) : start_state :=
  StartState (update (s_conn s) r c) (s_chn s) (s_relay s) (s_turn s).
Definition put_chn (s : start_state) (r : role) (chn : Z) : start_state :=
  StartState (s_conn s) (update (s_chn s) r chn) (s_relay s) (s_turn s).
Definition put_relay (s : start_state) (r : role) (a : ioa_addr) : start_state :=
  StartState (s_conn s) (s_chn s) (update (s_relay s) r a) (s_turn s).
Definition put_turn (s : start_state) (t : list Z * Z) : start_state :=
  StartState (s_conn s) (s_chn s) (s_relay s) t.

(** * Steps *)

Abbreviation step := (start_state -> prog (start_state + Z * start_state)).

Fixpoint in_order (l : list step) : step := λ s,
  match l with
  | [] => mret (inl s)
  | f :: l => r ← f s; match r with inl s => in_order l s | inr x => mret (inr x) end
  end.

(** [if(b) f] *)
Definition when (b : bool) (f : step) : step := λ s, if b then f s else mret (inl s).

(** A function body: it returns 0 at its end. *)
Definition body (l : list step) (s : start_state) : prog (Z * start_state) :=
  r ← in_order l s; match r with inl s => mret (0, s) | inr x => mret x end.

Definition goes_on_with (s : start_state) : prog (start_state + Z * start_state) := mret (inl s).

Section start.
Context `{N : NetDb} `{C : Crypto} `{V : Evp}.
Context (lc : load_config) (stack : world -> frame) (maps : addr_maps).

#[local] Abbreviation cfg := (lc_cfg lc).
#[local] Abbreviation rtcp := (negb (no_rtcp cfg)).

(** [if(rare_event()) return 0;] *)
Definition rarely : step := λ s, r ← rare_event cfg; if (r : bool) then mret (inr (0, s)) else mret (inl s).

(** [if(clnet_connect(...) < 0) return -1;] *)
Definition connect_to (address : list Z) (port : Z) (ifname local_address : list Z) (r : role) : step := λ s,
  '(rc, c) ← clnet_connect cfg stack port address ifname local_address false (s_conn s r);
  if rc <? 0 then mret (inr (-1, put_conn s r c)) else mret (inl (put_conn s r c)).
Definition connect (ifname local_address : list Z) (r : role) : step := λ s,
  connect_to (fst (s_turn s)) (snd (s_turn s)) ifname local_address r s.

(** [STRCPY(remote_address,remote_address0);] *)
Definition copy_address (remote_address0 : list Z) (port : Z) : step := λ s,
  f ← get_frame stack;
  a ← lift (STRCPY (replicate 1025 (fr_byte f)) 1025 remote_address0);
  mret (inl (put_turn s (a, port))).

(** The allocation of the probe, whose result is not looked at: an alternate server
    replaces the address and the port. *)
Definition probe (relay : role) : step := λ s,
  g ← get_globals;
  '(_, c, ra, turn) ← clnet_allocate cfg stack maps (default_address_family g) (s_conn s Probe) (s_relay s relay)
                        (Some (s_turn s));
  mret (inl (put_turn (put_relay (put_conn s Probe c) relay ra) (default (s_turn s) turn))).

(** [if(clnet_allocate(...) < 0) return -1;] of family [af]. *)
Definition allocate (af : globals -> Z) (r : role) : step := λ s,
  g ← get_globals;
  '(rc, c, ra, _) ← clnet_allocate cfg stack maps (af g) (s_conn s r) (s_relay s r) None;
  let s := put_relay (put_conn s r c) r ra in
  if rc <? 0 then mret (inr (-1, s)) else mret (inl s).

(** [if(turn_channel_bind(...) < 0) return -1;] *)
Definition bind (r chn : role) (peer : start_state -> ioa_addr) : step := λ s,
  '(rc, n, c) ← turn_channel_bind cfg stack maps (s_chn s chn) (s_conn s r) (peer s);
  let s := put_chn (put_conn s r c) chn n in
  if rc <? 0 then mret (inr (-1, s)) else mret (inl s).

(** [if(turn_create_permission(...) < 0) return -1;] *)
Definition permit (r : role) (peer : start_state -> ioa_addr) : step := λ s,
  '(rc, c) ← turn_create_permission cfg stack maps (s_conn s r) [peer s];
  if rc <? 0 then mret (inr (-1, put_conn s r c)) else mret (inl (put_conn s r c)).

(** The requests of [extra_requests] on a connection. *)
Definition extra_channels (r : role) : step := λ s,
  if negb (extra_requests cfg) then mret (inl s) else
  arbaddr ← random_peer stack (lit "164.156.178.190");
  k ← random;
  c ← extra_binds cfg stack maps (Z.to_nat (u16 k mod EXTRA_CREATE_PERMS)) (s_conn s r) arbaddr;
  mret (inl (put_conn s r c)).

Definition extra_peers_of (r : role) : step := λ s,
  c ← extra_permissions cfg stack maps (s_conn s r); mret (inl (put_conn s r c)).

(** One permission after the other for an address that changes in place. *)
Fixpoint single_permissions (n : nat) (c : app_ur_conn_info) (arbaddr : ioa_addr) : prog app_ur_conn_info :=
  match n with
  | O => mret c
  | S n =>
    k ← random;
    arbaddr ← tweak_addr arbaddr (u16 k);
    '(_, c) ← turn_create_permission cfg stack maps c [arbaddr];
    single_permissions n c arbaddr
  end.

Definition extra_single_permissions (r : role) : step := λ s,
  if negb (extra_requests cfg) then mret (inl s) else
  arbaddr ← random_peer stack (lit "64.56.78.90");
  k ← random;
  c ← single_permissions (Z.to_nat (u16 k mod EXTRA_CREATE_PERMS)) (s_conn s r) arbaddr;
  mret (inl (put_conn s r c)).

(** * start_connection *)

(** [addr_cpy(&(clnet_info->peer_addr), &peer)] *)
Definition set_peer (r : role) (peer : start_state -> ioa_addr) : step := λ s,
  mret (inl (put_conn s r (set_conn_peer_addr (s_conn s r) (peer s)))).

Definition peer_family (peer : ioa_addr) (g : globals) : Z :=
  if truth (default_address_family g) then default_address_family g else get_allocate_address_family peer.

(** The channel bindings: each of the two peers twice. *)
Definition start_channels (peer peer_rtcp : start_state -> ioa_addr) : step :=
  in_order [
    bind Real1 Real1 peer_rtcp; rarely;
    bind Real1 Real1 peer_rtcp; rarely;
    (λ s, goes_on_with (put_chn s Real1 0));
    bind Real1 Real1 peer; rarely;
    bind Real1 Real1 peer; rarely;
    extra_channels Real1;
    when rtcp (bind Rtcp1 Rtcp1 peer_rtcp); rarely;
    extra_peers_of Real1].

Definition both_permissions (peer peer_rtcp : start_state -> ioa_addr) : step :=
  in_order [permit Real1 peer; rarely; permit Real1 peer_rtcp; rarely].

Definition start_permissions (peer peer_rtcp : start_state -> ioa_addr) : step := λ s,
  k ← random;
  let before := Z.rem k 2 =? 0 in
  in_order [
    when before (both_permissions peer peer_rtcp);
    extra_peers_of Real1;
    when (negb before) (both_permissions peer peer_rtcp);
    when rtcp (in_order [permit Rtcp1 peer_rtcp; rarely; permit Rtcp1 peer; rarely])] s.

Definition start_connection (clnet_remote_port0 : Z) (remote_address0 ifname local_address : list Z) (s : start_state)
    : prog (Z * start_state) :=
  g ← get_globals;
  let peer_addr := g_peer_addr g in
  peer_addr_rtcp ← lift (addr_set_port (Some peer_addr) (addr_get_port (Some peer_addr) + 1));
  let peer := λ _, peer_addr in
  let peer_rtcp := λ _, peer_addr_rtcp in
  body [
    connect_to remote_address0 clnet_remote_port0 ifname local_address Probe;
    copy_address remote_address0 clnet_remote_port0;
    probe Real1;
    (λ s, goes_on_with (put_chn (put_chn s Real1 0) Rtcp1 0));
    connect ifname local_address Real1;
    when rtcp (connect ifname local_address Rtcp1);
    allocate (peer_family peer_addr) Real1; rarely;
    when rtcp (in_order [allocate (peer_family peer_addr_rtcp) Rtcp1; rarely]);
    when (negb (dos cfg))
      (if negb (do_not_use_channel cfg) then start_channels peer peer_rtcp else start_permissions peer peer_rtcp);
    set_peer Real1 peer;
    when rtcp (set_peer Rtcp1 peer_rtcp)] s.

(** * start_c2c_connection *)

Definition relay_of (r : role) (s : start_state) : ioa_addr := s_relay s r.

(** A passive peer is not allocated: it is reached at its local address. *)
Definition allocate_second (s : start_state) : prog (start_state + Z * start_state) :=
  if negb (ci_is_peer (s_conn s Real2)) then in_order [allocate default_address_family Real2; rarely] s
  else
    let c := s_conn s Real2 in
    let c := set_endpoints c (ci_local_addr c) (ci_lsaddr c) (s_relay s Real1) (ci_rsaddr c) (ci_ifname c) (ci_fd c) in
    goes_on_with (put_relay (put_conn s Real2 c) Real2 (ci_local_addr c)).

Definition c2c_allocations : step :=
  if rtcp then
    in_order [
      allocate default_address_family Real1; rarely;
      allocate default_address_family Rtcp1; rarely;
      allocate default_address_family Real2; rarely;
      allocate default_address_family Rtcp2; rarely]
  else in_order [allocate default_address_family Real1; rarely; allocate_second].

Definition c2c_channels : step :=
  in_order [
    bind Real1 Real1 (relay_of Real2);
    extra_channels Real1; rarely;
    extra_peers_of Real1;
    when rtcp (bind Rtcp1 Rtcp1 (relay_of Rtcp2)); rarely;
    bind Real2 Real2 (relay_of Real1); rarely;
    when rtcp (bind Rtcp2 Rtcp2 (relay_of Rtcp1)); rarely].

Definition c2c_permissions : step :=
  in_order [
    permit Real1 (relay_of Real2);
    extra_single_permissions Real1; rarely;
    when rtcp (permit Rtcp1 (relay_of Rtcp2)); rarely;
    (λ s, when (negb (ci_is_peer (s_conn s Real2))) (in_order [permit Real2 (relay_of Real1); rarely]) s);
    when rtcp (permit Rtcp2 (relay_of Rtcp1)); rarely].

(** [clnet_info2->is_peer = 1] *)
Definition set_is_peer (c : app_ur_conn_info) : app_ur_conn_info :=
  ConnInfo (ci_local_addr c) (ci_lsaddr c) (ci_remote_addr c) (ci_rsaddr c) (ci_ifname c) (ci_peer_addr c)
    (ci_relay_addr c) (ci_fd c) (ci_ssl c) (ci_broken c) (ci_nonce c) (ci_realm c) (ci_oauth c) (ci_server_name c)
    (ci_key c) (ci_key_set c) (ci_cok c) (ci_tcp_conn c) true (ci_s_mobile_id c).

Definition start_c2c_connection (clnet_remote_port0 : Z) (remote_address0 ifname local_address : list Z)
    (s : start_state) : prog (Z * start_state) :=
  body [
    (λ s, goes_on_with (put_chn (put_chn (put_chn (put_chn s Real1 0) Real2 0) Rtcp1 0) Rtcp2 0));
    connect_to remote_address0 clnet_remote_port0 ifname local_address Probe;
    copy_address remote_address0 clnet_remote_port0;
    probe Real1; rarely;
    connect ifname local_address Real1;
    when rtcp (connect ifname local_address Rtcp1);
    when (passive_tcp lc) (λ s, goes_on_with (put_conn s Real2 (set_is_peer (s_conn s Real2))));
    connect ifname local_address Real2;
    when rtcp (connect ifname local_address Rtcp2);
    c2c_allocations;
    (if negb (do_not_use_channel cfg) then c2c_channels else c2c_permissions);
    set_peer Real1 (relay_of Real2);
    when rtcp (set_peer Rtcp1 (relay_of Rtcp2));
    set_peer Real2 (relay_of Real1);
    when rtcp (set_peer Rtcp2 (relay_of Rtcp1))] s.
End start.
