(* ===== verification/LoadTest.v ===== *)
(** The load test: starting the sessions, the timer and [start_mclient] of
    [uclient/uclient.c].

    Registering descriptors with libevent is not part of the model; [run_events] is
    the sequence of calls libevent makes ([next_event]). *)

From stdpp Require Import gmap.
From S2P Require Import Prelude Defs CString IoAddr MsgAddr AddrText StunHeader StunAttr StunMsg StunBuffer Crypto Integrity Evp OAuth System Session Transport Credentials Sockets Connect Allocate Bind Client TcpRelay Load LoadStart Uclient.

(** * Fresh sessions *)

(** The initial values of the statics. *)
Definition statics_init : statics :=
  Statics (Clock 0 0 0 false) (Traffic 0 0 0 0) (Extremes 0xFFFFFFFF 0 0xFFFFFFFF 0) (Totals 0 0 0) 0 false 0 0
    (zeros 65536) ∅.

Definition load_session_zero : load_session :=
  LoadSession Client.create_new_ss 0 false buffer_zero 0 0 0 0 0 0.

Definition create_new_ss (st : statics) : statics * load_session :=
  (set_clients st (u64 (current_clients_number st + 1)), load_session_zero).

(** [bzero(&clnet_info_probe); clnet_info_probe.fd = -1;] and the connections of the
    sessions; the addresses are locals. *)
Definition fresh_state (junk : ioa_addr) : start_state :=
  StartState (λ _, conn_zero) (λ _, 0) (λ _, junk) ([], 0).

Section load_test.
Context `{N : NetDb} `{C : Crypto} `{V : Evp}.
Context (lc : load_config) (stack : world -> frame) (maps : addr_maps).

#[local] Abbreviation cfg := (lc_cfg lc).
#[local] Abbreviation rtcp := (negb (no_rtcp cfg)).

(** [SSL_free] closes the socket of a DTLS connection; the descriptor of a TLS one
    stays open. *)
Definition close_probe (c : app_ur_conn_info) : prog unit :=
  if ci_ssl c then act SslFreed
  else if negb (ci_fd c =? -1) then act (Closed (ci_fd c)) else mret tt.

(** The session of a connection, ready to send [tot] messages. *)
Definition make_ready (e : load_session) (c : app_ur_conn_info) (chn tot_msg : Z) : load_session :=
  set_tot_msgnum (set_base e (set_ready (set_pinfo (base e) c) (-1) chn)) tot_msg.

Definition at_least_one (n : Z) : Z := if n <? 1 then 1 else n.

(** [if(!no_rtcp) ss_rtcp = create_new_ss();] *)
Definition create_rtcp (st : statics) : statics * load_session :=
  if rtcp then create_new_ss st else (st, load_session_zero).

Definition put_elem (st : statics) (i : nat) (e : load_session) : statics := set_elems st (<[i := e]> (elems st)).

(** The sessions leave the function only when all of it succeeds; those of a failure
    are lost, and stay counted. *)
Definition start_client (remote_address : list Z) (port : Z) (ifname local_address : list Z) (messagenumber : Z)
    (i : nat) (st : statics) : prog (Z * statics) :=
  let '(st, ss) := create_new_ss st in
  let '(st, ss_rtcp) := create_rtcp st in
  f ← get_frame stack;
  '(rc, s) ← start_connection lc stack maps (u16 port) remote_address ifname local_address (fresh_state (fr_addr f));
  if rc <? 0 then mret (-1, st) else
  close_probe (s_conn s Probe);;
  _ ← socket_set_nonblocking (ci_fd (s_conn s Real1));
  _ ← (if rtcp then socket_set_nonblocking (ci_fd (s_conn s Rtcp1)) else mret 0);
  let ss := make_ready ss (s_conn s Real1) (s_chn s Real1) messagenumber in
  '(_, ss) ← refresh_channel lc stack maps st ss 0 600;
  let st := put_elem st i ss in
  mret (0, if rtcp then put_elem st (S i) (make_ready ss_rtcp (s_conn s Rtcp1) (s_chn s Rtcp1)
                                             (at_least_one messagenumber)) else st).

(** The result of [start_c2c_connection] is not tested. *)
Definition start_c2c (remote_address : list Z) (port : Z) (ifname local_address : list Z) (messagenumber : Z)
    (i : nat) (st : statics) : prog (Z * statics) :=
  let '(st, ss1) := create_new_ss st in
  let '(st, ss1_rtcp) := create_rtcp st in
  let '(st, ss2) := create_new_ss st in
  let '(st, ss2_rtcp) := create_rtcp st in
  f ← get_frame stack;
  '(_, s) ← start_c2c_connection lc stack maps (u16 port) remote_address ifname local_address
              (fresh_state (fr_addr f));
  close_probe (s_conn s Probe);;
  _ ← socket_set_nonblocking (ci_fd (s_conn s Real1));
  _ ← (if rtcp then socket_set_nonblocking (ci_fd (s_conn s Rtcp1)) else mret 0);
  _ ← socket_set_nonblocking (ci_fd (s_conn s Real2));
  _ ← (if rtcp then socket_set_nonblocking (ci_fd (s_conn s Rtcp2)) else mret 0);
  let ready e r n := make_ready e (s_conn s r) (s_chn s r) n in
  let ss1 := ready ss1 Real1 messagenumber in
  let ss2 := ready ss2 Real2 messagenumber in
  mret (0, if rtcp then
             put_elem (put_elem (put_elem (put_elem st i ss1)
               (1 + i) (ready ss1_rtcp Rtcp1 (at_least_one messagenumber)))
               (2 + i) ss2)
               (3 + i) (ready ss2_rtcp Rtcp2 (at_least_one messagenumber))
           else put_elem (put_elem st i ss1) (1 + i) ss2).

(** * The timer *)

(** [finished_time] is passed, or as many messages have arrived as there are. *)
Definition finished (st : statics) (e : load_session) : bool :=
  negb (turn_time_before (current_mstime (clk st)) (finished_time e))
  || (tot_messages st <=? tot_recv_messages (trf st)).

(** The statistics of a session that is completed go into the totals. *)
Definition complete (st : statics) (e : load_session) : statics * load_session :=
  let t := tot st in
  let s := base e in
  (set_tot st (Totals (u64 (total_loss t + loss s)) (u64 (total_latency t + latency e))
                 (u64 (total_jitter t + jitter e))),
   set_completed (set_delays (set_base e (set_counters s (wait_cycles s) (rmsgnum s) (recvmsgnum s) (recvtimems s) 0))
                    0 0)).

(** The [while] loop: [n] is [max_num - cur_num].  Result: the return code and [*done]. *)
Fixpoint burst (n : nat) (done_ : Z) (st : statics) (e : load_session) : prog (Z * Z * statics * load_session) :=
  if turn_time_before (current_mstime (clk st)) (to_send_timems e) then mret (0, done_, st, e) else
  match n with
  | O => mret (0, done_, st, e)
  | S n =>
    if tot_msgnum e <=? wmsgnum e then
      if finished st e then
        let '(st, e) := complete st e in
        if negb (hang_on lc) then
          '(_, e) ← refresh_channel lc stack maps st e 0 0;
          '(st, e) ← client_shutdown st e;
          mret (1, done_, st, e)
        else mret (0, done_, st, e)
      else burst n done_ st e
    else
      done_ ← lift (i32 (done_ + 1));
      '(_, st, e) ← client_write lc maps st e;
      burst n done_ st (set_finished_time e (u32 (current_mstime (clk st) + STOPPING_TIME * 1000)))
  end.

Definition MAX_BURST : nat := 50.

Definition client_timer_handler (st : statics) (e : load_session) (done_ : Z) : prog (Z * Z * statics * load_session) :=
  '(_, e) ← (if turn_time_before (current_mstime (clk st)) (refresh_time (base e)) then mret (0, e)
             else refresh_channel lc stack maps st e 0 600);
  if hang_on lc && completed e then mret (0, done_, st, e) else
  burst MAX_BURST done_ st e.

(** [for(i = 0; i < total_clients; ++i) if(elems[i]) ...]: [l] is the rest of the indices. *)
Fixpoint timer_loop (l : list nat) (done_ : Z) (st : statics) : prog (Z * statics) :=
  match l with
  | [] => mret (done_, st)
  | i :: l =>
    match elems st !! i with
    | None => timer_loop l done_ st
    | Some e =>
      '(fin, done_, st, e) ← client_timer_handler st e done_;
      let st := if truth fin then set_elems st (delete i (elems st)) else put_elem st i e in
      timer_loop l done_ st
    end
  end.

(** [close(elems[i]->pinfo.fd); elems[i]->pinfo.fd = -1;] *)
Fixpoint disconnect_loop (l : list nat) (st : statics) : prog statics :=
  match l with
  | [] => mret st
  | i :: l =>
    match elems st !! i with
    | None => disconnect_loop l st
    | Some e =>
      let c := pinfo (base e) in
      act (Closed (ci_fd c));;
      disconnect_loop l (put_elem st i (set_conn e (set_fd c (-1) (ci_ssl c))))
    end
  end.

Definition indices (st : statics) : list nat := seq 0 (Z.to_nat (total_clients st)).

Definition timer_handler (st : statics) : prog statics :=
  st ← __turn_getMSTime st;
  if start_full_timer st then
    '(n, st) ← timer_loop (indices st) 0 st;
    if (5 <? n) && (dos cfg || random_disconnect lc) then disconnect_loop (indices st) st else mret st
  else mret st.

(** * Events *)

(** A descriptor is only registered for a session that is there. *)
Definition event_turn (st : statics) : prog (statics + statics) :=
  e ← next_event;
  match e with
  | LoopExit => mret (inr st)
  | Timer => st ← timer_handler st; mret (inl st)
  | Readable i fd =>
    match elems st !! i with
    | None => mret (inl st)
    | Some e => '(st, e) ← client_input_handler lc stack maps fd EV_READ st e; mret (inl (put_elem st i e))
    end
  end.

Definition run_events (short_burst : bool) (st : statics) : prog statics :=
  act (Waited (if short_burst then 100 else 1000));;
  iter event_turn st.

(** * start_mclient *)

(** [total_clients] and [start_sec] keep their values. *)
Definition resetValue (st : statics) : statics :=
  Statics (clk st) (Traffic 0 0 0 0) (Extremes 0xFFFFFFFF 0 0xFFFFFFFF 0) (Totals 0 0 0) 0 false
    (current_clients_number st) (total_clients st) (buffer_to_send st) (elems st).

(** The number of clients, rounded up to whole groups of sessions. *)
Definition round_clients (mclient : Z) : Z :=
  if c2c cfg then
    if rtcp then mclient + Z.land (4 - Z.land mclient 3) 3
    else if truth (Z.land mclient 1) then mclient + 1 else mclient
  else if rtcp && truth (Z.land mclient 1) then mclient + 1 else mclient.

(** Sessions started together, as a shift of their number. *)
Definition group_shift : nat := if c2c cfg then (if rtcp then 2 else 1) else (if rtcp then 1 else 0).

(** The loops over [start_c2c] and [start_client]; [None]: a start failed. *)
Fixpoint start_loop (l : list nat) (remote_address : list Z) (port : Z) (ifname local_address : list Z)
    (messagenumber : Z) (st : statics) : prog (option Z * statics) :=
  match l with
  | [] => mret (Some 0, st)
  | i :: l =>
    '(rc, st) ← (if c2c cfg then start_c2c else start_client) remote_address port ifname local_address messagenumber
                  (i * 2 ^ group_shift)%nat st;
    if rc <? 0 then mret (None, st) else
    '(r, st) ← start_loop l remote_address port ifname local_address messagenumber st;
    mret (option_map (Z.add (2 ^ Z.of_nat group_shift)) r, st)
  end.

(** A session by its index; a NULL pointer is dereferenced. *)
Definition elem_at (st : statics) (i : nat) : option load_session := elems st !! i.

(** [for(j = i+1; j < total_clients; j++) if(turn_tcp_connect(...) < 0) return;] *)
Fixpoint connect_pairs (i : nat) (l : list nat) (st : statics) : prog (bool * statics) :=
  match l with
  | [] => mret (true, st)
  | j :: l =>
    e ← lift (elem_at st i);
    e' ← lift (elem_at st j);
    '(rc, c) ← turn_tcp_connect cfg stack maps (pinfo (base e)) (ci_relay_addr (pinfo (base e')));
    let st := put_elem st i (set_conn e c) in
    if rc <? 0 then mret (false, st) else connect_pairs i l st
  end.

(** The loop that connects the relays; [false]: the function returns. *)
Fixpoint connect_loop (l : list nat) (st : statics) : prog (bool * statics) :=
  match l with
  | [] => mret (true, st)
  | i :: l =>
    '(ok, st) ← (if is_TCP_relay cfg then
                   if passive_tcp lc then
                     e ← lift (elem_at st i);
                     (if ci_is_peer (pinfo (base e)) then
                        _ ← socket_connect (ci_fd (pinfo (base e))) (ci_remote_addr (pinfo (base e))) EOTHER; mret tt
                      else mret tt);;
                     mret (true, st)
                   else connect_pairs i l st
                 else mret (true, st));
    if (ok : bool) then st ← run_events true st; connect_loop l st else mret (false, st)
  end.

(** The data connections of a session that are bound. *)
Definition bound_conns (e : load_session) : option Z :=
  foldr (λ a r, n ← r; a ← a; Some (if tcp_data_bound a then n + 1 else n)) (Some 0)
    (default [] (ci_tcp_conn (pinfo (base e)))).

(** A passive session counts when its first data connection is bound. *)
Definition passive_conns (e : load_session) : option Z :=
  let c := pinfo (base e) in
  if ci_is_peer c then Some 1 else
  match default [] (ci_tcp_conn c) with
  | [] => Some 0
  | a :: _ => a ← a; Some (if tcp_data_bound a then zlen (default [] (ci_tcp_conn c)) else 0)
  end.

Fixpoint count_conns (l : list nat) (st : statics) : option Z :=
  match l with
  | [] => Some 0
  | i :: l =>
    e ← elem_at st i;
    n ← (if passive_tcp lc then passive_conns e else bound_conns e);
    m ← count_conns l st;
    Some (n + m)
  end.

(** The wait for the data connections. *)
Definition wait_conns_turn (start_time : Z) (st : statics) : prog (statics + statics) :=
  completed ← lift (count_conns (indices st) st);
  wanted ← lift (if passive_tcp lc then Some (total_clients st) else i32 (total_clients st * (total_clients st - 1)));
  if wanted <=? completed then mret (inr st) else
  st ← run_events false st;
  if start_time + STARTING_TCP_RELAY_TIME + total_clients st <? current_time (clk st) then mret (inr st)
  else mret (inl st).

(** The first message of a session is sent in one to six seconds. *)
Fixpoint schedule_loop (l : list nat) (st : statics) : prog statics :=
  match l with
  | [] => mret st
  | i :: l =>
    match elems st !! i with
    | None => schedule_loop l st
    | Some e =>
      r ← random;
      schedule_loop l (put_elem st i (set_written e (wmsgnum e)
                         (u32 (u64 (current_mstime (clk st) + 1000 + u32 r mod 5000)))))
    end
  end.

(** [tot_messages] is that of the first session there is. *)
Definition count_messages (st : statics) : option Z :=
  match head (omap (λ i, elems st !! i) (indices st)) with
  | None => Some (tot_messages st)
  | Some e => n ← i32 (tot_msgnum e * total_clients st); Some (u32 n)
  end.

(** [while(1)]: until no session is left. *)
Definition main_turn (st : statics) : prog (statics + statics) :=
  st ← run_events true st;
  if to_i32 (current_clients_number st) <? 1 then mret (inr st) else
  let k := clk st in
  mret (inl (set_clk st (Clock (start_sec k) (current_time k) (current_mstime k) false))).

(** The losses that are printed. *)
Definition final_counts (st : statics) : statics :=
  let t := trf st in
  let recv := if tot_send_messages t <? tot_recv_messages t then tot_send_messages t else tot_recv_messages t in
  set_tot (set_trf st (Traffic (tot_send_messages t) (tot_send_bytes t) recv (tot_recv_bytes t)))
    (Totals (tot_send_messages t - recv) (total_latency (tot st)) (total_jitter (tot st))).

(** [free(elems); elems = NULL;] *)
Definition free_elems (st : statics) : statics := set_elems st ∅.

(** From the registration of the timer to the end.  A failing [turn_tcp_connect]
    returns without freeing the array. *)
Definition run_load (st : statics) : prog statics :=
  '(ok, st) ← connect_loop (indices st) st;
  if negb ok then mret st else
  st ← __turn_getMSTime st;
  st ← (if is_TCP_relay cfg then iter (wait_conns_turn (current_time (clk st))) st else mret st);
  st ← __turn_getMSTime st;
  st ← schedule_loop (indices st) st;
  n ← lift (count_messages st);
  st ← iter main_turn (set_full st n true);
  mret (free_elems (final_counts st)).

(** [memset(buffer_to_send, 7, clmessage_length);] *)
Definition fill_buffer (b : list Z) : option (list Z) :=
  if clmessage_length cfg <? 0 then None else wr_block b 0 (replicate (Z.to_nat (clmessage_length cfg)) 7).

(** The size of the array is computed in [int]. *)
Definition start_mclient (remote_address : list Z) (port : Z) (ifname local_address : list Z)
    (messagenumber mclient : Z) (st : statics) : prog statics :=
  let mclient := if mclient <? 1 then 1 else mclient in
  let st := set_total_clients (resetValue st) mclient in
  let mclient := round_clients mclient in
  _ ← lift (i32 (mclient * 2 + 1));
  st ← __turn_getMSTime (set_elems st ∅);
  b ← lift (fill_buffer (buffer_to_send st));
  let st := set_payload st b in
  '(r, st) ← start_loop (seq 0 (Z.to_nat (Z.shiftr mclient (Z.of_nat group_shift)))) remote_address port ifname
               local_address messagenumber st;
  match r with
  | None => mret (free_elems st)
  | Some n =>
    if dos cfg then mret (free_elems st) else
    st ← __turn_getMSTime (set_total_clients st n);
    run_load st
  end.
End load_test.

(** * start_uclient *)

(** The settings of [uclient/uclient_manager.c] that the load test adds. *)
Record load_settings : Type := LoadSettings {
  ls_passive_tcp : bool;
  ls_hang_on : bool;
  ls_random_disconnect : bool;
  ls_mandatory_channel_padding : bool;
  ls_messagenumber : Z;
  ls_mclient : Z;
}.

Definition load_config_of (u : uclient) (l : load_settings) : load_config :=
  LoadConfig (uc_cfg u) (ls_passive_tcp l) (ls_hang_on l) (ls_random_disconnect l)
    (ls_mandatory_channel_padding l) (client_ifname u).

(** [uclient/uclient_manager.c] is [p2p/uclient_manager.c] with the address of the
    peer, set here, and [start_mclient] at the end. *)
Definition start_uclient `{NetDb} `{Crypto} `{Evp} (stack : world -> frame) (maps : addr_maps) (l : load_settings)
    (u : uclient) (remote_address : list Z) (remote_port : Z) (uname upwd : option (list Z)) (st : statics)
    : prog (uclient * statics) :=
  uname ← lift uname;
  upwd ← lift upwd;
  u ← start_settings stack u uname upwd;
  let port := default_port (uc_cfg u) remote_port in
  ok ← Bind.set_peer (uc_cfg u) stack (peer_address u) (peer_port u);
  if negb ok then mret (u, st) else
  '(u, ok) ← init_tls u;
  if negb ok then mret (u, st) else
  st ← start_mclient (load_config_of u l) stack maps remote_address port (client_ifname u) (zeros 256)
         (ls_messagenumber l) (ls_mclient l) st;
  mret (u, st).
