(* ===== verification/LoadScenario.v ===== *)
(** A load test evaluated from its start to its end: a session over UDP, found through
    a probe, that binds its channel, sends two messages, receives both back and is
    shut down.  The witnesses of the theorems on the load test use it. *)

From stdpp Require Import gmap.
From S2P Require Import Prelude Defs CString IoAddr MsgAddr AddrText AddrTextSpec StunHeader StunAttr StunMsg StunReply StunBuffer Crypto Integrity Evp OAuth System Session Samples Transport Credentials Sockets Connect Allocate Bind Client Scenario Uclient TcpRelay Load LoadStart LoadTest.

(** The sample settings without RTCP. *)
Definition sample_load : load_config :=
  LoadConfig (set_switches sample_cfg false true false false false) false false false false (zeros 1025).

Definition peer_world (s : list answer) : world := World EOTHER s (Globals false 0 0 (v4_addr 5 6 7 8 3480)) [].

Definition at_time (sec ms : Z) : list answer := [ATime sec; ATime (ms * 1000000)].
Definition connect_on (fd : Z) : list answer := ACall fd EOTHER :: tail connect_answers.
Definition load_allocate_answers : list answer := ARandom 0 :: allocate_answers.

Definition bind_reply : list Z :=
  wire (stun_init_success_response STUN_METHOD_CHANNEL_BIND sample_message (Some (tid_of sample_entropy)) sample_entropy).

(** A channel binding; the first one of a number draws it. *)
Definition bind_answers (first : bool) : list answer :=
  (if first then [AEntropy sample_entropy] else []) ++ [AEntropy sample_entropy; accepted] ++ readable ++ [AData bind_reply].

(** REFRESH, CREATE-PERMISSION and CHANNEL-BIND of a new session. *)
Definition refresh_answers : list answer := concat (replicate 3 [AEntropy sample_entropy; accepted]).

(** The messages that come back: channel 0x4201, the number and the time of sending. *)
Definition echo (n ms : Z) : list Z :=
  [0x42; 0x01; 0; 100] ++ le_split 4 n ++ replicate 4 7 ++ le_split 8 ms ++ replicate 84 7.

Definition load_start_answers : list answer :=
  at_time 100 0 ++ connect_on 3 ++ load_allocate_answers ++ connect_on 4 ++ load_allocate_answers ++
  bind_answers true ++ bind_answers false ++ bind_answers true ++ bind_answers false ++
  [done_ok] ++ refresh_answers ++ at_time 100 0.

(** Two seconds later the messages are sent; they come back after 35 milliseconds. *)
Definition load_answers : list answer :=
  load_start_answers ++ [AEvent LoopExit] ++ at_time 100 0 ++ at_time 100 0 ++ [ARandom 0] ++
  [AEvent Timer] ++ at_time 102 0 ++ [accepted; accepted] ++
  [AEvent Timer] ++ at_time 102 35 ++
  [AEvent (Readable 0 4); AData (echo 0 2000); AData (echo 1 2000); ACall (-1) EAGAIN] ++
  [AEvent Timer] ++ at_time 102 70 ++ [AEntropy sample_entropy; accepted] ++
  [AEvent LoopExit].

Abbreviation load_scenario :=
  (start_mclient sample_load (λ _, sample_frame) addr_maps_init (cstring (lit "1.2.3.4")) 3478 (zeros 129) (zeros 129) 2 1).

Lemma load_scenario_run :
  match load_scenario statics_init (peer_world load_answers) with
  | Ret st w =>
    w_script w = [] /\ current_clients_number st = 0 /\ trf st = Traffic 2 200 2 200 /\ tot st = Totals 0 70 20 /\
    ext st = Extremes 35 35 20 20 /\
    drop 36 (w_trace w) =
      [Sent 4 (echo 0 2000); Sent 4 (echo 1 2000); Sent 4 (refresh_wire [0; 0; 0; 0] [232; 38; 182; 81]); Closed 4]
  | _ => False
  end.
Proof. vm_compute. repeat split. Qed.
