(* ===== verification/LoadEnds.v ===== *)
(** Termination of the load test: like the two other clients it turns no loop without
    an answer of the environment. *)

From stdpp Require Import gmap.
From S2P Require Import Prelude Defs CString IoAddr MsgAddr AddrText StunHeader StunAttr StunMsg StunBuffer Crypto Integrity Evp OAuth System Progress Session Transport TransportSpec Credentials Sockets Connect Allocate Bind Client StunClient Termination Uclient TcpRelay Load LoadStart LoadTest.

Section relay.
Context `{N : NetDb} `{C : Crypto} `{V : Evp}.
Context (cfg : config) (stack : world -> frame) (maps : addr_maps) (ifn : list Z).

Lemma ends_turn_tcp_connect c a : ends (turn_tcp_connect cfg stack maps c a).
Proof. unfold turn_tcp_connect. halts_tac. Qed.

Lemma ends_connection_bind_response c m : ends (connection_bind_response cfg stack c m).
Proof. unfold connection_bind_response. halts_tac. Qed.

Lemma moves_connection_bind_request k m : moves (connection_bind_request k m).
Proof. unfold connection_bind_request. halts_tac. Qed.
#[local] Hint Resolve ends_connection_bind_response : ends.
#[local] Hint Resolve moves_connection_bind_request : moves.

Lemma goes_connection_bind_receive_turn a st : halts (connection_bind_receive_turn cfg stack a st) (goes_on (λ _, True)).
Proof.
  destruct st as [[c req] m]. unfold connection_bind_receive_turn. apply halts_receives. intros [[[n c'] m'] req']. cbn [fst].
  eapply halts_ends; [halts_tac|intros q|by destruct (0 <? n); intros [?|?] b H; try intros []].
  destruct (0 <? n); halts_tac.
Qed.
#[local] Hint Resolve goes_connection_bind_receive_turn : ends.

Lemma goes_connection_bind_turn ok a st : halts (connection_bind_turn cfg stack ok a st) (goes_on (λ _, True)).
Proof. destruct st as [[c req] m]. unfold connection_bind_turn. halts_tac. Qed.
#[local] Hint Resolve goes_connection_bind_turn : ends.

Lemma ends_turn_tcp_connection_bind c a ok : ends (turn_tcp_connection_bind cfg stack c a ok).
Proof. unfold turn_tcp_connection_bind. halts_tac. Qed.

Lemma moves_data_socket : moves (data_socket ifn).
Proof. unfold data_socket. halts_tac. Qed.
#[local] Hint Resolve ends_turn_tcp_connection_bind : ends.
#[local] Hint Resolve moves_data_socket : moves.

Lemma ends_bind_data_socket a fd : ends (bind_data_socket a fd).
Proof. unfold bind_data_socket. halts_tac. Qed.
#[local] Hint Resolve ends_bind_data_socket : ends.

Lemma ends_data_connect_loop n c a : ends (data_connect_loop ifn n c a).
Proof. revert a. induction n as [|n IH]; intros a; cbn [data_connect_loop]; halts_tac; apply IH. Qed.
#[local] Hint Resolve ends_data_connect_loop : ends.

Lemma moves_data_connect_turn c k n : moves (data_connect_turn cfg ifn c k n).
Proof. unfold data_connect_turn. halts_tac. Qed.
#[local] Hint Resolve moves_data_connect_turn : moves.

Lemma ends_tcp_data_connect c k : ends (tcp_data_connect cfg stack ifn c k).
Proof. unfold tcp_data_connect. halts_tac. Qed.
End relay.
#[export] Hint Resolve ends_turn_tcp_connect ends_turn_tcp_connection_bind ends_tcp_data_connect : ends.

Section load.
Context `{N : NetDb} `{C : Crypto} `{V : Evp}.
Context (lc : load_config) (stack : world -> frame) (maps : addr_maps).

(** * The session *)

Lemma ends_refresh_channel_at now s k l : ends (refresh_channel_at (lc_cfg lc) stack maps now s k l).
Proof. unfold refresh_channel_at. halts_tac. Qed.
#[local] Hint Resolve ends_refresh_channel_at : ends.

Lemma ends_load_refresh_channel st e k l : ends (Load.refresh_channel lc stack maps st e k l).
Proof. unfold Load.refresh_channel. halts_tac. Qed.
#[local] Hint Resolve ends_load_refresh_channel : ends.

Lemma ends_load_read_indication c m : ends (Load.read_indication lc stack c m).
Proof. unfold Load.read_indication. halts_tac. Qed.
#[local] Hint Resolve ends_load_read_indication : ends.

Lemma ends_load_read_message st e t : ends (Load.read_message lc stack maps st e t).
Proof. unfold Load.read_message. halts_tac. Qed.
#[local] Hint Resolve ends_load_read_message : ends.

(** [client_read] says that it read something only after an answer. *)
Lemma moves_load_client_read st e t atc : halts (Load.client_read lc stack maps st e t atc) (λ x b, 0 < x.1.1 -> b = true).
Proof.
  unfold Load.client_read. destruct (state (base e)); try (by apply halts_ret). cbv zeta.
  apply halts_receives. intros [[[rc c] m] req]. cbn [fst]. destruct (Z.ltb_spec 0 rc).
  - eapply halts_ends; [halts_tac|intros [[] s']; halts_tac|done].
  - destruct (rc =? 0); apply halts_ret; cbn; lia.
Qed.

Lemma goes_load_handler_turn fd x : halts (Load.handler_turn lc stack maps fd x) (goes_on (λ _, True)).
Proof.
  destruct x as [st e]. unfold Load.handler_turn. eapply halts_bind; [apply moves_load_client_read|].
  intros [[rc st'] e'] b Hb. cbn [fst] in Hb.
  destruct (Z.leb_spec rc 0); apply halts_ret; [done|]. split; [done|]. rewrite Hb by done. done.
Qed.
#[local] Hint Resolve goes_load_handler_turn : ends.

Lemma ends_load_input_handler fd what st e : ends (Load.client_input_handler lc stack maps fd what st e).
Proof. unfold Load.client_input_handler. halts_tac. Qed.

Lemma ends_write_out st e atc : ends (write_out lc st e atc).
Proof. unfold write_out. halts_tac. Qed.
Lemma ends_pick_tcp_conn c : ends (pick_tcp_conn c).
Proof. unfold pick_tcp_conn. halts_tac. Qed.
Lemma ends_fill_indication e d : ends (fill_indication lc maps e d).
Proof. unfold fill_indication. halts_tac. Qed.
#[local] Hint Resolve ends_write_out ends_pick_tcp_conn ends_fill_indication : ends.
Lemma ends_client_write st e : ends (client_write lc maps st e).
Proof. unfold client_write. halts_tac. Qed.

Lemma ends_close_tcp_conns b l : ends (close_tcp_conns b l).
Proof. induction l as [|a l IH]; cbn [close_tcp_conns]; unfold close_tcp_conn, ssl_shutdown; halts_tac; apply IH. Qed.
#[local] Hint Resolve ends_client_write ends_close_tcp_conns : ends.
Lemma ends_client_shutdown st e : ends (client_shutdown st e).
Proof. unfold client_shutdown, remove_all_from_ss, uc_delete_session_elem_data, ssl_shutdown. halts_tac. Qed.
#[local] Hint Resolve ends_load_input_handler ends_client_shutdown : ends.

(** * Starting *)

(** A step that ends. *)
Abbreviation step_ends f := (forall s, ends (f s)).

Lemma ends_in_order l s : Forall (λ f : step, step_ends f) l -> ends (in_order l s).
Proof.
  intros H. revert s. induction H as [|f l Hf H IH]; intros s; cbn [in_order]; [halts_tac|].
  eapply halts_ends; [apply Hf|intros [s'|x]; [apply IH|halts_tac]|done].
Qed.

Lemma ends_body l s : Forall (λ f : step, step_ends f) l -> ends (body l s).
Proof. intros H. unfold body. eapply halts_ends; [by apply ends_in_order|intros x; halts_tac|done]. Qed.

Lemma ends_when b f s : ends (f s) -> ends (when b f s).
Proof. intros H. unfold when. destruct b; [done|halts_tac]. Qed.

Lemma ends_single_permissions n c a : ends (single_permissions lc stack maps n c a).
Proof. revert c a. induction n as [|n IH]; intros c a; cbn [single_permissions]; halts_tac; apply IH. Qed.
#[local] Hint Resolve ends_single_permissions : ends.

Lemma ends_rarely s : ends (rarely lc s).
Proof. unfold rarely. halts_tac. Qed.
Lemma ends_connect_to a p i la r s : ends (connect_to lc stack a p i la r s).
Proof. unfold connect_to. halts_tac. Qed.
Lemma ends_connect i la r s : ends (connect lc stack i la r s).
Proof. apply ends_connect_to. Qed.
Lemma ends_copy_address a p s : ends (copy_address stack a p s).
Proof. unfold copy_address. halts_tac. Qed.
Lemma ends_probe r s : ends (probe lc stack maps r s).
Proof. unfold probe. halts_tac. Qed.
Lemma ends_allocate af r s : ends (allocate lc stack maps af r s).
Proof. unfold allocate. halts_tac. Qed.
Lemma ends_bind r n p s : ends (bind lc stack maps r n p s).
Proof. unfold bind. halts_tac. Qed.
Lemma ends_permit r p s : ends (permit lc stack maps r p s).
Proof. unfold permit. halts_tac. Qed.
Lemma ends_extra_channels r s : ends (extra_channels lc stack maps r s).
Proof. unfold extra_channels. halts_tac. Qed.
Lemma ends_extra_peers_of r s : ends (extra_peers_of lc stack maps r s).
Proof. unfold extra_peers_of. halts_tac. Qed.
Lemma ends_extra_single_permissions r s : ends (extra_single_permissions lc stack maps r s).
Proof. unfold extra_single_permissions. halts_tac. Qed.
Lemma ends_set_peer_of r p s : ends (LoadStart.set_peer r p s).
Proof. unfold LoadStart.set_peer. halts_tac. Qed.
Lemma ends_goes_on_with s : ends (goes_on_with s).
Proof. unfold goes_on_with. halts_tac. Qed.
#[local] Hint Resolve ends_rarely ends_connect_to ends_connect ends_copy_address ends_probe ends_allocate ends_bind
  ends_permit ends_extra_channels ends_extra_peers_of ends_extra_single_permissions ends_set_peer_of
  ends_goes_on_with : ends.

(** Follows a list of steps. *)
Ltac steps_tac :=
  repeat match goal with
  | |- Forall _ [] => apply Forall_nil; exact I
  | |- Forall _ (_ :: _) => apply Forall_cons; split
  | |- forall _ : start_state, _ => intros ?
  | |- halts (in_order _ _) _ => apply ends_in_order
  | |- halts (body _ _) _ => apply ends_body
  | |- halts (when _ _ _) _ => apply ends_when
  | |- halts ((if ?b then _ else _) _) _ => destruct b
  | |- halts _ _ => solve [auto with ends nocore]
  end.

Lemma ends_start_channels p q s : ends (start_channels lc stack maps p q s).
Proof. unfold start_channels. steps_tac. Qed.
Lemma ends_start_permissions p q s : ends (start_permissions lc stack maps p q s).
Proof. unfold start_permissions, both_permissions. eapply halts_ends; [halts_tac|intros k|done]. cbv zeta. steps_tac. Qed.
#[local] Hint Resolve ends_start_channels ends_start_permissions : ends.
Lemma ends_load_start_connection p ra i la s : ends (LoadStart.start_connection lc stack maps p ra i la s).
Proof.
  unfold LoadStart.start_connection. eapply halts_ends; [halts_tac|intros g|done]. cbv zeta.
  eapply halts_ends; [halts_tac|intros pr|done]. steps_tac.
Qed.
Lemma ends_allocate_second s : ends (allocate_second lc stack maps s).
Proof. unfold allocate_second. cbv zeta. destruct (negb _); steps_tac. Qed.
#[local] Hint Resolve ends_allocate_second : ends.
Lemma ends_c2c_allocations s : ends (c2c_allocations lc stack maps s).
Proof. unfold c2c_allocations. steps_tac. Qed.
Lemma ends_c2c_channels s : ends (c2c_channels lc stack maps s).
Proof. unfold c2c_channels. steps_tac. Qed.
Lemma ends_c2c_permissions s : ends (c2c_permissions lc stack maps s).
Proof. unfold c2c_permissions. steps_tac. Qed.
#[local] Hint Resolve ends_c2c_allocations ends_c2c_channels ends_c2c_permissions : ends.
Lemma ends_load_start_c2c_connection p ra i la s : ends (LoadStart.start_c2c_connection lc stack maps p ra i la s).
Proof. unfold LoadStart.start_c2c_connection. steps_tac. Qed.
#[local] Hint Resolve ends_load_start_connection ends_load_start_c2c_connection : ends.

Lemma ends_close_probe c : ends (close_probe c).
Proof. unfold close_probe. halts_tac. Qed.
#[local] Hint Resolve ends_close_probe : ends.
Lemma ends_load_start_client ra p i la n k st : ends (LoadTest.start_client lc stack maps ra p i la n k st).
Proof. unfold LoadTest.start_client, create_rtcp. cbv zeta. halts_tac. Qed.
Lemma ends_load_start_c2c ra p i la n k st : ends (LoadTest.start_c2c lc stack maps ra p i la n k st).
Proof. unfold LoadTest.start_c2c, create_rtcp. cbv zeta. halts_tac. Qed.
#[local] Hint Resolve ends_load_start_client ends_load_start_c2c : ends.
Lemma ends_start_loop l ra p i la n st : ends (start_loop lc stack maps l ra p i la n st).
Proof.
  revert st. induction l as [|k l IH]; intros st; cbn [start_loop]; [halts_tac|].
  eapply halts_ends; [destruct (c2c _); halts_tac|intros [rc st']|done]. destruct (rc <? 0); [halts_tac|]. halts_tac.
Qed.
#[local] Hint Resolve ends_start_loop : ends.

(** * Events *)

Lemma moves_getMSTime st : moves (__turn_getMSTime st).
Proof. unfold __turn_getMSTime. halts_tac. Qed.
#[local] Hint Resolve moves_getMSTime : moves.

Lemma ends_burst n d st e : ends (burst lc stack maps n d st e).
Proof.
  revert d st e. induction n as [|n IH]; intros d st e; cbn [burst]; halts_tac; apply IH.
Qed.
#[local] Hint Resolve ends_burst : ends.
Lemma ends_client_timer_handler st e d : ends (client_timer_handler lc stack maps st e d).
Proof. unfold client_timer_handler. halts_tac. Qed.
#[local] Hint Resolve ends_client_timer_handler : ends.
Lemma ends_timer_loop l d st : ends (timer_loop lc stack maps l d st).
Proof. revert d st. induction l as [|i l IH]; intros d st; cbn [timer_loop]; halts_tac; apply IH. Qed.
Lemma ends_disconnect_loop l st : ends (disconnect_loop l st).
Proof. revert st. induction l as [|i l IH]; intros st; cbn [disconnect_loop]; halts_tac; apply IH. Qed.
#[local] Hint Resolve ends_timer_loop ends_disconnect_loop : ends.
Lemma moves_timer_handler st : moves (timer_handler lc stack maps st).
Proof. unfold timer_handler. halts_tac. Qed.
#[local] Hint Resolve moves_timer_handler : moves.
Lemma moves_event_turn st : moves (event_turn lc stack maps st).
Proof. unfold event_turn. halts_tac. Qed.
#[local] Hint Resolve moves_event_turn : moves.
Lemma moves_run_events b st : moves (run_events lc stack maps b st).
Proof. unfold run_events. halts_tac. Qed.
#[local] Hint Resolve moves_run_events : moves.

Lemma ends_connect_pairs i l st : ends (connect_pairs lc stack maps i l st).
Proof. revert st. induction l as [|j l IH]; intros st; cbn [connect_pairs]; halts_tac; apply IH. Qed.
#[local] Hint Resolve ends_connect_pairs : ends.
Lemma ends_connect_loop l st : ends (connect_loop lc stack maps l st).
Proof. revert st. induction l as [|i l IH]; intros st; cbn [connect_loop]; halts_tac; apply IH. Qed.
Lemma goes_wait_conns_turn t st : halts (wait_conns_turn lc stack maps t st) (goes_on (λ _, True)).
Proof. unfold wait_conns_turn. halts_tac. Qed.
Lemma ends_schedule_loop l st : ends (schedule_loop l st).
Proof. revert st. induction l as [|i l IH]; intros st; cbn [schedule_loop]; halts_tac; apply IH. Qed.
Lemma goes_main_turn st : halts (main_turn lc stack maps st) (goes_on (λ _, True)).
Proof. unfold main_turn. halts_tac. Qed.
#[local] Hint Resolve ends_connect_loop goes_wait_conns_turn ends_schedule_loop goes_main_turn : ends.

Lemma ends_run_load st : ends (run_load lc stack maps st).
Proof. unfold run_load. halts_tac. Qed.
#[local] Hint Resolve ends_run_load : ends.
Lemma ends_start_mclient ra p i la n k st : ends (start_mclient lc stack maps ra p i la n k st).
Proof. unfold start_mclient. cbv zeta. halts_tac. Qed.
End load.

#[export] Hint Resolve ends_refresh_channel_at ends_load_refresh_channel ends_load_read_indication ends_load_read_message
  goes_load_handler_turn ends_load_input_handler ends_write_out ends_pick_tcp_conn ends_fill_indication ends_client_write
  ends_close_tcp_conns ends_client_shutdown ends_single_permissions ends_load_start_connection
  ends_load_start_c2c_connection ends_close_probe ends_load_start_client ends_load_start_c2c ends_start_loop ends_burst
  ends_client_timer_handler ends_timer_loop ends_disconnect_loop ends_connect_pairs ends_connect_loop
  goes_wait_conns_turn ends_schedule_loop goes_main_turn ends_run_load ends_start_mclient : ends.
#[export] Hint Resolve moves_getMSTime moves_timer_handler moves_event_turn moves_run_events : moves.
