(* ===== verification/LoadSpec.v ===== *)
(** The load test: how many sessions there are, how fast a session sends, and that a
    session that has sent its messages comes to its end. *)

From stdpp Require Import gmap.
From S2P Require Import Prelude Defs CString IoAddr MsgAddr AddrText StunHeader StunAttr StunMsg StunBuffer Crypto Integrity Evp OAuth System Progress Session Transport TransportSpec Credentials Sockets Connect Allocate Bind Client StunClient Termination Steady AllocateSpec Uclient TcpRelay Load LoadStart LoadTest LoadEnds.

(** What reading and writing leave as it is. *)
Definition clients (st : statics) : gmap nat load_session * Z * Z * bool :=
  (elems st, current_clients_number st, total_clients st, start_full_timer st).

(** The progress of a session. *)
Definition sending (e : load_session) : Z * Z * Z * Z := (tot_msgnum e, wmsgnum e, to_send_timems e, finished_time e).

Section load.
Context `{N : NetDb} `{C : Crypto} `{V : Evp}.
Context (lc : load_config) (stack : world -> frame) (maps : addr_maps).

(** * Reading *)

(** Follows a program whose results say what it keeps. *)
Ltac same_step :=
  match goal with
  | |- halts (mret _) _ => apply halts_ret; try done
  | |- halts (_ ≫= _) _ =>
    first [ eapply halts_bind; [solve [eauto with same nocore]|let x := fresh "x" in intros x ? ?; split_result x; cbn [fst snd] in *]
          | apply (halts_bind _ _ (λ _ _, True)); [solve [halts_tac]|intros ? ? _] ]
  | |- halts (match ?x with _ => _ end) _ => destruct x eqn:?
  | |- halts (lift _) _ => solve [apply halts_lift; done]
  end; cbv beta iota zeta.
Ltac same_tac := repeat same_step.

Create HintDb same discriminated.

Lemma same_load_refresh st e k l : halts (Load.refresh_channel lc stack maps st e k l) (λ x _, sending x.2 = sending e).
Proof. unfold Load.refresh_channel. apply (halts_bind _ _ (λ _ _, True)); [halts_tac|intros [rc s] ? _]. by apply halts_ret. Qed.
#[local] Hint Resolve same_load_refresh : same.

Lemma same_load_read_message st e t : halts (Load.read_message lc stack maps st e t) (λ x _, sending x.2 = sending e).
Proof. unfold Load.read_message. same_tac; cbn [fst snd]; congruence || done. Qed.
#[local] Hint Resolve same_load_read_message : same.

Lemma count_message_same st e mi b n st' e' :
  Load.count_message st e mi b n = Some (st', e') -> clients st' = clients st /\ sending e' = sending e.
Proof.
  unfold Load.count_message. intros H.
  assert (forall st1 e1 l, match mi with Some mi => count_info st e mi | None => Some (st, e, loss (base e)) end = Some (st1, e1, l) ->
    clients st1 = clients st /\ sending e1 = sending e) as Hi.
  { destruct mi as [mi|]; [|by intros ? ? ? [= <- <- <-]]. intros st1 e1 l. unfold count_info. cbv zeta.
    destruct (i32 (recvmsgnum _ + 1)) as [x|]; [|by intros].
    cbn [mbind option_bind]. destruct (negb _); [by intros [= <- <- <-]|].
    destruct (time_minus _ _) as [d|]; [|by intros]. cbn [mbind option_bind]. destruct (0 <? rmsgnum _); [|by intros [= <- <- <-]].
    destruct (i32 (_ - RTP_PACKET_INTERVAL)) as [j|]; [|by intros]. cbn [mbind option_bind].
    destruct (i32 (Z.abs _)) as [k|]; [|by intros]. cbn [mbind option_bind].
    by intros [= <- <- <-]. }
  destruct (match mi with Some _ => _ | None => _ end) as [[[st1 e1] l]|] eqn:E; cbn [mbind option_bind] in H; [|done].
  destruct (Hi _ _ _ eq_refl) as [H1 H2]. injection H as <- <-. by rewrite <- H1, <- H2.
Qed.

Lemma same_client_read st e t atc :
  halts (Load.client_read lc stack maps st e t atc) (λ x _, clients x.1.2 = clients st /\ sending x.2 = sending e).
Proof.
  unfold Load.client_read. destruct (state (base e)); [by apply halts_ret| |by apply halts_ret]. cbv zeta.
  apply (halts_bind _ _ (λ _ _, True)); [halts_tac|intros [[[rc c] m] req] ? _].
  destruct (0 <? rc); [|destruct (rc =? 0); by apply halts_ret].
  eapply halts_bind; [apply same_load_read_message|]. intros [r e1] ? He1. cbn [snd] in He1.
  destruct r as [n| |mi n k]; [by apply halts_ret..|].
  eapply halts_bind; [apply halts_lift_eq|]. intros [st2 e2] ? Hc. apply count_message_same in Hc as [H1 H2].
  apply halts_ret. cbn [fst snd]. split; [done|]. by rewrite H2, He1.
Qed.

Lemma same_input_handler fd what st e :
  halts (Load.client_input_handler lc stack maps fd what st e) (λ x _, clients x.1 = clients st /\ sending x.2 = sending e).
Proof.
  unfold Load.client_input_handler. destruct (negb _); [by apply halts_ret|].
  destruct (state (base e)); try (by apply halts_ret).
  apply (halts_loop (λ x, clients x.1 = clients st /\ sending x.2 = sending e)); [done|].
  intros [st1 e1] [H1 H2]. cbn [fst snd] in *. unfold Load.handler_turn.
  eapply halts_bind; [exact (halts_and _ _ _ (same_client_read _ _ _ _) (moves_load_client_read _ _ _ _ _ _ _))|].
  intros [[rc st2] e2] b [[H3 H4] Hb]. cbn [fst snd] in *. destruct (Z.leb_spec rc 0); apply halts_ret; cbn [fst snd].
  - intros _. split; congruence.
  - split; [split; congruence|]. by rewrite Hb.
Qed.

(** * Writing *)

(** What a write does to a session: at most one message more, [RTP_PACKET_INTERVAL]
    later. *)
Definition wrote (e e' : load_session) (k : Z) : Prop :=
  tot_msgnum e' = tot_msgnum e /\ wmsgnum e' = wmsgnum e + k /\
  to_send_timems e' = (if k =? 0 then to_send_timems e else u32 (to_send_timems e + RTP_PACKET_INTERVAL)) /\
  state (base e') = state (base e).

(** The statics but for the payload and what was sent. *)
Definition unsent (st : statics) := (clients st, clk st, tot_recv_messages (trf st), tot_messages st).

Definition write_result (st : statics) (e : load_session) (x : Z * statics * load_session) : Prop :=
  let '(rc, st', e') := x in
  unsent st' = unsent st /\ exists k, (k = 0 \/ k = 1) /\ wrote e e' k /\
    (tot_send_messages (trf st') = tot_send_messages (trf st) \/
     k = 1 /\ tot_send_messages (trf st') = u32 (tot_send_messages (trf st) + 1)).

Lemma next_message_wrote e e' e2 : next_message e' = Some e2 -> wrote e e' 0 -> wrote e e2 1.
Proof.
  unfold next_message. intros H (H1 & H2 & H3 & H4). destruct (i32 (wmsgnum e' + 1)) as [n|] eqn:E; [|done].
  cbn [mbind option_bind] in H. injection H as <-. unfold i32 in E. destruct (_ && _); [|done]. injection E as <-.
  split; [done|]. cbn [wmsgnum set_written to_send_timems base]. cbn in H3. rewrite H3. split; [lia|done].
Qed.

Lemma write_out_counts st st0 e e0 atc :
  unsent st = unsent st0 -> tot_send_messages (trf st) = tot_send_messages (trf st0) -> wrote e0 e 0 ->
  halts (write_out lc st e atc) (λ x _, write_result st0 e0 x /\ (0 < len (out_buffer e) -> wmsgnum x.2 = wmsgnum e0 + 1)).
Proof.
  intros Hu Ht He. unfold write_out. destruct (Z.ltb_spec 0 (len (out_buffer e))).
  - apply (halts_bind _ _ (λ _ _, True)); [halts_tac|intros [[rc c] m] ? _].
    eapply halts_bind; [apply halts_lift_eq|]. intros e2 ? He2.
    apply (next_message_wrote e0) in He2; [|exact He]. pose proof He2 as (_ & Hn & _).
    destruct (0 <=? rc); apply halts_ret; (split; [|by intros _]); (split; [exact Hu|]); exists 1; (split; [by right|]);
      (split; [exact He2|]); [right; split; [done|]|left; exact Ht]. cbn. by rewrite Ht.
  - apply halts_ret. split; [|lia]. split; [exact Hu|]. exists 0. split; [by left|]. split; [exact He|by left].
Qed.

Lemma stamp_unsent st e st' : stamp st e = Some st' -> unsent st' = unsent st /\ trf st' = trf st.
Proof.
  unfold stamp. destruct (wr_block _ 0 _); cbn [mbind option_bind]; [|done].
  destruct (wr_block _ 8 _); cbn [mbind option_bind]; [|done]. by intros [= <-].
Qed.

(** The settings of a client that sends through a channel. *)
Record channel_settings : Prop := ChannelSettings {
  cs_relay : is_TCP_relay (lc_cfg lc) = false;
  cs_channel : do_not_use_channel (lc_cfg lc) = false;
  cs_length : 0 <= clmessage_length (lc_cfg lc) /\ 4 + clmessage_length (lc_cfg lc) <= MAX_STUN_MESSAGE_SIZE;
}.

Lemma fill_channel_length e d m : channel_settings -> fill_channel lc e d = Some m -> 0 < len m.
Proof.
  intros [_ _ [H0 H1]] H. unfold fill_channel, stun_init_channel_message, on_sbuf, stun_init_channel_message_str in H.
  cbv zeta in H. destruct (Z.ltb_spec (clmessage_length (lc_cfg lc)) 0); [lia|].
  destruct (Z.ltb_spec MAX_STUN_MESSAGE_SIZE (4 + clmessage_length (lc_cfg lc))); [lia|]. cbn [orb] in H.
  destruct (store16 _ 0 _) as [m1|]; cbn [mbind option_bind] in H; [|done].
  destruct (store16 _ 2 _) as [m2|]; cbn [mbind option_bind] in H; [|done].
  destruct (wr_block _ 4 _) as [b|]; cbn [mbind option_bind] in H; [|done]. injection H as <-. cbn.
  assert (forall z, 0 <= u16 z) as Hu by (intros z; apply Z.mod_pos_bound; lia).
  destruct (_ && _); cbn; (apply Z.add_pos_nonneg; [lia|apply Hu]).
Qed.

Lemma client_write_counts st e :
  halts (client_write lc maps st e)
    (λ x _, write_result st e x /\ (channel_settings -> state (base e) = UR_STATE_READY -> wmsgnum x.2 = wmsgnum e + 1)).
Proof.
  assert (wrote e e 0) as Hee by (repeat split; lia).
  unfold client_write. destruct (state (base e)) eqn:Hs; [|cbv zeta|];
    [apply halts_ret; split; [|done]; split; [done|]; exists 0; auto| |
     apply halts_ret; split; [|done]; split; [done|]; exists 0; auto].
  eapply halts_bind; [apply halts_lift_eq|]. intros st1 b1 [Hu1 Ht1]%stamp_unsent. apply (f_equal tot_send_messages) in Ht1.
  eapply halts_bind; [apply halts_lift_eq|]. intros data b2 _.
  assert (forall e1, wrote e e1 0 -> write_result st e (0, st1, e1)) as Hnone.
  { intros e1 He1. split; [exact Hu1|]. exists 0. auto. }
  destruct (is_TCP_relay (lc_cfg lc)) eqn:Hrelay.
  - eapply halts_bind; [apply halts_lift_eq|]. intros bf b3 _.
    destruct (ci_is_peer _).
    + apply (halts_bind _ _ (λ _ _, True)); [halts_tac|intros rc ? _]. destruct (0 <=? rc).
      * eapply halts_bind; [apply halts_lift_eq|]. intros e2 b4 He2. apply (next_message_wrote e) in He2; [|exact Hee].
        apply halts_ret. split; [|by intros []; congruence]. split; [exact Hu1|]. exists 1. split; [by right|].
        split; [exact He2|]. right. split; [done|]. cbn. by rewrite Ht1.
      * apply halts_ret. split; [by apply Hnone|]. intros []; congruence.
    + apply (halts_bind _ _ (λ _ _, True)); [halts_tac|intros atc ? _]. destruct atc as [a|].
      * eapply halts_mono; [by apply (write_out_counts _ st _ e)|]. intros x ? [H _]. split; [exact H|]. intros []; congruence.
      * apply halts_ret. split; [exact (Hnone _ Hee)|]. intros []; congruence.
  - destruct (do_not_use_channel (lc_cfg lc)) eqn:Hch; cbn [negb].
    + apply (halts_bind _ _ (λ _ _, True)); [halts_tac|intros m ? _].
      eapply halts_mono; [by apply (write_out_counts _ st _ e)|]. intros x ? [H _]. split; [exact H|]. intros []; congruence.
    + eapply halts_bind; [apply halts_lift_eq|]. intros m b4 Hm.
      eapply halts_mono; [by apply (write_out_counts _ st _ e)|]. intros x ? [H Hl]. split; [exact H|].
      intros Hc _. apply Hl. cbn. exact (fill_channel_length _ _ _ Hc Hm).
Qed.

(** * The timer *)

(** What a tick leaves of the statics: one session less when it was shut down. *)
Definition counted (rc : Z) (st st' : statics) : Prop :=
  elems st' = elems st /\ total_clients st' = total_clients st /\ start_full_timer st' = start_full_timer st /\
  clk st' = clk st /\ tot_recv_messages (trf st') = tot_recv_messages (trf st) /\ tot_messages st' = tot_messages st /\
  current_clients_number st' = if rc =? 0 then current_clients_number st else u64 (current_clients_number st - 1).

Lemma counted_unsent st st1 : unsent st1 = unsent st -> counted 0 st st1.
Proof. unfold unsent, clients. intros [=]. by repeat split. Qed.

Lemma counted_trans rc st st1 st2 : counted 0 st st1 -> counted rc st1 st2 -> counted rc st st2.
Proof.
  intros (H1 & H2 & H3 & H4 & H5 & H6 & H7) (G1 & G2 & G3 & G4 & G5 & G6 & G7). change (0 =? 0) with true in H7. cbv iota in H7.
  rewrite H7 in G7. repeat split; congruence.
Qed.

Lemma client_shutdown_done st e :
  halts (client_shutdown st e) (λ '(st', e') _, counted 1 st st' /\ sending e' = sending e /\ state (base e') = UR_STATE_DONE /\
    trf st' = trf st).
Proof.
  unfold client_shutdown, remove_all_from_ss. apply (halts_bind _ _ (λ _ _, True)).
  { unfold uc_delete_session_elem_data, ssl_shutdown. halts_tac. }
  intros c b _. apply halts_ret. by repeat split.
Qed.

(** [n] turns of the loop: the messages counted in [*done], those written, and those
    that were sent. *)
Definition burst_result (n : nat) (d : Z) (st : statics) (e : load_session) (x : Z * Z * statics * load_session) : Prop :=
  let '(rc, d', st', e') := x in
  (rc = 0 \/ rc = 1) /\ counted rc st st' /\ tot_msgnum e' = tot_msgnum e /\
  state (base e') = (if rc =? 0 then state (base e) else UR_STATE_DONE) /\
  d <= d' <= d + Z.of_nat n /\ wmsgnum e <= wmsgnum e' <= wmsgnum e + (d' - d) /\
  wmsgnum e' <= Z.max (wmsgnum e) (tot_msgnum e) /\
  exists j, 0 <= j <= wmsgnum e' - wmsgnum e /\
    u32 (tot_send_messages (trf st')) = u32 (tot_send_messages (trf st) + j).

(** A session that sends through a channel, is late, and whose test does not hang on:
    it sends what is left, or as much as the loop allows. *)
Definition burst_progress (n : nat) (d : Z) (st : statics) (e : load_session) (x : Z * Z * statics * load_session) : Prop :=
  let '(rc, d', st', e') := x in
  let rest := Z.max 0 (tot_msgnum e - wmsgnum e) in
  d' - d = wmsgnum e' - wmsgnum e /\
  wmsgnum e' = wmsgnum e + (if rc =? 0 then Z.min (Z.of_nat n) rest else rest) /\
  (rc = 0 -> rest = 0 -> (0 < n)%nat -> finished st e = false).

Definition late (n : nat) (st : statics) (e : load_session) : Prop :=
  0 <= to_send_timems e /\ to_send_timems e + Z.of_nat n * RTP_PACKET_INTERVAL <= current_mstime (clk st) < 2 ^ 31.

Lemma late_now n st e : late n st e -> turn_time_before (current_mstime (clk st)) (to_send_timems e) = false.
Proof.
  intros [H0 H1]. unfold RTP_PACKET_INTERVAL in *. unfold turn_time_before, to_i32. apply Z.ltb_ge.
  rewrite (Z.mod_small (current_mstime _ + _)) by lia. rewrite (Z.mod_small (to_send_timems e + _)) by lia.
  rewrite Z.mod_small by lia. lia.
Qed.

Lemma late_next n st st' e e' : late (S n) st e -> clk st' = clk st -> wrote e e' 1 -> late n st' e'.
Proof.
  intros [H0 H1] Hc (_ & _ & Ht & _). change (1 =? 0) with false in Ht. cbv iota in Ht. unfold late. rewrite Hc.
  unfold RTP_PACKET_INTERVAL, u32 in *. rewrite Z.mod_small in Ht by lia. lia.
Qed.

Lemma u32_add a b : u32 (u32 a + b) = u32 (a + b).
Proof. unfold u32. by rewrite Zplus_mod_idemp_l. Qed.

(** What one more turn makes of the results of the rest. *)
Lemma burst_result_idle n d st e x : burst_result n d st e x -> burst_result (S n) d st e x.
Proof.
  destruct x as [[[rc d'] st'] e']. intros (H1 & H2 & H3 & H4 & H5 & H). unfold burst_result. do 4 (split; [done|]).
  split; [lia|exact H].
Qed.

Lemma burst_result_write n d st e st1 e1 k x :
  counted 0 st st1 -> wrote e e1 k -> (k = 0 \/ k = 1) -> wmsgnum e < tot_msgnum e ->
  (tot_send_messages (trf st1) = tot_send_messages (trf st) \/
   k = 1 /\ tot_send_messages (trf st1) = u32 (tot_send_messages (trf st) + 1)) ->
  burst_result n (d + 1) st1 e1 x -> burst_result (S n) d st e x.
Proof.
  destruct x as [[[rc d'] st'] e']. intros Hc (Ht & Hw & _ & Hs) Hk Hl Hj (H1 & H2 & H3 & H4 & H5 & H6 & H7 & j & H8 & H9).
  unfold burst_result. split; [exact H1|]. split; [exact (counted_trans _ _ _ _ Hc H2)|]. split; [congruence|].
  split; [by rewrite <- Hs|]. do 3 (split; [lia|]). destruct Hj as [Hj|[-> Hj]]; rewrite Hj in H9.
  - exists j. split; [lia|exact H9].
  - exists (j + 1). split; [lia|]. rewrite H9, u32_add. f_equal. lia.
Qed.

Lemma burst_progress_write n d st e st1 e1 x :
  wrote e e1 1 -> wmsgnum e < tot_msgnum e -> burst_progress n (d + 1) st1 e1 x -> burst_progress (S n) d st e x.
Proof.
  destruct x as [[[rc d'] st'] e']. intros (Ht & Hw & _) Hl (H1 & H2 & _). unfold burst_progress. rewrite Ht, Hw in *.
  split; [lia|]. split; [destruct (rc =? 0); lia|]. lia.
Qed.

Lemma burst_spec n d st e :
  halts (burst lc stack maps n d st e) (λ x _, burst_result n d st e x /\
    (hang_on lc = false -> channel_settings -> state (base e) = UR_STATE_READY -> late n st e -> burst_progress n d st e x)).
Proof.
  revert d st e. induction n as [|n IH]; intros d st e.
  all: assert (forall m st', counted 0 st st' -> trf st' = trf st -> forall e', sending e' = sending e -> state (base e') = state (base e) ->
         burst_result m d st e (0, d, st', e')) as Hstay
    by (intros m st' Hc Ht e' [= H1 H2 H3 H4] Hs; unfold burst_result; rewrite H1, H2, Ht;
        split; [by left|]; split; [exact Hc|]; do 2 (split; [done|]); do 3 (split; [lia|]);
        exists 0; split; [lia|]; by rewrite Z.add_0_r).
  all: assert (counted 0 st st) as Hrefl by done.
  all: cbn [burst]; destruct (turn_time_before _ (to_send_timems e)) eqn:Htime;
    [apply halts_ret; split; [by apply Hstay|]; intros _ _ _ Hl; rewrite (late_now _ _ _ Hl) in Htime; discriminate|].
  { apply halts_ret. split; [by apply Hstay|]. intros _ _ _ _. cbn. lia. }
  destruct (Z.leb_spec (tot_msgnum e) (wmsgnum e)) as [Hw|Hw].
  - destruct (finished st e) eqn:Hf.
    + destruct (complete st e) as [st1 e1] eqn:Hc. unfold complete in Hc. injection Hc as <- <-.
      destruct (hang_on lc) eqn:Hh; cbn [negb]; [apply halts_ret; split; [by apply Hstay|done]|].
      eapply halts_bind; [apply same_load_refresh|]. intros [rc e2] b He2. cbn [snd] in He2.
      eapply halts_bind; [apply client_shutdown_done|]. intros [st3 e3] b3 (Hc3 & He3 & Hd & Ht3). apply halts_ret.
      assert (sending e3 = sending e) as [= G1 G2 G3 G4] by (by rewrite He3, He2).
      split; [|intros _ _ _ _; unfold burst_progress; rewrite G2; change (1 =? 0) with false; lia].
      unfold burst_result. rewrite G1, G2, Ht3. split; [by right|]. split; [exact Hc3|]. split; [done|]. split; [exact Hd|].
      do 3 (split; [lia|]). exists 0. split; [lia|]. cbn. by rewrite Z.add_0_r.
    + eapply halts_mono; [apply IH|]. intros x b [H1 H2]. split; [by apply burst_result_idle|].
      intros Hh Hcs Hr Hl. assert (late n st e) as Hl' by (destruct Hl; split; unfold RTP_PACKET_INTERVAL in *; lia).
      specialize (H2 Hh Hcs Hr Hl'). destruct x as [[[rc d'] st'] e']. destruct H2 as (G1 & G2 & _). split; [exact G1|].
      split; [destruct (rc =? 0); lia|]. by intros _ _ _.
  - eapply halts_bind; [apply halts_lift_eq|]. intros d1 b1 Hd1. unfold i32 in Hd1. destruct (_ && _); [|done]. injection Hd1 as <-.
    eapply halts_bind; [apply client_write_counts|]. intros [[rc st1] e1] b2 [(Hu & k & Hk & Hwr & Hj) Hone]. cbn [snd] in Hone.
    eapply halts_mono; [apply IH|]. intros x b [H1 H2]. apply counted_unsent in Hu as Hcu.
    assert (wrote e (set_finished_time e1 (u32 (current_mstime (clk st1) + STOPPING_TIME * 1000))) k) as Hwr' by exact Hwr.
    split; [by eapply burst_result_write|]. intros Hh Hcs Hr Hl. specialize (Hone Hcs Hr).
    assert (k = 1) as -> by (destruct Hwr as (_ & ? & _); lia). eapply burst_progress_write; [exact Hwr'|exact Hw|].
    apply H2; [done..| |].
    + destruct Hwr as (_ & _ & _ & Hs). by rewrite <- Hr.
    + eapply late_next; [exact Hl| |exact Hwr']. by destruct Hcu as (_ & _ & _ & ? & _).
Qed.

(** A refresh changes the connection and the time of the next one. *)
Definition keeps_state (s : app_ur_session) (r : app_ur_session + app_ur_session * stun_buffer) (_ : bool) : Prop :=
  match r with inl s' | inr (s', _) => state s' = state s end.

Ltac state_step :=
  match goal with
  | |- halts (mret _) _ => apply halts_ret; done
  | |- halts (match ?x with _ => _ end) _ => destruct x
  | |- halts (_ ≫= _) _ => apply (halts_bind _ _ (λ _ _, True)); [solve [halts_tac]|intros ? ? _]
  | |- halts _ _ => solve [auto with same nocore]
  end; cbv beta iota zeta.
Ltac state_tac := repeat state_step.

Lemma state_send_sealed s m d : halts (send_sealed (lc_cfg lc) stack s m d) (keeps_state s).
Proof. unfold send_sealed. state_tac. Qed.
#[local] Hint Resolve state_send_sealed : same.
Lemma state_refresh_allocation s m k l : halts (refresh_allocation (lc_cfg lc) stack s m k l) (keeps_state s).
Proof. unfold refresh_allocation. state_tac. Qed.
Lemma state_refresh_permission s m k : halts (refresh_permission (lc_cfg lc) stack maps s m k) (keeps_state s).
Proof. unfold refresh_permission. state_tac. Qed.
Lemma state_refresh_binding s m k : halts (refresh_binding (lc_cfg lc) stack maps s m k) (keeps_state s).
Proof. unfold refresh_binding. state_tac. Qed.

Lemma state_refresh_channel_at now s k l :
  halts (refresh_channel_at (lc_cfg lc) stack maps now s k l) (λ x _, state x.2 = state s).
Proof.
  unfold refresh_channel_at. destruct (ci_is_peer _); [by apply halts_ret|].
  apply (halts_bind _ _ (λ _ _, True)); [halts_tac|intros f ? _].
  eapply halts_bind; [apply state_refresh_allocation|]. intros [s1|[s1 m1]] ? H1; [by apply halts_ret|].
  apply (halts_bind _ _ (keeps_state s1)).
  { destruct (_ && _); [|by apply halts_ret]. eapply halts_bind; [apply state_refresh_permission|].
    intros [s2|[s2 m2]] ? H2; [by apply halts_ret|]. eapply halts_mono; [apply state_refresh_binding|].
    intros [s3|[s3 m3]] ?; cbn in *; congruence. }
  intros [s2|[s2 m2]] ? H2; apply halts_ret; cbn in *; congruence.
Qed.

(** One tick of a session. *)
Lemma timer_handler_spec st e d :
  halts (client_timer_handler lc stack maps st e d) (λ x _, burst_result MAX_BURST d st e x /\
    (hang_on lc = false -> channel_settings -> state (base e) = UR_STATE_READY -> late MAX_BURST st e ->
     burst_progress MAX_BURST d st e x)).
Proof.
  unfold client_timer_handler.
  apply (halts_bind _ _ (λ x _, sending x.2 = sending e /\ state (base x.2) = state (base e))).
  { destruct (turn_time_before _ _); [by apply halts_ret|]. apply halts_and; [apply same_load_refresh|].
    unfold Load.refresh_channel. eapply halts_bind; [apply state_refresh_channel_at|]. intros [rc s] b Hs. by apply halts_ret. }
  intros [rc e1] b [[= H1 H2 H3 H4] Hs]. cbn [snd] in *.
  assert (forall n x, burst_result n d st e1 x -> burst_result n d st e x) as Hr.
  { intros n [[[r d'] st'] e']. unfold burst_result. by rewrite H1, H2, Hs. }
  assert (forall n x, burst_progress n d st e1 x -> burst_progress n d st e x) as Hp.
  { intros n [[[r d'] st'] e']. unfold burst_progress, finished. by rewrite H1, H2, H4. }
  destruct (hang_on lc && completed e1) eqn:Hh.
  - apply halts_ret. apply andb_prop in Hh as [Hh _]. split; [|congruence]. apply Hr. unfold burst_result.
    split; [by left|]. do 3 (split; [done|]). do 3 (split; [lia|]). exists 0. split; [lia|]. by rewrite Z.add_0_r.
  - eapply halts_mono; [apply burst_spec|]. intros x ? [G1 G2]. split; [by apply Hr|]. intros G3 G4 G5 G6. apply Hp, G2; [done..| |].
    + congruence.
    + unfold late in *. by rewrite H3.
Qed.
End load.
