(* ===== verification/LoadCount.v ===== *)
(** How many sessions the load test has: [current_clients_number] is the number of
    sessions in [elems] and of those that failed starts have lost. *)

From stdpp Require Import gmap.
From S2P Require Import Prelude Defs CString IoAddr MsgAddr AddrText StunHeader StunAttr StunMsg StunBuffer Crypto Integrity Evp OAuth System Progress Session Transport TransportSpec Credentials Sockets Connect Allocate Bind Client StunClient Termination Steady AllocateSpec Uclient TcpRelay Load LoadStart LoadTest LoadEnds LoadSpec.

Section load.
Context `{N : NetDb} `{C : Crypto} `{V : Evp}.
Context (lc : load_config) (stack : world -> frame) (maps : addr_maps).

(** * The test *)

(** [k] sessions were lost by starts that failed; the others are in [elems]. *)
Definition counts (k : Z) (st : statics) : Prop :=
  current_clients_number st = k + Z.of_nat (size (elems st)) /\ 0 <= k /\ current_clients_number st < 2 ^ 31.

Lemma counts_put k st i e e' : counts k st -> elems st !! i = Some e -> counts k (put_elem st i e').
Proof.
  intros H Hi. unfold counts, put_elem. cbn [current_clients_number elems set_elems].
  by rewrite (map_size_insert_Some i e' (elems st)) by eauto.
Qed.

Lemma counts_same k st st' : elems st' = elems st -> current_clients_number st' = current_clients_number st -> counts k st -> counts k st'.
Proof. unfold counts. intros -> ->. done. Qed.

Lemma counts_deleted k st st' i e :
  counts k st -> elems st !! i = Some e -> elems st' = elems st ->
  current_clients_number st' = u64 (current_clients_number st - 1) -> counts k (set_elems st' (delete i (elems st'))).
Proof.
  intros (H1 & H2 & H3) Hi He Hc. unfold counts. cbn [current_clients_number elems set_elems].
  rewrite Hc, He, (map_size_delete_Some i (elems st)) by eauto.
  assert (size (elems st) <> 0%nat) as Hs by (apply (map_size_ne_0_lookup_2 _ i); eauto).
  unfold u64. rewrite Z.mod_small by lia. lia.
Qed.

Lemma counts_timer_loop k l d st : counts k st -> halts (timer_loop lc stack maps l d st) (λ x _, counts k x.2).
Proof.
  revert d st. induction l as [|i l IH]; intros d st H; cbn [timer_loop]; [by apply halts_ret|].
  destruct (elems st !! i) as [e|] eqn:Hi; [|by apply IH].
  eapply halts_bind; [apply timer_handler_spec|]. intros [[[rc d1] st1] e1] b [(Hrc & Hc & _) _]. cbv zeta.
  destruct Hc as (He & _ & _ & _ & _ & _ & Hn).
  eapply halts_mono; [apply IH|done]. destruct Hrc as [-> | ->]; cbn [truth Z.eqb negb].
  - apply (counts_put _ _ _ e); [|by rewrite He]. by apply (counts_same k st).
  - by apply (counts_deleted _ st _ _ e).
Qed.

Lemma counts_disconnect_loop k l st : counts k st -> halts (disconnect_loop l st) (λ st' _, counts k st').
Proof.
  revert st. induction l as [|i l IH]; intros st H; cbn [disconnect_loop]; [by apply halts_ret|].
  destruct (elems st !! i) as [e|] eqn:Hi; [|by apply IH]. cbv zeta.
  apply (halts_bind _ _ (λ _ _, True)); [halts_tac|intros ? ? _]. eapply halts_mono; [apply IH|done]. by apply (counts_put _ _ _ e).
Qed.

Lemma counts_timer_handler k st : counts k st -> halts (timer_handler lc stack maps st) (λ st' _, counts k st').
Proof.
  intros H. unfold timer_handler. eapply (halts_bind _ _ (λ st' _, counts k st')).
  { unfold __turn_getMSTime. do 2 (apply (halts_bind _ _ (λ _ _, True)); [halts_tac|intros ? ? _]). by apply halts_ret. }
  intros st1 ? H1. destruct (start_full_timer st1); [|by apply halts_ret].
  eapply halts_bind; [by apply counts_timer_loop|]. intros [n st2] ? H2. cbn [snd] in H2.
  destruct (_ && _); [|by apply halts_ret]. eapply halts_mono; [by apply counts_disconnect_loop|done].
Qed.

Lemma counts_event_turn k st :
  counts k st -> halts (event_turn lc stack maps st) (λ r _, match r with inl st' | inr st' => counts k st' end).
Proof.
  intros H. unfold event_turn. apply (halts_bind _ _ (λ _ _, True)); [halts_tac|intros ev ? _]. destruct ev as [| |i fd].
  - by apply halts_ret.
  - eapply halts_bind; [by apply counts_timer_handler|]. intros st' ? H'. by apply halts_ret.
  - destruct (elems st !! i) as [e|] eqn:Hi; [|by apply halts_ret].
    eapply halts_bind; [apply same_input_handler|]. intros [st1 e1] ? [[= H1 H2 H3 H4] _]. cbn [fst] in *. apply halts_ret.
    apply (counts_put _ _ _ e); [|congruence]. by apply (counts_same k st).
Qed.

Lemma counts_run_events k b st : counts k st -> halts (run_events lc stack maps b st) (λ st' _, counts k st').
Proof.
  intros H. unfold run_events. apply (halts_bind _ _ (λ _ _, True)); [halts_tac|intros ? ? _].
  apply (halts_loop (counts k)); [done|]. intros st1 H1.
  eapply halts_mono; [exact (halts_and _ _ _ (counts_event_turn k st1 H1) (moves_event_turn lc stack maps st1))|].
  intros [st2|st2] c [H2 Hc]; [done|by intros ?].
Qed.

Lemma counts_connect_loop k l st :
  is_TCP_relay (lc_cfg lc) = false -> counts k st ->
  halts (connect_loop lc stack maps l st) (λ x _, x.1 = true /\ counts k x.2).
Proof.
  intros Hr. revert st. induction l as [|i l IH]; intros st H; cbn [connect_loop]; [by apply halts_ret|].
  rewrite Hr. apply (halts_bind _ _ (λ x _, x = (true, st))); [by apply halts_ret|]. intros x ? ->.
  eapply halts_bind; [by apply counts_run_events|]. intros st1 ? H1. eapply halts_mono; [by apply IH|done].
Qed.

Lemma counts_schedule_loop k l st : counts k st -> halts (schedule_loop l st) (λ st' _, counts k st').
Proof.
  revert st. induction l as [|i l IH]; intros st H; cbn [schedule_loop]; [by apply halts_ret|].
  destruct (elems st !! i) as [e|] eqn:Hi; [|by apply IH].
  apply (halts_bind _ _ (λ _ _, True)); [halts_tac|intros r ? _]. eapply halts_mono; [apply IH|done]. by apply (counts_put _ _ _ e).
Qed.

Lemma counts_getMSTime k st : counts k st -> halts (__turn_getMSTime st) (λ st' _, counts k st').
Proof.
  intros H. unfold __turn_getMSTime. do 2 (apply (halts_bind _ _ (λ _ _, True)); [halts_tac|intros ? ? _]). by apply halts_ret.
Qed.

(** The main loop is left when no session is left, and none was ever lost. *)
Lemma counts_main_loop k st :
  counts k st -> halts (iter (main_turn lc stack maps) st) (λ st' _, k = 0 /\ current_clients_number st' = 0).
Proof.
  intros H. apply (halts_loop (counts k)); [done|]. intros st1 H1.
  eapply (halts_mono _ (λ r b, match r with inl st' => counts k st' | inr st' => k = 0 /\ current_clients_number st' = 0 end /\
    goes_on (λ _, True) r b)).
  - apply halts_and; [|apply goes_main_turn]. unfold main_turn.
    eapply halts_bind; [by apply counts_run_events|]. intros st2 ? (H2 & H3 & H4).
    assert (to_i32 (current_clients_number st2) = current_clients_number st2) as ->.
    { unfold to_i32. rewrite Z.mod_small; lia. }
    destruct (Z.ltb_spec (current_clients_number st2) 1); apply halts_ret; [lia|by repeat split].
  - intros [st2|st2] b [G1 G2]; [by destruct G2|by intros _].
Qed.

Lemma counts_run_load k st :
  is_TCP_relay (lc_cfg lc) = false -> counts k st ->
  halts (run_load lc stack maps st) (λ st' _, k = 0 /\ current_clients_number st' = 0).
Proof.
  intros Hr H. unfold run_load. eapply halts_bind; [by apply counts_connect_loop|]. intros [ok st1] ? [Hok H1]. cbn [fst snd] in *.
  subst ok. cbn [negb]. eapply halts_bind; [exact (counts_getMSTime k _ H1)|]. intros st2 ? H2. rewrite Hr.
  apply (halts_bind _ _ (λ x _, x = st2)); [by apply halts_ret|]. intros x ? ->.
  eapply halts_bind; [exact (counts_getMSTime k _ H2)|]. intros st3 ? H3.
  eapply halts_bind; [exact (counts_schedule_loop k _ _ H3)|]. intros st4 ? H4.
  apply (halts_bind _ _ (λ _ _, True)); [halts_tac|intros n ? _].
  eapply halts_bind; [exact (counts_main_loop k (set_full st4 n true) H4)|]. intros st5 ? H5. apply halts_ret. exact H5.
Qed.

(** * Starting *)

(** No session has an index from [i] on. *)
Definition fresh_from (i : nat) (st : statics) : Prop := forall j, (i <= j)%nat -> elems st !! j = None.

Lemma fresh_le i j st : fresh_from i st -> (i <= j)%nat -> fresh_from j st.
Proof. intros H Hj k Hk. apply H. lia. Qed.

(** A start of [g] sessions from index [i]: they are there, or it failed and has lost
    some. *)
Definition started (k : Z) (g i : nat) (st : statics) (x : Z * statics) : Prop :=
  let '(rc, st') := x in
  if rc <? 0 then k < current_clients_number st'
  else counts k st' /\ size (elems st') = (size (elems st) + g)%nat /\ fresh_from (i + g) st'.

(** [n] sessions are counted that are not in [elems] yet. *)
Definition pending (k : Z) (n i : nat) (st : statics) : Prop :=
  counts (k + Z.of_nat n) st /\ 0 <= k /\ fresh_from i st.

Lemma pending_create k n i st :
  pending k n i st -> current_clients_number st + 1 < 2 ^ 31 -> pending k (S n) i (fst (create_new_ss st)).
Proof.
  intros ((H1 & H2 & H3) & H4 & H5) Hl. split; [|by split]. unfold counts, create_new_ss. cbn [fst current_clients_number elems set_clients].
  unfold u64. rewrite Z.mod_small by lia. lia.
Qed.

Lemma pending_put k n i st e :
  pending k (S n) i st -> pending k n (S i) (put_elem st i e) /\ size (elems (put_elem st i e)) = S (size (elems st)).
Proof.
  intros ((H1 & H2 & H3) & H4 & H5).
  assert (size (elems (put_elem st i e)) = S (size (elems st))) as Hs by (apply map_size_insert_None, H5; lia).
  split; [|exact Hs]. split; [|split; [done|]].
  - unfold counts. rewrite Hs. cbn [current_clients_number put_elem set_elems]. lia.
  - intros j Hj. cbn [elems put_elem set_elems]. rewrite lookup_insert_ne by lia. apply H5. lia.
Qed.

Lemma pending_none k i st : pending k 0 i st <-> counts k st /\ 0 <= k /\ fresh_from i st.
Proof. unfold pending. by rewrite Z.add_0_r. Qed.

Lemma start_client_started k ra p ifn la n i st :
  pending k 0 i st -> current_clients_number st + 2 < 2 ^ 31 ->
  halts (LoadTest.start_client lc stack maps ra p ifn la n i st)
    (λ x _, started k (if no_rtcp (lc_cfg lc) then 1 else 2) i st x).
Proof.
  intros Hp Hl. unfold LoadTest.start_client.
  pose proof (pending_create _ _ _ _ Hp ltac:(lia)) as Hp1. destruct (create_new_ss st) as [st1 ss] eqn:E1. cbn [fst] in Hp1.
  assert (elems st1 = elems st /\ current_clients_number st1 <= current_clients_number st + 1) as [He1 Hn1].
  { unfold create_new_ss in E1. injection E1 as <- _. split; [done|]. apply Z.mod_le; destruct Hp as ((? & ? & ?) & ? & ?); lia. }
  unfold create_rtcp. destruct (no_rtcp (lc_cfg lc)); cbn [negb].
  - apply (halts_bind _ _ (λ _ _, True)); [halts_tac|intros f ? _].
    apply (halts_bind _ _ (λ _ _, True)); [halts_tac|intros [rc s] ? _]. destruct (rc <? 0).
    { apply halts_ret. unfold started. change (-1 <? 0) with true. cbv iota. destruct Hp1 as ((? & ? & ?) & ? & ?). lia. }
    do 3 (apply (halts_bind _ _ (λ _ _, True)); [halts_tac|intros ? ? _]).
    apply (halts_bind _ _ (λ _ _, True)); [halts_tac|intros [rc2 ss2] ? _]. cbv zeta. apply halts_ret.
    destruct (pending_put k 0 i st1 ss2 Hp1) as [Hp2 Hs2]. apply pending_none in Hp2 as (Hc & _ & Hf).
    unfold started. change (0 <? 0) with false. cbv iota. split; [exact Hc|]. split; [rewrite Hs2, He1; lia|].
    by rewrite Nat.add_1_r.
  - pose proof (pending_create _ _ _ _ Hp1 ltac:(lia)) as Hp2. destruct (create_new_ss st1) as [st2 ssr] eqn:E2. cbn [fst] in Hp2.
    assert (elems st2 = elems st) as He2 by (unfold create_new_ss in E2; by injection E2 as <- _).
    apply (halts_bind _ _ (λ _ _, True)); [halts_tac|intros f ? _].
    apply (halts_bind _ _ (λ _ _, True)); [halts_tac|intros [rc s] ? _]. destruct (rc <? 0).
    { apply halts_ret. unfold started. change (-1 <? 0) with true. cbv iota. destruct Hp2 as ((? & ? & ?) & ? & ?). lia. }
    do 3 (apply (halts_bind _ _ (λ _ _, True)); [halts_tac|intros ? ? _]).
    apply (halts_bind _ _ (λ _ _, True)); [halts_tac|intros [rc2 ss2] ? _]. cbv zeta. apply halts_ret.
    destruct (pending_put k 1 i st2 ss2 Hp2) as [Hp3 Hs3].
    edestruct (pending_put k 0 (S i) _ (make_ready ssr (s_conn s Rtcp1) (s_chn s Rtcp1) (at_least_one n)) Hp3) as [Hp4 Hs4].
    apply pending_none in Hp4 as (Hc & _ & Hf). unfold started. change (0 <? 0) with false. cbv iota. split; [exact Hc|].
    split; [rewrite Hs4, Hs3, He2; lia|]. by rewrite Nat.add_comm.
Qed.

(** A session that is made for RTCP, or not at all. *)
Definition rtcp_sessions : nat := if no_rtcp (lc_cfg lc) then 0 else 1.

Lemma pending_create_rtcp k n i st :
  pending k n i st -> current_clients_number st + 1 < 2 ^ 31 -> pending k (rtcp_sessions + n) i (fst (create_rtcp lc st)).
Proof.
  intros H Hl. unfold create_rtcp, rtcp_sessions. destruct (no_rtcp (lc_cfg lc)); cbn [negb]; [exact H|]. by apply pending_create.
Qed.

Lemma create_grows st : 0 <= current_clients_number st -> current_clients_number (fst (create_new_ss st)) <= current_clients_number st + 1.
Proof. intros H. cbn. apply Z.mod_le; lia. Qed.

Lemma create_rtcp_grows st : 0 <= current_clients_number st -> current_clients_number (fst (create_rtcp lc st)) <= current_clients_number st + 1.
Proof. intros H. unfold create_rtcp. destruct (negb _); [by apply create_grows|cbn; lia]. Qed.

Lemma elems_create_rtcp st : elems (fst (create_rtcp lc st)) = elems st.
Proof. unfold create_rtcp. by destruct (negb _). Qed.

Lemma pending_nonneg k n i st : pending k n i st -> 0 <= current_clients_number st.
Proof. intros ((? & ? & ?) & ? & ?). lia. Qed.

(** The four sessions, or the two, are made before anything else happens. *)
Lemma c2c_created k i st st1 st2 st3 st4 s1 s2 s3 s4 :
  pending k 0 i st -> current_clients_number st + 4 < 2 ^ 31 ->
  create_new_ss st = (st1, s1) -> create_rtcp lc st1 = (st2, s2) -> create_new_ss st2 = (st3, s3) -> create_rtcp lc st3 = (st4, s4) ->
  pending k (2 + 2 * rtcp_sessions) i st4 /\ elems st4 = elems st.
Proof.
  intros Hp Hl E1 E2 E3 E4.
  assert (st1 = fst (create_new_ss st)) as H1 by (by rewrite E1). assert (st2 = fst (create_rtcp lc st1)) as H2 by (by rewrite E2).
  assert (st3 = fst (create_new_ss st2)) as H3 by (by rewrite E3). assert (st4 = fst (create_rtcp lc st3)) as H4 by (by rewrite E4).
  pose proof (pending_create _ _ _ _ Hp ltac:(lia)) as P1. rewrite <- H1 in P1.
  pose proof (create_grows st (pending_nonneg _ _ _ _ Hp)) as G1. rewrite <- H1 in G1.
  pose proof (pending_create_rtcp _ _ _ _ P1 ltac:(lia)) as P2. rewrite <- H2 in P2.
  pose proof (create_rtcp_grows st1 (pending_nonneg _ _ _ _ P1)) as G2. rewrite <- H2 in G2.
  pose proof (pending_create _ _ _ _ P2 ltac:(lia)) as P3. rewrite <- H3 in P3.
  pose proof (create_grows st2 (pending_nonneg _ _ _ _ P2)) as G3. rewrite <- H3 in G3.
  pose proof (pending_create_rtcp _ _ _ _ P3 ltac:(lia)) as P4. rewrite <- H4 in P4.
  split.
  - replace (2 + 2 * rtcp_sessions)%nat with (rtcp_sessions + S (rtcp_sessions + 1))%nat by lia. exact P4.
  - rewrite H4, elems_create_rtcp, H3. cbn [create_new_ss fst elems set_clients]. rewrite H2, elems_create_rtcp, H1. done.
Qed.

Lemma start_c2c_started k ra p ifn la n i st :
  pending k 0 i st -> current_clients_number st + 4 < 2 ^ 31 ->
  halts (LoadTest.start_c2c lc stack maps ra p ifn la n i st)
    (λ x _, started k (2 + 2 * rtcp_sessions) i st x).
Proof.
  intros Hp Hl. unfold LoadTest.start_c2c.
  destruct (create_new_ss st) as [st1 s1] eqn:E1. destruct (create_rtcp lc st1) as [st2 s2] eqn:E2.
  destruct (create_new_ss st2) as [st3 s3] eqn:E3. destruct (create_rtcp lc st3) as [st4 s4] eqn:E4.
  destruct (c2c_created _ _ _ _ _ _ _ _ _ _ _ Hp Hl E1 E2 E3 E4) as [P4 He].
  apply (halts_bind _ _ (λ _ _, True)); [halts_tac|intros f ? _].
  apply (halts_bind _ _ (λ _ _, True)); [halts_tac|intros [rc s] ? _].
  do 5 (apply (halts_bind _ _ (λ _ _, True)); [halts_tac|intros ? ? _]).
  cbv zeta. apply halts_ret. unfold started. change (0 <? 0) with false. cbv iota. unfold rtcp_sessions in *.
  destruct (no_rtcp (lc_cfg lc)); cbn [negb Nat.add].
  - edestruct (pending_put k 1 i st4) as [P5 S5]; [exact P4|]. edestruct (pending_put k 0 (S i)) as [P6 S6]; [exact P5|].
    apply pending_none in P6 as (Hc & _ & Hf). split; [exact Hc|]. split; [rewrite S6, S5, He; lia|]. refine (fresh_le _ _ _ Hf _). lia.
  - edestruct (pending_put k 3 i st4) as [P5 S5]; [exact P4|]. edestruct (pending_put k 2 (S i)) as [P6 S6]; [exact P5|].
    edestruct (pending_put k 1 (S (S i))) as [P7 S7]; [exact P6|]. edestruct (pending_put k 0 (S (S (S i)))) as [P8 S8]; [exact P7|].
    apply pending_none in P8 as (Hc & _ & Hf). split; [exact Hc|]. split; [rewrite S8, S7, S6, S5, He; lia|].
    refine (fresh_le _ _ _ Hf _). lia.
Qed.

Definition group : nat := 2 ^ group_shift lc.

Lemma start_started k ra p ifn la n i st :
  pending k 0 i st -> current_clients_number st + 4 < 2 ^ 31 ->
  halts ((if c2c (lc_cfg lc) then LoadTest.start_c2c lc stack maps else LoadTest.start_client lc stack maps) ra p ifn la n i st)
    (λ x _, started k group i st x).
Proof.
  intros Hp Hl. unfold group, group_shift. pose proof (start_c2c_started k ra p ifn la n i st Hp) as Hc.
  pose proof (start_client_started k ra p ifn la n i st Hp) as Hs. unfold rtcp_sessions in Hc.
  destruct (c2c (lc_cfg lc)), (no_rtcp (lc_cfg lc)); cbn [negb Nat.pow Nat.mul Nat.add] in *;
    [apply Hc|apply Hc|apply Hs|apply Hs]; lia.
Qed.

(** The groups one after the other: all of them are there, or a start failed. *)
Lemma start_loop_started k m j ra p ifn la n st :
  pending k 0 (j * group) st -> current_clients_number st + Z.of_nat (m * group) + 4 < 2 ^ 31 ->
  halts (start_loop lc stack maps (seq j m) ra p ifn la n st)
    (λ '(r, st') _, match r with Some _ => counts k st' | None => k < current_clients_number st' end).
Proof.
  revert j st. induction m as [|m IH]; intros j st Hp Hl; cbn [seq start_loop].
  { apply halts_ret. by apply pending_none in Hp as (? & _). }
  eapply halts_bind; [apply (start_started k); [exact Hp|lia]|]. intros [rc st1] b Hst. unfold started in Hst.
  destruct (rc <? 0); [by apply halts_ret|]. destruct Hst as (Hc & Hs & Hf).
  assert (current_clients_number st1 = current_clients_number st + Z.of_nat group) as Hn.
  { destruct Hc as (Hc & _). rewrite Hc, Hs. apply pending_none in Hp as ((Hp & _) & _). lia. }
  eapply halts_bind; [apply (IH (S j)); [|rewrite Hn; lia]|].
  - apply pending_none. split; [exact Hc|]. split; [by apply pending_none in Hp as (_ & ? & _)|].
    refine (fresh_le _ _ _ Hf _). unfold group. rewrite Nat.mul_succ_l. lia.
  - intros [[r|] st2] b2 H2; by apply halts_ret.
Qed.

(** No start touches the flag of the main loop. *)
Ltac full_tac :=
  repeat (apply (halts_bind _ _ (λ _ _, True)); [solve [halts_tac]|intros ? ? _]; cbv beta iota zeta;
    repeat match goal with |- halts (let '(_, _) := ?x in _) _ => destruct x | |- halts (if ?b then _ else _) _ => destruct b end);
  apply halts_ret; reflexivity.

Lemma full_start ra p ifn la n i st :
  halts ((if c2c (lc_cfg lc) then LoadTest.start_c2c lc stack maps else LoadTest.start_client lc stack maps) ra p ifn la n i st)
    (λ x _, start_full_timer x.2 = start_full_timer st).
Proof.
  destruct (c2c (lc_cfg lc)); unfold LoadTest.start_c2c, LoadTest.start_client, create_rtcp;
    destruct (no_rtcp (lc_cfg lc)); cbn [negb create_new_ss]; cbv beta iota zeta; full_tac.
Qed.

Lemma full_start_loop l ra p ifn la n st :
  halts (start_loop lc stack maps l ra p ifn la n st) (λ x _, start_full_timer x.2 = start_full_timer st).
Proof.
  revert st. induction l as [|i l IH]; intros st; cbn [start_loop]; [by apply halts_ret|].
  eapply halts_bind; [apply full_start|]. intros [rc st1] ? H1. cbn [snd] in H1. destruct (rc <? 0); [by apply halts_ret|].
  eapply halts_bind; [apply IH|]. intros [r st2] ? H2. cbn [snd] in H2. destruct r; apply halts_ret; cbn [snd]; congruence.
Qed.

(** The groups do not exceed the array. *)
Lemma round_groups mclient : 0 <= mclient ->
  0 <= round_clients lc mclient <= mclient + 3 /\
  Z.of_nat (Z.to_nat (Z.shiftr (round_clients lc mclient) (Z.of_nat (group_shift lc))) * group) <= round_clients lc mclient.
Proof.
  intros H. assert (0 <= round_clients lc mclient <= mclient + 3) as Hr.
  { unfold round_clients. pose proof (Z.land_ones (4 - Z.land mclient 3) 2 ltac:(lia)) as H3.
    change (Z.ones 2) with 3 in H3. pose proof (Z.mod_pos_bound (4 - Z.land mclient 3) (2 ^ 2) ltac:(lia)).
    destruct (c2c _), (no_rtcp _); cbn [negb andb]; try (destruct (truth _)); lia. }
  split; [exact Hr|]. rewrite Z.shiftr_div_pow2 by lia. unfold group.
  rewrite Nat2Z.inj_mul, Z2Nat.id by (apply Z.div_pos; lia).
  rewrite Nat2Z.inj_pow. change (Z.of_nat 2) with 2. rewrite Z.mul_comm. apply Z.mul_div_le. lia.
Qed.

Lemma start_mclient_halts ra p ifn la n mclient st :
  is_TCP_relay (lc_cfg lc) = false -> dos (lc_cfg lc) = false -> 0 <= current_clients_number st < 2 ^ 29 ->
  halts (start_mclient lc stack maps ra p ifn la n mclient st)
    (λ st' _, current_clients_number st = 0 /\ current_clients_number st' = 0 \/
              current_clients_number st < current_clients_number st' /\ start_full_timer st' = false).
Proof.
  intros Hr Hd Hk. unfold start_mclient. cbv zeta. set (k := current_clients_number st) in *.
  set (mc := if mclient <? 1 then 1 else mclient).
  assert (0 <= mc) as Hmc by (unfold mc; destruct (Z.ltb_spec mclient 1); lia).
  eapply halts_bind; [apply halts_lift_eq|]. intros size b0 Hsz. unfold i32 in Hsz.
  destruct (_ && _) eqn:Hi; [|done]. apply andb_prop in Hi as [_ Hi%Z.leb_le].
  destruct (round_groups mc Hmc) as [Hr1 Hr2].
  assert (counts k (set_elems (set_total_clients (resetValue st) mc) ∅)) as H0.
  { split; [cbn [current_clients_number elems set_elems set_total_clients resetValue]; rewrite map_size_empty; cbn; lia|].
    cbn [current_clients_number elems set_elems set_total_clients resetValue]. fold k. lia. }
  eapply (halts_bind _ _ (λ st' _, (counts k st' /\ fresh_from 0 st' /\ current_clients_number st' = k) /\ start_full_timer st' = false)).
  { unfold __turn_getMSTime. do 2 (apply (halts_bind _ _ (λ _ _, True)); [halts_tac|intros ? ? _]). apply halts_ret.
    split; [|done]. split; [exact H0|]. split; [|done]. intros j _. apply lookup_empty. }
  intros st1 b1 ((H1 & Hf & Hn) & Hfull). apply (halts_bind _ _ (λ _ _, True)); [halts_tac|intros buf b2 _].
  eapply halts_bind.
  { apply halts_and; [|apply full_start_loop]. apply (start_loop_started k _ 0); [|].
    - apply pending_none. split; [exact H1|]. split; [lia|exact Hf].
    - cbn [current_clients_number set_payload]. rewrite Hn. lia. }
  intros [[g|] st2] b3 [H2 Hfull2]; [|apply halts_ret; right; split; [exact H2|]; cbn [snd start_full_timer free_elems set_elems] in *; by rewrite Hfull2].
  rewrite Hd. eapply halts_bind; [apply (counts_getMSTime k); exact H2|]. intros st3 b4 H3.
  eapply halts_mono; [by apply (counts_run_load k)|]. intros st4 b5 [-> H4]. left. by split.
Qed.
End load.

(** C5. The number of sessions is right: a load test without TCP relays and outside the
    DoS mode, entered with a count in [[0, 2^29)], comes back only in two ways. Either it
    was entered with the count 0 and leaves the count 0, or it comes back from the starts,
    before its main loop, and leaves a larger count than it found.  So after a start that
    failed (a positive count) no test comes back from its main loop. *)
Theorem start_mclient_counts `{NetDb} `{Crypto} `{Evp} lc stack maps remote_address port ifname local_address
    messagenumber mclient st w :
  is_TCP_relay (lc_cfg lc) = false -> dos (lc_cfg lc) = false -> 0 <= current_clients_number st < 2 ^ 29 ->
  match start_mclient lc stack maps remote_address port ifname local_address messagenumber mclient st w with
  | Ret st' _ => current_clients_number st = 0 /\ current_clients_number st' = 0 \/
                 current_clients_number st < current_clients_number st' /\ start_full_timer st' = false
  | Diverged => False
  | _ => True
  end.
Proof.
  intros Hr Hd Hk. pose proof (start_mclient_halts lc stack maps remote_address port ifname local_address messagenumber
    mclient st Hr Hd Hk w) as Hh. unfold wpf in Hh. destruct (start_mclient _ _ _ _ _ _ _ _ _ _ w); tauto.
Qed.
