(* ===== verification/LoadRun.v ===== *)
(** What the load test promises: a session is paced, one that is late catches up, and
    the count of the sessions is right (its witnesses). *)

From stdpp Require Import gmap.
From S2P Require Import Prelude Defs CString IoAddr MsgAddr AddrText AddrTextSpec StunHeader StunAttr StunMsg StunReply StunBuffer Crypto Integrity Evp OAuth System Progress Session Samples Transport TransportSpec Credentials Sockets Connect Allocate Bind Client StunClient Scenario Termination Steady AllocateSpec Uclient UclientSpec TcpRelay Load LoadStart LoadTest LoadScenario LoadEnds LoadSpec LoadCount.

Section run.
Context `{N : NetDb} `{C : Crypto} `{V : Evp}.
Context (lc : load_config) (stack : world -> frame) (maps : addr_maps).

(** C17. A tick of the timer: the session counts at most 50 messages as written, at most
    those it has left to write, and reports in [*done] as many or more; the messages
    added to the statistics are not more than those written.  It returns 1 exactly when
    the session was shut down, and then counts one session less. *)
Theorem client_timer_handler_rate st e d w :
  match client_timer_handler lc stack maps st e d w with
  | Ret (rc, d', st', e') _ =>
    d <= d' <= d + 50 /\ wmsgnum e <= wmsgnum e' <= wmsgnum e + (d' - d) /\
    wmsgnum e' <= Z.max (wmsgnum e) (tot_msgnum e) /\ tot_msgnum e' = tot_msgnum e /\
    (exists j, 0 <= j <= wmsgnum e' - wmsgnum e /\
       u32 (tot_send_messages (trf st')) = u32 (tot_send_messages (trf st) + j)) /\
    tot_recv_messages (trf st') = tot_recv_messages (trf st) /\ elems st' = elems st /\
    (rc = 0 /\ state (base e') = state (base e) /\ current_clients_number st' = current_clients_number st \/
     rc = 1 /\ state (base e') = UR_STATE_DONE /\ current_clients_number st' = u64 (current_clients_number st - 1))
  | Diverged => False
  | _ => True
  end.
Proof.
  pose proof (timer_handler_spec lc stack maps st e d w) as H. unfold wpf in H.
  destruct (client_timer_handler _ _ _ _ _ _ w) as [[[[rc d'] st'] e'] w'|? ?|?| |]; try exact H; try exact I.
  destruct H as [_ [(Hrc & (He & _ & _ & _ & Hr & _ & Hn) & Ht & Hs & Hd & Hw & Hm & Hj) _]].
  do 7 (split; [assumption|]). destruct Hrc as [-> | ->]; [left|right]; by split.
Qed.

(** C18. A session that sends through a channel and whose next message is at least a second
    late writes 50 messages in a tick, or all it has left; when none is left and the test
    is over it is shut down in that tick. *)
Theorem client_timer_handler_progress st e d w :
  hang_on lc = false -> channel_settings lc -> state (base e) = UR_STATE_READY ->
  0 <= to_send_timems e -> to_send_timems e + 1000 <= current_mstime (clk st) < 2 ^ 31 ->
  let rest := Z.max 0 (tot_msgnum e - wmsgnum e) in
  match client_timer_handler lc stack maps st e d w with
  | Ret (rc, d', st', e') _ =>
    d' - d = wmsgnum e' - wmsgnum e /\
    (rc = 0 /\ wmsgnum e' = wmsgnum e + Z.min 50 rest \/ rc = 1 /\ wmsgnum e' = wmsgnum e + rest) /\
    (rest = 0 -> finished st e = true -> rc = 1)
  | Diverged => False
  | _ => True
  end.
Proof.
  intros Hh Hc Hr H0 H1 rest. pose proof (timer_handler_spec lc stack maps st e d w) as H. unfold wpf in H.
  destruct (client_timer_handler _ _ _ _ _ _ w) as [[[[rc d'] st'] e'] w'|? ?|?| |]; try exact H; try exact I.
  destruct H as [_ [(Hrc & _) Hp]]. destruct (Hp Hh Hc Hr (conj H0 H1)) as (P1 & P2 & P3). split; [exact P1|]. split.
  - destruct Hrc as [-> | ->]; [left|right]; by split.
  - intros Hz Hf. destruct Hrc as [-> | ->]; [|done]. rewrite P3 in Hf; [done..|]. unfold MAX_BURST. lia.
Qed.
End run.

(** A session with five messages to send, two seconds late. *)
Definition late_statics : statics := 
  set_full (set_payload (set_clk statics_init (Clock 100 102 2000 false)) (replicate 1000 7)) 5 true.
Definition late_session : load_session :=
  LoadSession (Session (set_fd sample_conn 4 false) UR_STATE_READY 0x4001 1 sample_message 30000 0 0 0 0)
    0 false sample_message 0 5 0 0 0 0.
Abbreviation late_run := (client_timer_handler sample_load (λ _, sample_frame) addr_maps_init late_statics late_session 0).

Lemma sample_load_channel : channel_settings sample_load.
Proof. by constructor. Qed.

Lemma client_timer_handler_progress_witness :
  match late_run (sample_world (replicate 5 accepted)) with
  | Ret (rc, d', st', e') _ => rc = 0 /\ d' = 5 /\ wmsgnum e' = 5
  | _ => False
  end.
Proof.
  assert (match late_run (sample_world (replicate 5 accepted)) with Ret (rc, _, _, _) _ => rc =? 0 | _ => false end = true) as E
    by (vm_compute; reflexivity).
  pose proof (client_timer_handler_progress sample_load (λ _, sample_frame) addr_maps_init late_statics late_session 0
    (sample_world (replicate 5 accepted)) ltac:(reflexivity) sample_load_channel ltac:(reflexivity) ltac:(discriminate)
    ltac:(split; reflexivity || discriminate)) as H.
  cbv zeta in H. destruct (client_timer_handler _ _ _ _ _ _ _) as [[[[rc d'] st'] e'] w'|? ?|?| |]; try discriminate E.
  apply Z.eqb_eq in E. subst rc. destruct H as (H1 & H2 & _).
  change (wmsgnum late_session) with 0 in *. change (tot_msgnum late_session) with 5 in *. split; [reflexivity|].
  destruct H2 as [[_ H2]|[H2 _]]; [|discriminate]. change (Z.max 0 (5 - 0)) with 5 in H2. split; lia.
Defined.

(** A test whose session runs to its end, and one whose socket cannot be made. *)
Lemma start_mclient_counts_witness :
  match load_scenario statics_init (peer_world load_answers) with
  | Ret st _ => current_clients_number st = 0
  | _ => False
  end /\
  match load_scenario statics_init (peer_world (at_time 100 0 ++ [ACall (-1) EOTHER])) with
  | Ret st _ => 0 < current_clients_number st
  | _ => False
  end.
Proof.
  pose proof (start_mclient_counts sample_load (λ _, sample_frame) addr_maps_init (cstring (lit "1.2.3.4")) 3478 (zeros 129)
    (zeros 129) 2 1 statics_init) as H.
  split.
  - specialize (H (peer_world load_answers) ltac:(reflexivity) ltac:(reflexivity) ltac:(split; reflexivity || discriminate)).
    pose proof load_scenario_run as E. destruct (load_scenario _ _); try done. by destruct E as (_ & ? & _).
  - specialize (H (peer_world (at_time 100 0 ++ [ACall (-1) EOTHER])) ltac:(reflexivity) ltac:(reflexivity) ltac:(split; reflexivity || discriminate)).
    assert (match load_scenario statics_init (peer_world (at_time 100 0 ++ [ACall (-1) EOTHER])) with
      | Ret st _ => current_clients_number st =? 0 | _ => true end = false) as E by (vm_compute; reflexivity).
    destruct (load_scenario _ _); try discriminate E. apply Z.eqb_neq in E. destruct H as [[_ H]|[H _]]; [contradiction|exact H].
Defined.
