(* ===== verification/TurnAttr.v ===== *)
(** The C++ classes over the message functions, [client++/TurnMsgLib.h]: the
    exceptions, the attribute iterator and the attribute classes.

    An object is the record of its fields.  The iterator and the message share the
    message's memory: a method of the iterator receives what that memory holds when it
    is called.  [malloc] succeeds and returns a block, of no bytes for a size of 0. *)

From S2P Require Import Prelude Defs CString IoAddr MsgAddr StunHeader StunAttr.

(** * Exceptions *)

Inductive exception : Type :=
  EndOfStunMsgException | WrongStunAttrFormatException | WrongStunBufferFormatException.

(** What a method does: it returns, throws, or its behaviour is undefined. *)
Inductive cpp (A : Type) : Type :=
| Done (a : A)
| Throw (x : exception)
| Undefined.
Arguments Done {A} a.
Arguments Throw {A} x.
Arguments Undefined {A}.

#[export] Instance cpp_ret : MRet cpp := λ A a, Done a.
#[export] Instance cpp_bind : MBind cpp := λ A B k m,
  match m with Done a => k a | Throw x => Throw x | Undefined => Undefined end.

(** A call of a C function. *)
Definition call {A} (x : option A) : cpp A := match x with Some a => Done a | None => Undefined end.

(** [if(b) throw x;] *)
Definition throw_if (b : bool) (x : exception) : cpp unit := if b then Throw x else mret tt.

(** * StunAttrIterator *)

(** The buffer pointer is left out: it is that of the message. *)
Record StunAttrIterator : Type := Iterator {
  it_sz : Z;
  _sar : stun_attr_ref;
}.

Definition iterator_from (buf : option (list Z)) (sz : Z) (first : list Z -> option stun_attr_ref) : cpp StunAttrIterator :=
  b ← call (stun_is_command_message_str buf sz);
  throw_if (negb b) WrongStunBufferFormatException;;
  sar ← call (m ← buf; first m);
  mret (Iterator sz sar).

(** The constructors on a buffer; those on a message pass its buffer and size. *)
Definition iterate (buf : option (list Z)) (sz : Z) : cpp StunAttrIterator :=
  iterator_from buf sz (λ m, stun_attr_get_first_str m sz).
Definition iterate_type (buf : option (list Z)) (sz attr_type : Z) : cpp StunAttrIterator :=
  iterator_from buf sz (λ m, stun_attr_get_first_by_type_str m sz attr_type).

Section iterator.
Context (buf : list Z) (iter : StunAttrIterator).

Definition eof : bool := match _sar iter with None => true | Some _ => false end.

Definition next : cpp StunAttrIterator :=
  throw_if eof EndOfStunMsgException;;
  sar ← call (stun_attr_get_next_str buf (it_sz iter) (_sar iter));
  mret (Iterator (it_sz iter) sar).

Definition isAddr : cpp bool := call (stun_attr_is_addr buf (_sar iter)).
Definition getAddressFamily : cpp Z := call (stun_get_requested_address_family buf (_sar iter)).
Definition getType : cpp Z := call (stun_attr_get_type buf (_sar iter)).

(** The pointer to the value and its length. *)
Definition getRawBuffer : cpp (option Z * Z) :=
  len ← call (stun_attr_get_len buf (_sar iter));
  throw_if (len <? 0) WrongStunAttrFormatException;;
  value ← call (stun_attr_get_value buf (_sar iter));
  mret (value, len).
End iterator.

(** * StunAttr *)

Record StunAttr : Type := Attr {
  _attr_type : Z;
  _value : option (list Z);
  _sz : Z;
}.

Definition new_StunAttr : StunAttr := Attr 0 None 0.

Definition StunAttr_of (buf : list Z) (iter : StunAttrIterator) : cpp StunAttr :=
  throw_if (eof iter) EndOfStunMsgException;;
  '(ptr, sz) ← getRawBuffer buf iter;
  throw_if (0xFFFF <=? sz) WrongStunAttrFormatException;;
  at_ ← getType buf iter;
  throw_if (at_ <? 0) WrongStunAttrFormatException;;
  value ← (match ptr with Some p => call (rd_block buf p sz) | None => mret [] end);
  mret (Attr (u16 at_) (Some value) sz).

(** [junk]: what the new block holds when there is no value to copy. *)
Definition setRawValue (a : StunAttr) (value : option (list Z)) (sz : Z) (junk : list Z) : cpp StunAttr :=
  throw_if (0xFFFF <? sz) WrongStunAttrFormatException;;
  v ← call (rd_block (default junk value) 0 sz);
  mret (Attr (_attr_type a) (Some v) sz).

Definition setType (a : StunAttr) (attr_type : Z) : StunAttr := Attr attr_type (_value a) (_sz a).

(** What the methods find outside their objects: the static address map and the
    contents of uninitialised locals. *)
Class Locals : Type := {
  address_map : addr_maps;
  stack_bytes : list Z;
}.

(** The virtual member: the attribute's bytes go to the end of a message. *)
Class Attribute (A : Type) : Type := {
  as_attr : A -> StunAttr;
  addToBuffer : A -> sbuf -> cpp (Z * sbuf);
}.

Definition StunAttr_addToBuffer (a : StunAttr) (b : sbuf) : cpp (Z * sbuf) :=
  match _value a with
  | None => Throw WrongStunAttrFormatException
  | Some v =>
    '(r, b) ← call (stun_attr_add_str b (_attr_type a) (Some v) (_sz a));
    throw_if (r <? 0) WrongStunBufferFormatException;;
    mret (0, b)
  end.

#[export] Instance StunAttr_attribute : Attribute StunAttr := { as_attr a := a; addToBuffer := StunAttr_addToBuffer }.

(** * The attribute classes *)

(** The constructor of the base class, and the test that every derived class repeats. *)
Definition base_of (buf : list Z) (iter : StunAttrIterator) : cpp StunAttr :=
  a ← StunAttr_of buf iter;
  throw_if (eof iter) EndOfStunMsgException;;
  mret a.

Record StunAttrChannelNumber : Type := ChannelNumber { cn_base : StunAttr; _cn : Z }.

Definition new_ChannelNumber : StunAttrChannelNumber := ChannelNumber (setType new_StunAttr STUN_ATTRIBUTE_CHANNEL_NUMBER) 0.
Definition ChannelNumber_of (buf : list Z) (iter : StunAttrIterator) : cpp StunAttrChannelNumber :=
  a ← base_of buf iter;
  cn ← call (stun_attr_get_channel_number buf (_sar iter));
  throw_if (cn =? 0) WrongStunAttrFormatException;;
  mret (ChannelNumber a cn).
Definition setChannelNumber (a : StunAttrChannelNumber) (cn : Z) : StunAttrChannelNumber := ChannelNumber (cn_base a) cn.

Definition ChannelNumber_addToBuffer (a : StunAttrChannelNumber) (b : sbuf) : cpp (Z * sbuf) :=
  call (stun_attr_add_channel_number_str b (_cn a)).

#[export] Instance ChannelNumber_attribute : Attribute StunAttrChannelNumber := { as_attr := cn_base; addToBuffer := ChannelNumber_addToBuffer }.

Record StunAttrEvenPort : Type := EvenPort { ep_base : StunAttr; _ep : Z }.

Definition new_EvenPort : StunAttrEvenPort := EvenPort (setType new_StunAttr STUN_ATTRIBUTE_EVEN_PORT) 0.
Definition EvenPort_of (buf : list Z) (iter : StunAttrIterator) : cpp StunAttrEvenPort :=
  a ← base_of buf iter;
  ep ← call (stun_attr_get_even_port buf (_sar iter));
  mret (EvenPort a ep).
Definition setEvenPort (a : StunAttrEvenPort) (ep : Z) : StunAttrEvenPort := EvenPort (ep_base a) ep.

Definition EvenPort_addToBuffer (a : StunAttrEvenPort) (b : sbuf) : cpp (Z * sbuf) :=
  call (stun_attr_add_str b STUN_ATTRIBUTE_EVEN_PORT (Some [_ep a]) 1).

#[export] Instance EvenPort_attribute : Attribute StunAttrEvenPort := { as_attr := ep_base; addToBuffer := EvenPort_addToBuffer }.

Record StunAttrReservationToken : Type := ReservationToken { rt_base : StunAttr; _rt : Z }.

Definition new_ReservationToken : StunAttrReservationToken :=
  ReservationToken (setType new_StunAttr STUN_ATTRIBUTE_RESERVATION_TOKEN) 0.
Definition ReservationToken_of (buf : list Z) (iter : StunAttrIterator) : cpp StunAttrReservationToken :=
  a ← base_of buf iter;
  rt ← call (stun_attr_get_reservation_token_value buf (_sar iter));
  mret (ReservationToken a rt).
Definition setReservationToken (a : StunAttrReservationToken) (rt : Z) : StunAttrReservationToken :=
  ReservationToken (rt_base a) rt.

Definition ReservationToken_addToBuffer (a : StunAttrReservationToken) (b : sbuf) : cpp (Z * sbuf) :=
  reservation_token ← call (_ioa_ntoh64 (_rt a));
  call (stun_attr_add_str b STUN_ATTRIBUTE_RESERVATION_TOKEN (Some (le_split 8 reservation_token)) 8).

#[export] Instance ReservationToken_attribute : Attribute StunAttrReservationToken := { as_attr := rt_base; addToBuffer := ReservationToken_addToBuffer }.

Record StunAttrAddr : Type := AddrAttr { addr_base : StunAttr; _addr : ioa_addr }.

Definition new_Addr (attr_type : Z) : StunAttrAddr := AddrAttr (setType new_StunAttr attr_type) addr_zero.

(** The constructor passes the attribute's value as the message: the transaction id is
    read 8 bytes into the value. *)
Definition Addr_of `{Locals} (buf : list Z) (iter : StunAttrIterator) : cpp StunAttrAddr :=
  a ← base_of buf iter;
  '(value, sz) ← getRawBuffer buf iter;
  tid ← call (p ← value; b ← ptr_add buf p; stun_tid_from_message_str b sz (Some (replicate 12 0)));
  '(r, addr) ← call (get_addr_with address_map tid buf (_sar iter) None);
  throw_if (r <? 0) WrongStunAttrFormatException;;
  mret (AddrAttr a addr).
Definition setAddr (a : StunAttrAddr) (addr : ioa_addr) : StunAttrAddr := AddrAttr (addr_base a) addr.

Definition Addr_addToBuffer `{Locals} (a : StunAttrAddr) (b : sbuf) : cpp (Z * sbuf) :=
  call (stun_attr_add_addr_str address_map b (_attr_type (addr_base a)) (_addr a)).

#[export] Instance Addr_attribute `{Locals} : Attribute StunAttrAddr := { as_attr := addr_base; addToBuffer := Addr_addToBuffer }.

Record StunAttrChangeRequest : Type := ChangeRequest { cr_base : StunAttr; _changeIp : Z; _changePort : Z }.

Definition new_ChangeRequest : StunAttrChangeRequest :=
  ChangeRequest (setType new_StunAttr STUN_ATTRIBUTE_CHANGE_REQUEST) 0 0.
Definition ChangeRequest_of (buf : list Z) (iter : StunAttrIterator) : cpp StunAttrChangeRequest :=
  a ← base_of buf iter;
  '(r, ip, port) ← call (stun_attr_get_change_request_str buf (_sar iter) 0 0);
  throw_if (r <? 0) WrongStunAttrFormatException;;
  mret (ChangeRequest a ip port).
Definition getChangeIp (a : StunAttrChangeRequest) : bool := truth (_changeIp a).
Definition getChangePort (a : StunAttrChangeRequest) : bool := truth (_changePort a).
Definition setChangeIp (a : StunAttrChangeRequest) (ci : bool) : StunAttrChangeRequest :=
  ChangeRequest (cr_base a) (b2z ci) (_changePort a).
Definition setChangePort (a : StunAttrChangeRequest) (cp : bool) : StunAttrChangeRequest :=
  ChangeRequest (cr_base a) (_changeIp a) (b2z cp).

Definition ChangeRequest_addToBuffer (a : StunAttrChangeRequest) (b : sbuf) : cpp (Z * sbuf) :=
  call (stun_attr_add_change_request_str b (_changeIp a) (_changePort a)).

#[export] Instance ChangeRequest_attribute : Attribute StunAttrChangeRequest := { as_attr := cr_base; addToBuffer := ChangeRequest_addToBuffer }.

Record StunAttrResponsePort : Type := ResponsePort { rp_base : StunAttr; _rp : Z }.

Definition new_ResponsePort : StunAttrResponsePort :=
  ResponsePort (setType new_StunAttr STUN_ATTRIBUTE_RESPONSE_PORT) 0.
Definition ResponsePort_of (buf : list Z) (iter : StunAttrIterator) : cpp StunAttrResponsePort :=
  a ← base_of buf iter;
  rp ← call (stun_attr_get_response_port_str buf (_sar iter));
  throw_if (rp <? 0) WrongStunAttrFormatException;;
  mret (ResponsePort a (u16 rp)).
Definition setResponsePort (a : StunAttrResponsePort) (p : Z) : StunAttrResponsePort := ResponsePort (rp_base a) p.

Definition ResponsePort_addToBuffer (a : StunAttrResponsePort) (b : sbuf) : cpp (Z * sbuf) :=
  call (stun_attr_add_response_port_str b (_rp a)).

#[export] Instance ResponsePort_attribute : Attribute StunAttrResponsePort := { as_attr := rp_base; addToBuffer := ResponsePort_addToBuffer }.

Record StunAttrPadding : Type := Padding { pd_base : StunAttr; _p : Z }.

Definition new_Padding : StunAttrPadding := Padding (setType new_StunAttr STUN_ATTRIBUTE_PADDING) 0.
Definition Padding_of (buf : list Z) (iter : StunAttrIterator) : cpp StunAttrPadding :=
  a ← base_of buf iter;
  p ← call (stun_attr_get_padding_len_str buf (_sar iter));
  throw_if (p <? 0) WrongStunAttrFormatException;;
  mret (Padding a (u16 p)).
Definition setPadding (a : StunAttrPadding) (p : Z) : StunAttrPadding := Padding (pd_base a) p.

Definition Padding_addToBuffer `{Locals} (a : StunAttrPadding) (b : sbuf) : cpp (Z * sbuf) :=
  call (stun_attr_add_padding_str stack_bytes b (_p a)).

#[export] Instance Padding_attribute `{Locals} : Attribute StunAttrPadding := { as_attr := pd_base; addToBuffer := Padding_addToBuffer }.
