(* ===== verification/TurnAttrSpec.v ===== *)
(** What the attribute classes of [client++/TurnMsgLib.h] do: the iterator yields the
    attributes of the abstract message, on any bytes it terminates inside the message,
    and the constructors of the attribute classes read what [addToBuffer] wrote. *)

From S2P Require Import Prelude Defs CString IoAddr MsgAddr StunHeader StunAttr StunSpec StunSearch StunBuild TurnAttr.

(** Evaluation of the monad. *)
Ltac cpp_simpl := cbn [mbind mret cpp_bind cpp_ret call throw_if option_bind].

(** * The iterator *)

(** The object that [StunAttr] makes of an attribute. *)
Definition object_of (kv : Z * list Z) : StunAttr := Attr kv.1 (Some kv.2) (zlen kv.2).

(** [for(; !iter.eof(); iter.next()) StunAttr a(iter);] makes the objects [l], and throws nothing. *)
Inductive iterates (buf : list Z) : StunAttrIterator -> list StunAttr -> Prop :=
| iterates_eof it : eof it = true -> iterates buf it []
| iterates_next it it' a l :
    eof it = false -> StunAttr_of buf it = Done a -> next buf it = Done it' ->
    iterates buf it' l -> iterates buf it (a :: l).

Lemma StunAttr_of_eof buf it : eof it = true -> StunAttr_of buf it = Throw EndOfStunMsgException.
Proof. unfold StunAttr_of. by intros ->. Qed.

Lemma next_eof buf it : eof it = true -> next buf it = Throw EndOfStunMsgException.
Proof. unfold next. by intros ->. Qed.

Lemma StunAttr_of_holds buf sz a t v :
  attr_holds buf a t v -> 0 <= t < 65536 -> zlen v < 65535 ->
  StunAttr_of buf (Iterator sz (Some a)) = Done (object_of (t, v)).
Proof.
  intros Hh Ht Hv. pose proof (zlen_nonneg v). unfold StunAttr_of, getRawBuffer, getType, eof. cbn [_sar]. cpp_simpl.
  rewrite (holds_len _ _ _ _ Hh), (holds_value _ _ _ _ Hh), (holds_type _ _ _ _ Hh). cpp_simpl.
  destruct (Z.ltb_spec (zlen v) 0); [lia|]. cpp_simpl.
  destruct (Z.leb_spec 65535 (zlen v)); [lia|]. destruct (Z.ltb_spec t 0); [lia|]. cpp_simpl.
  rewrite u16_small by done. unfold object_of. cbn [fst snd].
  destruct (Z.ltb_spec (zlen v) 1).
  - destruct v as [|c v]; [done|]. rewrite zlen_cons in *. pose proof (zlen_nonneg v). lia.
  - by rewrite (holds_block _ _ _ _ Hh).
Qed.

Section of_message.
Context (b : sbuf) (m : stun_msg) (Hr : repr b m).

Lemma attr_value_short l1 t v l2 : m_attrs m = l1 ++ (t, v) :: l2 -> 0 <= t < 65536 /\ zlen v < 65535.
Proof using Hr.
  intros Hm. destruct (attr_fields b m l1 t v l2 Hr Hm) as (Ht & _).
  apply be_at_range in Ht; [|apply Hr]. split; [exact Ht|].
  pose proof (repr_size_bound _ _ Hr). pose proof (attr_total m l1 t v l2 Hm).
  pose proof (attr_size_bounds v). pose proof (attrs_size_nonneg l2). pose proof (attrs_size_nonneg l1).
  unfold attr_off, STUN_HEADER_LENGTH in *. lia.
Qed.

Lemma iterates_from l1 l2 :
  m_attrs m = l1 ++ l2 ->
  iterates (sb_mem b) (Iterator (sb_len b) (start_of (attr_off l1) l2)) (object_of <$> l2).
Proof using Hr.
  revert l1. induction l2 as [|[t v] l2 IH]; intros l1 Hm; [by constructor|]. cbn [fmap list_fmap start_of].
  destruct (attr_value_short l1 t v l2 Hm) as [Ht Hv].
  eapply iterates_next; [done| | |].
  - apply StunAttr_of_holds; [by eapply attr_holds_at|done..].
  - unfold next, eof. cbn [_sar it_sz]. cpp_simpl. rewrite (get_next_repr b m l1 t v l2 Hr Hm). cpp_simpl. reflexivity.
  - replace (attr_off l1 + attr_size v) with (attr_off (l1 ++ [(t, v)])).
    + apply IH. by rewrite <- app_assoc.
    + unfold attr_off. rewrite attrs_size_app. cbn [attrs_size]. lia.
Qed.
End of_message.

(** The attributes from the first one of type [t] on. *)
Fixpoint from_type (t : Z) (l : list (Z * list Z)) : list (Z * list Z) :=
  match l with
  | [] => []
  | kv :: l' => if kv.1 =? t then l else from_type t l'
  end.

Lemma from_type_split t l :
  exists l1, l = l1 ++ from_type t l /\ find_attr t l1 = None /\
  (forall k v l', from_type t l = (k, v) :: l' -> k = t).
Proof.
  induction l as [|[k v] l (l1 & Hl & Hn & Hh)]; [by exists []|]. cbn [from_type fst].
  destruct (Z.eqb_spec k t) as [->|Hk].
  - exists []. repeat split; try done. by intros k' v' l' [= <- <- <-].
  - exists ((k, v) :: l1). cbn [app]. rewrite <- Hl. split; [done|]. split; [|done].
    rewrite find_attr_None in *. by constructor.
Qed.

Lemma first_by_type_start b m t :
  repr b m ->
  exists l1, m_attrs m = l1 ++ from_type t (m_attrs m) /\
  stun_attr_get_first_by_type_str (sb_mem b) (sb_len b) t = Some (start_of (attr_off l1) (from_type t (m_attrs m))).
Proof.
  intros Hr. destruct (from_type_split t (m_attrs m)) as (l1 & Hl & Hn & Hh). exists l1. split; [done|].
  destruct (from_type t (m_attrs m)) as [|[k v] l2] eqn:E.
  - pose proof (get_first_by_type_find b m t Hr) as Hg. rewrite app_nil_r in Hl. by rewrite Hl, Hn in Hg.
  - pose proof (Hh _ _ _ eq_refl) as ->. by apply (first_by_type_at b m l1 t v l2).
Qed.

(** * Safety on any bytes *)

Lemma StunAttr_of_valid buf sz e a :
  bytes buf -> e <= zlen buf -> e <= 65555 -> valid_attr buf e a ->
  exists o, StunAttr_of buf (Iterator sz (Some a)) = Done o.
Proof.
  intros Hb He Hmax Hv. pose proof (valid_attr_bounds _ _ _ Hb Hv).
  destruct (get_type_valid buf e a Hb He Hv) as (t & Ht & _ & Htr).
  destruct (get_len_valid buf e a Hb He Hv) as (l & Hl & Hlr & Hend & Hval).
  assert (l < 65535).
  { destruct Hv as (Hs & l' & Hl' & Hp). cbn [stun_attr_get_len] in Hl. rewrite ldn16_be, Hl' in Hl by done.
    injection Hl as ->. unfold pad4 in Hp. Z.div_mod_to_equations. lia. }
  unfold StunAttr_of, getRawBuffer, getType, eof. cbn [_sar]. cpp_simpl. rewrite Hl, Hval, Ht. cpp_simpl.
  destruct (Z.ltb_spec l 0); [lia|]. cpp_simpl. destruct (Z.leb_spec 65535 l); [lia|].
  destruct (Z.ltb_spec t 0); [lia|]. cpp_simpl. destruct (l <? 1); [by eexists|].
  rewrite rd_block_ok by lia. by eexists.
Qed.

Lemma iterates_valid buf len e n a :
  bytes buf -> len <= zlen buf -> stun_get_command_message_len_str buf len = Some e -> e <= len -> e <= 65555 ->
  (forall p, a = Some p -> valid_attr buf e p /\ e - p <= 4 * Z.of_nat n) ->
  exists l, iterates buf (Iterator len a) l /\ (length l <= n)%nat.
Proof.
  intros Hb Hl He Hel Hmax. revert a. induction n as [|n IH]; intros [a|] Ha.
  all: try (exists []; split; [by constructor|simpl; lia]).
  - destruct (Ha a eq_refl) as [Hv Hf]. apply valid_attr_bounds in Hv; [lia|done].
  - destruct (Ha a eq_refl) as [Hv Hf].
    destruct (StunAttr_of_valid buf len e a Hb ltac:(lia) Hmax Hv) as (o & Ho).
    destruct (get_next_spec buf len e a Hb Hl He Hel Hv) as (nxt & Hn & Hcase).
    destruct (IH nxt) as (l & Hit & Hlen).
    { intros p ->. destruct Hcase as [?|(a' & [= <-] & ? & ?)]; [done|]. split; [done|lia]. }
    exists (o :: l). split; [|simpl; lia]. eapply iterates_next; [done|exact Ho| |exact Hit].
    unfold next, eof. cbn [_sar it_sz]. cpp_simpl. by rewrite Hn.
Qed.

Lemma iterate_command buf len e :
  bytes buf -> len <= zlen buf -> command_header buf len ->
  stun_get_command_message_len_str buf len = Some e -> e = len /\ len <= 65555.
Proof.
  intros Hb Hl (H20 & t & l & _ & _ & _ & Hsz & _ & ->) He. unfold stun_get_command_message_len_str, STUN_HEADER_LENGTH in He.
  destruct (Z.ltb_spec (l + 20) 20); [lia|]. rewrite ldn16_be, Hsz in He by done. cbn [mbind option_bind] in He.
  apply be_at_range in Hsz; [|done]. change (256 ^ 2) with 65536 in Hsz.
  destruct (Z.ltb_spec (l + 20) (l + 20)); [lia|]. injection He as <-. lia.
Qed.

Definition count (sz : Z) : nat := Z.to_nat ((sz - STUN_HEADER_LENGTH) / 4).

Lemma count_bound len : len mod 4 = 0 -> 20 <= len -> len - 20 <= 4 * Z.of_nat (count len).
Proof. intros. unfold count, STUN_HEADER_LENGTH. Z.div_mod_to_equations. lia. Qed.

(** An iterator at an attribute of the message, or at the end. *)
Lemma iterates_in_command buf len a :
  bytes buf -> len <= zlen buf -> command_header buf len ->
  (forall p, a = Some p -> valid_attr buf len p) ->
  exists l, iterates buf (Iterator len a) l /\ (length l <= count len)%nat.
Proof.
  intros Hb Hl Hc Ha. destruct (command_message_len_spec buf len Hb Hl) as (e & He & _).
  destruct (iterate_command buf len e Hb Hl Hc He) as [-> Hmax].
  assert (len mod 4 = 0 /\ 20 <= len) as [Hm H20].
  { destruct Hc as (? & t & l & _ & _ & _ & _ & ? & ->). split; [|lia]. Z.div_mod_to_equations. lia. }
  apply (iterates_valid buf len len (count len)); [done..|lia|done|].
  intros p ->. pose proof (Ha p eq_refl) as Hv. split; [done|]. pose proof (valid_attr_bounds _ _ _ Hb Hv).
  pose proof (count_bound len Hm H20). lia.
Qed.

(** How a constructor of an iterator on [sz] bytes ends: with an iterator over at most
    [count sz] attributes, or with an exception for bytes that are not a command message. *)
Definition starts (buf : list Z) (sz : Z) (r : cpp StunAttrIterator) : Prop :=
  match r with
  | Done it => exists l, iterates buf it l /\ (length l <= count sz)%nat
  | Throw x => x = WrongStunBufferFormatException /\ ~ command_header buf sz
  | Undefined => False
  end.

Lemma iterator_from_starts buf sz first :
  bytes buf -> sz <= zlen buf ->
  (exists r, first buf = Some r /\ forall p, r = Some p -> valid_attr buf sz p) ->
  starts buf sz (iterator_from (Some buf) sz first).
Proof.
  intros Hb Hl (r & Hf & Hv). unfold iterator_from.
  destruct (stun_is_command_message_spec buf sz Hb Hl) as (c & -> & Hc). cpp_simpl.
  destruct c; cbn [negb throw_if]; cpp_simpl.
  - rewrite Hf. cpp_simpl. apply iterates_in_command; [done..|by apply Hc|done].
  - split; [done|]. intros H. by apply Hc in H.
Qed.

(** Iterating is safe whatever the bytes received: the constructors (from the first attribute,
    or from the first one of a type) throw exactly when the bytes are not a command message,
    and otherwise the loop that builds an attribute object and moves on ends after at most a
    quarter of the message's length, without an exception and without reading outside. *)
Theorem StunAttrIterator_safe buf sz attr_type :
  bytes buf -> sz <= zlen buf ->
  starts buf sz (iterate (Some buf) sz) /\ starts buf sz (iterate_type (Some buf) sz attr_type).
Proof.
  intros Hb Hl. split; apply iterator_from_starts; try done.
  - destruct (get_first_spec buf sz Hb Hl) as (r & -> & Hr). exists r. split; [done|]. intros p ->.
    destruct Hr as [?|(e & _ & He & [= ->] & Ha & n & Hn & Hend)]; [done|]. split; [done|]. exists n. split; [done|lia].
  - destruct (get_first_by_type_safe buf sz attr_type Hb Hl) as (r & -> & Hr). exists r. split; [done|].
    intros p ->. by destruct (Hr p eq_refl).
Qed.

(** C11. The iterator refines the attribute list of the message: over a buffer that holds [m], the
    loop makes exactly the objects of [m]'s attributes, type and unpadded value, in order; the
    constructor with a type starts at the first attribute of the type and goes on to the end. *)
Theorem StunAttrIterator_refines b m attr_type :
  repr b m -> m_type m < 0x4000 -> m_cookie m = STUN_MAGIC_COOKIE ->
  (exists it, iterate (Some (sb_mem b)) (sb_len b) = Done it /\
              iterates (sb_mem b) it (object_of <$> m_attrs m)) /\
  (exists it, iterate_type (Some (sb_mem b)) (sb_len b) attr_type = Done it /\
              iterates (sb_mem b) it (object_of <$> from_type attr_type (m_attrs m))).
Proof.
  intros Hr Ht Hc. unfold iterate, iterate_type, iterator_from. rewrite (repr_is_command b m Hr Ht Hc).
  cpp_simpl. cbn [negb throw_if]. cpp_simpl. split.
  - rewrite (get_first_repr b m Hr). cpp_simpl. eexists. split; [done|]. by apply (iterates_from b m Hr []).
  - destruct (first_by_type_start b m attr_type Hr) as (l1 & Hm & ->). cpp_simpl. eexists. split; [done|].
    by apply (iterates_from b m Hr l1).
Qed.

(** * The attribute classes *)

(** What an attribute class promises to a message: on a [attr_good] object, [addToBuffer] appends
    the attribute [attr_val], and the class's constructor on an iterator at that attribute makes
    an object that its getters see as [attr_reads_as] says. *)
Class AttributeLaws (A : Type) {HA : Attribute A} : Type := {
  attr_read : list Z -> StunAttrIterator -> cpp A;
  attr_val : A -> list Z;
  attr_good : A -> Prop;
  attr_reads_as : A -> A -> Prop;
  law_type a : attr_good a -> 0 < _attr_type (as_attr a) < 65536;
  law_val a : attr_good a -> bytes (attr_val a) /\ zlen (attr_val a) < 65535;
  law_add a b m :
    attr_good a -> repr b m -> room b m (zlen (attr_val a)) ->
    exists b', addToBuffer a b = Done (0, b') /\ repr b' (add_attr m (_attr_type (as_attr a)) (attr_val a)) /\
    zlen (sb_mem b') = zlen (sb_mem b);
  law_read buf sz p a :
    bytes buf -> attr_good a -> attr_holds buf p (_attr_type (as_attr a)) (attr_val a) ->
    exists a', attr_read buf (Iterator sz (Some p)) = Done a' /\ attr_reads_as a a' /\
    as_attr a' = object_of (_attr_type (as_attr a), attr_val a);
}.

Lemma base_of_holds buf sz a t v :
  attr_holds buf a t v -> 0 <= t < 65536 -> zlen v < 65535 ->
  base_of buf (Iterator sz (Some a)) = Done (object_of (t, v)).
Proof. intros Hh Ht Hv. unfold base_of. by rewrite (StunAttr_of_holds buf sz a t v). Qed.

(** [addToBuffer] by one call of [stun_attr_add_str]. *)
Lemma add_call b m t f n v :
  repr b m -> 0 <= t < 65536 -> c_attr_value f n = Some v -> bytes v -> n < 2147000000 -> room b m (zlen v) ->
  exists b', call (stun_attr_add_str b t f n) = Done (0, b') /\ repr b' (add_attr m t v) /\
  zlen (sb_mem b') = zlen (sb_mem b).
Proof.
  intros Hr Ht Hv Hb Hn Hroom. destruct (add_in_room b m t f n v Hr Ht Hv Hb Hn Hroom) as (b' & -> & H). by exists b'.
Qed.

(** A constructor of a derived class: the base class's, then a getter of the C library. *)
Ltac read_base Hh :=
  rewrite (base_of_holds _ _ _ _ _ Hh) by (done || lia); cpp_simpl; cbn [_sar].

(** A generic object: a type and the bytes of its value. *)
Definition generic_good (a : StunAttr) : Prop :=
  exists t v, a = object_of (t, v) /\ 0 < t < 65536 /\ bytes v /\ zlen v < 65535.

#[export] Instance StunAttr_laws : AttributeLaws StunAttr.
Proof.
  refine {|
    attr_read := StunAttr_of;
    attr_val a := default [] (_value a);
    attr_good := generic_good;
    attr_reads_as a a' := a' = a;
  |}.
  - by intros a (t & v & -> & Ht & _).
  - by intros a (t & v & -> & _ & Hb & Hv).
  - intros a b m (t & v & -> & Ht & Hb & Hv) Hr Hroom.
    cbn [object_of as_attr addToBuffer StunAttr_attribute _attr_type _value _sz default fst snd] in *.
    unfold StunAttr_addToBuffer. cbn [_attr_type _value _sz fst snd object_of].
    destruct (add_call b m t (Some v) (zlen v) v) as (b' & -> & H); try done; [lia| |lia|by exists b'].
    cbn. destruct (Z.leb_spec (zlen v) 0); [|by rewrite rd_block_full].
    destruct v as [|c v]; [done|]. rewrite zlen_cons in *. pose proof (zlen_nonneg v). lia.
  - intros buf sz p a Hbuf (t & v & -> & Ht & Hb & Hv) Hh.
    eexists. split; [apply (StunAttr_of_holds buf sz p t v Hh); [lia|done]|done].
Defined.

(** ** The getters *)

Section getters.
Context (buf : list Z) (a t : Z) (Hb : bytes buf).

Lemma holds_even_port ep :
  attr_holds buf a t [ep] -> stun_attr_get_even_port buf (Some a) = Some (b2z (0x7F <? ep)).
Proof using All.
  intros Hh. unfold stun_attr_get_even_port. rewrite (holds_value _ _ _ _ Hh). cpp_simpl.
  change (zlen [ep] <? 1) with false. cbv iota. rewrite (holds_rd8 _ _ _ _ [] ep [] _ Hh) by (done || (rewrite zlen_nil; lia)).
  cpp_simpl. by destruct (0x7F <? ep).
Qed.

Lemma holds_reservation_token rt :
  attr_holds buf a t (be_split 8 rt) -> 0 <= rt < 18446744073709551616 ->
  stun_attr_get_reservation_token_value buf (Some a) = Some rt.
Proof using All.
  intros Hh Hrt. unfold stun_attr_get_reservation_token_value.
  rewrite (holds_value _ _ _ _ Hh), (holds_len _ _ _ _ Hh), zlen_be_split. cpp_simpl.
  change (Z.of_nat 8 <? 1) with false. change (Z.of_nat 8 =? 8) with true. cbv iota.
  pose proof (holds_block _ _ _ _ Hh) as Hv. rewrite zlen_be_split in Hv.
  assert (be_at 8 buf (a + 4) = Some rt) as Hbe by (by apply (be_at_here 8)). pose proof (nswap64_load64 buf (a + 4) Hb) as Hn. rewrite Hbe in Hn.
  destruct (load64 buf (a + 4)) as [w|]; [|done]. cpp_simpl. rewrite _ioa_ntoh64_nswap64. exact Hn.
Qed.

Lemma holds_change_request ip port c0 c1 :
  attr_holds buf a t [0; 0; 0; if truth ip then (if truth port then 0x06 else 0x04) else if truth port then 0x02 else 0] ->
  stun_attr_get_change_request_str buf (Some a) c0 c1 = Some (0, 4 * b2z (truth ip), 2 * b2z (truth port)).
Proof using All.
  intros Hh. destruct (change_request_value ip port) as (Hv & H4 & H2). set (v3 := if truth ip then _ else _) in *. clearbody v3.
  unfold stun_attr_get_change_request_str. rewrite (holds_len _ _ _ _ Hh). cpp_simpl.
  change (zlen _ =? 4) with true. cbv iota. rewrite (holds_value _ _ _ _ Hh). cpp_simpl.
  change (zlen _ <? 1) with false. cbv iota. rewrite (holds_rd8 _ _ _ _ [0; 0; 0] v3 [] _ Hh) by done.
  cpp_simpl. by rewrite H4, H2.
Qed.

Lemma holds_response_port p :
  attr_holds buf a t (channel_value p) -> 0 <= p < 65536 -> stun_attr_get_response_port_str buf (Some a) = Some p.
Proof using All.
  intros Hh Hp. unfold stun_attr_get_response_port_str.
  rewrite (holds_len _ _ _ _ Hh), (holds_value _ _ _ _ Hh), zlen_channel_value. cpp_simpl.
  change (2 <=? 4) with true. change (4 <? 1) with false. cbv iota.
  apply (holds_ldn16 _ a _ _ [] p [0; 0] _ Hb Hh); try done. rewrite zlen_nil. lia.
Qed.

Lemma holds_padding n :
  attr_holds buf a t (replicate (Z.to_nat n) 0) -> 0 <= n < 65536 -> stun_attr_get_padding_len_str buf (Some a) = Some n.
Proof using All.
  intros Hh Hn. unfold stun_attr_get_padding_len_str. rewrite (holds_len _ _ _ _ Hh), zlen_replicate by lia. cpp_simpl.
  destruct (Z.ltb_spec n 0); [lia|]. by rewrite u16_small.
Qed.
End getters.

(** ** The derived classes *)


#[export] Instance ChannelNumber_laws : AttributeLaws StunAttrChannelNumber.
Proof.
  refine {|
    attr_read := ChannelNumber_of;
    attr_val a := channel_value (_cn a);
    attr_good a := _attr_type (cn_base a) = STUN_ATTRIBUTE_CHANNEL_NUMBER /\ STUN_VALID_CHANNEL (_cn a) = true;
    attr_reads_as a a' := _cn a' = _cn a;
  |}.
  - intros a [E _]. cbn [as_attr ChannelNumber_attribute]. by rewrite E.
  - intros a _. rewrite zlen_channel_value. split; [apply bytes_channel_value|done].
  - intros a b m [E _] Hr Hroom. cbn [as_attr addToBuffer ChannelNumber_attribute] in *. unfold ChannelNumber_addToBuffer. rewrite E, add_channel_number_eq.
    by apply add_call; try apply bytes_channel_value.
  - intros buf sz p a Hb [E Hc] Hh. cbn [as_attr ChannelNumber_attribute] in *. rewrite E in *.
    assert (0 <= _cn a < 65536) by (unfold STUN_VALID_CHANNEL in Hc; zbool; lia).
    unfold ChannelNumber_of. rewrite (base_of_holds _ _ _ _ _ Hh) by (done || by rewrite zlen_channel_value).
    cpp_simpl. cbn [_sar]. rewrite (holds_channel_number _ _ _ _ Hb Hh), Hc by done. cpp_simpl.
    destruct (Z.eqb_spec (_cn a) 0) as [E0|]; [by rewrite E0 in Hc|]. by eexists.
Defined.

#[export] Instance EvenPort_laws : AttributeLaws StunAttrEvenPort.
Proof.
  refine {|
    attr_read := EvenPort_of;
    attr_val a := [_ep a];
    attr_good a := _attr_type (ep_base a) = STUN_ATTRIBUTE_EVEN_PORT /\ 0 <= _ep a < 256;
    attr_reads_as a a' := _ep a' = b2z (0x7F <? _ep a);
  |}.
  - intros a [E _]. cbn [as_attr EvenPort_attribute]. by rewrite E.
  - intros a [_ Hv]. split; [by constructor|done].
  - intros a b m [E Hv] Hr Hroom. cbn [as_attr addToBuffer EvenPort_attribute] in *. unfold EvenPort_addToBuffer. rewrite E. apply add_call; try done. by constructor.
  - intros buf sz p a Hb [E Hv] Hh. cbn [as_attr EvenPort_attribute] in *. rewrite E in *. unfold EvenPort_of.
    rewrite (base_of_holds _ _ _ _ _ Hh) by done. cpp_simpl. cbn [_sar].
    rewrite (holds_even_port _ _ _ Hb _ Hh). cpp_simpl. by eexists.
Defined.

#[export] Instance ReservationToken_laws : AttributeLaws StunAttrReservationToken.
Proof.
  refine {|
    attr_read := ReservationToken_of;
    attr_val a := be_split 8 (_rt a);
    attr_good a := _attr_type (rt_base a) = STUN_ATTRIBUTE_RESERVATION_TOKEN /\ 0 <= _rt a < 18446744073709551616;
    attr_reads_as a a' := _rt a' = _rt a;
  |}.
  - intros a [E _]. cbn [as_attr ReservationToken_attribute]. by rewrite E.
  - intros a [_ Hv]. rewrite zlen_be_split. split; [apply bytes_be_split|done].
  - intros a b m [E Hv] Hr Hroom. cbn [as_attr addToBuffer ReservationToken_attribute] in *. unfold ReservationToken_addToBuffer. rewrite E. rewrite _ioa_ntoh64_nswap64. cpp_simpl.
    unfold nswap64. rewrite le_split_nswap. by apply add_call; try apply bytes_be_split.
  - intros buf sz p a Hb [E Hv] Hh. cbn [as_attr ReservationToken_attribute] in *. rewrite E in *. unfold ReservationToken_of.
    rewrite (base_of_holds _ _ _ _ _ Hh) by (done || by rewrite zlen_be_split). cpp_simpl. cbn [_sar].
    rewrite (holds_reservation_token _ _ _ Hb _ Hh) by done. cpp_simpl. by eexists.
Defined.

#[export] Instance ResponsePort_laws : AttributeLaws StunAttrResponsePort.
Proof.
  refine {|
    attr_read := ResponsePort_of;
    attr_val a := channel_value (_rp a);
    attr_good a := _attr_type (rp_base a) = STUN_ATTRIBUTE_RESPONSE_PORT /\ 0 <= _rp a < 65536;
    attr_reads_as a a' := _rp a' = _rp a;
  |}.
  - intros a [E _]. cbn [as_attr ResponsePort_attribute]. by rewrite E.
  - intros a [_ Hv]. rewrite zlen_channel_value. split; [apply bytes_channel_value|done].
  - intros a b m [E Hv] Hr Hroom. cbn [as_attr addToBuffer ResponsePort_attribute] in *. unfold ResponsePort_addToBuffer. rewrite E. unfold stun_attr_add_response_port_str, nswap16.
    rewrite le_split_nswap. by apply add_call; try apply bytes_channel_value.
  - intros buf sz p a Hb [E Hv] Hh. cbn [as_attr ResponsePort_attribute] in *. rewrite E in *. unfold ResponsePort_of.
    rewrite (base_of_holds _ _ _ _ _ Hh) by (done || by rewrite zlen_channel_value). cpp_simpl. cbn [_sar].
    rewrite (holds_response_port _ _ _ Hb _ Hh) by done. cpp_simpl. destruct (Z.ltb_spec (_rp a) 0); [lia|]. cpp_simpl.
    rewrite u16_small by done. by eexists.
Defined.

(** The last byte of a CHANGE-REQUEST. *)
Definition change_flags (ip port : Z) : Z :=
  if truth ip then (if truth port then 0x06 else 0x04) else if truth port then 0x02 else 0.

#[export] Instance ChangeRequest_laws : AttributeLaws StunAttrChangeRequest.
Proof.
  refine {|
    attr_read := ChangeRequest_of;
    attr_val a := [0; 0; 0; change_flags (_changeIp a) (_changePort a)];
    attr_good a := _attr_type (cr_base a) = STUN_ATTRIBUTE_CHANGE_REQUEST;
    attr_reads_as a a' := getChangeIp a' = getChangeIp a /\ getChangePort a' = getChangePort a;
  |}.
  - intros a E. cbn [as_attr ChangeRequest_attribute]. by rewrite E.
  - intros a _. split; [|done]. unfold change_flags. destruct (truth _), (truth _); by apply bytes_concrete.
  - intros a b m E Hr Hroom. cbn [as_attr addToBuffer ChangeRequest_attribute] in *. unfold ChangeRequest_addToBuffer. rewrite E.
    apply add_call; try done. unfold change_flags. destruct (truth _), (truth _); by apply bytes_concrete.
  - intros buf sz p a Hb E Hh. cbn [as_attr ChangeRequest_attribute] in *. rewrite E in *. unfold ChangeRequest_of.
    rewrite (base_of_holds _ _ _ _ _ Hh) by done. cpp_simpl. cbn [_sar].
    rewrite (holds_change_request _ _ _ Hb _ _ _ _ Hh). cpp_simpl. eexists. split; [done|]. split; [|done].
    unfold getChangeIp, getChangePort. cbn [_changeIp _changePort]. by destruct (truth (_changeIp a)), (truth (_changePort a)).
Defined.

#[export] Instance Padding_laws `{Locals} : AttributeLaws StunAttrPadding.
Proof.
  refine {|
    attr_read := Padding_of;
    attr_val a := replicate (Z.to_nat (_p a)) 0;
    attr_good a := _attr_type (pd_base a) = STUN_ATTRIBUTE_PADDING /\ 0 <= _p a < 65535;
    attr_reads_as a a' := _p a' = _p a;
  |}.
  - intros a [E _]. cbn [as_attr Padding_attribute]. by rewrite E.
  - intros a [_ Hp]. rewrite zlen_replicate by lia. split; [apply bytes_replicate0|lia].
  - intros a b m [E Hp] Hr Hroom. cbn [as_attr addToBuffer Padding_attribute] in *. unfold Padding_addToBuffer. rewrite E.
    unfold stun_attr_add_padding_str. apply add_call; try done; [|apply bytes_replicate0|lia].
    cbn [c_attr_value]. destruct (Z.leb_spec (_p a) 0).
    + by replace (_p a) with 0 by lia.
    + unfold rd_block. rewrite zlen_app, zlen_replicate by lia. pose proof (zlen_nonneg stack_bytes).
      case_if; [|rewrite !andb_false_iff, !Z.leb_gt in *; lia]. change (Z.to_nat 0) with 0%nat.
      by rewrite drop_0, take_app_length' by (rewrite length_replicate; lia).
  - intros buf sz p a Hb [E Hp] Hh. cbn [as_attr Padding_attribute] in *. rewrite E in *. unfold Padding_of.
    rewrite (base_of_holds _ _ _ _ _ Hh) by (done || rewrite zlen_replicate; lia). cpp_simpl. cbn [_sar].
    rewrite (holds_padding _ _ _ Hb _ Hh) by lia. cpp_simpl. destruct (Z.ltb_spec (_p a) 0); [lia|]. cpp_simpl.
    rewrite u16_small by lia. by eexists.
Defined.

(** * Address attributes *)

(** The address a reader of the XORed IPv6 address [a] gets: the constructor takes its
    transaction id from the value itself, so the last twelve bytes cancel. *)
Definition first_word (a : ioa_addr) : ioa_addr := set_sin6_addr a (take 4 (sin6_addr a) ++ replicate 12 0).

Lemma xor_bytes_zero l : length l = 12%nat -> xor_bytes (replicate 12 0) l = l.
Proof. do 13 (destruct l as [|? l]; try done). Qed.

Lemma addr_value_any_tid a x mc tid tid' :
  x && (sa_family a =? AF_INET6) = false -> addr_value a x mc tid = addr_value a x mc tid'.
Proof. unfold addr_value. destruct x, (sa_family a =? AF_INET6); done. Qed.

Lemma first_word_ok a : addr_ok a -> addr_ok (first_word a).
Proof.
  intros [H1 H2 H3 H4 H5]. split; cbn [first_word set_sin6_addr sa_family sin_port s_addr sin6_addr]; try done.
  - apply bytes_app. split; [by apply bytes_take|apply bytes_replicate0].
  - rewrite length_app, length_take, length_replicate. lia.
Qed.

(** The value as an encoding with its own bytes as transaction id. *)
Lemma addr_value_own_tid a mc tid :
  addr_ok a -> sa_family a = AF_INET6 -> length tid = 12%nat ->
  let tid' := xor_bytes (drop 4 (sin6_addr a)) tid in
  length tid' = 12%nat /\ addr_value a true mc tid = addr_value (first_word a) true mc tid' /\
  drop 8 (addr_value a true mc tid) = tid'.
Proof.
  intros Ha Hf Ht tid'. pose proof (ok_len6 a Ha) as H6.
  assert (length tid' = 12%nat) as Hl by (unfold tid'; rewrite length_xor_bytes; rewrite length_drop; lia).
  unfold addr_value, first_word. cbn [set_sin6_addr sa_family sin_port sin6_addr]. rewrite Hf, Z.eqb_refl.
  assert (length (take 4 (sin6_addr a)) = 4%nat) as H4 by (rewrite length_take; lia).
  rewrite take_app_length', drop_app_length' by lia. fold tid'.
  rewrite xor_bytes_zero by done. split; [done|]. split; [done|]. rewrite !app_assoc. apply drop_app_length'.
  rewrite !length_app, length_xor_bytes, length_le_split, H4; [done|]. by rewrite H4, length_le_split.
Qed.

(** What [stun_addr_decode] makes of a value when the transaction id is read from it. *)
Definition read_back (xor_ed : bool) (a : ioa_addr) : ioa_addr :=
  if xor_ed && (sa_family a =? AF_INET6) then first_word a else a.

Lemma decode_own_tid a a0 cf x mc tid tid' :
  addr_ok a -> encodable a -> bytes tid -> length tid = 12%nat ->
  rd_block cf 0 (addr_clen a) = Some (addr_value a x mc tid) -> bytes cf -> rd_block cf 8 12 = Some tid' ->
  stun_addr_decode (Some a0) (Some cf) (addr_clen a) x mc (Some tid') = Some (0, Some (decoded (read_back x a) a0)).
Proof.
  intros Ha He Hb Ht Hv Hcf Ht'. pose proof (rd_block_bytes _ _ _ _ Hcf Ht') as Hb'.
  pose proof (rd_block_zlen _ _ _ _ Ht') as Hl'. assert (length tid' = 12%nat) as Hl by (unfold zlen in Hl'; lia).
  unfold read_back. destruct (x && (sa_family a =? AF_INET6)) eqn:E.
  - apply andb_true_iff in E as [-> E]. zbool. destruct (addr_value_own_tid a mc tid Ha E Ht) as (Hl2 & Hv2 & Hd).
    assert (tid' = xor_bytes (drop 4 (sin6_addr a)) tid) as Et.
    { pose proof Hv as Hv'. unfold addr_clen in Hv'. rewrite E, Z.eqb_refl in Hv'.
      apply (rd_block_split cf 0 8 12) in Hv' as [_ Hv']; [|lia..]. change (0 + 8) with 8 in Hv'. rewrite Ht' in Hv'.
      injection Hv' as ->. exact Hd. }
    rewrite Hv2, <- Et in Hv. apply (stun_addr_decode_value (first_word a)); try done.
    by apply first_word_ok.
  - rewrite (addr_value_any_tid a x mc tid tid' E) in Hv. by apply stun_addr_decode_value.
Qed.

Lemma maps_lookup maps l a : maps_repr maps l -> map_addr_from_public_to_private maps a = Some (lookup_addr l a).
Proof. intros H. by destruct (map_addr_spec maps l a H) as [-> _]. Qed.

(** The constructor of [StunAttrAddr] on an attribute that a sender wrote for [pub] under the
    transaction id [tid].  It reads the transaction id 8 bytes into the value, so it reads past
    the buffer when fewer than 20 bytes follow the attribute's header, as they do for an IPv4
    address that ends a buffer of the message's size.  Otherwise the address is read back, but
    of a XORed IPv6 address only the first four bytes, the other twelve being 0. *)
Theorem StunAttrAddr_of_exact `{Locals} l buf sz p t pub tid :
  maps_repr address_map l -> bytes buf -> 0 < t < 65536 -> addr_ok pub -> encodable pub ->
  bytes tid -> length tid = 12%nat ->
  attr_holds buf p t (addr_value pub (xor_attr t) STUN_MAGIC_COOKIE tid) ->
  Addr_of buf (Iterator sz (Some p)) =
    if zlen buf <? p + 24 then Undefined
    else Done (AddrAttr (object_of (t, addr_value pub (xor_attr t) STUN_MAGIC_COOKIE tid))
                        (lookup_addr l (decoded (read_back (xor_attr t) pub) addr_zero))).
Proof.
  intros Hm Hb Ht Hok He Htb Htl Hh. assert (zlen (addr_value pub (xor_attr t) STUN_MAGIC_COOKIE tid) = addr_clen pub) as Hz
    by by apply zlen_addr_value.
  assert (8 <= addr_clen pub <= 20) as Hc by (unfold addr_clen; case_if; lia).
  pose proof (holds_block _ _ _ _ Hh) as Hblk. rewrite Hz in Hblk. pose proof (rd_block_bounds _ _ _ _ Hblk) as Hbd.
  unfold Addr_of. rewrite (base_of_holds _ _ _ _ _ Hh) by (rewrite ?Hz; lia). cpp_simpl.
  unfold getRawBuffer. cbn [_sar]. rewrite (holds_len _ _ _ _ Hh), (holds_value _ _ _ _ Hh), Hz. cpp_simpl.
  destruct (Z.ltb_spec (addr_clen pub) 0); [lia|]. destruct (Z.ltb_spec (addr_clen pub) 1); [lia|]. cpp_simpl.
  rewrite ptr_add_ok by lia. cpp_simpl. set (cf := drop (Z.to_nat (p + 4)) buf).
  assert (zlen cf = zlen buf - (p + 4)) as Hzc by (apply zlen_drop; lia).
  unfold stun_tid_from_message_str, stun_tid_from_string, STUN_TID_SIZE.
  destruct (Z.ltb_spec (zlen buf) (p + 24)).
  - destruct (rd_block cf 8 12) eqn:E; [|done]. apply rd_block_bounds in E. lia.
  - destruct (rd_block cf 8 12) as [tid'|] eqn:E; [|rewrite rd_block_ok in E by lia; done]. cbn [mbind option_bind].
    pose proof (rd_block_zlen _ _ _ _ E) as Hl. rewrite wr_block_full by (rewrite Hl; done). cpp_simpl.
    unfold get_addr_with. rewrite (holds_type _ _ _ _ Hh), (holds_value _ _ _ _ Hh), (holds_len _ _ _ _ Hh), Hz.
    cbn [mbind option_bind]. destruct (Z.ltb_spec t 0); [lia|]. destruct (Z.ltb_spec (addr_clen pub) 1); [lia|].
    rewrite ptr_add_ok by lia. cbn [mbind option_bind]. fold cf.
    assert (rd_block cf 0 (addr_clen pub) = Some (addr_value pub (xor_attr t) STUN_MAGIC_COOKIE tid)) as Hcf.
    { apply rd_block_Some in Hblk as (? & ? & ? & ->). apply rd_block_Some. change (Z.to_nat 0) with 0%nat.
      rewrite drop_0. repeat split; lia || done. }
    rewrite (decode_own_tid pub addr_zero cf _ _ tid tid' Hok He Htb Htl Hcf (bytes_drop _ _ Hb) E).
    cbn [mbind option_bind Z.ltb Z.compare]. rewrite (maps_lookup _ l) by done. by cpp_simpl.
Qed.

(** * Concrete messages *)

(** USERNAME "ABC" and CHANNEL-NUMBER 0x4001. *)
Definition two_attrs : list (Z * list Z) := [(6, [65; 66; 67]); (12, [0x40; 1; 0; 0])].
Definition two_buf : sbuf :=
  SBuf (header_bytes 1 16 STUN_MAGIC_COOKIE sample_tid ++ [0; 6; 0; 3; 65; 66; 67; 0; 0; 12; 0; 4; 0x40; 1; 0; 0]) 36.
Definition two_msg : stun_msg := StunMsg 1 STUN_MAGIC_COOKIE sample_tid two_attrs.

Lemma two_repr : repr two_buf two_msg.
Proof. split; try done. by apply bytes_concrete. Qed.

Lemma StunAttrIterator_refines_witness :
  (exists it, iterate (Some (sb_mem two_buf)) 36 = Done it /\
              iterates (sb_mem two_buf) it [Attr 6 (Some [65; 66; 67]) 3; Attr 12 (Some [0x40; 1; 0; 0]) 4]) /\
  (exists it, iterate_type (Some (sb_mem two_buf)) 36 12 = Done it /\
              iterates (sb_mem two_buf) it [Attr 12 (Some [0x40; 1; 0; 0]) 4]).
Proof. apply (StunAttrIterator_refines two_buf two_msg 12 two_repr); reflexivity. Defined.

(** The length 12 of the last attribute passes the end. *)
Lemma StunAttrIterator_safe_witness :
  let buf := header_bytes 1 8 STUN_MAGIC_COOKIE sample_tid ++ [0; 6; 0; 12; 65; 66; 67; 0] in
  starts buf 28 (iterate (Some buf) 28) /\ starts buf 24 (iterate (Some buf) 24).
Proof.
  intros buf. assert (bytes buf) as Hb by by apply bytes_concrete.
  split; refine (proj1 (StunAttrIterator_safe buf _ 6 Hb _)); by vm_compute.
Defined.

#[local] Instance sample_locals : Locals := {| address_map := addr_maps_init; stack_bytes := [] |}.

(** 2001:db8::1 port 80, XORed, as the last attribute of the message. *)
Definition v6_sample : ioa_addr :=
  IoaAddr AF_INET6 (nswap16 80) 0 [0x20; 1; 0x0d; 0xb8; 0; 0; 0; 0; 0; 0; 0; 0; 0; 0; 0; 1] 0.
Definition v6_buf : list Z :=
  header_bytes 0x101 24 STUN_MAGIC_COOKIE sample_tid ++ [0; 0x20; 0; 20] ++ addr_value v6_sample true STUN_MAGIC_COOKIE sample_tid.

Lemma v6_ok : addr_ok v6_sample.
Proof. split; try done. by apply bytes_concrete. Qed.

Lemma StunAttrAddr_of_exact_witness :
  exists a, Addr_of v6_buf (Iterator 44 (Some 20)) = Done a /\
  sin6_addr (_addr a) = [0x20; 1; 0x0d; 0xb8] ++ replicate 12 0.
Proof.
  eexists. split.
  - rewrite (StunAttrAddr_of_exact [] v6_buf 44 20 0x20 v6_sample sample_tid); [reflexivity|..].
    + apply maps_repr_init.
    + by apply bytes_concrete.
    + lia.
    + exact v6_ok.
    + left. by right.
    + by apply bytes_concrete.
    + reflexivity.
    + split; [reflexivity..|lia].
  - reflexivity.
Defined.
