(* ===== verification/TurnMsg.v ===== *)
(** The message classes of [client++/TurnMsgLib.h]: the base class [StunMsg], here
    [StunMsgBase], and requests, responses, indications and channel messages.

    A constructor on a buffer shares the caller's memory: the object's buffer is that
    memory, and what a method writes to it is in the object it returns. *)

From S2P Require Import Prelude Defs CString IoAddr MsgAddr StunHeader StunAttr StunMsg Crypto Integrity TurnAttr.

(** * StunMsg *)

Record StunMsgBase : Type := MsgBase {
  _buffer : option (list Z);
  _deallocate : bool;
  _allocated_sz : Z;
  _size : Z;
  _constructed : bool;
}.

(** [malloc] of 65535 bytes, whose contents are [heap]. *)
Definition new_StunMsg (heap : list Z) : StunMsgBase := MsgBase (Some heap) true 0xFFFF 0 false.
Definition StunMsg_on (buffer : option (list Z)) (total_sz sz : Z) (constructed : bool) : StunMsgBase :=
  MsgBase buffer false total_sz sz constructed.

(** What a C function leaves in the buffer and in [_sz]. *)
Definition set_bytes (m : StunMsgBase) (b : list Z) : StunMsgBase :=
  MsgBase (Some b) (_deallocate m) (_allocated_sz m) (_size m) (_constructed m).
Definition set_message (m : StunMsgBase) (b : sbuf) : StunMsgBase :=
  MsgBase (Some (sb_mem b)) (_deallocate m) (_allocated_sz m) (sb_len b) (_constructed m).
Definition set_constructed (m : StunMsgBase) : StunMsgBase :=
  MsgBase (_buffer m) (_deallocate m) (_allocated_sz m) (_size m) true.
Definition set_sz (m : StunMsgBase) (sz : Z) : StunMsgBase :=
  MsgBase (_buffer m) (_deallocate m) (_allocated_sz m) sz (_constructed m).

(** The arguments [_buffer, &_sz] of a C function that does not test for NULL. *)
Definition message (m : StunMsgBase) : cpp sbuf := b ← call (_buffer m); mret (SBuf b (_size m)).

Definition setSize (m : StunMsgBase) (sz : Z) : cpp StunMsgBase :=
  throw_if (_allocated_sz m <? sz) WrongStunBufferFormatException;;
  mret (set_sz m sz).

Definition isCommand (m : StunMsgBase) : cpp bool := call (stun_is_command_message_str (_buffer m) (_size m)).

Definition isFingerprintPresent (buffer : list Z) (sz : Z) : cpp bool :=
  b ← call (stun_is_command_message_str (Some buffer) sz);
  if negb (b : bool) then mret false else
  sar ← call (stun_attr_get_first_by_type_str buffer sz STUN_ATTRIBUTE_FINGERPRINT);
  mret (match sar with None => false | Some _ => true end).

Definition checkFingerprint (buffer : list Z) (sz : Z) : cpp bool :=
  '(b, _) ← call (stun_is_command_message_full_check_str buffer sz true None);
  mret b.

(** [attr.addToMsg] of the message.  The buffer is written before [setSize] looks at its size:
    the result is the message and the exception thrown by then, if any. *)
Definition addToMsg `{Attribute A} (a : A) (m : StunMsgBase) : cpp (StunMsgBase * option exception) :=
  throw_if (_attr_type (as_attr a) =? 0) WrongStunAttrFormatException;;
  match _buffer m with
  | None => Throw WrongStunBufferFormatException
  | Some buffer =>
    '(r, b) ← addToBuffer a (SBuf buffer (_size m));
    let m := set_bytes m (sb_mem b) in
    if r <? 0 then mret (m, Some WrongStunBufferFormatException) else
    match setSize m (sb_len b) with
    | Done m => mret (m, None)
    | Throw x => mret (m, Some x)
    | Undefined => Undefined
    end
  end.

Definition addAttr `{Attribute A} (m : StunMsgBase) (a : A) : cpp (StunMsgBase * option exception) := addToMsg a m.

(** [if(!_constructed || !isCommand()) throw WrongStunBufferFormatException();] *)
Definition need_command (m : StunMsgBase) : cpp unit :=
  if negb (_constructed m) then Throw WrongStunBufferFormatException else
  b ← isCommand m; throw_if (negb b) WrongStunBufferFormatException.

Definition getTid (m : StunMsgBase) : cpp (list Z) :=
  need_command m;;
  b ← message m;
  tid ← call (stun_tid_from_message_str (sb_mem b) (sb_len b) (Some (replicate 12 0)));
  call tid.

Definition setTid (m : StunMsgBase) (tid : list Z) : cpp StunMsgBase :=
  need_command m;;
  b ← message m;
  b ← call (stun_tid_message_cpy (sb_mem b) (Some tid));
  mret (set_bytes m b).

Definition addFingerprint (m : StunMsgBase) : cpp StunMsgBase :=
  need_command m;;
  b ← message m;
  '(_, b) ← call (stun_attr_add_fingerprint_str b);
  mret (set_message m b).

(** [strdup(s.c_str())] of a [std::string] with the characters [s]. *)
Definition strdup (s : list Z) : cpp (list Z) := s ← call (c_str (cstring s)); mret (cstring s).

Section integrity.
Context `{C : Crypto}.

(** [key0], [pwd0], [new_hmac], [p], [junk], [j]: uninitialised locals of the C functions. *)
Definition checkMessageIntegrity (m : StunMsgBase) (ct : turn_credential_type) (uname realm upwd : list Z)
    (key0 pwd0 new_hmac : list Z) (j : Z) : cpp (bool * StunMsgBase) :=
  need_command m;;
  suname ← strdup uname;
  srealm ← strdup realm;
  supwd ← strdup upwd;
  b ← message m;
  '(r, b) ← call (stun_check_message_integrity_str ct (sb_mem b) (sb_len b) suname srealm supwd SHATYPE_SHA1 key0 pwd0 new_hmac j);
  mret (0 <? r, set_bytes m b).

Definition addLTMessageIntegrity (m : StunMsgBase) (uname realm upwd nonce : list Z) (key0 p junk : list Z) (j : Z)
    : cpp StunMsgBase :=
  need_command m;;
  suname ← strdup uname;
  srealm ← strdup realm;
  supwd ← strdup upwd;
  snonce ← strdup nonce;
  b ← message m;
  '(_, b) ← call (stun_attr_add_integrity_by_user_str b suname srealm supwd snonce SHATYPE_SHA1 key0 p junk j);
  mret (set_message m b).

Definition addSTMessageIntegrity (m : StunMsgBase) (uname upwd : list Z) (key0 junk : list Z) : cpp StunMsgBase :=
  need_command m;;
  suname ← strdup uname;
  supwd ← strdup upwd;
  b ← message m;
  '(_, b) ← call (stun_attr_add_integrity_by_user_short_term_str b suname supwd SHATYPE_SHA1 key0 junk);
  mret (set_message m b).
End integrity.

(** The virtual members; [e] is the random source of the transaction id. *)
Class Message (M : Type) : Type := {
  as_msg : M -> StunMsgBase;
  constructBuffer : M -> entropy -> cpp M;
  check : M -> cpp (bool * M);
}.

Definition construct `{Message M} : M -> entropy -> cpp M := constructBuffer.
Definition isValid `{Message M} : M -> cpp (bool * M) := check.

(** * StunMsgRequest *)

Record StunMsgRequest : Type := Request_ { rq_msg : StunMsgBase; rq_method : Z }.

Definition new_Request (heap : list Z) (method : Z) : StunMsgRequest := Request_ (new_StunMsg heap) method.

Definition Request_setMethod (r : StunMsgRequest) (method : Z) : StunMsgRequest := Request_ (rq_msg r) method.

(** The constructors on a buffer: it holds a message of the class, whose method is read. *)
Definition method_on (buffer : option (list Z)) (sz : Z) (constructed : bool)
    (is_class : option (list Z) -> Z -> option bool) : cpp Z :=
  if constructed then
    b ← call (is_class buffer sz);
    throw_if (negb b) WrongStunBufferFormatException;;
    call (stun_get_method_str buffer sz)
  else mret 0.

Definition Request_on (buffer : option (list Z)) (total_sz sz : Z) (constructed : bool) : cpp StunMsgRequest :=
  method ← method_on buffer sz constructed stun_is_request_str;
  mret (Request_ (StunMsg_on buffer total_sz sz constructed) method).

Definition set_rq (r : StunMsgRequest) (b : sbuf) : StunMsgRequest := Request_ (set_message (rq_msg r) b) (rq_method r).

Definition constructBindingRequest (r : StunMsgRequest) (e : entropy) : cpp StunMsgRequest :=
  b ← message (rq_msg r);
  b ← call (stun_set_binding_request_str b e);
  mret (set_rq r b).

Definition isBindingRequest (r : StunMsgRequest) : cpp bool :=
  b ← message (rq_msg r);
  call (stun_is_binding_request_str (sb_mem b) (sb_len b) 0).

Definition constructAllocateRequest (r : StunMsgRequest) (lifetime : Z) (af4 af6 : bool) (transport : Z) (mobile : bool)
    (rt : option (list Z)) (ep : Z) (e : entropy) : cpp StunMsgRequest :=
  b ← message (rq_msg r);
  '(_, b) ← call (stun_set_allocate_request_str b lifetime af4 af6 transport mobile rt ep e);
  mret (set_rq r b).

Definition constructChannelBindRequest `{Locals} (r : StunMsgRequest) (peer_addr : ioa_addr) (channel_number : Z) (er e : entropy)
    : cpp StunMsgRequest :=
  b ← message (rq_msg r);
  '(_, b) ← call (stun_set_channel_bind_request_str address_map b (Some peer_addr) channel_number er e);
  mret (set_rq r b).

(** [_method == stun_get_method_str(_buffer,_sz)] of a message of the class. *)
Definition check_class (m : StunMsgBase) (method : Z) (is_class : option (list Z) -> Z -> option bool) : cpp bool :=
  if negb (_constructed m) then mret false else
  b ← call (is_class (_buffer m) (_size m));
  if negb (b : bool) then mret false else
  n ← call (stun_get_method_str (_buffer m) (_size m));
  mret (method =? n).

Definition Request_constructBuffer (r : StunMsgRequest) (e : entropy) : cpp StunMsgRequest :=
  b ← message (rq_msg r);
  b ← call (stun_init_request_str (rq_method r) b e);
  mret (Request_ (set_constructed (set_message (rq_msg r) b)) (rq_method r)).

Definition Request_check (r : StunMsgRequest) : cpp bool := check_class (rq_msg r) (rq_method r) stun_is_request_str.

#[export] Instance Request_message : Message StunMsgRequest := {
  as_msg := rq_msg;
  constructBuffer := Request_constructBuffer;
  check r := b ← Request_check r; mret (b, r);
}.

(** * StunMsgResponse *)

Record StunMsgResponse : Type := Response_ {
  rs_msg : StunMsgBase;
  rs_method : Z;
  _err : Z;
  _reason : list Z;
  _tid : list Z;
}.

Definition new_Response (heap : list Z) (method error_code : Z) (reason tid : list Z) : StunMsgResponse :=
  Response_ (new_StunMsg heap) method error_code reason tid.

(** [errtxt]: the local array, and [tid0] the field, before they are written. *)
Definition Response_on (buffer : option (list Z)) (total_sz sz : Z) (constructed : bool) (errtxt tid0 : list Z)
    : cpp StunMsgResponse :=
  let m := StunMsg_on buffer total_sz sz constructed in
  if constructed then
    success ← call (stun_is_success_response_str buffer sz);
    '(err, reason) ←
      (if (success : bool) then mret (0, []) else
       b ← message m;
       '(is_error, err, txt) ← call (stun_is_error_response_str (sb_mem b) sz (Some 0) (Some errtxt) 0xFFFF);
       throw_if (negb is_error) WrongStunBufferFormatException;;
       err ← call err;
       reason ← call (t ← txt; c_str t);
       mret (err, reason));
    method ← call (stun_get_method_str buffer sz);
    b ← message m;
    tid ← call (t ← stun_tid_from_message_str (sb_mem b) sz (Some tid0); t);
    mret (Response_ m method err reason tid)
  else mret (Response_ m 0 0 [] tid0).

Definition Response_setMethod (r : StunMsgResponse) (method : Z) : StunMsgResponse :=
  Response_ (rs_msg r) method (_err r) (_reason r) (_tid r).
Definition setError (r : StunMsgResponse) (err : Z) : StunMsgResponse :=
  Response_ (rs_msg r) (rs_method r) err (_reason r) (_tid r).
Definition setReason (r : StunMsgResponse) (reason : list Z) : StunMsgResponse :=
  Response_ (rs_msg r) (rs_method r) (_err r) reason (_tid r).
Definition Response_setTid (r : StunMsgResponse) (tid : list Z) : StunMsgResponse :=
  Response_ (rs_msg r) (rs_method r) (_err r) (_reason r) tid.

Definition set_rs (r : StunMsgResponse) (b : sbuf) : StunMsgResponse :=
  Response_ (set_message (rs_msg r) b) (rs_method r) (_err r) (_reason r) (_tid r).

(** Result: the verdict, the realm and the nonce.  The arrays [err_msg], [srealm] and
    [snonce] are locals. *)
Definition isChallenge (r : StunMsgResponse) (realm nonce : list Z) (err_code : Z) (err_msg srealm snonce : list Z)
    : cpp (bool * list Z * list Z) :=
  if _constructed (rs_msg r) then
    b ← message (rs_msg r);
    '(ret, c) ← call (stun_is_challenge_response_str (sb_mem b) (sb_len b) 1025
                        (Challenge (Some err_code) (Some err_msg) srealm snonce None None));
    if (ret : bool) then
      realm ← call (c_str (ch_realm c));
      nonce ← call (c_str (ch_nonce c));
      mret (true, realm, nonce)
    else mret (false, realm, nonce)
  else mret (false, realm, nonce).

Definition isSuccess (r : StunMsgResponse) : bool := _err r =? 0.

Definition constructBindingResponse `{Locals} (r : StunMsgResponse) (tid : list Z) (reflexive_addr : ioa_addr) (error_code : Z)
    (reason : option (list Z)) (e : entropy) : cpp StunMsgResponse :=
  b ← message (rs_msg r);
  '(_, b) ← call (stun_set_binding_response_str address_map b (Some tid) (Some reflexive_addr) error_code reason 0 false true e);
  mret (set_rs r b).

Definition isBindingResponse (r : StunMsgResponse) : cpp bool :=
  call (stun_is_binding_response_str (_buffer (rs_msg r)) (_size (rs_msg r))).

Definition constructAllocateResponse `{Locals} (r : StunMsgResponse) (tid : list Z) (relayed_addr1 relayed_addr2 reflexive_addr : ioa_addr)
    (lifetime error_code : Z) (reason : option (list Z)) (reservation_token : Z) (mobile_id : option (list Z)) (e : entropy)
    : cpp StunMsgResponse :=
  b ← message (rs_msg r);
  '(_, b) ← call (stun_set_allocate_response_str address_map b (Some tid) (Some relayed_addr1) (Some relayed_addr2)
                    (Some reflexive_addr) lifetime STUN_DEFAULT_MAX_ALLOCATE_LIFETIME error_code reason reservation_token
                    mobile_id e);
  mret (set_rs r b).

Definition constructChannelBindResponse (r : StunMsgResponse) (tid : list Z) (error_code : Z) (reason : option (list Z)) (e : entropy)
    : cpp StunMsgResponse :=
  b ← message (rs_msg r);
  b ← call (stun_set_channel_bind_response_str b (Some tid) error_code reason e);
  mret (set_rs r b).

(** A response that is neither a success nor an error of the code throws. *)
Definition Response_check (r : StunMsgResponse) (errtxt : list Z) : cpp bool :=
  let m := rs_msg r in
  if negb (_constructed m) then mret false else
  success ← call (stun_is_success_response_str (_buffer m) (_size m));
  (if (success : bool) then mret tt else
   b ← message m;
   '(is_error, cerr, _) ← call (stun_is_error_response_str (sb_mem b) (_size m) (Some 0) (Some errtxt) 0xFFFF);
   throw_if (negb is_error) WrongStunBufferFormatException;;
   cerr ← call cerr;
   throw_if (negb (cerr =? _err r)) WrongStunBufferFormatException);;
  n ← call (stun_get_method_str (_buffer m) (_size m));
  mret (rs_method r =? n).

Definition Response_constructBuffer (r : StunMsgResponse) (e : entropy) : cpp StunMsgResponse :=
  b ← message (rs_msg r);
  b ← call (if truth (_err r)
            then stun_init_error_response_str (rs_method r) b (u16 (_err r)) (Some (cstring (_reason r))) (Some (_tid r)) e
            else stun_init_success_response_str (rs_method r) b (Some (_tid r)) e);
  mret (Response_ (set_constructed (set_message (rs_msg r) b)) (rs_method r) (_err r) (_reason r) (_tid r)).

#[export] Instance Response_message `{Locals} : Message StunMsgResponse := {
  as_msg := rs_msg;
  constructBuffer := Response_constructBuffer;
  check r := b ← Response_check r stack_bytes; mret (b, r);
}.

(** * StunMsgIndication *)

Record StunMsgIndication : Type := Indication_ { in_msg : StunMsgBase; in_method : Z }.

Definition new_Indication (heap : list Z) (method : Z) : StunMsgIndication := Indication_ (new_StunMsg heap) method.

Definition Indication_setMethod (i : StunMsgIndication) (method : Z) : StunMsgIndication := Indication_ (in_msg i) method.

Definition Indication_on (buffer : option (list Z)) (total_sz sz : Z) (constructed : bool) : cpp StunMsgIndication :=
  method ← method_on buffer sz constructed stun_is_indication_str;
  mret (Indication_ (StunMsg_on buffer total_sz sz constructed) method).

Definition Indication_constructBuffer (r : StunMsgIndication) (e : entropy) : cpp StunMsgIndication :=
  b ← message (in_msg r);
  b ← call (stun_init_indication_str (in_method r) b e);
  mret (Indication_ (set_constructed (set_message (in_msg r) b)) (in_method r)).

Definition Indication_check (r : StunMsgIndication) : cpp bool := check_class (in_msg r) (in_method r) stun_is_indication_str.

#[export] Instance Indication_message : Message StunMsgIndication := {
  as_msg := in_msg;
  constructBuffer := Indication_constructBuffer;
  check r := b ← Indication_check r; mret (b, r);
}.

(** * StunMsgChannel *)

Record StunMsgChannel : Type := Channel_ { ch_msg : StunMsgBase; ch_cn : Z; _len : Z }.

(** The length is an [int] that becomes a [size_t]. *)
Definition new_Channel (heap : list Z) (cn length : Z) : StunMsgChannel := Channel_ (new_StunMsg heap) cn (u64 length).

Definition Channel_setChannelNumber (c : StunMsgChannel) (cn : Z) : StunMsgChannel := Channel_ (ch_msg c) cn (_len c).
Definition setLength (c : StunMsgChannel) (len : Z) : StunMsgChannel := Channel_ (ch_msg c) (ch_cn c) len.

(** The arguments of [stun_is_channel_message_str]: [_sz] and a channel number. *)
Definition channel_header (m : StunMsgBase) (cn : Z) : cpp (bool * Z * Z) :=
  b ← message m;
  '(ok, sz, cn) ← call (stun_is_channel_message_str (sb_mem b) (Some (sb_len b)) (Some cn) false);
  sz ← call sz;
  cn ← call cn;
  mret (ok, sz, cn).

Definition Channel_on (buffer : option (list Z)) (total_sz sz : Z) (constructed : bool) : cpp StunMsgChannel :=
  let m := StunMsg_on buffer total_sz sz constructed in
  if constructed then
    '(ok, sz, cn) ← channel_header m 0;
    throw_if (negb ok) WrongStunBufferFormatException;;
    throw_if ((0xFFFF <? sz) || (sz <? 4)) WrongStunBufferFormatException;;
    mret (Channel_ (set_sz m sz) cn (sz - 4))
  else
    throw_if ((0xFFFF <? total_sz) || (total_sz <? 4)) WrongStunBufferFormatException;;
    mret (Channel_ m 0 0).

(** The result of the initialisation is not looked at. *)
Definition Channel_constructBuffer (c : StunMsgChannel) (e : entropy) : cpp StunMsgChannel :=
  b ← message (ch_msg c);
  '(_, b) ← call (stun_init_channel_message_str (ch_cn c) b (to_i32 (_len c)) false);
  mret (Channel_ (set_constructed (set_message (ch_msg c) b)) (ch_cn c) (_len c)).

Definition Channel_check (c : StunMsgChannel) : cpp (bool * StunMsgChannel) :=
  if negb (_constructed (ch_msg c)) then mret (false, c) else
  '(ok, sz, cn) ← channel_header (ch_msg c) 0;
  let c := Channel_ (set_sz (ch_msg c) sz) (ch_cn c) (_len c) in
  mret (if negb (ok : bool) then false else ch_cn c =? cn, c).

#[export] Instance Channel_message : Message StunMsgChannel := {
  as_msg := ch_msg;
  constructBuffer := Channel_constructBuffer;
  check := Channel_check;
}.
