(* ===== verification/TurnMsgSpec.v ===== *)
(** What the message classes of [client++/TurnMsgLib.h] do: attribute objects through a
    message, the construction of each class of message and its reading by the constructors
    on a buffer, transaction ids, fingerprints and credentials. *)

From S2P Require Import Prelude Defs CString IoAddr MsgAddr Crc StunHeader StunAttr StunSpec StunSearch StunMsg StunBuild StunReply Crypto Integrity IntegritySpec TurnAttr TurnAttrSpec TurnMsg.

(** The message object holds [m], in the buffer [b]. *)
Record holds_msg (M : StunMsgBase) (b : sbuf) (m : stun_msg) : Prop := HoldsMsg {
  holds_buffer : _buffer M = Some (sb_mem b);
  holds_size : _size M = sb_len b;
  holds_repr : repr b m;
}.

(** A request, response or indication. *)
Definition command (m : stun_msg) : Prop := m_type m < 0x4000 /\ m_cookie m = STUN_MAGIC_COOKIE.

Lemma message_holds M b m : holds_msg M b m -> message M = Done b.
Proof. intros [Hb Hs _]. unfold message. rewrite Hb, Hs. by destruct b. Qed.

Lemma message_new heap : message (new_StunMsg heap) = Done (SBuf heap 0).
Proof. done. Qed.

Lemma holds_set M b m : repr b m -> holds_msg (set_message M b) b m.
Proof. by split. Qed.

Lemma isCommand_holds M b m : holds_msg M b m -> command m -> isCommand M = Done true.
Proof.
  intros [Hb Hs Hr] [Ht Hc]. unfold isCommand. by rewrite Hb, Hs, (repr_is_command b m Hr Ht Hc).
Qed.

Lemma need_command_holds M b m :
  holds_msg M b m -> command m -> _constructed M = true -> need_command M = Done tt.
Proof. intros Hm Hc Hk. unfold need_command. rewrite Hk. cbn [negb]. by rewrite (isCommand_holds M b m). Qed.

(** * Attributes through messages *)

(** A buffer that holds a message of another size than it is said to have. *)
Lemma not_command_of_size b m n :
  repr b m -> n <= zlen (sb_mem b) -> n ≠ msg_size m ->
  stun_is_command_message_str (Some (sb_mem b)) n = Some false.
Proof.
  intros Hr Hn Hne. destruct (stun_is_command_message_spec (sb_mem b) n (repr_bytes _ _ Hr) Hn) as (v & -> & Hv).
  destruct v; [|done]. destruct (proj1 Hv eq_refl) as (_ & t & l & _ & _ & _ & Hl & _ & ->).
  rewrite (repr_size _ _ Hr) in Hl. injection Hl as <-. unfold STUN_HEADER_LENGTH in Hne. lia.
Qed.

(** A constructor on an iterator by type, at the attribute just appended. *)
Lemma iterate_added b m t v :
  repr b (add_attr m t v) -> command m -> find_attr t (m_attrs m) = None ->
  exists p, iterate_type (Some (sb_mem b)) (sb_len b) t = Done (Iterator (sb_len b) (Some p)) /\
            attr_holds (sb_mem b) p t v.
Proof.
  intros Hr [Ht Hc] Hn. destruct (holds_after_add b m t v Hr Hn) as (p & Hs & Hh). exists p. split; [|done].
  unfold iterate_type, iterator_from. rewrite (repr_is_command b _ Hr) by done. cpp_simpl. cbn [negb throw_if]. cpp_simpl.
  rewrite Hs. by cpp_simpl.
Qed.

(** An attribute object of type [A] through a message: [addAttr] appends the attribute [val a]
    when the message with it fits the size the object was made with.  The message stays well
    formed, an iterator by the attribute's type finds it, and the constructor [read] makes an
    object that is the [same] as the one appended.  When it does not fit, the exception comes
    after the write: the bytes past the allocated size and the length in the header are
    already written, the size is the old one, and the buffer is no longer a command message. *)
Definition through_message {A} {HA : Attribute A} (read : list Z -> StunAttrIterator -> cpp A)
    (val : A -> list Z) (good : A -> Prop) (same : A -> A -> Prop) : Prop :=
  forall (a : A) M b m,
  holds_msg M b m -> command m -> good a -> room b m (zlen (val a)) ->
  find_attr (_attr_type (as_attr a)) (m_attrs m) = None ->
  let m' := add_attr m (_attr_type (as_attr a)) (val a) in
  exists M' b', repr b' m' /\
  if msg_size m' <=? _allocated_sz M then
    addAttr M a = Done (M', None) /\ holds_msg M' b' m' /\
    exists it a', iterate_type (_buffer M') (_size M') (_attr_type (as_attr a)) = Done it /\
                  read (sb_mem b') it = Done a' /\ same a a'
  else
    addAttr M a = Done (M', Some WrongStunBufferFormatException) /\
    _buffer M' = Some (sb_mem b') /\ _size M' = _size M /\ isCommand M' = Done false.

Lemma addAttr_lawful A (HA : Attribute A) (HL : AttributeLaws A) :
  through_message (A:=A) attr_read attr_val attr_good attr_reads_as.
Proof.
  intros a M b m [Hb Hs Hr] Hc Ha Hroom Hn m'. destruct (law_add a b m Ha Hr Hroom) as (b' & Hadd & Hr' & Hz).
  pose proof (law_type a Ha) as Ht. pose proof (repr_len _ _ Hr') as Hl'.
  assert (addAttr M a = match setSize (set_bytes M (sb_mem b')) (sb_len b') with
    | Done m => mret (m, None) | Throw x => mret (set_bytes M (sb_mem b'), Some x) | Undefined => Undefined end) as ->.
  { unfold addAttr, addToMsg. destruct (Z.eqb_spec (_attr_type (as_attr a)) 0); [lia|]. cpp_simpl. rewrite Hb.
    rewrite Hs. destruct b as [mem len]. cbn [sb_mem sb_len] in *. rewrite Hadd. by cpp_simpl. }
  unfold setSize. cbn [set_bytes _allocated_sz]. rewrite Hl'. fold m'.
  destruct (Z.leb_spec (msg_size m') (_allocated_sz M)).
  - destruct (Z.ltb_spec (_allocated_sz M) (msg_size m')); [lia|]. cpp_simpl. eexists _, b'. split; [exact Hr'|].
    split; [done|]. split; [by split; [|symmetry; exact Hl'|]|].
    destruct (iterate_added b' m _ _ Hr' Hc Hn) as (p & Hit & Hh).
    destruct (law_read (sb_mem b') (sb_len b') p a (repr_bytes _ _ Hr') Ha Hh) as (a' & Hread & Has & _).
    cbn [set_sz set_bytes _buffer _size]. unfold m'. rewrite <- Hl'. eauto.
  - destruct (Z.ltb_spec (_allocated_sz M) (msg_size m')); [|lia]. cpp_simpl. eexists _, b'. split; [exact Hr'|].
    split; [done|]. cbn [set_bytes _buffer _size]. split; [done|]. split; [done|]. unfold isCommand. cbn [set_bytes _buffer _size].
    pose proof (attr_size_bounds (attr_val a)). pose proof (repr_len _ _ Hr). pose proof (repr_cap _ _ Hr).
    rewrite (not_command_of_size b' m' _ Hr'); [done|lia|]. unfold m'. rewrite msg_size_add. lia.
Qed.

(** C25. Attribute objects through a message, class by class ([through_message]): a generic
    attribute with its type and bytes, CHANNEL-NUMBER for a valid channel, RESERVATION-TOKEN,
    RESPONSE-PORT, CHANGE-REQUEST and PADDING (below 65535 bytes) are read back as they were
    appended.  Of an EVEN-PORT byte only the top bit is read back, so the values 1 to 0x7F
    come back as 0.  Address attributes are not among them. *)
Theorem addAttr_roundtrip `{Locals} :
  through_message StunAttr_of (λ a, default [] (_value a))
    (λ a, exists t v, a = Attr t (Some v) (zlen v) /\ 0 < t < 65536 /\ bytes v /\ zlen v < 65535) (λ a a', a' = a) /\
  through_message ChannelNumber_of (λ a, be_split 2 (_cn a) ++ [0; 0])
    (λ a, _attr_type (cn_base a) = STUN_ATTRIBUTE_CHANNEL_NUMBER /\ STUN_VALID_CHANNEL (_cn a) = true)
    (λ a a', _cn a' = _cn a) /\
  through_message ReservationToken_of (λ a, be_split 8 (_rt a))
    (λ a, _attr_type (rt_base a) = STUN_ATTRIBUTE_RESERVATION_TOKEN /\ 0 <= _rt a < 2 ^ 64) (λ a a', _rt a' = _rt a) /\
  through_message ResponsePort_of (λ a, be_split 2 (_rp a) ++ [0; 0])
    (λ a, _attr_type (rp_base a) = STUN_ATTRIBUTE_RESPONSE_PORT /\ 0 <= _rp a < 65536) (λ a a', _rp a' = _rp a) /\
  through_message ChangeRequest_of (λ a, [0; 0; 0; change_flags (_changeIp a) (_changePort a)])
    (λ a, _attr_type (cr_base a) = STUN_ATTRIBUTE_CHANGE_REQUEST)
    (λ a a', getChangeIp a' = getChangeIp a /\ getChangePort a' = getChangePort a) /\
  through_message Padding_of (λ a, replicate (Z.to_nat (_p a)) 0)
    (λ a, _attr_type (pd_base a) = STUN_ATTRIBUTE_PADDING /\ 0 <= _p a < 65535) (λ a a', _p a' = _p a) /\
  through_message EvenPort_of (λ a, [_ep a])
    (λ a, _attr_type (ep_base a) = STUN_ATTRIBUTE_EVEN_PORT /\ 0 <= _ep a < 256)
    (λ a a', _ep a' = b2z (0x7F <? _ep a)).
Proof.
  split; [exact (addAttr_lawful _ _ StunAttr_laws)|]. split; [exact (addAttr_lawful _ _ ChannelNumber_laws)|].
  split; [exact (addAttr_lawful _ _ ReservationToken_laws)|]. split; [exact (addAttr_lawful _ _ ResponsePort_laws)|].
  split; [exact (addAttr_lawful _ _ ChangeRequest_laws)|]. split; [exact (addAttr_lawful _ _ Padding_laws)|].
  exact (addAttr_lawful _ _ EvenPort_laws).
Qed.

(** * Classes of messages *)

Lemma repr_class b m :
  repr b m -> m_type m < 0x4000 ->
  stun_is_request_str (Some (sb_mem b)) (sb_len b) = Some (is_class Request (m_type m)) /\
  stun_is_indication_str (Some (sb_mem b)) (sb_len b) = Some (is_class Indication (m_type m)) /\
  stun_is_success_response_str (Some (sb_mem b)) (sb_len b) = Some (is_class SuccessResp (m_type m)) /\
  (is_class ErrResp (m_type m) = false -> forall ec em size,
   stun_is_error_response_str (sb_mem b) (sb_len b) ec em size = Some (false, ec, em)).
Proof.
  intros Hr Ht. pose proof (repr_type_range _ _ Hr).
  unfold stun_is_request_str, stun_is_indication_str, stun_is_success_response_str, stun_is_error_response_str, is_class.
  rewrite (repr_is_channel _ _ Hr). unfold STUN_VALID_CHANNEL. destruct (Z.leb_spec 0x4000 (m_type m)); [lia|].
  cbn [andb mbind option_bind]. rewrite (repr_msg_type _ _ Hr). cbn [mbind option_bind]. change 0x3FFF with (Z.ones 14).
  rewrite Z.land_ones, Z.mod_small by (change (2 ^ 14) with 0x4000; lia). repeat split. by intros -> ? ? ?.
Qed.

(** The class of a type made for class [c]. *)
Lemma made_class c d meth : 0 <= meth < 4096 -> is_class d (make_of c meth) = bool_decide (c = d).
Proof.
  intros Hm. destruct (make_of_spec c meth Hm) as (_ & _ & _ & H). destruct (is_class d _) eqn:E.
  - symmetry. apply bool_decide_eq_true. by apply H.
  - symmetry. apply bool_decide_eq_false. intros Hcd. apply H in Hcd. congruence.
Qed.

(** What the tests of the C library say of a message that was made for a class and method. *)
Record made (b : sbuf) (c : stun_class) (meth : Z) (m : stun_msg) : Prop := Made {
  made_repr : repr b m;
  made_type : m_type m = make_of c meth;
  made_cookie : m_cookie m = STUN_MAGIC_COOKIE;
  made_method : 0 <= meth < 4096;
}.

Section made.
Context (b : sbuf) (c : stun_class) (meth : Z) (m : stun_msg) (H : made b c meth m).

Lemma made_command : command m.
Proof using H.
  destruct H as [_ Ht Hc Hm]. split; [|done]. rewrite Ht. by destruct (make_of_spec c meth Hm) as (_ & [_ ?] & _).
Qed.

Lemma made_reads :
  stun_is_request_str (Some (sb_mem b)) (sb_len b) = Some (bool_decide (c = Request)) /\
  stun_is_indication_str (Some (sb_mem b)) (sb_len b) = Some (bool_decide (c = Indication)) /\
  stun_is_success_response_str (Some (sb_mem b)) (sb_len b) = Some (bool_decide (c = SuccessResp)) /\
  (c ≠ ErrResp -> forall ec em size, stun_is_error_response_str (sb_mem b) (sb_len b) ec em size = Some (false, ec, em)).
Proof using H.
  destruct (repr_class b m (made_repr _ _ _ _ H) (proj1 made_command)) as (Hq & Hi & Hs & He).
  rewrite (made_type _ _ _ _ H), !made_class in * by apply H. repeat split; try done.
  intros Hc. apply He. by apply bool_decide_eq_false.
Qed.

Lemma made_get_method : stun_get_method_str (Some (sb_mem b)) (sb_len b) = Some meth.
Proof using H.
  rewrite (repr_method _ _ (made_repr _ _ _ _ H)), (made_type _ _ _ _ H). f_equal.
  by destruct (make_of_spec c meth (made_method _ _ _ _ H)) as (-> & _).
Qed.

(** The constructors of the four classes on the buffer. *)
Lemma method_on_made (is_cl : option (list Z) -> Z -> option bool) d :
  is_cl (Some (sb_mem b)) (sb_len b) = Some (bool_decide (c = d)) ->
  method_on (Some (sb_mem b)) (sb_len b) true is_cl =
    if decide (c = d) then Done meth else Throw WrongStunBufferFormatException.
Proof using H.
  intros Hd. unfold method_on. rewrite Hd. cpp_simpl. case_bool_decide; case_decide; try done.
  cbn [negb throw_if]. cpp_simpl. by rewrite made_get_method.
Qed.

Lemma Request_on_made total :
  Request_on (Some (sb_mem b)) total (sb_len b) true =
    if decide (c = Request) then Done (Request_ (StunMsg_on (Some (sb_mem b)) total (sb_len b) true) meth)
    else Throw WrongStunBufferFormatException.
Proof using H.
  unfold Request_on. rewrite (method_on_made _ Request) by apply made_reads. by case_decide.
Qed.

Lemma Indication_on_made total :
  Indication_on (Some (sb_mem b)) total (sb_len b) true =
    if decide (c = Indication) then Done (Indication_ (StunMsg_on (Some (sb_mem b)) total (sb_len b) true) meth)
    else Throw WrongStunBufferFormatException.
Proof using H.
  unfold Indication_on. rewrite (method_on_made _ Indication) by apply made_reads. by case_decide.
Qed.

Lemma Channel_on_made total : Channel_on (Some (sb_mem b)) total (sb_len b) true = Throw WrongStunBufferFormatException.
Proof using H.
  pose proof (made_repr _ _ _ _ H) as Hr. pose proof (repr_len20 _ _ Hr) as Hl. destruct made_command as [Ht _].
  unfold Channel_on, channel_header, message. cbn [StunMsg_on _buffer _size]. cpp_simpl. cbn [sb_mem sb_len].
  unfold stun_is_channel_message_str. destruct (Z.ltb_spec (sb_len b) 4); [lia|].
  rewrite (repr_ldn_type _ _ Hr). cpp_simpl. unfold STUN_VALID_CHANNEL. destruct (Z.leb_spec 0x4000 (m_type m)); [lia|].
  by cpp_simpl.
Qed.

Lemma getTid_made M : _buffer M = Some (sb_mem b) -> _size M = sb_len b -> _constructed M = true -> getTid M = Done (m_tid m).
Proof using H.
  intros Hb Hs Hk. assert (holds_msg M b m) as Hm by (split; [done..|apply H]). unfold getTid.
  rewrite (need_command_holds M b m Hm made_command Hk). cpp_simpl. rewrite (message_holds M b m Hm). cpp_simpl.
  destruct (tid_of_repr b m (sb_len b) (made_repr _ _ _ _ H)) as (-> & _). by cpp_simpl.
Qed.

Lemma check_class_made M (is_cl : option (list Z) -> Z -> option bool) d :
  _buffer M = Some (sb_mem b) -> _size M = sb_len b -> _constructed M = true ->
  is_cl (Some (sb_mem b)) (sb_len b) = Some (bool_decide (c = d)) -> c = d ->
  check_class M meth is_cl = Done true.
Proof using H.
  intros Hb Hs Hk Hd Hcd. unfold check_class. rewrite Hk, Hb, Hs, Hd, bool_decide_true by done. cbn [negb]. cpp_simpl.
  rewrite made_get_method. cpp_simpl. by rewrite Z.eqb_refl.
Qed.
End made.

(** * Requests and indications *)

Lemma init_command_made c meth b e :
  bytes (sb_mem b) -> 20 <= zlen (sb_mem b) -> entropy_ok e -> 0 <= meth < 4096 ->
  exists b', stun_init_command_str (make_of c meth) b e = Some b' /\
  made b' c meth (StunMsg (make_of c meth) STUN_MAGIC_COOKIE (tid_of e) []) /\ zlen (sb_mem b') = zlen (sb_mem b).
Proof.
  intros Hb Hl He Hm. unfold stun_init_command_str.
  destruct (built_init STUN_MAGIC_COOKIE (make_of c meth) b e Hb Hl He) as (b1 & -> & [Hr Hz _]); [done|].
  destruct (make_of_spec c meth Hm) as (_ & _ & E & _). rewrite E in Hr. exists b1. split; [done|]. split; [by split|done].
Qed.

(** The constructors of requests, indications and channel messages on the buffer that
    [construct] leaves behind: only that of the class it was made for takes it, with the
    method. *)
Definition only_class (c : stun_class) (meth : Z) (M : StunMsgBase) : Prop :=
  forall total, let m := StunMsg_on (_buffer M) total (_size M) true in
  Request_on (_buffer M) total (_size M) true =
    (if decide (c = Request) then Done (Request_ m meth) else Throw WrongStunBufferFormatException) /\
  Indication_on (_buffer M) total (_size M) true =
    (if decide (c = Indication) then Done (Indication_ m meth) else Throw WrongStunBufferFormatException) /\
  Channel_on (_buffer M) total (_size M) true = Throw WrongStunBufferFormatException.

Lemma only_class_made M b c meth m :
  made b c meth m -> _buffer M = Some (sb_mem b) -> _size M = sb_len b -> only_class c meth M.
Proof.
  intros H Hb Hs total. rewrite Hb, Hs.
  by rewrite (Request_on_made b c meth m H), (Indication_on_made b c meth m H), (Channel_on_made b c meth m H).
Qed.

(** A request or an indication: [construct] initialises the object's buffer with an empty message of
    the class and method under a fresh transaction id; the object is then valid, gives that id, and
    of the constructors on a buffer only that of its class accepts the bytes, with the method. *)
Theorem StunMsgRequest_roundtrip heap method e :
  bytes heap -> zlen heap = 0xFFFF -> entropy_ok e -> 0 <= method < 4096 ->
  (exists r, construct (new_Request heap method) e = Done r /\ isValid r = Done (true, r) /\
     getTid (as_msg r) = Done (tid_of e) /\ only_class Request method (as_msg r)) /\
  (exists i, construct (new_Indication heap method) e = Done i /\ isValid i = Done (true, i) /\
     getTid (as_msg i) = Done (tid_of e) /\ only_class Indication method (as_msg i)).
Proof.
  intros Hb Hl He Hm. split.
  - destruct (init_command_made Request method (SBuf heap 0) e) as (b & Hi & H & Hz); [done|cbn [sb_mem]; lia|done..|].
    unfold construct, isValid. cbn [constructBuffer check as_msg Request_message]. unfold Request_constructBuffer, Request_check. cbn [as_msg new_Request rq_msg rq_method new_StunMsg].
    rewrite message_new. cpp_simpl. unfold stun_init_request_str. cbn [make_of] in Hi. rewrite Hi. cpp_simpl.
    eexists. split; [done|]. cbn [rq_msg rq_method]. split; [|split].
    + by rewrite (check_class_made b Request method _ H _ stun_is_request_str Request) by (done || apply (made_reads _ _ _ _ H)).
    + by apply (getTid_made _ _ _ _ H).
    + by apply (only_class_made _ _ _ _ _ H).
  - destruct (init_command_made Indication method (SBuf heap 0) e) as (b & Hi & H & Hz); [done|cbn [sb_mem]; lia|done..|].
    unfold construct, isValid. cbn [constructBuffer check as_msg Indication_message]. unfold Indication_constructBuffer, Indication_check. cbn [as_msg new_Indication in_msg in_method new_StunMsg].
    rewrite message_new. cpp_simpl. unfold stun_init_indication_str. cbn [make_of] in Hi. rewrite Hi. cpp_simpl.
    eexists. split; [done|]. cbn [in_msg in_method]. split; [|split].
    + by rewrite (check_class_made b Indication method _ H _ stun_is_indication_str Indication) by (done || apply (made_reads _ _ _ _ H)).
    + by apply (getTid_made _ _ _ _ H).
    + by apply (only_class_made _ _ _ _ _ H).
Qed.

Lemma is_binding_request_made b m :
  made b Request STUN_METHOD_BINDING m -> stun_is_binding_request_str (sb_mem b) (sb_len b) 0 = Some true.
Proof.
  intros H. pose proof (repr_len20 _ _ (made_repr _ _ _ _ H)). unfold stun_is_binding_request_str.
  destruct (Z.ltb_spec 0 (sb_len b)); [|lia]. rewrite ptr_add_ok by lia. change (Z.to_nat 0) with 0%nat. rewrite drop_0.
  cbn [mbind option_bind]. rewrite Z.sub_0_r.
  destruct (made_command _ _ _ _ H) as [Ht Hc]. rewrite (repr_is_command _ _ (made_repr _ _ _ _ H) Ht Hc).
  destruct (made_reads _ _ _ _ H) as (-> & _). rewrite bool_decide_true by done. cbn [mbind option_bind].
  rewrite (made_get_method _ _ _ _ H). done.
Qed.

(** [constructBindingRequest] writes a binding request into the object's buffer, which a constructor on
    that buffer accepts, but does not record it: the object has not the method, is not valid, and
    [getTid], [setTid], [addFingerprint] and the credentials throw. *)
Theorem constructBindingRequest_not_constructed heap method e :
  bytes heap -> zlen heap = 0xFFFF -> entropy_ok e ->
  exists r, constructBindingRequest (new_Request heap method) e = Done r /\
  isBindingRequest r = Done true /\ only_class Request STUN_METHOD_BINDING (rq_msg r) /\
  rq_method r = method /\ isValid r = Done (false, r) /\
  getTid (rq_msg r) = Throw WrongStunBufferFormatException /\
  addFingerprint (rq_msg r) = Throw WrongStunBufferFormatException.
Proof.
  intros Hb Hl He.
  destruct (init_command_made Request STUN_METHOD_BINDING (SBuf heap 0) e) as (b & Hi & H & Hz); [done|cbn [sb_mem]; lia|done..|].
  unfold constructBindingRequest. cbn [new_Request rq_msg]. rewrite message_new. cpp_simpl.
  unfold stun_set_binding_request_str, stun_init_request_str. cbn [make_of] in Hi. rewrite Hi. cpp_simpl.
  eexists. split; [done|]. split; [|split; [by apply (only_class_made _ _ _ _ _ H)|done]].
  unfold isBindingRequest. cbn [set_rq rq_msg]. rewrite (message_holds _ b _ (holds_set _ b _ (made_repr _ _ _ _ H))). cpp_simpl.
  rewrite (is_binding_request_made _ _ H). by cpp_simpl.
Qed.

(** * Responses *)

(** The message a response object describes, and the class of its type. *)
Definition response_msg (method err : Z) (reason tid : list Z) : stun_msg :=
  if err =? 0 then StunMsg (stun_make_success_response method) STUN_MAGIC_COOKIE tid []
  else StunMsg (stun_make_error_response method) STUN_MAGIC_COOKIE tid
         [(STUN_ATTRIBUTE_ERROR_CODE, error_attr err (reason_used err (Some reason)))].
Definition response_class (err : Z) : stun_class := if err =? 0 then SuccessResp else ErrResp.

(** The text that is read back: the default one for "Unknown error", 508 characters at most. *)
Definition reason_read (err : Z) (reason : list Z) : list Z :=
  if err =? 0 then [] else cut_reason (reason_used err (Some reason)).

Lemma truth_zero z : truth z = negb (z =? 0).
Proof. done. Qed.

Lemma response_made b method err reason tid e :
  bytes (sb_mem b) -> 540 <= zlen (sb_mem b) -> entropy_ok e -> 0 <= method < 4096 -> tid_ok (Some tid) -> reason_ok (Some reason) ->
  exists b', (if truth err then stun_init_error_response_str method b err (Some (cstring reason)) (Some tid) e
              else stun_init_success_response_str method b (Some tid) e) = Some b' /\
  made b' (response_class err) method (response_msg method err reason tid) /\ zlen (sb_mem b') = zlen (sb_mem b).
Proof.
  intros Hb Hl He Hm Htid Hrs. rewrite truth_zero. unfold response_class, response_msg. destruct (err =? 0); cbn [negb].
  - rewrite new_success_response.
    destruct (built_success_response STUN_MAGIC_COOKIE method b (Some tid) e) as (b' & -> & [Hr Hz _]); [done|lia|done..|].
    exists b'. split; [done|]. split; [by split|done].
  - rewrite new_error_response.
    destruct (built_error_response STUN_MAGIC_COOKIE method b err (Some reason) (Some tid) e) as (b' & Hi & [Hr Hz _]); [done..|].
    exists b'. split; [exact Hi|]. split; [by split|done].
Qed.

(** What [stun_is_error_response_str] gives for the error responses made. *)
Lemma response_error b method err reason tid em :
  made b (response_class err) method (response_msg method err reason tid) -> (err =? 0) = false ->
  reason_ok (Some reason) -> 0 <= err < 25600 -> zlen em = 0xFFFF ->
  exists em', stun_is_error_response_str (sb_mem b) (sb_len b) (Some 0) (Some em) 0xFFFF = Some (true, Some err, Some em') /\
  c_str em' = Some (reason_read err reason).
Proof.
  intros H He Hrs Hc Hem. unfold response_class, response_msg, reason_read in *. rewrite He in *.
  destruct (reason_used_ok err (Some reason) Hrs) as [Hn _].
  destruct (read_error_attr b _ 0 em 0xFFFF err (reason_used err (Some reason)) (made_repr _ _ _ _ H)) as (em' & Hre & Hcs & _).
  - apply (made_command _ _ _ _ H).
  - rewrite (made_type _ _ _ _ H). pose proof (made_class ErrResp ErrResp method (made_method _ _ _ _ H)) as Hk.
    by rewrite bool_decide_true in Hk.
  - done.
  - done.
  - done.
  - lia.
  - exists em'. split; [done|]. rewrite Hcs. f_equal. apply take_ge. unfold cut_reason. rewrite length_take. lia.
Qed.

Lemma response_success b method err m :
  made b (response_class err) method m ->
  stun_is_success_response_str (Some (sb_mem b)) (sb_len b) = Some (err =? 0).
Proof.
  intros H. destruct (made_reads _ _ _ _ H) as (_ & _ & -> & _). unfold response_class. by destruct (err =? 0).
Qed.

Lemma Response_check_made b r em :
  made b (response_class (_err r)) (rs_method r) (response_msg (rs_method r) (_err r) (_reason r) (_tid r)) ->
  reason_ok (Some (_reason r)) -> 0 <= _err r < 25600 -> zlen em = 0xFFFF ->
  _buffer (rs_msg r) = Some (sb_mem b) -> _size (rs_msg r) = sb_len b -> _constructed (rs_msg r) = true ->
  Response_check r em = Done true.
Proof.
  intros H Hrs He Hem Hb Hs Hk. unfold Response_check, message. rewrite Hk, Hb, Hs. cbn [negb]. cpp_simpl.
  rewrite (response_success _ _ _ _ H), (made_get_method _ _ _ _ H). cpp_simpl. destruct (_err r =? 0) eqn:E0; cpp_simpl.
  - by rewrite Z.eqb_refl.
  - cbn [sb_mem sb_len]. destruct (response_error _ _ _ _ _ em H E0 Hrs He Hem) as (em' & -> & _). cpp_simpl. cbn [negb throw_if]. cpp_simpl.
    rewrite Z.eqb_refl. cbn [negb throw_if]. cpp_simpl. by rewrite Z.eqb_refl.
Qed.

Lemma Response_on_made b method err reason tid total em tid0 :
  made b (response_class err) method (response_msg method err reason tid) ->
  reason_ok (Some reason) -> 0 <= err < 25600 -> zlen em = 0xFFFF -> length tid0 = 12%nat -> tid_ok (Some tid) ->
  Response_on (Some (sb_mem b)) total (sb_len b) true em tid0 =
    Done (Response_ (StunMsg_on (Some (sb_mem b)) total (sb_len b) true) method err (reason_read err reason) tid).
Proof.
  intros H Hrs He Hem Ht0 Htid. unfold Response_on, message. cbn [StunMsg_on _buffer _size]. cpp_simpl.
  rewrite (response_success _ _ _ _ H), (made_get_method _ _ _ _ H). cpp_simpl. cbn [sb_mem sb_len].
  assert (stun_tid_from_message_str (sb_mem b) (sb_len b) (Some tid0) = Some (Some tid)) as ->.
  { pose proof (repr_tid _ _ (made_repr _ _ _ _ H)) as Ht. unfold response_msg in Ht.
    assert (rd_block (sb_mem b) 8 12 = Some tid) as Hrd by (by destruct (err =? 0)).
    destruct (Htid tid eq_refl) as [_ Hl]. unfold stun_tid_from_message_str, stun_tid_from_string, STUN_TID_SIZE. rewrite Hrd.
    cbn [mbind option_bind]. by rewrite wr_block_full by (unfold zlen; lia). }
  destruct (err =? 0) eqn:E0; cpp_simpl.
  - assert (err = 0) as -> by by apply Z.eqb_eq. done.
  - cbn [sb_mem sb_len]. destruct (response_error _ _ _ _ _ em H E0 Hrs He Hem) as (em' & -> & Hcs). cpp_simpl. cbn [negb throw_if]. cpp_simpl.
    rewrite Hcs. by cpp_simpl.
Qed.

(** C26. A response: [construct] writes a success response for the error code 0 and an error response with the
    code and the reason otherwise, under the object's transaction id; the object is then valid, and the
    constructor on a buffer gives method, code and transaction id back.  The reason comes back as [reason_read]
    says: not at all with the code 0, cut to 508 characters, and as the standard text of the code for the reason
    "Unknown error".  The constructors of requests, indications and channel messages refuse the
    bytes. *)
Theorem StunMsgResponse_roundtrip `{Locals} heap method err reason tid e total errtxt tid0 :
  bytes heap -> zlen heap = 0xFFFF -> entropy_ok e -> 0 <= method < 4096 -> 0 <= err < 25600 ->
  tid_ok (Some tid) -> reason_ok (Some reason) ->
  zlen stack_bytes = 0xFFFF -> zlen errtxt = 0xFFFF -> length tid0 = 12%nat ->
  exists r, construct (new_Response heap method err reason tid) e = Done r /\ isValid r = Done (true, r) /\
  Response_on (_buffer (as_msg r)) total (_size (as_msg r)) true errtxt tid0 =
    Done (Response_ (StunMsg_on (_buffer (as_msg r)) total (_size (as_msg r)) true) method err (reason_read err reason) tid) /\
  only_class (response_class err) method (as_msg r).
Proof.
  intros Hb Hl He Hm Herr Htid Hrs Hst Htxt Ht0.
  destruct (response_made (SBuf heap 0) method err reason tid e) as (b & Hi & Hmade & Hz); [done|cbn [sb_mem]; lia|done..|].
  unfold construct, isValid. cbn [constructBuffer check as_msg Response_message]. unfold Response_constructBuffer. cbn [as_msg new_Response rs_msg rs_method _err _reason _tid].
  rewrite message_new. cpp_simpl. rewrite u16_small by lia. rewrite Hi. cpp_simpl.
  eexists. split; [done|]. cbn [rs_msg]. split; [|split].
  - by rewrite (Response_check_made b) by done.
  - by apply (Response_on_made b).
  - by apply (only_class_made _ _ _ _ _ Hmade).
Qed.

(** * Transaction ids, fingerprints, credentials *)

Lemma setTid_holds M b m tid :
  holds_msg M b m -> command m -> _constructed M = true -> tid_ok (Some tid) ->
  exists b', setTid M tid = Done (set_bytes M (sb_mem b')) /\
  holds_msg (set_bytes M (sb_mem b')) b' (StunMsg (m_type m) (m_cookie m) tid (m_attrs m)) /\
  zlen (sb_mem b') = zlen (sb_mem b).
Proof.
  intros Hm Hc Hk Ht. destruct (Ht tid eq_refl) as [Htb Htl].
  destruct (repr_set_tid b m tid (holds_repr _ _ _ Hm) Htb Htl) as (mem & Hcpy & Hr & Hz). exists (SBuf mem (sb_len b)). unfold setTid.
  rewrite (need_command_holds M b m Hm Hc Hk). cpp_simpl. rewrite (message_holds M b m Hm). cpp_simpl. rewrite Hcpy. cpp_simpl.
  split; [done|]. split; [split; [done|apply Hm|done]|done].
Qed.

Lemma full_check_present b must v fp0 fp1 :
  stun_is_command_message_full_check_str (sb_mem b) (sb_len b) must (Some fp0) = Some (v, fp1) ->
  exists fp, stun_is_command_message_full_check_str (sb_mem b) (sb_len b) must None = Some (v, fp).
Proof.
  unfold stun_is_command_message_full_check_str.
  destruct (stun_is_command_message_str _ _) as [[]|]; cbn [mbind option_bind negb]; [|intros [= <- <-]; by eexists|done].
  destruct (stun_attr_get_first_by_type_str _ _ _) as [[a|]|]; cbn [mbind option_bind]; [| |done].
  - destruct (stun_attr_get_len _ _) as [n|]; cbn [mbind option_bind]; [|done].
    destruct (negb (n =? 4)); [intros [= <- <-]; by eexists|].
    destruct (stun_attr_get_value _ _) as [[p|]|]; cbn [mbind option_bind]; [|intros [= <- <-]; by eexists|done].
    destruct (load32 _ _); cbn [mbind option_bind]; [|done]. destruct (ns_crc32 _ _); cbn [mbind option_bind]; [|done].
    destruct (_ =? _); intros [= <- <-]; by eexists.
  - destruct (stun_get_method_str _ _) as [k|]; cbn [mbind option_bind]; [|done].
    destruct (k =? STUN_METHOD_BINDING); intros [= <- <-]; by eexists.
Qed.

(** [addFingerprint] on a message with room for it. *)
Lemma addFingerprint_holds M b m :
  holds_msg M b m -> command m -> _constructed M = true -> room b m 4 ->
  find_attr STUN_ATTRIBUTE_FINGERPRINT (m_attrs m) = None ->
  exists b' v, addFingerprint M = Done (set_message M b') /\ zlen v = 4 /\
  holds_msg (set_message M b') b' (add_attr m STUN_ATTRIBUTE_FINGERPRINT v) /\
  isFingerprintPresent (sb_mem b') (sb_len b') = Done true /\ checkFingerprint (sb_mem b') (sb_len b') = Done true.
Proof.
  intros Hm [Ht Hc] Hk Hroom Hn.
  destruct (fingerprint_added b m (holds_repr _ _ _ Hm) Ht Hc Hroom Hn) as (b' & crc & Ha & Hr' & _ & _ & Hfull).
  exists b'. eexists. unfold addFingerprint. rewrite (need_command_holds M b m Hm) by done. cpp_simpl.
  rewrite (message_holds M b m Hm). cpp_simpl. rewrite Ha. cpp_simpl. split; [done|]. split; [|split; [by apply holds_set; exact Hr'|split]].
  - apply zlen_be_split.
  - unfold isFingerprintPresent. rewrite (repr_is_command b' _ Hr') by done. cpp_simpl. cbn [negb].
    destruct (holds_after_add b' m _ _ Hr' Hn) as (a & -> & _). by cpp_simpl.
  - unfold checkFingerprint. destruct (full_check_present b' true true 0 _ (Hfull true 0)) as (fp & ->). by cpp_simpl.
Qed.

Lemma strdup_string s : nonzero s -> strdup s = Done (cstring s).
Proof. intros H. unfold strdup. by rewrite c_str_cstring. Qed.

Section credentials.
Context `{C : Crypto} {L : CryptoLaws C} (Htotal : hmac_total).

(** A [std::string] of at most 1024 characters, none of them NUL. *)
Definition string_ok (s : list Z) : Prop := nonzero s /\ bytes s /\ zlen s <= 1024.

(** The message with long-term credentials. *)
Definition signed_by (m : stun_msg) (u r n h : list Z) : stun_msg :=
  add_attr (add_attrs m [(STUN_ATTRIBUTE_USERNAME, u); (STUN_ATTRIBUTE_NONCE, n); (STUN_ATTRIBUTE_REALM, r)])
    STUN_ATTRIBUTE_MESSAGE_INTEGRITY h.

Lemma signed_by_size m u r n h :
  zlen u <= 1024 -> zlen r <= 1024 -> zlen n <= 1024 -> zlen h = 20 -> msg_size (signed_by m u r n h) <= msg_size m + 3120.
Proof using.
  intros Hu Hr Hn Hh. unfold signed_by. rewrite msg_size_add. unfold msg_size, add_attrs. cbn [m_attrs].
  rewrite attrs_size_app. cbn [attrs_size]. unfold attr_size, pad4. rewrite Hh. Z.div_mod_to_equations. lia.
Qed.

Lemma addLT_holds M b m uname realm upwd nonce key0 pj junk j :
  holds_msg M b m -> command m -> _constructed M = true -> msg_size m <= 1024 -> 5000 <= zlen (sb_mem b) ->
  string_ok uname -> string_ok realm -> nonzero upwd -> string_ok nonce ->
  zlen key0 = 64 -> bytes junk -> zlen junk = MAXSHASIZE ->
  exists b' h, addLTMessageIntegrity M uname realm upwd nonce key0 pj junk j = Done (set_message M b') /\ zlen h = 20 /\
  holds_msg (set_message M b') b' (signed_by m uname realm nonce h) /\ zlen (sb_mem b') = zlen (sb_mem b).
Proof using L Htotal.
  intros Hm Hc Hk Hsz Hcap (Hu & Hub & Hul) (Hr & Hrb & Hrl) Hp (Hn & Hnb & Hnl) Hk0 Hjb Hjz.
  destruct (user_integrity_added b m (cstring uname) (cstring realm) (cstring upwd) (cstring nonce) uname realm upwd nonce
    SHATYPE_SHA1 key0 pj junk j (holds_repr _ _ _ Hm)) as (b' & h & data & Ha & (Hr' & Hz & _) & Hh);
    try done; try (by apply c_str_cstring).
  exists b', h. unfold addLTMessageIntegrity. rewrite (need_command_holds M b m Hm Hc Hk). cpp_simpl.
  rewrite !strdup_string by done. cpp_simpl. rewrite (message_holds M b m Hm). cpp_simpl.
  destruct b as [mem len]. cbn [sb_mem sb_len] in *. rewrite Ha. cpp_simpl.
  split; [done|]. split; [by apply (HMAC_size _ _ _ _ Hh)|]. split; [by apply holds_set|done].
Qed.

Lemma checkMI_holds M b m v uname realm upwd key0 pwd0 new_hmac j :
  holds_msg M b m -> command m -> _constructed M = true ->
  find_attr STUN_ATTRIBUTE_MESSAGE_INTEGRITY (m_attrs m) = Some v -> zlen v = 20 ->
  nonzero uname -> nonzero realm -> nonzero upwd -> zlen key0 = 64 -> zlen new_hmac = MAXSHASIZE ->
  checkMessageIntegrity M TURN_CREDENTIALS_LONG_TERM uname realm upwd key0 pwd0 new_hmac j = Done (true, M).
Proof using L Htotal.
  intros Hm Hc Hk Hf Hv Hu Hr Hp Hk0 Hh. unfold checkMessageIntegrity. rewrite (need_command_holds M b m Hm Hc Hk). cpp_simpl.
  rewrite !strdup_string by done. cpp_simpl. rewrite (message_holds M b m Hm). cpp_simpl.
  rewrite (check_user_value b m _ _ _ uname realm upwd v SHATYPE_SHA1) by (done || by apply c_str_cstring || apply Hm).
  cpp_simpl. change (0 <? 1) with true. unfold set_bytes. rewrite <- (holds_buffer _ _ _ Hm). by destruct M.
Qed.

Lemma find_attr_app_Some t l k v : find_attr t l = Some v -> find_attr t (l ++ k) = Some v.
Proof using.
  unfold find_attr. destruct (list_find _ l) as [[i [t' v']]|] eqn:E; [|done]. cbn. intros [= ->].
  by rewrite (list_find_app_l _ _ _ _ _ E).
Qed.

(** Signing and fingerprinting a message of at most 1024 bytes: [addLTMessageIntegrity] and then
    [addFingerprint] append the credentials, the integrity value and the fingerprint to the message, whose
    own attributes stay, and [setTid] before them replaces the transaction id.  The fingerprint is found
    and correct; but [checkMessageIntegrity] then accepts every user name, realm and password. *)
Theorem StunMsg_sealed M b m tid uname realm upwd nonce key0 pj junk j u r p key1 pwd1 hmac1 j1 :
  holds_msg M b m -> command m -> _constructed M = true -> msg_size m <= 1024 -> 5000 <= zlen (sb_mem b) ->
  find_attr STUN_ATTRIBUTE_FINGERPRINT (m_attrs m) = None -> find_attr STUN_ATTRIBUTE_MESSAGE_INTEGRITY (m_attrs m) = None ->
  tid_ok (Some tid) -> string_ok uname -> string_ok realm -> nonzero upwd -> string_ok nonce ->
  zlen key0 = 64 -> bytes junk -> zlen junk = MAXSHASIZE ->
  nonzero u -> nonzero r -> nonzero p -> zlen key1 = 64 -> zlen hmac1 = MAXSHASIZE ->
  exists M' b' h v,
  (M ← setTid M tid; M ← addLTMessageIntegrity M uname realm upwd nonce key0 pj junk j; addFingerprint M) = Done M' /\
  holds_msg M' b' (add_attr (signed_by (StunMsg (m_type m) (m_cookie m) tid (m_attrs m)) uname realm nonce h)
                     STUN_ATTRIBUTE_FINGERPRINT v) /\
  getTid M' = Done tid /\
  isFingerprintPresent (sb_mem b') (sb_len b') = Done true /\ checkFingerprint (sb_mem b') (sb_len b') = Done true /\
  checkMessageIntegrity M' TURN_CREDENTIALS_LONG_TERM u r p key1 pwd1 hmac1 j1 = Done (true, M').
Proof using L Htotal.
  intros Hm Hc Hk Hsz Hcap Hnf Hni Htid Hu Hr Hp Hn Hk0 Hjb Hjz Hu1 Hr1 Hp1 Hk1 Hh1.
  destruct (setTid_holds M b m tid Hm Hc Hk Htid) as (b0 & -> & Hm0 & Hz0). cpp_simpl. set (m0 := StunMsg _ _ tid _) in *.
  assert (command m0) as Hc0 by done.
  destruct (addLT_holds _ b0 m0 uname realm upwd nonce key0 pj junk j Hm0 Hc0) as (b1 & h & -> & Hh & Hm1 & Hz1);
    [done|exact Hsz|lia|done..|]. cpp_simpl.
  pose proof (signed_by_size m0 uname realm nonce h) as Hs1. destruct Hu as (_ & _ & Hul), Hr as (_ & _ & Hrl), Hn as (_ & _ & Hnl).
  specialize (Hs1 Hul Hrl Hnl Hh). assert (msg_size m0 = msg_size m) as Hsm by done.
  set (m1 := signed_by _ _ _ _ _) in *. assert (command m1) as Hc1 by done.
  assert (find_attr STUN_ATTRIBUTE_FINGERPRINT (m_attrs m1) = None) as Hf1.
  { unfold m1, signed_by, add_attr, add_attrs. cbn [m_attrs m0]. by rewrite <- app_assoc, find_attr_app_None. }
  assert (find_attr STUN_ATTRIBUTE_MESSAGE_INTEGRITY (m_attrs m1) = Some h) as Hi1.
  { unfold m1, signed_by, add_attr, add_attrs. cbn [m_attrs m0]. by rewrite <- app_assoc, find_attr_app_None. }
  destruct (addFingerprint_holds _ b1 m1 Hm1 Hc1) as (b2 & v & -> & Hv & Hm2 & Hpres & Hchk);
    [done|split; [unfold MAX_STUN_MESSAGE_SIZE|]; change (pad4 4) with 4; lia|done|].
  set (M2 := set_message _ b2) in *. exists M2, b2, h, v. split; [done|]. split; [done|].
  assert (command (add_attr m1 STUN_ATTRIBUTE_FINGERPRINT v)) as Hc2 by done. assert (_constructed M2 = true) as Hk2 by done.
  split; [|split; [done|split; [done|]]].
  - unfold getTid. rewrite (need_command_holds M2 b2 _ Hm2 Hc2 Hk2). cpp_simpl. rewrite (message_holds M2 b2 _ Hm2). cpp_simpl.
    pose proof (tid_of_repr b2 _ (sb_len b2) (holds_repr _ _ _ Hm2)) as [Ht2 _]. rewrite Ht2. by cpp_simpl.
  - apply (checkMI_holds M2 b2 _ h _ _ _ _ _ _ _ Hm2); try done. unfold add_attr. cbn [m_attrs]. by apply find_attr_app_Some.
Qed.
End credentials.

(** * Channel messages *)

Lemma channel_int length : 0 <= length < 2147483648 -> u64 length = length /\ to_i32 length = length.
Proof. intros H. unfold u64, to_i32. rewrite !Z.mod_small by lia. split; [done|lia]. Qed.

(** A channel message for a valid channel and an [int] length: up to 65503 bytes, [construct] writes the header, the
    object is valid, and the constructor on the buffer gives channel and length back.  A longer one is refused by
    the C function, which writes nothing; [construct] does not look at its result and marks the object as
    constructed all the same, so that only [isValid] tells. *)
Theorem StunMsgChannel_roundtrip heap cn length e total :
  bytes heap -> zlen heap = 0xFFFF -> STUN_VALID_CHANNEL cn = true -> 0 <= length < 2147483648 ->
  exists c, construct (new_Channel heap cn length) e = Done c /\ _constructed (ch_msg c) = true /\
  if 4 + length <=? MAX_STUN_MESSAGE_SIZE then
    isValid c = Done (true, c) /\
    Channel_on (_buffer (ch_msg c)) total (_size (ch_msg c)) true =
      Done (Channel_ (StunMsg_on (_buffer (ch_msg c)) total (4 + length) true) cn length)
  else _buffer (ch_msg c) = Some heap /\ _size (ch_msg c) = 0 /\ isValid c = Done (false, c).
Proof.
  intros Hb Hl Hc Hlen. destruct (channel_int length Hlen) as [Hu Hi].
  unfold construct, isValid, new_Channel. cbn [constructBuffer check as_msg Channel_message]. unfold Channel_constructBuffer, Channel_check. cbn [as_msg ch_msg ch_cn _len]. rewrite Hu, Hi, message_new. cpp_simpl.
  destruct (Z.leb_spec (4 + length) MAX_STUN_MESSAGE_SIZE) as [Hle|Hgt].
  - destruct (stun_channel_message_roundtrip cn (SBuf heap 0) length false false 0) as (b & Hin & Hread & _);
      [done|cbn [sb_mem]; lia|done|lia|done|].
    assert (sb_len b = 4 + length) as Hbl.
    { destruct (stun_init_channel_message_str_spec cn (SBuf heap 0) length false) as (mem & Hs & _);
        [done|cbn [sb_mem]; lia|lia|done|]. rewrite Hs in Hin. by injection Hin as <-. }
    rewrite Hin. cpp_simpl. eexists. split; [done|]. split; [done|]. cbn [ch_msg ch_cn _len]. unfold Channel_on, channel_header, message.
    cbn [set_constructed set_message new_StunMsg _buffer _size _constructed negb StunMsg_on]. cpp_simpl. cbn [sb_mem sb_len]. rewrite Hread. cpp_simpl.
    cbn [negb throw_if]. cpp_simpl. unfold MAX_STUN_MESSAGE_SIZE in Hle. split.
    + rewrite Z.eqb_refl. by destruct b as [mem len]; cbn [sb_len sb_mem] in *; subst len.
    + destruct (Z.ltb_spec 0xFFFF (4 + length)); [lia|]. destruct (Z.ltb_spec (4 + length) 4); [lia|]. cbn [orb throw_if]. cpp_simpl.
      by replace (4 + length - 4) with length by lia.
  - unfold stun_init_channel_message_str. destruct (Z.ltb_spec length 0); [lia|]. destruct (Z.ltb_spec MAX_STUN_MESSAGE_SIZE (4 + length)); [|lia].
    cbn [orb]. cpp_simpl. eexists. split; [done|]. split; [done|]. by repeat split.
Qed.

(** * Concrete messages *)

Definition sample_object : StunMsgBase := MsgBase (Some (sb_mem sample_buf)) false 80 20 true.

Lemma sample_object_holds : holds_msg sample_object sample_buf sample_msg.
Proof. split; [done|done|exact sample_repr]. Qed.

Lemma addAttr_roundtrip_witness :
  exists M' b', repr b' (add_attr sample_msg STUN_ATTRIBUTE_CHANNEL_NUMBER (channel_value 0x4001)) /\
  addAttr sample_object (setChannelNumber new_ChannelNumber 0x4001) = Done (M', None) /\
  exists it a', iterate_type (_buffer M') (_size M') STUN_ATTRIBUTE_CHANNEL_NUMBER = Done it /\
                ChannelNumber_of (sb_mem b') it = Done a' /\ _cn a' = 0x4001.
Proof.
  destruct (@addAttr_roundtrip {| address_map := addr_maps_init; stack_bytes := [] |}) as (_ & Hc & _).
  destruct (Hc (setChannelNumber new_ChannelNumber 0x4001) sample_object
    sample_buf sample_msg sample_object_holds) as (M' & b' & Hr & H).
  - split; reflexivity.
  - split; reflexivity.
  - by apply sample_room.
  - reflexivity.
  - match type of H with if ?c then _ else _ => assert (c = true) as E by reflexivity; rewrite E in H end.
    destruct H as (Ha & _ & H). exists M', b'. split; [exact Hr|]. split; [exact Ha|exact H].
Defined.

(** Uninitialised memory of the size of the arrays. *)
Definition stale : list Z := replicate (Z.to_nat 0xFFFF) 0.

Lemma stale_size : zlen stale = 0xFFFF.
Proof. unfold stale. by rewrite zlen_replicate. Qed.

Lemma bytes_stale : bytes stale.
Proof. apply bytes_replicate0. Qed.

#[local] Instance stale_locals : Locals := {| address_map := addr_maps_init; stack_bytes := stale |}.

Lemma StunMsgResponse_roundtrip_witness :
  exists r, construct (new_Response stale STUN_METHOD_ALLOCATE 486 (lit "quota") sample_tid) sample_entropy = Done r /\
  isValid r = Done (true, r) /\
  Response_on (_buffer (as_msg r)) 0xFFFF (_size (as_msg r)) true stale (replicate 12 0) =
    Done (Response_ (StunMsg_on (_buffer (as_msg r)) 0xFFFF (_size (as_msg r)) true) STUN_METHOD_ALLOCATE 486 (lit "quota") sample_tid).
Proof.
  destruct (StunMsgResponse_roundtrip stale STUN_METHOD_ALLOCATE 486 (lit "quota") sample_tid sample_entropy 0xFFFF stale
    (replicate 12 0) bytes_stale stale_size sample_entropy_ok) as (r & H1 & H2 & H3 & _).
  - unfold STUN_METHOD_ALLOCATE. lia.
  - lia.
  - intros t [= <-]. split; [by apply bytes_concrete|reflexivity].
  - intros s [= <-]. split; [by repeat constructor|by apply bytes_concrete].
  - exact stale_size.
  - exact stale_size.
  - reflexivity.
  - exists r. split; [exact H1|]. split; [exact H2|exact H3].
Defined.

Lemma StunMsg_sealed_witness :
  exists M M' b', holds_msg M b' (StunMsg 1 STUN_MAGIC_COOKIE (tid_of sample_entropy) []) /\
  (M ← setTid M sample_tid; M ← addLTMessageIntegrity M (lit "u") (lit "r") (lit "p") (lit "n") (replicate 64 0) [] (replicate 128 0) 0;
   addFingerprint M) = Done M' /\
  checkMessageIntegrity M' TURN_CREDENTIALS_LONG_TERM (lit "mallory") (lit "x") (lit "y") (replicate 64 0) [] (replicate 128 0) 0 = Done (true, M').
Proof.
  destruct (repr_init STUN_MAGIC_COOKIE 1 (SBuf (replicate (Z.to_nat 5000) 0) 0) sample_entropy) as (b & _ & Hr & Hz);
    [apply bytes_replicate0|cbn [sb_mem]; rewrite zlen_replicate; lia|exact sample_entropy_ok|done|].
  cbn [sb_mem] in Hz. rewrite zlen_replicate in Hz by lia.
  assert (forall s, nonzero s -> bytes s -> zlen s <= 1024 -> string_ok s) as Hs by done.
  set (M := MsgBase (Some (sb_mem b)) false 5000 (sb_len b) true).
  assert (holds_msg M b (StunMsg 1 STUN_MAGIC_COOKIE (tid_of sample_entropy) [])) as Hm by (split; [done|done|exact Hr]).
  destruct (StunMsg_sealed toy_hmac_total M b _ sample_tid (lit "u") (lit "r") (lit "p")
    (lit "n") (replicate 64 0) [] (replicate 128 0) 0 (lit "mallory") (lit "x") (lit "y") (replicate 64 0) [] (replicate 128 0) 0
    Hm) as (M' & b' & h & v & H1 & _ & _ & _ & _ & H2).
  - split; reflexivity.
  - reflexivity.
  - vm_compute. discriminate.
  - lia.
  - reflexivity.
  - reflexivity.
  - intros t [= <-]. split; [by apply bytes_concrete|reflexivity].
  - apply Hs; [by repeat constructor|by apply bytes_concrete|vm_compute; discriminate].
  - apply Hs; [by repeat constructor|by apply bytes_concrete|vm_compute; discriminate].
  - by repeat constructor.
  - apply Hs; [by repeat constructor|by apply bytes_concrete|vm_compute; discriminate].
  - reflexivity.
  - apply bytes_replicate0.
  - reflexivity.
  - by repeat constructor.
  - by repeat constructor.
  - by repeat constructor.
  - reflexivity.
  - reflexivity.
  - exists M, M', b. split; [exact Hm|]. split; [exact H1|exact H2].
Defined.
