(* ===== verification/SocketsSpec.v ===== *)
(** Options of sockets and limits of the system: the MTU shrinks and stays in its bounds, the
    values read of a socket are corrected, and raising the limit on open files ends. *)

From S2P Require Import Prelude Defs IoAddr System Session Sockets.

(** What [decrease_mtu] computes: never less than the least MTU, nor more than the greatest unless the old one was; and less
    than before, as long as that was not the least and the connection does not report one beyond the greatest. *)
Lemma smaller_mtu_bounds mtu new_mtu :
  MIN_MTU <= smaller_mtu mtu new_mtu <= MAX_MTU /\
  (MIN_MTU < mtu -> new_mtu <= MAX_MTU -> smaller_mtu mtu new_mtu < mtu).
Proof.
  unfold smaller_mtu. change MIN_MTU with 548. change MAX_MTU with 1472. change MTU_STEP with 68. cbv zeta.
  repeat match goal with
         | |- context[?a <? ?b] => lazymatch constr:((a, b)) with context[_ <? _] => fail | _ => destruct (Z.ltb_spec a b); cbn [andb] end
         end; lia.
Qed.

(** A larger report of the connection makes the MTU grow. *)
Example smaller_mtu_grows : smaller_mtu 600 2000 = 1404.
Proof. reflexivity. Qed.

(** [decrease_mtu] gives the connection the MTU it returns; it is in the bounds, and for an MTU above the least it is smaller
    than the old one or the connection reported one above the greatest. *)
Theorem decrease_mtu_bounds mtu w :
  wp (decrease_mtu true mtu)
    (λ r w', MIN_MTU <= r <= MAX_MTU /\ last (w_trace w') = Some (SetMtu r) /\
             (MIN_MTU < mtu -> r < mtu \/ exists reported, In (AInt reported) (w_script w) /\ MAX_MTU < reported))
    (λ _, True) w.
Proof.
  unfold decrease_mtu. cbn [negb]. apply wp_bind. unfold get_mtu_from_ssl, int_. apply wp_ask; [done|].
  intros [] s x Hs; try done. intros [= <-]. apply wp_bind, wp_act, wp_ret.
  destruct (smaller_mtu_bounds mtu v) as [Hb Hd]. split; [done|]. split; [cbn; by rewrite last_snoc|]. intros Hm.
  destruct (Z.leb_spec v MAX_MTU); [left; by apply Hd|]. right. exists v. split; [|done]. rewrite Hs. by left.
Qed.

Section rules.
Context {F : Prop}.

Lemma wp_int Q E w : E w -> (forall v s, w_script w = AInt v :: s -> Q v (pop w s)) -> wpf F int_ Q E w.
Proof. intros HE HQ. apply wp_ask; [done|]. intros [] s x Hs; naive_solver. Qed.

Lemma wp_getsockopt (Q : option Z -> world -> Prop) w :
  (forall v w', Q v w') -> wpf F getsockopt Q (λ _, True) w.
Proof.
  intros HQ. apply wp_bind, wp_syscall; [done|]. intros rc err s Hs. split; intros Hr; destruct (Z.ltb_spec rc 0); try lia.
  - apply wp_ret, HQ.
  - apply wp_bind, wp_int; [done|]. intros. apply wp_ret, HQ.
Qed.
End rules.

(** What is read of a socket fits the option: a byte, or the value that says there is none. *)
Theorem get_raw_socket_bounds fd family w :
  wp (ttl ← get_raw_socket_ttl fd family; tos ← get_raw_socket_tos fd family; mret (ttl, tos))
    (λ r _, (0 <= r.1 <= 255 \/ r.1 = TTL_IGNORE) /\ (0 <= r.2 <= 255 \/ r.2 = TOS_IGNORE)) (λ _, True) w.
Proof.
  assert (forall ttl, 0 <= CORRECT_RAW_TTL ttl <= 255) as Httl.
  { intros ttl. unfold CORRECT_RAW_TTL. destruct (Z.ltb_spec ttl 0), (Z.ltb_spec 255 ttl); cbn [orb]; lia. }
  assert (forall tos, 0 <= CORRECT_RAW_TOS tos <= 255) as Htos.
  { intros tos. unfold CORRECT_RAW_TOS. destruct (Z.ltb_spec tos 0), (Z.ltb_spec 255 tos); cbn [orb]; lia. }
  apply wp_bind, wp_bind, wp_getsockopt. intros v w1. apply wp_ret, wp_bind, wp_bind, wp_getsockopt. intros v' w2.
  apply wp_ret, wp_ret. cbn [fst snd]. split; [destruct v; [left; apply Httl|by right]|destruct v'; [left; apply Htos|by right]].
Qed.

(** Halving ends, with the first limit that is not refused, or 0. *)
Lemma rlimit_shifts cur w :
  0 <= cur -> wp (iter rlimit_turn cur) (λ r _, exists k, 0 <= k /\ r = Z.shiftr cur k) (λ _, True) w.
Proof.
  intros Hc. apply (wp_iter (λ c _, exists k, 0 <= k /\ c = Z.shiftr cur k)); [|by exists 0].
  intros c w1 (k & Hk & ->). apply wp_bind, wp_syscall; [done|]. intros rc err s Hs.
  assert (length s < length (w_script w1))%nat by (rewrite Hs; cbn; lia).
  split; intros Hr; (destruct ((rc <? 0) && (0 <? Z.shiftr cur k)); apply wp_ret; [|by exists k]).
  all: split; [|done]; exists (k + 1); split; [lia|]; by rewrite Z.shiftr_shiftr by lia.
Qed.

(** Setting the system up ends and faults nowhere; the limit it returns is 0 or the greatest one the system allows, halved
    as often as the system refused. *)
Theorem set_system_parameters_limit max_resources w :
  wp (set_system_parameters max_resources)
    (λ r _, r = 0 \/ max_resources <> 0 /\ exists rlim_max k, 0 <= k /\ r = Z.shiftr (u64 rlim_max) k) (λ _, True) w.
Proof.
  unfold set_system_parameters, turn_getRandTime. apply wp_bind, wp_bind, wp_time; [done|]. intros t s _.
  apply wp_bind, wp_int; [done|]. intros n s' _. apply wp_ret, wp_bind, wp_syscall; [done|]. intros rc err s'' _.
  split; intros _; unfold truth; (destruct (Z.eqb_spec max_resources 0); cbn [negb]; [apply wp_ret; by left|]).
  all: apply wp_bind, wp_getsockopt; intros [v|] w'; [|apply wp_ret; by left].
  all: eapply wp_post; [apply rlimit_shifts; unfold u64; apply Z.mod_pos_bound; lia|]; intros r w'' _ (k & Hk & ->); right; split; [done|]; by exists v, k.
Qed.
