(* ===== verification/ConfigFile.v ===== *)
(** The search for a configuration file, [common/apputils.c]: the directories that are tried,
    the directory of the executable, and the name that is printed.

    The names are built in blocks of memory the way the code builds them; [readable] says
    whether [fopen(fn,"r")] succeeds.  The name that is printed goes to the log and is the
    result of its function here.  [malloc] does not fail. *)

From S2P Require Import Prelude CString.

Definition skip_blanks : list Z -> option (list Z) :=
  fix skip s := match s with
                | [] => None
                | c :: s' => if (c =? 32) || (c =? 9) || (c =? 10) then skip s' else Some s
                end.

(** The build does not define [INSTALL_PREFIX], so [QUOTE] gives its name. *)
Definition config_file_search_dirs : list (list Z) :=
  map lit
    ["./"; "./turnserver/"; "./coturn/"; "./etc/"; "./etc/turnserver/"; "./etc/coturn/"; "../etc/"; "../etc/turnserver/";
     "../etc/coturn/"; "/etc/"; "/etc/turnserver/"; "/etc/coturn/"; "/usr/local/etc/"; "/usr/local/etc/turnserver/";
     "/usr/local/etc/coturn/"; "INSTALL_PREFIX/etc/"; "INSTALL_PREFIX/etc/turnserver/"; "INSTALL_PREFIX/etc/coturn/"]%string.

(** [strncpy(dst+off,src,n)] *)
Definition strncpy (dst : list Z) (off : Z) (src : list Z) (n : Z) : option (list Z) :=
  s ← c_str src; wr_block dst off (strncpy_field s n).

(** * The directory of the executable *)

(** Leading slashes go, but for the last character. *)
Fixpoint strip_slashes (r : list Z) : list Z :=
  match r with
  | c :: r' => match r' with [] => r | _ => if c =? 47 then strip_slashes r' else r end
  | [] => r
  end.

(** Up to a slash, or to the last character. *)
Fixpoint to_slash (r : list Z) : list Z :=
  match r with
  | c :: r' => match r' with [] => r | _ => if c =? 47 then r else to_slash r' end
  | [] => r
  end.

(** [dirname], from the end of the path. *)
Definition dirname (t : list Z) : list Z :=
  match to_slash (strip_slashes (rev t)) with
  | [] => [46]
  | [c] => if c =? 47 then [47] else [46]
  | _ :: r => rev (strip_slashes r)
  end.

(** [var]: the environment variable [_].  The result is the new [c_execdir]. *)
Definition set_execdir (var c_execdir : option (list Z)) : option (option (list Z)) :=
  match var with
  | None => Some c_execdir
  | Some v =>
    c ← rd8 v 0;
    if truth c then
      p ← (if negb (c =? 46) then strstr v [47] else Some (Some 0));
      e ← (match p with Some p => Some (drop (Z.to_nat p) v) | None => Some [0] end);
      h ← rd8 e 0;
      t ← c_str (if truth h then e else v);
      Some (Some (dirname t))
    else Some c_execdir
  end.

(** * The name that is printed *)

(** [while(fn[0] && fn[0]==' ') ++fn;] *)
Fixpoint skip_spaces (fn : list Z) : option (list Z) :=
  match fn with
  | [] => None
  | c :: fn' => if c =? 32 then skip_spaces fn' else Some fn
  end.

(** [cwd]: the directory [getcwd] finds; a name of 1024 characters and more does not fit. *)
Definition getcwd (dst : list Z) (size : Z) (cwd : option (list Z)) : option (list Z) :=
  match cwd with
  | Some d => if zlen d <? size then wr_block dst 0 (d ++ [0]) else wr8 dst 0 0
  | None => wr8 dst 0 0
  end.

(** [fn]: not NULL.  [j] fills the local array.  The result is [absfn]. *)
Definition print_abs_file_name (fn : list Z) (cwd : option (list Z)) (j : Z) : option (list Z) :=
  absfn ← wr8 (replicate 1025 j) 0 0;
  fn ← skip_spaces fn;
  c ← rd8 fn 0;
  if truth c then
    if c =? 47 then STRCPY absfn 1025 fn else
    c1 ← (if c =? 46 then rd8 fn 1 else Some 0);
    let fn := if (c =? 46) && (c1 =? 47) then drop 2 fn else fn in
    absfn ← getcwd absfn 1024 cwd;
    blen ← strlen absfn;
    absfn ← (if blen <? 1024 then
               a ← strncpy absfn blen (lit "/" ++ [0]) (1025 - blen);
               strncpy a (blen + 1) fn (1025 - blen - 1)
             else STRCPY absfn 1025 fn);
    wr8 absfn 1024 0
  else Some absfn.

(** * The search *)

Section search.
Context (readable : list Z -> bool) (c_execdir : option (list Z)) (j : Z).

(** [fopen(fn,"r")] succeeds. *)
Definition fopen (fn : list Z) : option bool := readable <$> c_str fn.

(** [dir ++ config_file], in a block with ten bytes to spare. *)
Definition dir_name (dir config_file : list Z) : option (list Z) :=
  cflen ← strlen config_file;
  let dirlen := zlen dir in
  let fnsz := dirlen + cflen + 10 in
  fn ← strncpy (replicate (Z.to_nat (fnsz + 1)) j) 0 (dir ++ [0]) fnsz;
  fn ← strncpy fn dirlen config_file (fnsz - dirlen);
  wr8 fn fnsz 0.

(** [if(fnlen<fnsz) strncpy(fn+fnlen,src,fnsz-fnlen)], where [fnlen] is the length of [fn]. *)
Definition append (fn src : list Z) (fnsz : Z) : option (list Z) :=
  fnlen ← strlen fn;
  if fnlen <? fnsz then strncpy fn fnlen src (fnsz - fnlen) else Some fn.

(** [execdir ++ "/" ++ dir ++ config_file]; once [fn] is full the rest is not appended. *)
Definition exec_name (execdir dir config_file : list Z) : option (list Z) :=
  cflen ← strlen config_file;
  let fnsz := zlen dir + cflen + zlen execdir + 10 in
  fn ← strncpy (replicate (Z.to_nat (fnsz + 1)) j) 0 (execdir ++ [0]) fnsz;
  fn ← append fn (lit "/" ++ [0]) fnsz;
  fn ← append fn (dir ++ [0]) fnsz;
  fn ← append fn config_file fnsz;
  wr8 fn fnsz 0.

(** A directory of the executable is tried for the names that are neither absolute nor begin with a dot. *)
Definition exec_tried (dir : list Z) : bool :=
  match dir, c_execdir with
  | c :: _, Some (_ :: _) => negb (c =? 47) && negb (c =? 46)
  | _, _ => false
  end.

Definition try_exec (dir config_file : list Z) : option (option (list Z)) :=
  match c_execdir with
  | Some e =>
    if exec_tried dir then
      fn ← exec_name e dir config_file;
      d ← strstr fn (lit "//");
      if match d with Some p => p =? 0 | None => false end then Some None else
      ok ← fopen fn;
      if (ok : bool) then Some (Some fn) else Some None
    else Some None
  | None => Some None
  end.

(** The loop over [config_file_search_dirs]. *)
Fixpoint search_dirs (dirs : list (list Z)) (config_file : list Z) : option (option (list Z)) :=
  match dirs with
  | [] => Some None
  | dir :: dirs =>
    fn ← dir_name dir config_file;
    ok ← fopen fn;
    if (ok : bool) then Some (Some fn) else
    r ← try_exec dir config_file;
    match r with Some fn => Some (Some fn) | None => search_dirs dirs config_file end
  end.

(** [config_file]: not NULL. *)
Fixpoint find_config_file (config_file : list Z) : option (option (list Z)) :=
  c ← rd8 config_file 0;
  if truth c then
    found ← (if (c =? 47) || (c =? 126) then
               ok ← fopen config_file;
               if (ok : bool) then t ← c_str config_file; Some (Some (t ++ [0])) else Some None
             else search_dirs config_file_search_dirs config_file);
    match found with
    | Some fn => Some (Some fn)
    | None =>
      d ← strstr config_file (lit "etc/");
      if match d with Some p => p =? 0 | None => false end then
        match config_file with _ :: _ :: _ :: _ :: rest => find_config_file rest | _ => None end
      else Some None
    end
  else Some None.

End search.
