(* ===== verification/ConfigSpec.v ===== *)
(** The search for a configuration file finds the first name that can be read: the names are
    the directories of the list, each followed by its counterpart next to the executable, and
    a leading [etc/] is taken off when all of them fail.  No write leaves its block. *)

From S2P Require Import Prelude CString ConfigFile.

(** * The names that are tried *)

(** The name next to the executable, if there is one: for the directories that are neither absolute nor begin with a dot. *)
Definition exec_path (c_execdir : option (list Z)) (dir t : list Z) : list (list Z) :=
  match c_execdir, dir with
  | Some (x :: e), c :: _ =>
    let p := (x :: e) ++ lit "/" ++ dir ++ t in
    if bool_decide (c = 47 \/ c = 46 \/ lit "//" `prefix_of` p) then [] else [p]
  | _, _ => []
  end.

Definition candidates (c_execdir : option (list Z)) (t : list Z) : list (list Z) :=
  concat (map (λ dir, (dir ++ t) :: exec_path c_execdir dir t) config_file_search_dirs).

Fixpoint paths (c_execdir : option (list Z)) (t : list Z) : list (list Z) :=
  match t with
  | [] => []
  | h :: _ =>
    (if (h =? 47) || (h =? 126) then [t] else candidates c_execdir t) ++
    match t with
    | a :: b :: c :: d :: rest => if bool_decide ([a; b; c; d] = lit "etc/") then paths c_execdir rest else []
    | _ => []
    end
  end.

(** * Strings *)

Lemma starts_with_prefix_of m t x : c_str m = Some t -> nonzero x -> starts_with m x = Some (bool_decide (x `prefix_of` t)).
Proof.
  intros Hm Hx. revert m t Hm. induction Hx as [|c x Hc Hx IH]; intros m t Hm.
  - destruct m; cbn [starts_with]; rewrite bool_decide_true by (apply prefix_nil); done.
  - destruct m as [|d m]; [done|]. cbn [starts_with c_str] in *. destruct (Z.eqb_spec d c) as [->|Hne].
    + destruct (Z.eqb_spec c 0); [done|]. inv_bind. erewrite IH by eassumption. f_equal. apply bool_decide_ext.
      split; [apply prefix_cons|apply prefix_cons_inv_2].
    + rewrite bool_decide_false; [done|]. intros Hp. destruct (Z.eqb_spec d 0); [injection Hm as <-; by apply prefix_nil_not in Hp|].
      inv_bind. by apply prefix_cons_inv_1 in Hp.
Qed.

Lemma strstr_total m t x :
  c_str m = Some t -> nonzero x -> x ≠ [] ->
  exists r, strstr m x = Some r /\ (forall p, r = Some p -> 0 <= p) /\
            match r with Some p => p =? 0 | None => false end = bool_decide (x `prefix_of` t).
Proof.
  intros Hm Hx Hne. revert t Hm. induction m as [|c m IH]; intros t Hm; [done|].
  cbn [strstr]. rewrite (starts_with_prefix_of _ t) by done. cbn [mbind option_bind].
  destruct (bool_decide (x `prefix_of` t)) eqn:Hb; [by exists (Some 0); split; [|split; [intros p [= <-]|]]|].
  cbn [c_str] in Hm. destruct (Z.eqb_spec c 0); [by exists None|]. inv_bind.
  edestruct IH as (r & -> & Hp & _); [eassumption|]. eexists. split; [done|]. split; [|].
  - intros p. destruct r as [q|]; [|done]. intros [= <-]. specialize (Hp q eq_refl). lia.
  - destruct r as [q|]; [|done]. cbn [option_map]. specialize (Hp q eq_refl). by destruct (Z.eqb_spec (Z.succ q) 0); [lia|].
Qed.

Lemma find_app {A} (f : A -> bool) a b : List.find f (a ++ b) = match List.find f a with Some x => Some x | None => List.find f b end.
Proof. induction a as [|x a IH]; [done|]. cbn. by destruct (f x). Qed.

(** * Blocks *)

(** A string after the one that is there. *)
Lemma strncpy_at d s src t n :
  take (length s) d = s -> nonzero s -> c_str src = Some t -> zlen t < n -> zlen s + n <= zlen d ->
  exists d', strncpy d (zlen s) src n = Some d' /\ zlen d' = zlen d /\ c_str d' = Some (s ++ t).
Proof.
  intros Hd Hs Hsrc Hn Hz. unfold strncpy. rewrite Hsrc. cbn [mbind option_bind].
  destruct (c_str_Some _ _ Hsrc) as [Ht _]. pose proof (zlen_nonneg s). pose proof (zlen_nonneg t).
  assert (zlen (strncpy_field t n) = n) as Hf by (unfold strncpy_field, zlen in *; rewrite length_app, length_take, length_replicate; lia).
  destruct (wr_block d (zlen s) (strncpy_field t n)) as [d'|] eqn:Hw; [|rewrite wr_block_ok in Hw by lia; done].
  exists d'. split; [done|]. split; [by apply wr_block_zlen in Hw|]. apply wr_block_Some in Hw as (_ & _ & ->).
  assert (strncpy_field t n = t ++ 0 :: replicate (Z.to_nat n - length t - 1) 0) as ->.
  { unfold strncpy_field. rewrite take_ge by (unfold zlen in *; lia).
    destruct (Z.to_nat n - length t)%nat as [|k] eqn:Hk; [unfold zlen in *; lia|]. by rewrite Nat.sub_succ, Nat.sub_0_r. }
  unfold zlen at 1. rewrite Nat2Z.id, Hd, <- app_assoc. cbn [app]. rewrite app_assoc. apply c_str_terminated. by apply Forall_app.
Qed.

Lemma strncpy_after d s src t n :
  c_str d = Some s -> c_str src = Some t -> zlen t < n -> zlen s + n <= zlen d ->
  exists d', strncpy d (zlen s) src n = Some d' /\ zlen d' = zlen d /\ c_str d' = Some (s ++ t).
Proof.
  intros Hd. destruct (c_str_Some _ _ Hd) as (Hs & r & ->). apply strncpy_at; [|done]. by rewrite take_app_length.
Qed.

Lemma strncpy_start d src t n :
  c_str src = Some t -> zlen t < n -> n <= zlen d ->
  exists d', strncpy d 0 src n = Some d' /\ zlen d' = zlen d /\ c_str d' = Some t.
Proof. intros. apply (strncpy_at d []); try done. by constructor. Qed.

(** A terminator behind the string. *)
Lemma wr8_behind d s p : c_str d = Some s -> zlen s < p < zlen d -> exists d', wr8 d p 0 = Some d' /\ zlen d' = zlen d /\ c_str d' = Some s.
Proof.
  intros Hd Hp. unfold wr8. pose proof (zlen_nonneg s). destruct (wr_block d p [u8 0]) as [d'|] eqn:Hw; [|rewrite wr_block_ok in Hw by (rewrite ?zlen_1; lia); done].
  exists d'. split; [done|]. split; [by apply wr_block_zlen in Hw|]. apply wr_block_Some in Hw as (_ & _ & ->).
  destruct (c_str_Some _ _ Hd) as (Hs & r & ->). rewrite take_app, take_ge by (unfold zlen in *; lia).
  rewrite <- app_assoc. destruct (Z.to_nat p - length s)%nat as [|k] eqn:Hk; [unfold zlen in *; lia|]. by apply c_str_terminated.
Qed.

Lemma zlen_junk n (j : Z) : 0 <= n -> zlen (replicate (Z.to_nat n) j) = n.
Proof. intros. unfold zlen. rewrite length_replicate. lia. Qed.

(** * The names *)

Section search.
Context (readable : list Z -> bool) (c_execdir : option (list Z)) (j : Z).
Hypothesis exec_nonzero : forall e, c_execdir = Some e -> nonzero e.

Lemma dir_name_text dir m t :
  nonzero dir -> c_str m = Some t -> exists fn, dir_name j dir m = Some fn /\ c_str fn = Some (dir ++ t).
Proof.
  intros Hdir Hm. unfold dir_name, strlen. rewrite Hm. cbn [fmap option_fmap option_map mbind option_bind].
  pose proof (zlen_nonneg dir) as Pd. pose proof (zlen_nonneg t) as Pt. set (n := zlen dir + zlen t + 10).
  destruct (strncpy_start (replicate (Z.to_nat (n + 1)) j) (dir ++ [0]) dir n) as (d1 & -> & Hz1 & H1);
    [by apply c_str_cstring|lia|rewrite zlen_junk; lia|]. cbn [mbind option_bind]. rewrite zlen_junk in Hz1 by lia.
  destruct (strncpy_after d1 dir m t (n - zlen dir)) as (d2 & -> & Hz2 & H2); [done|done|lia|lia|]. cbn [mbind option_bind].
  destruct (wr8_behind d2 (dir ++ t) n) as (d3 & -> & _ & H3); [done|rewrite zlen_app; lia|]. by exists d3.
Qed.

Lemma append_text fn s src t n :
  c_str fn = Some s -> c_str src = Some t -> zlen s + zlen t < n -> n <= zlen fn ->
  exists fn', append fn src n = Some fn' /\ zlen fn' = zlen fn /\ c_str fn' = Some (s ++ t).
Proof.
  intros Hfn Hsrc Hn Hz. unfold append, strlen. rewrite Hfn. cbn [fmap option_fmap option_map mbind option_bind].
  pose proof (zlen_nonneg t) as Pt. destruct (Z.ltb_spec (zlen s) n); [|lia]. apply strncpy_after; [done|done|lia|lia].
Qed.

Lemma exec_name_text e dir m t :
  nonzero e -> nonzero dir -> c_str m = Some t ->
  exists fn, exec_name j e dir m = Some fn /\ c_str fn = Some (e ++ lit "/" ++ dir ++ t).
Proof.
  intros He Hdir Hm. unfold exec_name, strlen. rewrite Hm. cbn [fmap option_fmap option_map mbind option_bind].
  pose proof (zlen_nonneg dir) as Pd. pose proof (zlen_nonneg t) as Pt. pose proof (zlen_nonneg e) as Pe. set (n := zlen dir + zlen t + zlen e + 10).
  assert (zlen (lit "/") = 1) as Hsl by done.
  destruct (strncpy_start (replicate (Z.to_nat (n + 1)) j) (e ++ [0]) e n) as (d1 & -> & Hz1 & H1);
    [by apply c_str_cstring|lia|rewrite zlen_junk; lia|]. cbn [mbind option_bind]. rewrite zlen_junk in Hz1 by lia.
  destruct (append_text d1 e (lit "/" ++ [0]) (lit "/") n) as (d2 & -> & Hz2 & H2); [done|done|lia|lia|]. cbn [mbind option_bind].
  destruct (append_text d2 _ (dir ++ [0]) dir n H2) as (d3 & -> & Hz3 & H3); [by apply c_str_cstring|rewrite zlen_app; lia|lia|].
  cbn [mbind option_bind].
  destruct (append_text d3 _ m t n H3 Hm) as (d4 & -> & Hz4 & H4); [rewrite !zlen_app; lia|lia|]. cbn [mbind option_bind].
  destruct (wr8_behind d4 _ n H4) as (d5 & -> & _ & H5); [rewrite !zlen_app; lia|]. exists d5. split; [done|]. by rewrite H5, !app_assoc.
Qed.

(** The block that was found holds the name. *)
Definition holds (fn p : option (list Z)) : Prop :=
  match fn, p with Some fn, Some p => c_str fn = Some p | None, None => True | _, _ => False end.

Lemma find_1 p : List.find readable [p] = if readable p then Some p else None.
Proof. done. Qed.

Lemma try_exec_finds dir m t :
  nonzero dir -> c_str m = Some t ->
  exists r, try_exec readable c_execdir j dir m = Some r /\ holds r (List.find readable (exec_path c_execdir dir t)).
Proof using exec_nonzero.
  intros Hdir Hm. unfold try_exec, exec_path. destruct c_execdir as [e|] eqn:Ee; [|by exists None].
  unfold exec_tried. destruct dir as [|c dir]; [by destruct e; exists None|]. destruct e as [|x e]; [by exists None|].
  destruct (Z.eqb_spec c 47) as [->|]; [by exists None|]. destruct (Z.eqb_spec c 46) as [->|]; [by exists None|]. cbn [negb andb].
  destruct (exec_name_text (x :: e) (c :: dir) m t) as (fn & -> & Hfn); [by apply exec_nonzero|done|done|]. cbn [mbind option_bind].
  destruct (strstr_total fn _ (lit "//") Hfn) as (r & -> & _ & Hr); [by repeat constructor|done|]. cbn [mbind option_bind]. rewrite Hr.
  destruct (bool_decide_reflect (lit "//" `prefix_of` (x :: e) ++ lit "/" ++ (c :: dir) ++ t)).
  { rewrite bool_decide_true by (by do 2 right). by exists None. }
  rewrite bool_decide_false by (intros [?|[?|?]]; done).
  unfold fopen. rewrite Hfn. cbn [fmap option_fmap option_map mbind option_bind].
  rewrite find_1. destruct (readable _); [by exists (Some fn)|by exists None].
Qed.

Lemma search_dirs_finds dirs m t :
  Forall nonzero dirs -> c_str m = Some t ->
  exists r, search_dirs readable c_execdir j dirs m = Some r /\
            holds r (List.find readable (concat (map (λ dir, (dir ++ t) :: exec_path c_execdir dir t) dirs))).
Proof using exec_nonzero.
  intros Hdirs Hm. induction Hdirs as [|dir dirs Hdir _ IH]; [by exists None|].
  cbn [search_dirs map concat List.find app]. destruct (dir_name_text dir m t Hdir Hm) as (fn & -> & Hfn). cbn [mbind option_bind].
  unfold fopen. rewrite Hfn. cbn [fmap option_fmap option_map mbind option_bind].
  destruct (readable (dir ++ t)); [by exists (Some fn)|]. rewrite find_app.
  destruct (try_exec_finds dir m t Hdir Hm) as (r & -> & Hr). cbn [mbind option_bind].
  destruct r as [fn'|], (List.find readable (exec_path _ _ _)) as [p|]; try done. by exists (Some fn').
Qed.

Lemma search_dirs_nonzero : Forall nonzero config_file_search_dirs.
Proof. repeat first [constructor | done]. Qed.

Lemma candidates_finds m t :
  c_str m = Some t ->
  exists r, search_dirs readable c_execdir j config_file_search_dirs m = Some r /\ holds r (List.find readable (candidates c_execdir t)).
Proof using exec_nonzero. apply search_dirs_finds, search_dirs_nonzero. Qed.

Lemma first_level m t h s :
  c_str m = Some t -> t = h :: s ->
  exists r, (if (h =? 47) || (h =? 126) then
               ok ← fopen readable m; if (ok : bool) then t ← c_str m; Some (Some (t ++ [0])) else Some None
             else search_dirs readable c_execdir j config_file_search_dirs m) = Some r /\
            holds r (List.find readable (if (h =? 47) || (h =? 126) then [t] else candidates c_execdir t)).
Proof using exec_nonzero.
  intros Hm Ht. destruct ((h =? 47) || (h =? 126)); [|by apply candidates_finds].
  unfold fopen. rewrite Hm. cbn [fmap option_fmap option_map mbind option_bind]. rewrite find_1.
  destruct (c_str_Some _ _ Hm) as [Hnz _]. destruct (readable t); [exists (Some (t ++ [0]))|by exists None].
  split; [done|]. cbn [holds]. by apply c_str_cstring.
Qed.

End search.

(** * The search *)

(** Taking [etc/] off, of the memory and of the text. *)
Lemma etc_off m t :
  c_str m = Some t -> bool_decide (lit "etc/" `prefix_of` t) = true ->
  exists m' t', m = 101 :: 116 :: 99 :: 47 :: m' /\ t = 101 :: 116 :: 99 :: 47 :: t' /\ c_str m' = Some t'.
Proof.
  intros Hm Hb. apply bool_decide_eq_true in Hb as [t' ->]. destruct (c_str_Some _ _ Hm) as (Hnz & r & ->).
  apply Forall_app in Hnz as [_ Hnz]. exists (t' ++ 0 :: r), t'. split; [done|]. split; [done|]. by apply c_str_terminated.
Qed.

Lemma no_etc h s c_execdir :
  bool_decide (lit "etc/" `prefix_of` (h :: s)) = false ->
  match h :: s with
  | a :: b :: c :: d :: rest => if bool_decide ([a; b; c; d] = lit "etc/") then paths c_execdir rest else []
  | _ => []
  end = [].
Proof.
  intros Hb%bool_decide_eq_false. destruct s as [|b [|c [|d s]]]; try done. destruct (bool_decide ([h; b; c; d] = _)) eqn:Hd; [|done].
  apply bool_decide_eq_true in Hd. destruct Hb. change (h :: b :: c :: d :: s) with ([h; b; c; d] ++ s). rewrite Hd. by apply prefix_app_r.
Qed.

Lemma find_config_file_finds readable c_execdir j :
  (forall e, c_execdir = Some e -> nonzero e) ->
  forall n m t, (length t <= n)%nat -> c_str m = Some t ->
  exists r, find_config_file readable c_execdir j m = Some r /\ holds r (List.find readable (paths c_execdir t)).
Proof.
  intros He n. induction n as [|n IH]; intros m t Hn Hm.
  all: destruct m as [|h m]; [done|]; destruct t as [|h' s].
  1, 3: cbn [c_str] in Hm; destruct (Z.eqb_spec h 0) as [->|]; [|by inv_bind]; exists None; (split; [cbn [find_config_file]; by rewrite rd8_head|done]).
  { cbn in Hn. lia. }
  assert (h' = h /\ h <> 0) as [-> Hh] by (cbn [c_str] in Hm; destruct (Z.eqb_spec h 0); [done|]; destruct (c_str m); [|done]; by injection Hm).
  destruct (first_level readable c_execdir j He (h :: m) (h :: s) h s Hm eq_refl) as (r & Hr & Hf).
  destruct (strstr_total (h :: m) (h :: s) (lit "etc/") Hm) as (d & Hd & _ & Hdp); [by repeat constructor|done|].
  cbn [find_config_file]. rewrite rd8_head. cbn [mbind option_bind]. unfold truth. destruct (Z.eqb_spec h 0); [done|]. cbn [negb].
  rewrite Hr. cbn [mbind option_bind]. cbn [paths]. rewrite find_app.
  destruct r as [fn|], (List.find readable (if _ || _ then _ else _)) as [p|]; try done; [by exists (Some fn)|].
  rewrite Hd. cbn [mbind option_bind]. rewrite Hdp. destruct (bool_decide (lit "etc/" `prefix_of` h :: s)) eqn:Hb.
  - destruct (etc_off _ _ Hm Hb) as (m' & t' & [= -> ->] & [= ->] & Hm'). apply IH; [cbn in Hn; lia|done].
  - exists None. split; [done|]. by rewrite (no_etc _ _ _ Hb).
Qed.

(** C27. The search gives the first name that can be read, in a block that holds it, or nothing if none can: an absolute name
    as it is; another one in the directories of the list, with the directory of the executable in front of those that are
    neither absolute nor begin with a dot, and then again without its leading [etc/].  It writes inside its blocks and
    ends, for every name and every directory. *)
Theorem find_config_file_first readable c_execdir j t :
  nonzero t -> (forall e, c_execdir = Some e -> nonzero e) ->
  exists r, find_config_file readable c_execdir j (t ++ [0]) = Some r /\ holds r (List.find readable (paths c_execdir t)).
Proof. intros Ht He. eapply (find_config_file_finds readable c_execdir j He (length t)); [done|by apply c_str_cstring]. Qed.

(** One file, next to the executable. *)
Definition conf_only (fn : list Z) : bool := bool_decide (fn = lit "/opt/turn/INSTALL_PREFIX/etc/turn.conf").

Theorem find_config_file_first_witness :
  exists r, find_config_file conf_only (Some (lit "/opt/turn")) 7 (lit "etc/turn.conf" ++ [0]) = Some r /\
            holds r (List.find conf_only (paths (Some (lit "/opt/turn")) (lit "etc/turn.conf"))).
Proof.
  apply (find_config_file_first conf_only (Some (lit "/opt/turn")) 7 (lit "etc/turn.conf")); [by repeat first [constructor | done]|].
  intros e [= <-]. by repeat first [constructor | done].
Defined.

(** * The directory of the executable *)

Lemma suffix_last {A} (r l : list A) x : r `suffix_of` l ++ [x] -> r <> [] -> exists r', r = r' ++ [x].
Proof.
  intros [p Hp] Hne. destruct (exists_last Hne) as (r' & y & ->). exists r'. rewrite app_assoc in Hp. by apply app_inj_tail in Hp as [_ <-].
Qed.

Lemma strip_slashes_suffix l : strip_slashes l `suffix_of` l /\ (l <> [] -> strip_slashes l <> []).
Proof.
  induction l as [|c l [IH1 IH2]]; [done|]. cbn [strip_slashes]. destruct l as [|d l]; [done|]. case_if; [|done].
  split; [by apply suffix_cons_r|]. intros _. by apply IH2.
Qed.

Lemma to_slash_suffix l : to_slash l `suffix_of` l /\ (l <> [] -> to_slash l <> []).
Proof.
  induction l as [|c l [IH1 IH2]]; [done|]. cbn [to_slash]. destruct l as [|d l]; [done|]. case_if; [done|].
  split; [by apply suffix_cons_r|]. intros _. by apply IH2.
Qed.

(** The directory of an absolute name is absolute. *)
Lemma dirname_absolute r : exists d, dirname (47 :: r) = 47 :: d.
Proof.
  unfold dirname. cbn [rev]. destruct (strip_slashes_suffix (rev r ++ [47])) as [S1 N1].
  destruct (to_slash_suffix (strip_slashes (rev r ++ [47]))) as [S2 N2].
  assert (to_slash (strip_slashes (rev r ++ [47])) <> []) as N by (apply N2, N1; by destruct (rev r)).
  destruct (suffix_last (to_slash (strip_slashes (rev r ++ [47]))) (rev r) 47) as [u Hu]; [by etransitivity|done|]. rewrite Hu.
  destruct u as [|x u]; [by exists []|]. cbn [app]. destruct (u ++ [47]) as [|y v] eqn:E; [by destruct u|]. rewrite <- E.
  destruct (strip_slashes_suffix (u ++ [47])) as [S3 N3].
  destruct (suffix_last _ _ _ S3) as [k ->]; [apply N3; by destruct u|]. rewrite rev_app_distr. by eexists.
Qed.

(** For a relative path that does not begin with a dot, such as [build/turn], the code drops what is before the first slash:
    the directory of the executable becomes an absolute one. *)
Theorem set_execdir_relative s r c_execdir :
  s <> [] -> nonzero s -> nonzero r -> 47 ∉ s -> head s <> Some 46 ->
  exists d, set_execdir (Some (s ++ 47 :: r ++ [0])) c_execdir = Some (Some (47 :: d)).
Proof.
  intros Hne Hs Hr Hn Hd. destruct s as [|h s]; [done|]. destruct (dirname_absolute r) as (d & Hdir). exists d.
  unfold set_execdir. cbn [app]. rewrite rd8_head. cbn [mbind option_bind].
  assert (h <> 0) by by apply Forall_cons in Hs as [? _]. unfold truth. destruct (Z.eqb_spec h 0); [done|]. cbn [negb].
  destruct (Z.eqb_spec h 46) as [->|]; [done|]. cbn [negb].
  change (h :: s ++ 47 :: r ++ [0]) with ((h :: s) ++ 47 :: r ++ [0]). rewrite strstr_char by done. cbn [mbind option_bind].
  unfold zlen. rewrite Nat2Z.id, drop_app_length, rd8_head. cbn [mbind option_bind]. change (47 =? 0) with false. cbn [negb].
  change (47 :: r ++ [0]) with ((47 :: r) ++ [0]). rewrite c_str_terminated by (by constructor). cbn [mbind option_bind]. by rewrite Hdir.
Qed.

Theorem set_execdir_relative_witness : exists d, set_execdir (Some (lit "build" ++ 47 :: lit "turn" ++ [0])) None = Some (Some (47 :: d)).
Proof.
  apply (set_execdir_relative (lit "build") (lit "turn") None); try done; [by repeat first [constructor | done]..|].
  apply (bool_decide_eq_false_1 (47 ∈ lit "build")). by vm_compute.
Defined.

(** * The name that is printed *)

Lemma wr8_last d : zlen d = 1025 -> exists d' t, wr8 d 1024 0 = Some d' /\ zlen d' = 1025 /\ c_str d' = Some t.
Proof.
  intros Hz. unfold wr8. destruct (wr_block d 1024 [u8 0]) as [d'|] eqn:Hw; [|rewrite wr_block_ok in Hw by (rewrite ?zlen_1; lia); done].
  apply wr_block_zlen in Hw as Hz'. apply wr_block_Some in Hw as (_ & _ & ->).
  rewrite drop_ge in * by (rewrite zlen_1; unfold zlen in *; lia). rewrite app_nil_r in *.
  destruct (c_str_ended (take (Z.to_nat 1024) d)) as [t Ht]. eexists _, t. split; [done|]. split; [lia|exact Ht].
Qed.

Lemma strncpy_ok d off src t n :
  c_str src = Some t -> 0 <= off -> 0 <= n -> off + n <= zlen d -> exists d', strncpy d off src n = Some d' /\ zlen d' = zlen d.
Proof.
  intros Hs Ho Hn Hz. unfold strncpy. rewrite Hs. cbn [mbind option_bind].
  assert (zlen (strncpy_field t n) = n) as Hf by (unfold strncpy_field, zlen in *; rewrite length_app, length_take, length_replicate; lia).
  destruct (wr_block d off (strncpy_field t n)) as [d'|] eqn:Hw; [|rewrite wr_block_ok in Hw by lia; done].
  exists d'. split; [done|]. by apply wr_block_zlen in Hw.
Qed.

Lemma skip_spaces_text m t : c_str m = Some t -> exists m' t', skip_spaces m = Some m' /\ c_str m' = Some t'.
Proof.
  revert t. induction m as [|c m IH]; intros t Hm; [done|]. cbn [skip_spaces]. destruct (Z.eqb_spec c 32) as [->|]; [|by eexists _, _].
  cbn [c_str] in Hm. change (32 =? 0) with false in Hm. destruct (c_str m) as [s|]; [|done]. by apply (IH s).
Qed.

Lemma getcwd_text a cwd :
  zlen a = 1025 -> (forall d, cwd = Some d -> nonzero d) ->
  exists a' t, getcwd a 1024 cwd = Some a' /\ zlen a' = 1025 /\ c_str a' = Some t /\ zlen t < 1024.
Proof.
  intros Hz Hcwd. assert (exists a' t, wr8 a 0 0 = Some a' /\ zlen a' = 1025 /\ c_str a' = Some t /\ zlen t < 1024) as Hnone.
  { destruct a as [|x a]; [done|]. exists (0 :: a), []. split; [|done]. unfold wr8. by rewrite wr_block_ok by (rewrite ?zlen_1; lia). }
  destruct cwd as [d|]; cbn [getcwd]; [|done]. destruct (Z.ltb_spec (zlen d) 1024); [|done]. pose proof (zlen_nonneg d).
  destruct (wr_block a 0 (d ++ [0])) as [a'|] eqn:Hw; [|rewrite wr_block_ok in Hw by (rewrite ?zlen_app, ?zlen_1; lia); done].
  destruct (c_str_written a d a') as [Hz' Hc]; [by apply Hcwd|done|]. exists a', d. split; [done|]. split; [lia|done].
Qed.

(** Printing a name stays inside its array of 1025 bytes, however long the name and the working directory are, and the
    array ends up holding a string. *)
Theorem print_abs_file_name_safe fn cwd j :
  nonzero fn -> (forall d, cwd = Some d -> nonzero d) ->
  exists a t, print_abs_file_name (fn ++ [0]) cwd j = Some a /\ zlen a = 1025 /\ c_str a = Some t.
Proof.
  intros Hfn Hcwd. unfold print_abs_file_name.
  assert (wr8 (replicate 1025 j) 0 0 = Some (0 :: replicate 1024 j)) as -> by reflexivity.
  cbn [mbind option_bind]. set (a0 := 0 :: replicate 1024 j). assert (zlen a0 = 1025) as Hz0 by done.
  destruct (skip_spaces_text (fn ++ [0]) fn) as (m & t & -> & Hm); [by apply c_str_cstring|]. cbn [mbind option_bind].
  destruct m as [|c m]; [done|]. rewrite rd8_head. cbn [mbind option_bind]. unfold truth.
  destruct (Z.eqb_spec c 0); cbn [negb]; [by exists a0, []|].
  destruct (Z.eqb_spec c 47) as [->|].
  { destruct (STRCPY_cut a0 1025 (47 :: m) t Hm) as (d & -> & Hz & Hc); [done|lia|]. by eexists _, _. }
  assert (exists c1, (if c =? 46 then rd8 (c :: m) 1 else Some 0) = Some c1 /\
    exists tf, c_str (if (c =? 46) && (c1 =? 47) then drop 2 (c :: m) else c :: m) = Some tf) as (c1 & -> & tf & Htf).
  { destruct (Z.eqb_spec c 46) as [->|]; [|by exists 0; split; [|exists t]]. destruct m as [|c1 m]; [by cbn in Hm|]. exists c1. split; [unfold rd8, rd_block; pose proof (zlen_nonneg m); rewrite !zlen_cons; destruct (Z.leb_spec (1 + 1) (1 + (1 + zlen m))); [done|lia]|].
    destruct (Z.eqb_spec c1 47) as [->|]; [|by exists t]. cbn [drop andb]. cbn [c_str] in Hm. cbn in Hm. inv_bind. by eexists. }
  cbn [mbind option_bind]. set (f := if _ && _ then _ else _) in *.
  destruct (getcwd_text a0 cwd Hz0 Hcwd) as (a1 & d & -> & Hz1 & Hd & Hdl). cbn [mbind option_bind].
  unfold strlen. rewrite Hd. cbn [fmap option_fmap option_map mbind option_bind]. destruct (Z.ltb_spec (zlen d) 1024); [|lia].
  pose proof (zlen_nonneg d).
  destruct (strncpy_ok a1 (zlen d) (lit "/" ++ [0]) (lit "/") (1025 - zlen d)) as (a2 & -> & Hz2); [done|lia..|]. cbn [mbind option_bind].
  destruct (strncpy_ok a2 (zlen d + 1) f tf (1025 - zlen d - 1)) as (a3 & -> & Hz3); [done|lia..|]. cbn [mbind option_bind].
  destruct (wr8_last a3) as (a4 & t4 & -> & Hz4 & H4); [lia|]. by eexists _, _.
Qed.

Theorem print_abs_file_name_safe_witness :
  exists a t, print_abs_file_name (lit " ./turn.conf" ++ [0]) (Some (lit "/home")) 7 = Some a /\ zlen a = 1025 /\ c_str a = Some t.
Proof.
  apply (print_abs_file_name_safe (lit " ./turn.conf") (Some (lit "/home")) 7); [by repeat first [constructor | done]|].
  intros d [= <-]. by repeat first [constructor | done].
Defined.
