(* ===== verification/Partial.v ===== *)
(** Partial operations on a state: [None] is undefined behaviour.  The monad of the
    components that keep books of what a library holds, and its rules of total correctness. *)

From S2P Require Import Prelude.

Definition partial (W A : Type) : Type := W -> option (A * W).

#[export] Instance partial_ret {W} : MRet (partial W) := λ A a w, Some (a, w).
#[export] Instance partial_bind {W} : MBind (partial W) := λ A B k m w, match m w with Some (a, w) => k a w | None => None end.

Section rules.
Context {W : Type}.

Definition undefined {A} : partial W A := λ w, None.

(** A memory operation. *)
Definition mem {A} (x : option A) : partial W A := λ w, match x with Some a => Some (a, w) | None => None end.

Definition get {A} (f : W -> A) : partial W A := λ w, Some (f w, w).

Definition modify (f : W -> W) : partial W unit := λ w, Some (tt, f w).

(** [if(b) m] *)
Definition whenever (b : bool) (m : partial W unit) : partial W unit := if b then m else mret tt.

(** The operation is defined, and its result satisfies the postcondition. *)
Definition wpr {A} (m : partial W A) (Q : A -> W -> Prop) (w : W) : Prop :=
  match m w with Some (a, w') => Q a w' | None => False end.

Lemma wpr_ret {A} (a : A) (Q : A -> W -> Prop) w : Q a w -> wpr (mret a) Q w.
Proof. done. Qed.

Lemma wpr_bind {A B} (m : partial W A) (k : A -> partial W B) Q w : wpr m (λ a, wpr (k a) Q) w -> wpr (m ≫= k) Q w.
Proof. unfold wpr, mbind, partial_bind. by destruct (m w) as [[a w']|]. Qed.

Lemma wpr_mono {A} (m : partial W A) (P Q : A -> W -> Prop) w : wpr m P w -> (forall a w', P a w' -> Q a w') -> wpr m Q w.
Proof. unfold wpr. destruct (m w) as [[a w']|]; [|done]. auto. Qed.

Lemma wpr_seq {A B} (m : partial W A) (k : A -> partial W B) P Q w :
  wpr m P w -> (forall a w', P a w' -> wpr (k a) Q w') -> wpr (m ≫= k) Q w.
Proof. intros H Hk. apply wpr_bind. by eapply wpr_mono. Qed.

Lemma wpr_mem {A} (x : option A) a (Q : A -> W -> Prop) w : x = Some a -> Q a w -> wpr (mem x) Q w.
Proof. by intros ->. Qed.

Lemma wpr_get {A} (f : W -> A) (Q : A -> W -> Prop) w : Q (f w) w -> wpr (get f) Q w.
Proof. done. Qed.

Lemma wpr_modify (f : W -> W) (Q : unit -> W -> Prop) w : Q tt (f w) -> wpr (modify f) Q w.
Proof. done. Qed.

Lemma wpr_whenever (b : bool) m (Q : unit -> W -> Prop) w : (b = true -> wpr m Q w) -> (b = false -> Q tt w) -> wpr (whenever b m) Q w.
Proof. destruct b; cbn; auto. Qed.
End rules.
