(* ===== verification/Redis.v ===== *)
(** The asynchronous connection to a Redis server, [common/hiredis_libevent2.c]: the glue
    between the contexts of hiredis and the events of libevent.

    The state is the connection's structure [redisLibeventEvents] (the handle that callers
    keep) with what the two libraries hold of it: libevent's events, each pending or not, and
    the contexts of hiredis that were not freed.  An event or a context that was freed and is
    used again is undefined behaviour ([None]).  What the libraries decide - whether an event
    can be made, what [recv] sees, how a read or a write of hiredis ends - are arguments.
    Log output is left out. *)

From stdpp Require Import gmap.
From S2P Require Import Prelude Defs CString Partial.

(** * The libraries *)

Inductive what : Type := EV_READ | EV_WRITE.

Record event : Type := Event { ev_fd : Z; ev_what : what; ev_persist : bool; ev_pending : bool }.

(** A command as hiredis receives it: the text that is formatted, and its argument. *)
Inductive redis_command : Type :=
| AUTH (pwd : list Z)
| SELECT (db : Z)
| Message (format arg : list Z).

Record redisLibeventEvents : Type := Events {
  context : option Z;
  invalid : bool;
  allocated : bool;
  rev : option Z;
  wev : option Z;
  rev_set : bool;
  wev_set : bool;
  ip : list Z;
  port : Z;
  pwd : option (list Z);
  db : Z;
}.

Record redis_world : Type := RedisWorld {
  evs : gmap Z event;
  contexts : gmap Z Z;
  fresh_id : Z;
  handle : option redisLibeventEvents;
  sent : list (Z * redis_command);
}.

(** * The monad *)

Abbreviation redis := (partial redis_world).

(** A dereference of the handle. *)
Definition self : redis redisLibeventEvents := λ w, match handle w with Some e => Some (e, w) | None => None end.
Definition store (e : redisLibeventEvents) : redis unit :=
  modify (λ w, RedisWorld (evs w) (contexts w) (fresh_id w) (Some e) (sent w)).

(** The fields of the structure. *)
Definition with_context (e : redisLibeventEvents) (c : option Z) : redisLibeventEvents :=
  Events c (invalid e) (allocated e) (rev e) (wev e) (rev_set e) (wev_set e) (ip e) (port e) (pwd e) (db e).
Definition with_invalid (e : redisLibeventEvents) (b : bool) : redisLibeventEvents :=
  Events (context e) b (allocated e) (rev e) (wev e) (rev_set e) (wev_set e) (ip e) (port e) (pwd e) (db e).
Definition with_rev (e : redisLibeventEvents) (r : option Z) (s : bool) : redisLibeventEvents :=
  Events (context e) (invalid e) (allocated e) r (wev e) s (wev_set e) (ip e) (port e) (pwd e) (db e).
Definition with_wev (e : redisLibeventEvents) (r : option Z) (s : bool) : redisLibeventEvents :=
  Events (context e) (invalid e) (allocated e) (rev e) r (rev_set e) s (ip e) (port e) (pwd e) (db e).

(** * libevent *)

Definition with_evs (w : redis_world) (m : gmap Z event) : redis_world :=
  RedisWorld m (contexts w) (fresh_id w) (handle w) (sent w).

(** [made]: whether libevent has the memory. *)
Definition event_new (made : bool) (fd : Z) (k : what) (persist : bool) : redis (option Z) := λ w,
  if made then
    Some (Some (fresh_id w), RedisWorld (<[fresh_id w := Event fd k persist false]> (evs w)) (contexts w) (fresh_id w + 1) (handle w) (sent w))
  else Some (None, w).

Definition set_pending (b : bool) (id : Z) : redis unit := λ w,
  match evs w !! id with
  | Some v => Some (tt, with_evs w (<[id := Event (ev_fd v) (ev_what v) (ev_persist v) b]> (evs w)))
  | None => None
  end.
Definition event_add : Z -> redis unit := set_pending true.
Definition event_del : Z -> redis unit := set_pending false.

Definition event_free (id : Z) : redis unit := λ w,
  match evs w !! id with Some _ => Some (tt, with_evs w (delete id (evs w))) | None => None end.

(** The loop makes an event active: it stays pending if it is persistent. *)
Definition activate (id : Z) : redis unit := λ w,
  match evs w !! id with
  | Some v => if ev_pending v then set_pending (ev_persist v) id w else None
  | None => None
  end.

(** * The hooks *)

Definition redis_le_valid (e : redisLibeventEvents) : bool :=
  negb (invalid e) && match context e with Some _ => true | None => false end.

(** The handle that hiredis keeps in [ev.data] is the structure. *)
Definition redisLibeventAddRead : redis unit :=
  e ← self;
  match rev e with
  | Some r => if negb (rev_set e) then event_add r;; store (with_rev e (rev e) true) else mret tt
  | None => mret tt
  end.

Definition redisLibeventDelRead : redis unit :=
  e ← self;
  match rev e with
  | Some r => if rev_set e then event_del r;; store (with_rev e (rev e) false) else mret tt
  | None => mret tt
  end.

Definition redisLibeventAddWrite : redis unit :=
  e ← self;
  match wev e with
  | Some r => if negb (wev_set e) then event_add r;; store (with_wev e (wev e) true) else mret tt
  | None => mret tt
  end.

Definition redisLibeventDelWrite : redis unit :=
  e ← self;
  match wev e with
  | Some r => if wev_set e then event_del r;; store (with_wev e (wev e) false) else mret tt
  | None => mret tt
  end.

(** [if(ev) { if(ev_set) event_del(ev); event_free(ev); }] *)
Definition drop_event (ev : option Z) (ev_set : bool) : redis unit :=
  match ev with Some r => whenever ev_set (event_del r);; event_free r | None => mret tt end.

(** Both events of the structure: the reader's, then the writer's. *)
Definition drop_events (e : redisLibeventEvents) : redis unit :=
  drop_event (rev e) (rev_set e);; drop_event (wev e) (wev_set e).

Definition redisLibeventCleanup : redis unit :=
  e ← self;
  if allocated e then
    drop_events e;;
    store (with_context (with_wev (with_rev e None false) None false) None)
  else mret tt.

(** * hiredis *)

(** A context of hiredis: a function of it on one that was freed is undefined. *)
Definition live_context (c : Z) : redis Z := λ w,
  match contexts w !! c with Some fd => Some (fd, w) | None => None end.

(** [__redisAsyncDisconnect]: cleanup, and the context is freed (its own cleanup hook runs again). *)
Definition __redisAsyncDisconnect (c : Z) : redis unit :=
  live_context c;;
  redisLibeventCleanup;;
  redisLibeventCleanup;;
  modify (λ w, RedisWorld (evs w) (delete c (contexts w)) (fresh_id w) (handle w) (sent w)).

(** How a read or a write ends: the connection is still being made; it is broken; it went well
    ([complete]: all was written); or it went well and a reply then broke the connection. *)
Inductive io_end : Type := Connecting | Broken | Fine (complete : bool) | BadReply.

Definition redisAsyncHandleRead (c : Z) (r : io_end) : redis unit :=
  live_context c;;
  match r with
  | Connecting => mret tt
  | Broken => __redisAsyncDisconnect c
  | Fine _ => redisLibeventAddRead
  | BadReply => redisLibeventAddRead;; __redisAsyncDisconnect c
  end.

Definition redisAsyncHandleWrite (c : Z) (r : io_end) : redis unit :=
  live_context c;;
  match r with
  | Connecting => mret tt
  | Broken | BadReply => __redisAsyncDisconnect c
  | Fine complete => (if complete then redisLibeventDelWrite else redisLibeventAddWrite);; redisLibeventAddRead
  end.

(** [ok]: the command was accepted.  The result is that of [redisAsyncCommand != REDIS_OK]. *)
Definition redisAsyncCommand (c : Z) (cmd : redis_command) (ok : bool) : redis bool :=
  live_context c;;
  if ok then
    modify (λ w, RedisWorld (evs w) (contexts w) (fresh_id w) (handle w) (sent w ++ [(c, cmd)]));;
    redisLibeventAddWrite;;
    mret false
  else mret true.

(** The new context and its socket; [None] without memory. *)
Definition redisAsyncConnect (made : bool) (fd : Z) : redis (option Z) := λ w,
  if made then
    Some (Some (fresh_id w), RedisWorld (evs w) (<[fresh_id w := fd]> (contexts w)) (fresh_id w + 1) (handle w) (sent w))
  else Some (None, w).

(** * Connecting *)

(** What the libraries answer during an attachment: whether the context and the two events
    can be made, the socket, and whether the two commands are accepted. *)
Record answers : Type := Answers {
  connected : bool;
  sock : Z;
  rev_made : bool;
  wev_made : bool;
  auth_ok : bool;
  select_ok : bool;
}.

(** [if(redisAsyncCommand(...)!=REDIS_OK) e->invalid = 1;] *)
Definition command_or_invalid (c : Z) (cmd : redis_command) (ok : bool) : redis unit :=
  failed ← redisAsyncCommand c cmd ok;
  if (failed : bool) then e ← self; store (with_invalid e true) else mret tt.

(** AUTH and SELECT on a new connection. *)
Definition introduce (c : Z) (a : answers) : redis unit :=
  e ← self;
  (if redis_le_valid e then
     match pwd e with Some p => command_or_invalid c (AUTH p) (auth_ok a) | None => mret tt end
   else mret tt);;
  e ← self;
  whenever (redis_le_valid e) (command_or_invalid c (SELECT (db e)) (select_ok a)).

(** The two events of a context, into the structure. *)
Definition new_events (c : Z) (persist : bool) (a : answers) : redis bool :=
  fd ← live_context c;
  r ← event_new (rev_made a) fd EV_READ persist;
  e ← self;
  store (with_rev e r (rev_set e));;
  v ← event_new (wev_made a) fd EV_WRITE false;
  e ← self;
  store (with_wev e v (wev_set e));;
  mret (match r, v with Some _, Some _ => true | _, _ => false end).

(** [event_add(e->wev,NULL); e->wev_set = 1;] *)
Definition start_writing : redis unit :=
  e ← self;
  match wev e with Some v => event_add v;; store (with_wev e (wev e) true) | None => undefined end.

Definition redis_reconnect (a : answers) : redis unit :=
  e ← self;
  if negb (allocated e) then mret tt else
  drop_events e;;
  store (with_context (with_wev (with_rev e None false) None false) None);;
  ac ← redisAsyncConnect (connected a) (sock a);
  match ac with
  | None => mret tt
  | Some c =>
    e ← self;
    store (with_context e (Some c));;
    ok ← new_events c false a;
    if negb (ok : bool) then mret tt else
    start_writing;;
    e ← self;
    store (with_invalid e false);;
    introduce c a
  end.

Definition DEFAULT_REDIS_PORT : Z := 6379.

(** [ip] and [pwd] are C strings; [j] fills the local array.  The result is the handle: 0 for NULL.
    When hiredis has no memory, the error message is taken from the NULL pointer. *)
Definition redisLibeventAttach (ip0 : option (list Z)) (port0 : Z) (pwd0 : option (list Z)) (db0 : Z) (j : Z) (a : answers) : redis bool :=
  ipt ← λ w,
    (match (match ip0 with
            | Some s => c ← rd8 s 0; if truth c then STRCPY (replicate 256 j) 256 s else STRCPY (replicate 256 j) 256 (lit "127.0.0.1" ++ [0])
            | None => STRCPY (replicate 256 j) 256 (lit "127.0.0.1" ++ [0])
            end) ≫= c_str with
     | Some t => Some (t, w)
     | None => None
     end);
  pw ← λ w, (match pwd0 with
             | None => Some (None, w)
             | Some s => match c_str s with Some t => Some (Some t, w) | None => None end
             end);
  ac ← redisAsyncConnect (connected a) (sock a);
  match ac with
  | None => undefined
  | Some c =>
    store (Events (Some c) false true None None false false ipt (if 0 <? port0 then port0 else DEFAULT_REDIS_PORT) pw db0);;
    ok ← new_events c true a;
    if negb (ok : bool) then modify (λ w, RedisWorld (evs w) (contexts w) (fresh_id w) None (sent w));; mret false else
    start_writing;;
    introduce c a;;
    mret true
  end.

(** * Events and messages *)

(** The loop around [recv(fd,buf,sizeof(buf),MSG_PEEK)]: [n] interruptions, then the result [len]. *)
Fixpoint peek (n : nat) (len : Z) : Z :=
  match n with
  | O => len
  | S n => peek n len
  end.

Definition redisLibeventReadEvent (n : nat) (len : Z) (r : io_end) (a : answers) : redis unit :=
  e ← self;
  if redis_le_valid e then
    whenever (peek n len <? 1) (store (with_invalid e true));;
    e ← self;
    (if redis_le_valid e then
       match context e with Some c => redisAsyncHandleRead c r | None => mret tt end
     else mret tt)
  else redis_reconnect a.

Definition redisLibeventWriteEvent (r : io_end) : redis unit :=
  e ← self;
  if redis_le_valid e then
    match context e with Some c => redisAsyncHandleWrite c r | None => mret tt end
  else mret tt.

Definition is_redis_asyncconn_good : redis bool := λ w,
  Some (match handle w with Some e => redis_le_valid e | None => false end, w).

(** [snprintf(rm.format,sizeof(rm.format)-3,"%s %s ", command, key); strcpy(rm.format+strlen(rm.format),"%s");] *)
Definition message_format (command key : list Z) (junk : list Z) : option (list Z) :=
  f ← snprintf junk (513 - 3) (command ++ [32] ++ key ++ [32]);
  l ← strlen f;
  wr_block f l (lit "%s" ++ [0]).

(** [text]: what [vsnprintf] makes of the caller's arguments.  [junk]: the uninitialised [rm]. *)
Definition send_message_to_redis (command key text : list Z) (junk : list Z) (ok : bool) (a : answers) : redis unit := λ w,
  match handle w with
  | None => Some (tt, w)
  | Some e =>
    (whenever (negb (redis_le_valid e)) (redis_reconnect a);;
     e ← self;
     if redis_le_valid e then
       match context e with
       | Some c =>
         format ← (λ w, match message_format command key junk ≫= c_str with Some f => Some (f, w) | None => None end);
         arg ← (λ w, match snprintf junk (513 - 1) text ≫= c_str with Some t => Some (t, w) | None => None end);
         failed ← redisAsyncCommand c (Message format arg) ok;
         if (failed : bool) then e ← self; store (with_invalid e true) else mret tt
       | None => mret tt
       end
     else mret tt) w
  end.
