(* ===== verification/RedisSpec.v ===== *)
(** The connection to Redis keeps its books: whatever the libraries answer and in whatever
    order events fire and messages are sent, no event or context is used after it is freed,
    the live events are exactly those of the structure, and a pending event is marked as set.
    The converse fails, and with it the reading of replies after a reconnection. *)

From stdpp Require Import gmap.
From S2P Require Import Prelude Defs CString Partial Redis.

(** * The invariant *)

(** One of the two events: live, of its kind, pending only if marked. *)
Definition slot_ok (m : gmap Z event) (k : what) (ev : option Z) (ev_set : bool) : Prop :=
  match ev with
  | Some id => exists v, m !! id = Some v /\ ev_what v = k /\ (ev_pending v = true -> ev_set = true)
  | None => ev_set = false
  end.

Record wf (w : redis_world) (e : redisLibeventEvents) : Prop := Wf {
  wf_handle : handle w = Some e;
  wf_allocated : allocated e = true;
  wf_rev : slot_ok (evs w) EV_READ (rev e) (rev_set e);
  wf_wev : slot_ok (evs w) EV_WRITE (wev e) (wev_set e);
  wf_only : forall id v, evs w !! id = Some v -> rev e = Some id \/ wev e = Some id;
  wf_fresh : (forall id v, evs w !! id = Some v -> id < fresh_id w) /\ (forall c fd, contexts w !! c = Some fd -> c < fresh_id w);
  wf_context : forall c, context e = Some c -> is_Some (contexts w !! c);
}.

Definition inv (w : redis_world) : Prop := exists e, wf w e.

Lemma slots_differ w e id : wf w e -> rev e = Some id -> wev e = Some id -> False.
Proof.
  intros [_ _ Hr Hw _ _ _] H1 H2. rewrite H1 in Hr. rewrite H2 in Hw. destruct Hr as (v & Hv & Hk & _), Hw as (v' & Hv' & Hk' & _).
  rewrite Hv in Hv'. injection Hv' as <-. congruence.
Qed.

(** * Total correctness *)

Lemma wpr_self {B} (k : redisLibeventEvents -> redis B) Q w e : handle w = Some e -> wpr (k e) Q w -> wpr (self ≫= k) Q w.
Proof. intros H Hk. apply wpr_bind. unfold wpr at 1, self. by rewrite H. Qed.

Lemma wpr_live {B} (k : Z -> redis B) Q w c :
  is_Some (contexts w !! c) -> (forall fd, contexts w !! c = Some fd -> wpr (k fd) Q w) -> wpr (live_context c ≫= k) Q w.
Proof. intros [fd H] Hk. apply wpr_bind. unfold wpr at 1, live_context. rewrite H. by apply Hk. Qed.

(** What the operations on the events leave alone. *)
Record same (w w' : redis_world) : Prop := Same {
  same_contexts : contexts w' = contexts w;
  same_context : context <$> handle w' = context <$> handle w;
  same_invalid : invalid <$> handle w' = invalid <$> handle w;
}.

Lemma same_world w : same w w.
Proof. done. Qed.

Lemma same_trans w1 w2 w3 : same w1 w2 -> same w2 w3 -> same w1 w3.
Proof. intros [] []. split; congruence. Qed.

(** The hooks. *)
Definition preserves (m : redis unit) : Prop := forall w, inv w -> wpr m (λ _ w', inv w' /\ same w w') w.

Lemma slot_pending m k id s b v :
  m !! id = Some v -> ev_what v = k -> (b = true -> s = true) ->
  slot_ok (<[id := Event (ev_fd v) (ev_what v) (ev_persist v) b]> m) k (Some id) s.
Proof. intros Hv Hk Hb. eexists. rewrite lookup_insert_eq. done. Qed.

Lemma slot_other m k ev s id x :
  slot_ok m k ev s -> ev ≠ Some id -> slot_ok (<[id := x]> m) k ev s.
Proof. destruct ev as [i|]; [|done]. intros (v & Hv & H) Hne. exists v. rewrite lookup_insert_ne by congruence. done. Qed.

(** Marking the reader's event together with libevent. *)
Lemma wf_mark_rev w e id v b :
  wf w e -> rev e = Some id -> evs w !! id = Some v ->
  wf (RedisWorld (<[id := Event (ev_fd v) (ev_what v) (ev_persist v) b]> (evs w)) (contexts w) (fresh_id w)
        (Some (with_rev e (rev e) b)) (sent w)) (with_rev e (rev e) b).
Proof.
  intros H Hid Hv. pose proof (slots_differ w e id H Hid) as Hd. destruct H as [Hh Ha Hr Hw Ho [Hf Hfc] Hc].
  split; cbn [evs contexts fresh_id handle with_rev rev wev rev_set wev_set context allocated]; try done.
  - rewrite Hid in Hr |- *. destruct Hr as (v' & Hv' & Hk & _). rewrite Hv in Hv'. injection Hv' as <-. by apply slot_pending.
  - apply slot_other; [done|]. intros E. by apply Hd.
  - intros i x. destruct (decide (i = id)) as [->|Hne]; [by left|]. rewrite lookup_insert_ne by done. apply Ho.
  - split; [|done]. intros i x. destruct (decide (i = id)) as [->|Hne]; [|rewrite lookup_insert_ne by done; apply Hf].
    intros _. by apply (Hf id v).
Qed.

Lemma wf_mark_wev w e id v b :
  wf w e -> wev e = Some id -> evs w !! id = Some v ->
  wf (RedisWorld (<[id := Event (ev_fd v) (ev_what v) (ev_persist v) b]> (evs w)) (contexts w) (fresh_id w)
        (Some (with_wev e (wev e) b)) (sent w)) (with_wev e (wev e) b).
Proof.
  intros H Hid Hv. pose proof (slots_differ w e id H) as Hd. destruct H as [Hh Ha Hr Hw Ho [Hf Hfc] Hc].
  split; cbn [evs contexts fresh_id handle with_wev rev wev rev_set wev_set context allocated]; try done.
  - apply slot_other; [done|]. intros E. by apply Hd.
  - rewrite Hid in Hw |- *. destruct Hw as (v' & Hv' & Hk & _). rewrite Hv in Hv'. injection Hv' as <-. by apply slot_pending.
  - intros i x. destruct (decide (i = id)) as [->|Hne]; [by right|]. rewrite lookup_insert_ne by done. apply Ho.
  - split; [|done]. intros i x. destruct (decide (i = id)) as [->|Hne]; [|rewrite lookup_insert_ne by done; apply Hf].
    intros _. by apply (Hf id v).
Qed.

Lemma slot_live m k id s : slot_ok m k (Some id) s -> exists v, m !! id = Some v.
Proof. intros (v & Hv & _). by exists v. Qed.

Lemma mark_rev_spec w e id b :
  wf w e -> rev e = Some id -> wpr (set_pending b id;; store (with_rev e (rev e) b)) (λ _ w', inv w' /\ same w w') w.
Proof.
  intros H Hid. pose proof (wf_rev _ _ H) as Hr. rewrite Hid in Hr. destruct (slot_live _ _ _ _ Hr) as (v & Hv).
  unfold wpr, mbind, partial_bind, set_pending, store, modify. rewrite Hv. cbn [with_evs evs contexts fresh_id handle sent].
  split; [eexists; by apply (wf_mark_rev w e id v b)|]. split; cbn [contexts handle]; [done|by rewrite (wf_handle _ _ H)..].
Qed.

Lemma mark_wev_spec w e id b :
  wf w e -> wev e = Some id -> wpr (set_pending b id;; store (with_wev e (wev e) b)) (λ _ w', inv w' /\ same w w') w.
Proof.
  intros H Hid. pose proof (wf_wev _ _ H) as Hr. rewrite Hid in Hr. destruct (slot_live _ _ _ _ Hr) as (v & Hv).
  unfold wpr, mbind, partial_bind, set_pending, store, modify. rewrite Hv. cbn [with_evs evs contexts fresh_id handle sent].
  split; [eexists; by apply (wf_mark_wev w e id v b)|]. split; cbn [contexts handle]; [done|by rewrite (wf_handle _ _ H)..].
Qed.

(** A hook: nothing to do, or one event marked. *)
Ltac hook field mark :=
  intros w [e H]; eapply wpr_self; [apply H|]; pose proof (mark w e) as Hm;
  destruct (field e) as [id|]; [case_if; [by apply Hm|]|]; (split; [by exists e|done]).

Lemma AddRead_preserves : preserves redisLibeventAddRead.
Proof. hook rev mark_rev_spec. Qed.

Lemma DelRead_preserves : preserves redisLibeventDelRead.
Proof. hook rev mark_rev_spec. Qed.

Lemma AddWrite_preserves : preserves redisLibeventAddWrite.
Proof. hook wev mark_wev_spec. Qed.

Lemma DelWrite_preserves : preserves redisLibeventDelWrite.
Proof. hook wev mark_wev_spec. Qed.

Create HintDb redis.
#[local] Hint Resolve AddRead_preserves DelRead_preserves AddWrite_preserves DelWrite_preserves same_world : redis.

(** * Dropping the events *)

(** The structure without events and context. *)
Definition bare (e : redisLibeventEvents) : redisLibeventEvents :=
  with_context (with_wev (with_rev e None false) None false) None.

Lemma drop_event_run ev s k w :
  slot_ok (evs w) k ev s ->
  drop_event ev s w = Some (tt, with_evs w (match ev with Some id => delete id (evs w) | None => evs w end)).
Proof.
  destruct ev as [id|]; [|by destruct w]. intros (v & Hv & _). cbn [drop_event]. unfold mbind, partial_bind, whenever.
  destruct s; cbn [mret partial_ret]; unfold event_del, set_pending, event_free, mret, partial_ret; rewrite Hv; [|done].
  cbn [evs with_evs]. rewrite lookup_insert_eq. unfold with_evs. cbn. by rewrite delete_insert_eq.
Qed.

Lemma drop_events_spec w e :
  wf w e ->
  wpr (drop_events e;; store (bare e)) (λ _ w', wf w' (bare e) /\ evs w' = ∅ /\ contexts w' = contexts w) w.
Proof.
  intros H. pose proof (slots_differ w e) as Hd. unfold drop_events, wpr, mbind, partial_bind.
  rewrite (drop_event_run _ _ EV_READ) by apply H.
  rewrite (drop_event_run _ _ EV_WRITE).
  2: { cbn [evs with_evs]. pose proof (wf_wev _ _ H) as Hw. destruct (rev e) as [r|] eqn:Er; [|done].
       destruct (wev e) as [v|] eqn:Ev; [|done]. destruct Hw as (x & Hx & Hk). exists x. split; [|done].
       rewrite lookup_delete_ne; [done|]. intros ->. by apply (Hd v). }
  unfold store, modify. cbn [with_evs evs contexts fresh_id handle sent].
  assert ((match wev e with Some id => delete id (match rev e with Some id0 => delete id0 (evs w) | None => evs w end)
           | None => match rev e with Some id0 => delete id0 (evs w) | None => evs w end end) = (∅ : gmap Z event)) as ->.
  { apply map_empty. intros i. destruct (evs w !! i) as [v|] eqn:Ei.
    - destruct (wf_only _ _ H i v Ei) as [E|E]; rewrite E; [|by rewrite lookup_delete_eq].
      destruct (wev e) as [v'|]; [|by rewrite lookup_delete_eq].
      destruct (decide (i = v')) as [->|]; [by rewrite lookup_delete_eq|by rewrite lookup_delete_ne, lookup_delete_eq].
    - assert (forall (m : gmap Z event) o, m !! i = None -> (match o with Some id => delete id m | None => m end) !! i = None) as Hdel.
      { intros m [id|] Hm; [|done]. rewrite lookup_delete_None. by right. }
      by apply Hdel, Hdel. }
  split; [|done]. split; try done; cbn; [apply H|split; [done|apply H]].
Qed.

Lemma drop_bare w e :
  wf w e -> wpr (drop_events e) (λ _ w', wpr (store (bare e)) (λ _ w'', wf w'' (bare e)) w') w.
Proof.
  intros H. pose proof (drop_events_spec w e H) as Hd. unfold wpr, mbind, partial_bind in Hd |- *.
  destruct (drop_events e w) as [[[] w1]|]; [|done]. by destruct (store (bare e) w1) as [[[] w2]|]; [apply Hd|].
Qed.

(** * hiredis *)

Definition detached (w : redis_world) : Prop := exists e, wf w e /\ context e = None.

Lemma Cleanup_spec w : inv w -> wpr redisLibeventCleanup (λ _ w', detached w' /\ contexts w' = contexts w) w.
Proof.
  intros [e H]. eapply wpr_self; [apply H|]. rewrite (wf_allocated _ _ H).
  eapply wpr_mono; [by apply drop_events_spec|]. intros _ w' (Hw & _ & Hc). split; [by exists (bare e)|done].
Qed.

Lemma Disconnect_spec w c : inv w -> is_Some (contexts w !! c) -> wpr (__redisAsyncDisconnect c) (λ _ w', inv w') w.
Proof.
  intros H Hc. unfold __redisAsyncDisconnect. apply wpr_live; [done|]. intros fd _.
  eapply wpr_seq; [by apply Cleanup_spec|]. intros _ w1 ((e1 & H1 & _) & _).
  eapply wpr_seq; [apply Cleanup_spec; by exists e1|]. intros _ w2 ((e2 & H2 & Hn) & _).
  unfold wpr, modify. exists e2. destruct H2 as [Hh Ha Hr Hw Ho [Hf Hfc] _]. split; try done.
  - split; [done|]. cbn [contexts fresh_id]. intros c' fd' Hl. apply lookup_delete_Some in Hl as [_ Hl]. by apply (Hfc c' fd').
  - by rewrite Hn.
Qed.

Lemma same_live w w' c : same w w' -> is_Some (contexts w !! c) -> is_Some (contexts w' !! c).
Proof. intros [-> _ _]. done. Qed.

Lemma wpr_preserves m Q w : preserves m -> inv w -> (forall w', inv w' -> same w w' -> Q tt w') -> wpr m Q w.
Proof. intros Hm H HQ. eapply wpr_mono; [by apply Hm|]. intros [] w' [? ?]. by apply HQ. Qed.

Lemma HandleRead_spec w c r : inv w -> is_Some (contexts w !! c) -> wpr (redisAsyncHandleRead c r) (λ _ w', inv w') w.
Proof.
  intros H Hc. apply wpr_live; [done|]. intros fd _. destruct r.
  - exact H.
  - by apply Disconnect_spec.
  - apply wpr_preserves; auto with redis.
  - apply wpr_bind, wpr_preserves; auto with redis. intros w' H' Hs. apply Disconnect_spec; [done|by eapply same_live].
Qed.

Lemma HandleWrite_spec w c r : inv w -> is_Some (contexts w !! c) -> wpr (redisAsyncHandleWrite c r) (λ _ w', inv w') w.
Proof.
  intros H Hc. apply wpr_live; [done|]. intros fd _. destruct r as [| |complete|]; [exact H|by apply Disconnect_spec| |by apply Disconnect_spec].
  apply wpr_bind. destruct complete; apply wpr_preserves; auto with redis; intros w' H' _; apply wpr_preserves; auto with redis.
Qed.

Lemma inv_sent w l : inv w -> inv (RedisWorld (evs w) (contexts w) (fresh_id w) (handle w) l).
Proof. intros [e []]. exists e. by split. Qed.

Lemma Command_spec w c cmd ok :
  inv w -> is_Some (contexts w !! c) -> wpr (redisAsyncCommand c cmd ok) (λ failed w', inv w' /\ same w w' /\ failed = negb ok) w.
Proof.
  intros H Hc. apply wpr_live; [done|]. intros fd _. destruct ok; [|by split].
  apply wpr_bind. unfold wpr at 1, modify. apply wpr_bind, wpr_preserves; [auto with redis|by apply inv_sent|].
  intros w' H' [E1 E2 E3]. split; [done|]. by split.
Qed.

Lemma wf_invalid w e b : wf w e -> wf (RedisWorld (evs w) (contexts w) (fresh_id w) (Some (with_invalid e b)) (sent w)) (with_invalid e b).
Proof. intros []. by split. Qed.

Lemma store_invalid w e b :
  wf w e -> wpr (store (with_invalid e b)) (λ _ w', wf w' (with_invalid e b) /\ contexts w' = contexts w) w.
Proof. intros H. split; [by apply wf_invalid|done]. Qed.

(** The context of the structure and those of hiredis stay as they are. *)
Definition linked (w w' : redis_world) : Prop :=
  contexts w' = contexts w /\ context <$> handle w' = context <$> handle w.

Lemma linked_trans w1 w2 w3 : linked w1 w2 -> linked w2 w3 -> linked w1 w3.
Proof. intros [] []. split; congruence. Qed.

Lemma same_linked w w' : same w w' -> linked w w'.
Proof. by intros []. Qed.

Lemma command_or_invalid_spec w c cmd ok :
  inv w -> is_Some (contexts w !! c) -> wpr (command_or_invalid c cmd ok) (λ _ w', inv w' /\ linked w w') w.
Proof.
  intros H Hc. eapply wpr_seq; [by apply Command_spec|]. intros failed w1 ([e1 H1] & Hs & _). apply same_linked in Hs.
  destruct failed; [|split; [by exists e1|done]]. eapply wpr_self; [apply H1|].
  eapply wpr_mono; [by apply store_invalid|]. intros _ w2 [H2 Hc2]. split; [by eexists|]. eapply linked_trans; [exact Hs|].
  split; [done|]. by rewrite (wf_handle _ _ H2), (wf_handle _ _ H1).
Qed.

Lemma introduce_spec w c a : inv w -> is_Some (contexts w !! c) -> wpr (introduce c a) (λ _ w', inv w' /\ linked w w') w.
Proof.
  intros [e H] Hc. eapply wpr_self; [apply H|]. eapply (wpr_seq _ _ (λ _ w', inv w' /\ linked w w')).
  - destruct (redis_le_valid e); [|split; [by exists e|done]]. destruct (pwd e); [|split; [by exists e|done]].
    apply command_or_invalid_spec; [by exists e|done].
  - intros _ w1 [[e1 H1] Hl]. eapply wpr_self; [apply H1|]. apply wpr_whenever; [|split; [by exists e1|done]]. intros _.
    eapply wpr_mono; [apply command_or_invalid_spec; [by exists e1|by rewrite (proj1 Hl)]|].
    intros _ w2 [H2 Hl2]. split; [done|by eapply linked_trans].
Qed.

(** * Connecting *)

(** A new event in an empty slot. *)
Lemma wf_new_rev w e fd p :
  wf w e -> rev e = None ->
  let w' := RedisWorld (<[fresh_id w := Event fd EV_READ p false]> (evs w)) (contexts w) (fresh_id w + 1) (Some (with_rev e (Some (fresh_id w)) (rev_set e))) (sent w) in
  wf w' (with_rev e (Some (fresh_id w)) (rev_set e)).
Proof.
  intros [Hh Ha Hr Hw Ho [Hf Hfc] Hc] He w'. rewrite He in Hr. split; cbn [w' with_rev rev wev rev_set wev_set evs contexts fresh_id handle context allocated]; try done.
  - eexists. rewrite lookup_insert_eq. done.
  - apply slot_other; [done|]. intros E. rewrite E in Hw. destruct Hw as (v & Hv & _). apply Hf in Hv. lia.
  - intros i x. destruct (decide (i = fresh_id w)) as [->|Hne]; [by left|]. rewrite lookup_insert_ne by done. intros Hx.
    destruct (Ho i x Hx) as [E|E]; [congruence|by right].
  - split; [|intros c fd' Hl; apply Hfc in Hl; lia]. intros i x. destruct (decide (i = fresh_id w)) as [->|Hne]; [lia|].
    rewrite lookup_insert_ne by done. intros Hx. apply Hf in Hx. lia.
Qed.

Lemma wf_new_wev w e fd p :
  wf w e -> wev e = None ->
  let w' := RedisWorld (<[fresh_id w := Event fd EV_WRITE p false]> (evs w)) (contexts w) (fresh_id w + 1) (Some (with_wev e (Some (fresh_id w)) (wev_set e))) (sent w) in
  wf w' (with_wev e (Some (fresh_id w)) (wev_set e)).
Proof.
  intros [Hh Ha Hr Hw Ho [Hf Hfc] Hc] He w'. rewrite He in Hw. split; cbn [w' with_wev rev wev rev_set wev_set evs contexts fresh_id handle context allocated]; try done.
  - apply slot_other; [done|]. intros E. rewrite E in Hr. destruct Hr as (v & Hv & _). apply Hf in Hv. lia.
  - eexists. rewrite lookup_insert_eq. done.
  - intros i x. destruct (decide (i = fresh_id w)) as [->|Hne]; [by right|]. rewrite lookup_insert_ne by done. intros Hx.
    destruct (Ho i x Hx) as [E|E]; [by left|congruence].
  - split; [|intros c fd' Hl; apply Hfc in Hl; lia]. intros i x. destruct (decide (i = fresh_id w)) as [->|Hne]; [lia|].
    rewrite lookup_insert_ne by done. intros Hx. apply Hf in Hx. lia.
Qed.

Lemma wf_same_store w e : wf w e -> RedisWorld (evs w) (contexts w) (fresh_id w) (Some e) (sent w) = w.
Proof. intros H. rewrite <- (wf_handle _ _ H). by destruct w. Qed.

Lemma new_slot_rev w e made fd p :
  wf w e -> rev e = None ->
  wpr (r ← event_new made fd EV_READ p; e ← self; store (with_rev e r (rev_set e));; mret r)
    (λ r w', exists e', wf w' e' /\ rev e' = r /\ wev e' = wev e /\ linked w w' /\ (is_Some r <-> made = true)) w.
Proof.
  intros H He. unfold wpr, mbind, partial_bind, event_new, self, store, modify, mret, partial_ret.
  destruct made; cbn [handle evs contexts fresh_id sent]; rewrite (wf_handle _ _ H).
  - eexists. split; [by apply (wf_new_rev w e)|]. split; [done|]. split; [done|]. split; [|by split; [|eexists]].
    split; cbn [contexts handle]; [done|]. by rewrite (wf_handle _ _ H).
  - assert (with_rev e None (rev_set e) = e) as -> by (rewrite <- He at 1; by destruct e). rewrite (wf_same_store _ _ H).
    exists e. split; [done|]. split; [done|]. split; [done|]. split; [done|]. split; [by intros []|done].
Qed.

Lemma new_slot_wev w e made fd p :
  wf w e -> wev e = None ->
  wpr (r ← event_new made fd EV_WRITE p; e ← self; store (with_wev e r (wev_set e));; mret r)
    (λ r w', exists e', wf w' e' /\ wev e' = r /\ rev e' = rev e /\ linked w w' /\ (is_Some r <-> made = true)) w.
Proof.
  intros H He. unfold wpr, mbind, partial_bind, event_new, self, store, modify, mret, partial_ret.
  destruct made; cbn [handle evs contexts fresh_id sent]; rewrite (wf_handle _ _ H).
  - eexists. split; [by apply (wf_new_wev w e)|]. split; [done|]. split; [done|]. split; [|by split; [|eexists]].
    split; cbn [contexts handle]; [done|]. by rewrite (wf_handle _ _ H).
  - assert (with_wev e None (wev_set e) = e) as -> by (rewrite <- He at 1; by destruct e). rewrite (wf_same_store _ _ H).
    exists e. split; [done|]. split; [done|]. split; [done|]. split; [done|]. split; [by intros []|done].
Qed.

Lemma wpr_slot {B} (m : redis (option Z)) f (k : option Z -> redis B) Q w :
  wpr (r ← m; e ← self; store (f e r);; mret r) (λ r w', wpr (k r) Q w') w -> wpr (r ← m; e ← self; store (f e r);; k r) Q w.
Proof.
  unfold wpr, mbind, partial_bind, self, store, modify, mret, partial_ret.
  destruct (m w) as [[r w1]|]; [|done]. by destruct (handle w1).
Qed.

Lemma new_events_spec w e c p a :
  wf w e -> rev e = None -> wev e = None -> is_Some (contexts w !! c) ->
  wpr (new_events c p a) (λ ok w', exists e', wf w' e' /\ linked w w' /\ ok = rev_made a && wev_made a /\
                                              (is_Some (rev e') <-> rev_made a = true) /\ (is_Some (wev e') <-> wev_made a = true)) w.
Proof.
  intros H Hr Hv Hc. apply wpr_live; [done|]. intros fd _. apply wpr_slot.
  eapply wpr_mono; [by apply new_slot_rev|]. intros r w1 (e1 & H1 & Hr1 & Hw1 & Hl1 & Hs1). apply wpr_slot.
  eapply wpr_mono; [apply new_slot_wev; [exact H1|congruence]|]. intros v w2 (e2 & H2 & Hw2 & Hr2 & Hl2 & Hs2).
  unfold wpr, mret, partial_ret. exists e2. split; [done|]. split; [by eapply linked_trans|].
  rewrite Hr2, Hr1, Hw2. split; [|done]. destruct (rev_made a), (wev_made a), r as [r|], v as [v|]; try done;
    destruct Hs1 as [Ha1 Hb1], Hs2 as [Ha2 Hb2];
    first [by destruct (Hb1 eq_refl) | by destruct (Hb2 eq_refl) | by specialize (Ha1 ltac:(by eexists)) | by specialize (Ha2 ltac:(by eexists))].
Qed.

Lemma start_writing_spec w e : wf w e -> is_Some (wev e) -> wpr start_writing (λ _ w', inv w' /\ same w w') w.
Proof.
  intros H [v Hv]. eapply wpr_self; [apply H|]. pose proof (mark_wev_spec w e v true H Hv) as Hm. rewrite Hv in Hm |- *. exact Hm.
Qed.

Lemma linked_live w w' c : linked w w' -> is_Some (contexts w !! c) -> is_Some (contexts w' !! c).
Proof. by intros [-> _]. Qed.

(** Without memory the context is not made; otherwise it is new. *)
Lemma Connect_spec w e made fd :
  wf w e -> wpr (redisAsyncConnect made fd) (λ ac w', wf w' e /\ evs w' = evs w /\
    match ac with Some c => made = true /\ is_Some (contexts w' !! c) | None => made = false end) w.
Proof.
  intros [Hh Ha Hr Hw Ho [Hf Hfc] Hc]. unfold wpr, redisAsyncConnect. destruct made; [|by repeat split].
  split; [split; cbn [handle evs contexts fresh_id]; try done|].
  - split; [intros i v Hv; apply Hf in Hv; lia|]. intros c fd'. destruct (decide (c = fresh_id w)) as [->|Hne]; [lia|].
    rewrite lookup_insert_ne by done. intros Hl. apply Hfc in Hl. lia.
  - intros c Hcc. apply lookup_insert_is_Some'. right. by apply Hc.
  - split; [done|]. split; [done|]. cbn [contexts]. by rewrite lookup_insert_eq.
Qed.

Lemma wf_set_context w e c :
  wf w e -> is_Some (contexts w !! c) ->
  wpr (store (with_context e (Some c))) (λ _ w', wf w' (with_context e (Some c)) /\ contexts w' = contexts w) w.
Proof. intros [] Hc. split; [|done]. split; try done. by intros c' [= <-]. Qed.

Lemma reconnect_spec w a : inv w -> wpr (redis_reconnect a) (λ _ w', inv w') w.
Proof.
  intros [e H]. eapply wpr_self; [apply H|]. rewrite (wf_allocated _ _ H). cbn [negb].
  eapply wpr_seq; [by apply drop_bare|].
  intros [] w0 H0. eapply wpr_seq; [exact H0|]. intros [] w1 H1.
  eapply wpr_seq; [by apply Connect_spec|]. intros [c|] w2 (H2 & _ & Hc); [|by exists (bare e)]. destruct Hc as [_ Hc].
  eapply wpr_self; [apply H2|]. eapply wpr_seq; [by apply wf_set_context|]. intros _ w3 [H3 Hc3]. rewrite <- Hc3 in Hc.
  eapply wpr_seq; [by apply (new_events_spec w3 _ c false a H3)|]. intros ok w4 (e4 & H4 & Hl4 & -> & _ & Hw4).
  destruct (rev_made a && wev_made a) eqn:Em; cbn [negb]; [|by exists e4]. apply andb_true_iff in Em as [_ Em].
  eapply wpr_seq; [apply (start_writing_spec w4 e4 H4); by apply Hw4|]. intros _ w5 [[e5 H5] Hs5].
  eapply wpr_self; [apply H5|]. eapply wpr_seq; [by apply store_invalid|]. intros _ w6 [H6 Hc6].
  eapply wpr_mono; [apply introduce_spec; [by eexists|]|by intros _ w7 [? _]].
  rewrite Hc6. eapply same_live; [exact Hs5|]. by eapply linked_live.
Qed.

(** A C string argument that may be NULL. *)
Definition string_arg (s : option (list Z)) : Prop := forall m, s = Some m -> exists t, c_str m = Some t.

Lemma attach_ip ip0 j :
  string_arg ip0 ->
  exists t, (match ip0 with
   | Some s => c ← rd8 s 0; if truth c then STRCPY (replicate 256 j) 256 s else STRCPY (replicate 256 j) 256 (lit "127.0.0.1" ++ [0])
   | None => STRCPY (replicate 256 j) 256 (lit "127.0.0.1" ++ [0])
   end) ≫= c_str = Some t.
Proof.
  intros Hip. assert (forall s t, c_str s = Some t -> exists d, STRCPY (replicate 256 j) 256 s ≫= c_str = Some d) as Hcpy.
  { intros s t Hs. destruct (STRCPY_cut (replicate 256 j) 256 s t) as (d & -> & _ & Hc); [done|by unfold zlen; rewrite length_replicate|lia|].
    cbn [mbind option_bind]. by eexists. }
  assert (exists d, STRCPY (replicate 256 j) 256 (lit "127.0.0.1" ++ [0]) ≫= c_str = Some d) as Hd by (by eapply Hcpy).
  destruct ip0 as [s|]; [|done]. destruct (Hip s eq_refl) as (t & Ht).
  assert (exists x, rd8 s 0 = Some x) as [x ->]; [|cbn [mbind option_bind]; destruct (truth x); [by eapply Hcpy|done]].
  destruct s as [|x s]; [done|]. exists x. apply rd8_head.
Qed.

(** No connection yet. *)
Record unattached (w : redis_world) : Prop := Unattached {
  un_evs : evs w = ∅;
  un_contexts : forall c fd, contexts w !! c = Some fd -> c < fresh_id w;
}.

(** The structure of an attachment, before its events. *)
Lemma attach_connects ip0 port0 pwd0 db0 j a w :
  unattached w -> string_arg ip0 -> string_arg pwd0 ->
  exists t p,
    (match (match ip0 with
            | Some s => c ← rd8 s 0; if truth c then STRCPY (replicate 256 j) 256 s else STRCPY (replicate 256 j) 256 (lit "127.0.0.1" ++ [0])
            | None => STRCPY (replicate 256 j) 256 (lit "127.0.0.1" ++ [0])
            end) ≫= c_str with
     | Some t => Some (t, w)
     | None => None
     end) = Some (t, w) /\
    (match pwd0 with None => Some (None, w) | Some s => match c_str s with Some t => Some (Some t, w) | None => None end end) = Some (p, w) /\
    let e := Events (Some (fresh_id w)) false true None None false false t (if 0 <? port0 then port0 else DEFAULT_REDIS_PORT) p db0 in
    wf (RedisWorld (evs w) (<[fresh_id w := sock a]> (contexts w)) (fresh_id w + 1) (Some e) (sent w)) e.
Proof.
  intros [He Hc] Hip Hpw. destruct (attach_ip ip0 j Hip) as (t & ->). exists t.
  assert (exists p, match pwd0 with None => Some (None, w) | Some s => match c_str s with Some t => Some (Some t, w) | None => None end end
            = Some (p : option (list Z), w)) as [p ->].
  { destruct pwd0 as [s|]; [|by eexists]. destruct (Hpw s eq_refl) as (tp & ->). by eexists. }
  exists p. split; [done|]. split; [done|]. split; cbn; try done; [by rewrite He| |intros c [= <-]; by rewrite lookup_insert_eq].
  split; [by rewrite He|]. intros c fd. destruct (decide (c = fresh_id w)) as [->|Hne]; [lia|].
  rewrite lookup_insert_ne by done. intros Hl. apply Hc in Hl. lia.
Qed.

Lemma attach_spec ip0 port0 pwd0 db0 j a w :
  unattached w -> connected a = true -> string_arg ip0 -> string_arg pwd0 ->
  wpr (redisLibeventAttach ip0 port0 pwd0 db0 j a)
    (λ ok w', ok = rev_made a && wev_made a /\ if ok then inv w' else handle w' = None) w.
Proof.
  intros Hun Hco Hip Hpw. destruct (attach_connects ip0 port0 pwd0 db0 j a w Hun Hip Hpw) as (t & p & Ht & Hp & H2).
  apply wpr_bind. unfold wpr at 1. rewrite Ht. apply wpr_bind. unfold wpr at 1. rewrite Hp.
  apply wpr_bind. unfold wpr at 1, redisAsyncConnect. rewrite Hco. apply wpr_bind. unfold wpr at 1, store, modify.
  cbn [evs contexts fresh_id sent] in *. set (w2 := RedisWorld _ _ _ (Some _) _) in *. set (e := Events _ _ _ _ _ _ _ _ _ _ _) in *.
  assert (is_Some (contexts w2 !! fresh_id w)) as Hlive by (by apply (wf_context _ _ H2)).
  eapply wpr_seq; [by apply (new_events_spec w2 e _ true a H2)|]. intros ok w3 (e3 & H3 & Hl3 & -> & _ & Hw3).
  destruct (rev_made a && wev_made a) eqn:Em; cbn [negb]; [|by split].
  apply andb_true_iff in Em as [_ Em]. eapply wpr_seq; [apply (start_writing_spec w3 e3 H3); by apply Hw3|]. intros _ w4 [H4 Hs4].
  eapply wpr_seq; [apply (introduce_spec w4 (fresh_id w) a H4)|by intros _ w5 [? _]].
  eapply same_live; [exact Hs4|]. by eapply linked_live.
Qed.

(** * Events and messages *)

Lemma wf_activate w e id v :
  wf w e -> evs w !! id = Some v -> ev_pending v = true ->
  wf (with_evs w (<[id := Event (ev_fd v) (ev_what v) (ev_persist v) (ev_persist v)]> (evs w))) e.
Proof.
  intros [Hh Ha Hr Hw Ho [Hf Hfc] Hc] Hv Hp.
  assert (forall k ev s, slot_ok (evs w) k ev s ->
    slot_ok (<[id := Event (ev_fd v) (ev_what v) (ev_persist v) (ev_persist v)]> (evs w)) k ev s) as Hslot.
  { intros k [i|] s; [|done]. intros (x & Hx & Hk & Hs). destruct (decide (i = id)) as [->|Hne].
    - rewrite Hv in Hx. injection Hx as <-. apply slot_pending; auto.
    - exists x. by rewrite lookup_insert_ne. }
  split; cbn [with_evs evs handle contexts fresh_id]; try done; [by apply Hslot..| |].
  - intros i x. destruct (decide (i = id)) as [->|Hne]; [intros _; by apply (Ho id v)|]. rewrite lookup_insert_ne by done. apply Ho.
  - split; [|done]. intros i x. destruct (decide (i = id)) as [->|Hne]; [intros _; by apply (Hf id v)|].
    rewrite lookup_insert_ne by done. apply Hf.
Qed.

(** libevent runs the callback of a pending event; one that is not pending does not fire. *)
Definition fire (ev : redisLibeventEvents -> option Z) (m : redis unit) : redis unit := λ w,
  match handle w ≫= ev with
  | Some id =>
    match evs w !! id with
    | Some v => if ev_pending v then (activate id;; m) w else Some (tt, w)
    | None => None
    end
  | None => Some (tt, w)
  end.

Lemma fire_spec ev m w :
  inv w -> (forall w e id, wf w e -> ev e = Some id -> is_Some (evs w !! id)) ->
  (forall w, inv w -> wpr m (λ _ w', inv w') w) -> wpr (fire ev m) (λ _ w', inv w') w.
Proof.
  intros [e H] Hev Hm. unfold fire, wpr. rewrite (wf_handle _ _ H). cbn [mbind option_bind].
  destruct (ev e) as [id|] eqn:Eid; [|by exists e]. destruct (Hev w e id H Eid) as [v Hv]. rewrite Hv.
  destruct (ev_pending v) eqn:Ep; [|by exists e]. unfold mbind, partial_bind, activate, set_pending. rewrite Hv, Ep.
  apply Hm. exists e. by apply wf_activate.
Qed.

Lemma ReadEvent_spec n len r a w : inv w -> wpr (redisLibeventReadEvent n len r a) (λ _ w', inv w') w.
Proof.
  intros [e H]. eapply wpr_self; [apply H|]. destruct (redis_le_valid e); [|apply reconnect_spec; by exists e].
  eapply (wpr_seq _ _ (λ _ w', inv w')).
  - apply wpr_whenever; [|by exists e]. intros _. eapply wpr_mono; [by apply store_invalid|]. intros _ w' [H' _]. by eexists.
  - intros _ w1 [e1 H1]. eapply wpr_self; [apply H1|]. destruct (redis_le_valid e1); [|by exists e1].
    destruct (context e1) as [c|] eqn:Ec; [|by exists e1]. apply HandleRead_spec; [by exists e1|by apply (wf_context _ _ H1)].
Qed.

Lemma WriteEvent_spec r w : inv w -> wpr (redisLibeventWriteEvent r) (λ _ w', inv w') w.
Proof.
  intros [e H]. eapply wpr_self; [apply H|]. destruct (redis_le_valid e); [|by exists e].
  destruct (context e) as [c|] eqn:Ec; [|by exists e]. apply HandleWrite_spec; [by exists e|by apply (wf_context _ _ H)].
Qed.

Lemma nonzero_app s t : nonzero s -> nonzero t -> nonzero (s ++ t).
Proof. intros. by apply Forall_app. Qed.

(** The text of a message as hiredis gets it. *)
Definition format_of (command key : list Z) : list Z := take 509 (command ++ [32] ++ key ++ [32]) ++ lit "%s".

Lemma message_format_spec command key junk :
  zlen junk = 513 -> nonzero command -> nonzero key ->
  exists f, message_format command key junk = Some f /\ zlen f = 513 /\ c_str f = Some (format_of command key).
Proof.
  intros Hj Hc Hk. set (t := command ++ [32] ++ key ++ [32]).
  assert (nonzero [32]) as H32 by by repeat constructor.
  assert (nonzero t) as Ht by (unfold t; auto using nonzero_app).
  destruct (snprintf_cut junk 510 t Ht) as (d & Hd & Hzd & Hcd); [lia|]. change (Z.to_nat (510 - 1)) with 509%nat in Hcd.
  unfold message_format. fold t. change (513 - 3) with 510. rewrite Hd. cbn [mbind option_bind]. unfold strlen. rewrite Hcd.
  cbn [fmap option_fmap option_map mbind option_bind]. set (u := take 509 t) in *.
  assert (zlen u <= 509) as Hu by (unfold u, zlen; rewrite length_take; lia). pose proof (zlen_nonneg u).
  destruct (c_str_Some _ _ Hcd) as (Hnu & r & Hdr).
  assert (zlen (lit "%s" ++ [0]) = 3) as H3 by done.
  destruct (wr_block d (zlen u) (lit "%s" ++ [0])) as [f|] eqn:Hf; [|rewrite wr_block_ok in Hf by (rewrite ?H3, ?Hzd; lia); done].
  exists f. split; [done|]. split; [by rewrite (wr_block_zlen _ _ _ _ Hf), Hzd|].
  apply wr_block_Some in Hf as (_ & _ & ->). rewrite Hdr. unfold zlen at 1. rewrite Nat2Z.id, take_app_length.
  rewrite !app_assoc. rewrite <- (app_assoc _ [0]). unfold format_of. fold t u. apply c_str_terminated, nonzero_app; [done|by repeat constructor].
Qed.

Lemma Send_spec command key text junk ok a w :
  inv w -> zlen junk = 513 -> nonzero command -> nonzero key -> nonzero text ->
  wpr (send_message_to_redis command key text junk ok a) (λ _ w', inv w') w.
Proof.
  intros [e H] Hj Hc Hk Ht. unfold send_message_to_redis, wpr. rewrite (wf_handle _ _ H).
  match goal with |- match ?m w with _ => _ end => change (wpr m (λ _ w', inv w') w) end.
  eapply (wpr_seq _ _ (λ _ w', inv w')).
  { apply wpr_whenever; [|by exists e]. intros _. apply reconnect_spec. by exists e. }
  intros _ w1 [e1 H1]. eapply wpr_self; [apply H1|]. destruct (redis_le_valid e1); [|by exists e1].
  destruct (context e1) as [c|] eqn:Ec; [|by exists e1].
  destruct (message_format_spec command key junk Hj Hc Hk) as (f & Hf & _ & Hfc).
  destruct (snprintf_cut junk 512 text Ht) as (d & Hd & _ & Hdc); [lia|].
  apply wpr_bind. unfold wpr at 1. rewrite Hf. cbn [mbind option_bind]. rewrite Hfc.
  apply wpr_bind. unfold wpr at 1. change (513 - 1) with 512. rewrite Hd. cbn [mbind option_bind]. rewrite Hdc.
  eapply wpr_seq; [apply Command_spec; [by exists e1|by apply (wf_context _ _ H1)]|].
  intros failed w2 ([e2 H2] & _ & _). destruct failed; [|by exists e2]. eapply wpr_self; [apply H2|].
  eapply wpr_mono; [by apply store_invalid|]. intros _ w3 [H3 _]. by eexists.
Qed.

(** * Runs *)

(** What happens to a connection: its socket is ready, or a message is sent. *)
Inductive redis_op : Type :=
| ReadReady (n : nat) (len : Z) (r : io_end) (a : answers)
| WriteReady (r : io_end)
| Send (command key text junk : list Z) (ok : bool) (a : answers).

Definition run_op (o : redis_op) : redis unit :=
  match o with
  | ReadReady n len r a => fire rev (redisLibeventReadEvent n len r a)
  | WriteReady r => fire wev (redisLibeventWriteEvent r)
  | Send command key text junk ok a => send_message_to_redis command key text junk ok a
  end.

Fixpoint run_ops (l : list redis_op) : redis unit :=
  match l with [] => mret tt | o :: l => run_op o;; run_ops l end.

(** The arguments of a message are C strings. *)
Definition op_ok (o : redis_op) : Prop :=
  match o with
  | Send command key text junk _ _ => zlen junk = 513 /\ nonzero command /\ nonzero key /\ nonzero text
  | _ => True
  end.

Lemma live_rev w e id : wf w e -> rev e = Some id -> is_Some (evs w !! id).
Proof. intros H E. pose proof (wf_rev _ _ H) as Hr. rewrite E in Hr. destruct Hr as (v & -> & _). by eexists. Qed.

Lemma live_wev w e id : wf w e -> wev e = Some id -> is_Some (evs w !! id).
Proof. intros H E. pose proof (wf_wev _ _ H) as Hr. rewrite E in Hr. destruct Hr as (v & -> & _). by eexists. Qed.

Lemma run_op_spec o w : op_ok o -> inv w -> wpr (run_op o) (λ _ w', inv w') w.
Proof.
  intros Ho H. destruct o as [n len r a|r|command key text junk ok a]; cbn [run_op op_ok] in *.
  - apply fire_spec; [done|apply live_rev|]. intros. by apply ReadEvent_spec.
  - apply fire_spec; [done|apply live_wev|]. intros. by apply WriteEvent_spec.
  - by apply Send_spec; try apply Ho.
Qed.

Lemma run_ops_inv (P : redis_world -> Prop) (ok : redis_op -> Prop) l w :
  (forall o w, ok o -> P w -> wpr (run_op o) (λ _ w', P w') w) -> Forall ok l -> P w -> wpr (run_ops l) (λ _ w', P w') w.
Proof.
  intros Hstep Hl. revert w. induction Hl as [|o l Ho Hl IH]; intros w H; [exact H|].
  eapply wpr_seq; [by apply Hstep|]. intros [] w1 H1. by apply IH.
Qed.

Lemma run_op_null o w : handle w = None -> wpr (run_op o) (λ _ w', handle w' = None) w.
Proof.
  intros H. destruct o; cbn [run_op]; unfold wpr, fire, send_message_to_redis; rewrite H; exact H.
Qed.

(** C7. In every run of a connection - an attachment and then readable and writable sockets and messages in any order,
    whatever the libraries answer - no event and no context is used after it was freed.  The attachment gives a
    handle exactly if both events could be made; then the live events are always those of the structure, one reader
    and one writer, a pending event is marked as set, and a context of the structure was not freed. *)
Theorem redis_run_safe ip0 port0 pwd0 db0 j a ops w :
  unattached w -> connected a = true -> string_arg ip0 -> string_arg pwd0 -> Forall op_ok ops ->
  wpr (ok ← redisLibeventAttach ip0 port0 pwd0 db0 j a; run_ops ops;; mret ok)
    (λ ok w', ok = rev_made a && wev_made a /\ if ok then inv w' else handle w' = None) w.
Proof.
  intros Hw Hc Hip Hpw Hops. eapply wpr_seq; [by apply attach_spec|]. intros ok w1 [-> H1].
  destruct (rev_made a && wev_made a).
  - eapply wpr_seq; [apply (run_ops_inv inv op_ok); [apply run_op_spec|done|exact H1]|]. by intros [] w2 H2.
  - eapply wpr_seq; [apply (run_ops_inv (λ w, handle w = None) op_ok); [intros; by apply run_op_null|done|exact H1]|].
    by intros [] w2 H2.
Qed.

(** * Reading after a reconnection *)

(** The reader's event of a valid connection: pending, persistent, marked as set. *)
Definition reader (pending persist marked : bool) (w : redis_world) : Prop :=
  exists e id v, wf w e /\ redis_le_valid e = true /\ rev e = Some id /\ evs w !! id = Some v /\
  ev_pending v = pending /\ ev_persist v = persist /\ rev_set e = marked.

Lemma reader_AddRead p k s w : reader p k s w -> wpr redisLibeventAddRead (λ _ w', reader (if s then p else true) k true w') w.
Proof.
  intros (e & id & v & H & Hval & Hid & Hv & Hp & Hk & Hs). eapply wpr_self; [apply H|]. rewrite Hid, Hs.
  destruct s; cbn [negb]; [by exists e, id, v|]. rewrite <- Hid.
  unfold wpr, mbind, partial_bind, event_add, set_pending, store, modify. rewrite Hv. cbn [with_evs evs contexts fresh_id handle sent].
  eexists _, id, _. split; [by apply (wf_mark_rev w e id v true)|]. cbn [evs with_rev rev]. rewrite lookup_insert_eq. done.
Qed.

Lemma reader_mark_wev p k s w e b :
  reader p k s w -> handle w = Some e ->
  match wev e with Some r => wpr (set_pending b r;; store (with_wev e (wev e) b)) (λ _ w', reader p k s w') w | None => True end.
Proof.
  intros (e' & id & v & H & Hval & Hid & Hv & Hp & Hk & Hs) He. rewrite (wf_handle _ _ H) in He. injection He as ->.
  destruct (wev e) as [r|] eqn:Er; [|done]. destruct (live_wev w e r H Er) as [x Hx].
  unfold wpr, mbind, partial_bind, set_pending, store, modify. rewrite Hx. cbn [with_evs evs contexts fresh_id handle sent].
  rewrite <- Er. eexists _, id, v. split; [by apply (wf_mark_wev w e r x b)|]. cbn [evs with_wev rev rev_set].
  rewrite lookup_insert_ne; [done|]. intros ->. by eapply slots_differ.
Qed.

Lemma reader_AddWrite p k s w : reader p k s w -> wpr redisLibeventAddWrite (λ _ w', reader p k s w') w.
Proof.
  intros H. pose proof H as (e & _ & _ & Hw & _). eapply wpr_self; [apply Hw|].
  pose proof (reader_mark_wev p k s w e true H (wf_handle _ _ Hw)) as Hm. destruct (wev e); [|exact H].
  destruct (negb (wev_set e)); [exact Hm|exact H].
Qed.

Lemma reader_DelWrite p k s w : reader p k s w -> wpr redisLibeventDelWrite (λ _ w', reader p k s w') w.
Proof.
  intros H. pose proof H as (e & _ & _ & Hw & _). eapply wpr_self; [apply Hw|].
  pose proof (reader_mark_wev p k s w e false H (wf_handle _ _ Hw)) as Hm. destruct (wev e); [|exact H].
  destruct (wev_set e); [exact Hm|exact H].
Qed.

Lemma reader_context p k s w : reader p k s w -> exists e c, wf w e /\ handle w = Some e /\ redis_le_valid e = true /\ context e = Some c /\ is_Some (contexts w !! c).
Proof.
  intros (e & id & v & H & Hval & _). exists e. unfold redis_le_valid in Hval. apply andb_true_iff in Hval as [Hi Hc].
  destruct (context e) as [c|] eqn:Ec; [|done]. exists c. split; [done|]. split; [apply H|]. split; [|split; [done|by apply (wf_context _ _ H)]].
  unfold redis_le_valid. by rewrite Hi, Ec.
Qed.

Lemma reader_sent p k s w l : reader p k s w -> reader p k s (RedisWorld (evs w) (contexts w) (fresh_id w) (handle w) l).
Proof. intros (e & id & v & [] & H). exists e, id, v. by split. Qed.

Lemma reader_Command p k s w c cmd :
  reader p k s w -> is_Some (contexts w !! c) -> wpr (redisAsyncCommand c cmd true) (λ failed w', failed = false /\ reader p k s w') w.
Proof.
  intros H Hc. apply wpr_live; [done|]. intros fd _. apply wpr_bind. unfold wpr at 1, modify. apply wpr_bind.
  eapply wpr_mono; [by apply reader_AddWrite, reader_sent|]. intros [] w1 H1. by split.
Qed.

Lemma reader_Send p k s w command key text junk a :
  reader p k s w -> zlen junk = 513 -> nonzero command -> nonzero key -> nonzero text ->
  wpr (send_message_to_redis command key text junk true a) (λ _ w', reader p k s w') w.
Proof.
  intros H Hj Hc Hk Ht. destruct (reader_context _ _ _ _ H) as (e & c & _ & Hh & Hval & Ec & Hlive).
  unfold send_message_to_redis, wpr. rewrite Hh. match goal with |- match ?m w with _ => _ end => change (wpr m (λ _ w', reader p k s w') w) end.
  rewrite Hval. cbn [negb whenever]. apply wpr_bind. unfold wpr at 1, mret, partial_ret. eapply wpr_self; [exact Hh|]. rewrite Hval, Ec.
  destruct (message_format_spec command key junk Hj Hc Hk) as (f & Hf & _ & Hfc).
  destruct (snprintf_cut junk 512 text Ht) as (d & Hd & _ & Hdc); [lia|].
  apply wpr_bind. unfold wpr at 1. rewrite Hf. cbn [mbind option_bind]. rewrite Hfc.
  apply wpr_bind. unfold wpr at 1. change (513 - 1) with 512. rewrite Hd. cbn [mbind option_bind]. rewrite Hdc.
  eapply wpr_seq; [by apply reader_Command|]. intros failed w1 [-> H1]. exact H1.
Qed.

Lemma reader_WriteEvent p k s w complete :
  reader p k s w -> wpr (redisLibeventWriteEvent (Fine complete)) (λ _ w', reader (if s then p else true) k true w') w.
Proof.
  intros H. destruct (reader_context _ _ _ _ H) as (e & c & He & Hh & Hval & Ec & Hlive).
  eapply wpr_self; [exact Hh|]. rewrite Hval, Ec. apply wpr_live; [done|]. intros fd _. eapply (wpr_seq _ _ (λ _ w', reader p k s w')).
  - destruct complete; [by apply reader_DelWrite|by apply reader_AddWrite].
  - intros [] w1 H1. by apply reader_AddRead.
Qed.

Lemma reader_ReadEvent p k s w n len complete a :
  reader p k s w -> 1 <= len -> wpr (redisLibeventReadEvent n len (Fine complete) a) (λ _ w', reader (if s then p else true) k true w') w.
Proof.
  intros H Hlen. destruct (reader_context _ _ _ _ H) as (e & c & He & Hh & Hval & Ec & Hlive).
  eapply wpr_self; [exact Hh|]. rewrite Hval. assert (peek n len = len) as -> by (by induction n).
  destruct (Z.ltb_spec len 1); [lia|]. cbn [whenever]. apply wpr_bind. unfold wpr at 1, mret, partial_ret.
  eapply wpr_self; [exact Hh|]. rewrite Hval, Ec. apply wpr_live; [done|]. intros fd _. by apply reader_AddRead.
Qed.

(** The writer's event does not concern the reader's; the reader's own stays pending if it persists. *)
Lemma reader_fire_wev p k s w m Q :
  reader p k s w -> (forall w, reader p k s w -> wpr m (λ _ w', Q w') w) -> Q w -> wpr (fire wev m) (λ _ w', Q w') w.
Proof.
  intros Hrd Hm HQ. pose proof Hrd as (e & id & v & H & Hval & Hid & Hv & Hp & Hk & Hs). unfold fire, wpr.
  rewrite (wf_handle _ _ H). cbn [mbind option_bind]. destruct (wev e) as [x|] eqn:Ex; [|done].
  destruct (live_wev w e x H Ex) as [y Hy]. rewrite Hy. destruct (ev_pending y) eqn:Ep; [|done].
  unfold mbind, partial_bind, activate, set_pending. rewrite Hy, Ep. apply Hm. exists e, id, v.
  split; [by apply wf_activate|]. cbn [with_evs evs]. rewrite lookup_insert_ne; [done|]. intros ->. by eapply slots_differ.
Qed.

Lemma reader_fire_rev p k s w m Q :
  reader p k s w -> (p = true -> forall w, reader k k s w -> wpr m (λ _ w', Q w') w) -> (p = false -> Q w) ->
  wpr (fire rev m) (λ _ w', Q w') w.
Proof.
  intros (e & id & v & H & Hval & Hid & Hv & Hp & Hk & Hs) Hm HQ. unfold fire, wpr. rewrite (wf_handle _ _ H).
  cbn [mbind option_bind]. rewrite Hid, Hv, Hp. destruct p; [|by apply HQ].
  unfold mbind, partial_bind, activate, set_pending. rewrite Hv, Hp. apply Hm; [done|]. eexists e, id, _.
  split; [by apply wf_activate|]. cbn [with_evs evs]. rewrite lookup_insert_eq. done.
Qed.

(** What happens to a healthy connection: reads and writes go well, messages are accepted. *)
Definition healthy (o : redis_op) : Prop :=
  match o with
  | ReadReady _ len r _ => 1 <= len /\ exists c, r = Fine c
  | WriteReady r => exists c, r = Fine c
  | Send _ _ _ _ ok _ => ok = true /\ op_ok o
  end.

Lemma healthy_step p k o w :
  healthy o -> (p = true -> k = true) -> reader p k true w -> wpr (run_op o) (λ _ w', reader p k true w') w.
Proof.
  intros Ho Hpk H. destruct o as [n len r a|r|command key text junk ok a]; cbn [run_op healthy] in *.
  - destruct Ho as (Hlen & c & ->). eapply reader_fire_rev; [exact H| |done]. intros -> w' H'.
    rewrite Hpk in * by done. by apply (reader_ReadEvent true true true).
  - destruct Ho as (c & ->). eapply reader_fire_wev; [exact H| |exact H]. intros w' H'. by apply (reader_WriteEvent p k true).
  - destruct Ho as (-> & Hj & Hc & Hk & Ht). by apply reader_Send.
Qed.

(** The writer's event waits for the socket. *)
Definition writing (w : redis_world) : Prop :=
  exists e id v, handle w = Some e /\ wev e = Some id /\ evs w !! id = Some v /\ ev_pending v = true /\ wev_set e = true.

(** Nothing failed. *)
Definition all_well (a : answers) : Prop :=
  connected a = true /\ rev_made a = true /\ wev_made a = true /\ auth_ok a = true /\ select_ok a = true.

Lemma writing_sent w l : writing w -> writing (RedisWorld (evs w) (contexts w) (fresh_id w) (handle w) l).
Proof. done. Qed.

Lemma writing_AddWrite w : writing w -> redisLibeventAddWrite w = Some (tt, w).
Proof.
  intros (e & id & v & Hh & Hid & Hv & Hp & Hs). unfold redisLibeventAddWrite, mbind, partial_bind, self. by rewrite Hh, Hid, Hs.
Qed.

Lemma introduce_writing w e c a :
  handle w = Some e -> redis_le_valid e = true -> is_Some (contexts w !! c) -> writing w -> auth_ok a = true -> select_ok a = true ->
  exists l, introduce c a w = Some (tt, RedisWorld (evs w) (contexts w) (fresh_id w) (handle w) l).
Proof.
  intros Hh Hval [fd Hc] Hw Ha Hs.
  assert (forall w' cmd, handle w' = handle w -> contexts w' = contexts w -> evs w' = evs w -> fresh_id w' = fresh_id w ->
    exists l, command_or_invalid c cmd true w' = Some (tt, RedisWorld (evs w) (contexts w) (fresh_id w) (handle w) l)) as Hcmd.
  { intros w' cmd E1 E2 E3 E4. exists (sent w' ++ [(c, cmd)]).
    destruct w' as [ev ct fr hd se]. cbn [handle contexts evs fresh_id sent] in *. subst.
    unfold command_or_invalid, redisAsyncCommand, mbind, partial_bind, live_context, modify. cbn [contexts]. rewrite Hc.
    cbn [handle contexts evs fresh_id sent].
    by rewrite (writing_AddWrite (RedisWorld (evs w) (contexts w) (fresh_id w) (handle w) (se ++ [(c, cmd)])) Hw). }
  unfold introduce, mbind at 1, partial_bind at 1, self. rewrite Hh, Hval, Ha, Hs.
  destruct (pwd e) as [p|].
  - destruct (Hcmd w (AUTH p)) as [l1 H1]; [done..|]. unfold mbind at 1, partial_bind at 1. rewrite H1.
    unfold mbind, partial_bind. cbn [handle]. rewrite Hh. rewrite Hval. cbn [whenever].
    destruct (Hcmd (RedisWorld (evs w) (contexts w) (fresh_id w) (handle w) l1) (SELECT (db e))) as [l2 H2]; [done..|].
    exists l2. rewrite <- Hh. exact H2.
  - unfold mbind, partial_bind, mret, partial_ret. rewrite Hh, Hval. cbn [whenever].
    destruct (Hcmd w (SELECT (db e))) as [l2 H2]; [done..|]. exists l2. rewrite <- Hh. exact H2.
Qed.

(** A connection whose reader's event was made and not yet asked for. *)
Definition unasked (persist : bool) (c : Z) (w : redis_world) : Prop :=
  exists e id v, wf w e /\ context e = Some c /\ rev e = Some id /\ evs w !! id = Some v /\ ev_pending v = false /\ ev_persist v = persist /\
  rev_set e = false /\ is_Some (wev e).

Lemma new_events_made w e c p a :
  wf w e -> rev e = None -> wev e = None -> rev_set e = false -> context e = Some c -> rev_made a = true -> wev_made a = true ->
  wpr (new_events c p a) (λ ok w', ok = true /\ unasked p c w' /\ invalid <$> handle w' = Some (invalid e)) w.
Proof.
  intros H Hr Hw Hs Hc Ha Hb. apply wpr_live; [by apply (wf_context _ _ H)|]. intros fd _. rewrite Ha, Hb.
  pose proof (wf_new_rev w e fd p H Hr) as H1. set (w1 := RedisWorld _ _ _ _ _) in H1. set (e1 := with_rev _ _ _) in H1.
  pose proof (wf_new_wev w1 e1 fd false H1 Hw) as H2. set (w2 := RedisWorld _ _ _ _ _) in H2. set (e2 := with_wev _ _ _) in H2.
  unfold wpr, mbind, partial_bind, event_new, self, store, modify, mret, partial_ret.
  cbn [handle]. rewrite (wf_handle _ _ H). cbn [evs contexts fresh_id sent handle]. split; [done|]. split; [|done].
  exists e2, (fresh_id w), (Event fd EV_READ p false). split; [exact H2|]. split; [exact Hc|]. split; [done|].
  split; [|by split; [|split; [|split; [|eexists]]]]. cbn [evs]. rewrite lookup_insert_ne by lia. by rewrite lookup_insert_eq.
Qed.

Lemma start_writing_made p c w b :
  unasked p c w -> invalid <$> handle w = Some b ->
  wpr start_writing (λ _ w', unasked p c w' /\ writing w' /\ invalid <$> handle w' = Some b) w.
Proof.
  intros (e & id & v & H & Hc & Hid & Hv & Hp & Hk & Hs & [x Hx]) Hb. eapply wpr_self; [apply H|].
  destruct (live_wev w e x H Hx) as [y Hy]. rewrite Hx. unfold wpr, mbind, partial_bind, event_add, set_pending, store, modify.
  rewrite Hy. cbn [with_evs evs contexts fresh_id handle sent]. rewrite <- Hx.
  assert (id ≠ x) as Hne by (intros ->; by eapply slots_differ). split; [|split].
  - eexists _, id, v. split; [by apply (wf_mark_wev w e x y true)|]. cbn [evs with_wev rev rev_set wev context].
    rewrite lookup_insert_ne by done. by do 6 (split; [done|]).
  - eexists _, x, _. split; [done|]. split; [done|]. cbn [evs]. rewrite lookup_insert_eq. done.
  - rewrite (wf_handle _ _ H) in Hb. exact Hb.
Qed.

(** After AUTH and SELECT. *)
Lemma introduce_reader p c w a :
  unasked p c w -> writing w -> invalid <$> handle w = Some false -> auth_ok a = true -> select_ok a = true ->
  wpr (introduce c a) (λ _ w', reader false p false w' /\ writing w') w.
Proof.
  intros (e & id & v & H & Hc & Hid & Hv & Hp & Hk & Hs & Hx) Hw Hb Ha Hsel.
  assert (redis_le_valid e = true) as Hval.
  { unfold redis_le_valid. rewrite Hc. rewrite (wf_handle _ _ H) in Hb. by injection Hb as ->. }
  destruct (introduce_writing w e c a (wf_handle _ _ H) Hval) as (l & Hl); [by apply (wf_context _ _ H)|done..|].
  unfold wpr. rewrite Hl. split; [|by apply writing_sent]. apply reader_sent. exists e, id, v. done.
Qed.

(** A reconnection in which nothing fails: the reader's event is not persistent, and nobody asked for it yet. *)
Lemma reconnect_reader w a :
  inv w -> all_well a -> wpr (redis_reconnect a) (λ _ w', reader false false false w' /\ writing w') w.
Proof.
  intros [e H] (Hco & Hra & Hwa & Hau & Hse). eapply wpr_self; [apply H|]. rewrite (wf_allocated _ _ H). cbn [negb].
  eapply wpr_seq; [by apply drop_bare|].
  intros [] w0 H0. eapply wpr_seq; [exact H0|]. intros [] w1 H1.
  eapply wpr_seq; [by apply Connect_spec|]. intros [c|] w2 (H2 & _ & Hc); [|by rewrite Hco in Hc]. destruct Hc as [_ Hc].
  eapply wpr_self; [apply H2|]. eapply wpr_seq; [by apply wf_set_context|]. intros [] w3 [H3 _].
  eapply wpr_seq; [by apply (new_events_made w3 _ c false a H3)|]. intros ok w4 (-> & H4 & Hi4). cbn [negb].
  eapply wpr_seq; [by apply (start_writing_made false c w4 (invalid e) H4)|]. intros [] w5 (H5 & Hw5 & Hi5).
  pose proof H5 as (e5 & id & v & He5 & Hf). eapply wpr_self; [apply He5|].
  eapply (wpr_seq _ _ (λ _ w', unasked false c w' /\ writing w' /\ invalid <$> handle w' = Some false)).
  - unfold wpr, store, modify. split; [|split].
    + exists (with_invalid e5 false), id, v. split; [by apply wf_invalid|done].
    + destruct Hw5 as (e' & x & y & Hh & Hx). rewrite (wf_handle _ _ He5) in Hh. injection Hh as <-. by exists (with_invalid e5 false), x, y.
    + done.
  - intros [] w6 (H6 & Hw6 & Hi6). by apply introduce_reader.
Qed.

(** The writer's event fires while it waits. *)
Lemma writing_fire p k s w m Q :
  reader p k s w -> writing w -> (forall w, reader p k s w -> wpr m (λ _ w', Q w') w) -> wpr (fire wev m) (λ _ w', Q w') w.
Proof.
  intros (e & id & v & H & Hval & Hid & Hv & Hf) (e' & x & y & Hh & Hx & Hy & Hpe & _) Hm.
  rewrite (wf_handle _ _ H) in Hh. injection Hh as <-. unfold fire, wpr. rewrite (wf_handle _ _ H). cbn [mbind option_bind].
  rewrite Hx, Hy, Hpe. unfold mbind, partial_bind, activate, set_pending. rewrite Hy, Hpe. apply Hm. exists e, id, v.
  split; [by apply wf_activate|]. cbn [with_evs evs]. rewrite lookup_insert_ne; [done|]. intros ->. by eapply slots_differ.
Qed.

(** The socket of a new connection becomes writable: from now on the reader's event waits. *)
Lemma first_write p k w c :
  reader p k false w -> writing w -> wpr (run_op (WriteReady (Fine c))) (λ _ w', reader true k true w') w.
Proof. intros H Hw. eapply writing_fire; [exact H|done|]. intros w' H'. by apply (reader_WriteEvent p k false). Qed.

Lemma healthy_ops p k ops w :
  Forall healthy ops -> (p = true -> k = true) -> reader p k true w -> wpr (run_ops ops) (λ _ w', reader p k true w') w.
Proof. intros Hops Hpk. apply (run_ops_inv (reader p k true) healthy); [|done]. intros. by apply healthy_step. Qed.

(** The reader's event of an attachment in which nothing fails is persistent. *)
Lemma attach_reader ip0 port0 pwd0 db0 j a w :
  unattached w -> all_well a -> string_arg ip0 -> string_arg pwd0 ->
  wpr (redisLibeventAttach ip0 port0 pwd0 db0 j a) (λ ok w', ok = true /\ reader false true false w' /\ writing w') w.
Proof.
  intros Hun (Hco & Hra & Hwa & Hau & Hse) Hip Hpw. unfold redisLibeventAttach. destruct (attach_connects ip0 port0 pwd0 db0 j a w Hun Hip Hpw) as (t & p & Ht & Hp & H2).
  apply wpr_bind. unfold wpr at 1. rewrite Ht. apply wpr_bind. unfold wpr at 1. rewrite Hp.
  apply wpr_bind. unfold wpr at 1, redisAsyncConnect. rewrite Hco. apply wpr_bind. unfold wpr at 1, store, modify.
  eapply wpr_seq; [by apply (new_events_made _ _ _ true a H2)|]. intros ok w3 (-> & H3 & Hi3). cbn [negb].
  eapply wpr_seq; [by apply (start_writing_made true _ w3 false H3)|]. intros [] w4 (H4 & Hw4 & Hi4).
  eapply wpr_seq; [by apply (introduce_reader true)|]. intros [] w5 H5. by split.
Qed.

(** A connection that was attached reads for good: once its socket was writable, the reader's event waits
    after every healthy read, write and message. *)
Theorem attachment_reads ip0 port0 pwd0 db0 j a c ops w :
  unattached w -> all_well a -> string_arg ip0 -> string_arg pwd0 -> Forall healthy ops ->
  wpr (redisLibeventAttach ip0 port0 pwd0 db0 j a;; run_op (WriteReady (Fine c));; run_ops ops) (λ _ w', reader true true true w') w.
Proof.
  intros Hun Ha Hip Hpw Hops. eapply wpr_seq; [by apply attach_reader|]. intros ok w1 (_ & H1 & Hw1).
  eapply wpr_seq; [by apply (first_write false true)|]. intros [] w2 H2. by apply healthy_ops.
Qed.

(** C20. A connection that was made again reads once.  [redis_reconnect] leaves [EV_PERSIST] out, so the first read takes
    the reader's event out of the loop while [rev_set] stays 1, and [redisLibeventAddRead] never adds it again: after it,
    through every healthy write and message, the connection passes for a good one, and whatever the socket then
    holds - replies, or the end of the stream - changes nothing. *)
Theorem reconnection_deaf w a n len c1 c2 a' ops :
  inv w -> all_well a -> 1 <= len -> Forall healthy ops ->
  wpr (redis_reconnect a;; run_op (WriteReady (Fine c1));; run_op (ReadReady n len (Fine c2) a');; run_ops ops)
    (λ _ w', (exists e, handle w' = Some e /\ redis_le_valid e = true /\ rev_set e = true) /\
             forall n len r a, run_op (ReadReady n len r a) w' = Some (tt, w')) w.
Proof.
  intros Hi Ha Hlen Hops. eapply wpr_seq; [by apply reconnect_reader|]. intros [] w1 [H1 Hw1].
  eapply wpr_seq; [by apply (first_write false false)|]. intros [] w2 H2. eapply (wpr_seq _ _ (λ _ w', reader false false true w')).
  { eapply reader_fire_rev; [exact H2| |done]. intros _ w' H'. by apply (reader_ReadEvent false false true). }
  intros [] w3 H3. eapply wpr_mono; [by apply (healthy_ops false false)|]. intros [] w4 (e & id & v & H & Hval & Hid & Hv & Hp & _ & Hs).
  split; [exists e; split; [apply H|done]|]. intros. cbn [run_op]. unfold fire.
  rewrite (wf_handle _ _ H). cbn [mbind option_bind]. by rewrite Hid, Hv, Hp.
Qed.

(** * Examples *)

Definition w0 : redis_world := RedisWorld ∅ ∅ 1 None [].

(** Nothing fails. *)
Definition well : answers := Answers true 5 true true true true.

Lemma w0_unattached : unattached w0.
Proof. split; [done|]. intros c fd H. unfold w0, contexts in H. by rewrite lookup_empty in H. Qed.

Lemma all_well_well : all_well well.
Proof. done. Qed.

(** A message whose broken socket is then read, and the connection made again by the next message. *)
Definition ops0 : list redis_op :=
  [WriteReady (Fine true); Send (lit "publish") (lit "turn") (lit "new") (replicate 513 7) true well; WriteReady (Fine false);
   ReadReady 0 0 Connecting well; ReadReady 1 (-1) Connecting well; Send (lit "set") (lit "k") (lit "v") (replicate 513 7) false well].

Lemma ops0_ok : Forall op_ok ops0.
Proof. repeat first [constructor | done]. Qed.

Lemma string_arg_lit t : nonzero t -> string_arg (Some (t ++ [0])).
Proof. intros H m [= <-]. exists t. by apply (c_str_terminated t []). Qed.

Theorem redis_run_safe_witness :
  unattached w0 /\
  wpr (ok ← redisLibeventAttach None 0 (Some (lit "secret" ++ [0])) 2 7 well; run_ops ops0;; mret ok)
    (λ ok w', ok = true /\ if ok then inv w' else handle w' = None) w0.
Proof.
  split; [exact w0_unattached|].
  apply (redis_run_safe None 0 (Some (lit "secret" ++ [0])) 2 7 well ops0 w0 w0_unattached eq_refl); [done| |exact ops0_ok].
  apply string_arg_lit. repeat constructor; done.
Defined.

(** A connection that was lost. *)
Definition lost : redis_world := RedisWorld ∅ ∅ 1 (Some (Events None true true None None false false (lit "127.0.0.1") 6379 None 0)) [].

Lemma lost_inv : inv lost.
Proof.
  eexists. split; [reflexivity|reflexivity|reflexivity|reflexivity| | |done].
  - intros id v H. unfold lost, evs in H. by rewrite lookup_empty in H.
  - split; intros ? ? H; unfold lost, evs, contexts in H; by rewrite lookup_empty in H.
Qed.

Definition healthy0 : list redis_op :=
  [Send (lit "publish") (lit "turn") (lit "new") (replicate 513 7) true well; WriteReady (Fine true)].

Lemma healthy0_ok : Forall healthy healthy0.
Proof. repeat first [constructor | done | by exists true]. Qed.

Theorem reconnection_deaf_witness :
  inv lost /\
  wpr (redis_reconnect well;; run_op (WriteReady (Fine true));; run_op (ReadReady 0 5 (Fine true) well);; run_ops healthy0)
    (λ _ w', (exists e, handle w' = Some e /\ redis_le_valid e = true /\ rev_set e = true) /\
             forall n len r a, run_op (ReadReady n len r a) w' = Some (tt, w')) lost.
Proof.
  split; [exact lost_inv|].
  apply (reconnection_deaf lost well 0 5 true true well healthy0 lost_inv all_well_well); [lia|exact healthy0_ok].
Defined.

Theorem attachment_reads_witness :
  unattached w0 /\
  wpr (redisLibeventAttach None 0 None 2 7 well;; run_op (WriteReady (Fine true));; run_ops healthy0) (λ _ w', reader true true true w') w0.
Proof.
  split; [exact w0_unattached|].
  apply (attachment_reads None 0 None 2 7 well true healthy0 w0 w0_unattached all_well_well); [done|done|exact healthy0_ok].
Defined.
