(* ===== verification/Log.v ===== *)
(** Mutexes and the log, [common/ns_turn_utils.c].

    The state is the statics of the file with what the system holds of them: the mutexes of
    pthread, the open streams, and what was written where.  A stream that was closed or is
    NULL, a mutex that was freed or never made, and a write outside an array are undefined
    behaviour ([None]); so is a lock that a single thread waits for itself.  What the system
    answers - which files open, whether a write succeeds, the date - is the argument
    [log_env] of the operations. *)

From stdpp Require Import gmap.
From S2P Require Import Prelude Defs CString Partial IoAddr AddrText.

(** * The system *)

(** A mutex of pthread: recursive or not, initialised or not, how often its owner locked it. *)
Record pmutex : Type := PMutex { recursive : bool; ready : bool; depth : Z }.

Inductive stream : Type := Stdout | File (id : Z).

(** Where a line of the log goes. *)
Inductive dest : Type := ToStdout | ToSyslog (priority : Z) | ToFile (name : list Z).

Record library : Type := Library {
  mutexes : gmap Z pmutex;
  open_files : gmap Z (list Z);
  fresh_id : Z;
  written : list (dest * list Z);
}.

(** [struct _turn_mutex] *)
Record turn_mutex : Type := TurnMutex { data : Z; mutex : option Z }.

(** The settings of the log. *)
Record log_settings : Type := LogSettings {
  turn_log_timestamp_format : list Z;
  use_new_log_timestamp_format : Z;
  simple_log : Z;
  _log_time_value_set : Z;
  _log_time_value : Z;
}.

(** The statics the log itself changes. *)
Record log_statics : Type := LogStatics {
  log_start_time : Z;
  no_stdout_log : Z;
  _rtpfile : option stream;
  to_syslog : Z;
  log_fn : list Z;
  log_fn_base : list Z;
  to_reset_log_file : bool;
  log_mutex : turn_mutex;
  log_mutex_inited : bool;
}.

Record log_world : Type := LogWorld { lib : library; conf : log_settings; stat : log_statics }.

(** What the system answers during a call. *)
Record log_env : Type := LogEnv {
  can_read : list Z -> bool;      (* fopen(fn,"r") *)
  can_append : list Z -> bool;    (* fopen(fn,"a"), fopen(fn,"w") *)
  write_ok : bool;                (* fprintf and fflush of the log's stream *)
  now : Z;                        (* time() *)
  stamp : list Z -> list Z;       (* strftime of a format *)
  date : list Z;                  (* strftime of "%F" *)
  pid : Z;
  attr_rcs : Z * Z * Z;           (* pthread_mutexattr_init, pthread_mutexattr_settype, pthread_mutex_init *)
  junk : Z;                       (* the bytes of local arrays *)
}.

(** * The monad *)

Abbreviation log := (partial log_world).

Definition put_lib (f : library -> library) : log unit := modify (λ w, LogWorld (f (lib w)) (conf w) (stat w)).
Definition put (f : log_statics -> log_statics) : log unit := modify (λ w, LogWorld (lib w) (conf w) (f (stat w))).
Definition put_conf (f : log_settings -> log_settings) : log unit := modify (λ w, LogWorld (lib w) (f (conf w)) (stat w)).

Definition statics {A} (f : log_statics -> A) : log A := get (f ∘ stat).

Definition with_start (t : Z) (s : log_statics) : log_statics :=
  LogStatics t (no_stdout_log s) (_rtpfile s) (to_syslog s) (log_fn s) (log_fn_base s) (to_reset_log_file s) (log_mutex s) (log_mutex_inited s).
Definition with_no_stdout (v : Z) (s : log_statics) : log_statics :=
  LogStatics (log_start_time s) v (_rtpfile s) (to_syslog s) (log_fn s) (log_fn_base s) (to_reset_log_file s) (log_mutex s) (log_mutex_inited s).
Definition with_rtpfile (f : option stream) (s : log_statics) : log_statics :=
  LogStatics (log_start_time s) (no_stdout_log s) f (to_syslog s) (log_fn s) (log_fn_base s) (to_reset_log_file s) (log_mutex s) (log_mutex_inited s).
Definition with_syslog (v : Z) (s : log_statics) : log_statics :=
  LogStatics (log_start_time s) (no_stdout_log s) (_rtpfile s) v (log_fn s) (log_fn_base s) (to_reset_log_file s) (log_mutex s) (log_mutex_inited s).
Definition with_fn (m : list Z) (s : log_statics) : log_statics :=
  LogStatics (log_start_time s) (no_stdout_log s) (_rtpfile s) (to_syslog s) m (log_fn_base s) (to_reset_log_file s) (log_mutex s) (log_mutex_inited s).
Definition with_base (m : list Z) (s : log_statics) : log_statics :=
  LogStatics (log_start_time s) (no_stdout_log s) (_rtpfile s) (to_syslog s) (log_fn s) m (to_reset_log_file s) (log_mutex s) (log_mutex_inited s).
Definition with_reset (b : bool) (s : log_statics) : log_statics :=
  LogStatics (log_start_time s) (no_stdout_log s) (_rtpfile s) (to_syslog s) (log_fn s) (log_fn_base s) b (log_mutex s) (log_mutex_inited s).
Definition with_log_mutex (m : turn_mutex) (s : log_statics) : log_statics :=
  LogStatics (log_start_time s) (no_stdout_log s) (_rtpfile s) (to_syslog s) (log_fn s) (log_fn_base s) (to_reset_log_file s) m true.

(** * Mutexes of pthread *)

Definition set_mutexes (f : gmap Z pmutex -> gmap Z pmutex) (l : library) : library :=
  Library (f (mutexes l)) (open_files l) (fresh_id l) (written l).

(** [malloc(sizeof(pthread_mutex_t))] *)
Definition new_pmutex (r : bool) (made : bool) : log Z := λ w,
  let l := lib w in
  Some (fresh_id l, LogWorld (Library (<[fresh_id l := PMutex r made 0]> (mutexes l)) (open_files l) (fresh_id l + 1) (written l)) (conf w) (stat w)).

Definition pmutex_at (p : Z) : log pmutex := λ w, match mutexes (lib w) !! p with Some m => Some (m, w) | None => None end.

Definition free_pmutex (p : Z) : log unit := pmutex_at p;; put_lib (set_mutexes (delete p)).

(** One thread: its second lock of a mutex that is not recursive never returns. *)
Definition pthread_mutex_lock (p : Z) : log Z :=
  m ← pmutex_at p;
  if ready m && (recursive m || (depth m =? 0)) then
    put_lib (set_mutexes (insert p (PMutex (recursive m) true (depth m + 1))));; mret 0
  else undefined.

(** The owner is this thread; [EPERM] of a recursive mutex it does not hold is 1. *)
Definition pthread_mutex_unlock (p : Z) : log Z :=
  m ← pmutex_at p;
  if negb (ready m) then undefined
  else if 0 <? depth m then put_lib (set_mutexes (insert p (PMutex (recursive m) true (depth m - 1))));; mret 0
  else if recursive m then mret 1 else undefined.

(** [EBUSY] of a mutex that is held is 16. *)
Definition pthread_mutex_destroy (p : Z) : log Z :=
  m ← pmutex_at p;
  if ready m then mret (if depth m =? 0 then 0 else 16) else undefined.

(** * turn_mutex *)

Definition MAGIC_CODE : Z := 0xEFCD1983.

(** The pthread mutex of an initialised [turn_mutex]. *)
Definition initialised (m : option turn_mutex) : option Z :=
  match m with Some m => if data m =? MAGIC_CODE then mutex m else None | None => None end.

Definition turn_mutex_lock (m : option turn_mutex) : log Z :=
  match initialised m with Some p => pthread_mutex_lock p | None => mret (-1) end.

Definition turn_mutex_unlock (m : option turn_mutex) : log Z :=
  match initialised m with Some p => pthread_mutex_unlock p | None => mret (-1) end.

(** Result: the return code and the structure after the call. *)
Definition turn_mutex_init (m : option turn_mutex) : log (Z * option turn_mutex) :=
  match m with
  | Some m => p ← new_pmutex false true; mret (0, Some (TurnMutex MAGIC_CODE (Some p)))
  | None => mret (-1, None)
  end.

(** The calls of pthread return 0 or a positive error number, which the tests for a negative one let through. *)
Definition turn_mutex_init_recursive (env : log_env) (m : option turn_mutex) : log (Z * option turn_mutex) :=
  let '(rc_init, rc_type, rc) := attr_rcs env in
  match m with
  | None => mret (-1, None)
  | Some m0 =>
    if (rc_init <? 0) || (rc_type <? 0) then mret (-1, Some m0) else
    p ← new_pmutex (rc_type =? 0) (rc =? 0);
    if rc <? 0 then free_pmutex p;; mret (rc, Some (TurnMutex 0 None))
    else mret (rc, Some (TurnMutex MAGIC_CODE (Some p)))
  end.

Definition turn_mutex_destroy (m : option turn_mutex) : log (Z * option turn_mutex) :=
  match initialised m with
  | Some p => rc ← pthread_mutex_destroy p; free_pmutex p;; mret (rc, Some (TurnMutex 0 None))
  | None => mret (0, m)
  end.

(** * Streams *)

Definition FILE_STR_LEN : Z := 1025.

Definition write (d : dest) (text : list Z) : log unit :=
  put_lib (λ l, Library (mutexes l) (open_files l) (fresh_id l) (written l ++ [(d, text)])).

Definition new_file (name : list Z) : log Z := λ w,
  let l := lib w in
  Some (fresh_id l, LogWorld (Library (mutexes l) (<[fresh_id l := name]> (open_files l)) (fresh_id l + 1) (written l)) (conf w) (stat w)).

(** The stream of a file that opens, NULL otherwise.  [fn]: the array with the name. *)
Definition fopen (ok : list Z -> bool) (fn : list Z) : log (option stream) :=
  name ← mem (c_str fn);
  if ok name then id ← new_file name; mret (Some (File id)) else mret None.

Definition name_of (id : Z) : log (list Z) := λ w, match open_files (lib w) !! id with Some n => Some (n, w) | None => None end.

Definition fclose (f : stream) : log unit :=
  match f with
  | Stdout => undefined
  | File id => name_of id;; put_lib (λ l, Library (mutexes l) (delete id (open_files l)) (fresh_id l) (written l))
  end.

(** [fprintf(_rtpfile,"%s",s)] and [fflush(_rtpfile)]: whether both succeed. *)
Definition fprintf (env : log_env) (f : option stream) (text : list Z) : log bool :=
  match f with
  | None => undefined
  | Some f =>
    d ← (match f with Stdout => mret ToStdout | File id => n ← name_of id; mret (ToFile n) end);
    if write_ok env then write d text;; mret true else mret false
  end.

(** [snprintf(m+p,size,...)] of a text. *)
Definition snprintf_at (m : list Z) (p size : Z) (text : list Z) : option (list Z) :=
  if size =? 0 then Some m else wr_block m p (take (Z.to_nat (size - 1)) text ++ [0]).

(** * The settings *)

Definition set_no_stdout_log (val : Z) : log unit := put (with_no_stdout val).
Definition set_log_to_syslog (val : Z) : log unit := put (with_syslog val).
Definition set_simple_log (val : Z) : log unit :=
  put_conf (λ c, LogSettings (turn_log_timestamp_format c) (use_new_log_timestamp_format c) val (_log_time_value_set c) (_log_time_value c)).

Definition MAX_LOG_TIMESTAMP_FORMAT_LEN : Z := 48.

(** The last byte of the array stays the terminator. *)
Definition set_turn_log_timestamp_format (new_format : list Z) : log unit :=
  t ← mem (c_str new_format);
  old ← get (turn_log_timestamp_format ∘ conf);
  m ← mem (wr_block old 0 (strncpy_field t (MAX_LOG_TIMESTAMP_FORMAT_LEN - 1)));
  put_conf (λ c, LogSettings m (use_new_log_timestamp_format c) (simple_log c) (_log_time_value_set c) (_log_time_value c)).

Definition sighup_callback_handler (signum : Z) : log unit := whenever (signum =? 1) (put (with_reset true)).

Definition log_time (env : log_env) : log Z :=
  start ← statics log_start_time;
  whenever (start =? 0) (put (with_start (u32 (now env))));;
  start ← statics log_start_time;
  c ← get conf;
  mret (u32 ((if truth (_log_time_value_set c) then _log_time_value c else u32 (now env)) - start)).

(** * The log file *)

Definition log_lock (env : log_env) : log unit :=
  inited ← statics log_mutex_inited;
  whenever (negb inited) ('(_, m) ← (m ← statics log_mutex; turn_mutex_init_recursive env (Some m)); m ← mem m; put (with_log_mutex m));;
  m ← statics log_mutex;
  turn_mutex_lock (Some m);; mret tt.

Definition log_unlock : log unit := m ← statics log_mutex; turn_mutex_unlock (Some m);; mret tt.

Definition reset_rtpprintf (env : log_env) : log unit :=
  log_lock env;;
  f ← statics _rtpfile;
  match f with
  | Some f => (match f with Stdout => mret tt | File _ => fclose f end);; put (with_rtpfile None)
  | None => mret tt
  end;;
  log_unlock.

(** [fn]: a C string or NULL. *)
Definition set_logfile (env : log_env) (fn : option (list Z)) : log unit :=
  match fn with
  | None => mret tt
  | Some fn =>
    log_lock env;;
    t ← mem (c_str fn);
    base ← statics log_fn_base;
    b ← mem (c_str base);
    whenever (negb (streq t b)) (reset_rtpprintf env;; m ← mem (STRCPY base FILE_STR_LEN fn); put (with_base m));;
    log_unlock
  end.

(** From the end: the text before the last dot and from it on, if no slash comes after it. *)
Fixpoint split_dot (r acc : list Z) : option (list Z * list Z) :=
  match r with
  | [] => None
  | c :: r => if c =? 47 then None else if c =? 46 then Some (rev r, c :: acc) else split_dot r (c :: acc)
  end.

(** The name before its extension, and the extension: [.log] without one. *)
Definition base_and_tail (t : list Z) : list Z * list Z :=
  let base1 := map (λ c, if (c =? 32) || (c =? 9) then 95 else c) t in
  match split_dot (rev base1) [] with
  | Some (b, tail) => (b, if zlen tail <? 2 then lit ".log" else tail)
  | None => (base1, lit ".log")
  end.

Definition dated_name (date t : list Z) : list Z :=
  let '(base1, tail) := base_and_tail t in
  let joined := match rev base1 with
                | [] => true
                | c :: _ => (c =? 47) || (c =? 45) || (c =? 95)
                end in
  base1 ++ (if joined then [] else [95]) ++ date ++ tail.

(** [logdate] has 125 bytes; a date that does not fit leaves it undefined. *)
Definition set_log_file_name_func (env : log_env) (base f : list Z) (fsz : Z) : log (list Z) :=
  t ← mem (c_str base);
  c ← get conf;
  if truth (simple_log c) then mem (wr_block f 0 (strncpy_field t fsz))
  else if zlen (date env) <? 125 then mem (snprintf f FILE_STR_LEN (dated_name (date env) t))
  else undefined.

Definition uninitialised (env : log_env) : list Z := replicate (Z.to_nat FILE_STR_LEN) (junk env).

Section logger.
Context (env : log_env) (TURN_LOG_FUNC : list Z -> log unit).

Definition opened (fn : list Z) : log unit := t ← mem (c_str fn); TURN_LOG_FUNC (lit "log file opened: " ++ t ++ [10]).

(** [_rtpfile = fopen(fn,"a"); if(_rtpfile) TURN_LOG_FUNC(...)]: whether it was opened. *)
Definition open_log (fn : list Z) : log bool :=
  f ← fopen (can_append env) fn;
  put (with_rtpfile f);;
  match f with Some _ => opened fn;; mret true | None => mret false end.

(** The directories in turn; result: [logbase] and [logf]. *)
Fixpoint open_default (dirs : list (list Z)) (logtail : list Z) : log (option (list Z * list Z)) :=
  match dirs with
  | [] => put (with_rtpfile (Some Stdout));; mret None
  | d :: dirs =>
    logbase ← mem (snprintf (uninitialised env) FILE_STR_LEN (d ++ logtail));
    logf ← set_log_file_name_func env logbase (uninitialised env) FILE_STR_LEN;
    ok ← open_log logf;
    if (ok : bool) then mret (Some (logbase, logf)) else open_default dirs logtail
  end.

Definition default_dirs : list (list Z) :=
  map lit ["/var/log/turnserver/"; "/var/log/"; "/var/tmp/"; "/tmp/"; ""]%string.

Definition set_default_rtpfile : log unit :=
  c ← get conf;
  let logtail := if truth (simple_log c) then lit "turn.log" else lit "turn_" ++ dec_string (pid env) ++ lit "_" in
  r ← open_default default_dirs logtail;
  match r with
  | None => mret tt
  | Some (logbase, logf) =>
    base ← statics log_fn_base;
    m ← mem (STRCPY base FILE_STR_LEN logbase);
    put (with_base m);;
    fn ← statics log_fn;
    m ← mem (STRCPY fn FILE_STR_LEN logf);
    put (with_fn m)
  end.

(** The file the log was set to; whether the function returns. *)
Definition set_named_rtpfile : log bool :=
  base ← statics log_fn_base;
  c ← mem (rd8 base 0);
  if truth c then
    t ← mem (c_str base);
    (if streq t (lit "syslog") then put (with_rtpfile (Some Stdout));; put (with_syslog 1)
     else if streq t (lit "stdout") || streq t (lit "-") then put (with_rtpfile (Some Stdout));; put (with_no_stdout 1)
     else fn ← statics log_fn; m ← set_log_file_name_func env base fn FILE_STR_LEN; put (with_fn m);; open_log m;; mret tt);;
    f ← statics _rtpfile;
    mret (match f with Some _ => true | None => false end)
  else mret false.

Definition set_rtpfile : log unit :=
  reset ← statics to_reset_log_file;
  whenever reset (reset_rtpprintf env;; put (with_reset false));;
  syslog ← statics to_syslog;
  if truth syslog then mret tt else
  f ← statics _rtpfile;
  match f with
  | Some _ => mret tt
  | None => done ← set_named_rtpfile; if (done : bool) then mret tt else set_default_rtpfile
  end.

Definition get_syslog_level (level : Z) : Z := if level =? 1 then 5 else if level =? 2 then 4 else if level =? 3 then 3 else 6.

Definition RTPPRINTF_BUFFER_SIZE : Z := 1025.

(** The time at the beginning of a line: the buffer and what [strftime] or [snprintf] returns. *)
Definition time_stamp : log (list Z * Z) :=
  let s := replicate (Z.to_nat RTPPRINTF_BUFFER_SIZE) (junk env) in
  c ← get conf;
  if truth (use_new_log_timestamp_format c) then
    f ← mem (c_str (turn_log_timestamp_format c));
    let t := stamp env f in
    if zlen t <? RTPPRINTF_BUFFER_SIZE then s ← mem (wr_block s 0 (t ++ [0])); mret (s, zlen t) else mret (s, 0)
  else
    n ← log_time env;
    let t := dec_string n ++ lit ": " in
    s ← mem (snprintf s RTPPRINTF_BUFFER_SIZE t); mret (s, zlen t).

(** [text]: what [vsnprintf] makes of the caller's format and arguments. *)
Definition turn_log_with (level : Z) (text : list Z) : log unit :=
  '(s, so_far) ← time_stamp;
  let label := if level =? 3 then lit ": ERROR: " else lit ": " in
  s ← mem (snprintf_at s so_far (RTPPRINTF_BUFFER_SIZE - 100) label);
  let so_far := so_far + zlen label in
  s ← mem (snprintf_at s so_far (u64 (RTPPRINTF_BUFFER_SIZE - (so_far + 1))) text);
  let so_far := so_far + zlen text in
  quiet ← statics no_stdout_log;
  whenever (negb (truth quiet)) (bs ← mem (rd_block s 0 so_far); write ToStdout bs);;
  line ← mem (c_str s);
  syslog ← statics to_syslog;
  if truth syslog then write (ToSyslog (get_syslog_level level)) line
  else
    log_lock env;;
    set_rtpfile;;
    f ← statics _rtpfile;
    ok ← fprintf env f line;
    whenever (negb (ok : bool)) (reset_rtpprintf env);;
    log_unlock.

End logger.

(** A line logged while the log file is opened: it finds the stream set, so it opens none. *)
Definition nested_log (env : log_env) : list Z -> log unit := turn_log_with env (λ _, undefined) 0.

Definition turn_log_func_default (env : log_env) (level : Z) (text : list Z) : log unit :=
  turn_log_with env (nested_log env) level text.

Definition rollover_logfile (env : log_env) : log unit :=
  syslog ← statics to_syslog;
  fn ← statics log_fn;
  c ← mem (rd8 fn 0);
  if truth syslog || negb (truth c) then mret tt else
  name ← mem (c_str fn);
  if negb (can_read env name) then
    reset_rtpprintf env;;
    turn_log_func_default env 0 (lit "log file reopened: " ++ name ++ [10])
  else
  cf ← get conf;
  if truth (simple_log cf) then mret tt else
  log_lock env;;
  f ← statics _rtpfile;
  match f with
  | Some (File id) =>
    base ← statics log_fn_base;
    logf ← set_log_file_name_func env base (uninitialised env) FILE_STR_LEN;
    new ← mem (c_str logf);
    whenever (negb (streq name new))
      (fclose (File id);;
       m ← mem (wr8 fn 0 0);
       put (with_fn m);;
       f ← fopen (can_append env) logf;
       put (with_rtpfile f);;
       match f with
       | Some _ =>
         m ← mem (STRCPY m FILE_STR_LEN logf);
         put (with_fn m);;
         t ← mem (c_str m);
         turn_log_func_default env 0 (lit "log file opened: " ++ t ++ [10])
       | None => put (with_rtpfile (Some Stdout))
       end)
  | _ => mret tt
  end;;
  log_unlock.

(** * Addresses in the log *)

Section addresses.
Context `{N : NetDb}.

(** [s]: a text or NULL, which [printf] shows as such. *)
Definition addr_debug_print (env : log_env) (verbose : Z) (addr : option ioa_addr) (s : option (list Z)) : log unit :=
  if truth verbose then
    match addr with
    | None => turn_log_func_default env 0 (default (lit "(null)") s ++ lit ": EMPTY" ++ [10])
    | Some a =>
      let s := default [] s in
      let port p := dec_string (nswap16 p) ++ [10] in
      if sa_family a =? AF_INET then
        turn_log_func_default env 0 (lit "IPv4. " ++ s ++ lit ": " ++ inet_ntop AF_INET (sin_addr_bytes a) ++ lit ":" ++ port (sin_port a))
      else if sa_family a =? AF_INET6 then
        turn_log_func_default env 0 (lit "IPv6. " ++ s ++ lit ": " ++ inet_ntop AF_INET6 (sin6_addr a) ++ lit ":" ++ port (sin_port a))
      else if addr_any_no_port (Some a) then
        turn_log_func_default env 0 (lit "IP. " ++ s ++ lit ": 0.0.0.0:" ++ port (sin_port a))
      else
        turn_log_func_default env 0 (s ++ lit ": wrong IP address family: " ++ dec_string (sa_family a) ++ [10])
    end
  else mret tt.

End addresses.
