(* ===== verification/LogSpec.v ===== *)
(** The log and its mutexes: a recursive mutex nests and unwinds; whatever is logged, set and
    rolled over, the log leaves its mutex as it found it, keeps exactly one file open and
    writes inside its arrays - as long as writing to the file succeeds and the lines are short,
    which is where it fails. *)

From stdpp Require Import gmap.
From S2P Require Import Prelude Defs CString Partial IoAddr AddrText Log.

(** * Mutexes *)

(** The pthread mutex at [p], held [d] times. *)
Definition held (p d : Z) (w : log_world) : Prop := mutexes (lib w) !! p = Some (PMutex true true d).

Lemma lock_held p d w :
  held p d w -> 0 <= d ->
  pthread_mutex_lock p w = Some (0, LogWorld (set_mutexes (insert p (PMutex true true (d + 1))) (lib w)) (conf w) (stat w)).
Proof. intros H Hd. unfold pthread_mutex_lock, mbind, partial_bind, pmutex_at. by rewrite H. Qed.

Lemma unlock_held p d w :
  held p d w -> 0 < d ->
  pthread_mutex_unlock p w = Some (0, LogWorld (set_mutexes (insert p (PMutex true true (d - 1))) (lib w)) (conf w) (stat w)).
Proof.
  intros H Hd. unfold pthread_mutex_unlock, mbind, partial_bind, pmutex_at. rewrite H. cbn [ready negb].
  cbn [Log.depth]. by destruct (Z.ltb_spec 0 d); [|lia].
Qed.

Fixpoint repeat {A} (n : nat) (m : log A) : log unit := match n with O => mret tt | S n => m;; repeat n m end.

(** What changes of the library: the mutex. *)
Definition with_depth (p d : Z) (w : log_world) : log_world :=
  LogWorld (set_mutexes (insert p (PMutex true true d)) (lib w)) (conf w) (stat w).

Lemma with_depth_twice p d d' w : with_depth p d' (with_depth p d w) = with_depth p d' w.
Proof. unfold with_depth, set_mutexes. cbn. by rewrite insert_insert_eq. Qed.

Lemma held_with_depth p d w : held p d (with_depth p d w).
Proof. unfold held, with_depth. cbn. by rewrite lookup_insert_eq. Qed.

Lemma with_depth_held p d w : held p d w -> with_depth p d w = w.
Proof. intros H. destruct w as [[m o f t] c s]. unfold with_depth, set_mutexes. cbn in *. by rewrite insert_id. Qed.

Lemma repeat_lock m p n w :
  initialised (Some m) = Some p -> held p 0 w -> repeat n (turn_mutex_lock (Some m)) w = Some (tt, with_depth p (Z.of_nat n) w).
Proof.
  intros Hm Hh. assert (forall d, 0 <= d -> repeat n (turn_mutex_lock (Some m)) (with_depth p d w) = Some (tt, with_depth p (d + Z.of_nat n) w)) as H.
  { induction n as [|n IH]; intros d Hd; cbn [repeat]; [by rewrite Z.add_0_r|].
    unfold mbind at 1, partial_bind. unfold turn_mutex_lock at 1. rewrite Hm, (lock_held p d) by (try apply held_with_depth; lia).
    change (LogWorld _ _ _) with (with_depth p (d + 1) (with_depth p d w)). rewrite with_depth_twice, IH by lia. do 3 f_equal. lia. }
  specialize (H 0 ltac:(lia)). by rewrite with_depth_held in H.
Qed.

Lemma repeat_unlock m p n w :
  initialised (Some m) = Some p -> repeat n (turn_mutex_unlock (Some m)) (with_depth p (Z.of_nat n) w) = Some (tt, with_depth p 0 w).
Proof.
  intros Hm. induction n as [|n IH]; [done|]. cbn [repeat]. unfold mbind at 1, partial_bind. unfold turn_mutex_unlock at 1.
  rewrite Hm, (unlock_held p (Z.of_nat (S n))) by (try apply held_with_depth; lia).
  change (LogWorld _ _ _) with (with_depth p (Z.of_nat (S n) - 1) (with_depth p (Z.of_nat (S n)) w)). rewrite with_depth_twice.
  replace (Z.of_nat (S n) - 1) with (Z.of_nat n) by lia. exact IH.
Qed.

(** The life of a recursive mutex: made, locked as often as one likes by its owner, unlocked as often, destroyed.  All
    calls return 0 and the memory of the mutex is given back; afterwards locking it fails with -1. *)
Theorem turn_mutex_nests env m0 n w :
  attr_rcs env = (0, 0, 0) -> mutexes (lib w) !! fresh_id (lib w) = None ->
  exists m w', turn_mutex_init_recursive env (Some m0) w = Some ((0, Some m), w') /\
  exists w'', (repeat n (turn_mutex_lock (Some m));; repeat n (turn_mutex_unlock (Some m));; turn_mutex_destroy (Some m)) w'
              = Some ((0, Some (TurnMutex 0 None)), w'') /\
  mutexes (lib w'') = mutexes (lib w) /\ open_files (lib w'') = open_files (lib w) /\ stat w'' = stat w /\
  turn_mutex_lock (Some (TurnMutex 0 None)) w'' = Some (-1, w'').
Proof.
  intros Hrc Hfresh. set (p := fresh_id (lib w)). eexists (TurnMutex MAGIC_CODE (Some p)), _.
  unfold turn_mutex_init_recursive. rewrite Hrc. cbn [orb Z.ltb Z.compare]. unfold mbind at 1, partial_bind at 1, new_pmutex. cbn [Z.eqb].
  split; [done|]. set (w1 := LogWorld _ _ _). assert (held p 0 w1) as Hh by (unfold held, w1; cbn; by rewrite lookup_insert_eq).
  assert (initialised (Some (TurnMutex MAGIC_CODE (Some p))) = Some p) as Hi by done. eexists. split; [|split].
  - unfold mbind at 1, partial_bind at 1. rewrite (repeat_lock _ p) by done. unfold mbind at 1, partial_bind at 1.
    rewrite (repeat_unlock _ p), with_depth_held by done. unfold turn_mutex_destroy. rewrite Hi.
    unfold pthread_mutex_destroy, free_pmutex, mbind, partial_bind, pmutex_at. rewrite Hh. cbn [ready Log.depth Z.eqb mret partial_ret]. rewrite Hh. done.
  - unfold w1. cbn. by rewrite delete_insert_id.
  - done.
Qed.

Lemma turn_mutex_nests_witness :
  exists m w', turn_mutex_init_recursive (LogEnv (λ _, true) (λ _, true) true 0 (λ _, []) [] 0 (0, 0, 0) 0) (Some (TurnMutex 0 None))
    (LogWorld (Library ∅ ∅ 1 []) (LogSettings [0] 0 0 0 0) (LogStatics 0 0 None 0 [0] [0] false (TurnMutex 0 None) false)) = Some ((0, Some m), w') /\
  exists w'', (repeat 3 (turn_mutex_lock (Some m));; repeat 3 (turn_mutex_unlock (Some m));; turn_mutex_destroy (Some m)) w'
              = Some ((0, Some (TurnMutex 0 None)), w'').
Proof.
  destruct (turn_mutex_nests (LogEnv (λ _, true) (λ _, true) true 0 (λ _, []) [] 0 (0, 0, 0) 0) (TurnMutex 0 None) 3
    (LogWorld (Library ∅ ∅ 1 []) (LogSettings [0] 0 0 0 0) (LogStatics 0 0 None 0 [0] [0] false (TurnMutex 0 None) false)))
    as (m & w' & H & w'' & H' & _); [done|done|]. exists m, w'. split; [exact H|]. exists w''. exact H'.
Defined.

(** * The invariant of the log *)

(** What the system answers is short and goes well. *)
Record env_ok (env : log_env) : Prop := EnvOk {
  eo_rcs : attr_rcs env = (0, 0, 0);
  eo_date : nonzero (date env) /\ zlen (date env) <= 100;
  eo_stamp : forall f, nonzero (stamp env f) /\ zlen (stamp env f) <= 100;
  eo_write : write_ok env = true;
}.

(** An array with a string of at most [n] characters. *)
Definition string_of (size n : Z) (m : list Z) : Prop := zlen m = size /\ exists t, c_str m = Some t /\ zlen t <= n.

(** The log between two of its operations, its mutex held [d] times: the mutex is made when it is first locked, the open
    files are the stream of the log, and the names are strings. *)
Record lok (d : Z) (w : log_world) : Prop := Lok {
  lo_depth : 0 <= d;
  lo_mutex : if log_mutex_inited (stat w) then exists p, log_mutex (stat w) = TurnMutex MAGIC_CODE (Some p) /\ held p d w else d = 0;
  lo_files : match _rtpfile (stat w) with Some (File id) => exists n, open_files (lib w) = {[id := n]} | _ => open_files (lib w) = ∅ end;
  lo_fn : string_of 1025 850 (log_fn (stat w));
  lo_base : string_of 1025 700 (log_fn_base (stat w));
  lo_format : exists l, turn_log_timestamp_format (conf w) = l ++ [0] /\ zlen l = 47;
}.

(** What the functions below leave alone. *)
Record kept (w w' : log_world) : Prop := Kept {
  kept_syslog : to_syslog (stat w') = to_syslog (stat w);
  kept_reset : to_reset_log_file (stat w') = to_reset_log_file (stat w);
}.

Lemma kept_refl w : kept w w.
Proof. done. Qed.

Lemma kept_trans w1 w2 w3 : kept w1 w2 -> kept w2 w3 -> kept w1 w3.
Proof. intros [] []. split; congruence. Qed.

Definition keeps_file (w w' : log_world) : Prop := kept w w' /\ _rtpfile (stat w') = _rtpfile (stat w).

Lemma keeps_file_trans w1 w2 w3 : keeps_file w1 w2 -> keeps_file w2 w3 -> keeps_file w1 w3.
Proof. intros [? ?] [? ?]. split; [by eapply kept_trans|congruence]. Qed.

Section env.
Context (env : log_env).
Hypothesis Henv : env_ok env.

(** Locking and unlocking. *)
Lemma log_lock_spec d w : lok d w -> wpr (log_lock env) (λ _ w', lok (d + 1) w' /\ keeps_file w w') w.
Proof using Henv.
  intros [Hd Hm Hf Hfn Hb Hfmt]. unfold log_lock, statics. apply wpr_bind, wpr_get. cbn [compose].
  destruct (log_mutex_inited (stat w)) eqn:Ei; cbn [negb whenever].
  - apply wpr_bind, wpr_ret, wpr_bind, wpr_get. destruct Hm as (p & Hp & Hh). cbn [compose]. rewrite Hp.
    unfold turn_mutex_lock. cbn [initialised data mutex]. rewrite Z.eqb_refl. unfold wpr, mbind, partial_bind.
    rewrite (lock_held p d) by done. split; [|done]. split; cbn; try done; [lia|]. rewrite Ei. exists p. split; [done|]. apply held_with_depth.
  - subst d. apply wpr_bind, wpr_bind, wpr_bind, wpr_get. unfold turn_mutex_init_recursive. rewrite (eo_rcs _ Henv).
    unfold wpr, mbind, partial_bind, new_pmutex. cbn [orb Z.ltb Z.compare Z.eqb mem mret partial_ret put modify get compose stat log_mutex with_log_mutex].
    unfold turn_mutex_lock. cbn [initialised data mutex]. rewrite Z.eqb_refl.
    rewrite (lock_held (fresh_id (lib w)) 0) by (unfold held; cbn; by rewrite ?lookup_insert_eq).
    split; [|done]. split; cbn; try done. exists (fresh_id (lib w)). split; [done|]. unfold held. cbn. by rewrite lookup_insert_eq.
Qed.

Lemma log_unlock_spec d w : lok (d + 1) w -> 0 <= d -> wpr log_unlock (λ _ w', lok d w' /\ keeps_file w w') w.
Proof.
  intros [_ Hm Hf Hfn Hb Hfmt] Hd. unfold log_unlock, statics. apply wpr_bind, wpr_get. cbn [compose].
  destruct (log_mutex_inited (stat w)) eqn:Ei; [|lia]. destruct Hm as (p & Hp & Hh). rewrite Hp.
  unfold turn_mutex_unlock. cbn [initialised data mutex]. rewrite Z.eqb_refl. unfold wpr, mbind, partial_bind.
  rewrite (unlock_held p (d + 1)) by (done || lia). split; [|done]. split; cbn; try done. rewrite Ei. exists p. split; [done|].
  replace (d + 1 - 1) with d by lia. apply held_with_depth.
Qed.

(** The world without the stream. *)
Definition cleared (w : log_world) : log_world := LogWorld (lib w) (conf w) (with_rtpfile None (stat w)).

Lemma cleared_none w : _rtpfile (stat w) = None -> cleared w = w.
Proof. destruct w as [l c []]. cbn. by intros ->. Qed.

Lemma lok_stdout d w : lok d (cleared w) -> lok d (LogWorld (lib w) (conf w) (with_rtpfile (Some Stdout) (stat w))).
Proof. intros []. by split. Qed.

Lemma fclose_spec d w id (k : unit -> log unit) Q :
  lok d w -> _rtpfile (stat w) = Some (File id) ->
  (forall w', lok d (cleared w') -> kept w w' -> wpr (k tt) Q w') -> wpr (fclose (File id) ≫= k) Q w.
Proof.
  intros [Hd Hm Hf Hfn Hb Hfmt] Hr Hk. rewrite Hr in Hf. destruct Hf as [n Hf]. apply wpr_bind. unfold fclose, name_of, wpr, mbind, partial_bind.
  rewrite Hf, lookup_singleton_eq. apply Hk; [|done]. split; try done. cbn. by rewrite Hf, delete_singleton_eq.
Qed.

Lemma reset_spec d w : lok d w -> wpr (reset_rtpprintf env) (λ _ w', lok d w' /\ kept w w' /\ _rtpfile (stat w') = None) w.
Proof using Henv.
  intros H. unfold reset_rtpprintf. eapply wpr_seq; [by apply log_lock_spec|]. intros [] w1 [H1 [Hk1 Hr1]].
  apply wpr_bind, wpr_get. unfold compose.
  eapply (wpr_seq _ _ (λ _ w', lok (d + 1) w' /\ kept w w' /\ _rtpfile (stat w') = None)).
  - destruct (_rtpfile (stat w1)) as [[|id]|] eqn:Er; [| |by apply wpr_ret].
    + apply wpr_bind, wpr_ret, wpr_modify. split; [|split; [|done]; destruct Hk1; by split]. destruct H1 as [? ? Hf]. rewrite Er in Hf. by split.
    + apply (fclose_spec (d + 1) w1 id); [done|done|].
      intros w2 H2 Hk2. apply wpr_modify. split; [exact H2|]. split; [|done]. destruct Hk1, Hk2. split; cbn; congruence.
  - intros [] w2 (H2 & Hk2 & Hr2). eapply wpr_mono; [apply (log_unlock_spec d w2); [done|apply H]|].
    intros [] w3 [H3 [Hk3 Hr3]]. split; [done|]. split; [by eapply kept_trans|congruence].
Qed.
End env.

(** * Lines *)

Lemma nonzero_lit_digits n : nonzero (dec_string n).
Proof. eapply Forall_impl; [apply dec_string_digits|]. intros c Hc. cbn in Hc. lia. Qed.

(** A text behind the string that is there, cut to the size. *)
Lemma snprintf_at_after m s size t :
  c_str m = Some s -> nonzero t -> 0 < size -> zlen s + size <= zlen m ->
  exists m', snprintf_at m (zlen s) size t = Some m' /\ zlen m' = zlen m /\ c_str m' = Some (s ++ take (Z.to_nat (size - 1)) t).
Proof.
  intros Hm Ht Hs Hz. destruct (c_str_Some _ _ Hm) as (Hn & r & Hr). unfold snprintf_at. destruct (Z.eqb_spec size 0); [lia|].
  set (u := take _ t). assert (zlen u < size) as Hu by (unfold u, zlen; rewrite length_take; lia). pose proof (zlen_nonneg u). pose proof (zlen_nonneg s).
  destruct (wr_block m (zlen s) (u ++ [0])) as [m'|] eqn:Hw; [|rewrite wr_block_ok in Hw by (rewrite ?zlen_app, ?zlen_1; lia); done].
  exists m'. split; [done|]. split; [by apply wr_block_zlen in Hw|]. apply wr_block_Some in Hw as (_ & _ & ->).
  unfold zlen at 1. rewrite Nat2Z.id, Hr, take_app_length, <- app_assoc. cbn [app]. rewrite app_assoc.
  apply c_str_terminated, Forall_app. split; [done|]. by apply Forall_take.
Qed.

Section lines.
Context (env : log_env) (L : list Z -> log unit).
Hypothesis Henv : env_ok env.

Lemma time_stamp_spec d w :
  lok d w -> wpr (time_stamp env) (λ r w', lok d w' /\ keeps_file w w' /\ exists t, c_str r.1 = Some t /\ zlen r.1 = 1025 /\ r.2 = zlen t /\ zlen t <= 100) w.
Proof using Henv.
  intros H. unfold time_stamp. apply wpr_bind, wpr_get. change RTPPRINTF_BUFFER_SIZE with 1025. set (s0 := replicate _ _).
  assert (zlen s0 = 1025) as Hz0 by (unfold s0, zlen; by rewrite length_replicate).
  assert (forall t, nonzero t -> zlen t <= 100 -> exists s, wr_block s0 0 (t ++ [0]) = Some s /\ zlen s = 1025 /\ c_str s = Some t) as Hwr.
  { intros t Ht Hl. pose proof (zlen_nonneg t). destruct (wr_block s0 0 (t ++ [0])) as [s|] eqn:Hw; [|rewrite wr_block_ok in Hw by (rewrite ?zlen_app, ?zlen_1; lia); done].
    destruct (c_str_written s0 t s Ht Hw) as [Hz Hc]. exists s. split; [done|]. split; [lia|done]. }
  destruct (truth _).
  - destruct (lo_format _ _ H) as (l & El & _). destruct (c_str_ended l) as [f Hf]. rewrite <- El in Hf. apply wpr_bind. eapply wpr_mem; [exact Hf|]. cbv zeta.
    destruct (eo_stamp _ Henv f) as [Hn Hl]. destruct (Z.ltb_spec (zlen (stamp env f)) 1025); [|lia].
    destruct (Hwr _ Hn Hl) as (s & Hs & Hz & Hc). apply wpr_bind. eapply wpr_mem; [exact Hs|]. apply wpr_ret. split; [done|]. split; [done|]. by exists (stamp env f).
  - eapply (wpr_seq _ _ (λ n w', 0 <= n /\ lok d w' /\ keeps_file w w')).
    + unfold log_time. apply wpr_bind, wpr_get. apply wpr_bind, wpr_whenever; intros _.
      * apply wpr_modify, wpr_bind, wpr_get, wpr_bind, wpr_get, wpr_ret. split; [unfold u32; apply Z.mod_pos_bound; lia|].
        split; [|done]. destruct H. by split.
      * apply wpr_bind, wpr_get, wpr_bind, wpr_get, wpr_ret. split; [unfold u32; apply Z.mod_pos_bound; lia|done].
    + intros n w1 (_ & H1 & Hk). cbv zeta. set (t := dec_string n ++ lit ": ").
      assert (zlen t <= 12) as Hl by (unfold t; rewrite zlen_app; pose proof (zlen_dec_string n); change (zlen (lit ": ")) with 2; lia).
      assert (nonzero t) as Ht by (unfold t; apply Forall_app; split; [apply nonzero_lit_digits|by repeat constructor]).
      destruct (Hwr t Ht ltac:(lia)) as (s & Hs & Hz & Hc). apply wpr_bind. eapply wpr_mem.
      { unfold snprintf. rewrite take_ge by (unfold zlen in Hl; lia). exact Hs. }
      apply wpr_ret. split; [done|]. split; [done|]. exists t. cbn [fst snd]. split; [done|]. split; [done|]. split; [done|lia].
Qed.

Lemma write_spec d w dst t : lok d w -> wpr (write dst t) (λ _ w', lok d w' /\ keeps_file w w') w.
Proof. intros []. apply wpr_modify. split; [by split|done]. Qed.

(** The line goes to its places. *)
Definition send_line (level : Z) (line : list Z) : log unit :=
  syslog ← statics to_syslog;
  if truth syslog then write (ToSyslog (get_syslog_level level)) line
  else
    log_lock env;;
    set_rtpfile env L;;
    f ← statics _rtpfile;
    ok ← fprintf env f line;
    whenever (negb (ok : bool)) (reset_rtpprintf env);;
    log_unlock.

Lemma turn_log_line d w level text Q :
  lok d w -> nonzero text -> zlen text <= 900 ->
  (forall line w', lok d w' -> keeps_file w w' -> wpr (send_line level line) Q w') -> wpr (turn_log_with env L level text) Q w.
Proof using Henv.
  intros H Ht Hl HQ. unfold turn_log_with. eapply wpr_seq; [by apply time_stamp_spec|].
  intros [s n] w1 (H1 & Hk1 & t & Hc & Hz & Hn & Htl). cbn [fst snd] in *. subst n. change RTPPRINTF_BUFFER_SIZE with 1025. cbv zeta.
  set (label := if level =? 3 then _ else _). assert (nonzero label /\ 0 <= zlen label <= 9) as [Hln Hll] by (unfold label; destruct (level =? 3); (split; [by repeat first [constructor | done]|by split])).
  pose proof (zlen_nonneg t). pose proof (zlen_nonneg text).
  destruct (snprintf_at_after s t (1025 - 100) label Hc Hln) as (s1 & Hs1 & Hz1 & Hc1); [lia|lia|].
  rewrite take_ge in Hc1 by (unfold zlen in Hll; lia). apply wpr_bind. eapply wpr_mem; [exact Hs1|].
  assert (u64 (1025 - (zlen t + zlen label + 1)) = 1025 - (zlen t + zlen label + 1)) as Hu by (unfold u64; apply Z.mod_small; lia).
  destruct (snprintf_at_after s1 (t ++ label) (1025 - (zlen t + zlen label + 1)) text Hc1 Ht) as (s2 & Hs2 & Hz2 & Hc2); [lia|rewrite zlen_app; lia|].
  apply wpr_bind. rewrite zlen_app in Hs2. eapply wpr_mem; [rewrite Hu; exact Hs2|]. apply wpr_bind, wpr_get.
  assert (forall w', lok d w' -> keeps_file w1 w' -> wpr (line ← mem (c_str s2); send_line level line) Q w') as Hlast.
  { intros w' H' Hk'. apply wpr_bind. eapply wpr_mem; [exact Hc2|]. apply HQ; [done|by eapply keeps_file_trans]. }
  apply wpr_bind, wpr_whenever; [|intros _; by apply Hlast]. intros _.
  destruct (rd_block s2 0 (zlen t + zlen label + zlen text)) as [bs|] eqn:Hb;
    [|rewrite rd_block_ok in Hb by lia; done].
  apply wpr_bind. eapply wpr_mem; [reflexivity|]. eapply wpr_mono; [by apply (write_spec d)|]. intros [] w' [H' Hk']. by apply Hlast.
Qed.

(** Writing to the stream of the log. *)
Lemma fprintf_spec d w f line :
  lok d w -> _rtpfile (stat w) = Some f -> wpr (fprintf env (Some f) line) (λ ok w', ok = true /\ lok d w' /\ keeps_file w w') w.
Proof using Henv.
  intros H Hf. unfold fprintf. rewrite (eo_write _ Henv).
  assert (forall dst, wpr (write dst line;; mret true) (λ ok w', ok = true /\ lok d w' /\ keeps_file w w') w) as Hw.
  { intros dst. eapply wpr_seq; [by apply (write_spec d)|]. intros [] w' H'. by apply wpr_ret. }
  destruct f as [|id]; [by apply wpr_bind, wpr_ret|]. pose proof (lo_files _ _ H) as Ho. rewrite Hf in Ho. destruct Ho as [n Ho].
  apply wpr_bind, wpr_bind. unfold wpr at 1, name_of. rewrite Ho, lookup_singleton_eq. by apply wpr_ret.
Qed.

(** Sending a line once the stream is there. *)
Lemma send_line_spec d w level line :
  lok d w ->
  (to_syslog (stat w) = 0 -> forall w', lok (d + 1) w' -> keeps_file w w' ->
     wpr (set_rtpfile env L) (λ _ w'', lok (d + 1) w'' /\ is_Some (_rtpfile (stat w'')) /\ to_reset_log_file (stat w'') = false) w') ->
  wpr (send_line level line) (λ _ w', lok d w' /\ (to_syslog (stat w) = 0 -> is_Some (_rtpfile (stat w')) /\ to_reset_log_file (stat w') = false)) w.
Proof using Henv.
  intros H Hset. unfold send_line. apply wpr_bind, wpr_get. unfold compose, truth. destruct (Z.eqb_spec (to_syslog (stat w)) 0) as [E|E]; cbn [negb].
  - eapply wpr_seq; [by apply log_lock_spec|]. intros [] w1 [H1 Hk1]. eapply wpr_seq; [by apply Hset|]. intros [] w2 (H2 & [f Hf] & Hr2).
    apply wpr_bind, wpr_get. unfold compose. rewrite Hf. eapply wpr_seq; [by apply (fprintf_spec (d + 1))|].
    intros ok w3 (-> & H3 & [Hk3 Hf3]). cbn [negb whenever]. apply wpr_bind, wpr_ret.
    eapply wpr_mono; [apply (log_unlock_spec d w3); [done|apply H]|]. intros [] w4 [H4 [Hk4 Hf4]]. split; [done|]. intros _.
    split; [rewrite Hf4, Hf3, Hf; by eexists|]. rewrite (kept_reset _ _ Hk4), (kept_reset _ _ Hk3). done.
  - eapply wpr_mono; [by apply (write_spec d)|]. intros [] w' [H' _]. split; [done|]. intros E'. congruence.
Qed.
End lines.

(** A line while the stream is there: nothing is opened. *)
Lemma set_rtpfile_set env L d w f :
  lok d w -> _rtpfile (stat w) = Some f -> to_reset_log_file (stat w) = false ->
  wpr (set_rtpfile env L) (λ _ w', w' = w) w.
Proof.
  intros H Hf Hr. unfold set_rtpfile. apply wpr_bind, wpr_get. unfold compose. rewrite Hr. cbn [whenever]. apply wpr_bind, wpr_ret, wpr_bind, wpr_get.
  destruct (truth _); [by apply wpr_ret|]. apply wpr_bind, wpr_get. unfold compose. rewrite Hf. by apply wpr_ret.
Qed.

(** * Opening the file *)

(** With the stream [f] open and no reset asked for. *)
Definition ready_at (d : Z) (w : log_world) : Prop :=
  lok d w /\ is_Some (_rtpfile (stat w)) /\ to_reset_log_file (stat w) = false.

Section opening.
Context (env : log_env).
Hypothesis Henv : env_ok env.

(** The nested line opens nothing and keeps the stream. *)
Lemma nested_log_spec d w text :
  ready_at d w -> nonzero text -> zlen text <= 900 -> wpr (nested_log env text) (λ _ w', ready_at d w') w.
Proof using Henv.
  intros (H & [f Hf] & Hr) Ht Hl. apply (turn_log_line env _ Henv d); [done..|]. intros line w1 H1 [Hk1 Hf1].
  assert (ready_at d w1) as Hready by (split; [done|]; split; [rewrite Hf1, Hf; by eexists|by rewrite (kept_reset _ _ Hk1)]).
  destruct (Z.eq_dec (to_syslog (stat w1)) 0) as [E|E].
  - eapply wpr_mono.
    + apply (send_line_spec env (λ _, undefined) Henv d w1 0 line H1). intros _ w2 H2 [Hk2 Hf2].
      eapply wpr_mono; [apply (set_rtpfile_set env _ (d + 1) w2 f); [done|congruence|rewrite (kept_reset _ _ Hk2), (kept_reset _ _ Hk1); done]|].
      intros [] w3 ->. split; [done|]. split; [rewrite Hf2, Hf1, Hf; by eexists|rewrite (kept_reset _ _ Hk2), (kept_reset _ _ Hk1); done].
    + intros [] w2 [H2 Hr2]. by split; [|apply Hr2].
  - unfold send_line. apply wpr_bind, wpr_get. unfold compose, truth. destruct (Z.eqb_spec (to_syslog (stat w1)) 0); [done|]. cbn [negb].
    eapply wpr_mono; [by apply (write_spec d)|]. intros [] w2 [H2 [Hk2 Hf2]]. split; [done|].
    destruct Hready as (_ & ? & ?). by rewrite Hf2, (kept_reset _ _ Hk2).
Qed.

Lemma opened_spec d w fn t :
  ready_at d w -> c_str fn = Some t -> zlen t <= 850 -> wpr (opened (nested_log env) fn) (λ _ w', ready_at d w') w.
Proof using Henv.
  intros H Hc Hl. unfold opened. apply wpr_bind. eapply wpr_mem; [exact Hc|]. destruct (c_str_Some _ _ Hc) as [Hn _].
  apply nested_log_spec; [done| |].
  - repeat apply Forall_app_2; [by repeat first [constructor | done]|done|by repeat constructor].
  - rewrite !zlen_app. change (zlen (lit "log file opened: ")) with 17. change (zlen [10]) with 1. lia.
Qed.

(** A file opens in place of none. *)
Lemma fopen_put d w ok fn t {B} (k : option stream -> log B) Q :
  lok d (cleared w) -> c_str fn = Some t ->
  (forall f w', lok d w' -> _rtpfile (stat w') = f -> f <> Some Stdout -> kept w w' -> wpr (k f) Q w') ->
  wpr (f ← fopen ok fn; put (with_rtpfile f);; k f) Q w.
Proof.
  intros H Hc Hk. apply wpr_bind. unfold fopen. apply wpr_bind. eapply wpr_mem; [exact Hc|]. pose proof (lo_files _ _ H) as Ho. cbn in Ho.
  destruct (ok t).
  - apply wpr_bind. unfold wpr at 1, new_file. apply wpr_ret. apply wpr_bind, wpr_modify. apply Hk; try done.
    destruct H. split; try done. cbn. exists t. by rewrite Ho.
  - apply wpr_ret, wpr_bind, wpr_modify. by apply Hk.
Qed.

Lemma open_log_spec d w fn t :
  lok d w -> _rtpfile (stat w) = None -> to_reset_log_file (stat w) = false -> c_str fn = Some t -> zlen t <= 850 ->
  wpr (open_log env (nested_log env) fn)
    (λ b w', if (b : bool) then ready_at d w' else lok d w' /\ _rtpfile (stat w') = None /\ to_reset_log_file (stat w') = false) w.
Proof using Henv.
  intros H Hf Hr Hc Hl. unfold open_log. apply (fopen_put d w (can_append env) fn t); [by rewrite cleared_none|done|].
  intros f w1 H1 Hf1 _ Hk1. destruct f as [f|].
  - eapply wpr_seq; [apply (opened_spec d w1 fn t); [|done|done]|].
    + split; [done|]. split; [rewrite Hf1; by eexists|by rewrite (kept_reset _ _ Hk1)].
    + intros [] w2 H2. by apply wpr_ret.
  - apply wpr_ret. split; [done|]. split; [done|]. by rewrite (kept_reset _ _ Hk1).
Qed.

(** * Names *)

Lemma split_dot_spec r acc b tail :
  split_dot r acc = Some (b, tail) -> nonzero r -> nonzero acc -> nonzero b /\ nonzero tail /\ zlen b + zlen tail = zlen r + zlen acc.
Proof.
  revert acc. induction r as [|c r IH]; intros acc; cbn [split_dot]; [done|]. destruct (c =? 47); [done|].
  intros Hs [Hc Hr]%Forall_cons Hacc. destruct (c =? 46).
  - injection Hs as <- <-. split; [by apply Forall_rev|]. split; [by constructor|]. rewrite !zlen_cons. unfold zlen at 1. rewrite length_rev. unfold zlen. lia.
  - destruct (IH _ Hs Hr) as (? & ? & E); [by constructor|]. split; [done|]. split; [done|]. rewrite E, !zlen_cons. lia.
Qed.

Lemma dated_name_spec dt t : nonzero dt -> nonzero t -> nonzero (dated_name dt t) /\ zlen (dated_name dt t) <= zlen t + zlen dt + 5.
Proof.
  intros Hd Ht. unfold dated_name. destruct (base_and_tail t) as [b tl] eqn:E.
  assert (nonzero b /\ nonzero tl /\ zlen b + zlen tl <= zlen t + 4) as (Hb & Htl & Hl).
  { unfold base_and_tail in E. set (m := map _ t) in E.
    assert (nonzero m /\ zlen m = zlen t) as [Hm Hml].
    { unfold m. clear E m. split; [|unfold zlen; by rewrite length_map]. induction Ht as [|c s Hc Hs IH]; [by constructor|]. cbn [map]. constructor; [|done].
      by destruct ((c =? 32) || (c =? 9)). }
    assert (nonzero (lit ".log")) as Hlog by (by repeat first [constructor | done]). assert (zlen (lit ".log") = 4) as Hlogl by done.
    destruct (split_dot (rev m) []) as [[b' tl']|] eqn:Es.
    - destruct (split_dot_spec _ _ _ _ Es) as (H1 & H2 & H3); [by apply Forall_rev|by constructor|].
      assert (zlen (rev m) = zlen m) as Hrl by (unfold zlen; by rewrite length_rev). change (zlen []) with 0 in H3.
      pose proof (zlen_nonneg tl'). injection E as <- <-. destruct (zlen tl' <? 2); split; try done; (split; [done|lia]).
    - injection E as <- <-. split; [done|]. split; [done|]. lia. }
  set (j := if match rev b with [] => true | _ => _ end then _ else _).
  assert (nonzero j /\ zlen j <= 1) as [Hj Hjl] by (unfold j; destruct (match rev b with [] => true | _ => _ end); (split; [by repeat first [constructor | done]|by vm_compute])).
  split; [by repeat apply Forall_app_2|]. rewrite !zlen_app. lia.
Qed.
End opening.

Section setting.
Context (env : log_env).
Hypothesis Henv : env_ok env.

Lemma set_name_spec w base f t (Q : list Z -> log_world -> Prop) :
  c_str base = Some t -> zlen t <= 700 -> zlen f = 1025 ->
  (forall m, string_of 1025 850 m -> Q m w) -> wpr (set_log_file_name_func env base f 1025) Q w.
Proof using Henv.
  intros Hc Hl Hf HQ. unfold set_log_file_name_func. destruct (c_str_Some _ _ Hc) as [Hn _]. destruct (eo_date _ Henv) as [Hdn Hdl].
  apply wpr_bind. eapply wpr_mem; [exact Hc|]. apply wpr_bind, wpr_get. destruct (truth _).
  - assert (strncpy_field t 1025 = t ++ 0 :: replicate (1025 - length t - 1) 0) as Ht.
    { unfold strncpy_field. change (Z.to_nat 1025) with 1025%nat. rewrite take_ge by (unfold zlen in Hl; lia). f_equal.
      destruct (1025 - length t)%nat as [|k] eqn:Hk; [unfold zlen in Hl; lia|]. by rewrite Nat.sub_succ, Nat.sub_0_r. }
    assert (zlen (strncpy_field t 1025) = 1025) as Hz by (rewrite Ht; unfold zlen in *; rewrite length_app; cbn [length]; rewrite length_replicate; lia).
    eapply wpr_mem; [apply wr_block_ok; lia|]. apply HQ. change (take (Z.to_nat 0) f) with (@nil Z). cbn [app].
    rewrite drop_ge by (unfold zlen in *; lia). rewrite app_nil_r. split; [done|]. exists t. split; [|lia]. rewrite Ht. by apply c_str_terminated.
  - destruct (Z.ltb_spec (zlen (date env)) 125); [|lia]. destruct (dated_name_spec (date env) t Hdn Hn) as [Hnn Hnl].
    change FILE_STR_LEN with 1025. destruct (snprintf_text f 1025 (dated_name (date env) t) Hnn) as (d & Hd & Hz & Hdc); [lia|].
    eapply wpr_mem; [exact Hd|]. apply HQ. split; [lia|]. exists (dated_name (date env) t). split; [done|lia].
Qed.

Lemma zlen_uninitialised : zlen (uninitialised env) = 1025.
Proof. unfold uninitialised, zlen. by rewrite length_replicate. Qed.

(** The log without a stream, as the functions that open one find it. *)
Definition closed_at (d : Z) (w : log_world) : Prop :=
  lok d w /\ _rtpfile (stat w) = None /\ to_reset_log_file (stat w) = false.

Lemma open_default_spec d w dirs tail :
  closed_at d w -> nonzero tail -> zlen tail <= 20 -> Forall (λ x, nonzero x /\ zlen x <= 50) dirs ->
  wpr (open_default env (nested_log env) dirs tail)
    (λ r w', ready_at d w' /\ match r with
                              | Some (logbase, logf) => string_of 1025 700 logbase /\ string_of 1025 850 logf
                              | None => True
                              end) w.
Proof using Henv.
  intros H Ht Htl Hdirs. revert w H. induction Hdirs as [|x dirs [Hx Hxl] Hdirs IH]; intros w (H & Hf & Hr); cbn [open_default].
  - apply wpr_bind, wpr_modify, wpr_ret. split; [|done]. split; [apply lok_stdout; by rewrite cleared_none|]. split; [by eexists|done].
  - change FILE_STR_LEN with 1025. pose proof zlen_uninitialised as Hu. pose proof (zlen_nonneg x) as Px. pose proof (zlen_nonneg tail) as Pt.
    destruct (snprintf_text (uninitialised env) 1025 (x ++ tail)) as (b & Hb & Hbz & Hbc); [by apply Forall_app_2|rewrite zlen_app; lia|].
    apply wpr_bind. eapply wpr_mem; [exact Hb|]. apply wpr_bind. apply (set_name_spec w b _ (x ++ tail)); [done|rewrite zlen_app; lia|done|].
    intros m Hm. pose proof Hm as (_ & n & Hn & Hnl).
    eapply wpr_seq; [by apply (open_log_spec env Henv d w m n)|]. intros [] w1 H1.
    + apply wpr_ret. split; [done|]. split; [|done]. split; [lia|]. exists (x ++ tail). split; [done|]. rewrite zlen_app. lia.
    + by apply IH.
Qed.

Lemma string_of_STRCPY n m src b :
  zlen m = 1025 -> string_of 1025 n src -> n < 1025 -> STRCPY m 1025 src = Some b -> string_of 1025 n b.
Proof.
  intros Hm (_ & t & Ht & Hl) Hn Hb. destruct (STRCPY_cut m 1025 src t Ht Hm) as (b' & Hb' & Hz & Hc); [lia|].
  rewrite Hb in Hb'. injection Hb' as <-. split; [done|]. eexists. split; [exact Hc|]. unfold zlen in *. rewrite length_take. lia.
Qed.

Lemma STRCPY_string n m src : zlen m = 1025 -> string_of 1025 n src -> n < 1025 -> exists b, STRCPY m 1025 src = Some b /\ string_of 1025 n b.
Proof.
  intros Hm Hs Hn. pose proof Hs as (_ & t & Ht & _). destruct (STRCPY_cut m 1025 src t Ht Hm) as (b & Hb & _); [lia|].
  exists b. split; [done|]. by eapply string_of_STRCPY.
Qed.

Lemma lok_with_base d w m : lok d w -> string_of 1025 700 m -> lok d (LogWorld (lib w) (conf w) (with_base m (stat w))).
Proof. intros []. by split. Qed.

Lemma lok_with_fn d w m : lok d w -> string_of 1025 850 m -> lok d (LogWorld (lib w) (conf w) (with_fn m (stat w))).
Proof. intros []. by split. Qed.

Lemma set_default_spec d w : closed_at d w -> wpr (set_default_rtpfile env (nested_log env)) (λ _ w', ready_at d w') w.
Proof using Henv.
  intros H. unfold set_default_rtpfile. apply wpr_bind, wpr_get. set (tail := if truth _ then _ else _).
  assert (nonzero tail /\ zlen tail <= 20) as [Ht Htl].
  { unfold tail. destruct (truth _).
    - split; [by repeat first [constructor | done]|by vm_compute].
    - split; [repeat apply Forall_app_2; [by repeat first [constructor | done]|apply nonzero_lit_digits|by repeat first [constructor | done]]|].
      rewrite !zlen_app. pose proof (zlen_dec_string (pid env)). change (zlen (lit "turn_")) with 5. change (zlen (lit "_")) with 1. lia. }
  eapply wpr_seq; [apply (open_default_spec d w default_dirs tail); [done..|by repeat first [constructor | done]]|].
  intros [[b f]|] w1 [(H1 & Hf1 & Hr1) Hn]; [|by apply wpr_ret]. destruct Hn as [Hb Hf].
  change FILE_STR_LEN with 1025. apply wpr_bind, wpr_get. unfold compose.
  destruct (STRCPY_string 700 (log_fn_base (stat w1)) b) as (b' & Hb' & Hbs); [apply (lo_base _ _ H1)|done|lia|].
  apply wpr_bind. eapply wpr_mem; [exact Hb'|]. apply wpr_bind, wpr_modify, wpr_bind, wpr_get. cbn [compose stat with_base log_fn].
  destruct (STRCPY_string 850 (log_fn (stat w1)) f) as (f' & Hf' & Hfs); [apply (lo_fn _ _ H1)|done|lia|].
  apply wpr_bind. eapply wpr_mem; [exact Hf'|]. apply wpr_modify. split; [|done].
  apply (lok_with_fn d (LogWorld (lib w1) (conf w1) (with_base b' (stat w1)))); [by apply lok_with_base|done].
Qed.

Lemma set_named_spec d w :
  closed_at d w -> wpr (set_named_rtpfile env (nested_log env)) (λ b w', if (b : bool) then ready_at d w' else closed_at d w') w.
Proof using Henv.
  intros (H & Hf & Hr). unfold set_named_rtpfile. apply wpr_bind, wpr_get. unfold compose at 1.
  pose proof (lo_base _ _ H) as (Hz & b & Hb & Hbl). assert (exists c, rd8 (log_fn_base (stat w)) 0 = Some c) as [c Hc].
  { destruct (log_fn_base (stat w)) as [|c r]; [done|]. exists c. apply rd8_head. }
  apply wpr_bind. eapply wpr_mem; [exact Hc|]. destruct (truth c); [|by apply wpr_ret].
  apply wpr_bind. eapply wpr_mem; [exact Hb|].
  assert (forall (m : log unit), wpr m (λ _ w', lok d w' /\ to_reset_log_file (stat w') = false) w ->
    wpr (m;; f ← statics _rtpfile; mret (match f with Some _ => true | None => false end))
      (λ b w', if (b : bool) then ready_at d w' else closed_at d w') w) as Hend.
  { intros m Hm. eapply wpr_seq; [exact Hm|]. intros [] w1 [H1 Hr1]. apply wpr_bind, wpr_get. unfold compose.
    destruct (_rtpfile (stat w1)) eqn:Ef; apply wpr_ret; by split; [|split; [rewrite ?Ef|]]. }
  apply Hend. assert (lok d (LogWorld (lib w) (conf w) (with_rtpfile (Some Stdout) (stat w)))) as Hs by (apply lok_stdout; by rewrite cleared_none).
  destruct (streq b _); [apply wpr_bind, wpr_modify, wpr_modify; split; [|done]; by destruct Hs|].
  destruct (_ || _); [apply wpr_bind, wpr_modify, wpr_modify; split; [|done]; by destruct Hs|].
  apply wpr_bind, wpr_get. change FILE_STR_LEN with 1025. apply wpr_bind.
  apply (set_name_spec w _ _ b); [done|done|apply (lo_fn _ _ H)|]. intros m Hm. pose proof Hm as (_ & n & Hn & Hnl).
  apply wpr_bind, wpr_modify. set (w1 := LogWorld _ _ _).
  eapply wpr_seq; [apply (open_log_spec env Henv d w1 m n); [by apply lok_with_fn|done..]|].
  intros ok w2 H2. apply wpr_ret. destruct ok; split; apply H2.
Qed.

(** The stream is there after [set_rtpfile], unless the log goes to the system's. *)
Lemma set_rtpfile_spec d w :
  lok d w -> to_syslog (stat w) = 0 -> wpr (set_rtpfile env (nested_log env)) (λ _ w', ready_at d w') w.
Proof using Henv.
  intros H Hs. unfold set_rtpfile. apply wpr_bind, wpr_get. unfold compose at 1.
  eapply (wpr_seq _ _ (λ _ w', lok d w' /\ to_syslog (stat w') = 0 /\ to_reset_log_file (stat w') = false)).
  - apply wpr_whenever; [|done]. intros _. eapply wpr_seq; [by apply (reset_spec env Henv d)|]. intros [] w1 (H1 & Hk1 & Hf1).
    apply wpr_modify. split; [by destruct H1|]. split; [|done]. cbn. by rewrite (kept_syslog _ _ Hk1).
  - intros [] w1 (H1 & Hs1 & Hr1). apply wpr_bind, wpr_get. unfold compose at 1. rewrite Hs1. cbn [truth Z.eqb negb].
    apply wpr_bind, wpr_get. unfold compose at 1. destruct (_rtpfile (stat w1)) eqn:Ef.
    + apply wpr_ret. split; [done|]. split; [rewrite Ef; by eexists|done].
    + eapply wpr_seq; [by apply (set_named_spec d)|]. intros [] w2 H2; [by apply wpr_ret|by apply set_default_spec].
Qed.

(** * The operations *)

Lemma turn_log_spec d w level text :
  lok d w -> nonzero text -> zlen text <= 900 -> wpr (turn_log_func_default env level text) (λ _ w', lok d w') w.
Proof using Henv.
  intros H Ht Hl. apply (turn_log_line env _ Henv d); [done..|]. intros line w1 H1 Hk1.
  eapply wpr_mono; [apply (send_line_spec env (nested_log env) Henv d w1 level line H1)|by intros [] w2 [H2 _]].
  intros E w2 H2 [Hk2 _]. apply set_rtpfile_spec; [done|]. by rewrite (kept_syslog _ _ Hk2).
Qed.

Lemma set_logfile_spec d w fn t :
  lok d w -> c_str fn = Some t -> zlen t <= 700 -> wpr (set_logfile env (Some fn)) (λ _ w', lok d w') w.
Proof using Henv.
  intros H Ht Hl. unfold set_logfile. eapply wpr_seq; [by apply log_lock_spec|]. intros [] w1 [H1 _].
  apply wpr_bind. eapply wpr_mem; [exact Ht|]. apply wpr_bind, wpr_get. unfold compose.
  pose proof (lo_base _ _ H1) as (Hz & b & Hb & _). apply wpr_bind. eapply wpr_mem; [exact Hb|].
  eapply (wpr_seq _ _ (λ _ w', lok (d + 1) w')).
  - apply wpr_whenever; [|done]. intros _. eapply wpr_seq; [by apply (reset_spec env Henv (d + 1))|]. intros [] w2 (H2 & _ & _).
    destruct (STRCPY_cut (log_fn_base (stat w1)) 1025 fn t Ht Hz) as (m & Hm & Hmz & Hmc); [lia|].
    apply wpr_bind. eapply wpr_mem; [exact Hm|]. apply wpr_modify, lok_with_base; [done|]. split; [done|]. eexists. split; [exact Hmc|].
    unfold zlen in *. rewrite length_take. lia.
  - intros [] w2 H2. eapply wpr_mono; [apply (log_unlock_spec d w2); [done|apply H]|by intros [] w3 [? _]].
Qed.
End setting.

(** * Runs *)

Lemma rollover_spec env d w : env_ok env -> lok d w -> wpr (rollover_logfile env) (λ _ w', lok d w') w.
Proof.
  intros Henv H. unfold rollover_logfile. apply wpr_bind, wpr_get, wpr_bind, wpr_get. unfold compose.
  pose proof (lo_fn _ _ H) as (Hz & n & Hn & Hnl). assert (exists c, rd8 (log_fn (stat w)) 0 = Some c) as [c Hc].
  { destruct (log_fn (stat w)) as [|c r]; [done|]. exists c. apply rd8_head. }
  apply wpr_bind. eapply wpr_mem; [exact Hc|]. destruct (_ || _); [by apply wpr_ret|]. apply wpr_bind. eapply wpr_mem; [exact Hn|].
  destruct (c_str_Some _ _ Hn) as [Hnn _].
  assert (forall l w', nonzero l -> zlen l <= 30 -> forall m, nonzero m -> zlen m <= 850 -> forall d, lok d w' ->
            wpr (turn_log_func_default env 0 (l ++ m ++ [10])) (λ _ w'', lok d w'') w') as Hline.
  { intros l w' Hl Hll m Hm Hml d' H'. apply turn_log_spec; [done|done| |].
    - repeat apply Forall_app_2; [done|done|by repeat constructor].
    - rewrite !zlen_app, zlen_1. lia. }
  destruct (can_read env n); cbn [negb].
  2: { eapply wpr_seq; [by apply (reset_spec env Henv d)|]. intros [] w1 (H1 & _ & _).
       apply Hline; [by repeat first [constructor | done]|by vm_compute|done|done|done]. }
  apply wpr_bind, wpr_get. destruct (truth _); [by apply wpr_ret|].
  eapply wpr_seq; [by apply log_lock_spec|]. intros [] w1 [H1 [Hk1 Hf1]]. apply wpr_bind, wpr_get. unfold compose.
  eapply (wpr_seq _ _ (λ _ w', lok (d + 1) w')); [|intros [] w2 H2; eapply wpr_mono; [apply (log_unlock_spec d w2); [done|apply H]|by intros [] w3 [? _]]].
  destruct (_rtpfile (stat w1)) as [[|id]|] eqn:Ef; [by apply wpr_ret| |by apply wpr_ret].
  apply wpr_bind, wpr_get. unfold compose. pose proof (lo_base _ _ H1) as (_ & b & Hb & Hbl). change FILE_STR_LEN with 1025.
  apply wpr_bind. apply (set_name_spec env Henv w1 _ _ b); [done|done|apply zlen_uninitialised|]. intros logf Hlf.
  pose proof Hlf as (_ & n' & Hn' & Hnl'). apply wpr_bind. eapply wpr_mem; [exact Hn'|]. apply wpr_whenever; [|done]. intros _.
  apply (fclose_spec (d + 1) w1 id); [done|done|]. intros w2 H2 Hk2.
  assert (exists m, wr8 (log_fn (stat w)) 0 0 = Some m /\ string_of 1025 850 m) as (m & Hm & Hms).
  { destruct (log_fn (stat w)) as [|x r]; [done|]. exists (0 :: r). unfold wr8. rewrite wr_block_ok by (rewrite ?zlen_1, ?zlen_cons; pose proof (zlen_nonneg r); lia).
    split; [done|]. split; [by rewrite zlen_cons in *|]. by exists []. }
  apply wpr_bind. eapply wpr_mem; [exact Hm|]. apply wpr_bind, wpr_modify. set (w3 := LogWorld _ _ _).
  apply (fopen_put (d + 1) w3 _ _ n'); [|done|].
  { apply (lok_with_fn (d + 1) (cleared w2) m H2 Hms). }
  intros f w4 H4 Hf4 Hns _. destruct f as [f|]; [|].
  - destruct (STRCPY_string 850 m logf) as (m' & Hm' & Hms'); [apply Hms|done|lia|]. apply wpr_bind. eapply wpr_mem; [exact Hm'|].
    apply wpr_bind, wpr_modify. pose proof Hms' as (_ & t' & Ht' & Htl'). apply wpr_bind. eapply wpr_mem; [exact Ht'|].
    destruct (c_str_Some _ _ Ht') as [Htn' _]. apply Hline; [by repeat first [constructor | done]|by vm_compute|done|done|by apply lok_with_fn].
  - apply wpr_modify, lok_stdout. by rewrite cleared_none.
Qed.

(** What a program does with its log; the system may answer differently each time. *)
Inductive log_op : Type :=
| Line (env : log_env) (level : Z) (text : list Z)
| SetFile (env : log_env) (fn : option (list Z))
| Rollover (env : log_env)
| Reset (env : log_env)
| Sighup (signum : Z)
| Quiet (val : Z)
| Simple (val : Z)
| ToSystem (val : Z)
| Format (new_format : list Z).

Definition run_log_op (o : log_op) : log unit :=
  match o with
  | Line env level text => turn_log_func_default env level text
  | SetFile env fn => set_logfile env fn
  | Rollover env => rollover_logfile env
  | Reset env => reset_rtpprintf env
  | Sighup signum => sighup_callback_handler signum
  | Quiet val => set_no_stdout_log val
  | Simple val => set_simple_log val
  | ToSystem val => set_log_to_syslog val
  | Format f => set_turn_log_timestamp_format f
  end.

Fixpoint run_log (l : list log_op) : log unit := match l with [] => mret tt | o :: l => run_log_op o;; run_log l end.

(** Lines of at most 900 characters, names of at most 700. *)
Definition log_op_ok (o : log_op) : Prop :=
  match o with
  | Line env _ text => env_ok env /\ nonzero text /\ zlen text <= 900
  | SetFile env fn => env_ok env /\ forall m, fn = Some m -> exists t, c_str m = Some t /\ zlen t <= 700
  | Rollover env | Reset env => env_ok env
  | Format f => exists t, c_str f = Some t
  | _ => True
  end.

Lemma run_log_op_spec o w : log_op_ok o -> lok 0 w -> wpr (run_log_op o) (λ _ w', lok 0 w') w.
Proof.
  intros Ho H. destruct o as [env level text|env fn|env|env|n|v|v|v|f]; cbn [run_log_op log_op_ok] in *.
  - by apply turn_log_spec; try apply Ho.
  - destruct fn as [m|]; [|by apply wpr_ret]. destruct Ho as [Henv Hm]. destruct (Hm m eq_refl) as (t & Ht & Hl). by apply (set_logfile_spec env Henv 0 w m t).
  - by apply rollover_spec.
  - eapply wpr_mono; [by apply (reset_spec env Ho 0)|by intros [] w' [? _]].
  - apply wpr_whenever; [|done]. intros _. apply wpr_modify. by destruct H.
  - apply wpr_modify. by destruct H.
  - apply wpr_modify. by destruct H.
  - apply wpr_modify. by destruct H.
  - destruct Ho as [t Ht]. unfold set_turn_log_timestamp_format. apply wpr_bind. eapply wpr_mem; [exact Ht|]. apply wpr_bind, wpr_get. unfold compose.
    pose proof (lo_format _ _ H) as (l & El & Hl). change (MAX_LOG_TIMESTAMP_FORMAT_LEN - 1) with 47. set (u := strncpy_field t 47).
    assert (zlen u = 47) as Hu by (unfold u, strncpy_field, zlen; rewrite length_app, length_take, length_replicate; lia).
    assert (wr_block (turn_log_timestamp_format (conf w)) 0 u = Some (u ++ [0])) as Hw.
    { rewrite El, wr_block_ok by (rewrite ?zlen_app, ?zlen_1; lia). f_equal. change (take (Z.to_nat 0) (l ++ [0])) with (@nil Z). cbn [app]. f_equal.
      rewrite drop_app_length' by (unfold zlen in *; lia). done. }
    apply wpr_bind. eapply wpr_mem; [exact Hw|]. apply wpr_modify. destruct H. split; try done. by exists u.
Qed.

(** The log before its first operation. *)
Definition unused (w : log_world) : Prop :=
  log_mutex_inited (stat w) = false /\ _rtpfile (stat w) = None /\ open_files (lib w) = ∅ /\
  string_of 1025 850 (log_fn (stat w)) /\ string_of 1025 700 (log_fn_base (stat w)) /\
  exists l, turn_log_timestamp_format (conf w) = l ++ [0] /\ zlen l = 47.

(** C8. In every run of the log - lines, files, rollovers, resets, signals and settings in any order, the system answering
    differently each time as long as writes succeed - no stream is used after it was closed, no write leaves its array, the
    nested line finds its stream, and every operation gives the mutex back: afterwards it is free, and the file that is open
    is the one of the log. *)
Theorem log_run_safe ops w :
  unused w -> Forall log_op_ok ops ->
  wpr (run_log ops)
    (λ _ w', match _rtpfile (stat w') with Some (File id) => exists n, open_files (lib w') = {[id := n]} | _ => open_files (lib w') = ∅ end /\
             (log_mutex_inited (stat w') = true -> exists p, initialised (Some (log_mutex (stat w'))) = Some p /\ held p 0 w')) w.
Proof.
  intros (Hm & Hf & Ho & Hfn & Hb & Hfmt) Hops.
  assert (lok 0 w) as H by (split; try done; [by rewrite Hm|by rewrite Hf]).
  assert (wpr (run_log ops) (λ _ w', lok 0 w') w) as Hrun.
  { clear - Hops H. revert w H. induction Hops as [|o ops Hop Hops IH]; intros w H; [exact H|].
    eapply wpr_seq; [by apply run_log_op_spec|]. intros [] w1 H1. by apply IH. }
  eapply wpr_mono; [exact Hrun|]. intros [] w' [_ Hm' Hf' _ _ _]. split; [done|]. intros Ei. rewrite Ei in Hm'.
  destruct Hm' as (p & -> & Hp). by exists p.
Qed.

Lemma time_stamp_any env w s n w' :
  time_stamp env w = Some ((s, n), w') -> zlen s = 1025 /\ 0 <= n /\ no_stdout_log (stat w') = no_stdout_log (stat w).
Proof.
  unfold time_stamp. change RTPPRINTF_BUFFER_SIZE with 1025. set (s0 := replicate _ _).
  assert (zlen s0 = 1025) as Hz0 by (unfold s0, zlen; by rewrite length_replicate).
  unfold mbind, partial_bind, get, mem. destruct (truth _).
  - destruct (c_str _) as [f|]; [|done]. cbv zeta. destruct (zlen (stamp env f) <? 1025); [|intros [= <- <- <-]; split; [done|by split]].
    destruct (wr_block s0 0 _) as [b|] eqn:Hb; [|done]. intros [= <- <- <-]. apply wr_block_zlen in Hb. split; [lia|]. split; [apply zlen_nonneg|done].
  - assert (forall n w1, log_time env w = Some (n, w1) -> no_stdout_log (stat w1) = no_stdout_log (stat w)) as Htime.
    { intros n1 w1. unfold log_time, mbind, partial_bind, statics, get, compose. destruct (log_start_time (stat w) =? 0); intros [= _ <-]; done. }
    destruct (log_time env w) as [[n1 w1]|]; [|done]. specialize (Htime n1 w1 eq_refl). cbv zeta.
    destruct (snprintf _ _ _) as [b|] eqn:Hb; [|done]. intros [= <- <- <-]. unfold snprintf in Hb. cbn [Z.eqb] in Hb. apply wr_block_zlen in Hb.
    split; [lia|]. split; [apply zlen_nonneg|done].
Qed.

Lemma snprintf_at_zlen m p size t m' : snprintf_at m p size t = Some m' -> zlen m' = zlen m.
Proof. unfold snprintf_at. destruct (size =? 0); [by intros [= <-]|]. apply wr_block_zlen. Qed.

(** A line of more than 1025 characters, with the log on the standard output: [vsnprintf] cuts it but returns its whole
    length, and so many bytes of the array are written out, past its end. *)
Theorem log_long_line_overread env level text w :
  no_stdout_log (stat w) = 0 -> 1025 < zlen text -> turn_log_func_default env level text w = None.
Proof.
  intros Hq Hl. unfold turn_log_func_default, turn_log_with. unfold mbind at 1, partial_bind at 1.
  destruct (time_stamp env w) as [[[s n] w1]|] eqn:Ht; [|done]. destruct (time_stamp_any _ _ _ _ _ Ht) as (Hz & Hn & Hq1). cbv zeta.
  unfold mbind at 1, partial_bind at 1, mem at 1. destruct (snprintf_at s _ _ _) as [s1|] eqn:H1; [|done]. apply snprintf_at_zlen in H1.
  unfold mbind at 1, partial_bind at 1, mem at 1. destruct (snprintf_at s1 _ _ _) as [s2|] eqn:H2; [|done]. apply snprintf_at_zlen in H2.
  unfold mbind at 1, partial_bind at 1, statics at 1, get at 1, compose. rewrite Hq1, Hq. cbn [truth Z.eqb negb whenever].
  unfold mbind at 1, partial_bind at 1. unfold mbind at 1, partial_bind at 1, mem at 1.
  set (label := if level =? 3 then _ else _). pose proof (zlen_nonneg label).
  destruct (rd_block s2 0 (n + zlen label + zlen text)) as [bs|] eqn:Hb; [|done]. apply rd_block_bounds in Hb. lia.
Qed.

(** * Examples *)

Definition new_log : log_world :=
  LogWorld (Library ∅ ∅ 1 []) (LogSettings (lit "%FT%T%z" ++ zeros 41) 0 0 0 0) (LogStatics 0 0 None 0 (zeros 1025) (zeros 1025) false (TurnMutex 0 None) false).

Definition fine : log_env := LogEnv (λ _, true) (λ _, true) true 1000 (λ _, lit "12:00") (lit "2024-05-01") 42 (0, 0, 0) 7.
Definition next_day : log_env := LogEnv (λ _, true) (λ _, true) true 90000 (λ _, lit "12:00") (lit "2024-05-02") 42 (0, 0, 0) 7.
Definition disk_full : log_env := LogEnv (λ _, true) (λ _, true) false 1000 (λ _, lit "12:00") (lit "2024-05-01") 42 (0, 0, 0) 7.

Lemma new_log_unused : unused new_log.
Proof.
  do 3 (split; [done|]). split; [split; [done|by exists []]|]. split; [split; [done|by exists []]|]. exists (lit "%FT%T%z" ++ zeros 40). done.
Qed.

Lemma fine_ok : env_ok fine.
Proof. split; [done|split; [by repeat first [constructor | done]|by vm_compute]| |done]. intros f. split; [by repeat first [constructor | done]|by vm_compute]. Qed.

Lemma next_day_ok : env_ok next_day.
Proof. split; [done|split; [by repeat first [constructor | done]|by vm_compute]| |done]. intros f. split; [by repeat first [constructor | done]|by vm_compute]. Qed.

(** A day's log, and the file of the next day. *)
Definition log_ops : list log_op :=
  [SetFile fine (Some (lit "/tmp/my turn.txt" ++ [0])); Line fine 3 (lit "hello"); Format (lit "%T" ++ [0]); Rollover next_day; Sighup 1; Line next_day 0 (lit "more")].

Lemma log_ops_ok : Forall log_op_ok log_ops.
Proof.
  assert (forall t, nonzero t -> zlen t <= 700 -> forall m, Some (t ++ [0]) = Some m -> exists t, c_str m = Some t /\ zlen t <= 700) as Hs.
  { intros t Ht Hl m [= <-]. exists t. split; [by apply c_str_cstring|done]. }
  pose proof fine_ok. pose proof next_day_ok. unfold log_ops.
  repeat apply Forall_cons_2; [|..|by apply Forall_nil_2]; cbn [log_op_ok]; try done.
  - split; [done|]. apply (Hs (lit "/tmp/my turn.txt")); [by repeat first [constructor | done]|by vm_compute].
  - split; [done|]. split; [by repeat first [constructor | done]|by vm_compute].
  - by exists (lit "%T").
  - split; [done|]. split; [by repeat first [constructor | done]|by vm_compute].
Qed.

Theorem log_run_safe_witness :
  unused new_log /\
  wpr (run_log log_ops)
    (λ _ w', match _rtpfile (stat w') with Some (File id) => exists n, open_files (lib w') = {[id := n]} | _ => open_files (lib w') = ∅ end /\
             (log_mutex_inited (stat w') = true -> exists p, initialised (Some (log_mutex (stat w'))) = Some p /\ held p 0 w')) new_log.
Proof. split; [exact new_log_unused|]. apply (log_run_safe log_ops new_log new_log_unused log_ops_ok). Defined.

(** The names of the two days. *)
Example rolled_over :
  (option_map (λ r, map fst (written (lib r.2))) (run_log log_ops new_log)) =
  Some (ToStdout :: ToStdout :: replicate 2 (ToFile (lit "/tmp/my_turn_2024-05-01.txt")) ++ [ToStdout; ToFile (lit "/tmp/my_turn_2024-05-02.txt")] ++
        [ToStdout; ToStdout] ++ replicate 2 (ToFile (lit "/tmp/my_turn_2024-05-02.txt"))).
Proof. vm_compute. reflexivity. Qed.

Theorem log_long_line_overread_witness : 1025 < zlen (replicate 1026 65) /\ turn_log_func_default fine 0 (replicate 1026 65) new_log = None.
Proof. split; [by vm_compute|]. apply (log_long_line_overread fine 0 (replicate 1026 65) new_log); [reflexivity|by vm_compute]. Defined.

(** When the log file opens but the first write to it fails - a full disk - the program crashes: the line that reports
    the opening gives the stream up, and the line that was to be logged is then written to NULL. *)
Example log_write_failure : turn_log_func_default disk_full 0 (lit "hello") new_log = None.
Proof. vm_compute. reflexivity. Qed.

(** The first line of a log set to the system's goes to the standard output twice. *)
Example first_syslog_line :
  option_map (λ r, map fst (written (lib r.2)))
    (run_log [SetFile fine (Some (lit "syslog" ++ [0])); Line fine 0 (lit "first"); Line fine 0 (lit "second")] new_log) =
  Some [ToStdout; ToStdout; ToStdout; ToSyslog 6].
Proof. vm_compute. reflexivity. Qed.
